(* ===== verification/_CoqProject ===== *)
-Q . S2P
Prelude.v
Pmm.v
Mem.v
Vmm.v
Heap.v
Process.v
Fork.v
Scheduler.v
Pipe.v
FatName.v
Fat.v
FatDir.v
FatFile.v
UserMem.v
Ramfs.v
Vfs.v
Keyboard.v
BootCfg.v
Elf.v
Console.v
Pci.v
Kernel.v
Syscall.v
FdTable.v
FdRefs.v
FdCalls.v
SyscallMem.v
Vga.v
BootInfo.v
Ata.v
AtaSync.v
Stdio.v
Interrupts.v
SafeMode.v
Boot.v
BootPolicy.v
BootState.v
UserLib.v
UserAbi.v
Edit.v
Shell.v
