(* ===== verification/Prelude.v ===== *)
(** * NullOS: a verification library

    NullOS is a small operating system for 32-bit x86: a kernel in C
    ([src/kernel]), the boot code and interrupt stubs in assembly, and a few
    user programs ([src/user]).  This library models its C code as Rocq
    functions and proves what makes each part correct.

    ** Parts of the program and where they are modelled

    Memory.
    - [Pmm]: the bitmap of physical pages, [kernel/memory/pmm.c].
    - [Mem]: byte-addressed physical memory, the meaning of the kernel's loads
      and stores through its identity map.
    - [Vmm]: page directories and tables in that memory, [kernel/memory/vmm.c].
      The page allocator is used through the class [PageAllocator].
    - [Heap]: the block list of [kernel/memory/heap.c], its headers in memory,
      its growth through [Pmm] and [Vmm].
    - [UserMem]: the checked copies between user and kernel memory of
      [kernel/syscall.c].

    Processes.
    - [Process], [Fork]: the process table, spawning, exit, sleep and
      [process_fork], [kernel/process.c].
    - [Scheduler]: round robin and the timer tick, [kernel/scheduler.c] and
      [kernel/timer.c].
    - [Pipe]: the ring buffers and their waiters, [kernel/pipe.c].

    Files.
    - [FatName], [Fat], [FatDir], [FatFile]: the FAT16 file system,
      [kernel/fs/fat16.c], over the class [BlockDevice].
    - [Ramfs]: the program image, [kernel/ramfs.c].
    - [Vfs]: descriptors over the three backends, [kernel/fs/vfs.c].
    - [BootCfg]: the configuration sector and the crash record,
      [kernel/bootcfg.c] and [kernel/crashdump.c].

    Devices.
    - [Ata]: the disk driver, [kernel/drivers/ata.c], over the class [Ports];
      it is an instance of [BlockDevice].  [AtaSync] interleaves the requests of
      several processes with the completion interrupt.
    - [Keyboard]: the scancode handler and its rings, [kernel/keyboard.c].
    - [Vga]: the text console and its serial mirror, [kernel/drivers/vga.c],
      [kernel/serial.c].
    - [Pci]: enumeration and power control, [kernel/drivers/pci.c],
      [kernel/power.c].
    - [BootInfo]: the Multiboot2 block, [kernel/multiboot2.h] and
      [kernel/hal.c].
    - [Console]: the console calls of [kernel/hal.c] as a log.
    - [Interrupts]: segment and interrupt descriptor tables, the interrupt
      controllers and the routing of interrupts, [kernel/gdt.c], [kernel/tss.c],
      [kernel/idt.c], [kernel/pic.c].

    Programs and system calls.
    - [Elf], [Kernel]: the loader and [exec], [kernel/elf.c], [kernel/exec.c];
      [Kernel] also joins the states of all components.
    - [Syscall]: the dispatcher and every handler of [kernel/syscall.c].
    - [FdTable], [FdRefs], [FdCalls]: the descriptor table against the pipe
      reference counts, for every system call.
    - [SyscallMem]: what system calls may write in memory.

    User programs.
    - [UserLib]: the wrappers of system calls and the string and memory functions
      of [user/lib/nullos.c].  What a program relies on in the kernel is the class
      [UserKernel]; [UserAbi] shows that the handlers of [Syscall] keep the bounds
      it states.
    - [Stdio]: formatted output, [user/lib/nosstdio.c].
    - [Edit]: the text editor, [user/edit.c].
    - [Shell]: the shell and [cat], [user/shell.c], [user/cat.c].

    The machine from power-on.
    - [SafeMode]: the recovery menu and its shell, [kernel/safemode.c],
      [kernel/safeshell.c].
    - [Boot]: [kmain] of [kernel/main.c] and [exception_handler] of
      [kernel/idt.c].  [BootPolicy] follows the machine over many restarts,
      [BootState] shows what state [kmain] hands over.

    ** Reading the definitions

    A C global is a field of a state record, a C function is a definition of the
    same name.  Integers are [Z] with [u8], [u16], [u32], [u64] where the code
    wraps.  A pointer into a table is an index, a pointer into memory an address.
    Pure code is a function; stateful code passes the state explicitly or runs in
    the monad [cM], in which [undefined] is what the C language or the hardware
    leaves undefined (an access outside an array, say): a theorem that a run gives
    a result therefore also says that nothing undefined happens.

    ** Interruptions

    Code that runs with interrupts off, or that no interrupt handler can observe,
    is one step.  Where a process gives the processor away in the middle of a
    function because it blocks, the function is cut there: [Pipe] and [Syscall]
    return what is left to do ([Pause]).  [Ata] is cut into turns at every point
    where an interrupt or another process can come in.  [Scheduler.kstep],
    [FdCalls.ksys_step] and [AtaSync.astep] interleave such steps with interrupts,
    context switches and other processes; invariants are proved by induction on
    runs.  A system call handler runs with interrupts on, so the timer can also
    preempt it between two points where it blocks; the step relation of [FdCalls]
    leaves such runs out, which [pipe_refs_exact] says, and
    [FdCalls.pipe_create_race] and [Fork.fork_claim_stale_wait_resurrected] show
    two of the races they bring.

    ** What the theorems show

    - Isolation: mapping a page in one address space changes no other ([Vmm]);
      heap objects do not overlap and keep their contents ([Heap]); fork copies
      the address space byte for byte, or fails and gives back its slot and every
      page but page tables ([Fork]); the loader maps exactly the pages a program
      file describes, with its bytes ([Elf]); a system call writes nothing but the
      buffers it was given ([SyscallMem], [UserMem]).
    - Resource accounting: the allocator frees exactly the usable pages of the
      boot map ([Pmm], [BootInfo]); the reference counts of a pipe are the
      numbers of descriptors that name its ends ([FdCalls]).
    - Scheduling and waiting: table invariant and fairness ([Scheduler], until the pid
      counter wraps), no lost wake-up ([Pipe]), exclusion of disk requests, and
      absence of deadlock while no interrupt comes too early and no process is
      killed inside a request ([AtaSync]).
    - Data: pipes are FIFO queues; files, directories, the configuration sector,
      the crash record and disk sectors read back what was written, and nothing
      else changes ([FatFile], [FatDir], [Fat], [BootCfg], [Ata], the last both
      when it polls and when it sleeps until the interrupt).
    - Refinement: page tables implement finite maps, the keyboard rings queues,
      the console a terminal, the configuration sector a key-value store.
    - Untrusted input: the ELF loader, the pointers given to system calls and the
      Multiboot2 block never cause a read outside their bounds.
    - Booting: the decision between a normal boot and Safe Mode follows a small
      policy machine over any history of boots, crashes and restarts
      ([BootPolicy]); a normal boot establishes the invariants the other theorems
      start from ([BootState]); the processor reads the descriptor tables as
      meant and each interrupt reaches its driver ([Interrupts]); Safe Mode
      writes nothing but the configuration sector ([SafeMode]).
    - User programs, for every kernel of the class: [printf] prints what the C
      standard says and [snprintf] stays in its buffer ([Stdio]); the editor is a
      text with a cursor that it saves, and on the console of [Vga] its drawing
      neither wraps nor scrolls unless the file holds tabs or control characters
      ([Edit]); the shell
      closes every descriptor it opens before it waits or reads on ([Shell]).
    - Defects found are proved too, as theorems about the model: an interrupt lost
      by the disk driver, a killed process that keeps its descriptors, a segment
      that is loaded at twice its page offset, and others listed in the manifest.

    ** Bounds and fuel

    Loops of the source with a bound run that many iterations.  Walks without one
    get fuel that is proved sufficient: the heap walk one more than the headers
    that fit in the heap ([walk_fuel]); a chain of the FAT one more than its
    entries; the walk over the Multiboot2 tags one step per 8 bytes of the block;
    the disk driver's polling loops are [spin], a loop counted in binary with the
    iterations of the source; a disk request before the first process runs takes
    at most eight turns, one of a process that sleeps at most ten.  The soft-reset wait of the disk probe depends on the
    timer and takes its fuel as an argument, as do the loops of Safe Mode, which
    run as long as keys are typed: its theorem holds for every amount of fuel.
    The same goes for the turns of the editor, the shell and [cat].

    ** Not modelled

    - Assembly ([src/boot], [context_switch.asm], [isr.asm], [usermode.asm],
      [gdt_flush.asm]): its effect is a step of the models that observe it.
    - The texts of messages ([kernel/messages.c], [user/lib/messages.c]): the log
      keeps their identifiers.
    - The TLB, CR0 and instruction timing; the debug trace of the disk probe.
    - Interrupts during [kmain]: until the idle loop they can only advance the
      tick counter and fill the keyboard rings.  The progress lines that
      [pmm_init], [vmm_init] and [idt_init] print.
    - The test programs ([user/selftest.c], [user/forktest.c], [user/spintest.c],
      [user/init.c]): they call the kernel and print what they see.
*)

From Stdlib Require Import ZArith Lia ZifyBool Ascii String.
From stdpp Require Import base tactics numbers list option.
Local Open Scope Z_scope.

(** ** Machine integers *)

Definition u8 (x : Z) : Z := x mod 2 ^ 8.
Definition u16 (x : Z) : Z := x mod 2 ^ 16.
Definition u32 (x : Z) : Z := x mod 2 ^ 32.
Definition u64 (x : Z) : Z := x mod 2 ^ 64.

(** A value that fits an unsigned 32-bit register. *)
Definition is_u32 (x : Z) : Prop := 0 <= x < 2 ^ 32.

(** ** Arrays: lists indexed by [Z] *)

Declare Scope c_scope.
Delimit Scope c_scope with c.

Definition zget {A} `{Inhabited A} (l : list A) (i : Z) : A := l !!! Z.to_nat i.
Definition zset {A} (l : list A) (i : Z) (v : A) : list A := <[Z.to_nat i := v]> l.
Definition zlen {A} (l : list A) : Z := Z.of_nat (length l).

Notation "l .[ i ]" := (zget l i) (at level 1, left associativity, format "l .[ i ]") : c_scope.
Notation "l .[ i := v ]" := (zset l i v) (at level 1, left associativity) : c_scope.
Open Scope c_scope.

(** ** C strings *)

(** The bytes of a literal. *)
Definition cstr (s : string) : list Z := (fun a => Z.of_N (N_of_ascii a)) <$> list_ascii_of_string s.
Arguments cstr s%_string_scope.

(** The characters of a buffer before its NUL. *)
Fixpoint until_nul (cs : list Z) : list Z :=
  match cs with
  | c :: rest => if c =? 0 then [] else c :: until_nul rest
  | [] => []
  end.

(** ** Counting *)

(** [count_upto f n]: how many of [0 .. n-1] satisfy [f]. *)
Fixpoint count_upto (f : Z -> bool) (n : nat) : Z :=
  match n with
  | O => 0
  | S k => count_upto f k + Z.b2z (f (Z.of_nat k))
  end.

(** [find_from f i k]: the least index of [i .. i+k-1] satisfying [f]. *)
Fixpoint find_from (f : Z -> bool) (i : Z) (k : nat) : option Z :=
  match k with
  | O => None
  | S k' => if f i then Some i else find_from f (i + 1) k'
  end.

(** ** A state monad for C code

    A computation runs on the state of its component and gives a result, or
    [None] when the C text has no defined behaviour (an array access out of
    range) or does not terminate (a loop out of fuel). *)

Definition cM (St A : Type) : Type := St -> option (A * St).

#[global] Instance cM_ret St : MRet (cM St) := fun A a s => Some (a, s).
#[global] Instance cM_bind St : MBind (cM St) := fun A B k m s =>
  match m s with Some (a, s') => k a s' | None => None end.

Definition gets {St A} (f : St -> A) : cM St A := fun s => Some (f s, s).
Definition modify {St} (f : St -> St) : cM St () := fun s => Some ((), f s).
Definition undefined {St A} : cM St A := fun _ => None.

(** Run a component's computation inside a larger state. *)
Definition zoom {S T A} (get : T -> S) (put : S -> T -> T) (m : cM S A) : cM T A := fun t =>
  match m (get t) with Some (a, s) => Some (a, put s t) | None => None end.

(** [wp m Q s]: from [s] the computation is defined, terminates, and its result
    and final state satisfy [Q]. *)
Definition wp {St A} (m : cM St A) (Q : A -> St -> Prop) (s : St) : Prop :=
  match m s with Some (a, s') => Q a s' | None => False end.

(** ** Tactics *)

(** Turn boolean comparisons and their connectives in the context into
    propositions. *)
Ltac b2p :=
  repeat match goal with
  | H : andb _ _ = true |- _ => apply andb_prop in H; destruct H
  | H : orb _ _ = false |- _ => apply orb_false_elim in H; destruct H
  | H : negb _ = true |- _ => apply negb_true_iff in H
  | H : negb _ = false |- _ => apply negb_false_iff in H
  | H : (_ =? _) = true |- _ => apply Z.eqb_eq in H
  | H : (_ =? _) = false |- _ => apply Z.eqb_neq in H
  | H : (_ <? _) = true |- _ => apply Z.ltb_lt in H
  | H : (_ <? _) = false |- _ => apply Z.ltb_ge in H
  | H : (_ <=? _) = true |- _ => apply Z.leb_le in H
  | H : (_ <=? _) = false |- _ => apply Z.leb_gt in H
  end.

(** Split on the first [if] or [match] scrutinee of the goal and clean up. *)
Ltac case_if :=
  match goal with
  | |- context [if ?b then _ else _] => destruct b eqn:?; b2p
  end.


Create HintDb nullos discriminated.
Create Rewrite HintDb nullos.

(** ** Lemmas on machine integers *)

Lemma u32_small x : 0 <= x < 2 ^ 32 -> u32 x = x.
Proof. apply Z.mod_small. Qed.

Lemma u16_small x : 0 <= x < 2 ^ 16 -> u16 x = x.
Proof. apply Z.mod_small. Qed.

Lemma u8_small x : 0 <= x < 2 ^ 8 -> u8 x = x.
Proof. apply Z.mod_small. Qed.

Lemma u64_small x : 0 <= x < 2 ^ 64 -> u64 x = x.
Proof. apply Z.mod_small. Qed.

Lemma u32_range x : 0 <= u32 x < 2 ^ 32.
Proof. apply Z.mod_pos_bound; lia. Qed.

Lemma u64_range x : 0 <= u64 x < 2 ^ 64.
Proof. apply Z.mod_pos_bound; lia. Qed.

(** ** Lemmas on arrays *)

Section arrays.
Context {A : Type} `{Inhabited A}.
Implicit Types l : list A.

Lemma zset_len l i v : zlen (zset l i v) = zlen l.
Proof. unfold zlen, zset. by rewrite length_insert. Qed.

Lemma zset_length l i v : length (zset l i v) = length l.
Proof. apply length_insert. Qed.

Lemma zget_set_eq l i v : 0 <= i < zlen l -> zget (zset l i v) i = v.
Proof.
  unfold zlen, zget, zset. intros ?. rewrite list_lookup_total_insert_eq; [done|lia].
Qed.

Lemma zget_set_ne l i j v : 0 <= i -> 0 <= j -> i <> j -> zget (zset l i v) j = zget l j.
Proof. unfold zget, zset. intros. rewrite list_lookup_total_insert_ne; [done|lia]. Qed.

Lemma zget_set l i j v : 0 <= i < zlen l -> 0 <= j ->
  zget (zset l i v) j = if i =? j then v else zget l j.
Proof.
  intros Hi Hj. destruct (Z.eqb_spec i j) as [->|Hne].
  - by apply zget_set_eq.
  - apply zget_set_ne; lia.
Qed.

Lemma zget_replicate n (x : A) i : 0 <= i < Z.of_nat n -> zget (replicate n x) i = x.
Proof.
  intros. unfold zget. apply lookup_total_replicate_2. lia.
Qed.

Lemma zset_forall (P : A -> Prop) l i v : Forall P l -> P v -> Forall P (zset l i v).
Proof. intros. by apply Forall_insert. Qed.

Lemma zget_forall (P : A -> Prop) l i : Forall P l -> 0 <= i < zlen l -> P (zget l i).
Proof.
  intros HF Hi. unfold zget, zlen in *. rewrite Forall_lookup in HF.
  apply (HF (Z.to_nat i)). apply list_lookup_lookup_total_lt. lia.
Qed.
End arrays.

Lemma zlen_app {A} (l k : list A) : zlen (l ++ k) = zlen l + zlen k.
Proof. unfold zlen. rewrite length_app. lia. Qed.

#[export] Hint Rewrite @zset_len @zset_length : nullos.

(** ** Lemmas on C strings *)

Lemma until_nul_clean l : 0 ∉ until_nul l.
Proof. induction l as [|c l IH]; simpl; [apply not_elem_of_nil|]. destruct (Z.eqb_spec c 0); [apply not_elem_of_nil|by apply not_elem_of_cons]. Qed.

Lemma until_nul_app l r : 0 ∉ l -> until_nul (l ++ 0 :: r) = l.
Proof.
  induction l as [|x l IH]; intros Hl; [done|]. rewrite not_elem_of_cons in Hl. destruct Hl. simpl.
  destruct (Z.eqb_spec x 0); [congruence|]. f_equal. auto.
Qed.

(** ** Lemmas on counting *)

Lemma count_upto_bounds f n : 0 <= count_upto f n <= Z.of_nat n.
Proof. induction n; simpl count_upto; [lia|]. destruct (f (Z.of_nat n)); simpl Z.b2z; lia. Qed.

Lemma count_upto_ext f g n :
  (forall i, 0 <= i < Z.of_nat n -> f i = g i) -> count_upto f n = count_upto g n.
Proof.
  induction n as [|n IH]; intros E; [done|]. simpl.
  rewrite IH, (E (Z.of_nat n)); [done|lia|]. intros; apply E; lia.
Qed.

Lemma count_upto_flip f g n p :
  0 <= p < Z.of_nat n -> f p = false -> g p = true ->
  (forall i, 0 <= i < Z.of_nat n -> i <> p -> f i = g i) ->
  count_upto g n = count_upto f n + 1.
Proof.
  induction n as [|n IH]; intros Hp Hf Hg E; [lia|]. simpl.
  destruct (Z.eq_dec p (Z.of_nat n)) as [->|Hne].
  - rewrite (count_upto_ext g f n), Hf, Hg; [simpl; lia|].
    intros; symmetry; apply E; lia.
  - rewrite IH, (E (Z.of_nat n)); try lia; try done. intros; apply E; lia.
Qed.

Lemma count_upto_all f n : (forall i, 0 <= i < Z.of_nat n -> f i = true) -> count_upto f n = Z.of_nat n.
Proof.
  induction n as [|n IH]; intros E; [done|]. simpl count_upto.
  rewrite IH, E; [simpl; lia|lia|]. intros; apply E; lia.
Qed.

Lemma count_upto_tail f m k :
  (forall i, Z.of_nat m <= i < Z.of_nat (m + k) -> f i = true) ->
  count_upto f (m + k) = count_upto f m + Z.of_nat k.
Proof.
  induction k as [|k IH]; intros E.
  - replace (m + 0)%nat with m by lia. lia.
  - rewrite Nat.add_succ_r. simpl count_upto. rewrite IH, E; [simpl; lia|lia|].
    intros; apply E; lia.
Qed.

Lemma count_upto_lt f n p : 0 <= p < Z.of_nat n -> f p = false -> count_upto f n < Z.of_nat n.
Proof.
  intros Hp Hf.
  pose proof (count_upto_flip f (fun i => f i || (i =? p)) n p Hp Hf) as E.
  pose proof (count_upto_bounds (fun i => f i || (i =? p)) n).
  rewrite E in H; [lia| |]; intros; cbv beta.
  - by rewrite Z.eqb_refl, orb_true_r.
  - destruct (Z.eqb_spec i p); [lia|]. by rewrite orb_false_r.
Qed.

Lemma find_from_Some f i k p :
  find_from f i k = Some p <->
  i <= p < i + Z.of_nat k /\ f p = true /\ forall q, i <= q < p -> f q = false.
Proof.
  revert i; induction k as [|k IH]; intros i; simpl.
  - split; [done|lia].
  - destruct (f i) eqn:E.
    + split.
      * intros [= <-]. split_and!; [lia|lia|done|lia].
      * intros (Hr & Hp & Hq). destruct (Z.eq_dec p i) as [->|]; [done|].
        rewrite Hq in E; [done|lia].
    + rewrite IH. split; intros (Hr & Hp & Hq); split_and!; try done; try lia.
      * intros q ?. destruct (Z.eq_dec q i) as [->|]; [done|]. apply Hq; lia.
      * destruct (Z.eq_dec p i) as [->|]; [congruence|lia].
      * intros; apply Hq; lia.
Qed.

Lemma find_from_None f i k :
  find_from f i k = None <-> forall q, i <= q < i + Z.of_nat k -> f q = false.
Proof.
  revert i; induction k as [|k IH]; intros i; simpl.
  - split; [lia|done].
  - destruct (f i) eqn:E.
    + split; [done|]. intros Hq. rewrite Hq in E; [done|lia].
    + rewrite IH. split; intros Hq q ?.
      * destruct (Z.eq_dec q i) as [->|]; [done|]. apply Hq; lia.
      * apply Hq; lia.
Qed.

Lemma find_from_app f i k1 k2 :
  find_from f i (k1 + k2) =
  match find_from f i k1 with
  | Some p => Some p
  | None => find_from f (i + Z.of_nat k1) k2
  end.
Proof.
  revert i; induction k1 as [|k1 IH]; intros i; simpl Nat.add.
  - simpl. f_equal; lia.
  - simpl. destruct (f i); [done|]. rewrite IH.
    destruct (find_from f (i + 1) k1); [done|]. f_equal; lia.
Qed.

(** ** Alignment masks *)

(** [x & ~(2^m - 1)] on a value of [m + k] bits rounds [x] down. *)
Lemma land_mask_down x m k :
  0 <= m -> 0 <= k -> 0 <= x < 2 ^ (m + k) ->
  Z.land x (Z.shiftl (Z.ones k) m) = x / 2 ^ m * 2 ^ m.
Proof.
  intros Hm Hk Hx. rewrite <- Z.shiftr_div_pow2, <- Z.shiftl_mul_pow2 by lia.
  apply Z.bits_inj'. intros n Hn. rewrite Z.land_spec.
  destruct (Z_lt_le_dec n m) as [Hlt|Hle].
  - by rewrite !Z.shiftl_spec_low, andb_false_r by lia.
  - rewrite !Z.shiftl_spec, Z.shiftr_spec by lia. rewrite Z.sub_add.
    destruct (Z_lt_le_dec (n - m) k) as [Hlk|Hgk].
    + by rewrite Z.ones_spec_low, andb_true_r by lia.
    + rewrite Z.ones_spec_high, andb_false_r by lia. symmetry.
      rewrite <- (Z.mod_small x (2 ^ (m + k))) by lia. apply Z.mod_pow2_bits_high. lia.
Qed.

(** [x & (2^m - 1)] is the remainder. *)
Lemma land_mask_low x m : 0 <= m -> Z.land x (2 ^ m - 1) = x mod 2 ^ m.
Proof. intros. by rewrite <- Z.land_ones, Z.ones_equiv, <- Z.sub_1_r by done. Qed.

(** [k << n | f] with [f] below bit [n] is a sum. *)
Lemma lor_low k n f : 0 <= n -> 0 <= f < 2 ^ n -> Z.lor (k * 2 ^ n) f = k * 2 ^ n + f.
Proof.
  intros Hn Hf.
  assert (Hd : Z.land (k * 2 ^ n) f = 0).
  { apply Z.bits_inj'. intros i Hi. rewrite Z.land_spec, Z.bits_0.
    rewrite <- Z.shiftl_mul_pow2 by lia. destruct (Z_lt_le_dec i n).
    - by rewrite Z.shiftl_spec_low by lia.
    - rewrite <- (Z.mod_small f (2 ^ n)), Z.mod_pow2_bits_high by lia. apply andb_false_r. }
  rewrite <- Z.lxor_lor by done. symmetry. by apply Z.add_nocarry_lxor.
Qed.

(** ** Rules for the state monad *)

Section wp.
Context {St : Type}.

Lemma wp_ret {A} (a : A) (Q : A -> St -> Prop) s : Q a s -> wp (mret a) Q s.
Proof. done. Qed.

Lemma wp_bind {A B} (m : cM St A) (k : A -> cM St B) Q s :
  wp m (fun a s' => wp (k a) Q s') s -> wp (m ≫= k) Q s.
Proof. unfold wp, mbind, cM_bind. by destruct (m s) as [[a s']|]. Qed.

Lemma wp_mono {A} (m : cM St A) (P Q : A -> St -> Prop) s :
  wp m P s -> (forall a s', P a s' -> Q a s') -> wp m Q s.
Proof. unfold wp. destruct (m s) as [[a s']|]; auto. Qed.

Lemma wp_gets {A} (f : St -> A) Q s : Q (f s) s -> wp (gets f) Q s.
Proof. done. Qed.

Lemma wp_modify (f : St -> St) (Q : () -> St -> Prop) s : Q () (f s) -> wp (modify f) Q s.
Proof. done. Qed.

Lemma wp_zoom {T A} (get : T -> St) (put : St -> T -> T) (m : cM St A) (Q : A -> T -> Prop) t :
  wp m (fun a s => Q a (put s t)) (get t) -> wp (zoom get put m) Q t.
Proof. unfold wp, zoom. by destruct (m (get t)) as [[a s]|]. Qed.

Lemma wp_run {A} (m : cM St A) Q s : wp m Q s -> exists a s', m s = Some (a, s') /\ Q a s'.
Proof. unfold wp. destruct (m s) as [[a s']|]; [eauto|done]. Qed.

Lemma wp_conj {A} (m : cM St A) (P Q : A -> St -> Prop) s :
  wp m P s -> wp m Q s -> wp m (fun a s' => P a s' /\ Q a s') s.
Proof. unfold wp. destruct (m s) as [[a s']|]; auto. Qed.

Lemma run_bind {A B} (m : cM St A) (k : A -> cM St B) s r :
  (m ≫= k) s = Some r -> exists a s', m s = Some (a, s') /\ k a s' = Some r.
Proof. unfold mbind, cM_bind. destruct (m s) as [[a s']|]; [eauto|done]. Qed.

Lemma wp_of_run {A} (m : cM St A) (Q : A -> St -> Prop) s a s' : m s = Some (a, s') -> Q a s' -> wp m Q s.
Proof. unfold wp. by intros ->. Qed.
End wp.
