(* ===== verification/Pmm.v ===== *)
(** * Physical memory manager ([kernel/memory/pmm.c])

    The bitmap allocator of 4 KB physical pages: one bit per page in an array
    of 32-bit words, a total and a used counter.  The state record holds the
    three C globals; every C function is one definition.  Console output is
    not part of the state. *)

From Stdlib Require Import ZArith Lia ZifyBool.
From stdpp Require Import base tactics numbers list option.
From S2P Require Import Prelude.
Local Open Scope Z_scope.

(** ** Constants *)

Definition PAGE_SIZE : Z := 4096.
Definition PMM_LIMIT_ADDR : Z := 0x800000.
Definition PMM_MAX_PAGES : Z := PMM_LIMIT_ADDR / PAGE_SIZE.
Definition PMM_BITMAP_SIZE : Z := PMM_MAX_PAGES / 32.
Definition BOOT_MEM_USABLE : Z := 1.

(** ** State *)

Record pmm := mk_pmm {
  bitmap : list Z;      (** the words at [PMM_BITMAP_ADDR] *)
  pmm_total : Z;
  pmm_used : Z
}.

Record boot_mem_region := mk_region {
  r_base : Z;
  r_length : Z;
  r_type : Z
}.

(** ** Operations *)

Definition with_bitmap (s : pmm) (b : list Z) : pmm := mk_pmm b (pmm_total s) (pmm_used s).
Definition with_used (s : pmm) (u : Z) : pmm := mk_pmm (bitmap s) (pmm_total s) u.

Definition bitmap_set (s : pmm) (page : Z) : pmm :=
  with_bitmap s (bitmap s).[page / 32 := Z.lor (bitmap s).[page / 32] (Z.shiftl 1 (page mod 32))].

Definition bitmap_clear (s : pmm) (page : Z) : pmm :=
  with_bitmap s (bitmap s).[page / 32 :=
    Z.land (bitmap s).[page / 32] (u32 (Z.lnot (Z.shiftl 1 (page mod 32))))].

Definition bitmap_test (s : pmm) (page : Z) : bool :=
  negb (Z.land (Z.shiftr (bitmap s).[page / 32] (page mod 32)) 1 =? 0).

(** [bitmap_set(page); pmm_used++;] and [bitmap_clear(page); pmm_used--;] *)
Definition take_page (s : pmm) (page : Z) : pmm :=
  with_used (bitmap_set s page) (u32 (pmm_used s + 1)).
Definition drop_page (s : pmm) (page : Z) : pmm :=
  with_used (bitmap_clear s page) (u32 (pmm_used s - 1)).

(** The loop of [pmm_mark_used] from page [page] with [n] iterations left. *)
Fixpoint mark_used_loop (s : pmm) (page : Z) (n : nat) : pmm :=
  match n with
  | O => s
  | S n' =>
      if page <? pmm_total s
      then mark_used_loop (if bitmap_test s page then s else take_page s page) (page + 1) n'
      else s
  end.

Definition pmm_mark_used (s : pmm) (addr size : Z) : pmm :=
  mark_used_loop s (addr / PAGE_SIZE) (Z.to_nat (u32 (size + PAGE_SIZE - 1) / PAGE_SIZE)).

Fixpoint mark_free_loop (s : pmm) (page : Z) (n : nat) : pmm :=
  match n with
  | O => s
  | S n' =>
      if page <? pmm_total s
      then mark_free_loop (if bitmap_test s page then drop_page s page else s) (page + 1) n'
      else s
  end.

Definition pmm_mark_free (s : pmm) (addr size : Z) : pmm :=
  mark_free_loop s (addr / PAGE_SIZE) (Z.to_nat (u32 (size + PAGE_SIZE - 1) / PAGE_SIZE)).

Definition pmm_free_pages (s : pmm) : Z := u32 (pmm_total s - pmm_used s).
Definition pmm_total_pages (s : pmm) : Z := pmm_total s.

(** Inner loop of [pmm_alloc_page]: [Some r] is a [return], [None] falls out
    of the loop. *)
Fixpoint alloc_bits (s : pmm) (i bit : Z) (k : nat) : option (pmm * Z) :=
  match k with
  | O => None
  | S k' =>
      let page := i * 32 + bit in
      if pmm_total s <=? page then Some (s, 0)
      else if negb (bitmap_test s page) then Some (take_page s page, page * PAGE_SIZE)
      else alloc_bits s i (bit + 1) k'
  end.

Fixpoint alloc_words (s : pmm) (i : Z) (k : nat) : pmm * Z :=
  match k with
  | O => (s, 0)
  | S k' =>
      if (bitmap s).[i] =? 0xFFFFFFFF then alloc_words s (i + 1) k'
      else match alloc_bits s i 0 32 with
           | Some r => r
           | None => alloc_words s (i + 1) k'
           end
  end.

Definition pmm_alloc_page (s : pmm) : pmm * Z := alloc_words s 0 (Z.to_nat PMM_BITMAP_SIZE).

Definition pmm_alloc_page_at (s : pmm) (addr : Z) : pmm * Z :=
  if negb (Z.land addr (PAGE_SIZE - 1) =? 0) then (s, 0)
  else
    let page := addr / PAGE_SIZE in
    if (pmm_total s <=? page) || bitmap_test s page then (s, 0)
    else (take_page s page, addr).

Definition pmm_free_page (s : pmm) (addr : Z) : pmm :=
  let page := addr / PAGE_SIZE in
  if (pmm_total s <=? page) || negb (bitmap_test s page) then s
  else drop_page s page.

(** The [uint64_t] page rounding of one region in [pmm_init]. *)
Definition region_start (r : boot_mem_region) : Z :=
  Z.land (u64 (r_base r + PAGE_SIZE - 1)) (u64 (Z.lnot (PAGE_SIZE - 1))).
Definition region_end (r : boot_mem_region) : Z :=
  let e := Z.land (u64 (r_base r + r_length r)) (u64 (Z.lnot (PAGE_SIZE - 1))) in
  if PMM_LIMIT_ADDR <? e then PMM_LIMIT_ADDR else e.

(** One iteration of the region loop; the accumulator is ([s], [highest]). *)
Definition init_region (acc : pmm * Z) (r : boot_mem_region) : pmm * Z :=
  let '(s, highest) := acc in
  if negb (r_type r =? BOOT_MEM_USABLE) then acc
  else
    let start := region_start r in
    let e := region_end r in
    if e <=? start then acc
    else (pmm_mark_free s (u32 start) (u32 (e - start)), if highest <? e then e else highest).

(** [pmm_init(map, nregions)]; [nregions <= 0] is the empty list. *)
Definition pmm_init (regions : list boot_mem_region) : pmm :=
  let s0 := mk_pmm (replicate (Z.to_nat PMM_BITMAP_SIZE) 0xFFFFFFFF) PMM_MAX_PAGES PMM_MAX_PAGES in
  let s1 :=
    match regions with
    | _ :: _ =>
        let '(s, highest) := fold_left init_region regions (s0, 0) in
        if negb (highest =? 0) && (highest <? PMM_LIMIT_ADDR) then
          let managed := u32 (highest / PAGE_SIZE) in
          mk_pmm (bitmap s) managed (u32 (pmm_used s - (PMM_MAX_PAGES - managed)))
        else s
    | [] => pmm_mark_free s0 0x100000 (PMM_LIMIT_ADDR - 0x100000)
    end in
  pmm_mark_used (pmm_mark_used s1 0 0x100000) 0x100000 0x300000.

(** ** Specification *)

(** The allocator's invariant: the counter is the number of set bits among the
    managed pages. *)
Record pmm_ok (s : pmm) : Prop := {
  ok_len : zlen (bitmap s) = PMM_BITMAP_SIZE;
  ok_words : Forall is_u32 (bitmap s);
  ok_total : 0 <= pmm_total s <= PMM_MAX_PAGES;
  ok_used : pmm_used s = count_upto (bitmap_test s) (Z.to_nat (pmm_total s))
}.

(** A managed page that is free. *)
Definition page_free (s : pmm) (p : Z) : bool :=
  (0 <=? p) && (p <? pmm_total s) && negb (bitmap_test s p).

(** [s'] is [s] with the use of the pages in [p .. p+n-1] set to [b]. *)
Definition pages_updated (s s' : pmm) (p n : Z) (b : bool) : Prop :=
  pmm_total s' = pmm_total s /\
  forall q, 0 <= q < PMM_MAX_PAGES ->
    bitmap_test s' q = if (p <=? q) && (q <? p + n) && (q <? pmm_total s) then b else bitmap_test s q.

(** The reference allocator: a linear scan for the lowest free page. *)
Definition alloc_ref (s : pmm) : pmm * Z :=
  match find_from (fun p => negb (bitmap_test s p)) 0 (Z.to_nat (pmm_total s)) with
  | Some p => (take_page s p, p * PAGE_SIZE)
  | None => (s, 0)
  end.

(** A page below the 8 MB limit lies wholly inside a region the boot memory map
    calls usable. *)
Definition page_usable (regions : list boot_mem_region) (p : Z) : Prop :=
  p < PMM_MAX_PAGES /\
  exists r, r ∈ regions /\ r_type r = BOOT_MEM_USABLE /\ r_base r <= p * PAGE_SIZE /\ (p + 1) * PAGE_SIZE <= r_base r + r_length r.
(** The last page of a region still has a 64-bit address behind it. *)
Definition region_fits (r : boot_mem_region) : Prop := 0 <= r_base r /\ 0 <= r_length r /\ r_base r + r_length r + PAGE_SIZE <= 2 ^ 64.

(** The pages the region loop of [pmm_init] releases, with its rounding. *)
Definition page_released (regions : list boot_mem_region) (p : Z) : Prop :=
  exists r, r ∈ regions /\ r_type r = BOOT_MEM_USABLE /\
    region_start r <= p * PAGE_SIZE /\ (p + 1) * PAGE_SIZE <= region_end r.

(** ** Bit operations *)

#[local] Ltac pmm_consts :=
  change PAGE_SIZE with 4096 in *; change PMM_LIMIT_ADDR with 0x800000 in *;
  change PMM_MAX_PAGES with 2048 in *; change PMM_BITMAP_SIZE with 64 in *.

Lemma bitmap_test_testbit s p :
  bitmap_test s p = Z.testbit (bitmap s).[p / 32] (p mod 32).
Proof.
  unfold bitmap_test. set (w := (bitmap s).[p / 32]).
  rewrite <- (Z.add_0_l (p mod 32)), <- Z.shiftr_spec by lia. rewrite Z.add_0_l.
  set (x := Z.shiftr w (p mod 32)).
  change 1 with (Z.ones 1). rewrite Z.land_ones by lia. change (2 ^ 1) with 2.
  rewrite Z.bit0_odd, Zmod_odd. by destruct (Z.odd x).
Qed.

Lemma page_index p q : 0 <= p -> 0 <= q -> p / 32 = q / 32 -> p mod 32 = q mod 32 -> p = q.
Proof. intros. pose proof (Z.div_mod p 32); pose proof (Z.div_mod q 32). lia. Qed.

Lemma word_index p : 0 <= p < PMM_MAX_PAGES -> 0 <= p / 32 < PMM_BITMAP_SIZE.
Proof.
  pmm_consts. intros. split; [apply Z.div_pos; lia|apply Z.div_lt_upper_bound; lia].
Qed.

Lemma bitmap_test_set s p q :
  zlen (bitmap s) = PMM_BITMAP_SIZE -> 0 <= p < PMM_MAX_PAGES -> 0 <= q ->
  bitmap_test (bitmap_set s p) q = (p =? q) || bitmap_test s q.
Proof.
  intros Hl Hp Hq. rewrite !bitmap_test_testbit. unfold bitmap_set. simpl.
  pose proof (word_index p Hp). pose proof (Z.mod_pos_bound p 32). pose proof (Z.mod_pos_bound q 32).
  rewrite zget_set by (try lia; apply Z.div_pos; lia).
  destruct (Z.eqb_spec (p / 32) (q / 32)) as [E|E].
  - rewrite Z.lor_spec, E, orb_comm. f_equal.
    rewrite Z.shiftl_1_l, Z.pow2_bits_eqb by lia.
    destruct (Z.eqb_spec (p mod 32) (q mod 32)), (Z.eqb_spec p q); subst; try done.
    exfalso. eauto using page_index with lia.
  - destruct (Z.eqb_spec p q); [congruence|done].
Qed.

Lemma bitmap_test_clear s p q :
  zlen (bitmap s) = PMM_BITMAP_SIZE -> 0 <= p < PMM_MAX_PAGES -> 0 <= q ->
  bitmap_test (bitmap_clear s p) q = negb (p =? q) && bitmap_test s q.
Proof.
  intros Hl Hp Hq. rewrite !bitmap_test_testbit. unfold bitmap_clear. simpl.
  pose proof (word_index p Hp). pose proof (Z.mod_pos_bound p 32). pose proof (Z.mod_pos_bound q 32).
  rewrite zget_set by (try lia; apply Z.div_pos; lia).
  destruct (Z.eqb_spec (p / 32) (q / 32)) as [E|E].
  - rewrite Z.land_spec, E, andb_comm. f_equal. unfold u32.
    rewrite Z.mod_pow2_bits_low, Z.lnot_spec, Z.shiftl_1_l, Z.pow2_bits_eqb by lia. f_equal.
    destruct (Z.eqb_spec (p mod 32) (q mod 32)), (Z.eqb_spec p q); subst; try done.
    exfalso. eauto using page_index with lia.
  - destruct (Z.eqb_spec p q); [congruence|done].
Qed.

Lemma lor_u32 a b : is_u32 a -> is_u32 b -> is_u32 (Z.lor a b).
Proof.
  unfold is_u32. intros. split; [apply Z.lor_nonneg; lia|].
  destruct (Z.eq_dec (Z.lor a b) 0) as [->|]; [lia|].
  apply Z.log2_lt_pow2; [pose proof (Z.lor_nonneg a b); lia|].
  rewrite Z.log2_lor by lia.
  apply Z.max_lub_lt; [destruct (Z.eq_dec a 0) as [->|]|destruct (Z.eq_dec b 0) as [->|]];
    try (simpl; lia); apply Z.log2_lt_pow2; lia.
Qed.

Lemma land_u32 a b : is_u32 a -> 0 <= b -> is_u32 (Z.land a b).
Proof.
  unfold is_u32. intros. split; [apply Z.land_nonneg; lia|].
  destruct (Z.eq_dec (Z.land a b) 0) as [->|]; [lia|].
  apply Z.log2_lt_pow2; [pose proof (Z.land_nonneg a b); lia|].
  destruct (Z.eq_dec a 0) as [->|]; [by rewrite Z.land_0_l in *|].
  eapply Z.le_lt_trans; [apply Z.log2_land; lia|].
  eapply Z.le_lt_trans; [apply Z.le_min_l|]. apply Z.log2_lt_pow2; lia.
Qed.

(** ** Single page operations *)

Lemma take_page_ok s p :
  pmm_ok s -> 0 <= p < pmm_total s -> bitmap_test s p = false -> pmm_ok (take_page s p).
Proof.
  intros [Hl Hw Ht Hu] Hp Hf. pmm_consts.
  assert (Hpw : 0 <= p / 32 < 64) by (apply (word_index p); pmm_consts; lia).
  pose proof (Z.mod_pos_bound p 32).
  assert (E : count_upto (bitmap_test (take_page s p)) (Z.to_nat (pmm_total s))
              = count_upto (bitmap_test s) (Z.to_nat (pmm_total s)) + 1).
  { apply count_upto_flip with (p := p); [lia|done| |].
    - change (bitmap_test (bitmap_set s p) p = true).
      rewrite bitmap_test_set by (pmm_consts; lia). by rewrite Z.eqb_refl.
    - intros i ? ?. change (bitmap_test s i = bitmap_test (bitmap_set s p) i).
      rewrite bitmap_test_set by (pmm_consts; lia). by destruct (Z.eqb_spec p i); [lia|]. }
  pose proof (count_upto_lt _ (Z.to_nat (pmm_total s)) p ltac:(lia) Hf).
  pose proof (count_upto_bounds (bitmap_test s) (Z.to_nat (pmm_total s))).
  constructor; simpl; pmm_consts.
  - by rewrite zset_len.
  - apply zset_forall; [done|]. apply lor_u32.
    + apply zget_forall; [done|lia].
    + unfold is_u32. rewrite Z.shiftl_1_l. split; [lia|]. apply Z.pow_lt_mono_r; lia.
  - lia.
  - rewrite u32_small by lia. lia.
Qed.

Lemma drop_page_ok s p :
  pmm_ok s -> 0 <= p < pmm_total s -> bitmap_test s p = true -> pmm_ok (drop_page s p).
Proof.
  intros [Hl Hw Ht Hu] Hp Hf. pmm_consts.
  assert (Hpw : 0 <= p / 32 < 64) by (apply (word_index p); pmm_consts; lia).
  assert (Hc : bitmap_test (drop_page s p) p = false).
  { change (bitmap_test (bitmap_clear s p) p = false).
    rewrite bitmap_test_clear by (pmm_consts; lia). by rewrite Z.eqb_refl. }
  assert (E : count_upto (bitmap_test s) (Z.to_nat (pmm_total s))
              = count_upto (bitmap_test (drop_page s p)) (Z.to_nat (pmm_total s)) + 1).
  { apply count_upto_flip with (p := p); [lia|done|done|].
    intros i ? ?. change (bitmap_test (bitmap_clear s p) i = bitmap_test s i).
    rewrite bitmap_test_clear by (pmm_consts; lia). by destruct (Z.eqb_spec p i); [lia|]. }
  pose proof (count_upto_lt _ (Z.to_nat (pmm_total s)) p ltac:(lia) Hc).
  pose proof (count_upto_bounds (bitmap_test (drop_page s p)) (Z.to_nat (pmm_total s))).
  constructor; simpl; pmm_consts.
  - by rewrite zset_len.
  - apply zset_forall; [done|]. apply land_u32; [apply zget_forall; [done|lia]|].
    apply u32_range.
  - lia.
  - rewrite u32_small by lia. lia.
Qed.

Lemma take_page_test s p q :
  pmm_ok s -> 0 <= p < PMM_MAX_PAGES -> 0 <= q ->
  bitmap_test (take_page s p) q = (p =? q) || bitmap_test s q.
Proof. intros [Hl _ _ _] ? ?. by apply (bitmap_test_set s p q). Qed.

Lemma drop_page_test s p q :
  pmm_ok s -> 0 <= p < PMM_MAX_PAGES -> 0 <= q ->
  bitmap_test (drop_page s p) q = negb (p =? q) && bitmap_test s q.
Proof. intros [Hl _ _ _] ? ?. by apply (bitmap_test_clear s p q). Qed.

#[export] Hint Resolve take_page_ok drop_page_ok : nullos.

(** ** Range operations *)

Lemma pages_updated_step s s1 s' p n b :
  0 <= p < pmm_total s ->
  pages_updated s s1 p 1 b -> pages_updated s1 s' (p + 1) n b -> 0 <= n ->
  pages_updated s s' p (1 + n) b.
Proof.
  intros Hp [Ht1 H1] [Ht2 H2] Hn. split; [congruence|]. intros q Hq.
  rewrite H2, H1, Ht1 by done.
  destruct (p + 1 <=? q) eqn:?, (p <=? q) eqn:?, (q <? p + 1) eqn:?,
    (q <? p + 1 + n) eqn:?, (q <? p + (1 + n)) eqn:?, (q <? pmm_total s) eqn:?; simpl; b2p; lia || done.
Qed.

Lemma pages_updated_id s p n b : (n <= 0 \/ pmm_total s <= p) -> pages_updated s s p n b.
Proof.
  intros H. split; [done|]. intros q _.
  destruct (p <=? q) eqn:?, (q <? p + n) eqn:?, (q <? pmm_total s) eqn:?; simpl; b2p; try lia; try done.
Qed.

Lemma one_page_used s p :
  pmm_ok s -> 0 <= p < pmm_total s ->
  let s' := if bitmap_test s p then s else take_page s p in
  pmm_ok s' /\ pages_updated s s' p 1 true.
Proof.
  intros Hok Hp. pose proof (ok_total s Hok).
  destruct (bitmap_test s p) eqn:E; simpl; split; auto with nullos; split; auto; intros q Hq.
  2: rewrite take_page_test by (done || lia).
  all: destruct (p <=? q) eqn:?, (q <? p + 1) eqn:?, (q <? pmm_total s) eqn:?, (Z.eqb_spec p q);
    simpl; b2p; subst; lia || done.
Qed.

Lemma one_page_free s p :
  pmm_ok s -> 0 <= p < pmm_total s ->
  let s' := if bitmap_test s p then drop_page s p else s in
  pmm_ok s' /\ pages_updated s s' p 1 false.
Proof.
  intros Hok Hp. pose proof (ok_total s Hok).
  destruct (bitmap_test s p) eqn:E; simpl; split; auto with nullos; split; auto; intros q Hq.
  1: rewrite drop_page_test by (done || lia).
  all: destruct (p <=? q) eqn:?, (q <? p + 1) eqn:?, (q <? pmm_total s) eqn:?, (Z.eqb_spec p q);
    simpl; b2p; subst; lia || done.
Qed.

Lemma mark_used_loop_spec n s p :
  pmm_ok s -> 0 <= p ->
  pmm_ok (mark_used_loop s p n) /\ pages_updated s (mark_used_loop s p n) p (Z.of_nat n) true.
Proof.
  revert s p; induction n as [|n IH]; intros s p Hok Hp.
  - split; [done|]. apply pages_updated_id. left. simpl; lia.
  - cbn [mark_used_loop]. destruct (p <? pmm_total s) eqn:E; b2p.
    + destruct (one_page_used s p Hok) as [Hok1 Hu1]; [lia|].
      destruct (IH _ (p + 1) Hok1) as [Hok2 Hu2]; [lia|]. split; [done|].
      replace (Z.of_nat (S n)) with (1 + Z.of_nat n) by lia.
      eapply pages_updated_step; eauto; lia.
    + split; [done|]. apply pages_updated_id. auto.
Qed.

Lemma mark_free_loop_spec n s p :
  pmm_ok s -> 0 <= p ->
  pmm_ok (mark_free_loop s p n) /\ pages_updated s (mark_free_loop s p n) p (Z.of_nat n) false.
Proof.
  revert s p; induction n as [|n IH]; intros s p Hok Hp.
  - split; [done|]. apply pages_updated_id. left. simpl; lia.
  - cbn [mark_free_loop]. destruct (p <? pmm_total s) eqn:E; b2p.
    + destruct (one_page_free s p Hok) as [Hok1 Hu1]; [lia|].
      destruct (IH _ (p + 1) Hok1) as [Hok2 Hu2]; [lia|]. split; [done|].
      replace (Z.of_nat (S n)) with (1 + Z.of_nat n) by lia.
      eapply pages_updated_step; eauto; lia.
    + split; [done|]. apply pages_updated_id. auto.
Qed.

Lemma mark_used_spec s addr size :
  pmm_ok s -> 0 <= addr ->
  pmm_ok (pmm_mark_used s addr size) /\
  pages_updated s (pmm_mark_used s addr size) (addr / PAGE_SIZE)
    (u32 (size + PAGE_SIZE - 1) / PAGE_SIZE) true.
Proof.
  intros Hok Ha. unfold pmm_mark_used. pose proof (u32_range (size + PAGE_SIZE - 1)).
  assert (0 <= u32 (size + PAGE_SIZE - 1) / PAGE_SIZE) by (pmm_consts; apply Z.div_pos; lia).
  pose proof (mark_used_loop_spec (Z.to_nat (u32 (size + PAGE_SIZE - 1) / PAGE_SIZE)) s (addr / PAGE_SIZE) Hok) as L.
  rewrite Z2Nat.id in L by done. apply L. pmm_consts. apply Z.div_pos; lia.
Qed.

Lemma mark_free_spec s addr size :
  pmm_ok s -> 0 <= addr ->
  pmm_ok (pmm_mark_free s addr size) /\
  pages_updated s (pmm_mark_free s addr size) (addr / PAGE_SIZE)
    (u32 (size + PAGE_SIZE - 1) / PAGE_SIZE) false.
Proof.
  intros Hok Ha. unfold pmm_mark_free. pose proof (u32_range (size + PAGE_SIZE - 1)).
  assert (0 <= u32 (size + PAGE_SIZE - 1) / PAGE_SIZE) by (pmm_consts; apply Z.div_pos; lia).
  pose proof (mark_free_loop_spec (Z.to_nat (u32 (size + PAGE_SIZE - 1) / PAGE_SIZE)) s (addr / PAGE_SIZE) Hok) as L.
  rewrite Z2Nat.id in L by done. apply L. pmm_consts. apply Z.div_pos; lia.
Qed.

(** ** Allocation *)

(** The page the word scan looks for. *)
Definition scan_hit (s : pmm) (p : Z) : bool := (p <? pmm_total s) && negb (bitmap_test s p).

Lemma alloc_bits_find s i bit k :
  alloc_bits s i bit k =
  match find_from (scan_hit s) (i * 32 + bit) k with
  | Some p => Some (take_page s p, p * PAGE_SIZE)
  | None => if (pmm_total s <? i * 32 + bit + Z.of_nat k) && (0 <? Z.of_nat k) then Some (s, 0) else None
  end.
Proof.
  revert bit; induction k as [|k IH]; intros bit.
  - simpl. by rewrite andb_false_r.
  - cbn [alloc_bits find_from]. unfold scan_hit at 1.
    destruct (pmm_total s <=? i * 32 + bit) eqn:E; b2p.
    + destruct (i * 32 + bit <? pmm_total s) eqn:E2; b2p; [lia|]. simpl andb. cbn match.
      destruct (find_from _ _ _) as [p|] eqn:Ef.
      * apply find_from_Some in Ef as (Hr & Hp & _). unfold scan_hit in Hp. b2p. lia.
      * destruct (pmm_total s <? i * 32 + bit + Z.of_nat (S k)) eqn:?; b2p; [done|lia].
    + destruct (i * 32 + bit <? pmm_total s) eqn:E2; b2p; [|lia]. simpl andb.
      destruct (bitmap_test s (i * 32 + bit)) eqn:Et; simpl negb; cbn match; [|done].
      rewrite IH, Z.add_assoc. destruct (find_from _ _ _); [done|].
      destruct (pmm_total s <? i * 32 + bit + 1 + Z.of_nat k) eqn:?,
        (pmm_total s <? i * 32 + bit + Z.of_nat (S k)) eqn:?, (0 <? Z.of_nat k) eqn:?,
        (0 <? Z.of_nat (S k)) eqn:?; simpl; b2p; try lia; done.
Qed.

Lemma full_word s i p :
  (bitmap s).[i] = 0xFFFFFFFF -> i * 32 <= p < i * 32 + 32 -> bitmap_test s p = true.
Proof.
  intros Hw Hp. rewrite bitmap_test_testbit.
  replace (p / 32) with i by (apply Z.div_unique with (r := p - i * 32); lia).
  rewrite Hw. change 0xFFFFFFFF with (Z.ones 32). apply Z.ones_spec_low.
  apply Z.mod_pos_bound; lia.
Qed.

Lemma scan_past_total s i k : pmm_total s <= i -> find_from (scan_hit s) i k = None.
Proof.
  intros. apply find_from_None. intros q ?. unfold scan_hit.
  destruct (q <? pmm_total s) eqn:?; b2p; [lia|done].
Qed.

Lemma alloc_words_find s i k :
  0 <= i ->
  alloc_words s i k =
  match find_from (scan_hit s) (i * 32) (32 * k) with
  | Some p => (take_page s p, p * PAGE_SIZE)
  | None => (s, 0)
  end.
Proof.
  revert i; induction k as [|k IH]; intros i Hi; [done|].
  replace (32 * S k)%nat with (32 + 32 * k)%nat by lia.
  rewrite find_from_app. cbn [alloc_words]. change (Z.of_nat 32) with 32.
  destruct ((bitmap s).[i] =? 0xFFFFFFFF) eqn:Hw; b2p.
  - assert (find_from (scan_hit s) (i * 32) 32 = None) as ->.
    { apply find_from_None. intros q ?. unfold scan_hit.
      rewrite (full_word s i q) by (done || lia). by rewrite andb_false_r. }
    rewrite IH by lia. by replace ((i + 1) * 32) with (i * 32 + 32) by lia.
  - rewrite alloc_bits_find, Z.add_0_r. destruct (find_from _ (i * 32) 32); [done|].
    change (Z.of_nat 32) with 32. case_if.
    + by rewrite scan_past_total by lia.
    + rewrite IH by lia. by replace ((i + 1) * 32) with (i * 32 + 32) by lia.
Qed.

Lemma alloc_page_ref s : pmm_ok s -> pmm_alloc_page s = alloc_ref s.
Proof.
  intros Hok. pose proof (ok_total s Hok). unfold pmm_alloc_page, alloc_ref.
  rewrite alloc_words_find by lia. pmm_consts.
  replace (32 * Z.to_nat 64)%nat with (Z.to_nat (pmm_total s) + (2048 - Z.to_nat (pmm_total s)))%nat by lia.
  rewrite find_from_app, (scan_past_total s (_ + _)) by lia.
  assert (E : forall k i, i + Z.of_nat k <= pmm_total s ->
    find_from (scan_hit s) i k = find_from (fun p => negb (bitmap_test s p)) i k).
  { induction k as [|k IH]; intros i ?; [done|]. cbn [find_from]. unfold scan_hit at 1.
    destruct (i <? pmm_total s) eqn:?; b2p; [|lia]. simpl andb. by rewrite IH by lia. }
  change (0 * 32) with 0. rewrite E by lia. by destruct (find_from _ _ _).
Qed.

(** ** Initialisation *)

Lemma mask64_down x : 0 <= x < 2 ^ 64 -> Z.land x (u64 (Z.lnot (PAGE_SIZE - 1))) = x / 4096 * 4096.
Proof.
  intros. change (u64 (Z.lnot (PAGE_SIZE - 1))) with (Z.shiftl (Z.ones 52) 12).
  by apply (land_mask_down x 12 52); lia.
Qed.

Lemma region_start_eq r : region_start r = u64 (r_base r + PAGE_SIZE - 1) / 4096 * 4096.
Proof. apply mask64_down, u64_range. Qed.

Lemma region_end_eq r :
  region_end r = Z.min PMM_LIMIT_ADDR (u64 (r_base r + r_length r) / 4096 * 4096).
Proof.
  unfold region_end. rewrite mask64_down by apply u64_range. case_if; lia.
Qed.

(** The rounding is inward: for regions in the 64-bit range, exactly the pages
    wholly inside are released. *)
Lemma page_released_usable rs p : Forall region_fits rs -> page_released rs p <-> page_usable rs p.
Proof.
  intros Hf. unfold page_released, page_usable.
  assert (Hr : forall r, r ∈ rs -> region_start r <= p * PAGE_SIZE /\ (p + 1) * PAGE_SIZE <= region_end r <->
    r_base r <= p * PAGE_SIZE /\ (p + 1) * PAGE_SIZE <= r_base r + r_length r /\ p < PMM_MAX_PAGES).
  { intros r Hin. rewrite list.Forall_forall in Hf. destruct (Hf r Hin) as (H1 & H2 & H3). rewrite region_start_eq, region_end_eq. pmm_consts.
    unfold u64. rewrite !Z.mod_small by lia.
    pose proof (Z.div_mod (r_base r + 4096 - 1) 4096 ltac:(lia)). pose proof (Z.mod_pos_bound (r_base r + 4096 - 1) 4096 ltac:(lia)).
    pose proof (Z.div_mod (r_base r + r_length r) 4096 ltac:(lia)). pose proof (Z.mod_pos_bound (r_base r + r_length r) 4096 ltac:(lia)). lia. }
  split.
  - intros (r & Hin & Ht & Hb). apply Hr in Hb as (? & ? & ?); [|done]. split; [done|]. by exists r.
  - intros (Hp & r & Hin & Ht & Hb1 & Hb2). exists r. split; [done|]. split; [done|]. by apply Hr.
Qed.

(** What the region loop maintains after the regions [done]. *)
Record init_inv (done : list boot_mem_region) (s : pmm) (highest : Z) : Prop := {
  ii_ok : pmm_ok s;
  ii_total : pmm_total s = PMM_MAX_PAGES;
  ii_high : exists h, 0 <= h <= PMM_MAX_PAGES /\ highest = h * 4096;
  ii_usable : forall q, page_released done q -> (q + 1) * 4096 <= highest;
  ii_free : forall q, 0 <= q < PMM_MAX_PAGES -> (bitmap_test s q = false <-> page_released done q)
}.

Lemma page_released_snoc done r q :
  page_released (done ++ [r]) q <->
  page_released done q \/
  (r_type r = BOOT_MEM_USABLE /\ region_start r <= q * PAGE_SIZE /\ (q + 1) * PAGE_SIZE <= region_end r).
Proof.
  unfold page_released. split.
  - intros (r' & Hin & Hrest). apply elem_of_app in Hin as [Hin|Hin]; [left; eauto|].
    apply list_elem_of_singleton in Hin as ->. auto.
  - intros [(r' & Hin & Hrest)|H]; [exists r'|exists r]; rewrite elem_of_app, list_elem_of_singleton; auto.
Qed.

Lemma init_region_skip done s h r :
  init_inv done s h ->
  (r_type r <> BOOT_MEM_USABLE \/ region_end r <= region_start r) ->
  init_inv (done ++ [r]) s h.
Proof.
  intros [? ? ? Hu Hf] Hr.
  assert (E : forall q, page_released (done ++ [r]) q <-> page_released done q).
  { intros q. rewrite page_released_snoc. pmm_consts. intuition (lia || congruence). }
  constructor; auto; intros q; rewrite E; auto.
Qed.

Lemma init_region_inv done s h r s' h' :
  init_inv done s h -> init_region (s, h) r = (s', h') -> init_inv (done ++ [r]) s' h'.
Proof.
  intros Hinv. unfold init_region.
  destruct (negb (r_type r =? BOOT_MEM_USABLE)) eqn:Ety; b2p.
  { intros [= <- <-]. apply init_region_skip; auto. }
  destruct (region_end r <=? region_start r) eqn:Ese; b2p.
  { intros [= <- <-]. apply init_region_skip; auto. }
  intros [= <- <-]. destruct Hinv as [Hok Ht (hp & Hhp & ->) Hu Hf].
  rewrite region_start_eq, region_end_eq in *.
  pose proof (u64_range (r_base r + PAGE_SIZE - 1)). pose proof (u64_range (r_base r + r_length r)).
  set (a := u64 (r_base r + PAGE_SIZE - 1) / 4096) in *.
  set (b := u64 (r_base r + r_length r) / 4096) in *.
  assert (0 <= a) by (apply Z.div_pos; lia). assert (0 <= b) by (apply Z.div_pos; lia).
  pmm_consts. set (e := Z.min 2048 b).
  assert (Ee : Z.min 8388608 (b * 4096) = e * 4096) by lia. rewrite Ee in *.
  rewrite !u32_small by lia.
  destruct (mark_free_spec s (a * 4096) (e * 4096 - a * 4096) Hok) as [Hok' [Ht' Hup]]; [lia|].
  assert (En : u32 (e * 4096 - a * 4096 + PAGE_SIZE - 1) / PAGE_SIZE = e - a).
  { pmm_consts. rewrite u32_small by lia. symmetry. apply Z.div_unique with (r := 4095); lia. }
  rewrite En in Hup. pmm_consts. rewrite Z.div_mul in Hup by lia.
  constructor; pmm_consts; auto; try congruence.
  - exists (if hp * 4096 <? e * 4096 then e else hp). case_if; lia.
  - intros q [Hq|(_ & Hq1 & Hq2)]%page_released_snoc.
    + specialize (Hu q Hq). case_if; lia.
    + rewrite region_end_eq in Hq2. pmm_consts. fold b in Hq2. case_if; lia.
  - intros q Hq. rewrite Hup, Ht, page_released_snoc, region_start_eq, region_end_eq by done.
    fold a b. pmm_consts. rewrite Ee.
    destruct (a <=? q) eqn:?, (q <? a + (e - a)) eqn:?, (q <? 2048) eqn:?; simpl; b2p; try lia;
      rewrite ?Hf by done; intuition lia.
Qed.

Lemma init_fold_inv rs done s h :
  init_inv done s h ->
  let '(s', h') := fold_left init_region rs (s, h) in init_inv (done ++ rs) s' h'.
Proof.
  revert done s h; induction rs as [|r rs IH]; intros done s h Hinv; cbn [fold_left].
  - by rewrite app_nil_r.
  - destruct (init_region (s, h) r) as [s1 h1] eqn:E.
    specialize (IH (done ++ [r]) s1 h1 (init_region_inv _ _ _ _ _ _ Hinv E)).
    rewrite <- app_assoc in IH. exact IH.
Qed.

Definition pmm_all_used : pmm :=
  mk_pmm (replicate (Z.to_nat PMM_BITMAP_SIZE) 0xFFFFFFFF) PMM_MAX_PAGES PMM_MAX_PAGES.

Lemma all_used_test q : 0 <= q < PMM_MAX_PAGES -> bitmap_test pmm_all_used q = true.
Proof.
  intros Hq. pose proof (word_index q Hq). pmm_consts.
  apply full_word with (i := q / 32).
  - unfold pmm_all_used. cbn [bitmap]. rewrite zget_replicate; [done|]. pmm_consts. lia.
  - pose proof (Z.div_mod q 32). pose proof (Z.mod_pos_bound q 32). lia.
Qed.

Lemma all_used_ok : pmm_ok pmm_all_used.
Proof.
  constructor.
  - reflexivity.
  - unfold pmm_all_used. cbn [bitmap]. apply Forall_replicate. unfold is_u32. lia.
  - simpl. pmm_consts. lia.
  - rewrite count_upto_all; [reflexivity|]. simpl. intros. apply all_used_test. pmm_consts. lia.
Qed.

Lemma init_inv_start : init_inv [] pmm_all_used 0.
Proof.
  constructor; [apply all_used_ok|done|exists 0; pmm_consts; lia| |].
  - intros q (r & Hin & _). by apply elem_of_nil in Hin.
  - intros q Hq. rewrite all_used_test by done. split; [done|].
    intros (r & Hin & _). by apply elem_of_nil in Hin.
Qed.

(** Dropping the pages past the last usable byte. *)
Lemma shrink_ok s m :
  pmm_ok s -> pmm_total s = PMM_MAX_PAGES -> 0 <= m <= PMM_MAX_PAGES ->
  (forall q, m <= q < PMM_MAX_PAGES -> bitmap_test s q = true) ->
  pmm_ok (mk_pmm (bitmap s) m (u32 (pmm_used s - (PMM_MAX_PAGES - m)))).
Proof.
  intros [Hl Hw Ht Hu] Htot Hm Hq. constructor; simpl; auto.
  rewrite Hu, Htot. pmm_consts.
  pose proof (count_upto_bounds (bitmap_test s) (Z.to_nat m)).
  replace (Z.to_nat 2048) with (Z.to_nat m + Z.to_nat (2048 - m))%nat by lia.
  rewrite count_upto_tail by (intros; apply Hq; lia).
  rewrite u32_small by lia.
  change (bitmap_test (mk_pmm (bitmap s) m _)) with (bitmap_test s). lia.
Qed.

(** The two fixed reservations at the end of [pmm_init]. *)
Lemma reserve_low_spec s :
  pmm_ok s ->
  let s' := pmm_mark_used (pmm_mark_used s 0 0x100000) 0x100000 0x300000 in
  pmm_ok s' /\ pmm_total s' = pmm_total s /\
  forall q, 0 <= q < pmm_total s -> bitmap_test s' q = (q <? 1024) || bitmap_test s q.
Proof.
  intros Hok. pose proof (ok_total s Hok).
  destruct (mark_used_spec s 0 0x100000 Hok) as [Hok1 [Ht1 H1]]; [lia|].
  destruct (mark_used_spec _ 0x100000 0x300000 Hok1) as [Hok2 [Ht2 H2]]; [lia|].
  split; [done|]. split; [congruence|]. intros q Hq. rewrite H2, H1, Ht1 by (pmm_consts; lia).
  change (0x100000 / PAGE_SIZE) with 256. change (0 / PAGE_SIZE) with 0.
  change (u32 (0x300000 + PAGE_SIZE - 1) / PAGE_SIZE) with 768.
  change (u32 (0x100000 + PAGE_SIZE - 1) / PAGE_SIZE) with 256.
  destruct (256 <=? q) eqn:?, (q <? 256 + 768) eqn:?, (q <? pmm_total s) eqn:?, (0 <=? q) eqn:?,
    (q <? 0 + 256) eqn:?, (q <? 1024) eqn:?; simpl; b2p; lia || done.
Qed.

Lemma init_regions_spec rs :
  rs <> [] ->
  pmm_ok (pmm_init rs) /\
  forall p, page_free (pmm_init rs) p = true <-> 1024 <= p /\ page_released rs p.
Proof.
  intros Hne. unfold pmm_init. fold pmm_all_used.
  destruct rs as [|r0 rs0]; [done|]. set (rs := r0 :: rs0) in *. clearbody rs.
  pose proof (init_fold_inv rs [] _ _ init_inv_start) as Hfold.
  destruct (fold_left init_region rs (pmm_all_used, 0)) as [s h]. cbn zeta match in Hfold |- *.
  destruct Hfold as [Hok Ht (m & Hm & ->) Hu Hf]. simpl app in Hu, Hf.
  set (s1 := if _ && _ then _ else s).
  assert (H1 : pmm_ok s1 /\ bitmap s1 = bitmap s /\ 0 <= pmm_total s1 <= PMM_MAX_PAGES /\
               forall q, page_released rs q -> q < pmm_total s1).
  { subst s1. case_if.
    - pmm_consts. rewrite Z.div_mul, !u32_small by lia. split_and!; simpl; try lia; try done.
      + apply shrink_ok; pmm_consts; try done. intros q Hq.
        destruct (bitmap_test s q) eqn:E; [done|]. apply Hf in E; [|lia]. specialize (Hu q E). lia.
      + intros q Hq. specialize (Hu q Hq). lia.
    - pmm_consts. split_and!; try done; try lia. intros q Hq. specialize (Hu q Hq). lia. }
  destruct H1 as (Hok1 & Hb1 & Ht1 & Hu1). clearbody s1.
  destruct (reserve_low_spec s1 Hok1) as (Hok2 & Ht2 & H2).
  split; [done|]. intros p. unfold page_free. rewrite Ht2. split.
  - intros Hp. b2p. rewrite H2 in * by lia. b2p. split; [lia|]. apply Hf; [pmm_consts; lia|].
    unfold bitmap_test in *. by rewrite Hb1 in *.
  - intros [Hp Hus]. specialize (Hu1 p Hus). rewrite H2 by lia.
    apply Hf in Hus; [|lia]. unfold bitmap_test in *. rewrite Hb1, Hus.
    destruct (0 <=? p) eqn:?, (p <? pmm_total s1) eqn:?, (p <? 1024) eqn:?; b2p; lia || done.
Qed.

Lemma init_fallback_spec :
  pmm_ok (pmm_init []) /\
  forall p, page_free (pmm_init []) p = true <-> 1024 <= p < PMM_MAX_PAGES.
Proof.
  unfold pmm_init. fold pmm_all_used. cbn zeta.
  destruct (mark_free_spec pmm_all_used 0x100000 (PMM_LIMIT_ADDR - 0x100000) all_used_ok) as [Hok1 [Ht1 H1]]; [lia|].
  destruct (reserve_low_spec _ Hok1) as (Hok2 & Ht2 & H2). rewrite Ht1 in H2, Ht2.
  split; [done|]. intros p. unfold page_free. rewrite Ht2.
  change (pmm_total pmm_all_used) with 2048 in *.
  change (0x100000 / PAGE_SIZE) with 256 in H1.
  change (u32 (PMM_LIMIT_ADDR - 0x100000 + PAGE_SIZE - 1) / PAGE_SIZE) with 1792 in H1. pmm_consts. split.
  - intros Hp. b2p. rewrite H2 in * by lia. b2p. lia.
  - intros Hp. rewrite H2, H1 by lia. clear -Hp.
    replace (0 <=? p) with true by lia. replace (p <? 2048) with true by lia.
    replace (p <? 1024) with false by lia. replace (256 <=? p) with true by lia.
    by replace (p <? 256 + 1792) with true by lia.
Qed.

(** ** The interface other components use *)

(** What the page allocator promises to its clients (the page tables, the
    kernel heap, the program loader): pages are handed out at most once, an
    address is a nonzero multiple of the page size below 8 MB, and [0] means
    that nothing changed; of the first [pa_total] pages, a freed one can be
    handed out again. *)
Class PageAllocator (S : Type) := {
  pa_alloc : S -> S * Z;
  pa_alloc_at : S -> Z -> S * Z;
  pa_free : S -> Z -> S;
  pa_isfree : S -> Z -> bool;          (** indexed by page number *)
  pa_ok : S -> Prop;
  pa_isfree_range : forall s p, pa_ok s -> pa_isfree s p = true -> 0 < p < 2048;
  pa_alloc_law : forall s s' a, pa_ok s -> pa_alloc s = (s', a) ->
    (a = 0 /\ s' = s /\ forall p, pa_isfree s p = false) \/
    (exists p, a = p * 4096 /\ pa_isfree s p = true /\ pa_ok s' /\
       forall q, pa_isfree s' q = pa_isfree s q && negb (q =? p));
  pa_alloc_at_law : forall s s' p a, pa_ok s -> 0 < p < 2 ^ 20 -> pa_alloc_at s (p * 4096) = (s', a) ->
    (a = 0 /\ s' = s /\ pa_isfree s p = false) \/
    (a = p * 4096 /\ pa_isfree s p = true /\ pa_ok s' /\
       forall q, pa_isfree s' q = pa_isfree s q && negb (q =? p));
  pa_free_law : forall s p, pa_ok s -> 0 < p < 2 ^ 20 ->
    pa_ok (pa_free s (p * 4096)) /\
    forall q, q <> p -> pa_isfree (pa_free s (p * 4096)) q = pa_isfree s q;
  pa_total : S -> Z;
  pa_isfree_total : forall s p, pa_isfree s p = true -> p < pa_total s;
  pa_alloc_total : forall s, pa_total (fst (pa_alloc s)) = pa_total s;
  pa_free_total : forall s a, pa_total (pa_free s a) = pa_total s;
  pa_free_frees : forall s p, pa_ok s -> 0 < p < pa_total s -> pa_isfree (pa_free s (p * 4096)) p = true
}.

(** The state clients may rely on: page 0 is never free, so that the address
    [0] can stand for failure. *)
Definition pmm_client_ok (s : pmm) : Prop := pmm_ok s /\ page_free s 0 = false.

Lemma page_free_take s p q :
  pmm_ok s -> page_free s p = true ->
  page_free (take_page s p) q = page_free s q && negb (q =? p).
Proof.
  intros Hok Hp. pose proof (ok_total s Hok). unfold page_free in *. b2p. simpl pmm_total.
  destruct (0 <=? q) eqn:?; [|done]. b2p.
  rewrite take_page_test by (pmm_consts; done || lia).
  destruct (Z.eqb_spec p q), (Z.eqb_spec q p), (q <? pmm_total s); simpl; try lia; try done.
  all: by rewrite ?andb_false_r, ?andb_true_r.
Qed.

Lemma page_free_drop s p q :
  pmm_ok s -> 0 <= p < pmm_total s ->
  page_free (drop_page s p) q = page_free s q || (q =? p).
Proof.
  intros Hok Hp. pose proof (ok_total s Hok). unfold page_free in *. simpl pmm_total.
  destruct (0 <=? q) eqn:?; b2p; [|destruct (Z.eqb_spec q p); [lia|done]].
  rewrite drop_page_test by (pmm_consts; done || lia).
  destruct (Z.eqb_spec p q), (Z.eqb_spec q p), (q <? pmm_total s) eqn:?, (bitmap_test s q); b2p;
    simpl; lia || done.
Qed.

Lemma pmm_alloc_law s s' a : pmm_client_ok s -> pmm_alloc_page s = (s', a) ->
  (a = 0 /\ s' = s /\ forall p, page_free s p = false) \/
  (exists p, a = p * 4096 /\ page_free s p = true /\ pmm_client_ok s' /\
     forall q, page_free s' q = page_free s q && negb (q =? p)).
Proof.
  intros [Hok H0] E. rewrite alloc_page_ref in E by done. unfold alloc_ref in E.
  pose proof (ok_total s Hok).
  destruct (find_from _ _ _) as [p|] eqn:Ef; inv E.
  - right. exists p. apply find_from_Some in Ef as (Hr & Hp & _). b2p.
    assert (Hpf : page_free s p = true).
    { unfold page_free. rewrite Hp. destruct (0 <=? p) eqn:?, (p <? pmm_total s) eqn:?; b2p; lia || done. }
    split_and!; try done.
    + split; [apply take_page_ok; auto; lia|]. rewrite page_free_take, H0 by done. done.
    + intros q. by apply page_free_take.
  - left. split_and!; try done. intros p. unfold page_free.
    destruct (0 <=? p) eqn:?, (p <? pmm_total s') eqn:?; b2p; try done.
    rewrite find_from_None in Ef. rewrite Ef by lia. done.
Qed.

Lemma page_aligned p : Z.land (p * 4096) (PAGE_SIZE - 1) = 0.
Proof.
  change (PAGE_SIZE - 1) with (2 ^ 12 - 1). rewrite land_mask_low by lia.
  change (2 ^ 12) with 4096. apply Z.mod_mul. lia.
Qed.

Lemma pmm_alloc_at_law s s' p a : pmm_client_ok s -> 0 < p < 2 ^ 20 ->
  pmm_alloc_page_at s (p * 4096) = (s', a) ->
  (a = 0 /\ s' = s /\ page_free s p = false) \/
  (a = p * 4096 /\ page_free s p = true /\ pmm_client_ok s' /\
     forall q, page_free s' q = page_free s q && negb (q =? p)).
Proof.
  intros [Hok H0] Hp. unfold pmm_alloc_page_at. rewrite page_aligned. simpl negb. cbn match.
  pmm_consts. rewrite Z.div_mul by lia.
  destruct ((pmm_total s <=? p) || bitmap_test s p) eqn:E; intros [= <- <-].
  - left. split_and!; try done. unfold page_free.
    apply orb_true_iff in E as [E| ->]; [|by rewrite andb_false_r]. b2p.
    destruct (p <? pmm_total s) eqn:?; b2p; [lia|]. by rewrite andb_false_r.
  - right. b2p. assert (Hpf : page_free s p = true).
    { unfold page_free. rewrite H1. destruct (0 <=? p) eqn:?, (p <? pmm_total s) eqn:?; b2p; lia || done. }
    split_and!; try done.
    + split; [apply take_page_ok; auto; lia|]. by rewrite page_free_take, H0.
    + intros q. by apply page_free_take.
Qed.

Lemma pmm_free_law s p : pmm_client_ok s -> 0 < p < 2 ^ 20 ->
  pmm_client_ok (pmm_free_page s (p * 4096)) /\
  forall q, q <> p -> page_free (pmm_free_page s (p * 4096)) q = page_free s q.
Proof.
  intros [Hok H0] Hp. unfold pmm_free_page. pmm_consts. rewrite Z.div_mul by lia.
  case_if; [done|]. split; [split|].
  - apply drop_page_ok; auto; lia.
  - rewrite page_free_drop, H0 by (done || lia). destruct (Z.eqb_spec 0 p); lia || done.
  - intros q Hq. rewrite page_free_drop by (done || lia). destruct (Z.eqb_spec q p); [lia|].
    by rewrite orb_false_r.
Qed.

Lemma pmm_isfree_range s p : pmm_client_ok s -> page_free s p = true -> 0 < p < 2048.
Proof.
  intros [Hok H0] Hp. pose proof (ok_total s Hok). pmm_consts.
  assert (p <> 0) by congruence. unfold page_free in Hp. b2p. lia.
Qed.

Lemma page_free_total s p : page_free s p = true -> p < pmm_total s.
Proof. unfold page_free. intros ?. b2p. lia. Qed.

Lemma alloc_bits_total k s i bit r : alloc_bits s i bit k = Some r -> pmm_total (fst r) = pmm_total s.
Proof.
  revert bit; induction k as [|k IH]; intros bit; cbn [alloc_bits]; [done|].
  case_if; [by intros [= <-]|]. case_if; [by intros [= <-]|]. apply IH.
Qed.

Lemma pmm_alloc_total s : pmm_total (fst (pmm_alloc_page s)) = pmm_total s.
Proof.
  unfold pmm_alloc_page. generalize 0. generalize (Z.to_nat PMM_BITMAP_SIZE). intros n. induction n as [|n IH]; intros i; cbn [alloc_words]; [done|].
  case_if; [apply IH|]. destruct (alloc_bits s i 0 32) as [r|] eqn:E; [by apply alloc_bits_total in E|apply IH].
Qed.

Lemma pmm_free_total s a : pmm_total (pmm_free_page s a) = pmm_total s.
Proof. unfold pmm_free_page. by case_if. Qed.

Lemma pmm_free_frees s p : pmm_client_ok s -> 0 < p < pmm_total s -> page_free (pmm_free_page s (p * 4096)) p = true.
Proof.
  intros [Hok _] Hp. unfold pmm_free_page. pmm_consts. rewrite Z.div_mul by lia. replace (pmm_total s <=? p) with false by lia. cbn [orb].
  destruct (bitmap_test s p) eqn:E; cbn [negb].
  - rewrite page_free_drop by (done || lia). by rewrite Z.eqb_refl, orb_true_r.
  - unfold page_free. rewrite E. by replace (0 <=? p) with true by lia; replace (p <? pmm_total s) with true by lia.
Qed.

#[export] Instance pmm_allocator : PageAllocator pmm := {|
  pa_alloc := pmm_alloc_page;
  pa_alloc_at := pmm_alloc_page_at;
  pa_free := pmm_free_page;
  pa_isfree := page_free;
  pa_ok := pmm_client_ok;
  pa_isfree_range := pmm_isfree_range;
  pa_alloc_law := pmm_alloc_law;
  pa_alloc_at_law := pmm_alloc_at_law;
  pa_free_law := pmm_free_law;
  pa_total := pmm_total;
  pa_isfree_total := page_free_total;
  pa_alloc_total := pmm_alloc_total;
  pa_free_total := pmm_free_total;
  pa_free_frees := pmm_free_frees
|}.

(** ** Operation sequences *)

(** One call of the public interface. *)
Inductive pmm_op :=
| OpAlloc
| OpAllocAt (addr : Z)
| OpFree (addr : Z)
| OpMarkUsed (addr size : Z)
| OpMarkFree (addr size : Z).

Definition pmm_exec (s : pmm) (o : pmm_op) : pmm :=
  match o with
  | OpAlloc => fst (pmm_alloc_page s)
  | OpAllocAt a => fst (pmm_alloc_page_at s a)
  | OpFree a => pmm_free_page s a
  | OpMarkUsed a n => pmm_mark_used s a n
  | OpMarkFree a n => pmm_mark_free s a n
  end.

Definition op_addr_ok (o : pmm_op) : Prop :=
  match o with
  | OpAlloc => True
  | OpAllocAt a | OpFree a | OpMarkUsed a _ | OpMarkFree a _ => is_u32 a
  end.

Lemma alloc_page_ok s : pmm_ok s -> pmm_ok (fst (pmm_alloc_page s)).
Proof.
  intros Hok. pose proof (ok_total s Hok). rewrite alloc_page_ref by done. unfold alloc_ref.
  destruct (find_from _ _ _) as [p|] eqn:E; [|done].
  apply find_from_Some in E as (? & ? & _). b2p. apply take_page_ok; auto. lia.
Qed.

Lemma alloc_at_ok s a : pmm_ok s -> 0 <= a -> pmm_ok (fst (pmm_alloc_page_at s a)).
Proof.
  intros Hok Ha. unfold pmm_alloc_page_at. case_if; [done|]. cbn zeta. case_if; [done|].
  apply take_page_ok; auto. split; [apply Z.div_pos; pmm_consts; lia|lia].
Qed.

Lemma free_page_ok s a : pmm_ok s -> 0 <= a -> pmm_ok (pmm_free_page s a).
Proof.
  intros Hok Ha. unfold pmm_free_page. cbn zeta. case_if; [done|].
  apply drop_page_ok; auto. split; [apply Z.div_pos; pmm_consts; lia|lia].
Qed.

Lemma pmm_exec_ok s o : pmm_ok s -> op_addr_ok o -> pmm_ok (pmm_exec s o).
Proof.
  destruct o; simpl; unfold is_u32; intros.
  - by apply alloc_page_ok.
  - apply alloc_at_ok; auto; lia.
  - apply free_page_ok; auto; lia.
  - apply mark_used_spec; auto; lia.
  - apply mark_free_spec; auto; lia.
Qed.

Lemma pmm_init_ok rs : pmm_ok (pmm_init rs).
Proof. destruct rs as [|r rs]; [apply init_fallback_spec|by apply init_regions_spec]. Qed.

Lemma count_free s : pmm_ok s ->
  count_upto (page_free s) (Z.to_nat (pmm_total s)) = pmm_total s - pmm_used s.
Proof.
  intros Hok. pose proof (ok_total s Hok). rewrite (ok_used s Hok).
  enough (E : forall n, Z.of_nat n <= pmm_total s ->
    count_upto (page_free s) n = Z.of_nat n - count_upto (bitmap_test s) n) by (rewrite E; lia).
  induction n as [|n IH]; intros Hn; [done|]. simpl count_upto. rewrite IH by lia.
  unfold page_free. replace (0 <=? Z.of_nat n) with true by lia.
  replace (Z.of_nat n <? pmm_total s) with true by lia.
  destruct (bitmap_test s (Z.of_nat n)); simpl; lia.
Qed.

Lemma pmm_run_ok s ops : pmm_ok s -> Forall op_addr_ok ops -> pmm_ok (fold_left pmm_exec ops s).
Proof.
  revert s; induction ops as [|o ops IH]; intros s Hok HF; [done|].
  inv HF. simpl. apply IH; auto using pmm_exec_ok.
Qed.

(** ** Properties *)

(** C12 (pmm_init).  After [pmm_init] on any nonempty boot memory map of regions
    that end at least a page below 2^64, a page is allocatable exactly when it lies at
    or above 4 MB, below 8 MB, and wholly inside a region the map calls usable; and
    the used counter agrees with the bitmap. *)
Theorem pmm_init_frees_exactly_usable (rs : list boot_mem_region) :
  rs <> [] -> Forall region_fits rs ->
  pmm_ok (pmm_init rs) /\
  forall p, page_free (pmm_init rs) p = true <-> 1024 <= p /\ page_usable rs p.
Proof.
  intros Hne Hf. destruct (init_regions_spec rs Hne) as [Hok Hp]. split; [done|]. intros p. by rewrite Hp, page_released_usable.
Qed.

(** A region that begins and ends inside a page: neither page is free. *)
Lemma pmm_init_frees_exactly_usable_witness :
  let rs := [mk_region 0 0x9FC00 1; mk_region 0x400800 0x201000 1; mk_region 0xFFFC0000 0x40000 2] in
  pmm_ok (pmm_init rs) /\ page_free (pmm_init rs) 0x400 = false /\ page_usable rs 0x401 /\ page_free (pmm_init rs) 0x401 = true /\
  page_free (pmm_init rs) 0x600 = true /\ page_free (pmm_init rs) 0x601 = false.
Proof.
  intros rs. destruct (pmm_init_frees_exactly_usable rs ltac:(discriminate) ltac:(repeat constructor; discriminate)) as [Hok Hf].
  assert (H1 : page_free (pmm_init rs) 0x401 = true) by (vm_compute; reflexivity).
  split_and!; [exact Hok|vm_compute; reflexivity|exact (proj2 (proj1 (Hf 0x401) H1))|exact H1|vm_compute; reflexivity|vm_compute; reflexivity].
Defined.

(** (pmm_alloc_page).  The word-skipping scan of [pmm_alloc_page] is the
    linear scan: it returns the lowest free page, marks exactly that page and
    counts it, and returns 0 with the state unchanged when no page is free. *)
Theorem pmm_alloc_page_lowest (s : pmm) :
  pmm_client_ok s ->
  (exists p, page_free s p = true /\ (forall q, q < p -> page_free s q = false) /\
     pmm_alloc_page s = (take_page s p, p * PAGE_SIZE) /\ 0 < p * PAGE_SIZE /\
     pmm_client_ok (take_page s p) /\
     forall q, page_free (take_page s p) q = page_free s q && negb (q =? p)) \/
  ((forall p, page_free s p = false) /\ pmm_alloc_page s = (s, 0)).
Proof.
  intros [Hok H0]. pose proof (ok_total s Hok).
  rewrite alloc_page_ref by done. unfold alloc_ref.
  destruct (find_from _ _ _) as [p|] eqn:E.
  - left. exists p. apply find_from_Some in E as (Hr & Hp & Hq). b2p.
    assert (Hpf : page_free s p = true).
    { unfold page_free. rewrite Hp. destruct (0 <=? p) eqn:?, (p <? pmm_total s) eqn:?; b2p; lia || done. }
    assert (p <> 0) by congruence.
    split_and!; try done; pmm_consts; try lia.
    + intros q Hqp. unfold page_free. destruct (0 <=? q) eqn:?; b2p; [|done].
      rewrite Hq by lia. by rewrite andb_false_r.
    + split; [apply take_page_ok; auto; lia|]. by rewrite page_free_take, H0.
    + intros q. by apply page_free_take.
  - right. split; [|done]. intros p. unfold page_free.
    destruct (0 <=? p) eqn:?, (p <? pmm_total s) eqn:?; b2p; try done.
    rewrite find_from_None in E. by rewrite E by lia.
Qed.

Lemma pmm_alloc_page_lowest_witness :
  let s := pmm_init [mk_region 0x100000 0x700000 1] in
  pmm_client_ok s /\ snd (pmm_alloc_page s) = 0x400000.
Proof.
  intros s. assert (Hs : pmm_client_ok s) by (split; [apply pmm_init_ok|vm_compute; reflexivity]).
  split; [exact Hs|]. destruct (pmm_alloc_page_lowest s Hs) as [H|H]; vm_compute; reflexivity.
Defined.

(** (all operations).  Starting from [pmm_init] on any memory map, every
    sequence of calls with 32-bit addresses keeps the invariant, and the number
    [pmm_free_pages] reports is the number of pages that are free. *)
Theorem pmm_counter_never_drifts (rs : list boot_mem_region) (ops : list pmm_op) :
  Forall op_addr_ok ops ->
  let s := fold_left pmm_exec ops (pmm_init rs) in
  pmm_ok s /\ pmm_free_pages s = count_upto (page_free s) (Z.to_nat (pmm_total_pages s)).
Proof.
  intros HF s. assert (Hok : pmm_ok s) by (apply pmm_run_ok; auto using pmm_init_ok).
  split; [done|]. unfold pmm_total_pages. rewrite count_free by done. unfold pmm_free_pages.
  pose proof (ok_total s Hok). pose proof (ok_used s Hok).
  pose proof (count_upto_bounds (bitmap_test s) (Z.to_nat (pmm_total s))). pmm_consts.
  apply u32_small. lia.
Qed.

Lemma pmm_counter_never_drifts_witness :
  let ops := [OpAlloc; OpAlloc; OpFree 0x400000; OpMarkUsed 0x401000 0x2001; OpFree 0x1000; OpAllocAt 0x500000] in
  let s := fold_left pmm_exec ops (pmm_init []) in
  Forall op_addr_ok ops /\
  pmm_free_pages s = count_upto (page_free s) (Z.to_nat (pmm_total_pages s)) /\ pmm_free_pages s = 1021.
Proof.
  intros ops s. assert (HF : Forall op_addr_ok ops).
  { unfold ops. repeat constructor; unfold is_u32; simpl; lia. }
  split; [exact HF|]. split; [apply (pmm_counter_never_drifts [] ops HF)|vm_compute; reflexivity].
Defined.

(** (pmm_free_page).  Freeing the page an allocation returned makes exactly
    that page free again: the set of free pages and the counters are what they
    were before the allocation. *)
Theorem pmm_alloc_free_roundtrip (s s' : pmm) (a : Z) :
  pmm_client_ok s -> pmm_alloc_page s = (s', a) -> a <> 0 ->
  pmm_client_ok (pmm_free_page s' a) /\
  pmm_free_pages (pmm_free_page s' a) = pmm_free_pages s /\
  forall q, page_free (pmm_free_page s' a) q = page_free s q.
Proof.
  intros Hs E Ha. pose proof Hs as [Hok _]. pose proof (ok_total s Hok) as Ht.
  rewrite alloc_page_ref in E by done. unfold alloc_ref in E.
  destruct (find_from _ _ _) as [p|] eqn:Ef; inv E.
  apply find_from_Some in Ef as (Hr & Hp & _). b2p. pmm_consts.
  assert (Hpf : page_free s p = true).
  { unfold page_free. rewrite Hp. destruct (0 <=? p) eqn:?, (p <? pmm_total s) eqn:?; b2p; lia || done. }
  assert (Hok' : pmm_ok (take_page s p)) by (apply take_page_ok; auto; lia).
  assert (Ef : pmm_free_page (take_page s p) (p * 4096) = drop_page (take_page s p) p).
  { unfold pmm_free_page. pmm_consts. rewrite Z.div_mul by lia.
    change (pmm_total (take_page s p)) with (pmm_total s).
    rewrite take_page_test, Z.eqb_refl by (pmm_consts; done || lia).
    destruct (pmm_total s <=? p) eqn:?; b2p; [lia|done]. }
  rewrite Ef.
  assert (Hfree : forall q, page_free (drop_page (take_page s p) p) q = page_free s q).
  { intros q. rewrite page_free_drop, page_free_take by (done || (simpl; lia)).
    destruct (Z.eqb_spec q p) as [->|]; rewrite ?Hpf, ?andb_true_r, ?orb_false_r; done. }
  assert (Hok2 : pmm_ok (drop_page (take_page s p) p)).
  { apply drop_page_ok; [done|simpl; lia|]. rewrite take_page_test, Z.eqb_refl by (pmm_consts; done || lia). done. }
  split_and!; [|unfold pmm_free_pages; rewrite <- !count_free by done|done].
  - split; [done|]. rewrite Hfree. apply Hs.
  - unfold u32. f_equal. apply count_upto_ext. auto.
Qed.

Lemma pmm_alloc_free_roundtrip_witness :
  let s := pmm_init [] in
  let s' := fst (pmm_alloc_page s) in
  pmm_free_pages (pmm_free_page s' 0x400000) = pmm_free_pages s /\ pmm_free_pages s = 1024.
Proof.
  intros s s'. assert (Hs : pmm_client_ok s) by (split; [apply pmm_init_ok|vm_compute; reflexivity]).
  split; [|vm_compute; reflexivity].
  apply (pmm_alloc_free_roundtrip s s' 0x400000 Hs); [vm_compute; reflexivity|discriminate].
Defined.
