(* ===== verification/Mem.v ===== *)
(** * Physical memory

    The kernel reaches page tables, page directories and user pages by their
    physical address through its 0-8 MB identity map, so the model has one
    byte-addressed physical memory, with the little-endian 32-bit accesses the
    C code makes through [uint32_t *]. *)

From Stdlib Require Import ZArith Lia ZifyBool.
From stdpp Require Import base tactics numbers list option gmap.
From S2P Require Import Prelude.
Local Open Scope Z_scope.

Abbreviation mem := (gmap Z Z).

Definition rd8 (m : mem) (a : Z) : Z := u8 (default 0 (m !! a)).
Definition wr8 (m : mem) (a v : Z) : mem := <[a := u8 v]> m.

Definition rd32 (m : mem) (a : Z) : Z :=
  rd8 m a + 2 ^ 8 * rd8 m (a + 1) + 2 ^ 16 * rd8 m (a + 2) + 2 ^ 24 * rd8 m (a + 3).
Definition wr32 (m : mem) (a v : Z) : mem :=
  wr8 (wr8 (wr8 (wr8 m a v) (a + 1) (v / 2 ^ 8)) (a + 2) (v / 2 ^ 16)) (a + 3) (v / 2 ^ 24).

#[global] Arguments rd8 : simpl never.
#[global] Arguments wr8 : simpl never.
#[global] Arguments rd32 : simpl never.
#[global] Arguments wr32 : simpl never.

(** [m'] agrees with [m] at every byte outside the 4 KB page [p]. *)
Definition same_outside (m m' : mem) (P : Z -> Prop) : Prop :=
  forall a, ~ P (a / 4096) -> rd8 m' a = rd8 m a.

(** ** Lemmas *)

Lemma rd8_range m a : 0 <= rd8 m a < 256.
Proof. apply Z.mod_pos_bound; lia. Qed.

Lemma rd32_range m a : 0 <= rd32 m a < 2 ^ 32.
Proof.
  unfold rd32. pose proof (rd8_range m a). pose proof (rd8_range m (a + 1)).
  pose proof (rd8_range m (a + 2)). pose proof (rd8_range m (a + 3)). lia.
Qed.

Lemma rd8_wr8 m a b v : rd8 (wr8 m a v) b = if a =? b then u8 v else rd8 m b.
Proof.
  unfold rd8, wr8. destruct (Z.eqb_spec a b) as [->|Hne].
  - rewrite lookup_insert_eq. simpl. unfold u8. rewrite Z.mod_mod; lia.
  - by rewrite lookup_insert_ne.
Qed.

Lemma rd8_wr32_ne m a b v : b < a \/ a + 4 <= b -> rd8 (wr32 m a v) b = rd8 m b.
Proof.
  intros. unfold wr32. rewrite !rd8_wr8.
  destruct (Z.eqb_spec (a + 3) b), (Z.eqb_spec (a + 2) b), (Z.eqb_spec (a + 1) b), (Z.eqb_spec a b);
    lia || done.
Qed.

Lemma rd32_wr32_ne m a b v : b + 4 <= a \/ a + 4 <= b -> rd32 (wr32 m a v) b = rd32 m b.
Proof. intros. unfold rd32. rewrite !rd8_wr32_ne by lia. done. Qed.

Lemma rd32_wr32_eq m a v : rd32 (wr32 m a v) a = u32 v.
Proof.
  unfold rd32, wr32. rewrite !rd8_wr8.
  repeat match goal with
  | |- context [?x =? ?y] =>
      (replace (x =? y) with true by lia) || (replace (x =? y) with false by lia)
  end.
  unfold u8, u32.
  change (2 ^ 32) with (2 ^ 8 * (2 ^ 8 * (2 ^ 8 * 2 ^ 8))).
  rewrite !Z.rem_mul_r by lia. rewrite !Z.div_div by lia.
  change (2 ^ 8 * 2 ^ 8) with (2 ^ 16). change (2 ^ 16 * 2 ^ 8) with (2 ^ 24).
  change (2 ^ 24) with (2 ^ 8 * (2 ^ 8 * 2 ^ 8)) at 1.
  change (2 ^ 16) with (2 ^ 8 * 2 ^ 8) at 1. ring.
Qed.

Lemma rd32_wr32 m a b v :
  (b + 4 <= a \/ a + 4 <= b) \/ a = b ->
  rd32 (wr32 m a v) b = if a =? b then u32 v else rd32 m b.
Proof.
  intros H. destruct (Z.eqb_spec a b) as [->|].
  - apply rd32_wr32_eq.
  - apply rd32_wr32_ne. lia.
Qed.

Lemma rd32_same m m' a : (forall i, 0 <= i < 4 -> rd8 m' (a + i) = rd8 m (a + i)) -> rd32 m' a = rd32 m a.
Proof.
  intros H. unfold rd32. rewrite <- (Z.add_0_r a) at 1 5.
  rewrite !H by lia. by rewrite Z.add_0_r.
Qed.

(** The bytes of a word, and storing back what was read. *)
Lemma rd32_bytes m a i : 0 <= i < 4 -> u8 (rd32 m a / 2 ^ (8 * i)) = rd8 m (a + i).
Proof.
  intros Hi. pose proof (rd8_range m a). pose proof (rd8_range m (a + 1)).
  pose proof (rd8_range m (a + 2)). pose proof (rd8_range m (a + 3)). unfold u8, rd32.
  assert (i = 0 \/ i = 1 \/ i = 2 \/ i = 3) as [-> | [-> | [-> | ->]]] by lia;
    rewrite ?Z.add_0_r; cbn [Z.mul Pos.mul Z.pow Z.pow_pos Pos.iter]; Z.to_euclidean_division_equations; lia.
Qed.

Lemma rd8_wr32_same m a v x : rd32 m a = u32 v -> rd8 (wr32 m a v) x = rd8 m x.
Proof.
  intros E. assert (Hr : rd32 (wr32 m a v) a = rd32 m a) by (by rewrite rd32_wr32_eq).
  destruct (Z_lt_le_dec x a); [apply rd8_wr32_ne; lia|].
  destruct (Z_lt_le_dec x (a + 4)); [|apply rd8_wr32_ne; lia].
  replace x with (a + (x - a)) by lia. rewrite <- !rd32_bytes by lia. by rewrite Hr.
Qed.

(** A word at a 4-aligned address lies in one page. *)
Lemma word_in_page a i : a mod 4 = 0 -> 0 <= i < 4 -> (a + i) / 4096 = a / 4096.
Proof. intros. Z.to_euclidean_division_equations. lia. Qed.

Lemma same_outside_rd32 m m' P a :
  same_outside m m' P -> a mod 4 = 0 -> ~ P (a / 4096) -> rd32 m' a = rd32 m a.
Proof.
  intros H Ha HP. apply rd32_same. intros i Hi. apply H. by rewrite word_in_page.
Qed.

Lemma same_outside_wr32 m a v : a mod 4 = 0 -> same_outside m (wr32 m a v) (fun p => p = a / 4096).
Proof.
  intros Ha b Hb. apply rd8_wr32_ne.
  destruct (Z_lt_le_dec b a); [by left|right].
  destruct (Z_lt_le_dec b (a + 4)); [|lia]. exfalso. apply Hb.
  replace b with (a + (b - a)) by lia. apply word_in_page; lia.
Qed.

Lemma same_outside_trans m1 m2 m3 P :
  same_outside m1 m2 P -> same_outside m2 m3 P -> same_outside m1 m3 P.
Proof. intros H1 H2 a Ha. by rewrite H2, H1. Qed.

Lemma same_outside_mono m1 m2 (P Q : Z -> Prop) :
  (forall p, P p -> Q p) -> same_outside m1 m2 P -> same_outside m1 m2 Q.
Proof. intros HPQ H a Ha. apply H. auto. Qed.

Lemma same_outside_refl m P : same_outside m m P.
Proof. intros a _. done. Qed.

#[export] Hint Resolve same_outside_refl same_outside_trans : nullos.
