(* ===== verification/Vmm.v ===== *)
(** * Virtual memory manager ([kernel/memory/vmm.c])

    Two-level x86 page tables kept in physical memory.  The kernel directory
    operations work on [vmm] (physical memory, the static page-table pool
    cursor, the paging flag and CR3); the per-process operations work on
    physical memory and a page allocator, of which they use only the
    [PageAllocator] interface.  TLB invalidation has no effect in the model. *)

From Stdlib Require Import ZArith Lia ZifyBool.
From stdpp Require Import base tactics numbers list option gmap.
From S2P Require Import Prelude Pmm Mem.
Local Open Scope Z_scope.

(** ** Constants *)

Definition VMM_PRESENT : Z := 1.
Definition VMM_WRITABLE : Z := 2.
Definition VMM_USER : Z := 4.
Definition VMM_KERNEL : Z := Z.lor VMM_PRESENT VMM_WRITABLE.
Definition VMM_ERR_RANGE : Z := -1.
Definition VMM_ERR_NOMEM : Z := -2.

Definition PAGE_DIR_ADDR : Z := 0x300000.
Definition PAGE_TABLE_START : Z := 0x301000.
Definition PAGE_TABLE_END : Z := 0x341000.

(** ** State of the kernel directory *)

Record vmm := mk_vmm {
  v_mem : mem;
  pt_next : Z;
  paging_active : bool;
  v_cr3 : Z
}.

Definition with_mem (v : vmm) (m : mem) : vmm := mk_vmm m (pt_next v) (paging_active v) (v_cr3 v).

(** ** Address arithmetic shared by every operation *)

(** [virt >> 22], [(virt >> 12) & 0x3FF] and the addresses of [pd[di]] and
    [pt[ti]]. *)
Definition dir_index (virt : Z) : Z := Z.shiftr virt 22.
Definition table_index (virt : Z) : Z := Z.land (Z.shiftr virt 12) 0x3FF.
Definition has_flag (e f : Z) : bool := negb (Z.land e f =? 0).
Definition frame_of (e : Z) : Z := Z.land e 0xFFFFF000.

Definition pde (m : mem) (pd virt : Z) : Z := rd32 m (pd + 4 * dir_index virt).
Definition pte_addr (m : mem) (pd virt : Z) : Z := frame_of (pde m pd virt) + 4 * table_index virt.

(** ** Kernel directory operations *)

(** The body of a loop that stores 0 into [n] consecutive words. *)
Fixpoint zero_words (m : mem) (a : Z) (n : nat) : mem :=
  match n with
  | O => m
  | S n' => zero_words (wr32 m a 0) (a + 4) n'
  end.

Definition zero_4kb (m : mem) (addr : Z) : mem := zero_words m addr 1024.

Definition map_page_early (v : vmm) (virt phys flags : Z) : vmm * Z :=
  let pd := PAGE_DIR_ADDR in
  let store (v : vmm) :=
    (with_mem v (wr32 (v_mem v) (pte_addr (v_mem v) pd virt)
       (Z.lor (Z.lor (frame_of phys) (Z.land flags 0xFFF)) VMM_PRESENT)), 0) in
  if negb (has_flag (pde (v_mem v) pd virt) VMM_PRESENT) then
    if PAGE_TABLE_END <=? pt_next v then (v, VMM_ERR_NOMEM)
    else
      let m1 := zero_4kb (v_mem v) (pt_next v) in
      let m2 := wr32 m1 (pd + 4 * dir_index virt) (Z.lor (pt_next v) VMM_KERNEL) in
      store (mk_vmm m2 (u32 (pt_next v + PAGE_SIZE)) (paging_active v) (v_cr3 v))
  else store v.

(** [invlpg] only affects the TLB. *)
Definition vmm_map_page (v : vmm) (virt phys flags : Z) : vmm * Z := map_page_early v virt phys flags.

Definition vmm_unmap_page (v : vmm) (virt : Z) : vmm :=
  if negb (has_flag (pde (v_mem v) PAGE_DIR_ADDR virt) VMM_PRESENT) then v
  else with_mem v (wr32 (v_mem v) (pte_addr (v_mem v) PAGE_DIR_ADDR virt) 0).

Definition vmm_get_phys_from_dir (m : mem) (pd_phys virt : Z) : Z :=
  if negb (has_flag (pde m pd_phys virt) VMM_PRESENT) then 0
  else
    let e := rd32 m (pte_addr m pd_phys virt) in
    if negb (has_flag e VMM_PRESENT) then 0
    else Z.lor (frame_of e) (Z.land virt 0xFFF).

Definition vmm_get_phys (v : vmm) (virt : Z) : Z := vmm_get_phys_from_dir (v_mem v) PAGE_DIR_ADDR virt.

Definition vmm_get_user_phys_from_dir (m : mem) (pd_phys virt : Z) : Z :=
  let d := pde m pd_phys virt in
  if negb (has_flag d VMM_PRESENT) || negb (has_flag d VMM_USER) then 0
  else
    let e := rd32 m (pte_addr m pd_phys virt) in
    if negb (has_flag e VMM_PRESENT) || negb (has_flag e VMM_USER) then 0
    else Z.lor (frame_of e) (Z.land virt 0xFFF).

Definition vmm_get_kernel_directory : Z := PAGE_DIR_ADDR.
Definition vmm_switch_directory (v : vmm) (cr3 : Z) : vmm :=
  mk_vmm (v_mem v) (pt_next v) (paging_active v) cr3.

(** The first loop of [vmm_init]: [pd[i]], [pt0[i]] and [pt1[i]] are zeroed
    together. *)
Fixpoint init_zero (m : mem) (i : Z) (n : nat) : mem :=
  match n with
  | O => m
  | S n' =>
      let m1 := wr32 m (PAGE_DIR_ADDR + 4 * i) 0 in
      let m2 := wr32 m1 (PAGE_TABLE_START + 4 * i) 0 in
      let m3 := wr32 m2 (PAGE_TABLE_START + PAGE_SIZE + 4 * i) 0 in
      init_zero m3 (i + 1) n'
  end.

(** The identity-mapping loops: [pt[i] = (base + i * PAGE_SIZE) | flags]. *)
Fixpoint init_identity (m : mem) (pt base i : Z) (n : nat) : mem :=
  match n with
  | O => m
  | S n' =>
      init_identity (wr32 m (pt + 4 * i) (Z.lor (Z.lor (base + i * PAGE_SIZE) VMM_KERNEL) VMM_PRESENT))
        pt base (i + 1) n'
  end.

Definition vmm_init (v : vmm) : vmm :=
  let m0 := init_zero (v_mem v) 0 1024 in
  let m1 := init_identity m0 PAGE_TABLE_START 0 0 1024 in
  let m2 := init_identity m1 (PAGE_TABLE_START + PAGE_SIZE) 0x400000 0 1024 in
  let m3 := wr32 m2 PAGE_DIR_ADDR (Z.lor (Z.lor PAGE_TABLE_START VMM_KERNEL) VMM_PRESENT) in
  let m4 := wr32 m3 (PAGE_DIR_ADDR + 4)
              (Z.lor (Z.lor (PAGE_TABLE_START + PAGE_SIZE) VMM_KERNEL) VMM_PRESENT) in
  mk_vmm m4 (pt_next v) true PAGE_DIR_ADDR.

(** Unfold the 1024-word loops last in conversion problems. *)
Strategy 1000 [zero_words init_zero init_identity].

(** ** Per-process directories *)

Section directories.
Context {S : Type} `{PageAllocator S}.

Definition vmm_map_user_page (p : S) (m : mem) (pd_phys virt phys : Z) : S * mem * Z :=
  if virt <? 0x800000 then (p, m, VMM_ERR_RANGE)
  else
    let store (p : S) (m : mem) :=
      (p, wr32 m (pte_addr m pd_phys virt)
            (Z.lor (Z.lor (Z.lor (frame_of phys) VMM_PRESENT) VMM_WRITABLE) VMM_USER), 0) in
    if negb (has_flag (pde m pd_phys virt) VMM_PRESENT) then
      let '(p1, pt_phys) := pa_alloc p in
      if pt_phys =? 0 then (p1, m, VMM_ERR_NOMEM)
      else if 0x800000 <=? pt_phys then (pa_free p1 pt_phys, m, VMM_ERR_NOMEM)
      else
        let m1 := zero_4kb m pt_phys in
        let m2 := wr32 m1 (pd_phys + 4 * dir_index virt)
                    (Z.lor (Z.lor (Z.lor pt_phys VMM_PRESENT) VMM_WRITABLE) VMM_USER) in
        store p1 m2
    else store p m.

Definition vmm_create_directory (p : S) (m : mem) : S * mem * Z :=
  let '(p1, pd_phys) := pa_alloc p in
  if pd_phys =? 0 then (p1, m, 0)
  else if 0x800000 <=? pd_phys then (pa_free p1 pd_phys, m, 0)
  else
    let m1 := zero_words m pd_phys 1024 in
    let m2 := wr32 m1 pd_phys (rd32 m1 PAGE_DIR_ADDR) in
    let m3 := wr32 m2 (pd_phys + 4) (rd32 m2 (PAGE_DIR_ADDR + 4)) in
    (p1, m3, pd_phys).

(** ** Well-formed directories *)

Definition dir_word (m : mem) (pd di : Z) : Z := rd32 m (pd + 4 * di).
Definition table_page (m : mem) (pd di : Z) : Z := frame_of (dir_word m pd di) / 4096.

(** A process's page directory: page aligned and owned (not free); every
    present entry points at an owned page other than the directory, distinct
    entries at distinct pages; the two kernel entries are not
    user-accessible. *)
Record dir_ok (p : S) (m : mem) (pd : Z) : Prop := {
  do_page : exists k, pd = k * 4096 /\ 0 < k < 2048 /\ pa_isfree p k = false;
  do_table : forall di, 0 <= di < 1024 -> has_flag (dir_word m pd di) VMM_PRESENT = true ->
    table_page m pd di <> pd / 4096 /\ pa_isfree p (table_page m pd di) = false;
  do_inj : forall di dj, 0 <= di < 1024 -> 0 <= dj < 1024 ->
    has_flag (dir_word m pd di) VMM_PRESENT = true -> has_flag (dir_word m pd dj) VMM_PRESENT = true ->
    table_page m pd di = table_page m pd dj -> di = dj;
  do_kernel : forall di, 0 <= di < 2 -> has_flag (dir_word m pd di) VMM_USER = false
}.

(** The pages that make up the private part of a directory: the directory
    itself and the tables of the user entries. *)
Definition private_page (m : mem) (pd k : Z) : Prop :=
  k = pd / 4096 \/
  exists di, 2 <= di < 1024 /\ has_flag (dir_word m pd di) VMM_PRESENT = true /\ k = table_page m pd di.
End directories.

(** ** Address lemmas *)

Lemma frame_of_eq e : is_u32 e -> frame_of e = e / 4096 * 4096.
Proof.
  intros. unfold frame_of. change 0xFFFFF000 with (Z.shiftl (Z.ones 20) 12).
  by apply (land_mask_down e 12 20); [lia..|].
Qed.

Lemma low12_eq x : Z.land x 0xFFF = x mod 4096.
Proof. apply (land_mask_low x 12). lia. Qed.

Lemma dir_index_eq v : dir_index v = v / 2 ^ 22.
Proof. apply Z.shiftr_div_pow2. lia. Qed.

Lemma table_index_eq v : table_index v = (v / 2 ^ 12) mod 1024.
Proof.
  unfold table_index. rewrite Z.shiftr_div_pow2 by lia. apply (land_mask_low _ 10). lia.
Qed.

Lemma dir_index_range v : is_u32 v -> 0 <= dir_index v < 1024.
Proof. unfold is_u32. rewrite dir_index_eq. intros. Z.to_euclidean_division_equations. lia. Qed.

Lemma table_index_range v : 0 <= table_index v < 1024.
Proof. rewrite table_index_eq. apply Z.mod_pos_bound. lia. Qed.

Lemma same_page_index v w :
  v / 4096 = w / 4096 -> dir_index v = dir_index w /\ table_index v = table_index w.
Proof.
  intros E. rewrite !dir_index_eq, !table_index_eq. change (2 ^ 12) with 4096. rewrite E. split; [|done].
  change (2 ^ 22) with (4096 * 1024). rewrite <- !Z.div_div by lia. by rewrite E.
Qed.

(** The two indices and the offset determine the address. *)
Lemma same_page_indices v w :
  is_u32 v -> is_u32 w -> dir_index v = dir_index w -> table_index v = table_index w ->
  v / 4096 = w / 4096.
Proof.
  unfold is_u32. rewrite !dir_index_eq, !table_index_eq. intros.
  assert (v / 4096 = 1024 * (v / 2 ^ 22) + (v / 2 ^ 12) mod 1024).
  { change (2 ^ 22) with (2 ^ 12 * 1024). rewrite <- Z.div_div by lia. apply Z.div_mod. lia. }
  assert (w / 4096 = 1024 * (w / 2 ^ 22) + (w / 2 ^ 12) mod 1024).
  { change (2 ^ 22) with (2 ^ 12 * 1024). rewrite <- Z.div_div by lia. apply Z.div_mod. lia. }
  lia.
Qed.

Lemma has_flag_testbit e i : 0 <= i -> has_flag e (2 ^ i) = Z.testbit e i.
Proof.
  intros Hi. unfold has_flag. destruct (Z.testbit e i) eqn:E.
  - apply negb_true_iff, Z.eqb_neq. intros H0.
    assert (Hb : Z.testbit (Z.land e (2 ^ i)) i = true) by (rewrite Z.land_spec, E, Z.pow2_bits_true; [done|lia]).
    rewrite H0, Z.bits_0 in Hb. done.
  - apply negb_false_iff, Z.eqb_eq. apply Z.bits_inj'. intros n Hn.
    rewrite Z.land_spec, Z.pow2_bits_eqb, Z.bits_0 by done.
    destruct (Z.eqb_spec i n) as [->|]; [by rewrite E|apply andb_false_r].
Qed.

(** A page address with flags in its low 12 bits. *)
Lemma lor_frame_flags k f : 0 <= f < 4096 -> Z.lor (k * 4096) f = k * 4096 + f.
Proof. intros. change 4096 with (2 ^ 12) in *. apply lor_low; lia. Qed.

Lemma entry_frame k f : 0 <= k < 2 ^ 20 -> 0 <= f < 4096 -> frame_of (k * 4096 + f) = k * 4096.
Proof.
  intros. rewrite frame_of_eq by (unfold is_u32; lia). f_equal. symmetry.
  apply Z.div_unique with (r := f); lia.
Qed.

Lemma entry_flag k f i : 0 <= i < 12 -> has_flag (k * 4096 + f) (2 ^ i) = has_flag f (2 ^ i).
Proof.
  intros. rewrite !has_flag_testbit by lia.
  rewrite <- (Z.mod_pow2_bits_low (k * 4096 + f) 12), <- (Z.mod_pow2_bits_low f 12) by lia.
  f_equal. rewrite Z.add_comm. change 4096 with (2 ^ 12). by rewrite Z.mod_add by lia.
Qed.

Lemma entry_flags k f :
  0 <= k < 2 ^ 20 -> 0 <= f < 4096 ->
  has_flag (k * 4096 + f) VMM_PRESENT = has_flag f VMM_PRESENT /\
  has_flag (k * 4096 + f) VMM_USER = has_flag f VMM_USER.
Proof. intros. split; [apply (entry_flag k f 0)|apply (entry_flag k f 2)]; lia. Qed.

(** The entry values the code builds. *)
Lemma user_entry_eq k :
  Z.lor (Z.lor (Z.lor (k * 4096) VMM_PRESENT) VMM_WRITABLE) VMM_USER = k * 4096 + 7.
Proof. rewrite <- !Z.lor_assoc. by apply lor_frame_flags. Qed.

Lemma kernel_entry_eq k : Z.lor (Z.lor (k * 4096) VMM_KERNEL) VMM_PRESENT = k * 4096 + 3.
Proof. rewrite <- !Z.lor_assoc. by apply lor_frame_flags. Qed.

(** ** Zeroing *)

Lemma zero_words_in m a n b :
  (b - a) mod 4 = 0 -> a <= b < a + 4 * Z.of_nat n -> rd32 (zero_words m a n) b = 0.
Proof.
  revert m a; induction n as [|n IH]; intros m a Hal Hb; [lia|]. simpl zero_words.
  destruct (Z.eq_dec a b) as [->|Hne].
  - assert (E : forall k m c, b + 4 <= c -> rd32 (zero_words m c k) b = rd32 m b).
    { induction k as [|k IHk]; intros m' c Hc; [done|]. simpl. rewrite IHk by lia.
      apply rd32_wr32_ne. lia. }
    rewrite E, rd32_wr32_eq by lia. done.
  - apply IH; Z.to_euclidean_division_equations; lia.
Qed.

Lemma zero_words_out8 m a n b :
  b < a \/ a + 4 * Z.of_nat n <= b -> rd8 (zero_words m a n) b = rd8 m b.
Proof.
  revert m a; induction n as [|n IH]; intros m a Hb; [done|]. simpl zero_words.
  rewrite IH by lia. apply rd8_wr32_ne. lia.
Qed.

Lemma zero_page_same m k : same_outside m (zero_words m (k * 4096) 1024) (fun p => p = k).
Proof.
  intros b Hb. apply zero_words_out8. destruct (Z_lt_le_dec b (k * 4096)); [by left|right].
  destruct (Z_lt_le_dec b (k * 4096 + 4096)); [|lia]. exfalso. apply Hb. symmetry.
  apply Z.div_unique with (r := b - k * 4096); lia.
Qed.

(** ** Identity map of [vmm_init] *)

Lemma init_zero_out8 m i n b :
  0 <= i -> i + Z.of_nat n <= 1024 -> (b < PAGE_DIR_ADDR \/ PAGE_TABLE_START + 2 * PAGE_SIZE <= b) ->
  rd8 (init_zero m i n) b = rd8 m b.
Proof.
  revert m i; induction n as [|n IH]; intros m i Hi Hn Hb; [done|]. cbn [init_zero].
  rewrite IH by lia. unfold PAGE_DIR_ADDR, PAGE_TABLE_START, PAGE_SIZE in *.
  rewrite !rd8_wr32_ne by lia. done.
Qed.

Lemma init_identity_out m pt base i n b :
  0 <= i -> (b + 4 <= pt + 4 * i \/ pt + 4 * (i + Z.of_nat n) <= b) ->
  rd32 (init_identity m pt base i n) b = rd32 m b.
Proof.
  revert m i; induction n as [|n IH]; intros m i Hi Hb; [done|]. cbn [init_identity].
  rewrite IH by lia. apply rd32_wr32_ne. lia.
Qed.

Lemma init_identity_in m pt base i n j :
  0 <= i -> i <= j < i + Z.of_nat n ->
  rd32 (init_identity m pt base i n) (pt + 4 * j) =
  u32 (Z.lor (Z.lor (base + j * PAGE_SIZE) VMM_KERNEL) VMM_PRESENT).
Proof.
  revert m i; induction n as [|n IH]; intros m i Hi Hj; [lia|]. cbn [init_identity].
  destruct (Z.eq_dec i j) as [->|].
  - rewrite init_identity_out by lia. apply rd32_wr32_eq.
  - apply IH; lia.
Qed.

(** The directory entries and tables [vmm_init] leaves. *)
Lemma vmm_init_tables v :
  let m := v_mem (vmm_init v) in
  rd32 m PAGE_DIR_ADDR = 0x301000 + 3 /\ rd32 m (PAGE_DIR_ADDR + 4) = 0x302000 + 3 /\
  (forall j, 0 <= j < 1024 -> rd32 m (PAGE_TABLE_START + 4 * j) = j * 4096 + 3) /\
  (forall j, 0 <= j < 1024 -> rd32 m (PAGE_TABLE_START + 0x1000 + 4 * j) = (1024 + j) * 4096 + 3).
Proof.
  unfold vmm_init. cbn [v_mem]. unfold PAGE_DIR_ADDR, PAGE_TABLE_START, PAGE_SIZE. split_and!.
  - rewrite rd32_wr32_ne, rd32_wr32_eq by lia. reflexivity.
  - rewrite rd32_wr32_eq by lia. reflexivity.
  - intros j Hj. rewrite !rd32_wr32_ne by lia. rewrite init_identity_out, init_identity_in by lia.
    unfold PAGE_SIZE. rewrite Z.add_0_l, kernel_entry_eq, u32_small by lia. done.
  - intros j Hj. rewrite !rd32_wr32_ne by lia.
    change (3149824 + 4096) with (3149824 + 0x1000). rewrite init_identity_in by lia.
    unfold PAGE_SIZE. replace (4194304 + j * 4096) with ((1024 + j) * 4096) by lia.
    rewrite kernel_entry_eq, u32_small by lia. done.
Qed.

Lemma init_zero_dir m i n j :
  0 <= i -> i <= j < i + Z.of_nat n -> i + Z.of_nat n <= 1024 ->
  rd32 (init_zero m i n) (PAGE_DIR_ADDR + 4 * j) = 0.
Proof.
  revert m i; induction n as [|n IH]; intros m i Hi Hj Hn; [lia|]. cbn [init_zero].
  destruct (Z.eq_dec i j) as [->|]; [|apply IH; lia].
  assert (E : forall k m c, j < c -> c + Z.of_nat k <= 1024 ->
    rd32 (init_zero m c k) (PAGE_DIR_ADDR + 4 * j) = rd32 m (PAGE_DIR_ADDR + 4 * j)).
  { induction k as [|k IHk]; intros m' c Hc Hk; [done|]. cbn [init_zero]. rewrite IHk by lia.
    unfold PAGE_DIR_ADDR, PAGE_TABLE_START, PAGE_SIZE. by rewrite !rd32_wr32_ne by lia. }
  rewrite E by lia. unfold PAGE_DIR_ADDR, PAGE_TABLE_START, PAGE_SIZE.
  rewrite rd32_wr32_ne, rd32_wr32_ne, rd32_wr32_eq by lia. done.
Qed.

Lemma vmm_init_dir_high v di :
  2 <= di < 1024 -> rd32 (v_mem (vmm_init v)) (PAGE_DIR_ADDR + 4 * di) = 0.
Proof.
  intros. unfold vmm_init. cbn [v_mem]. unfold PAGE_DIR_ADDR, PAGE_TABLE_START, PAGE_SIZE in *.
  rewrite !rd32_wr32_ne by lia. rewrite !init_identity_out by lia.
  apply (init_zero_dir (v_mem v) 0 1024 di); lia.
Qed.

(** ** Directory lemmas *)

Section directory_lemmas.
Context {S : Type} `{PageAllocator S}.
Implicit Types (p : S) (m : mem).

(** Both translations of [w] agree in [m] and [m']. *)
Definition lookup_same m m' (pd w : Z) : Prop :=
  vmm_get_phys_from_dir m' pd w = vmm_get_phys_from_dir m pd w /\
  vmm_get_user_phys_from_dir m' pd w = vmm_get_user_phys_from_dir m pd w.

Lemma table_page_frame m pd di : table_page m pd di * 4096 = frame_of (dir_word m pd di).
Proof.
  unfold table_page. rewrite frame_of_eq by apply rd32_range. by rewrite Z.div_mul by lia.
Qed.

Lemma pte_addr_page m pd w :
  pte_addr m pd w = table_page m pd (dir_index w) * 4096 + 4 * table_index w.
Proof. unfold pte_addr. by rewrite table_page_frame. Qed.

Lemma in_page k o : 0 <= o < 4096 -> (k * 4096 + o) / 4096 = k.
Proof. intros. symmetry. apply Z.div_unique with (r := o); lia. Qed.

Lemma in_page_aligned k o : o mod 4 = 0 -> (k * 4096 + o) mod 4 = 0.
Proof. intros. Z.to_euclidean_division_equations. lia. Qed.

Lemma same_outside_page m k o v :
  0 <= o < 4096 -> o mod 4 = 0 -> same_outside m (wr32 m (k * 4096 + o) v) (fun q => q = k).
Proof.
  intros. eapply same_outside_mono; [|apply same_outside_wr32; by apply in_page_aligned].
  simpl. intros q ->. by apply in_page.
Qed.

Lemma quad_aligned i : (4 * i) mod 4 = 0.
Proof. rewrite Z.mul_comm. apply Z.mod_mul. lia. Qed.

(** Directory words survive a write confined to another page. *)
Lemma dir_word_same p m m' pd (P : Z -> Prop) di :
  dir_ok p m pd -> same_outside m m' P -> ~ P (pd / 4096) -> 0 <= di < 1024 ->
  dir_word m' pd di = dir_word m pd di.
Proof.
  intros [(k & -> & _ & _) _ _ _] Hs HP Hdi. rewrite Z.div_mul in HP by lia.
  unfold dir_word. eapply same_outside_rd32; [done| |].
  - apply in_page_aligned, quad_aligned.
  - rewrite in_page by lia. done.
Qed.

Lemma dir_ok_same p p' m m' pd :
  (forall di, 0 <= di < 1024 -> dir_word m' pd di = dir_word m pd di) ->
  (forall q, pa_isfree p q = false -> pa_isfree p' q = false) ->
  dir_ok p m pd -> dir_ok p' m' pd.
Proof.
  intros E Hfree [(k & Hk & Hr & Hkf) Ht Hi Hu]. constructor; unfold table_page in *.
  - exists k. auto.
  - intros di Hdi. rewrite !E by done. intros Hp. destruct (Ht di Hdi Hp). auto.
  - intros di dj Hdi Hdj. rewrite !E by done. eauto.
  - intros di Hdi. rewrite E by lia. auto.
Qed.

(** Translations depend only on the directory word and the table word. *)
Lemma lookup_same_words m m' pd w :
  dir_word m' pd (dir_index w) = dir_word m pd (dir_index w) ->
  (has_flag (dir_word m pd (dir_index w)) VMM_PRESENT = true ->
   rd32 m' (pte_addr m pd w) = rd32 m (pte_addr m pd w)) ->
  lookup_same m m' pd w.
Proof.
  intros Hd Ht. unfold lookup_same, vmm_get_phys_from_dir, vmm_get_user_phys_from_dir.
  change (pde m' pd w) with (dir_word m' pd (dir_index w)).
  change (pde m pd w) with (dir_word m pd (dir_index w)).
  assert (Ha : pte_addr m' pd w = pte_addr m pd w).
  { unfold pte_addr. change (pde m' pd w) with (dir_word m' pd (dir_index w)). by rewrite Hd. }
  rewrite Ha, Hd. destruct (has_flag _ VMM_PRESENT) eqn:E; simpl; [|done].
  by rewrite Ht.
Qed.

(** Writing one page-table entry of an existing table. *)
Lemma pte_write p m pd virt val :
  dir_ok p m pd -> is_u32 virt -> has_flag (dir_word m pd (dir_index virt)) VMM_PRESENT = true ->
  let m' := wr32 m (pte_addr m pd virt) val in
  dir_ok p m' pd /\
  (forall di, 0 <= di < 1024 -> dir_word m' pd di = dir_word m pd di) /\
  rd32 m' (pte_addr m' pd virt) = u32 val /\
  same_outside m m' (fun q => q = table_page m pd (dir_index virt)) /\
  forall w, is_u32 w -> w / 4096 <> virt / 4096 -> lookup_same m m' pd w.
Proof.
  intros Hok Hv Hp m'. pose proof (dir_index_range virt Hv) as Hdi.
  pose proof (table_index_range virt) as Hti.
  destruct (do_table _ _ _ Hok _ Hdi Hp) as [Hne _].
  assert (Hs : same_outside m m' (fun q => q = table_page m pd (dir_index virt))).
  { unfold m'. rewrite pte_addr_page.
    eapply same_outside_mono; [|apply same_outside_wr32; apply in_page_aligned, quad_aligned].
    intros q ->. rewrite in_page by lia. done. }
  assert (Hd : forall di, 0 <= di < 1024 -> dir_word m' pd di = dir_word m pd di).
  { intros di ?. eapply dir_word_same; eauto; simpl; congruence. }
  split_and!; auto.
  - eapply dir_ok_same; eauto.
  - unfold pte_addr at 1. change (pde m' pd virt) with (dir_word m' pd (dir_index virt)).
    rewrite Hd by done. unfold m'. apply rd32_wr32_eq.
  - intros w Hw Hpg. apply lookup_same_words; [apply Hd; by apply dir_index_range|].
    intros Hpw. unfold m'. apply rd32_wr32_ne. rewrite !pte_addr_page.
    pose proof (table_index_range w).
    destruct (Z.eq_dec (dir_index w) (dir_index virt)) as [E|E].
    + rewrite E. assert (table_index w <> table_index virt) by (intros ?; apply Hpg; by apply same_page_indices).
      lia.
    + assert (table_page m pd (dir_index w) <> table_page m pd (dir_index virt)).
      { intros ?. apply E. eapply (do_inj _ _ _ Hok); eauto using dir_index_range. }
      lia.
Qed.

(** Installing a fresh, zeroed page table [k]. *)
Lemma table_install p p' m pd virt k :
  dir_ok p m pd -> is_u32 virt -> 2 <= dir_index virt ->
  has_flag (dir_word m pd (dir_index virt)) VMM_PRESENT = false ->
  pa_isfree p k = true -> 0 < k < 2048 ->
  (forall q, pa_isfree p' q = pa_isfree p q && negb (q =? k)) ->
  let m' := wr32 (zero_4kb m (k * 4096)) (pd + 4 * dir_index virt) (k * 4096 + 7) in
  dir_ok p' m' pd /\
  dir_word m' pd (dir_index virt) = k * 4096 + 7 /\
  (forall di, 0 <= di < 1024 -> di <> dir_index virt -> dir_word m' pd di = dir_word m pd di) /\
  same_outside m m' (fun q => q = pd / 4096 \/ q = k) /\
  forall w, is_u32 w -> lookup_same m m' pd w.
Proof.
  intros Hok Hv Hd2 Hnp Hkf Hk Hp' m'. pose proof (dir_index_range virt Hv) as Hdi.
  pose proof Hok as [(kd & Hpd & Hkd & Hkdf) Ht Hi Hu].
  assert (Hkne : kd <> k) by congruence.
  assert (Hpdk : pd / 4096 = kd) by (subst pd; apply Z.div_mul; lia).
  pose proof (zero_page_same m k) as Hz.
  assert (Hz0 : forall ti, 0 <= ti < 1024 -> rd32 (zero_4kb m (k * 4096)) (k * 4096 + 4 * ti) = 0).
  { intros ti ?. unfold zero_4kb. apply zero_words_in; [|lia].
    replace (k * 4096 + 4 * ti - k * 4096) with (4 * ti) by lia. apply quad_aligned. }
  fold (zero_4kb m (k * 4096)) in Hz. set (mz := zero_4kb m (k * 4096)) in *. clearbody mz.
  assert (Hsame : same_outside m m' (fun q => q = pd / 4096 \/ q = k)).
  { apply same_outside_trans with mz.
    - eapply same_outside_mono; [|exact Hz]. auto.
    - eapply same_outside_mono; [|apply same_outside_wr32; subst pd; apply in_page_aligned, quad_aligned].
      intros q ->. left. subst pd. rewrite in_page, Z.div_mul by lia. done. }
  assert (Hdw : forall di, 0 <= di < 1024 -> dir_word m' pd di =
    if di =? dir_index virt then k * 4096 + 7 else dir_word m pd di).
  { intros di Hr. unfold m', dir_word. destruct (Z.eqb_spec di (dir_index virt)) as [->|].
    - rewrite rd32_wr32_eq, u32_small by lia. done.
    - rewrite rd32_wr32_ne by lia. eapply (dir_word_same p m mz pd); eauto. simpl. lia. }
  assert (Hm0 : forall ti, 0 <= ti < 1024 -> rd32 m' (k * 4096 + 4 * ti) = 0).
  { intros ti ?. unfold m'. rewrite rd32_wr32_ne by lia. auto. }
  clearbody m'. destruct (entry_flags k 7) as [Hfp Hfu]; [lia..|].
  change (has_flag 7 VMM_PRESENT) with true in Hfp.
  assert (Htp : table_page m' pd (dir_index virt) = k).
  { unfold table_page. rewrite Hdw, Z.eqb_refl, entry_frame by lia. apply Z.div_mul. lia. }
  assert (Hto : forall di, 0 <= di < 1024 -> di <> dir_index virt ->
    table_page m' pd di = table_page m pd di).
  { intros di Hr Hne. unfold table_page. rewrite Hdw by done. by destruct (Z.eqb_spec di (dir_index virt)). }
  assert (Hnew : forall q, pa_isfree p q = false -> pa_isfree p' q = false).
  { intros q Hq. by rewrite Hp', Hq. }
  split_and!; try done.
  - constructor.
    + exists kd. auto.
    + intros di Hr. destruct (Z.eq_dec di (dir_index virt)) as [->|Hne].
      * rewrite Htp. intros _. split; [lia|]. rewrite Hp', Z.eqb_refl. apply andb_false_r.
      * rewrite Hto, Hdw by done. destruct (Z.eqb_spec di (dir_index virt)); [done|].
        intros Hpr. destruct (Ht di Hr Hpr). auto.
    + intros di dj Hr1 Hr2 H1 H2. rewrite Hdw in H1, H2 by done.
      destruct (Z.eqb_spec di (dir_index virt)) as [->|], (Z.eqb_spec dj (dir_index virt)) as [->|]; auto;
        rewrite ?Htp, ?Hto by done; intros E; [|subst k|eauto].
      * destruct (Ht dj Hr2 H2). congruence.
      * destruct (Ht di Hr1 H1). congruence.
    + intros di Hr. rewrite Hdw by lia. destruct (Z.eqb_spec di (dir_index virt)); [lia|]. auto.
  - by rewrite Hdw, Z.eqb_refl.
  - intros di Hr Hne. rewrite Hdw by done. by destruct (Z.eqb_spec di (dir_index virt)).
  - intros w Hw. pose proof (dir_index_range w Hw).
    destruct (Z.eq_dec (dir_index w) (dir_index virt)) as [E|E].
    + unfold lookup_same, vmm_get_phys_from_dir, vmm_get_user_phys_from_dir.
      change (pde m' pd w) with (dir_word m' pd (dir_index w)).
      change (pde m pd w) with (dir_word m pd (dir_index w)).
      rewrite E, Hdw, Z.eqb_refl, Hnp, Hfp, Hfu by done. simpl negb. cbn match.
      assert (rd32 m' (pte_addr m' pd w) = 0) as ->.
      { rewrite pte_addr_page, E, Htp. apply Hm0, table_index_range. }
      done.
    + apply lookup_same_words.
      * rewrite Hdw by done. by destruct (Z.eqb_spec (dir_index w) (dir_index virt)).
      * intros Hpw. destruct (Ht (dir_index w)) as [Hn1 Hn2]; [done..|].
        pose proof (table_index_range w). rewrite pte_addr_page.
        eapply same_outside_rd32; [exact Hsame|apply in_page_aligned, quad_aligned|].
        rewrite in_page by lia. intros [?|?]; congruence.
Qed.
End directory_lemmas.

(** ** Mapping a user page *)

Section user_mapping.
Context {S : Type} `{PageAllocator S}.
Implicit Types (p : S) (m : mem).

(** What a successful [vmm_map_user_page] guarantees. *)
Record mapped p m (pd virt phys : Z) p' m' : Prop := {
  mp_alloc : pa_ok p';
  mp_dir : dir_ok p' m' pd;
  mp_page : forall w, w / 4096 = virt / 4096 ->
    vmm_get_user_phys_from_dir m' pd w = phys / 4096 * 4096 + w mod 4096 /\
    vmm_get_phys_from_dir m' pd w = phys / 4096 * 4096 + w mod 4096;
  mp_other : forall w, is_u32 w -> w / 4096 <> virt / 4096 -> lookup_same m m' pd w;
  mp_frame : same_outside m m' (fun q => private_page m pd q \/ pa_isfree p q = true);
  mp_free : forall q, pa_isfree p' q = true -> pa_isfree p q = true;
  mp_private : forall q, private_page m' pd q -> private_page m pd q \/ pa_isfree p q = true;
  mp_low : forall di, 0 <= di < 2 -> dir_word m' pd di = dir_word m pd di
}.

Lemma lookup_same_trans m1 m2 m3 pd w :
  lookup_same m1 m2 pd w -> lookup_same m2 m3 pd w -> lookup_same m1 m3 pd w.
Proof. intros [? ?] [? ?]. split; congruence. Qed.

Lemma user_dir_index virt : is_u32 virt -> 0x800000 <= virt -> 2 <= dir_index virt.
Proof. unfold is_u32. rewrite dir_index_eq. intros. Z.to_euclidean_division_equations. lia. Qed.

(** The PTE value and what both walks make of it. *)
Lemma mapped_translation m' pd virt phys d :
  is_u32 phys ->
  dir_word m' pd (dir_index virt) = d ->
  has_flag d VMM_PRESENT = true -> has_flag d VMM_USER = true ->
  rd32 m' (pte_addr m' pd virt) = phys / 4096 * 4096 + 7 ->
  vmm_get_user_phys_from_dir m' pd virt = phys / 4096 * 4096 + virt mod 4096 /\
  vmm_get_phys_from_dir m' pd virt = phys / 4096 * 4096 + virt mod 4096.
Proof.
  intros Hph Hd Hp Hu Hpte. unfold is_u32 in Hph.
  assert (0 <= phys / 4096 < 2 ^ 20) by (Z.to_euclidean_division_equations; lia).
  destruct (entry_flags (phys / 4096) 7) as [E1 E2]; [lia..|].
  unfold vmm_get_user_phys_from_dir, vmm_get_phys_from_dir.
  change (pde m' pd virt) with (dir_word m' pd (dir_index virt)).
  rewrite Hd, Hp, Hu, Hpte, E1, E2, low12_eq, entry_frame by lia.
  change (has_flag 7 VMM_PRESENT) with true. change (has_flag 7 VMM_USER) with true. simpl.
  rewrite lor_frame_flags by (apply Z.mod_pos_bound; lia). done.
Qed.

(** In a user table every directory entry is user-accessible. *)
Definition user_tables m (pd : Z) : Prop :=
  forall di, 2 <= di < 1024 -> has_flag (dir_word m pd di) VMM_PRESENT = true ->
    has_flag (dir_word m pd di) VMM_USER = true.

Lemma frame_number phys : is_u32 phys -> 0 <= phys / 4096 < 2 ^ 20.
Proof. unfold is_u32. intros. Z.to_euclidean_division_equations. lia. Qed.

(** The table exists: only its entry is written. *)
Lemma map_existing p m pd virt phys :
  pa_ok p -> dir_ok p m pd -> user_tables m pd -> is_u32 virt -> is_u32 phys -> 2 <= dir_index virt ->
  has_flag (dir_word m pd (dir_index virt)) VMM_PRESENT = true ->
  let m' := wr32 m (pte_addr m pd virt) (phys / 4096 * 4096 + 7) in
  mapped p m pd virt phys p m' /\ user_tables m' pd.
Proof.
  intros Hp Hok Hut Hv Hph Hd2 Epr m'. pose proof (dir_index_range virt Hv) as Hdi.
  pose proof (frame_number phys Hph).
  destruct (pte_write p m pd virt (phys / 4096 * 4096 + 7) Hok Hv Epr) as (Hok' & Hd & Hpte & Hs & Hl).
  fold m' in Hok', Hd, Hpte, Hs, Hl. clearbody m'. rewrite u32_small in Hpte by lia.
  split; [constructor; auto|].
  - intros w Hw. apply same_page_index in Hw as [Ew Et].
    apply (mapped_translation m' pd w phys (dir_word m pd (dir_index virt))); auto.
    + rewrite Ew. auto.
    + apply Hut; auto. lia.
    + unfold pte_addr, pde in *. by rewrite Ew, Et.
  - eapply same_outside_mono; [|exact Hs]. intros q ->. left. right. exists (dir_index virt). auto with lia.
  - intros q [->|(di & Hr & Hpr & ->)]; left; [by left|right]. exists di. unfold table_page.
    rewrite Hd in * by lia. auto.
  - intros di Hr. apply Hd. lia.
  - intros di Hr. rewrite !Hd by lia. auto.
Qed.

(** A page table is allocated, zeroed and linked first. *)
Lemma map_fresh p p1 m pd virt phys k :
  pa_ok p1 -> dir_ok p m pd -> user_tables m pd -> is_u32 virt -> is_u32 phys -> 2 <= dir_index virt ->
  has_flag (dir_word m pd (dir_index virt)) VMM_PRESENT = false ->
  pa_isfree p k = true -> 0 < k < 2048 ->
  (forall q, pa_isfree p1 q = pa_isfree p q && negb (q =? k)) ->
  let m1 := wr32 (zero_4kb m (k * 4096)) (pd + 4 * dir_index virt) (k * 4096 + 7) in
  let m' := wr32 m1 (pte_addr m1 pd virt) (phys / 4096 * 4096 + 7) in
  mapped p m pd virt phys p1 m' /\ user_tables m' pd.
Proof.
  intros Hp1 Hok Hut Hv Hph Hd2 Epr Hkf Hk Hfree m1 m'. pose proof (dir_index_range virt Hv) as Hdi.
  destruct (table_install p p1 m pd virt k Hok Hv Hd2 Epr Hkf Hk Hfree) as (Hok1 & Hd1 & Hdo & Hs1 & Hl1).
  fold m1 in Hok1, Hd1, Hdo, Hs1, Hl1. clearbody m1.
  destruct (entry_flags k 7) as [F1 F2]; [lia..|].
  change (has_flag 7 VMM_PRESENT) with true in F1. change (has_flag 7 VMM_USER) with true in F2.
  assert (Hut1 : user_tables m1 pd).
  { intros di Hr. destruct (Z.eq_dec di (dir_index virt)) as [->|Hne]; [by rewrite Hd1|].
    rewrite Hdo by (done || lia). auto. }
  destruct (map_existing p1 m1 pd virt phys) as [[] Hut']; auto; [by rewrite Hd1|].
  fold m' in mp_dir0, mp_page0, mp_other0, mp_frame0, mp_private0, mp_low0, Hut'. clearbody m'.
  assert (Htp : table_page m1 pd (dir_index virt) = k).
  { unfold table_page. rewrite Hd1, entry_frame by lia. apply Z.div_mul. lia. }
  assert (Hpv : forall q, private_page m1 pd q -> private_page m pd q \/ pa_isfree p q = true).
  { intros q [->|(di & Hr & Hpr & ->)]; [left; by left|].
    destruct (Z.eq_dec di (dir_index virt)) as [->|Hne]; [right; by rewrite Htp|].
    left. right. exists di. unfold table_page in *. rewrite Hdo in * by (done || lia). auto. }
  assert (Hf1 : forall q, pa_isfree p1 q = true -> pa_isfree p q = true).
  { intros q. rewrite Hfree. intros ?. by b2p. }
  split; [constructor; auto|done].
  - intros w Hw Hne. eapply lookup_same_trans; [apply Hl1|apply mp_other0]; auto.
  - apply same_outside_trans with m1.
    + eapply same_outside_mono; [|exact Hs1]. intros q [->| ->]; [left; by left|by right].
    + eapply same_outside_mono; [|exact mp_frame0]. intros q [?|Hq]; auto.
  - intros q Hq. destruct (mp_private0 q Hq); auto.
  - intros di Hr. rewrite mp_low0 by done. apply Hdo; lia.
Qed.

Lemma map_user_page_spec p m pd virt phys p' m' r :
  pa_ok p -> dir_ok p m pd -> user_tables m pd -> is_u32 virt -> is_u32 phys ->
  vmm_map_user_page p m pd virt phys = (p', m', r) ->
  (r = 0 /\ 0x800000 <= virt /\ mapped p m pd virt phys p' m' /\ user_tables m' pd) \/
  (r < 0 /\ p' = p /\ m' = m).
Proof.
  intros Hp Hok Hut Hv Hph. unfold vmm_map_user_page.
  destruct (virt <? 0x800000) eqn:Hlow; b2p.
  { intros [= <- <- <-]. right. unfold VMM_ERR_RANGE. split_and!; done. }
  pose proof (user_dir_index virt Hv Hlow) as Hd2.
  cbn zeta. rewrite frame_of_eq, user_entry_eq by done.
  change (pde m pd virt) with (dir_word m pd (dir_index virt)).
  destruct (has_flag (dir_word m pd (dir_index virt)) VMM_PRESENT) eqn:Epr; simpl negb; cbn match.
  - destruct (map_existing p m pd virt phys) as [Hm Hu]; auto. cbn zeta in Hm, Hu.
    revert Hm Hu. generalize (wr32 m (pte_addr m pd virt) (phys / 4096 * 4096 + 7)) as mm.
    intros mm Hm Hu [= <- <- <-]. left. auto.
  - destruct (pa_alloc p) as [p1 pt] eqn:Ea. apply pa_alloc_law in Ea; [|done].
    destruct Ea as [(-> & -> & _)|(k & -> & Hkf & Hp1 & Hfree)].
    { intros [= <- <- <-]. right. unfold VMM_ERR_NOMEM. split_and!; done. }
    pose proof (pa_isfree_range p k Hp Hkf) as Hk.
    destruct (Z.eqb_spec (k * 4096) 0); [lia|].
    destruct (0x800000 <=? k * 4096) eqn:?; b2p; [lia|].
    rewrite user_entry_eq.
    destruct (map_fresh p p1 m pd virt phys k) as [Hm Hu]; auto. cbn zeta in Hm, Hu.
    revert Hm Hu. generalize (wr32 (zero_4kb m (k * 4096)) (pd + 4 * dir_index virt) (k * 4096 + 7)) as m1.
    intros m1. generalize (wr32 m1 (pte_addr m1 pd virt) (phys / 4096 * 4096 + 7)) as mm.
    intros mm Hm Hu [= <- <- <-]. left. auto.
Qed.

(** ** Creating a directory *)

(** The kernel directory's two identity-map entries, as [vmm_init] leaves
    them: supervisor-only entries with two distinct tables in owned pages. *)
Record kernel_dir_ok p m : Prop := {
  kd_dir : pa_isfree p (PAGE_DIR_ADDR / 4096) = false;
  kd_tables : forall di, 0 <= di < 2 -> pa_isfree p (table_page m PAGE_DIR_ADDR di) = false;
  kd_super : forall di, 0 <= di < 2 -> has_flag (dir_word m PAGE_DIR_ADDR di) VMM_USER = false;
  kd_two : table_page m PAGE_DIR_ADDR 0 <> table_page m PAGE_DIR_ADDR 1
}.

(** The words of the new directory. *)
Lemma create_directory_words p p' m m' pd :
  pa_ok p -> kernel_dir_ok p m -> vmm_create_directory p m = (p', m', pd) -> pd <> 0 ->
  exists k, pd = k * 4096 /\ 0 < k < 2048 /\ pa_isfree p k = true /\ pa_ok p' /\
    (forall q, pa_isfree p' q = pa_isfree p q && negb (q =? k)) /\
    same_outside m m' (fun q => q = k) /\
    forall di, 0 <= di < 1024 ->
      dir_word m' pd di = if di <? 2 then dir_word m PAGE_DIR_ADDR di else 0.
Proof.
  intros Hp Hk. unfold vmm_create_directory. destruct (pa_alloc p) as [p1 a] eqn:Ea.
  apply pa_alloc_law in Ea; [|done].
  destruct Ea as [(-> & -> & _)|(k & -> & Hkf & Hp1 & Hfree)]; [intros [= <- <- <-]; done|].
  pose proof (pa_isfree_range p k Hp Hkf) as Hkr.
  destruct (Z.eqb_spec (k * 4096) 0); [lia|]. destruct (0x800000 <=? k * 4096) eqn:?; b2p; [lia|].
  pose proof (zero_page_same m k) as Hz.
  assert (Hzin : forall di, 0 <= di < 1024 -> rd32 (zero_words m (k * 4096) 1024) (k * 4096 + 4 * di) = 0).
  { intros di ?. apply zero_words_in; [|lia].
    replace (k * 4096 + 4 * di - k * 4096) with (4 * di) by lia. apply quad_aligned. }
  revert Hz Hzin. generalize (zero_words m (k * 4096) 1024) as mz. intros mz Hz Hzin.
  assert (Hkd : k <> 0x300) by (intros ->; pose proof (kd_dir _ _ Hk) as Hkd; change (PAGE_DIR_ADDR / 4096) with 0x300 in Hkd; congruence).
  assert (Hz0 : forall di, 0 <= di < 2 -> rd32 mz (PAGE_DIR_ADDR + 4 * di) = dir_word m PAGE_DIR_ADDR di).
  { intros di ?. eapply same_outside_rd32; [exact Hz| |].
    - change PAGE_DIR_ADDR with (0x300 * 4096). apply in_page_aligned, quad_aligned.
    - change PAGE_DIR_ADDR with (0x300 * 4096). rewrite in_page by lia. congruence. }
  pose proof (Hz0 0 ltac:(lia)) as Hw0. pose proof (Hz0 1 ltac:(lia)) as Hw1.
  change (PAGE_DIR_ADDR + 4 * 0) with PAGE_DIR_ADDR in Hw0. change (PAGE_DIR_ADDR + 4 * 1) with (PAGE_DIR_ADDR + 4) in Hw1.
  intros E _. injection E as <- <- <-. exists k. split_and!; try done; try lia.
  - apply same_outside_trans with mz; [done|].
    replace (wr32 mz (k * 4096)) with (wr32 mz (k * 4096 + 0)) by (f_equal; lia).
    eapply same_outside_trans; apply same_outside_page; done || lia.
  - intros di Hdi. unfold dir_word at 1.
    rewrite (rd32_wr32_ne _ _ (PAGE_DIR_ADDR + 4)) by (unfold PAGE_DIR_ADDR; lia).
    rewrite Hw0, Hw1. destruct (Z.eq_dec di 0) as [->|]; [|destruct (Z.eq_dec di 1) as [->|]].
    + rewrite Z.add_0_r, rd32_wr32_ne, rd32_wr32_eq by lia. apply u32_small, rd32_range.
    + rewrite rd32_wr32_eq. apply u32_small, rd32_range.
    + destruct (di <? 2) eqn:?; b2p; [lia|]. rewrite !rd32_wr32_ne by lia. auto.
Qed.

Lemma flag_zero f : has_flag 0 f = false.
Proof. done. Qed.

Lemma create_directory_ok p p' m m' pd :
  pa_ok p -> kernel_dir_ok p m -> vmm_create_directory p m = (p', m', pd) -> pd <> 0 ->
  pa_ok p' /\ dir_ok p' m' pd /\ user_tables m' pd /\
  same_outside m m' (fun q => q = pd / 4096 /\ pa_isfree p q = true) /\
  forall w, is_u32 w ->
    vmm_get_user_phys_from_dir m' pd w = 0 /\
    vmm_get_phys_from_dir m' pd w = if w <? 0x800000 then vmm_get_phys_from_dir m PAGE_DIR_ADDR w else 0.
Proof.
  intros Hp Hk E Hne.
  destruct (create_directory_words _ _ _ _ _ Hp Hk E Hne) as (k & -> & Hkr & Hkf & Hp' & Hfree & Hs & Hw).
  clear E. assert (Htp : forall di, 0 <= di < 2 -> table_page m' (k * 4096) di = table_page m PAGE_DIR_ADDR di).
  { intros di Hdi. unfold table_page. rewrite Hw by lia. by replace (di <? 2) with true by lia. }
  assert (Hpr : forall di, 0 <= di < 1024 -> has_flag (dir_word m' (k * 4096) di) VMM_PRESENT = true -> di < 2).
  { intros di Hdi. rewrite Hw by done. destruct (di <? 2) eqn:?; b2p; [lia|]. by rewrite flag_zero. }
  assert (Hku : forall di, 0 <= di < 1024 -> has_flag (dir_word m' (k * 4096) di) VMM_USER = false).
  { intros di Hdi. rewrite Hw by done. destruct (di <? 2) eqn:?; b2p; [|apply flag_zero].
    apply (kd_super _ _ Hk). lia. }
  split_and!; try done.
  - constructor.
    + exists k. split_and!; try done; try lia. rewrite Hfree, Z.eqb_refl. apply andb_false_r.
    + intros di Hdi H1. specialize (Hpr di Hdi H1). rewrite Htp, Z.div_mul by lia.
      pose proof (kd_tables _ _ Hk di ltac:(lia)) as Hf. split; [congruence|]. by rewrite Hfree, Hf.
    + intros di dj Hdi Hdj H1 H2. pose proof (Hpr di Hdi H1). pose proof (Hpr dj Hdj H2).
      rewrite !Htp by lia. pose proof (kd_two _ _ Hk).
      destruct (Z.eq_dec di dj); [done|]. intros Heq. exfalso.
      assert (di = 0 /\ dj = 1 \/ di = 1 /\ dj = 0) as [[-> ->]|[-> ->]] by lia; congruence.
    + intros di Hdi. apply Hku. lia.
  - intros di Hdi H1. specialize (Hpr di ltac:(lia) H1). lia.
  - eapply same_outside_mono; [|exact Hs]. intros q ->. rewrite Z.div_mul by lia. done.
  - intros w Hwr. pose proof (dir_index_range w Hwr) as Hdi.
    unfold vmm_get_user_phys_from_dir, vmm_get_phys_from_dir.
    change (pde m' (k * 4096) w) with (dir_word m' (k * 4096) (dir_index w)).
    change (pde m PAGE_DIR_ADDR w) with (dir_word m PAGE_DIR_ADDR (dir_index w)).
    rewrite Hku by done. rewrite orb_true_r. split; [done|].
    assert (Hlow : (w <? 0x800000) = (dir_index w <? 2)).
    { unfold is_u32 in Hwr. rewrite dir_index_eq. Z.to_euclidean_division_equations. lia. }
    rewrite Hlow. destruct (dir_index w <? 2) eqn:Hd2; b2p.
    + rewrite !pte_addr_page, Htp, Hw by lia. replace (dir_index w <? 2) with true by lia.
      destruct (has_flag _ VMM_PRESENT) eqn:Hpp; [|done]. simpl negb. cbn match.
      assert (rd32 m' (table_page m PAGE_DIR_ADDR (dir_index w) * 4096 + 4 * table_index w) =
              rd32 m (table_page m PAGE_DIR_ADDR (dir_index w) * 4096 + 4 * table_index w)) as ->; [|done].
      pose proof (table_index_range w).
      eapply same_outside_rd32; [exact Hs|apply in_page_aligned, quad_aligned|].
      rewrite in_page by lia. pose proof (kd_tables _ _ Hk (dir_index w) ltac:(lia)). congruence.
    + rewrite Hw by done. replace (dir_index w <? 2) with false by lia. done.
Qed.
End user_mapping.

(** ** Address spaces as finite maps *)

Section address_space.
Context {S : Type} `{PageAllocator S}.
Implicit Types (p : S) (m : mem).

(** The abstract view of a user address space: page number to frame number. *)
Definition space_refines m (pd : Z) (sp : gmap Z Z) : Prop :=
  forall w, is_u32 w ->
    vmm_get_user_phys_from_dir m pd w =
    match sp !! (w / 4096) with
    | Some f => f * 4096 + w mod 4096
    | None => 0
    end.

(** A sequence of [vmm_map_user_page] calls, next to the map it stands for: a
    call that reports an error changes nothing. *)
Fixpoint run_maps p m (pd : Z) (l : list (Z * Z)) (sp : gmap Z Z) : S * mem * gmap Z Z :=
  match l with
  | [] => (p, m, sp)
  | (virt, phys) :: l' =>
      let '(p1, m1, r) := vmm_map_user_page p m pd virt phys in
      run_maps p1 m1 pd l' (if r =? 0 then <[virt / 4096 := phys / 4096]> sp else sp)
  end.

Definition maps_u32 (l : list (Z * Z)) : Prop := Forall (fun vp => is_u32 (fst vp) /\ is_u32 (snd vp)) l.

Lemma space_refines_map p m pd virt phys p' m' sp :
  space_refines m pd sp -> mapped p m pd virt phys p' m' -> is_u32 virt ->
  space_refines m' pd (<[virt / 4096 := phys / 4096]> sp).
Proof.
  intros Hr Hm Hv w Hw. destruct (Z.eq_dec (w / 4096) (virt / 4096)) as [E|E].
  - rewrite E, lookup_insert_eq. by apply (mp_page _ _ _ _ _ _ _ Hm).
  - rewrite lookup_insert_ne by congruence. rewrite <- (Hr w Hw).
    apply (mp_other _ _ _ _ _ _ _ Hm w); auto.
Qed.

Lemma run_maps_refines l p m pd sp p' m' sp' :
  pa_ok p -> dir_ok p m pd -> user_tables m pd -> maps_u32 l -> space_refines m pd sp ->
  (forall k, is_Some (sp !! k) -> 2048 <= k) ->
  run_maps p m pd l sp = (p', m', sp') ->
  pa_ok p' /\ dir_ok p' m' pd /\ user_tables m' pd /\ space_refines m' pd sp' /\
  (forall k, is_Some (sp' !! k) -> 2048 <= k).
Proof.
  revert p m sp; induction l as [|[virt phys] l IH]; intros p m sp Hp Hd Hu Hl Hs Hk; cbn [run_maps].
  - intros [= <- <- <-]. auto.
  - inversion Hl as [|? ? [Hv Hph] Hl']; subst. simpl in Hv, Hph.
    destruct (vmm_map_user_page p m pd virt phys) as [[p1 m1] r] eqn:E. intros Hrun.
    destruct (map_user_page_spec p m pd virt phys p1 m1 r Hp Hd Hu Hv Hph E)
      as [(-> & Hlow & Hm & Hu1)|(Hr & -> & ->)].
    + rewrite Z.eqb_refl in Hrun.
      apply (IH p1 m1 (<[virt / 4096 := phys / 4096]> sp)); eauto using mp_alloc, mp_dir, space_refines_map.
      intros k [f Hf]. destruct (Z.eq_dec k (virt / 4096)) as [->|].
      * Z.to_euclidean_division_equations. lia.
      * rewrite lookup_insert_ne in Hf by congruence. eauto.
    + destruct (Z.eqb_spec r 0); [lia|]. eapply IH; eauto.
Qed.

(** Writes confined to the private pages of one directory and to free pages
    leave another directory's translations alone. *)
Lemma other_dir_same p m m' pdA pdB w :
  dir_ok p m pdA -> dir_ok p m pdB ->
  (forall di, 0 <= di < 2 -> has_flag (dir_word m pdA di) VMM_PRESENT = true) ->
  (forall di, 0 <= di < 2 -> dir_word m pdB di = dir_word m pdA di) ->
  (forall k, private_page m pdB k -> ~ private_page m pdA k) ->
  same_outside m m' (fun q => private_page m pdA q \/ pa_isfree p q = true) ->
  is_u32 w -> lookup_same m m' pdB w.
Proof.
  intros HA HB Hkp Hk Hdis Hs Hw. pose proof (dir_index_range w Hw) as Hdi.
  pose proof HB as [(kB & -> & HkB & HfB) HtB _ _].
  assert (Hout : forall k, private_page m (kB * 4096) k -> pa_isfree p k = false ->
    ~ (private_page m pdA k \/ pa_isfree p k = true)).
  { intros k Hpk Hfk [?|?]; [by eapply Hdis|congruence]. }
  assert (HoutB : ~ (private_page m pdA kB \/ pa_isfree p kB = true)).
  { apply Hout; [left; by rewrite Z.div_mul by lia|done]. }
  apply lookup_same_words.
  - unfold dir_word. eapply same_outside_rd32; [exact Hs|apply in_page_aligned, quad_aligned|].
    by rewrite in_page by lia.
  - intros Hp. rewrite pte_addr_page. pose proof (table_index_range w).
    eapply same_outside_rd32; [exact Hs|apply in_page_aligned, quad_aligned|]. rewrite in_page by lia.
    destruct (HtB _ Hdi Hp) as [Hne Hf].
    destruct (Z_lt_le_dec (dir_index w) 2) as [Hlt|Hge].
    + intros [[Ha|(dj & Hdj & Hpj & Hdt)]|?]; [| |congruence].
      * unfold table_page in Ha. rewrite Hk in Ha by lia. rewrite Hk in Hp by lia.
        destruct (do_table _ _ _ HA _ Hdi Hp). unfold table_page in *. congruence.
      * unfold table_page in Hdt. rewrite Hk in Hdt, Hp by lia.
        pose proof (do_inj _ _ _ HA (dir_index w) dj Hdi ltac:(lia) Hp Hpj Hdt). lia.
    + apply Hout; [|done]. right. exists (dir_index w). auto with lia.
Qed.

Lemma kernel_dir_words p m :
  (forall q, 0 <= q < 1024 -> pa_isfree p q = false) ->
  rd32 m PAGE_DIR_ADDR = 0x301000 + 3 -> rd32 m (PAGE_DIR_ADDR + 4) = 0x302000 + 3 -> kernel_dir_ok p m.
Proof.
  intros Hf H0 H1.
  assert (E0 : dir_word m PAGE_DIR_ADDR 0 = 0x301003) by exact H0.
  assert (E1 : dir_word m PAGE_DIR_ADDR 1 = 0x302003) by exact H1.
  constructor; unfold table_page.
  - by apply Hf.
  - intros di Hdi. assert (di = 0 \/ di = 1) as [-> | ->] by lia; rewrite ?E0, ?E1; by apply Hf.
  - intros di Hdi. assert (di = 0 \/ di = 1) as [-> | ->] by lia; by rewrite ?E0, ?E1.
  - rewrite E0, E1. done.
Qed.

Lemma vmm_init_kernel_dir_ok p v :
  (forall q, 0 <= q < 1024 -> pa_isfree p q = false) -> kernel_dir_ok p (v_mem (vmm_init v)).
Proof. intros Hf. destruct (vmm_init_tables v) as (H0 & H1 & _ & _). by apply kernel_dir_words. Qed.
End address_space.

(** ** All address spaces together *)

Record vm_state (S : Type) := mk_vm_state {
  vs_alloc : S;
  vs_mem : mem;
  vs_dirs : list Z        (** the directories created so far *)
}.
Arguments mk_vm_state {S} _ _ _.
Arguments vs_alloc {S} _.
Arguments vs_mem {S} _.
Arguments vs_dirs {S} _.

Section spaces.
Context {S : Type} `{PageAllocator S}.
Implicit Types st : vm_state S.

Inductive vm_step : vm_state S -> vm_state S -> Prop :=
| vs_create st p' m' pd :
    vmm_create_directory (vs_alloc st) (vs_mem st) = (p', m', pd) -> pd <> 0 ->
    vm_step st (mk_vm_state p' m' (pd :: vs_dirs st))
| vs_map st p' m' pd virt phys r :
    pd ∈ vs_dirs st -> is_u32 virt -> is_u32 phys ->
    vmm_map_user_page (vs_alloc st) (vs_mem st) pd virt phys = (p', m', r) ->
    vm_step st (mk_vm_state p' m' (vs_dirs st)).

Record spaces_ok st : Prop := {
  so_alloc : pa_ok (vs_alloc st);
  so_kernel : kernel_dir_ok (vs_alloc st) (vs_mem st);
  so_present : forall di, 0 <= di < 2 -> has_flag (dir_word (vs_mem st) PAGE_DIR_ADDR di) VMM_PRESENT = true;
  so_dir : forall pd, pd ∈ vs_dirs st ->
    dir_ok (vs_alloc st) (vs_mem st) pd /\ user_tables (vs_mem st) pd /\
    forall di, 0 <= di < 2 -> dir_word (vs_mem st) pd di = dir_word (vs_mem st) PAGE_DIR_ADDR di;
  so_kpage : forall pd, pd ∈ vs_dirs st -> ~ private_page (vs_mem st) pd (PAGE_DIR_ADDR / 4096);
  so_disjoint : forall a b k, a ∈ vs_dirs st -> b ∈ vs_dirs st -> a <> b ->
    private_page (vs_mem st) a k -> ~ private_page (vs_mem st) b k
}.

Lemma private_not_free (p : S) m pd k : dir_ok p m pd -> private_page m pd k -> pa_isfree p k = false.
Proof.
  intros [(kd & -> & _ & Hf) Ht _ _] [->|(di & Hdi & Hp & ->)]; [by rewrite Z.div_mul by lia|].
  by apply Ht; [lia|].
Qed.

(** Directory words of a directory whose page is untouched. *)
Lemma words_same (p : S) m m' pd (P : Z -> Prop) :
  dir_ok p m pd -> same_outside m m' P -> ~ P (pd / 4096) ->
  (forall di, 0 <= di < 1024 -> dir_word m' pd di = dir_word m pd di) /\
  (forall k, private_page m' pd k <-> private_page m pd k).
Proof.
  intros Hd Hs HP.
  assert (E : forall di, 0 <= di < 1024 -> dir_word m' pd di = dir_word m pd di)
    by (intros; eapply dir_word_same; eauto).
  split; [done|]. intros k. unfold private_page, table_page.
  split; intros [->|(di & Hdi & Hp & ->)]; auto; right; exists di; rewrite E in * by lia; auto.
Qed.

Lemma kernel_words_same m m' (P : Z -> Prop) di :
  same_outside m m' P -> ~ P (PAGE_DIR_ADDR / 4096) -> 0 <= di < 2 ->
  dir_word m' PAGE_DIR_ADDR di = dir_word m PAGE_DIR_ADDR di.
Proof.
  intros Hs HP Hdi. unfold dir_word. eapply same_outside_rd32; [exact Hs| |].
  - change PAGE_DIR_ADDR with (0x300 * 4096). apply in_page_aligned, quad_aligned.
  - change PAGE_DIR_ADDR with (0x300 * 4096) in *. rewrite Z.div_mul in HP by lia. by rewrite in_page by lia.
Qed.

(** A change confined to [P], with every page of the kernel directory and of
    the directories [l] outside [P], preserves what is known of them. *)
Lemma kernel_dir_same (p p' : S) m m' (P : Z -> Prop) :
  kernel_dir_ok p m -> same_outside m m' P -> ~ P (PAGE_DIR_ADDR / 4096) ->
  (forall q, pa_isfree p' q = true -> pa_isfree p q = true) -> kernel_dir_ok p' m'.
Proof.
  intros [Hd Ht Hs Htwo] Hsame HP Hf.
  assert (Hf' : forall q, pa_isfree p q = false -> pa_isfree p' q = false).
  { intros q Hq. destruct (pa_isfree p' q) eqn:E; [|done]. apply Hf in E. congruence. }
  assert (E : forall di, 0 <= di < 2 -> dir_word m' PAGE_DIR_ADDR di = dir_word m PAGE_DIR_ADDR di)
    by (intros; eapply kernel_words_same; eauto).
  constructor; unfold table_page in *; auto; intros; rewrite ?E by lia; auto.
Qed.
Lemma create_preserves_spaces st p' m' pd :
  spaces_ok st -> vmm_create_directory (vs_alloc st) (vs_mem st) = (p', m', pd) -> pd <> 0 ->
  spaces_ok (mk_vm_state p' m' (pd :: vs_dirs st)).
Proof.
  intros Hst E Hne. destruct st as [p m dirs]. simpl in E.
  pose proof Hst as [Hp Hk Hpr Hd Hkp Hdj]. simpl in Hp, Hk, Hpr, Hd, Hkp, Hdj.
  destruct (create_directory_words _ _ _ _ _ Hp Hk E Hne) as (k & Hpd & Hkr & Hkf & Hp' & Hfree & Hs & Hw).
  destruct (create_directory_ok _ _ _ _ _ Hp Hk E Hne) as (_ & Hdok & Hut & _ & _). clear E Hne.
  assert (Hk3 : k <> PAGE_DIR_ADDR / 4096) by (intros ->; pose proof (kd_dir _ _ Hk); congruence).
  assert (Hf : forall q, pa_isfree p' q = true -> pa_isfree p q = true)
    by (intros q; rewrite Hfree; intros; by b2p).
  assert (Hnew : forall q, private_page m' pd q -> q = k).
  { intros q [->|(di & Hdi & Hpp & ->)]; [subst pd; apply Z.div_mul; lia|].
    rewrite Hw in Hpp by lia. by replace (di <? 2) with false in Hpp by lia. }
  assert (Hold : forall a, a ∈ dirs ->
    (forall di, 0 <= di < 1024 -> dir_word m' a di = dir_word m a di) /\
    (forall q, private_page m' a q <-> private_page m a q) /\ ~ private_page m a k).
  { intros a Ha. destruct (Hd a Ha) as (Hda & _ & _).
    assert (Hnk : ~ private_page m a k) by (intros Hq; pose proof (private_not_free _ _ _ _ Hda Hq); congruence).
    destruct (words_same p m m' a _ Hda Hs) as [E1 E2]; [intros Heq; apply Hnk; left; done|]. auto. }
  assert (Hkw : forall di, 0 <= di < 2 -> dir_word m' PAGE_DIR_ADDR di = dir_word m PAGE_DIR_ADDR di).
  { intros di Hdi. eapply kernel_words_same; eauto; simpl; congruence. }
  constructor; simpl; auto.
  - eapply kernel_dir_same; eauto; simpl; congruence.
  - intros di Hdi. rewrite Hkw by done. auto.
  - intros a [->|Ha]%elem_of_cons.
    + split_and!; auto. intros di Hdi. rewrite Hw, Hkw by lia. by replace (di <? 2) with true by lia.
    + destruct (Hd a Ha) as (H1 & H2 & H3). destruct (Hold a Ha) as (E1 & _ & _). split_and!.
      * apply (dir_ok_same p p' m m' a); auto. intros q Hq. by rewrite Hfree, Hq.
      * intros di Hdi. rewrite E1 by lia. auto.
      * intros di Hdi. rewrite E1, Hkw by lia. auto.
  - intros a [->|Ha]%elem_of_cons Hq; [apply Hnew in Hq; congruence|].
    destruct (Hold a Ha) as (_ & E2 & _). apply E2 in Hq. by eapply Hkp.
  - intros a b q [->|Ha]%elem_of_cons [->|Hb]%elem_of_cons Hab Hqa Hqb; try done.
    + apply Hnew in Hqa as ->. destruct (Hold b Hb) as (_ & E2 & Hn). apply Hn, E2, Hqb.
    + apply Hnew in Hqb as ->. destruct (Hold a Ha) as (_ & E2 & Hn). apply Hn, E2, Hqa.
    + destruct (Hold a Ha) as (_ & E2 & _). destruct (Hold b Hb) as (_ & E3 & _).
      apply E2 in Hqa. apply E3 in Hqb. by eapply (Hdj a b q).
Qed.

(** A page of another directory (or the kernel directory's page) is not among
    the pages a mapping into [a] may write. *)
Lemma outside_footprint st a k :
  spaces_ok st -> a ∈ vs_dirs st ->
  (k = PAGE_DIR_ADDR / 4096 \/ exists b, b ∈ vs_dirs st /\ b <> a /\ private_page (vs_mem st) b k) ->
  ~ (private_page (vs_mem st) a k \/ pa_isfree (vs_alloc st) k = true).
Proof.
  intros Hst Ha [->|(b & Hb & Hne & Hk)] [Hq|Hq].
  - by eapply (so_kpage _ Hst a).
  - pose proof (kd_dir _ _ (so_kernel _ Hst)). congruence.
  - by eapply (so_disjoint _ Hst b a k).
  - destruct (so_dir _ Hst b Hb) as (Hd & _ & _). pose proof (private_not_free _ _ _ _ Hd Hk). congruence.
Qed.

Lemma map_preserves_spaces st p' m' pd virt phys r :
  spaces_ok st -> pd ∈ vs_dirs st -> is_u32 virt -> is_u32 phys ->
  vmm_map_user_page (vs_alloc st) (vs_mem st) pd virt phys = (p', m', r) ->
  spaces_ok (mk_vm_state p' m' (vs_dirs st)).
Proof.
  intros Hst Hin Hv Hph E. destruct (so_dir _ Hst pd Hin) as (Hd & Hu & Hkw).
  destruct (map_user_page_spec _ _ _ _ _ _ _ _ (so_alloc _ Hst) Hd Hu Hv Hph E)
    as [(-> & _ & Hm & Hu')|(_ & -> & ->)]; [|by destruct st]. clear E.
  destruct Hm as [Hp' Hd' _ _ Hfr Hfree Hpv Hlow].
  assert (Hok : ~ (private_page (vs_mem st) pd (PAGE_DIR_ADDR / 4096) \/
                   pa_isfree (vs_alloc st) (PAGE_DIR_ADDR / 4096) = true))
    by (apply outside_footprint; auto).
  assert (Hkeep : forall di, 0 <= di < 2 -> dir_word m' PAGE_DIR_ADDR di = dir_word (vs_mem st) PAGE_DIR_ADDR di)
    by (intros; eapply kernel_words_same; eauto).
  assert (Hoth : forall b, b ∈ vs_dirs st -> b <> pd ->
    (forall di, 0 <= di < 1024 -> dir_word m' b di = dir_word (vs_mem st) b di) /\
    (forall k, private_page m' b k <-> private_page (vs_mem st) b k)).
  { intros b Hb Hne. destruct (so_dir _ Hst b Hb) as (Hdb & _ & _).
    eapply words_same; [exact Hdb|exact Hfr|]. apply outside_footprint; auto. right. exists b.
    split_and!; auto. by left. }
  assert (Hfk : forall q, pa_isfree (vs_alloc st) q = false -> pa_isfree p' q = false).
  { intros q Hq. destruct (pa_isfree p' q) eqn:Eq; [|done]. apply Hfree in Eq. congruence. }
  constructor; simpl; auto.
  - eapply kernel_dir_same; eauto using so_kernel.
  - intros di Hdi. rewrite Hkeep by done. by apply so_present.
  - intros b Hb. destruct (Z.eq_dec b pd) as [->|Hne].
    + split_and!; auto. intros di Hdi. rewrite Hlow, Hkeep by done. auto.
    + destruct (so_dir _ Hst b Hb) as (H1 & H2 & H3). destruct (Hoth b Hb Hne) as [E1 _]. split_and!.
      * eapply dir_ok_same; eauto.
      * intros di Hdi. rewrite E1 by lia. auto.
      * intros di Hdi. rewrite E1, Hkeep by lia. auto.
  - intros b Hb Hq. destruct (Z.eq_dec b pd) as [->|Hne].
    + apply Hok. auto.
    + apply Hoth in Hq; auto. by eapply (so_kpage _ Hst b).
  - assert (Hcross : forall b q, b ∈ vs_dirs st -> b <> pd -> private_page m' b q -> ~ private_page m' pd q).
    { intros b q Hb Hne Hq Hq'. apply Hpv in Hq'. apply Hoth in Hq; auto.
      eapply (outside_footprint st pd q); eauto. }
    intros a b q Ha Hb Hab Hqa Hqb.
    destruct (Z.eq_dec a pd) as [->|Hna]; [eapply (Hcross b q); eauto|].
    destruct (Z.eq_dec b pd) as [->|Hnb]; [eapply (Hcross a q); eauto|].
    apply Hoth in Hqa; [|done..]. apply Hoth in Hqb; [|done..].
    exact (so_disjoint _ Hst a b q Ha Hb Hab Hqa Hqb).
Qed.

Lemma vm_step_spaces st st' : vm_step st st' -> spaces_ok st -> spaces_ok st'.
Proof.
  intros [? ? ? ? E Hne|? ? ? ? ? ? ? Hin Hv Hph E] Hst.
  - exact (create_preserves_spaces _ _ _ _ Hst E Hne).
  - exact (map_preserves_spaces _ _ _ _ _ _ _ Hst Hin Hv Hph E).
Qed.

Lemma vm_steps_spaces st st' : rtc vm_step st st' -> spaces_ok st -> spaces_ok st'.
Proof. induction 1; eauto using vm_step_spaces. Qed.

Lemma spaces_other_dir st m' pdA pdB w :
  spaces_ok st -> pdA ∈ vs_dirs st -> pdB ∈ vs_dirs st -> pdA <> pdB ->
  same_outside (vs_mem st) m' (fun q => private_page (vs_mem st) pdA q \/ pa_isfree (vs_alloc st) q = true) ->
  is_u32 w -> lookup_same (vs_mem st) m' pdB w.
Proof.
  intros Hst HA HB Hne Hs Hw.
  destruct (so_dir _ Hst pdA HA) as (HdA & _ & HkA). destruct (so_dir _ Hst pdB HB) as (HdB & _ & HkB).
  apply (other_dir_same (vs_alloc st) (vs_mem st) m' pdA pdB w); auto.
  - intros di Hdi. rewrite HkA by done. by apply so_present.
  - intros di Hdi. by rewrite HkA, HkB.
  - intros k Hk. apply (so_disjoint _ Hst pdB pdA k); auto.
Qed.
End spaces.

Lemma boot_client_ok rs : pmm_client_ok (pmm_init rs).
Proof.
  split; [apply pmm_init_ok|]. destruct (page_free (pmm_init rs) 0) eqn:E; [|done].
  destruct rs as [|r rs].
  - apply init_fallback_spec in E. lia.
  - apply init_regions_spec in E; [lia|done].
Qed.

Lemma boot_low_used rs q : q < 1024 -> page_free (pmm_init rs) q = false.
Proof.
  intros Hq. destruct (page_free (pmm_init rs) q) eqn:E; [|done].
  destruct rs as [|r rs].
  - apply init_fallback_spec in E. lia.
  - apply init_regions_spec in E; [lia|done].
Qed.

(** The state at boot: paging just enabled, nothing allocated yet. *)
Definition boot_vmm : vmm := mk_vmm ∅ PAGE_TABLE_START false 0.

Lemma boot_kernel_dir_ok rs : kernel_dir_ok (pmm_init rs) (v_mem (vmm_init boot_vmm)).
Proof. apply vmm_init_kernel_dir_ok. intros q Hq. apply boot_low_used. lia. Qed.

Lemma identity_walk v virt :
  is_u32 virt ->
  let d := pde (v_mem (vmm_init v)) PAGE_DIR_ADDR virt in
  if virt <? 0x800000
  then d = (0x301 + dir_index virt) * 4096 + 3 /\
       rd32 (v_mem (vmm_init v)) (pte_addr (v_mem (vmm_init v)) PAGE_DIR_ADDR virt) = virt / 4096 * 4096 + 3
  else d = 0.
Proof.
  intros Hv. pose proof (dir_index_range virt Hv) as Hdi. pose proof (table_index_range virt) as Hti.
  destruct (vmm_init_tables v) as (H0 & H1 & HA & HB). pose proof (vmm_init_dir_high v) as HD.
  generalize dependent (v_mem (vmm_init v)). intros m H0 H1 HA HB HD. cbn zeta.
  assert (Hpg : virt / 4096 = 1024 * dir_index virt + table_index virt).
  { rewrite dir_index_eq, table_index_eq. change (2 ^ 22) with (2 ^ 12 * 1024). rewrite <- Z.div_div by lia.
    apply Z.div_mod. lia. }
  unfold is_u32 in Hv. destruct (virt <? 0x800000) eqn:Hlow; b2p.
  - assert (Hd : dir_index virt = 0 \/ dir_index virt = 1).
    { rewrite dir_index_eq in *. Z.to_euclidean_division_equations. lia. }
    unfold pte_addr, pde. rewrite Hpg. destruct Hd as [E|E]; rewrite E.
    + change (PAGE_DIR_ADDR + 4 * 0) with PAGE_DIR_ADDR. rewrite H0. split; [done|].
      change (frame_of (0x301000 + 3)) with PAGE_TABLE_START. rewrite HA by done. lia.
    + change (PAGE_DIR_ADDR + 4 * 1) with (PAGE_DIR_ADDR + 4). rewrite H1. split; [done|].
      change (frame_of (0x302000 + 3)) with (PAGE_TABLE_START + 0x1000). rewrite HB by done. lia.
  - apply HD. rewrite dir_index_eq in *. Z.to_euclidean_division_equations. lia.
Qed.

Definition boot_state (rs : list boot_mem_region) : vm_state pmm :=
  mk_vm_state (pmm_init rs) (v_mem (vmm_init boot_vmm)) [].

Lemma boot_reachable_ok rs st : rtc vm_step (boot_state rs) st -> spaces_ok st.
Proof.
  intros Hr. apply (vm_steps_spaces _ _ Hr). constructor; cbn [vs_alloc vs_mem vs_dirs boot_state].
  - apply boot_client_ok.
  - apply boot_kernel_dir_ok.
  - intros di Hdi. destruct (vmm_init_tables boot_vmm) as (H0 & H1 & _ & _).
    assert (di = 0 \/ di = 1) as [-> | ->] by lia; unfold dir_word.
    + change (PAGE_DIR_ADDR + 4 * 0) with PAGE_DIR_ADDR. by rewrite H0.
    + change (PAGE_DIR_ADDR + 4 * 1) with (PAGE_DIR_ADDR + 4). by rewrite H1.
  - intros pd Hpd. by apply elem_of_nil in Hpd.
  - intros pd Hpd. by apply elem_of_nil in Hpd.
  - intros a b k Ha. by apply elem_of_nil in Ha.
Qed.

(** ** Properties *)

(** (vmm_init).  Whatever memory held before, after [vmm_init] the kernel
    directory maps the first 8 MB to themselves and nothing else, and no
    address is user-accessible. *)
Theorem vmm_init_identity_maps_8mb (v : vmm) (virt : Z) :
  is_u32 virt ->
  vmm_get_phys (vmm_init v) virt = (if virt <? 0x800000 then virt else 0) /\
  vmm_get_user_phys_from_dir (v_mem (vmm_init v)) (v_cr3 (vmm_init v)) virt = 0.
Proof.
  intros Hv. pose proof (identity_walk v virt Hv) as Hw.
  unfold vmm_get_phys, vmm_get_phys_from_dir, vmm_get_user_phys_from_dir.
  change (v_cr3 (vmm_init v)) with PAGE_DIR_ADDR.
  generalize dependent (v_mem (vmm_init v)). intros m. cbn zeta.
  pose proof (frame_number virt Hv). pose proof (dir_index_range virt Hv).
  destruct (virt <? 0x800000) eqn:Hlow; b2p; [intros [-> ->]|by intros ->].
  destruct (entry_flags (0x301 + dir_index virt) 3) as [-> ->]; [lia..|].
  destruct (entry_flags (virt / 4096) 3) as [-> _]; [lia..|].
  change (has_flag 3 VMM_PRESENT) with true. change (has_flag 3 VMM_USER) with false. simpl.
  rewrite low12_eq, entry_frame, lor_frame_flags by (done || apply Z.mod_pos_bound; lia).
  pose proof (Z.div_mod virt 4096). split; [lia|done].
Qed.

Lemma vmm_init_identity_maps_8mb_witness :
  is_u32 0x123456 /\ vmm_get_phys (vmm_init boot_vmm) 0x123456 = 0x123456.
Proof.
  assert (Hu : is_u32 0x123456) by (unfold is_u32; lia).
  split; [exact Hu|]. exact (proj1 (vmm_init_identity_maps_8mb boot_vmm 0x123456 Hu)).
Defined.

(** C2 (vmm_map_user_page).  The page tables of a process implement a finite
    map from pages to frames: from a directory [vmm_create_directory] has just
    built, after any sequence of mapping requests the user walk returns exactly
    what the map says, requests below 8 MB are refused, and therefore no
    address of the kernel's 0-8 MB region ever becomes user-accessible. *)
Theorem user_space_is_a_finite_map (p p0 p1 : pmm) (m m0 m1 : mem) (pd : Z) (l : list (Z * Z)) (sp : gmap Z Z) :
  pmm_client_ok p -> kernel_dir_ok p m ->
  vmm_create_directory p m = (p0, m0, pd) -> pd <> 0 -> maps_u32 l ->
  run_maps p0 m0 pd l ∅ = (p1, m1, sp) ->
  pmm_client_ok p1 /\ space_refines m1 pd sp /\
  (forall w, 0 <= w < 0x800000 -> vmm_get_user_phys_from_dir m1 pd w = 0).
Proof.
  intros Hp Hk Hc Hne Hl Hr.
  destruct (@create_directory_ok pmm pmm_allocator p p0 m m0 pd Hp Hk Hc Hne) as (Hp0 & Hd & Hu & _ & Hw).
  destruct (@run_maps_refines pmm pmm_allocator l p0 m0 pd ∅ p1 m1 sp) as (Hp1 & _ & _ & Hs & Hlow); auto.
  - intros w Hwr. rewrite lookup_empty. by apply Hw.
  - intros k. rewrite lookup_empty. intros [? ?]. done.
  - split; [done|]. split; [done|]. intros w Hwr. rewrite Hs by (unfold is_u32; lia).
    destruct (sp !! (w / 4096)) eqn:E; [|done].
    specialize (Hlow (w / 4096) ltac:(eauto)). Z.to_euclidean_division_equations. lia.
Qed.

Lemma user_space_is_a_finite_map_witness :
  let p := pmm_init [] in
  let m := v_mem (vmm_init boot_vmm) in
  let '(p0, m0, pd) := vmm_create_directory p m in
  let '(p1, m1, sp) := run_maps p0 m0 pd [(0x1000000, 0x500000); (0x5000, 0x501000)] ∅ in
  pd = 0x400000 /\ space_refines m1 pd sp /\ vmm_get_user_phys_from_dir m1 pd 0x5000 = 0.
Proof.
  intros p m. destruct (vmm_create_directory p m) as [[p0 m0] pd] eqn:Ec.
  destruct (run_maps p0 m0 pd _ ∅) as [[p1 m1] sp] eqn:Er.
  assert (Hpd : pd = 0x400000).
  { change pd with (snd (p0, m0, pd)). rewrite <- Ec. vm_compute. reflexivity. }
  split; [exact Hpd|].
  destruct (user_space_is_a_finite_map p p0 p1 m m0 m1 pd [(0x1000000, 0x500000); (0x5000, 0x501000)] sp)
    as (_ & Hs & Hz).
  - apply boot_client_ok.
  - apply boot_kernel_dir_ok.
  - exact Ec.
  - rewrite Hpd. discriminate.
  - repeat constructor; unfold is_u32; simpl; lia.
  - exact Er.
  - split; [exact Hs|]. apply Hz. lia.
Defined.

(** C1 (address-space isolation).  In every state reachable from boot by
    creating directories and mapping user pages, mapping a page into one
    address space leaves the translation of every address of every other
    address space as it was. *)
Theorem map_user_page_isolated (rs : list boot_mem_region) (st : vm_state pmm) (p' : pmm) (m' : mem)
    (pdA pdB virt phys r w : Z) :
  rtc vm_step (boot_state rs) st ->
  pdA ∈ vs_dirs st -> pdB ∈ vs_dirs st -> pdA <> pdB ->
  is_u32 virt -> is_u32 phys -> is_u32 w ->
  vmm_map_user_page (vs_alloc st) (vs_mem st) pdA virt phys = (p', m', r) ->
  vmm_get_phys_from_dir m' pdB w = vmm_get_phys_from_dir (vs_mem st) pdB w /\
  vmm_get_user_phys_from_dir m' pdB w = vmm_get_user_phys_from_dir (vs_mem st) pdB w.
Proof.
  intros Hreach HA HB Hne Hv Hph Hw E. apply boot_reachable_ok in Hreach.
  destruct (so_dir _ Hreach pdA HA) as (HdA & HuA & HkA).
  destruct (@map_user_page_spec pmm pmm_allocator _ _ pdA virt phys p' m' r (so_alloc _ Hreach) HdA HuA Hv Hph E)
    as [(-> & _ & Hm & _)|(_ & _ & ->)]; [|done].
  exact (spaces_other_dir st m' pdA pdB w Hreach HA HB Hne (mp_frame _ _ _ _ _ _ _ Hm) Hw).
Qed.

Lemma two_directories :
  (let '(p1, m1, a) := vmm_create_directory (pmm_init []) (v_mem (vmm_init boot_vmm)) in
   let '(p2, m2, b) := vmm_create_directory p1 m1 in
   let '(p3, m3, r) := vmm_map_user_page p2 m2 a 0x1000000 0x500000 in (a, b, r)) = (0x400000, 0x401000, 0).
Proof. vm_compute. reflexivity. Qed.

Lemma map_user_page_isolated_witness :
  let '(p1, m1, a) := vmm_create_directory (pmm_init []) (v_mem (vmm_init boot_vmm)) in
  let '(p2, m2, b) := vmm_create_directory p1 m1 in
  let '(p3, m3, r) := vmm_map_user_page p2 m2 a 0x1000000 0x500000 in
  (a = 0x400000 /\ b = 0x401000 /\ r = 0) /\
  vmm_get_user_phys_from_dir m3 b 0x1000000 = vmm_get_user_phys_from_dir m2 b 0x1000000.
Proof.
  pose proof two_directories as Hab.
  destruct (vmm_create_directory (pmm_init []) (v_mem (vmm_init boot_vmm))) as [[p1 m1] a] eqn:E1.
  destruct (vmm_create_directory p1 m1) as [[p2 m2] b] eqn:E2.
  destruct (vmm_map_user_page p2 m2 a 0x1000000 0x500000) as [[p3 m3] r] eqn:E3.
  assert (Hab' : a = 0x400000 /\ b = 0x401000 /\ r = 0) by (injection Hab; auto). clear Hab. rename Hab' into Hab.
  split; [exact Hab|]. destruct Hab as (-> & -> & ->).
  apply (map_user_page_isolated [] (mk_vm_state p2 m2 [0x401000; 0x400000]) p3 m3
           0x400000 0x401000 0x1000000 0x500000 0 0x1000000).
  - eapply rtc_l; [|eapply rtc_once].
    + eapply vs_create; [exact E1|discriminate].
    + eapply (vs_create (mk_vm_state p1 m1 [0x400000])); [exact E2|discriminate].
  - apply list_elem_of_further, list_elem_of_here.
  - apply list_elem_of_here.
  - discriminate.
  - unfold is_u32; lia.
  - unfold is_u32; lia.
  - unfold is_u32; lia.
  - exact E3.
Defined.

(** (vmm_create_directory).  A new process directory is a fresh page whose
    kernel half translates exactly as the kernel directory does, whose user
    half is empty, and no byte outside that page changes; failure returns 0. *)
Theorem create_directory_clones_kernel (p p' : pmm) (m m' : mem) (pd : Z) :
  pmm_client_ok p -> kernel_dir_ok p m -> vmm_create_directory p m = (p', m', pd) ->
  (pd = 0 /\ p' = p /\ m' = m) \/
  (page_free p (pd / 4096) = true /\ page_free p' (pd / 4096) = false /\
   (forall a, a / 4096 <> pd / 4096 -> rd8 m' a = rd8 m a) /\
   forall w, is_u32 w ->
     vmm_get_user_phys_from_dir m' pd w = 0 /\
     vmm_get_phys_from_dir m' pd w = if w <? 0x800000 then vmm_get_phys_from_dir m PAGE_DIR_ADDR w else 0).
Proof.
  intros Hp Hk E. destruct (Z.eq_dec pd 0) as [->|Hne].
  - left. split; [done|]. revert E. unfold vmm_create_directory.
    destruct (pa_alloc p) as [p1 a] eqn:Ea. apply (@pa_alloc_law pmm pmm_allocator p) in Ea; [|done].
    destruct Ea as [(-> & -> & _)|(k & -> & Hkf & _)]; [intros [= <- <-]; done|].
    pose proof (@pa_isfree_range pmm pmm_allocator p k Hp Hkf). destruct (Z.eqb_spec (k * 4096) 0); [lia|].
    destruct (0x800000 <=? k * 4096) eqn:?; b2p; [lia|]. intros E. apply (f_equal snd) in E. simpl in E. lia.
  - right. destruct (@create_directory_words pmm pmm_allocator p p' m m' pd Hp Hk E Hne) as (k & -> & Hkr & Hkf & _ & Hfr & Hs & _).
    destruct (@create_directory_ok pmm pmm_allocator p p' m m' _ Hp Hk E Hne) as (_ & _ & _ & _ & Hw).
    rewrite Z.div_mul by lia. split_and!; auto.
    change (@pa_isfree pmm pmm_allocator p' k = false). rewrite Hfr, Z.eqb_refl. apply andb_false_r.
Qed.

Lemma create_directory_clones_kernel_witness :
  let p := pmm_init [] in
  let m := v_mem (vmm_init boot_vmm) in
  let '(p', m', pd) := vmm_create_directory p m in
  pd = 0x400000 /\ vmm_get_user_phys_from_dir m' pd 0x1000 = 0.
Proof.
  intros p m. destruct (vmm_create_directory p m) as [[p' m'] pd] eqn:E.
  assert (Hpd : pd = 0x400000).
  { change pd with (snd (p', m', pd)). rewrite <- E. vm_compute. reflexivity. }
  split; [exact Hpd|].
  destruct (create_directory_clones_kernel p p' m m' pd (boot_client_ok []) (boot_kernel_dir_ok []) E)
    as [(H0 & _)|(_ & _ & _ & Hw)]; [rewrite Hpd in H0; discriminate|].
  apply Hw. unfold is_u32. lia.
Defined.

(** (map_page_early).  [vmm_init] builds its two page tables in the first
    two pages of the static pool but leaves the pool cursor [pt_next] at the
    first of them: the first kernel mapping at or above 8 MB takes the table of
    the 0-4 MB identity map as its fresh table, zeroes it, and the kernel's own
    code is no longer mapped. *)
Theorem first_high_mapping_unmaps_kernel :
  let v := vmm_init boot_vmm in
  let '(v', r) := vmm_map_page v 0x800000 0x500000 VMM_KERNEL in
  r = 0 /\ vmm_get_phys v 0x100000 = 0x100000 /\ vmm_get_phys v' 0x100000 = 0.
Proof. vm_compute. split_and!; reflexivity. Qed.
