(* ===== verification/Heap.v ===== *)
(** * Kernel heap ([kernel/memory/heap.c])

    The heap is a doubly linked list of headers that live in the memory they
    describe, so the model keeps them there: [magic], [size], [next] and [prev]
    are 32-bit words at offsets 0, 4, 8 and 12 of a block's address in the
    byte-addressed memory of [Mem].  [heap] is the two static variables of
    heap.c together with the page allocator and the kernel page tables that
    [heap_expand] calls.

    A list walk is given [walk_fuel] iterations, one more than the number of
    headers that fit between [HEAP_START] and [HEAP_MAX]; [kmalloc] calls
    itself at most once.  Running out of either is the value [None], which the
    theorems exclude. *)

From Stdlib Require Import ZArith Lia ZifyBool.
From stdpp Require Import base tactics numbers list option gmap relations.
From S2P Require Import Prelude Pmm Mem Vmm.
Local Open Scope Z_scope.

(** ** Constants and the block header *)

Definition HEAP_START : Z := 0x400000.
Definition HEAP_MAX : Z := 0x800000.
Definition MAGIC_FREE : Z := 0xDEAD1234.
Definition MAGIC_USED : Z := 0xBEEF5678.
Definition HEADER_SIZE : Z := 16.
Definition HEAP_INITIAL_SIZE : Z := 256 * 1024.

Definition h_magic (m : mem) (b : Z) : Z := rd32 m b.
Definition h_size (m : mem) (b : Z) : Z := rd32 m (b + 4).
Definition h_next (m : mem) (b : Z) : Z := rd32 m (b + 8).
Definition h_prev (m : mem) (b : Z) : Z := rd32 m (b + 12).
Definition set_magic (m : mem) (b v : Z) : mem := wr32 m b v.
Definition set_size (m : mem) (b v : Z) : mem := wr32 m (b + 4) v.
Definition set_next (m : mem) (b v : Z) : mem := wr32 m (b + 8) v.
Definition set_prev (m : mem) (b v : Z) : mem := wr32 m (b + 12) v.

#[global] Arguments h_magic : simpl never.
#[global] Arguments h_size : simpl never.
#[global] Arguments h_next : simpl never.
#[global] Arguments h_prev : simpl never.
#[global] Arguments set_magic : simpl never.
#[global] Arguments set_size : simpl never.
#[global] Arguments set_next : simpl never.
#[global] Arguments set_prev : simpl never.

Definition walk_fuel : nat := Z.to_nat ((HEAP_MAX - HEAP_START) / HEADER_SIZE + 1).

(** What the search loop of [kmalloc] ends with. *)
Inductive walk_result :=
| Fit (cur : Z)
| NoFit
| Corrupt.

Record heap (S : Type) := mk_heap {
  h_vmm : vmm;
  h_pages : S;
  heap_start_ptr : Z;
  heap_end : Z
}.
Arguments mk_heap {S} _ _ _ _.
Arguments h_vmm {S} _.
Arguments h_pages {S} _.
Arguments heap_start_ptr {S} _.
Arguments heap_end {S} _.

Definition h_mem {S} (h : heap S) : mem := v_mem (h_vmm h).
Definition set_mem {S} (h : heap S) (m : mem) : heap S :=
  mk_heap (with_mem (h_vmm h) m) (h_pages h) (heap_start_ptr h) (heap_end h).

(** ** Operations on the block list in memory *)

(** The search loop: the first free block of at least [size] bytes. *)
Fixpoint find_block (fuel : nat) (m : mem) (cur size : Z) : option walk_result :=
  match fuel with
  | O => None
  | S fuel' =>
      if cur =? 0 then Some NoFit
      else if negb (h_magic m cur =? MAGIC_FREE) && negb (h_magic m cur =? MAGIC_USED) then Some Corrupt
      else if (h_magic m cur =? MAGIC_FREE) && (size <=? h_size m cur) then Some (Fit cur)
      else find_block fuel' m (h_next m cur) size
  end.

(** The split of a block with room for another header. *)
Definition split_block (m : mem) (cur size : Z) : mem :=
  if u32 (size + HEADER_SIZE + 4) <=? h_size m cur then
    let new_block := u32 (cur + HEADER_SIZE + size) in
    let m := set_magic m new_block MAGIC_FREE in
    let m := set_size m new_block (h_size m cur - size - HEADER_SIZE) in
    let m := set_next m new_block (h_next m cur) in
    let m := set_prev m new_block cur in
    let m := if h_next m cur =? 0 then m else set_prev m (h_next m cur) new_block in
    let m := set_next m cur new_block in
    set_size m cur size
  else m.

Definition take_block (m : mem) (cur size : Z) : mem := set_magic (split_block m cur size) cur MAGIC_USED.

(** [while (tail && tail->next) tail = tail->next;] *)
Fixpoint find_tail (fuel : nat) (m : mem) (tail : Z) : option Z :=
  match fuel with
  | O => None
  | S fuel' =>
      if (tail =? 0) || (h_next m tail =? 0) then Some tail else find_tail fuel' m (h_next m tail)
  end.

(** [heap_free_bytes]: the sum, modulo 2^32, over the free blocks. *)
Fixpoint free_bytes_from (fuel : nat) (m : mem) (cur free : Z) : option Z :=
  match fuel with
  | O => None
  | S fuel' =>
      if cur =? 0 then Some free
      else free_bytes_from fuel' m (h_next m cur)
             (if h_magic m cur =? MAGIC_FREE then u32 (free + h_size m cur) else free)
  end.

(** The counters [heap_dump] prints: free bytes, used bytes and blocks. *)
Fixpoint dump_from (fuel : nat) (m : mem) (cur free used n : Z) : option (Z * Z * Z) :=
  match fuel with
  | O => None
  | S fuel' =>
      if cur =? 0 then Some (free, used, n)
      else if h_magic m cur =? MAGIC_FREE
      then dump_from fuel' m (h_next m cur) (u32 (free + h_size m cur)) used (u32 (n + 1))
      else dump_from fuel' m (h_next m cur) free (u32 (used + h_size m cur)) (u32 (n + 1))
  end.

(** The two merges of [kfree], on a block already marked free. *)
Definition merge_next (m : mem) (hdr : Z) : mem :=
  if negb (h_next m hdr =? 0) && (h_magic m (h_next m hdr) =? MAGIC_FREE) then
    let m := set_size m hdr (h_size m hdr + (HEADER_SIZE + h_size m (h_next m hdr))) in
    let m := set_next m hdr (h_next m (h_next m hdr)) in
    if h_next m hdr =? 0 then m else set_prev m (h_next m hdr) hdr
  else m.

Definition merge_prev (m : mem) (hdr : Z) : mem :=
  if negb (h_prev m hdr =? 0) && (h_magic m (h_prev m hdr) =? MAGIC_FREE) then
    let m := set_size m (h_prev m hdr) (h_size m (h_prev m hdr) + (HEADER_SIZE + h_size m hdr)) in
    let m := set_next m (h_prev m hdr) (h_next m hdr) in
    if h_next m hdr =? 0 then m else set_prev m (h_next m hdr) (h_prev m hdr)
  else m.

Definition kfree_mem (m : mem) (ptr : Z) : mem :=
  if ptr =? 0 then m
  else
    let hdr := u32 (ptr - HEADER_SIZE) in
    if negb (h_magic m hdr =? MAGIC_USED) then m
    else merge_prev (merge_next (set_magic m hdr MAGIC_FREE) hdr) hdr.

Section operations.
Context {PA : Type} `{PageAllocator PA}.

(** The loop of [heap_expand], [n] iterations left. *)
Fixpoint expand_pages (n : nat) (h : heap PA) : heap PA * bool :=
  match n with
  | O => (h, true)
  | S n' =>
      if HEAP_MAX <? u32 (heap_end h + PAGE_SIZE) then (h, false)
      else
        let '(p1, phys) := pa_alloc_at (h_pages h) (heap_end h) in
        let h1 := mk_heap (h_vmm h) p1 (heap_start_ptr h) (heap_end h) in
        if phys =? 0 then (h1, false)
        else
          let '(v2, r) := vmm_map_page (h_vmm h1) (heap_end h1) phys VMM_KERNEL in
          if negb (r =? 0) then (mk_heap v2 (pa_free p1 phys) (heap_start_ptr h1) (heap_end h1), false)
          else expand_pages n' (mk_heap v2 p1 (heap_start_ptr h1) (u32 (heap_end h1 + PAGE_SIZE)))
  end.

Definition heap_expand (h : heap PA) (size : Z) : heap PA * bool :=
  expand_pages (Z.to_nat (u32 (size + PAGE_SIZE - 1) / PAGE_SIZE)) h.

Definition heap_init (h : heap PA) : heap PA :=
  let '(h1, ok) := heap_expand h HEAP_INITIAL_SIZE in
  if negb ok then h1
  else
    let b := HEAP_START in
    let m := set_magic (h_mem h1) b MAGIC_FREE in
    let m := set_size m b (heap_end h1 - HEAP_START - HEADER_SIZE) in
    let m := set_next m b 0 in
    let m := set_prev m b 0 in
    mk_heap (with_mem (h_vmm h1) m) (h_pages h1) b (heap_end h1).

(** Link the block [old_end .. heap_end) made by a successful expansion. *)
Definition append_block (h : heap PA) (old_end : Z) : option (heap PA) :=
  let m := set_magic (h_mem h) old_end MAGIC_FREE in
  let m := set_size m old_end (heap_end h - old_end - HEADER_SIZE) in
  let m := set_next m old_end 0 in
  let m := set_prev m old_end 0 in
  match find_tail walk_fuel m (heap_start_ptr h) with
  | None => None
  | Some tail =>
      if tail =? 0 then Some (mk_heap (with_mem (h_vmm h) m) (h_pages h) old_end (heap_end h))
      else
        let m := set_next m tail old_end in
        let m := set_prev m old_end tail in
        let m :=
          if h_magic m tail =? MAGIC_FREE then
            let m := set_size m tail (h_size m tail + (HEADER_SIZE + h_size m old_end)) in
            set_next m tail 0
          else m in
        Some (set_mem h m)
  end.

Fixpoint kmalloc_calls (calls : nat) (h : heap PA) (size : Z) : option (heap PA * Z) :=
  match calls with
  | O => None
  | S calls' =>
      if size =? 0 then Some (h, 0)
      else if HEAP_MAX - HEAP_START <? size then Some (h, 0)
      else
        let size := Z.land (u32 (size + 3)) 0xFFFFFFFC in
        match find_block walk_fuel (h_mem h) (heap_start_ptr h) size with
        | None => None
        | Some Corrupt => Some (h, 0)
        | Some (Fit cur) => Some (set_mem h (take_block (h_mem h) cur size), u32 (cur + HEADER_SIZE))
        | Some NoFit =>
            let old_end := heap_end h in
            let '(h1, ok) := heap_expand h (u32 (size + HEADER_SIZE)) in
            if negb ok then Some (h1, 0)
            else
              match append_block h1 old_end with
              | None => None
              | Some h2 => kmalloc_calls calls' h2 size
              end
        end
  end.

Definition kmalloc (h : heap PA) (size : Z) : option (heap PA * Z) := kmalloc_calls 2 h size.
Definition kfree (h : heap PA) (ptr : Z) : heap PA := set_mem h (kfree_mem (h_mem h) ptr).
Definition heap_free_bytes (h : heap PA) : option Z :=
  free_bytes_from walk_fuel (h_mem h) (heap_start_ptr h) 0.
Definition heap_dump (h : heap PA) : option (Z * Z * Z) :=
  dump_from walk_fuel (h_mem h) (heap_start_ptr h) 0 0 0.
End operations.

(** The walks are unfolded by their lemmas, never by conversion. *)
Strategy 1000 [walk_fuel find_block find_tail free_bytes_from dump_from].

(** ** The block list a heap represents *)

Record blk := mk_blk { b_addr : Z; b_size : Z; b_used : bool }.

Definition magic_of (u : bool) : Z := if u then MAGIC_USED else MAGIC_FREE.
Definition b_end (b : blk) : Z := b_addr b + HEADER_SIZE + b_size b.

(** The address of the first block of [bs], [n] when there is none; the
    address of the last one, [p] when there is none. *)
Definition hd_addr (bs : list blk) (n : Z) : Z := match bs with [] => n | b :: _ => b_addr b end.
Fixpoint last_addr (p : Z) (bs : list blk) : Z :=
  match bs with [] => p | b :: r => last_addr (b_addr b) r end.

(** The header of [b] in memory, between neighbours [prev] and [next]. *)
Record hdr_is (m : mem) (prev : Z) (b : blk) (next : Z) : Prop := {
  hi_magic : h_magic m (b_addr b) = magic_of (b_used b);
  hi_size : h_size m (b_addr b) = b_size b;
  hi_next : h_next m (b_addr b) = next;
  hi_prev : h_prev m (b_addr b) = prev
}.

(** [bs] is a doubly linked segment entered from [p] and left to [n]. *)
Fixpoint dseg (m : mem) (p : Z) (bs : list blk) (n : Z) : Prop :=
  match bs with
  | [] => True
  | b :: r => hdr_is m p b (hd_addr r n) /\ dseg m (b_addr b) r n
  end.

(** The blocks lie in ascending order within [lo, hi), aligned, each with room
    for its header and its size. *)
Fixpoint laid (lo : Z) (bs : list blk) (hi : Z) : Prop :=
  match bs with
  | [] => lo <= hi
  | b :: r =>
      lo <= b_addr b /\ b_addr b mod 4 = 0 /\ 0 <= b_size b /\ b_size b mod 4 = 0 /\ laid (b_end b) r hi
  end.

(** No two neighbours are both free. *)
Fixpoint coalesced (bs : list blk) : Prop :=
  match bs with
  | b :: ((c :: _) as r) => (b_used b = true \/ b_used c = true) /\ coalesced r
  | _ => True
  end.

(** Pointer and size of the blocks in use. *)
Fixpoint live (bs : list blk) : list (Z * Z) :=
  match bs with
  | [] => []
  | b :: r => if b_used b then (b_addr b + HEADER_SIZE, b_size b) :: live r else live r
  end.

Fixpoint free_sum (bs : list blk) : Z :=
  match bs with [] => 0 | b :: r => (if b_used b then 0 else b_size b) + free_sum r end.
Fixpoint used_sum (bs : list blk) : Z :=
  match bs with [] => 0 | b :: r => (if b_used b then b_size b else 0) + used_sum r end.

(** [m'] agrees with [m] outside the heap [lo, hi) and on every live byte. *)
Definition keeps (m m' : mem) (lv : list (Z * Z)) (lo hi : Z) : Prop :=
  forall x, (x < lo \/ hi <= x \/ exists p s, (p, s) ∈ lv /\ p <= x < p + s) -> rd8 m' x = rd8 m x.

Definition join (b c : blk) : blk := mk_blk (b_addr b) (b_size b + (HEADER_SIZE + b_size c)) false.
Definition freed (b : blk) : blk := mk_blk (b_addr b) (b_size b) false.

Ltac heap_consts := unfold b_end, HEAP_START, HEAP_MAX, HEADER_SIZE, PAGE_SIZE in *.
(** Reads through the header writes of an operation; the addresses' order
    must be in the context. *)
Ltac rdwr :=
  unfold h_magic, h_size, h_next, h_prev, set_magic, set_size, set_next, set_prev;
  repeat (rewrite rd32_wr32_eq || rewrite rd32_wr32_ne by lia).

(** One field of a header after an operation's writes. *)
Ltac hdr_tac :=
  cbn [b_addr b_size b_used magic_of]; unfold h_magic, h_size, h_next, h_prev in *; rdwr;
  first [done | apply u32_small; lia | rewrite u32_small by lia; congruence | congruence].

(** [laid] of explicitly given blocks. *)
Ltac laid_tac :=
  cbn [laid]; unfold b_end; cbn [b_addr b_size]; heap_consts; split_and!;
  try done; try lia; Z.to_euclidean_division_equations; lia.

(** ** Lemmas on block lists *)

Lemma last_addr_app p l r : last_addr p (l ++ r) = last_addr (last_addr p l) r.
Proof. revert p; induction l; intros; simpl; auto. Qed.

Lemma hd_addr_app l r n : hd_addr (l ++ r) n = hd_addr l (hd_addr r n).
Proof. by destruct l. Qed.

Lemma dseg_app m p l r n : dseg m p (l ++ r) n <-> dseg m p l (hd_addr r n) /\ dseg m (last_addr p l) r n.
Proof.
  revert p; induction l as [|b l IH]; intros p; simpl; [tauto|]. rewrite IH, hd_addr_app. tauto.
Qed.

Lemma laid_app lo l r hi : laid lo (l ++ r) hi <-> exists mid, laid lo l mid /\ laid mid r hi.
Proof.
  revert lo; induction l as [|b l IH]; intros lo; simpl.
  - split; [intros; exists lo; split; [lia|done]|]. intros (mid & ? & Hr).
    destruct r; simpl in *; [lia|]. intuition lia.
  - rewrite IH. split.
    + intros (? & ? & ? & ? & mid & ? & ?). exists mid. by split_and!.
    + intros (mid & (? & ? & ? & ? & ?) & ?). split_and!; eauto.
Qed.

Lemma laid_le lo bs hi : laid lo bs hi -> lo <= hi.
Proof.
  revert lo; induction bs as [|b bs IH]; intros lo; simpl; [done|].
  intros (? & ? & ? & ? & Hr). apply IH in Hr. heap_consts. lia.
Qed.

Lemma laid_weaken lo lo' bs hi hi' : laid lo bs hi -> lo' <= lo -> hi <= hi' -> laid lo' bs hi'.
Proof.
  revert lo lo'; induction bs as [|b bs IH]; intros lo lo'; simpl; [lia|].
  intros (? & ? & ? & ? & Hr) ? ?. split_and!; try done; [lia|]. eapply IH; [done|lia|lia].
Qed.

Lemma laid_elem lo bs hi b : laid lo bs hi -> b ∈ bs ->
  lo <= b_addr b /\ b_addr b mod 4 = 0 /\ 0 <= b_size b /\ b_size b mod 4 = 0 /\ b_end b <= hi.
Proof.
  revert lo; induction bs as [|c bs IH]; intros lo Hl Hb; [by apply not_elem_of_nil in Hb|].
  simpl in Hl. destruct Hl as (? & ? & ? & ? & Hr). apply elem_of_cons in Hb as [->|Hb].
  - apply laid_le in Hr. split_and!; done || lia.
  - destruct (IH _ Hr Hb) as (? & ? & ? & ? & ?). heap_consts. split_and!; done || lia.
Qed.

Lemma laid_length lo bs hi : laid lo bs hi -> HEADER_SIZE * Z.of_nat (length bs) <= hi - lo.
Proof.
  revert lo; induction bs as [|b bs IH]; intros lo; simpl length; simpl laid; [lia|].
  intros (? & ? & ? & ? & Hr). apply IH in Hr. heap_consts. lia.
Qed.

Lemma live_app l r : live (l ++ r) = live l ++ live r.
Proof. induction l as [|b l IH]; simpl; [done|]. destruct (b_used b); simpl; by rewrite IH. Qed.

Lemma live_elem bs p s : (p, s) ∈ live bs <-> mk_blk (p - HEADER_SIZE) s true ∈ bs.
Proof.
  induction bs as [|b bs IH]; simpl.
  - by rewrite !elem_of_nil.
  - rewrite elem_of_cons, <- IH. destruct b as [a z [|]]; simpl.
    + rewrite elem_of_cons. unfold HEADER_SIZE.
      split; intros [E|E]; auto; left; simplify_eq; f_equal; lia.
    + split; [auto|]. by intros [E|]; [discriminate|].
Qed.

Lemma keeps_trans m1 m2 m3 lv lo hi : keeps m1 m2 lv lo hi -> keeps m2 m3 lv lo hi -> keeps m1 m3 lv lo hi.
Proof. intros H1 H2 x Hx. by rewrite H2, H1. Qed.

Lemma keeps_weaken m m' lv lv' lo lo' hi hi' :
  keeps m m' lv lo hi -> lo' <= lo -> hi <= hi' -> (forall x, x ∈ lv' -> x ∈ lv) -> keeps m m' lv' lo' hi'.
Proof.
  intros H ? ? Hlv x Hx. apply H. destruct Hx as [|[|(p & s & ? & ?)]]; [left; lia|right; left; lia|].
  right; right. exists p, s. auto.
Qed.

Lemma hdr_is_same m m' p b n :
  (forall x, b_addr b <= x < b_addr b + 16 -> rd8 m' x = rd8 m x) -> hdr_is m p b n -> hdr_is m' p b n.
Proof.
  intros E []. split; unfold h_magic, h_size, h_next, h_prev in *;
    (erewrite rd32_same; [done|]; intros; apply E; lia).
Qed.

Lemma dseg_same m m' p bs n :
  (forall b, b ∈ bs -> forall x, b_addr b <= x < b_addr b + 16 -> rd8 m' x = rd8 m x) ->
  dseg m p bs n -> dseg m' p bs n.
Proof.
  revert p; induction bs as [|b bs IH]; intros p E; simpl; [done|]. intros [Hb Hr]. split.
  - eapply hdr_is_same; [|done]. intros; eapply E; [apply elem_of_cons; by left|done].
  - apply IH; [|done]. intros c ? x ?. apply (E c); [apply elem_of_cons; by right|done].
Qed.

(** [m'] differs from [m] only within [a, e) and in the [prev] field of the
    first block of [r]. *)
Definition local_change (m m' : mem) (a e : Z) (r : list blk) : Prop :=
  forall x, (x < a \/ e <= x) -> (r = [] \/ x < hd_addr r 0 + 12 \/ hd_addr r 0 + 16 <= x) -> rd8 m' x = rd8 m x.

(** Replacing the blocks [mid] by [mid'] in place. *)
Lemma splice m m' p l mid mid' r n lo a e hi :
  dseg m p (l ++ mid ++ r) n -> laid lo l a -> laid e r hi ->
  local_change m m' a e r ->
  dseg m' (last_addr p l) mid' (hd_addr r n) ->
  hd_addr (mid' ++ r) n = hd_addr (mid ++ r) n ->
  (r = [] \/ h_prev m' (hd_addr r 0) = last_addr (last_addr p l) mid') ->
  a <= e ->
  dseg m' p (l ++ mid' ++ r) n /\ keeps m m' (live l ++ live r) lo hi.
Proof.
  intros Hd Hl Hr Hch Hmid Hhd Hprev Hae.
  assert (HeR : r = [] \/ e <= hd_addr r 0) by (destruct r; simpl in *; [by left|right; lia]).
  split.
  - rewrite !dseg_app in *. destruct Hd as (Hdl & Hdm & Hdr). rewrite Hhd. split_and!; [|done|].
    + eapply dseg_same; [|done]. intros b Hb x Hx. apply (laid_elem _ _ _ _ Hl) in Hb. heap_consts.
      apply Hch; [lia|]. destruct HeR; [by left|right; lia].
    + destruct r as [|c r]; [done|]. simpl in *. destruct Hprev as [|Hprev]; [done|].
      destruct Hdr as [Hc Hdr]. destruct Hr as (? & ? & ? & ? & Hr). split.
      * destruct Hc. split; [..|done]; unfold h_magic, h_size, h_next in *;
          (erewrite rd32_same; [done|]; intros; apply Hch; simpl; lia).
      * eapply dseg_same; [|done]. intros b Hb x Hx. apply (laid_elem _ _ _ _ Hr) in Hb. heap_consts.
        apply Hch; [lia|right; simpl; lia].
  - pose proof (laid_le _ _ _ Hl). pose proof (laid_le _ _ _ Hr).
    intros x Hx. destruct Hx as [Hx|[Hx|(q & s & Hq & Hx)]].
    + apply Hch; [lia|]. destruct HeR; [by left|right; lia].
    + apply Hch; [lia|]. destruct r as [|c r]; [by left|]. simpl in Hr.
      destruct Hr as (? & ? & ? & ? & Hr). apply laid_le in Hr. heap_consts. right; simpl; lia.
    + apply elem_of_app in Hq as [Hq|Hq]; apply live_elem in Hq.
      * apply (laid_elem _ _ _ _ Hl) in Hq. heap_consts. simpl in *.
        apply Hch; [lia|]. destruct HeR; [by left|right; lia].
      * destruct r as [|c r]; [by apply not_elem_of_nil in Hq|].
        apply elem_of_cons in Hq as [<-|Hq]; simpl in *.
        -- destruct Hr as (? & ? & ? & ? & Hr). heap_consts. apply Hch; [lia|right; simpl; lia].
        -- destruct Hr as (? & ? & ? & ? & Hr). apply (laid_elem _ _ _ _ Hr) in Hq. heap_consts. simpl in *.
           apply Hch; [lia|right; simpl; lia].
Qed.

(** ** Well-formed block lists *)

Record blist (m : mem) (start hi : Z) (bs : list blk) : Prop := {
  bl_start : start = hd_addr bs 0;
  bl_seg : dseg m 0 bs 0;
  bl_laid : laid HEAP_START bs hi;
  bl_hi : hi <= HEAP_MAX
}.

(** What a well-formed list says around one of its blocks. *)
Record around (m : mem) (hi : Z) (l : list blk) (b : blk) (r : list blk) : Prop := {
  ar_left : laid HEAP_START l (b_addr b);
  ar_right : laid (b_end b) r hi;
  ar_hdr : hdr_is m (last_addr 0 l) b (hd_addr r 0);
  ar_lo : HEAP_START <= b_addr b;
  ar_align : b_addr b mod 4 = 0;
  ar_size : 0 <= b_size b;
  ar_size_align : b_size b mod 4 = 0;
  ar_end : b_end b <= hi;
  ar_hi : hi <= HEAP_MAX;
  ar_next : r = [] \/ b_end b <= hd_addr r 0;
  ar_next_prev : r = [] \/ h_prev m (hd_addr r 0) = b_addr b
}.

Lemma blist_around m start hi l b r : blist m start hi (l ++ b :: r) -> around m hi l b r.
Proof.
  intros [Hs Hd Hl Hhi]. apply dseg_app in Hd as (? & Hd). simpl in Hd. destruct Hd as [Hb Hd].
  apply laid_app in Hl as (mid & Hl & Hr). simpl in Hr. destruct Hr as (? & ? & ? & ? & Hr).
  pose proof (laid_le _ _ _ Hl). pose proof (laid_le _ _ _ Hr).
  split; try done; try lia.
  - eapply laid_weaken; [done|lia|lia].
  - destruct r as [|c r]; [by left|right]. simpl in *. lia.
  - destruct r as [|c r]; [by left|right]. simpl in *. by destruct Hd as [[] _].
Qed.

(** The block list after [take_block]. *)
Definition taken (b : blk) (size : Z) : list blk :=
  if size + HEADER_SIZE + 4 <=? b_size b then
    [mk_blk (b_addr b) size true;
     mk_blk (b_addr b + HEADER_SIZE + size) (b_size b - size - HEADER_SIZE) false]
  else [mk_blk (b_addr b) (b_size b) true].

(** Changing blocks in place keeps the list well formed. *)
Lemma blist_splice m m' start hi l mid mid' r a e :
  blist m start hi (l ++ mid ++ r) -> laid HEAP_START l a -> laid a mid' e -> laid e r hi ->
  local_change m m' a e r -> dseg m' (last_addr 0 l) mid' (hd_addr r 0) ->
  hd_addr (mid' ++ r) 0 = hd_addr (mid ++ r) 0 ->
  (r = [] \/ h_prev m' (hd_addr r 0) = last_addr (last_addr 0 l) mid') ->
  blist m' start hi (l ++ mid' ++ r) /\ keeps m m' (live l ++ live r) HEAP_START hi.
Proof.
  intros [Hs Hd Hl Hhi] Hla Hm Hre Hch Hd' Hhd Hp. pose proof (laid_le _ _ _ Hm).
  destruct (splice m m' 0 l mid mid' r 0 HEAP_START a e hi) as [Hd2 Hk]; try done. split; [|done].
  split; try done.
  - rewrite Hs, !hd_addr_app. rewrite !hd_addr_app in Hhd. by rewrite Hhd.
  - apply laid_app. exists a. split; [done|]. apply laid_app. by exists e.
Qed.

Lemma magic_range u : u32 (magic_of u) = magic_of u.
Proof. by destruct u. Qed.

Lemma magic_free_test u : (magic_of u =? MAGIC_FREE) = negb u.
Proof. by destruct u. Qed.

Lemma take_block_spec m start hi l b r size :
  blist m start hi (l ++ b :: r) -> b_used b = false -> 0 <= size <= b_size b -> size mod 4 = 0 ->
  blist (take_block m (b_addr b) size) start hi (l ++ taken b size ++ r) /\
  keeps m (take_block m (b_addr b) size) (live l ++ live r) HEAP_START hi.
Proof.
  intros Hbl Hu Hsz Hal. pose proof (blist_around _ _ _ _ _ _ Hbl) as [].
  destruct b as [a z u]; unfold b_end in *; simpl in *; subst u. destruct ar_hdr0; simpl in *.
  unfold take_block, split_block, taken. cbn [b_addr b_size]. heap_consts. rewrite hi_size0, u32_small by lia.
  destruct (size + 16 + 4 <=? z) eqn:Hsp; b2p; cbv zeta.
  - rewrite (u32_small (a + 16 + size)) by lia.
    set (nb := a + 16 + size).
    assert (Hz : h_size (set_magic m nb MAGIC_FREE) a = z).
    { rewrite <- hi_size0. rdwr; done. }
    rewrite Hz.
    match goal with |- context [set_next ?mm nb _] => set (m1 := mm) end.
    assert (Hn : forall v, h_next (set_prev (set_next m1 nb v) nb a) a = hd_addr r 0).
    { intros v. rewrite <- hi_next0. subst m1. subst nb. rdwr; done. }
    rewrite Hn. assert (Hn1 : h_next m1 a = hd_addr r 0).
    { rewrite <- hi_next0. subst m1 nb. rdwr; done. }
    rewrite Hn1.
    set (m2 := set_prev (set_next m1 nb (hd_addr r 0)) nb a).
    eapply (blist_splice m _ start hi l [mk_blk a z false] _ r a (a + 16 + z)); try done.
    + subst nb. laid_tac.
    + subst nb m2 m1. intros x Hx Hr. unfold set_magic, set_size, set_next, set_prev. destruct r as [|c r]; simpl in *.
      * rewrite !rd8_wr32_ne by lia; done.
      * destruct ar_next0 as [|]; [done|]. destruct Hr as [|Hr]; [done|].
        replace (b_addr c =? 0) with false by lia. rewrite !rd8_wr32_ne by lia; done.
    + subst nb m2 m1. destruct r as [|c r]; simpl in *.
      * split_and!; [split..|done]; hdr_tac.
      * destruct ar_next0 as [|]; [done|]. destruct ar_right0 as (? & ? & ? & ? & ?%laid_le). heap_consts.
        replace (b_addr c =? 0) with false by lia.
        split_and!; [split..|done]; hdr_tac.
    + destruct r as [|c r]; [by left|right]. simpl in *. subst nb m2 m1.
      destruct ar_next0 as [|]; [done|]. destruct ar_right0 as (? & ? & ? & ? & ?%laid_le). heap_consts.
      replace (b_addr c =? 0) with false by lia. rdwr. apply u32_small; lia.
  - eapply (blist_splice m _ start hi l [mk_blk a z false] _ r a (a + 16 + z)); try done.
    + laid_tac.
    + intros x Hx Hr. unfold set_magic. by rewrite rd8_wr32_ne by lia.
    + simpl. split; [|done]. split; hdr_tac.
    + destruct r as [|c r]; [by left|right]. simpl in *. destruct ar_next0 as [|]; [done|].
      destruct ar_next_prev0 as [|E]; [done|]. etransitivity; [|exact E]. rdwr. done.
Qed.

(** *** Freeing *)

Lemma mark_block_free m start hi l b r :
  blist m start hi (l ++ b :: r) ->
  blist (set_magic m (b_addr b) MAGIC_FREE) start hi (l ++ freed b :: r) /\
  keeps m (set_magic m (b_addr b) MAGIC_FREE) (live l ++ live r) HEAP_START hi.
Proof.
  intros Hbl. pose proof (blist_around _ _ _ _ _ _ Hbl) as [].
  destruct b as [a z u]; unfold b_end, freed in *; simpl in *. destruct ar_hdr0; simpl in *. heap_consts.
  eapply (blist_splice m _ start hi l [mk_blk a z u] [mk_blk a z false] r a (a + 16 + z)); try done.
  - laid_tac.
  - intros x Hx Hr. unfold set_magic. by rewrite rd8_wr32_ne by lia.
  - simpl. split; [|done]. split; hdr_tac.
  - destruct r as [|c r]; [by left|right]. simpl in *. destruct ar_next0 as [|]; [done|].
    destruct ar_next_prev0 as [|E]; [done|]. etransitivity; [|exact E]. rdwr. done.
Qed.

(** The memory both merges leave when they join [b] and its successor [c]. *)
Lemma join_spec m m' start hi l b c r :
  blist m start hi (l ++ [b; c] ++ r) -> b_used b = false ->
  m' = (let m1 := set_next (set_size m (b_addr b) (b_size b + (HEADER_SIZE + b_size c))) (b_addr b) (hd_addr r 0) in
        if hd_addr r 0 =? 0 then m1 else set_prev m1 (hd_addr r 0) (b_addr b)) ->
  blist m' start hi (l ++ [join b c] ++ r) /\ keeps m m' (live l ++ live r) HEAP_START hi.
Proof.
  intros Hbl Hu ->. pose proof (blist_around _ _ _ _ _ _ Hbl) as Hb.
  assert (Hc : around m hi (l ++ [b]) c r).
  { eapply (blist_around m start hi). rewrite <- app_assoc. exact Hbl. }
  destruct Hb, Hc. rewrite last_addr_app in ar_hdr1. clear ar_right0 ar_next_prev0 ar_left1.
  destruct b as [a z u], c as [a' z' u']; unfold b_end, join in *; simpl in *; subst u.
  destruct ar_hdr0, ar_hdr1; simpl in *. heap_consts. destruct ar_next0 as [|]; [done|].
  eapply (blist_splice m _ start hi l [mk_blk a z false; mk_blk a' z' u']
    [mk_blk a (z + (16 + z')) false] r a (a' + 16 + z')); try done.
  - laid_tac.
  - intros x Hx Hr. unfold set_size, set_next, set_prev. destruct r as [|d r]; simpl in *.
    + by rewrite !rd8_wr32_ne by lia.
    + destruct ar_next1 as [|]; [done|]. destruct Hr as [|Hr]; [done|].
      replace (b_addr d =? 0) with false by lia. by rewrite !rd8_wr32_ne by lia.
  - simpl. split; [|done]. destruct r as [|d r]; simpl in *.
    + split; hdr_tac.
    + destruct ar_next1 as [|]; [done|]. destruct ar_right1 as (? & ? & ? & ? & ?%laid_le). heap_consts.
      replace (b_addr d =? 0) with false by lia. split; hdr_tac.
  - destruct r as [|d r]; [by left|right]. simpl in *. destruct ar_next1 as [|]; [done|].
    replace (b_addr d =? 0) with false by lia. rdwr. apply u32_small; lia.
Qed.

(** [true] unless the list ends (starts) with a free block. *)
Definition last_used (l : list blk) : bool := match last l with Some b => b_used b | None => true end.
Definition hd_used (l : list blk) : bool := match l with b :: _ => b_used b | [] => true end.

Lemma coalesced_app l r :
  coalesced (l ++ r) <-> coalesced l /\ coalesced r /\ (last_used l = true \/ hd_used r = true).
Proof.
  induction l as [|b [|c l] IH].
  - unfold last_used. simpl. tauto.
  - unfold last_used. simpl. destruct r as [|d r]; simpl; tauto.
  - cbn [app coalesced] in *. rewrite IH. unfold last_used.
    change (last (b :: c :: l)) with (last (c :: l)). tauto.
Qed.

Lemma last_used_app l b : last_used (l ++ [b]) = b_used b.
Proof. unfold last_used. by rewrite last_app. Qed.

Lemma merge_next_spec m start hi l b r :
  blist m start hi (l ++ b :: r) -> b_used b = false ->
  let m' := merge_next m (b_addr b) in
  exists b' r', blist m' start hi (l ++ b' :: r') /\ keeps m m' (live l ++ live r) HEAP_START hi /\
    b_addr b' = b_addr b /\ b_used b' = false /\ live r' = live r /\
    (coalesced r -> coalesced r' /\ hd_used r' = true).
Proof.
  intros Hbl Hu m'. pose proof (blist_around _ _ _ _ _ _ Hbl) as Hb. subst m'. unfold merge_next.
  rewrite (hi_next _ _ _ _ (ar_hdr _ _ _ _ _ Hb)), (hi_size _ _ _ _ (ar_hdr _ _ _ _ _ Hb)).
  destruct r as [|c r]; [exists b, []; by split_and!|]. cbn [hd_addr].
  assert (Hc : around m hi (l ++ [b]) c r) by (eapply (blist_around m start hi); by rewrite <- app_assoc).
  pose proof (ar_hdr _ _ _ _ _ Hc) as Hh. rewrite (hi_magic _ _ _ _ Hh).
  assert (b_addr c <> 0) by (pose proof (ar_lo _ _ _ _ _ Hc); heap_consts; lia).
  replace (b_addr c =? 0) with false by lia. rewrite magic_free_test. destruct (b_used c) eqn:Huc; cbn [negb andb].
  { exists b, (c :: r). by split_and!. }
  assert (Hr : h_next (set_size m (b_addr b) (b_size b + (HEADER_SIZE + h_size m (b_addr c)))) (b_addr b) = b_addr c).
  { destruct Hb, Hc. destruct ar_hdr0. simpl in *. destruct ar_next0 as [|]; [done|]. heap_consts. rdwr. done. }
  assert (Hr' : h_next (set_size m (b_addr b) (b_size b + (HEADER_SIZE + h_size m (b_addr c)))) (b_addr c) = hd_addr r 0).
  { rewrite <- (hi_next _ _ _ _ Hh). destruct Hb, Hc. simpl in *. destruct ar_next0 as [|]; [done|].
    heap_consts. rdwr. done. }
  rewrite Hr, Hr', (hi_size _ _ _ _ Hh).
  assert (Hrn : forall m0, h_next (set_next m0 (b_addr b) (hd_addr r 0)) (b_addr b) = hd_addr r 0).
  { intros. rdwr. destruct Hc as [_ ? _ _ _ _ _ _ ? _]. destruct r as [|d r]; [done|]. simpl in *.
    destruct ar_right0 as (? & ? & ? & ? & ?%laid_le). pose proof (ar_lo _ _ _ _ _ Hb).
    pose proof (ar_size _ _ _ _ _ Hb). heap_consts. apply u32_small. destruct Hb. simpl in *. heap_consts.
    destruct ar_next0; [done|]. lia. }
  rewrite Hrn.
  destruct (join_spec m _ start hi l b c r Hbl Hu eq_refl) as [Hbl' Hk].
  eexists (join b c), r. cbn [live]. rewrite Huc. split; [exact Hbl'|]. split_and!; try done.
  destruct r as [|d r]; [done|]. cbn [coalesced hd_used]. rewrite Huc. by intros [[|] ?].
Qed.

Lemma merge_prev_spec m start hi l b r :
  blist m start hi (l ++ b :: r) -> b_used b = false ->
  let m' := merge_prev m (b_addr b) in
  exists l' b', blist m' start hi (l' ++ b' :: r) /\ keeps m m' (live l ++ live r) HEAP_START hi /\
    b_used b' = false /\ live l' = live l /\
    (coalesced l -> coalesced l' /\ last_used l' = true) /\ h_magic m' (b_addr b) = MAGIC_FREE.
Proof.
  intros Hbl Hu m'. pose proof (blist_around _ _ _ _ _ _ Hbl) as Hb. subst m'. unfold merge_prev.
  pose proof (ar_hdr _ _ _ _ _ Hb) as Hhb. rewrite (hi_prev _ _ _ _ Hhb).
  pose proof (hi_magic _ _ _ _ Hhb) as Hmb. rewrite Hu in Hmb. cbn [magic_of] in Hmb.
  destruct l as [|c l _] using rev_ind; [exists [], b; by split_and!|].
  rewrite last_addr_app. cbn [last_addr]. rewrite <- app_assoc in Hbl.
  pose proof (blist_around _ _ _ _ _ _ Hbl) as Hc. pose proof (ar_hdr _ _ _ _ _ Hc) as Hhc.
  pose proof (ar_lo _ _ _ _ _ Hc). heap_consts.
  replace (b_addr c =? 0) with false by lia. rewrite (hi_magic _ _ _ _ Hhc), magic_free_test.
  destruct (b_used c) eqn:Huc; cbn [negb andb].
  { exists (l ++ [c]), b. rewrite <- app_assoc. split_and!; try done. by rewrite last_used_app. }
  rewrite (hi_size _ _ _ _ Hhc), (hi_size _ _ _ _ Hhb).
  assert (Hord : b_addr c + 16 + b_size c <= b_addr b).
  { destruct (ar_next _ _ _ _ _ Hc); [done|]. by heap_consts. }
  pose proof (ar_size _ _ _ _ _ Hc).
  assert (Hp : h_prev (set_size m (b_addr c) (b_size c + (16 + b_size b))) (b_addr b) = b_addr c).
  { pose proof (hi_prev _ _ _ _ Hhb) as E. rewrite last_addr_app in E. etransitivity; [|exact E]. rdwr. done. }
  assert (Hn : h_next (set_size m (b_addr c) (b_size c + (16 + b_size b))) (b_addr b) = hd_addr r 0).
  { pose proof (hi_next _ _ _ _ Hhb) as E. etransitivity; [|exact E]. rdwr. done. }
  rewrite Hp, Hn.
  assert (Hn' : forall v, h_next (set_next (set_size m (b_addr c) v) (b_addr c) (hd_addr r 0)) (b_addr b) = hd_addr r 0).
  { intros. pose proof (hi_next _ _ _ _ Hhb) as E. etransitivity; [|exact E]. rdwr. done. }
  assert (Hp' : forall v, h_prev (set_next (set_size m (b_addr c) v) (b_addr c) (hd_addr r 0)) (b_addr b) = b_addr c).
  { intros. pose proof (hi_prev _ _ _ _ Hhb) as E. rewrite last_addr_app in E. etransitivity; [|exact E]. rdwr. done. }
  rewrite Hn', Hp'.
  destruct (join_spec m _ start hi l c b r Hbl Huc eq_refl) as [Hbl' Hk].
  exists l, (join c b). rewrite live_app. cbn [live]. rewrite Huc, app_nil_r. split_and!; try done.
  - rewrite coalesced_app. intros (? & _ & [|E]); [done|]. simpl in E. congruence.
  - pose proof (ar_next _ _ _ _ _ Hb) as Hnx. pose proof (ar_size _ _ _ _ _ Hb). rewrite <- Hmb.
    destruct r as [|d r]; cbn [hd_addr Z.eqb]; [rdwr; done|]. destruct Hnx as [|Hnx]; [done|]. cbn [hd_addr] in Hnx.
    heap_consts. replace (b_addr d =? 0) with false by lia. rdwr. done.
Qed.

(** [kfree] of a pointer in use. *)
Lemma kfree_spec m start hi l b r :
  blist m start hi (l ++ b :: r) -> b_used b = true -> coalesced (l ++ b :: r) ->
  let m' := kfree_mem m (b_addr b + HEADER_SIZE) in
  exists bs', blist m' start hi bs' /\ keeps m m' (live l ++ live r) HEAP_START hi /\
    live bs' = live l ++ live r /\ coalesced bs' /\ h_magic m' (b_addr b) = MAGIC_FREE.
Proof.
  intros Hbl Hu Hco m'. pose proof (blist_around _ _ _ _ _ _ Hbl) as Hb. subst m'. unfold kfree_mem.
  replace (b_addr b + HEADER_SIZE - HEADER_SIZE) with (b_addr b) by lia.
  destruct Hb. heap_consts. replace (b_addr b + 16 =? 0) with false by lia.
  rewrite u32_small by lia. rewrite (hi_magic _ _ _ _ ar_hdr0), Hu. cbn [magic_of].
  rewrite Z.eqb_refl. cbn [negb].
  apply coalesced_app in Hco as (Hcl & Hcr & _). change (b :: r) with ([b] ++ r) in Hcr.
  apply coalesced_app in Hcr as (_ & Hcr & _).
  destruct (mark_block_free _ _ _ _ _ _ Hbl) as [H1 K1].
  destruct (merge_next_spec _ _ _ l (freed b) r H1 eq_refl) as (b2 & r2 & H2 & K2 & Ha2 & Hu2 & Hl2 & Hc2).
  destruct (merge_prev_spec _ _ _ l b2 r2 H2 Hu2) as (l3 & b3 & H3 & K3 & Hu3 & Hl3 & Hc3 & Hm3).
  cbn [freed b_addr] in *. rewrite Ha2 in *. rewrite Hl2 in K3.
  exists (l3 ++ b3 :: r2). split_and!; [done| | | |done].
  - eauto using keeps_trans.
  - rewrite live_app. cbn [live]. by rewrite Hu3, Hl2, Hl3.
  - destruct (Hc2 Hcr), (Hc3 Hcl). apply coalesced_app. split_and!; [done| |by left].
    change (b3 :: r2) with ([b3] ++ r2). apply coalesced_app. split_and!; [done|done|by right].
Qed.

(** *** The walks *)

Definition fits (size : Z) (b : blk) : bool := negb (b_used b) && (size <=? b_size b).

Lemma laid_nonzero b bs hi lo : laid lo (b :: bs) hi -> 0 < lo -> b_addr b <> 0.
Proof. simpl. lia. Qed.

(** The search returns the first block that fits. *)
Lemma find_block_spec bs m p lo hi size fuel :
  dseg m p bs 0 -> laid lo bs hi -> 0 < lo -> (length bs < fuel)%nat ->
  (Forall (fun b => fits size b = false) bs /\ find_block fuel m (hd_addr bs 0) size = Some NoFit) \/
  (exists l b r, bs = l ++ b :: r /\ Forall (fun b => fits size b = false) l /\ fits size b = true /\
     find_block fuel m (hd_addr bs 0) size = Some (Fit (b_addr b))).
Proof.
  revert p lo fuel; induction bs as [|b bs IH]; intros p lo fuel Hd Hl Hlo Hf; (destruct fuel as [|fuel]; [simpl in *; lia|]).
  - left. split; [done|]. by cbn.
  - pose proof (laid_nonzero _ _ _ _ Hl Hlo). cbn [hd_addr find_block].
    replace (b_addr b =? 0) with false by lia. simpl in Hd, Hl, Hf. destruct Hd as [Hb Hd].
    destruct Hl as (? & ? & ? & ? & Hl). destruct Hb. rewrite hi_magic0, hi_size0, hi_next0, magic_free_test.
    assert (Hok : negb (negb (b_used b)) && negb (magic_of (b_used b) =? MAGIC_USED) = false) by (by destruct (b_used b)).
    rewrite Hok. change (negb (b_used b) && (size <=? b_size b)) with (fits size b).
    destruct (fits size b) eqn:Hfit.
    + right. exists [], b, bs. by split_and!.
    + destruct (IH (b_addr b) (b_end b) fuel) as [[HF E]|(l & c & r & -> & HF & Hc & E)]; try done; try (heap_consts; lia).
      * left. split; [by constructor|done].
      * right. exists (b :: l), c, r. split_and!; try done. by constructor.
Qed.

Lemma find_tail_spec l b m p lo hi fuel :
  dseg m p (l ++ [b]) 0 -> laid lo (l ++ [b]) hi -> 0 < lo -> (length l < fuel)%nat ->
  find_tail fuel m (hd_addr (l ++ [b]) 0) = Some (b_addr b).
Proof.
  revert p lo fuel; induction l as [|c l IH]; intros p lo fuel Hd Hl Hlo Hf; (destruct fuel as [|fuel]; [simpl in *; lia|]);
    pose proof (laid_nonzero _ _ _ _ Hl Hlo); cbn [app hd_addr find_tail]; simpl in Hd, Hl, Hf; destruct Hd as [[] Hd];
    rewrite hi_next0.
  - by rewrite orb_true_r.
  - destruct Hl as (? & ? & ? & ? & Hl). heap_consts.
    assert (hd_addr (l ++ [b]) 0 <> 0) by (destruct l; simpl in *; lia).
    replace (b_addr c =? 0) with false by lia. replace (hd_addr (l ++ [b]) 0 =? 0) with false by lia.
    eapply IH; [done|done|lia|lia].
Qed.

Lemma free_sum_bound bs lo hi : laid lo bs hi -> 0 <= free_sum bs /\ 0 <= used_sum bs /\
  free_sum bs + used_sum bs + HEADER_SIZE * Z.of_nat (length bs) <= hi - lo.
Proof.
  revert lo; induction bs as [|b bs IH]; intros lo; simpl laid; simpl free_sum; simpl used_sum; simpl length; [lia|].
  intros (? & ? & ? & ? & Hl). apply IH in Hl. heap_consts. destruct (b_used b); lia.
Qed.

(** [heap_dump]'s counters, and with them [heap_free_bytes]'s, are exact. *)
Lemma dump_from_spec bs m p lo hi fuel f u n :
  dseg m p bs 0 -> laid lo bs hi -> 0 < lo -> (length bs < fuel)%nat ->
  0 <= f -> 0 <= u -> 0 <= n -> f + u + n + hi - lo < 2 ^ 32 ->
  dump_from fuel m (hd_addr bs 0) f u n = Some (f + free_sum bs, u + used_sum bs, n + Z.of_nat (length bs)) /\
  free_bytes_from fuel m (hd_addr bs 0) f = Some (f + free_sum bs).
Proof.
  revert p lo fuel f u n; induction bs as [|b bs IH]; intros p lo fuel f u n Hd Hl Hlo Hf ? ? ? Hb;
    (destruct fuel as [|fuel]; [simpl in *; lia|]).
  - cbn. split; repeat f_equal; lia.
  - pose proof (laid_nonzero _ _ _ _ Hl Hlo). pose proof (free_sum_bound _ _ _ Hl).
    cbn [hd_addr dump_from free_bytes_from].
    replace (b_addr b =? 0) with false by lia. simpl in Hd, Hl, Hf. destruct Hd as [[] Hd].
    destruct Hl as (? & ? & ? & ? & Hl). pose proof (laid_le _ _ _ Hl). heap_consts.
    rewrite hi_magic0, hi_size0, hi_next0, magic_free_test. simpl length. cbn [free_sum used_sum length] in *.
    destruct (b_used b); cbn [negb].
    + destruct (IH (b_addr b) (b_addr b + 16 + b_size b) fuel f (u + b_size b) (n + 1)) as [E E']; try done; try lia.
      rewrite E', !u32_small, E by lia. split; [f_equal; f_equal; [f_equal|]; lia|f_equal; lia].
    + destruct (IH (b_addr b) (b_addr b + 16 + b_size b) fuel (f + b_size b) u (n + 1)) as [E E']; try done; try lia.
      rewrite !u32_small, E, E' by lia. split; [f_equal; f_equal; [f_equal|]; lia|f_equal; lia].
Qed.

(** ** The heap and the page allocator *)

(** The second entry of the kernel directory and the table it points at map
    4-8 MB to itself. *)
Record heap_mapped (m : mem) : Prop := {
  hm_dir : rd32 m (PAGE_DIR_ADDR + 4) = 0x302003;
  hm_table : forall j, 0 <= j < 1024 -> rd32 m (0x302000 + 4 * j) = (1024 + j) * 4096 + 3
}.

Lemma heap_mapped_same m m' :
  heap_mapped m -> (forall x, x < HEAP_START -> rd8 m' x = rd8 m x) -> heap_mapped m'.
Proof.
  intros [Hd Ht] E. heap_consts. split.
  - rewrite <- Hd. apply rd32_same. intros. apply E. unfold PAGE_DIR_ADDR. lia.
  - intros j Hj. rewrite <- Ht by done. apply rd32_same. intros. apply E. lia.
Qed.

(** Mapping a heap page to itself rewrites the entry it already has. *)
Lemma map_heap_page v k :
  heap_mapped (v_mem v) -> 1024 <= k < 2048 ->
  exists v', vmm_map_page v (k * 4096) (k * 4096) VMM_KERNEL = (v', 0) /\
    forall x, rd8 (v_mem v') x = rd8 (v_mem v) x.
Proof.
  intros [Hd Ht] Hk. unfold vmm_map_page, map_page_early.
  assert (Hdi : dir_index (k * 4096) = 1) by (rewrite dir_index_eq; Z.to_euclidean_division_equations; lia).
  assert (Hti : table_index (k * 4096) = k - 1024) by (rewrite table_index_eq; Z.to_euclidean_division_equations; lia).
  assert (Hp : pde (v_mem v) PAGE_DIR_ADDR (k * 4096) = 0x302003) by (unfold pde; by rewrite Hdi).
  rewrite Hp. change (has_flag 0x302003 VMM_PRESENT) with true. cbn [negb].
  eexists; split; [reflexivity|]. intros x. cbn [with_mem v_mem]. apply rd8_wr32_same.
  unfold pte_addr. rewrite Hp, Hti. change (frame_of 0x302003) with 0x302000. rewrite Ht by lia.
  change (Z.land VMM_KERNEL 0xFFF) with VMM_KERNEL.
  assert (Hf : frame_of (k * 4096) = k * 4096).
  { rewrite frame_of_eq by (unfold is_u32; lia). by rewrite Z.div_mul by lia. }
  rewrite Hf, kernel_entry_eq, u32_small by lia. lia.
Qed.

Section heap_invariant.
Context {PA : Type} `{PageAllocator PA}.
Implicit Types h : heap PA.

(** What [heap_expand] relies on and keeps: the heap ends at a page boundary
    within its 4 MB, its pages and those below 4 MB are not free. *)
Record arena_ok h : Prop := {
  ao_end : HEAP_START <= heap_end h <= HEAP_MAX;
  ao_page : heap_end h mod 4096 = 0;
  ao_pages : pa_ok (h_pages h);
  ao_owned : forall k, k * 4096 < heap_end h -> pa_isfree (h_pages h) k = false;
  ao_map : heap_mapped (h_mem h)
}.

Record heap_ok h (bs : list blk) : Prop := {
  ho_list : blist (h_mem h) (heap_start_ptr h) (heap_end h) bs;
  ho_coal : coalesced bs;
  ho_arena : arena_ok h
}.

(** The page after the heap cannot be added to it. *)
Definition cannot_grow h : Prop :=
  heap_end h = HEAP_MAX \/ pa_isfree (h_pages h) (heap_end h / 4096) = false.

(** How an expansion by [n] pages changes the heap. *)
Record expanded h h' (n : Z) (ok : bool) : Prop := {
  ex_arena : arena_ok h';
  ex_mem : forall x, rd8 (h_mem h') x = rd8 (h_mem h) x;
  ex_start : heap_start_ptr h' = heap_start_ptr h;
  ex_le : heap_end h <= heap_end h' <= heap_end h + n * 4096;
  ex_ok : if ok then heap_end h' = heap_end h + n * 4096 else cannot_grow h';
  ex_free : forall q, pa_isfree (h_pages h') q =
    pa_isfree (h_pages h) q && negb ((heap_end h / 4096 <=? q) && (q <? heap_end h' / 4096));
  ex_taken : forall q, heap_end h / 4096 <= q < heap_end h' / 4096 -> pa_isfree (h_pages h) q = true
}.

Lemma expanded_refl h (n : Z) (ok : bool) :
  arena_ok h -> 0 <= n -> (if ok then n = 0 else cannot_grow h) -> expanded h h n ok.
Proof.
  intros Ha Hn Hok. split; try done; [lia| | |].
  - destruct ok; [lia|done].
  - intros q. replace ((heap_end h / 4096 <=? q) && (q <? heap_end h / 4096)) with false by lia.
    by rewrite andb_true_r.
  - lia.
Qed.

(** One page added to the arena. *)
Lemma arena_grow h (p1 : PA) v2 k :
  arena_ok h -> heap_end h = k * 4096 -> k < 2048 -> pa_ok p1 ->
  (forall q, pa_isfree p1 q = pa_isfree (h_pages h) q && negb (q =? k)) ->
  (forall x, rd8 (v_mem v2) x = rd8 (h_mem h) x) ->
  arena_ok (mk_heap v2 p1 (heap_start_ptr h) (k * 4096 + 4096)).
Proof.
  intros [He Hp Hok Ho Hm] Hk Hk2 Hp1 Hfree Hmem. heap_consts. split; cbn [heap_end h_pages]; try done; try (heap_consts; lia).
  - Z.to_euclidean_division_equations; lia.
  - intros q Hq. rewrite Hfree. destruct (Z.eqb_spec q k); [apply andb_false_r|]. rewrite Ho by lia. done.
  - eapply heap_mapped_same; [done|]. intros. apply Hmem.
Qed.

Lemma expand_pages_spec n : forall h h' ok,
  arena_ok h -> expand_pages n h = (h', ok) -> expanded h h' (Z.of_nat n) ok.
Proof.
  induction n as [|n IH]; intros h h' ok Ha; cbn [expand_pages].
  { intros [= <- <-]. by apply expanded_refl. }
  pose proof Ha as [He Hp Hok Ho Hm]. heap_consts. rewrite u32_small by lia.
  destruct (8388608 <? heap_end h + 4096) eqn:Hmax; b2p.
  { intros [= <- <-]. apply expanded_refl; [done|lia|]. left. heap_consts. Z.to_euclidean_division_equations; lia. }
  assert (exists k, heap_end h = k * 4096) as [k Hk] by (exists (heap_end h / 4096); Z.to_euclidean_division_equations; lia).
  rewrite Hk. destruct (pa_alloc_at (h_pages h) (k * 4096)) as [p1 a] eqn:Hal.
  assert (Hk1 : 1024 <= k < 2048) by lia.
  destruct (pa_alloc_at_law (h_pages h) p1 k a Hok ltac:(lia) Hal) as [(-> & -> & Hnf)|(-> & Hf & Hp1 & Hfree)]; cbn [heap_end h_vmm heap_start_ptr].
  { rewrite Z.eqb_refl. intros [= <- <-].
    replace (mk_heap (h_vmm h) (h_pages h) (heap_start_ptr h) (k * 4096)) with h by (destruct h; simpl in *; by rewrite Hk).
    apply expanded_refl; [done|lia|]. right. rewrite Hk, Z.div_mul by lia. done. }
  replace (k * 4096 =? 0) with false by lia.
  destruct (map_heap_page (h_vmm h) k Hm Hk1) as (v2 & -> & Hv2). cbn [negb Z.eqb].
  rewrite u32_small by lia. intros E. apply IH in E; [|apply (arena_grow h p1 v2 k); done || lia].
  destruct E as [Ea Em Es El Eo Ef Et]. cbn [heap_end heap_start_ptr h_pages] in *. split; try done.
  - intros x. rewrite Em. apply Hv2.
  - lia.
  - destruct ok; [lia|done].
  - intros q. rewrite Ef, Hfree, Hk. rewrite (Z.div_mul k 4096) by lia.
    replace ((k * 4096 + 4096) / 4096) with (k + 1) by (Z.to_euclidean_division_equations; lia).
    assert (k + 1 <= heap_end h' / 4096) by (Z.to_euclidean_division_equations; lia).
    destruct (pa_isfree (h_pages h) q); [|done]. simpl. lia.
  - intros q Hq. destruct (Z.eq_dec q k) as [->|Hne]; [done|].
    specialize (Et q). rewrite Hfree in Et. rewrite Hk, Z.div_mul in Hq by lia.
    replace ((k * 4096 + 4096) / 4096) with (k + 1) in Et by (Z.to_euclidean_division_equations; lia).
    apply andb_prop in Et; [tauto|lia].
Qed.

Lemma heap_expand_spec h h' size ok :
  arena_ok h -> 0 <= size -> size + 4095 < 2 ^ 32 -> heap_expand h size = (h', ok) ->
  expanded h h' ((size + 4095) / 4096) ok.
Proof.
  intros Ha ? ? E. unfold heap_expand in E. heap_consts. rewrite u32_small in E by lia.
  apply expand_pages_spec in E; [|done].
  replace (size + 4096 - 1) with (size + 4095) in E by lia. rewrite Z2Nat.id in E; [done|].
  Z.to_euclidean_division_equations; lia.
Qed.

(** *** Allocation from the list *)

Lemma blist_same m m' start hi hi' bs :
  blist m start hi bs -> (forall x, HEAP_START <= x < hi -> rd8 m' x = rd8 m x) -> hi <= hi' <= HEAP_MAX -> blist m' start hi' bs.
Proof.
  intros [Hs Hd Hl Hh] E ?. split; [done| | |lia].
  - eapply dseg_same; [|done]. intros b Hb x Hx. apply (laid_elem _ _ _ _ Hl) in Hb. apply E. heap_consts. lia.
  - eapply laid_weaken; [done|lia|lia].
Qed.

Lemma coalesced_around l b r :
  coalesced (l ++ b :: r) -> b_used b = false ->
  coalesced l /\ coalesced r /\ last_used l = true /\ hd_used r = true.
Proof.
  intros Hc Hu. apply coalesced_app in Hc as (Hl & Hr & Hj). change (b :: r) with ([b] ++ r) in Hr.
  apply coalesced_app in Hr as (_ & Hr & Hj'). unfold last_used in Hj' at 1. simpl in Hj, Hj'.
  rewrite Hu in *. split_and!; try done; [by destruct Hj|by destruct Hj'].
Qed.

Lemma arena_keep h m' lv :
  arena_ok h -> keeps (h_mem h) m' lv HEAP_START (heap_end h) -> arena_ok (set_mem h m').
Proof.
  intros [] Hk. split; try done. cbn. eapply heap_mapped_same; [done|]. intros. apply Hk. by left.
Qed.

Lemma take_ok h l b r size :
  heap_ok h (l ++ b :: r) -> fits size b = true -> 0 < size -> size mod 4 = 0 ->
  let h' := set_mem h (take_block (h_mem h) (b_addr b) size) in
  heap_ok h' (l ++ taken b size ++ r) /\
  keeps (h_mem h) (h_mem h') (live (l ++ b :: r)) HEAP_START (heap_end h) /\
  exists z, size <= z <= b_size b /\ live (l ++ taken b size ++ r) = live l ++ (b_addr b + HEADER_SIZE, z) :: live r.
Proof.
  intros [Hbl Hco Ha] Hf Hs Hal h'. unfold fits in Hf. b2p.
  destruct (take_block_spec _ _ _ l b r size Hbl) as [Hbl' Hk]; [done|lia|done|].
  assert (Hlv : live (l ++ b :: r) = live l ++ live r).
  { rewrite live_app. simpl. by replace (b_used b) with false. }
  rewrite Hlv. split_and!.
  - split; [done| |by eapply arena_keep].
    destruct (coalesced_around _ _ _ Hco ltac:(done)) as (Hcl & Hcr & Hul & Hur).
    apply coalesced_app. split_and!; [done| |by left]. apply coalesced_app. unfold taken.
    destruct (_ <=? _); cbn; split_and!; try done; auto.
  - done.
  - unfold taken. destruct (_ <=? _) eqn:E; b2p; [exists size|exists (b_size b)]; (split; [heap_consts; lia|]);
      by rewrite !live_app.
Qed.

(** *** Appending the new space *)

Lemma walk_fuel_enough m start hi bs : blist m start hi bs -> (length bs < walk_fuel)%nat.
Proof.
  intros [_ _ Hl Hh]. apply laid_length in Hl. unfold walk_fuel. heap_consts.
  change ((8388608 - 4194304) / 16) with 262144. lia.
Qed.

(** The header of the new space, not linked yet. *)
Definition new_header (m : mem) (b size : Z) : mem :=
  set_prev (set_next (set_size (set_magic m b MAGIC_FREE) b size) b 0) b 0.

Lemma new_header_out m b size x : x < b \/ b + 16 <= x -> rd8 (new_header m b size) x = rd8 m x.
Proof. intros. unfold new_header, set_magic, set_size, set_next, set_prev. by rewrite !rd8_wr32_ne by lia. Qed.

Lemma append_first h old :
  arena_ok h -> heap_start_ptr h = 0 -> HEAP_START <= old -> old mod 4 = 0 -> old + HEADER_SIZE <= heap_end h ->
  let b := mk_blk old (heap_end h - old - HEADER_SIZE) false in
  let m' := new_header (h_mem h) old (heap_end h - old - HEADER_SIZE) in
  heap_ok (mk_heap (with_mem (h_vmm h) m') (h_pages h) old (heap_end h)) [b] /\
  keeps (h_mem h) m' [] HEAP_START (heap_end h).
Proof.
  intros Ha Hs Ho Hal Hr b m'. destruct Ha as [He Hp Hok Hown Hm]. heap_consts.
  assert (Hk : keeps (h_mem h) m' [] HEAP_START (heap_end h)).
  { intros x Hx. apply new_header_out. heap_consts. destruct Hx as [|[|(? & ? & E & ?)]]; [lia|lia|].
    by apply not_elem_of_nil in E. }
  split; [|done]. split; [|done|].
  - split; cbn [heap_start_ptr heap_end]; [done| |subst b; laid_tac|heap_consts; lia].
    subst b. cbn. split; [|done]. subst m'. unfold new_header. split; hdr_tac.
  - split; try done. eapply heap_mapped_same; [done|]. intros. apply Hk. by left.
Qed.

Lemma append_tail h l t old :
  blist (h_mem h) (heap_start_ptr h) old (l ++ [t]) -> coalesced (l ++ [t]) -> arena_ok h ->
  old mod 4 = 0 -> old + HEADER_SIZE <= heap_end h ->
  exists h' bs', append_block h old = Some h' /\ heap_ok h' (l ++ bs') /\ live bs' = live [t] /\
    keeps (h_mem h) (h_mem h') (live (l ++ [t])) HEAP_START (heap_end h) /\
    (exists b, b ∈ bs' /\ b_used b = false /\ heap_end h - old - HEADER_SIZE <= b_size b) /\
    heap_end h' = heap_end h /\ h_pages h' = h_pages h.
Proof.
  intros Hbl Hco Ha Hal Hr. pose proof Ha as [He Hp Hok Hown Hm].
  pose proof (blist_around _ _ _ _ _ _ Hbl) as [].
  set (m1 := new_header (h_mem h) old (heap_end h - old - HEADER_SIZE)).
  assert (Hbl0 : blist (h_mem h) (heap_start_ptr h) (heap_end h) (l ++ [t])).
  { eapply blist_same; [exact Hbl|done|]. heap_consts. lia. }
  assert (Hbl1 : blist m1 (heap_start_ptr h) old (l ++ [t])).
  { eapply blist_same; [exact Hbl| |lia]. intros. apply new_header_out. lia. }
  assert (Hft : find_tail walk_fuel m1 (heap_start_ptr h) = Some (b_addr t)).
  { pose proof Hbl1 as [-> Hd Hl _]. eapply find_tail_spec; [done|done|heap_consts; lia|].
    apply walk_fuel_enough in Hbl. rewrite length_app in Hbl. simpl in Hbl. lia. }
  unfold append_block. fold (new_header (h_mem h) old (heap_end h - old - HEADER_SIZE)). fold m1. rewrite Hft; clear Hft.
  destruct t as [a z u]; unfold b_end in *; cbn [b_addr b_size b_used hd_addr] in *. destruct ar_hdr0; cbn [b_addr b_size b_used] in *. heap_consts.
  replace (a =? 0) with false by lia.
  set (m2 := set_prev (set_next m1 a old) old a).
  assert (Hmag : h_magic m2 a = magic_of u).
  { rewrite <- hi_magic0. subst m2 m1. unfold new_header. rdwr. done. }
  rewrite Hmag, magic_free_test.
  assert (Hz : h_size m2 a = z) by (rewrite <- hi_size0; subst m2 m1; unfold new_header; rdwr; done).
  assert (Hz' : h_size m2 old = heap_end h - old - 16) by (subst m2 m1; unfold new_header; rdwr; apply u32_small; lia).
  set (bs' := if u then [mk_blk a z true; mk_blk old (heap_end h - old - 16) false]
              else [mk_blk a (z + (16 + (heap_end h - old - 16))) false]).
  eexists _, bs'. split; [reflexivity|].
  rewrite Hz, Hz'.
  match goal with |- context [set_mem h ?mm] => set (m' := mm) end.
  destruct (blist_splice (h_mem h) m' (heap_start_ptr h) (heap_end h) l [mk_blk a z u] bs' [] a (heap_end h))
    as [Hbl' Hk].
  - by rewrite app_nil_r.
  - done.
  - subst bs'. destruct u; laid_tac.
  - simpl. lia.
  - subst m' m2 m1. unfold new_header. intros x Hx _. destruct u; cbn [negb];
      unfold set_magic, set_size, set_next, set_prev; by rewrite !rd8_wr32_ne by lia.
  - subst m' bs' m2 m1. unfold new_header. destruct u; cbn; split_and!; try done; split; hdr_tac.
  - subst bs'. by destruct u.
  - by left.
  - rewrite app_nil_r in *. cbn [live] in Hk.
    assert (Hk' : keeps (h_mem h) m' (live (l ++ [mk_blk a z u])) HEAP_START (heap_end h)).
    { intros x Hx. destruct (decide (a + 16 <= x < a + 16 + z)) as [Hin|Hout].
      - subst m' m2 m1. unfold new_header, set_magic, set_size, set_next, set_prev.
        destruct u; cbn [negb]; by rewrite !rd8_wr32_ne by lia.
      - apply Hk. destruct Hx as [|[|(q & s & Hq & ?)]]; [by left|by right; left|right; right].
        exists q, s. split; [|done]. rewrite live_app in Hq. apply elem_of_app in Hq as [|Hq]; [done|].
        apply live_elem, list_elem_of_singleton in Hq. unfold HEADER_SIZE in Hq. injection Hq. lia. }
    split_and!; try done.
    + split; [done| |by eapply arena_keep]. apply coalesced_app in Hco as (? & _ & Hj).
      apply coalesced_app. subst bs'. destruct u; cbn; split_and!; auto.
    + subst bs'. by destruct u.
    + subst bs'. destruct u; eexists;
        (split; [apply list_elem_of_further, list_elem_of_here || apply list_elem_of_here|]); cbn; (split; [done|lia]).
Qed.

(** *** [kmalloc] *)

Lemma page_word_aligned x : x mod 4096 = 0 -> x mod 4 = 0.
Proof. intros. Z.to_euclidean_division_equations. lia. Qed.

Lemma round_up_pages x : x <= (x + 4095) / 4096 * 4096.
Proof. Z.to_euclidean_division_equations. lia. Qed.

Lemma align_eq size : 0 < size <= 0x400000 ->
  Z.land (u32 (size + 3)) 0xFFFFFFFC = (size + 3) / 4 * 4.
Proof.
  intros. rewrite u32_small by lia. change 0xFFFFFFFC with (Z.shiftl (Z.ones 30) 2).
  rewrite (land_mask_down (size + 3) 2 30) by lia. done.
Qed.

(** The pages an operation took are those the heap grew by. *)
Definition grew h h' : Prop :=
  heap_end h <= heap_end h' /\
  forall q, pa_isfree (h_pages h') q =
    pa_isfree (h_pages h) q && negb ((heap_end h / 4096 <=? q) && (q <? heap_end h' / 4096)) /\
    (heap_end h / 4096 <= q < heap_end h' / 4096 -> pa_isfree (h_pages h) q = true).

Lemma grew_refl h : grew h h.
Proof.
  split; [lia|]. intros q. replace ((heap_end h / 4096 <=? q) && (q <? heap_end h / 4096)) with false by lia.
  rewrite andb_true_r. split; [done|lia].
Qed.

Lemma grew_trans h1 h2 h3 : grew h1 h2 -> grew h2 h3 -> grew h1 h3.
Proof.
  intros [Hg1 Hg2] [Hk1 Hk2]. split; [lia|]. intros q. destruct (Hg2 q) as [E1 T1], (Hk2 q) as [E2 T2].
  assert (heap_end h1 / 4096 <= heap_end h2 / 4096) by (apply Z.div_le_mono; lia).
  assert (heap_end h2 / 4096 <= heap_end h3 / 4096) by (apply Z.div_le_mono; lia).
  rewrite E2, E1. rewrite E1 in T2. destruct (pa_isfree (h_pages h1) q); simpl in *; [lia|].
  split; [done|]. intros. destruct (Z_lt_le_dec q (heap_end h2 / 4096)); [apply T1|apply T2]; lia.
Qed.

Record allocated h (bs : list blk) (size : Z) h' (bs' : list blk) (p : Z) : Prop := {
  al_ok : heap_ok h' bs';
  al_keeps : keeps (h_mem h) (h_mem h') (live bs) HEAP_START (heap_end h');
  al_size : 0 < size <= 0x400000;
  al_live : exists z, size <= z /\ live bs' ≡ₚ (p, z) :: live bs;
  al_grew : grew h h'
}.

Lemma kmalloc_fit calls h bs size b :
  heap_ok h bs -> 0 < size <= 0x400000 -> b ∈ bs -> fits ((size + 3) / 4 * 4) b = true ->
  exists h' bs' p, kmalloc_calls (Datatypes.S calls) h size = Some (h', p) /\ allocated h bs size h' bs' p.
Proof.
  intros Hok Hs Hb Hf. cbn [kmalloc_calls]. replace (size =? 0) with false by lia.
  change (HEAP_MAX - HEAP_START) with 0x400000. replace (0x400000 <? size) with false by lia.
  rewrite align_eq by done. set (z := (size + 3) / 4 * 4) in *.
  assert (Hz : size <= z /\ z mod 4 = 0) by (subst z; Z.to_euclidean_division_equations; lia).
  pose proof (ho_list _ _ Hok) as [Hs0 Hd Hl Hh].
  rewrite Hs0. destruct (find_block_spec bs (h_mem h) 0 HEAP_START (heap_end h) z walk_fuel)
    as [[HF E]|(l & c & r & -> & HF & Hc & E)]; try done.
  { by eapply walk_fuel_enough, ho_list. }
  { rewrite Forall_forall in HF. rewrite (HF b Hb) in Hf. done. }
  rewrite E. destruct (take_ok h l c r z Hok Hc) as (Hok' & Hk & z' & Hz' & Hlv); [lia|lia|].
  assert (Hin : c ∈ l ++ c :: r) by (apply elem_of_app; right; apply list_elem_of_here).
  destruct (laid_elem _ _ _ _ Hl Hin) as (? & ? & ? & ? & ?).
  rewrite u32_small by (heap_consts; lia).
  eexists _, _, _. split; [reflexivity|]. split; [exact Hok'|done|done| |].
  - exists z'. split; [lia|]. rewrite Hlv, live_app. simpl. unfold fits in Hc. b2p.
    replace (b_used c) with false. by rewrite Permutation_middle.
  - apply (grew_refl h).
Qed.

(** Why [kmalloc] may return 0. *)
Definition no_room h (bs : list blk) h' (size : Z) : Prop :=
  (forall b, b ∈ bs -> b_used b = false -> b_size b < size) /\ cannot_grow h'.

Lemma expanded_grew h h' n ok : expanded h h' n ok -> grew h h'.
Proof. intros []. split; [lia|auto]. Qed.

Lemma append_ok h bs old :
  blist (h_mem h) (heap_start_ptr h) old bs -> coalesced bs -> arena_ok h ->
  HEAP_START <= old -> old mod 4 = 0 -> old + HEADER_SIZE <= heap_end h ->
  exists h' bs' b, append_block h old = Some h' /\ heap_ok h' bs' /\ live bs' = live bs /\
    keeps (h_mem h) (h_mem h') (live bs) HEAP_START (heap_end h) /\
    b ∈ bs' /\ b_used b = false /\ heap_end h - old - HEADER_SIZE <= b_size b /\
    heap_end h' = heap_end h /\ h_pages h' = h_pages h.
Proof.
  intros Hbl Hco Ha Ho Hal Hr. destruct bs as [|t l _] using rev_ind.
  - pose proof (bl_start _ _ _ _ Hbl) as Hs. simpl in Hs.
    destruct (append_first h old Ha Hs Ho Hal Hr) as [Hok Hk].
    unfold append_block. fold (new_header (h_mem h) old (heap_end h - old - HEADER_SIZE)). rewrite Hs.
    rewrite (ltac:(done) : find_tail walk_fuel _ 0 = Some 0) || idtac.
    eexists _, _, _. split_and!; [| exact Hok|done|exact Hk|apply list_elem_of_here|done|simpl; lia|done|done].
    done.
  - destruct (append_tail h l t old) as (h' & bs' & E & Hok & Hlv & Hk & (b & Hb & Hu & Hz) & He & Hp); try done.
    exists h', (l ++ bs'), b. split_and!; try done.
    + by rewrite !live_app, Hlv.
    + apply elem_of_app. by right.
Qed.

Lemma kmalloc_spec h bs size :
  heap_ok h bs -> is_u32 size ->
  exists h' p, kmalloc h size = Some (h', p) /\
    ((p = 0 /\ heap_ok h' bs /\ (forall x, rd8 (h_mem h') x = rd8 (h_mem h) x) /\ grew h h' /\
       (size = 0 \/ HEAP_MAX - HEAP_START < size \/ no_room h bs h' ((size + 3) / 4 * 4))) \/
     (exists bs', allocated h bs size h' bs' p)).
Proof.
  intros Hok Hs. unfold kmalloc. destruct (decide (0 < size <= 0x400000)) as [Hr|Hr].
  2:{ exists h, 0. cbn [kmalloc_calls]. change (HEAP_MAX - HEAP_START) with 0x400000. split.
      - destruct (Z.eqb_spec size 0); [done|]. unfold is_u32 in *.
        by replace (0x400000 <? size) with true by lia.
      - left. split_and!; try done; [apply grew_refl|]. unfold is_u32 in *. lia. }
  set (z := (size + 3) / 4 * 4).
  destruct (decide (Exists (fun b => fits z b = true) bs)) as [HE|HN].
  { apply Exists_exists in HE as (b & Hb & Hf).
    destruct (kmalloc_fit 1 h bs size b Hok Hr Hb Hf) as (h' & bs' & p & E & Hal). eauto 10. }
  assert (HF : forall b, b ∈ bs -> fits z b = false).
  { intros b Hb. destruct (fits z b) eqn:E; [|done]. exfalso. apply HN, Exists_exists. eauto. }
  change 2%nat with (Datatypes.S 1). cbn [kmalloc_calls]. replace (size =? 0) with false by lia.
  change (HEAP_MAX - HEAP_START) with 0x400000. replace (0x400000 <? size) with false by lia.
  rewrite align_eq by done. fold z.
  assert (Hz : size <= z <= size + 3 /\ z mod 4 = 0) by (subst z; Z.to_euclidean_division_equations; lia).
  pose proof (ho_list _ _ Hok) as Hbl. pose proof Hbl as [Hs0 Hd Hl Hh].
  rewrite Hs0. destruct (find_block_spec bs (h_mem h) 0 HEAP_START (heap_end h) z walk_fuel)
    as [[_ ->]|(l & c & r & -> & _ & Hc & _)]; try done.
  { by eapply walk_fuel_enough. }
  2:{ rewrite HF in Hc; [done|]. apply elem_of_app; right; apply list_elem_of_here. }
  destruct (heap_expand h (u32 (z + HEADER_SIZE))) as [h1 ok] eqn:Hex.
  rewrite u32_small in Hex by (heap_consts; lia).
  pose proof (heap_expand_spec h h1 (z + HEADER_SIZE) ok (ho_arena _ _ Hok) ltac:(heap_consts; lia) ltac:(heap_consts; lia) Hex) as Hx.
  pose proof (expanded_grew _ _ _ _ Hx) as Hg. destruct Hx as [Ea Em Es El Eo _ _].
  assert (Hbl1 : blist (h_mem h1) (heap_start_ptr h1) (heap_end h) bs).
  { rewrite Es. eapply blist_same; [done|auto|lia]. }
  destruct ok; cbn [negb].
  - pose proof (ao_end _ (ho_arena _ _ Hok)). pose proof (ao_page _ (ho_arena _ _ Hok)).
    destruct (append_ok h1 bs (heap_end h)) as (h2 & bs2 & b & -> & Hok2 & Hlv2 & Hk2 & Hb2 & Hu2 & Hz2 & He2 & Hp2);
      [done|apply Hok|done|lia|by apply page_word_aligned|
       heap_consts; pose proof (round_up_pages (z + 16)); lia|].
    assert (Hzz : (z + 3) / 4 * 4 = z) by (Z.to_euclidean_division_equations; lia).
    assert (Hfit : fits z b = true).
    { unfold fits. rewrite Hu2. apply Z.leb_le. heap_consts.
      pose proof (round_up_pages (z + 16)). lia. }
    destruct (kmalloc_fit 0 h2 bs2 z b Hok2) as (h' & bs' & p & E & [Aok Ak _ Al Ag]);
      [Z.to_euclidean_division_equations; lia|done|by rewrite Hzz|].
    exists h', p. split; [exact E|]. right. exists bs'. split.
    + done.
    + rewrite Hlv2 in Ak. destruct Ag as [Ag _]. eapply keeps_trans; [|exact Ak].
      eapply (keeps_weaken _ _ (live bs) _ HEAP_START _ (heap_end h1)); [|lia|lia|done].
      intros x Hx. rewrite (Hk2 x Hx). apply Em.
    + done.
    + destruct Al as (z' & ? & Al). exists z'. split; [lia|]. by rewrite Al, Hlv2.
    + eapply grew_trans; [done|]. destruct Ag as [Ag1 Ag2]. split; [lia|]. by rewrite <- He2, <- Hp2.
  - exists h1, 0. split; [done|]. left. split_and!; try done.
    + split; [|apply Hok|done]. rewrite Es. eapply blist_same; [done|auto|]. pose proof (ao_end _ Ea). lia.
    + right; right. split; [|done]. intros b Hb Hu. specialize (HF b Hb). unfold fits in HF.
      rewrite Hu in HF. cbn in HF. fold z. lia.
Qed.

(** *** [kfree] and [heap_init] *)

Lemma kfree_live h bs p z :
  heap_ok h bs -> (p, z) ∈ live bs ->
  exists bs', heap_ok (kfree h p) bs' /\ live bs ≡ₚ (p, z) :: live bs' /\
    keeps (h_mem h) (h_mem (kfree h p)) (live bs') HEAP_START (heap_end h) /\
    h_magic (h_mem (kfree h p)) (p - HEADER_SIZE) = MAGIC_FREE.
Proof.
  intros [Hbl Hco Ha] Hp. apply live_elem, list_elem_of_split in Hp as (l & r & ->).
  destruct (kfree_spec _ _ _ l (mk_blk (p - HEADER_SIZE) z true) r Hbl eq_refl Hco) as (bs' & Hbl' & Hk & Hlv & Hco' & Hm).
  cbn [b_addr] in *. replace (p - HEADER_SIZE + HEADER_SIZE) with p in * by lia.
  exists bs'. split_and!.
  - split; [done|done|]. by eapply arena_keep.
  - rewrite Hlv, live_app. cbn [live b_used b_addr b_size].
    replace (p - HEADER_SIZE + HEADER_SIZE) with p by lia. by rewrite Permutation_middle.
  - by rewrite Hlv.
  - done.
Qed.

Lemma heap_init_ok h :
  arena_ok h -> heap_end h = HEAP_START -> heap_start_ptr h = 0 ->
  exists bs, heap_ok (heap_init h) bs /\ live bs = [] /\ grew h (heap_init h).
Proof.
  intros Ha He Hs. unfold heap_init. destruct (heap_expand h HEAP_INITIAL_SIZE) as [h1 ok] eqn:Hex.
  apply heap_expand_spec in Hex; [|done|done|done]. pose proof (expanded_grew _ _ _ _ Hex) as Hg.
  destruct Hex as [Ea _ Es El Eo _ _]. pose proof (ao_end _ Ea).
  destruct ok; cbn [negb].
  - change ((HEAP_INITIAL_SIZE + 4095) / 4096 * 4096) with 0x40000 in Eo.
    destruct (append_first h1 HEAP_START Ea) as [Hok _]; [congruence|lia|done|heap_consts; lia|].
    eexists; split; [exact Hok|]. split; [done|]. exact Hg.
  - exists []. split_and!; try done. split; [|done|done]. split; [by rewrite Es|done|simpl; lia|lia].
Qed.

(** *** Live objects do not overlap *)

Lemma live_range lo bs hi p z : laid lo bs hi -> (p, z) ∈ live bs ->
  lo + HEADER_SIZE <= p /\ p mod 4 = 0 /\ 0 <= z /\ p + z <= hi.
Proof.
  intros Hl Hp. apply live_elem in Hp. apply (laid_elem _ _ _ _ Hl) in Hp. unfold b_end in Hp.
  cbn [b_addr b_size] in Hp. heap_consts. split_and!; try lia. Z.to_euclidean_division_equations; lia.
Qed.

Lemma live_NoDup lo bs hi : laid lo bs hi -> NoDup (live bs).
Proof.
  revert lo; induction bs as [|b bs IH]; intros lo; simpl; [constructor|].
  intros (? & ? & ? & ? & Hl). destruct (b_used b); [|by eapply IH]. constructor; [|by eapply IH].
  intros Hin. apply (live_range _ _ _ _ _ Hl) in Hin. heap_consts. lia.
Qed.

Lemma live_disjoint lo bs hi p z q y :
  laid lo bs hi -> (p, z) ∈ live bs -> (q, y) ∈ live bs ->
  (p = q /\ z = y) \/ p + z <= q \/ q + y <= p.
Proof.
  revert lo; induction bs as [|b bs IH]; intros lo Hl Hp Hq; [by apply not_elem_of_nil in Hp|].
  simpl in Hl. destruct Hl as (? & ? & ? & ? & Hl). cbn [live] in *.
  destruct (b_used b); [|by eapply IH].
  apply elem_of_cons in Hp as [Hp|Hp], Hq as [Hq|Hq]; simplify_eq; [auto| | |by eapply IH].
  - apply (live_range _ _ _ _ _ Hl) in Hq. heap_consts. lia.
  - apply (live_range _ _ _ _ _ Hl) in Hp. heap_consts. lia.
Qed.
End heap_invariant.

(** ** The heap in the running kernel

    Clients allocate, free and write objects, while other kernel parts take
    pages from the same page allocator and write to them. *)

Record sys := mk_sys {
  s_heap : heap pmm;
  s_objs : gmap Z Z;       (** pointer handed out, size asked for *)
  s_pages : gset Z         (** pages handed to other parts *)
}.

Inductive sys_step : sys -> sys -> Prop :=
| sys_kmalloc h objs pages size h' p :
    is_u32 size -> kmalloc h size = Some (h', p) ->
    sys_step (mk_sys h objs pages) (mk_sys h' (if p =? 0 then objs else <[p := size]> objs) pages)
| sys_kfree h objs pages p n :
    objs !! p = Some n -> sys_step (mk_sys h objs pages) (mk_sys (kfree h p) (delete p objs) pages)
| sys_store h objs pages p n i v :
    objs !! p = Some n -> 0 <= i < n ->
    sys_step (mk_sys h objs pages) (mk_sys (set_mem h (wr8 (h_mem h) (p + i) v)) objs pages)
| sys_page_alloc h objs pages p1 k :
    pmm_alloc_page (h_pages h) = (p1, k * 4096) -> k <> 0 ->
    sys_step (mk_sys h objs pages) (mk_sys (mk_heap (h_vmm h) p1 (heap_start_ptr h) (heap_end h)) objs ({[k]} ∪ pages))
| sys_page_free h objs pages k :
    k ∈ pages ->
    sys_step (mk_sys h objs pages)
      (mk_sys (mk_heap (h_vmm h) (pmm_free_page (h_pages h) (k * 4096)) (heap_start_ptr h) (heap_end h)) objs (pages ∖ {[k]}))
| sys_page_store h objs pages k i v :
    k ∈ pages -> 0 <= i < 4096 ->
    sys_step (mk_sys h objs pages) (mk_sys (set_mem h (wr8 (h_mem h) (k * 4096 + i) v)) objs pages).

Lemma sys_kmalloc_some h objs pages size h' p :
  is_u32 size -> kmalloc h size = Some (h', p) -> p <> 0 ->
  sys_step (mk_sys h objs pages) (mk_sys h' (<[p := size]> objs) pages).
Proof.
  intros Hs E Hp. pose proof (sys_kmalloc h objs pages size h' p Hs E) as Hstep.
  by replace (p =? 0) with false in Hstep by lia.
Qed.

Record sys_ok (st : sys) (bs : list blk) : Prop := {
  so_heap : heap_ok (s_heap st) bs;
  so_objs : forall p n, s_objs st !! p = Some n -> exists z, n <= z /\ (p, z) ∈ live bs;
  so_pages : forall k, k ∈ s_pages st -> 
    heap_end (s_heap st) <= k * 4096 /\ k < 2048 /\ pa_isfree (h_pages (s_heap st)) k = false
}.

(** Boot: [pmm_init], [vmm_init], then [heap_init]. *)
Definition boot_heap (rs : list boot_mem_region) : heap pmm :=
  mk_heap (vmm_init boot_vmm) (pmm_init rs) 0 HEAP_START.
Definition boot_sys (rs : list boot_mem_region) : sys := mk_sys (heap_init (boot_heap rs)) ∅ ∅.

Lemma boot_arena rs : arena_ok (boot_heap rs).
Proof.
  split; cbn [boot_heap heap_end h_pages].
  - heap_consts. lia.
  - done.
  - apply boot_client_ok.
  - intros k Hk. apply boot_low_used. heap_consts. lia.
  - destruct (vmm_init_tables boot_vmm) as (_ & Hd & _ & Ht). split; [exact Hd|exact Ht].
Qed.

Lemma boot_sys_ok rs : exists bs, sys_ok (boot_sys rs) bs /\ live bs = [].
Proof.
  destruct (heap_init_ok (boot_heap rs) (boot_arena rs) eq_refl eq_refl) as (bs & Hok & Hlv & _).
  exists bs. split; [|done]. split; [done| |]; cbn [boot_sys s_objs s_pages].
  - intros p n. by rewrite lookup_empty.
  - intros k. by rewrite elem_of_empty.
Qed.

Lemma live_header lo bs hi p z b :
  laid lo bs hi -> (p, z) ∈ live bs -> b ∈ bs -> b_addr b + HEADER_SIZE <= p \/ p + z <= b_addr b.
Proof.
  revert lo; induction bs as [|c bs IH]; intros lo Hl Hp Hb; [by apply not_elem_of_nil in Hp|].
  simpl in Hl. destruct Hl as (? & ? & ? & ? & Hl). cbn [live] in *.
  assert (Hp' : ((p, z) = (b_addr c + HEADER_SIZE, b_size c)) \/ (p, z) ∈ live bs).
  { destruct (b_used c); [|by right]. by apply elem_of_cons in Hp. }
  apply elem_of_cons in Hb as [->|Hb]; destruct Hp' as [Hp'|Hp']; simplify_eq; [lia| | |by eapply IH].
  - apply (live_range _ _ _ _ _ Hl) in Hp'. heap_consts. lia.
  - apply (laid_elem _ _ _ _ Hl) in Hb. heap_consts. lia.
Qed.

(** A write that misses the headers and the memory below the heap. *)
Lemma store_ok {PA} `{PageAllocator PA} (h : heap PA) bs x v :
  heap_ok h bs -> HEAP_START <= x ->
  (forall b, b ∈ bs -> x < b_addr b \/ b_addr b + HEADER_SIZE <= x) ->
  heap_ok (set_mem h (wr8 (h_mem h) x v)) bs.
Proof.
  intros [[Hs Hd Hl Hh] Hco Ha] Hx Hb. split; [split|done|]; try done.
  - eapply dseg_same; [|exact Hd]. intros b Hin y Hy. cbn. rewrite rd8_wr8.
    destruct (Z.eqb_spec x y); [|done]. specialize (Hb b Hin). heap_consts. lia.
  - destruct Ha as [? ? ? ? Hm]. split; try done. eapply heap_mapped_same; [exact Hm|].
    intros y Hy. cbn. rewrite rd8_wr8. destruct (Z.eqb_spec x y); [lia|done].
Qed.

Lemma heap_ok_pages (h : heap pmm) bs p1 :
  heap_ok h bs -> pa_ok p1 -> (forall k, k * 4096 < heap_end h -> pa_isfree p1 k = false) ->
  heap_ok (mk_heap (h_vmm h) p1 (heap_start_ptr h) (heap_end h)) bs.
Proof. intros [? ? []] ? ?. by split. Qed.

Lemma grew_pages (h h' : heap pmm) k :
  arena_ok h -> arena_ok h' -> grew h h' ->
  heap_end h <= k * 4096 /\ k < 2048 /\ pa_isfree (h_pages h) k = false ->
  heap_end h' <= k * 4096 /\ k < 2048 /\ pa_isfree (h_pages h') k = false.
Proof.
  intros [_ Ha _ _ _] [_ Ha' _ _ _] [Hg Hq] (Hk & Hk2 & Hf). destruct (Hq k) as [E T].
  rewrite E, Hf. split_and!; [|done|done].
  destruct (Z_lt_le_dec (k * 4096) (heap_end h')); [|done]. rewrite T in Hf; [done|].
  clear E T Hq Hf. Z.to_euclidean_division_equations; lia.
Qed.

Lemma sys_step_ok st st' bs : sys_step st st' -> sys_ok st bs -> exists bs', sys_ok st' bs'.
Proof.
  intros Hstep [Hh Ho Hp]. pose proof (bl_laid _ _ _ _ (ho_list _ _ Hh)) as Hl. destruct Hstep; cbn [s_heap s_objs s_pages] in *.
  - destruct (kmalloc_spec h bs size Hh) as (h1 & p1 & E & [(-> & Hok & _ & Hg & _)|(bs' & [Hok _ _ (z & Hz & Hlv) Hg])]); [done|..];
      simplify_eq.
    + exists bs. split; [done|done|]. cbn. intros k Hk.
      eapply (grew_pages h); [apply Hh|apply Hok|done|auto].
    + exists bs'. split; cbn [s_heap s_objs s_pages]; [done| |].
      * intros q n Hq. assert ((p =? 0) = false) as Ep.
        { apply Z.eqb_neq. assert (Hin : (p, z) ∈ live bs') by (rewrite Hlv; apply list_elem_of_here).
          apply (live_range _ _ _ _ _ (bl_laid _ _ _ _ (ho_list _ _ Hok))) in Hin. heap_consts. lia. }
        rewrite Ep in Hq. destruct (Z.eq_dec q p) as [->|Hne].
        -- rewrite lookup_insert_eq in Hq. simplify_eq. exists z. split; [done|]. rewrite Hlv. apply list_elem_of_here.
        -- rewrite lookup_insert_ne in Hq by done. destruct (Ho q n Hq) as (y & ? & ?). exists y. split; [done|].
           rewrite Hlv. by apply list_elem_of_further.
      * intros k Hk. eapply (grew_pages h); [apply Hh|apply Hok|done|auto].
  - destruct (Ho p n) as (z & Hz & Hlv); [done|].
    destruct (kfree_live h bs p z Hh Hlv) as (bs' & Hok & Hperm & _ & _). exists bs'. split; [done| |done].
    cbn. intros q n' Hq. apply lookup_delete_Some in Hq as [Hne Hq]. destruct (Ho q n' Hq) as (y & ? & Hy).
    exists y. split; [done|]. rewrite Hperm in Hy. apply elem_of_cons in Hy as [|]; [|done]. simplify_eq.
  - destruct (Ho p n) as (z & Hz & Hlv); [done|]. exists bs. split; [|done|done]. cbn.
    pose proof (live_range _ _ _ _ _ Hl Hlv). apply store_ok; [done|heap_consts; lia|].
    intros b Hb. pose proof (live_header _ _ _ _ _ _ Hl Hlv Hb). lia.
  - pose proof (ho_arena _ _ Hh) as Ha. pose proof (ao_pages _ Ha) as Hok.
    destruct (pa_alloc_law (h_pages h) p1 (k * 4096) Hok) as [(? & _)|(k' & ? & Hf & Hok1 & Hfree)]; [done|lia|].
    assert (k' = k) as -> by lia. exists bs. split; cbn [s_heap s_objs s_pages heap_end h_pages].
    + apply heap_ok_pages; [done|done|]. intros q Hq. rewrite Hfree, (ao_owned _ Ha) by done. done.
    + done.
    + intros q Hq. apply elem_of_union in Hq as [Hq%elem_of_singleton|Hq].
      * subst q. rewrite Hfree, Z.eqb_refl, andb_false_r. pose proof (pa_isfree_range _ _ Hok Hf).
        split_and!; [|lia|done].
        destruct (Z_lt_le_dec (k * 4096) (heap_end h)) as [Hlt|]; [|done]. rewrite (ao_owned _ Ha k Hlt) in Hf. done.
      * destruct (Hp q Hq) as (? & ? & E). rewrite Hfree, E. done.
  - destruct (Hp k) as (Hk & Hk2 & _); [done|]. pose proof (ho_arena _ _ Hh) as Ha. pose proof (ao_end _ Ha).
    heap_consts. destruct (pa_free_law (h_pages h) k (ao_pages _ Ha)) as [Hok1 Hfree]; [lia|].
    exists bs. split; cbn [s_heap s_objs s_pages heap_end h_pages]; [|done|].
    + apply heap_ok_pages; [done|exact Hok1|]. intros q Hq.
      transitivity (pa_isfree (h_pages h) q); [apply Hfree; lia|by apply (ao_owned _ Ha)].
    + intros q Hq. apply elem_of_difference in Hq as [Hq Hne]. rewrite elem_of_singleton in Hne.
      destruct (Hp q Hq) as (? & ? & E). split_and!; [done|done|].
      transitivity (pa_isfree (h_pages h) q); [by apply Hfree|done].
  - destruct (Hp k) as (Hk & Hk2 & _); [done|]. pose proof (ho_arena _ _ Hh) as Ha. pose proof (ao_end _ Ha).
    exists bs. split; [|done|done]. cbn. apply store_ok; [done|lia|].
    intros b Hb. apply (laid_elem _ _ _ _ Hl) in Hb. heap_consts. lia.
Qed.

Lemma boot_sys_reachable rs st : rtc sys_step (boot_sys rs) st -> exists bs, sys_ok st bs.
Proof.
  intros Hr. destruct (boot_sys_ok rs) as (bs & Hok & _). clear -Hr Hok. revert bs Hok.
  induction Hr as [|x y z Hs _ IH]; intros bs Hok; [by exists bs|].
  destruct (sys_step_ok _ _ _ Hs Hok) as [bs' Hok']. by eapply IH.
Qed.

Lemma no_live_one_block bs : coalesced bs -> live bs = [] -> (length bs <= 1)%nat.
Proof.
  destruct bs as [|b [|c bs]]; [simpl; lia..|]. cbn [coalesced live].
  destruct (b_used b); [done|]. destruct (b_used c); [done|]. by intros [[|] _].
Qed.

Lemma set_mem_id {PA} (h : heap PA) : set_mem h (h_mem h) = h.
Proof. by destruct h as [[] ? ? ?]. Qed.

Lemma kfree_not_used {PA} (h : heap PA) p :
  is_u32 p -> HEADER_SIZE <= p -> h_magic (h_mem h) (p - HEADER_SIZE) <> MAGIC_USED -> kfree h p = h.
Proof.
  intros Hp Hge Hm. unfold kfree, kfree_mem, is_u32 in *. heap_consts. replace (p =? 0) with false by lia.
  rewrite u32_small by lia. apply Z.eqb_neq in Hm. rewrite Hm. apply set_mem_id.
Qed.

(** ** Properties *)

(** C18 In every state reachable from boot by kmalloc, kfree, writes through
    returned pointers, and page allocations, page releases and page writes by
    the rest of the kernel: each object handed out and not freed is 4-byte
    aligned and lies inside the heap, two objects never overlap, and no object
    overlaps a page the page allocator gave to someone else. *)
Theorem heap_objects_isolated (rs : list boot_mem_region) (st : sys) :
  rtc sys_step (boot_sys rs) st ->
  forall p n, s_objs st !! p = Some n ->
    p mod 4 = 0 /\ HEAP_START < p /\ p + n <= heap_end (s_heap st) <= HEAP_MAX /\
    (forall q k, s_objs st !! q = Some k -> q <> p -> p + n <= q \/ q + k <= p) /\
    (forall k, k ∈ s_pages st -> p + n <= k * 4096).
Proof.
  intros Hr p n Hp. destruct (boot_sys_reachable _ _ Hr) as [bs [Hh Ho Hpg]].
  pose proof (bl_laid _ _ _ _ (ho_list _ _ Hh)) as Hl. pose proof (bl_hi _ _ _ _ (ho_list _ _ Hh)).
  destruct (Ho p n Hp) as (z & Hz & Hlv). pose proof (live_range _ _ _ _ _ Hl Hlv). heap_consts.
  split_and!; [lia..| |].
  - intros q k Hq Hne. destruct (Ho q k Hq) as (y & Hy & Hlq).
    pose proof (live_disjoint _ _ _ _ _ _ _ Hl Hlv Hlq). lia.
  - intros k Hk. destruct (Hpg k Hk). lia.
Qed.

(** A machine with 16 MB of memory. *)
Definition demo_regions : list boot_mem_region := [mk_region 0x100000 0xF00000 1].

Lemma kmalloc_result (h : heap pmm) size p :
  option_map snd (kmalloc h size) = Some p -> exists h', kmalloc h size = Some (h', p).
Proof. destruct (kmalloc h size) as [[h' q]|]; simpl; [|done]. intros [= ->]. by exists h'. Qed.

Lemma heap_objects_isolated_witness :
  exists st, rtc sys_step (boot_sys demo_regions) st /\ s_objs st !! 0x400010 = Some 100 /\
    0x400010 mod 4 = 0 /\ 0x400010 + 100 <= heap_end (s_heap st).
Proof.
  destruct (kmalloc_result (heap_init (boot_heap demo_regions)) 100 0x400010) as [h' E]; [by vm_compute|].
  assert (Hr : rtc sys_step (boot_sys demo_regions) (mk_sys h' (<[0x400010 := 100]> ∅) ∅)).
  { unfold boot_sys. apply rtc_once, sys_kmalloc_some; [unfold is_u32; lia|exact E|discriminate]. }
  exists (mk_sys h' (<[0x400010 := 100]> ∅) ∅). split; [exact Hr|].
  destruct (heap_objects_isolated demo_regions _ Hr 0x400010 100) as (? & ? & ? & _); [by vm_compute|].
  split_and!; [by vm_compute|done|tauto].
Defined.

(** A heap with one block in use. *)
Lemma heap_with_block :
  exists (h : heap pmm) bs z, heap_ok h bs /\ live bs = [(0x400010, z)] /\ 100 <= z.
Proof.
  destruct (heap_init_ok (boot_heap demo_regions) (boot_arena demo_regions) eq_refl eq_refl) as (bs & Hok & Hlv & _).
  destruct (kmalloc_result (heap_init (boot_heap demo_regions)) 100 0x400010) as [h' E]; [by vm_compute|].
  revert Hok E. generalize (heap_init (boot_heap demo_regions)). intros h Hok E.
  destruct (kmalloc_spec h bs 100 Hok) as (h1 & p & E1 & [(-> & _)|(bs' & [Hok' _ _ (z & Hz & Hl) _])]);
    [unfold is_u32; lia|rewrite E in E1; discriminate|].
  rewrite E in E1. injection E1 as <- <-. rewrite Hlv in Hl. symmetry in Hl. apply Permutation_length_1_inv in Hl.
  exists h', bs', z. auto.
Qed.

(** C23 kmalloc always returns.  On a well-formed heap it either hands out a
    4-byte aligned block of at least the size asked for, inside the heap and
    disjoint from every block in use, or returns 0 exactly because the size is
    0, exceeds the 4 MB arena, or no free block is large enough and the page
    after the heap cannot be added.  Either way the bytes of every block in
    use and all memory outside the heap are unchanged, the heap stays
    well-formed and the only pages it takes were free. *)
Theorem kmalloc_correct (h : heap pmm) (bs : list blk) (size : Z) :
  heap_ok h bs -> is_u32 size ->
  exists h' p bs', kmalloc h size = Some (h', p) /\ heap_ok h' bs' /\ grew h h' /\
    keeps (h_mem h) (h_mem h') (live bs) HEAP_START (heap_end h') /\
    ((p = 0 /\ bs' = bs /\
        (size = 0 \/ HEAP_MAX - HEAP_START < size \/
         (forall b, b ∈ bs -> b_used b = false -> b_size b < (size + 3) / 4 * 4) /\ cannot_grow h')) \/
     (0 < size <= HEAP_MAX - HEAP_START /\ HEAP_START < p /\ p mod 4 = 0 /\
      exists z, size <= z /\ p + z <= heap_end h' /\ live bs' ≡ₚ (p, z) :: live bs /\
        forall q y, (q, y) ∈ live bs -> p + z <= q \/ q + y <= p)).
Proof.
  intros Hok Hs. destruct (kmalloc_spec h bs size Hok Hs) as (h' & p & E & [(-> & Hok' & Hm & Hg & Hwhy)|(bs' & [Hok' Hk Hsz (z & Hz & Hlv) Hg])]).
  - exists h', 0, bs. split_and!; try done; [by intros x _|]. left. split_and!; try done.
  - exists h', p, bs'. split_and!; try done. right.
    pose proof (bl_laid _ _ _ _ (ho_list _ _ Hok')) as Hl.
    assert (Hp : (p, z) ∈ live bs') by (rewrite Hlv; apply list_elem_of_here).
    pose proof (live_range _ _ _ _ _ Hl Hp). heap_consts. split_and!; try lia.
    exists z. split_and!; [done|lia|done|]. intros q y Hq.
    destruct (live_disjoint _ _ _ _ _ q y Hl Hp) as [[-> ->]|]; [rewrite Hlv; by apply list_elem_of_further| |done].
    pose proof (live_NoDup _ _ _ Hl) as Hnd. rewrite Hlv in Hnd. by apply NoDup_cons in Hnd as [? _].
Qed.

Lemma kmalloc_correct_witness :
  exists h bs, heap_ok h bs /\ live bs <> [] /\
    exists h' p bs', kmalloc h 100 = Some (h', p) /\ heap_ok h' bs'.
Proof.
  destruct heap_with_block as (h & bs & z & Hok & Hlv & Hz). exists h, bs. split; [exact Hok|].
  split; [rewrite Hlv; discriminate|].
  destruct (kmalloc_correct h bs 100 Hok) as (h' & p & bs' & E & Hok' & _); [unfold is_u32; lia|].
  exists h', p, bs'. exact (conj E Hok').
Defined.

(** C24 kfree of a block in use removes exactly that block from the blocks in
    use, changes no byte of the others and none outside the heap, and keeps
    the heap well-formed with no two neighbouring free blocks; when it was the
    last block in use the whole heap is one block again.  Freeing the same
    pointer a second time changes nothing. *)
Theorem kfree_correct (h : heap pmm) (bs : list blk) (p z : Z) :
  heap_ok h bs -> (p, z) ∈ live bs ->
  exists bs', heap_ok (kfree h p) bs' /\ live bs ≡ₚ (p, z) :: live bs' /\
    keeps (h_mem h) (h_mem (kfree h p)) (live bs') HEAP_START (heap_end h) /\
    (live bs' = [] -> (length bs' <= 1)%nat) /\
    kfree (kfree h p) p = kfree h p.
Proof.
  intros Hok Hp. destruct (kfree_live h bs p z Hok Hp) as (bs' & Hok' & Hlv & Hk & Hm).
  pose proof (bl_hi _ _ _ _ (ho_list _ _ Hok)).
  pose proof (live_range _ _ _ _ _ (bl_laid _ _ _ _ (ho_list _ _ Hok)) Hp). heap_consts.
  exists bs'. split_and!; try done.
  - apply no_live_one_block, Hok'.
  - apply kfree_not_used; [unfold is_u32; lia|heap_consts; lia|]. unfold HEADER_SIZE. rewrite Hm. done.
Qed.

Lemma kfree_correct_witness :
  exists h bs z, heap_ok h bs /\ (0x400010, z) ∈ live bs /\ kfree (kfree h 0x400010) 0x400010 = kfree h 0x400010.
Proof.
  destruct heap_with_block as (h & bs & z & Hok & Hlv & Hz).
  assert (Hin : (0x400010, z) ∈ live bs) by (rewrite Hlv; apply list_elem_of_here).
  destruct (kfree_correct h bs 0x400010 z Hok Hin) as (bs' & _ & _ & _ & _ & E).
  exists h, bs, z. exact (conj Hok (conj Hin E)).
Defined.

(** The heap's accounting is exact: heap_free_bytes and the counters of
    heap_dump terminate and equal the sums over the block list, without
    wrap-around, and with the headers they never exceed the arena. *)
Theorem heap_accounting (h : heap pmm) (bs : list blk) :
  heap_ok h bs ->
  heap_free_bytes h = Some (free_sum bs) /\
  heap_dump h = Some (free_sum bs, used_sum bs, Z.of_nat (length bs)) /\
  free_sum bs + used_sum bs + HEADER_SIZE * Z.of_nat (length bs) <= heap_end h - HEAP_START.
Proof.
  intros [Hbl _ _]. pose proof (walk_fuel_enough _ _ _ _ Hbl) as Hf. destruct Hbl as [Hs Hd Hl Hh].
  pose proof (free_sum_bound _ _ _ Hl) as (? & ? & ?). unfold heap_free_bytes, heap_dump. rewrite Hs.
  destruct (dump_from_spec bs (h_mem h) 0 HEAP_START (heap_end h) walk_fuel 0 0 0) as [-> ->];
    try done; try (heap_consts; lia).
Qed.

Lemma heap_accounting_witness :
  exists h bs, heap_ok h bs /\ heap_free_bytes h = Some (free_sum bs) /\ live bs <> [].
Proof.
  destruct heap_with_block as (h & bs & z & Hok & Hlv & Hz).
  destruct (heap_accounting h bs Hok) as (E & _ & _). exists h, bs.
  split; [exact Hok|split; [exact E|rewrite Hlv; discriminate]].
Defined.
