(* ===== verification/Process.v ===== *)
(** * Process table ([kernel/process.c], [kernel/process.h])

    Sixteen process slots, the current process and the pid counter.  A process
    pointer is the index of its slot.  The functions that build a kernel stack
    write it to memory ([Mem]); [process_fork], which also copies an address
    space, is in [Fork].

    The claim of a slot runs with interrupts off, so it is one step; the
    fields are then filled in while the slot is BLOCKED. *)

From Stdlib Require Import ZArith Lia ZifyBool.
From stdpp Require Import base tactics numbers list option relations.
From S2P Require Import Prelude Mem.
Local Open Scope Z_scope.

Definition PROCESS_MAX : Z := 16.
Definition PROCESS_NAME_MAX : Z := 24.
Definition PROCESS_STACK_SIZE : Z := 4096.

Inductive process_state :=
| PROCESS_UNUSED
| PROCESS_READY
| PROCESS_RUNNING
| PROCESS_SLEEPING
| PROCESS_BLOCKED
| PROCESS_ZOMBIE.

#[export] Instance process_state_eq_dec : EqDecision process_state.
Proof. solve_decision. Defined.

Definition state_eqb (a b : process_state) : bool := bool_decide (a = b).

Record process := mk_process {
  p_pid : Z;
  p_name : list Z;
  p_state : process_state;
  p_entry : Z;
  p_arg : Z;
  p_esp : Z;
  p_stack : Z;
  p_stack_size : Z;
  p_cr3 : Z;
  p_user_stack : Z;
  p_user_esp : Z;
  p_wake_tick : Z;
  p_ticks_run : Z;
  p_runs : Z;
  p_cwd_cluster : Z;
  p_stdin_redirect : Z;
  p_stdout_redirect : Z;
  p_waiting_for_pid : Z
}.

(** *** Field updates *)

Definition set_pid (v : Z) (p : process) : process :=
  mk_process v (p_name p) (p_state p) (p_entry p) (p_arg p) (p_esp p) (p_stack p) (p_stack_size p) (p_cr3 p)
    (p_user_stack p) (p_user_esp p) (p_wake_tick p) (p_ticks_run p) (p_runs p) (p_cwd_cluster p)
    (p_stdin_redirect p) (p_stdout_redirect p) (p_waiting_for_pid p).
Definition set_name (v : list Z) (p : process) : process :=
  mk_process (p_pid p) v (p_state p) (p_entry p) (p_arg p) (p_esp p) (p_stack p) (p_stack_size p) (p_cr3 p)
    (p_user_stack p) (p_user_esp p) (p_wake_tick p) (p_ticks_run p) (p_runs p) (p_cwd_cluster p)
    (p_stdin_redirect p) (p_stdout_redirect p) (p_waiting_for_pid p).
Definition set_state (v : process_state) (p : process) : process :=
  mk_process (p_pid p) (p_name p) v (p_entry p) (p_arg p) (p_esp p) (p_stack p) (p_stack_size p) (p_cr3 p)
    (p_user_stack p) (p_user_esp p) (p_wake_tick p) (p_ticks_run p) (p_runs p) (p_cwd_cluster p)
    (p_stdin_redirect p) (p_stdout_redirect p) (p_waiting_for_pid p).
Definition set_entry (v : Z) (p : process) : process :=
  mk_process (p_pid p) (p_name p) (p_state p) v (p_arg p) (p_esp p) (p_stack p) (p_stack_size p) (p_cr3 p)
    (p_user_stack p) (p_user_esp p) (p_wake_tick p) (p_ticks_run p) (p_runs p) (p_cwd_cluster p)
    (p_stdin_redirect p) (p_stdout_redirect p) (p_waiting_for_pid p).
Definition set_arg (v : Z) (p : process) : process :=
  mk_process (p_pid p) (p_name p) (p_state p) (p_entry p) v (p_esp p) (p_stack p) (p_stack_size p) (p_cr3 p)
    (p_user_stack p) (p_user_esp p) (p_wake_tick p) (p_ticks_run p) (p_runs p) (p_cwd_cluster p)
    (p_stdin_redirect p) (p_stdout_redirect p) (p_waiting_for_pid p).
Definition set_esp (v : Z) (p : process) : process :=
  mk_process (p_pid p) (p_name p) (p_state p) (p_entry p) (p_arg p) v (p_stack p) (p_stack_size p) (p_cr3 p)
    (p_user_stack p) (p_user_esp p) (p_wake_tick p) (p_ticks_run p) (p_runs p) (p_cwd_cluster p)
    (p_stdin_redirect p) (p_stdout_redirect p) (p_waiting_for_pid p).
Definition set_stack (v : Z) (p : process) : process :=
  mk_process (p_pid p) (p_name p) (p_state p) (p_entry p) (p_arg p) (p_esp p) v (p_stack_size p) (p_cr3 p)
    (p_user_stack p) (p_user_esp p) (p_wake_tick p) (p_ticks_run p) (p_runs p) (p_cwd_cluster p)
    (p_stdin_redirect p) (p_stdout_redirect p) (p_waiting_for_pid p).
Definition set_stack_size (v : Z) (p : process) : process :=
  mk_process (p_pid p) (p_name p) (p_state p) (p_entry p) (p_arg p) (p_esp p) (p_stack p) v (p_cr3 p)
    (p_user_stack p) (p_user_esp p) (p_wake_tick p) (p_ticks_run p) (p_runs p) (p_cwd_cluster p)
    (p_stdin_redirect p) (p_stdout_redirect p) (p_waiting_for_pid p).
Definition set_cr3 (v : Z) (p : process) : process :=
  mk_process (p_pid p) (p_name p) (p_state p) (p_entry p) (p_arg p) (p_esp p) (p_stack p) (p_stack_size p) v
    (p_user_stack p) (p_user_esp p) (p_wake_tick p) (p_ticks_run p) (p_runs p) (p_cwd_cluster p)
    (p_stdin_redirect p) (p_stdout_redirect p) (p_waiting_for_pid p).
Definition set_user_stack (v : Z) (p : process) : process :=
  mk_process (p_pid p) (p_name p) (p_state p) (p_entry p) (p_arg p) (p_esp p) (p_stack p) (p_stack_size p)
    (p_cr3 p) v (p_user_esp p) (p_wake_tick p) (p_ticks_run p) (p_runs p) (p_cwd_cluster p) (p_stdin_redirect
    p) (p_stdout_redirect p) (p_waiting_for_pid p).
Definition set_user_esp (v : Z) (p : process) : process :=
  mk_process (p_pid p) (p_name p) (p_state p) (p_entry p) (p_arg p) (p_esp p) (p_stack p) (p_stack_size p)
    (p_cr3 p) (p_user_stack p) v (p_wake_tick p) (p_ticks_run p) (p_runs p) (p_cwd_cluster p)
    (p_stdin_redirect p) (p_stdout_redirect p) (p_waiting_for_pid p).
Definition set_wake_tick (v : Z) (p : process) : process :=
  mk_process (p_pid p) (p_name p) (p_state p) (p_entry p) (p_arg p) (p_esp p) (p_stack p) (p_stack_size p)
    (p_cr3 p) (p_user_stack p) (p_user_esp p) v (p_ticks_run p) (p_runs p) (p_cwd_cluster p) (p_stdin_redirect
    p) (p_stdout_redirect p) (p_waiting_for_pid p).
Definition set_ticks_run (v : Z) (p : process) : process :=
  mk_process (p_pid p) (p_name p) (p_state p) (p_entry p) (p_arg p) (p_esp p) (p_stack p) (p_stack_size p)
    (p_cr3 p) (p_user_stack p) (p_user_esp p) (p_wake_tick p) v (p_runs p) (p_cwd_cluster p) (p_stdin_redirect
    p) (p_stdout_redirect p) (p_waiting_for_pid p).
Definition set_runs (v : Z) (p : process) : process :=
  mk_process (p_pid p) (p_name p) (p_state p) (p_entry p) (p_arg p) (p_esp p) (p_stack p) (p_stack_size p)
    (p_cr3 p) (p_user_stack p) (p_user_esp p) (p_wake_tick p) (p_ticks_run p) v (p_cwd_cluster p)
    (p_stdin_redirect p) (p_stdout_redirect p) (p_waiting_for_pid p).
Definition set_cwd_cluster (v : Z) (p : process) : process :=
  mk_process (p_pid p) (p_name p) (p_state p) (p_entry p) (p_arg p) (p_esp p) (p_stack p) (p_stack_size p)
    (p_cr3 p) (p_user_stack p) (p_user_esp p) (p_wake_tick p) (p_ticks_run p) (p_runs p) v (p_stdin_redirect
    p) (p_stdout_redirect p) (p_waiting_for_pid p).
Definition set_stdin_redirect (v : Z) (p : process) : process :=
  mk_process (p_pid p) (p_name p) (p_state p) (p_entry p) (p_arg p) (p_esp p) (p_stack p) (p_stack_size p)
    (p_cr3 p) (p_user_stack p) (p_user_esp p) (p_wake_tick p) (p_ticks_run p) (p_runs p) (p_cwd_cluster p) v
    (p_stdout_redirect p) (p_waiting_for_pid p).
Definition set_stdout_redirect (v : Z) (p : process) : process :=
  mk_process (p_pid p) (p_name p) (p_state p) (p_entry p) (p_arg p) (p_esp p) (p_stack p) (p_stack_size p)
    (p_cr3 p) (p_user_stack p) (p_user_esp p) (p_wake_tick p) (p_ticks_run p) (p_runs p) (p_cwd_cluster p)
    (p_stdin_redirect p) v (p_waiting_for_pid p).
Definition set_waiting_for_pid (v : Z) (p : process) : process :=
  mk_process (p_pid p) (p_name p) (p_state p) (p_entry p) (p_arg p) (p_esp p) (p_stack p) (p_stack_size p)
    (p_cr3 p) (p_user_stack p) (p_user_esp p) (p_wake_tick p) (p_ticks_run p) (p_runs p) (p_cwd_cluster p)
    (p_stdin_redirect p) (p_stdout_redirect p) v.

(** A slot of the zero-initialised table. *)
Definition blank_process : process :=
  mk_process 0 (replicate 24 0) PROCESS_UNUSED 0 0 0 0 0 0 0 0 0 0 0 0 0 0 0.
#[export] Instance process_inhabited : Inhabited process := populate blank_process.

Record ptable := mk_ptable {
  process_table : list process;
  current_process : option Z;
  next_pid : Z
}.

Definition slot (t : ptable) (i : Z) : process := (process_table t).[i].
Definition upd (t : ptable) (i : Z) (f : process -> process) : ptable :=
  mk_ptable ((process_table t).[i := f (slot t i)]) (current_process t) (next_pid t).
Definition state_of (t : ptable) (i : Z) : process_state := p_state (slot t i).

(** ** Operations *)

Definition alloc_pid (t : ptable) : ptable * Z :=
  (mk_ptable (process_table t) (current_process t) (u32 (next_pid t + 1)), next_pid t).

(** [stack_push] and [build_initial_stack]: memory and stack pointer. *)
Definition stack_push (ms : mem * Z) (value : Z) : mem * Z :=
  let '(m, sp) := ms in (wr32 m (sp - 4) value, sp - 4).

Definition build_initial_stack (m : mem) (stack_mem stack_size bootstrap : Z) : mem * Z :=
  let s := (m, stack_mem + stack_size) in
  let s := stack_push s bootstrap in
  let s := stack_push s 0 in
  let s := stack_push s 0 in
  let s := stack_push s 0 in
  stack_push s 0.

(** ["kernel-task"] *)
Definition default_name : list Z := [107; 101; 114; 110; 101; 108; 45; 116; 97; 115; 107].

(** The copy loop: at most [n] more characters of a NUL-terminated string. *)
Fixpoint copy_chars (dst : list Z) (src : list Z) (i : Z) (n : nat) : list Z :=
  match n, src with
  | S n', c :: src' => if c =? 0 then dst.[i := 0] else copy_chars (dst.[i := c]) src' (i + 1) n'
  | _, _ => dst.[i := 0]
  end.

(** [src] is [None] for NULL. *)
Definition copy_name (dst : list Z) (src : option (list Z)) : list Z :=
  let s := match src with
           | None | Some [] => default_name
           | Some (c :: r) => if c =? 0 then default_name else c :: r
           end in
  copy_chars dst s 0 23.

Definition init_slot (p : process) : process :=
  mk_process 0 ((p_name p).[0 := 0]) PROCESS_UNUSED 0 0 0 0 0 (p_cr3 p) (p_user_stack p) (p_user_esp p) 0 0 0 0 (-1) (-1) 0.

Definition process_init (t : ptable) : ptable := mk_ptable (init_slot <$> process_table t) None 1.

(** The claim of [process_spawn_user]: the first unused slot leaves UNUSED
    already BLOCKED, with a new pid. *)
Definition spawn_claim (t : ptable) : ptable * option Z :=
  match find_from (fun i => state_eqb (state_of t i) PROCESS_UNUSED) 0 16 with
  | None => (t, None)
  | Some i =>
      let t := upd t i (set_state PROCESS_BLOCKED) in
      let '(t, pid) := alloc_pid t in
      let t := upd t i (set_pid pid) in
      (upd t i (set_waiting_for_pid 0), Some i)
  end.

Section spawn.
(** The address of the static [process_stacks] array. *)
Variable process_stacks : Z.

Definition stack_of (i : Z) : Z := process_stacks + i * PROCESS_STACK_SIZE.

Definition spawn_fill (t : ptable) (m : mem) (i : Z) (name : option (list Z))
    (user_entry user_esp cr3 cwd_cluster bootstrap : Z) : ptable * mem :=
  let p := slot t i in
  let '(m, esp) := build_initial_stack m (stack_of i) PROCESS_STACK_SIZE bootstrap in
  let p' := mk_process (p_pid p) (copy_name (p_name p) name) (p_state p) 0 user_entry esp (stack_of i)
              PROCESS_STACK_SIZE cr3 0 user_esp 0 0 0 cwd_cluster (-1) (-1) (p_waiting_for_pid p) in
  (upd t i (fun _ => p'), m).

Definition process_spawn_user (t : ptable) (m : mem) (name : option (list Z))
    (user_entry user_esp cr3 cwd_cluster : Z) (start_blocked : bool) (bootstrap : Z) : ptable * mem * option Z :=
  if bootstrap =? 0 then (t, m, None)
  else
    match spawn_claim t with
    | (t, None) => (t, m, None)
    | (t, Some i) =>
        let '(t, m) := spawn_fill t m i name user_entry user_esp cr3 cwd_cluster bootstrap in
        (if start_blocked then t else upd t i (set_state PROCESS_READY), m, Some i)
    end.
End spawn.

Definition process_make_ready (t : ptable) (p : option Z) : ptable :=
  match p with
  | Some i => if state_eqb (state_of t i) PROCESS_BLOCKED then upd t i (set_state PROCESS_READY) else t
  | None => t
  end.

Definition process_at (index : Z) : option Z := if PROCESS_MAX <=? index then None else Some index.
Definition process_set_current (t : ptable) (p : option Z) : ptable := mk_ptable (process_table t) p (next_pid t).

(** A loop over the slots [i .. i+n-1] that applies [f] to those satisfying
    [c]. *)
Fixpoint for_slots (c : process -> bool) (f : process -> process) (t : ptable) (i : Z) (n : nat) : ptable :=
  match n with
  | O => t
  | S n' => for_slots c f (if c (slot t i) then upd t i f else t) (i + 1) n'
  end.

Strategy 1000 [for_slots].
#[global] Arguments for_slots : simpl never.

Definition waits_for (exited_pid : Z) (p : process) : bool :=
  state_eqb (p_state p) PROCESS_BLOCKED && (p_waiting_for_pid p =? exited_pid).

Definition wake_waiters (t : ptable) (exited_pid : Z) : ptable :=
  for_slots (waits_for exited_pid) (fun p => set_state PROCESS_READY (set_waiting_for_pid 0 p)) t 0 16.

Definition process_exit (t : ptable) (p : option Z) : ptable :=
  match p with
  | None => t
  | Some i =>
      if state_eqb (state_of t i) PROCESS_UNUSED then t
      else
        let exited_pid := p_pid (slot t i) in
        let t := upd t i (set_state PROCESS_UNUSED) in
        let t := upd t i (set_pid 0) in
        wake_waiters t exited_pid
  end.

Definition process_sleep (t : ptable) (p : option Z) (now ticks : Z) : ptable :=
  match p with
  | None => t
  | Some i =>
      if state_eqb (state_of t i) PROCESS_UNUSED then t
      else upd (upd t i (set_wake_tick (u32 (now + ticks)))) i (set_state PROCESS_SLEEPING)
  end.

Definition sleep_over (now : Z) (p : process) : bool :=
  state_eqb (p_state p) PROCESS_SLEEPING && (p_wake_tick p <=? now).

Definition process_wake_sleepers (t : ptable) (now : Z) : ptable :=
  for_slots (sleep_over now) (set_state PROCESS_READY) t 0 16.

(** ** Lemmas on slots *)

Definition has16 (t : ptable) : Prop := length (process_table t) = 16%nat.

Lemma state_eqb_eq a b : state_eqb a b = true <-> a = b.
Proof. apply bool_decide_eq_true. Qed.

Lemma state_eqb_ne a b : state_eqb a b = false <-> a <> b.
Proof. apply bool_decide_eq_false. Qed.

Lemma upd_has16 t i f : has16 (upd t i f) <-> has16 t.
Proof. unfold has16, upd. cbn. by rewrite zset_length. Qed.

Lemma slot_upd t i j f : has16 t -> 0 <= i < 16 -> 0 <= j ->
  slot (upd t i f) j = if i =? j then f (slot t i) else slot t j.
Proof. intros Ht Hi Hj. unfold slot, upd. cbn. apply zget_set; [unfold zlen, has16 in *; lia|done]. Qed.

Lemma upd_fields t i f :
  current_process (upd t i f) = current_process t /\ next_pid (upd t i f) = next_pid t.
Proof. done. Qed.

(** A loop over slots changes each slot on its own. *)
Lemma for_slots_spec c f n : forall t i,
  has16 t -> 0 <= i -> i + Z.of_nat n <= 16 ->
  let t' := for_slots c f t i n in
  has16 t' /\ current_process t' = current_process t /\ next_pid t' = next_pid t /\
  forall j, 0 <= j ->
    slot t' j = if (i <=? j) && (j <? i + Z.of_nat n) && c (slot t j) then f (slot t j) else slot t j.
Proof.
  induction n as [|n IH]; intros t i Ht Hi Hn; cbv zeta.
  - split_and!; try done. intros j Hj. by replace ((i <=? j) && (j <? i + Z.of_nat 0)) with false by lia.
  - change (for_slots c f t i (S n)) with (for_slots c f (if c (slot t i) then upd t i f else t) (i + 1) n).
    set (t1 := if c (slot t i) then upd t i f else t).
    assert (H1 : has16 t1 /\ current_process t1 = current_process t /\ next_pid t1 = next_pid t).
    { subst t1. destruct (c (slot t i)); [|done]. by rewrite upd_has16. }
    destruct H1 as (H1 & E1 & E2). destruct (IH t1 (i + 1)) as (? & -> & -> & Hs); [done|lia|lia|].
    split_and!; try done. intros j Hj. rewrite Hs by done.
    assert (Ej : slot t1 j = if (i =? j) && c (slot t j) then f (slot t j) else slot t j).
    { subst t1. destruct (Z.eqb_spec i j) as [<-|Hne].
      - destruct (c (slot t i)); [|done]. rewrite slot_upd, Z.eqb_refl by (done || lia). done.
      - destruct (c (slot t i)); [|done]. rewrite slot_upd by (done || lia). by replace (i =? j) with false by lia. }
    rewrite Ej. destruct (Z.eqb_spec i j) as [<-|Hne].
    + replace (i + 1 <=? i) with false by lia. replace ((i <=? i) && (i <? i + Z.of_nat (S n))) with true by lia. done.
    + replace ((i <=? j) && (j <? i + Z.of_nat (S n))) with ((i + 1 <=? j) && (j <? i + 1 + Z.of_nat n)) by lia. done.
Qed.

(** ** The table's invariant *)

Definition used (t : ptable) (i : Z) : Prop := 0 <= i < 16 /\ state_of t i <> PROCESS_UNUSED.

Record table_ok (t : ptable) : Prop := {
  to_len : has16 t;
  to_pid : forall i, used t i -> 0 < p_pid (slot t i) < next_pid t;
  to_unique : forall i j, used t i -> used t j -> p_pid (slot t i) = p_pid (slot t j) -> i = j;
  to_current : forall i, current_process t = Some i -> 0 <= i < 16;
  to_running : forall i, 0 <= i < 16 -> state_of t i = PROCESS_RUNNING -> current_process t = Some i;
  to_next : 0 < next_pid t
}.

(** A change of one used slot that keeps its pid and does not start it. *)
Lemma table_ok_upd t i f :
  table_ok t -> 0 <= i < 16 ->
  (state_of t i <> PROCESS_UNUSED \/ p_state (f (slot t i)) = PROCESS_UNUSED) ->
  (p_state (f (slot t i)) = PROCESS_UNUSED \/ p_pid (f (slot t i)) = p_pid (slot t i)) ->
  (p_state (f (slot t i)) = PROCESS_RUNNING -> current_process t = Some i) ->
  table_ok (upd t i f).
Proof.
  intros [Hl Hp Hu Hc Hr Hn] Hi Hs Hpid Hrun.
  assert (E : forall j, 0 <= j -> slot (upd t i f) j = if i =? j then f (slot t i) else slot t j)
    by (intros; by apply slot_upd).
  assert (U : forall j, used (upd t i f) j -> used t j /\ p_pid (slot (upd t i f) j) = p_pid (slot t j)).
  { intros j [Hj Huj]. unfold state_of in *. rewrite E in Huj by lia. rewrite E by lia. unfold used, state_of.
    destruct (Z.eqb_spec i j) as [<-|]; [|done]. destruct Hs, Hpid; done. }
  split; cbn [upd current_process next_pid]; try done.
  - by apply upd_has16.
  - intros j Hj. destruct (U j Hj) as [? ->]. by apply Hp.
  - intros j k Hj Hk. destruct (U j Hj) as [? ->], (U k Hk) as [? ->]. by apply Hu.
  - intros j Hj. unfold state_of in *. rewrite E by lia. destruct (Z.eqb_spec i j) as [<-|]; [done|by apply Hr].
Qed.

(** Facts of a table whose used slots are used in another with the same pid. *)
Lemma table_ok_shrink t t' :
  table_ok t -> has16 t' -> next_pid t' = next_pid t ->
  (forall i, current_process t' = Some i -> 0 <= i < 16) ->
  (forall i, used t' i -> used t i /\ p_pid (slot t' i) = p_pid (slot t i)) ->
  (forall i, 0 <= i < 16 -> state_of t' i = PROCESS_RUNNING -> current_process t' = Some i) ->
  table_ok t'.
Proof.
  intros [Hl Hp Hu Hc Hr Hn] Hl' En Hc' U Hr'. split; try done; try (by rewrite En).
  - intros i Hi. destruct (U i Hi) as [? ->]. rewrite En. by apply Hp.
  - intros i j Hi Hj. destruct (U i Hi) as [? ->], (U j Hj) as [? ->]. by apply Hu.
Qed.

Lemma for_slots_ok c f t :
  table_ok t ->
  (forall p, c p = true -> p_state p <> PROCESS_UNUSED /\ p_pid (f p) = p_pid p /\ p_state (f p) = PROCESS_READY) ->
  table_ok (for_slots c f t 0 16).
Proof.
  intros Ht Hf. destruct (for_slots_spec c f 16 t 0 (to_len _ Ht)) as (Hl & Ec & En & Hs); [lia|lia|].
  revert Hl Ec En Hs. generalize (for_slots c f t 0 16). intros t' Hl Ec En Hs.
  apply (table_ok_shrink t); try done.
  - rewrite Ec. apply Ht.
  - intros i [Hi Hu]. unfold used, state_of in *. rewrite Hs in * by lia.
    replace ((0 <=? i) && (i <? 0 + Z.of_nat 16)) with true in * by lia. simpl in *.
    destruct (c (slot t i)) eqn:E; [|done]. destruct (Hf _ E) as (? & ? & ?). done.
  - intros i Hi. unfold state_of. rewrite Hs by lia. rewrite Ec.
    replace ((0 <=? i) && (i <? 0 + Z.of_nat 16)) with true by lia. simpl.
    destruct (c (slot t i)) eqn:E; [|by apply Ht]. destruct (Hf _ E) as (_ & _ & ->). done.
Qed.

Lemma wake_sleepers_ok t now : table_ok t -> table_ok (process_wake_sleepers t now).
Proof.
  intros Ht. unfold process_wake_sleepers. apply for_slots_ok; [exact Ht|]. intros p Hp. unfold sleep_over in Hp. b2p.
  apply state_eqb_eq in H. by rewrite H.
Qed.

Lemma wake_waiters_ok t pid : table_ok t -> table_ok (wake_waiters t pid).
Proof.
  intros Ht. unfold wake_waiters. apply for_slots_ok; [exact Ht|]. intros p Hp. unfold waits_for in Hp. b2p.
  apply state_eqb_eq in H. by rewrite H.
Qed.

Lemma make_ready_ok t i : table_ok t -> 0 <= i < 16 -> table_ok (process_make_ready t (Some i)).
Proof.
  intros Ht Hi. unfold process_make_ready. destruct (state_eqb _ _) eqn:E; [|done].
  apply state_eqb_eq in E. apply table_ok_upd; try done; [|by right]. rewrite E. by left.
Qed.

(** [process_exit]: what every slot becomes. *)
Lemma process_exit_spec t i :
  table_ok t -> used t i ->
  let t' := process_exit t (Some i) in
  table_ok t' /\ current_process t' = current_process t /\ next_pid t' = next_pid t /\
  slot t' i = set_pid 0 (set_state PROCESS_UNUSED (slot t i)) /\
  forall j, 0 <= j < 16 -> j <> i ->
    slot t' j = if waits_for (p_pid (slot t i)) (slot t j)
                then set_state PROCESS_READY (set_waiting_for_pid 0 (slot t j)) else slot t j.
Proof.
  intros Ht Hu. pose proof Hu as [Hi Hs]. unfold process_exit. apply state_eqb_ne in Hs. rewrite Hs.
  set (t1 := upd (upd t i (set_state PROCESS_UNUSED)) i (set_pid 0)).
  assert (E0 : slot (upd t i (set_state PROCESS_UNUSED)) i = set_state PROCESS_UNUSED (slot t i)).
  { rewrite slot_upd, Z.eqb_refl by (lia || apply Ht). done. }
  assert (Ht1 : table_ok t1).
  { apply table_ok_upd; [apply table_ok_upd; [done|done|by right|by left|done]|done|..]; rewrite E0; [by right|by left|done]. }
  assert (E1 : forall j, 0 <= j < 16 -> slot t1 j = if i =? j then set_pid 0 (set_state PROCESS_UNUSED (slot t i)) else slot t j).
  { intros j Hj. subst t1. rewrite slot_upd by (rewrite ?upd_has16; lia || apply Ht).
    rewrite !slot_upd by (lia || apply Ht). rewrite Z.eqb_refl. by destruct (i =? j). }
  destruct (for_slots_spec (waits_for (p_pid (slot t i))) (fun p => set_state PROCESS_READY (set_waiting_for_pid 0 p)) 16 t1 0 (to_len _ Ht1))
    as (Hl & Ec & En & Hsl); [lia|lia|].
  pose proof (wake_waiters_ok t1 (p_pid (slot t i)) Ht1) as Hok. unfold wake_waiters in *.
  revert Hok Hl Ec En Hsl. generalize (for_slots (waits_for (p_pid (slot t i))) (fun p => set_state PROCESS_READY (set_waiting_for_pid 0 p)) t1 0 16).
  intros t' Hok Hl Ec En Hsl. split_and!; [done|done|done| |].
  - rewrite Hsl, E1, Z.eqb_refl by lia. unfold waits_for. cbn. by rewrite andb_false_r.
  - intros j Hj Hne. rewrite Hsl, E1 by lia. replace (i =? j) with false by lia.
    by replace ((0 <=? j) && (j <? 0 + Z.of_nat 16)) with true by lia.
Qed.

(** The claim of a slot. *)
Lemma spawn_claim_None t : table_ok t -> forall t', spawn_claim t = (t', None) ->
  t' = t /\ forall i, 0 <= i < 16 -> state_of t i <> PROCESS_UNUSED.
Proof.
  intros Ht t'. unfold spawn_claim. destruct (find_from _ _ _) eqn:E; [by cbn|]. intros [= <-]. split; [done|].
  intros i Hi. rewrite find_from_None in E. apply state_eqb_ne, E. lia.
Qed.

(** A free slot taken with the next pid. *)
Lemma table_ok_claim t t' k :
  table_ok t -> 0 <= k < 16 -> has16 t' -> current_process t' = current_process t -> next_pid t' = next_pid t + 1 ->
  p_pid (slot t' k) = next_pid t -> state_of t' k <> PROCESS_RUNNING ->
  (forall j, 0 <= j < 16 -> j <> k -> slot t' j = slot t j) -> table_ok t'.
Proof.
  intros [Hl Hp Huq Hc Hr Hnx] Hk Hl' Ec En Epid Hst Es.
  assert (U : forall j, used t' j -> (j = k /\ p_pid (slot t' j) = next_pid t) \/ (j <> k /\ used t j /\ p_pid (slot t' j) = p_pid (slot t j))).
  { intros j [Hj Hs]. destruct (Z.eq_dec j k) as [->|]; [by left|right]. unfold used, state_of in *. rewrite Es in * by done. done. }
  split; rewrite ?Ec, ?En; try done.
  - intros j Hj. destruct (U j Hj) as [[-> ->]|(? & Hj' & ->)]; [lia|]. specialize (Hp j Hj'). lia.
  - intros j l Hj Hl2. destruct (U j Hj) as [[-> ->]|(? & Hj' & ->)], (U l Hl2) as [[-> ->]|(? & Hl3 & ->)]; try done.
    + specialize (Hp l Hl3). lia.
    + specialize (Hp j Hj'). lia.
    + by apply Huq.
  - intros j Hj. destruct (Z.eq_dec j k) as [->|]; [done|]. unfold state_of. rewrite Es by done. by apply Hr.
  - lia.
Qed.

Lemma spawn_claim_Some t t' i :
  table_ok t -> next_pid t < 2 ^ 32 - 1 -> spawn_claim t = (t', Some i) ->
  0 <= i < 16 /\ state_of t i = PROCESS_UNUSED /\ (forall j, 0 <= j < i -> state_of t j <> PROCESS_UNUSED) /\
  table_ok t' /\ current_process t' = current_process t /\ next_pid t' = next_pid t + 1 /\
  slot t' i = set_waiting_for_pid 0 (set_pid (next_pid t) (set_state PROCESS_BLOCKED (slot t i))) /\
  forall j, 0 <= j < 16 -> j <> i -> slot t' j = slot t j.
Proof.
  intros Ht Hn. unfold spawn_claim. destruct (find_from _ _ _) as [k|] eqn:E; [|done]. cbn [alloc_pid].
  apply find_from_Some in E as (Hk & Hu & Hlt). apply state_eqb_eq in Hu. intros [= <- <-].
  pose proof Ht as [Hl Hp Huq Hc Hr Hnx]. rewrite u32_small by lia.
  match goal with |- context [table_ok ?x] => set (t' := x) end.
  assert (Es : forall j, 0 <= j < 16 -> slot t' j =
    if k =? j then set_waiting_for_pid 0 (set_pid (next_pid t) (set_state PROCESS_BLOCKED (slot t k))) else slot t j).
  { intros j Hj. subst t'.
    assert (Hl1 : has16 (mk_ptable (process_table (upd t k (set_state PROCESS_BLOCKED))) (current_process t) (next_pid t + 1)))
      by (by apply (upd_has16 t k (set_state PROCESS_BLOCKED))).
    rewrite slot_upd by (done || lia || by apply upd_has16).
    rewrite !(slot_upd (mk_ptable _ _ _)) by (done || lia). rewrite Z.eqb_refl.
    change (slot (mk_ptable ((process_table t).[k := set_state PROCESS_BLOCKED (slot t k)]) (current_process t) (next_pid t + 1)))
      with (slot (upd t k (set_state PROCESS_BLOCKED))).
    rewrite !slot_upd, Z.eqb_refl by (done || lia). by destruct (k =? j). }
  split_and!; try done; try lia.
  - intros j Hj. apply state_eqb_ne, Hlt. lia.
  - apply (table_ok_claim t t' k); try done.
    + unfold has16. subst t'. cbn. by rewrite !zset_length.
    + by rewrite Es, Z.eqb_refl by lia.
    + unfold state_of. by rewrite Es, Z.eqb_refl by lia.
    + intros j Hj Hne. rewrite Es by lia. by replace (k =? j) with false by lia.
  - rewrite Es by lia. by rewrite Z.eqb_refl.
  - intros j Hj Hne. rewrite Es by lia. by replace (k =? j) with false by lia.
Qed.

(** The frame [context_switch] pops: four registers, then the return address. *)
Definition initial_frame (m : mem) (esp ret : Z) : Prop :=
  rd32 m esp = 0 /\ rd32 m (esp + 4) = 0 /\ rd32 m (esp + 8) = 0 /\ rd32 m (esp + 12) = 0 /\
  rd32 m (esp + 16) = ret.

Lemma build_initial_stack_spec m stk sz b m' esp :
  is_u32 b -> build_initial_stack m stk sz b = (m', esp) ->
  esp = stk + sz - 20 /\ initial_frame m' esp b /\
  forall x, x < esp \/ stk + sz <= x -> rd8 m' x = rd8 m x.
Proof.
  intros Hb. unfold build_initial_stack, stack_push. intros [= <- <-]. unfold initial_frame.
  set (e := stk + sz - 4 - 4 - 4 - 4 - 4).
  replace (stk + sz - 4 - 4 - 4 - 4) with (e + 4) by lia. replace (stk + sz - 4 - 4 - 4) with (e + 8) by lia.
  replace (stk + sz - 4 - 4) with (e + 12) by lia. replace (stk + sz - 4) with (e + 16) by lia.
  assert (He : e = stk + sz - 20) by lia. clearbody e. split_and!; try done.
  1-5: repeat (rewrite rd32_wr32_eq || rewrite rd32_wr32_ne by lia); done || by apply u32_small.
  intros x Hx. by rewrite !rd8_wr32_ne by lia.
Qed.

(** *** Spawning *)

Section spawn_lemmas.
Variable process_stacks : Z.

(** What a successful spawn leaves. *)
Record spawned (t : ptable) (m : mem) (t' : ptable) (m' : mem) (i : Z) (st : process_state)
    (user_entry user_esp cr3 cwd bootstrap : Z) : Prop := {
  sp_slot : 0 <= i < 16;
  sp_unused : state_of t i = PROCESS_UNUSED;
  sp_first : forall j, 0 <= j < i -> state_of t j <> PROCESS_UNUSED;
  sp_pid : p_pid (slot t' i) = next_pid t;
  sp_next : next_pid t' = next_pid t + 1;
  sp_state : state_of t' i = st;
  sp_waits : p_waiting_for_pid (slot t' i) = 0;
  sp_entry : p_arg (slot t' i) = user_entry /\ p_user_esp (slot t' i) = user_esp /\ p_cr3 (slot t' i) = cr3;
  sp_cwd : p_cwd_cluster (slot t' i) = cwd;
  sp_redirects : p_stdin_redirect (slot t' i) = -1 /\ p_stdout_redirect (slot t' i) = -1;
  sp_frame : initial_frame m' (p_esp (slot t' i)) bootstrap;
  sp_esp : p_esp (slot t' i) = stack_of process_stacks i + PROCESS_STACK_SIZE - 20;
  sp_current : current_process t' = current_process t;
  sp_others : forall j, 0 <= j < 16 -> j <> i -> slot t' j = slot t j;
  sp_mem : forall x, x < p_esp (slot t' i) \/ p_esp (slot t' i) + 20 <= x -> rd8 m' x = rd8 m x
}.

Lemma spawn_user_spec t m name e u c w blocked b t' m' r :
  table_ok t -> next_pid t < 2 ^ 32 - 1 -> is_u32 b -> b <> 0 ->
  process_spawn_user process_stacks t m name e u c w blocked b = (t', m', r) ->
  table_ok t' /\
  match r with
  | None => t' = t /\ m' = m /\ forall i, 0 <= i < 16 -> state_of t i <> PROCESS_UNUSED
  | Some i => spawned t m t' m' i (if blocked then PROCESS_BLOCKED else PROCESS_READY) e u c w b
  end.
Proof.
  intros Ht Hn Hb Hb0. unfold process_spawn_user. replace (b =? 0) with false by lia.
  destruct (spawn_claim t) as [t1 [i|]] eqn:E.
  2:{ intros [= <- <- <-]. destruct (spawn_claim_None t Ht t1 E) as [-> ?]. done. }
  destruct (spawn_claim_Some t t1 i Ht Hn E) as (Hi & Hu & Hf & Ht1 & Ec & En & Es & Eo).
  unfold spawn_fill. destruct (build_initial_stack m _ _ b) as [m2 esp] eqn:Eb.
  destruct (build_initial_stack_spec _ _ _ _ _ _ Hb Eb) as (Hesp & Hfr & Hm).
  match goal with |- context [upd t1 i (fun _ => ?q)] => set (p' := q) end.
  assert (Hst1 : state_of t1 i = PROCESS_BLOCKED) by (unfold state_of; by rewrite Es).
  assert (Ht2 : table_ok (upd t1 i (fun _ => p'))).
  { apply table_ok_upd; [done|done|left; by rewrite Hst1|right; done|]. cbn. fold (state_of t1 i). by rewrite Hst1. }
  assert (Hs2 : slot (upd t1 i (fun _ => p')) i = p') by (rewrite slot_upd, Z.eqb_refl by (lia || apply Ht1); done).
  assert (Ho2 : forall j, 0 <= j < 16 -> j <> i -> slot (upd t1 i (fun _ => p')) j = slot t j).
  { intros j Hj Hne. rewrite slot_upd by (lia || apply Ht1). replace (i =? j) with false by lia. by apply Eo. }
  set (t2 := upd t1 i (fun _ => p')) in *.
  set (t3 := if blocked then t2 else upd t2 i (set_state PROCESS_READY)).
  assert (Hs3 : slot t3 i = set_state (if blocked then PROCESS_BLOCKED else PROCESS_READY) p').
  { subst t3. destruct blocked.
    - rewrite Hs2. subst p'. unfold set_state. cbn. fold (state_of t1 i). by rewrite Hst1.
    - rewrite slot_upd, Z.eqb_refl, Hs2 by (lia || apply Ht2). done. }
  assert (Ho3 : forall j, 0 <= j < 16 -> j <> i -> slot t3 j = slot t j).
  { intros j Hj Hne. rewrite <- Ho2 by done. subst t3. destruct blocked; [done|].
    rewrite slot_upd by (lia || apply Ht2). by replace (i =? j) with false by lia. }
  intros [= <- <- <-]. split.
  - subst t3. destruct blocked; [done|]. apply table_ok_upd; [done|done| | |done].
    + left. unfold state_of. rewrite Hs2. subst p'. cbn. fold (state_of t1 i). by rewrite Hst1.
    + right. by rewrite Hs2.
  - assert (Ef : next_pid t3 = next_pid t1 /\ current_process t3 = current_process t1) by (subst t3 t2; by destruct blocked).
    destruct Ef as [Ef1 Ef2]. clearbody t3.
    split; rewrite ?Hs3; unfold state_of in *; rewrite ?Hs3; subst p'; cbn; try done; try (rewrite ?Es; done);
      try congruence; rewrite ?Hesp in *; try done.
    intros x Hx. apply Hm. lia.
Qed.
End spawn_lemmas.

(** ** Properties *)

(** The table after boot. *)
Definition boot_ptable : ptable := process_init (mk_ptable (replicate 16 blank_process) None 0).

(** Checking the sixteen slots of a concrete table. *)
Lemma sixteen (f : Z -> bool) :
  forallb f [0; 1; 2; 3; 4; 5; 6; 7; 8; 9; 10; 11; 12; 13; 14; 15] = true -> forall i, 0 <= i < 16 -> f i = true.
Proof.
  rewrite forallb_forall. intros HF i Hi. apply HF. cbn [In]. lia.
Qed.

Lemma boot_unused i : 0 <= i < 16 -> state_of boot_ptable i = PROCESS_UNUSED.
Proof.
  intros. apply state_eqb_eq.
  exact (sixteen (fun i => state_eqb (state_of boot_ptable i) PROCESS_UNUSED) eq_refl i H).
Qed.

Lemma boot_table_ok : table_ok boot_ptable.
Proof.
  split; try done.
  - intros i [Hi Hu]. by rewrite boot_unused in Hu.
  - intros i j [Hi Hu]. by rewrite boot_unused in Hu.
  - intros i Hi Hs. by rewrite boot_unused in Hs.
Qed.

(** process_spawn_user takes the lowest unused slot, or changes nothing
    when every slot is taken.  The new process has a pid no live process has,
    the entry point, stack, directory and working directory asked for, is not
    waiting for anyone, is BLOCKED when it must start blocked and READY
    otherwise, and its kernel stack holds the frame that context_switch pops
    to reach the bootstrap routine.  No other slot and no memory but those 20
    bytes of its own stack change. *)
Theorem process_spawn_user_correct (process_stacks : Z) (t t' : ptable) (m m' : mem) (name : option (list Z))
    (user_entry user_esp cr3 cwd_cluster bootstrap : Z) (start_blocked : bool) (r : option Z) :
  table_ok t -> next_pid t < 2 ^ 32 - 1 -> is_u32 bootstrap -> bootstrap <> 0 ->
  process_spawn_user process_stacks t m name user_entry user_esp cr3 cwd_cluster start_blocked bootstrap = (t', m', r) ->
  table_ok t' /\
  match r with
  | None => t' = t /\ m' = m /\ forall i, 0 <= i < 16 -> state_of t i <> PROCESS_UNUSED
  | Some i =>
      spawned process_stacks t m t' m' i (if start_blocked then PROCESS_BLOCKED else PROCESS_READY)
        user_entry user_esp cr3 cwd_cluster bootstrap /\
      forall j, used t j -> p_pid (slot t j) <> p_pid (slot t' i)
  end.
Proof.
  intros Ht Hn Hb Hb0 E. destruct (spawn_user_spec _ _ _ _ _ _ _ _ _ _ _ _ _ Ht Hn Hb Hb0 E) as [Ht' Hr].
  split; [done|]. destruct r as [i|]; [|done]. split; [done|]. intros j Hj. rewrite (sp_pid _ _ _ _ _ _ _ _ _ _ _ _ Hr).
  pose proof (to_pid _ Ht j Hj). lia.
Qed.

Lemma process_spawn_user_correct_witness :
  exists t' m', process_spawn_user 0x20000 boot_ptable ∅ None 0x1000000 0x1FFF000 0x400000 0 false 0x1234 = (t', m', Some 0) /\
    state_of t' 0 = PROCESS_READY /\ table_ok t'.
Proof.
  assert (Er : snd (process_spawn_user 0x20000 boot_ptable ∅ None 0x1000000 0x1FFF000 0x400000 0 false 0x1234) = Some 0)
    by (vm_compute; reflexivity).
  destruct (process_spawn_user 0x20000 boot_ptable ∅ None 0x1000000 0x1FFF000 0x400000 0 false 0x1234) as [[t' m'] r] eqn:E.
  cbn [snd] in Er. subst r.
  destruct (process_spawn_user_correct 0x20000 boot_ptable t' ∅ m' None 0x1000000 0x1FFF000 0x400000 0 0x1234 false (Some 0))
    as [Hok [Hs _]]; [exact boot_table_ok|cbn; lia|unfold is_u32; lia|lia|exact E|].
  exists t', m'. split; [reflexivity|]. split; [apply Hs|exact Hok].
Defined.

(** process_exit frees exactly the slot of the exiting process and makes
    ready exactly the processes blocked waiting for its pid; every other slot
    is unchanged. *)
Theorem process_exit_wakes_exactly_waiters (t : ptable) (i : Z) :
  table_ok t -> used t i ->
  let t' := process_exit t (Some i) in
  table_ok t' /\ state_of t' i = PROCESS_UNUSED /\
  forall j, 0 <= j < 16 -> j <> i ->
    if bool_decide (state_of t j = PROCESS_BLOCKED /\ p_waiting_for_pid (slot t j) = p_pid (slot t i))
    then state_of t' j = PROCESS_READY /\ p_waiting_for_pid (slot t' j) = 0 /\ p_pid (slot t' j) = p_pid (slot t j)
    else slot t' j = slot t j.
Proof.
  intros Ht Hu t'. destruct (process_exit_spec t i Ht Hu) as (Ht' & _ & _ & Es & Eo). fold t' in Ht', Es, Eo. clearbody t'.
  split_and!; [done|unfold state_of; by rewrite Es|]. intros j Hj Hne. specialize (Eo j Hj Hne). unfold state_of.
  unfold waits_for in Eo. case_bool_decide as Hw.
  - destruct Hw as [Hs Hp]. unfold state_of in Hs.
    rewrite Hs, Hp, Z.eqb_refl in Eo. cbn in Eo. by rewrite Eo.
  - destruct (state_eqb _ _) eqn:E1, (_ =? _) eqn:E2; try done. apply state_eqb_eq in E1. b2p. by destruct Hw.
Qed.

(** A table with a process waiting for another one. *)
Definition waiting_table : ptable :=
  mk_ptable ((process_table boot_ptable)
    .[0 := set_pid 1 (set_state PROCESS_READY blank_process)]
    .[1 := set_waiting_for_pid 1 (set_pid 2 (set_state PROCESS_BLOCKED blank_process))]) None 3.


Lemma waiting_table_ok : table_ok waiting_table.
Proof.
  assert (Hp : forall i, used waiting_table i ->
    (i = 0 \/ i = 1) /\ p_pid (slot waiting_table i) = i + 1 /\ state_of waiting_table i <> PROCESS_RUNNING).
  { intros i [Hi Hu].
    pose proof (sixteen (fun i => state_eqb (state_of waiting_table i) PROCESS_UNUSED ||
      (i <=? 1) && (p_pid (slot waiting_table i) =? i + 1) && negb (state_eqb (state_of waiting_table i) PROCESS_RUNNING))
      eq_refl i Hi) as E. cbv beta in E. apply state_eqb_ne in Hu. rewrite Hu in E. cbn [orb] in E. b2p.
    apply state_eqb_ne in H0. split_and!; [lia|done|done]. }
  split; try done.
  - intros i Hu. destruct (Hp i Hu) as (? & -> & _). cbn. lia.
  - intros i j Hi Hj. destruct (Hp i Hi) as (? & -> & _), (Hp j Hj) as (? & -> & _). lia.
  - intros i Hi Hr. destruct (Hp i) as (_ & _ & Hn); [|done]. split; [done|]. by rewrite Hr.
Qed.

Lemma process_exit_wakes_exactly_waiters_witness :
  table_ok waiting_table /\ used waiting_table 0 /\
  state_of (process_exit waiting_table (Some 0)) 1 = PROCESS_READY.
Proof.
  assert (Hu : used waiting_table 0) by (split; [lia|discriminate]).
  destruct (process_exit_wakes_exactly_waiters waiting_table 0 waiting_table_ok Hu) as (_ & _ & H1).
  split; [exact waiting_table_ok|]. split; [exact Hu|]. specialize (H1 1 ltac:(lia) ltac:(lia)).
  rewrite bool_decide_true in H1; [apply H1|]. split; reflexivity.
Defined.

(** A process put to sleep for [ticks] ticks at tick [now] is asleep until
    the counter reaches [now + ticks], and every wake-up scan from then on
    makes it ready; the scan changes no process that is not asleep.  The
    deadline is computed modulo 2^32, hence the bound. *)
Theorem process_sleep_wakes_on_time (t : ptable) (i now ticks later : Z) :
  table_ok t -> used t i -> 0 <= now -> 0 <= ticks -> now + ticks < 2 ^ 32 ->
  let t' := process_sleep t (Some i) now ticks in
  state_of t' i = PROCESS_SLEEPING /\
  state_of (process_wake_sleepers t' later) i =
    (if now + ticks <=? later then PROCESS_READY else PROCESS_SLEEPING) /\
  forall j, 0 <= j < 16 -> state_of t j <> PROCESS_SLEEPING -> j <> i ->
    slot (process_wake_sleepers t' later) j = slot t j.
Proof.
  intros Ht [Hi Hu] Hn Hk Hb t'. subst t'. unfold process_sleep. apply state_eqb_ne in Hu. rewrite Hu.
  rewrite u32_small by lia. set (t1 := upd t i (set_wake_tick (now + ticks))).
  assert (Hl1 : has16 t1) by (apply upd_has16, Ht).
  set (t2 := upd t1 i (set_state PROCESS_SLEEPING)).
  assert (Hs : forall j, 0 <= j -> slot t2 j =
    if i =? j then set_state PROCESS_SLEEPING (set_wake_tick (now + ticks) (slot t i)) else slot t j).
  { intros j Hj. subst t2 t1. rewrite slot_upd by (done || lia). rewrite !slot_upd by (lia || apply Ht).
    rewrite Z.eqb_refl. by destruct (i =? j). }
  destruct (for_slots_spec (sleep_over later) (set_state PROCESS_READY) 16 t2 0) as (_ & _ & _ & Hw);
    [by apply upd_has16|lia|lia|].
  fold (process_wake_sleepers t2 later) in Hw. unfold state_of. split_and!.
  - by rewrite Hs, Z.eqb_refl by lia.
  - rewrite Hw, Hs, Z.eqb_refl by lia. unfold sleep_over. cbn [set_state p_state p_wake_tick set_wake_tick].
    replace ((0 <=? i) && (i <? 0 + Z.of_nat 16)) with true by lia. cbn [andb].
    change (state_eqb PROCESS_SLEEPING PROCESS_SLEEPING) with true. cbn [andb]. by destruct (now + ticks <=? later).
  - intros j Hj Hns Hne. rewrite Hw, Hs by lia. replace (i =? j) with false by lia. unfold sleep_over.
    apply state_eqb_ne in Hns. unfold state_of in Hns. by rewrite Hns, !andb_false_r.
Qed.

Lemma process_sleep_wakes_on_time_witness :
  state_of (process_wake_sleepers (process_sleep waiting_table (Some 0) 100 50) 149) 0 = PROCESS_SLEEPING /\
  state_of (process_wake_sleepers (process_sleep waiting_table (Some 0) 100 50) 150) 0 = PROCESS_READY.
Proof.
  assert (Hu : used waiting_table 0) by (split; [lia|discriminate]).
  split.
  - exact (proj1 (proj2 (process_sleep_wakes_on_time waiting_table 0 100 50 149 waiting_table_ok Hu
      ltac:(lia) ltac:(lia) ltac:(lia)))).
  - exact (proj1 (proj2 (process_sleep_wakes_on_time waiting_table 0 100 50 150 waiting_table_ok Hu
      ltac:(lia) ltac:(lia) ltac:(lia)))).
Defined.
