(* ===== verification/Fork.v ===== *)
(** * Forking ([process_fork] of [kernel/process.c])

    The child gets a process slot, a copy of every page mapped above the
    kernel's 8 MB, and a kernel stack that resumes at [isr128_resume] with the
    trap frame of the parent's system call.  The functions work on the
    process table, physical memory and a page allocator; the address of the
    static stacks and of the assembly routine are parameters. *)

From Stdlib Require Import ZArith Lia ZifyBool.
From stdpp Require Import base tactics numbers list option relations gmap.
From S2P Require Import Prelude Pmm Mem Vmm Process.
Local Open Scope Z_scope.

(** [for (w = 0; w < PAGE_SIZE / 4; w++) dst[w] = src[w];] *)
Fixpoint copy_words (m : mem) (dst src w : Z) (n : nat) : mem :=
  match n with
  | O => m
  | S n' => copy_words (wr32 m (dst + 4 * w) (rd32 m (src + 4 * w))) dst src (w + 1) n'
  end.

Strategy 1000 [copy_words].
#[global] Arguments copy_words : simpl never.

(** The claim of a slot; [waiting_for_pid] is only reset afterwards. *)
Definition fork_claim (t : ptable) : ptable * option Z :=
  match find_from (fun i => state_eqb (state_of t i) PROCESS_UNUSED) 0 16 with
  | None => (t, None)
  | Some i =>
      let '(t, pid) := alloc_pid t in
      let t := upd t i (set_pid pid) in
      (upd t i (set_state PROCESS_BLOCKED), Some i)
  end.

(** The child's fields copied from the parent. *)
Definition fork_fields (process_stacks : Z) (parent child : process) (i : Z) : process :=
  mk_process (p_pid child) (copy_name (p_name child) (Some (p_name parent))) (p_state child) 0 0 (p_esp child)
    (stack_of process_stacks i) PROCESS_STACK_SIZE (p_cr3 child) 0 (p_user_esp parent) 0 0 0 (p_cwd_cluster parent)
    (p_stdin_redirect parent) (p_stdout_redirect parent) 0.

(** [frame[i] = saved_frame[i]] *)
Fixpoint copy_frame (m : mem) (frame : Z) (ws : list Z) : mem :=
  match ws with
  | [] => m
  | w :: ws' => copy_frame (wr32 m frame w) (frame + 4) ws'
  end.

(** The child's kernel stack: the 13-word trap frame, then the frame
    [context_switch] pops. *)
Definition fork_stack (m : mem) (stk isr128_resume : Z) (saved_frame : list Z) : mem * Z :=
  let top := stk + PROCESS_STACK_SIZE in
  let frame := top - 4 * 13 in
  let m := copy_frame m frame (take 13 saved_frame) in
  let s := stack_push (m, frame) isr128_resume in
  let s := stack_push s 0 in
  let s := stack_push s 0 in
  let s := stack_push s 0 in
  stack_push s 0.

Section fork.
Context {PA : Type} `{PageAllocator PA}.
Variables process_stacks isr128_resume : Z.

(** One page of the parent, entry [ti] of the table [parent_pt] of [di]:
    the flag says the copy failed. *)
Definition fork_page (p : PA) (m : mem) (child_cr3 parent_pt di ti : Z) : PA * mem * bool :=
  let pte := rd32 m (parent_pt + 4 * ti) in
  if negb (has_flag pte VMM_PRESENT) then (p, m, false)
  else
    let virt := Z.lor (Z.shiftl di 22) (Z.shiftl ti 12) in
    let parent_phys := frame_of pte in
    let '(p, child_phys) := pa_alloc p in
    if child_phys =? 0 then (p, m, true)
    else
      let m := copy_words m child_phys parent_phys 0 1024 in
      let '(p, m, r) := vmm_map_user_page p m child_cr3 virt child_phys in
      if negb (r =? 0) then (pa_free p child_phys, m, true) else (p, m, false).

Fixpoint fork_table (n : nat) (p : PA) (m : mem) (child_cr3 parent_pt di ti : Z) : PA * mem * bool :=
  match n with
  | O => (p, m, false)
  | S n' =>
      let '(p, m, failed) := fork_page p m child_cr3 parent_pt di ti in
      if failed then (p, m, true) else fork_table n' p m child_cr3 parent_pt di (ti + 1)
  end.

Fixpoint fork_tables (n : nat) (p : PA) (m : mem) (child_cr3 parent_cr3 di : Z) : PA * mem * bool :=
  match n with
  | O => (p, m, false)
  | S n' =>
      let pde := rd32 m (parent_cr3 + 4 * di) in
      if negb (has_flag pde VMM_PRESENT) then fork_tables n' p m child_cr3 parent_cr3 (di + 1)
      else
        let '(p, m, failed) := fork_table 1024 p m child_cr3 (frame_of pde) di 0 in
        if failed then (p, m, true) else fork_tables n' p m child_cr3 parent_cr3 (di + 1)
  end.

(** [fork_free_address_space] *)
Fixpoint free_table (n : nat) (p : PA) (m : mem) (pt ti : Z) : PA :=
  match n with
  | O => p
  | S n' =>
      let pte := rd32 m (pt + 4 * ti) in
      free_table n' (if has_flag pte VMM_PRESENT then pa_free p (frame_of pte) else p) m pt (ti + 1)
  end.

Fixpoint free_tables (n : nat) (p : PA) (m : mem) (cr3 di : Z) : PA :=
  match n with
  | O => p
  | S n' =>
      let pde := rd32 m (cr3 + 4 * di) in
      free_tables n' (if has_flag pde VMM_PRESENT then free_table 1024 p m (frame_of pde) 0 else p) m cr3 (di + 1)
  end.

Definition fork_free_address_space (p : PA) (m : mem) (cr3 : Z) : PA := pa_free (free_tables 1022 p m cr3 2) cr3.

(** Give the slot back. *)
Definition fork_release (t : ptable) (i : Z) : ptable := upd (upd t i (set_state PROCESS_UNUSED)) i (set_pid 0).

Definition process_fork (t : ptable) (p : PA) (m : mem) (parent : option Z) (saved_frame : option (list Z))
  : ptable * PA * mem * option Z :=
  match parent, saved_frame with
  | Some par, Some frame =>
      match fork_claim t with
      | (t, None) => (t, p, m, None)
      | (t, Some i) =>
          let t := upd t i (fun child => fork_fields process_stacks (slot t par) child i) in
          let '(p, m, child_cr3) := vmm_create_directory p m in
          if child_cr3 =? 0 then (fork_release t i, p, m, None)
          else
            let '(p, m, failed) := fork_tables 1022 p m child_cr3 (p_cr3 (slot t par)) 2 in
            if failed then (fork_release t i, fork_free_address_space p m child_cr3, m, None)
            else
              let t := upd t i (set_cr3 child_cr3) in
              let '(m, esp) := fork_stack m (stack_of process_stacks i) isr128_resume frame in
              let t := upd t i (set_esp esp) in
              (upd t i (set_state PROCESS_READY), p, m, Some i)
      end
  | _, _ => (t, p, m, None)
  end.
End fork.

Strategy 1000 [fork_table fork_tables free_table free_tables].
#[global] Arguments fork_table : simpl never.
#[global] Arguments fork_tables : simpl never.

(** ** Copying a page *)

Lemma copy_words_out m dst src w n x :
  0 <= w -> (x < dst + 4 * w \/ dst + 4 * (w + Z.of_nat n) <= x) -> rd8 (copy_words m dst src w n) x = rd8 m x.
Proof.
  revert m w; induction n as [|n IH]; intros m w Hw Hx; [done|].
  unfold copy_words; fold copy_words. rewrite IH by lia. apply rd8_wr32_ne. lia.
Qed.

Lemma copy_words_in m dst src w n j :
  0 <= w -> w <= j < w + Z.of_nat n -> (src + 4096 <= dst \/ dst + 4096 <= src) -> w + Z.of_nat n <= 1024 ->
  rd32 (copy_words m dst src w n) (dst + 4 * j) = rd32 m (src + 4 * j).
Proof.
  revert m w; induction n as [|n IH]; intros m w Hw Hj Hd Hn; [lia|].
  unfold copy_words; fold copy_words. destruct (Z.eq_dec j w) as [->|].
  - erewrite rd32_same; [rewrite rd32_wr32_eq; apply u32_small, rd32_range|].
    intros. apply copy_words_out; lia.
  - rewrite IH by lia. apply rd32_wr32_ne. lia.
Qed.

(** Two distinct pages: the copy changes only the destination and makes it
    equal to the source, byte by byte. *)
Lemma copy_page m f g :
  f <> g ->
  same_outside m (copy_words m (f * 4096) (g * 4096) 0 1024) (fun q => q = f) /\
  forall o, 0 <= o < 4096 -> rd8 (copy_words m (f * 4096) (g * 4096) 0 1024) (f * 4096 + o) = rd8 m (g * 4096 + o).
Proof.
  intros Hne. split.
  - intros x Hx. apply copy_words_out; [lia|]. destruct (Z_lt_le_dec x (f * 4096)); [lia|].
    destruct (Z_lt_le_dec x (f * 4096 + 4096)); [|lia]. exfalso. apply Hx. symmetry.
    apply Z.div_unique with (r := x - f * 4096); lia.
  - intros o Ho. set (j := o / 4). set (i := o mod 4).
    assert (Eo : o = 4 * j + i) by (apply Z.div_mod; lia). assert (Hi : 0 <= i < 4) by (apply Z.mod_pos_bound; lia).
    assert (Hj : 0 <= j < 1024) by lia. rewrite Eo, !Z.add_assoc, <- !rd32_bytes by done.
    rewrite copy_words_in by lia. done.
Qed.

(** ** The copy loop *)

(** Entry of page number [w] in the tables under [pd]: present, and its
    frame's page number. *)
Definition page_pte (m : mem) (pd w : Z) : Z := rd32 m (frame_of (dir_word m pd (w / 1024)) + 4 * (w mod 1024)).
Definition page_present (m : mem) (pd w : Z) : bool :=
  has_flag (dir_word m pd (w / 1024)) VMM_PRESENT && has_flag (page_pte m pd w) VMM_PRESENT.
Definition page_frame (m : mem) (pd w : Z) : Z := frame_of (page_pte m pd w) / 4096.

Lemma page_indices w : 0 <= w < 2 ^ 20 ->
  dir_index (w * 4096) = w / 1024 /\ table_index (w * 4096) = w mod 1024 /\ is_u32 (w * 4096).
Proof.
  intros Hw. unfold is_u32. rewrite dir_index_eq, table_index_eq. change (2 ^ 12) with 4096. rewrite Z.div_mul by lia.
  split_and!; [|done|lia..]. change (2 ^ 22) with (1024 * 4096). by rewrite Z.div_mul_cancel_r by lia.
Qed.

Lemma page_virt di ti : 0 <= di < 1024 -> 0 <= ti < 1024 ->
  Z.lor (Z.shiftl di 22) (Z.shiftl ti 12) = (di * 1024 + ti) * 4096.
Proof.
  intros Hd Ht. rewrite !Z.shiftl_mul_pow2 by lia.
  replace (di * 2 ^ 22) with (Z.shiftl (di * 2 ^ 10) 12) by (rewrite Z.shiftl_mul_pow2 by lia; lia).
  replace (ti * 2 ^ 12) with (Z.shiftl ti 12) by (rewrite Z.shiftl_mul_pow2 by lia; done).
  rewrite <- Z.shiftl_lor, Z.shiftl_mul_pow2 by lia. f_equal.
  assert (Hl : Z.land (di * 2 ^ 10) ti = 0).
  { apply Z.bits_inj'. intros n Hn. rewrite Z.land_spec, Z.bits_0, <- Z.shiftl_mul_pow2 by lia.
    destruct (Z_lt_le_dec n 10); [by rewrite Z.shiftl_spec_low by lia|].
    rewrite <- (Z.mod_small ti (2 ^ 10)), Z.mod_pow2_bits_high by lia. apply andb_false_r. }
  rewrite <- Z.lxor_lor by done. symmetry. by apply Z.add_nocarry_lxor.
Qed.

(** Walking the tables from any byte of page [w]; from byte 1, the result also
    tells a page that is present from one that is not. *)
Lemma phys_lookup_at m pd w o : 0 <= w < 2 ^ 20 -> 0 <= o < 4096 ->
  vmm_get_phys_from_dir m pd (w * 4096 + o) = if page_present m pd w then page_frame m pd w * 4096 + o else 0.
Proof.
  intros Hw Ho. destruct (page_indices w Hw) as (Edi & Eti & _). unfold vmm_get_phys_from_dir, page_present, page_frame, page_pte.
  destruct (same_page_index (w * 4096 + o) (w * 4096)) as [E1 E2]; [rewrite in_page, Z.div_mul by lia; done|].
  unfold pte_addr, pde. rewrite E1, E2, Edi, Eti. fold (dir_word m pd (w / 1024)).
  destruct (has_flag (dir_word m pd (w / 1024)) VMM_PRESENT); [|done]. cbn [negb andb].
  destruct (has_flag (rd32 m _) VMM_PRESENT); [|done]. cbn [negb].
  rewrite low12_eq, frame_of_eq by apply rd32_range. rewrite Z.div_mul by lia.
  replace ((w * 4096 + o) mod 4096) with o; [by apply lor_frame_flags|].
  rewrite Z.add_comm, Z.mod_add by lia. symmetry. by apply Z.mod_small.
Qed.

Lemma page_same m m' pd w : 0 <= w < 2 ^ 20 ->
  vmm_get_phys_from_dir m' pd (w * 4096 + 1) = vmm_get_phys_from_dir m pd (w * 4096 + 1) ->
  page_present m' pd w = page_present m pd w /\ (page_present m pd w = true -> page_frame m' pd w = page_frame m pd w).
Proof.
  intros Hw. rewrite !phys_lookup_at by lia. unfold page_frame. intros E.
  pose proof (rd32_range m (frame_of (dir_word m pd (w / 1024)) + 4 * (w mod 1024))) as R1. fold (page_pte m pd w) in R1.
  pose proof (rd32_range m' (frame_of (dir_word m' pd (w / 1024)) + 4 * (w mod 1024))) as R2. fold (page_pte m' pd w) in R2.
  rewrite !frame_of_eq, !Z.div_mul in * by (done || lia). unfold is_u32 in *.
  destruct (page_present m' pd w), (page_present m pd w); (split; [|intros]); Z.to_euclidean_division_equations; done || lia.
Qed.

Section fork_lemmas.
Context {PA : Type} `{PageAllocator PA}.
Implicit Types (p : PA) (m : mem).

(** A process's address space all of whose pages belong to it. *)
Record space_owned p m (pd : Z) : Prop := {
  sw_dir : dir_ok p m pd;
  sw_data : forall w, 2048 <= w < 2 ^ 20 -> page_present m pd w = true -> pa_isfree p (page_frame m pd w) = false
}.

(** A space seen through changes confined to free pages. *)
Lemma space_page_same p0 m0 m pd w :
  space_owned p0 m0 pd -> same_outside m0 m (fun k => pa_isfree p0 k = true) -> 2048 <= w < 2 ^ 20 ->
  dir_word m pd (w / 1024) = dir_word m0 pd (w / 1024) /\
  (has_flag (dir_word m0 pd (w / 1024)) VMM_PRESENT = true ->
   page_pte m pd w = page_pte m0 pd w).
Proof.
  intros [Hd _] Hs Hw. assert (Hdi : 0 <= w / 1024 < 1024) by (Z.to_euclidean_division_equations; lia).
  assert (Ed : dir_word m pd (w / 1024) = dir_word m0 pd (w / 1024)).
  { eapply dir_word_same; [exact Hd|exact Hs| |done]. destruct Hd as [(k & -> & _ & Hf) _ _ _].
    rewrite Z.div_mul by lia. by rewrite Hf. }
  split; [done|]. intros Hp. unfold page_pte. rewrite Ed.
  assert (Hti : 0 <= w mod 1024 < 1024) by (apply Z.mod_pos_bound; lia).
  rewrite <- table_page_frame. eapply same_outside_rd32; [exact Hs|apply in_page_aligned, quad_aligned|].
  rewrite in_page by lia. destruct (do_table _ _ _ Hd _ Hdi Hp) as [_ Hf]. by rewrite Hf.
Qed.

(** The child's page [w] holds a copy of the parent's. *)
Definition copied p0 m0 ppd p m (cpd w : Z) : Prop :=
  exists f, pa_isfree p0 f = true /\ pa_isfree p f = false /\ ~ private_page m cpd f /\
    vmm_get_user_phys_from_dir m cpd (w * 4096) = f * 4096 /\
    forall o, 0 <= o < 4096 -> rd8 m (f * 4096 + o) = rd8 m0 (page_frame m0 ppd w * 4096 + o).

(** After the pages below [v] have been copied. *)
Record fork_inv p0 m0 (ppd cpd v : Z) p m : Prop := {
  fi_ok : pa_ok p;
  fi_dir : dir_ok p m cpd;
  fi_tables : user_tables m cpd;
  fi_free : forall q, pa_isfree p q = true -> pa_isfree p0 q = true;
  fi_same : same_outside m0 m (fun k => pa_isfree p0 k = true);
  fi_private : forall q, private_page m cpd q -> pa_isfree p0 q = true;
  fi_pages : forall w, 2048 <= w < 2 ^ 20 ->
    if (w <? v) && page_present m0 ppd w then copied p0 m0 ppd p m cpd w
    else vmm_get_user_phys_from_dir m cpd (w * 4096) = 0
}.

Lemma fork_inv_skip p0 m0 ppd cpd v v' p m :
  fork_inv p0 m0 ppd cpd v p m -> v <= v' -> (forall w, v <= w < v' -> page_present m0 ppd w = false) ->
  fork_inv p0 m0 ppd cpd v' p m.
Proof.
  intros [] Hv Hn. split; try done. intros w Hw. specialize (fi_pages0 w Hw).
  destruct (Z.ltb_spec w v), (Z.ltb_spec w v'); simpl in *; try done; try lia.
  by rewrite Hn by lia.
Qed.

Lemma not_free_mono p p' q : (forall q, pa_isfree p' q = true -> pa_isfree p q = true) ->
  pa_isfree p q = false -> pa_isfree p' q = false.
Proof. intros Hm Hf. destruct (pa_isfree p' q) eqn:E; [|done]. apply Hm in E. congruence. Qed.

(** The pages taken since [p0]: [X], the directory and the tables of the child
    and the frames it maps, each of its tables standing for one of the
    parent's. *)
Record fork_pages p0 m0 (ppd cpd : Z) (X : Z -> Prop) p m : Prop := {
  fa_total : pa_total p = pa_total p0;
  fa_new : forall q, pa_isfree p0 q = true -> pa_isfree p q = false ->
    X q \/ private_page m cpd q \/ exists w, 2048 <= w < 2 ^ 20 /\ page_present m cpd w = true /\ page_frame m cpd w = q;
  fa_frames : forall w, 2048 <= w < 2 ^ 20 -> page_present m cpd w = true ->
    let f := page_frame m cpd w in
    pa_isfree p0 f = true /\ pa_isfree p f = false /\ ~ private_page m cpd f /\
    vmm_get_user_phys_from_dir m cpd (w * 4096) = f * 4096;
  fa_tables : forall di, 2 <= di < 1024 -> has_flag (dir_word m cpd di) VMM_PRESENT = true ->
    has_flag (dir_word m0 ppd di) VMM_PRESENT = true
}.

(** The child's tables as they were, with other pages taken ([X']) . *)
Lemma fork_pages_same p0 m0 ppd cpd (X X' : Z -> Prop) p m p' m' :
  fork_pages p0 m0 ppd cpd X p m -> pa_total p' = pa_total p ->
  (forall q, pa_isfree p' q = true -> pa_isfree p q = true) ->
  (forall q, pa_isfree p q = true -> pa_isfree p' q = false -> X' q) -> (forall q, X q -> X' q) ->
  (forall a, is_u32 a -> lookup_same m m' cpd a) -> (forall q, private_page m' cpd q <-> private_page m cpd q) ->
  (forall di, 0 <= di < 1024 -> dir_word m' cpd di = dir_word m cpd di) ->
  fork_pages p0 m0 ppd cpd X' p' m'.
Proof.
  intros [Ht Hn Hf Htb] Ht' Hmono Hx HX Hl Hp Hw.
  assert (Hpg : forall w, 2048 <= w < 2 ^ 20 -> page_present m' cpd w = page_present m cpd w /\
    (page_present m cpd w = true -> page_frame m' cpd w = page_frame m cpd w)).
  { intros w Hwr. apply page_same; [lia|]. apply Hl. unfold is_u32. lia. }
  split; [congruence| | |].
  - intros q Hq0 Hq. destruct (pa_isfree p q) eqn:E; [left; by apply Hx|].
    destruct (Hn q Hq0 E) as [?|[?|(w & Hwr & H1 & H2)]]; [left; auto|right; left; by apply Hp|right; right].
    destruct (Hpg w Hwr) as [E1 E2]. exists w. rewrite E1, E2 by done. done.
  - intros w Hwr Hpr. destruct (Hpg w Hwr) as [E1 E2]. rewrite E1 in Hpr. rewrite E2 by done.
    destruct (Hf w Hwr Hpr) as (F1 & F2 & F3 & F4). cbn zeta in *. split_and!; [done| |by rewrite Hp|].
    + destruct (pa_isfree p' _) eqn:E; [|done]. apply Hmono in E. congruence.
    + destruct (Hl (w * 4096)) as [_ El]; [unfold is_u32; lia|]. by rewrite El.
  - intros di Hdi. rewrite Hw by lia. auto.
Qed.

(** Copying data into a page that was free: nothing the child knows changes. *)
Lemma copy_into_free p0 m0 ppd cpd v p m p1 f g :
  fork_inv p0 m0 ppd cpd v p m -> pa_ok p1 -> pa_isfree p f = true -> f <> g ->
  (forall q, pa_isfree p1 q = true -> pa_isfree p q = true) ->
  let m1 := copy_words m (f * 4096) (g * 4096) 0 1024 in
  fork_inv p0 m0 ppd cpd v p1 m1 /\ ~ private_page m1 cpd f /\
  (forall o, 0 <= o < 4096 -> rd8 m1 (f * 4096 + o) = rd8 m (g * 4096 + o)) /\
  (forall a, is_u32 a -> lookup_same m m1 cpd a) /\ (forall q, private_page m1 cpd q <-> private_page m cpd q) /\
  (forall di, 0 <= di < 1024 -> dir_word m1 cpd di = dir_word m cpd di).
Proof.
  intros Hi Hp1 Hf Hne Hmono m1. destruct (copy_page m f g Hne) as [Hs Hc]. fold m1 in Hs, Hc. clearbody m1.
  destruct Hi as [Hok Hd Hu Hfr Hsm Hpr Hpg].
  assert (Hnf : ~ private_page m cpd f) by (intros Hx; apply (private_not_free p) in Hx; [congruence|done]).
  assert (Hcpd : cpd / 4096 <> f) by (intros <-; apply Hnf; by left).
  destruct (words_same p m m1 cpd (fun q => q = f) Hd Hs Hcpd) as [Hw Hpriv].
  assert (Hlk : forall a, is_u32 a -> lookup_same m m1 cpd a).
  { intros a Hu32. pose proof (dir_index_range _ Hu32) as Hdr.
    apply lookup_same_words; [by apply Hw|]. intros Hp. rewrite pte_addr_page. pose proof (table_index_range a).
    eapply same_outside_rd32; [exact Hs|apply in_page_aligned, quad_aligned|]. rewrite in_page by lia.
    destruct (do_table _ _ _ Hd _ Hdr Hp) as [_ Hnfr]. congruence. }
  split; [split|split_and!; try done; by rewrite Hpriv].
  - done.
  - eapply dir_ok_same; [exact Hw| |exact Hd]. intros q. by apply not_free_mono.
  - intros di Hdi. rewrite Hw by lia. by apply Hu.
  - auto.
  - eapply same_outside_trans; [exact Hsm|]. eapply same_outside_mono; [|exact Hs]. intros q ->. auto.
  - intros q Hq. apply Hpriv in Hq. auto.
  - intros w Hwr. specialize (Hpg w Hwr). destruct (page_indices w ltac:(lia)) as (_ & _ & Hu32). destruct (Hlk _ Hu32) as [_ El].
    destruct ((w <? v) && _); [|by rewrite El].
    destruct Hpg as (fw & Hfw0 & Hfw & Hfwp & Hfwl & Hfwc). exists fw. split_and!; try done.
    + by apply (not_free_mono p).
    + by rewrite Hpriv.
    + by rewrite El.
    + intros o Ho. rewrite <- Hfwc by done. apply Hs. rewrite in_page by done. congruence.
Qed.

(** Mapping the copy. *)
Lemma map_copied p0 m0 ppd cpd v p1 m1 f p2 m2 :
  fork_inv p0 m0 ppd cpd v p1 m1 -> 2048 <= v < 2 ^ 20 -> page_present m0 ppd v = true ->
  pa_isfree p0 f = true -> pa_isfree p1 f = false -> ~ private_page m1 cpd f -> 0 <= f < 2 ^ 20 ->
  (forall o, 0 <= o < 4096 -> rd8 m1 (f * 4096 + o) = rd8 m0 (page_frame m0 ppd v * 4096 + o)) ->
  mapped p1 m1 cpd (v * 4096) (f * 4096) p2 m2 -> user_tables m2 cpd ->
  fork_inv p0 m0 ppd cpd (v + 1) p2 m2.
Proof.
  intros [Hok Hd Hu Hfr Hsm Hpr Hpg] Hv Hpv Hf0 Hf1 Hfp Hfr20 Hc [Mok Md Mp Mo Ms Mf Mpr _] Hu2.
  assert (Hkeep : forall g, pa_isfree p1 g = false -> ~ private_page m1 cpd g ->
    pa_isfree p2 g = false /\ ~ private_page m2 cpd g /\ forall o, 0 <= o < 4096 -> rd8 m2 (g * 4096 + o) = rd8 m1 (g * 4096 + o)).
  { intros g Hg Hgp. split_and!.
    - by apply (not_free_mono p1).
    - intros Hx. apply Mpr in Hx as [|]; [done|congruence].
    - intros o Ho. apply Ms. rewrite in_page by done. intros [|]; [done|congruence]. }
  split; try done.
  - auto.
  - eapply same_outside_trans; [exact Hsm|]. eapply same_outside_mono; [|exact Ms]. intros q [|]; auto.
  - intros q Hq. apply Mpr in Hq as [|]; auto.
  - intros w Hw. destruct (Z.eq_dec w v) as [->|Hne].
    + replace (v <? v + 1) with true by lia. rewrite Hpv. cbn [andb]. destruct (Hkeep f Hf1 Hfp) as (? & ? & Hcc).
      exists f. split_and!; try done.
      * destruct (Mp (v * 4096) eq_refl) as [-> _]. rewrite Z.div_mul, Z.mod_mul by lia. lia.
      * intros o Ho. by rewrite Hcc, Hc.
    + destruct (page_indices w ltac:(lia)) as (_ & _ & Hu32).
      assert (Hnp : w * 4096 / 4096 <> v * 4096 / 4096) by (rewrite !Z.div_mul by lia; done).
      destruct (Mo (w * 4096) Hu32 Hnp) as [_ El]. specialize (Hpg w Hw).
      replace (w <? v + 1) with (w <? v) by lia. destruct ((w <? v) && _); [|by rewrite El].
      destruct Hpg as (g & Hg0 & Hg1 & Hgp & Hgl & Hgc). destruct (Hkeep g Hg1 Hgp) as (? & ? & Hcc).
      exists g. split_and!; try done; [by rewrite El|]. intros o Ho. by rewrite Hcc, Hgc.
Qed.

(** Which words and pages a mapping takes. *)
Lemma map_takes p m pd virt phys p' m' :
  pa_ok p -> dir_ok p m pd -> is_u32 virt -> vmm_map_user_page p m pd virt phys = (p', m', 0) ->
  pa_total p' = pa_total p /\
  (forall di, 0 <= di < 1024 -> di <> dir_index virt \/ has_flag (dir_word m pd di) VMM_PRESENT = true -> dir_word m' pd di = dir_word m pd di) /\
  forall q, pa_isfree p q = true -> pa_isfree p' q = false ->
    has_flag (dir_word m' pd (dir_index virt)) VMM_PRESENT = true /\ q = table_page m' pd (dir_index virt).
Proof.
  intros Hp Hok Hv. unfold vmm_map_user_page. destruct (virt <? 0x800000) eqn:Hlow; [done|]. b2p.
  pose proof (user_dir_index virt Hv Hlow) as Hd2. pose proof (dir_index_range virt Hv) as Hdi. cbn zeta.
  set (e := Z.lor (Z.lor (Z.lor (frame_of phys) _) _) _). change (pde m pd virt) with (dir_word m pd (dir_index virt)).
  destruct (has_flag (dir_word m pd (dir_index virt)) VMM_PRESENT) eqn:Epr; cbn [negb].
  - destruct (pte_write p m pd virt e Hok Hv Epr) as (_ & Hd & _). intros [= <- <-]. split_and!; [done|by intros; apply Hd|]. intros q. congruence.
  - pose proof (pa_alloc_total p) as Htot. destruct (pa_alloc p) as [p1 pt] eqn:Ea. cbn [fst] in Htot. apply pa_alloc_law in Ea; [|done].
    destruct Ea as [(-> & -> & _)|(k & -> & Hkf & Hp1 & Hfree)]; [by rewrite Z.eqb_refl|].
    pose proof (pa_isfree_range p k Hp Hkf) as Hk. replace (k * 4096 =? 0) with false by lia.
    replace (0x800000 <=? k * 4096) with false by lia. rewrite user_entry_eq.
    destruct (table_install p p1 m pd virt k Hok Hv Hd2 Epr Hkf Hk Hfree) as (Hok1 & Hd1 & Hdo & _).
    revert Hok1 Hd1 Hdo. generalize (wr32 (zero_4kb m (k * 4096)) (pd + 4 * dir_index virt) (k * 4096 + 7)). intros m1 Hok1 Hd1 Hdo.
    destruct (entry_flags k 7) as [F1 _]; [lia..|]. change (has_flag 7 VMM_PRESENT) with true in F1.
    destruct (pte_write p1 m1 pd virt e Hok1 Hv ltac:(by rewrite Hd1)) as (_ & Hd & _). intros [= <- <-]. split_and!; [done| |].
    + intros di Hr Hx. rewrite Hd by done. apply Hdo; [done|]. destruct Hx as [?|Hx]; [done|]. intros ->. congruence.
    + intros q Hq Hq'. unfold table_page. rewrite !Hd, !Hd1 by done. split; [done|]. rewrite entry_frame, Z.div_mul by lia.
      rewrite Hfree, Hq in Hq'. destruct (Z.eqb_spec q k); [done|discriminate].
Qed.

(** Mapping the copy: the page waiting for it ([f]) becomes the child's. *)
Lemma map_accounts p0 m0 ppd cpd v p1 m1 f p2 m2 :
  pa_ok p0 -> fork_inv p0 m0 ppd cpd v p1 m1 -> fork_pages p0 m0 ppd cpd (fun q => q = f) p1 m1 ->
  2048 <= v < 2 ^ 20 -> has_flag (dir_word m0 ppd (v / 1024)) VMM_PRESENT = true ->
  pa_isfree p0 f = true -> pa_isfree p1 f = false -> ~ private_page m1 cpd f -> 0 < f < 2 ^ 20 ->
  vmm_map_user_page p1 m1 cpd (v * 4096) (f * 4096) = (p2, m2, 0) -> mapped p1 m1 cpd (v * 4096) (f * 4096) p2 m2 ->
  fork_pages p0 m0 ppd cpd (fun _ => False) p2 m2.
Proof.
  intros Hp0 Hi [Ht Hn Hf Htb] Hv Hpde Hf0 Hf1 Hfp Hfr Em [Mok Md Mp Mo _ Mf Mpr _].
  destruct (page_indices v ltac:(lia)) as (Edi & _ & Hu32).
  destruct (map_takes p1 m1 cpd (v * 4096) (f * 4096) p2 m2 (fi_ok _ _ _ _ _ _ _ Hi) (fi_dir _ _ _ _ _ _ _ Hi) Hu32 Em) as (Htot & Hw & Hnew).
  assert (Hvd : 2 <= v / 1024 < 1024) by (Z.to_euclidean_division_equations; lia).
  assert (Hpv : page_present m2 cpd v = true /\ page_frame m2 cpd v = f).
  { destruct (Mp (v * 4096 + 1)) as [_ E]; [rewrite in_page, Z.div_mul by lia; done|]. rewrite phys_lookup_at in E by lia.
    rewrite Z.div_mul in E by lia. replace ((v * 4096 + 1) mod 4096) with 1 in E by (rewrite Z.add_comm, Z.mod_add by lia; done).
    destruct (page_present m2 cpd v); [split; [done|lia]|lia]. }
  assert (Ho : forall w, 2048 <= w < 2 ^ 20 -> w <> v -> page_present m2 cpd w = page_present m1 cpd w /\
    (page_present m1 cpd w = true -> page_frame m2 cpd w = page_frame m1 cpd w)).
  { intros w Hwr Hne. apply page_same; [lia|]. apply Mo; [unfold is_u32; lia|]. rewrite in_page, Z.div_mul by lia. done. }
  assert (Habs : page_present m1 cpd v = false).
  { destruct (page_present m1 cpd v) eqn:E; [|done]. destruct (Hf v Hv E) as (F1 & _ & _ & F4).
    pose proof (fi_pages _ _ _ _ _ _ _ Hi v Hv) as Hpg. replace (v <? v) with false in Hpg by lia. cbn [andb] in Hpg.
    apply pa_isfree_range in F1; [lia|done]. }
  assert (Hprv : forall q, private_page m1 cpd q -> private_page m2 cpd q).
  { intros q [->|(di & Hdi & Hx & ->)]; [by left|right]. exists di. unfold table_page. rewrite Hw by (lia || by right). done. }
  assert (Hkeep : forall g, pa_isfree p1 g = false -> ~ private_page m1 cpd g -> pa_isfree p2 g = false /\ ~ private_page m2 cpd g).
  { intros g Hg Hgp. split; [by apply (not_free_mono p1)|]. intros Hx. apply Mpr in Hx as [|]; [done|congruence]. }
  split; [congruence| | |].
  - intros q Hq0 Hq. right. destruct (pa_isfree p1 q) eqn:E.
    + left. right. destruct (Hnew q E Hq) as [Hx ->]. exists (dir_index (v * 4096)). rewrite Edi in *. done.
    + destruct (Hn q Hq0 E) as [->|[?|(w & Hwr & H1 & H2)]]; [right; by exists v|left; by apply Hprv|right]. exists w.
      assert (Hne : w <> v) by congruence. destruct (Ho w Hwr Hne) as [E1 E2]. rewrite E1, E2 by done. done.
  - intros w Hwr Hpr. cbn zeta. destruct (Z.eq_dec w v) as [->|Hne].
    + rewrite (proj2 Hpv). destruct (Hkeep f Hf1 Hfp). split_and!; try done.
      destruct (Mp (v * 4096) eq_refl) as [-> _]. rewrite Z.div_mul, Z.mod_mul by lia. lia.
    + destruct (Ho w Hwr Hne) as [E1 E2]. rewrite E1 in Hpr. rewrite E2 by done. destruct (Hf w Hwr Hpr) as (F1 & F2 & F3 & F4).
      destruct (Hkeep _ F2 F3) as [K1 K2]. pose proof (proj2 (proj2 (page_indices w ltac:(clear -Hwr; lia)))) as Huw.
      assert (Hnp : w * 4096 / 4096 <> v * 4096 / 4096) by (rewrite !Z.div_mul by discriminate; exact Hne).
      destruct (Mo (w * 4096) Huw Hnp) as [_ El]. rewrite El. exact (conj F1 (conj K1 (conj K2 F4))).
  - intros di Hdi Hx. destruct (Z.eq_dec di (v / 1024)) as [->|Hne]; [done|]. apply Htb; [done|]. by rewrite <- Hw by (lia || (left; congruence)).
Qed.

(** What is left after a failure. *)
Record fork_failed p0 m0 (ppd cpd : Z) p m : Prop := {
  ff_inv : exists v, fork_inv p0 m0 ppd cpd v p m;
  ff_pages : fork_pages p0 m0 ppd cpd (fun _ => False) p m
}.

Definition fork_state p0 m0 (ppd cpd v : Z) p m : Prop :=
  fork_inv p0 m0 ppd cpd v p m /\ fork_pages p0 m0 ppd cpd (fun _ => False) p m.

Lemma fork_page_spec p0 m0 ppd cpd di ti p m p' m' failed :
  pa_ok p0 -> space_owned p0 m0 ppd -> fork_state p0 m0 ppd cpd (di * 1024 + ti) p m -> 2 <= di < 1024 -> 0 <= ti < 1024 ->
  has_flag (dir_word m0 ppd di) VMM_PRESENT = true ->
  fork_page p m cpd (frame_of (dir_word m0 ppd di)) di ti = (p', m', failed) ->
  if failed then fork_failed p0 m0 ppd cpd p' m' else fork_state p0 m0 ppd cpd (di * 1024 + ti + 1) p' m'.
Proof.
  intros Hp0 Hsp [Hi Ha] Hdi Hti Hpde. set (v := di * 1024 + ti) in *.
  assert (Hv : 2048 <= v < 2 ^ 20) by lia.
  assert (Edi : v / 1024 = di) by (symmetry; apply Z.div_unique with (r := ti); lia).
  assert (Eti : v mod 1024 = ti) by (symmetry; apply Z.mod_unique with (q := di); lia).
  destruct (space_page_same p0 m0 m ppd v Hsp (fi_same _ _ _ _ _ _ _ Hi) Hv) as [Ed Ep]. rewrite Edi in Ed, Ep. specialize (Ep Hpde).
  assert (Epte : rd32 m (frame_of (dir_word m0 ppd di) + 4 * ti) = page_pte m0 ppd v).
  { rewrite <- Ep. unfold page_pte. by rewrite Edi, Eti, Ed. }
  unfold fork_page. rewrite Epte, page_virt by lia. fold v.
  assert (Hpp : page_present m0 ppd v = has_flag (page_pte m0 ppd v) VMM_PRESENT) by (unfold page_present; by rewrite Edi, Hpde).
  destruct (has_flag (page_pte m0 ppd v) VMM_PRESENT) eqn:Hpt; cbn [negb].
  2:{ intros [= <- <- <-]. split; [|exact Ha]. eapply fork_inv_skip; [exact Hi|lia|]. intros w Hw. by replace w with v by lia. }
  pose proof (pa_alloc_total p) as Htot. destruct (pa_alloc p) as [p1 a] eqn:Ea. cbn [fst] in Htot. pose proof Hi as [Hok _ _ Hfr Hsm _ _].
  apply pa_alloc_law in Ea; [|done]. destruct Ea as [(-> & -> & _)|(f & -> & Hf & Hp1 & Hfree)].
  { rewrite Z.eqb_refl. intros [= <- <- <-]. split; [by exists v|done]. }
  pose proof (pa_isfree_range p f Hok Hf) as Hfr2. replace (f * 4096 =? 0) with false by lia.
  assert (Eg : frame_of (page_pte m0 ppd v) = page_frame m0 ppd v * 4096).
  { unfold page_frame. rewrite frame_of_eq by apply rd32_range. by rewrite Z.div_mul by lia. }
  rewrite Eg. set (g := page_frame m0 ppd v) in *.
  assert (Hg0 : pa_isfree p0 g = false) by (apply (sw_data _ _ _ Hsp v Hv); by rewrite Hpp).
  assert (Hne : f <> g) by (intros ->; apply Hfr in Hf; congruence).
  assert (Hmono : forall q, pa_isfree p1 q = true -> pa_isfree p q = true) by (intros q; rewrite Hfree; by destruct (pa_isfree p q)).
  pose proof (fun p2 Hp2 => copy_into_free _ _ _ _ _ _ _ p2 f g Hi Hp2 Hf Hne) as Hcopy. cbn zeta in Hcopy.
  revert Hcopy. generalize (copy_words m (f * 4096) (g * 4096) 0 1024). intros m1 Hcopy.
  destruct (Hcopy p1 Hp1 Hmono) as (Hi1 & Hnp1 & Hc1 & Hl1 & Hpr1 & Hw1).
  assert (Ha1 : fork_pages p0 m0 ppd cpd (fun q => q = f) p1 m1).
  { apply (fork_pages_same p0 m0 ppd cpd (fun _ => False) _ p m); try done. intros q Hq. rewrite Hfree, Hq. cbn [andb]. lia. }
  assert (Hf1 : pa_isfree p1 f = false) by (rewrite Hfree, Z.eqb_refl; apply andb_false_r).
  destruct (vmm_map_user_page p1 m1 cpd (v * 4096) (f * 4096)) as [[p2 m2] r] eqn:Em.
  destruct (page_indices v ltac:(lia)) as (_ & _ & Hu32).
  pose proof Em as Em0. apply map_user_page_spec in Em; [|apply Hi1|apply Hi1|apply Hi1|done|unfold is_u32; lia].
  destruct Em as [(-> & _ & Hm & Hu2)|(Hr & -> & ->)].
  - cbn [negb Z.eqb]. intros [= <- <- <-]. split.
    2:{ refine (map_accounts p0 m0 ppd cpd v p1 m1 f _ _ Hp0 Hi1 Ha1 Hv _ (Hfr f Hf) Hf1 Hnp1 _ Em0 Hm); [by rewrite Edi|lia]. }
    eapply (map_copied p0 m0 ppd cpd v p1 m1 f); try done; [auto|lia|].
    intros o Ho. rewrite Hc1 by done. apply Hsm. intros Hx. rewrite in_page in Hx by done. subst g. congruence.
  - replace (r =? 0) with false by lia. cbn [negb]. intros [= <- <- <-].
    destruct (pa_free_law p1 f Hp1 ltac:(lia)) as [Hok1 Hfree1].
    assert (Hback : forall q, pa_isfree (pa_free p1 (f * 4096)) q = pa_isfree p q).
    { intros q. destruct (Z.eq_dec q f) as [->|Hqf].
      - rewrite Hf. apply pa_free_frees; [done|]. pose proof (pa_isfree_total p f Hf). lia.
      - rewrite Hfree1, Hfree by done. replace (q =? f) with false by lia. apply andb_true_r. }
    destruct (Hcopy (pa_free p1 (f * 4096)) Hok1) as (Hi2 & _ & _ & _); [intros q; by rewrite Hback|].
    split; [by exists v|]. apply (fork_pages_same p0 m0 ppd cpd (fun _ => False) _ p m); try done.
    + by rewrite pa_free_total.
    + intros q. by rewrite Hback.
    + intros q Hq. rewrite Hback. congruence.
Qed.

Lemma fork_table_spec p0 m0 ppd cpd di n : forall ti p m p' m' failed,
  pa_ok p0 -> space_owned p0 m0 ppd -> fork_state p0 m0 ppd cpd (di * 1024 + ti) p m -> 2 <= di < 1024 -> 0 <= ti ->
  ti + Z.of_nat n <= 1024 -> has_flag (dir_word m0 ppd di) VMM_PRESENT = true ->
  fork_table n p m cpd (frame_of (dir_word m0 ppd di)) di ti = (p', m', failed) ->
  if failed then fork_failed p0 m0 ppd cpd p' m' else fork_state p0 m0 ppd cpd (di * 1024 + ti + Z.of_nat n) p' m'.
Proof.
  induction n as [|n IH]; intros ti p m p' m' failed Hp0 Hsp Hi Hdi Hti Hn Hp; unfold fork_table; fold (@fork_table PA _).
  - intros [= <- <- <-]. by rewrite Z.add_0_r.
  - destruct (fork_page _ _ _ _ _ _) as [[p1 m1] f1] eqn:E.
    pose proof (fork_page_spec _ _ _ _ _ _ _ _ _ _ _ Hp0 Hsp Hi Hdi ltac:(lia) Hp E) as Hs. destruct f1.
    + intros [= <- <- <-]. done.
    + intros E2. apply IH in E2; try done; [|by rewrite Z.add_assoc|lia|lia].
      destruct failed; [done|]. by replace (di * 1024 + ti + Z.of_nat (S n)) with (di * 1024 + (ti + 1) + Z.of_nat n) by lia.
Qed.

Lemma fork_tables_spec p0 m0 ppd cpd n : forall di p m p' m' failed,
  pa_ok p0 -> space_owned p0 m0 ppd -> fork_state p0 m0 ppd cpd (di * 1024) p m -> 2 <= di -> di + Z.of_nat n <= 1024 ->
  fork_tables n p m cpd ppd di = (p', m', failed) ->
  if failed then fork_failed p0 m0 ppd cpd p' m' else fork_state p0 m0 ppd cpd ((di + Z.of_nat n) * 1024) p' m'.
Proof.
  induction n as [|n IH]; intros di p m p' m' failed Hp0 Hsp Hi Hdi Hn; unfold fork_tables; fold (@fork_tables PA _).
  - intros [= <- <- <-]. by rewrite Z.add_0_r.
  - destruct (space_page_same p0 m0 m ppd (di * 1024) Hsp (fi_same _ _ _ _ _ _ _ (proj1 Hi)) ltac:(lia)) as [Ed _].
    rewrite Z.div_mul in Ed by lia. change (rd32 m (ppd + 4 * di)) with (dir_word m ppd di). rewrite Ed.
    replace ((di + Z.of_nat (S n)) * 1024) with ((di + 1 + Z.of_nat n) * 1024) by lia.
    destruct (has_flag (dir_word m0 ppd di) VMM_PRESENT) eqn:Hp; cbn [negb].
    + destruct (fork_table _ _ _ _ _ _ _) as [[p1 m1] f1] eqn:E.
      apply fork_table_spec with (p0 := p0) (m0 := m0) (ppd := ppd) in E; try done; try lia; [|by rewrite Z.add_0_r].
      destruct f1; [intros [= <- <- <-]; done|]. replace (di * 1024 + 0 + Z.of_nat 1024) with ((di + 1) * 1024) in E by lia.
      apply IH; done || lia.
    + apply IH; [done|done| |lia|lia]. split; [|apply Hi]. eapply fork_inv_skip; [apply Hi|lia|].
      intros w Hw. unfold page_present. replace (w / 1024) with di by (apply Z.div_unique with (r := w - di * 1024); lia).
      by rewrite Hp.
Qed.

Lemma create_directory_total p m : pa_total (fst (fst (vmm_create_directory p m))) = pa_total p.
Proof.
  pose proof (pa_alloc_total p) as Ht. unfold vmm_create_directory. destruct (pa_alloc p) as [p1 a]. cbn [fst] in Ht.
  destruct (a =? 0); [exact Ht|]. destruct (0x800000 <=? a); cbn [fst]; [by rewrite pa_free_total|exact Ht].
Qed.

(** Starting from the new directory. *)
Lemma fork_inv_start p0 m0 ppd p m cpd :
  pa_ok p0 -> kernel_dir_ok p0 m0 -> vmm_create_directory p0 m0 = (p, m, cpd) -> cpd <> 0 ->
  fork_state p0 m0 ppd cpd 2048 p m.
Proof.
  intros Hp Hk E Hne. destruct (create_directory_words _ _ _ _ _ Hp Hk E Hne) as (k & Ek & Hkr & Hkf & _ & Hfree & _ & Hw).
  destruct (create_directory_ok _ _ _ _ _ Hp Hk E Hne) as (Hok & Hd & Hu & Hs & Hl).
  assert (Hnt : forall di, 2 <= di < 1024 -> has_flag (dir_word m cpd di) VMM_PRESENT = false).
  { intros di Hdi. rewrite Hw by lia. by replace (di <? 2) with false by lia. }
  assert (Hnp : forall w, 2048 <= w < 2 ^ 20 -> page_present m cpd w = false).
  { intros w Hwr. unfold page_present. rewrite Hnt; [done|]. Z.to_euclidean_division_equations; lia. }
  split; split; try done.
  - intros q. rewrite Hfree. by destruct (pa_isfree p0 q).
  - eapply same_outside_mono; [|exact Hs]. cbv beta. tauto.
  - intros q [->|(di & Hdi & Hx & ->)]; [subst cpd; by rewrite Z.div_mul by lia|]. by rewrite Hnt in Hx.
  - intros w Hw2. replace (w <? 2048) with false by lia. cbn [andb].
    apply Hl. by apply page_indices; lia.
  - pose proof (create_directory_total p0 m0) as Ht. by rewrite E in Ht.
  - intros q Hq. rewrite Hfree, Hq. cbn [andb]. intros Eq. right. left. left. subst cpd. rewrite Z.div_mul by lia. lia.
  - intros w Hwr. by rewrite Hnp.
  - intros di Hdi. by rewrite Hnt.
Qed.

(** *** Giving the pages back *)

(** The directory entries of the tables of user pages. *)
Definition dir_tables m (pd : Z) : list Z := filter (fun di => has_flag (dir_word m pd di) VMM_PRESENT = true) (seqZ 2 1022).

(** The free pages are those of [p0] but for some pages, no more than the
    parent has page tables. *)
Definition only_tables_lost p0 m0 (ppd : Z) p : Prop :=
  exists lost, NoDup lost /\ (length lost <= length (dir_tables m0 ppd))%nat /\
    forall q, pa_isfree p q = pa_isfree p0 q && negb (bool_decide (q ∈ lost)).

(** A page that can be freed. *)
Definition freeable p (f : Z) : Prop := 0 < f < 2048 /\ f < pa_total p.

Lemma free_one p e : pa_ok p -> is_u32 e -> freeable p (frame_of e / 4096) ->
  let p' := pa_free p (frame_of e) in
  pa_ok p' /\ pa_total p' = pa_total p /\ forall q, pa_isfree p' q = true <-> pa_isfree p q = true \/ frame_of e / 4096 = q.
Proof.
  intros Hp He [H1 H2]. cbn zeta. assert (E : frame_of e = frame_of e / 4096 * 4096).
  { rewrite frame_of_eq, Z.div_mul by (done || lia). done. }
  rewrite E, Z.div_mul by lia. set (f := frame_of e / 4096) in *. clearbody f.
  destruct (pa_free_law p f Hp ltac:(lia)) as [Hok Ho]. split_and!; [done|apply pa_free_total|]. intros q. destruct (Z.eq_dec q f) as [->|Hne].
  - rewrite pa_free_frees by (done || lia). naive_solver.
  - rewrite Ho by done. split; [by left|]. intros [?| ->]; done.
Qed.

Lemma free_table_spec m pt n : forall ti p, pa_ok p ->
  (forall j, ti <= j < ti + Z.of_nat n -> has_flag (rd32 m (pt + 4 * j)) VMM_PRESENT = true -> freeable p (frame_of (rd32 m (pt + 4 * j)) / 4096)) ->
  let p' := free_table n p m pt ti in
  pa_ok p' /\ pa_total p' = pa_total p /\ forall q, pa_isfree p' q = true <-> pa_isfree p q = true \/
    exists j, ti <= j < ti + Z.of_nat n /\ has_flag (rd32 m (pt + 4 * j)) VMM_PRESENT = true /\ frame_of (rd32 m (pt + 4 * j)) / 4096 = q.
Proof.
  induction n as [|n IH]; intros ti p Hp Hf; cbn zeta; unfold free_table; fold (@free_table PA _).
  { split_and!; [done|done|]. intros q. split; [by left|]. intros [?|(j & Hj & _)]; [done|lia]. }
  set (e := rd32 m (pt + 4 * ti)) in *. set (p1 := if has_flag e VMM_PRESENT then _ else _).
  assert (H1 : pa_ok p1 /\ pa_total p1 = pa_total p /\ forall q, pa_isfree p1 q = true <-> pa_isfree p q = true \/ (has_flag e VMM_PRESENT = true /\ frame_of e / 4096 = q)).
  { subst p1. destruct (has_flag e VMM_PRESENT) eqn:E.
    - destruct (free_one p e Hp (rd32_range _ _)) as (? & ? & Hq); [apply Hf; [lia|done]|]. split_and!; [done|done|]. intros q. rewrite Hq. tauto.
    - split_and!; [done|done|]. intros q. split; [by left|]. intros [?|[? _]]; done. }
  clearbody p1. destruct H1 as (Hp1 & Ht1 & Hq1). destruct (IH (ti + 1) p1 Hp1) as (Hp2 & Ht2 & Hq2).
  { intros j Hj Hpr. unfold freeable. rewrite Ht1. apply Hf; [lia|done]. }
  split_and!; [done|congruence|]. intros q. rewrite Hq2, Hq1. split.
  - intros [[?|[? ?]]|(j & ? & ? & ?)]; [by left|right; exists ti; split_and!; done || lia|right; exists j; split_and!; done || lia].
  - intros [?|(j & Hj & ? & ?)]; [by left; left|]. destruct (Z.eq_dec j ti) as [->|]; [by left; right|right; exists j; split_and!; done || lia].
Qed.

Lemma free_tables_spec m pd n : forall di p, pa_ok p -> 0 <= di ->
  (forall w, di * 1024 <= w < (di + Z.of_nat n) * 1024 -> page_present m pd w = true -> freeable p (page_frame m pd w)) ->
  let p' := free_tables n p m pd di in
  pa_ok p' /\ pa_total p' = pa_total p /\ forall q, pa_isfree p' q = true <-> pa_isfree p q = true \/
    exists w, di * 1024 <= w < (di + Z.of_nat n) * 1024 /\ page_present m pd w = true /\ page_frame m pd w = q.
Proof.
  induction n as [|n IH]; intros di p Hp Hd Hf; cbn zeta; unfold free_tables; fold (@free_tables PA _).
  { split_and!; [done|done|]. intros q. split; [by left|]. intros [?|(j & Hj & _)]; [done|lia]. }
  change (rd32 m (pd + 4 * di)) with (dir_word m pd di). set (e := dir_word m pd di) in *.
  assert (Hpg : forall j, 0 <= j < 1024 -> page_present m pd (di * 1024 + j) = has_flag e VMM_PRESENT && has_flag (rd32 m (frame_of e + 4 * j)) VMM_PRESENT /\
    page_frame m pd (di * 1024 + j) = frame_of (rd32 m (frame_of e + 4 * j)) / 4096).
  { intros j Hj. unfold page_present, page_frame, page_pte.
    replace ((di * 1024 + j) / 1024) with di by (apply Z.div_unique with (r := j); lia).
    replace ((di * 1024 + j) mod 1024) with j by (apply Z.mod_unique with (q := di); lia). done. }
  set (p1 := if has_flag e VMM_PRESENT then _ else _).
  assert (H1 : pa_ok p1 /\ pa_total p1 = pa_total p /\ forall q, pa_isfree p1 q = true <-> pa_isfree p q = true \/
    exists j, 0 <= j < 1024 /\ page_present m pd (di * 1024 + j) = true /\ page_frame m pd (di * 1024 + j) = q).
  { subst p1. destruct (has_flag e VMM_PRESENT) eqn:E.
    - destruct (free_table_spec m (frame_of e) 1024 0 p Hp) as (? & ? & Hq).
      { intros j Hj Hpr. destruct (Hpg j ltac:(lia)) as [E1 <-]. apply Hf; [lia|]. by rewrite E1, Hpr. }
      split_and!; [done|done|]. intros q. rewrite Hq. f_equiv. f_equiv. intros j.
      split; intros (Hj & Hx & Hy); (destruct (Hpg j ltac:(lia)) as [E1 E2]); rewrite E1, E2 in *; [by split_and!; [lia|lia|..]|].
      cbn [andb] in *. split_and!; done || lia.
    - split_and!; [done|done|]. intros q. split; [by left|]. intros [?|(j & Hj & Hx & _)]; [done|]. destruct (Hpg j Hj) as [E1 _]. by rewrite E1 in Hx. }
  clearbody p1. destruct H1 as (Hp1 & Ht1 & Hq1). destruct (IH (di + 1) p1 Hp1 ltac:(lia)) as (Hp2 & Ht2 & Hq2).
  { intros w Hw Hpr. unfold freeable. rewrite Ht1. apply Hf; [lia|done]. }
  split_and!; [done|congruence|]. intros q. rewrite Hq2, Hq1. split.
  - intros [[?|(j & ? & ? & ?)]|(w & ? & ? & ?)]; [by left|right; exists (di * 1024 + j); split_and!; done || lia|right; exists w; split_and!; done || lia].
  - intros [?|(w & Hw & ? & ?)]; [by left; left|]. destruct (Z_lt_le_dec w ((di + 1) * 1024)).
    + left. right. exists (w - di * 1024). replace (di * 1024 + (w - di * 1024)) with w by lia. split_and!; done || lia.
    + right. exists w. split_and!; done || lia.
Qed.

(** The unwinding gives everything back but the page tables. *)
Lemma fork_freed p0 m0 ppd cpd p m : pa_ok p0 -> fork_failed p0 m0 ppd cpd p m ->
  pa_ok (fork_free_address_space p m cpd) /\ only_tables_lost p0 m0 ppd (fork_free_address_space p m cpd).
Proof.
  intros Hp0 [(v & Hi) [Ht Hn Hf Htb]]. pose proof (fi_dir _ _ _ _ _ _ _ Hi) as [(k & Ek & Hk & Hkf) Hdt Hdi _].
  destruct (free_tables_spec m cpd 1022 2 p (fi_ok _ _ _ _ _ _ _ Hi) ltac:(lia)) as (Hp1 & Ht1 & Hq1).
  { intros w Hw Hpr. destruct (Hf w ltac:(lia) Hpr) as (F1 & _). split; [by apply (pa_isfree_range p0)|]. rewrite Ht. by apply pa_isfree_total. }
  unfold fork_free_address_space. set (p1 := free_tables 1022 p m cpd 2) in *. clearbody p1.
  assert (Hk0 : pa_isfree p0 k = true) by (apply (fi_private _ _ _ _ _ _ _ Hi); left; subst cpd; by rewrite Z.div_mul by lia).
  destruct (pa_free_law p1 k Hp1 ltac:(lia)) as [Hp2 Ho]. rewrite Ek. split; [done|].
  assert (Hin : forall di, di ∈ dir_tables m cpd <-> 2 <= di < 1024 /\ has_flag (dir_word m cpd di) VMM_PRESENT = true)
    by (intros di; unfold dir_tables; rewrite list_elem_of_filter, elem_of_seqZ; split; intros [? ?]; split; done || lia).
  assert (Hnd : forall m pd, NoDup (dir_tables m pd)) by (intros; apply NoDup_filter, NoDup_seqZ).
  exists (table_page m cpd <$> dir_tables m cpd). split_and!.
  - apply NoDup_fmap_2_strong; [|apply Hnd]. intros di dj [? ?]%Hin [? ?]%Hin. apply Hdi; done || lia.
  - rewrite length_fmap. apply submseteq_length, NoDup_submseteq; [apply Hnd|]. intros di [Hd Hx]%Hin. unfold dir_tables.
    apply list_elem_of_filter. split; [by apply Htb|]. apply elem_of_seqZ. lia.
  - intros q. assert (Hl : q ∈ table_page m cpd <$> dir_tables m cpd <-> exists di, 2 <= di < 1024 /\ has_flag (dir_word m cpd di) VMM_PRESENT = true /\ q = table_page m cpd di).
    { rewrite list_elem_of_fmap. split; [intros (di & -> & [? ?]%Hin); eauto|intros (di & ? & ? & ->)]. exists di. by rewrite Hin. }
    assert (Hlf : q ∈ table_page m cpd <$> dir_tables m cpd -> pa_isfree p q = false /\ q <> k /\ private_page m cpd q).
    { intros (di & Hd & Hx & ->)%Hl. destruct (Hdt di ltac:(lia) Hx) as [Hc Hfr]. split_and!; [done| |right; eauto]. subst cpd. by rewrite Z.div_mul in Hc by lia. }
    apply eq_bool_prop_intro. rewrite andb_True, negb_True, bool_decide_spec, !Is_true_true.
    assert (Hq : pa_isfree (pa_free p1 (k * 4096)) q = true <-> q = k \/ pa_isfree p1 q = true).
    { destruct (Z.eq_dec q k) as [->|Hne]; [|rewrite Ho by done; tauto]. split; [by left|]. intros _. apply pa_free_frees; [done|].
      rewrite Ht1, Ht. split; [lia|by apply pa_isfree_total]. }
    rewrite Hq, Hq1. split.
    + intros [->|[Hx|(w & Hw & Hx & <-)]].
      * split; [done|]. intros (_ & ? & _)%Hlf. done.
      * split; [by apply (fi_free _ _ _ _ _ _ _ Hi)|]. intros (? & _)%Hlf. congruence.
      * destruct (Hf w ltac:(lia) Hx) as (F1 & F2 & F3 & _). split; [done|]. intros (_ & _ & ?)%Hlf. done.
    + intros [Hx Hy]. destruct (pa_isfree p q) eqn:E; [by right; left|]. destruct (Hn q Hx E) as [[]|[[->|(di & Hd & Hz & ->)]|(w & Hw & Hz & Hw2)]].
      * left. subst cpd. by rewrite Z.div_mul by lia.
      * destruct Hy. apply Hl. eauto.
      * right. right. exists w. split_and!; done || lia.
Qed.
End fork_lemmas.

(** ** The table and the stack *)

Lemma fork_claim_Some t t' i :
  table_ok t -> next_pid t < 2 ^ 32 - 1 -> fork_claim t = (t', Some i) ->
  0 <= i < 16 /\ state_of t i = PROCESS_UNUSED /\ (forall j, 0 <= j < i -> state_of t j <> PROCESS_UNUSED) /\
  table_ok t' /\ current_process t' = current_process t /\ next_pid t' = next_pid t + 1 /\
  slot t' i = set_state PROCESS_BLOCKED (set_pid (next_pid t) (slot t i)) /\
  forall j, 0 <= j < 16 -> j <> i -> slot t' j = slot t j.
Proof.
  intros Ht Hn. unfold fork_claim. destruct (find_from _ _ _) as [k|] eqn:Ef; [|done].
  apply find_from_Some in Ef as (Hk & Hu & Hlt). apply state_eqb_eq in Hu. cbn [alloc_pid]. intros [= <- <-].
  pose proof (to_next _ Ht). rewrite u32_small by lia.
  set (t1 := mk_ptable (process_table t) (current_process t) (next_pid t + 1)).
  assert (Hl1 : has16 t1) by apply Ht. change (slot t) with (slot t1).
  set (t2 := upd t1 k (set_pid (next_pid t))).
  assert (Es : forall j, 0 <= j -> slot (upd t2 k (set_state PROCESS_BLOCKED)) j =
    if k =? j then set_state PROCESS_BLOCKED (set_pid (next_pid t) (slot t1 k)) else slot t1 j).
  { intros j Hj. rewrite slot_upd by (lia || by apply upd_has16). subst t2. rewrite !slot_upd by (done || lia).
    rewrite Z.eqb_refl. by destruct (k =? j). }
  split_and!; try done; try lia.
  - intros j Hj. apply state_eqb_ne, Hlt. lia.
  - apply (table_ok_claim t _ k); try done; try lia.
    + by apply upd_has16, upd_has16.
    + by rewrite Es, Z.eqb_refl by lia.
    + unfold state_of. by rewrite Es, Z.eqb_refl by lia.
    + intros j Hj Hne. rewrite Es by lia. by replace (k =? j) with false by lia.
  - by rewrite Es, Z.eqb_refl by lia.
  - intros j Hj Hne. rewrite Es by lia. by replace (k =? j) with false by lia.
Qed.

Lemma copy_frame_out m a ws x : x < a \/ a + 4 * zlen ws <= x -> rd8 (copy_frame m a ws) x = rd8 m x.
Proof.
  unfold zlen. revert m a; induction ws as [|w ws IH]; intros m a Hx; cbn [copy_frame length] in *; [done|].
  rewrite IH by lia. apply rd8_wr32_ne. lia.
Qed.

Lemma copy_frame_in m a ws j w :
  ws !! j = Some w -> is_u32 w -> rd32 (copy_frame m a ws) (a + 4 * Z.of_nat j) = w.
Proof.
  revert m a j; induction ws as [|v ws IH]; intros m a j; [done|]. cbn [copy_frame]. destruct j as [|j]; cbn.
  - intros [= ->] Hw. rewrite Z.add_0_r. erewrite rd32_same; [rewrite rd32_wr32_eq; by apply u32_small|].
    intros i Hi. apply copy_frame_out. lia.
  - intros Hl Hw. replace (a + 4 * Z.of_nat (S j)) with (a + 4 + 4 * Z.of_nat j) by lia. by apply IH.
Qed.

(** The fabricated stack, from its pointer up: the frame [context_switch]
    pops, returning to [isr128_resume], then the trap frame. *)
Lemma fork_stack_spec m stk isr frame m' esp :
  is_u32 isr -> length frame = 13%nat -> Forall is_u32 frame -> fork_stack m stk isr frame = (m', esp) ->
  esp = stk + PROCESS_STACK_SIZE - 72 /\ initial_frame m' esp isr /\
  (forall j w, frame !! j = Some w -> rd32 m' (esp + 20 + 4 * Z.of_nat j) = w) /\
  forall x, x < esp \/ esp + 72 <= x -> rd8 m' x = rd8 m x.
Proof.
  intros Hi Hl Hf. unfold fork_stack, stack_push. rewrite take_ge by lia. set (top := stk + PROCESS_STACK_SIZE).
  intros [= <- <-]. set (e := top - 4 * 13 - 4 - 4 - 4 - 4 - 4).
  replace (top - 4 * 13 - 4 - 4 - 4 - 4) with (e + 4) by lia. replace (top - 4 * 13 - 4 - 4 - 4) with (e + 8) by lia.
  replace (top - 4 * 13 - 4 - 4) with (e + 12) by lia. replace (top - 4 * 13 - 4) with (e + 16) by lia.
  replace (top - 4 * 13) with (e + 20) by lia. assert (He : e = top - 72) by lia. clearbody e. unfold initial_frame.
  split_and!; try done.
  1-5: repeat (rewrite rd32_wr32_eq || rewrite rd32_wr32_ne by lia); done || by apply u32_small.
  - intros j w Hj. assert (0 <= Z.of_nat j < 13) by (apply lookup_lt_Some in Hj; lia).
    rewrite !rd32_wr32_ne by lia. apply copy_frame_in; [done|]. rewrite Forall_lookup in Hf. by apply (Hf j).
  - intros x Hx. rewrite !rd8_wr32_ne by lia. apply copy_frame_out. unfold zlen. lia.
Qed.

(** *** Both outcomes of [process_fork] *)

Section fork_outcomes.
Context {PA : Type} `{PageAllocator PA}.
Variables process_stacks isr128_resume : Z.

(** The kernel stack of slot [i]; the stacks are static memory, so none of their
    bytes is in a free page. *)
Definition in_stack (i x : Z) : Prop := stack_of process_stacks i <= x < stack_of process_stacks i + PROCESS_STACK_SIZE.
Definition stacks_ok (p : PA) : Prop := forall i x, 0 <= i < 16 -> in_stack i x -> pa_isfree p (x / 4096) = false.

Record forked (t : ptable) (p : PA) (m : mem) (par : Z) (frame : list Z) (t' : ptable) (p' : PA) (m' : mem) (i : Z) : Prop := {
  fk_table : table_ok t';
  fk_slot : 0 <= i < 16 /\ state_of t i = PROCESS_UNUSED;
  fk_ready : state_of t' i = PROCESS_READY;
  fk_pid : p_pid (slot t' i) = next_pid t;
  fk_same : forall j, 0 <= j < 16 -> j <> i -> slot t' j = slot t j;
  fk_fields : p_user_esp (slot t' i) = p_user_esp (slot t par) /\ p_cwd_cluster (slot t' i) = p_cwd_cluster (slot t par) /\
    p_stdin_redirect (slot t' i) = p_stdin_redirect (slot t par) /\
    p_stdout_redirect (slot t' i) = p_stdout_redirect (slot t par) /\ p_waiting_for_pid (slot t' i) = 0;
  fk_dir : dir_ok p' m' (p_cr3 (slot t' i));
  fk_pages : forall w, 2048 <= w < 2 ^ 20 ->
    if page_present m (p_cr3 (slot t par)) w then copied p m (p_cr3 (slot t par)) p' m' (p_cr3 (slot t' i)) w
    else vmm_get_user_phys_from_dir m' (p_cr3 (slot t' i)) (w * 4096) = 0;
  fk_mem : forall x, pa_isfree p (x / 4096) = false -> ~ in_stack i x -> rd8 m' x = rd8 m x;
  fk_stack : initial_frame m' (p_esp (slot t' i)) isr128_resume /\
    forall j w, frame !! j = Some w -> rd32 m' (p_esp (slot t' i) + 20 + 4 * Z.of_nat j) = w
}.

Record fork_undone (t : ptable) (p : PA) (m : mem) (par : Z) (t' : ptable) (p' : PA) (m' : mem) : Prop := {
  fu_table : table_ok t';
  fu_alloc : pa_ok p';
  fu_pages : only_tables_lost p m (p_cr3 (slot t par)) p';
  fu_used : forall j, used t j -> slot t' j = slot t j;
  fu_unused : forall j, 0 <= j < 16 -> state_of t j = PROCESS_UNUSED -> state_of t' j = PROCESS_UNUSED;
  fu_mem : same_outside m m' (fun k => pa_isfree p k = true)
}.

(** A stack write keeps everything known about the child. *)
Lemma fork_inv_stack p0 m0 ppd cpd v p m m' i :
  fork_inv p0 m0 ppd cpd v p m -> (forall x, in_stack i x -> pa_isfree p0 (x / 4096) = false) ->
  (forall x, ~ in_stack i x -> rd8 m' x = rd8 m x) ->
  dir_ok p m' cpd /\ forall w, 2048 <= w < 2 ^ 20 ->
    if (w <? v) && page_present m0 ppd w then copied p0 m0 ppd p m' cpd w
    else vmm_get_user_phys_from_dir m' cpd (w * 4096) = 0.
Proof.
  intros Hi Hnf Hst. set (in_pages := fun k => exists x, in_stack i x /\ x / 4096 = k). pose proof Hi as [Hok Hd Hu Hfr Hsm Hpr Hpg].
  assert (Hs : same_outside m m' in_pages) by (intros x Hx; apply Hst; intros Hin; apply Hx; by exists x).
  assert (Hkf : forall k, in_pages k -> pa_isfree p0 k = false) by (intros k (x & Hx & <-); by apply Hnf).
  assert (Hkp : forall k, private_page m cpd k -> ~ in_pages k) by (intros k Hx Hy; apply Hpr in Hx; apply Hkf in Hy; congruence).
  destruct (words_same p m m' cpd in_pages Hd Hs (Hkp _ (or_introl eq_refl))) as [Hw Hpriv].
  split; [by eapply dir_ok_same; [exact Hw| |exact Hd]|].
  intros w Hwr. specialize (Hpg w Hwr). destruct (page_indices w ltac:(lia)) as (Edi & Eti & Hu32).
  pose proof (dir_index_range _ Hu32) as Hdr.
  assert (El : lookup_same m m' cpd (w * 4096)).
  { apply lookup_same_words; [by apply Hw|]. intros Hp. rewrite pte_addr_page. pose proof (table_index_range (w * 4096)).
    eapply same_outside_rd32; [exact Hs|apply in_page_aligned, quad_aligned|]. rewrite in_page by lia.
    apply Hkp. right. exists (dir_index (w * 4096)). split_and!; [|lia|done|done].
    rewrite Edi. Z.to_euclidean_division_equations; lia. }
  destruct El as [_ El]. destruct ((w <? v) && _); [|by rewrite El].
  destruct Hpg as (f & Hf0 & Hf1 & Hfp & Hfl & Hfc). exists f. split_and!; try done.
  - by rewrite Hpriv.
  - by rewrite El.
  - intros o Ho. rewrite <- Hfc by done. apply Hs. rewrite in_page by done. intros Hx%Hkf. congruence.
Qed.

Lemma fork_release_ok t i :
  table_ok t -> 0 <= i < 16 ->
  table_ok (fork_release t i) /\ state_of (fork_release t i) i = PROCESS_UNUSED /\
  forall j, 0 <= j < 16 -> j <> i -> slot (fork_release t i) j = slot t j.
Proof.
  intros Ht Hi. unfold fork_release.
  assert (E0 : slot (upd t i (set_state PROCESS_UNUSED)) i = set_state PROCESS_UNUSED (slot t i)).
  { rewrite slot_upd, Z.eqb_refl by (lia || apply Ht). done. }
  assert (Hl : has16 (upd t i (set_state PROCESS_UNUSED))) by (apply upd_has16, Ht).
  split_and!.
  - apply table_ok_upd; [apply table_ok_upd; [done|done|by right|by left|done]|done|..]; rewrite E0; [by right|by left|done].
  - unfold state_of. rewrite slot_upd, Z.eqb_refl, E0 by (done || lia). done.
  - intros j Hj Hne. rewrite slot_upd by (done || lia). replace (i =? j) with false by lia.
    rewrite slot_upd by (lia || apply Ht). by replace (i =? j) with false by lia.
Qed.

Lemma create_directory_none (p : PA) m p1 m1 : pa_ok p -> vmm_create_directory p m = (p1, m1, 0) -> p1 = p /\ m1 = m.
Proof.
  intros Hp. unfold vmm_create_directory. destruct (pa_alloc p) as [q a] eqn:Ea. apply pa_alloc_law in Ea; [|done].
  destruct Ea as [(-> & -> & _)|(k & -> & Hf & _)]; [by intros [= <- <-]|].
  pose proof (pa_isfree_range p k Hp Hf). replace (k * 4096 =? 0) with false by lia.
  replace (0x800000 <=? k * 4096) with false by lia. intros E. apply (f_equal snd) in E. cbn [snd] in E. lia.
Qed.

Lemma nothing_lost (p : PA) m ppd : only_tables_lost p m ppd p.
Proof. exists []. split_and!; [constructor|cbn; lia|]. intros q. by rewrite andb_true_r. Qed.

Lemma fork_claim_None t t' : fork_claim t = (t', None) -> t' = t.
Proof. unfold fork_claim. destruct (find_from _ _ _); [by cbn|]. by intros [= <-]. Qed.

Lemma process_fork_spec t p m par frame t' p' m' r :
  table_ok t -> next_pid t < 2 ^ 32 - 1 -> used t par -> pa_ok p -> kernel_dir_ok p m ->
  space_owned p m (p_cr3 (slot t par)) -> stacks_ok p -> is_u32 isr128_resume ->
  length frame = 13%nat -> Forall is_u32 frame ->
  process_fork process_stacks isr128_resume t p m (Some par) (Some frame) = (t', p', m', r) ->
  match r with
  | Some i => forked t p m par frame t' p' m' i
  | None => fork_undone t p m par t' p' m'
  end.
Proof.
  intros Ht Hn [Hpar Hpu] Hp Hk Hsp Hsf Hisr Hfl Hff. unfold process_fork.
  destruct (fork_claim t) as [t1 [i|]] eqn:Ec.
  2:{ apply fork_claim_None in Ec. subst t1. intros [= <- <- <- <-]. split; try done. apply nothing_lost. }
  destruct (fork_claim_Some t t1 i Ht Hn Ec) as (Hi & Hu & _ & Ht1 & Ecur & En & Es & Eo).
  assert (Hne : par <> i) by congruence.
  rewrite (Eo par Hpar Hne). set (ppd := p_cr3 (slot t par)) in *.
  set (ch := fork_fields process_stacks (slot t par) (slot t1 i) i).
  assert (Hst1 : state_of t1 i = PROCESS_BLOCKED) by (unfold state_of; by rewrite Es).
  set (t2 := upd t1 i _). assert (Es2 : slot t2 i = ch) by (subst t2; rewrite slot_upd, Z.eqb_refl by (lia || apply Ht1); done).
  assert (Eo2 : forall j, 0 <= j < 16 -> j <> i -> slot t2 j = slot t j).
  { intros j Hj Hji. subst t2. rewrite slot_upd by (lia || apply Ht1). replace (i =? j) with false by lia. by apply Eo. }
  assert (Ht2 : table_ok t2).
  { apply table_ok_upd; [done|done|left; by rewrite Hst1|by right|]. cbn. fold (state_of t1 i). by rewrite Hst1. }
  assert (Hst2 : state_of t2 i = PROCESS_BLOCKED) by (unfold state_of; rewrite Es2; exact Hst1).
  rewrite (Eo2 par Hpar Hne). fold ppd. clearbody t2.
  destruct (fork_release_ok t2 i Ht2 Hi) as (Hrt & Hru & Hro).
  assert (Hundo : forall p'' m'', pa_ok p'' -> only_tables_lost p m ppd p'' -> same_outside m m'' (fun k => pa_isfree p k = true) ->
    fork_undone t p m par (fork_release t2 i) p'' m'').
  { intros p'' m'' Hok Hlost Hs. split; [done|done|done| | |done].
    - intros j [Hj Huj]. assert (j <> i) by congruence. rewrite Hro by done. by apply Eo2.
    - intros j Hj Huj. destruct (Z.eq_dec j i) as [->|]; [done|]. unfold state_of in *. rewrite Hro, Eo2 by done. done. }
  destruct (vmm_create_directory p m) as [[p1 m1] cpd] eqn:Ecd.
  destruct (Z.eqb_spec cpd 0) as [->|Hcpd].
  { intros [= <- <- <- <-]. destruct (create_directory_none p m p1 m1 Hp Ecd) as [-> ->].
    apply Hundo; [done|apply nothing_lost|apply same_outside_refl]. }
  pose proof (fork_inv_start p m ppd p1 m1 cpd Hp Hk Ecd Hcpd) as Hi1.
  destruct (fork_tables 1022 p1 m1 cpd ppd 2) as [[p2 m2] failed] eqn:Eft.
  pose proof (fork_tables_spec p m ppd cpd 1022 2 p1 m1 p2 m2 failed Hp Hsp Hi1 ltac:(lia) ltac:(lia) Eft) as Hres.
  destruct failed.
  { intros [= <- <- <- <-]. destruct (fork_freed _ _ _ _ _ _ Hp Hres) as [Hok Hlost]. destruct Hres as [(v & Hv) _].
    apply Hundo; [done|done|apply Hv]. }
  destruct Hres as [Hres _].
  change ((2 + Z.of_nat 1022) * 1024) with (2 ^ 20) in Hres.
  destruct (fork_stack m2 (stack_of process_stacks i) isr128_resume frame) as [m3 esp] eqn:Efs.
  destruct (fork_stack_spec _ _ _ _ _ _ Hisr Hfl Hff Efs) as (Hesp & Hif & Hfw & Hout).
  assert (Hs3 : forall x, ~ in_stack i x -> rd8 m3 x = rd8 m2 x).
  { intros x Hx. apply Hout. rewrite Hesp. unfold in_stack, PROCESS_STACK_SIZE in *. lia. }
  destruct (fork_inv_stack p m ppd cpd (2 ^ 20) p2 m2 m3 i Hres (fun x => Hsf i x Hi) Hs3) as [Hd3 Hpg3].
  intros [= <- <- <- <-].
  set (t5 := upd (upd (upd t2 i (set_cr3 cpd)) i (set_esp esp)) i (set_state PROCESS_READY)).
  assert (Hl2 : has16 t2) by apply Ht2.
  assert (Es5 : slot t5 i = set_state PROCESS_READY (set_esp esp (set_cr3 cpd ch))).
  { subst t5. rewrite slot_upd, Z.eqb_refl by (lia || (do 2 apply upd_has16; done)).
    rewrite slot_upd, Z.eqb_refl by (lia || by apply upd_has16). by rewrite slot_upd, Z.eqb_refl, Es2 by (lia || done). }
  assert (Eo5 : forall j, 0 <= j < 16 -> j <> i -> slot t5 j = slot t j).
  { intros j Hj Hji. subst t5. assert (Eij : (i =? j) = false) by lia.
    rewrite slot_upd, Eij by (lia || (do 2 apply upd_has16; done)).
    rewrite slot_upd, Eij by (lia || by apply upd_has16). rewrite slot_upd, Eij by (lia || done). by apply Eo2. }
  assert (Ht5 : table_ok t5).
  { apply (table_ok_shrink t2); [done|subst t5; do 3 apply upd_has16; done|done|apply Ht2| |].
    - intros j [Hj Huj]. destruct (Z.eq_dec j i) as [->|Hji].
      + rewrite Es5, Es2. split; [split; [done|by rewrite Hst2]|done].
      + unfold used, state_of in *. rewrite Eo5 in * by done. rewrite Eo2 by done. done.
    - intros j Hj Hr. destruct (Z.eq_dec j i) as [->|Hji]; [unfold state_of in Hr; by rewrite Es5 in Hr|].
      apply (to_running _ Ht2 j Hj). unfold state_of in *. rewrite Eo5 in Hr by done. by rewrite Eo2 by done. }
  clearbody t5. split; rewrite ?Es5; try done.
  - unfold state_of. by rewrite Es5.
  - subst ch. cbn. by rewrite Es.
  - intros w Hw. specialize (Hpg3 w Hw). replace (w <? 2 ^ 20) with true in Hpg3 by lia. exact Hpg3.
  - intros x Hx Hin. rewrite Hs3 by done. apply (fi_same _ _ _ _ _ _ _ Hres). congruence.
Qed.
End fork_outcomes.

(** ** Address spaces built by the kernel are owned *)

Section owned.
Context {PA : Type} `{PageAllocator PA}.
Implicit Types (p : PA) (m : mem).

Lemma phys_lookup_page m pd w : 0 <= w < 2 ^ 20 ->
  vmm_get_phys_from_dir m pd (w * 4096) = if page_present m pd w then page_frame m pd w * 4096 else 0.
Proof. intros Hw. rewrite <- (Z.add_0_r (w * 4096)), phys_lookup_at by lia. by rewrite Z.add_0_r. Qed.

Lemma page0_not_free p : pa_ok p -> pa_isfree p 0 = false.
Proof. intros Hp. destruct (pa_isfree p 0) eqn:E; [|done]. apply pa_isfree_range in E; [lia|done]. Qed.

Lemma space_owned_fresh p p' m m' pd :
  pa_ok p -> kernel_dir_ok p m -> vmm_create_directory p m = (p', m', pd) -> pd <> 0 -> space_owned p' m' pd.
Proof.
  intros Hp Hk E Hne. destruct (create_directory_ok _ _ _ _ _ Hp Hk E Hne) as (Hp' & Hd & _ & _ & Hl).
  split; [done|]. intros w Hw Hpr. destruct (page_indices w ltac:(lia)) as (_ & _ & Hu).
  destruct (Hl _ Hu) as [_ El]. rewrite phys_lookup_page, Hpr in El by lia. replace (w * 4096 <? 0x800000) with false in El by lia.
  replace (page_frame m' pd w) with 0 by lia. by apply page0_not_free.
Qed.

Lemma space_owned_mapped p m pd v f p' m' :
  space_owned p m pd -> pa_ok p -> 2048 <= v < 2 ^ 20 -> mapped p m pd (v * 4096) (f * 4096) p' m' -> pa_isfree p' f = false ->
  space_owned p' m' pd.
Proof.
  intros [Hd Hs] Hp Hv Hm Hf. destruct Hm as [Mok Md Mp Mo _ Mf _ _]. split; [done|]. intros w Hw Hpr.
  destruct (page_indices w ltac:(lia)) as (_ & _ & Hu). pose proof (phys_lookup_page m' pd w ltac:(lia)) as E'. rewrite Hpr in E'.
  destruct (Z.eq_dec w v) as [->|Hne].
  - destruct (Mp (v * 4096) eq_refl) as [_ E]. rewrite E' in E. rewrite Z.div_mul, Z.mod_mul in E by lia.
    by replace (page_frame m' pd v) with f by lia.
  - assert (Hnp : w * 4096 / 4096 <> v * 4096 / 4096) by (rewrite !Z.div_mul by lia; done).
    destruct (Mo _ Hu Hnp) as [E _]. rewrite E', phys_lookup_page in E by lia.
    destruct (page_present m pd w) eqn:Hpw.
    + replace (page_frame m' pd w) with (page_frame m pd w) by lia. apply (not_free_mono p); [done|by apply Hs].
    + replace (page_frame m' pd w) with 0 by lia. by apply page0_not_free.
Qed.
End owned.

(** ** Properties *)

(** C3 A successful fork: the child occupies a slot that was free, with the
    next pid, the parent's working directory, redirections and user stack
    pointer, and is READY.  Every page mapped above 8 MB in the parent is
    mapped at the same address in the child, to a frame of its own that was
    free, with the same bytes; nothing else is mapped there.  The child's
    kernel stack resumes at isr128_resume with the saved trap frame.  No other
    slot changes, and no byte of memory changes except in pages that were free
    and in the child's own kernel stack: in particular the parent's address
    space is untouched.  Conditions: the pid counter has not run out (fewer
    than 2^32 - 1 processes created), the parent's pages are its own, and the
    static kernel stacks, wherever they lie, touch no free page. *)
Theorem fork_copies_address_space (process_stacks isr128_resume : Z) (t t' : ptable) (p p' : pmm) (m m' : mem)
    (par i : Z) (frame : list Z) :
  table_ok t -> next_pid t < 2 ^ 32 - 1 -> used t par -> pmm_client_ok p -> kernel_dir_ok p m ->
  space_owned p m (p_cr3 (slot t par)) -> stacks_ok process_stacks p -> is_u32 isr128_resume ->
  length frame = 13%nat -> Forall is_u32 frame ->
  process_fork process_stacks isr128_resume t p m (Some par) (Some frame) = (t', p', m', Some i) ->
  forked process_stacks isr128_resume t p m par frame t' p' m' i.
Proof. intros Ht Hn Hu Hp Hk Hs Hst Hi Hl Hf E. exact (process_fork_spec _ _ _ _ _ _ _ _ _ _ _ Ht Hn Hu Hp Hk Hs Hst Hi Hl Hf E). Qed.

(** C4 A fork that fails, for want of a slot or of memory at any point, leaves
    every live process's slot as it was, no new live process, every byte of
    memory outside pages that were free unchanged, and the free pages as they
    were: every frame it copied into and the directory are free again, and the
    only pages lost are page tables (which the unwinding leaves allocated, as
    its comment says), no more of them than the parent has.  Conditions as for
    a successful fork. *)
Theorem fork_failure_undone (process_stacks isr128_resume : Z) (t t' : ptable) (p p' : pmm) (m m' : mem)
    (par : Z) (frame : list Z) :
  table_ok t -> next_pid t < 2 ^ 32 - 1 -> used t par -> pmm_client_ok p -> kernel_dir_ok p m ->
  space_owned p m (p_cr3 (slot t par)) -> stacks_ok process_stacks p -> is_u32 isr128_resume ->
  length frame = 13%nat -> Forall is_u32 frame ->
  process_fork process_stacks isr128_resume t p m (Some par) (Some frame) = (t', p', m', None) ->
  fork_undone t p m par t' p' m'.
Proof. intros Ht Hn Hu Hp Hk Hs Hst Hi Hl Hf E. exact (process_fork_spec _ _ _ _ _ _ _ _ _ _ _ Ht Hn Hu Hp Hk Hs Hst Hi Hl Hf E). Qed.

(** A parent with two pages, mapped at 16 MB; the stacks where the linker puts
    them in a build of the kernel. *)
Definition demo_stacks : Z := 0x1154F0.
Definition demo_parent_tab : ptable :=
  mk_ptable ((process_table boot_ptable).[0 := set_cr3 0x400000 (set_pid 1 (set_state PROCESS_RUNNING blank_process))]) (Some 0) 2.
Definition full_tab : ptable :=
  mk_ptable ((fun i => set_cr3 0x400000 (set_pid (Z.of_nat i + 1) (set_state PROCESS_READY blank_process))) <$> seq 0 16) None 17.
Definition demo_frame : list Z := replicate 13 5.
(** All pages but the first three free ones taken. *)
Definition scarce (p : pmm) : pmm := pmm_mark_used p 0x405000 0x3FB000.

(** What [process_fork] needs of memory. *)
Definition fork_ready (p : pmm) (m : mem) : Prop :=
  pmm_client_ok p /\ kernel_dir_ok p m /\ space_owned p m 0x400000 /\ stacks_ok demo_stacks p.

(** Fewer free pages do no harm. *)
Lemma fork_ready_scarce p m : fork_ready p m -> fork_ready (scarce p) m.
Proof.
  intros ([Hok H0] & [K1 K2 K3 K4] & [Hd Hs] & Hst). destruct (mark_used_spec p 0x405000 0x3FB000 Hok) as [Hok' [Ht Hb]]; [lia|].
  fold (scarce p) in Hok', Ht, Hb.
  assert (Hm : forall q, page_free p q = false -> page_free (scarce p) q = false).
  { intros q Hq. unfold page_free in *. rewrite Ht. destruct (0 <=? q) eqn:E0; [|done]. destruct (q <? pmm_total p) eqn:E1; [|done]. b2p.
    rewrite Hb by (pose proof (ok_total p Hok); lia). cbn [andb] in *. destruct (bitmap_test p q); [by destruct ((_ <=? q) && _ && _)|discriminate Hq]. }
  split_and!; [by split; [|apply Hm]| | |].
  - split; [by apply Hm|intros; by apply Hm, K2|done|done].
  - split; [by apply (dir_ok_same p _ m)|]. intros w Hw Hp. by apply Hm, Hs.
  - intros i x Hi Hx. by apply Hm, (Hst i).
Qed.

Lemma demo_space_ok p1 m1 p2 m2 p m :
  vmm_create_directory (pmm_init []) (v_mem (vmm_init boot_vmm)) = (p1, m1, 0x400000) ->
  vmm_map_user_page p1 m1 0x400000 0x1000000 0x200000 = (p2, m2, 0) ->
  vmm_map_user_page p2 m2 0x400000 0x1001000 0x201000 = (p, m, 0) -> fork_ready p m.
Proof.
  assert (Hk0 : kernel_dir_ok (pmm_init []) (v_mem (vmm_init boot_vmm))) by apply boot_kernel_dir_ok.
  assert (Hp0 : pa_ok (pmm_init [])) by apply boot_client_ok.
  assert (Hl0 : forall q, q < 1024 -> pa_isfree (pmm_init []) q = false) by apply (boot_low_used []).
  assert (Hr0 : forall st, rtc vm_step (mk_vm_state (pmm_init []) (v_mem (vmm_init boot_vmm)) []) st -> spaces_ok st)
    by exact (boot_reachable_ok []).
  revert Hk0 Hp0 Hl0 Hr0. generalize (pmm_init []), (v_mem (vmm_init boot_vmm)). intros p0 m0 Hk0 Hp0 Hl0 Hr0 E1 E2 E3.
  assert (Hok : spaces_ok (mk_vm_state p m [0x400000])).
  { apply Hr0. eapply rtc_l; [|eapply rtc_l; [|eapply rtc_once]].
    - eapply (vs_create (mk_vm_state p0 m0 [])); [exact E1|discriminate].
    - eapply (vs_map (mk_vm_state p1 m1 [0x400000])); [apply list_elem_of_here| | |exact E2]; unfold is_u32; lia.
    - eapply (vs_map (mk_vm_state p2 m2 [0x400000])); [apply list_elem_of_here| | |exact E3]; unfold is_u32; lia. }
  pose proof (space_owned_fresh _ _ _ _ _ Hp0 Hk0 E1 ltac:(discriminate)) as Hs1.
  destruct (create_directory_ok _ _ _ _ _ Hp0 Hk0 E1 ltac:(discriminate)) as (Hp1 & Hd1 & Hu1 & _ & _).
  destruct (create_directory_words _ _ _ _ _ Hp0 Hk0 E1 ltac:(discriminate)) as (k & _ & _ & _ & _ & Hfree1 & _ & _).
  apply map_user_page_spec in E2; [|done|done|done|unfold is_u32; lia|unfold is_u32; lia].
  destruct E2 as [(_ & _ & Hm2 & Hu2)|(? & _)]; [|lia].
  assert (Hlow2 : forall q, q < 1024 -> pa_isfree p2 q = false).
  { intros q Hq. apply (not_free_mono p1); [apply Hm2|]. by rewrite Hfree1, Hl0. }
  assert (Hs2 : space_owned p2 m2 0x400000)
    by (eapply (space_owned_mapped p1 m1 0x400000 0x1000 0x200); [done|done|lia|exact Hm2|apply Hlow2; lia]).
  apply map_user_page_spec in E3; [|apply Hm2|apply Hm2|done|unfold is_u32; lia|unfold is_u32; lia].
  destruct E3 as [(_ & _ & Hm & _)|(? & _)]; [|lia].
  assert (Hlow : forall q, q < 1024 -> pa_isfree p q = false) by (intros q Hq; apply (not_free_mono p2); [apply Hm|by apply Hlow2]).
  split_and!; [apply Hok|apply Hok| |].
  - eapply (space_owned_mapped p2 m2 0x400000 0x1001 0x201); [done|apply Hm2|lia|exact Hm|apply Hlow; lia].
  - intros i x Hi Hx. apply Hlow. unfold in_stack, stack_of, demo_stacks, PROCESS_STACK_SIZE in Hx. Z.to_euclidean_division_equations; lia.
Qed.

Lemma demo_tab_ok : table_ok demo_parent_tab /\ table_ok full_tab.
Proof.
  assert (Hp : forall i, used demo_parent_tab i -> i = 0 /\ p_pid (slot demo_parent_tab i) = 1).
  { intros i [Hi Hu]. pose proof (sixteen (fun i => state_eqb (state_of demo_parent_tab i) PROCESS_UNUSED ||
      (i =? 0) && (p_pid (slot demo_parent_tab i) =? 1)) eq_refl i Hi) as E. cbv beta in E.
    apply state_eqb_ne in Hu. rewrite Hu in E. cbn [orb] in E. b2p. done. }
  assert (Hf : forall i, 0 <= i < 16 -> p_pid (slot full_tab i) = i + 1 /\ state_of full_tab i = PROCESS_READY).
  { intros i Hi. pose proof (sixteen (fun i => (p_pid (slot full_tab i) =? i + 1) && state_eqb (state_of full_tab i) PROCESS_READY) eq_refl i Hi) as E.
    cbv beta in E. b2p. by apply state_eqb_eq in H0. }
  split; split; try done.
  - intros i Hu. destruct (Hp i Hu) as [_ ->]. cbn. lia.
  - intros i j Hi Hj. destruct (Hp i Hi) as [-> _], (Hp j Hj) as [-> _]. done.
  - intros i [= <-]. lia.
  - intros i Hi Hs. destruct (Hp i) as [-> _]; [split; [done|by rewrite Hs]|done].
  - intros i [Hi Hu]. destruct (Hf i Hi) as [-> _]. cbn. lia.
  - intros i j [Hi _] [Hj _]. destruct (Hf i Hi) as [-> _], (Hf j Hj) as [-> _]. lia.
  - intros i Hi Hs. destruct (Hf i Hi) as [_ E]. congruence.
Qed.

(** The demonstration runs: directory, mappings, a fork with room and one that
    runs out of pages after the directory, the first page and its table. *)
Local Notation demo_fork p m := (process_fork demo_stacks 0x1234 demo_parent_tab p m (Some 0) (Some demo_frame)).
Local Notation forks_to p m := (snd (demo_fork p m)).
Local Notation pages_after p m := (page_free (snd (fst (fst (demo_fork p m)))) <$> [1026; 1027; 1028; 1029]).

Lemma demo_run :
  (let '(p1, m1, pd) := vmm_create_directory (pmm_init []) (v_mem (vmm_init boot_vmm)) in
   let '(p2, m2, r2) := vmm_map_user_page p1 m1 pd 0x1000000 0x200000 in
   let '(p, m, r) := vmm_map_user_page p2 m2 pd 0x1001000 0x201000 in
   (pd, r2, r, forks_to p m, forks_to (scarce p) m, page_free (scarce p) <$> [1026; 1027; 1028; 1029], pages_after (scarce p) m)) =
  (0x400000, 0, 0, Some 1, None, [true; true; true; false], [true; true; false; false]).
Proof. vm_compute. reflexivity. Qed.

Lemma demo_parts :
  exists p m, fork_ready p m /\ forks_to p m = Some 1 /\ forks_to (scarce p) m = None /\
    page_free (scarce p) <$> [1026; 1027; 1028; 1029] = [true; true; true; false] /\ pages_after (scarce p) m = [true; true; false; false].
Proof.
  pose proof demo_run as Hv.
  destruct (vmm_create_directory (pmm_init []) (v_mem (vmm_init boot_vmm))) as [[p1 m1] pd] eqn:E1.
  destruct (vmm_map_user_page p1 m1 pd 0x1000000 0x200000) as [[p2 m2] r2] eqn:E2.
  destruct (vmm_map_user_page p2 m2 pd 0x1001000 0x201000) as [[p m] r] eqn:E3.
  assert (Hv' : pd = 0x400000 /\ r2 = 0 /\ r = 0 /\ forks_to p m = Some 1 /\ forks_to (scarce p) m = None /\
    page_free (scarce p) <$> [1026; 1027; 1028; 1029] = [true; true; true; false] /\ pages_after (scarce p) m = [true; true; false; false]).
  { revert Hv. generalize (forks_to p m), (forks_to (scarce p) m), (page_free (scarce p) <$> [1026; 1027; 1028; 1029]), (pages_after (scarce p) m).
    intros a b c d [= -> -> -> -> -> -> ->]. by split_and!. }
  clear Hv. destruct Hv' as (-> & -> & -> & Hf). exists p, m. split; [|exact Hf]. exact (demo_space_ok p1 m1 p2 m2 p m E1 E2 E3).
Qed.

Lemma demo_frame_ok : Forall is_u32 demo_frame.
Proof. repeat constructor; unfold is_u32; lia. Qed.

Lemma fork_copies_address_space_witness :
  exists p m t' p' m', process_fork demo_stacks 0x1234 demo_parent_tab p m (Some 0) (Some demo_frame) = (t', p', m', Some 1) /\
    forked demo_stacks 0x1234 demo_parent_tab p m 0 demo_frame t' p' m' 1.
Proof.
  destruct demo_parts as (p & m & (Hp & Hk & Hs & Hst) & Hv & _).
  destruct (process_fork demo_stacks 0x1234 demo_parent_tab p m (Some 0) (Some demo_frame)) as [[[t' p'] m'] r] eqn:E.
  cbn [snd] in Hv. subst r. exists p, m, t', p', m'. split; [exact E|].
  apply (fork_copies_address_space demo_stacks 0x1234 demo_parent_tab t' p p' m m' 0 1 demo_frame);
    [apply demo_tab_ok|reflexivity|split; [lia|discriminate]|exact Hp|exact Hk|exact Hs|exact Hst|unfold is_u32; lia|reflexivity|
     apply demo_frame_ok|exact E].
Defined.

(** Out of memory: of the three free pages the directory and the first copy are
    free again, the page table is lost; and with a full table. *)
Lemma fork_failure_undone_witness :
  exists p m t' p' m', process_fork demo_stacks 0x1234 demo_parent_tab p m (Some 0) (Some demo_frame) = (t', p', m', None) /\
    page_free p <$> [1026; 1027; 1028; 1029] = [true; true; true; false] /\ page_free p' <$> [1026; 1027; 1028; 1029] = [true; true; false; false] /\
    fork_undone demo_parent_tab p m 0 t' p' m' /\
    process_fork demo_stacks 0x1234 full_tab p m (Some 0) (Some demo_frame) = (full_tab, p, m, None) /\ fork_undone full_tab p m 0 full_tab p m.
Proof.
  destruct demo_parts as (p & m & Hr & _ & Hv & Hb & Ha). destruct (fork_ready_scarce p m Hr) as (Hp & Hk & Hs & Hst).
  revert Hv Hb Ha Hp Hk Hs Hst. generalize (scarce p). clear Hr p. intros p Hv Hb Ha Hp Hk Hs Hst.
  destruct (process_fork demo_stacks 0x1234 demo_parent_tab p m (Some 0) (Some demo_frame)) as [[[t' p'] m'] r] eqn:E.
  cbn [snd fst] in Hv, Ha. subst r. exists p, m, t', p', m'. split; [exact E|]. split; [exact Hb|]. split; [exact Ha|].
  assert (E2 : process_fork demo_stacks 0x1234 full_tab p m (Some 0) (Some demo_frame) = (full_tab, p, m, None)) by reflexivity.
  split; [|split; [exact E2|]].
  - apply (fork_failure_undone demo_stacks 0x1234 demo_parent_tab t' p p' m m' 0 demo_frame);
      [apply demo_tab_ok|reflexivity|split; [lia|discriminate]|exact Hp|exact Hk|exact Hs|exact Hst|unfold is_u32; lia|reflexivity|
       apply demo_frame_ok|exact E].
  - apply (fork_failure_undone demo_stacks 0x1234 full_tab full_tab p p m m 0 demo_frame);
      [apply demo_tab_ok|reflexivity|split; [lia|discriminate]|exact Hp|exact Hk|exact Hs|exact Hst|unfold is_u32; lia|reflexivity|
       apply demo_frame_ok|exact E2].
Defined.

(** *** The claim of fork leaves a stale wait *)

(** Slot 0: a process killed while it waited for pid 9, whose slot keeps
    [waiting_for_pid]; slot 1: process 9. *)
Definition stale_wait_tab : ptable :=
  mk_ptable ((process_table boot_ptable)
    .[0 := set_waiting_for_pid 9 blank_process]
    .[1 := set_pid 9 (set_state PROCESS_RUNNING blank_process)]) (Some 1) 10.

(** process_fork claims a slot without resetting waiting_for_pid (which
    process_spawn_user does in its claim, for the reason its comment gives).
    When the previous occupant died while waiting, the exit of the process it
    waited for, in the window before the field is reset, makes the half-built
    child READY: it has no directory and no kernel stack yet. *)
Theorem fork_claim_stale_wait_resurrected :
  let t := fst (fork_claim stale_wait_tab) in
  snd (fork_claim stale_wait_tab) = Some 0 /\ state_of t 0 = PROCESS_BLOCKED /\ p_waiting_for_pid (slot t 0) = 9 /\
  state_of (process_exit t (Some 1)) 0 = PROCESS_READY /\ p_esp (slot (process_exit t (Some 1)) 0) = 0 /\
  p_waiting_for_pid (slot (fst (spawn_claim stale_wait_tab)) 0) = 0.
Proof. vm_compute. repeat split. Qed.
