(* ===== verification/Scheduler.v ===== *)
(** * Scheduler and timer ([kernel/scheduler.c], [kernel/timer.c])

    Round-robin over the process table.  [context_switch] (assembly) hands the
    CPU to the chosen process until it switches back; what happens meanwhile
    is an argument of [scheduler_run_once], and in the step relation [kstep]
    any sequence of the operations a running process or an interrupt performs
    on the table.  Register contents and the saved stack pointers are left to
    the assembly. *)

From Stdlib Require Import ZArith Lia ZifyBool.
From stdpp Require Import base tactics numbers list option relations gmap.
From S2P Require Import Prelude Pmm Mem Vmm Process Fork.
Local Open Scope Z_scope.

Definition PREEMPT_TICKS : Z := 10.

Record sched := mk_sched {
  s_tab : ptable;
  scheduler_ready : bool;
  current_index : Z;
  ticks : Z
}.

Definition with_tab (s : sched) (t : ptable) : sched := mk_sched t (scheduler_ready s) (current_index s) (ticks s).
Definition on_tab (f : ptable -> ptable) (s : sched) : sched := with_tab s (f (s_tab s)).

(** ** Operations *)

Definition scheduler_init (s : sched) : sched := mk_sched (process_init (s_tab s)) true (PROCESS_MAX - 1) (ticks s).

Definition scheduler_spawn_user (process_stacks user_task_bootstrap : Z) (s : sched) (m : mem) (name : option (list Z))
    (user_entry user_esp cr3 cwd_cluster : Z) (start_blocked : bool) : sched * mem * option Z :=
  if negb (scheduler_ready s) then (s, m, None)
  else
    let '(t, m, r) := process_spawn_user process_stacks (s_tab s) m name user_entry user_esp cr3 cwd_cluster
                        start_blocked user_task_bootstrap in
    (with_tab s t, m, r).

Definition scheduler_tick (s : sched) (tick : Z) : sched :=
  if negb (scheduler_ready s) then s else on_tab (fun t => process_wake_sleepers t tick) s.

(** The slot scanned at distance [k] from the last one run. *)
Definition scan_index (s : sched) (k : Z) : Z := (current_index s + 1 + k) mod PROCESS_MAX.

(** [scheduler_run_once] up to [context_switch]: the process it switches to. *)
Definition dispatch (s : sched) : option (sched * Z) :=
  if negb (scheduler_ready s) then None
  else
    match find_from (fun k => state_eqb (state_of (s_tab s) (scan_index s k)) PROCESS_READY) 0 16 with
    | None => None
    | Some k =>
        let index := scan_index s k in
        let t := process_set_current (s_tab s) (Some index) in
        let t := upd t index (set_state PROCESS_RUNNING) in
        let t := upd t index (fun p => set_runs (u32 (p_runs p + 1)) p) in
        let t := upd t index (set_ticks_run (ticks s)) in
        Some (mk_sched t (scheduler_ready s) index (ticks s), index)
    end.

(** ... and after it returns. *)
Definition switched_back (s : sched) (index : Z) : sched :=
  let t := s_tab s in
  let t := if state_eqb (state_of t index) PROCESS_RUNNING then upd t index (set_state PROCESS_READY) else t in
  with_tab s (process_set_current t None).

Definition scheduler_run_once (context_switch : sched -> sched) (s : sched) : sched :=
  match dispatch s with
  | None => s
  | Some (s', index) => switched_back (context_switch s') index
  end.

(** The current process gives up the CPU: the table changes before
    [switch_back_to_scheduler]. *)
Definition scheduler_yield (s : sched) : sched :=
  match current_process (s_tab s) with
  | None => s
  | Some i =>
      if state_eqb (state_of (s_tab s) i) PROCESS_RUNNING
      then on_tab (fun t => upd t i (set_state PROCESS_READY)) s else s
  end.

Definition scheduler_sleep_current (s : sched) (n : Z) : sched :=
  match current_process (s_tab s) with
  | None => s
  | Some i =>
      if n =? 0 then scheduler_yield s
      else on_tab (fun t => process_sleep t (Some i) (ticks s) n) s
  end.

Definition timer_callback (s : sched) : sched :=
  let s := mk_sched (s_tab s) (scheduler_ready s) (current_index s) (u32 (ticks s + 1)) in
  let s := scheduler_tick s (ticks s) in
  match current_process (s_tab s) with
  | None => s
  | Some i =>
      if state_eqb (state_of (s_tab s) i) PROCESS_RUNNING &&
         (PREEMPT_TICKS <=? u32 (ticks s - p_ticks_run (slot (s_tab s) i)))
      then scheduler_yield s else s
  end.

(** ** The kernel as a state machine over the table *)

(** The current process is on the CPU. *)
Definition running (s : sched) (i : Z) : Prop :=
  current_process (s_tab s) = Some i /\ state_of (s_tab s) i = PROCESS_RUNNING.

(** [alloc_pid] has not come to its end: [next_pid] does not wrap around with
    the next process. *)
Definition pids_left (s : sched) : Prop := next_pid (s_tab s) < 2 ^ 32 - 1.

(** What may happen while a process has the CPU: its own operations and
    interrupts.  Processes are created only while there are pids left.
    [process_fork] runs with interrupts on once it has claimed a slot, so its
    claim, the stores to the fields of the BLOCKED child and the release after a
    failure are steps of their own ([fork_slices]: together with [ss_wake] they
    make up [process_fork]). *)
Inductive slice_step : sched -> sched -> Prop :=
| ss_yield s i : running s i -> slice_step s (scheduler_yield s)
| ss_sleep s i n : running s i -> 0 <= n -> slice_step s (scheduler_sleep_current s n)
| ss_block s i : running s i -> slice_step s (on_tab (fun t => upd t i (set_state PROCESS_BLOCKED)) s)
| ss_wait s i pid : running s i ->
    slice_step s (on_tab (fun t => upd (upd t i (set_waiting_for_pid pid)) i (set_state PROCESS_BLOCKED)) s)
| ss_exit s i j : running s i -> used (s_tab s) j -> slice_step s (on_tab (fun t => process_exit t (Some j)) s)
| ss_spawn s stacks m name e u c w blocked b t' m' r :
    pids_left s -> is_u32 b -> b <> 0 ->
    process_spawn_user stacks (s_tab s) m name e u c w blocked b = (t', m', r) -> slice_step s (with_tab s t')
| ss_wake s j : 0 <= j < 16 -> slice_step s (on_tab (fun t => process_make_ready t (Some j)) s)
| ss_fork_claim s i t' j : running s i -> pids_left s -> fork_claim (s_tab s) = (t', Some j) -> slice_step s (with_tab s t')
| ss_fork_fill s j f :
    0 <= j < 16 -> state_of (s_tab s) j = PROCESS_BLOCKED -> (forall p, p_pid (f p) = p_pid p /\ p_state (f p) = p_state p) ->
    slice_step s (on_tab (fun t => upd t j f) s)
| ss_fork_release s j :
    0 <= j < 16 -> state_of (s_tab s) j = PROCESS_BLOCKED -> slice_step s (on_tab (fun t => fork_release t j) s)
| ss_timer s : slice_step s (timer_callback s).

Inductive kstep : sched -> sched -> Prop :=
| ks_slice s s' : slice_step s s' -> kstep s s'
| ks_dispatch s s' i : current_process (s_tab s) = None -> dispatch s = Some (s', i) -> kstep s s'
| ks_back s i : current_process (s_tab s) = Some i -> kstep s (switched_back s i).

Definition sched_ok (s : sched) : Prop := table_ok (s_tab s) /\ 0 <= current_index s < 16.

Definition boot_sched : sched := scheduler_init (mk_sched (mk_ptable (replicate 16 blank_process) None 0) false 0 0).

(** ** Lemmas *)

Lemma scan_index_range s k : 0 <= scan_index s k < 16.
Proof. apply Z.mod_pos_bound. done. Qed.

Lemma dispatch_None s : dispatch s = None -> scheduler_ready s = true ->
  0 <= current_index s < 16 -> forall i, 0 <= i < 16 -> state_of (s_tab s) i <> PROCESS_READY.
Proof.
  unfold dispatch. intros E Hr Hc i Hi. rewrite Hr in E. cbn [negb] in E.
  destruct (find_from _ _ _) eqn:Ef; [done|]. rewrite find_from_None in Ef.
  specialize (Ef ((i - current_index s - 1) mod 16)). cbv beta in Ef.
  assert (Hk : scan_index s ((i - current_index s - 1) mod 16) = i).
  { unfold scan_index. change PROCESS_MAX with 16. Z.to_euclidean_division_equations; lia. }
  rewrite Hk in Ef. apply state_eqb_ne, Ef. pose proof (Z.mod_pos_bound (i - current_index s - 1) 16). lia.
Qed.

(** The chosen process was READY, becomes RUNNING and current; nothing READY
    was nearer. *)
Record dispatched (s s' : sched) (i : Z) : Prop := {
  di_slot : 0 <= i < 16;
  di_ready : state_of (s_tab s) i = PROCESS_READY;
  di_index : current_index s' = i;
  di_ok : sched_ok s';
  di_running : running s' i;
  di_others : forall j, 0 <= j < 16 -> j <> i -> slot (s_tab s') j = slot (s_tab s) j;
  di_runs : p_runs (slot (s_tab s') i) = u32 (p_runs (slot (s_tab s) i) + 1);
  di_nearest : forall j, 0 <= j < 16 -> state_of (s_tab s) j = PROCESS_READY ->
    (i - current_index s - 1) mod 16 <= (j - current_index s - 1) mod 16
}.

Lemma scan_distance s j k : 0 <= current_index s < 16 -> 0 <= j < 16 -> 0 <= k < 16 ->
  scan_index s k = j <-> k = (j - current_index s - 1) mod 16.
Proof. intros. unfold scan_index. change PROCESS_MAX with 16. Z.to_euclidean_division_equations; lia. Qed.

Lemma dispatch_spec s s' i :
  sched_ok s -> current_process (s_tab s) = None -> dispatch s = Some (s', i) -> dispatched s s' i.
Proof.
  intros [Ht Hc] Hn. unfold dispatch. destruct (scheduler_ready s); [cbn [negb]|done].
  destruct (find_from _ _ _) as [k|] eqn:Ef; [|done]. apply find_from_Some in Ef as (Hk & Hr & Hlt).
  apply state_eqb_eq in Hr. intros [= <- <-]. pose proof (scan_index_range s k) as Hi.
  set (i := scan_index s k) in *. set (t0 := process_set_current (s_tab s) (Some i)).
  assert (Hl0 : has16 t0) by apply Ht.
  set (t1 := upd t0 i (set_state PROCESS_RUNNING)).
  set (t2 := upd t1 i (fun p => set_runs (u32 (p_runs p + 1)) p)).
  set (t3 := upd t2 i (set_ticks_run (ticks s))).
  assert (Es : forall j, 0 <= j -> slot t3 j = if i =? j
    then set_ticks_run (ticks s) (set_runs (u32 (p_runs (slot (s_tab s) i) + 1)) (set_state PROCESS_RUNNING (slot (s_tab s) i)))
    else slot (s_tab s) j).
  { intros j Hj. subst t3 t2 t1. rewrite !slot_upd by (rewrite ?upd_has16; done || lia). rewrite Z.eqb_refl.
    by destruct (i =? j). }
  assert (Hok : table_ok t3).
  { apply (table_ok_shrink (s_tab s)); try done.
    - subst t3 t2 t1. by rewrite !upd_has16.
    - intros j [= <-]. done.
    - intros j [Hj Hu]. unfold used, state_of in *. rewrite Es in * by lia.
      destruct (Z.eqb_spec i j) as [<-|]; [|done]. by rewrite Hr.
    - intros j Hj Hs. unfold state_of in Hs. rewrite Es in Hs by lia. cbn.
      destruct (Z.eqb_spec i j) as [<-|]; [done|]. apply (to_running _ Ht j Hj) in Hs. congruence. }
  assert (Hcur : current_process t3 = Some i) by done. clearbody t3. clear t1 t2.
  split; cbn [s_tab current_index]; try done.
  - split; [done|]. unfold state_of. cbn [s_tab]. by rewrite Es, Z.eqb_refl by lia.
  - intros j Hj Hne. rewrite Es by lia. by replace (i =? j) with false by lia.
  - by rewrite Es, Z.eqb_refl by lia.
  - intros j Hj Hrj. assert (Ek : (i - current_index s - 1) mod 16 = k) by (symmetry; by apply scan_distance; [..|lia|]).
    rewrite Ek. set (kj := (j - current_index s - 1) mod 16).
    assert (Hkj : 0 <= kj < 16) by (apply Z.mod_pos_bound; lia).
    destruct (Z_lt_le_dec kj k); [|done]. specialize (Hlt kj). cbv beta in Hlt.
    rewrite (proj2 (scan_distance s j kj Hc Hj Hkj) eq_refl) in Hlt. rewrite Hrj in Hlt. assert (Hf : true = false) by (apply Hlt; lia). done.
Qed.

Lemma set_current_None_ok t :
  table_ok t -> (forall i, 0 <= i < 16 -> state_of t i <> PROCESS_RUNNING) -> table_ok (process_set_current t None).
Proof.
  intros Ht Hn. apply (table_ok_shrink t); try done; [apply Ht|].
  intros i Hi Hr. by destruct (Hn i Hi).
Qed.

Lemma switched_back_ok s i : sched_ok s -> current_process (s_tab s) = Some i -> sched_ok (switched_back s i).
Proof.
  intros [Ht Hc] Hi. split; [|done]. pose proof (to_current _ Ht i Hi) as Hr. cbn [switched_back with_tab s_tab].
  destruct (state_eqb _ _) eqn:E.
  - apply state_eqb_eq in E. apply set_current_None_ok.
    + apply table_ok_upd; try done; [left; by rewrite E|by right].
    + intros j Hj. unfold state_of. rewrite slot_upd by (lia || apply Ht). destruct (Z.eqb_spec i j); [done|].
      intros Hs. apply (to_running _ Ht j Hj) in Hs. congruence.
  - apply state_eqb_ne in E. apply set_current_None_ok; [done|]. intros j Hj Hs.
    pose proof (to_running _ Ht j Hj Hs). congruence.
Qed.

Lemma yield_ok s : sched_ok s -> sched_ok (scheduler_yield s).
Proof.
  intros [Ht Hc]. unfold scheduler_yield. destruct (current_process (s_tab s)) as [i|] eqn:Ei; [|done].
  destruct (state_eqb _ _) eqn:E; [|done]. apply state_eqb_eq in E. split; [|done]. cbn.
  apply table_ok_upd; try done; [by apply Ht|left; by rewrite E|by right].
Qed.

Lemma sleep_ok t i now n : table_ok t -> 0 <= i < 16 -> table_ok (process_sleep t (Some i) now n).
Proof.
  intros Ht Hi. unfold process_sleep. destruct (state_eqb _ _) eqn:E; [done|]. apply state_eqb_ne in E.
  assert (Es : forall f, slot (upd t i f) i = f (slot t i)) by (intros; rewrite slot_upd, Z.eqb_refl by (lia || apply Ht); done).
  apply table_ok_upd; [apply table_ok_upd; try done; [by left|by right|by apply Ht]|done|..]; unfold state_of; rewrite ?Es; [by left|by right|done].
Qed.

Lemma timer_callback_ok s : sched_ok s -> sched_ok (timer_callback s).
Proof.
  intros [Ht Hc]. unfold timer_callback.
  set (s1 := scheduler_tick _ _).
  assert (H1 : sched_ok s1).
  { subst s1. unfold scheduler_tick. cbn [scheduler_ready]. destruct (scheduler_ready s); cbn [negb]; [|done].
    split; [|done]. cbn [on_tab with_tab s_tab]. by apply wake_sleepers_ok. }
  clearbody s1. destruct (current_process (s_tab s1)); [|done]. destruct (_ && _); [by apply yield_ok|done].
Qed.

Lemma wait_ok t i pid : table_ok t -> 0 <= i < 16 -> state_of t i <> PROCESS_UNUSED ->
  table_ok (upd (upd t i (set_waiting_for_pid pid)) i (set_state PROCESS_BLOCKED)).
Proof.
  intros Ht Hi Hu.
  assert (Es : forall f, slot (upd t i f) i = f (slot t i)) by (intros; rewrite slot_upd, Z.eqb_refl by (lia || apply Ht); done).
  apply table_ok_upd; [apply table_ok_upd; try done; [by left|by right|by apply Ht]|done|..]; unfold state_of; rewrite ?Es; [by left|by right|done].
Qed.

Lemma yield_index s : current_index (scheduler_yield s) = current_index s.
Proof. unfold scheduler_yield. destruct (current_process _); [|done]. by destruct (state_eqb _ _). Qed.

Lemma timer_index s : current_index (timer_callback s) = current_index s.
Proof.
  unfold timer_callback. set (s1 := scheduler_tick _ _).
  assert (E : current_index s1 = current_index s) by (subst s1; unfold scheduler_tick; cbn; by destruct (scheduler_ready s)).
  clearbody s1. destruct (current_process _); [|done]. destruct (_ && _); by rewrite ?yield_index.
Qed.

Lemma slice_step_ok s s' : slice_step s s' -> sched_ok s -> sched_ok s' /\ current_index s' = current_index s.
Proof.
  intros Hstep [Ht Hc]. assert (Hcur : forall i, running s i -> 0 <= i < 16 /\ state_of (s_tab s) i <> PROCESS_UNUSED).
  { intros i [Hi Hr]. split; [by apply (to_current _ Ht)|by rewrite Hr]. }
  destruct Hstep as [s i Hr|s i n Hr Hn|s i Hr|s i pid Hr|s i j Hr Hu|s ? ? ? ? ? ? ? ? ? ? ? ? Hn Hb Hb0 E|s j Hj|s i t' j Hr Hn E|s j f Hj Hs Hf|s j Hj Hs|s].
  - split; [by apply yield_ok|apply yield_index].
  - destruct (Hcur i Hr) as [Hi _]. unfold scheduler_sleep_current. destruct Hr as [-> Hr].
    destruct (n =? 0); [split; [by apply yield_ok|apply yield_index]|].
    split; [|done]. split; [|done]. by apply sleep_ok.
  - destruct (Hcur i Hr) as [Hi Hu]. split; [|done]. split; [|done]. apply table_ok_upd; [done|done|by left|by right|done].
  - destruct (Hcur i Hr) as [Hi Hu]. split; [|done]. split; [|done]. by apply wait_ok.
  - destruct (process_exit_spec _ _ Ht Hu) as (? & _). done.
  - destruct (spawn_user_spec _ _ _ _ _ _ _ _ _ _ _ _ _ Ht Hn Hb Hb0 E) as [? _]. done.
  - split; [split; [by apply make_ready_ok|done]|done].
  - destruct (fork_claim_Some _ _ _ Ht Hn E) as (_ & _ & _ & Ht' & _). done.
  - split; [|done]. split; [|done]. destruct (Hf (slot (s_tab s) j)) as [E1 E2]. unfold state_of in Hs.
    apply table_ok_upd; [done|done|left; unfold state_of; by rewrite Hs|by right|]. rewrite E2, Hs. done.
  - split; [|done]. split; [|done]. by apply fork_release_ok.
  - split; [by apply timer_callback_ok|apply timer_index].
Qed.

(** *** Fork as a sequence of steps *)

Lemma fill_slice s t j f : 0 <= j < 16 -> has16 t -> state_of t j = PROCESS_BLOCKED -> (forall p, p_pid (f p) = p_pid p /\ p_state (f p) = p_state p) ->
  slice_step (with_tab s t) (with_tab s (upd t j f)) /\ has16 (upd t j f) /\ state_of (upd t j f) j = PROCESS_BLOCKED.
Proof.
  intros Hj Ht Hs Hf. split_and!; [by apply (ss_fork_fill (with_tab s t))|by apply upd_has16|].
  unfold state_of in *. rewrite slot_upd, Z.eqb_refl by (done || lia). destruct (Hf (slot t j)) as [_ ->]. done.
Qed.

Lemma first_of_four {A B C D} (a a' : A) (b b' : B) (c c' : C) (d d' : D) : (a, b, c, d) = (a', b', c', d') -> a = a'.
Proof. congruence. Qed.

Lemma fork_slices s par stacks isr (p p' : pmm) m m' frame t' r :
  running s par -> pids_left s -> table_ok (s_tab s) ->
  process_fork stacks isr (s_tab s) p m (Some par) (Some frame) = (t', p', m', r) -> rtc slice_step s (with_tab s t').
Proof.
  intros Hr Hn Ht. unfold process_fork. destruct (fork_claim (s_tab s)) as [t1 [j|]] eqn:Ec.
  2:{ apply fork_claim_None in Ec. subst t1. intros [= <- _ _ _]. destruct s. apply rtc_refl. }
  destruct (fork_claim_Some _ _ _ Ht Hn Ec) as (Hj & _ & _ & Ht1 & _ & _ & Es & _).
  assert (Hs1 : state_of t1 j = PROCESS_BLOCKED) by (unfold state_of; by rewrite Es).
  assert (H1 : rtc slice_step s (with_tab s t1)) by (by eapply rtc_once, ss_fork_claim).
  destruct (fill_slice s t1 j (fun child => fork_fields stacks (slot t1 par) child j) Hj (to_len _ Ht1) Hs1) as (S2 & L2 & Hs2); [done|].
  set (t2 := upd t1 j _) in *. clearbody t2. assert (H2 : rtc slice_step s (with_tab s t2)) by (by eapply rtc_r).
  assert (Hrel : rtc slice_step s (with_tab s (fork_release t2 j))) by (eapply rtc_r; [exact H2|]; by apply (ss_fork_release (with_tab s t2))).
  destruct (vmm_create_directory p m) as [[p1 m1] cpd]. destruct (cpd =? 0); [by intros [= <- _ _ _]|].
  destruct (fork_tables _ _ _ _ _ _) as [[p2 m2] failed]. destruct failed.
  { intros E. apply first_of_four in E. by subst t'. }
  destruct (fork_stack _ _ _ _) as [m3 esp].
  destruct (fill_slice s t2 j (set_cr3 cpd) Hj L2 Hs2) as (S3 & L3 & Hs3); [done|]. set (t3 := upd t2 j _) in *. clearbody t3.
  destruct (fill_slice s t3 j (set_esp esp) Hj L3 Hs3) as (S4 & L4 & Hs4); [done|]. set (t4 := upd t3 j _) in *. clearbody t4.
  intros E. apply first_of_four in E. subst t'. eapply rtc_r; [eapply rtc_r; [eapply rtc_r; [exact H2|exact S3]|exact S4]|].
  replace (with_tab s (upd t4 j (set_state PROCESS_READY))) with (on_tab (fun t => process_make_ready t (Some j)) (with_tab s t4)).
  - by apply ss_wake.
  - unfold on_tab, process_make_ready, with_tab. cbn [s_tab]. by rewrite Hs4.
Qed.

Lemma kstep_ok s s' : kstep s s' -> sched_ok s -> sched_ok s'.
Proof.
  intros [? ? Hs|? ? i Hn Hd|? i Hi] Hok.
  - by apply (slice_step_ok _ _ Hs).
  - by apply (dispatch_spec _ _ i Hok).
  - by apply switched_back_ok.
Qed.

Lemma boot_sched_ok : sched_ok boot_sched.
Proof. split; [exact boot_table_ok|done]. Qed.

Lemma reachable_ok s : rtc kstep boot_sched s -> sched_ok s.
Proof.
  intros Hr. pose proof boot_sched_ok as Hok. revert Hr Hok. generalize boot_sched. intros s0 Hr.
  induction Hr as [|x y z Hs _ IH]; [done|]. intros Hok. apply IH. by eapply kstep_ok.
Qed.

(** The scheduler stays enabled. *)
Lemma yield_ready s : scheduler_ready (scheduler_yield s) = scheduler_ready s.
Proof. unfold scheduler_yield. destruct (current_process _); [|done]. by destruct (state_eqb _ _). Qed.

Lemma kstep_ready s s' : kstep s s' -> scheduler_ready s' = scheduler_ready s.
Proof.
  intros [? ? Hs|? ? i Hn Hd|? i Hi]; [destruct Hs|..]; try done.
  - apply yield_ready.
  - unfold scheduler_sleep_current. destruct (current_process _); [|done]. destruct (_ =? _); [apply yield_ready|done].
  - unfold timer_callback. set (s1 := scheduler_tick _ _).
    assert (E : scheduler_ready s1 = scheduler_ready s0).
    { subst s1. unfold scheduler_tick. cbn [scheduler_ready]. by destruct (negb (scheduler_ready s0)). }
    clearbody s1. destruct (current_process _); [|done]. destruct (_ && _); by rewrite ?yield_ready.
  - unfold dispatch in Hd. destruct (scheduler_ready s0) eqn:E; cbn [negb] in Hd; [|done].
    destruct (find_from _ _ _); [|done]. by injection Hd as <- _.
Qed.

Lemma reachable_ready s : rtc kstep boot_sched s -> scheduler_ready s = true.
Proof.
  assert (H0 : scheduler_ready boot_sched = true) by done. revert H0. generalize boot_sched. intros s0 H0 Hr.
  induction Hr as [|x y z Hs _ IH]; [done|]. apply IH. by rewrite (kstep_ready _ _ Hs).
Qed.

(** ** Rounds *)

(** One turn of the scheduler loop: [scheduler_run_once] switches to [i], the
    slice runs, and the scheduler resumes. *)
Inductive round (s s' : sched) (i : Z) : Prop :=
| round_intro s1 s2 :
    current_process (s_tab s) = None -> dispatch s = Some (s1, i) -> rtc slice_step s1 s2 ->
    current_process (s_tab s2) = Some i -> s' = switched_back s2 i -> round s s' i.

(** A run of rounds with the processes chosen. *)
Inductive rounds : sched -> list Z -> sched -> Prop :=
| rounds_nil s : rounds s [] s
| rounds_cons s s' s'' i l : round s s' i -> rounds s' l s'' -> rounds s (i :: l) s''.

(** [j] is READY whenever the scheduler chooses during the run. *)
Inductive stays_ready (j : Z) : sched -> list Z -> Prop :=
| sr_nil s : stays_ready j s []
| sr_cons s s' i l : state_of (s_tab s) j = PROCESS_READY -> round s s' i -> stays_ready j s' l -> stays_ready j s (i :: l).

Lemma slice_steps_ok s s' : rtc slice_step s s' -> sched_ok s -> sched_ok s' /\ current_index s' = current_index s.
Proof.
  induction 1 as [|x y z Hs _ IH]; [done|]. intros Hok. destruct (slice_step_ok _ _ Hs Hok) as [Hy Ey].
  destruct (IH Hy) as [? E]. by rewrite E.
Qed.

(** A round that does not choose [j] brings the scan closer to it. *)
Lemma round_closer s s' i j :
  sched_ok s -> round s s' i -> 0 <= j < 16 -> state_of (s_tab s) j = PROCESS_READY -> j <> i ->
  sched_ok s' /\ (j - current_index s' - 1) mod 16 < (j - current_index s - 1) mod 16.
Proof.
  intros Hok [s1 s2 Hn Hd Hsl Hcur ->] Hj Hr Hne. pose proof (dispatch_spec _ _ _ Hok Hn Hd) as [].
  destruct (slice_steps_ok _ _ Hsl di_ok0) as [Hok2 E2]. split; [by apply switched_back_ok|].
  cbn [switched_back with_tab current_index]. rewrite E2, di_index0. specialize (di_nearest0 j Hj Hr).
  destruct Hok as [_ Hc]. clear -di_nearest0 Hj Hne Hc di_slot0. Z.to_euclidean_division_equations; lia.
Qed.

Lemma waiting_bound j l s :
  sched_ok s -> 0 <= j < 16 -> stays_ready j s l -> j ∉ l ->
  Z.of_nat (length l) <= (j - current_index s - 1) mod 16.
Proof.
  intros Hok Hj Hs. revert Hok. induction Hs as [s|s s' i l Hr Hrd _ IH]; intros Hok Hnin; cbn [length].
  - pose proof (Z.mod_pos_bound (j - current_index s - 1) 16). lia.
  - apply not_elem_of_cons in Hnin as [Hne Hnin].
    destruct (round_closer _ _ _ _ Hok Hrd Hj Hr Hne) as [Hok' Hlt]. specialize (IH Hok' Hnin). lia.
Qed.

(** ** Properties *)


(** One process, spawned at boot. *)
Definition demo_tab : ptable :=
  fst (fst (process_spawn_user 0x20000 (s_tab boot_sched) ∅ None 0x1000000 0x1FFF000 0x400000 0 false 0x1234)).
Definition demo_sched : sched := with_tab boot_sched demo_tab.

Lemma demo_reachable : rtc kstep boot_sched demo_sched.
Proof.
  apply rtc_once, ks_slice.
  apply (ss_spawn boot_sched 0x20000 ∅ None 0x1000000 0x1FFF000 0x400000 0 false 0x1234 demo_tab
    (snd (fst (process_spawn_user 0x20000 (s_tab boot_sched) ∅ None 0x1000000 0x1FFF000 0x400000 0 false 0x1234)))
    (snd (process_spawn_user 0x20000 (s_tab boot_sched) ∅ None 0x1000000 0x1FFF000 0x400000 0 false 0x1234)));
    [reflexivity|unfold is_u32; lia|lia|].
  unfold demo_tab. by destruct (process_spawn_user _ _ _ _ _ _ _ _ _ _) as [[? ?] ?].
Qed.


(** C20 Round-robin is fair: a process that is READY each time the scheduler
    chooses is chosen within sixteen turns, whatever the other processes and
    the interrupts do in between (any [slice_step]s: yields, sleeps, waits,
    exits, spawns, forks, wake-ups, ticks), as long as the pid counter has not
    wrapped; and when some process is READY the scheduler does choose one. *)
Theorem round_robin_fair (s : sched) (j : Z) (l : list Z) :
  rtc kstep boot_sched s -> 0 <= j < 16 ->
  (stays_ready j s l -> (16 <= length l)%nat -> j ∈ l) /\
  (state_of (s_tab s) j = PROCESS_READY -> dispatch s <> None).
Proof.
  intros Hr Hj. split.
  2:{ intros Hrd Hd. apply (dispatch_None s Hd (reachable_ready _ Hr) (proj2 (reachable_ok _ Hr)) j Hj Hrd). }
  intros Hs Hl. destruct (decide (j ∈ l)) as [|Hn]; [done|]. exfalso.
  pose proof (waiting_bound j l s (reachable_ok _ Hr) Hj Hs Hn).
  pose proof (Z.mod_pos_bound (j - current_index s - 1) 16). lia.
Qed.

(** A second process; a turn in which process [i] runs and yields. *)
Definition pair_spawn := process_spawn_user 0x20000 demo_tab ∅ None 0x1000000 0x1FFF000 0x400000 0 false 0x1234.
Definition pair_sched : sched := with_tab demo_sched (fst (fst pair_spawn)).
Definition demo_turn (s : sched) : sched :=
  match dispatch s with Some (s1, i) => switched_back (scheduler_yield s1) i | None => s end.
Definition turn_of (i : Z) (s : sched) : bool :=
  match current_process (s_tab s), dispatch s with
  | None, Some (s1, j) =>
      (i =? j) && bool_decide (current_process (s_tab s1) = Some i) && state_eqb (state_of (s_tab s1) i) PROCESS_RUNNING &&
      bool_decide (current_process (s_tab (scheduler_yield s1)) = Some i) && state_eqb (state_of (s_tab s) 1) PROCESS_READY
  | _, _ => false
  end.

Lemma turn_round i s l : turn_of i s = true -> stays_ready 1 (demo_turn s) l -> stays_ready 1 s (i :: l).
Proof.
  unfold turn_of, demo_turn. destruct (current_process (s_tab s)) eqn:Ec; [done|].
  destruct (dispatch s) as [[s1 j]|] eqn:E; [|done]. intros Hb Hl.
  apply andb_prop in Hb as [Hb H4]. apply andb_prop in Hb as [Hb H3]. apply andb_prop in Hb as [Hb H2]. apply andb_prop in Hb as [H0 H1].
  apply Z.eqb_eq in H0 as <-. apply bool_decide_eq_true in H1, H3. apply state_eqb_eq in H2, H4.
  econstructor; [done| |done]. eapply (round_intro _ _ _ s1 (scheduler_yield s1)); try done.
  apply rtc_once. by eapply (ss_yield s1 i).
Qed.

Lemma pair_reachable : rtc kstep boot_sched pair_sched.
Proof.
  eapply rtc_r; [exact demo_reachable|]. apply ks_slice.
  apply (ss_spawn demo_sched 0x20000 ∅ None 0x1000000 0x1FFF000 0x400000 0 false 0x1234 (fst (fst pair_spawn)) (snd (fst pair_spawn)) (snd pair_spawn));
    [reflexivity|unfold is_u32; lia|lia|]. change (s_tab demo_sched) with demo_tab. fold pair_spawn. by destruct pair_spawn as [[? ?] ?].
Qed.

(** Two processes that keep yielding: process 1, READY all along, gets a turn
    among the next sixteen, and the scheduler can choose. *)
Lemma round_robin_fair_witness :
  exists s l, rtc kstep boot_sched s /\ stays_ready 1 s l /\ length l = 16%nat /\ l !! 0%nat = Some 0 /\ 1 ∈ l /\ dispatch s <> None.
Proof.
  set (l := [0; 1; 0; 1; 0; 1; 0; 1; 0; 1; 0; 1; 0; 1; 0; 1]).
  assert (Hs : stays_ready 1 pair_sched l).
  { subst l. do 16 (apply turn_round; [vm_compute; reflexivity|]). constructor. }
  destruct (round_robin_fair pair_sched 1 l pair_reachable ltac:(lia)) as [Hin Hd].
  exists pair_sched, l. split; [exact pair_reachable|]. split; [exact Hs|]. split; [reflexivity|]. split; [reflexivity|].
  split; [exact (Hin Hs (le_n 16))|]. apply Hd. vm_compute. reflexivity.
Defined.

(** *** The end of the pids *)

(** [alloc_pid] counts on without a check: after pid 2^32 - 1 comes pid 0, which
    stands for no process, and then pid 1 again. *)
Theorem pids_wrap_to_zero (t : ptable) : next_pid t = 2 ^ 32 - 1 ->
  let '(t1, pid1) := alloc_pid t in let '(t2, pid2) := alloc_pid t1 in let '(_, pid3) := alloc_pid t2 in
  (pid1, pid2, pid3) = (2 ^ 32 - 1, 0, 1).
Proof. intros E. unfold alloc_pid. cbn [next_pid]. by rewrite E. Qed.
