(* ===== verification/Pipe.v ===== *)
(** * Pipes ([kernel/pipe.c])

    A fixed pool of eight ring buffers with reference-counted ends and one
    registered waiter per direction.  Each turn of the [for (;;)] loops of
    [pipe_read] and [pipe_write] runs with interrupts off, so one turn is one
    step here: it returns to the caller, asks to be repeated, or blocks the
    current process, which repeats the loop when it runs again.  Other
    processes may run between turns. *)

From Stdlib Require Import ZArith Lia ZifyBool.
From stdpp Require Import base tactics numbers list option relations gmap.
From S2P Require Import Prelude Mem Process.
Local Open Scope Z_scope.

Definition PIPE_MAX : Z := 8.
Definition PIPE_BUF_SIZE : Z := 512.

Record pipe := mk_pipe {
  buf : list Z;
  head : Z;
  tail : Z;
  count : Z;
  in_use : bool;
  read_refs : Z;
  write_refs : Z;
  read_waiter : option Z;
  write_waiter : option Z
}.

Definition blank_pipe : pipe := mk_pipe (replicate 512 0) 0 0 0 false 0 0 None None.
#[export] Instance pipe_inhabited : Inhabited pipe := populate blank_pipe.

(** The pool and the process table whose states the pipes change. *)
Record kpipes := mk_kpipes {
  pipe_table : list pipe;
  k_tab : ptable
}.

Definition set_pipe (k : kpipes) (i : Z) (p : pipe) : kpipes := mk_kpipes ((pipe_table k).[i := p]) (k_tab k).
Definition set_tab (k : kpipes) (t : ptable) : kpipes := mk_kpipes (pipe_table k) t.
Definition get_pipe (k : kpipes) (i : Z) : pipe := (pipe_table k).[i].

(** How a turn of a blocking loop ends. *)
Inductive turn (A : Type) :=
| Return (a : A)
| Again (a : A)
| Blocked.
Arguments Return {A} _.
Arguments Again {A} _.
Arguments Blocked {A}.

(** ** Creation *)

Definition fresh_pipe (p : pipe) : pipe := mk_pipe (buf p) 0 0 0 true 1 1 None None.

Definition pipe_create (k : kpipes) : kpipes * option Z :=
  match find_from (fun i => negb (in_use (get_pipe k i))) 0 8 with
  | None => (k, None)
  | Some i => (set_pipe k i (fresh_pipe (get_pipe k i)), Some i)
  end.

(** ** Waking a registered process *)

Definition wake (t : ptable) (w : option Z) : ptable := process_make_ready t w.

Definition clear_write_waiter (p : pipe) : pipe :=
  mk_pipe (buf p) (head p) (tail p) (count p) (in_use p) (read_refs p) (write_refs p) (read_waiter p) None.
Definition clear_read_waiter (p : pipe) : pipe :=
  mk_pipe (buf p) (head p) (tail p) (count p) (in_use p) (read_refs p) (write_refs p) None (write_waiter p).

(** ** Reading *)

(** [while (read < len && p->count > 0)]; the buffer holds at most 512 bytes. *)
Fixpoint read_bytes (fuel : nat) (p : pipe) (len : Z) (out : list Z) : pipe * list Z :=
  match fuel with
  | O => (p, out)
  | S fuel' =>
      if (zlen out <? len) && (0 <? count p) then
        let p' := mk_pipe (buf p) (head p) (u32 (tail p + 1) mod PIPE_BUF_SIZE) (count p - 1) (in_use p)
                    (read_refs p) (write_refs p) (read_waiter p) (write_waiter p) in
        read_bytes fuel' p' len (out ++ [(buf p).[tail p]])
      else (p, out)
  end.

(** The current process registers and blocks. *)
Definition block_reader (p : pipe) (self : Z) : pipe :=
  mk_pipe (buf p) (head p) (tail p) (count p) (in_use p) (read_refs p) (write_refs p) (Some self) (write_waiter p).
Definition block_writer (p : pipe) (self : Z) : pipe :=
  mk_pipe (buf p) (head p) (tail p) (count p) (in_use p) (read_refs p) (write_refs p) (read_waiter p) (Some self).

(** One turn of [pipe_read]: the returned value and the bytes stored in
    [buf]. *)
Definition read_turn (p : pipe) (t : ptable) (len : Z) : pipe * ptable * turn (Z * list Z) :=
  if 0 <? count p then
    let '(p, out) := read_bytes 512 p len [] in
    (clear_write_waiter p, wake t (write_waiter p), Return (zlen out, out))
  else if write_refs p =? 0 then (p, t, Return (0, []))
  else
    match current_process t with
    | None => (p, t, Return (0, []))
    | Some self => (block_reader p self, upd t self (set_state PROCESS_BLOCKED), Blocked)
    end.

Definition pipe_read (k : kpipes) (pipe_idx : Z) (has_buf : bool) (len : Z) : kpipes * turn (Z * list Z) :=
  if (PIPE_MAX <=? pipe_idx) || negb has_buf then (k, Return (-1, []))
  else
    let '(p, t, r) := read_turn (get_pipe k pipe_idx) (k_tab k) len in
    (set_tab (set_pipe k pipe_idx p) t, r).

(** ** Writing *)

Fixpoint write_bytes (p : pipe) (bytes : list Z) : pipe :=
  match bytes with
  | [] => p
  | b :: rest =>
      write_bytes (mk_pipe ((buf p).[head p := u8 b]) (u32 (head p + 1) mod PIPE_BUF_SIZE) (tail p) (count p + 1)
        (in_use p) (read_refs p) (write_refs p) (read_waiter p) (write_waiter p)) rest
  end.

(** One turn of [pipe_write] with [written] bytes of [src] already accepted;
    [Again] carries the new [written]. *)
Definition write_turn (p : pipe) (t : ptable) (src : list Z) (written : Z) : pipe * ptable * turn Z :=
  if read_refs p =? 0 then (p, t, Return (-1))
  else
    let free_space := PIPE_BUF_SIZE - count p in
    if 0 <? free_space then
      let remaining := zlen src - written in
      let to_write := if remaining <? free_space then remaining else free_space in
      let p := write_bytes p (take (Z.to_nat to_write) (drop (Z.to_nat written) src)) in
      let written := written + to_write in
      (clear_read_waiter p, wake t (read_waiter p),
       if written =? zlen src then Return 0 else Again written)
    else
      match current_process t with
      | None => (p, t, Return (-1))
      | Some self => (block_writer p self, upd t self (set_state PROCESS_BLOCKED), Blocked)
      end.

Definition pipe_write (k : kpipes) (pipe_idx : Z) (src : option (list Z)) (written : Z) : kpipes * turn Z :=
  match src with
  | None => (k, Return (-1))
  | Some src =>
      if PIPE_MAX <=? pipe_idx then (k, Return (-1))
      else
        let '(p, t, r) := write_turn (get_pipe k pipe_idx) (k_tab k) src written in
        (set_tab (set_pipe k pipe_idx p) t, r)
  end.

(** ** References *)

Definition set_refs (p : pipe) (r w : Z) : pipe :=
  mk_pipe (buf p) (head p) (tail p) (count p) (in_use p) r w (read_waiter p) (write_waiter p).
Definition set_in_use (p : pipe) (u : bool) : pipe :=
  mk_pipe (buf p) (head p) (tail p) (count p) u (read_refs p) (write_refs p) (read_waiter p) (write_waiter p).

Definition pipe_add_read_ref (k : kpipes) (pipe_idx : Z) : kpipes :=
  if PIPE_MAX <=? pipe_idx then k
  else let p := get_pipe k pipe_idx in set_pipe k pipe_idx (set_refs p (u32 (read_refs p + 1)) (write_refs p)).

Definition pipe_add_write_ref (k : kpipes) (pipe_idx : Z) : kpipes :=
  if PIPE_MAX <=? pipe_idx then k
  else let p := get_pipe k pipe_idx in set_pipe k pipe_idx (set_refs p (read_refs p) (u32 (write_refs p + 1))).

Definition free_if_unreferenced (p : pipe) : pipe :=
  if (read_refs p =? 0) && (write_refs p =? 0) then set_in_use p false else p.

Definition release_read (p : pipe) (t : ptable) : pipe * ptable :=
  let p := if 0 <? read_refs p then set_refs p (read_refs p - 1) (write_refs p) else p in
  let '(p, t) := if read_refs p =? 0 then (clear_write_waiter p, wake t (write_waiter p)) else (p, t) in
  (free_if_unreferenced p, t).

Definition release_write (p : pipe) (t : ptable) : pipe * ptable :=
  let p := if 0 <? write_refs p then set_refs p (read_refs p) (write_refs p - 1) else p in
  let '(p, t) := if write_refs p =? 0 then (clear_read_waiter p, wake t (read_waiter p)) else (p, t) in
  (free_if_unreferenced p, t).

Definition pipe_release_read (k : kpipes) (pipe_idx : Z) : kpipes :=
  if PIPE_MAX <=? pipe_idx then k
  else let '(p, t) := release_read (get_pipe k pipe_idx) (k_tab k) in set_tab (set_pipe k pipe_idx p) t.

Definition pipe_release_write (k : kpipes) (pipe_idx : Z) : kpipes :=
  if PIPE_MAX <=? pipe_idx then k
  else let '(p, t) := release_write (get_pipe k pipe_idx) (k_tab k) in set_tab (set_pipe k pipe_idx p) t.

#[global] Arguments read_bytes : simpl never.

(** ** The queue a ring buffer represents *)

Definition contents (p : pipe) : list Z :=
  (fun j => (buf p).[(tail p + Z.of_nat j) mod PIPE_BUF_SIZE]) <$> seq 0 (Z.to_nat (count p)).

Record ring_ok (p : pipe) : Prop := {
  rk_buf : length (buf p) = 512%nat;
  rk_tail : 0 <= tail p < 512;
  rk_count : 0 <= count p <= 512;
  rk_head : head p = (tail p + count p) mod 512
}.

(** A waiter is registered only while there is something to wait for. *)
Record pipe_ok (p : pipe) : Prop := {
  pk_ring : ring_ok p;
  pk_refs : 0 <= read_refs p < 2 ^ 32 /\ 0 <= write_refs p < 2 ^ 32;
  pk_reader : read_waiter p <> None -> count p = 0 /\ 0 < write_refs p;
  pk_writer : write_waiter p <> None -> count p = 512 /\ 0 < read_refs p
}.

Lemma contents_length p : 0 <= count p -> zlen (contents p) = count p.
Proof. intros. unfold contents, zlen. rewrite length_fmap, length_seq. lia. Qed.

(** Taking a byte off the tail. *)
Lemma contents_read p p' :
  ring_ok p -> 0 < count p -> buf p' = buf p -> count p' = count p - 1 -> tail p' = (tail p + 1) mod 512 ->
  contents p = (buf p).[tail p] :: contents p'.
Proof.
  intros [] Hc Eb Ec Et. unfold contents. rewrite Eb, Ec, Et. change PIPE_BUF_SIZE with 512.
  replace (Z.to_nat (count p)) with (S (Z.to_nat (count p - 1))) by lia. cbn [seq fmap list_fmap]. f_equal.
  - f_equal. rewrite Z.add_0_r. apply Z.mod_small. lia.
  - rewrite <- seq_shift, <- list_fmap_compose. apply list_fmap_ext. intros i j _. cbn [compose]. f_equal.
    rewrite Zplus_mod_idemp_l. f_equal. lia.
Qed.

(** Adding one at the head. *)
Lemma contents_write p p' b :
  ring_ok p -> count p < 512 -> buf p' = (buf p).[head p := b] -> count p' = count p + 1 -> tail p' = tail p ->
  contents p' = contents p ++ [b].
Proof.
  intros [] Hc Eb Ec Et. unfold contents. rewrite Eb, Ec, Et. change PIPE_BUF_SIZE with 512.
  replace (Z.to_nat (count p + 1)) with (Z.to_nat (count p) + 1)%nat by lia. rewrite seq_app, fmap_app. cbn [seq fmap list_fmap].
  assert (Hh : 0 <= head p < 512) by (rewrite rk_head0; apply Z.mod_pos_bound; lia).
  f_equal.
  - apply list_fmap_ext. intros i j Hj. apply lookup_seq in Hj as [-> Hj]. apply zget_set_ne; [lia|apply Z.mod_pos_bound; lia|].
    rewrite rk_head0. Z.to_euclidean_division_equations; lia.
  - f_equal. rewrite Nat.add_0_l, Z2Nat.id, <- rk_head0 by lia. apply zget_set_eq. unfold zlen. lia.
Qed.

(** The fields reading and writing leave alone. *)
Definition same_ends (p p' : pipe) : Prop :=
  in_use p' = in_use p /\ read_refs p' = read_refs p /\ write_refs p' = write_refs p /\
  read_waiter p' = read_waiter p /\ write_waiter p' = write_waiter p.

Lemma read_bytes_spec fuel : forall p len out p' out',
  ring_ok p -> count p <= Z.of_nat fuel -> read_bytes fuel p len out = (p', out') ->
  ring_ok p' /\ same_ends p p' /\
  exists n, n = Z.to_nat (Z.min (count p) (len - zlen out)) /\
    out' = out ++ take n (contents p) /\ contents p' = drop n (contents p) /\ count p' = count p - Z.of_nat n.
Proof.
  induction fuel as [|fuel IH]; intros p len out p' out' Hr Hf; unfold read_bytes; fold read_bytes.
  - intros [= <- <-]. pose proof (rk_count _ Hr). split_and!; try done. exists 0%nat.
    split_and!; [lia|by rewrite take_0, app_nil_r|by rewrite drop_0|lia].
  - destruct ((zlen out <? len) && (0 <? count p)) eqn:E.
    + b2p. set (p1 := mk_pipe _ _ _ _ _ _ _ _ _). pose proof Hr as [Hb Ht Hc Hh].
      assert (Hr1 : ring_ok p1).
      { subst p1. change PIPE_BUF_SIZE with 512. split; cbn; [done|apply Z.mod_pos_bound; lia|lia|].
        rewrite u32_small by lia. rewrite Hh, Zplus_mod_idemp_l. f_equal. lia. }
      assert (Ec : contents p = (buf p).[tail p] :: contents p1).
      { apply contents_read; try done. subst p1. cbn. by rewrite u32_small by lia. }
      intros Hx. apply IH in Hx; [|done|cbn; lia]. destruct Hx as (Hr' & Hs' & n & Hn & -> & Hd & Hcnt).
      split_and!; [done|done|]. exists (S n). rewrite Ec. unfold zlen in *. rewrite length_app in Hn. cbn [length] in Hn.
      cbn [count] in *. subst p1; cbn [count] in *. split_and!; [lia| |done|lia].
      cbn [take]. by rewrite <- app_assoc.
    + intros [= <- <-]. pose proof (rk_count _ Hr). split_and!; try done. exists 0%nat.
      split_and!; [|by rewrite take_0, app_nil_r|by rewrite drop_0|lia].
      destruct (Z.ltb_spec (zlen out) len), (Z.ltb_spec 0 (count p)); try done; lia.
Qed.

Lemma write_bytes_spec bytes : forall p,
  ring_ok p -> Forall (fun b => 0 <= b < 256) bytes -> count p + zlen bytes <= 512 ->
  ring_ok (write_bytes p bytes) /\ same_ends p (write_bytes p bytes) /\
  contents (write_bytes p bytes) = contents p ++ bytes /\ count (write_bytes p bytes) = count p + zlen bytes.
Proof.
  unfold zlen. induction bytes as [|b bytes IH]; intros p Hr Hb Hc; cbn [write_bytes length] in *.
  - rewrite app_nil_r. split_and!; try done. lia.
  - inv Hb. pose proof Hr as [Hbf Ht Hcn Hh]. set (p1 := mk_pipe _ _ _ _ _ _ _ _ _).
    assert (Hh' : 0 <= head p < 512) by (rewrite Hh; apply Z.mod_pos_bound; lia).
    assert (Hr1 : ring_ok p1).
    { subst p1. change PIPE_BUF_SIZE with 512. split; cbn; [by rewrite zset_length|done|lia|].
      rewrite u32_small by lia. rewrite Hh, Zplus_mod_idemp_l. f_equal. lia. }
    assert (Ec : contents p1 = contents p ++ [b]).
    { apply contents_write; try done; [lia|]. subst p1. cbn. by rewrite u8_small by lia. }
    destruct (IH p1 Hr1) as (? & ? & -> & ->); [done|cbn; lia|]. rewrite Ec. split_and!; try done.
    + by rewrite <- app_assoc.
    + cbn. lia.
Qed.

(** ** One turn, on a well-formed pipe *)

(** What a turn of [pipe_read] does on each branch. *)
Inductive read_result (p : pipe) (t : ptable) (len : Z) : pipe -> ptable -> turn (Z * list Z) -> Prop :=
| rr_data p' n :
    0 < count p -> n = Z.to_nat (Z.min (count p) len) ->
    contents p' = drop n (contents p) -> count p' = count p - Z.of_nat n ->
    read_refs p' = read_refs p -> write_refs p' = write_refs p -> in_use p' = in_use p ->
    read_waiter p' = read_waiter p -> write_waiter p' = None ->
    read_result p t len p' (wake t (write_waiter p)) (Return (Z.of_nat n, take n (contents p)))
| rr_eof : count p = 0 -> write_refs p = 0 -> read_result p t len p t (Return (0, []))
| rr_no_process : count p = 0 -> write_refs p <> 0 -> current_process t = None -> read_result p t len p t (Return (0, []))
| rr_block self :
    count p = 0 -> write_refs p <> 0 -> current_process t = Some self ->
    read_result p t len (block_reader p self) (upd t self (set_state PROCESS_BLOCKED)) Blocked.

Lemma read_turn_spec p t len :
  pipe_ok p -> 0 <= len ->
  exists p' t' r, read_turn p t len = (p', t', r) /\ read_result p t len p' t' r /\ pipe_ok p'.
Proof.
  intros [Hr Hrf Hrd Hwr] Hl. unfold read_turn. pose proof (rk_count _ Hr).
  destruct (0 <? count p) eqn:E; b2p.
  - destruct (read_bytes 512 p len []) as [p1 out] eqn:Eb.
    destruct (read_bytes_spec 512 p len [] p1 out Hr) as (Hr1 & (Eu & Err & Ewr & Erw & Eww) & n & Hn & -> & Hd & Hc); [lia|done|].
    unfold zlen in Hn. cbn [length] in Hn. replace (len - Z.of_nat 0) with len in Hn by lia.
    cbn [app].
    assert (Hz : zlen (take n (contents p)) = Z.of_nat n).
    { pose proof (contents_length p). unfold zlen in *. rewrite length_take. lia. }
    rewrite Hz. rewrite Eww. eexists _, _, _. split; [reflexivity|]. split.
    + apply rr_data; try done.
    + split; cbn; [by destruct Hr1|by rewrite Err, Ewr| |done].
      rewrite Erw. intros Hw. apply Hrd in Hw. lia.
  - assert (Hc0 : count p = 0) by lia. destruct (Z.eqb_spec (write_refs p) 0).
    { eexists _, _, _. split; [reflexivity|]. split; [by apply rr_eof|done]. }
    destruct (current_process t) as [self|] eqn:Es; eexists _, _, _; (split; [reflexivity|]).
    + split; [by apply rr_block|]. split; cbn; [by destruct Hr|done|lia|done].
    + split; [by apply rr_no_process|done].
Qed.

(** What a turn of [pipe_write] does on each branch; [src] from [written]. *)
Inductive write_result (p : pipe) (t : ptable) (src : list Z) (written : Z) : pipe -> ptable -> turn Z -> Prop :=
| wr_broken : read_refs p = 0 -> write_result p t src written p t (Return (-1))
| wr_data p' n :
    0 < read_refs p -> count p < 512 -> n = Z.min (zlen src - written) (512 - count p) ->
    contents p' = contents p ++ take (Z.to_nat n) (drop (Z.to_nat written) src) -> count p' = count p + n ->
    read_refs p' = read_refs p -> write_refs p' = write_refs p -> in_use p' = in_use p ->
    read_waiter p' = None -> write_waiter p' = write_waiter p ->
    write_result p t src written p' (wake t (read_waiter p))
      (if written + n =? zlen src then Return 0 else Again (written + n))
| wr_no_process : 0 < read_refs p -> count p = 512 -> current_process t = None -> write_result p t src written p t (Return (-1))
| wr_block self :
    0 < read_refs p -> count p = 512 -> current_process t = Some self ->
    write_result p t src written (block_writer p self) (upd t self (set_state PROCESS_BLOCKED)) Blocked.

Lemma write_turn_spec p t src written :
  pipe_ok p -> Forall (fun b => 0 <= b < 256) src -> 0 <= written <= zlen src ->
  exists p' t' r, write_turn p t src written = (p', t', r) /\ write_result p t src written p' t' r /\ pipe_ok p'.
Proof.
  intros [Hr Hrf Hrd Hwr] Hb Hw. unfold write_turn. pose proof (rk_count _ Hr). change PIPE_BUF_SIZE with 512.
  destruct (Z.eqb_spec (read_refs p) 0) as [E0|E0].
  { eexists _, _, _. split; [reflexivity|]. split; [by apply wr_broken|done]. }
  destruct (0 <? 512 - count p) eqn:E; b2p.
  - set (n := if _ <? _ then _ else _).
    assert (Hn : n = Z.min (zlen src - written) (512 - count p)) by (subst n; destruct (Z.ltb_spec (zlen src - written) (512 - count p)); lia).
    clearbody n. set (bytes := take (Z.to_nat n) (drop (Z.to_nat written) src)).
    assert (Hlen : zlen bytes = n).
    { subst bytes. unfold zlen in *. rewrite length_take, length_drop. lia. }
    destruct (write_bytes_spec bytes p Hr) as (Hr1 & (Eu & Err & Ewr & Erw & Eww) & Hc & Hcnt);
      [by apply Forall_take, Forall_drop|lia|].
    rewrite Erw. eexists _, _, _. split; [reflexivity|]. split.
    + eapply wr_data; try done; cbn; lia.
    + split; cbn; [by destruct Hr1|by rewrite Err, Ewr|done|].
      rewrite Eww. intros Hx. apply Hwr in Hx. lia.
  - assert (Hc : count p = 512) by lia.
    destruct (current_process t) as [self|] eqn:Es; eexists _, _, _; (split; [reflexivity|]).
    + split; [apply wr_block; [lia|done..]|]. split; cbn; [by destruct Hr|done|done|lia].
    + split; [apply wr_no_process; [lia|done..]|done].
Qed.

(** Releasing an end: the reference goes, the other side's waiter is woken
    when it was the last, and the slot is free when no end is left. *)
Lemma release_read_spec p t p' t' :
  pipe_ok p -> release_read p t = (p', t') ->
  pipe_ok p' /\ contents p' = contents p /\ count p' = count p /\ read_refs p' = Z.max 0 (read_refs p - 1) /\
  write_refs p' = write_refs p /\ read_waiter p' = read_waiter p /\
  in_use p' = (if (read_refs p' =? 0) && (write_refs p' =? 0) then false else in_use p) /\
  (if read_refs p' =? 0 then write_waiter p' = None /\ t' = wake t (write_waiter p)
   else write_waiter p' = write_waiter p /\ t' = t).
Proof.
  destruct p as [b h tl c u r w rw ww]. intros [[Hb Ht Hc Hh] Hrf Hrd Hwr]. cbn [buf head tail count in_use read_refs write_refs read_waiter write_waiter] in *.
  unfold release_read, free_if_unreferenced, set_in_use, set_refs, clear_write_waiter, clear_read_waiter.
  cbn [buf head tail count in_use read_refs write_refs read_waiter write_waiter]. destruct (Z.ltb_spec 0 r); cbn [buf head tail count in_use read_refs write_refs read_waiter write_waiter];
    [destruct (Z.eqb_spec (r - 1) 0)|destruct (Z.eqb_spec r 0); [|lia]]; cbn [buf head tail count in_use read_refs write_refs read_waiter write_waiter andb];
    repeat match goal with |- context [?x =? 0] => destruct (Z.eqb_spec x 0); try lia; cbn [buf head tail count in_use read_refs write_refs read_waiter write_waiter andb] end;
    intros [= <- <-]; cbn [buf head tail count in_use read_refs write_refs read_waiter write_waiter]; rewrite ?andb_false_r; (split; [split; [split; assumption|..]; cbn [buf head tail count in_use read_refs write_refs read_waiter write_waiter]; done || lia || (intros Hx; (apply Hwr in Hx || apply Hrd in Hx); lia) || congruence|]);
    split_and!; try done; try lia;
    repeat match goal with |- context [?x =? 0] => destruct (Z.eqb_spec x 0); try lia; cbn [andb] end; done.
Qed.

Lemma release_write_spec p t p' t' :
  pipe_ok p -> release_write p t = (p', t') ->
  pipe_ok p' /\ contents p' = contents p /\ count p' = count p /\ write_refs p' = Z.max 0 (write_refs p - 1) /\
  read_refs p' = read_refs p /\ write_waiter p' = write_waiter p /\
  in_use p' = (if (read_refs p' =? 0) && (write_refs p' =? 0) then false else in_use p) /\
  (if write_refs p' =? 0 then read_waiter p' = None /\ t' = wake t (read_waiter p)
   else read_waiter p' = read_waiter p /\ t' = t).
Proof.
  destruct p as [b h tl c u r w rw ww]. intros [[Hb Ht Hc Hh] Hrf Hrd Hwr]. cbn [buf head tail count in_use read_refs write_refs read_waiter write_waiter] in *.
  unfold release_write, free_if_unreferenced, set_in_use, set_refs, clear_write_waiter, clear_read_waiter.
  cbn [buf head tail count in_use read_refs write_refs read_waiter write_waiter]. destruct (Z.ltb_spec 0 w); cbn [buf head tail count in_use read_refs write_refs read_waiter write_waiter];
    [destruct (Z.eqb_spec (w - 1) 0)|destruct (Z.eqb_spec w 0); [|lia]]; cbn [buf head tail count in_use read_refs write_refs read_waiter write_waiter andb];
    repeat match goal with |- context [?x =? 0] => destruct (Z.eqb_spec x 0); try lia; cbn [buf head tail count in_use read_refs write_refs read_waiter write_waiter andb] end;
    intros [= <- <-]; cbn [buf head tail count in_use read_refs write_refs read_waiter write_waiter]; rewrite ?andb_false_r; (split; [split; [by split|..]; cbn [buf head tail count in_use read_refs write_refs read_waiter write_waiter]; done || lia || (intros Hx; (apply Hwr in Hx || apply Hrd in Hx); lia) || congruence|]);
    split_and!; try done; try lia;
    repeat match goal with |- context [?x =? 0] => destruct (Z.eqb_spec x 0); try lia; cbn [andb] end; done.
Qed.

(** ** Sequences of operations on one pipe *)

Inductive pipe_op :=
| OpRead (len : Z)
| OpWrite (src : list Z) (written : Z)
| OpAddRead
| OpAddWrite
| OpReleaseRead
| OpReleaseWrite.

(** The new pipe and table, the bytes accepted from a writer and the bytes
    delivered to a reader. *)
Definition run_op (p : pipe) (t : ptable) (op : pipe_op) : pipe * ptable * list Z * list Z :=
  match op with
  | OpRead len =>
      let '(p', t', r) := read_turn p t len in
      (p', t', [], match r with Return (_, out) => out | _ => [] end)
  | OpWrite src written =>
      let '(p', t', r) := write_turn p t src written in
      (p', t', match r with
               | Return 0 => drop (Z.to_nat written) src
               | Again w => take (Z.to_nat (w - written)) (drop (Z.to_nat written) src)
               | _ => []
               end, [])
  | OpAddRead => (set_refs p (u32 (read_refs p + 1)) (write_refs p), t, [], [])
  | OpAddWrite => (set_refs p (read_refs p) (u32 (write_refs p + 1)), t, [], [])
  | OpReleaseRead => let '(p', t') := release_read p t in (p', t', [], [])
  | OpReleaseWrite => let '(p', t') := release_write p t in (p', t', [], [])
  end.

Definition op_wf (p : pipe) (op : pipe_op) : Prop :=
  match op with
  | OpRead len => 0 <= len
  | OpWrite src written => Forall (fun b => 0 <= b < 256) src /\ 0 <= written <= zlen src
  | OpAddRead => read_refs p < 2 ^ 32 - 1
  | OpAddWrite => write_refs p < 2 ^ 32 - 1
  | _ => True
  end.

Record stream := mk_stream { st_pipe : pipe; st_tab : ptable; st_sent : list Z; st_got : list Z }.

(** Any process operates on the pipe; anything else may happen to the
    table. *)
Inductive stream_step : stream -> stream -> Prop :=
| st_op p t s g op p' t' acc del :
    op_wf p op -> run_op p t op = (p', t', acc, del) ->
    stream_step (mk_stream p t s g) (mk_stream p' t' (s ++ acc) (g ++ del))
| st_other p t t' s g : stream_step (mk_stream p t s g) (mk_stream p t' s g).

Lemma add_read_ok p : pipe_ok p -> read_refs p < 2 ^ 32 - 1 -> pipe_ok (set_refs p (u32 (read_refs p + 1)) (write_refs p)).
Proof.
  intros [[] ? ? Hw] Hr. rewrite u32_small by lia. split; cbn; [by split|lia|done|]. intros Hx%Hw. lia.
Qed.

Lemma add_write_ok p : pipe_ok p -> write_refs p < 2 ^ 32 - 1 -> pipe_ok (set_refs p (read_refs p) (u32 (write_refs p + 1))).
Proof.
  intros [[] ? Hr ?] Hw. rewrite u32_small by lia. split; cbn; [by split|lia| |done]. intros Hx%Hr. lia.
Qed.

Lemma run_op_stream p t op p' t' acc del :
  pipe_ok p -> op_wf p op -> run_op p t op = (p', t', acc, del) ->
  pipe_ok p' /\ contents p ++ acc = del ++ contents p'.
Proof.
  intros Hp Hw. destruct op; cbn [run_op op_wf] in *.
  - destruct (read_turn_spec p t len Hp Hw) as (q & t1 & r & -> & Hr & Hq). intros [= <- <- <- <-].
    split; [done|]. rewrite app_nil_r. destruct Hr as [? ? ? ? -> | | |]; try done. by rewrite take_drop.
  - destruct Hw as [Hb Hw]. destruct (write_turn_spec p t src written Hp Hb Hw) as (q & t1 & r & -> & Hr & Hq).
    intros [= <- <- <- <-]. split; [done|].
    destruct Hr as [|q n _ _ -> -> _ _ _ _ _ _| |]; cbn [app]; rewrite ?app_nil_r; try done.
    set (n := Z.min _ _). f_equal. destruct (Z.eqb_spec (written + n) (zlen src)) as [E|E].
    + unfold zlen in *. rewrite take_ge by (rewrite length_drop; lia). done.
    + by replace (written + n - written) with n by lia.
  - intros [= <- <- <- <-]. rewrite app_nil_r. split; [by apply add_read_ok|done].
  - intros [= <- <- <- <-]. rewrite app_nil_r. split; [by apply add_write_ok|done].
  - destruct (release_read p t) as [q t1] eqn:E. intros [= <- <- <- <-]. rewrite app_nil_r.
    destruct (release_read_spec p t q t1 Hp E) as (? & -> & _). done.
  - destruct (release_write p t) as [q t1] eqn:E. intros [= <- <- <- <-]. rewrite app_nil_r.
    destruct (release_write_spec p t q t1 Hp E) as (? & -> & _). done.
Qed.

Definition stream_ok (s : stream) : Prop :=
  pipe_ok (st_pipe s) /\ st_sent s = st_got s ++ contents (st_pipe s).

Lemma stream_step_ok s s' : stream_step s s' -> stream_ok s -> stream_ok s'.
Proof.
  intros [p t sn g op p' t' acc del Hw E|] [Hp Hs]; [|done]. cbn in *.
  destruct (run_op_stream _ _ _ _ _ _ _ Hp Hw E) as [Hp' Ec]. split; [done|]. cbn.
  rewrite Hs, <- !app_assoc. by rewrite Ec.
Qed.

Lemma fresh_pipe_ok p : length (buf p) = 512%nat -> pipe_ok (fresh_pipe p) /\ contents (fresh_pipe p) = [].
Proof. intros. split; [|done]. split; cbn; [by split; cbn; try lia|lia|done|done]. Qed.

(** *** Waking *)

Definition reader_waits (p : pipe) (t : ptable) (r : Z) : Prop :=
  read_waiter p = Some r /\ state_of t r = PROCESS_BLOCKED /\ contents p = [] /\ 0 < write_refs p.
Definition writer_waits (p : pipe) (t : ptable) (w : Z) : Prop :=
  write_waiter p = Some w /\ state_of t w = PROCESS_BLOCKED /\ zlen (contents p) = 512 /\ 0 < read_refs p.

Lemma wake_self t r : has16 t -> 0 <= r < 16 -> state_of t r = PROCESS_BLOCKED -> state_of (wake t (Some r)) r = PROCESS_READY.
Proof.
  intros Ht Hr Hb. unfold wake, process_make_ready. apply state_eqb_eq in Hb. rewrite Hb. unfold state_of.
  rewrite slot_upd, Z.eqb_refl by (done || lia). done.
Qed.

Lemma wake_other t w r :
  has16 t -> 0 <= r < 16 -> (forall x, w = Some x -> 0 <= x < 16) -> state_of t r = PROCESS_BLOCKED ->
  state_of (wake t w) r = PROCESS_BLOCKED \/ state_of (wake t w) r = PROCESS_READY.
Proof.
  intros Ht Hr Hw Hb. destruct w as [x|]; [|by left]. specialize (Hw x eq_refl). unfold wake, process_make_ready.
  destruct (state_eqb _ _); [|by left]. unfold state_of. rewrite slot_upd by (done || lia).
  destruct (x =? r); [by right|by left].
Qed.

Lemma empty_count p : ring_ok p -> contents p = [] <-> count p = 0.
Proof.
  intros [_ _ Hc _]. unfold contents. split.
  - intros E. apply (f_equal length) in E. rewrite length_fmap, length_seq in E. simpl in E. lia.
  - intros ->. done.
Qed.

Lemma reader_not_lost p t r op p' t' acc del :
  pipe_ok p -> has16 t -> 0 <= r < 16 -> reader_waits p t r -> op_wf p op -> (forall len, op <> OpRead len) ->
  run_op p t op = (p', t', acc, del) -> reader_waits p' t' r \/ state_of t' r = PROCESS_READY.
Proof.
  intros Hp Ht Hr (Hw & Hb & Hc & Hwr) Hop Hnr. pose proof (pk_ring _ Hp) as Hring.
  assert (Hww : write_waiter p = None).
  { destruct (write_waiter p) eqn:E; [|done]. destruct (pk_writer _ Hp); [by rewrite E|]. apply empty_count in Hc; [lia|done]. }
  destruct op; cbn [run_op op_wf] in *; [by destruct (Hnr len)| | | | |].
  - destruct Hop as [Hby Hwn]. destruct (write_turn_spec p t src written Hp Hby Hwn) as (q & t1 & x & -> & Hres & Hq).
    intros [= <- <- _ _]. apply empty_count in Hc; [|done].
    destruct Hres as [|q n _ _ _ _ _ _ _ _ _ _| |]; try lia.
    + left. split_and!; try done. by apply empty_count.
    + right. rewrite Hw. by apply wake_self.
  - intros [= <- <- _ _]. by left.
  - intros [= <- <- _ _]. left. split_and!; try done. cbn. rewrite u32_small; [lia|]. destruct (pk_refs _ Hp). lia.
  - destruct (release_read p t) as [q t1] eqn:E. intros [= <- <- _ _].
    destruct (release_read_spec p t q t1 Hp E) as (_ & Ec & _ & _ & Ew & Erw & _ & Hif). left. unfold reader_waits.
    rewrite Ec, Ew, Erw. split_and!; try done. rewrite Hww in Hif. destruct (read_refs q =? 0); by destruct Hif as [_ ->].
  - destruct (release_write p t) as [q t1] eqn:E. intros [= <- <- _ _].
    destruct (release_write_spec p t q t1 Hp E) as (Hq & Ec & _ & Ew & _ & _ & _ & Hif).
    destruct (Z.eqb_spec (write_refs q) 0); destruct Hif as [Hrw ->]; [right; rewrite Hw; by apply wake_self|].
    left. unfold reader_waits. rewrite Ec, Hrw. split_and!; try done. destruct (pk_refs _ Hq). lia.
Qed.

Lemma writer_not_lost p t w op p' t' acc del :
  pipe_ok p -> has16 t -> 0 <= w < 16 -> writer_waits p t w -> op_wf p op -> (forall src n, op <> OpWrite src n) ->
  run_op p t op = (p', t', acc, del) -> writer_waits p' t' w \/ state_of t' w = PROCESS_READY.
Proof.
  intros Hp Ht Hr (Hw & Hb & Hc & Hrr) Hop Hnr. pose proof (pk_ring _ Hp) as Hring. pose proof (rk_count _ Hring) as Hcnt.
  rewrite contents_length in Hc by lia.
  assert (Hrw : read_waiter p = None).
  { destruct (read_waiter p) eqn:E; [|done]. destruct (pk_reader _ Hp); [by rewrite E|]. lia. }
  destruct op; cbn [run_op op_wf] in *; [|by destruct (Hnr src written)| | | |].
  - destruct (read_turn_spec p t len Hp Hop) as (q & t1 & x & -> & Hres & Hq). intros [= <- <- _ _].
    destruct Hres as [q n _ _ _ _ _ _ _ _ _| | |]; try lia. right. rewrite Hw. by apply wake_self.
  - intros [= <- <- _ _]. left. split_and!; try done; [rewrite contents_length; cbn; lia|].
    cbn. rewrite u32_small; [lia|]. destruct (pk_refs _ Hp). lia.
  - intros [= <- <- _ _]. left. split_and!; try done. rewrite contents_length; cbn; lia.
  - destruct (release_read p t) as [q t1] eqn:E. intros [= <- <- _ _].
    destruct (release_read_spec p t q t1 Hp E) as (Hq & Ec & Ecn & Er & _ & _ & _ & Hif).
    destruct (Z.eqb_spec (read_refs q) 0); destruct Hif as [Hww ->]; [right; rewrite Hw; by apply wake_self|].
    left. unfold writer_waits. rewrite Hww, contents_length by lia. split_and!; try done; [lia|]. destruct (pk_refs _ Hq). lia.
  - destruct (release_write p t) as [q t1] eqn:E. intros [= <- <- _ _].
    destruct (release_write_spec p t q t1 Hp E) as (_ & Ec & Ecn & _ & Er & Eww & _ & Hif). left. unfold writer_waits.
    rewrite Er, Eww, contents_length by lia. split_and!; try done; [|lia]. rewrite Hrw in Hif.
    destruct (write_refs q =? 0); by destruct Hif as [_ ->].
Qed.

(** ** Properties *)

(** C21 A pipe is a FIFO byte queue of at most 512 bytes: whatever the order
    in which processes read, write, duplicate and close its ends, the bytes
    accepted so far are the bytes delivered so far followed by the bytes
    still in the ring buffer.  No byte is lost, duplicated or reordered. *)
Theorem pipe_is_fifo (p0 : pipe) (t0 : ptable) (s : stream) :
  length (buf p0) = 512%nat ->
  rtc stream_step (mk_stream (fresh_pipe p0) t0 [] []) s ->
  st_sent s = st_got s ++ contents (st_pipe s) /\ zlen (contents (st_pipe s)) <= 512.
Proof.
  intros Hb Hr. destruct (fresh_pipe_ok p0 Hb) as [Hok Hc].
  assert (Hs : stream_ok s).
  { revert Hr. assert (H0 : stream_ok (mk_stream (fresh_pipe p0) t0 [] [])) by (by split).
    revert H0. generalize (mk_stream (fresh_pipe p0) t0 [] []). intros s0 H0 Hr.
    induction Hr as [|x y z Hxy _ IH]; [done|]. apply IH. by eapply stream_step_ok. }
  destruct Hs as [Hp Hs]. pose proof (rk_count _ (pk_ring _ Hp)). split; [done|]. rewrite contents_length; lia.
Qed.

Lemma pipe_is_fifo_witness :
  exists s, rtc stream_step (mk_stream (fresh_pipe blank_pipe) boot_ptable [] []) s /\
    st_sent s = [1; 2; 3] /\ st_got s = [1; 2] /\ contents (st_pipe s) = [3].
Proof.
  destruct (run_op (fresh_pipe blank_pipe) boot_ptable (OpWrite [1; 2; 3] 0)) as [[[p1 t1] a1] d1] eqn:E1.
  destruct (run_op p1 t1 (OpRead 2)) as [[[p2 t2] a2] d2] eqn:E2.
  assert (Hr : rtc stream_step (mk_stream (fresh_pipe blank_pipe) boot_ptable [] []) (mk_stream p2 t2 (([] ++ a1) ++ a2) (([] ++ d1) ++ d2))).
  { eapply rtc_l; [eapply st_op; [|exact E1]; cbn; split; [repeat constructor; lia|unfold zlen; cbn; lia]|].
    eapply rtc_once. eapply st_op; [|exact E2]. cbn. lia. }
  assert (Ha : ([] ++ a1) ++ a2 = [1; 2; 3] /\ ([] ++ d1) ++ d2 = [1; 2]).
  { vm_compute in E1. injection E1 as <- <- <- <-. vm_compute in E2. injection E2 as <- <- <- <-. split; reflexivity. }
  destruct (pipe_is_fifo blank_pipe boot_ptable _ eq_refl Hr) as [E _]. cbn [st_sent st_got st_pipe] in E.
  destruct Ha as [Ha Hd]. rewrite Ha, Hd in E. exists (mk_stream p2 t2 (([] ++ a1) ++ a2) (([] ++ d1) ++ d2)).
  split; [exact Hr|]. cbn [st_sent st_got st_pipe]. split; [exact Ha|]. split; [exact Hd|].
  change ([1; 2; 3] = [1; 2] ++ contents p2) in E. injection E as <-. reflexivity.
Defined.

(** C22 No wake-up is lost.  A turn of pipe_read that blocks leaves the reader
    registered, with the pipe empty and a writer still open; and as long as
    the other processes only write to the pipe and duplicate or close its
    ends, the reader either still waits for exactly that reason or has been
    made READY.  The same holds for a blocked writer and a full pipe. *)
Theorem pipe_no_lost_wakeup (p p' : pipe) (t t' : ptable) (i : Z) (op : pipe_op) (acc del : list Z) :
  pipe_ok p -> has16 t -> 0 <= i < 16 -> op_wf p op -> run_op p t op = (p', t', acc, del) ->
  (forall len, op = OpRead len -> current_process t = Some i -> contents p = [] -> 0 < write_refs p -> reader_waits p' t' i) /\
  ((forall len, op <> OpRead len) -> reader_waits p t i -> reader_waits p' t' i \/ state_of t' i = PROCESS_READY) /\
  (forall src n, op = OpWrite src n -> current_process t = Some i -> zlen (contents p) = 512 -> 0 < read_refs p -> writer_waits p' t' i) /\
  ((forall src n, op <> OpWrite src n) -> writer_waits p t i -> writer_waits p' t' i \/ state_of t' i = PROCESS_READY).
Proof.
  intros Hp Ht Hi Hop E. pose proof (pk_ring _ Hp) as Hr. pose proof (rk_count _ Hr). split_and!.
  - intros len -> Hc Hem Hw. cbn [run_op] in E. unfold read_turn in E. pose proof Hem as Hc0. apply empty_count in Hc0; [|done].
    replace (0 <? count p) with false in E by lia. replace (write_refs p =? 0) with false in E by lia.
    rewrite Hc in E. injection E as <- <- _ _. split_and!; try done. unfold state_of. by rewrite slot_upd, Z.eqb_refl by (done || lia).
  - intros Hn Hw. by eapply (reader_not_lost p t i op p' t' acc del).
  - intros src n -> Hc Hfull Hrr. rewrite contents_length in Hfull by lia. cbn [run_op] in E. unfold write_turn in E.
    replace (read_refs p =? 0) with false in E by lia. change PIPE_BUF_SIZE with 512 in E.
    replace (0 <? 512 - count p) with false in E by lia. rewrite Hc in E. injection E as <- <- _ _.
    unfold writer_waits. rewrite contents_length by (cbn; lia). cbn. split_and!; try done.
    unfold state_of. by rewrite slot_upd, Z.eqb_refl by (done || lia).
  - intros Hn Hw. by eapply (writer_not_lost p t i op p' t' acc del).
Qed.

(** A running reader on an empty pipe. *)
Definition demo_reader_tab : ptable :=
  mk_ptable ((process_table boot_ptable).[3 := set_pid 7 (set_state PROCESS_RUNNING blank_process)]) (Some 3) 8.

Lemma pipe_no_lost_wakeup_witness :
  exists p t, reader_waits p t 3 /\
    forall p' t' acc del, run_op p t (OpWrite [65] 0) = (p', t', acc, del) ->
      reader_waits p' t' 3 \/ state_of t' 3 = PROCESS_READY.
Proof.
  destruct (fresh_pipe_ok blank_pipe eq_refl) as [Hok Hc].
  destruct (run_op (fresh_pipe blank_pipe) demo_reader_tab (OpRead 10)) as [[[p1 t1] a1] d1] eqn:E1.
  assert (Hl : has16 demo_reader_tab) by reflexivity.
  destruct (pipe_no_lost_wakeup (fresh_pipe blank_pipe) p1 demo_reader_tab t1 3 (OpRead 10) a1 d1 Hok Hl ltac:(lia) ltac:(cbn; lia) E1)
    as [Hw _].
  specialize (Hw 10 eq_refl eq_refl Hc ltac:(cbn; lia)). exists p1, t1. split; [exact Hw|].
  assert (Hok1 : pipe_ok p1) by exact (proj1 (run_op_stream _ _ (OpRead 10) _ _ _ _ Hok ltac:(cbn; lia) E1)).
  assert (Hl1 : has16 t1) by (vm_compute in E1; injection E1 as _ <- _ _; reflexivity).
  intros p' t' acc del E.
  exact (proj1 (proj2 (pipe_no_lost_wakeup p1 p' t1 t' 3 (OpWrite [65] 0) acc del Hok1 Hl1 ltac:(lia)
    ltac:(cbn; split; [repeat constructor; lia|unfold zlen; cbn; lia]) E)) ltac:(discriminate) Hw).
Defined.

(** The pool. *)
Record pool_ok (k : kpipes) : Prop := {
  po_len : length (pipe_table k) = 8%nat;
  po_pipes : Forall pipe_ok (pipe_table k)
}.

Lemma pool_get k i : pool_ok k -> 0 <= i < 8 -> pipe_ok (get_pipe k i).
Proof. intros [Hl Hf] Hi. unfold get_pipe. apply zget_forall; [done|]. unfold zlen. lia. Qed.

Lemma get_set_pipe k i j p : pool_ok k -> 0 <= i < 8 -> 0 <= j ->
  get_pipe (set_pipe k i p) j = if i =? j then p else get_pipe k j.
Proof. intros [Hl _] Hi Hj. unfold get_pipe, set_pipe. cbn [pipe_table]. apply zget_set; [unfold zlen; lia|done]. Qed.

Lemma set_pipe_pool k i p t : pool_ok k -> pipe_ok p -> pool_ok (set_tab (set_pipe k i p) t).
Proof. intros [Hl Hf] Hp. split; cbn [pipe_table set_tab set_pipe]; [by rewrite zset_length|by apply zset_forall]. Qed.

(** The contract of pipe_read on every branch: a bad index or a null
    buffer is refused with -1; available bytes are delivered at once, as many
    as fit and in order; an empty pipe without writers is end of file; and
    only an empty pipe with a writer left blocks the caller.  Other pipes are
    untouched and the pool stays well-formed. *)
Theorem pipe_read_contract (k k' : kpipes) (idx len : Z) (has_buf : bool) (r : turn (Z * list Z)) :
  pool_ok k -> 0 <= idx -> 0 <= len -> pipe_read k idx has_buf len = (k', r) ->
  let p := get_pipe k idx in
  pool_ok k' /\ (forall j, 0 <= j < 8 -> j <> idx -> get_pipe k' j = get_pipe k j) /\
  (if (8 <=? idx) || negb has_buf then r = Return (-1, []) /\ k' = k
   else if negb (bool_decide (contents p = [])) then
     let n := Z.to_nat (Z.min (zlen (contents p)) len) in
     r = Return (Z.of_nat n, take n (contents p)) /\ contents (get_pipe k' idx) = drop n (contents p)
   else if write_refs p =? 0 then r = Return (0, []) /\ get_pipe k' idx = p
   else match current_process (k_tab k) with
        | None => r = Return (0, [])
        | Some self => r = Blocked /\ read_waiter (get_pipe k' idx) = Some self /\ contents (get_pipe k' idx) = []
        end).
Proof.
  intros Hk Hi Hl. unfold pipe_read. change PIPE_MAX with 8. destruct ((8 <=? idx) || negb has_buf) eqn:Eb.
  { intros [= <- <-]. done. }
  b2p. pose proof (pool_get k idx Hk ltac:(lia)) as Hp. pose proof (pk_ring _ Hp) as Hr. pose proof (rk_count _ Hr) as Hcn.
  destruct (read_turn_spec (get_pipe k idx) (k_tab k) len Hp Hl) as (p' & t' & x & -> & Hres & Hp'). intros [= <- <-]. cbv zeta.
  assert (Hg : forall j, 0 <= j -> get_pipe (set_tab (set_pipe k idx p') t') j = if idx =? j then p' else get_pipe k j).
  { intros j Hj. apply (get_set_pipe k idx j p' Hk ltac:(lia) Hj). }
  split_and!.
  - by apply set_pipe_pool.
  - intros j Hj Hne. rewrite Hg by lia. by replace (idx =? j) with false by lia.
  - rewrite Hg, Z.eqb_refl by lia. pose proof (empty_count _ Hr) as He. destruct Hres as [q n Hc -> Hd _ _ _ _ _ _|Hc Hw|Hc Hw Hcur|self Hc Hw Hcur].
    + rewrite bool_decide_false by (rewrite He; lia). cbn [negb]. rewrite contents_length by lia. done.
    + rewrite bool_decide_true by (by apply He). cbn [negb]. rewrite Hw. done.
    + rewrite bool_decide_true by (by apply He). cbn [negb]. replace (write_refs (get_pipe k idx) =? 0) with false by lia.
      by rewrite Hcur.
    + rewrite bool_decide_true by (by apply He). cbn [negb]. replace (write_refs (get_pipe k idx) =? 0) with false by lia.
      rewrite Hcur. split_and!; try done. by apply He.
Qed.

Definition boot_pipes : kpipes := mk_kpipes (replicate 8 blank_pipe) boot_ptable.

Lemma boot_pool_ok : pool_ok boot_pipes.
Proof.
  split; [done|]. apply Forall_replicate. split; cbn; [by split; cbn; try lia|lia|done|done].
Qed.

Lemma pipe_read_contract_witness :
  exists k', pipe_read boot_pipes 9 true 5 = (k', Return (-1, [])) /\ pool_ok k'.
Proof.
  exists boot_pipes. split; [reflexivity|].
  exact (proj1 (pipe_read_contract boot_pipes boot_pipes 9 5 true (Return (-1, [])) boot_pool_ok ltac:(lia) ltac:(lia) eq_refl)).
Defined.

(** The contract of pipe_write on every branch: without readers it fails
    with -1 and accepts nothing; while there is room it accepts exactly the
    next bytes of the source, as many as fit, and reports success only when
    the last one has been accepted, so a write is never short; and only a full
    pipe with a reader left blocks the caller. *)
Theorem pipe_write_contract (k k' : kpipes) (idx written : Z) (src : list Z) (r : turn Z) :
  pool_ok k -> 0 <= idx < 8 -> Forall (fun b => 0 <= b < 256) src -> 0 <= written <= zlen src ->
  pipe_write k idx (Some src) written = (k', r) ->
  let p := get_pipe k idx in
  let n := Z.min (zlen src - written) (512 - zlen (contents p)) in
  pool_ok k' /\ (forall j, 0 <= j < 8 -> j <> idx -> get_pipe k' j = get_pipe k j) /\
  (if read_refs p =? 0 then r = Return (-1) /\ contents (get_pipe k' idx) = contents p
   else if zlen (contents p) <? 512 then
     contents (get_pipe k' idx) = contents p ++ take (Z.to_nat n) (drop (Z.to_nat written) src) /\
     (if written + n =? zlen src then r = Return 0 else r = Again (written + n))
   else contents (get_pipe k' idx) = contents p /\
     match current_process (k_tab k) with
     | None => r = Return (-1)
     | Some self => r = Blocked /\ write_waiter (get_pipe k' idx) = Some self
     end).
Proof.
  intros Hk Hi Hb Hw. unfold pipe_write. change PIPE_MAX with 8. replace (8 <=? idx) with false by lia.
  pose proof (pool_get k idx Hk ltac:(lia)) as Hp. pose proof (pk_ring _ Hp) as Hr. pose proof (rk_count _ Hr) as Hcn.
  destruct (write_turn_spec (get_pipe k idx) (k_tab k) src written Hp Hb Hw) as (p' & t' & x & -> & Hres & Hp').
  intros [= <- <-]. cbv zeta. rewrite contents_length by lia.
  assert (Hg : forall j, 0 <= j -> get_pipe (set_tab (set_pipe k idx p') t') j = if idx =? j then p' else get_pipe k j).
  { intros j Hj. apply (get_set_pipe k idx j p' Hk ltac:(lia) Hj). }
  split_and!.
  - by apply set_pipe_pool.
  - intros j Hj Hne. rewrite Hg by lia. by replace (idx =? j) with false by lia.
  - rewrite Hg, Z.eqb_refl by lia. destruct Hres as [E|q n Hrf Hc -> Hd _ _ _ _ _ _|Hrf Hc Hcur|self Hrf Hc Hcur].
    + by rewrite E.
    + replace (read_refs (get_pipe k idx) =? 0) with false by lia.
      replace (count (get_pipe k idx) <? 512) with true by lia. split; [done|].
      by destruct (written + Z.min (zlen src - written) (512 - count (get_pipe k idx)) =? zlen src).
    + replace (read_refs (get_pipe k idx) =? 0) with false by lia. rewrite Hc, Hcur. done.
    + replace (read_refs (get_pipe k idx) =? 0) with false by lia. rewrite Hc, Hcur. done.
Qed.

Lemma pipe_write_contract_witness :
  exists k1 i k' r, pipe_create boot_pipes = (k1, Some i) /\ pipe_write k1 i (Some [1; 2; 3]) 0 = (k', r) /\ pool_ok k'.
Proof.
  destruct (pipe_create boot_pipes) as [k1 o] eqn:E.
  assert (Hk : k1 = set_pipe boot_pipes 0 (fresh_pipe blank_pipe) /\ o = Some 0)
    by (cbv in E; injection E as <- <-; split; reflexivity).
  destruct Hk as [-> ->]. clear E.
  set (k1 := set_pipe boot_pipes 0 (fresh_pipe blank_pipe)).
  assert (Hok : pool_ok k1).
  { split; [reflexivity|]. apply zset_forall; [apply boot_pool_ok|apply fresh_pipe_ok; reflexivity]. }
  destruct (pipe_write k1 0 (Some [1; 2; 3]) 0) as [k' r] eqn:E.
  exists k1, 0, k', r. split; [reflexivity|]. split; [exact E|].
  refine (proj1 (pipe_write_contract k1 k' 0 0 [1; 2; 3] r Hok _ _ _ E)); [lia|repeat constructor; lia|unfold zlen; cbn; lia].
Defined.

(** *** A stale waiter *)

(** A reader (pid 7, slot 0) blocked on a fresh pipe, killed while blocked,
    and its slot taken by a process that must not run yet. *)
Definition stale_reader_tab : ptable :=
  mk_ptable ((process_table boot_ptable).[0 := set_pid 7 (set_state PROCESS_RUNNING blank_process)]) (Some 0) 8.
Definition stale_after_kill : pipe * ptable :=
  let '(p, t, _) := read_turn (fresh_pipe blank_pipe) stale_reader_tab 10 in (p, process_exit t (Some 0)).
Definition stale_after_spawn : ptable * option Z :=
  let '(t, _, r) := process_spawn_user 0x20000 (snd stale_after_kill) ∅ None 0x1000000 0x1FFF000 0x400000 0 true 0x1234 in (t, r).

(** Killing a process that is blocked on a pipe leaves it registered as the
    pipe's waiter.  When its slot is reused by a process spawned with
    start_blocked (reserved, not runnable until its descriptors are seeded),
    the next write to the pipe makes that unrelated process READY. *)
Theorem stale_waiter_wakes_reserved_slot :
  let p := fst stale_after_kill in
  let t := fst stale_after_spawn in
  read_waiter p = Some 0 /\ snd stale_after_spawn = Some 0 /\
  state_of t 0 = PROCESS_BLOCKED /\ p_pid (slot t 0) = 8 /\ p_waiting_for_pid (slot t 0) = 0 /\
  let '(_, t', _, _) := run_op p t (OpWrite [65] 0) in
  state_of t' 0 = PROCESS_READY /\ p_pid (slot t' 0) = 8.
Proof. vm_compute. repeat split. Qed.
