(* ===== verification/FatName.v ===== *)
(** * FAT16 names: the 8.3 codec and the path splitter

    The pure text routines of [src/kernel/fs/fat16.c]: [to_8_3],
    [dirent_display_name], [path_next_component], and the 32-byte on-disk layout
    of [fat16_dirent_t].  A C string is the list of its bytes before the NUL, a
    byte is a [Z] below 256. *)

From Stdlib Require Import ZArith Lia.
From stdpp Require Import base tactics numbers list option sets.
From S2P Require Import Prelude.
Local Open Scope Z_scope.

Definition byte (b : Z) : Prop := 0 <= b < 256.

Definition SPACE := 32.
Definition DOT := 46.
Definition SLASH := 47.

(** ** 8.3 encoding *)

Definition fat16_toupper (c : Z) : Z :=
  if (97 <=? c) && (c <=? 122) then u8 (c - 32) else c.

(** The base-name loop: at most eight characters, stopping at a dot; returns
    what is left of the name. *)
Fixpoint base_loop (name : list Z) (i : Z) (out : list Z) : list Z * list Z :=
  match name with
  | c :: rest =>
      if negb (c =? DOT) && (i <? 8)
      then base_loop rest (i + 1) out.[i := fat16_toupper c]
      else (name, out)
  | [] => ([], out)
  end.

(** The loop that skips the rest of an over-long base name. *)
Fixpoint skip_to_dot (name : list Z) : list Z :=
  match name with
  | c :: rest => if c =? DOT then name else skip_to_dot rest
  | [] => []
  end.

Fixpoint ext_loop (name : list Z) (k : Z) (out : list Z) : list Z :=
  match name with
  | c :: rest => if k <? 11 then ext_loop rest (k + 1) out.[k := fat16_toupper c] else out
  | [] => out
  end.

Definition to_8_3 (name : list Z) : list Z :=
  let out := replicate 11 SPACE in
  if decide (name = [DOT]) then out.[0 := DOT]
  else if decide (name = [DOT; DOT]) then (out.[0 := DOT]).[1 := DOT]
  else
    let '(name, out) := base_loop name 0 out in
    match skip_to_dot name with
    | _ :: rest => ext_loop rest 8 out
    | [] => out
    end.

(** ** Directory entries *)

Record fat16_dirent := Dirent {
  d_name : list Z;
  d_ext : list Z;
  d_attr : Z;
  d_reserved : list Z;
  d_time : Z;
  d_date : Z;
  d_first_cluster : Z;
  d_size : Z
}.

#[global] Instance dirent_eq_dec : EqDecision fat16_dirent.
Proof. solve_decision. Defined.

Definition ATTR_VOLUME_ID := 8.
Definition ATTR_DIRECTORY := 16.
Definition ATTR_ARCHIVE := 32.
Definition DIRENT_EMPTY := 0.
Definition DIRENT_DELETED := 229.

Definition has_attr (e : fat16_dirent) (mask : Z) : bool := negb (Z.land (d_attr e) mask =? 0).

(** Little-endian fields of a byte buffer. *)
Definition le16 (buf : list Z) (o : Z) : Z := buf.[o] + 256 * buf.[o + 1].
Definition le32 (buf : list Z) (o : Z) : Z := le16 buf o + 65536 * le16 buf (o + 2).
Definition bytes16 (v : Z) : list Z := [v mod 256; v / 256 mod 256].
Definition bytes32 (v : Z) : list Z := bytes16 (v mod 65536) ++ bytes16 (v / 65536).

(** [n] bytes of [buf] from offset [o]. *)
Definition sub (buf : list Z) (o n : nat) : list Z := take n (drop o buf).

(** Overwrite [buf] with [bs] from offset [o]. *)
Definition blit (buf : list Z) (o : nat) (bs : list Z) : list Z :=
  take o buf ++ bs ++ drop (o + length bs) buf.

Definition dirent_of_bytes (b : list Z) : fat16_dirent := {|
  d_name := sub b 0 8;
  d_ext := sub b 8 3;
  d_attr := b.[11];
  d_reserved := sub b 12 10;
  d_time := le16 b 22;
  d_date := le16 b 24;
  d_first_cluster := le16 b 26;
  d_size := le32 b 28 |}.

Definition dirent_bytes (e : fat16_dirent) : list Z :=
  d_name e ++ d_ext e ++ [d_attr e] ++ d_reserved e ++ bytes16 (d_time e) ++
  bytes16 (d_date e) ++ bytes16 (d_first_cluster e) ++ bytes32 (d_size e).

(** The [i]-th entry of a directory sector, and its update. *)
Definition slot_at (buf : list Z) (i : Z) : fat16_dirent :=
  dirent_of_bytes (sub buf (Z.to_nat (32 * i)) 32).

Definition put_slot (buf : list Z) (i : Z) (e : fat16_dirent) : list Z :=
  blit buf (Z.to_nat (32 * i)) (dirent_bytes e).

(** The 11 bytes [dir_lookup] compares. *)
Definition name83_of (e : fat16_dirent) : list Z := d_name e ++ d_ext e.

(** ** Display names *)

(** The loops of [dirent_display_name]: characters up to the first space. *)
Fixpoint until_space (cs : list Z) : list Z :=
  match cs with
  | c :: rest => if c =? SPACE then [] else c :: until_space rest
  | [] => []
  end.

Definition dirent_display_name (e : fat16_dirent) : list Z :=
  let has_ext := existsb (fun c => negb (c =? SPACE)) (d_ext e) in
  until_space (d_name e) ++ (if has_ext then DOT :: until_space (d_ext e) else []).

(** ** Paths *)

Fixpoint skip_slashes (path : list Z) : list Z :=
  match path with
  | c :: rest => if c =? SLASH then skip_slashes rest else path
  | [] => []
  end.

Fixpoint component_loop (path : list Z) (room : nat) : list Z * list Z :=
  match path, room with
  | c :: rest, S room' =>
      if c =? SLASH then ([], path)
      else let '(comp, more) := component_loop rest room' in (c :: comp, more)
  | _, _ => ([], path)
  end.

(** The component (at most [comp_size - 1] bytes) and what follows it. *)
Definition path_next_component (path : list Z) (comp_size : nat) : list Z * list Z :=
  let '(comp, more) := component_loop path (comp_size - 1) in (comp, skip_slashes more).

(** ** Reference encoding *)

Definition pad (n : nat) (l : list Z) : list Z := l ++ replicate (n - length l) SPACE.

Fixpoint base_of (name : list Z) : list Z :=
  match name with
  | c :: rest => if c =? DOT then [] else c :: base_of rest
  | [] => []
  end.

(** The extension: what follows the first dot. *)
Definition ext_of (name : list Z) : list Z := drop 1 (skip_to_dot name).

Definition upper (l : list Z) : list Z := map fat16_toupper l.

Definition encode83 (name : list Z) : list Z :=
  if decide (name = [DOT]) then pad 11 [DOT]
  else if decide (name = [DOT; DOT]) then pad 11 [DOT; DOT]
  else pad 8 (upper (take 8 (base_of name))) ++ pad 3 (upper (take 3 (ext_of name))).

(** Writing the next position of a space-filled buffer. *)
Lemma fill_next pre k c :
  zset (pre ++ replicate (S k) SPACE) (Z.of_nat (length pre)) c = (pre ++ [c]) ++ replicate k SPACE.
Proof.
  unfold zset. rewrite Nat2Z.id, insert_app_r_alt by lia.
  rewrite Nat.sub_diag, <- app_assoc. done.
Qed.

Lemma base_loop_eq name pre k :
  (length pre + k = 8)%nat ->
  base_loop name (Z.of_nat (length pre)) (pre ++ replicate (k + 3) SPACE) =
  let t := take k (base_of name) in
  (drop (length t) name, pre ++ upper t ++ replicate (k + 3 - length t) SPACE).
Proof.
  revert pre k; induction name as [|c rest IH]; intros pre k Hl.
  - simpl. rewrite take_nil. simpl. by rewrite Nat.sub_0_r.
  - cbn [base_loop base_of]. destruct (Z.eqb_spec c DOT) as [->|Hc].
    { simpl. rewrite take_nil. simpl. by rewrite Nat.sub_0_r. }
    destruct k as [|k]; cbn [negb andb].
    + rewrite (proj2 (Z.ltb_ge _ _)) by lia. simpl. done.
    + rewrite (proj2 (Z.ltb_lt _ _)) by lia.
      change (S k + 3)%nat with (S (k + 3)). rewrite fill_next.
      replace (Z.of_nat (length pre) + 1) with (Z.of_nat (length (pre ++ [fat16_toupper c])))
        by (rewrite length_app; simpl; lia).
      rewrite IH by (rewrite length_app; simpl; lia). simpl. by rewrite <- app_assoc.
Qed.

Lemma ext_loop_eq name pre k :
  (length pre + k = 11)%nat ->
  ext_loop name (Z.of_nat (length pre)) (pre ++ replicate k SPACE) =
  pre ++ pad k (upper (take k name)).
Proof.
  unfold pad. revert pre k; induction name as [|c rest IH]; intros pre k Hl.
  - simpl. rewrite take_nil. simpl. by rewrite Nat.sub_0_r.
  - cbn [ext_loop]. destruct k as [|k].
    + rewrite (proj2 (Z.ltb_ge _ _)) by lia. done.
    + rewrite (proj2 (Z.ltb_lt _ _)) by lia. rewrite fill_next.
      replace (Z.of_nat (length pre) + 1) with (Z.of_nat (length (pre ++ [fat16_toupper c])))
        by (rewrite length_app; simpl; lia).
      rewrite IH by (rewrite length_app; simpl; lia). simpl. by rewrite <- app_assoc.
Qed.

Lemma skip_after_base name k : skip_to_dot (drop (length (take k (base_of name))) name) = skip_to_dot name.
Proof.
  revert k; induction name as [|c rest IH]; intros k; [by rewrite drop_nil|].
  simpl. destruct (Z.eqb_spec c DOT) as [->|Hc]; [by rewrite take_nil|].
  destruct k as [|k]; simpl; [by destruct (Z.eqb_spec c DOT)|]. apply IH.
Qed.

Lemma skip_no_dot name : skip_to_dot name = [] -> base_of name = name.
Proof. induction name as [|c rest IH]; simpl; [done|]. destruct (c =? DOT); [done|]. by intros ->%IH. Qed.

Lemma to_8_3_encode name : to_8_3 name = encode83 name.
Proof.
  unfold to_8_3, encode83. destruct (decide (name = [DOT])); [done|].
  destruct (decide (name = [DOT; DOT])); [done|].
  pose proof (base_loop_eq name [] 8 eq_refl) as E. cbv zeta in E. cbn [app length] in E.
  change (Z.of_nat 0) with 0 in E. change (8 + 3)%nat with 11%nat in E. rewrite E.
  rewrite skip_after_base. unfold ext_of, pad at 1.
  assert (Hu : length (upper (take 8 (base_of name))) = length (take 8 (base_of name)))
    by apply length_map.
  pose proof (length_take_le (base_of name) 8) as _.
  assert ((length (take 8 (base_of name)) <= 8)%nat) by (rewrite length_take; lia).
  rewrite Hu. set (t := take 8 (base_of name)) in *.
  replace (11 - length t)%nat with ((8 - length t) + 3)%nat by lia.
  rewrite replicate_add, app_assoc.
  assert (Hp : length (upper t ++ replicate (8 - length t) SPACE) = 8%nat)
    by (rewrite length_app, length_replicate, Hu; lia).
  pose proof (ext_loop_eq (drop 1 (skip_to_dot name)) _ 3 ltac:(rewrite Hp; reflexivity)) as E'.
  rewrite Hp in E'. destruct (skip_to_dot name) as [|c rest]; [done|]. exact E'.
Qed.

Lemma encode83_length name : length (encode83 name) = 11%nat.
Proof.
  unfold encode83, pad, upper. repeat case_decide; [done..|].
  rewrite !length_app, !length_replicate, !length_map, !length_take. lia.
Qed.

Lemma upper_bytes l : Forall byte l -> Forall byte (upper l).
Proof.
  intros Hl. unfold upper. rewrite Forall_map. eapply Forall_impl; [exact Hl|]. intros c Hc.
  unfold byte, fat16_toupper in *. case_if; [|done]. unfold u8. rewrite Z.mod_small; lia.
Qed.

Lemma pad_bytes n l : Forall byte l -> Forall byte (pad n l).
Proof. intros Hl. apply Forall_app. split; [done|]. apply Forall_replicate. unfold byte, SPACE. lia. Qed.

Lemma base_ext_bytes name : Forall byte name -> Forall byte (base_of name) /\ Forall byte (skip_to_dot name).
Proof.
  induction 1 as [|c name Hc Hn [IH1 IH2]]; simpl; [by split|].
  destruct (c =? DOT); split; try done; by constructor.
Qed.

Lemma encode83_bytes name : Forall byte name -> Forall byte (encode83 name).
Proof.
  intros Hn. destruct (base_ext_bytes name Hn) as [H1 H2]. unfold encode83, ext_of.
  repeat case_decide; [apply pad_bytes; repeat constructor; unfold byte, DOT; lia..|].
  apply Forall_app. split; apply pad_bytes, upper_bytes, Forall_take; [done|by apply Forall_drop].
Qed.

(** ** Names that survive a round trip through a directory listing *)

(** Text of at most [n] characters that needs no folding and holds no space. *)
Definition plain (n : nat) (l : list Z) : Prop :=
  (length l <= n)%nat /\ Forall (fun c => c <> SPACE /\ fat16_toupper c = c) l.

(** The names [to_8_3] gives to a component without spaces, and the two
    navigation entries. *)
Definition listed_name (e : fat16_dirent) : Prop :=
  (exists b x, d_name e = pad 8 b /\ d_ext e = pad 3 x /\
     plain 8 b /\ plain 3 x /\ b <> [] /\ DOT ∉ b) \/
  (d_ext e = pad 3 [] /\ (d_name e = pad 8 [DOT] \/ d_name e = pad 8 [DOT; DOT])).

Lemma until_space_pad n b : plain n b -> until_space (pad n b) = b.
Proof.
  unfold pad. intros [_ Hf]. generalize (n - length b)%nat as k. intros k.
  induction Hf as [|c l [Hc _] _ IH]; simpl.
  - by destruct k.
  - apply Z.eqb_neq in Hc. by rewrite Hc, IH.
Qed.

Lemma existsb_pad n b : plain n b ->
  existsb (fun c => negb (c =? SPACE)) (pad n b) = match b with [] => false | _ => true end.
Proof.
  intros [_ Hf]. unfold pad. destruct Hf as [|c l [Hc _] _]; simpl.
  - by induction (n - 0)%nat.
  - apply Z.eqb_neq in Hc. by rewrite Hc.
Qed.

Lemma upper_plain n b : plain n b -> upper b = b.
Proof. intros [_ Hf]. induction Hf as [|c l [_ Hc] _ IH]; simpl; congruence. Qed.

Lemma base_of_app b rest : DOT ∉ b -> base_of (b ++ DOT :: rest) = b /\ base_of b = b.
Proof.
  induction b as [|c b IH]; intros Hd; [done|].
  apply not_elem_of_cons in Hd as [Hc Hd]. simpl. destruct (Z.eqb_spec c DOT); [congruence|].
  destruct (IH Hd) as [-> ->]. done.
Qed.

Lemma skip_to_dot_app b rest : DOT ∉ b -> skip_to_dot (b ++ DOT :: rest) = DOT :: rest /\ skip_to_dot b = [].
Proof.
  induction b as [|c b IH]; intros Hd; [done|].
  apply not_elem_of_cons in Hd as [Hc Hd]. simpl. destruct (Z.eqb_spec c DOT); [congruence|].
  by apply IH.
Qed.

Lemma encode_listed e : listed_name e ->
  encode83 (dirent_display_name e) = name83_of e.
Proof.
  unfold dirent_display_name, name83_of.
  intros [(b & x & -> & -> & Hb & Hx & Hne & Hd)|(-> & [-> | ->])]; [|done..].
  rewrite !until_space_pad, existsb_pad by done.
  destruct b as [|c b]; [done|]. unfold encode83.
  assert (c <> DOT) by set_solver.
  rewrite decide_False by (simpl; congruence). rewrite decide_False by (simpl; congruence).
  destruct (base_of_app (c :: b) x Hd) as [B1 B2], (skip_to_dot_app (c :: b) x Hd) as [S1 S2].
  unfold ext_of.
  assert (Hp : forall n l, plain n l -> upper (take n l) = l).
  { intros n l Hl. rewrite firstn_all2 by apply Hl. by eapply upper_plain. }
  destruct x as [|d x].
  - rewrite app_nil_r, B2, S2. simpl drop.
    by rewrite Hp.
  - rewrite B1, S1. simpl drop. by rewrite !Hp.
Qed.

Lemma toupper_idem c : fat16_toupper (fat16_toupper c) = fat16_toupper c.
Proof.
  unfold fat16_toupper. destruct ((97 <=? c) && (c <=? 122)) eqn:E; [|by rewrite E].
  b2p. rewrite u8_small by lia. rewrite (proj2 (Z.leb_gt _ _)) by lia. done.
Qed.

Lemma toupper_space c : fat16_toupper c = SPACE -> c = SPACE.
Proof. unfold fat16_toupper, SPACE, u8. case_if; [|done]. intros. rewrite Z.mod_small in *; lia. Qed.

Lemma toupper_dot c : fat16_toupper c = DOT -> c = DOT.
Proof. unfold fat16_toupper, DOT, u8. case_if; [|done]. intros. rewrite Z.mod_small in *; lia. Qed.

Lemma plain_upper n l : SPACE ∉ l -> plain n (upper (take n l)).
Proof.
  intros Hs. unfold plain, upper. rewrite length_map, length_take. split; [lia|].
  rewrite Forall_map, Forall_forall. intros c Hc. split; [|apply toupper_idem].
  intros ->%toupper_space. by apply Hs, (subseteq_take n l).
Qed.

Lemma base_of_sub name : base_of name ⊆ name /\ DOT ∉ base_of name.
Proof.
  induction name as [|c name [IH1 IH2]]; simpl; [set_solver|].
  destruct (Z.eqb_spec c DOT); set_solver.
Qed.

Lemma skip_to_dot_sub name : skip_to_dot name ⊆ name.
Proof. induction name as [|c name IH]; simpl; [done|]. destruct (c =? DOT); set_solver. Qed.

(** Case does not matter. *)
Lemma toupper_dot_eqb c : (fat16_toupper c =? DOT) = (c =? DOT).
Proof.
  apply eq_true_iff_eq. rewrite !Z.eqb_eq. split; [apply toupper_dot|]. by intros ->.
Qed.

Lemma upper_base name : upper (base_of name) = base_of (upper name).
Proof.
  induction name as [|c name IH]; simpl; [done|]. rewrite toupper_dot_eqb.
  destruct (c =? DOT); [done|]. simpl. by f_equal.
Qed.

Lemma upper_skip name : upper (skip_to_dot name) = skip_to_dot (upper name).
Proof.
  induction name as [|c name IH]; simpl; [done|]. rewrite toupper_dot_eqb.
  by destruct (c =? DOT).
Qed.

Lemma upper_dots name : (name = [DOT] <-> upper name = [DOT]) /\
  (name = [DOT; DOT] <-> upper name = [DOT; DOT]).
Proof.
  split; (split; [by intros ->|]);
    destruct name as [|a [|b [|c name]]]; try done; simpl;
    intros [=]; repeat match goal with H : fat16_toupper _ = _ |- _ => apply toupper_dot in H end; congruence.
Qed.

Lemma encode83_upper name name' : upper name = upper name' -> encode83 name = encode83 name'.
Proof.
  intros E. unfold encode83, ext_of.
  destruct (upper_dots name) as [A B], (upper_dots name') as [A' B']. rewrite E in A, B.
  assert (Hf : forall n l, upper (take n l) = take n (upper l)) by (intros; symmetry; apply firstn_map).
  assert (Hg : forall n l, upper (drop n l) = drop n (upper l)) by (intros; symmetry; apply skipn_map).
  rewrite !Hf, !Hg, !upper_base, !upper_skip, E.
  repeat case_decide; naive_solver.
Qed.

(** A component of a path that names an entry: no space in it, and either a
    non-empty base name or one of the navigation entries. *)
Definition entry_text (name : list Z) : Prop :=
  SPACE ∉ name /\ (base_of name <> [] \/ name = [DOT] \/ name = [DOT; DOT]).

Lemma encoded_listed name e : entry_text name -> length (d_name e) = 8%nat ->
  name83_of e = encode83 name -> listed_name e.
Proof.
  intros [Hs Hb] Hl He. unfold name83_of in He.
  assert (Hdot : forall d, name = d -> d = [DOT] \/ d = [DOT; DOT] -> listed_name e).
  { intros d -> Hd; right. rewrite <- (take_drop 8 (encode83 d)) in He.
    apply app_inj_1 in He as [-> ->]; [|rewrite Hl, length_take, encode83_length; done].
    destruct Hd as [-> | ->]; auto. }
  destruct (decide (name = [DOT])); [naive_solver|].
  destruct (decide (name = [DOT; DOT])); [naive_solver|].
  unfold encode83 in He. rewrite !decide_False in He by done.
  destruct Hb as [Hb|[?|?]]; [|done..].
  destruct (base_of_sub name) as [Hsub Hnd].
  assert (P1 : plain 8 (upper (take 8 (base_of name)))) by (apply plain_upper; set_solver).
  assert (P2 : plain 3 (upper (take 3 (ext_of name)))).
  { apply plain_upper. pose proof (skip_to_dot_sub name). unfold ext_of.
    pose proof (subseteq_drop 1 (skip_to_dot name)). set_solver. }
  apply app_inj_1 in He as [E1 E2]; [|rewrite Hl; unfold pad; rewrite length_app, length_replicate;
    destruct P1; lia].
  left. exists (upper (take 8 (base_of name))), (upper (take 3 (ext_of name))). split_and!; try done.
  - destruct (base_of name); [done|]. done.
  - unfold upper. intros (c & Hc & Hin)%list_elem_of_fmap.
    symmetry in Hc. apply toupper_dot in Hc as ->.
    apply (subseteq_take 8) in Hin. done.
Qed.

Lemma until_space_length l : (length (until_space l) <= length l)%nat.
Proof. induction l as [|c l IH]; simpl; [lia|]. destruct (c =? SPACE); simpl; lia. Qed.

(** ** The 32-byte layout *)

Definition dirent_wf (e : fat16_dirent) : Prop :=
  length (d_name e) = 8%nat /\ length (d_ext e) = 3%nat /\ length (d_reserved e) = 10%nat /\
  Forall byte (d_name e) /\ Forall byte (d_ext e) /\ Forall byte (d_reserved e) /\
  byte (d_attr e) /\ 0 <= d_time e < 65536 /\ 0 <= d_date e < 65536 /\
  0 <= d_first_cluster e < 65536 /\ 0 <= d_size e < 2 ^ 32.

Lemma dirent_bytes_length e : dirent_wf e -> length (dirent_bytes e) = 32%nat.
Proof.
  intros (H1 & H2 & H3 & _). unfold dirent_bytes. rewrite !length_app, H1, H2, H3. done.
Qed.

Lemma split16 v : 0 <= v < 65536 -> v mod 256 + 256 * ((v / 256) mod 256) = v.
Proof. intros. rewrite (Z.mod_small (v / 256)) by (split; [apply Z.div_pos|apply Z.div_lt_upper_bound]; lia).
  pose proof (Z.div_mod v 256). lia. Qed.

(** Reading back the fields of an encoded entry. *)
Lemma dirent_of_bytes_encode e : dirent_wf e -> dirent_of_bytes (dirent_bytes e) = e.
Proof.
  intros (H1 & H2 & H3 & _ & _ & _ & _ & T & D & F & Z).
  destruct e as [n x a r t d f z]; simpl in *.
  do 9 (destruct n as [|? n]; try done). do 4 (destruct x as [|? x]; try done).
  do 11 (destruct r as [|? r]; try done).
  unfold dirent_of_bytes, dirent_bytes, sub, le32, le16, bytes32, bytes16, zget. simpl.
  f_equal; try by apply split16.
  rewrite !split16, Z.add_comm, <- Z.div_mod; [lia|lia| |apply Z.mod_pos_bound; lia].
  split; [apply Z.div_pos|apply Z.div_lt_upper_bound]; lia.
Qed.

(** ** Buffers *)

Lemma sub_length buf o n : (o + n <= length buf)%nat -> length (sub buf o n) = n.
Proof. unfold sub. rewrite length_take, length_drop. lia. Qed.

Lemma blit_length buf o bs : (o + length bs <= length buf)%nat -> length (blit buf o bs) = length buf.
Proof. unfold blit. rewrite !length_app, length_take, length_drop. lia. Qed.

Lemma sub_blit_same buf o bs : (o + length bs <= length buf)%nat ->
  sub (blit buf o bs) o (length bs) = bs.
Proof.
  intros. unfold sub, blit. rewrite drop_app_length' by (rewrite length_take; lia).
  by rewrite take_app_length.
Qed.

Lemma sub_blit_other buf o bs o' n : (o + length bs <= length buf)%nat ->
  (o' + n <= o \/ o + length bs <= o')%nat -> sub (blit buf o bs) o' n = sub buf o' n.
Proof.
  intros Hl Ho. unfold sub, blit. apply list_eq. intros i.
  destruct (decide (i < n)%nat) as [Hi|Hi];
    [|rewrite !lookup_take_ge by lia; done].
  rewrite !lookup_take_lt, !lookup_drop by done.
  destruct Ho.
  - rewrite lookup_app_l by (rewrite length_take; lia). by rewrite lookup_take_lt by lia.
  - rewrite lookup_app_r by (rewrite length_take; lia).
    rewrite lookup_app_r by (rewrite length_take; lia).
    rewrite lookup_drop, length_take. f_equal. lia.
Qed.

Definition sector (buf : list Z) : Prop := length buf = 512%nat.

Lemma put_slot_sector buf i e : sector buf -> 0 <= i < 16 -> dirent_wf e -> sector (put_slot buf i e).
Proof.
  intros Hb Hi He. unfold sector, put_slot in *. rewrite blit_length; [done|].
  rewrite dirent_bytes_length by done. lia.
Qed.

Lemma slot_put_same buf i e : sector buf -> 0 <= i < 16 -> dirent_wf e ->
  slot_at (put_slot buf i e) i = e.
Proof.
  intros Hb Hi He. unfold slot_at, put_slot. rewrite <- (dirent_bytes_length e) at 1 by done.
  rewrite sub_blit_same; [by apply dirent_of_bytes_encode|].
  rewrite dirent_bytes_length by done. unfold sector in Hb. lia.
Qed.

Lemma slot_put_other buf i j e : sector buf -> 0 <= i < 16 -> 0 <= j < 16 -> i <> j -> dirent_wf e ->
  slot_at (put_slot buf i e) j = slot_at buf j.
Proof.
  intros Hb Hi Hj Hne He. unfold slot_at, put_slot.
  assert (L := dirent_bytes_length e He). unfold sector in Hb.
  rewrite sub_blit_other; [done|lia|lia].
Qed.

(** ** Paths *)

Lemma component_split path room :
  let '(comp, more) := component_loop path room in
  path = comp ++ more /\ (length comp <= room)%nat /\ SLASH ∉ comp /\
  (room <> 0%nat -> path <> [] -> hd 0 path <> SLASH -> comp <> []).
Proof.
  revert room; induction path as [|c rest IH]; intros [|room]; simpl;
    try (split_and!; [done|lia|apply not_elem_of_nil|done]).
  destruct (Z.eqb_spec c SLASH) as [->|Hc];
    [split_and!; [done|simpl; lia|apply not_elem_of_nil|done]|].
  specialize (IH room). destruct (component_loop rest room) as [comp more].
  destruct IH as (-> & Hl & Hs & _). simpl. split_and!; [done|lia|set_solver|done].
Qed.

Lemma skip_slashes_suffix path : exists pre, path = pre ++ skip_slashes path /\ Forall (eq SLASH) pre.
Proof.
  induction path as [|c rest (pre & E & F)]; simpl; [by exists []|].
  destruct (Z.eqb_spec c SLASH) as [->|]; [|by exists []].
  exists (SLASH :: pre). split; [simpl; by f_equal|by constructor].
Qed.

Lemma next_component_shorter path n : (1 < n)%nat -> path <> [] -> hd 0 path <> SLASH ->
  (length (snd (path_next_component path n)) < length path)%nat.
Proof.
  intros Hn Hp Hh. unfold path_next_component. pose proof (component_split path (n - 1)) as C.
  destruct (component_loop path (n - 1)) as [comp more]. destruct C as (E & _ & _ & Hne).
  specialize (Hne ltac:(lia) Hp Hh). simpl.
  destruct (skip_slashes_suffix more) as (pre & Em & _).
  apply (f_equal length) in E, Em. rewrite length_app in E, Em.
  destruct comp; [done|]. simpl in E. lia.
Qed.

(** A name printed by a directory listing opens the same entry: for every
    entry stored under the 8.3 encoding of a path component that holds no space
    and has a base name (or is ["."] or [".."]), [to_8_3] maps the display name
    back to the stored 11 bytes, and the display name with its NUL fits the
    13-byte buffer of [dirent_display_name]. *)
Theorem display_name_roundtrip (name : list Z) (e : fat16_dirent)
  (Hname : entry_text name)
  (Hbase : length (d_name e) = 8%nat) (Hext : length (d_ext e) = 3%nat)
  (Hstored : name83_of e = to_8_3 name) :
  to_8_3 (dirent_display_name e) = name83_of e /\
  (length (dirent_display_name e) + 1 <= 13)%nat.
Proof.
  rewrite to_8_3_encode in Hstored |- *. split.
  - by eapply encode_listed, encoded_listed.
  - unfold dirent_display_name. rewrite length_app.
    pose proof (until_space_length (d_name e)). pose proof (until_space_length (d_ext e)).
    destruct (existsb _ _); simpl; lia.
Qed.

(** ["notes.txt"] *)
Definition notes_txt : list Z := [110; 111; 116; 101; 115; 46; 116; 120; 116].

Definition notes_entry : fat16_dirent := {|
  d_name := take 8 (to_8_3 notes_txt); d_ext := drop 8 (to_8_3 notes_txt);
  d_attr := ATTR_ARCHIVE; d_reserved := replicate 10 0; d_time := 0; d_date := 0;
  d_first_cluster := 0; d_size := 0 |}.

Lemma display_name_roundtrip_witness :
  dirent_display_name notes_entry = [78; 79; 84; 69; 83; 46; 84; 88; 84] /\
  to_8_3 (dirent_display_name notes_entry) = name83_of notes_entry.
Proof.
  split; [reflexivity|].
  apply (display_name_roundtrip notes_txt notes_entry); [|reflexivity..].
  split; [by apply (bool_decide_unpack _)|]. left. discriminate.
Defined.

(** [to_8_3] computes the reference encoding: except for the two navigation
    names, the first eight upper-cased characters before the first dot and the
    first three after it, each padded with spaces to its field; an over-long
    base name never hides the extension. *)
Theorem to_8_3_is_encode83 (name : list Z) :
  to_8_3 name = encode83 name /\ length (to_8_3 name) = 11%nat /\
  (forall name', upper name = upper name' -> to_8_3 name = to_8_3 name').
Proof.
  rewrite to_8_3_encode. split_and!; [done|apply encode83_length|].
  intros name' E. rewrite to_8_3_encode. by apply encode83_upper.
Qed.
