(* ===== verification/Fat.v ===== *)
(** * FAT16 volume: the disk interface, the BPB, the cached FAT and its chains

    [src/kernel/fs/fat16.c], from [fat16_init] to [fat16_alloc_cluster].  The
    block layer ([block_read_sector] and [block_write_sector] of [src/kernel/hal.c])
    is the interface [BlockDevice]; the directory and file operations are in
    [FatDir] and [FatFile]. *)

From Stdlib Require Import ZArith Lia.
From stdpp Require Import base tactics numbers list option sets.
From S2P Require Import Prelude FatName.
Local Open Scope Z_scope.

(** ** What the block layer promises *)

(** A device of [bd_size] sectors.  A read gives the 512 bytes of the sector or
    an I/O error, and changes no sector; a write that succeeds stores exactly
    the buffer, and no write, failed or not, touches another sector.  A healthy
    device serves every access below its size. *)
Class BlockDevice (D : Type) := {
  bd_read : Z -> D -> option (list Z) * D;
  bd_write : Z -> list Z -> D -> bool * D;
  bd_data : D -> Z -> list Z;
  bd_size : D -> Z;
  bd_healthy : D -> Prop;
  bd_data_sector d l : sector (bd_data d l) /\ Forall byte (bd_data d l);
  bd_read_data d l buf : fst (bd_read l d) = Some buf -> buf = bd_data d l;
  bd_read_same d l l' : bd_data (snd (bd_read l d)) l' = bd_data d l';
  bd_read_size d l : bd_size (snd (bd_read l d)) = bd_size d;
  bd_write_data d l buf : sector buf -> Forall byte buf -> fst (bd_write l buf d) = true ->
    bd_data (snd (bd_write l buf d)) l = buf;
  bd_write_other d l buf l' : l' <> l -> bd_data (snd (bd_write l buf d)) l' = bd_data d l';
  bd_write_size d l buf : bd_size (snd (bd_write l buf d)) = bd_size d;
  bd_healthy_read d l : bd_healthy d -> 0 <= l < bd_size d ->
    is_Some (fst (bd_read l d)) /\ bd_healthy (snd (bd_read l d));
  bd_healthy_write d l buf : bd_healthy d -> 0 <= l < bd_size d ->
    fst (bd_write l buf d) = true /\ bd_healthy (snd (bd_write l buf d))
}.

(** ** State *)

(** The globals [fat16_init] computes from the BPB. *)
Record geometry := Geometry {
  g_fat_start_lba : Z;
  g_root_start_lba : Z;
  g_data_start_lba : Z;
  g_root_sector_count : Z;
  g_sectors_per_cluster : Z;
  g_fat_size_sectors : Z;
  g_total_clusters : Z;
  g_num_fats : Z
}.

(** The other globals; [g_fat] is the cached table of 16-bit entries, empty when
    the pointer is NULL. *)
Record volume {D : Type} := Volume {
  g_ready : bool;
  g_geo : geometry;
  g_fat : list Z;
  sector_buf : list Z;
  dir_buf : list Z;
  disk : D
}.
Arguments volume : clear implicits.

Section volume.
Context {D : Type}.
Implicit Types s : volume D.

Definition set_ready (b : bool) s := Volume D b (g_geo s) (g_fat s) (sector_buf s) (dir_buf s) (disk s).
Definition set_geo (g : geometry) s := Volume D (g_ready s) g (g_fat s) (sector_buf s) (dir_buf s) (disk s).
Definition set_fat (t : list Z) s := Volume D (g_ready s) (g_geo s) t (sector_buf s) (dir_buf s) (disk s).
Definition set_sector_buf (b : list Z) s := Volume D (g_ready s) (g_geo s) (g_fat s) b (dir_buf s) (disk s).
Definition set_dir_buf (b : list Z) s := Volume D (g_ready s) (g_geo s) (g_fat s) (sector_buf s) b (disk s).
Definition set_disk (d : D) s := Volume D (g_ready s) (g_geo s) (g_fat s) (sector_buf s) (dir_buf s) d.
End volume.

(** Words of a FAT sector, and back. *)
Definition word_at (buf : list Z) (i : nat) : Z := le16 buf (2 * Z.of_nat i).
Definition sector_words (buf : list Z) : list Z := map (word_at buf) (seq 0 256).
Definition words_bytes (ws : list Z) : list Z := concat (map bytes16 ws).
Arguments sector_words : simpl never.
Arguments words_bytes : simpl never.

Section fat.
Context {D : Type} `{BlockDevice D}.
Local Notation M := (cM (volume D)).

(** ** The block layer *)

Definition block_read_sector (lba : Z) : M (option (list Z)) := fun s =>
  let '(r, d) := bd_read lba (disk s) in Some (r, set_disk d s).

Definition block_write_sector (lba : Z) (buf : list Z) : M bool := fun s =>
  let '(r, d) := bd_write lba buf (disk s) in Some (r, set_disk d s).

(** ** Mounting *)

(** The FAT-caching loop of [fat16_init]: [None] on an I/O error. *)
Fixpoint load_fat (start sec : Z) (k : nat) (acc : list Z) : M (option (list Z)) :=
  match k with
  | O => mret (Some acc)
  | S k' =>
      r ← block_read_sector (u32 (start + sec));
      match r with
      | None => mret None
      | Some buf => load_fat start (sec + 1) k' (acc ++ sector_words buf)
      end
  end.

(** The geometry the BPB in [b] describes. *)
Definition bpb_geometry (b : list Z) : geometry :=
  let spc := b.[13] in
  let num_fats := b.[16] in
  let fat_start := le16 b 14 in
  let fat_size := le16 b 22 in
  let root_start := u32 (fat_start + u32 (num_fats * fat_size)) in
  let root_count := u32 (u32 (le16 b 17 * 32) + 511) / 512 in
  let data_start := u32 (root_start + root_count) in
  let total_sec := if le16 b 19 =? 0 then le32 b 32 else le16 b 19 in
  {| g_fat_start_lba := fat_start;
     g_root_start_lba := root_start;
     g_data_start_lba := data_start;
     g_root_sector_count := root_count;
     g_sectors_per_cluster := spc;
     g_fat_size_sectors := fat_size;
     g_total_clusters := u32 (u32 (total_sec - data_start) / spc + 2);
     g_num_fats := num_fats |}.

(** [kmalloc] is the heap's allocator: the address of a block, 0 when it fails. *)
Definition fat16_init (kmalloc : Z -> Z) : M bool :=
  _ ← modify (set_ready false);
  r ← block_read_sector 0;
  match r with
  | None => mret false
  | Some b =>
      _ ← modify (set_sector_buf b);
      if negb (le16 b 11 =? 512) then mret false
      else if le16 b 22 =? 0 then mret false
      else if b.[16] =? 0 then mret false
      else if b.[13] =? 0 then mret false
      else
        let g := bpb_geometry b in
        _ ← modify (set_geo g);
        if kmalloc (u32 (g_fat_size_sectors g * 512)) =? 0
        then _ ← modify (set_fat []); mret false
        else
          t ← load_fat (g_fat_start_lba g) 0 (Z.to_nat (g_fat_size_sectors g)) [];
          match t with
          | None => _ ← modify (set_fat []); mret false
          | Some t =>
              _ ← modify (set_fat t);
              _ ← modify (set_ready true);
              mret true
          end
  end.

Definition fat16_available : M bool := gets g_ready.

Definition bytes_per_cluster (g : geometry) : Z := u32 (g_sectors_per_cluster g * 512).

Definition fat16_bytes_per_cluster : M Z := gets (fun s => bytes_per_cluster (g_geo s)).

(** ** The cached FAT *)

Definition fat_get (c : Z) : M Z := fun s =>
  if (0 <=? c) && (c <? zlen (g_fat s)) then Some ((g_fat s).[c], s) else None.

Definition fat_set (c v : Z) : M () := fun s =>
  if (0 <=? c) && (c <? zlen (g_fat s)) then Some ((), set_fat (g_fat s).[c := v] s) else None.

Definition fat16_next_cluster (cluster : Z) : M Z :=
  t ← gets g_fat;
  if (zlen t =? 0) || (cluster <? 2) then mret 65535 else fat_get cluster.

Definition cluster_lba (g : geometry) (cluster : Z) : Z :=
  u32 (g_data_start_lba g + u32 (u32 (cluster - 2) * g_sectors_per_cluster g)).

Definition fat16_cluster_to_lba (cluster : Z) : M Z := gets (fun s => cluster_lba (g_geo s) cluster).

(** The inner loop of [fat16_flush_fat]: one copy, sector by sector. *)
Fixpoint flush_sectors (base sec : Z) (k : nat) : M bool :=
  match k with
  | O => mret true
  | S k' =>
      t ← gets g_fat;
      ok ← block_write_sector (u32 (base + sec)) (words_bytes (take 256 (drop (Z.to_nat (256 * sec)) t)));
      if (ok : bool) then flush_sectors base (sec + 1) k' else mret false
  end.

Fixpoint flush_copies (f : Z) (k : nat) : M bool :=
  match k with
  | O => mret true
  | S k' =>
      g ← gets g_geo;
      ok ← flush_sectors (u32 (g_fat_start_lba g + u32 (f * g_fat_size_sectors g))) 0
             (Z.to_nat (g_fat_size_sectors g));
      if (ok : bool) then flush_copies (f + 1) k' else mret false
  end.

(** [true] for the C result 0, [false] for -1. *)
Definition fat16_flush_fat : M bool :=
  g ← gets g_geo; flush_copies 0 (Z.to_nat (g_num_fats g)).

Definition is_link (c : Z) : bool := (2 <=? c) && (c <? 65528).

Fixpoint free_chain_loop (fuel : nat) (cluster : Z) : M () :=
  if is_link cluster then
    match fuel with
    | O => undefined
    | S fuel' =>
        next ← fat_get cluster;
        _ ← fat_set cluster 0;
        free_chain_loop fuel' next
    end
  else mret ().

(** A visited entry becomes 0, which ends the loop if it is met again: one more
    step than the table has entries is enough on any table. *)
Definition fat16_free_chain (cluster : Z) : M () :=
  t ← gets g_fat; free_chain_loop (S (length t)) cluster.

Fixpoint alloc_loop (c : Z) (k : nat) : M Z :=
  match k with
  | O => mret 0
  | S k' =>
      e ← fat_get c;
      if e =? 0 then _ ← fat_set c 65535; mret c else alloc_loop (c + 1) k'
  end.

Definition fat16_alloc_cluster : M Z :=
  g ← gets g_geo; alloc_loop 2 (Z.to_nat (g_total_clusters g - 2)).

(** ** Invariant *)

(** A mounted volume: the table has an entry for every cluster the allocator may
    hand out, cluster numbers are below the end-of-chain marks, the regions
    follow each other and lie on the device. *)
Record vol_ok (s : volume D) : Prop := VolOk {
  vo_ready : g_ready s = true;
  vo_len : zlen (g_fat s) = 256 * g_fat_size_sectors (g_geo s);
  vo_words : Forall (fun e => 0 <= e < 65536) (g_fat s);
  vo_total : 2 <= g_total_clusters (g_geo s) <= zlen (g_fat s);
  vo_marks : g_total_clusters (g_geo s) <= 65528;
  vo_spc : 1 <= g_sectors_per_cluster (g_geo s) < 256;
  vo_fats : 1 <= g_num_fats (g_geo s) /\ 1 <= g_fat_size_sectors (g_geo s);
  vo_reserved : 1 <= g_fat_start_lba (g_geo s);
  vo_root : g_root_start_lba (g_geo s) =
    g_fat_start_lba (g_geo s) + g_num_fats (g_geo s) * g_fat_size_sectors (g_geo s);
  vo_data : g_data_start_lba (g_geo s) = g_root_start_lba (g_geo s) + g_root_sector_count (g_geo s);
  vo_rootn : 0 <= g_root_sector_count (g_geo s);
  vo_end : g_data_start_lba (g_geo s) +
    (g_total_clusters (g_geo s) - 2) * g_sectors_per_cluster (g_geo s) <= bd_size (disk s);
  vo_size : bd_size (disk s) < 2 ^ 32;
  vo_bufs : sector (sector_buf s) /\ Forall byte (sector_buf s) /\
    sector (dir_buf s) /\ Forall byte (dir_buf s)
}.

(** Outside [W] the two disks hold the same sectors. *)
Definition same_disk (W : Z -> Prop) (d d' : D) : Prop :=
  bd_size d' = bd_size d /\ forall l, ~ W l -> bd_data d' l = bd_data d l.

Definition nowhere (l : Z) : Prop := False.

Lemma same_disk_refl W d : same_disk W d d.
Proof. done. Qed.

Lemma same_disk_trans W1 W2 W d1 d2 d3 :
  same_disk W1 d1 d2 -> same_disk W2 d2 d3 ->
  (forall l, W1 l \/ W2 l -> W l) -> same_disk W d1 d3.
Proof.
  intros [E1 F1] [E2 F2] HW. split; [congruence|]. intros l Hl.
  rewrite F2, F1; [done|naive_solver..].
Qed.

Lemma same_disk_mono (W W' : Z -> Prop) d d' : (forall l, W l -> W' l) ->
  same_disk W d d' -> same_disk W' d d'.
Proof. intros HW [E F]. split; [done|]. intros l Hl. apply F. auto. Qed.

(** ** The block layer *)

Lemma wp_read l Q s :
  (forall r d', (r = None \/ r = Some (bd_data (disk s) l)) -> same_disk nowhere (disk s) d' ->
     (bd_healthy (disk s) -> 0 <= l < bd_size (disk s) ->
        r = Some (bd_data (disk s) l) /\ bd_healthy d') ->
     Q r (set_disk d' s)) ->
  wp (block_read_sector l) Q s.
Proof.
  intros HQ. unfold wp, block_read_sector.
  pose proof (bd_read_data (disk s) l) as Hd. pose proof (bd_read_same (disk s) l) as Hs.
  pose proof (bd_read_size (disk s) l) as Hz. pose proof (bd_healthy_read (disk s) l) as Hh.
  destruct (bd_read l (disk s)) as [r d']; simpl in *. apply HQ.
  - destruct r as [buf|]; [right; f_equal; auto|by left].
  - by split; [|intros; apply Hs].
  - intros G L. destruct (Hh G L) as [[buf ->] G']. split; [f_equal; auto|done].
Qed.

Lemma wp_write l buf Q s : sector buf -> Forall byte buf ->
  (forall ok d', same_disk (eq l) (disk s) d' -> (ok = true -> bd_data d' l = buf) ->
     (bd_healthy (disk s) -> 0 <= l < bd_size (disk s) -> ok = true /\ bd_healthy d') ->
     Q ok (set_disk d' s)) ->
  wp (block_write_sector l buf) Q s.
Proof.
  intros Hb Hby HQ. unfold wp, block_write_sector.
  pose proof (bd_write_data (disk s) l buf Hb Hby) as Hd.
  pose proof (bd_write_other (disk s) l buf) as Ho.
  pose proof (bd_write_size (disk s) l buf) as Hz. pose proof (bd_healthy_write (disk s) l buf) as Hh.
  destruct (bd_write l buf (disk s)) as [ok d']; simpl in *. apply HQ; [|done..].
  split; [done|]. intros l' Hl. apply Ho. congruence.
Qed.

(** ** The cached FAT *)

Lemma wp_fat_get c Q s : 0 <= c < zlen (g_fat s) -> Q (g_fat s).[c] s -> wp (fat_get c) Q s.
Proof.
  intros Hc HQ. unfold wp, fat_get. rewrite (proj2 (Z.leb_le _ _)), (proj2 (Z.ltb_lt _ _)) by lia. done.
Qed.

Lemma wp_fat_set c v Q s : 0 <= c < zlen (g_fat s) -> Q () (set_fat (g_fat s).[c := v] s) ->
  wp (fat_set c v) Q s.
Proof.
  intros Hc HQ. unfold wp, fat_set. rewrite (proj2 (Z.leb_le _ _)), (proj2 (Z.ltb_lt _ _)) by lia. done.
Qed.

Lemma is_link_spec c : is_link c = true <-> 2 <= c < 65528.
Proof. unfold is_link. rewrite andb_true_iff, Z.leb_le, Z.ltb_lt. done. Qed.

(** *** Allocation *)

Definition lowest_free (t : list Z) (total c : Z) : Prop :=
  2 <= c < total /\ t.[c] = 0 /\ forall i, 2 <= i < c -> t.[i] <> 0.

Lemma alloc_loop_spec k c s :
  2 <= c -> c + Z.of_nat k <= zlen (g_fat s) ->
  (forall i, 2 <= i < c -> (g_fat s).[i] <> 0) ->
  wp (alloc_loop c k) (fun r s' =>
    (r = 0 /\ s' = s /\ forall i, 2 <= i < c + Z.of_nat k -> (g_fat s).[i] <> 0) \/
    (lowest_free (g_fat s) (c + Z.of_nat k) r /\ s' = set_fat (g_fat s).[r := 65535] s)) s.
Proof.
  revert c; induction k as [|k IH]; intros c Hc Hl Hlow.
  - apply wp_ret. left. split_and!; [done..|]. intros; apply Hlow; lia.
  - cbn [alloc_loop]. apply wp_bind, wp_fat_get; [lia|].
    destruct (Z.eqb_spec (g_fat s).[c] 0) as [E|E].
    + apply wp_bind, wp_fat_set; [lia|]. apply wp_ret. right.
      split; [|done]. split; [lia|done].
    + eapply wp_mono; [apply IH; [lia|lia|]|].
      { intros i Hi. destruct (Z.eq_dec i c) as [->|]; [done|]. apply Hlow; lia. }
      simpl. intros r s'. replace (c + 1 + Z.of_nat k) with (c + Z.of_nat (S k)) by lia. done.
Qed.

Lemma alloc_cluster_spec s : vol_ok s ->
  wp fat16_alloc_cluster (fun r s' =>
    (r = 0 /\ s' = s /\ forall i, 2 <= i < g_total_clusters (g_geo s) -> (g_fat s).[i] <> 0) \/
    (lowest_free (g_fat s) (g_total_clusters (g_geo s)) r /\ s' = set_fat (g_fat s).[r := 65535] s)) s.
Proof.
  intros Hs. pose proof (vo_total s Hs) as Ht. unfold fat16_alloc_cluster.
  apply wp_bind, wp_gets. eapply wp_mono; [apply alloc_loop_spec; lia|].
  replace (2 + Z.of_nat (Z.to_nat (g_total_clusters (g_geo s) - 2)))
    with (g_total_clusters (g_geo s)) by lia. done.
Qed.

(** *** Freeing a chain *)

(** The clusters the loop of [fat16_free_chain] visits from [c]. *)
Inductive reach (t : list Z) : Z -> Z -> Prop :=
| reach_here c : is_link c = true -> reach t c c
| reach_next c x : is_link c = true -> reach t t.[c] x -> reach t c x.

(** Links stay inside the table. *)
Definition closed (t : list Z) : Prop := Forall (fun e => is_link e = true -> e < zlen t) t.

Definition used_entries (t : list Z) : nat := length (filter (fun e => e <> 0) t).

Lemma used_entries_le t : (used_entries t <= length t)%nat.
Proof. apply length_filter. Qed.

Lemma used_entries_set t c : 0 <= c < zlen t -> t.[c] <> 0 ->
  used_entries t = S (used_entries t.[c := 0]).
Proof.
  unfold used_entries, zset, zget, zlen. intros Hc Hne.
  destruct (lookup_lt_is_Some_2 t (Z.to_nat c)) as [e He]; [lia|].
  rewrite (list_lookup_total_correct _ _ _ He) in Hne.
  rewrite <- (take_drop_middle _ _ _ He) at 1. rewrite insert_take_drop by lia.
  rewrite !filter_app, !filter_cons, decide_True by done.
  rewrite decide_False by lia. rewrite !length_app. simpl. lia.
Qed.

Lemma reach_cleared t c x : 0 <= c < zlen t -> is_link c = true ->
  reach t c x <-> x = c \/ reach t.[c := 0] t.[c] x.
Proof.
  intros Hc Hl.
  assert (Hz : t.[c := 0].[c] = 0) by by apply zget_set_eq.
  assert (Ho : forall n, is_link n = true -> n <> c -> t.[c := 0].[n] = t.[n]).
  { intros n Hn%is_link_spec Hne. apply zget_set_ne; lia. }
  split.
  - intros HR. inversion HR as [?|? ? _ HR']; subst; [by left|].
    assert (G : forall n, reach t n x ->
      x = c \/ reach t.[c := 0] n x \/ reach t.[c := 0] t.[c] x).
    { clear -Ho. induction 1 as [n Hn|n x Hn _ IH]; [right; left; by constructor|].
      destruct IH as [->|[IH|IH]]; auto. destruct (Z.eq_dec n c) as [->|Hne]; [by auto|].
      right; left. apply reach_next; [done|]. by rewrite Ho. }
    destruct (G _ HR') as [?|[?|?]]; auto.
  - intros [->|HR]; [by constructor|]. apply reach_next; [done|].
    induction HR as [n Hn|n x Hn HR IH]; [by constructor|].
    destruct (Z.eq_dec n c) as [->|Hne].
    + rewrite Hz in HR. inversion HR; subst; done.
    + apply reach_next; [done|]. by rewrite <- Ho.
Qed.

Lemma closed_clear t c : closed t -> closed t.[c := 0].
Proof.
  unfold closed. rewrite zset_len. intros Hc. apply zset_forall; done.
Qed.

Lemma set_fat_id (s : volume D) : set_fat (g_fat s) s = s.
Proof. by destruct s. Qed.

Lemma reach_link t c x : reach t c x -> is_link c = true.
Proof. by destruct 1. Qed.

Lemma free_chain_loop_spec fuel c s :
  closed (g_fat s) -> (is_link c = true -> c < zlen (g_fat s)) ->
  (used_entries (g_fat s) < fuel)%nat \/ is_link c = false ->
  wp (free_chain_loop fuel c) (fun _ s' => exists t, s' = set_fat t s /\ length t = length (g_fat s) /\
    forall x, 0 <= x < zlen (g_fat s) ->
      (reach (g_fat s) c x -> t.[x] = 0) /\ (~ reach (g_fat s) c x -> t.[x] = (g_fat s).[x])) s.
Proof.
  revert c s; induction fuel as [|fuel IH]; intros c s Hcl Hr Hf;
    cbn [free_chain_loop]; destruct (is_link c) eqn:Hc;
    try (apply wp_ret; exists (g_fat s); split_and!;
         [by rewrite set_fat_id|done|intros x _; split; [intros ?%reach_link; congruence|done]]).
  { destruct Hf; [lia|done]. }
  destruct Hf as [Hf|]; [|done]. pose proof Hc as Hc'. apply is_link_spec in Hc'.
  specialize (Hr eq_refl). apply wp_bind, wp_fat_get; [lia|]. apply wp_bind, wp_fat_set; [lia|].
  eapply wp_mono; [apply IH|]; simpl.
  - by apply closed_clear.
  - rewrite zset_len. unfold closed in Hcl.
    apply (zget_forall _ _ c Hcl). lia.
  - destruct (Z.eq_dec (g_fat s).[c] 0) as [->|Hne]; [by right|].
    left. rewrite (used_entries_set _ c) in Hf by (lia || done). lia.
  - intros _ s' (t & -> & Hl & Ht). exists t. rewrite zset_length in Hl. rewrite zset_len in Ht.
    split_and!; [done..|]. intros x Hx. destruct (Ht x Hx) as [A B].
    pose proof (reach_cleared (g_fat s) c x ltac:(lia) Hc) as R.
    destruct (Z.eq_dec x c) as [->|Hne].
    + split; [intros _|intros N; exfalso; apply N; by constructor].
      destruct (Z.eq_dec t.[c] 0) as [|Hn]; [done|]. rewrite B; [|tauto]. apply zget_set_eq; lia.
    + rewrite zget_set_ne in B by lia. split; intros; [apply A|apply B]; tauto.
Qed.

Lemma free_chain_spec c s :
  closed (g_fat s) -> (is_link c = true -> c < zlen (g_fat s)) ->
  wp (fat16_free_chain c) (fun _ s' => exists t, s' = set_fat t s /\ length t = length (g_fat s) /\
    forall x, 0 <= x < zlen (g_fat s) ->
      (reach (g_fat s) c x -> t.[x] = 0) /\ (~ reach (g_fat s) c x -> t.[x] = (g_fat s).[x])) s.
Proof.
  intros Hcl Hr. unfold fat16_free_chain. apply wp_bind, wp_gets. apply free_chain_loop_spec; [done..|].
  left. pose proof (used_entries_le (g_fat s)). lia.
Qed.

(** *** Chains *)

(** [chain t c l]: from [c] the table links the clusters [l], in order, to an end
    mark; every one of them is an entry of the table. *)
Fixpoint chain (t : list Z) (c : Z) (l : list Z) : Prop :=
  match l with
  | [] => is_link c = false
  | x :: l' => c = x /\ is_link x = true /\ x < zlen t /\ chain t t.[x] l'
  end.

Lemma chain_reach t c l x : chain t c l -> reach t c x <-> x ∈ l.
Proof.
  revert c; induction l as [|y l IH]; intros c; simpl.
  - intros Hc. split; [intros ?%reach_link; congruence|by intros ?%not_elem_of_nil].
  - intros (-> & Hy & _ & Hl). rewrite elem_of_cons, <- (IH _ Hl). split.
    + inversion 1; subst; auto.
    + intros [->|?]; [by constructor|by apply reach_next].
Qed.

Lemma chain_range t c l : chain t c l -> Forall (fun x => 2 <= x < zlen t /\ x < 65528) l.
Proof.
  revert c; induction l as [|y l IH]; intros c; simpl; [by constructor|].
  intros (_ & Hy%is_link_spec & Hr & Hl). constructor; [lia|eauto].
Qed.

(** A chain only depends on its own entries. *)
Lemma chain_same t t' c l : length t' = length t -> (forall x, x ∈ l -> t'.[x] = t.[x]) ->
  chain t c l -> chain t' c l.
Proof.
  intros Hlen. revert c; induction l as [|y l IH]; intros c E; simpl; [done|].
  intros (-> & Hy & Hr & Hl). unfold zlen in *. rewrite Hlen, (E y) by set_solver.
  split_and!; [done..|]. apply IH; [set_solver|done].
Qed.

(** Appending to the end of a chain: the last entry links the new cluster. *)
Lemma chain_snoc t c l x y v : chain t c (l ++ [x]) -> NoDup (l ++ [x]) -> is_link y = true ->
  0 <= y < zlen t -> y ∉ l ++ [x] -> is_link v = false ->
  chain (t.[x := y]).[y := v] c (l ++ [x; y]).
Proof.
  revert c; induction l as [|z l IH]; intros c; cbn [app chain].
  - intros (-> & Hx & Hr & _) _ Hy Hyr Hn Hv. rewrite !zset_len.
    apply is_link_spec in Hx as Hx'. rewrite zget_set_ne by (lia || set_solver).
    rewrite zget_set_eq by (rewrite ?zset_len; lia).
    rewrite zget_set_eq by (rewrite ?zset_len; lia). split_and!; (done || lia).
  - intros (-> & Hz & Hr & Hl) [Hnz Hnd]%NoDup_cons Hy Hyr Hn Hv. rewrite !zset_len.
    apply is_link_spec in Hz as Hz'.
    assert (z <> x /\ z <> y) as [Hzx Hzy] by set_solver.
    pose proof (chain_range _ _ _ Hl) as HF. rewrite Forall_app, Forall_singleton in HF.
    split_and!; [done..|]. rewrite !zget_set_ne by lia. apply IH; try done. set_solver.
Qed.

(** ** Flushing the table *)

(** The bytes of the [k]-th sector of a table. *)
Definition fat_sector (t : list Z) (k : Z) : list Z :=
  words_bytes (take 256 (drop (Z.to_nat (256 * k)) t)).

Lemma words_bytes_length ws : length (words_bytes ws) = (2 * length ws)%nat.
Proof. unfold words_bytes. induction ws as [|w ws IH]; simpl; [done|]. rewrite IH. lia. Qed.

Lemma words_bytes_bytes ws : Forall byte (words_bytes ws).
Proof.
  unfold words_bytes. induction ws as [|w ws IH]; simpl; [constructor|].
  repeat constructor; try apply Z.mod_pos_bound; try lia; done.
Qed.

Lemma fat_sector_ok t k : 0 <= k -> 256 * (k + 1) <= zlen t ->
  sector (fat_sector t k) /\ Forall byte (fat_sector t k).
Proof.
  unfold zlen, sector, fat_sector. intros. split; [|apply words_bytes_bytes].
  rewrite words_bytes_length, length_take, length_drop. lia.
Qed.

Lemma word_at_words ws i : (i < length ws)%nat -> 0 <= ws !!! i < 65536 ->
  word_at (words_bytes ws) i = ws !!! i.
Proof.
  unfold word_at, le16, words_bytes. revert i; induction ws as [|w ws IH]; intros i; simpl; [lia|].
  destruct i as [|i]; simpl.
  - intros _ Hw. by apply split16.
  - intros Hi Hw. rewrite <- (IH i) by (lia || done). unfold zget.
    replace (Z.to_nat (2 * Z.of_nat (S i))) with (S (S (Z.to_nat (2 * Z.of_nat i)))) by lia.
    replace (Z.to_nat (2 * Z.of_nat (S i) + 1)) with (S (S (Z.to_nat (2 * Z.of_nat i + 1)))) by lia.
    done.
Qed.

Lemma sector_words_bytes ws : length ws = 256%nat -> Forall (fun e => 0 <= e < 65536) ws ->
  sector_words (words_bytes ws) = ws.
Proof.
  intros Hl HF. unfold sector_words. apply list_eq. intros i.
  change (map ?f ?l) with (f <$> l). rewrite list_lookup_fmap.
  destruct (decide (i < 256)%nat) as [Hi|Hi].
  - rewrite lookup_seq_lt by done. simpl.
    rewrite (list_lookup_lookup_total_lt ws i) by lia. f_equal. apply word_at_words; [lia|].
    rewrite Forall_lookup in HF. apply (HF i). apply list_lookup_lookup_total_lt. lia.
  - rewrite lookup_seq_ge by lia. rewrite lookup_ge_None_2; [done|lia].
Qed.

Lemma flush_sectors_spec k base sec s :
  0 <= sec -> 0 <= base -> base + sec + Z.of_nat k <= bd_size (disk s) -> bd_size (disk s) < 2 ^ 32 ->
  256 * (sec + Z.of_nat k) <= zlen (g_fat s) ->
  wp (flush_sectors base sec k) (fun ok s' => exists d', s' = set_disk d' s /\
    same_disk (fun l => base + sec <= l < base + sec + Z.of_nat k) (disk s) d' /\
    (ok = true -> forall j, sec <= j < sec + Z.of_nat k -> bd_data d' (base + j) = fat_sector (g_fat s) j) /\
    (bd_healthy (disk s) -> ok = true /\ bd_healthy d')) s.
Proof.
  revert sec s; induction k as [|k IH]; intros sec s Hs Hb Hd Hz Ht.
  - apply wp_ret. exists (disk s). split_and!; [by destruct s|done|lia|done].
  - cbn [flush_sectors]. apply wp_bind, wp_gets. apply wp_bind.
    destruct (fat_sector_ok (g_fat s) sec) as [F1 F2]; [lia..|].
    rewrite u32_small by lia. apply wp_write; [exact F1|exact F2|].
    intros ok d1 S1 W1 G1. destruct ok.
    2: { apply wp_ret. exists d1. split_and!; [done| |done|].
         - eapply same_disk_mono; [|exact S1]. simpl. lia.
         - intros G. destruct (G1 G); [lia|done]. }
    destruct S1 as [Z1 O1]. pose proof (conj Z1 O1 : same_disk _ _ _) as S1.
    eapply wp_mono; [apply IH; simpl; lia|]. simpl.
    intros ok s' (d' & -> & S2 & W2 & G2). exists d'. split_and!; [done| | |].
    + eapply same_disk_trans; [exact S1|exact S2|]. simpl. lia.
    + intros Hok j Hj. destruct (Z.eq_dec j sec) as [->|Hne]; [|apply W2; [done|lia]].
      destruct S2 as [_ O2]. rewrite O2 by lia. by apply W1.
    + intros G. apply G2. apply G1; [done|lia].
Qed.

Lemma vol_ok_set_disk s d : vol_ok s -> bd_size d = bd_size (disk s) -> vol_ok (set_disk d s).
Proof. intros [] E. constructor; simpl; rewrite ?E; done. Qed.

Lemma vol_ok_set_fat s t : vol_ok s -> length t = length (g_fat s) ->
  Forall (fun e => 0 <= e < 65536) t -> vol_ok (set_fat t s).
Proof. intros [] E F. constructor; simpl; unfold zlen in *; rewrite ?E; done. Qed.

Lemma vol_ok_set_dir_buf s b : vol_ok s -> sector b -> Forall byte b -> vol_ok (set_dir_buf b s).
Proof. intros [] E F. constructor; simpl; naive_solver. Qed.

Lemma vol_ok_set_sector_buf s b : vol_ok s -> sector b -> Forall byte b -> vol_ok (set_sector_buf b s).
Proof. intros [] E F. constructor; simpl; naive_solver. Qed.

(** The three regions in order, with the device behind them. *)
Lemma regions s : vol_ok s ->
  1 <= g_fat_start_lba (g_geo s) /\ g_fat_start_lba (g_geo s) < g_root_start_lba (g_geo s) /\
  g_root_start_lba (g_geo s) <= g_data_start_lba (g_geo s) <= bd_size (disk s) /\
  bd_size (disk s) < 2 ^ 32.
Proof. intros []. nia. Qed.

Lemma flush_copies_spec k f s :
  vol_ok s -> 0 <= f -> f + Z.of_nat k = g_num_fats (g_geo s) ->
  wp (flush_copies f k) (fun ok s' => exists d', s' = set_disk d' s /\
    same_disk (fun l => g_fat_start_lba (g_geo s) + f * g_fat_size_sectors (g_geo s) <= l
                        < g_root_start_lba (g_geo s)) (disk s) d' /\
    (ok = true -> forall i j, f <= i < g_num_fats (g_geo s) -> 0 <= j < g_fat_size_sectors (g_geo s) ->
       bd_data d' (g_fat_start_lba (g_geo s) + i * g_fat_size_sectors (g_geo s) + j) =
       fat_sector (g_fat s) j) /\
    (bd_healthy (disk s) -> ok = true /\ bd_healthy d')) s.
Proof.
  revert f s; induction k as [|k IH]; intros f s Hs Hf Hk.
  - apply wp_ret. exists (disk s). split_and!; [by destruct s|done|lia|done].
  - cbn [flush_copies]. apply wp_bind, wp_gets. apply wp_bind.
    destruct (regions s Hs) as (R1 & R2 & R3 & R4). pose proof (vo_root s Hs) as Er.
    pose proof (vo_fats s Hs) as [Nf Fs]. pose proof (vo_len s Hs) as El.
    set (n := g_fat_size_sectors (g_geo s)) in *. set (st := g_fat_start_lba (g_geo s)) in *.
    assert (Hfn : f * n + n <= g_num_fats (g_geo s) * n) by nia.
    assert (0 <= f * n) by nia.
    rewrite (u32_small (f * n)), u32_small by lia.
    eapply wp_mono; [apply flush_sectors_spec; lia|].
    intros ok s1 (d1 & -> & S1 & W1 & G1). destruct ok.
    2: { apply wp_ret. exists d1. split_and!; [done| |done|].
         - eapply same_disk_mono; [|exact S1]. cbv beta. lia.
         - intros G. destruct (G1 G); done. }
    eapply wp_mono; [apply (IH (f + 1) (set_disk d1 s)); simpl; [|lia..]|].
    { apply vol_ok_set_disk; [done|apply S1]. }
    simpl. fold n st. intros ok s' (d' & -> & S2 & W2 & G2). exists d'. split_and!; [done| | |].
    + eapply same_disk_trans; [exact S1|exact S2|]. cbv beta. lia.
    + intros Hok i j Hi Hj. destruct (Z.eq_dec i f) as [->|Hne]; [|apply W2; [done|lia|lia]].
      destruct S2 as [_ O2]. rewrite O2 by lia. apply W1; [done|lia].
    + intros G. apply G2, G1, G.
Qed.

Definition fat_region (g : geometry) (l : Z) : Prop :=
  g_fat_start_lba g <= l < g_root_start_lba g.

(** Every copy of the table on the disk is the table [t]. *)
Definition fat_on_disk (g : geometry) (t : list Z) (d : D) : Prop :=
  forall i j, 0 <= i < g_num_fats g -> 0 <= j < g_fat_size_sectors g ->
    bd_data d (g_fat_start_lba g + i * g_fat_size_sectors g + j) = fat_sector t j.

Lemma flush_fat_spec s : vol_ok s ->
  wp fat16_flush_fat (fun ok s' => exists d', s' = set_disk d' s /\
    same_disk (fat_region (g_geo s)) (disk s) d' /\
    (ok = true -> fat_on_disk (g_geo s) (g_fat s) d') /\
    (bd_healthy (disk s) -> ok = true /\ bd_healthy d')) s.
Proof.
  intros Hs. unfold fat16_flush_fat. apply wp_bind, wp_gets.
  pose proof (vo_fats s Hs). eapply wp_mono; [apply flush_copies_spec; [done|lia|lia]|].
  intros ok s' (d' & -> & S & W & G). exists d'. split_and!; [done| |done|done].
  eapply same_disk_mono; [|exact S]. unfold fat_region. lia.
Qed.

(** ** Mounting *)

Lemma load_fat_spec k start sec acc s :
  0 <= start -> 0 <= sec -> start + sec + Z.of_nat k < 2 ^ 32 ->
  wp (load_fat start sec k acc) (fun r s' => exists d', s' = set_disk d' s /\
    same_disk nowhere (disk s) d' /\
    (r = None \/
     r = Some (acc ++ concat (map (fun j => sector_words (bd_data (disk s) (start + sec + Z.of_nat j)))
                                  (seq 0 k)))) /\
    (bd_healthy (disk s) -> start + sec + Z.of_nat k <= bd_size (disk s) ->
       r <> None /\ bd_healthy d')) s.
Proof.
  revert sec acc s; induction k as [|k IH]; intros sec acc s H1 H2 H3.
  - apply wp_ret. exists (disk s). simpl. rewrite app_nil_r.
    split_and!; [by destruct s|done|by right|done].
  - cbn [load_fat]. apply wp_bind. rewrite u32_small by lia. apply wp_read.
    intros r d1 Hr S1 G1. destruct r as [buf|].
    2: { apply wp_ret. exists d1. split_and!; [done..|by left|].
         intros G L. destruct (G1 G) as [? _]; [lia|done]. }
    destruct Hr as [|[= ->]]; [done|].
    eapply wp_mono; [apply IH; lia|]. cbn [disk set_disk].
    intros r s' (d' & -> & S2 & Hr & G2). exists d'. split_and!; [done| | |].
    + eapply same_disk_trans; [exact S1|exact S2|]. tauto.
    + destruct Hr as [->| ->]; [by left|right]. cbn [seq map concat].
      rewrite Z.add_0_r, <- seq_shift, map_map, <- app_assoc. do 4 f_equal. apply map_ext. intros j.
      destruct S1 as [_ O1]. rewrite O1 by tauto. do 2 f_equal. lia.
    + intros G L. destruct S1 as [Z1 _]. apply G2; [|lia]. apply G1; [done|lia].
Qed.

(** What a table's sectors decode to is the table. *)
Lemma sectors_table t n : length t = (256 * n)%nat -> Forall (fun e => 0 <= e < 65536) t ->
  concat (map (fun j => sector_words (fat_sector t (Z.of_nat j))) (seq 0 n)) = t.
Proof.
  unfold fat_sector. revert t; induction n as [|n IH]; intros t Hl HF.
  - by destruct t.
  - assert (H256 : (256 <= length t)%nat) by lia.
    cbn [seq map concat]. transitivity (take 256 t ++ drop 256 t); [|apply take_drop]. f_equal.
    + change (Z.to_nat (256 * Z.of_nat 0)) with 0%nat. rewrite drop_0.
      apply sector_words_bytes; [rewrite length_take; lia|by apply Forall_take].
    + rewrite <- seq_shift, map_map. etransitivity; [|apply (IH (drop 256 t));
        [rewrite length_drop; lia|by apply Forall_drop]].
      f_equal. apply map_ext. intros j. do 3 f_equal. rewrite drop_drop. f_equal. lia.
Qed.

Definition bpb_total (b : list Z) : Z := if le16 b 19 =? 0 then le32 b 32 else le16 b 19.

(** A boot sector that describes a FAT16 volume on a device of [size] sectors:
    the checks of [fat16_init], and what a formatter guarantees beyond them. *)
Record bpb_ok (b : list Z) (size : Z) : Prop := BpbOk {
  bo_sector : le16 b 11 = 512;
  bo_fat : le16 b 22 <> 0;
  bo_nfats : b.[16] <> 0;
  bo_spc : b.[13] <> 0;
  bo_reserved : 1 <= le16 b 14;
  bo_room : g_data_start_lba (bpb_geometry b) <= bpb_total b <= size;
  bo_clusters : g_total_clusters (bpb_geometry b) <= 256 * le16 b 22 /\
    g_total_clusters (bpb_geometry b) <= 65528
}.

Lemma zget_byte b i : sector b -> Forall byte b -> 0 <= i < 512 -> 0 <= b.[i] < 256.
Proof. intros Hb Hf Hi. apply (zget_forall byte b i Hf). unfold sector, zlen in *. lia. Qed.

Lemma le16_range b o : sector b -> Forall byte b -> 0 <= o < 511 -> 0 <= le16 b o < 65536.
Proof.
  intros Hb Hf Ho. unfold le16. pose proof (zget_byte b o Hb Hf). pose proof (zget_byte b (o + 1) Hb Hf). lia.
Qed.

(** The unwrapped layout. *)
Lemma geometry_layout b : sector b -> Forall byte b ->
  let g := bpb_geometry b in
  0 <= g_fat_start_lba g < 65536 /\ 0 <= g_fat_size_sectors g < 65536 /\
  0 <= g_num_fats g < 256 /\ 0 <= g_sectors_per_cluster g < 256 /\
  0 <= g_root_sector_count g /\
  g_root_start_lba g = g_fat_start_lba g + g_num_fats g * g_fat_size_sectors g /\
  g_data_start_lba g = g_root_start_lba g + g_root_sector_count g.
Proof.
  intros Hb Hf g.
  pose proof (le16_range b 14 Hb Hf) as H14. pose proof (le16_range b 22 Hb Hf) as H22.
  pose proof (le16_range b 17 Hb Hf) as H17. pose proof (zget_byte b 16 Hb Hf) as H16.
  pose proof (zget_byte b 13 Hb Hf) as H13. unfold g, bpb_geometry. simpl.
  assert (0 <= b.[16] * le16 b 22 < 2 ^ 25) by nia.
  rewrite (u32_small (b.[16] * le16 b 22)) by lia. rewrite (u32_small (le16 b 14 + _)) by lia.
  rewrite (u32_small (le16 b 17 * 32)) by lia. rewrite (u32_small (_ + 511)) by lia.
  assert (0 <= (le16 b 17 * 32 + 511) / 512 < 65536).
  { split; [apply Z.div_pos; lia|apply Z.div_lt_upper_bound; lia]. }
  rewrite u32_small by lia. lia.
Qed.

Lemma geometry_clusters b size : sector b -> Forall byte b -> size < 2 ^ 32 -> bpb_ok b size ->
  let g := bpb_geometry b in
  2 <= g_total_clusters g /\
  g_data_start_lba g + (g_total_clusters g - 2) * g_sectors_per_cluster g <= size.
Proof.
  intros Hb Hf Hz Hok g. destruct (geometry_layout b Hb Hf) as (L1 & L2 & L3 & L4 & L5 & L6 & L7).
  fold g in L1, L2, L3, L4, L5, L6, L7.
  pose proof (bo_room _ _ Hok) as Hr. fold g in Hr. pose proof (bo_spc _ _ Hok) as Hs.
  change (b.[13]) with (g_sectors_per_cluster g) in Hs.
  assert (Et : g_total_clusters g =
    u32 (u32 (bpb_total b - g_data_start_lba g) / g_sectors_per_cluster g + 2)) by done.
  assert (0 <= g_data_start_lba g) by nia.
  rewrite (u32_small (bpb_total b - _)) in Et by lia.
  set (n := bpb_total b - g_data_start_lba g) in *. set (k := g_sectors_per_cluster g) in *.
  pose proof (Z.div_pos n k ltac:(lia) ltac:(lia)) as Hq.
  pose proof (Z.mul_div_le n k ltac:(lia)) as Hm.
  assert (n / k <= n) by nia.
  assert (2 <= g_data_start_lba g).
  { pose proof (bo_reserved _ _ Hok) as A. pose proof (bo_fat _ _ Hok) as B.
    pose proof (bo_nfats _ _ Hok) as C. change (le16 b 14) with (g_fat_start_lba g) in A.
    change (le16 b 22) with (g_fat_size_sectors g) in B. change (b.[16]) with (g_num_fats g) in C. nia. }
  rewrite u32_small in Et by lia. rewrite Et. nia.
Qed.

(** The table the first copy on the disk holds. *)
Definition disk_fat (g : geometry) (d : D) : list Z :=
  concat (map (fun j => sector_words (bd_data d (g_fat_start_lba g + Z.of_nat j)))
              (seq 0 (Z.to_nat (g_fat_size_sectors g)))).

Lemma sector_words_length b : length (sector_words b) = 256%nat.
Proof. unfold sector_words. by rewrite length_map, length_seq. Qed.

Lemma disk_fat_ok g d : length (disk_fat g d) = (256 * Z.to_nat (g_fat_size_sectors g))%nat /\
  Forall (fun e => 0 <= e < 65536) (disk_fat g d).
Proof.
  unfold disk_fat. generalize (Z.to_nat (g_fat_size_sectors g)) as n. intros n.
  set (l := seq 0 n). replace n with (length l) by apply length_seq. clearbody l. clear n.
  induction l as [|a l IH]; [done|]. cbn [map concat length].
  destruct IH as [L F]. rewrite length_app, L. split.
  - rewrite sector_words_length. lia.
  - apply Forall_app. split; [|done]. unfold sector_words. rewrite Forall_map, Forall_forall.
    intros i Hi%elem_of_seq. apply le16_range; [apply bd_data_sector..|lia].
Qed.

Lemma disk_fat_flushed g t d : zlen t = 256 * g_fat_size_sectors g -> 0 < g_num_fats g ->
  Forall (fun e => 0 <= e < 65536) t -> fat_on_disk g t d -> disk_fat g d = t.
Proof.
  intros Hl Hn Ht Hd. etransitivity; [|apply (sectors_table t (Z.to_nat (g_fat_size_sectors g)))].
  - unfold disk_fat. f_equal. apply map_ext_in. intros j Hj%in_seq. f_equal.
    rewrite <- (Hd 0 (Z.of_nat j)) by lia. f_equal. lia.
  - unfold zlen in Hl. lia.
  - done.
Qed.

(** [fat16_init] fails without a mounted volume, or mounts what the disk holds. *)
Lemma fat16_init_spec kmalloc s :
  wp (fat16_init kmalloc) (fun ok s' =>
    same_disk nowhere (disk s) (disk s') /\ g_ready s' = ok /\
    let b := bd_data (disk s) 0 in
    (ok = true -> g_geo s' = bpb_geometry b /\ sector_buf s' = b /\ dir_buf s' = dir_buf s /\
       le16 b 22 <> 0 /\ g_fat s' = disk_fat (bpb_geometry b) (disk s)) /\
    (bd_healthy (disk s) -> bd_size (disk s) < 2 ^ 32 -> bpb_ok b (bd_size (disk s)) ->
       (forall n, kmalloc n <> 0) -> ok = true /\ bd_healthy (disk s'))) s.
Proof.
  unfold fat16_init. set (b := bd_data (disk s) 0).
  destruct (bd_data_sector (disk s) 0) as [Hb Hf]. fold b in Hb, Hf.
  apply wp_bind, wp_modify. apply wp_bind, wp_read. cbn [disk set_ready]. fold b.
  intros r d1 Hr S1 G1.
  assert (Hfail : forall s', disk s' = d1 -> g_ready s' = false ->
    (bd_healthy (disk s) -> bd_size (disk s) < 2 ^ 32 -> bpb_ok b (bd_size (disk s)) ->
       (forall n, kmalloc n <> 0) -> False) ->
    same_disk nowhere (disk s) (disk s') /\ g_ready s' = false /\
    (false = true -> g_geo s' = bpb_geometry b /\ sector_buf s' = b /\ dir_buf s' = dir_buf s /\
       le16 b 22 <> 0 /\ g_fat s' = disk_fat (bpb_geometry b) (disk s)) /\
    (bd_healthy (disk s) -> bd_size (disk s) < 2 ^ 32 -> bpb_ok b (bd_size (disk s)) ->
       (forall n, kmalloc n <> 0) -> false = true /\ bd_healthy (disk s'))).
  { intros s' -> -> HF. split_and!; [done..|]. intros; exfalso; auto. }
  assert (H0 : bpb_ok b (bd_size (disk s)) -> 0 <= 0 < bd_size (disk s)).
  { intros Hk. pose proof (bo_room _ _ Hk). pose proof (bo_reserved _ _ Hk) as A.
    destruct (geometry_layout b Hb Hf) as (? & ? & ? & ? & ? & ? & ?).
    change (le16 b 14) with (g_fat_start_lba (bpb_geometry b)) in A. nia. }
  destruct r as [b'|].
  2: { apply wp_ret, Hfail; [done..|]. intros G _ Hk _. destruct (G1 G (H0 Hk)); done. }
  destruct Hr as [|[= ->]]; [done|]. apply wp_bind, wp_modify.
  destruct (Z.eqb_spec (le16 b 11) 512) as [E1|E1]; cbn [negb];
    [|apply wp_ret, Hfail; [done..|intros _ _ Hk _; by apply E1, Hk]].
  destruct (Z.eqb_spec (le16 b 22) 0) as [E2|E2];
    [apply wp_ret, Hfail; [done..|intros _ _ Hk _; by apply (bo_fat _ _ Hk)]|].
  destruct (Z.eqb_spec b.[16] 0) as [E3|E3];
    [apply wp_ret, Hfail; [done..|intros _ _ Hk _; by apply (bo_nfats _ _ Hk)]|].
  destruct (Z.eqb_spec b.[13] 0) as [E4|E4];
    [apply wp_ret, Hfail; [done..|intros _ _ Hk _; by apply (bo_spc _ _ Hk)]|].
  apply wp_bind, wp_modify. case_if.
  { apply wp_bind, wp_modify, wp_ret, Hfail; [done..|]. intros _ _ _ Hm. by eapply Hm. }
  apply wp_bind. destruct (geometry_layout b Hb Hf) as (L1 & L2 & _ & _ & L5 & L6 & L7).
  eapply wp_mono; [apply load_fat_spec; lia|]. cbn [disk set_geo set_sector_buf set_disk].
  intros t s' (d2 & -> & S2 & Ht & G2).
  assert (S12 : same_disk nowhere (disk s) d2) by (eapply same_disk_trans; [exact S1|exact S2|tauto]).
  assert (Hgood : bd_healthy (disk s) -> bpb_ok b (bd_size (disk s)) -> t <> None /\ bd_healthy d2).
  { intros G Hk. destruct (G1 G (H0 Hk)) as [_ G1']. apply G2; [done|].
    destruct S1 as [-> _]. pose proof (bo_room _ _ Hk). pose proof (bo_nfats _ _ Hk) as A.
    change (b.[16]) with (g_num_fats (bpb_geometry b)) in A.
    destruct (geometry_layout b Hb Hf) as (_ & _ & L3 & _). nia. }
  destruct Ht as [->| ->].
  - apply wp_bind, wp_modify, wp_ret. simpl. split_and!; [done..|].
    intros G _ Hk _. destruct (Hgood G Hk); done.
  - apply wp_bind, wp_modify. apply wp_bind, wp_modify. apply wp_ret. simpl.
    split_and!; [done|done| |].
    + intros _. split_and!; try done. unfold disk_fat. f_equal. apply map_ext. intros j.
      destruct S1 as [_ O1]. rewrite O1 by tauto. do 2 f_equal. simpl. lia.
    + intros G _ Hk _. split; [done|]. by apply Hgood.
Qed.

Lemma init_mounts kmalloc s :
  bd_healthy (disk s) -> bd_size (disk s) < 2 ^ 32 ->
  bpb_ok (bd_data (disk s) 0) (bd_size (disk s)) -> (forall n, kmalloc n <> 0) ->
  sector (dir_buf s) -> Forall byte (dir_buf s) ->
  wp (fat16_init kmalloc) (fun ok s' => ok = true /\ vol_ok s' /\ bd_healthy (disk s') /\
    same_disk nowhere (disk s) (disk s') /\
    g_geo s' = bpb_geometry (bd_data (disk s) 0) /\ g_fat s' = disk_fat (g_geo s') (disk s)) s.
Proof.
  intros G Hz Hk Hm Hd1 Hd2. eapply wp_mono; [apply fat16_init_spec|].
  cbv zeta. intros ok s' (S & Hr & Hok & Hg). destruct (Hg G Hz Hk Hm) as [-> G'].
  destruct (Hok eq_refl) as (Eg & Es & Ed & Ef & Et). split_and!; [done| |done..|by rewrite Eg].
  destruct (bd_data_sector (disk s) 0) as [Hb Hf].
  destruct (geometry_layout _ Hb Hf) as (L1 & L2 & L3 & L4 & L5 & L6 & L7).
  destruct (geometry_clusters _ _ Hb Hf Hz Hk) as [C1 C2].
  destruct (disk_fat_ok (bpb_geometry (bd_data (disk s) 0)) (disk s)) as [T1 T2].
  assert (Tl : zlen (g_fat s') = 256 * g_fat_size_sectors (g_geo s'))
    by (unfold zlen; rewrite Et, T1, Eg; lia).
  pose proof (bo_spc _ _ Hk) as K1. pose proof (bo_nfats _ _ Hk) as K2.
  pose proof (bo_reserved _ _ Hk) as K3. destruct (bo_clusters _ _ Hk) as [K4 K5].
  change ((bd_data (disk s) 0).[13]) with (g_sectors_per_cluster (bpb_geometry (bd_data (disk s) 0))) in K1.
  change ((bd_data (disk s) 0).[16]) with (g_num_fats (bpb_geometry (bd_data (disk s) 0))) in K2.
  change (le16 (bd_data (disk s) 0) 14) with (g_fat_start_lba (bpb_geometry (bd_data (disk s) 0))) in K3.
  change (le16 (bd_data (disk s) 0) 22) with (g_fat_size_sectors (bpb_geometry (bd_data (disk s) 0))) in K4, Ef.
  destruct S as [Sz _].
  constructor; rewrite ?Tl, ?Es, ?Ed, ?Sz; rewrite ?Eg in *; try done; try lia.
  by rewrite Et.
Qed.
End fat.

(** ** A simulated disk

    Sectors in a list and a schedule of injected I/O errors, one flag per
    access: the concrete device of the examples. *)
Record simdisk := SimDisk { sd_sectors : list (list Z); sd_faults : list bool }.

Definition norm (buf : list Z) : list Z := map u8 (take 512 (buf ++ replicate 512 0)).
Arguments norm : simpl never.

Definition sd_serves (l : Z) (d : simdisk) : bool :=
  negb (hd false (sd_faults d)) && (0 <=? l) && (l <? zlen (sd_sectors d)).

Definition sd_read (l : Z) (d : simdisk) : option (list Z) * simdisk :=
  (if sd_serves l d then Some (norm (sd_sectors d).[l]) else None,
   SimDisk (sd_sectors d) (tail (sd_faults d))).

Definition sd_write (l : Z) (buf : list Z) (d : simdisk) : bool * simdisk :=
  if sd_serves l d then (true, SimDisk (sd_sectors d).[l := buf] (tail (sd_faults d)))
  else (false, SimDisk (sd_sectors d) (tail (sd_faults d))).

Definition sd_data (d : simdisk) (l : Z) : list Z :=
  if (0 <=? l) && (l <? zlen (sd_sectors d)) then norm (sd_sectors d).[l] else norm [].

Lemma norm_sector b : sector (norm b) /\ Forall byte (norm b).
Proof.
  unfold norm, sector. split.
  - rewrite length_map, length_take, length_app, length_replicate. lia.
  - rewrite Forall_map. apply Forall_forall. intros x _. apply Z.mod_pos_bound. lia.
Qed.

Lemma norm_id b : sector b -> Forall byte b -> norm b = b.
Proof.
  intros Hb Hf. unfold norm. rewrite take_app_le by (rewrite Hb; lia). rewrite firstn_all2 by (rewrite Hb; lia).
  clear Hb. induction Hf as [|x l Hx _ IH]; simpl; [done|]. rewrite IH. f_equal. apply u8_small. exact Hx.
Qed.

Lemma serves_range l d : sd_serves l d = true -> 0 <= l < zlen (sd_sectors d).
Proof. unfold sd_serves. intros. b2p. lia. Qed.

Lemma serves_healthy l d : Forall (eq false) (sd_faults d) -> 0 <= l < zlen (sd_sectors d) ->
  sd_serves l d = true /\ Forall (eq false) (tail (sd_faults d)).
Proof.
  unfold sd_serves. intros Hf Hl. destruct Hf as [|? ? <- Hf]; simpl; split; try done; lia.
Qed.

#[global] Program Instance simdisk_device : BlockDevice simdisk := {|
  bd_read := sd_read;
  bd_write := sd_write;
  bd_data := sd_data;
  bd_size d := zlen (sd_sectors d);
  bd_healthy d := Forall (eq false) (sd_faults d)
|}.
Next Obligation. intros. unfold sd_data. case_if; apply norm_sector. Qed.
Next Obligation.
  unfold sd_read, sd_data. intros d l buf. simpl. destruct (sd_serves l d) eqn:E; [|done].
  apply serves_range in E. intros [= <-]. rewrite (proj2 (Z.leb_le _ _)), (proj2 (Z.ltb_lt _ _)) by lia. done.
Qed.
Next Obligation. done. Qed.
Next Obligation. done. Qed.
Next Obligation.
  unfold sd_write, sd_data. intros d l buf Hb Hf. destruct (sd_serves l d) eqn:E; [|done].
  apply serves_range in E. intros _. simpl. rewrite zset_len.
  rewrite (proj2 (Z.leb_le _ _)), (proj2 (Z.ltb_lt _ _)) by lia. simpl.
  rewrite zget_set_eq by lia. by apply norm_id.
Qed.
Next Obligation.
  unfold sd_write, sd_data. intros d l buf l' Hne. destruct (sd_serves l d) eqn:E; [|done].
  apply serves_range in E. simpl. rewrite zset_len. case_if; [|done]. b2p.
  rewrite zget_set_ne by lia. done.
Qed.
Next Obligation. unfold sd_write. intros. destruct (sd_serves l d); simpl; [apply zset_len|done]. Qed.
Next Obligation.
  unfold sd_read. intros d l Hd Hl. destruct (serves_healthy l d Hd Hl) as [-> ?]. simpl. split; [by eexists|done].
Qed.
Next Obligation.
  unfold sd_write. intros d l buf Hd Hl. destruct (serves_healthy l d Hd Hl) as [-> ?]. done.
Qed.

(** ** Properties *)

Section properties.
Context {D : Type} `{BlockDevice D}.

(** C29 [fat16_free_chain] terminates on every table whose links stay inside it,
    cyclic and cross-linked chains included, without an access out of range; it
    clears exactly the entries reachable from the cluster and leaves the rest of
    the volume as it was. *)
Theorem free_chain_terminates (s : volume D) (c : Z)
  (Hclosed : closed (g_fat s)) (Hc : is_link c = true -> c < zlen (g_fat s)) :
  exists t, fat16_free_chain c s = Some ((), set_fat t s) /\ length t = length (g_fat s) /\
    forall x, 0 <= x < zlen (g_fat s) ->
      (reach (g_fat s) c x -> t.[x] = 0) /\
      (~ reach (g_fat s) c x -> t.[x] = (g_fat s).[x]).
Proof.
  destruct (wp_run _ _ _ (free_chain_spec c s Hclosed Hc)) as ([] & s' & E & t & -> & Ht). eauto.
Qed.

(** C28 What [fat16_flush_fat] writes is what the next mount reads: on a healthy
    device that holds the volume's boot sector, flushing the cached table and
    then running [fat16_init] gives a well-formed volume with the same geometry
    and the same table, and no sector outside the copies of the table changed. *)
Theorem remount_restores_fat (kmalloc : Z -> Z) (s : volume D)
  (Hs : vol_ok s) (Hh : bd_healthy (disk s))
  (Hbpb : bpb_ok (bd_data (disk s) 0) (bd_size (disk s)))
  (Hgeo : bpb_geometry (bd_data (disk s) 0) = g_geo s)
  (Hheap : forall n, kmalloc n <> 0) :
  wp (ok ← fat16_flush_fat; if (ok : bool) then fat16_init kmalloc else mret false)
     (fun ok s' => ok = true /\ vol_ok s' /\ g_geo s' = g_geo s /\ g_fat s' = g_fat s /\
        same_disk (fat_region (g_geo s)) (disk s) (disk s')) s.
Proof.
  apply wp_bind. eapply wp_mono; [by apply flush_fat_spec|].
  intros ok s1 (d1 & -> & S1 & W1 & G1). destruct (G1 Hh) as [-> Hh1].
  assert (E0 : bd_data d1 0 = bd_data (disk s) 0).
  { apply S1. unfold fat_region. pose proof (vo_reserved s Hs). lia. }
  destruct (vo_bufs s Hs) as (_ & _ & B1 & B2). pose proof (proj1 S1) as Z1.
  eapply wp_mono; [apply init_mounts; cbn [disk set_disk dir_buf]; rewrite ?E0, ?Z1; try done;
    apply (vo_size s Hs)|].
  cbn [disk set_disk]. intros ok s' (-> & Hv & _ & S2 & Eg & Et).
  rewrite E0, Hgeo in Eg. split_and!; [done..| |].
  - rewrite Et, Eg. apply disk_fat_flushed; [apply (vo_len s Hs)| |apply (vo_words s Hs)|by apply W1].
    pose proof (vo_fats s Hs). lia.
  - eapply same_disk_trans; [exact S1|exact S2|]. unfold nowhere. tauto.
Qed.
End properties.

(** A small volume: two copies of a one-sector FAT, a one-sector root directory
    and eight one-sector clusters. *)
Definition demo_bpb (total : Z) : list Z :=
  replicate 11 0 ++ [0; 2; 1; 1; 0; 2; 16; 0; total mod 256; total / 256; 248; 1; 0] ++ replicate 488 0.

Definition demo_fat : list Z := [248; 255; 255; 255] ++ replicate 508 0.

Definition demo_disk (total : Z) : simdisk :=
  SimDisk (demo_bpb total :: demo_fat :: demo_fat :: replicate 9 (replicate 512 0)) [].

Definition blank_volume (d : simdisk) : volume simdisk :=
  Volume _ false (Geometry 0 0 0 0 0 0 0 0) [] (replicate 512 0) (replicate 512 0) d.

Definition mounted (d : simdisk) : volume simdisk :=
  match fat16_init (fun _ => 4096) (blank_volume d) with
  | Some (_, s) => s
  | None => blank_volume d
  end.

Definition demo_vol : volume simdisk := mounted (demo_disk 12).

Lemma all_below n b : forallb (fun x => (0 <=? x) && (x <? n)) b = true -> Forall (fun x => 0 <= x < n) b.
Proof.
  intros Hb. apply Forall_forall. intros x Hx. rewrite forallb_forall in Hb.
  apply list_elem_of_In in Hx. specialize (Hb x Hx). simpl in Hb. b2p. lia.
Qed.

Lemma demo_bpb_ok : bpb_ok (bd_data (disk demo_vol) 0) (bd_size (disk demo_vol)).
Proof. constructor; vm_compute; intuition congruence. Qed.

Lemma demo_vol_ok : vol_ok demo_vol.
Proof.
  constructor; try (vm_compute; intuition congruence).
  - apply all_below. by vm_compute.
  - split_and!; [by vm_compute|by apply all_below; vm_compute|by vm_compute|by apply all_below; vm_compute].
Qed.

Lemma free_chain_terminates_witness :
  exists t, fat16_free_chain 2 (set_fat [65528; 65535; 3; 2; 5; 65535] demo_vol) =
    Some ((), set_fat t demo_vol) /\ t.[2] = 0 /\ t.[3] = 0.
Proof.
  edestruct (free_chain_terminates (set_fat [65528; 65535; 3; 2; 5; 65535] demo_vol) 2)
    as (t & E & _ & Ht).
  - unfold closed. repeat (apply Forall_cons; split; [vm_compute; congruence|]). by apply Forall_nil.
  - intros _. vm_compute. done.
  - exists t. split; [exact E|]. split.
    + apply (Ht 2); [vm_compute; intuition congruence|]. by constructor.
    + apply (Ht 3); [vm_compute; intuition congruence|]. apply reach_next; [done|]. by constructor.
Defined.

Lemma remount_restores_fat_witness :
  wp (ok ← fat16_flush_fat; if (ok : bool) then fat16_init (fun _ => 4096) else mret false)
     (fun ok s' => ok = true /\ vol_ok s' /\ g_geo s' = g_geo demo_vol /\ g_fat s' = g_fat demo_vol /\
        same_disk (fat_region (g_geo demo_vol)) (disk demo_vol) (disk s')) demo_vol.
Proof.
  apply (remount_restores_fat (fun _ => 4096) demo_vol).
  - exact demo_vol_ok.
  - vm_compute. constructor.
  - exact demo_bpb_ok.
  - by vm_compute.
  - discriminate.
Defined.

(** [fat16_init] does not compare the cluster count of the BPB with the size of
    the FAT: it mounts a volume that claims 516 clusters behind a FAT of 256
    entries, and once the 254 clusters the table can describe are allocated
    [fat16_alloc_cluster] reads beyond the cached table. *)
Theorem init_accepts_short_fat :
  let s := mounted (demo_disk 518) in
  g_ready s = true /\ g_total_clusters (g_geo s) = 516 /\ zlen (g_fat s) = 256 /\
  fat16_alloc_cluster (set_fat (replicate 256 65535) s) = None.
Proof. vm_compute. split_and!; done. Qed.
