(* ===== verification/FatDir.v ===== *)
(** * FAT16 directories

    The directory half of [src/kernel/fs/fat16.c]: the sector iterator shared by
    the root and the subdirectories, lookup, insertion, path resolution,
    listing, [fat16_create], [fat16_mkdir] and [fat16_get_path]. *)

From Stdlib Require Import ZArith Lia.
From stdpp Require Import base tactics numbers list option sets.
From S2P Require Import Prelude FatName Fat.
Local Open Scope Z_scope.

Arguments slot_at : simpl never.
Arguments put_slot : simpl never.
Arguments to_8_3 : simpl never.

(** ** Data *)

Record dir_iter := DirIter {
  it_dir_cluster : Z;
  it_root_sector : Z;
  it_cluster : Z;
  it_cluster_sector : Z
}.

Definition dir_iter_init (dir_cluster : Z) : dir_iter := DirIter dir_cluster 0 dir_cluster 0.

(** Results 1, 0 and -1 of the iterator. *)
Inductive iter_step :=
| IterSector (it : dir_iter) (lba : Z)
| IterEnd
| IterError.

(** Results 1, 0 and -1 of a search. *)
Inductive found (A : Type) :=
| Found (a : A)
| NotFound
| IOError.
Arguments Found {A} a.
Arguments NotFound {A}.
Arguments IOError {A}.

Definition code_of {A} (r : found A) : Z :=
  match r with Found _ => 1 | NotFound => 0 | IOError => -1 end.

(** How a walk over the sectors of a directory ended. *)
Inductive walk (A R : Type) :=
| WalkHit (r : R)
| WalkEnd (it : dir_iter) (a : A)
| WalkError.
Arguments WalkHit {A R} r.
Arguments WalkEnd {A R} it a.
Arguments WalkError {A R}.

Section dir.
Context {D : Type} `{BlockDevice D}.
Local Notation M := (cM (volume D)).

(** ** Iteration *)

Definition dir_iter_next_sector (it : dir_iter) : M iter_step :=
  g ← gets g_geo;
  if it_dir_cluster it =? 0 then
    if g_root_sector_count g <=? it_root_sector it then mret IterEnd
    else
      let lba := u32 (g_root_start_lba g + it_root_sector it) in
      r ← block_read_sector lba;
      match r with
      | None => mret IterError
      | Some buf =>
          _ ← modify (set_dir_buf buf);
          mret (IterSector (DirIter (it_dir_cluster it) (it_root_sector it + 1)
                                    (it_cluster it) (it_cluster_sector it)) lba)
      end
  else if negb (is_link (it_cluster it)) then mret IterEnd
  else
    next ← (if g_sectors_per_cluster g <=? it_cluster_sector it
            then n ← fat16_next_cluster (it_cluster it);
                 mret (if is_link n then Some (n, 0) else None)
            else mret (Some (it_cluster it, it_cluster_sector it)));
    match next with
    | None => mret IterEnd
    | Some (cluster, sec) =>
        let lba := u32 (cluster_lba g cluster + sec) in
        r ← block_read_sector lba;
        match r with
        | None => mret IterError
        | Some buf =>
            _ ← modify (set_dir_buf buf);
            mret (IterSector (DirIter (it_dir_cluster it) (it_root_sector it) cluster (sec + 1)) lba)
        end
    end.

(** The [for] loop over the 16 entries of [dir_buf]; [visit] is its body: [inl]
    goes on with the next entry, [inr] leaves the search. *)
Fixpoint scan_slots {A R} (visit : A -> Z -> fat16_dirent -> A + R)
    (buf : list Z) (i : Z) (k : nat) (a : A) : A + R :=
  match k with
  | O => inl a
  | S k' =>
      match visit a i (slot_at buf i) with
      | inl a' => scan_slots visit buf (i + 1) k' a'
      | inr r => inr r
      end
  end.

(** The [while] loop around it, the same in every search of the file. *)
Fixpoint dir_walk {A R} (visit : A -> Z -> Z -> fat16_dirent -> A + R)
    (fuel : nat) (it : dir_iter) (a : A) : M (walk A R) :=
  match fuel with
  | O => undefined
  | S fuel' =>
      st ← dir_iter_next_sector it;
      match st with
      | IterEnd => mret (WalkEnd it a)
      | IterError => mret WalkError
      | IterSector it' lba =>
          buf ← gets dir_buf;
          match scan_slots (fun a => visit a lba) buf 0 16 a with
          | inr r => mret (WalkHit r)
          | inl a' => dir_walk visit fuel' it' a'
          end
      end
  end.

(** The iterator has at most this many distinct positions: a walk that is still
    going after as many sectors is in a cycle of the FAT. *)
Definition walk_fuel (s : volume D) : nat :=
  S (Z.to_nat (g_root_sector_count (g_geo s)) +
     length (g_fat s) * Z.to_nat (g_sectors_per_cluster (g_geo s))).

Definition dir_scan {A R} (visit : A -> Z -> Z -> fat16_dirent -> A + R)
    (dir_cluster : Z) (a : A) : M (walk A R) :=
  fuel ← gets walk_fuel; dir_walk visit fuel (dir_iter_init dir_cluster) a.

(** ** Lookup *)

Definition first_byte (e : fat16_dirent) : Z := (d_name e).[0].

Definition lookup_visit (name83 : list Z) (_ : ()) (lba i : Z) (e : fat16_dirent) :
    () + found (fat16_dirent * Z * Z) :=
  if first_byte e =? DIRENT_EMPTY then inr NotFound
  else if first_byte e =? DIRENT_DELETED then inl ()
  else if has_attr e ATTR_VOLUME_ID then inl ()
  else if decide (name83_of e = name83) then inr (Found (e, lba, i))
  else inl ().

(** The entry, its sector's LBA and its index in the sector. *)
Definition dir_lookup (dir_cluster : Z) (name83 : list Z) : M (found (fat16_dirent * Z * Z)) :=
  w ← dir_scan (lookup_visit name83) dir_cluster ();
  match w with
  | WalkHit r => mret r
  | WalkEnd _ _ => mret NotFound
  | WalkError => mret IOError
  end.

(** ** Insertion *)

Definition insert_visit (_ : ()) (lba i : Z) (e : fat16_dirent) : () + (Z * Z) :=
  if (first_byte e =? DIRENT_EMPTY) || (first_byte e =? DIRENT_DELETED) then inr (lba, i) else inl ().

(** The loop that writes [dir_buf] to every sector of a new cluster. *)
Fixpoint fill_cluster (lba sec : Z) (k : nat) : M bool :=
  match k with
  | O => mret true
  | S k' =>
      buf ← gets dir_buf;
      ok ← block_write_sector (u32 (lba + sec)) buf;
      if (ok : bool) then fill_cluster lba (sec + 1) k' else mret false
  end.

(** The steps [dir_insert] and [fat16_mkdir] share: allocate a cluster, zero all
    of it, and write its first sector.  [None] when the caller returns -1. *)
Definition fresh_cluster (first_sector : Z -> list Z) : M (option Z) :=
  new_cluster ← fat16_alloc_cluster;
  if new_cluster =? 0 then mret None
  else
    _ ← modify (set_dir_buf (replicate 512 0));
    new_lba ← fat16_cluster_to_lba new_cluster;
    g ← gets g_geo;
    ok ← fill_cluster new_lba 0 (Z.to_nat (g_sectors_per_cluster g));
    if negb ok then mret None
    else
      _ ← modify (set_dir_buf (first_sector new_cluster));
      buf ← gets dir_buf;
      ok ← block_write_sector new_lba buf;
      mret (if (ok : bool) then Some new_cluster else None).

(** [true] for the C result 0, [false] for -1. *)
Definition dir_insert (dir_cluster : Z) (entry : fat16_dirent) : M bool :=
  w ← dir_scan insert_visit dir_cluster ();
  match w with
  | WalkHit (lba, i) =>
      _ ← modify (fun s => set_dir_buf (put_slot (dir_buf s) i entry) s);
      buf ← gets dir_buf;
      block_write_sector lba buf
  | WalkError => mret false
  | WalkEnd it _ =>
      if dir_cluster =? 0 then mret false
      else
        r ← fresh_cluster (fun _ => put_slot (replicate 512 0) 0 entry);
        match r with
        | None => mret false
        | Some new_cluster =>
            _ ← fat_set (it_cluster it) (u16 new_cluster);
            _ ← fat_set new_cluster 65535;
            fat16_flush_fat
        end
  end.

(** ** Path resolution *)

(** The loop over the intermediate components; [path] is what follows [comp]. *)
Fixpoint resolve_loop (fuel : nat) (dir : Z) (comp path : list Z) : M (found (Z * list Z)) :=
  match path, fuel with
  | [], _ => mret (Found (dir, to_8_3 comp))
  | _, O => undefined
  | _, S fuel' =>
      r ← dir_lookup dir (to_8_3 comp);
      match r with
      | Found (e, _, _) =>
          if negb (has_attr e ATTR_DIRECTORY) then mret NotFound
          else let '(comp', path') := path_next_component path 64 in
               resolve_loop fuel' (d_first_cluster e) comp' path'
      | NotFound => mret NotFound
      | IOError => mret IOError
      end
  end.

(** The cluster of the containing directory and the final component's 8.3 name. *)
Definition resolve_path (cwd_cluster : Z) (path : option (list Z)) : M (found (Z * list Z)) :=
  match path with
  | None => mret NotFound
  | Some path =>
      let dir := if decide (head path = Some SLASH) then 0 else cwd_cluster in
      let path := skip_slashes path in
      match path with
      | [] => mret NotFound
      | _ => let '(comp, path') := path_next_component path 64 in
             resolve_loop (length path) dir comp path'
      end
  end.

(** The C result and the cluster stored through [out_cluster] when it is 1. *)
Definition fat16_resolve_dir (cwd_cluster : Z) (path : option (list Z)) : M (Z * Z) :=
  ready ← gets g_ready;
  if negb ready then mret (-1, 0)
  else if decide (path = None \/ path = Some [] \/ path = Some [SLASH]) then mret (1, 0)
  else
    r ← resolve_path cwd_cluster path;
    match r with
    | Found (parent, name83) =>
        r ← dir_lookup parent name83;
        match r with
        | Found (e, _, _) =>
            if negb (has_attr e ATTR_DIRECTORY) then mret (-2, 0) else mret (1, d_first_cluster e)
        | r => mret (code_of r, 0)
        end
    | r => mret (code_of r, 0)
    end.

(** ** Lookup of a file and listing *)

(** First cluster, size and containing directory. *)
Definition fat16_find (dir_cluster : Z) (path : option (list Z)) : M (found (Z * Z * Z)) :=
  ready ← gets g_ready;
  if negb ready || bool_decide (path = None) then mret NotFound
  else
    r ← resolve_path dir_cluster path;
    match r with
    | Found (parent, name83) =>
        r ← dir_lookup parent name83;
        match r with
        | Found (e, _, _) =>
            if has_attr e (Z.lor ATTR_VOLUME_ID ATTR_DIRECTORY) then mret NotFound
            else mret (Found (d_first_cluster e, d_size e, parent))
        | NotFound => mret NotFound
        | IOError => mret IOError
        end
    | NotFound => mret NotFound
    | IOError => mret IOError
    end.

Definition readdir_visit (idx : Z) (n : Z) (_ _ : Z) (e : fat16_dirent) :
    Z + option (list Z * Z * bool) :=
  if first_byte e =? DIRENT_EMPTY then inr None
  else if first_byte e =? DIRENT_DELETED then inl n
  else if has_attr e ATTR_VOLUME_ID then inl n
  else if first_byte e =? DOT then inl n
  else if n =? idx then inr (Some (dirent_display_name e, d_size e, has_attr e ATTR_DIRECTORY))
  else inl (u32 (n + 1)).

(** Name, size and the directory flag of the [idx]-th entry; [None] for 0. *)
Definition fat16_readdir (dir_cluster idx : Z) : M (option (list Z * Z * bool)) :=
  ready ← gets g_ready;
  if negb ready then mret None
  else
    w ← dir_scan (readdir_visit idx) dir_cluster 0;
    match w with
    | WalkHit r => mret r
    | _ => mret None
    end.

(** ** Creation *)

Definition new_entry (name83 : list Z) (attr first : Z) : fat16_dirent := {|
  d_name := take 8 name83;
  d_ext := drop 8 name83;
  d_attr := attr;
  d_reserved := replicate 10 0;
  d_time := 0;
  d_date := 0;
  d_first_cluster := first;
  d_size := 0 |}.

(** The containing directory, or [None] for the C result -1. *)
Definition fat16_create (dir_cluster : Z) (path : option (list Z)) : M (option Z) :=
  ready ← gets g_ready;
  if negb ready || bool_decide (path = None) then mret None
  else
    r ← resolve_path dir_cluster path;
    match r with
    | Found (parent, name83) =>
        r ← dir_lookup parent name83;
        match r with
        | Found (existing, _, _) =>
            if has_attr existing ATTR_DIRECTORY then mret None else mret (Some parent)
        | IOError => mret None
        | NotFound =>
            ok ← dir_insert parent (new_entry name83 ATTR_ARCHIVE 0);
            mret (if (ok : bool) then Some parent else None)
        end
    | _ => mret None
    end.

(** The first sector of a new directory: ["."] and [".."] in front of zeros. *)
Definition dot_sector (new_cluster parent : Z) : list Z :=
  put_slot (put_slot (replicate 512 0)
    0 (new_entry (DOT :: replicate 10 SPACE) ATTR_DIRECTORY (u16 new_cluster)))
    1 (new_entry (DOT :: DOT :: replicate 9 SPACE) ATTR_DIRECTORY (u16 parent)).

Definition fat16_mkdir (dir_cluster : Z) (path : option (list Z)) : M bool :=
  ready ← gets g_ready;
  if negb ready || bool_decide (path = None) then mret false
  else
    r ← resolve_path dir_cluster path;
    match r with
    | Found (parent, name83) =>
        r ← dir_lookup parent name83;
        match r with
        | Found (existing, _, _) => mret (has_attr existing ATTR_DIRECTORY)
        | IOError => mret false
        | NotFound =>
            r ← fresh_cluster (fun c => dot_sector c parent);
            match r with
            | None => mret false
            | Some new_cluster =>
                ok ← dir_insert parent (new_entry name83 ATTR_DIRECTORY (u16 new_cluster));
                if negb ok then _ ← fat16_free_chain new_cluster; mret false
                else fat16_flush_fat
            end
        end
    | _ => mret false
    end.

(** ** From a cluster back to its path *)

Definition child_visit (child : Z) (_ : ()) (_ _ : Z) (e : fat16_dirent) : () + found (list Z) :=
  if first_byte e =? DIRENT_EMPTY then inr NotFound
  else if first_byte e =? DIRENT_DELETED then inl ()
  else if has_attr e ATTR_VOLUME_ID then inl ()
  else if negb (has_attr e ATTR_DIRECTORY) then inl ()
  else if first_byte e =? DOT then inl ()
  else if negb (d_first_cluster e =? child) then inl ()
  else inr (Found (dirent_display_name e)).

Definition dir_find_child_name (parent child : Z) : M (found (list Z)) :=
  w ← dir_scan (child_visit child) parent ();
  match w with
  | WalkHit r => mret r
  | WalkEnd _ _ => mret NotFound
  | WalkError => mret IOError
  end.

Definition FAT16_PATH_MAX_DEPTH : nat := 16.

(** The climbing loop: [left] levels may still be visited, the path so far is
    [tmp] from index [p].  [None] for the C result -1. *)
Fixpoint climb (levels : nat) (cluster : Z) (tmp : list Z) (p : Z) : M (option (list Z * Z)) :=
  if cluster =? 0 then mret (Some (tmp, p))
  else
    match levels with
    | O => mret None
    | S levels' =>
        if negb (is_link cluster) then mret None
        else
          r ← dir_lookup cluster (to_8_3 [DOT; DOT]);
          match r with
          | Found (up, _, _) =>
              let parent := d_first_cluster up in
              r ← dir_find_child_name parent cluster;
              match r with
              | Found name =>
                  let name := until_nul name in
                  if p <? zlen name + 1 then mret None
                  else
                    let p := p - zlen name in
                    let tmp := blit tmp (Z.to_nat p) name in
                    let p := p - 1 in
                    climb levels' parent tmp.[p := SLASH] p
              | _ => mret None
              end
          | _ => mret None
          end
    end.

(** The C result and the bytes of [out] after the call.  [tmp] holds whatever
    was on the kernel stack, with the NUL at its end. *)
Definition fat16_get_path (dir_cluster : Z) (stack out : list Z) (out_size : Z) : M (Z * list Z) :=
  if out_size <? 2 then mret (-1, out)
  else if dir_cluster =? 0 then mret (1, out.[0 := SLASH].[1 := 0])
  else
    ready ← gets g_ready;
    if negb ready then mret (-1, out)
    else
      r ← climb FAT16_PATH_MAX_DEPTH dir_cluster stack.[127 := 0] 127;
      match r with
      | None => mret (-1, out)
      | Some (tmp, p) =>
          let len := 127 - p in
          if out_size <? len + 1 then mret (-1, out)
          else mret (len, blit out 0 (sub tmp (Z.to_nat p) (Z.to_nat (len + 1))))
      end.

(** ** What a walk sees *)

(** The sectors of a cluster from [sec] on. *)
Definition lbas_from (g : geometry) (c sec : Z) : list Z :=
  map (fun k => cluster_lba g c + sec + Z.of_nat k) (seq 0 (Z.to_nat (g_sectors_per_cluster g - sec))).

(** The sectors of a directory: the fixed region of the root, or those of the
    clusters [l]. *)
Definition dir_lbas (g : geometry) (dir : Z) (l : list Z) : list Z :=
  if dir =? 0
  then map (fun k => g_root_start_lba g + Z.of_nat k) (seq 0 (Z.to_nat (g_root_sector_count g)))
  else concat (map (fun c => lbas_from g c 0) l).

(** The clusters [l] from [c] are linked to an end mark, and allocated. *)
Definition file_at (g : geometry) (t : list Z) (c : Z) (l : list Z) : Prop :=
  chain t c l /\ Forall (fun x => x < g_total_clusters g /\ t.[x] <> 0) l.

(** [l] are the clusters of directory [dir]: none for the root. *)
Definition dir_at (s : volume D) (dir : Z) (l : list Z) : Prop :=
  if dir =? 0 then l = [] else l <> [] /\ file_at (g_geo s) (g_fat s) dir l.

Definition slot : Type := Z * Z * fat16_dirent.

Definition sector_slots (d : D) (lba : Z) : list slot :=
  map (fun k => (lba, Z.of_nat k, slot_at (bd_data d lba) (Z.of_nat k))) (seq 0 16).

Definition dir_slots (d : D) (lbas : list Z) : list slot := concat (map (sector_slots d) lbas).
Arguments sector_slots : simpl never.

(** The visits of a walk, in order; a hit comes with the sector it is in. *)
Fixpoint walk_list {A R} (visit : A -> Z -> Z -> fat16_dirent -> A + R) (l : list slot) (a : A) :
    A + (Z * R) :=
  match l with
  | [] => inl a
  | (lba, i, e) :: l' =>
      match visit a lba i e with
      | inl a' => walk_list visit l' a'
      | inr r => inr (lba, r)
      end
  end.

Lemma walk_list_app {A R} (visit : A -> Z -> Z -> fat16_dirent -> A + R) l1 l2 a :
  walk_list visit (l1 ++ l2) a =
  match walk_list visit l1 a with
  | inl a' => walk_list visit l2 a'
  | inr r => inr r
  end.
Proof.
  revert a; induction l1 as [|[[lba i] e] l1 IH]; intros a; simpl; [done|].
  destruct (visit a lba i e); [apply IH|done].
Qed.

Lemma scan_slots_list {A R} (visit : A -> Z -> Z -> fat16_dirent -> A + R) lba buf k n a :
  scan_slots (fun a => visit a lba) buf (Z.of_nat n) k a =
  match walk_list visit (map (fun j => (lba, Z.of_nat j, slot_at buf (Z.of_nat j))) (seq n k)) a with
  | inl a' => inl a'
  | inr (_, r) => inr r
  end.
Proof.
  revert n a; induction k as [|k IH]; intros n a; simpl; [done|].
  destruct (visit a lba (Z.of_nat n) (slot_at buf (Z.of_nat n))); [|done].
  rewrite <- IH. f_equal. lia.
Qed.

Lemma walk_list_sector {A R} (visit : A -> Z -> Z -> fat16_dirent -> A + R) d lba a l r :
  walk_list visit (sector_slots d lba) a = inr (l, r) -> l = lba.
Proof.
  unfold sector_slots. generalize (seq 0 16). intros ks. revert a.
  induction ks as [|k ks IH]; intros a; simpl; [done|].
  destruct (visit a lba (Z.of_nat k) _); [apply IH|]. by intros [= <- _].
Qed.

(** *** Chains of a volume *)

Lemma chain_det t c l l' : chain t c l -> chain t c l' -> l = l'.
Proof.
  revert c l'; induction l as [|x l IH]; intros c [|y l']; simpl; [done| | |].
  - intros E (-> & L & _). congruence.
  - intros (-> & L & _) E. congruence.
  - intros (-> & _ & _ & C) (-> & _ & _ & C'). f_equal. by eapply IH.
Qed.

Lemma chain_suffix t c l1 x l2 : chain t c (l1 ++ x :: l2) -> chain t x (x :: l2).
Proof.
  revert c; induction l1 as [|y l1 IH]; intros c; cbn [app].
  - intros C. pose proof C as [-> _]. done.
  - intros (_ & _ & _ & C). by eapply IH.
Qed.

Lemma chain_NoDup t c l : chain t c l -> NoDup l.
Proof.
  revert c; induction l as [|x l IH]; intros c C; [constructor|].
  pose proof C as (-> & _ & _ & C'). constructor; [|by eapply IH].
  intros (l1 & l2 & ->)%list_elem_of_split.
  apply chain_suffix in C'. pose proof (chain_det _ _ _ _ C C') as E.
  apply (f_equal length) in E. simpl in E. rewrite length_app in E. simpl in E. lia.
Qed.

Lemma chain_length t c l : chain t c l -> (length l <= length t)%nat.
Proof.
  intros C. pose proof (chain_range _ _ _ C) as F. pose proof (chain_NoDup _ _ _ C) as N.
  assert (N' : NoDup (map Z.to_nat l)).
  { apply NoDup_fmap_2_strong; [|done]. intros x y Hx Hy E. rewrite Forall_forall in F.
    apply F in Hx, Hy. lia. }
  rewrite <- (length_map Z.to_nat l), <- (length_seq (length t) 0).
  apply submseteq_length, NoDup_submseteq; [done|]. intros n (x & -> & Hx)%list_elem_of_fmap.
  rewrite Forall_forall in F. apply F in Hx. apply elem_of_seq. unfold zlen in Hx. lia.
Qed.

(** Freeing a chain clears its entries and no other. *)
Fixpoint cleared (t : list Z) (l : list Z) : list Z :=
  match l with
  | [] => t
  | x :: l' => cleared t.[x := 0] l'
  end.

Lemma cleared_length t l : length (cleared t l) = length t.
Proof. revert t; induction l as [|x l IH]; intros t; simpl; [done|]. by rewrite IH, zset_length. Qed.

Lemma cleared_words (P : Z -> Prop) t l : Forall P t -> P 0 -> Forall P (cleared t l).
Proof. intros Ht H0. revert t Ht; induction l as [|x l IH]; intros t Ht; simpl; [done|]. by apply IH, zset_forall. Qed.

Lemma cleared_other t l x : 0 <= x -> Forall (fun y => 0 <= y) l -> x ∉ l -> (cleared t l).[x] = t.[x].
Proof.
  intros Hx HF. revert t; induction HF as [|y l Hy _ IH]; intros t Hn; simpl; [done|].
  apply not_elem_of_cons in Hn as [Hn1 Hn2]. rewrite IH by done. apply zget_set_ne; (done || congruence).
Qed.

Lemma cleared_in t l x : Forall (fun y => 0 <= y < zlen t) l -> x ∈ l -> (cleared t l).[x] = 0.
Proof.
  revert t; induction l as [|y l IH]; intros t HF Hin; simpl; [by apply not_elem_of_nil in Hin|].
  apply Forall_cons in HF as [Hy HF].
  destruct (decide (x ∈ l)) as [Hl|Hl]; [apply IH; [|done]; by rewrite zset_len|].
  apply elem_of_cons in Hin as [->|]; [|done].
  rewrite cleared_other; [by apply zget_set_eq|lia| |done]. eapply Forall_impl; [exact HF|]. simpl. lia.
Qed.

Lemma free_loop_chain fuel c l (s : volume D) : chain (g_fat s) c l -> (length l < fuel)%nat ->
  wp (free_chain_loop fuel c) (fun _ s' => s' = set_fat (cleared (g_fat s) l) s) s.
Proof.
  revert fuel c s; induction l as [|x l IH]; intros fuel c s C Hf.
  - destruct fuel; simpl in *; rewrite C; apply wp_ret; by destruct s.
  - destruct fuel as [|fuel]; [simpl in Hf; lia|]. pose proof (chain_NoDup _ _ _ C) as HN.
    pose proof (chain_range _ _ _ C) as R. apply Forall_cons in R as [R _].
    pose proof C as (-> & Hx & Hr & C'). cbn [free_chain_loop]. rewrite Hx.
    apply wp_bind, wp_fat_get; [lia|]. apply wp_bind, wp_fat_set; [lia|].
    eapply wp_mono; [apply IH|].
    + simpl. eapply chain_same; [apply zset_length| |exact C']. intros y Hy.
      apply chain_range in C'. rewrite Forall_forall in C'. specialize (C' y Hy).
      apply NoDup_cons in HN as [HN _]. apply zget_set_ne; [lia|lia|set_solver].
    + simpl in Hf. lia.
    + simpl. intros _ s' ->. by destruct s.
Qed.

Lemma free_chain_chain c l (s : volume D) : chain (g_fat s) c l ->
  wp (fat16_free_chain c) (fun _ s' => s' = set_fat (cleared (g_fat s) l) s) s.
Proof.
  intros C. unfold fat16_free_chain. apply wp_bind, wp_gets. apply free_loop_chain; [done|].
  apply chain_length in C. lia.
Qed.

(** *** Sector numbers *)

Lemma cluster_lba_eq s c sec : vol_ok s -> 2 <= c < g_total_clusters (g_geo s) ->
  0 <= sec < g_sectors_per_cluster (g_geo s) ->
  cluster_lba (g_geo s) c = g_data_start_lba (g_geo s) + (c - 2) * g_sectors_per_cluster (g_geo s) /\
  g_data_start_lba (g_geo s) <= cluster_lba (g_geo s) c /\
  cluster_lba (g_geo s) c + sec < bd_size (disk s).
Proof.
  intros Hs Hc Hsec. unfold cluster_lba. destruct (regions s Hs) as (R1 & R2 & R3 & R4).
  pose proof (vo_end s Hs) as E. pose proof (vo_spc s Hs) as K.
  pose proof (vo_marks s Hs) as B. set (g := g_geo s) in *.
  assert (0 <= (c - 2) * g_sectors_per_cluster g) by nia.
  assert ((c - 2) * g_sectors_per_cluster g + g_sectors_per_cluster g <=
          (g_total_clusters g - 2) * g_sectors_per_cluster g) by nia.
  rewrite (u32_small (c - 2)) by lia. rewrite (u32_small ((c - 2) * _)) by lia.
  rewrite u32_small by lia. lia.
Qed.

Lemma lbas_from_cons g c sec : 0 <= sec < g_sectors_per_cluster g ->
  lbas_from g c sec = (cluster_lba g c + sec) :: lbas_from g c (sec + 1).
Proof.
  intros Hs. unfold lbas_from.
  replace (Z.to_nat (g_sectors_per_cluster g - sec)) with (S (Z.to_nat (g_sectors_per_cluster g - (sec + 1)))) by lia.
  cbn [seq map]. rewrite Z.add_0_r. f_equal. rewrite <- seq_shift, map_map. apply map_ext. intros; lia.
Qed.

Lemma lbas_from_end g c : lbas_from g c (g_sectors_per_cluster g) = [].
Proof. unfold lbas_from. by rewrite Z.sub_diag. Qed.

(** [it] has the sectors [ls] of its directory still in front of it; [last] is
    the final cluster of the chain. *)
Definition iter_at (s : volume D) (it : dir_iter) (ls : list Z) (final : Z) : Prop :=
  let g := g_geo s in
  if it_dir_cluster it =? 0 then
    0 <= it_root_sector it <= g_root_sector_count g /\
    ls = map (fun k => g_root_start_lba g + it_root_sector it + Z.of_nat k)
             (seq 0 (Z.to_nat (g_root_sector_count g - it_root_sector it)))
  else
    exists l, chain (g_fat s) (it_cluster it) (it_cluster it :: l) /\
      Forall (fun c => c < g_total_clusters g) (it_cluster it :: l) /\
      0 <= it_cluster_sector it <= g_sectors_per_cluster g /\
      ls = lbas_from g (it_cluster it) (it_cluster_sector it) ++ concat (map (fun c => lbas_from g c 0) l) /\
      final = List.last l (it_cluster it).

Lemma last_shift (x d : Z) l : List.last (x :: l) d = List.last l x.
Proof.
  revert x d; induction l as [|y l IH]; intros x d; [done|].
  change (List.last (y :: l) d = List.last (y :: l) x). by rewrite (IH y d), (IH y x).
Qed.

(** What a step of the iterator leaves: the next sector in [dir_buf], or the
    directory exhausted, or an I/O error. *)
Definition stepped (s : volume D) (it : dir_iter) (ls : list Z) (final : Z) (st : iter_step) (s' : volume D) : Prop :=
  exists d' b', s' = set_dir_buf b' (set_disk d' s) /\ same_disk nowhere (disk s) d' /\
    (bd_healthy (disk s) -> bd_healthy d' /\ st <> IterError) /\
    (st = IterError /\ b' = dir_buf s \/
     match ls with
     | [] => st = IterEnd /\ b' = dir_buf s /\ (it_dir_cluster it <> 0 -> it_cluster it = final)
     | lba :: ls' => exists it', st = IterSector it' lba /\ b' = bd_data (disk s) lba /\
         it_dir_cluster it' = it_dir_cluster it /\ iter_at s it' ls' final
     end).

Lemma set_buf_id (s : volume D) (d : D) : set_dir_buf (dir_buf s) (set_disk d s) = set_disk d s.
Proof. by destruct s. Qed.

Lemma iter_end (s : volume D) it final : (it_dir_cluster it <> 0 -> it_cluster it = final) ->
  stepped s it [] final IterEnd s.
Proof.
  intros Hf. exists (disk s), (dir_buf s). split_and!; [by destruct s|done|done|]. right. done.
Qed.

Lemma iter_read s it it' lba ls final :
  0 <= lba < bd_size (disk s) -> it_dir_cluster it' = it_dir_cluster it -> iter_at s it' ls final ->
  wp (r ← block_read_sector lba;
      match r with
      | None => mret IterError
      | Some buf => _ ← modify (set_dir_buf buf); mret (IterSector it' lba)
      end) (stepped s it (lba :: ls) final) s.
Proof.
  intros Hl Hd Hit. apply wp_bind, wp_read. intros r d1 Hr S1 G1. destruct Hr as [->| ->].
  - apply wp_ret. exists d1, (dir_buf s). split_and!; [by rewrite set_buf_id|done| |by left].
    intros G. destruct (G1 G Hl); done.
  - apply wp_bind, wp_modify, wp_ret. exists d1, (bd_data (disk s) lba).
    split_and!; [done..| |]; [intros G; split; [by apply G1|done]|]. right. eauto.
Qed.

Lemma iter_next_spec s it ls final : vol_ok s -> iter_at s it ls final ->
  wp (dir_iter_next_sector it) (stepped s it ls final) s.
Proof.
  intros Hs Hit. unfold dir_iter_next_sector. destruct (regions s Hs) as (R1 & R2 & R3 & R4).
  pose proof (vo_spc s Hs) as K. pose proof (vo_data s Hs) as Ed.
  apply wp_bind, wp_gets. unfold iter_at in Hit. destruct (Z.eqb_spec (it_dir_cluster it) 0) as [E0|E0].
  - destruct Hit as [Hr ->].
    destruct (Z.leb_spec (g_root_sector_count (g_geo s)) (it_root_sector it)) as [Hge|Hlt].
    + apply wp_ret. replace (Z.to_nat _) with 0%nat by lia. by apply iter_end.
    + replace (Z.to_nat (g_root_sector_count (g_geo s) - it_root_sector it))
        with (S (Z.to_nat (g_root_sector_count (g_geo s) - (it_root_sector it + 1)))) by lia.
      cbn [seq map]. rewrite Z.add_0_r. rewrite u32_small by lia.
      apply iter_read; [lia|done|]. unfold iter_at. simpl. rewrite (proj2 (Z.eqb_eq _ _)) by done.
      split; [lia|]. rewrite <- seq_shift, map_map. apply map_ext. intros; lia.
  - destruct Hit as (l & C & F & Hsec & -> & Ef). pose proof C as (_ & Hl & Hr & C').
    rewrite Hl. cbn [negb]. apply is_link_spec in Hl as Hl'. apply Forall_cons in F as [F1 F2].
    destruct (Z.leb_spec (g_sectors_per_cluster (g_geo s)) (it_cluster_sector it)) as [Hge|Hlt].
    + replace (it_cluster_sector it) with (g_sectors_per_cluster (g_geo s)) by lia.
      rewrite lbas_from_end. cbn [app].
      apply wp_bind, wp_bind. unfold fat16_next_cluster. apply wp_bind, wp_gets.
      rewrite (proj2 (Z.eqb_neq _ _)), (proj2 (Z.ltb_ge _ _)) by lia. cbn [orb].
      apply wp_fat_get; [lia|]. apply wp_ret. destruct l as [|x l]; cbn [map concat].
      * simpl in C'. rewrite C'. by apply wp_ret, iter_end.
      * pose proof C' as (Ex & Hx & Hxr & _). rewrite Ex in C' |- *. rewrite Hx.
        apply Forall_cons in F2 as [F2 F3]. apply is_link_spec in Hx as Hx'.
        rewrite lbas_from_cons by lia. rewrite Z.add_0_r. cbn [app].
        destruct (cluster_lba_eq s x 0 Hs) as (_ & B1 & B2); [lia..|].
        rewrite u32_small by lia. apply iter_read; [lia|done|]. unfold iter_at. simpl.
        rewrite (proj2 (Z.eqb_neq _ _)) by done. exists l. split; [exact C'|]. split_and!; try done; try lia.
        { by constructor. } by rewrite Ef, last_shift.
    + apply wp_bind, wp_ret. rewrite lbas_from_cons by lia. cbn [app].
      destruct (cluster_lba_eq s (it_cluster it) (it_cluster_sector it) Hs) as (_ & B1 & B2); [lia..|].
      rewrite u32_small by lia. apply iter_read; [lia|done|]. unfold iter_at. simpl.
      rewrite (proj2 (Z.eqb_neq _ _)) by done. exists l. split; [exact C|]. split_and!; try done; try lia. by constructor.
Qed.

(** The result of a walk over the sectors [ls] of directory [dir]. *)
Definition walked {A R} (visit : A -> Z -> Z -> fat16_dirent -> A + R) (s : volume D)
    (dir : Z) (ls : list Z) (final : Z) (a : A) (w : walk A R) (s' : volume D) : Prop :=
  exists d' b', s' = set_dir_buf b' (set_disk d' s) /\ same_disk nowhere (disk s) d' /\
    sector b' /\ Forall byte b' /\
    (bd_healthy (disk s) -> bd_healthy d' /\ w <> WalkError) /\
    (w = WalkError \/
     match walk_list visit (dir_slots (disk s) ls) a with
     | inr (lba, r) => w = WalkHit r /\ b' = bd_data (disk s) lba /\ lba ∈ ls
     | inl a' => exists it', w = WalkEnd it' a' /\ (dir <> 0 -> it_cluster it' = final)
     end).

Lemma slots_same (d d' : D) ls : same_disk nowhere d d' -> dir_slots d' ls = dir_slots d ls.
Proof.
  intros [_ E]. unfold dir_slots, sector_slots. f_equal. apply map_ext. intros lba.
  apply map_ext. intros k. by rewrite E by tauto.
Qed.

Lemma dir_walk_spec {A R} (visit : A -> Z -> Z -> fat16_dirent -> A + R) fuel s it ls final a :
  vol_ok s -> iter_at s it ls final -> (length ls < fuel)%nat ->
  wp (dir_walk visit fuel it a) (walked visit s (it_dir_cluster it) ls final a) s.
Proof.
  revert s it ls a; induction fuel as [|fuel IH]; intros s it ls a Hs Hit Hf; [lia|].
  cbn [dir_walk]. apply wp_bind. eapply wp_mono; [by apply iter_next_spec|].
  destruct (vo_bufs s Hs) as (_ & _ & B1 & B2).
  intros st s1 (d1 & b1 & -> & S1 & G1 & [[-> ->]|Hst]).
  { apply wp_ret. exists d1, (dir_buf s). split_and!; try done; [|by left].
    intros G. destruct (G1 G); done. }
  destruct ls as [|lba ls].
  { destruct Hst as (-> & -> & Hfin). apply wp_ret. exists d1, (dir_buf s). split_and!; try done.
    - intros G. split; [by apply G1|done].
    - right. simpl. eauto. }
  destruct Hst as (it' & -> & -> & Hd & Hit'). apply wp_bind, wp_gets.
  cbn [dir_buf set_dir_buf]. destruct (bd_data_sector (disk s) lba) as [L1 L2].
  change 0 with (Z.of_nat 0) at 1. rewrite scan_slots_list.
  unfold walked, dir_slots. cbn [map concat]. rewrite walk_list_app.
  change (map _ (seq 0 16)) with (sector_slots (disk s) lba).
  destruct (walk_list visit (sector_slots (disk s) lba) a) as [a'|[l r]] eqn:Ew.
  - eapply wp_mono; [apply (IH _ it' ls a')|].
    + apply vol_ok_set_dir_buf; [|done..]. apply vol_ok_set_disk; [done|apply S1].
    + exact Hit'.
    + simpl in Hf. lia.
    + intros w s' (d2 & b2 & -> & S2 & C1 & C2 & G2 & Hw). cbn [disk set_dir_buf set_disk] in *.
      exists d2, b2. split_and!; try done.
      * eapply same_disk_trans; [exact S1|exact S2|tauto].
      * intros G. apply G2, G1, G.
      * destruct Hw as [->|Hw]; [by left|right]. rewrite Hd, (slots_same (disk s) d1) in Hw by done.
        unfold dir_slots in Hw.
        destruct (walk_list visit (concat (map (sector_slots (disk s)) ls)) a') as [?|[l r]]; [done|].
        destruct Hw as (-> & -> & Hin). split_and!; [done| |by right].
        destruct S1 as [_ E1]. apply E1. tauto.
  - apply wp_ret. exists d1, (bd_data (disk s) lba). split_and!; try done.
    + intros G. split; [by apply G1|done].
    + right. apply walk_list_sector in Ew as ->. split_and!; [done..|by left].
Qed.

Lemma lbas_from_length g c : length (lbas_from g c 0) = Z.to_nat (g_sectors_per_cluster g).
Proof. unfold lbas_from. rewrite length_map, length_seq. f_equal. lia. Qed.

Lemma dir_lbas_length s dir l : dir_at s dir l ->
  (length (dir_lbas (g_geo s) dir l) < walk_fuel s)%nat.
Proof.
  unfold dir_at, dir_lbas, walk_fuel. destruct (dir =? 0).
  - intros _. rewrite length_map, length_seq. lia.
  - intros (_ & C & _). apply chain_length in C.
    assert (length (concat (map (fun c => lbas_from (g_geo s) c 0) l)) =
      (length l * Z.to_nat (g_sectors_per_cluster (g_geo s)))%nat) as ->.
    { clear C. induction l as [|x l IH]; simpl; [done|]. rewrite length_app, IH, lbas_from_length. lia. }
    nia.
Qed.

(** A search of a directory visits all its entries in order. *)
Lemma dir_scan_spec {A R} (visit : A -> Z -> Z -> fat16_dirent -> A + R) s dir l a :
  vol_ok s -> dir_at s dir l ->
  wp (dir_scan visit dir a) (walked visit s dir (dir_lbas (g_geo s) dir l) (List.last l 0) a) s.
Proof.
  intros Hs Hd. unfold dir_scan. apply wp_bind, wp_gets.
  apply (dir_walk_spec visit _ s (dir_iter_init dir)); [done| |by apply dir_lbas_length].
  unfold dir_at, iter_at, dir_lbas, dir_iter_init in *. simpl. pose proof (vo_rootn s Hs).
  pose proof (vo_spc s Hs). destruct (dir =? 0).
  - split; [lia|]. rewrite Z.sub_0_r. apply map_ext. intros; lia.
  - destruct Hd as (Hne & C & F). destruct l as [|x l]; [done|]. pose proof C as [-> _].
    exists l. split; [exact C|]. split_and!; [|lia|lia|done|apply last_shift].
    eapply Forall_impl; [exact F|]. simpl. tauto.
Qed.

(** ** Lookup *)

(** The first live entry of that name in front of the end mark. *)
Fixpoint lookup_ref (name83 : list Z) (l : list slot) : found (fat16_dirent * Z * Z) :=
  match l with
  | [] => NotFound
  | (lba, i, e) :: l' =>
      if first_byte e =? DIRENT_EMPTY then NotFound
      else if negb (first_byte e =? DIRENT_DELETED) && negb (has_attr e ATTR_VOLUME_ID) &&
              bool_decide (name83_of e = name83)
      then Found (e, lba, i)
      else lookup_ref name83 l'
  end.

Lemma lookup_walk name83 l :
  match walk_list (lookup_visit name83) l () with
  | inl _ => lookup_ref name83 l = NotFound
  | inr (lba, r) => lookup_ref name83 l = r /\
      (r = NotFound \/ exists e i, r = Found (e, lba, i) /\ (lba, i, e) ∈ l /\ name83_of e = name83)
  end.
Proof.
  induction l as [|[[lba i] e] l IH]; simpl; [done|]. unfold lookup_visit at 1.
  assert (K : match walk_list (lookup_visit name83) l () with
    | inl _ => lookup_ref name83 l = NotFound
    | inr (lba0, r) => lookup_ref name83 l = r /\
        (r = NotFound \/ exists e0 i0, r = Found (e0, lba0, i0) /\ (lba0, i0, e0) ∈ (lba, i, e) :: l /\
           name83_of e0 = name83)
    end).
  { destruct (walk_list (lookup_visit name83) l ()) as [?|[lba0 r]]; [done|].
    destruct IH as [-> [->|(e0 & i0 & -> & Hin & Hn)]]; split; auto. right. exists e0, i0.
    split_and!; [done|by right|done]. }
  destruct (first_byte e =? DIRENT_EMPTY); [auto|].
  destruct (first_byte e =? DIRENT_DELETED); [done|].
  destruct (has_attr e ATTR_VOLUME_ID); [done|]. simpl.
  case_decide as En; [|by rewrite bool_decide_false]. rewrite bool_decide_true by done.
  split; [done|]. right. exists e, i. split_and!; [done|by left|done].
Qed.

(** What a search that returns an entry leaves behind. *)
Definition looked_up (s : volume D) (ls : list Z) (name83 : list Z)
    (r : found (fat16_dirent * Z * Z)) (s' : volume D) : Prop :=
  exists d' b', s' = set_dir_buf b' (set_disk d' s) /\ same_disk nowhere (disk s) d' /\
    sector b' /\ Forall byte b' /\
    (bd_healthy (disk s) -> bd_healthy d' /\ r <> IOError) /\
    (r = IOError \/ r = lookup_ref name83 (dir_slots (disk s) ls)) /\
    (forall e lba i, r = Found (e, lba, i) ->
       b' = bd_data (disk s) lba /\ lba ∈ ls /\ 0 <= i < 16 /\ e = slot_at b' i /\ name83_of e = name83).

Lemma in_dir_slots (d : D) ls lba i e : (lba, i, e) ∈ dir_slots d ls ->
  lba ∈ ls /\ 0 <= i < 16 /\ e = slot_at (bd_data d lba) i.
Proof.
  unfold dir_slots, sector_slots. intros Hin%list_elem_of_In. apply in_concat in Hin as (x & (l & <- & Hl)%in_map_iff & (k & E & Hk)%in_map_iff).
  injection E as <- <- <-.
  apply list_elem_of_In in Hl, Hk. apply elem_of_seq in Hk. split_and!; [done|lia|lia|done].
Qed.

Lemma dir_lookup_spec s dir l name83 : vol_ok s -> dir_at s dir l ->
  wp (dir_lookup dir name83) (looked_up s (dir_lbas (g_geo s) dir l) name83) s.
Proof.
  intros Hs Hd. unfold dir_lookup. apply wp_bind. eapply wp_mono; [by apply dir_scan_spec|].
  intros w s' (d' & b' & -> & S & C1 & C2 & G & Hw).
  set (ls := dir_lbas (g_geo s) dir l) in *. pose proof (lookup_walk name83 (dir_slots (disk s) ls)) as L.
  assert (HG : forall r : found (fat16_dirent * Z * Z), (w <> WalkError -> r <> IOError) ->
    bd_healthy (disk s) -> bd_healthy d' /\ r <> IOError).
  { intros r Hr Hh. destruct (G Hh). auto. }
  destruct Hw as [->|Hw].
  { apply wp_ret. exists d', b'. split_and!; try done; [by apply HG|by left]. }
  destruct (walk_list (lookup_visit name83) (dir_slots (disk s) ls) ()) as [[]|[lba r]].
  - destruct Hw as (it' & -> & _). apply wp_ret. exists d', b'.
    split_and!; try done; [by apply HG|by right].
  - destruct Hw as (-> & -> & Hin). destruct L as [L Hr]. apply wp_ret. exists d', (bd_data (disk s) lba).
    split_and!; try done; [|by right|].
    + apply HG. destruct Hr as [->|(e & i & -> & _)]; done.
    + intros e lba' i ->. destruct Hr as [|(e0 & i0 & [= <- <- <-] & Hin' & Hn)]; [done|].
      apply in_dir_slots in Hin' as (H1 & H2 & ->). done.
Qed.

(** ** Insertion *)

Definition free_slot (e : fat16_dirent) : bool :=
  (first_byte e =? DIRENT_EMPTY) || (first_byte e =? DIRENT_DELETED).

(** The first free slot, if there is one. *)
Lemma insert_walk l :
  match walk_list insert_visit l () with
  | inl _ => Forall (fun x : slot => free_slot x.2 = false) l
  | inr (lba, r) => exists l1 i e0 l2, l = l1 ++ (lba, i, e0) :: l2 /\ r = (lba, i) /\
      free_slot e0 = true /\ Forall (fun x : slot => free_slot x.2 = false) l1
  end.
Proof.
  induction l as [|[[lba i] e] l IH]; simpl; [done|]. unfold insert_visit at 1. fold (free_slot e).
  destruct (free_slot e) eqn:E.
  - exists [], i, e, l. done.
  - destruct (walk_list insert_visit l ()) as [?|[lba' r]]; [by constructor|].
    destruct IH as (l1 & i' & e0 & l2 & -> & -> & Hf & Hb).
    exists ((lba, i, e) :: l1), i', e0, l2. split_and!; [done..|by constructor].
Qed.

(** *** Slots after a sector is rewritten *)

Lemma sector_slots_other (d d' : D) lba : bd_data d' lba = bd_data d lba ->
  sector_slots d' lba = sector_slots d lba.
Proof. intros E. unfold sector_slots. by rewrite E. Qed.

Lemma dir_slots_other (d d' : D) ls : (forall lba, lba ∈ ls -> bd_data d' lba = bd_data d lba) ->
  dir_slots d' ls = dir_slots d ls.
Proof.
  intros E. unfold dir_slots. f_equal. apply map_ext_in. intros lba Hin%list_elem_of_In.
  by apply sector_slots_other, E.
Qed.

(** [x] with the entry at index [i] of sector [lba] replaced. *)
Definition upd_slot (lba i : Z) (e : fat16_dirent) (x : slot) : slot :=
  if decide (x.1 = (lba, i)) then (lba, i, e) else x.

Lemma dir_slots_upd (d d' : D) ls lba i e : 0 <= i < 16 -> dirent_wf e ->
  bd_data d' lba = put_slot (bd_data d lba) i e ->
  (forall l, l ∈ ls -> l <> lba -> bd_data d' l = bd_data d l) ->
  dir_slots d' ls = map (upd_slot lba i e) (dir_slots d ls).
Proof.
  intros Hi He E Eo. destruct (bd_data_sector d lba) as [Hb _].
  unfold dir_slots. rewrite concat_map, map_map. f_equal. apply map_ext_in.
  intros l Hl%list_elem_of_In. unfold sector_slots. rewrite map_map. apply map_ext_in.
  intros k Hk%in_seq. unfold upd_slot. simpl. case_decide as Ek.
  - injection Ek as -> ->. by rewrite E, slot_put_same.
  - f_equal. destruct (decide (l = lba)) as [->|Hne]; [|by rewrite Eo].
    rewrite E. apply slot_put_other; (done || lia || congruence).
Qed.

Lemma slot_keys_NoDup (d : D) ls : NoDup ls -> NoDup (map fst (dir_slots d ls)).
Proof.
  intros HN. unfold dir_slots. induction HN as [|l ls Hl HN IH]; [constructor|].
  cbn [map concat]. rewrite map_app. apply NoDup_app. split_and!; [| |done].
  - unfold sector_slots. rewrite map_map. apply NoDup_fmap_2_strong; [|apply NoDup_seq].
    simpl. intros x y _ _ [= E]. lia.
  - intros x Hx Hx'. apply Hl. apply list_elem_of_fmap in Hx as ([[l1 i1] e1] & -> & Hx).
    apply list_elem_of_fmap in Hx' as ([[l2 i2] e2] & E & Hx'). simpl in E. injection E as <- <-.
    apply (in_dir_slots d ls) in Hx' as (Hin & _).
    assert (Hx1 : (l1, i1, e1) ∈ dir_slots d [l]) by (unfold dir_slots; cbn [map concat]; by rewrite app_nil_r).
    apply in_dir_slots in Hx1 as (Hin1 & _). by apply list_elem_of_singleton in Hin1 as ->.
Qed.

(** A directory changes in one slot only. *)
Lemma dir_slots_put (d d' : D) ls lba i e l1 e0 l2 : NoDup ls -> 0 <= i < 16 -> dirent_wf e ->
  bd_data d' lba = put_slot (bd_data d lba) i e ->
  (forall l, l ∈ ls -> l <> lba -> bd_data d' l = bd_data d l) ->
  dir_slots d ls = l1 ++ (lba, i, e0) :: l2 ->
  dir_slots d' ls = l1 ++ (lba, i, e) :: l2.
Proof.
  intros HN Hi He E Eo Es. rewrite (dir_slots_upd d d' ls lba i e) by done. rewrite Es.
  pose proof (slot_keys_NoDup d ls HN) as HK. rewrite Es, map_app in HK. cbn [map] in HK.
  apply NoDup_app in HK as (_ & H1 & [H2 _]%NoDup_cons).
  assert (Hid : forall m, (lba, i) ∉ map fst m -> map (upd_slot lba i e) m = m).
  { intros m Hm. induction m as [|x m IH]; simpl; [done|]. simpl in Hm. apply not_elem_of_cons in Hm as [Hx Hm].
    rewrite IH by done. unfold upd_slot. by rewrite decide_False. }
  rewrite map_app. cbn [map]. rewrite !Hid; [|done|].
  - unfold upd_slot. simpl. by rewrite decide_True.
  - intros Hin. by apply (H1 _ Hin), list_elem_of_here.
Qed.

(** *** The sectors of a directory *)

Definition in_cluster (g : geometry) (c lba : Z) : Prop :=
  cluster_lba g c <= lba < cluster_lba g c + g_sectors_per_cluster g.

Lemma in_lbas_from g c lba : lba ∈ lbas_from g c 0 <-> in_cluster g c lba.
Proof.
  unfold lbas_from, in_cluster. rewrite list_elem_of_In, in_map_iff. split.
  - intros (k & <- & Hk%in_seq). lia.
  - intros Hl. exists (Z.to_nat (lba - cluster_lba g c)). rewrite in_seq. lia.
Qed.

Lemma in_cluster_data s c lba : vol_ok s -> 2 <= c < g_total_clusters (g_geo s) ->
  in_cluster (g_geo s) c lba ->
  g_data_start_lba (g_geo s) <= lba < bd_size (disk s) /\
  c = 2 + (lba - g_data_start_lba (g_geo s)) / g_sectors_per_cluster (g_geo s).
Proof.
  intros Hs Hc Hl. unfold in_cluster in Hl. pose proof (vo_spc s Hs).
  destruct (cluster_lba_eq s c (lba - cluster_lba (g_geo s) c) Hs Hc) as (E & ? & ?); [lia|].
  split; [lia|].
  rewrite <- (Z.div_unique_pos _ _ (c - 2) (lba - cluster_lba (g_geo s) c)); lia.
Qed.

(** Clusters do not overlap. *)
Lemma in_cluster_inj s c c' lba : vol_ok s -> 2 <= c < g_total_clusters (g_geo s) ->
  2 <= c' < g_total_clusters (g_geo s) ->
  in_cluster (g_geo s) c lba -> in_cluster (g_geo s) c' lba -> c = c'.
Proof.
  intros Hs Hc Hc' H1 H2. destruct (in_cluster_data s c lba Hs Hc H1) as [_ ->].
  by destruct (in_cluster_data s c' lba Hs Hc' H2) as [_ ->].
Qed.

Lemma file_at_range (s : volume D) c l : file_at (g_geo s) (g_fat s) c l ->
  Forall (fun x => 2 <= x < g_total_clusters (g_geo s)) l.
Proof.
  intros [C F]. apply chain_range in C. rewrite Forall_forall in *. intros x Hx.
  specialize (F x Hx). specialize (C x Hx). lia.
Qed.

(** A sector of a directory is in the root region or in one of its clusters. *)
Lemma in_dir_lbas s dir l lba : vol_ok s -> dir_at s dir l -> lba ∈ dir_lbas (g_geo s) dir l ->
  g_root_start_lba (g_geo s) <= lba < bd_size (disk s) /\
  (dir = 0 /\ lba < g_data_start_lba (g_geo s) \/
   exists c, c ∈ l /\ in_cluster (g_geo s) c lba /\ g_data_start_lba (g_geo s) <= lba).
Proof.
  intros Hs Hd. unfold dir_lbas. destruct (regions s Hs) as (R1 & R2 & R3 & R4).
  unfold dir_at in Hd. destruct (Z.eqb_spec dir 0) as [->|Hne].
  - rewrite list_elem_of_In, in_map_iff. intros (k & <- & Hk%in_seq).
    pose proof (vo_data s Hs). split; [lia|left; lia].
  - destruct Hd as [_ Hf]. pose proof (file_at_range s dir l Hf) as F.
    rewrite list_elem_of_In, in_concat. intros (x & (c & <- & Hc)%in_map_iff & Hx).
    apply list_elem_of_In in Hx, Hc. apply in_lbas_from in Hx. rewrite Forall_forall in F.
    destruct (in_cluster_data s c lba Hs (F c Hc) Hx) as [? _]. split; [lia|right; eauto with lia].
Qed.

Lemma lbas_from_NoDup g c : NoDup (lbas_from g c 0).
Proof. apply NoDup_fmap_2_strong; [|apply NoDup_seq]. intros. lia. Qed.

Lemma dir_lbas_NoDup s dir l : vol_ok s -> dir_at s dir l -> NoDup (dir_lbas (g_geo s) dir l).
Proof.
  intros Hs Hd. unfold dir_at, dir_lbas in *. destruct (dir =? 0).
  - apply NoDup_fmap_2_strong; [|apply NoDup_seq]. intros. lia.
  - destruct Hd as [_ Hf]. pose proof (file_at_range s dir l Hf) as F. destruct Hf as [C _].
    apply chain_NoDup in C. induction C as [|c l Hc HN IH]; [constructor|].
    cbn [map concat]. apply Forall_cons in F as [Fc F]. apply NoDup_app.
    split_and!; [apply lbas_from_NoDup| |by apply IH].
    intros lba H1 H2. apply in_lbas_from in H1. apply list_elem_of_In, in_concat in H2 as (x & (c' & <- & Hc')%in_map_iff & Hx).
    apply list_elem_of_In in Hx, Hc'. apply in_lbas_from in Hx. rewrite Forall_forall in F.
    pose proof (in_cluster_inj s c c' lba Hs Fc (F c' Hc') H1 Hx). by subst.
Qed.

(** *** Growing a directory *)

Lemma fill_cluster_spec k lba sec s :
  sector (dir_buf s) -> Forall byte (dir_buf s) -> 0 <= lba -> 0 <= sec ->
  lba + sec + Z.of_nat k <= bd_size (disk s) -> bd_size (disk s) < 2 ^ 32 ->
  wp (fill_cluster lba sec k) (fun ok s' => exists d', s' = set_disk d' s /\
    same_disk (fun l => lba + sec <= l < lba + sec + Z.of_nat k) (disk s) d' /\
    (ok = true -> forall l, lba + sec <= l < lba + sec + Z.of_nat k -> bd_data d' l = dir_buf s) /\
    (bd_healthy (disk s) -> ok = true /\ bd_healthy d')) s.
Proof.
  revert sec s; induction k as [|k IH]; intros sec s Hb Hf Hl Hsec Hz Hz'.
  - apply wp_ret. exists (disk s). split_and!; [by destruct s|done|lia|done].
  - cbn [fill_cluster]. apply wp_bind, wp_gets. apply wp_bind. rewrite u32_small by lia.
    apply wp_write; [done..|]. intros ok d1 S1 W1 G1. destruct ok.
    2: { apply wp_ret. exists d1. split_and!; [done| |done|].
         - eapply same_disk_mono; [|exact S1]. cbv beta. lia.
         - intros G. destruct (G1 G); [lia|done]. }
    pose proof (proj1 S1) as Z1.
    eapply wp_mono; [apply IH; simpl; (done || lia)|]. simpl.
    intros ok s' (d' & -> & S2 & W2 & G2). exists d'. split_and!; [done| | |].
    + eapply same_disk_trans; [exact S1|exact S2|]. cbv beta. lia.
    + intros Hok l Hin. destruct (Z.eq_dec l (lba + sec)) as [->|Hne]; [|apply W2; [done|lia]].
      destruct S2 as [_ O2]. rewrite O2 by lia. by apply W1.
    + intros G. apply G2. apply G1; [done|lia].
Qed.

Definition zeros : list Z := replicate 512 0.

Lemma zeros_ok : sector zeros /\ Forall byte zeros.
Proof. split; [done|]. apply Forall_replicate. unfold byte. lia. Qed.

Lemma zeros_slot i : 0 <= i < 16 -> first_byte (slot_at zeros i) = DIRENT_EMPTY.
Proof.
  intros Hi. unfold first_byte, slot_at, dirent_of_bytes, sub, zeros. cbn [d_name].
  rewrite drop_replicate, !take_replicate, drop_replicate, take_replicate.
  apply zget_replicate. lia.
Qed.

Lemma bytes16_ok v : Forall byte (bytes16 v).
Proof. repeat constructor; apply Z.mod_pos_bound; lia. Qed.

Lemma dirent_bytes_byte e : dirent_wf e -> Forall byte (dirent_bytes e).
Proof.
  intros (_ & _ & _ & N & X & R & A & _). unfold dirent_bytes, bytes32.
  rewrite !Forall_app, Forall_singleton. split_and!; try done; apply bytes16_ok.
Qed.

Lemma put_slot_byte buf i e : Forall byte buf -> dirent_wf e -> Forall byte (put_slot buf i e).
Proof.
  intros Hb He. unfold put_slot, blit. rewrite !Forall_app.
  split_and!; [by apply Forall_take|by apply dirent_bytes_byte|by apply Forall_drop].
Qed.

(** The slots of a cluster that is zero behind its first sector. *)
Lemma cluster_slots s d c : vol_ok s -> 2 <= c < g_total_clusters (g_geo s) ->
  let g := g_geo s in
  (forall l, in_cluster g c l -> l <> cluster_lba g c -> bd_data d l = zeros) ->
  exists rest, dir_slots d (lbas_from g c 0) = sector_slots d (cluster_lba g c) ++ rest /\
    Forall (fun x : slot => first_byte x.2 = DIRENT_EMPTY) rest.
Proof.
  intros Hs Hc g Eo. pose proof (vo_spc s Hs) as K. fold g in K.
  rewrite lbas_from_cons by lia. rewrite Z.add_0_r. unfold dir_slots. cbn [map concat].
  eexists. split; [reflexivity|]. apply Forall_forall. intros [[l i] e'] Hin.
  apply (in_dir_slots d (lbas_from g c (0 + 1))) in Hin as (Hl & Hi & ->). simpl.
  assert (in_cluster g c l /\ l <> cluster_lba g c) as [H1 H2].
  { unfold lbas_from in Hl. rewrite list_elem_of_In, in_map_iff in Hl.
    destruct Hl as (k & <- & Hk%in_seq). unfold in_cluster. lia. }
  rewrite Eo by done. by apply zeros_slot.
Qed.

Lemma one_entry_sector (d : D) lba e : dirent_wf e -> bd_data d lba = put_slot zeros 0 e ->
  exists rest, sector_slots d lba = (lba, 0, e) :: rest /\
    Forall (fun x : slot => first_byte x.2 = DIRENT_EMPTY) rest.
Proof.
  intros He E. destruct zeros_ok as [Z1 _]. unfold sector_slots. rewrite E. cbn [seq map].
  rewrite slot_put_same by (done || lia). eexists. split; [reflexivity|]. rewrite !Forall_cons.
  split_and!; try (simpl; rewrite slot_put_other by (done || lia); apply zeros_slot; lia). constructor.
Qed.

Lemma two_entry_sector (d : D) lba e1 e2 : dirent_wf e1 -> dirent_wf e2 ->
  bd_data d lba = put_slot (put_slot zeros 0 e1) 1 e2 ->
  exists rest, sector_slots d lba = (lba, 0, e1) :: (lba, 1, e2) :: rest /\
    Forall (fun x : slot => first_byte x.2 = DIRENT_EMPTY) rest.
Proof.
  intros He1 He2 E. destruct zeros_ok as [Z1 _].
  pose proof (put_slot_sector zeros 0 e1 Z1 ltac:(lia) He1) as Z2.
  unfold sector_slots. rewrite E. cbn [seq map].
  rewrite slot_put_same by (done || lia).
  rewrite (slot_put_other _ 1 (Z.of_nat 0)) by (done || lia). rewrite slot_put_same by (done || lia).
  eexists. split; [reflexivity|]. rewrite !Forall_cons.
  split_and!; try (simpl; rewrite !slot_put_other by (done || lia); apply zeros_slot; lia). constructor.
Qed.

(** The table after the new last cluster [c] is linked behind [x]. *)
Definition linked (t : list Z) (x c : Z) : list Z := t.[c := 65535].[x := u16 c].[c := 65535].

Lemma free_not_in g t c0 l c : file_at g t c0 l -> t.[c] = 0 -> c ∉ l.
Proof. intros [_ F] Hc Hin. rewrite Forall_forall in F. destruct (F c Hin) as [_ Hn]. lia. Qed.

Lemma linked_other t x c y : 0 <= x -> 0 <= c -> 0 <= y -> y <> x -> y <> c ->
  (linked t x c).[y] = t.[y].
Proof. intros. unfold linked. by rewrite !zget_set_ne by lia. Qed.

Lemma grow_chain s dir l c : vol_ok s -> file_at (g_geo s) (g_fat s) dir l -> l <> [] ->
  lowest_free (g_fat s) (g_total_clusters (g_geo s)) c ->
  file_at (g_geo s) (linked (g_fat s) (List.last l 0) c) dir (l ++ [c]).
Proof.
  intros Hs Hf Hne (Hc & Hz & _). pose proof (free_not_in _ _ _ _ _ Hf Hz) as Hin.
  pose proof (file_at_range s dir l Hf) as R. destruct Hf as [C F].
  pose proof (vo_total s Hs) as T. pose proof (vo_marks s Hs) as B.
  destruct (exists_last Hne) as (l0 & x & ->). rewrite last_last.
  pose proof (chain_NoDup _ _ _ C) as HN.
  assert (Hx : 2 <= x < g_total_clusters (g_geo s)).
  { rewrite Forall_forall in R. apply R. set_solver. }
  assert (Hxc : x <> c) by set_solver.
  assert (Eu : u16 c = c) by (apply u16_small; lia). unfold linked. rewrite Eu. split.
  - rewrite <- app_assoc. cbn [app]. apply chain_snoc; try done.
    + eapply chain_same; [apply zset_length| |exact C]. intros y Hy. apply zget_set_ne; [lia| |set_solver].
      rewrite Forall_forall in R. specialize (R y Hy). lia.
    + apply is_link_spec. lia.
    + rewrite zset_len. lia.
  - rewrite Forall_forall in *. intros y [Hy|Hy%list_elem_of_singleton]%elem_of_app.
    + destruct (F y Hy) as [Hy1 Hy2]. split; [done|]. specialize (R y Hy).
      rewrite zget_set_ne by (lia || set_solver).
      destruct (Z.eq_dec y x) as [->|Hyx].
      * rewrite zget_set_eq by (rewrite zset_len; lia). lia.
      * by rewrite !zget_set_ne by (lia || set_solver).
    + subst y. split; [lia|]. rewrite zget_set_eq by (rewrite !zset_len; lia). lia.
Qed.

Lemma linked_words s x c : vol_ok s -> lowest_free (g_fat s) (g_total_clusters (g_geo s)) c ->
  length (linked (g_fat s) x c) = length (g_fat s) /\
  Forall (fun e => 0 <= e < 65536) (linked (g_fat s) x c).
Proof.
  intros Hs (Hc & _). unfold linked. rewrite !zset_length. split; [done|].
  repeat apply zset_forall; try lia; [apply (vo_words s Hs)|].
  by apply Z.mod_pos_bound.
Qed.

Definition busy : slot -> Prop := fun x => free_slot x.2 = false.

(** What a successful insertion of [e] in directory [dir] of clusters [l] did. *)
Inductive grown (s : volume D) (dir : Z) (l : list Z) (e : fat16_dirent) (t : list Z) (d : D) : Prop :=
| grown_slot l1 lba i e0 l2 :
    t = g_fat s -> same_disk (eq lba) (disk s) d -> lba ∈ dir_lbas (g_geo s) dir l ->
    dir_slots (disk s) (dir_lbas (g_geo s) dir l) = l1 ++ (lba, i, e0) :: l2 ->
    free_slot e0 = true -> Forall busy l1 ->
    dir_slots d (dir_lbas (g_geo s) dir l) = l1 ++ (lba, i, e) :: l2 ->
    grown s dir l e t d
| grown_cluster c rest :
    dir <> 0 -> Forall busy (dir_slots (disk s) (dir_lbas (g_geo s) dir l)) ->
    lowest_free (g_fat s) (g_total_clusters (g_geo s)) c ->
    t = linked (g_fat s) (List.last l 0) c -> fat_on_disk (g_geo s) t d ->
    same_disk (fun lba => fat_region (g_geo s) lba \/ in_cluster (g_geo s) c lba) (disk s) d ->
    dir_slots d (dir_lbas (g_geo s) dir (l ++ [c])) =
      dir_slots (disk s) (dir_lbas (g_geo s) dir l) ++ (cluster_lba (g_geo s) c, 0, e) :: rest ->
    Forall (fun x : slot => first_byte x.2 = DIRENT_EMPTY) rest ->
    grown s dir l e t d.

(** No room: every slot is taken and the directory cannot grow. *)
Definition no_room (s : volume D) (dir : Z) (l : list Z) : Prop :=
  Forall busy (dir_slots (disk s) (dir_lbas (g_geo s) dir l)) /\
  (dir = 0 \/ forall c, 2 <= c < g_total_clusters (g_geo s) -> (g_fat s).[c] <> 0).

Definition inserted (s : volume D) (dir : Z) (l : list Z) (e : fat16_dirent) (ok : bool) (s' : volume D) : Prop :=
  exists t d b, s' = set_dir_buf b (set_disk d (set_fat t s)) /\ vol_ok s' /\
    (ok = true -> grown s dir l e t d) /\
    (bd_healthy (disk s) -> bd_healthy d /\
       (ok = false -> t = g_fat s /\ same_disk nowhere (disk s) d /\ no_room s dir l)).

Lemma insert_in_slot s d1 dir l lba i e0 e l1 l2 : vol_ok s -> dir_at s dir l -> dirent_wf e ->
  same_disk nowhere (disk s) d1 -> (bd_healthy (disk s) -> bd_healthy d1) ->
  dir_slots (disk s) (dir_lbas (g_geo s) dir l) = l1 ++ (lba, i, e0) :: l2 ->
  free_slot e0 = true -> Forall busy l1 ->
  wp (block_write_sector lba (put_slot (bd_data (disk s) lba) i e)) (inserted s dir l e)
     (set_dir_buf (put_slot (bd_data (disk s) lba) i e) (set_disk d1 s)).
Proof.
  intros Hs Hd He S1 G1 Es Hf Hb.
  assert (Hin : (lba, i, e0) ∈ dir_slots (disk s) (dir_lbas (g_geo s) dir l)) by (rewrite Es; set_solver).
  apply in_dir_slots in Hin as (Hin & Hi & _).
  destruct (in_dir_lbas s dir l lba Hs Hd Hin) as [Hr _]. destruct (regions s Hs) as (R1 & R2 & R3 & R4).
  destruct (bd_data_sector (disk s) lba) as [B1 B2].
  pose proof (put_slot_sector _ i e B1 Hi He) as P1. pose proof (put_slot_byte _ i e B2 He) as P2.
  apply wp_write; [done..|]. cbn [disk set_dir_buf set_disk]. intros ok d2 S2 W2 G2.
  exists (g_fat s), d2, (put_slot (bd_data (disk s) lba) i e).
  assert (S12 : same_disk (eq lba) (disk s) d2) by (eapply same_disk_trans; [exact S1|exact S2|unfold nowhere; tauto]).
  split_and!; [by destruct s| | |].
  - apply vol_ok_set_disk; [|apply S2]. apply vol_ok_set_dir_buf; [|done..].
    apply vol_ok_set_disk; [done|apply S1].
  - intros ->. eapply grown_slot; try done.
    eapply dir_slots_put; [by apply dir_lbas_NoDup|done|done|by apply W2| |exact Es].
    intros l' _ Hne. apply S12. congruence.
  - intros G. destruct (G2 (G1 G)) as [-> G']; [rewrite (proj1 S1); lia|]. done.
Qed.

Lemma dir_lbas_snoc g dir l c : dir <> 0 ->
  dir_lbas g dir (l ++ [c]) = dir_lbas g dir l ++ lbas_from g c 0.
Proof.
  intros Hd. unfold dir_lbas. rewrite (proj2 (Z.eqb_neq _ _)) by done.
  rewrite map_app, concat_app. cbn [map concat]. by rewrite app_nil_r.
Qed.

(** The sectors of a directory are outside the FAT and outside other clusters. *)
Lemma dir_lbas_outside s dir l c lba : vol_ok s -> dir_at s dir l ->
  2 <= c < g_total_clusters (g_geo s) -> c ∉ l ->
  lba ∈ dir_lbas (g_geo s) dir l -> ~ in_cluster (g_geo s) c lba /\ ~ fat_region (g_geo s) lba.
Proof.
  intros Hs Hd Hc Hnin Hin. destruct (in_dir_lbas s dir l lba Hs Hd Hin) as [Hr Hx].
  split; [|unfold fat_region; lia]. intros Hcl. destruct Hx as [[-> Hlt]|(x & Hx & Hxc & _)].
  - destruct (in_cluster_data s c lba Hs Hc Hcl). lia.
  - unfold dir_at in Hd. destruct (Z.eqb_spec dir 0) as [->|_]; [subst; by apply not_elem_of_nil in Hx|].
    destruct Hd as [_ Hf]. pose proof (file_at_range s dir l Hf) as F. rewrite Forall_forall in F.
    pose proof (in_cluster_inj s x c lba Hs (F x Hx) Hc Hxc Hcl). by subst.
Qed.

Lemma dir_free_not_in s dir l c : dir_at s dir l -> (g_fat s).[c] = 0 -> c ∉ l.
Proof.
  unfold dir_at. destruct (dir =? 0); [intros ->; set_solver|]. intros [_ Hf] Hz.
  by apply (free_not_in _ _ _ _ _ Hf).
Qed.

Definition full (s : volume D) : Prop :=
  forall c, 2 <= c < g_total_clusters (g_geo s) -> (g_fat s).[c] <> 0.

Lemma alloc_words s c : vol_ok s -> length (g_fat s).[c := 65535] = length (g_fat s) /\
  Forall (fun e => 0 <= e < 65536) (g_fat s).[c := 65535].
Proof. intros Hs. split; [apply zset_length|]. apply zset_forall; [apply (vo_words s Hs)|lia]. Qed.

(** The volume with a new table, disk and directory buffer. *)
Definition moved (t : list Z) (d : D) (b : list Z) (s : volume D) : volume D :=
  set_dir_buf b (set_disk d (set_fat t s)).

Lemma vol_ok_moved s t d b : vol_ok s -> length t = length (g_fat s) ->
  Forall (fun e => 0 <= e < 65536) t -> bd_size d = bd_size (disk s) ->
  sector b -> Forall byte b -> vol_ok (moved t d b s).
Proof.
  intros. apply vol_ok_set_dir_buf; [|done..]. apply vol_ok_set_disk; [|done]. by apply vol_ok_set_fat.
Qed.

Lemma fresh_cluster_spec s first : vol_ok s -> (forall c, sector (first c) /\ Forall byte (first c)) ->
  wp (fresh_cluster first) (fun r s' => exists t d b, s' = moved t d b s /\ vol_ok s' /\
    (bd_healthy (disk s) -> bd_healthy d) /\
    match r with
    | Some c => lowest_free (g_fat s) (g_total_clusters (g_geo s)) c /\ t = (g_fat s).[c := 65535] /\
        same_disk (in_cluster (g_geo s) c) (disk s) d /\
        bd_data d (cluster_lba (g_geo s) c) = first c /\
        (forall l, in_cluster (g_geo s) c l -> l <> cluster_lba (g_geo s) c -> bd_data d l = zeros)
    | None => bd_healthy (disk s) -> full s /\ t = g_fat s /\ same_disk nowhere (disk s) d
    end) s.
Proof.
  intros Hs Hfirst. destruct (regions s Hs) as (R1 & R2 & R3 & R4).
  destruct (vo_bufs s Hs) as (_ & _ & D1 & D2). unfold fresh_cluster.
  apply wp_bind. eapply wp_mono; [by apply alloc_cluster_spec|].
  intros c s1 [(-> & -> & Hfull)|(Hlow & ->)].
  { apply wp_ret. exists (g_fat s), (disk s), (dir_buf s). split_and!; [by destruct s|done..]. }
  pose proof Hlow as (Hc & Hz & _). rewrite (proj2 (Z.eqb_neq c 0)) by lia.
  apply wp_bind, wp_modify. apply wp_bind, wp_gets. apply wp_bind, wp_gets.
  destruct zeros_ok as [Q1 Q2]. pose proof (vo_spc s Hs) as K.
  destruct (cluster_lba_eq s c (g_sectors_per_cluster (g_geo s) - 1) Hs Hc) as (_ & C1 & C2); [lia|].
  cbn [g_geo set_dir_buf set_fat]. fold zeros. destruct (alloc_words s c Hs) as [T1 T2].
  apply wp_bind. eapply wp_mono; [apply fill_cluster_spec; simpl; (done || lia)|].
  cbn [disk dir_buf set_dir_buf set_fat]. rewrite Z.add_0_r, Z2Nat.id by lia.
  intros ok s2 (d2 & -> & S2 & W2 & G2). pose proof (proj1 S2) as Z2. destruct ok; cbn [negb].
  2: { apply wp_ret. exists (g_fat s).[c := 65535], d2, zeros.
       split_and!; [done|by apply (vol_ok_moved s _ d2 zeros)|by intros G; apply G2|]. intros G. destruct (G2 G). done. }
  apply wp_bind, wp_modify. apply wp_bind, wp_gets. apply wp_bind.
  destruct (Hfirst c) as [P1 P2]. cbn [dir_buf set_dir_buf].
  apply wp_write; [done..|]. cbn [disk set_dir_buf set_disk]. intros ok d3 S3 W3 G3.
  pose proof (proj1 S3) as Z3. apply wp_ret. exists (g_fat s).[c := 65535], d3, (first c).
  assert (G : bd_healthy (disk s) -> ok = true /\ bd_healthy d3).
  { intros G. destruct (G2 G) as [_ G']. apply G3; [done|lia]. }
  split_and!; [done|apply (vol_ok_moved s _ d3 (first c)); (done || congruence)|by intros; apply G|].
  destruct ok; [|by intros Gh; destruct (G Gh)]. split_and!; [done|done| |by apply W3|].
  - eapply same_disk_trans; [exact S2|exact S3|]. unfold in_cluster. intros l [?| <-]; lia.
  - intros l Hl Hne. destruct S3 as [_ O3]. rewrite O3 by congruence. by apply W2.
Qed.

(** A directory whose last cluster links the new cluster [c]. *)
Lemma grown_by_cluster s dir l c e d2 d : vol_ok s -> dir_at s dir l -> dirent_wf e -> dir <> 0 ->
  Forall busy (dir_slots (disk s) (dir_lbas (g_geo s) dir l)) ->
  lowest_free (g_fat s) (g_total_clusters (g_geo s)) c ->
  same_disk (in_cluster (g_geo s) c) (disk s) d2 ->
  bd_data d2 (cluster_lba (g_geo s) c) = put_slot zeros 0 e ->
  (forall l, in_cluster (g_geo s) c l -> l <> cluster_lba (g_geo s) c -> bd_data d2 l = zeros) ->
  same_disk (fat_region (g_geo s)) d2 d ->
  fat_on_disk (g_geo s) (linked (g_fat s) (List.last l 0) c) d ->
  grown s dir l e (linked (g_fat s) (List.last l 0) c) d.
Proof.
  intros Hs Hd He Hne Hbusy Hlow S2 W2 O2 S3 Hon. pose proof Hlow as (Hc & Hz & _).
  destruct (regions s Hs) as (R1 & R2 & R3 & R4).
  assert (Hin : forall x, in_cluster (g_geo s) c x -> bd_data d x = bd_data d2 x).
  { intros x Hx. apply S3. destruct (in_cluster_data s c x Hs Hc Hx) as [? _]. unfold fat_region. lia. }
  assert (Hfirst : in_cluster (g_geo s) c (cluster_lba (g_geo s) c)).
  { unfold in_cluster. pose proof (vo_spc s Hs). lia. }
  destruct (cluster_slots s d c Hs Hc) as (rest' & Er' & Hr').
  { intros x Hx Hn. by rewrite Hin, O2. }
  destruct (one_entry_sector d (cluster_lba (g_geo s) c) e He) as (rest & Er & Hr); [by rewrite Hin|].
  assert (S23 : same_disk (fun lba => fat_region (g_geo s) lba \/ in_cluster (g_geo s) c lba) (disk s) d).
  { eapply same_disk_trans; [exact S2|exact S3|]. tauto. }
  eapply (grown_cluster _ _ _ _ _ _ c (rest ++ rest')); try done; [|by apply Forall_app].
  rewrite dir_lbas_snoc by done. unfold dir_slots at 1. rewrite map_app, concat_app.
  fold (dir_slots d (dir_lbas (g_geo s) dir l)) (dir_slots d (lbas_from (g_geo s) c 0)).
  rewrite Er', Er. f_equal. apply dir_slots_other. intros lba Hl. apply S23.
  destruct (dir_lbas_outside s dir l c lba Hs Hd Hc (dir_free_not_in _ _ _ _ Hd Hz) Hl). tauto.
Qed.

(** The tail of [dir_insert] after a scan that found no free slot. *)
Lemma insert_in_cluster s s1 dir l it e : vol_ok s -> dir_at s dir l -> dirent_wf e -> dir <> 0 ->
  (exists d1 b1, s1 = moved (g_fat s) d1 b1 s /\ same_disk nowhere (disk s) d1 /\
     (bd_healthy (disk s) -> bd_healthy d1) /\ sector b1 /\ Forall byte b1) ->
  it_cluster it = List.last l 0 ->
  Forall busy (dir_slots (disk s) (dir_lbas (g_geo s) dir l)) ->
  wp (r ← fresh_cluster (fun _ => put_slot (replicate 512 0) 0 e);
      match r with
      | None => mret false
      | Some new_cluster =>
          _ ← fat_set (it_cluster it) (u16 new_cluster);
          _ ← fat_set new_cluster 65535;
          fat16_flush_fat
      end) (inserted s dir l e) s1.
Proof.
  intros Hs Hd He Hne (d1 & b1 & -> & S1 & G1 & B1 & B2) Hit Hbusy.
  assert (V1 : vol_ok (moved (g_fat s) d1 b1 s)).
  { apply vol_ok_moved; try done; [apply (vo_words s Hs)|apply S1]. }
  fold zeros. destruct zeros_ok as [Q1 Q2].
  pose proof (put_slot_sector _ 0 e Q1 ltac:(lia) He) as P1. pose proof (put_slot_byte _ 0 e Q2 He) as P2.
  apply wp_bind. eapply wp_mono; [by apply fresh_cluster_spec|].
  cbn [moved disk g_fat g_geo set_dir_buf set_disk set_fat].
  intros [c|] s2 (t2 & d2 & b2 & -> & V2 & G2 & Hr); cbn [moved disk g_fat g_geo set_dir_buf set_disk set_fat] in Hr.
  2: { apply wp_ret. exists t2, d2, b2. split_and!; [done|done|done|]. intros G.
       destruct (Hr (G1 G)) as (Hfull & -> & S2). split; [by apply G2, G1|]. intros _.
       split_and!; [done|eapply same_disk_trans; [exact S1|exact S2|tauto]|]. split; [done|by right]. }
  destruct Hr as (Hlow & -> & S2 & W2 & O2). pose proof Hlow as (Hc & Hz & _).
  rewrite Hit. pose proof Hd as Hd'. unfold dir_at in Hd'.
  rewrite (proj2 (Z.eqb_neq dir 0)) in Hd' by done. destruct Hd' as [Hl Hf].
  pose proof (vo_total s Hs) as T.
  assert (Hx : 2 <= List.last l 0 < g_total_clusters (g_geo s)).
  { pose proof (file_at_range s dir l Hf) as F. rewrite Forall_forall in F. apply F.
    destruct (exists_last Hl) as (l0 & x & ->). rewrite last_last. set_solver. }
  apply wp_bind, wp_fat_set; [simpl; rewrite zset_len; lia|].
  apply wp_bind, wp_fat_set; [simpl; rewrite !zset_len; lia|].
  destruct (linked_words s (List.last l 0) c Hs Hlow) as [L1 L2].
  pose proof (proj1 S1) as Z1. pose proof (proj1 S2) as Z2.
  change (wp fat16_flush_fat (inserted s dir l e) (moved (linked (g_fat s) (List.last l 0) c) d2 b2 s)).
  destruct (vo_bufs _ V2) as (_ & _ & B3 & B4).
  eapply wp_mono; [apply flush_fat_spec; apply vol_ok_moved; (done || congruence)|].
  cbn [moved disk g_fat g_geo set_dir_buf set_disk set_fat]. intros ok s4 (d4 & -> & S4 & W4 & G4).
  exists (linked (g_fat s) (List.last l 0) c), d4, b2. split_and!; [done| | |].
  - apply (vol_ok_moved s _ d4 b2); try done. rewrite (proj1 S4). congruence.
  - intros ->. eapply (grown_by_cluster s dir l c e d2 d4); try done; [|by apply W4].
    eapply same_disk_trans; [exact S1|exact S2|]. unfold nowhere. tauto.
  - intros G. destruct (G4 (G2 (G1 G))) as [-> G']. done.
Qed.

Lemma dir_insert_spec s dir l e : vol_ok s -> dir_at s dir l -> dirent_wf e ->
  wp (dir_insert dir e) (inserted s dir l e) s.
Proof.
  intros Hs Hd He. unfold dir_insert. apply wp_bind. eapply wp_mono; [by apply dir_scan_spec|].
  intros w s1 (d1 & b1 & -> & S1 & B1 & B2 & G1 & Hw). pose proof (proj1 S1) as Z1.
  assert (V1 : vol_ok (moved (g_fat s) d1 b1 s)).
  { apply vol_ok_moved; try done. apply (vo_words s Hs). }
  pose proof (insert_walk (dir_slots (disk s) (dir_lbas (g_geo s) dir l))) as L.
  destruct Hw as [->|Hw].
  { apply wp_ret. exists (g_fat s), d1, b1. split_and!; [by destruct s|done|done|].
    intros G. destruct (G1 G); done. }
  destruct (walk_list insert_visit _ ()) as [[]|[lba r]].
  - destruct Hw as (it & -> & Hit). destruct (Z.eqb_spec dir 0) as [->|Hne].
    + apply wp_ret. exists (g_fat s), d1, b1. split_and!; [by destruct s|done|done|].
      intros G. split; [by apply G1|]. intros _. split_and!; [done..|]. split; [done|by left].
    + apply insert_in_cluster; try done; [|by apply Hit]. exists d1, b1.
      split_and!; [by destruct s|done| |done|done]. intros G. by apply G1.
  - destruct L as (l1 & i & e0 & l2 & Es & -> & Hf & Hb). destruct Hw as (-> & -> & Hin).
    apply wp_bind, wp_modify. apply wp_bind, wp_gets. cbn [dir_buf set_dir_buf].
    eapply insert_in_slot; try done. intros G. by apply G1.
Qed.

(** ** A directory as a map from names to entries *)

(** Nothing but end marks behind an end mark. *)
Fixpoint tidy (l : list slot) : Prop :=
  match l with
  | [] => True
  | x :: l' =>
      (first_byte x.2 = DIRENT_EMPTY -> Forall (fun y : slot => first_byte y.2 = DIRENT_EMPTY) l') /\ tidy l'
  end.

(** An entry a lookup can return. *)
Definition live (e : fat16_dirent) : Prop :=
  free_slot e = false /\ has_attr e ATTR_VOLUME_ID = false.

Lemma lookup_cons n x l : free_slot x.2 = false ->
  lookup_ref n (x :: l) =
  if negb (has_attr x.2 ATTR_VOLUME_ID) && bool_decide (name83_of x.2 = n)
  then Found (x.2, x.1.1, x.1.2) else lookup_ref n l.
Proof.
  destruct x as [[lba i] e]. unfold free_slot. cbn [snd fst lookup_ref]. intros [-> ->]%orb_false_elim. done.
Qed.

Lemma lookup_busy_app n l1 l2 : Forall busy l1 ->
  lookup_ref n (l1 ++ l2) =
  match lookup_ref n l1 with Found r => Found r | _ => lookup_ref n l2 end.
Proof.
  induction 1 as [|x l1 Hx _ IH]; [done|]. cbn [app]. rewrite !lookup_cons by done.
  destruct (negb _ && _); [done|]. apply IH.
Qed.

Lemma lookup_no_error n l : lookup_ref n l <> IOError.
Proof. induction l as [|[[lba i] e] l IH]; simpl; [done|]. repeat case_match; done. Qed.

Lemma lookup_empties n l : Forall (fun y : slot => first_byte y.2 = DIRENT_EMPTY) l ->
  lookup_ref n l = NotFound.
Proof. destruct 1 as [|[[lba i] e] l E _]; simpl in *; [done|]. by rewrite E. Qed.

Lemma tidy_app l1 l2 : Forall busy l1 -> tidy (l1 ++ l2) <-> tidy l2.
Proof.
  induction 1 as [|x l1 Hx _ IH]; [done|]. cbn [app tidy]. rewrite IH. split; [tauto|].
  intros Ht. split; [|done]. unfold busy, free_slot in Hx. apply orb_false_elim in Hx as [Hx _].
  apply Z.eqb_neq in Hx. done.
Qed.

Lemma tidy_empties l : Forall (fun y : slot => first_byte y.2 = DIRENT_EMPTY) l -> tidy l.
Proof. induction 1; simpl; auto. Qed.

(** Looking up any name after [e] was stored in the first free slot. *)
Lemma lookup_put n l1 lba i e0 e l2 : Forall busy l1 -> free_slot e0 = true -> live e ->
  tidy (l1 ++ (lba, i, e0) :: l2) ->
  lookup_ref (name83_of e) (l1 ++ (lba, i, e0) :: l2) = NotFound ->
  lookup_ref n (l1 ++ (lba, i, e) :: l2) =
  if decide (n = name83_of e) then Found (e, lba, i) else lookup_ref n (l1 ++ (lba, i, e0) :: l2).
Proof.
  intros Hb Hf [He Hv] Ht Hn. rewrite lookup_busy_app in Hn |- * by done.
  apply tidy_app in Ht as [Ht _]; [|done]. rewrite lookup_cons by done. simpl. rewrite Hv. simpl.
  case_decide as En.
  - subst n. rewrite bool_decide_true by done. by destruct (lookup_ref _ l1).
  - rewrite bool_decide_false by congruence. rewrite lookup_busy_app by done.
    destruct (lookup_ref n l1) eqn:E1; [done| |by apply lookup_no_error in E1]. cbn [lookup_ref].
    destruct (Z.eqb_spec (first_byte e0) DIRENT_EMPTY) as [Ee|Ee]; [by apply lookup_empties, Ht|].
    unfold free_slot in Hf. rewrite (proj2 (Z.eqb_neq _ _)) in Hf by done. simpl in Hf. rewrite Hf. done.
Qed.

Lemma tidy_put l1 lba i e0 e l2 : Forall busy l1 -> free_slot e = false ->
  tidy (l1 ++ (lba, i, e0) :: l2) -> tidy (l1 ++ (lba, i, e) :: l2).
Proof.
  intros Hb He. rewrite !tidy_app by done. intros [_ Ht]. split; [|done]. simpl.
  unfold free_slot in He. apply orb_false_elim in He as [He _]. apply Z.eqb_neq in He. done.
Qed.

(** The directory after an insertion: its clusters, and the lookup of every name. *)
Lemma grown_lookup s dir l e t d b : vol_ok s -> dir_at s dir l -> live e ->
  tidy (dir_slots (disk s) (dir_lbas (g_geo s) dir l)) ->
  lookup_ref (name83_of e) (dir_slots (disk s) (dir_lbas (g_geo s) dir l)) = NotFound ->
  grown s dir l e t d ->
  exists l' lba i, dir_at (moved t d b s) dir l' /\
    tidy (dir_slots d (dir_lbas (g_geo s) dir l')) /\
    forall n, lookup_ref n (dir_slots d (dir_lbas (g_geo s) dir l')) =
      if decide (n = name83_of e) then Found (e, lba, i)
      else lookup_ref n (dir_slots (disk s) (dir_lbas (g_geo s) dir l)).
Proof.
  intros Hs Hd He Ht Hn [l1 lba i e0 l2 -> S _ Es Hf Hb Ed|c rest Hne Hb Hlow -> _ _ Ed Hr].
  - exists l, lba, i. rewrite Ed. rewrite Es in Ht, Hn |- *.
    split_and!; [done|by eapply tidy_put; [|apply He|]|]. intros n. by apply lookup_put.
  - exists (l ++ [c]), (cluster_lba (g_geo s) c), 0. unfold dir_at in *. simpl.
    rewrite (proj2 (Z.eqb_neq _ _)) in Hd |- * by done. destruct Hd as [Hl Hat]. rewrite Ed. split_and!.
    + by destruct l.
    + by apply grow_chain.
    + apply tidy_app; [done|]. apply (tidy_put [] _ _ e); [done|apply He|]. split.
      * simpl. destruct He as [He _]. unfold free_slot in He. apply orb_false_elim in He as [He _].
        apply Z.eqb_neq in He. done.
      * by apply tidy_empties.
    + intros n. rewrite lookup_busy_app by done. rewrite lookup_cons by apply He. simpl.
      destruct He as [_ ->]. simpl. case_decide as En.
      * subst n. by rewrite Hn, bool_decide_true.
      * rewrite bool_decide_false by congruence. rewrite (lookup_empties n rest) by done.
        destruct (lookup_ref n _) eqn:E1; [done|done|by apply lookup_no_error in E1].
Qed.

(** ** One-component paths *)

(** A name that is one component of a path: not empty, no slash, no longer than
    the component buffer. *)
Definition one_component (name : list Z) : Prop :=
  name <> [] /\ SLASH ∉ name /\ (length name <= 63)%nat.

Lemma component_whole name k : SLASH ∉ name -> (length name <= k)%nat ->
  component_loop name k = (name, []).
Proof.
  revert k; induction name as [|c name IH]; intros k Hs Hl; [by destruct k|].
  destruct k as [|k]; simpl in Hl; [lia|]. simpl. apply not_elem_of_cons in Hs as [Hc Hs].
  rewrite (proj2 (Z.eqb_neq _ _)) by congruence. by rewrite IH by (done || lia).
Qed.

Lemma resolve_one cwd name (s : volume D) : one_component name ->
  resolve_path cwd (Some name) s = Some (Found (cwd, to_8_3 name), s).
Proof.
  intros (Hne & Hs & Hl). unfold resolve_path.
  assert (Hh : head name <> Some SLASH).
  { destruct name; [done|]. intros [= ->]. apply Hs. by left. }
  rewrite decide_False by done.
  assert (skip_slashes name = name) as ->.
  { destruct name as [|c name]; [done|]. simpl. rewrite (proj2 (Z.eqb_neq _ _)); [done|]. set_solver. }
  unfold path_next_component. rewrite component_whole by (done || simpl; lia). by destruct name.
Qed.

(** The entry [fat16_create] and [fat16_mkdir] store is well formed. *)
Lemma new_entry_wf name attr first : Forall byte name -> 0 <= attr < 256 -> 0 <= first < 65536 ->
  dirent_wf (new_entry (to_8_3 name) attr first) /\
  name83_of (new_entry (to_8_3 name) attr first) = to_8_3 name.
Proof.
  intros Hb Ha Hf. pose proof (encode83_length name) as L. rewrite <- to_8_3_encode in L.
  assert (B : Forall byte (to_8_3 name)).
  { rewrite to_8_3_encode. apply encode83_bytes. done. }
  unfold dirent_wf, new_entry, name83_of. simpl. rewrite take_drop. split; [|done].
  rewrite length_take, length_drop, L. split_and!; try done; try lia.
  - by apply Forall_take.
  - by apply Forall_drop.
  - apply Forall_forall. intros x Hx. unfold byte. set_solver.
Qed.

Lemma lookup_found n l e lba i : lookup_ref n l = Found (e, lba, i) -> live e /\ name83_of e = n.
Proof.
  induction l as [|[[lba' i'] e'] l IH]; simpl; [done|].
  destruct (first_byte e' =? DIRENT_EMPTY) eqn:E1; [done|].
  destruct (negb (first_byte e' =? DIRENT_DELETED) && negb (has_attr e' ATTR_VOLUME_ID) &&
            bool_decide (name83_of e' = n)) eqn:E2; [|done].
  intros [= -> -> ->]. apply andb_prop in E2 as [[E2 E3]%andb_prop E4%bool_decide_eq_true].
  unfold live, free_slot. apply negb_true_iff in E2, E3. by rewrite E1, E2.
Qed.

Lemma live_attr e : has_attr e ATTR_VOLUME_ID = false ->
  has_attr e (Z.lor ATTR_VOLUME_ID ATTR_DIRECTORY) = has_attr e ATTR_DIRECTORY.
Proof.
  unfold has_attr. intros Hv%negb_false_iff%Z.eqb_eq.
  by rewrite Z.land_lor_distr_r, Hv, Z.lor_0_l.
Qed.

(** The entries of directory [dir]. *)
Definition entries (s : volume D) (dir : Z) (l : list Z) : list slot :=
  dir_slots (disk s) (dir_lbas (g_geo s) dir l).

(** A lookup on a healthy device. *)
Lemma lookup_healthy s dir l n : vol_ok s -> bd_healthy (disk s) -> dir_at s dir l ->
  wp (dir_lookup dir n) (fun r s' => r = lookup_ref n (entries s dir l) /\ vol_ok s' /\
    bd_healthy (disk s') /\ same_disk nowhere (disk s) (disk s') /\
    exists b, s' = moved (g_fat s) (disk s') b s) s.
Proof.
  intros Hs Hh Hd. eapply wp_mono; [by apply dir_lookup_spec|].
  intros r s' (d & b & -> & S & B1 & B2 & G & Hr & _). destruct (G Hh) as [G1 G2].
  destruct Hr as [->|Hr]; [done|]. split_and!; [done| |done|done|].
  - apply (vol_ok_moved s (g_fat s) d b); try done; [apply (vo_words s Hs)|apply S].
  - exists b. by destruct s.
Qed.

(** A call that only read the disk. *)
Definition quiet (s s' : volume D) : Prop :=
  vol_ok s' /\ bd_healthy (disk s') /\ g_geo s' = g_geo s /\ g_fat s' = g_fat s /\
  same_disk nowhere (disk s) (disk s').

Lemma find_one s dir l name : vol_ok s -> bd_healthy (disk s) -> dir_at s dir l -> one_component name ->
  wp (fat16_find dir (Some name)) (fun f s' => quiet s s' /\
    f = match lookup_ref (to_8_3 name) (entries s dir l) with
        | Found (e, _, _) =>
            if has_attr e ATTR_DIRECTORY then NotFound else Found (d_first_cluster e, d_size e, dir)
        | _ => NotFound
        end) s.
Proof.
  intros Hs Hh Hd Hn. unfold fat16_find. apply wp_bind, wp_gets. rewrite (vo_ready s Hs).
  rewrite bool_decide_false by done. cbn [negb orb]. apply wp_bind.
  eapply wp_of_run; [by apply resolve_one|]. apply wp_bind.
  eapply wp_mono; [by apply lookup_healthy|].
  intros r s' (-> & Hv & Hh' & S & b & Es).
  assert (Q : quiet s s') by (split_and!; [done|done|by rewrite Es|by rewrite Es|done]).
  destruct (lookup_ref (to_8_3 name) (entries s dir l)) as [[[e lba] i]| |] eqn:E.
  - apply lookup_found in E as [[_ E] _]. rewrite (live_attr e E).
    destruct (has_attr e ATTR_DIRECTORY); by apply wp_ret.
  - by apply wp_ret.
  - by apply lookup_no_error in E.
Qed.

(** The first byte of the stored name is neither the end mark nor the deletion
    mark. *)
Definition storable (name : list Z) : Prop :=
  Forall byte name /\ (to_8_3 name).[0] <> DIRENT_EMPTY /\ (to_8_3 name).[0] <> DIRENT_DELETED.

Lemma new_entry_live name attr first : storable name -> Z.land attr ATTR_VOLUME_ID = 0 ->
  live (new_entry (to_8_3 name) attr first).
Proof.
  intros (_ & H1 & H2) Ha. unfold live, free_slot, has_attr, first_byte, new_entry. cbn [d_name d_attr].
  assert ((take 8 (to_8_3 name)).[0] = (to_8_3 name).[0]) as ->.
  { unfold zget. change (Z.to_nat 0) with 0%nat. pose proof (encode83_length name) as L.
    rewrite <- to_8_3_encode in L. destruct (to_8_3 name); done. }
  apply Z.eqb_neq in H1, H2. by rewrite H1, H2, Ha.
Qed.

(** Inserting a new name on a healthy device. *)
Lemma insert_healthy s dir l e : vol_ok s -> bd_healthy (disk s) -> dir_at s dir l -> dirent_wf e -> live e ->
  tidy (entries s dir l) -> lookup_ref (name83_of e) (entries s dir l) = NotFound ->
  wp (dir_insert dir e) (fun ok s' => vol_ok s' /\ bd_healthy (disk s') /\ g_geo s' = g_geo s /\
    if ok then exists l' lba i, dir_at s' dir l' /\ tidy (entries s' dir l') /\
      forall n, lookup_ref n (entries s' dir l') =
        if decide (n = name83_of e) then Found (e, lba, i) else lookup_ref n (entries s dir l)
    else no_room s dir l /\ g_fat s' = g_fat s /\ same_disk nowhere (disk s) (disk s')) s.
Proof.
  intros Hs Hh Hd Hw He Ht Hn. eapply wp_mono; [by apply dir_insert_spec|].
  intros ok s' (t & d & b & -> & Hv & Hg & G). destruct (G Hh) as [G1 G2].
  split_and!; [done..|]. destruct ok; [|by destruct (G2 eq_refl) as (? & ? & ?)].
  destruct (grown_lookup s dir l e t d b Hs Hd He Ht Hn (Hg eq_refl)) as (l' & lba & i & ? & ? & ?).
  by exists l', lba, i.
Qed.

(** What a directory looks like is a matter of its sectors only. *)
Lemma entries_same s s' dir l : g_geo s' = g_geo s -> same_disk nowhere (disk s) (disk s') ->
  entries s' dir l = entries s dir l.
Proof. intros Eg S. unfold entries. rewrite Eg. by apply slots_same. Qed.

(** What an insertion leaves alone: allocated clusters outside the directory, and
    every sector outside the directory, the FAT and the free clusters. *)
Definition insert_frame (s : volume D) (dir : Z) (l : list Z) (t : list Z) (d : D) : Prop :=
  (forall x, 0 <= x -> x ∉ l -> (g_fat s).[x] <> 0 -> t.[x] = (g_fat s).[x]) /\
  same_disk (fun lba => lba ∈ dir_lbas (g_geo s) dir l \/ fat_region (g_geo s) lba \/
    exists c, 2 <= c < g_total_clusters (g_geo s) /\ (g_fat s).[c] = 0 /\ in_cluster (g_geo s) c lba)
    (disk s) d.

Lemma grown_frame s dir l e t d : vol_ok s -> dir_at s dir l -> grown s dir l e t d -> insert_frame s dir l t d.
Proof.
  intros Hs Hd [l1 lba i e0 l2 -> S Hin _ _ _ _|c rest Hne _ (Hc & Hz & _) -> _ S _ _]; split.
  - done.
  - eapply same_disk_mono; [|exact S]. intros x <-. by left.
  - intros x Hx Hnl Hnz. unfold dir_at in Hd. rewrite (proj2 (Z.eqb_neq _ _)) in Hd by done.
    destruct Hd as [Hl Hf]. pose proof (file_at_range s dir l Hf) as F.
    destruct (exists_last Hl) as (l0 & y & ->). rewrite last_last. rewrite Forall_app, Forall_singleton in F.
    apply linked_other; [lia|lia|done|set_solver|]. intros ->. lia.
  - eapply same_disk_mono; [|exact S]. intros x [?|?]; [by right; left|right; right; eauto].
Qed.

Lemma insert_frame_spec s dir l e : vol_ok s -> dir_at s dir l -> dirent_wf e ->
  wp (dir_insert dir e) (fun ok s' => exists t d b, s' = moved t d b s /\
    (ok = true -> insert_frame s dir l t d)) s.
Proof.
  intros Hs Hd He. eapply wp_mono; [by apply dir_insert_spec|].
  intros ok s' (t & d & b & -> & _ & Hg & _). exists t, d, b. split; [done|].
  intros Hok. by eapply grown_frame, Hg.
Qed.

(** The entries of a directory [fat16_mkdir] just made. *)
Definition fresh_dir (s : volume D) (c parent : Z) : Prop :=
  dir_at s c [c] /\ exists lba rest,
    entries s c [c] = (lba, 0, new_entry (to_8_3 [DOT]) ATTR_DIRECTORY c) ::
                      (lba, 1, new_entry (to_8_3 [DOT; DOT]) ATTR_DIRECTORY parent) :: rest /\
    Forall (fun x : slot => first_byte x.2 = DIRENT_EMPTY) rest.

Lemma dot_sector_ok c parent : sector (dot_sector c parent) /\ Forall byte (dot_sector c parent).
Proof.
  destruct zeros_ok as [Z1 Z2].
  assert (U : forall x, 0 <= u16 x < 65536) by (intros; by apply Z.mod_pos_bound).
  destruct (new_entry_wf [DOT] ATTR_DIRECTORY (u16 c)) as [W1 _]; [by repeat constructor|done|apply U|].
  destruct (new_entry_wf [DOT; DOT] ATTR_DIRECTORY (u16 parent)) as [W2 _]; [by repeat constructor|done|apply U|].
  unfold dot_sector. split.
  - apply put_slot_sector; [apply put_slot_sector|..]; (done || lia).
  - apply put_slot_byte; [apply put_slot_byte|]; done.
Qed.

(** A cluster that holds a dot sector in front of zeros, and ends its chain. *)
Lemma fresh_dir_intro s c parent : vol_ok s -> 2 <= c < g_total_clusters (g_geo s) -> 0 <= parent < 65536 ->
  (g_fat s).[c] = 65535 -> bd_data (disk s) (cluster_lba (g_geo s) c) = dot_sector c parent ->
  (forall l, in_cluster (g_geo s) c l -> l <> cluster_lba (g_geo s) c -> bd_data (disk s) l = zeros) ->
  fresh_dir s c parent.
Proof.
  intros Hs Hc Hp Ht E Eo. pose proof (vo_marks s Hs) as B. pose proof (vo_total s Hs) as T. split.
  - unfold dir_at, file_at. rewrite (proj2 (Z.eqb_neq _ _)) by lia. cbn [chain]. rewrite Ht.
    split_and!; [done|done|apply is_link_spec; lia|lia|done|]. constructor; [|done]. rewrite Ht. lia.
  - exists (cluster_lba (g_geo s) c).
    destruct (new_entry_wf [DOT] ATTR_DIRECTORY c) as [W1 _]; [by repeat constructor|done|lia|].
    destruct (new_entry_wf [DOT; DOT] ATTR_DIRECTORY parent) as [W2 _]; [by repeat constructor|done|lia|].
    unfold dot_sector in E. rewrite !u16_small in E by lia.
    destruct (two_entry_sector (disk s) (cluster_lba (g_geo s) c) _ _ W1 W2 E) as (r1 & E1 & F1).
    destruct (cluster_slots s (disk s) c Hs Hc Eo) as (r2 & E2 & F2). exists (r1 ++ r2).
    split; [|by apply Forall_app]. unfold entries, dir_lbas. rewrite (proj2 (Z.eqb_neq _ _)) by lia.
    cbn [map concat]. by rewrite app_nil_r, E2, E1.
Qed.

Lemma resolve_dir_one s dir l name : vol_ok s -> bd_healthy (disk s) -> dir_at s dir l -> one_component name ->
  wp (fat16_resolve_dir dir (Some name)) (fun r s' => vol_ok s' /\ g_geo s' = g_geo s /\
    g_fat s' = g_fat s /\ same_disk nowhere (disk s) (disk s') /\
    r = match lookup_ref (to_8_3 name) (entries s dir l) with
        | Found (e, _, _) => if has_attr e ATTR_DIRECTORY then (1, d_first_cluster e) else (-2, 0)
        | _ => (0, 0)
        end) s.
Proof.
  intros Hs Hh Hd Hn. unfold fat16_resolve_dir. apply wp_bind, wp_gets. rewrite (vo_ready s Hs).
  cbn [negb]. rewrite decide_False.
  2: { destruct Hn as (H1 & H2 & _). intros [?|[[= ->]|[= ->]]]; [done..|]. apply H2. by left. }
  apply wp_bind. eapply wp_of_run; [by apply resolve_one|]. apply wp_bind.
  eapply wp_mono; [by apply lookup_healthy|].
  intros r s' (-> & Hv & _ & S & b & E'). assert (g_geo s' = g_geo s /\ g_fat s' = g_fat s) as [E1 E2] by by rewrite E'.
  destruct (lookup_ref (to_8_3 name) (entries s dir l)) as [[[e lba] i]| |] eqn:E.
  - destruct (has_attr e ATTR_DIRECTORY); by apply wp_ret.
  - by apply wp_ret.
  - by apply lookup_no_error in E.
Qed.

Lemma clear_alloc t c : 0 <= c < zlen t -> t.[c] = 0 -> cleared t.[c := 65535] [c] = t.
Proof.
  intros Hc Hz. simpl. unfold zset, zget, zlen in *. rewrite list_insert_insert_eq.
  apply list_insert_id. rewrite <- Hz. apply list_lookup_lookup_total_lt. lia.
Qed.

(** The volume between the two halves of [fat16_mkdir]: cluster [c] is allocated
    and holds the new directory, nothing else changed. *)
Definition half_made (s : volume D) (c parent : Z) (s2 : volume D) : Prop :=
  vol_ok s2 /\ bd_healthy (disk s2) /\ g_geo s2 = g_geo s /\ g_fat s2 = (g_fat s).[c := 65535] /\
  lowest_free (g_fat s) (g_total_clusters (g_geo s)) c /\
  same_disk (in_cluster (g_geo s) c) (disk s) (disk s2) /\
  bd_data (disk s2) (cluster_lba (g_geo s) c) = dot_sector c parent /\
  (forall l, in_cluster (g_geo s) c l -> l <> cluster_lba (g_geo s) c -> bd_data (disk s2) l = zeros).

Lemma half_made_dir s c parent s2 dir l : vol_ok s -> dir_at s dir l -> half_made s c parent s2 ->
  c ∉ l /\ dir_at s2 dir l /\ entries s2 dir l = entries s dir l.
Proof.
  intros Hs Hd (_ & _ & Eg & Ef & (Hc & Hz & _) & S & _). pose proof (dir_free_not_in _ _ _ _ Hd Hz) as Hn.
  split_and!; [done| |].
  - unfold dir_at in *. rewrite Eg, Ef. destruct (dir =? 0); [done|]. destruct Hd as [Hl Hf].
    split; [done|]. pose proof (file_at_range s dir l Hf) as F. destruct Hf as [C A].
    rewrite Forall_forall in A, F.
    assert (E : forall x, x ∈ l -> (g_fat s).[c := 65535].[x] = (g_fat s).[x]).
    { intros x Hx. specialize (F x Hx). apply zget_set_ne; [lia|lia|set_solver]. }
    split; [by eapply chain_same; [apply zset_length| |exact C]|].
    apply Forall_forall. intros x Hx. rewrite E by done. auto.
  - unfold entries. rewrite Eg. apply dir_slots_other. intros lba Hl. apply S.
    by apply (dir_lbas_outside s dir l).
Qed.

(** The insertion of another entry leaves the new directory alone. *)
Lemma half_made_insert s c parent s2 dir l t d b : vol_ok s -> dir_at s dir l -> 0 <= parent < 65536 ->
  half_made s c parent s2 -> insert_frame s2 dir l t d -> vol_ok (moved t d b s2) ->
  fresh_dir (moved t d b s2) c parent.
Proof.
  intros Hs Hd Hp Hm [Ft Fd] Hv. destruct (half_made_dir s c parent s2 dir l Hs Hd Hm) as (Hn & Hd2 & _).
  destruct Hm as (Hv2 & _ & Eg & Ef & (Hc & Hz & _) & _ & W & O). pose proof (vo_total s Hs) as T.
  assert (Hsame : forall x, in_cluster (g_geo s) c x -> bd_data d x = bd_data (disk s2) x).
  { intros x Hx. apply Fd. rewrite <- Eg in Hc, Hx. intros [Hin|[Hin|(c2 & Hc2 & Hz2 & Hin)]].
    - destruct (dir_lbas_outside s2 dir l c x Hv2 Hd2 Hc Hn Hin) as [N _]. by apply N.
    - destruct (in_cluster_data s2 c x Hv2 Hc Hx). unfold fat_region in Hin.
      destruct (regions s2 Hv2) as (_ & _ & ? & _). lia.
    - pose proof (in_cluster_inj s2 c c2 x Hv2 Hc Hc2 Hx Hin). subst c2.
      rewrite Ef, zget_set_eq in Hz2 by (rewrite Eg in Hc; lia). lia. }
  apply fresh_dir_intro; try done; cbn [moved g_geo g_fat disk set_dir_buf set_disk set_fat]; rewrite ?Eg; try done.
  - rewrite Ft; [|lia|done|]; rewrite Ef, zget_set_eq by lia; lia.
  - rewrite Hsame; [done|]. unfold in_cluster. pose proof (vo_spc s Hs). lia.
  - intros x Hx Hne. by rewrite Hsame, O.
Qed.

(** [fresh_dir] and [dir_at] survive a change of the FAT copies on the disk. *)
Lemma fresh_dir_flush s d c parent : vol_ok s -> fresh_dir s c parent ->
  same_disk (fat_region (g_geo s)) (disk s) d -> fresh_dir (set_disk d s) c parent.
Proof.
  intros Hs [Hd (lba & rest & E & F)] S. split; [done|]. exists lba, rest. split; [|done].
  rewrite <- E. apply dir_slots_other. intros x Hx. apply S.
  destruct (in_dir_lbas s c [c] x Hs Hd Hx). destruct (regions s Hs) as (_ & ? & _). unfold fat_region. lia.
Qed.

Lemma entries_flush s d dir l : vol_ok s -> dir_at s dir l ->
  same_disk (fat_region (g_geo s)) (disk s) d -> entries (set_disk d s) dir l = entries s dir l.
Proof.
  intros Hs Hd S. apply dir_slots_other. intros x Hx. apply S.
  destruct (in_dir_lbas s dir l x Hs Hd Hx). destruct (regions s Hs) as (_ & ? & _). unfold fat_region. lia.
Qed.

(** [fat16_mkdir] of a name the directory does not have. *)
Lemma mkdir_one s cwd l name : vol_ok s -> bd_healthy (disk s) -> dir_at s cwd l -> 0 <= cwd < 65536 ->
  tidy (entries s cwd l) -> one_component name -> storable name ->
  lookup_ref (to_8_3 name) (entries s cwd l) = NotFound ->
  wp (fat16_mkdir cwd (Some name)) (fun ok s' => vol_ok s' /\ bd_healthy (disk s') /\ g_geo s' = g_geo s /\
    if (ok : bool) then exists c l' lba i, lowest_free (g_fat s) (g_total_clusters (g_geo s)) c /\
      fresh_dir s' c cwd /\ dir_at s' cwd l' /\ fat_on_disk (g_geo s) (g_fat s') (disk s') /\
      forall n, lookup_ref n (entries s' cwd l') =
        if decide (n = to_8_3 name) then Found (new_entry (to_8_3 name) ATTR_DIRECTORY c, lba, i)
        else lookup_ref n (entries s cwd l)
    else g_fat s' = g_fat s /\ dir_at s' cwd l /\ entries s' cwd l = entries s cwd l) s.
Proof.
  intros Hs Hh Hd Hp Ht Hone Hname Hnew. unfold fat16_mkdir. apply wp_bind, wp_gets.
  rewrite (vo_ready s Hs). rewrite bool_decide_false by done. cbn [negb orb]. apply wp_bind.
  eapply wp_of_run; [by apply resolve_one|]. apply wp_bind. eapply wp_mono; [by apply lookup_healthy|].
  intros r s1 (-> & Hv1 & Hh1 & S1 & b1 & E1). rewrite Hnew.
  assert (Eg1 : g_geo s1 = g_geo s) by by rewrite E1. assert (Ef1 : g_fat s1 = g_fat s) by by rewrite E1.
  assert (Hd1 : dir_at s1 cwd l) by by rewrite E1.
  assert (Ee1 : entries s1 cwd l = entries s cwd l) by by apply entries_same.
  apply wp_bind. eapply wp_mono; [apply (fresh_cluster_spec s1); [done|intros; apply dot_sector_ok]|].
  intros [c|] s2 (t2 & d2 & b2 & -> & V2 & G2 & Hr).
  2: { apply wp_ret. destruct (Hr Hh1) as (_ & -> & S2). split_and!; [done|by apply G2|done..|].
       rewrite <- Ee1. by apply entries_same. }
  destruct Hr as (Hlow & -> & S2 & W2 & O2). pose proof Hlow as (Hc & Hz & _).
  assert (Hm : half_made s1 c cwd (moved (g_fat s1).[c := 65535] d2 b2 s1)).
  { split_and!; try done. by apply G2. }
  destruct (half_made_dir s1 c cwd _ cwd l Hv1 Hd1 Hm) as (Hn & Hd2 & Ee2).
  set (s2 := moved (g_fat s1).[c := 65535] d2 b2 s1) in *.
  pose proof (vo_marks s1 Hv1) as B. pose proof (vo_total s1 Hv1) as T.
  assert (Hu : 0 <= u16 c < 65536) by by apply Z.mod_pos_bound.
  destruct Hname as (Hb & Hname). destruct (new_entry_wf name ATTR_DIRECTORY (u16 c) Hb) as [Hw Hn3]; [done..|].
  apply wp_bind. eapply wp_mono.
  { apply wp_conj; [apply (insert_healthy s2 cwd l); try done|by apply (insert_frame_spec s2 cwd l)].
    - by apply G2.
    - by apply new_entry_live.
    - by rewrite Ee2, Ee1.
    - by rewrite Ee2, Ee1, Hn3. }
  intros ok s3 [(V3 & H3 & Eg3 & Hok) (t3 & d3 & b3 & -> & F3)]. destruct ok; cbn [negb].
  - destruct Hok as (l' & lba & i & Hd3 & _ & L3). pose proof (half_made_insert s1 c cwd s2 cwd l t3 d3 b3
      Hv1 Hd1 Hp Hm (F3 eq_refl) V3) as Hfresh.
    eapply wp_mono; [by apply flush_fat_spec|]. intros ok s4 (d4 & -> & S4 & W4 & G4).
    destruct (G4 H3) as [-> H4]. split_and!; [apply vol_ok_set_disk; [done|apply S4]|done|done|].
    exists c, l', lba, i. rewrite <- Ef1, <- Eg1. split_and!; [done|by apply fresh_dir_flush|done|by apply W4|].
    intros n. rewrite entries_flush, L3, Hn3, u16_small, Ee2, Ee1 by (done || lia). done.
  - destruct Hok as (_ & Ef3 & S3). cbn [moved g_fat set_dir_buf set_disk set_fat] in Ef3.
    assert (C : chain t3 c [c]).
    { rewrite Ef3. simpl. rewrite zset_len, zget_set_eq by lia.
      split_and!; [done|apply is_link_spec; lia|lia|done]. }
    apply wp_bind. eapply wp_mono; [by apply free_chain_chain|]. intros _ s4 ->. apply wp_ret.
    assert (Et : cleared t3 [c] = g_fat s1) by (rewrite Ef3; apply clear_alloc; (done || lia)).
    cbn [moved g_fat set_dir_buf set_disk set_fat]. rewrite Et.
    assert (S23 : same_disk (in_cluster (g_geo s1) c) (disk s1) d3)
      by (eapply same_disk_trans; [exact S2|exact S3|unfold nowhere; tauto]).
    split_and!; [|done|done|by rewrite <- Ef1|done|].
    + apply (vol_ok_set_fat (moved t3 d3 b3 s2)); [done| |apply (vo_words s1 Hv1)].
      rewrite <- Et. apply cleared_length.
    + rewrite <- Ee1. apply dir_slots_other. intros x Hx. apply S23.
      by apply (dir_lbas_outside s1 cwd l).
Qed.

(** ** Building a path backwards *)

(** [tmp] holds a NUL-terminated absolute path from index [p], empty at 127. *)
Definition path_buf (tmp : list Z) (p : Z) : Prop :=
  length tmp = 128%nat /\ 0 <= p <= 127 /\ exists text,
    drop (Z.to_nat p) tmp = text ++ [0] /\ 0 ∉ text /\ (p < 127 -> head text = Some SLASH).

Lemma path_buf_push tmp p name : path_buf tmp p -> 0 ∉ name -> zlen name + 1 <= p ->
  path_buf (blit tmp (Z.to_nat (p - zlen name)) name).[p - zlen name - 1 := SLASH] (p - zlen name - 1).
Proof.
  intros (Hl & Hp & text & Ed & H0 & _) Hn Hr. unfold path_buf, zlen in *.
  set (q := Z.to_nat (p - Z.of_nat (length name))).
  assert (Hq : Z.to_nat (p - Z.of_nat (length name) - 1) = (q - 1)%nat) by lia.
  assert (Eb : length (blit tmp q name) = 128%nat) by (rewrite blit_length; lia).
  rewrite zset_length, Eb. split_and!; [done|lia|lia|].
  exists (SLASH :: name ++ text). split_and!; [|set_solver by (unfold SLASH; lia)|done].
  unfold zset. rewrite Hq.
  assert (Ed' : drop q (blit tmp q name) = name ++ drop (Z.to_nat p) tmp).
  { unfold blit. rewrite drop_app_length' by (rewrite length_take; lia). do 2 f_equal. lia. }
  rewrite insert_take_drop by lia. rewrite drop_app_length' by (rewrite length_take; lia).
  cbn [app]. f_equal. replace (S (q - 1)) with q by lia.
  rewrite Ed', Ed. by rewrite app_assoc.
Qed.

Lemma climb_path levels cluster tmp p (s s' : volume D) tmp' p' :
  path_buf tmp p -> climb levels cluster tmp p s = Some (Some (tmp', p'), s') ->
  path_buf tmp' p' /\ p' <= p /\ (cluster <> 0 -> p' < p).
Proof.
  revert cluster tmp p s; induction levels as [|levels IH]; intros cluster tmp p s Hb;
    cbn [climb]; destruct (Z.eqb_spec cluster 0) as [->|Hne]; try by intros [= -> -> ->].
  destruct (negb (is_link cluster)); [done|].
  intros (r & s1 & _ & E)%run_bind. destruct r as [[[up lba] i]| |]; [|done..].
  apply run_bind in E as (r & s2 & _ & E). destruct r as [name| |]; [|done..].
  destruct (Z.ltb_spec p (zlen (until_nul name) + 1)) as [|Hr]; [done|].
  apply IH in E as (E1 & E2 & _).
  - unfold zlen in *. split_and!; [done|lia|lia].
  - apply path_buf_push; [done|apply until_nul_clean|done].
Qed.
End dir.

(** ** Properties *)

Section properties.
Context {D : Type} `{BlockDevice D}.

(** Creating a file and looking it up: on a healthy device, [fat16_create] of a
    name of the directory [cwd] followed by [fat16_find] of the same name finds
    the existing file unchanged, or the new entry with no cluster and size 0; the
    creation fails only when a directory has that name or when every slot is
    taken and the directory cannot grow, and then nothing is found. *)
Theorem create_then_find (s : volume D) (cwd : Z) (l name : list Z)
  (Hs : vol_ok s) (Hh : bd_healthy (disk s)) (Hd : dir_at s cwd l)
  (Ht : tidy (entries s cwd l)) (Hone : one_component name) (Hname : storable name) :
  wp (r ← fat16_create cwd (Some name); f ← fat16_find cwd (Some name); mret (r, f))
     (fun '(r, f) s' => vol_ok s' /\
        match lookup_ref (to_8_3 name) (entries s cwd l) with
        | Found (e, _, _) =>
            if has_attr e ATTR_DIRECTORY then r = None /\ f = NotFound
            else r = Some cwd /\ f = Found (d_first_cluster e, d_size e, cwd)
        | _ => (r = Some cwd /\ f = Found (0, 0, cwd)) \/
               (r = None /\ f = NotFound /\ no_room s cwd l)
        end) s.
Proof.
  apply wp_bind. unfold fat16_create. apply wp_bind, wp_gets. rewrite (vo_ready s Hs).
  rewrite bool_decide_false by done. cbn [negb orb]. apply wp_bind.
  eapply wp_of_run; [by apply resolve_one|]. apply wp_bind. eapply wp_mono; [by apply lookup_healthy|].
  intros r s1 (-> & Hv1 & Hh1 & S1 & b1 & E1).
  assert (Eg : g_geo s1 = g_geo s) by by rewrite E1.
  assert (Hd1 : dir_at s1 cwd l) by by rewrite E1.
  assert (Ee : entries s1 cwd l = entries s cwd l) by by apply entries_same.
  assert (Hfind : forall r : option Z, wp (f ← fat16_find cwd (Some name); mret (r, f)) (fun '(r', f) s' => vol_ok s' /\ r' = r /\
    f = match lookup_ref (to_8_3 name) (entries s cwd l) with
        | Found (e, _, _) =>
            if has_attr e ATTR_DIRECTORY then NotFound else Found (d_first_cluster e, d_size e, cwd)
        | _ => NotFound
        end) s1).
  { intros r. apply wp_bind. eapply wp_mono; [by apply find_one|]. rewrite Ee.
    intros f s2 [[Hv2 _] ->]. by apply wp_ret. }
  destruct (lookup_ref (to_8_3 name) (entries s cwd l)) as [[[e lba] i]| |] eqn:E.
  - destruct (has_attr e ATTR_DIRECTORY) eqn:Ea; apply wp_ret;
      (eapply wp_mono; [apply Hfind|]; intros [r f] s2 (Hv2 & -> & ->); done).
  - destruct Hname as (Hb & Hname). destruct (new_entry_wf name ATTR_ARCHIVE 0 Hb) as [Hw Hn]; [done..|].
    apply wp_bind. eapply wp_mono; [apply (insert_healthy s1 cwd l); try done|].
    + by apply new_entry_live.
    + by rewrite Ee.
    + by rewrite Ee, Hn.
    + intros ok s2 (Hv2 & Hh2 & Eg2 & Hok). apply wp_ret. destruct ok.
      * destruct Hok as (l' & lba & i & Hd2 & _ & L). apply wp_bind.
        eapply wp_mono; [by apply (find_one s2 cwd l')|]. intros f s3 [[Hv3 _] ->]. apply wp_ret.
        split; [done|]. left. by rewrite L, Hn, decide_True.
      * destruct Hok as (Hroom & Ef2 & S2). apply wp_bind.
        assert (Hd2 : dir_at s2 cwd l) by (unfold dir_at; by rewrite Ef2, Eg2).
        eapply wp_mono; [by apply (find_one s2 cwd l)|]. intros f s3 [[Hv3 _] ->]. apply wp_ret.
        split; [done|]. right. rewrite (entries_same s1 s2), Ee, E by done. split_and!; [done..|].
        unfold no_room, entries in *. rewrite Ee, Eg, E1 in Hroom. done.
  - by apply lookup_no_error in E.
Qed.
End properties.

Section more_properties.
Context {D : Type} `{BlockDevice D}.

(** Making a directory and entering it: on a healthy device, [fat16_mkdir] of a
    name the directory [cwd] does not have, followed by [fat16_resolve_dir] of
    that name, either fails with the table and the entries of [cwd] as they were
    and the name unresolved, or resolves to the lowest free cluster, which now
    holds exactly the entries ["."] (itself) and [".."] ([cwd]); every other name
    of [cwd] resolves as before and the copies of the FAT are up to date. *)
Theorem mkdir_then_enter (s : volume D) (cwd : Z) (l name : list Z)
  (Hs : vol_ok s) (Hh : bd_healthy (disk s)) (Hd : dir_at s cwd l) (Hcwd : 0 <= cwd < 65536)
  (Ht : tidy (entries s cwd l)) (Hone : one_component name) (Hname : storable name)
  (Hnew : lookup_ref (to_8_3 name) (entries s cwd l) = NotFound) :
  wp (ok ← fat16_mkdir cwd (Some name); r ← fat16_resolve_dir cwd (Some name); mret (ok, r))
     (fun '(ok, r) s' => vol_ok s' /\
        if (ok : bool) then exists c l', r = (1, c) /\
          lowest_free (g_fat s) (g_total_clusters (g_geo s)) c /\ fresh_dir s' c cwd /\
          dir_at s' cwd l' /\ fat_on_disk (g_geo s) (g_fat s') (disk s') /\
          forall n, n <> to_8_3 name ->
            lookup_ref n (entries s' cwd l') = lookup_ref n (entries s cwd l)
        else r = (0, 0) /\ g_fat s' = g_fat s /\ entries s' cwd l = entries s cwd l) s.
Proof.
  apply wp_bind. eapply wp_mono; [by apply (mkdir_one s cwd l)|].
  intros ok s1 (V1 & H1 & Eg & Hok). apply wp_bind. destruct ok.
  - destruct Hok as (c & l' & lba & i & Hlow & Hf & Hd1 & Hon & L).
    eapply wp_mono; [by apply (resolve_dir_one s1 cwd l')|].
    intros r s2 (V2 & Eg2 & Ef2 & S2 & ->). apply wp_ret. rewrite L, decide_True by done.
    split; [done|]. exists c, l'. split_and!; [done|done| | | |].
    + destruct Hf as [F1 (lba' & rest & F2 & F3)]. split; [unfold dir_at; by rewrite Eg2, Ef2|].
      exists lba', rest. by rewrite (entries_same s1 s2) by done.
    + unfold dir_at. by rewrite Eg2, Ef2.
    + rewrite Ef2. intros j k Hj Hk. destruct S2 as [_ O2]. rewrite O2 by tauto. by apply Hon.
    + intros n Hn. rewrite (entries_same s1 s2), L, decide_False by done. done.
  - destruct Hok as (Ef & Hd1 & Ee). eapply wp_mono; [by apply (resolve_dir_one s1 cwd l)|].
    intros r s2 (V2 & Eg2 & Ef2 & S2 & ->). apply wp_ret. rewrite Ee, Hnew.
    split_and!; [done|done|by rewrite Ef2|]. by rewrite (entries_same s1 s2).
Qed.

(** [fat16_get_path] never writes outside its buffers: with the 128-byte local
    and an [out] of [out_size] bytes, it returns -1 and leaves [out] alone, or
    returns the length [r] of the path, at most 127 and below [out_size], and
    [out] starts with that path, absolute and NUL-terminated, the bytes behind
    the NUL untouched.  It gives up after 16 levels, so a [..] cycle ends too. *)
Theorem get_path_in_bounds (s s' : volume D) (dir r : Z) (stack out out' : list Z)
  (Hstack : length stack = 128%nat)
  (Hrun : fat16_get_path dir stack out (zlen out) s = Some ((r, out'), s')) :
  r = -1 /\ out' = out \/
  1 <= r <= 127 /\ r < zlen out /\ exists text,
    out' = text ++ [0] ++ drop (Z.to_nat (r + 1)) out /\
    zlen text = r /\ head text = Some SLASH /\ 0 ∉ text.
Proof.
  unfold fat16_get_path in Hrun. destruct (Z.ltb_spec (zlen out) 2) as [|Ho]; [left; by injection Hrun as <- <- <-|].
  destruct (Z.eqb_spec dir 0) as [->|Hd].
  { injection Hrun as <- <- <-. right. destruct out as [|a [|b out]]; try done.
    split_and!; [lia|lia|lia|]. exists [SLASH]. split_and!; try done. set_solver. }
  apply run_bind in Hrun as (ready & s1 & _ & Hrun). destruct (negb ready); [left; by injection Hrun as <- <- <-|].
  apply run_bind in Hrun as (c & s2 & Ec & Hrun). destruct c as [[tmp p]|]; [|left; by injection Hrun as <- <- <-].
  apply climb_path in Ec as ((Hl & Hp & text & Et & H0 & Hh) & _ & Hlt).
  2: { unfold path_buf. rewrite zset_length, Hstack. split_and!; [done|lia|lia|]. exists []. split; [|split; [apply not_elem_of_nil|lia]].
       unfold zset. change (Z.to_nat 127) with 127%nat. rewrite insert_take_drop by lia.
       rewrite drop_app_length' by (rewrite length_take; lia). cbn [app]. f_equal.
       apply nil_length_inv. rewrite length_drop. lia. }
  specialize (Hlt Hd). destruct (Z.ltb_spec (zlen out) (127 - p + 1)) as [|Hr]; [left; by injection Hrun as <- <- <-|].
  injection Hrun as <- <- <-. right. split_and!; [lia|lia|lia|]. exists text.
  assert (Lt : zlen text = 127 - p).
  { apply (f_equal length) in Et. rewrite length_drop, length_app, Hl in Et. simpl in Et. unfold zlen. lia. }
  split_and!; [|done|apply Hh; lia|done]. unfold blit, sub. rewrite Et. cbn [take app].
  assert (L2 : length (text ++ [0]) = Z.to_nat (127 - p + 1))
    by (rewrite length_app; unfold zlen in Lt; simpl; lia).
  rewrite take_0, take_ge by (rewrite L2; lia). cbn [Nat.add app]. by rewrite L2, <- app_assoc.
Qed.
End more_properties.

(** ** Examples *)

(** ["docs"] *)
Definition docs_name : list Z := [100; 111; 99; 115].

Lemma demo_root_tidy : tidy (entries demo_vol 0 []).
Proof. apply tidy_empties. vm_compute. repeat constructor. Qed.

Lemma plain_name_ok name : forallb (fun x => (0 <=? x) && (x <? 256)) name = true ->
  negb ((to_8_3 name).[0] =? 0) && negb ((to_8_3 name).[0] =? 229) = true -> storable name.
Proof. intros Hb Hf. b2p. split_and!; [by apply all_below|done..]. Qed.

Lemma create_then_find_witness :
  wp (r ← fat16_create 0 (Some notes_txt); f ← fat16_find 0 (Some notes_txt); mret (r, f))
     (fun '(r, f) s' => vol_ok s' /\
        ((r = Some 0 /\ f = Found (0, 0, 0)) \/ (r = None /\ f = NotFound /\ no_room demo_vol 0 []))) demo_vol.
Proof.
  assert (Hl : lookup_ref (to_8_3 notes_txt) (entries demo_vol 0 []) = NotFound) by by vm_compute.
  eapply wp_mono.
  - refine (create_then_find demo_vol 0 [] notes_txt demo_vol_ok _ eq_refl demo_root_tidy _ _).
    + vm_compute. constructor.
    + split_and!; [discriminate|by apply (bool_decide_unpack _)|simpl; lia].
    + by apply plain_name_ok.
  - intros [r f] s'. rewrite Hl. done.
Defined.

Lemma mkdir_then_enter_witness :
  wp (ok ← fat16_mkdir 0 (Some docs_name); r ← fat16_resolve_dir 0 (Some docs_name); mret (ok, r))
     (fun '(ok, r) s' => vol_ok s' /\
        if (ok : bool) then exists c l', r = (1, c) /\
          lowest_free (g_fat demo_vol) (g_total_clusters (g_geo demo_vol)) c /\ fresh_dir s' c 0 /\
          dir_at s' 0 l' /\ fat_on_disk (g_geo demo_vol) (g_fat s') (disk s') /\
          forall n, n <> to_8_3 docs_name ->
            lookup_ref n (entries s' 0 l') = lookup_ref n (entries demo_vol 0 [])
        else r = (0, 0) /\ g_fat s' = g_fat demo_vol /\
          entries s' 0 [] = entries demo_vol 0 []) demo_vol.
Proof.
  apply (mkdir_then_enter demo_vol 0 [] docs_name).
  - exact demo_vol_ok.
  - vm_compute. constructor.
  - reflexivity.
  - lia.
  - exact demo_root_tidy.
  - split_and!; [discriminate|by apply (bool_decide_unpack _)|simpl; lia].
  - by apply plain_name_ok.
  - by vm_compute.
Defined.

(** The volume after [mkdir docs]. *)
Definition docs_vol : volume simdisk :=
  match fat16_mkdir 0 (Some docs_name) demo_vol with Some (_, s) => s | None => demo_vol end.

Lemma get_path_in_bounds_witness :
  exists s', fat16_get_path 2 (replicate 128 7) (replicate 8 1) 8 docs_vol =
    Some ((5, [47; 68; 79; 67; 83; 0; 1; 1]), s') /\ 5 < zlen (replicate 8 1).
Proof.
  destruct (fat16_get_path 2 (replicate 128 7) (replicate 8 1) 8 docs_vol) as [[[r out'] s']|] eqn:E.
  2: { exfalso. vm_compute in E. discriminate. }
  assert (Er : r = 5 /\ out' = [47; 68; 79; 67; 83; 0; 1; 1])
    by (vm_compute in E; injection E as <- <- _; done).
  destruct Er as [-> ->]. exists s'. split; [done|].
  destruct (get_path_in_bounds docs_vol s' 2 5 (replicate 128 7) (replicate 8 1) _ eq_refl E)
    as [[? _]|(_ & Hb & _)]; [discriminate|exact Hb].
Defined.
