(* ===== verification/FatFile.v ===== *)
(** * FAT16 file contents

    The data half of [src/kernel/fs/fat16.c]: [fat16_write_file],
    [fat16_write_at] and [fat16_read_at]. *)

From Stdlib Require Import ZArith Lia.
From stdpp Require Import base tactics numbers list option sets.
From S2P Require Import Prelude FatName Fat FatDir.
Local Open Scope Z_scope.

(** The entry with a new first cluster and size. *)
Definition with_file (e : fat16_dirent) (first size : Z) : fat16_dirent := {|
  d_name := d_name e; d_ext := d_ext e; d_attr := d_attr e; d_reserved := d_reserved e;
  d_time := d_time e; d_date := d_date e; d_first_cluster := first; d_size := size |}.

Section file.
Context {D : Type} `{BlockDevice D}.
Local Notation M := (cM (volume D)).

(** Rewriting the two fields of the entry at [index] of [dir_buf]. *)
Definition set_entry (index first size : Z) : M () :=
  modify (fun s => set_dir_buf (put_slot (dir_buf s) index (with_file (slot_at (dir_buf s) index) first size)) s).

(** ** [fat16_write_file] *)

(** A sector of payload: the bytes of [buf] from [base], zeros behind [len]. *)
Definition payload (buf : list Z) (len base : Z) : list Z :=
  map (fun b => let pos := u32 (base + Z.of_nat b) in if pos <? len then buf.[pos] else 0) (seq 0 512).
Arguments payload : simpl never.

(** The loop over the sectors of one cluster. *)
Fixpoint write_sectors (buf : list Z) (len clba written sec : Z) (k : nat) : M bool :=
  match k with
  | O => mret true
  | S k' =>
      _ ← modify (set_sector_buf (payload buf len (u32 (written + sec * 512))));
      b ← gets sector_buf;
      ok ← block_write_sector (u32 (clba + sec)) b;
      if (ok : bool) then write_sectors buf len clba written (sec + 1) k' else mret false
  end.

(** The allocation loop: the first cluster of the new chain, or [None] for -1.
    Every round writes a cluster, at least 512 bytes. *)
Fixpoint write_clusters (fuel : nat) (buf : list Z) (len first_new prev written : Z) : M (option Z) :=
  if written <? len then
    match fuel with
    | O => undefined
    | S fuel' =>
        c ← fat16_alloc_cluster;
        if c =? 0 then mret None
        else
          _ ← (if prev =? 0 then mret () else fat_set prev (u16 c));
          _ ← fat_set c 65535;
          clba ← fat16_cluster_to_lba c;
          g ← gets g_geo;
          ok ← write_sectors buf len clba written 0 (Z.to_nat (g_sectors_per_cluster g));
          if negb ok then mret None
          else write_clusters fuel' buf len (if prev =? 0 then c else first_new) c
                 (written + Z.min (bytes_per_cluster g) (len - written))
    end
  else mret (Some first_new).

Definition fat16_write_file (parent_cluster : Z) (name buf : option (list Z)) (len : Z) : M bool :=
  ready ← gets g_ready;
  match name with
  | None => mret false
  | Some name =>
      if negb ready || (bool_decide (buf = None) && (0 <? len)) then mret false
      else
        r ← dir_lookup parent_cluster (to_8_3 name);
        match r with
        | Found (existing, lba, index) =>
            if has_attr existing ATTR_DIRECTORY then mret false
            else
              entry ← gets (fun s => slot_at (dir_buf s) index);
              _ ← fat16_free_chain (d_first_cluster entry);
              first ← write_clusters (S (Z.to_nat (len / 512))) (default [] buf) len 0 0 0;
              match first with
              | None => mret false
              | Some first_new =>
                  _ ← set_entry index (if len =? 0 then 0 else u16 first_new) len;
                  b ← gets dir_buf;
                  ok ← block_write_sector lba b;
                  if negb ok then mret false else fat16_flush_fat
              end
        | _ => mret false
        end
  end.

(** ** [fat16_write_at] *)

(** The cluster behind [cluster], allocating it when the chain ends there: its
    number and whether it is new; [None] when the disk is full. *)
Definition next_or_grow (cluster : Z) : M (option (Z * bool)) :=
  next ← fat_get cluster;
  if is_link next then mret (Some (next, false))
  else
    c ← fat16_alloc_cluster;
    if c =? 0 then mret None
    else _ ← fat_set cluster (u16 c); mret (Some (c, true)).

(** Cursor of the write: current cluster, whether the FAT changed, whether the
    current cluster is new. *)
Record cursor := Cursor { w_cluster : Z; w_dirty : bool; w_fresh : bool }.

(** Step 1, an existing chain: [target] clusters ahead. The flag of a failure says
    whether the FAT changed before it. *)
Fixpoint seek_write (target : nat) (w : cursor) : M (cursor + bool) :=
  match target with
  | O => mret (inl w)
  | S target' =>
      r ← next_or_grow (w_cluster w);
      match r with
      | None => mret (inr (w_dirty w))
      | Some (next, fresh) => seek_write target' (Cursor next (w_dirty w || fresh) fresh)
      end
  end.

(** One sector of step 2: [n] bytes of [buf] from [written] at offset [sec_off]. *)
Definition write_piece (lba sec_off n : Z) (fresh : bool) (buf : list Z) (written : Z) : M bool :=
  ready ← (if n <? 512 then
             if fresh then _ ← modify (set_sector_buf (replicate 512 0)); mret true
             else
               r ← block_read_sector lba;
               match r with
               | None => mret false
               | Some b => _ ← modify (set_sector_buf b); mret true
               end
           else mret true);
  if negb ready then mret false
  else
    _ ← modify (fun s => set_sector_buf
          (blit (sector_buf s) (Z.to_nat sec_off) (sub buf (Z.to_nat written) (Z.to_nat n))) s);
    b ← gets sector_buf;
    block_write_sector lba b.

(** Step 2: the bytes written when the loop ends, and the FAT flag.  Every round
    writes at least one byte. *)
Fixpoint write_pieces (fuel : nat) (buf : list Z) (len : Z) (w : cursor) (off written : Z) : M (Z * bool) :=
  if written <? len then
    match fuel with
    | O => undefined
    | S fuel' =>
        g ← gets g_geo;
        let sec_off := off mod 512 in
        let lba := u32 (cluster_lba g (w_cluster w) + off / 512) in
        let n := Z.min (512 - sec_off) (len - written) in
        ok ← write_piece lba sec_off n (w_fresh w) buf written;
        if negb ok then mret (written, w_dirty w)
        else
          let written := written + n in
          let off := off + n in
          if (bytes_per_cluster g <=? off) && (written <? len) then
            r ← next_or_grow (w_cluster w);
            match r with
            | None => mret (written, w_dirty w)
            | Some (next, fresh) =>
                write_pieces fuel' buf len (Cursor next (w_dirty w || fresh) fresh) 0 written
            end
          else write_pieces fuel' buf len w off written
    end
  else mret (written, w_dirty w).

(** Step 3: the FAT if it changed, then the entry if it changed. *)
Definition commit_write (parent_cluster : Z) (name83 : list Z) (existing : fat16_dirent)
    (pos first written : Z) (dirty : bool) : M (Z * Z * Z) :=
  let size := d_size existing in
  let new_size := Z.max size (u32 (pos + written)) in
  flushed ← (if dirty then fat16_flush_fat else mret true);
  if negb flushed then mret (-1, 0, 0)
  else
    committed ←
      (if negb (new_size =? size) || negb (first =? d_first_cluster existing) then
         r ← dir_lookup parent_cluster name83;
         match r with
         | Found (_, dlba, dindex) =>
             _ ← set_entry dindex (u16 first) new_size;
             b ← gets dir_buf;
             block_write_sector dlba b
         | _ => mret false
         end
       else mret true);
    if negb committed then mret (-1, 0, 0)
    else mret (if 0 <? written then written else -1, first, new_size).

(** The C result and the first cluster and size stored through the out
    parameters (when the call reaches them). *)
Definition fat16_write_at (parent_cluster : Z) (name : option (list Z)) (pos : Z)
    (buf : option (list Z)) (len : Z) : M (Z * Z * Z) :=
  ready ← gets g_ready;
  match name with
  | None => mret (-1, 0, 0)
  | Some name =>
      if negb ready || (bool_decide (buf = None) && (0 <? len)) then mret (-1, 0, 0)
      else
        r ← dir_lookup parent_cluster (to_8_3 name);
        match r with
        | Found (existing, _, _) =>
            let first := d_first_cluster existing in
            let size := d_size existing in
            if has_attr existing ATTR_DIRECTORY then mret (-1, 0, 0)
            else if size <? pos then mret (-1, 0, 0)
            else if 4294967295 - pos <? len then mret (-1, 0, 0)
            else if (first <? 2) && negb (pos =? 0) then mret (-1, 0, 0)
            else if len =? 0 then mret (0, first, size)
            else
              g ← gets g_geo;
              let bpc := bytes_per_cluster g in
              w ← (if first <? 2 then
                     c ← fat16_alloc_cluster;
                     mret (if c =? 0 then inr false else inl (Cursor c true true))
                   else seek_write (Z.to_nat (pos / bpc)) (Cursor first false false));
              match w with
              | inr dirty =>
                  _ ← (if (dirty : bool) then fat16_flush_fat else mret true);
                  mret (-1, 0, 0)
              | inl w =>
                  let first := if first <? 2 then w_cluster w else first in
                  r ← write_pieces (S (Z.to_nat len)) (default [] buf) len w (pos mod bpc) 0;
                  let '(written, dirty) := r in
                  commit_write parent_cluster (to_8_3 name) existing pos first written dirty
              end
        | _ => mret (-1, 0, 0)
        end
  end.

(** ** [fat16_read_at] *)

(** The loop to the cluster of byte [pos]; [None] when the chain ends before. *)
Fixpoint seek_read (target : nat) (cluster : Z) : M (option Z) :=
  match target with
  | O => mret (Some cluster)
  | S target' =>
      next ← fat16_next_cluster cluster;
      if 65528 <=? next then mret None else seek_read target' next
  end.

(** The loop over the sectors of a cluster; [acc] are the bytes stored so far.
    The flag is [false] when a read failed. *)
Fixpoint read_sectors (lba sec_idx sec_off len : Z) (k : nat) (acc : list Z) : M (list Z * bool) :=
  match k with
  | O => mret (acc, true)
  | S k' =>
      if zlen acc <? len then
        r ← block_read_sector (u32 (lba + sec_idx));
        match r with
        | None => mret (acc, false)
        | Some b =>
            _ ← modify (set_sector_buf b);
            let copy := Z.min (len - zlen acc) (512 - sec_off) in
            read_sectors lba (sec_idx + 1) 0 len k' (acc ++ sub b (Z.to_nat sec_off) (Z.to_nat copy))
        end
      else mret (acc, true)
  end.

(** The loop over the clusters; every round reads at least one byte. *)
Fixpoint read_clusters (fuel : nat) (cluster cluster_off len : Z) (acc : list Z) : M (list Z) :=
  if (zlen acc <? len) && (cluster <? 65528) then
    match fuel with
    | O => undefined
    | S fuel' =>
        g ← gets g_geo;
        r ← read_sectors (cluster_lba g cluster) (cluster_off / 512) (cluster_off mod 512) len
              (Z.to_nat (g_sectors_per_cluster g - cluster_off / 512)) acc;
        let '(acc, ok) := r in
        if negb ok then mret acc
        else if zlen acc <? len
             then next ← fat16_next_cluster cluster; read_clusters fuel' next 0 len acc
             else mret acc
    end
  else mret acc.

(** The C result and the bytes stored in [buf]. *)
Definition fat16_read_at (first_cluster pos : Z) (len file_size : Z) : M (Z * list Z) :=
  ready ← gets g_ready;
  if negb ready || (len =? 0) then mret (-1, [])
  else if file_size <=? pos then mret (0, [])
  else
    let len := if file_size <? u32 (pos + len) then file_size - pos else len in
    g ← gets g_geo;
    let bpc := bytes_per_cluster g in
    c ← seek_read (Z.to_nat (pos / bpc)) first_cluster;
    match c with
    | None => mret (0, [])
    | Some cluster =>
        acc ← read_clusters (S (Z.to_nat len)) cluster (pos mod bpc) len [];
        mret (zlen acc, acc)
    end.

(** ** The bytes of a file *)

(** The sectors of the clusters [l], and what they hold. *)
Definition file_lbas (g : geometry) (l : list Z) : list Z := concat (map (fun c => lbas_from g c 0) l).

Definition bytes_at (d : D) (lbas : list Z) : list Z := concat (map (bd_data d) lbas).

Definition file_bytes (g : geometry) (d : D) (l : list Z) : list Z := bytes_at d (file_lbas g l).

Lemma bytes_at_app d l1 l2 : bytes_at d (l1 ++ l2) = bytes_at d l1 ++ bytes_at d l2.
Proof. unfold bytes_at. by rewrite map_app, concat_app. Qed.

Lemma bytes_at_length d lbas : length (bytes_at d lbas) = (512 * length lbas)%nat.
Proof.
  unfold bytes_at. induction lbas as [|x l IH]; [done|]. cbn [map concat length].
  destruct (bd_data_sector d x) as [E _]. rewrite length_app, IH. unfold sector in E. lia.
Qed.

Lemma bytes_at_same d d' lbas : (forall x, x ∈ lbas -> bd_data d' x = bd_data d x) ->
  bytes_at d' lbas = bytes_at d lbas.
Proof. intros E. unfold bytes_at. f_equal. apply map_ext_in. intros x Hx%list_elem_of_In. by apply E. Qed.

Lemma file_lbas_length g l : length (file_lbas g l) = (Z.to_nat (g_sectors_per_cluster g) * length l)%nat.
Proof.
  unfold file_lbas. induction l as [|c l IH]; simpl; [lia|].
  rewrite length_app, IH, lbas_from_length. lia.
Qed.

Lemma lbas_from_drop g c k : (k <= Z.to_nat (g_sectors_per_cluster g))%nat ->
  drop k (lbas_from g c 0) = lbas_from g c (Z.of_nat k).
Proof.
  induction k as [|k IH]; intros Hk; [done|].
  replace (S k) with (k + 1)%nat at 1 by lia. rewrite <- drop_drop, IH by lia.
  rewrite lbas_from_cons by lia. cbn [drop]. rewrite drop_0. f_equal. lia.
Qed.

(** Dropping a whole number of sectors. *)
Lemma bytes_at_drop d lbas k off : (k <= length lbas)%nat ->
  drop (512 * k + off) (bytes_at d lbas) = drop off (bytes_at d (drop k lbas)).
Proof.
  intros Hk. rewrite <- (take_drop k lbas) at 1. rewrite bytes_at_app, <- drop_drop.
  rewrite drop_app_length'; [done|]. rewrite bytes_at_length, length_take. lia.
Qed.

Lemma take_split {A} (l1 l2 : list A) n : take n (l1 ++ l2) = take n l1 ++ take (n - length l1) l2.
Proof. apply take_app. Qed.

(** *** Reading the sectors of a cluster *)

(** [out] is what a read of [want] should give, or a prefix of it if the device
    failed; nothing on the disk changed. *)
Definition read_gives (s : volume D) (want out : list Z) (s' : volume D) : Prop :=
  exists d b, s' = set_sector_buf b (set_disk d s) /\ sector b /\ Forall byte b /\
    same_disk nowhere (disk s) d /\ out `prefix_of` want /\
    (bd_healthy (disk s) -> bd_healthy d /\ out = want).

Lemma read_nothing s acc : vol_ok s -> read_gives s acc acc s.
Proof.
  intros Hs. exists (disk s), (sector_buf s). destruct (vo_bufs s Hs) as (B1 & B2 & _).
  split_and!; [by destruct s|done..].
Qed.

Lemma read_gives_trans s d b want out s' : same_disk nowhere (disk s) d ->
  (bd_healthy (disk s) -> bd_healthy d) ->
  read_gives (set_sector_buf b (set_disk d s)) want out s' -> read_gives s want out s'.
Proof.
  intros S1 G1 (d2 & b2 & -> & B1 & B2 & S2 & P & G). exists d2, b2.
  split_and!; [by destruct s|done|done| |done|].
  - eapply same_disk_trans; [exact S1|exact S2|tauto].
  - intros Gh. by apply G, G1.
Qed.

(** One sector's share of a read. *)
Lemma read_step (acc b rest : list Z) sec_off len : sector b -> 0 <= sec_off < 512 -> zlen acc <= len ->
  let acc' := acc ++ sub b (Z.to_nat sec_off) (Z.to_nat (Z.min (len - zlen acc) (512 - sec_off))) in
  zlen acc' = zlen acc + Z.min (len - zlen acc) (512 - sec_off) /\
  acc ++ take (Z.to_nat (len - zlen acc)) (drop (Z.to_nat sec_off) (b ++ rest)) =
  acc' ++ take (Z.to_nat (len - zlen acc')) rest.
Proof.
  intros Hb Ho Ha acc'. unfold sector in Hb.
  assert (La : zlen acc' = zlen acc + Z.min (len - zlen acc) (512 - sec_off)).
  { unfold acc', zlen in *. rewrite length_app, sub_length; lia. }
  split; [done|]. unfold acc' at 1, sub. rewrite <- app_assoc. f_equal.
  rewrite drop_app_le, take_app by lia. rewrite length_drop, Hb.
  unfold zlen in *. destruct (Z.le_gt_cases (len - Z.of_nat (length acc)) (512 - sec_off)) as [Hle|Hgt].
  - rewrite Z.min_l by lia. f_equal. rewrite La.
    replace (Z.to_nat (len - Z.of_nat (length acc)) - (512 - Z.to_nat sec_off))%nat with 0%nat by lia.
    replace (Z.to_nat (len - _)) with 0%nat by lia. done.
  - rewrite Z.min_r by lia. f_equal.
    + rewrite !firstn_all2; [done|rewrite length_drop; lia..].
    + rewrite La. f_equal. lia.
Qed.

Lemma read_sectors_spec k s c sec sec_off len acc : vol_ok s -> 2 <= c < g_total_clusters (g_geo s) ->
  0 <= sec -> sec + Z.of_nat k = g_sectors_per_cluster (g_geo s) -> 0 <= sec_off < 512 -> zlen acc <= len ->
  let want := acc ++ take (Z.to_nat (len - zlen acc))
    (drop (Z.to_nat sec_off) (bytes_at (disk s) (lbas_from (g_geo s) c sec))) in
  wp (read_sectors (cluster_lba (g_geo s) c) sec sec_off len k acc) (fun '(out, ok) s' =>
    read_gives s want out s' /\ (ok = true -> out = want) /\ (bd_healthy (disk s) -> ok = true)) s.
Proof.
  revert s sec sec_off acc; induction k as [|k IH]; intros s sec sec_off acc Hs Hc H0 Hk Ho Ha want.
  - apply wp_ret. assert (want = acc) as ->.
    { unfold want. replace sec with (g_sectors_per_cluster (g_geo s)) by lia. rewrite lbas_from_end.
      unfold bytes_at. simpl. by rewrite drop_nil, take_nil, app_nil_r. }
    split_and!; [by apply read_nothing|done|done].
  - cbn [read_sectors]. destruct (Z.ltb_spec (zlen acc) len) as [Hlt|Hge].
    2: { apply wp_ret. assert (want = acc) as ->.
         { unfold want. replace (Z.to_nat (len - zlen acc)) with 0%nat by lia. by rewrite take_0, app_nil_r. }
         split_and!; [by apply read_nothing|done|done]. }
    destruct (cluster_lba_eq s c sec Hs Hc) as (_ & C1 & C2); [lia|].
    destruct (regions s Hs) as (R1 & R2 & R3 & R4). rewrite u32_small by lia.
    apply wp_bind, wp_read. intros r d1 Hr S1 G1. destruct Hr as [->| ->].
    { apply wp_ret. split_and!; [|done|intros G; destruct (G1 G); [lia|done]].
      exists d1, (sector_buf s). destruct (vo_bufs s Hs) as (B1 & B2 & _).
      split_and!; [by destruct s|done|done|done|by eexists|]. intros G. destruct (G1 G); [lia|done]. }
    apply wp_bind, wp_modify. destruct (bd_data_sector (disk s) (cluster_lba (g_geo s) c + sec)) as [B1 B2].
    unfold want. rewrite lbas_from_cons by lia. unfold bytes_at. cbn [map concat].
    fold (bytes_at (disk s) (lbas_from (g_geo s) c (sec + 1))).
    set (b := bd_data (disk s) (cluster_lba (g_geo s) c + sec)) in *.
    destruct (read_step acc b (bytes_at (disk s) (lbas_from (g_geo s) c (sec + 1))) sec_off len B1 Ho Ha) as [La ->].
    set (acc' := acc ++ sub b _ _) in *.
    assert (V1 : vol_ok (set_sector_buf b (set_disk d1 s))).
    { apply vol_ok_set_sector_buf; [apply vol_ok_set_disk; [done|apply S1]|done..]. }
    eapply wp_mono; [apply (IH _ (sec + 1) 0 acc' V1); simpl; (done || lia)|].
    cbn [disk g_geo set_sector_buf set_disk]. change (Z.to_nat 0) with 0%nat. rewrite drop_0.
    rewrite (bytes_at_same (disk s) d1) by (intros; apply S1; tauto).
    intros [out ok] s' (Hg & Hok & Hh). split_and!; [|done|].
    + eapply read_gives_trans; [exact S1| |exact Hg]. intros G. apply G1; [done|lia].
    + intros G. apply Hh, G1; [done|lia].
Qed.

(** *** Reading along a chain *)

Lemma bpc_eq s : vol_ok s -> bytes_per_cluster (g_geo s) = 512 * g_sectors_per_cluster (g_geo s).
Proof. intros Hs. unfold bytes_per_cluster. pose proof (vo_spc s Hs). rewrite u32_small; lia. Qed.

Lemma file_bytes_length s d l : vol_ok s ->
  zlen (file_bytes (g_geo s) d l) = bytes_per_cluster (g_geo s) * zlen l.
Proof.
  intros Hs. unfold file_bytes, zlen. rewrite bytes_at_length, file_lbas_length, (bpc_eq s) by done.
  pose proof (vo_spc s Hs). lia.
Qed.

Lemma file_bytes_cons g d c l :
  file_bytes g d (c :: l) = bytes_at d (lbas_from g c 0) ++ file_bytes g d l.
Proof. unfold file_bytes, file_lbas. cbn [map concat]. apply bytes_at_app. Qed.

Lemma cluster_drop s d c off : vol_ok s -> 0 <= off < bytes_per_cluster (g_geo s) ->
  drop (Z.to_nat off) (bytes_at d (lbas_from (g_geo s) c 0)) =
  drop (Z.to_nat (off mod 512)) (bytes_at d (lbas_from (g_geo s) c (off / 512))).
Proof.
  intros Hs Ho. rewrite (bpc_eq s Hs) in Ho. pose proof (vo_spc s Hs) as K.
  pose proof (Z.div_mod off 512). pose proof (Z.mod_pos_bound off 512).
  assert (0 <= off / 512 < g_sectors_per_cluster (g_geo s)) by lia.
  replace (Z.to_nat off) with (512 * Z.to_nat (off / 512) + Z.to_nat (off mod 512))%nat by lia.
  rewrite bytes_at_drop by (rewrite lbas_from_length; lia).
  rewrite lbas_from_drop by lia. by rewrite Z2Nat.id by lia.
Qed.

Lemma wp_next_cluster (s : volume D) c Q : 2 <= c < zlen (g_fat s) -> Q (g_fat s).[c] s ->
  wp (fat16_next_cluster c) Q s.
Proof.
  intros Hc HQ. unfold fat16_next_cluster. apply wp_bind, wp_gets.
  rewrite (proj2 (Z.eqb_neq (zlen (g_fat s)) 0)), (proj2 (Z.ltb_ge c 2)) by lia. cbn [orb].
  apply wp_fat_get; [lia|done].
Qed.

(** A read of [want] split after the part that one cluster holds. *)
Lemma read_split (acc x rest : list Z) n : (n <= length x + length rest)%nat ->
  acc ++ take n (x ++ rest) = (acc ++ take n x) ++ take (n - length x) rest /\
  length (acc ++ take n x) = (length acc + Nat.min n (length x))%nat.
Proof. intros Hn. rewrite take_app, app_assoc, length_app, length_take. done. Qed.

Lemma read_clusters_spec fuel s c l off len acc : vol_ok s -> file_at (g_geo s) (g_fat s) c (c :: l) ->
  0 <= off < bytes_per_cluster (g_geo s) -> zlen acc <= len ->
  len - zlen acc <= bytes_per_cluster (g_geo s) * zlen (c :: l) - off ->
  (len - zlen acc < Z.of_nat fuel) ->
  wp (read_clusters fuel c off len acc) (fun out s' =>
    read_gives s (acc ++ take (Z.to_nat (len - zlen acc))
                    (drop (Z.to_nat off) (file_bytes (g_geo s) (disk s) (c :: l)))) out s') s.
Proof.
  revert s c l off acc; induction fuel as [|fuel IH]; intros s c l off acc Hs Hf Ho Ha Hroom Hfuel; [lia|].
  cbn [read_clusters]. destruct (Z.ltb_spec (zlen acc) len) as [Hlt|Hge]; cbn [andb].
  2: { apply wp_ret. replace (Z.to_nat (len - zlen acc)) with 0%nat by lia. rewrite take_0, app_nil_r.
       by apply read_nothing. }
  pose proof (file_at_range s c _ Hf) as R. apply Forall_cons in R as [Rc Rl].
  pose proof (vo_marks s Hs) as B. pose proof (vo_total s Hs) as T. pose proof (bpc_eq s Hs) as Eb.
  rewrite (proj2 (Z.ltb_lt c 65528)) by lia. apply wp_bind, wp_gets. apply wp_bind.
  pose proof (Z.div_mod off 512). pose proof (Z.mod_pos_bound off 512).
  eapply wp_mono; [apply read_sectors_spec; try done; lia|].
  rewrite <- cluster_drop by done. rewrite file_bytes_cons.
  set (n := Z.to_nat (len - zlen acc)) in *. set (fb := file_bytes (g_geo s) (disk s) l).
  assert (Lcb : length (bytes_at (disk s) (lbas_from (g_geo s) c 0)) = Z.to_nat (bytes_per_cluster (g_geo s)))
    by (rewrite bytes_at_length, lbas_from_length; lia).
  rewrite drop_app_le by lia. set (x := drop (Z.to_nat off) _).
  assert (Lx : length x = Z.to_nat (bytes_per_cluster (g_geo s) - off)) by (unfold x; rewrite length_drop; lia).
  assert (Lf : zlen fb = bytes_per_cluster (g_geo s) * zlen l) by by apply file_bytes_length.
  destruct (read_split acc x fb n) as [Ew El]; [unfold zlen in *; simpl in Hroom; lia|]. rewrite Ew.
  intros [out ok] s1 ((d1 & b1 & -> & B1 & B2 & S1 & P1 & G1) & Hok & Hh).
  assert (Hdone : out = acc ++ take n x -> (n <= length x)%nat ->
    read_gives s ((acc ++ take n x) ++ take (n - length x) fb) out (set_sector_buf b1 (set_disk d1 s))).
  { intros -> Hn. replace (n - length x)%nat with 0%nat by lia. rewrite take_0, app_nil_r.
    exists d1, b1. by split_and!. }
  destruct ok; cbn [negb].
  2: { apply wp_ret. exists d1, b1. split_and!; try done; [by apply prefix_app_r|].
       intros G. by specialize (Hh G). }
  specialize (Hok eq_refl). subst out.
  destruct (Z.ltb_spec (zlen (acc ++ take n x)) len) as [Hmore|Hend].
  2: { apply wp_ret, Hdone; [done|]. unfold zlen in *. lia. }
  destruct l as [|c' l]; [unfold zlen in *; simpl in *; lia|].
  pose proof Hf as [(_ & _ & _ & C) F]. pose proof C as [Ec _]. apply Forall_cons in F as [_ F].
  apply wp_bind, wp_next_cluster; [simpl; lia|]. cbn [g_fat set_sector_buf set_disk]. rewrite Ec.
  assert (V1 : vol_ok (set_sector_buf b1 (set_disk d1 s))).
  { apply vol_ok_set_sector_buf; [apply vol_ok_set_disk; [done|apply S1]|done..]. }
  eapply wp_mono; [apply (IH _ c' l 0 (acc ++ take n x) V1)|]; cbn [g_geo g_fat disk set_sector_buf set_disk].
  - rewrite Ec in C. by split.
  - lia.
  - lia.
  - unfold zlen in *. simpl length in *. lia.
  - unfold zlen in *. lia.
  - change (Z.to_nat 0) with 0%nat. rewrite drop_0.
    replace (Z.to_nat (len - zlen (acc ++ take n x))) with (n - length x)%nat by (unfold zlen in *; lia).
    unfold fb, file_bytes. rewrite (bytes_at_same (disk s) d1) by (intros; apply S1; tauto).
    intros out s' Hg. eapply read_gives_trans; [exact S1| |exact Hg]. intros G. by destruct (G1 G).
Qed.

Lemma seek_read_spec target s c l : vol_ok s -> file_at (g_geo s) (g_fat s) c l -> (target < length l)%nat ->
  exists c' l', drop target l = c' :: l' /\ file_at (g_geo s) (g_fat s) c' (c' :: l') /\
    seek_read target c s = Some (Some c', s).
Proof.
  intros Hs. revert c l; induction target as [|target IH]; intros c l Hf Hl.
  - destruct l as [|x l]; [simpl in Hl; lia|]. pose proof Hf as [[-> _] _]. exists x, l. done.
  - destruct l as [|x l]; [simpl in Hl; lia|]. pose proof (file_at_range s c _ Hf) as R.
    apply Forall_cons in R as [Rc Rl]. destruct Hf as [(-> & _ & _ & C) F]. apply Forall_cons in F as [_ F].
    destruct l as [|y l]; [simpl in Hl; lia|]. pose proof C as [Ey _]. apply Forall_cons in Rl as [Ry _].
    destruct (IH y (y :: l)) as (c' & l' & E1 & E2 & E3).
    { rewrite Ey in C. by split. } { simpl in *. lia. }
    exists c', l'. split_and!; [done|done|]. cbn [seek_read].
    pose proof (vo_marks s Hs). pose proof (vo_total s Hs).
    unfold mbind, cM_bind. pose proof (wp_next_cluster s x (fun r s' => r = (g_fat s).[x] /\ s' = s)) as W.
    apply wp_run in W as (r & s' & -> & -> & ->); [|lia|done]. rewrite Ey.
    rewrite (proj2 (Z.leb_gt _ _)) by lia. done.
Qed.

Lemma file_bytes_drop s d l k off : vol_ok s -> (k <= length l)%nat -> 0 <= off ->
  drop (Z.to_nat (bytes_per_cluster (g_geo s) * Z.of_nat k + off)) (file_bytes (g_geo s) d l) =
  drop (Z.to_nat off) (file_bytes (g_geo s) d (drop k l)).
Proof.
  intros Hs Hk Ho. rewrite <- (take_drop k l) at 1. unfold file_bytes at 1, file_lbas.
  rewrite map_app, concat_app, bytes_at_app.
  fold (file_lbas (g_geo s) (take k l)) (file_lbas (g_geo s) (drop k l)).
  fold (file_bytes (g_geo s) d (take k l)) (file_bytes (g_geo s) d (drop k l)).
  pose proof (file_bytes_length s d (take k l) Hs) as L. unfold zlen in L. rewrite length_take in L.
  pose proof (bpc_eq s Hs). pose proof (vo_spc s Hs).
  replace (Z.to_nat (bytes_per_cluster (g_geo s) * Z.of_nat k + off))
    with (length (file_bytes (g_geo s) d (take k l)) + Z.to_nat off)%nat by nia.
  by rewrite drop_app_add.
Qed.

(** What a read of [len] bytes at [pos] should give. *)
Definition file_range (bytes : list Z) (pos len size : Z) : list Z :=
  take (Z.to_nat len) (drop (Z.to_nat pos) (take (Z.to_nat size) bytes)).

Lemma read_at_spec s first l pos len size : vol_ok s -> file_at (g_geo s) (g_fat s) first l ->
  0 <= pos -> 0 < len -> pos + len < 2 ^ 32 -> 0 <= size <= bytes_per_cluster (g_geo s) * zlen l ->
  wp (fat16_read_at first pos len size) (fun '(r, out) s' =>
    r = zlen out /\ read_gives s (file_range (file_bytes (g_geo s) (disk s) l) pos len size) out s') s.
Proof.
  intros Hs Hf Hp Hl Hpl Hz. unfold fat16_read_at. apply wp_bind, wp_gets. rewrite (vo_ready s Hs).
  rewrite (proj2 (Z.eqb_neq len 0)) by lia. cbn [negb orb]. set (B := file_bytes (g_geo s) (disk s) l).
  pose proof (file_bytes_length s (disk s) l Hs) as LB. fold B in LB.
  destruct (Z.leb_spec size pos) as [Hge|Hlt].
  { apply wp_ret. split; [done|]. unfold file_range. rewrite drop_ge by (rewrite length_take; unfold zlen in *; lia).
    rewrite take_nil. by apply read_nothing. }
  rewrite u32_small by lia. set (len' := if size <? pos + len then size - pos else len).
  assert (El : len' = Z.min len (size - pos)) by (unfold len'; case_if; lia).
  pose proof (bpc_eq s Hs) as Eb. pose proof (vo_spc s Hs) as K. apply wp_bind, wp_gets. apply wp_bind.
  set (bpc := bytes_per_cluster (g_geo s)) in *.
  pose proof (Z.div_mod pos bpc) as Dm. pose proof (Z.mod_pos_bound pos bpc) as Db.
  assert (Ht : 0 <= pos / bpc < zlen l) by (unfold zlen in *; split; [apply Z.div_pos|apply Z.div_lt_upper_bound]; lia).
  destruct (seek_read_spec (Z.to_nat (pos / bpc)) s first l Hs Hf) as (c & l' & Ed & Hf' & Er);
    [unfold zlen in *; lia|].
  eapply wp_of_run; [exact Er|]. apply wp_bind.
  pose proof (f_equal length Ed) as Ld. rewrite length_drop in Ld.
  eapply wp_mono; [apply (read_clusters_spec _ s c l'); try done; try (unfold zlen; simpl; lia)|].
  - fold bpc. specialize (Dm ltac:(lia)).
    assert (zlen (c :: l') = zlen l - pos / bpc) as -> by (unfold zlen in *; lia).
    rewrite Z.mul_sub_distr_l. change (zlen (@nil Z)) with 0. lia.
  - intros out s' Hg. apply wp_ret. split; [done|].
    replace (file_range B pos len size) with
      ([] ++ take (Z.to_nat (len' - zlen (@nil Z))) (drop (Z.to_nat (pos mod bpc)) (file_bytes (g_geo s) (disk s) (c :: l'))));
      [done|].
    rewrite <- Ed, <- (file_bytes_drop s (disk s) l (Z.to_nat (pos / bpc)) (pos mod bpc) Hs) by (unfold zlen in *; lia).
    fold bpc B. rewrite Z2Nat.id by lia. rewrite <- Dm by lia. unfold file_range, zlen. cbn [app length].
    replace (Z.to_nat size) with (Z.to_nat pos + Z.to_nat (size - pos))%nat by lia.
    rewrite <- take_drop_commute, take_take. f_equal. lia.
Qed.

(** ** Writing *)

(** The first [n] bytes of [l], with zeros behind its end. *)
Definition zpad (l : list Z) (n : nat) : list Z := map (fun i => default 0 (l !! i)) (seq 0 n).
Arguments zpad : simpl never.

Lemma zpad_length l n : length (zpad l n) = n.
Proof. unfold zpad. by rewrite length_map, length_seq. Qed.

Lemma zpad_add l a b : zpad l (a + b) = zpad l a ++ zpad (drop a l) b.
Proof.
  unfold zpad. rewrite seq_app, map_app. f_equal. rewrite Nat.add_0_l.
  pose proof (fmap_add_seq a 0 b) as E. rewrite Nat.add_0_r in E. rewrite <- E.
  change (Nat.add a <$> seq 0 b) with (map (Nat.add a) (seq 0 b)).
  rewrite map_map. apply map_ext. intros i. by rewrite lookup_drop.
Qed.

Lemma zpad_take l n : (length l <= n)%nat -> take (length l) (zpad l n) = l.
Proof.
  intros Hn. replace n with (length l + (n - length l))%nat by lia. rewrite zpad_add, take_app_length' by (by rewrite zpad_length).
  unfold zpad. apply list_eq. intros i. change (map ?f ?x) with (f <$> x). rewrite list_lookup_fmap.
  destruct (decide (i < length l)%nat) as [Hi|Hi].
  - rewrite lookup_seq_lt by done. simpl. apply lookup_lt_is_Some_2 in Hi as [v ->]. done.
  - rewrite lookup_seq_ge by lia. simpl. symmetry. apply lookup_ge_None_2. lia.
Qed.

Lemma payload_zpad buf base : 0 <= base -> base + 512 < 2 ^ 32 ->
  payload buf (zlen buf) base = zpad (drop (Z.to_nat base) buf) 512.
Proof.
  intros H0 H1. unfold payload, zpad. apply map_ext_in. intros i Hi%in_seq. rewrite u32_small by lia.
  rewrite lookup_drop. replace (Z.to_nat base + i)%nat with (Z.to_nat (base + Z.of_nat i)) by lia.
  unfold zget, zlen. destruct (Z.ltb_spec (base + Z.of_nat i) (Z.of_nat (length buf))) as [Hlt|Hge].
  - rewrite list_lookup_total_alt. destruct (lookup_lt_is_Some_2 buf (Z.to_nat (base + Z.of_nat i))) as [v ->]; [lia|done].
  - rewrite lookup_ge_None_2; [done|lia].
Qed.

Lemma zpad_bytes l n : Forall byte l -> Forall byte (zpad l n).
Proof.
  intros Hl. unfold zpad. rewrite Forall_map, Forall_forall. intros i _.
  destruct (l !! i) as [v|] eqn:E; simpl; [|unfold byte; lia]. by apply (Forall_lookup_1 _ _ _ _ Hl E).
Qed.

Lemma write_sectors_spec k s c buf written sec : vol_ok s -> 2 <= c < g_total_clusters (g_geo s) ->
  Forall byte buf -> 0 <= written -> written + bytes_per_cluster (g_geo s) < 2 ^ 32 ->
  0 <= sec -> sec + Z.of_nat k = g_sectors_per_cluster (g_geo s) ->
  wp (write_sectors buf (zlen buf) (cluster_lba (g_geo s) c) written sec k) (fun ok s' => exists d b,
    s' = set_sector_buf b (set_disk d s) /\ sector b /\ Forall byte b /\
    same_disk (fun x => cluster_lba (g_geo s) c + sec <= x < cluster_lba (g_geo s) c + g_sectors_per_cluster (g_geo s))
      (disk s) d /\
    (ok = true -> bytes_at d (lbas_from (g_geo s) c sec) =
       zpad (drop (Z.to_nat (written + 512 * sec)) buf) (512 * k)) /\
    (bd_healthy (disk s) -> ok = true /\ bd_healthy d)) s.
Proof.
  revert s sec; induction k as [|k IH]; intros s sec Hs Hc Hb Hw Hwb H0 Hk.
  - apply wp_ret. destruct (vo_bufs s Hs) as (B1 & B2 & _). exists (disk s), (sector_buf s).
    split_and!; [by destruct s|done..| |done]. intros _.
    replace sec with (g_sectors_per_cluster (g_geo s)) by lia. by rewrite lbas_from_end.
  - cbn [write_sectors]. rewrite (bpc_eq s Hs) in Hwb.
    destruct (cluster_lba_eq s c sec Hs Hc) as (_ & C1 & C2); [lia|].
    destruct (regions s Hs) as (R1 & R2 & R3 & R4). rewrite (u32_small (written + _)) by lia.
    replace (written + sec * 512) with (written + 512 * sec) by lia. rewrite payload_zpad by lia.
    set (b := zpad (drop (Z.to_nat (written + 512 * sec)) buf) 512).
    assert (B1 : sector b) by apply zpad_length. assert (B2 : Forall byte b) by (apply zpad_bytes; by apply Forall_drop).
    apply wp_bind, wp_modify. apply wp_bind, wp_gets. apply wp_bind. rewrite u32_small by lia.
    apply wp_write; [done..|]. cbn [disk set_sector_buf]. intros ok d1 S1 W1 G1. destruct ok.
    2: { apply wp_ret. exists d1, b. split_and!; [done|done|done| |done|].
         - eapply same_disk_mono; [|exact S1]. cbv beta. lia.
         - intros G. destruct (G1 G); [lia|done]. }
    assert (V1 : vol_ok (set_disk d1 (set_sector_buf b s))).
    { apply vol_ok_set_disk; [by apply vol_ok_set_sector_buf|apply S1]. }
    eapply wp_mono; [apply (IH _ (sec + 1) V1); simpl; rewrite ?(bpc_eq s Hs); (done || lia)|].
    cbn [disk g_geo set_disk set_sector_buf]. intros ok s' (d2 & b2 & -> & B3 & B4 & S2 & W2 & G2).
    exists d2, b2. split_and!; [done|done|done| | |].
    + eapply same_disk_trans; [exact S1|exact S2|]. cbv beta. lia.
    + intros Hok. rewrite lbas_from_cons by lia. unfold bytes_at. cbn [map concat].
      fold (bytes_at d2 (lbas_from (g_geo s) c (sec + 1))). rewrite W2 by done.
      destruct S2 as [_ O2]. rewrite O2, W1 by (done || lia). unfold b.
      replace (512 * S k)%nat with (512 + 512 * k)%nat by lia. rewrite zpad_add. f_equal.
      rewrite drop_drop. do 2 f_equal. lia.
    + intros G. apply G2, G1; [done|lia].
Qed.

(** *** Building a chain *)

(** The table after cluster [c] was allocated and linked behind [prev], 0 for none. *)
Definition link_after (t : list Z) (prev c : Z) : list Z :=
  (if prev =? 0 then t.[c := 65535] else t.[c := 65535].[prev := u16 c]).[c := 65535].

Lemma file_at_single s c : vol_ok s -> lowest_free (g_fat s) (g_total_clusters (g_geo s)) c ->
  file_at (g_geo s) (g_fat s).[c := 65535].[c := 65535] c [c].
Proof.
  intros Hs (Hc & _). pose proof (vo_marks s Hs) as B. pose proof (vo_total s Hs) as T.
  assert (E : (g_fat s).[c := 65535].[c := 65535].[c] = 65535) by (apply zget_set_eq; rewrite zset_len; lia).
  unfold file_at. cbn [chain]. rewrite E, !zset_len. split_and!; [done|apply is_link_spec; lia|lia|done|].
  constructor; [|done]. rewrite E. lia.
Qed.

Lemma last_in (l : list Z) : l <> [] -> List.last l 0 ∈ l.
Proof. intros Hl. destruct (exists_last Hl) as (l0 & x & ->). rewrite last_last. set_solver. Qed.

Lemma extend_chain s first lc c : vol_ok s -> file_at (g_geo s) (g_fat s) first lc ->
  lowest_free (g_fat s) (g_total_clusters (g_geo s)) c ->
  let prev := List.last lc 0 in
  (prev = 0 <-> lc = []) /\ (prev <> 0 -> 2 <= prev < g_total_clusters (g_geo s)) /\
  file_at (g_geo s) (link_after (g_fat s) prev c) (if prev =? 0 then c else first) (lc ++ [c]) /\
  length (link_after (g_fat s) prev c) = length (g_fat s) /\
  Forall (fun e => 0 <= e < 65536) (link_after (g_fat s) prev c) /\
  (forall x, 0 <= x -> x <> c -> x ∉ lc -> (link_after (g_fat s) prev c).[x] = (g_fat s).[x]).
Proof.
  intros Hs Hf Hlow prev. pose proof (file_at_range s first lc Hf) as R. pose proof Hlow as (Hc & Hz & _).
  assert (W : Forall (fun e => 0 <= e < 65536) (link_after (g_fat s) prev c)).
  { unfold link_after. apply zset_forall; [|lia]. destruct (prev =? 0); repeat apply zset_forall;
      try lia; try apply (vo_words s Hs). by apply Z.mod_pos_bound. }
  assert (L : length (link_after (g_fat s) prev c) = length (g_fat s)).
  { unfold link_after. rewrite zset_length. destruct (prev =? 0); by rewrite !zset_length. }
  destruct lc as [|y lc].
  - simpl in prev. subst prev. unfold link_after in *. simpl. split_and!; try done.
    + by apply file_at_single.
    + intros x Hx Hne _. by rewrite !zget_set_ne by lia.
  - assert (Hp : 2 <= prev < g_total_clusters (g_geo s)).
    { rewrite Forall_forall in R. apply R, last_in. done. }
    unfold link_after in *. rewrite (proj2 (Z.eqb_neq prev 0)) in * by lia.
    split_and!; try done; try lia; [split; [lia|done]| |].
    + apply (grow_chain s first (y :: lc) c); done.
    + intros x Hx Hne Hn. assert (x <> prev) by (intros ->; by apply Hn, last_in).
      by rewrite !zget_set_ne by lia.
Qed.

(** What the loop of [fat16_write_file] did: the clusters [lnew] were free, they
    continue the chain [lc] and hold the rest of the data, nothing else changed. *)
Definition written_chain (s : volume D) (lc : list Z) (buf : list Z) (written : Z)
    (r : option Z) (s' : volume D) : Prop :=
  exists lnew t d b, s' = set_sector_buf b (set_disk d (set_fat t s)) /\ vol_ok s' /\
    NoDup lnew /\ Forall (fun c => 2 <= c < g_total_clusters (g_geo s) /\ (g_fat s).[c] = 0) lnew /\
    (forall x, 0 <= x -> x ∉ lc -> x ∉ lnew -> t.[x] = (g_fat s).[x]) /\
    same_disk (fun lba => exists c, c ∈ lnew /\ in_cluster (g_geo s) c lba) (disk s) d /\
    (bd_healthy (disk s) -> bd_healthy d) /\
    match r with
    | Some f => file_at (g_geo s) t f (lc ++ lnew) /\
        file_bytes (g_geo s) d lnew = zpad (drop (Z.to_nat written) buf)
          (Z.to_nat (bytes_per_cluster (g_geo s) * zlen lnew)) /\
        zlen buf - written <= bytes_per_cluster (g_geo s) * zlen lnew /\ (zlen buf = written -> lnew = [])
    | None => bd_healthy (disk s) ->
        bytes_per_cluster (g_geo s) * zlen lnew < zlen buf - written /\
        forall c, 2 <= c < g_total_clusters (g_geo s) -> (g_fat s).[c] = 0 -> c ∈ lnew
    end.

Lemma written_nothing s lc buf written first : vol_ok s -> file_at (g_geo s) (g_fat s) first lc ->
  zlen buf <= written -> written_chain s lc buf written (Some first) s.
Proof.
  intros Hs Hf Hw. destruct (vo_bufs s Hs) as (B1 & B2 & _).
  exists [], (g_fat s), (disk s), (sector_buf s). rewrite app_nil_r.
  split_and!; try done; [by destruct s|constructor| |].
  - change (zlen (@nil Z)) with 0. by rewrite Z.mul_0_r.
  - change (zlen (@nil Z)) with 0. lia.
Qed.

Lemma written_cons s first lc c d1 b1 buf written r s' :
  vol_ok s -> file_at (g_geo s) (g_fat s) first lc ->
  lowest_free (g_fat s) (g_total_clusters (g_geo s)) c -> 0 <= written < zlen buf ->
  same_disk (in_cluster (g_geo s) c) (disk s) d1 -> (bd_healthy (disk s) -> bd_healthy d1) ->
  bytes_at d1 (lbas_from (g_geo s) c 0) =
    zpad (drop (Z.to_nat written) buf) (Z.to_nat (bytes_per_cluster (g_geo s))) ->
  written_chain (set_sector_buf b1 (set_disk d1 (set_fat (link_after (g_fat s) (List.last lc 0) c) s)))
    (lc ++ [c]) buf (written + Z.min (bytes_per_cluster (g_geo s)) (zlen buf - written)) r s' ->
  written_chain s lc buf written r s'.
Proof.
  intros Hs Hf Hlow Hw S1 G1 W1 (lnew & t & d & b & -> & Hv & HN & HF & Ht & S2 & G2 & Hr).
  destruct (extend_chain s first lc c Hs Hf Hlow) as (_ & _ & Hf1 & _ & _ & Ho).
  pose proof Hlow as (Hc & Hz & _). pose proof (vo_total s Hs) as T. pose proof (bpc_eq s Hs) as Eb.
  cbn [g_geo g_fat disk set_sector_buf set_disk set_fat] in *.
  set (t1 := link_after (g_fat s) (List.last lc 0) c) in *. set (bpc := bytes_per_cluster (g_geo s)) in *.
  pose proof (vo_spc s Hs) as K. pose proof (free_not_in _ _ _ _ _ Hf Hz) as Hclc.
  destruct Hf1 as [C1 F1]. rewrite Forall_forall in F1.
  assert (Hnl : forall x, x ∈ lnew -> x ∉ lc ++ [c] /\ 2 <= x < g_total_clusters (g_geo s) /\ (g_fat s).[x] = 0).
  { intros x Hx. rewrite Forall_forall in HF. destruct (HF x Hx) as [Hx1 Hx2].
    assert (Hxn : x ∉ lc ++ [c]) by (intros Hin; destruct (F1 x Hin); lia).
    split_and!; [done|lia|lia|]. rewrite <- Ho; [done|lia|set_solver|set_solver]. }
  assert (Hdis : forall lba, in_cluster (g_geo s) c lba -> bd_data d lba = bd_data d1 lba).
  { intros lba Hl. apply S2. intros (c' & Hc' & Hl'). destruct (Hnl c' Hc') as (Hn & Hr' & _).
    pose proof (in_cluster_inj s c c' lba Hs Hc Hr' Hl Hl'). set_solver. }
  exists (c :: lnew), t, d, b. split_and!; [by destruct s|done| | | | | |].
  - constructor; [|done]. intros Hin. destruct (Hnl c Hin). set_solver.
  - constructor; [done|]. apply Forall_forall. intros x Hx. by destruct (Hnl x Hx) as (_ & ? & ?).
  - intros x Hx H1 H2. apply not_elem_of_cons in H2 as [H2 H3].
    rewrite Ht by (done || set_solver). by apply Ho.
  - eapply same_disk_trans; [exact S1|exact S2|]. intros lba [Hl|(c' & Hc' & Hl)]; [exists c|exists c']; set_solver.
  - auto.
  - assert (Ez : zlen (c :: lnew) = 1 + zlen lnew) by (unfold zlen; simpl; lia).
    destruct r as [f|].
    + destruct Hr as (Hf2 & Hb & Hl & _). rewrite <- app_assoc in Hf2. split_and!; [done| | |lia].
      * rewrite file_bytes_cons, Hb. rewrite (bytes_at_same d1 d).
        2: { intros x Hx. apply Hdis. by apply in_lbas_from. }
        rewrite W1, Ez. fold bpc. replace (Z.to_nat (bpc * (1 + zlen lnew))) with
          (Z.to_nat bpc + Z.to_nat (bpc * zlen lnew))%nat by (unfold zlen; lia).
        rewrite zpad_add. f_equal. rewrite drop_drop. f_equal.
        destruct (Z.le_gt_cases bpc (zlen buf - written)) as [Hle|Hgt].
        -- f_equal. lia.
        -- rewrite !drop_ge; [done|unfold zlen in *; lia..].
      * rewrite Ez. lia.
    + intros G. destruct (Hr (G1 G)) as [Hr1 Hr2]. split.
      * rewrite Ez. unfold zlen in *. nia.
      * intros x Hx Hxz. destruct (decide (x = c)) as [->|Hne]; [by left|right]. apply Hr2; [done|].
        rewrite Ho; [done|lia|done|]. intros Hin. destruct Hf as [_ F]. rewrite Forall_forall in F.
        destruct (F x Hin). lia.
Qed.

Lemma write_clusters_spec fuel s first lc buf written : vol_ok s -> file_at (g_geo s) (g_fat s) first lc ->
  Forall byte buf -> zlen buf + bytes_per_cluster (g_geo s) < 2 ^ 32 -> 0 <= written <= zlen buf ->
  zlen buf - written <= 512 * Z.of_nat fuel ->
  wp (write_clusters fuel buf (zlen buf) first (List.last lc 0) written) (written_chain s lc buf written) s.
Proof.
  revert s first lc written; induction fuel as [|fuel IH]; intros s first lc written Hs Hf Hb Hlen Hw Hfuel.
  { cbn [write_clusters]. rewrite (proj2 (Z.ltb_ge _ _)) by lia. apply wp_ret, written_nothing; (done || lia). }
  cbn [write_clusters]. destruct (Z.ltb_spec written (zlen buf)) as [Hlt|Hge].
  2: { apply wp_ret, written_nothing; (done || lia). }
  apply wp_bind. eapply wp_mono; [by apply alloc_cluster_spec|].
  intros c s1 [(-> & -> & Hfull)|(Hlow & ->)].
  { apply wp_ret. destruct (vo_bufs s Hs) as (B1 & B2 & _). exists [], (g_fat s), (disk s), (sector_buf s).
    split_and!; try done; [by destruct s|constructor|]. intros _. change (zlen (@nil Z)) with 0.
    split; [lia|]. intros x Hx Hz. by apply Hfull in Hx. }
  destruct (extend_chain s first lc c Hs Hf Hlow) as (Hp1 & Hp2 & Hf1 & L1 & W1 & Ho).
  pose proof Hlow as (Hc & Hz & _). rewrite (proj2 (Z.eqb_neq c 0)) by lia.
  pose proof (vo_total s Hs) as T. pose proof (bpc_eq s Hs) as Eb. pose proof (vo_spc s Hs) as K.
  set (prev := List.last lc 0) in *. set (t1 := link_after (g_fat s) prev c) in *.
  apply wp_bind.
  apply wp_mono with (P := fun (_ : ()) s2 => set_fat (g_fat s2).[c := 65535] s2 = set_fat t1 s /\
    0 <= c < zlen (g_fat s2)).
  { unfold t1, link_after. destruct (Z.eqb_spec prev 0) as [E|E].
    - apply wp_ret. simpl. rewrite zset_len. split; [done|lia].
    - apply wp_fat_set; simpl; rewrite ?zset_len; [lia|]. split; [done|lia]. }
  intros _ s2 [E2 R2]. apply wp_bind, wp_fat_set; [done|]. rewrite E2.
  apply wp_bind, wp_gets. apply wp_bind, wp_gets. apply wp_bind. cbn [g_geo set_fat].
  assert (V1 : vol_ok (set_fat t1 s)) by by apply vol_ok_set_fat.
  eapply wp_mono; [apply (write_sectors_spec _ (set_fat t1 s) c buf written 0 V1); simpl; (done || lia)|].
  cbn [g_geo disk set_fat]. rewrite Z.mul_0_r, !Z.add_0_r.
  intros ok s3 (d1 & b1 & -> & B1 & B2 & S1 & W2 & G1).
  replace (512 * Z.to_nat (g_sectors_per_cluster (g_geo s)))%nat with (Z.to_nat (bytes_per_cluster (g_geo s))) in W2 by lia.
  assert (V2 : vol_ok (set_sector_buf b1 (set_disk d1 (set_fat t1 s)))).
  { apply vol_ok_set_sector_buf; [apply vol_ok_set_disk; [done|apply S1]|done..]. }
  destruct ok; cbn [negb].
  - assert (Em : c = List.last (lc ++ [c]) 0) by by rewrite last_last.
    rewrite Em at 2.
    eapply wp_mono; [apply (IH _ (if prev =? 0 then c else first) (lc ++ [c]) _ V2); simpl; try done; try lia|].
    intros r s' Hr. eapply written_cons; try done; [lia| |by apply W2]. intros G. by apply G1.
  - apply wp_ret. exists [c], t1, d1, b1. split_and!; try done.
    + by apply NoDup_singleton.
    + by constructor.
    + intros x Hx Hn Hc'. apply Ho; [done|set_solver|done].
    + eapply same_disk_mono; [|exact S1]. intros lba Hl. exists c. split; [set_solver|done].
    + intros G. by apply G1.
    + intros G. destruct (G1 G). done.
Qed.

(** ** Updating an entry in place *)

Lemma slot_wf b i : sector b -> Forall byte b -> 0 <= i < 16 -> dirent_wf (slot_at b i).
Proof.
  intros Hb Hf Hi. unfold slot_at. set (x := sub b (Z.to_nat (32 * i)) 32).
  assert (Lx : length x = 32%nat) by (apply sub_length; unfold sector in Hb; lia).
  assert (Fx : Forall byte x) by (unfold x, sub; by apply Forall_take, Forall_drop).
  assert (Hs : forall o n, Forall byte (sub x o n)) by (intros; unfold sub; by apply Forall_take, Forall_drop).
  assert (Hg : forall o, 0 <= o < 32 -> byte x.[o]) by (intros; apply (zget_forall byte x o Fx); unfold zlen; lia).
  assert (H16 : forall o, 0 <= o < 31 -> 0 <= le16 x o < 65536).
  { intros o Ho. unfold le16. pose proof (Hg o). pose proof (Hg (o + 1)). unfold byte in *. lia. }
  pose proof (H16 22 ltac:(lia)). pose proof (H16 24 ltac:(lia)). pose proof (H16 26 ltac:(lia)).
  pose proof (H16 28 ltac:(lia)) as H28. pose proof (H16 (28 + 2) ltac:(lia)) as H30.
  pose proof (Hg 11 ltac:(lia)). unfold dirent_wf, dirent_of_bytes. cbn [d_name d_ext d_attr d_reserved d_time d_date d_first_cluster d_size].
  rewrite !sub_length by lia. clear Hg H16. split_and!; try done; try apply Hs; unfold le32; lia.
Qed.

Lemma with_file_wf e first size : dirent_wf e -> 0 <= first < 65536 -> 0 <= size < 2 ^ 32 ->
  dirent_wf (with_file e first size).
Proof. unfold dirent_wf, with_file. simpl. tauto. Qed.

(** The entry a lookup returns can change its cluster and size without another
    lookup noticing. *)
Lemma lookup_update n0 l e lba i first size : lookup_ref n0 l = Found (e, lba, i) ->
  exists l1 l2, l = l1 ++ (lba, i, e) :: l2 /\
    forall n, lookup_ref n (l1 ++ (lba, i, with_file e first size) :: l2) =
      if decide (n = n0) then Found (with_file e first size, lba, i) else lookup_ref n l.
Proof.
  induction l as [|[[lba' i'] e'] l IH]; [done|]. cbn [lookup_ref].
  destruct (first_byte e' =? DIRENT_EMPTY) eqn:E1; [done|].
  destruct (negb (first_byte e' =? DIRENT_DELETED) && negb (has_attr e' ATTR_VOLUME_ID)) eqn:E2; cbn [andb].
  - case_bool_decide as En.
    + intros [= -> -> ->]. exists [], l. split; [done|]. intros n. cbn [app lookup_ref].
      change (first_byte (with_file e first size)) with (first_byte e). rewrite E1.
      change (has_attr (with_file e first size) ATTR_VOLUME_ID) with (has_attr e ATTR_VOLUME_ID). rewrite E2.
      change (name83_of (with_file e first size)) with (name83_of e). rewrite En. cbn [andb].
      destruct (decide (n = n0)) as [->|Hn]; [by rewrite bool_decide_true|]. by rewrite bool_decide_false by congruence.
    + intros Hl. destruct (IH Hl) as (l1 & l2 & -> & Hu). exists ((lba', i', e') :: l1), l2. split; [done|].
      intros n. cbn [app lookup_ref]. rewrite E1, E2, Hu. cbn [andb].
      destruct (decide (n = n0)) as [->|Hn]; [|done]. by rewrite bool_decide_false.
  - intros Hl. destruct (IH Hl) as (l1 & l2 & -> & Hu). exists ((lba', i', e') :: l1), l2. split; [done|].
    intros n. cbn [app lookup_ref]. rewrite E1, E2, Hu. cbn [andb]. by destruct (decide (n = n0)).
Qed.

Lemma in_dir_slots_lookup (d : D) ls n e lba i : lookup_ref n (dir_slots d ls) = Found (e, lba, i) -> lba ∈ ls.
Proof.
  intros Hl. destruct (lookup_update n _ e lba i 0 0 Hl) as (l1 & l2 & E & _).
  assert (Hin : (lba, i, e) ∈ dir_slots d ls) by (rewrite E; set_solver).
  by apply in_dir_slots in Hin as [Hin _].
Qed.

(** The directory after its entry was rewritten. *)
Lemma entries_update s s' dir l n0 e lba i first size : vol_ok s -> dir_at s dir l -> g_geo s' = g_geo s ->
  dirent_wf e -> 0 <= first < 65536 -> 0 <= size < 2 ^ 32 ->
  lookup_ref n0 (entries s dir l) = Found (e, lba, i) ->
  bd_data (disk s') lba = put_slot (bd_data (disk s) lba) i (with_file e first size) ->
  (forall x, x ∈ dir_lbas (g_geo s) dir l -> x <> lba -> bd_data (disk s') x = bd_data (disk s) x) ->
  forall n, lookup_ref n (entries s' dir l) =
    if decide (n = n0) then Found (with_file e first size, lba, i) else lookup_ref n (entries s dir l).
Proof.
  intros Hs Hd Eg He Hf Hz Hl Ed Eo. destruct (lookup_update n0 _ e lba i first size Hl) as (l1 & l2 & E & Hu).
  assert (Hin : (lba, i, e) ∈ entries s dir l) by (rewrite E; set_solver).
  apply in_dir_slots in Hin as (_ & Hi & _).
  assert (entries s' dir l = l1 ++ (lba, i, with_file e first size) :: l2) as ->; [|exact Hu].
  unfold entries in *. rewrite Eg.
  eapply dir_slots_put; [by apply dir_lbas_NoDup|done|by apply with_file_wf|exact Ed|exact Eo|exact E].
Qed.

(** ** Replacing the contents of a file *)

Definition apart (l l' : list Z) : Prop := forall x, x ∈ l -> x ∉ l'.

Lemma cleared_file s c l c2 l2 : vol_ok s -> file_at (g_geo s) (g_fat s) c l ->
  file_at (g_geo s) (g_fat s) c2 l2 -> apart l l2 ->
  file_at (g_geo s) (cleared (g_fat s) l) c2 l2.
Proof.
  intros Hs Hf Hf2 Ha. pose proof (file_at_range s c l Hf) as R. pose proof (file_at_range s c2 l2 Hf2) as R2.
  destruct Hf2 as [C F]. rewrite Forall_forall in F, R2.
  assert (E : forall x, x ∈ l2 -> (cleared (g_fat s) l).[x] = (g_fat s).[x]).
  { intros x Hx. specialize (R2 x Hx). apply cleared_other; [lia| |by intros Hin; eapply Ha].
    eapply Forall_impl; [exact R|]. simpl. lia. }
  split; [eapply chain_same; [apply cleared_length|done|done]|].
  apply Forall_forall. intros x Hx. rewrite E by done. auto.
Qed.

(** Chains of allocated clusters survive the allocation of free ones. *)
Lemma file_at_frame (g : geometry) t t' c l lnew : length t' = length t ->
  (forall x, 0 <= x -> x ∉ lnew -> t'.[x] = t.[x]) -> Forall (fun c => t.[c] = 0) lnew ->
  Forall (fun c => 0 <= c) l -> file_at g t c l -> file_at g t' c l.
Proof.
  intros Hlen Hsame Hfree Hpos [C F]. rewrite Forall_forall in *.
  assert (E : forall x, x ∈ l -> t'.[x] = t.[x]).
  { intros x Hx. apply Hsame; [by apply Hpos|]. intros Hn. destruct (F x Hx). specialize (Hfree x Hn). done. }
  split; [by eapply chain_same|]. apply Forall_forall. intros x Hx. rewrite E by done. auto.
Qed.

(** The clusters the new contents may use: the free ones and those of the old
    chain. *)
Definition usable (s : volume D) (old : list Z) (c : Z) : Prop :=
  2 <= c < g_total_clusters (g_geo s) /\ (cleared (g_fat s) old).[c] = 0.

Lemma usable_apart s c0 old c2 l2 c : vol_ok s -> file_at (g_geo s) (g_fat s) c0 old ->
  file_at (g_geo s) (g_fat s) c2 l2 -> apart old l2 -> usable s old c -> c ∉ l2.
Proof.
  intros Hs Ho Hf Ha [_ Hz]. apply (free_not_in (g_geo s) (cleared (g_fat s) old) c2); [|done].
  by apply (cleared_file s c0).
Qed.

(** What [fat16_write_file] promises when it found the entry [e] at index [i] of
    sector [lba] with the chain [old]. *)
Definition replaced (s : volume D) (parent : Z) (lp name83 : list Z) (e : fat16_dirent) (lba i : Z)
    (old buf : list Z) (ok : bool) (s' : volume D) : Prop :=
  vol_ok s' /\ bd_healthy (disk s') /\ g_geo s' = g_geo s /\
  (forall c2 l2, file_at (g_geo s) (g_fat s) c2 l2 -> apart old l2 -> file_at (g_geo s) (g_fat s') c2 l2) /\
  same_disk (fun x => fat_region (g_geo s) x \/ x = lba \/ exists c, usable s old c /\ in_cluster (g_geo s) c x)
    (disk s) (disk s') /\
  if ok then exists first lnew,
    file_at (g_geo s) (g_fat s') first lnew /\ Forall (usable s old) lnew /\
    zlen buf <= bytes_per_cluster (g_geo s) * zlen lnew /\
    take (length buf) (file_bytes (g_geo s) (disk s') lnew) = buf /\
    fat_on_disk (g_geo s) (g_fat s') (disk s') /\
    forall n, lookup_ref n (entries s' parent lp) =
      if decide (n = name83) then Found (with_file e first (zlen buf), lba, i)
      else lookup_ref n (entries s parent lp)
  else exists lnew, NoDup lnew /\ (forall c, usable s old c <-> c ∈ lnew) /\
    bytes_per_cluster (g_geo s) * zlen lnew < zlen buf.

Lemma dir_at_file (s : volume D) dir l : dir_at s dir l -> dir <> 0 -> file_at (g_geo s) (g_fat s) dir l.
Proof. unfold dir_at. intros Hd Hne. rewrite (proj2 (Z.eqb_neq _ _)) in Hd by done. apply Hd. Qed.

(** A sector of the directory is in no cluster that may be written. *)
Lemma dir_sector_kept s dir l c0 old c lba : vol_ok s -> dir_at s dir l ->
  file_at (g_geo s) (g_fat s) c0 old -> apart old l -> usable s old c ->
  lba ∈ dir_lbas (g_geo s) dir l -> ~ in_cluster (g_geo s) c lba.
Proof.
  intros Hs Hd Ho Ha Hu Hin. pose proof Hu as [Hc _].
  assert (Hn : c ∉ l).
  { unfold dir_at in Hd. destruct (Z.eqb_spec dir 0) as [->|Hne]; [subst; apply not_elem_of_nil|].
    destruct Hd as [_ Hf]. by eapply usable_apart. }
  by destruct (dir_lbas_outside s dir l c lba Hs Hd Hc Hn Hin).
Qed.

(** The volume of [fat16_write_file] once the data is on the disk: the old chain is
    freed, the clusters [lnew] are written, [dir_buf] still holds the sector of
    the entry. *)
Definition data_written (s : volume D) (lba : Z) (old lnew : list Z) (s3 : volume D) : Prop :=
  vol_ok s3 /\ bd_healthy (disk s3) /\ g_geo s3 = g_geo s /\ dir_buf s3 = bd_data (disk s) lba /\
  NoDup lnew /\ Forall (usable s old) lnew /\
  (forall x, 0 <= x -> x ∉ lnew -> (g_fat s3).[x] = (cleared (g_fat s) old).[x]) /\
  same_disk (fun x => exists c, c ∈ lnew /\ in_cluster (g_geo s) c x) (disk s) (disk s3).

Lemma data_written_files s lba c0 old lnew s3 c2 l2 : vol_ok s -> file_at (g_geo s) (g_fat s) c0 old ->
  data_written s lba old lnew s3 -> file_at (g_geo s) (g_fat s) c2 l2 -> apart old l2 ->
  file_at (g_geo s) (g_fat s3) c2 l2.
Proof.
  intros Hs Ho (V3 & _ & Eg & _ & _ & HF & Ht & _) Hf Ha.
  eapply file_at_frame; [| |eapply Forall_impl; [exact HF|by intros c [_ ?]]| |by apply (cleared_file s c0)].
  - rewrite cleared_length. pose proof (vo_len s Hs). pose proof (vo_len s3 V3). unfold zlen in *. rewrite Eg in *. lia.
  - done.
  - pose proof (file_at_range s c2 l2 Hf) as R. eapply Forall_impl; [exact R|]. simpl. lia.
Qed.

(** The last steps: the entry, then the FAT. *)
Lemma commit_file s parent lp name83 e lba i old lnew first buf s3 : vol_ok s -> dir_at s parent lp ->
  lookup_ref name83 (entries s parent lp) = Found (e, lba, i) ->
  file_at (g_geo s) (g_fat s) (d_first_cluster e) old -> apart old lp ->
  data_written s lba old lnew s3 -> 0 <= first < 65536 -> zlen buf < 2 ^ 32 ->
  file_at (g_geo s) (g_fat s3) first lnew -> zlen buf <= bytes_per_cluster (g_geo s) * zlen lnew ->
  take (length buf) (file_bytes (g_geo s) (disk s3) lnew) = buf ->
  wp (_ ← set_entry i first (zlen buf);
      b ← gets dir_buf;
      ok ← block_write_sector lba b;
      if negb ok then mret false else fat16_flush_fat)
     (replaced s parent lp name83 e lba i old buf) s3.
Proof.
  intros Hs Hd Hl Ho Hap Hw Hf1 Hz Hf Hlen Hbytes.
  pose proof Hw as (V3 & H3 & Eg & Eb & HN & HF & Ht & S3).
  destruct (lookup_update name83 _ e lba i first (zlen buf) Hl) as (l1 & l2 & El & _).
  assert (Hin : (lba, i, e) ∈ entries s parent lp) by (rewrite El; set_solver).
  apply in_dir_slots in Hin as (Hin & Hi & Ee). destruct (bd_data_sector (disk s) lba) as [B1 B2].
  assert (He : dirent_wf e) by (rewrite Ee; by apply slot_wf).
  assert (Hn : 0 <= zlen buf) by (unfold zlen; lia).
  pose proof (with_file_wf e first (zlen buf) He Hf1 (conj Hn Hz)) as Hwf.
  apply wp_bind. unfold set_entry. apply wp_modify. rewrite Eb, <- Ee. apply wp_bind, wp_gets. apply wp_bind.
  cbn [dir_buf set_dir_buf]. set (b := put_slot (bd_data (disk s) lba) i (with_file e first (zlen buf))).
  assert (P1 : sector b) by by apply put_slot_sector. assert (P2 : Forall byte b) by by apply put_slot_byte.
  destruct (in_dir_lbas s parent lp lba Hs Hd Hin) as [Hr _]. destruct (regions s Hs) as (R1 & R2 & R3 & R4).
  apply wp_write; [done..|]. cbn [disk set_dir_buf]. intros ok d4 S4 W4 G4.
  destruct (G4 H3) as [-> H4]; [rewrite (proj1 S3); lia|]. cbn [negb].
  assert (V4 : vol_ok (set_disk d4 (set_dir_buf b s3))).
  { apply vol_ok_set_disk; [by apply vol_ok_set_dir_buf|apply S4]. }
  eapply wp_mono; [by apply flush_fat_spec|]. cbn [disk g_geo g_fat set_dir_buf set_disk].
  intros ok s5 (d5 & -> & S5 & W5 & G5). destruct (G5 H4) as [-> H5]. rewrite Eg in S5, W5.
  assert (Hnofat : forall x, g_root_start_lba (g_geo s) <= x -> bd_data d5 x = bd_data d4 x).
  { intros x Hx. apply S5. unfold fat_region. lia. }
  assert (Hother : forall x, x <> lba -> bd_data d4 x = bd_data (disk s3) x) by (intros; apply S4; congruence).
  split_and!; [apply vol_ok_set_disk; [done|apply S5]|done|done| | |].
  - intros. by apply (data_written_files s lba (d_first_cluster e) old lnew s3).
  - rewrite Forall_forall in HF. eapply same_disk_trans; [exact S3| |].
    + eapply same_disk_trans; [exact S4|exact S5|]. intros x Hx. exact Hx.
    + intros x [(c & Hc & Hx)|[<-|Hx]]; [right; right; eauto|by right; left|by left].
  - rewrite Forall_forall in HF.
    assert (Hkeep : forall c x, c ∈ lnew -> x ∈ dir_lbas (g_geo s) parent lp -> ~ in_cluster (g_geo s) c x).
    { intros c x Hc Hx. eapply dir_sector_kept; eauto. }
    exists first, lnew. split_and!; [done|by apply Forall_forall|done| |by apply W5|].
    + etransitivity; [|exact Hbytes]. f_equal. apply bytes_at_same. intros x Hx.
      apply list_elem_of_In, in_concat in Hx as (y & (c & <- & Hc)%in_map_iff & Hx).
      apply list_elem_of_In in Hx, Hc. apply in_lbas_from in Hx. destruct (HF c Hc) as [Rc _].
      destruct (in_cluster_data s c x Hs Rc Hx) as [Hge _]. rewrite Hnofat, Hother; [done| |lia].
      intros ->. by apply (Hkeep c lba).
    + apply (entries_update s _ parent lp name83 e lba i first (zlen buf)); try done; cbn [disk set_disk].
      * rewrite Hnofat by lia. by apply W4.
      * intros x Hx Hne. destruct (in_dir_lbas s parent lp x Hs Hd Hx) as [Hge _].
        rewrite Hnofat, Hother by (done || lia). apply S3. intros (c & Hc & Hxc). by apply (Hkeep c x).
Qed.

Lemma write_file_one s parent lp name e lba i old buf : vol_ok s -> bd_healthy (disk s) ->
  dir_at s parent lp -> lookup_ref (to_8_3 name) (entries s parent lp) = Found (e, lba, i) ->
  has_attr e ATTR_DIRECTORY = false -> file_at (g_geo s) (g_fat s) (d_first_cluster e) old -> apart old lp ->
  Forall byte buf -> zlen buf + bytes_per_cluster (g_geo s) < 2 ^ 32 ->
  wp (fat16_write_file parent (Some name) (Some buf) (zlen buf))
     (replaced s parent lp (to_8_3 name) e lba i old buf) s.
Proof.
  intros Hs Hh Hd Hl Ha Ho Hap Hb Hz. unfold fat16_write_file. apply wp_bind, wp_gets. rewrite (vo_ready s Hs).
  rewrite bool_decide_false by done. cbn [negb orb andb default]. apply wp_bind.
  eapply wp_mono; [by apply (dir_lookup_spec s parent lp)|].
  intros r s1 (d1 & b1 & -> & S1 & B1 & B2 & G1 & Hr & Hfound). destruct (G1 Hh) as [H1 Hne].
  destruct Hr as [->|Hr]; [done|]. fold (entries s parent lp) in Hr. rewrite Hl in Hr. subst r.
  destruct (Hfound e lba i eq_refl) as (Eb & Hin & Hi & Ee & _). rewrite Ha.
  apply wp_bind, wp_gets. cbn [dir_buf set_dir_buf]. rewrite <- Ee.
  apply wp_bind. eapply wp_mono; [apply (free_chain_chain _ old); apply Ho|]. intros _ s2 ->.
  cbn [g_fat set_dir_buf set_disk]. set (t1 := cleared (g_fat s) old).
  set (s2 := set_fat t1 (set_dir_buf b1 (set_disk d1 s))).
  assert (V2 : vol_ok s2).
  { apply (vol_ok_moved s t1 d1 b1); try done; [apply cleared_length| |apply S1].
    apply cleared_words; [apply (vo_words s Hs)|lia]. }
  apply wp_bind. eapply wp_mono; [apply (write_clusters_spec _ s2 0 [] buf 0 V2); try done|].
  { unfold zlen. lia. }
  { pose proof (Z.div_mod (zlen buf) 512). pose proof (Z.mod_pos_bound (zlen buf) 512).
    pose proof (Z.div_pos (zlen buf) 512). unfold zlen in *. lia. }
  intros first s3 (lnew & t3 & d3 & b3 & -> & V3 & HN & HF & Ht & S3 & G3 & Hr).
  cbn [g_geo g_fat disk s2 set_fat set_dir_buf set_disk] in HF, Ht, S3, G3, Hr.
  assert (Hw : data_written s lba old lnew (set_sector_buf b3 (set_disk d3 (set_fat t3 s2)))).
  { split_and!; try done; [by apply G3| |].
    - intros x Hx Hn. apply Ht; [done|apply not_elem_of_nil|done].
    - eapply same_disk_trans; [exact S1|exact S3|]. unfold nowhere. tauto. }
  destruct first as [f|].
  - destruct Hr as (Hf & Hbytes & Hlen & Hnil). cbn [app] in Hf. rewrite Z.sub_0_r in Hlen.
    assert (Hbuf : take (length buf) (file_bytes (g_geo s) d3 lnew) = buf).
    { rewrite Hbytes. change (Z.to_nat 0) with 0%nat. rewrite drop_0. apply zpad_take. unfold zlen in *. lia. }
    assert (Hf0 : 0 <= (if zlen buf =? 0 then 0 else u16 f) < 65536).
    { destruct (zlen buf =? 0); [lia|]. by apply Z.mod_pos_bound. }
    pose proof (bpc_eq s Hs) as Ebp. pose proof (vo_spc s Hs) as K.
    eapply commit_file; try done; [unfold zlen in *; lia|].
    cbn [g_fat set_sector_buf set_disk set_fat].
    destruct (Z.eqb_spec (zlen buf) 0) as [E0|E0].
    + rewrite (Hnil E0). split; [done|constructor].
    + destruct lnew as [|c lnew]; [change (zlen (@nil Z)) with 0 in Hlen; unfold zlen in *; lia|].
      pose proof Hf as [[-> _] _]. rewrite u16_small; [done|]. apply Forall_cons in HF as [[HF _] _].
      pose proof (vo_marks s Hs). lia.
  - apply wp_ret. destruct Hw as (Hv & Hh3 & Eg & _ & _ & Hus & _ & Sd).
    split_and!; try done.
    + intros c2 l2 Hf2 Ha2. apply (data_written_files s lba (d_first_cluster e) old lnew); try done.
      split_and!; try done. intros x Hx Hn. apply Ht; [done|apply not_elem_of_nil|done].
    + eapply same_disk_mono; [|exact Sd]. intros x (c & Hc & Hx). right; right. exists c.
      rewrite Forall_forall in Hus. auto.
    + destruct (Hr H1) as [Hr1 Hr2]. exists lnew. split_and!; [done| |lia].
      intros c. split; [intros [? ?]; by apply Hr2|]. rewrite Forall_forall in Hus. apply Hus.
Qed.
End file.

(** ** Properties *)

Section properties.
Context {D : Type} `{BlockDevice D}.

(** [fat16_read_at] reads the file: for a file of [size] bytes on the chain [l],
    the bytes it stores are a prefix of the requested range of the file's
    contents, cut at the end of the file, and all of that range when the device
    is healthy; the result is their number and no sector changes. *)
Theorem read_at_reads_range (s : volume D) (first pos len size : Z) (l : list Z)
  (Hs : vol_ok s) (Hf : file_at (g_geo s) (g_fat s) first l)
  (Hpos : 0 <= pos) (Hlen : 0 < len) (Hrange : pos + len < 2 ^ 32)
  (Hsize : 0 <= size <= bytes_per_cluster (g_geo s) * zlen l) :
  wp (fat16_read_at first pos len size) (fun '(r, out) s' =>
    r = zlen out /\
    read_gives s (file_range (file_bytes (g_geo s) (disk s) l) pos len size) out s') s.
Proof. by apply read_at_spec. Qed.

(** C26 Contents survive the round trip: on a healthy device, after
    [fat16_write_file] replaced the contents of an existing file, [fat16_find]
    and [fat16_read_at] give back exactly the bytes written; the write fails only
    when the free clusters together with those of the old contents are too few
    for the data. *)
Theorem write_file_read_back (s : volume D) (parent : Z) (lp name : list Z) (e : fat16_dirent)
  (lba i : Z) (old buf : list Z)
  (Hs : vol_ok s) (Hh : bd_healthy (disk s)) (Hd : dir_at s parent lp) (Hone : one_component name)
  (Hl : lookup_ref (to_8_3 name) (entries s parent lp) = Found (e, lba, i))
  (Ha : has_attr e ATTR_DIRECTORY = false)
  (Ho : file_at (g_geo s) (g_fat s) (d_first_cluster e) old) (Hap : apart old lp)
  (Hb : Forall byte buf) (Hne : 0 < zlen buf) (Hz : zlen buf + bytes_per_cluster (g_geo s) < 2 ^ 32) :
  wp (ok ← fat16_write_file parent (Some name) (Some buf) (zlen buf);
      f ← fat16_find parent (Some name);
      match ok, f with
      | true, Found (first, size, _) => r ← fat16_read_at first 0 (zlen buf) size; mret (Some r)
      | _, _ => mret None
      end)
     (fun out s' => out = Some (zlen buf, buf) \/
        (out = None /\ exists lnew, NoDup lnew /\ (forall c, usable s old c <-> c ∈ lnew) /\
           bytes_per_cluster (g_geo s) * zlen lnew < zlen buf)) s.
Proof.
  apply wp_bind. eapply wp_mono; [by apply write_file_one|].
  intros ok s1 (V1 & H1 & Eg & Hfiles & _ & Hok).
  assert (Hd1 : dir_at s1 parent lp).
  { unfold dir_at in *. rewrite Eg. destruct (parent =? 0); [done|]. destruct Hd as [Hd0 Hd]. auto. }
  apply wp_bind. eapply wp_mono; [by apply (find_one s1 parent lp)|].
  intros f s2 [(V2 & H2 & Eg2 & Ef2 & S2) ->]. destruct ok; [|by apply wp_ret; right].
  destruct Hok as (first & lnew & Hf & _ & Hlen & Hbytes & _ & Hlk). rewrite Hlk, decide_True by done.
  change (has_attr (with_file e first (zlen buf)) ATTR_DIRECTORY) with (has_attr e ATTR_DIRECTORY). rewrite Ha.
  pose proof (bpc_eq s Hs) as Ebp. pose proof (vo_spc s Hs) as K. cbn [with_file d_first_cluster d_size].
  apply wp_bind. eapply wp_mono; [apply (read_at_spec s2 first lnew); try done|].
  - rewrite Eg2, Ef2, Eg. done.
  - lia.
  - rewrite Eg2, Eg. lia.
  - intros [r out] s3 (-> & d & b & _ & _ & _ & _ & _ & G). destruct (G H2) as [_ ->]. apply wp_ret. left.
    rewrite Eg2, Eg. unfold file_bytes. rewrite (bytes_at_same (disk s1) (disk s2)) by (intros; apply S2; tauto).
    fold (file_bytes (g_geo s) (disk s1) lnew). unfold file_range.
    replace (Z.to_nat (zlen buf)) with (length buf) by (unfold zlen; lia). rewrite Hbytes.
    change (Z.to_nat 0) with 0%nat. by rewrite drop_0, firstn_all.
Qed.

(** C27 Writing one file never disturbs another: whether [fat16_write_file] succeeds
    or fails on a healthy device, every chain that shares no cluster with the old
    contents stays the same chain, and if it shares none with the directory either
    its bytes are unchanged. *)
Theorem write_file_isolated (s : volume D) (parent : Z) (lp name : list Z) (e : fat16_dirent)
  (lba i : Z) (old buf : list Z) (c2 : Z) (l2 : list Z)
  (Hs : vol_ok s) (Hh : bd_healthy (disk s)) (Hd : dir_at s parent lp)
  (Hl : lookup_ref (to_8_3 name) (entries s parent lp) = Found (e, lba, i))
  (Ha : has_attr e ATTR_DIRECTORY = false)
  (Ho : file_at (g_geo s) (g_fat s) (d_first_cluster e) old) (Hap : apart old lp)
  (Hb : Forall byte buf) (Hz : zlen buf + bytes_per_cluster (g_geo s) < 2 ^ 32)
  (Hf2 : file_at (g_geo s) (g_fat s) c2 l2) (Hold : apart old l2) (Hdir : apart lp l2) :
  wp (fat16_write_file parent (Some name) (Some buf) (zlen buf))
     (fun _ s' => file_at (g_geo s) (g_fat s') c2 l2 /\
        file_bytes (g_geo s) (disk s') l2 = file_bytes (g_geo s) (disk s) l2) s.
Proof.
  eapply wp_mono; [by apply write_file_one|]. intros ok s' (_ & _ & _ & Hfiles & S & _).
  split; [auto|]. pose proof (file_at_range s c2 l2 Hf2) as R. rewrite Forall_forall in R.
  apply bytes_at_same. intros x Hx. apply S.
  apply list_elem_of_In, in_concat in Hx as (y & (c & <- & Hc)%in_map_iff & Hx).
  apply list_elem_of_In in Hx, Hc. apply in_lbas_from in Hx.
  destruct (in_cluster_data s c x Hs (R c Hc) Hx) as [Hge _]. destruct (regions s Hs) as (_ & _ & R3 & _).
  intros [Hfat|[->|(c' & Hu & Hx')]].
  - unfold fat_region in Hfat. lia.
  - apply in_dir_slots_lookup in Hl.
    destruct (in_dir_lbas s parent lp lba Hs Hd Hl) as [_ [[_ Hlt]|(c' & Hc' & Hin & _)]]; [lia|].
    assert (R' : 2 <= c' < g_total_clusters (g_geo s)).
    { unfold dir_at in Hd. destruct (parent =? 0); [subst; by apply not_elem_of_nil in Hc'|].
      destruct Hd as [_ Hd]. pose proof (file_at_range s parent lp Hd) as F. rewrite Forall_forall in F. auto. }
    pose proof (in_cluster_inj s c c' lba Hs (R c Hc) R' Hx Hin). subst. by eapply Hdir.
  - pose proof Hu as [R' _]. pose proof (in_cluster_inj s c c' x Hs (R c Hc) R' Hx Hx'). subst.
    by apply (usable_apart s (d_first_cluster e) old c2 l2 c').
Qed.
End properties.

(** ** Examples *)

(** The small volume with an empty file [notes.txt] in the root directory. *)
Definition notes_vol : volume simdisk :=
  match fat16_create 0 (Some notes_txt) demo_vol with Some (_, s) => s | None => demo_vol end.

Definition notes_dirent : fat16_dirent := new_entry (to_8_3 notes_txt) ATTR_ARCHIVE 0.

Lemma notes_vol_ok : vol_ok notes_vol.
Proof.
  constructor; try (vm_compute; intuition congruence).
  - apply all_below. by vm_compute.
  - split_and!; [by vm_compute|by apply all_below; vm_compute|by vm_compute|by apply all_below; vm_compute].
Qed.

Lemma notes_lookup : lookup_ref (to_8_3 notes_txt) (entries notes_vol 0 []) = Found (notes_dirent, 3, 0).
Proof. by vm_compute. Qed.

Lemma notes_healthy : bd_healthy (disk notes_vol).
Proof. vm_compute. constructor. Qed.

Lemma notes_one : one_component notes_txt.
Proof. split_and!; [discriminate|by apply (bool_decide_unpack _)|simpl; lia]. Qed.

Lemma notes_file : file_at (g_geo notes_vol) (g_fat notes_vol) (d_first_cluster notes_dirent) [].
Proof. split; [done|constructor]. Qed.

(** The same volume with three bytes in the file. *)
Definition data_vol : volume simdisk :=
  match fat16_write_file 0 (Some notes_txt) (Some [1; 2; 3]) 3 notes_vol with
  | Some (_, s) => s
  | None => notes_vol
  end.

Lemma data_vol_ok : vol_ok data_vol.
Proof.
  constructor; try (vm_compute; intuition congruence).
  - apply all_below. by vm_compute.
  - split_and!; [by vm_compute|by apply all_below; vm_compute|by vm_compute|by apply all_below; vm_compute].
Qed.

Lemma read_at_reads_range_witness :
  wp (fat16_read_at 2 1 5 3) (fun '(r, out) s' => r = zlen out /\
    read_gives data_vol (file_range (file_bytes (g_geo data_vol) (disk data_vol) [2]) 1 5 3) out s') data_vol /\
  file_range (file_bytes (g_geo data_vol) (disk data_vol) [2]) 1 5 3 = [2; 3].
Proof.
  split; [|by vm_compute]. apply (read_at_reads_range data_vol 2 1 5 3 [2] data_vol_ok); try lia.
  - split; [by vm_compute|]. apply Forall_singleton. vm_compute. split; congruence.
  - vm_compute. split; congruence.
Defined.

Lemma write_file_read_back_witness :
  wp (ok ← fat16_write_file 0 (Some notes_txt) (Some [1; 2; 3]) 3;
      f ← fat16_find 0 (Some notes_txt);
      match ok, f with
      | true, Found (first, size, _) => r ← fat16_read_at first 0 3 size; mret (Some r)
      | _, _ => mret None
      end)
     (fun out s' => out = Some (3, [1; 2; 3]) \/
        (out = None /\ exists lnew, NoDup lnew /\ (forall c, usable notes_vol [] c <-> c ∈ lnew) /\
           bytes_per_cluster (g_geo notes_vol) * zlen lnew < 3)) notes_vol.
Proof.
  apply (write_file_read_back notes_vol 0 [] notes_txt notes_dirent 3 0 [] [1; 2; 3]
           notes_vol_ok notes_healthy eq_refl notes_one notes_lookup eq_refl notes_file).
  - intros x Hx. by apply not_elem_of_nil in Hx.
  - by apply all_below.
  - done.
  - by vm_compute.
Defined.

(** Next to that file a second one, [B.TXT], with two bytes in cluster 3. *)
Definition b_txt : list Z := [98; 46; 116; 120; 116].
Definition two_vol : volume simdisk :=
  match (fat16_create 0 (Some b_txt);; fat16_write_file 0 (Some b_txt) (Some [7; 8]) 2) data_vol with
  | Some (_, s) => s
  | None => data_vol
  end.
Definition b_dirent : fat16_dirent :=
  match lookup_ref (to_8_3 b_txt) (entries two_vol 0 []) with Found (e, _, _) => e | _ => notes_dirent end.

Lemma two_vol_ok : vol_ok two_vol.
Proof.
  constructor; try (vm_compute; intuition congruence).
  - apply all_below. by vm_compute.
  - split_and!; [by vm_compute|by apply all_below; vm_compute|by vm_compute|by apply all_below; vm_compute].
Qed.

Lemma two_files : d_first_cluster b_dirent = 3 /\ file_at (g_geo two_vol) (g_fat two_vol) 3 [3] /\ file_at (g_geo two_vol) (g_fat two_vol) 2 [2].
Proof. split_and!; [by vm_compute| |]; (split; [by vm_compute|apply Forall_singleton; vm_compute; split; congruence]). Qed.

(** Overwriting [B.TXT] leaves the bytes 1, 2, 3 of the other file where they are. *)
Lemma write_file_isolated_witness :
  wp (fat16_write_file 0 (Some b_txt) (Some [9; 9; 9]) 3)
     (fun _ s' => file_at (g_geo two_vol) (g_fat s') 2 [2] /\
        file_bytes (g_geo two_vol) (disk s') [2] = file_bytes (g_geo two_vol) (disk two_vol) [2]) two_vol /\
  take 4 (file_bytes (g_geo two_vol) (disk two_vol) [2]) = [1; 2; 3; 0].
Proof.
  split; [|by vm_compute]. destruct two_files as (Ec & Hb & Hn).
  apply (write_file_isolated two_vol 0 [] b_txt b_dirent 3 1 [3] [9; 9; 9] 2 [2] two_vol_ok).
  - vm_compute. constructor.
  - reflexivity.
  - by vm_compute.
  - by vm_compute.
  - by rewrite Ec.
  - intros x _. apply not_elem_of_nil.
  - by apply all_below.
  - by vm_compute.
  - exact Hn.
  - intros x Hx Hx'. apply list_elem_of_singleton in Hx, Hx'. congruence.
  - intros x Hx. exact (False_ind _ (not_elem_of_nil x Hx)).
Defined.

(** A failed overwrite destroys the file: on the volume of eight clusters, after
    ten bytes were stored in [notes.txt], a [fat16_write_file] of 4,100 bytes
    runs out of clusters and returns -1, but the old chain was freed and reused
    before; the entry still says 10 bytes at cluster 2, and those bytes are now
    the ones of the failed write. *)
Theorem failed_overwrite_destroys_file :
  option_map fst
    ((ok1 ← fat16_write_file 0 (Some notes_txt) (Some [1; 2; 3; 4; 5; 6; 7; 8; 9; 10]) 10;
      ok2 ← fat16_write_file 0 (Some notes_txt) (Some (replicate (Z.to_nat 4100) 255)) 4100;
      f ← fat16_find 0 (Some notes_txt);
      r ← fat16_read_at 2 0 10 10;
      mret (ok1, ok2, f, r)) notes_vol) =
  Some (true, false, Found (2, 10, 0), (10, replicate 10 255)).
Proof. vm_compute. reflexivity. Qed.
