(* ===== verification/UserMem.v ===== *)
(** * User memory access ([kernel/syscall.c], lines 46-125 and 403-419)

    Every system call reaches the caller's memory through these functions:
    [user_kptr] translates one byte through the caller's own page directory,
    [user_ptr_valid] checks a whole range, [copy_from_user], [copy_to_user] and
    [copy_user_str] move bytes.  They run on physical memory ([Mem]) and use
    the page walk of [Vmm].  A kernel pointer is a physical address, 0 is NULL;
    the process pointer is [None] for NULL. *)

From Stdlib Require Import ZArith Lia ZifyBool.
From stdpp Require Import base tactics numbers list option gmap.
From S2P Require Import Prelude Pmm Mem Vmm Process.
Local Open Scope Z_scope.

(** ** Operations *)

Definition user_kptr (m : mem) (cur : process) (uaddr : Z) : Z :=
  let phys := vmm_get_user_phys_from_dir m (p_cr3 cur) uaddr in
  if phys =? 0 then 0
  else Z.lor (Z.land phys 0xFFFFF000) (Z.land uaddr 0xFFF).

(** The [for (;;)] over the pages, with [n] increments left. *)
Fixpoint pages_valid (n : nat) (m : mem) (cr3 page last_page : Z) : option bool :=
  if vmm_get_user_phys_from_dir m cr3 page =? 0 then Some false
  else if page =? last_page then Some true
  else
    match n with
    | O => None
    | S n' => pages_valid n' m cr3 (u32 (page + 0x1000)) last_page
    end.

(** The loop steps from [page] to [last_page] modulo 2^32. *)
Definition page_steps (page last_page : Z) : nat := Z.to_nat (u32 (last_page - page) / 4096).

Definition user_ptr_valid (cur : option process) (uaddr len : Z) : cM mem bool := fun m =>
  match cur with
  | None => Some (false, m)
  | Some cur =>
      if len =? 0 then Some (false, m)
      else if u32 (uaddr + len) <? uaddr then Some (false, m)
      else
        let page := Z.land uaddr 0xFFFFF000 in
        let last_page := Z.land (u32 (uaddr + len - 1)) 0xFFFFF000 in
        match pages_valid (page_steps page last_page) m (p_cr3 cur) page last_page with
        | Some b => Some (b, m)
        | None => None
        end
  end.

(** The byte loop of [copy_from_user]: the bytes stored in [kdst] so far are
    [dst]. *)
Fixpoint from_user_loop (n : nat) (cur : process) (usrc i : Z) (dst : list Z) : cM mem (Z * list Z) :=
  match n with
  | O => mret (0, dst)
  | S n' =>
      kp ← gets (fun m => user_kptr m cur (u32 (usrc + i)));
      if kp =? 0 then mret (-1, dst)
      else
        b ← gets (fun m => rd8 m kp);
        from_user_loop n' cur usrc (i + 1) (dst ++ [b])
  end.

(** The result and the bytes stored in [kdst]. *)
Definition copy_from_user (cur : option process) (usrc len : Z) : cM mem (Z * list Z) :=
  ok ← user_ptr_valid cur usrc len;
  match cur, ok with
  | Some cur, true => from_user_loop (Z.to_nat len) cur usrc 0 []
  | _, _ => mret (-1, [])
  end.

Fixpoint to_user_loop (cur : process) (udst i : Z) (src : list Z) : cM mem Z :=
  match src with
  | [] => mret 0
  | b :: src' =>
      kp ← gets (fun m => user_kptr m cur (u32 (udst + i)));
      if kp =? 0 then mret (-1)
      else
        modify (fun m => wr8 m kp b);;
        to_user_loop cur udst (i + 1) src'
  end.

(** [ksrc] holds [len] bytes. *)
Definition copy_to_user (cur : option process) (udst : Z) (ksrc : list Z) : cM mem Z :=
  ok ← user_ptr_valid cur udst (zlen ksrc);
  match cur, ok with
  | Some cur, true => to_user_loop cur udst 0 ksrc
  | _, _ => mret (-1)
  end.

(** The loop of [copy_user_str], from index [i] with [n] characters of room
    before the terminator's place. *)
Fixpoint user_str_loop (n : nat) (cur : process) (uaddr i : Z) (buf : list Z) : cM mem (Z * list Z) :=
  match n with
  | O => mret (0, buf.[i := 0])
  | S n' =>
      kp ← gets (fun m => user_kptr m cur (u32 (uaddr + i)));
      if kp =? 0 then mret (-1, buf)
      else
        c ← gets (fun m => rd8 m kp);
        let buf := buf.[i := c] in
        if c =? 0 then mret (0, buf.[i := 0])
        else user_str_loop n' cur uaddr (i + 1) buf
  end.

(** The result and the contents of [buf], an array of [maxlen] bytes. *)
Definition copy_user_str (cur : process) (uaddr : Z) (buf : list Z) : cM mem (Z * list Z) :=
  user_str_loop (length buf - 1) cur uaddr 0 buf.

#[global] Arguments user_kptr : simpl never.
#[global] Arguments pages_valid : simpl never.
#[global] Arguments user_ptr_valid : simpl never.
#[global] Arguments from_user_loop : simpl never.
#[global] Arguments to_user_loop : simpl never.
#[global] Arguments user_str_loop : simpl never.

(** ** The address space of a process *)

(** The walk of [cr3] implements the map [sp]; frames are real (not frame 0),
    no frame backs two pages, and no frame is part of the directory itself. *)
Record user_space (m : mem) (cr3 : Z) (sp : gmap Z Z) : Prop := {
  us_walk : space_refines m cr3 sp;
  us_dir : exists k, cr3 = k * 4096;
  us_frame : forall v f, sp !! v = Some f -> 0 < f < 2 ^ 20;
  us_inj : forall v w f, sp !! v = Some f -> sp !! w = Some f -> v = w;
  us_own : forall v f, sp !! v = Some f -> f <> cr3 / 4096 /\
    forall di, 0 <= di < 1024 -> has_flag (dir_word m cr3 di) VMM_PRESENT = true -> f <> table_page m cr3 di
}.

(** The range [a .. a+n-1] is mapped. *)
Definition mapped_range (sp : gmap Z Z) (a n : Z) : Prop :=
  forall i, 0 <= i < n -> is_Some (sp !! ((a + i) / 4096)).

(** Where a user address is in physical memory, and the bytes found there. *)
Definition phys_of (sp : gmap Z Z) (a : Z) : Z := default 0 (sp !! (a / 4096)) * 4096 + a mod 4096.
Definition user_bytes (m : mem) (sp : gmap Z Z) (a : Z) (n : nat) : list Z :=
  (fun i => rd8 m (phys_of sp (a + Z.of_nat i))) <$> seq 0 n.

#[export] Instance mapped_range_dec sp a n : Decision (mapped_range sp a n).
Proof.
  refine (cast_if (decide (Forall (fun i => is_Some (sp !! ((a + Z.of_nat i) / 4096))) (seq 0 (Z.to_nat n))))).
  - rewrite Forall_seq in *. intros i Hi. replace i with (Z.of_nat (Z.to_nat i)) by lia. apply f. lia.
  - intros H. apply n0. rewrite Forall_seq. intros j Hj. apply H. lia.
Defined.

(** ** Translation *)

Section space.
Context (m : mem) (cur : process) (sp : gmap Z Z).
Hypothesis (Hsp : user_space m (p_cr3 cur) sp).

Lemma user_phys_zero a : is_u32 a -> (vmm_get_user_phys_from_dir m (p_cr3 cur) a =? 0) = bool_decide (sp !! (a / 4096) = None).
Proof.
  intros Ha. rewrite (us_walk _ _ _ Hsp a Ha). destruct (sp !! (a / 4096)) as [f|] eqn:E.
  - pose proof (us_frame _ _ _ Hsp _ _ E). pose proof (Z.mod_pos_bound a 4096).
    rewrite bool_decide_false by done. lia.
  - by rewrite bool_decide_true.
Qed.

Lemma phys_of_pos a : is_Some (sp !! (a / 4096)) -> 4096 <= phys_of sp a < 2 ^ 32.
Proof.
  intros [f E]. pose proof (us_frame _ _ _ Hsp _ _ E). pose proof (Z.mod_pos_bound a 4096).
  unfold phys_of. rewrite E. simpl. lia.
Qed.

Lemma user_kptr_eq a : is_u32 a ->
  user_kptr m cur a = if decide (is_Some (sp !! (a / 4096))) then phys_of sp a else 0.
Proof.
  intros Ha. unfold user_kptr. rewrite user_phys_zero by done.
  destruct (decide (is_Some (sp !! (a / 4096)))) as [[f E]|E].
  - rewrite bool_decide_false by (by rewrite E). rewrite (us_walk _ _ _ Hsp a Ha), E.
    pose proof (us_frame _ _ _ Hsp _ _ E). pose proof (Z.mod_pos_bound a 4096 ltac:(lia)).
    change (Z.land (f * 4096 + a mod 4096) 0xFFFFF000) with (frame_of (f * 4096 + a mod 4096)).
    rewrite entry_frame, low12_eq, lor_frame_flags by lia. unfold phys_of. by rewrite E.
  - apply eq_None_not_Some in E. by rewrite bool_decide_true.
Qed.

(** *** The page loop *)

Lemma pages_valid_eq n page last_page :
  pages_valid n m (p_cr3 cur) page last_page =
  if vmm_get_user_phys_from_dir m (p_cr3 cur) page =? 0 then Some false
  else if page =? last_page then Some true
  else match n with O => None | S n' => pages_valid n' m (p_cr3 cur) (u32 (page + 0x1000)) last_page end.
Proof. by destruct n. Qed.

Lemma pages_valid_spec n page : is_u32 (page * 4096) -> is_u32 ((page + Z.of_nat n) * 4096) ->
  exists b, pages_valid n m (p_cr3 cur) (page * 4096) ((page + Z.of_nat n) * 4096) = Some b /\
    (b = true <-> forall q, page <= q <= page + Z.of_nat n -> is_Some (sp !! q)).
Proof.
  revert page. induction n as [|n IH]; intros page Hp Hl;
    rewrite pages_valid_eq, user_phys_zero, Z.div_mul by (done || lia).
  - replace (page * 4096 =? (page + Z.of_nat 0) * 4096) with true by lia.
    case_bool_decide as E; eexists; (split; [done|]).
    + split; [done|]. intros H. apply eq_None_not_Some in E. destruct E. apply H. lia.
    + split; [|done]. intros _ q Hq. replace q with page by lia. by apply not_eq_None_Some.
  - replace (page * 4096 =? (page + Z.of_nat (S n)) * 4096) with false by lia.
    unfold is_u32 in *. rewrite u32_small by lia. replace (page * 4096 + 0x1000) with ((page + 1) * 4096) by lia.
    replace (page + Z.of_nat (S n)) with (page + 1 + Z.of_nat n) in * by lia.
    destruct (IH (page + 1)) as (b & -> & Hb); [lia..|].
    case_bool_decide as E; eexists; (split; [done|]).
    + split; [done|]. intros H. apply eq_None_not_Some in E. destruct E. apply H. lia.
    + rewrite Hb. split; intros H q Hq; [|apply H; lia].
      destruct (Z.eq_dec q page) as [->|]; [by apply not_eq_None_Some|apply H; lia].
Qed.

(** A range is mapped when its pages are. *)
Lemma mapped_range_pages a n : 0 < n ->
  mapped_range sp a n <-> forall q, a / 4096 <= q <= (a + n - 1) / 4096 -> is_Some (sp !! q).
Proof.
  intros Hn. split; intros H.
  - intros q Hq. destruct (Z_le_gt_dec (q * 4096) a).
    + replace q with ((a + 0) / 4096) by (Z.to_euclidean_division_equations; lia). apply H. lia.
    + replace q with ((a + (q * 4096 - a)) / 4096)
        by (replace (a + (q * 4096 - a)) with (q * 4096) by lia; apply Z.div_mul; lia).
      apply H. Z.to_euclidean_division_equations; lia.
  - intros i Hi. apply H. split; apply Z.div_le_mono; lia.
Qed.

Lemma user_ptr_valid_spec a n : is_u32 a -> is_u32 n ->
  exists b, user_ptr_valid (Some cur) a n m = Some (b, m) /\
    (b = true <-> 0 < n /\ a + n < 2 ^ 32 /\ mapped_range sp a n).
Proof.
  intros Ha Hn. unfold user_ptr_valid. destruct (Z.eqb_spec n 0) as [->|Hn0].
  { exists false. split; [done|]. split; [done|lia]. }
  unfold is_u32 in *. destruct (Z.ltb_spec (u32 (a + n)) a) as [Hw|Hw].
  { exists false. split; [done|]. split; [done|]. intros (_ & Hlt & _). rewrite u32_small in Hw by lia. lia. }
  assert (Hlt : a + n < 2 ^ 32 \/ (a = 0 /\ a + n = 2 ^ 32)).
  { destruct (Z_lt_le_dec (a + n) (2 ^ 32)) as [|Hge]; [by left|right].
    unfold u32 in Hw. rewrite <- (Z.mod_add (a + n) (-1)), Z.mod_small in Hw by lia. lia. }
  destruct Hlt as [Hlt|]; [|lia]. cbv zeta. rewrite (u32_small (a + n - 1)) by lia.
  change (Z.land a 0xFFFFF000) with (frame_of a). change (Z.land (a + n - 1) 0xFFFFF000) with (frame_of (a + n - 1)).
  rewrite !frame_of_eq by (unfold is_u32; lia). unfold page_steps. rewrite <- Z.mul_sub_distr_r.
  assert (a / 4096 <= (a + n - 1) / 4096) by (apply Z.div_le_mono; lia).
  assert ((a + n - 1) / 4096 < 2 ^ 20) by (apply Z.div_lt_upper_bound; lia).
  assert (0 <= a / 4096) by (apply Z.div_pos; lia).
  rewrite u32_small, Z.div_mul by lia.
  destruct (pages_valid_spec (Z.to_nat ((a + n - 1) / 4096 - a / 4096)) (a / 4096)) as (b & E & Hb);
    [unfold is_u32; lia..|].
  rewrite Z2Nat.id in * by lia. replace (a / 4096 + ((a + n - 1) / 4096 - a / 4096)) with ((a + n - 1) / 4096) in * by lia.
  rewrite E. exists b. split; [done|]. rewrite Hb, mapped_range_pages by lia. intuition lia.
Qed.
End space.

(** ** Writes to user frames *)

Lemma phys_of_page sp a f : sp !! (a / 4096) = Some f -> phys_of sp a / 4096 = f.
Proof. intros E. unfold phys_of. rewrite E. apply in_page. apply Z.mod_pos_bound. lia. Qed.

(** Distinct addresses of one space are at distinct physical addresses. *)
Lemma phys_of_inj m cr3 sp a b :
  user_space m cr3 sp -> is_Some (sp !! (a / 4096)) -> is_Some (sp !! (b / 4096)) ->
  phys_of sp a = phys_of sp b -> a = b.
Proof.
  intros Hsp [f Ea] [g Eb] E. assert (Hfg : f = g) by (by rewrite <- (phys_of_page sp a f), <- (phys_of_page sp b g), E).
  subst g. pose proof (us_inj _ _ _ Hsp _ _ _ Ea Eb) as Hp. unfold phys_of in E. rewrite Ea, Eb in E. simpl in E.
  rewrite (Z.div_mod a 4096), (Z.div_mod b 4096) by lia. lia.
Qed.

(** A store into one of a space's frames does not change the space. *)
Lemma user_space_frame m m' cr3 sp f :
  user_space m cr3 sp -> (exists v, sp !! v = Some f) -> same_outside m m' (fun p => p = f) ->
  user_space m' cr3 sp.
Proof.
  intros Hsp [v Hv] Hs. destruct (us_own _ _ _ Hsp v f Hv) as [Hd Ht]. destruct (us_dir _ _ _ Hsp) as [k Hk].
  assert (Hw : forall di, 0 <= di < 1024 -> dir_word m' cr3 di = dir_word m cr3 di).
  { intros di Hdi. unfold dir_word. eapply same_outside_rd32; [exact Hs| |].
    - subst. apply in_page_aligned, quad_aligned.
    - subst. rewrite in_page by lia. rewrite Z.div_mul in Hd by lia. congruence. }
  constructor; try apply Hsp.
  - intros w Hwr. rewrite <- (us_walk _ _ _ Hsp w Hwr). pose proof (dir_index_range w Hwr).
    apply (lookup_same_words m m' cr3 w); [by apply Hw|]. intros Hp.
    eapply same_outside_rd32; [exact Hs| |].
    + rewrite pte_addr_page. apply in_page_aligned, quad_aligned.
    + pose proof (table_index_range w). rewrite pte_addr_page, in_page by lia. intros E. by apply (Ht (dir_index w)).
  - intros w g Hg. destruct (us_own _ _ _ Hsp w g Hg) as [H1 H2]. split; [done|].
    intros di Hdi. unfold table_page. rewrite Hw by done. by apply H2.
Qed.

Lemma same_outside_wr8 m a b : same_outside m (wr8 m a b) (fun p => p = a / 4096).
Proof. intros x Hx. rewrite rd8_wr8. destruct (Z.eqb_spec a x); [subst; done|done]. Qed.

(** [m'] is [m] with [src] stored at the user range from [a] on; nothing else
    of physical memory differs. *)
Definition stored (m m' : mem) (sp : gmap Z Z) (a : Z) (src : list Z) : Prop :=
  user_bytes m' sp a (length src) = u8 <$> src /\
  forall x, (forall i, 0 <= i < zlen src -> x <> phys_of sp (a + i)) -> rd8 m' x = rd8 m x.

Lemma user_bytes_cons m sp a n :
  user_bytes m sp a (S n) = rd8 m (phys_of sp a) :: user_bytes m sp (a + 1) n.
Proof.
  unfold user_bytes. cbn [seq fmap list_fmap]. rewrite Z.add_0_r. f_equal.
  rewrite <- fmap_S_seq, <- list_fmap_compose. apply list_fmap_ext. intros i x _. unfold compose.
  do 2 f_equal. lia.
Qed.

Lemma mapped_range_tail sp a n : mapped_range sp a (n + 1) -> mapped_range sp (a + 1) n.
Proof. intros H i Hi. replace (a + 1 + i) with (a + (i + 1)) by lia. apply H. lia. Qed.

Lemma to_user_loop_spec src : forall m cur sp a i,
  user_space m (p_cr3 cur) sp -> 0 <= a -> 0 <= i -> a + i + zlen src < 2 ^ 32 -> mapped_range sp (a + i) (zlen src) ->
  wp (to_user_loop cur a i src) (fun r m' =>
    r = 0 /\ stored m m' sp (a + i) src /\ user_space m' (p_cr3 cur) sp) m.
Proof.
  induction src as [|b src IH]; intros m cur sp a i Hsp Ha Hi Hlen Hmap.
  { apply wp_ret. split_and!; try done. }
  cbn [to_user_loop]. unfold zlen in *. cbn [length] in *.
  replace (Z.of_nat (S (length src))) with (Z.of_nat (length src) + 1) in * by lia.
  assert (Hm0 : is_Some (sp !! ((a + i) / 4096))) by (specialize (Hmap 0); rewrite Z.add_0_r in Hmap; apply Hmap; lia).
  unfold to_user_loop. fold to_user_loop. apply wp_bind, wp_gets.
  rewrite u32_small by lia. rewrite (user_kptr_eq m cur sp Hsp) by (unfold is_u32; lia).
  rewrite decide_True by done. pose proof (phys_of_pos m cur sp Hsp _ Hm0).
  replace (phys_of sp (a + i) =? 0) with false by lia.
  apply wp_bind, wp_modify. set (m1 := wr8 m (phys_of sp (a + i)) b).
  assert (Hsp1 : user_space m1 (p_cr3 cur) sp).
  { destruct Hm0 as [f Hf]. apply (user_space_frame m m1 _ _ f Hsp); [eauto|].
    rewrite <- (phys_of_page sp (a + i) f) by done. apply same_outside_wr8. }
  assert (Hmap1 : mapped_range sp (a + (i + 1)) (Z.of_nat (length src))).
  { rewrite Z.add_assoc. by apply mapped_range_tail. }
  eapply wp_mono; [apply (IH m1 cur sp a (i + 1)); (done || lia)|].
  intros r m' (-> & [Hb Ho] & Hsp'). split_and!; [done| |done]. unfold zlen in *. split.
  - cbn [length]. rewrite user_bytes_cons. rewrite <- Z.add_assoc, Hb. cbn [fmap list_fmap]. f_equal.
    rewrite Ho.
    + unfold m1. by rewrite rd8_wr8, Z.eqb_refl.
    + intros j Hj E. apply (phys_of_inj _ _ _ _ _ Hsp) in E; [lia|done|]. by apply Hmap1.
  - intros x Hx. rewrite Ho.
    + unfold m1. rewrite rd8_wr8. destruct (Z.eqb_spec (phys_of sp (a + i)) x) as [<-|]; [|done].
      exfalso. apply (Hx 0); [unfold zlen; cbn [length]; lia|]. by rewrite Z.add_0_r.
    + intros j Hj. replace (a + (i + 1) + j) with (a + i + (j + 1)) by lia.
      apply Hx. unfold zlen. cbn [length]. lia.
Qed.

Lemma from_user_loop_spec n : forall m cur sp a i dst,
  user_space m (p_cr3 cur) sp -> 0 <= a -> 0 <= i -> a + i + Z.of_nat n < 2 ^ 32 ->
  mapped_range sp (a + i) (Z.of_nat n) ->
  from_user_loop n cur a i dst m = Some ((0, dst ++ user_bytes m sp (a + i) n), m).
Proof.
  induction n as [|n IH]; intros m cur sp a i dst Hsp Ha Hi Hlen Hmap.
  { by rewrite app_nil_r. }
  replace (Z.of_nat (S n)) with (Z.of_nat n + 1) in * by lia.
  assert (Hm0 : is_Some (sp !! ((a + i) / 4096))) by (specialize (Hmap 0); rewrite Z.add_0_r in Hmap; apply Hmap; lia).
  cbn [from_user_loop]. unfold from_user_loop, mbind, cM_bind, gets. fold from_user_loop.
  rewrite u32_small by lia. rewrite (user_kptr_eq m cur sp Hsp) by (unfold is_u32; lia).
  rewrite decide_True by done. pose proof (phys_of_pos m cur sp Hsp _ Hm0).
  replace (phys_of sp (a + i) =? 0) with false by lia. cbv beta iota.
  rewrite (IH m cur sp a (i + 1)); [|done|lia|lia|lia|rewrite Z.add_assoc; by apply mapped_range_tail].
  by rewrite user_bytes_cons, <- app_assoc, Z.add_assoc.
Qed.

(** ** Strings *)

(** The characters [copy_user_str] takes from address [a] on: up to the NUL or
    [n] of them; [None] when it meets an unmapped byte. *)
Fixpoint user_string (m : mem) (sp : gmap Z Z) (a : Z) (n : nat) : option (list Z) :=
  match n with
  | O => Some []
  | S n' =>
      if decide (is_Some (sp !! (u32 a / 4096))) then
        let c := rd8 m (phys_of sp (u32 a)) in
        if c =? 0 then Some [] else cons c <$> user_string m sp (a + 1) n'
      else None
  end.

Lemma user_string_length m sp n : forall a s, user_string m sp a n = Some s -> (length s <= n)%nat.
Proof.
  induction n as [|n IH]; intros a s; simpl; [intros [= <-]; simpl; lia|].
  case_decide; [|done]. case_if; [intros [= <-]; simpl; lia|].
  destruct (user_string m sp (a + 1) n) as [s'|] eqn:E; [|done]. intros [= <-]. apply IH in E. simpl. lia.
Qed.

Lemma zset_middle {A} (pre post : list A) x v : zset (pre ++ x :: post) (zlen pre) v = pre ++ v :: post.
Proof.
  unfold zset, zlen. rewrite Nat2Z.id. rewrite <- (Nat.add_0_r (length pre)). by rewrite insert_app_r.
Qed.

Lemma zlen_snoc {A} (l : list A) x : zlen (l ++ [x]) = zlen l + 1.
Proof. unfold zlen. rewrite length_app. simpl. lia. Qed.

(** What the loop does to the part [rest] of the buffer it has not reached. *)
Definition str_result (m : mem) (sp : gmap Z Z) (a : Z) (n : nat) (rest : list Z) (r : Z) (rest' : list Z) : Prop :=
  length rest' = length rest /\ (rest' !!! n = 0 \/ rest' !!! n = rest !!! n) /\
  match user_string m sp a n with
  | Some s => r = 0 /\ exists tl, rest' = s ++ 0 :: tl
  | None => r = -1
  end.

Lemma user_str_loop_spec n : forall m cur sp a pre rest,
  user_space m (p_cr3 cur) sp -> (n < length rest)%nat ->
  exists r rest', user_str_loop n cur a (zlen pre) (pre ++ rest) m = Some ((r, pre ++ rest'), m) /\
    str_result m sp (a + zlen pre) n rest r rest'.
Proof.
  induction n as [|n IH]; intros m cur sp a pre rest Hsp Hn; (destruct rest as [|x rest]; simpl in Hn; [lia|]);
    unfold user_str_loop; fold user_str_loop.
  { exists 0, (0 :: rest). rewrite zset_middle. unfold str_result. simpl. eauto 10. }
  unfold mbind, cM_bind, gets. rewrite (user_kptr_eq m cur sp Hsp) by apply u32_range.
  unfold str_result. cbn [user_string]. case_decide as Hm.
  2:{ exists (-1), (x :: rest). simpl. auto. }
  pose proof (phys_of_pos m cur sp Hsp _ Hm). replace (phys_of sp (u32 (a + zlen pre)) =? 0) with false by lia.
  rewrite zset_middle. case_if.
  { exists 0, (0 :: rest). rewrite zset_middle. simpl. split; [done|]. split; [done|]. eauto. }
  set (c := rd8 m (phys_of sp (u32 (a + zlen pre)))) in *.
  destruct (IH m cur sp a (pre ++ [c]) rest Hsp) as (r & rest' & E & Hl & Hlast & Hs); [lia|].
  rewrite zlen_snoc, <- !app_assoc in E. simpl in E. rewrite E. exists r, (c :: rest').
  split; [done|]. split; [simpl; lia|]. split; [done|].
  rewrite zlen_snoc, Z.add_assoc in Hs. destruct (user_string m sp (a + zlen pre + 1) n) as [s|]; simpl; [|done].
  destruct Hs as [-> [tl ->]]. eauto.
Qed.

(** ** What the copies do *)

Definition range_ok (sp : gmap Z Z) (a n : Z) : Prop := 0 < n /\ a + n < 2 ^ 32 /\ mapped_range sp a n.

Lemma copy_from_user_spec m cur sp a n :
  user_space m (p_cr3 cur) sp -> is_u32 a -> is_u32 n ->
  exists r bytes, copy_from_user (Some cur) a n m = Some ((r, bytes), m) /\
    ((range_ok sp a n /\ r = 0 /\ bytes = user_bytes m sp a (Z.to_nat n)) \/
     (~ range_ok sp a n /\ r = -1 /\ bytes = [])).
Proof.
  intros Hsp Ha Hn. unfold copy_from_user, mbind, cM_bind.
  destruct (user_ptr_valid_spec m cur sp Hsp a n Ha Hn) as (b & -> & Hb). destruct b.
  - destruct (proj1 Hb eq_refl) as (H1 & H2 & H3). unfold is_u32 in *.
    rewrite (from_user_loop_spec (Z.to_nat n) m cur sp a 0 [] Hsp); rewrite ?Z.add_0_r, ?Z2Nat.id by lia; try lia; try done.
    eexists _, _. split; [done|]. left. done.
  - eexists _, _. split; [done|]. right. split; [|done]. intros H. by apply Hb in H.
Qed.

Lemma copy_to_user_spec m cur sp a src :
  user_space m (p_cr3 cur) sp -> is_u32 a -> is_u32 (zlen src) ->
  wp (copy_to_user (Some cur) a src) (fun r m' =>
    user_space m' (p_cr3 cur) sp /\
    ((range_ok sp a (zlen src) /\ r = 0 /\ stored m m' sp a src) \/
     (~ range_ok sp a (zlen src) /\ r = -1 /\ m' = m))) m.
Proof.
  intros Hsp Ha Hn. unfold copy_to_user. apply wp_bind.
  destruct (user_ptr_valid_spec m cur sp Hsp a (zlen src) Ha Hn) as (b & E & Hb).
  eapply wp_of_run; [exact E|]. destruct b.
  - destruct (proj1 Hb eq_refl) as (H1 & H2 & H3). unfold is_u32 in *.
    eapply wp_mono; [apply (to_user_loop_spec src m cur sp a 0 Hsp); rewrite ?Z.add_0_r; (done || lia)|].
    rewrite Z.add_0_r. intros r m' (-> & Hst & Hsp'). split; [done|]. left. done.
  - apply wp_ret. split; [done|]. right. split; [|done]. intros H. by apply Hb in H.
Qed.

Lemma copy_user_str_spec m cur sp a buf :
  user_space m (p_cr3 cur) sp -> buf <> [] ->
  exists r buf', copy_user_str cur a buf m = Some ((r, buf'), m) /\
    str_result m sp a (length buf - 1) buf r buf'.
Proof.
  intros Hsp Hb. destruct (user_str_loop_spec (length buf - 1) m cur sp a [] buf Hsp) as (r & buf' & E & Hr).
  - destruct buf; [done|simpl; lia].
  - exists r, buf'. split; [exact E|]. by rewrite Z.add_0_r in Hr.
Qed.

(** ** Example: a process with two mapped pages *)

Definition demo_dir : Z := 0x400000.
Definition demo_maps : pmm * mem * gmap Z Z :=
  let '(p0, m0, pd) := vmm_create_directory (pmm_init []) (v_mem (vmm_init boot_vmm)) in
  run_maps p0 m0 pd [(0x1000000, 0x500000); (0x1001000, 0x502000)] ∅.
Definition demo_mem : mem := demo_maps.1.2.
Definition demo_space : gmap Z Z := <[0x1001 := 0x502]> (<[0x1000 := 0x500]> ∅).
Definition demo_process : process := set_cr3 demo_dir blank_process.

Lemma demo_walk : space_refines demo_mem demo_dir demo_space.
Proof.
  unfold demo_mem, demo_maps.
  destruct (vmm_create_directory (pmm_init []) (v_mem (vmm_init boot_vmm))) as [[p0 m0] pd] eqn:Ec.
  assert (Hpd : pd = demo_dir) by (change pd with (snd (p0, m0, pd)); rewrite <- Ec; vm_compute; reflexivity).
  destruct (@create_directory_ok pmm pmm_allocator (pmm_init []) p0 (v_mem (vmm_init boot_vmm)) m0 pd) as (Hp0 & Hd & Hu & _ & Hw);
    [apply boot_client_ok|apply boot_kernel_dir_ok|exact Ec|by rewrite Hpd|].
  destruct (run_maps p0 m0 pd _ ∅) as [[p1 m1] sp] eqn:Er.
  assert (Hs : sp = demo_space).
  { change sp with (snd (p1, m1, sp)). rewrite <- Er.
    change (snd (let '(p0, m0, pd) := (p0, m0, pd) in
      run_maps p0 m0 pd [(0x1000000, 0x500000); (0x1001000, 0x502000)] ∅) = demo_space).
    rewrite <- Ec. vm_compute. reflexivity. }
  destruct (@run_maps_refines pmm pmm_allocator [(0x1000000, 0x500000); (0x1001000, 0x502000)] p0 m0 pd ∅ p1 m1 sp Hp0 Hd Hu) as (_ & _ & _ & H & _);
    [| | |exact Er|rewrite Hpd, Hs in H; exact H].
  - repeat constructor; unfold is_u32; simpl; lia.
  - intros w Hwr. rewrite lookup_empty. by apply Hw.
  - intros k. rewrite lookup_empty. intros [? ?]. done.
Qed.

Strategy 1000 [demo_mem demo_maps].

Definition demo_tables_apart (f : Z) : bool :=
  forallb (fun i => let w := dir_word demo_mem demo_dir (Z.of_nat i) in
    negb (has_flag w VMM_PRESENT && (frame_of w / 4096 =? f))) (seq 0 1024).

Lemma demo_user_space : user_space demo_mem demo_dir demo_space.
Proof.
  assert (Hf : forall v f, demo_space !! v = Some f -> v = 0x1000 /\ f = 0x500 \/ v = 0x1001 /\ f = 0x502).
  { intros v f. unfold demo_space. rewrite !lookup_insert_Some, lookup_empty. naive_solver. }
  constructor.
  - apply demo_walk.
  - exists 0x400. reflexivity.
  - intros v f H. destruct (Hf v f H) as [[_ ->]|[_ ->]]; lia.
  - intros v w f H1 H2. destruct (Hf v f H1) as [[-> ->]|[-> ->]], (Hf w _ H2) as [[-> E]|[-> E]]; done.
  - intros v f H. assert (Ht : demo_tables_apart f = true).
    { destruct (Hf v f H) as [[_ ->]|[_ ->]]; vm_compute; reflexivity. }
    split; [destruct (Hf v f H) as [[_ ->]|[_ ->]]; done|]. intros di Hdi Hp E.
    unfold demo_tables_apart in Ht. rewrite forallb_forall in Ht.
    specialize (Ht (Z.to_nat di)). rewrite in_seq, Z2Nat.id in Ht by lia. cbv zeta in Ht.
    unfold table_page in E. rewrite Hp, <- E, Z.eqb_refl in Ht.
    assert (Hc : negb (true && true) = true) by (apply Ht; lia). discriminate Hc.
Qed.

(** ** Properties *)

(** C31 (user_ptr_valid).  On the address space of the calling process the check
    terminates, changes nothing and answers yes exactly when the range is not
    empty, does not run past the end of the 32-bit address space and each of
    its bytes is mapped and user-accessible. *)
Theorem user_ptr_valid_exact (m : mem) (cur : process) (sp : gmap Z Z) (uaddr len : Z) :
  user_space m (p_cr3 cur) sp -> is_u32 uaddr -> is_u32 len ->
  exists b, user_ptr_valid (Some cur) uaddr len m = Some (b, m) /\
    (b = true <-> 0 < len /\ uaddr + len < 2 ^ 32 /\
       forall a, uaddr <= a < uaddr + len -> is_Some (sp !! (a / 4096))).
Proof.
  intros Hsp Ha Hn. destruct (user_ptr_valid_spec m cur sp Hsp uaddr len Ha Hn) as (b & E & Hb).
  exists b. split; [exact E|]. rewrite Hb. unfold mapped_range. split; intros (H1 & H2 & H3); split_and!; try done.
  - intros a Har. replace a with (uaddr + (a - uaddr)) by lia. apply H3. lia.
  - intros i Hi. apply H3. lia.
Qed.

Lemma user_ptr_valid_exact_witness :
  exists b, user_ptr_valid (Some demo_process) 0x1000ffe 8 demo_mem = Some (b, demo_mem) /\
    (b = true <-> 0 < 8 /\ 0x1000ffe + 8 < 2 ^ 32 /\
       forall a, 0x1000ffe <= a < 0x1000ffe + 8 -> is_Some (demo_space !! (a / 4096))).
Proof.
  apply (user_ptr_valid_exact demo_mem demo_process demo_space); [exact demo_user_space| |]; split; reflexivity || discriminate.
Defined.

(** (copy_from_user).  The copy is all or nothing: a valid range is
    delivered whole, exactly as the process has it in its memory, and for any
    other range -1 is returned with the kernel buffer untouched.  The check
    inside the byte loop never fires, and memory is never changed. *)
Theorem copy_from_user_all_or_nothing (m : mem) (cur : process) (sp : gmap Z Z) (usrc len : Z) :
  user_space m (p_cr3 cur) sp -> is_u32 usrc -> is_u32 len ->
  exists r kdst, copy_from_user (Some cur) usrc len m = Some ((r, kdst), m) /\
    ((range_ok sp usrc len /\ r = 0 /\ kdst = user_bytes m sp usrc (Z.to_nat len)) \/
     (~ range_ok sp usrc len /\ r = -1 /\ kdst = [])).
Proof. apply copy_from_user_spec. Qed.

Lemma copy_from_user_all_or_nothing_witness :
  exists r kdst, copy_from_user (Some demo_process) 0x1000fff 3 demo_mem = Some ((r, kdst), demo_mem) /\
    ((range_ok demo_space 0x1000fff 3 /\ r = 0 /\ kdst = user_bytes demo_mem demo_space 0x1000fff 3) \/
     (~ range_ok demo_space 0x1000fff 3 /\ r = -1 /\ kdst = [])).
Proof.
  apply (copy_from_user_all_or_nothing demo_mem demo_process demo_space); [exact demo_user_space| |];
    split; reflexivity || discriminate.
Defined.

(** C30 (copy_to_user).  A copy out of the kernel stores the buffer at the
    range, where the process then reads it, and changes no other byte of
    physical memory: no page table, no kernel data, no other process's frame.
    A range with an unmapped or kernel-only byte is refused before the first
    store. *)
Theorem copy_to_user_confined (m : mem) (cur : process) (sp : gmap Z Z) (udst : Z) (ksrc : list Z) :
  user_space m (p_cr3 cur) sp -> is_u32 udst -> is_u32 (zlen ksrc) ->
  wp (copy_to_user (Some cur) udst ksrc) (fun r m' =>
    user_space m' (p_cr3 cur) sp /\
    ((range_ok sp udst (zlen ksrc) /\ r = 0 /\
      user_bytes m' sp udst (length ksrc) = u8 <$> ksrc /\
      forall x, (forall i, 0 <= i < zlen ksrc -> x <> phys_of sp (udst + i)) -> rd8 m' x = rd8 m x) \/
     (~ range_ok sp udst (zlen ksrc) /\ r = -1 /\ m' = m))) m.
Proof. apply copy_to_user_spec. Qed.

Lemma copy_to_user_confined_witness :
  wp (copy_to_user (Some demo_process) 0x1000fff [1; 2; 3]) (fun r m' =>
    user_space m' demo_dir demo_space /\
    ((range_ok demo_space 0x1000fff 3 /\ r = 0 /\
      user_bytes m' demo_space 0x1000fff 3 = u8 <$> [1; 2; 3] /\
      forall x, (forall i, 0 <= i < 3 -> x <> phys_of demo_space (0x1000fff + i)) -> rd8 m' x = rd8 demo_mem x) \/
     (~ range_ok demo_space 0x1000fff 3 /\ r = -1 /\ m' = demo_mem))) demo_mem.
Proof.
  apply (copy_to_user_confined demo_mem demo_process demo_space 0x1000fff [1; 2; 3]); [exact demo_user_space| |];
    split; reflexivity || discriminate.
Defined.

(** The copies run: three bytes across a page boundary, and a refused one. *)
Example copy_out_runs :
  option_map fst (copy_to_user (Some demo_process) 0x1000fff [1; 2; 3] demo_mem) = Some 0 /\
  option_map fst (copy_to_user (Some demo_process) 0x1001fff [1; 2] demo_mem) = Some (-1).
Proof. split; vm_compute; reflexivity. Qed.
