(* ===== verification/Ramfs.v ===== *)
(** * Ramfs ([kernel/ramfs.c], [kernel/ramfs.h])

    The read-only program image GRUB loads: a count, a table of 40-byte
    entries (32-byte name, offset, size) and the file data.  The image is the
    list of the bytes from [ramfs_base] on; reading outside it has no defined
    behaviour.  [ramfs_entries] always points 4 bytes past [ramfs_base]. *)

From Stdlib Require Import ZArith Lia ZifyBool.
From stdpp Require Import base tactics numbers list option.
From S2P Require Import Prelude FatName.
Local Open Scope Z_scope.

Record ramfs := Ramfs {
  ramfs_base : option (list Z);
  ramfs_size : Z;
  ramfs_nfiles : Z
}.

Local Notation M := (cM ramfs).

(** A 32-bit load and the bytes from an offset on. *)
Definition img_word (img : list Z) (o : Z) : M Z :=
  if (0 <=? o) && (o + 4 <=? zlen img) then mret (le32 img o) else undefined.

Definition ramfs_init (data : option (list Z)) (size : Z) : M () :=
  match data with
  | None => mret ()
  | Some img =>
      if size <? 4 then mret ()
      else
        n ← img_word img 0;
        modify (fun _ => Ramfs (Some img) size n)
  end.

(** [while ( *a && *a == *b) { a++; b++; }] and [*a == *b]: [a] is a C string,
    [b] the memory from the entry's name on. *)
Fixpoint same_string (a b : list Z) : M bool :=
  match b with
  | [] => undefined
  | y :: b' =>
      match a with
      | [] => mret (y =? 0)
      | x :: a' => if x =? y then same_string a' b' else mret false
      end
  end.

Definition entry_at (i : Z) : Z := 4 + 40 * i.

(** The loop over the entries from [i] on. *)
Fixpoint find_entry (k : nat) (img name : list Z) (i : Z) : M (option (Z * Z)) :=
  match k with
  | O => mret None
  | S k' =>
      same ← same_string name (drop (Z.to_nat (entry_at i)) img);
      if negb same then find_entry k' img name (i + 1)
      else
        offset ← img_word img (entry_at i + 32);
        size ← img_word img (entry_at i + 36);
        total ← gets ramfs_size;
        if total <? u32 (offset + size) then mret None else mret (Some (offset, size))
  end.

(** Offset and size of the file, [None] for the C result 0. *)
Definition ramfs_find (name : option (list Z)) : M (option (Z * Z)) :=
  base ← gets ramfs_base;
  n ← gets ramfs_nfiles;
  match base, name with
  | Some img, Some name => find_entry (Z.to_nat n) img name 0
  | _, _ => mret None
  end.

#[global] Arguments same_string : simpl never.
#[global] Arguments find_entry : simpl never.
#[global] Arguments img_word : simpl never.

(** ** Well-formed images *)

Record ramfs_entry := RamfsEntry { e_name : list Z; e_offset : Z; e_size : Z }.

Definition entry_bytes (e : ramfs_entry) : list Z :=
  e_name e ++ replicate (32 - length (e_name e)) 0 ++ bytes32 (e_offset e) ++ bytes32 (e_size e).

Definition table_bytes (es : list ramfs_entry) : list Z := concat (map entry_bytes es).

Definition pack (es : list ramfs_entry) (data : list Z) : list Z := bytes32 (zlen es) ++ table_bytes es ++ data.

Definition entry_wf (size : Z) (e : ramfs_entry) : Prop :=
  (length (e_name e) < 32)%nat /\ 0 ∉ e_name e /\ 0 <= e_offset e /\ 0 <= e_size e /\ e_offset e + e_size e <= size.

(** The mounted image [es], [data]. *)
Record ramfs_holds (r : ramfs) (es : list ramfs_entry) (data : list Z) : Prop := {
  rh_base : ramfs_base r = Some (pack es data);
  rh_size : ramfs_size r = zlen (pack es data);
  rh_small : zlen (pack es data) < 2 ^ 31;
  rh_nfiles : ramfs_nfiles r = zlen es;
  rh_entries : Forall (entry_wf (zlen (pack es data))) es
}.

Definition find_ref (es : list ramfs_entry) (name : list Z) : option (Z * Z) :=
  (fun e => (e_offset e, e_size e)) <$> List.find (fun e => bool_decide (e_name e = name)) es.

(** ** Lemmas *)

Lemma entry_bytes_length size e : entry_wf size e -> length (entry_bytes e) = 40%nat.
Proof.
  intros (Hn & _). unfold entry_bytes, bytes32, bytes16. rewrite !length_app, length_replicate. simpl. lia.
Qed.

Lemma same_string_spec name stored rest r :
  0 ∉ name -> 0 ∉ stored ->
  same_string name (stored ++ 0 :: rest) r = Some (bool_decide (stored = name), r).
Proof.
  revert stored. induction name as [|x name IH]; intros [|y stored] Hn Hs; unfold same_string; fold same_string;
    cbn [app]; rewrite ?not_elem_of_cons in *.
  - done.
  - destruct (Z.eqb_spec y 0); [naive_solver|]. by rewrite bool_decide_false.
  - destruct (Z.eqb_spec x 0); [naive_solver|]. by rewrite bool_decide_false.
  - destruct (Z.eqb_spec x y) as [->|Hne].
    + rewrite IH by tauto. do 2 f_equal. apply bool_decide_ext. naive_solver.
    + rewrite bool_decide_false by naive_solver. done.
Qed.

Lemma le32_app pre v post :
  0 <= v < 2 ^ 32 -> le32 (pre ++ bytes32 v ++ post) (zlen pre) = v.
Proof.
  intros Hv. unfold le32, le16, zget, zlen.
  assert (E : forall k, 0 <= k < 4 -> (pre ++ bytes32 v ++ post) !!! Z.to_nat (Z.of_nat (length pre) + k) =
    (bytes32 v ++ post) !!! Z.to_nat k).
  { intros k Hk. rewrite lookup_total_app_r by lia. f_equal. lia. }
  replace (Z.of_nat (length pre)) with (Z.of_nat (length pre) + 0) at 1 by lia.
  rewrite <- !Z.add_assoc, !E by lia. unfold bytes32, bytes16. simpl lookup_total.
  Z.to_euclidean_division_equations. lia.
Qed.

Lemma table_bytes_length size es : Forall (entry_wf size) es -> length (table_bytes es) = (40 * length es)%nat.
Proof.
  induction 1 as [|e es He _ IH]; [done|]. unfold table_bytes in *. cbn [map concat length].
  rewrite length_app, IH, (entry_bytes_length size e He). lia.
Qed.

Lemma pack_split size fst_es e rest data :
  Forall (entry_wf size) fst_es ->
  exists pre, pack (fst_es ++ e :: rest) data = pre ++ entry_bytes e ++ table_bytes rest ++ data /\
    zlen pre = entry_at (zlen fst_es).
Proof.
  intros Hd. exists (bytes32 (zlen (fst_es ++ e :: rest)) ++ table_bytes fst_es). split.
  - unfold pack, table_bytes. rewrite map_app, concat_app. cbn [map concat]. by rewrite <- !app_assoc.
  - unfold zlen, entry_at. rewrite length_app, (table_bytes_length size fst_es Hd). unfold bytes32, bytes16. simpl length. lia.
Qed.

Lemma img_word_app pre v post r : 0 <= v < 2 ^ 32 -> img_word (pre ++ bytes32 v ++ post) (zlen pre) r = Some (v, r).
Proof.
  intros Hv. unfold img_word. rewrite le32_app by done.
  replace (0 <=? zlen pre) with true by (unfold zlen; lia).
  replace (zlen pre + 4 <=? zlen (pre ++ bytes32 v ++ post)) with true
    by (unfold zlen; rewrite !length_app; unfold bytes32, bytes16; simpl; lia).
  done.
Qed.

(** One entry: its name, offset and size are what the loop reads. *)
Lemma entry_reads size fst_es e rest data name r :
  Forall (entry_wf size) fst_es -> entry_wf size e -> size < 2 ^ 31 -> 0 ∉ name ->
  let img := pack (fst_es ++ e :: rest) data in
  same_string name (drop (Z.to_nat (entry_at (zlen fst_es))) img) r = Some (bool_decide (e_name e = name), r) /\
  img_word img (entry_at (zlen fst_es) + 32) r = Some (e_offset e, r) /\
  img_word img (entry_at (zlen fst_es) + 36) r = Some (e_size e, r).
Proof.
  intros Hd (Hl & Hn & Ho & Hs & Ht) Hsz Hname. cbv zeta.
  destruct (pack_split size fst_es e rest data Hd) as (pre & E & Hp). rewrite E, <- Hp. unfold zlen in *.
  set (z := replicate (32 - length (e_name e)) 0).
  assert (Hz : length (e_name e ++ z) = 32%nat) by (unfold z; rewrite length_app, length_replicate; lia).
  split_and!.
  - rewrite Nat2Z.id, drop_app_length. unfold entry_bytes.
    replace (32 - length (e_name e))%nat with (S (31 - length (e_name e))) by lia. cbn [replicate].
    rewrite <- !app_assoc. cbn [app]. by apply same_string_spec.
  - unfold entry_bytes. fold z.
    replace (pre ++ (e_name e ++ z ++ bytes32 (e_offset e) ++ bytes32 (e_size e)) ++ table_bytes rest ++ data)
      with ((pre ++ e_name e ++ z) ++ bytes32 (e_offset e) ++ (bytes32 (e_size e) ++ table_bytes rest ++ data))
      by (by rewrite <- !app_assoc).
    replace (Z.of_nat (length pre) + 32) with (zlen (pre ++ e_name e ++ z)) by (unfold zlen; rewrite length_app, Hz; lia).
    apply img_word_app. lia.
  - unfold entry_bytes. fold z.
    replace (pre ++ (e_name e ++ z ++ bytes32 (e_offset e) ++ bytes32 (e_size e)) ++ table_bytes rest ++ data)
      with ((pre ++ e_name e ++ z ++ bytes32 (e_offset e)) ++ bytes32 (e_size e) ++ (table_bytes rest ++ data))
      by (by rewrite <- !app_assoc).
    replace (Z.of_nat (length pre) + 36) with (zlen (pre ++ e_name e ++ z ++ bytes32 (e_offset e)))
      by (unfold zlen; rewrite length_app, (app_assoc (e_name e)), length_app, Hz; unfold bytes32, bytes16; simpl; lia).
    apply img_word_app. lia.
Qed.

Lemma find_entry_spec es data r name rest : forall fst_es,
  es = fst_es ++ rest -> ramfs_holds r es data -> 0 ∉ name ->
  find_entry (length rest) (pack es data) name (zlen fst_es) r = Some (find_ref rest name, r).
Proof.
  induction rest as [|e rest IH]; intros fst_es Hes Hr Hn; [done|].
  pose proof (rh_entries _ _ _ Hr) as Hwf. rewrite Hes in Hwf at 2. apply Forall_app in Hwf as [Hd Hwf].
  apply Forall_cons_1 in Hwf as [He _].
  destruct (entry_reads (zlen (pack es data)) fst_es e rest data name r) as (E1 & E2 & E3);
    [done|done|apply Hr|done|]. rewrite <- Hes in *.
  cbn [length]. unfold find_entry. fold find_entry. unfold mbind, cM_bind. rewrite E1.
  unfold find_ref. cbn [List.find]. case_bool_decide as Hname; cbn [negb].
  - rewrite E2, E3. unfold gets. rewrite (rh_size _ _ _ Hr). destruct He as (_ & _ & ? & ? & ?).
    pose proof (rh_small _ _ _ Hr). rewrite u32_small by lia.
    replace (zlen (pack es data) <? e_offset e + e_size e) with false by lia. done.
  - replace (zlen fst_es + 1) with (zlen (fst_es ++ [e])) by (unfold zlen; rewrite length_app; simpl; lia).
    apply IH; [by rewrite <- app_assoc|done|done].
Qed.

Lemma ramfs_find_spec r es data name :
  ramfs_holds r es data -> 0 ∉ name -> ramfs_find (Some name) r = Some (find_ref es name, r).
Proof.
  intros Hr Hn. unfold ramfs_find, mbind, cM_bind, gets. rewrite (rh_base _ _ _ Hr), (rh_nfiles _ _ _ Hr).
  unfold zlen. rewrite Nat2Z.id. by apply (find_entry_spec es data r name es []).
Qed.

(** ** Properties *)

(** (ramfs).  [ramfs_init] on an image laid out as [ramfs.h] says, followed
    by [ramfs_find], gives the offset and size of the first entry of that name,
    and 0 exactly when no entry has it; nothing outside the image is read. *)
Theorem ramfs_init_find (r0 : ramfs) (es : list ramfs_entry) (data name : list Z) :
  let img := pack es data in
  zlen img < 2 ^ 31 -> Forall (entry_wf (zlen img)) es -> 0 ∉ name ->
  exists r, ramfs_init (Some img) (zlen img) r0 = Some ((), r) /\
    ramfs_find (Some name) r = Some (find_ref es name, r).
Proof.
  cbv zeta. intros Hs Hwf Hn. exists (Ramfs (Some (pack es data)) (zlen (pack es data)) (zlen es)).
  assert (Hes : 4 + zlen es <= zlen (pack es data)).
  { unfold pack, zlen. rewrite !length_app, (table_bytes_length _ es Hwf). unfold bytes32, bytes16. simpl. lia. }
  assert (0 <= zlen es) by (unfold zlen; lia). split.
  - unfold ramfs_init. replace (zlen (pack es data) <? 4) with false by lia. unfold mbind, cM_bind.
    unfold pack at 1. rewrite (img_word_app [] (zlen es) (table_bytes es ++ data)) by lia. done.
  - apply (ramfs_find_spec _ es data); [by constructor|done].
Qed.

Definition shell_name : list Z := [115; 104; 101; 108; 108].
Definition shell_entry : ramfs_entry := RamfsEntry shell_name 44 3.

Lemma ramfs_init_find_witness :
  exists r, ramfs_init (Some (pack [shell_entry] [7; 8; 9])) 47 (Ramfs None 0 0) = Some ((), r) /\
    ramfs_find (Some shell_name) r = Some (find_ref [shell_entry] shell_name, r).
Proof.
  apply (ramfs_init_find (Ramfs None 0 0) [shell_entry] [7; 8; 9] shell_name).
  - reflexivity.
  - constructor; [|constructor]. split_and!; [simpl; lia| |cbn; lia|cbn; lia|vm_compute; discriminate].
    unfold shell_entry, shell_name. cbn [e_name]. intros H. repeat (apply elem_of_cons in H as [H|H]; [discriminate H|]). by apply not_elem_of_nil in H.
  - unfold shell_name. intros H. repeat (apply elem_of_cons in H as [H|H]; [discriminate H|]). by apply not_elem_of_nil in H.
Defined.

(** (ramfs).  The "corrupted entry" test adds offset and size in 32 bits: an
    entry whose sum wraps round is accepted, although the file it describes
    lies outside the image. *)
Theorem ramfs_corrupt_entry_accepted :
  let img := pack [RamfsEntry shell_name 0xFFFFFFF0 0x20] [] in
  let r := Ramfs (Some img) 44 1 in
  ramfs_init (Some img) (zlen img) (Ramfs None 0 0) = Some ((), r) /\
  ramfs_find (Some shell_name) r = Some (Some (0xFFFFFFF0, 0x20), r) /\ zlen img = 44.
Proof. split_and!; vm_compute; reflexivity. Qed.
