(* ===== verification/Vfs.v ===== *)
(** * File descriptors and the VFS dispatcher ([kernel/fs/vfs.c], [vfs.h])

    One descriptor type over three backends: the ramfs image, the FAT16 volume
    and the pipe pool.  An operation takes the descriptor it is given a pointer
    to and returns its new value (the pointer is never NULL in the sources).
    Reading or writing a pipe may block: these operations return the [turn] of
    the pipe operation they call. *)

From Stdlib Require Import ZArith Lia ZifyBool.
From stdpp Require Import base tactics numbers list option gmap.
From S2P Require Import Prelude FatName Fat FatDir FatFile Ramfs Mem Process Pipe.
Local Open Scope Z_scope.

Inductive vfs_backend := VFS_NONE | VFS_RAMFS | VFS_FAT16 | VFS_PIPE_READ | VFS_PIPE_WRITE.

#[export] Instance vfs_backend_eq_dec : EqDecision vfs_backend.
Proof. solve_decision. Defined.

Record vfs_fd := VfsFd {
  f_used : bool;
  f_backend : vfs_backend;
  f_first : Z;
  f_size : Z;
  f_pos : Z;
  f_parent_cluster : Z;
  f_name : list Z
}.

Definition blank_fd : vfs_fd := VfsFd false VFS_NONE 0 0 0 0 (replicate 32 0).
#[export] Instance vfs_fd_inhabited : Inhabited vfs_fd := populate blank_fd.

Definition set_used (b : bool) (f : vfs_fd) : vfs_fd :=
  VfsFd b (f_backend f) (f_first f) (f_size f) (f_pos f) (f_parent_cluster f) (f_name f).
Definition set_pos (pos : Z) (f : vfs_fd) : vfs_fd :=
  VfsFd (f_used f) (f_backend f) (f_first f) (f_size f) pos (f_parent_cluster f) (f_name f).
Definition set_fd_name (name : list Z) (f : vfs_fd) : vfs_fd :=
  VfsFd (f_used f) (f_backend f) (f_first f) (f_size f) (f_pos f) (f_parent_cluster f) name.

(** The state the three backends keep. *)
Record vfs {D : Type} := Vfs {
  v_ram : ramfs;
  v_fat : volume D;
  v_pipes : kpipes
}.
Arguments vfs : clear implicits.

Definition is_pipe_end (b : vfs_backend) (idx : Z) (f : vfs_fd) : bool :=
  f_used f && bool_decide (f_backend f = b) && (f_first f =? idx).

Section vfs.
Context {D : Type} `{BlockDevice D}.
Local Notation M := (cM (vfs D)).

Definition put_ram (r : ramfs) (v : vfs D) : vfs D := Vfs D r (v_fat v) (v_pipes v).
Definition put_fat (s : volume D) (v : vfs D) : vfs D := Vfs D (v_ram v) s (v_pipes v).
Definition put_pipes (k : kpipes) (v : vfs D) : vfs D := Vfs D (v_ram v) (v_fat v) k.

Definition on_ram {A} (m : cM ramfs A) : M A := zoom v_ram put_ram m.
Definition on_fat {A} (m : cM (volume D) A) : M A := zoom v_fat put_fat m.
Definition on_pipes (f : kpipes -> kpipes) : M () := modify (fun v => put_pipes (f (v_pipes v)) v).

(** ** Names *)

Definition vfs_store_name (f : vfs_fd) (name : list Z) : vfs_fd :=
  set_fd_name (copy_chars (f_name f) name 0 31) f.

(** The part of [path] after its last slash; [last] is the candidate so far. *)
Fixpoint final_component (last path : list Z) : list Z :=
  match path with
  | [] => last
  | c :: p => final_component (if c =? SLASH then p else last) p
  end.

Definition vfs_store_final_component (f : vfs_fd) (path : list Z) : vfs_fd :=
  vfs_store_name f (final_component path path).

(** ** Opening *)

Definition opened (f : vfs_fd) (b : vfs_backend) (first size parent : Z) : vfs_fd :=
  VfsFd true b first size 0 parent (f_name f).

Definition vfs_open (cwd_cluster : Z) (name : option (list Z)) (f : vfs_fd) : M (Z * vfs_fd) :=
  match name with
  | None => mret (-1, f)
  | Some path =>
      r ← on_ram (ramfs_find name);
      match r with
      | Some (off, sz) => mret (0, vfs_store_name (opened f VFS_RAMFS off sz 0) path)
      | None =>
          ready ← on_fat fat16_available;
          if negb ready then mret (-1, f)
          else
            r ← on_fat (fat16_find cwd_cluster name);
            match r with
            | Found (cluster, size, parent) =>
                mret (0, vfs_store_final_component (opened f VFS_FAT16 cluster size parent) path)
            | _ => mret (-1, f)
            end
      end
  end.

Definition vfs_create (cwd_cluster : Z) (name : option (list Z)) (f : vfs_fd) : M (Z * vfs_fd) :=
  match name with
  | None => mret (-1, f)
  | Some path =>
      r ← vfs_open cwd_cluster name f;
      let '(rc, f) := r in
      if rc =? 0 then mret (0, f)
      else
        ready ← on_fat fat16_available;
        if negb ready then mret (-1, f)
        else
          r ← on_fat (fat16_create cwd_cluster name);
          match r with
          | None => mret (-1, f)
          | Some parent =>
              r ← on_fat (fat16_find cwd_cluster name);
              match r with
              | Found (cluster, size, _) =>
                  mret (0, vfs_store_final_component (opened f VFS_FAT16 cluster size parent) path)
              | _ => mret (-1, f)
              end
          end
  end.

(** ** Reading and writing *)

(** [len] bytes of the image from offset [o]. *)
Definition ram_bytes (img : list Z) (o len : Z) : M (list Z) :=
  if (0 <=? o) && (o + len <=? zlen img) then mret (sub img (Z.to_nat o) (Z.to_nat len)) else undefined.

(** The result, the bytes stored in [buf], and the descriptor. *)
Definition vfs_read (f : vfs_fd) (has_buf : bool) (len : Z) : M (turn (Z * list Z) * vfs_fd) :=
  if negb (f_used f) || negb has_buf || (len =? 0) then mret (Return (-1, []), f)
  else
    match f_backend f with
    | VFS_RAMFS =>
        base ← gets (fun v => ramfs_base (v_ram v));
        match base with
        | None => mret (Return (-1, []), f)
        | Some img =>
            let avail := u32 (f_size f - f_pos f) in
            if avail =? 0 then mret (Return (0, []), f)
            else
              let len := if avail <? len then avail else len in
              out ← ram_bytes img (u32 (f_first f + f_pos f)) len;
              mret (Return (len, out), set_pos (u32 (f_pos f + len)) f)
        end
    | VFS_FAT16 =>
        r ← on_fat (fat16_read_at (f_first f) (f_pos f) len (f_size f));
        let '(n, out) := r in
        mret (Return (n, out), if 0 <? n then set_pos (u32 (f_pos f + n)) f else f)
    | VFS_PIPE_READ =>
        k ← gets v_pipes;
        let '(k, t) := pipe_read k (f_first f) has_buf len in
        modify (put_pipes k);; mret (t, f)
    | _ => mret (Return (-1, []), f)
    end.

(** [written] bytes of [buf] have already gone into a pipe in earlier turns. *)
Definition vfs_write (f : vfs_fd) (buf : option (list Z)) (len written : Z) : M (turn Z * vfs_fd) :=
  if negb (f_used f) then mret (Return (-1), f)
  else
    match f_backend f with
    | VFS_PIPE_WRITE =>
        k ← gets v_pipes;
        let '(k, t) := pipe_write k (f_first f) buf written in
        modify (put_pipes k);; mret (t, f)
    | VFS_FAT16 =>
        if len =? 0 then mret (Return 0, f)
        else
          r ← on_fat (fat16_write_at (f_parent_cluster f) (Some (until_nul (f_name f))) (f_pos f) buf len);
          let '(n, first, size) := r in
          if n <? 0 then mret (Return (-1), f)
          else
            mret (Return (if n =? len then 0 else -1),
                  VfsFd (f_used f) (f_backend f) first size (u32 (f_pos f + n)) (f_parent_cluster f) (f_name f))
    | _ => mret (Return (-1), f)
    end.

Definition vfs_write_all (f : vfs_fd) (buf : option (list Z)) (len : Z) : M Z :=
  if negb (f_used f) || negb (bool_decide (f_backend f = VFS_FAT16)) then mret (-1)
  else
    ok ← on_fat (fat16_write_file (f_parent_cluster f) (Some (until_nul (f_name f))) buf len);
    mret (if (ok : bool) then 0 else -1).

(** ** Closing and duplicating *)

Definition vfs_close (f : vfs_fd) : M vfs_fd :=
  (if f_used f then
     match f_backend f with
     | VFS_PIPE_READ => on_pipes (fun k => pipe_release_read k (f_first f))
     | VFS_PIPE_WRITE => on_pipes (fun k => pipe_release_write k (f_first f))
     | _ => mret ()
     end
   else mret ());;
  mret (set_used false f).

Definition vfs_dup (f : vfs_fd) : M () :=
  if negb (f_used f) then mret ()
  else
    match f_backend f with
    | VFS_PIPE_READ => on_pipes (fun k => pipe_add_read_ref k (f_first f))
    | VFS_PIPE_WRITE => on_pipes (fun k => pipe_add_write_ref k (f_first f))
    | _ => mret ()
    end.
End vfs.

#[global] Arguments vfs_open : simpl never.
#[global] Arguments vfs_create : simpl never.
#[global] Arguments vfs_read : simpl never.
#[global] Arguments vfs_write : simpl never.
#[global] Arguments vfs_close : simpl never.
#[global] Arguments vfs_dup : simpl never.
