(* ===== verification/Keyboard.v ===== *)
(** * Keyboard driver ([kernel/keyboard.c])

    The interrupt handler turns PS/2 set-1 scancodes into characters and raw
    codes and puts them in two 256-entry rings with 8-bit indices; the reading
    side takes them out without blocking.  The byte the handler reads from port
    0x60 is its argument. *)

From Stdlib Require Import ZArith Lia ZifyBool.
From stdpp Require Import base tactics numbers list option.
From S2P Require Import Prelude.
Local Open Scope Z_scope.

Definition scancode_map : list Z :=
  [0; 27; 49; 50; 51; 52; 53; 54; 55; 56; 57; 48; 45; 61;
   8; 9; 113; 119; 101; 114; 116; 121; 117; 105; 111; 112; 91; 93;
   10; 0; 97; 115; 100; 102; 103; 104; 106; 107; 108; 59; 39; 96;
   0; 92; 122; 120; 99; 118; 98; 110; 109; 44; 46; 47; 0; 42;
   0; 32; 0; 0; 0; 0; 0; 0; 0; 0; 0; 0; 0; 0;
   0; 0; 0; 0; 0; 0; 0; 0; 0; 0; 0; 0; 0; 0;
   0; 0; 0; 0; 0; 0; 0; 0; 0; 0; 0; 0; 0; 0;
   0; 0; 0; 0; 0; 0; 0; 0; 0; 0; 0; 0; 0; 0;
   0; 0; 0; 0; 0; 0; 0; 0; 0; 0; 0; 0; 0; 0;
   0; 0].

Definition scancode_map_shift : list Z :=
  [0; 27; 33; 64; 35; 36; 37; 94; 38; 42; 40; 41; 95; 43;
   8; 9; 81; 87; 69; 82; 84; 89; 85; 73; 79; 80; 123; 125;
   10; 0; 65; 83; 68; 70; 71; 72; 74; 75; 76; 58; 34; 126;
   0; 124; 90; 88; 67; 86; 66; 78; 77; 60; 62; 63; 0; 42;
   0; 32; 0; 0; 0; 0; 0; 0; 0; 0; 0; 0; 0; 0;
   0; 0; 0; 0; 0; 0; 0; 0; 0; 0; 0; 0; 0; 0;
   0; 0; 0; 0; 0; 0; 0; 0; 0; 0; 0; 0; 0; 0;
   0; 0; 0; 0; 0; 0; 0; 0; 0; 0; 0; 0; 0; 0;
   0; 0; 0; 0; 0; 0; 0; 0; 0; 0; 0; 0; 0; 0;
   0; 0].

Definition KB_BUFFER_SIZE : Z := 256.

(** A ring: the array and its [uint8_t] head and tail. *)
Record ring := Ring { q_buf : list Z; q_head : Z; q_tail : Z }.

Definition ring_push (q : ring) (x : Z) : ring :=
  let next := u8 ((q_head q + 1) mod KB_BUFFER_SIZE) in
  if next =? q_tail q then q else Ring (q_buf q).[q_head q := x] next (q_tail q).

Definition ring_empty (q : ring) : bool := q_head q =? q_tail q.

Definition ring_pop (q : ring) : Z * ring :=
  ((q_buf q).[q_tail q], Ring (q_buf q) (q_head q) (u8 ((q_tail q + 1) mod KB_BUFFER_SIZE))).

Record kbd := Kbd {
  kb : ring;               (** [kb_buffer], [kb_head], [kb_tail] *)
  kb_raw : ring;           (** [kb_raw_buf], [kb_raw_head], [kb_raw_tail] *)
  ctrl_pressed : bool;
  shift_pressed : bool
}.

Definition keyboard_flush (k : kbd) : kbd :=
  Kbd (Ring (q_buf (kb k)) 0 0) (Ring (q_buf (kb_raw k)) 0 0) (ctrl_pressed k) (shift_pressed k).

(** The character of a key press, 0 for none. *)
Definition key_char (k : kbd) (scancode : Z) : Z :=
  if ctrl_pressed k && (scancode =? 0x2E) then 3
  else if shift_pressed k then scancode_map_shift.[Z.land scancode 0x7F]
  else scancode_map.[Z.land scancode 0x7F].

Definition key_raw (k : kbd) (scancode : Z) : Z :=
  u16 (Z.lor (Z.lor scancode (if ctrl_pressed k then 0x100 else 0)) (if shift_pressed k then 0x200 else 0)).

Definition keyboard_callback (k : kbd) (scancode : Z) : kbd :=
  if scancode =? 0x1D then Kbd (kb k) (kb_raw k) true (shift_pressed k)
  else if scancode =? 0x9D then Kbd (kb k) (kb_raw k) false (shift_pressed k)
  else if (scancode =? 0x2A) || (scancode =? 0x36) then Kbd (kb k) (kb_raw k) (ctrl_pressed k) true
  else if (scancode =? 0xAA) || (scancode =? 0xB6) then Kbd (kb k) (kb_raw k) (ctrl_pressed k) false
  else if negb (Z.land scancode 0x80 =? 0) then k
  else
    let c := key_char k scancode in
    let raw := ring_push (kb_raw k) (key_raw k scancode) in
    Kbd (if c =? 0 then kb k else ring_push (kb k) c) raw (ctrl_pressed k) (shift_pressed k).

(** [None] while the loop of [keyboard_getchar] would keep halting. *)
Definition keyboard_getchar (k : kbd) : option (Z * kbd) :=
  if ring_empty (kb k) then None
  else let '(c, q) := ring_pop (kb k) in Some (c, Kbd q (kb_raw k) (ctrl_pressed k) (shift_pressed k)).

Definition keyboard_getchar_nowait (k : kbd) : Z * kbd :=
  if ring_empty (kb k) then (-1, k)
  else let '(c, q) := ring_pop (kb k) in (u8 c, Kbd q (kb_raw k) (ctrl_pressed k) (shift_pressed k)).

Definition keyboard_haschar (k : kbd) : bool := negb (ring_empty (kb k)).

Definition keyboard_raw_nowait (k : kbd) : Z * kbd :=
  if ring_empty (kb_raw k) then (-1, k)
  else let '(r, q) := ring_pop (kb_raw k) in (r, Kbd (kb k) q (ctrl_pressed k) (shift_pressed k)).

(** The zero-initialised driver. *)
Definition kbd0 : kbd := Kbd (Ring (replicate 256 0) 0 0) (Ring (replicate 256 0) 0 0) false false.
#[export] Instance kbd_inhabited : Inhabited kbd := populate kbd0.

(** ** The queue a ring implements *)

Record ring_ok (q : ring) : Prop := {
  ro_buf : length (q_buf q) = 256%nat;
  ro_head : 0 <= q_head q < 256;
  ro_tail : 0 <= q_tail q < 256
}.

Definition ring_count (q : ring) : Z := (q_head q - q_tail q) mod 256.
Definition items (q : ring) : list Z :=
  (fun j => (q_buf q).[(q_tail q + Z.of_nat j) mod 256]) <$> seq 0 (Z.to_nat (ring_count q)).

(** A queue of at most 255 entries that drops what does not fit. *)
Definition enqueue (l : list Z) (x : Z) : list Z := if zlen l <? 255 then l ++ [x] else l.

Lemma items_length q : zlen (items q) = ring_count q.
Proof.
  unfold items, zlen. rewrite length_fmap, length_seq. pose proof (Z.mod_pos_bound (q_head q - q_tail q) 256).
  unfold ring_count in *. lia.
Qed.

Lemma u8_idx x : u8 (x mod KB_BUFFER_SIZE) = x mod 256.
Proof. unfold u8, KB_BUFFER_SIZE. change (2 ^ 8) with 256. by rewrite Z.mod_mod by lia. Qed.

Lemma ring_push_ok q x : ring_ok q -> ring_ok (ring_push q x).
Proof.
  intros [Hb Hh Ht]. unfold ring_push. rewrite u8_idx. case_if; [by constructor|].
  constructor; cbn; [by rewrite zset_length|apply Z.mod_pos_bound; lia|done].
Qed.

Lemma items_push q x : ring_ok q -> items (ring_push q x) = enqueue (items q) x.
Proof.
  intros [Hb Hh Ht]. unfold ring_push, enqueue. rewrite items_length, u8_idx. unfold ring_count.
  assert (Hc : (q_head q + 1) mod 256 = q_tail q <-> (q_head q - q_tail q) mod 256 = 255)
    by (Z.to_euclidean_division_equations; lia).
  pose proof (Z.mod_pos_bound (q_head q - q_tail q) 256).
  destruct (Z.eqb_spec ((q_head q + 1) mod 256) (q_tail q)) as [E|E].
  { replace ((q_head q - q_tail q) mod 256 <? 255) with false by lia. done. }
  replace ((q_head q - q_tail q) mod 256 <? 255) with true by lia.
  unfold items, ring_count. cbn [q_buf q_head q_tail].
  assert (En : ((q_head q + 1) mod 256 - q_tail q) mod 256 = (q_head q - q_tail q) mod 256 + 1)
    by (Z.to_euclidean_division_equations; lia).
  rewrite En. replace (Z.to_nat ((q_head q - q_tail q) mod 256 + 1)) with (Z.to_nat ((q_head q - q_tail q) mod 256) + 1)%nat by lia.
  rewrite seq_app, fmap_app. cbn [seq fmap list_fmap]. f_equal.
  - apply list_fmap_ext. intros i j Hj. apply lookup_seq in Hj as [-> Hj].
    apply zget_set_ne; [lia|apply Z.mod_pos_bound; lia|]. Z.to_euclidean_division_equations; lia.
  - f_equal. replace ((q_tail q + Z.of_nat (0 + Z.to_nat ((q_head q - q_tail q) mod 256))) mod 256) with (q_head q)
      by (Z.to_euclidean_division_equations; lia).
    apply zget_set_eq. unfold zlen. lia.
Qed.

Lemma items_pop q : ring_ok q ->
  match items q with
  | [] => ring_empty q = true
  | x :: l => ring_empty q = false /\ (ring_pop q).1 = x /\ items (ring_pop q).2 = l /\ ring_ok (ring_pop q).2
  end.
Proof.
  intros [Hb Hh Ht]. unfold ring_empty, ring_pop, items. rewrite u8_idx. cbn [fst snd].
  pose proof (Z.mod_pos_bound (q_head q - q_tail q) 256). unfold ring_count. cbn [q_buf q_head q_tail].
  destruct (Z.to_nat ((q_head q - q_tail q) mod 256)) as [|n] eqn:En; cbn [seq fmap list_fmap].
  { apply Z.eqb_eq. Z.to_euclidean_division_equations; lia. }
  split_and!.
  - apply Z.eqb_neq. intros E. rewrite E, Z.sub_diag in En. discriminate En.
  - f_equal. rewrite Z.add_0_r, Z.mod_small; [done|lia].
  - replace (Z.to_nat ((q_head q - (q_tail q + 1) mod 256) mod 256)) with n
      by (Z.to_euclidean_division_equations; lia).
    rewrite <- seq_shift, <- list_fmap_compose. apply list_fmap_ext. intros i j _. cbn [compose]. f_equal.
    rewrite Zplus_mod_idemp_l. f_equal. lia.
  - constructor; cbn; [done|done|apply Z.mod_pos_bound; lia].
Qed.

(** ** The driver as two bounded queues *)

(** What can happen to the driver, with the value the caller sees (0 for the
    operations that return nothing). *)
Inductive kb_op :=
| Scan (scancode : Z)
| PollKey
| PollRaw
| Flush.

Definition run_op (k : kbd) (o : kb_op) : Z * kbd :=
  match o with
  | Scan s => (0, keyboard_callback k s)
  | PollKey => keyboard_getchar_nowait k
  | PollRaw => keyboard_raw_nowait k
  | Flush => (0, keyboard_flush k)
  end.

Fixpoint run_ops (k : kbd) (l : list kb_op) : list Z * kbd :=
  match l with
  | [] => ([], k)
  | o :: l' =>
      let '(v, k) := run_op k o in
      let '(vs, k) := run_ops k l' in (v :: vs, k)
  end.

Record kb_spec := KbSpec { sp_keys : list Z; sp_raws : list Z; sp_ctrl : bool; sp_shift : bool }.

(** Key press of [s] with the given modifiers: the character and the raw code. *)
Definition press_char (ctrl shift : bool) (s : Z) : Z :=
  if ctrl && (s =? 0x2E) then 3 else if shift then scancode_map_shift.[s] else scancode_map.[s].
Definition press_raw (ctrl shift : bool) (s : Z) : Z :=
  s + (if ctrl then 256 else 0) + (if shift then 512 else 0).

Definition take_first (l : list Z) : Z * list Z := match l with [] => (-1, []) | x :: l' => (x, l') end.

Definition spec_op (k : kb_spec) (o : kb_op) : Z * kb_spec :=
  match o with
  | Scan s =>
      (0,
       if s =? 0x1D then KbSpec (sp_keys k) (sp_raws k) true (sp_shift k)
       else if s =? 0x9D then KbSpec (sp_keys k) (sp_raws k) false (sp_shift k)
       else if (s =? 0x2A) || (s =? 0x36) then KbSpec (sp_keys k) (sp_raws k) (sp_ctrl k) true
       else if (s =? 0xAA) || (s =? 0xB6) then KbSpec (sp_keys k) (sp_raws k) (sp_ctrl k) false
       else if 128 <=? s then k
       else
         let c := press_char (sp_ctrl k) (sp_shift k) s in
         KbSpec (if c =? 0 then sp_keys k else enqueue (sp_keys k) c)
           (enqueue (sp_raws k) (press_raw (sp_ctrl k) (sp_shift k) s)) (sp_ctrl k) (sp_shift k))
  | PollKey => let '(c, l) := take_first (sp_keys k) in (c, KbSpec l (sp_raws k) (sp_ctrl k) (sp_shift k))
  | PollRaw => let '(r, l) := take_first (sp_raws k) in (r, KbSpec (sp_keys k) l (sp_ctrl k) (sp_shift k))
  | Flush => (0, KbSpec [] [] (sp_ctrl k) (sp_shift k))
  end.

Fixpoint spec_ops (k : kb_spec) (l : list kb_op) : list Z * kb_spec :=
  match l with
  | [] => ([], k)
  | o :: l' =>
      let '(v, k) := spec_op k o in
      let '(vs, k) := spec_ops k l' in (v :: vs, k)
  end.

(** A scancode is a byte. *)
Definition op_ok (o : kb_op) : Prop := match o with Scan s => 0 <= s < 256 | _ => True end.

Definition ascii (c : Z) : Prop := 0 < c < 128.

(** A make code of a key that is not a modifier, with the Ctrl and Shift bits. *)
Definition raw_value (r : Z) : Prop := exists s (ctrl shift : bool),
  0 <= s < 0x80 /\ s <> 0x1D /\ s <> 0x2A /\ s <> 0x36 /\ r = s + (if ctrl then 0x100 else 0) + (if shift then 0x200 else 0).

Record kbd_ok (k : kbd) : Prop := {
  ko_keys : ring_ok (kb k);
  ko_raws : ring_ok (kb_raw k);
  ko_ascii : Forall ascii (items (kb k));
  ko_range : Forall raw_value (items (kb_raw k))
}.

Definition kb_abs (k : kbd) : kb_spec := KbSpec (items (kb k)) (items (kb_raw k)) (ctrl_pressed k) (shift_pressed k).

Lemma byte_bit7 s : 0 <= s < 256 -> (Z.land s 0x80 =? 0) = (s <? 128).
Proof.
  intros Hs. assert (H : forallb (fun i => Bool.eqb (Z.land (Z.of_nat i) 0x80 =? 0) (Z.of_nat i <? 128)) (seq 0 256) = true)
    by (vm_compute; reflexivity).
  rewrite forallb_forall in H. specialize (H (Z.to_nat s)). rewrite Z2Nat.id in H by lia.
  apply Bool.eqb_prop, H, in_seq. lia.
Qed.

Lemma raw_code s : 0 <= s < 128 -> Z.land s 0x7F = s /\ forall c sh : bool,
  u16 (Z.lor (Z.lor s (if c then 0x100 else 0)) (if sh then 0x200 else 0)) =
  s + (if c then 256 else 0) + (if sh then 512 else 0).
Proof.
  intros Hs.
  assert (H : forallb (fun i => let s := Z.of_nat i in (Z.land s 0x7F =? s) &&
      forallb (fun c : bool => forallb (fun sh : bool =>
        u16 (Z.lor (Z.lor s (if c then 0x100 else 0)) (if sh then 0x200 else 0)) =?
        s + (if c then 256 else 0) + (if sh then 512 else 0)) [true; false]) [true; false]) (seq 0 128) = true)
    by (vm_compute; reflexivity).
  rewrite forallb_forall in H. specialize (H (Z.to_nat s)). rewrite Z2Nat.id in H by lia. cbv zeta in H.
  specialize (H ltac:(apply in_seq; lia)). apply andb_prop in H as [H1 H2]. split; [lia|].
  intros c sh. rewrite forallb_forall in H2. specialize (H2 c ltac:(destruct c; simpl; auto)).
  rewrite forallb_forall in H2. apply Z.eqb_eq, H2. destruct sh; simpl; auto.
Qed.

(** Every character of the two tables is 0 or 7-bit ASCII. *)
Lemma press_char_ascii ctrl shift s : 0 <= s < 128 -> press_char ctrl shift s = 0 \/ ascii (press_char ctrl shift s).
Proof.
  intros Hs. unfold press_char, ascii. destruct (ctrl && (s =? 0x2E)); [right; lia|].
  assert (H : forall l, length l = 128%nat -> forallb (fun x => (0 <=? x) && (x <? 128)) l = true -> 0 <= l.[s] < 128).
  { intros l Hl Hf. rewrite forallb_forall in Hf. unfold zget.
    specialize (Hf (l !!! Z.to_nat s)). lapply Hf; [lia|].
    apply list_elem_of_In, list_elem_of_lookup_total_2. lia. }
  destruct shift.
  - pose proof (H scancode_map_shift eq_refl eq_refl). lia.
  - pose proof (H scancode_map eq_refl eq_refl). lia.
Qed.

Lemma enqueue_forall (P : Z -> Prop) l x : Forall P l -> P x -> Forall P (enqueue l x).
Proof. intros. unfold enqueue. destruct (zlen l <? 255); [|done]. apply Forall_app. auto. Qed.

(** Taking the head of a ring next to taking the head of its queue. *)
Lemma poll_ring q : ring_ok q ->
  (if ring_empty q then (-1, q) else ring_pop q) =
    (if ring_empty q then (-1, q) else ((take_first (items q)).1, (ring_pop q).2)) /\
  (ring_empty q = true -> items q = []) /\
  (ring_empty q = false -> ring_ok (ring_pop q).2 /\ items q = (ring_pop q).1 :: items (ring_pop q).2).
Proof.
  intros Hq. pose proof (items_pop q Hq) as H. destruct (items q) as [|x l] eqn:E.
  - rewrite H. split_and!; [done..|]. intros; discriminate.
  - destruct H as (-> & Hx & Hl & Hok). split_and!; [|done|by rewrite Hx, Hl].
    cbn [take_first fst]. rewrite <- Hx. by destruct (ring_pop q).
Qed.

Lemma run_op_refines k o : kbd_ok k -> op_ok o ->
  kbd_ok (run_op k o).2 /\ spec_op (kb_abs k) o = ((run_op k o).1, kb_abs (run_op k o).2).
Proof.
  intros [Hk Hr Ha Hb] Ho. destruct o as [s| | |]; cbn [run_op spec_op op_ok fst snd] in *.
  - unfold keyboard_callback. cbn [kb_abs sp_keys sp_raws sp_ctrl sp_shift].
    rewrite byte_bit7 by done.
    do 4 (case_if; [split; [by constructor|done]|]).
    replace (128 <=? s) with (negb (s <? 128)) by lia.
    destruct (Z.ltb_spec s 128) as [Hs|Hs]; cbn [negb]; [|by split].
    destruct (raw_code s) as [Hm Hraw]; [lia|].
    assert (Ec : key_char k s = press_char (ctrl_pressed k) (shift_pressed k) s) by (unfold key_char, press_char; by rewrite Hm).
    assert (Er : key_raw k s = press_raw (ctrl_pressed k) (shift_pressed k) s) by (apply Hraw).
    rewrite Ec, Er. set (c := press_char _ _ _). set (w := press_raw _ _ _).
    assert (Hc : c = 0 \/ ascii c) by (apply press_char_ascii; lia).
    assert (Hw : raw_value w).
    { exists s, (ctrl_pressed k), (shift_pressed k). split_and!; try lia. done. }
    split.
    + constructor; cbn; [case_if; [done|by apply ring_push_ok]|by apply ring_push_ok| |].
      * case_if; [done|]. rewrite items_push by done. apply enqueue_forall; [done|]. destruct Hc; [congruence|done].
      * rewrite items_push by done. by apply enqueue_forall.
    + unfold kb_abs. cbn [kb kb_raw ctrl_pressed shift_pressed]. rewrite (items_push (kb_raw k)) by done.
      destruct (c =? 0); [done|]. by rewrite items_push.
  - unfold keyboard_getchar_nowait. destruct (poll_ring (kb k) Hk) as (_ & He & Hne).
    unfold kb_abs. cbn [sp_keys sp_raws sp_ctrl sp_shift].
    destruct (ring_empty (kb k)).
    + rewrite (He eq_refl). split; [by constructor|]. cbn [fst snd take_first]. by rewrite (He eq_refl).
    + destruct (Hne eq_refl) as [Hok Hi]. destruct (ring_pop (kb k)) as [c q]. cbn [fst snd] in *. rewrite Hi in *.
      apply Forall_cons_1 in Ha as [Hc Ha]. unfold ascii in Hc. rewrite u8_small by lia. split; [by constructor|done].
  - unfold keyboard_raw_nowait. destruct (poll_ring (kb_raw k) Hr) as (_ & He & Hne).
    unfold kb_abs. cbn [sp_keys sp_raws sp_ctrl sp_shift].
    destruct (ring_empty (kb_raw k)).
    + rewrite (He eq_refl). split; [by constructor|]. cbn [fst snd take_first]. by rewrite (He eq_refl).
    + destruct (Hne eq_refl) as [Hok Hi]. destruct (ring_pop (kb_raw k)) as [c q]. cbn [fst snd] in *. rewrite Hi in *.
      apply Forall_cons_1 in Hb as [_ Hb]. split; [by constructor|done].
  - unfold keyboard_flush. split; [|done]. destruct Hk, Hr. by constructor.
Qed.

Lemma run_ops_refines l : forall k, kbd_ok k -> Forall op_ok l ->
  kbd_ok (run_ops k l).2 /\ spec_ops (kb_abs k) l = ((run_ops k l).1, kb_abs (run_ops k l).2).
Proof.
  induction l as [|o l IH]; intros k Hk Hl; [done|]. apply Forall_cons_1 in Hl as [Ho Hl].
  destruct (run_op_refines k o Hk Ho) as [H1 H2]. cbn [run_ops spec_ops]. rewrite H2.
  destruct (run_op k o) as [v k1]. cbn [fst snd] in *. destruct (IH k1 H1 Hl) as [H3 H4]. rewrite H4.
  by destruct (run_ops k1 l) as [vs k2].
Qed.

Lemma kbd0_ok : kbd_ok kbd0.
Proof. constructor; try (constructor; cbn; lia || reflexivity); vm_compute; constructor. Qed.

(** ** Properties *)

(** C36 (keyboard).  From boot, under every sequence of interrupts, polls and
    flushes, the two rings with their wrapping 8-bit indices behave as two
    first-in-first-out queues of at most 255 entries that drop the newest entry
    when full: every poll returns what the queues return, modifiers tracked
    exactly by the make and break codes of Ctrl and Shift. *)
Theorem keyboard_refines_queues (l : list kb_op) :
  Forall op_ok l ->
  (run_ops kbd0 l).1 = (spec_ops (KbSpec [] [] false false) l).1 /\
  kb_abs (run_ops kbd0 l).2 = (spec_ops (KbSpec [] [] false false) l).2.
Proof.
  intros Hl. destruct (run_ops_refines l kbd0 kbd0_ok Hl) as [_ H].
  change (kb_abs kbd0) with (KbSpec [] [] false false) in H. by rewrite H.
Qed.

Lemma keyboard_refines_queues_witness :
  let l := [Scan 0x2A; Scan 0x1E; Scan 0xAA; Scan 0x1E; PollKey; PollKey; PollKey; PollRaw] in
  Forall op_ok l /\ (run_ops kbd0 l).1 = [0; 0; 0; 0; 65; 97; -1; 0x21E] /\
  (run_ops kbd0 l).1 = (spec_ops (KbSpec [] [] false false) l).1.
Proof.
  intros l. assert (Hl : Forall op_ok l) by (repeat constructor; cbn; lia).
  split; [exact Hl|]. split; [vm_compute; reflexivity|]. exact (proj1 (keyboard_refines_queues l Hl)).
Defined.

(** C37 (keyboard, value ranges).  Whatever bytes the port delivers, a poll for a
    character gives -1 or a 7-bit ASCII character other than NUL, and a poll
    for a raw code gives -1 or the make code of a key that is not a modifier, in
    the low 7 bits, with bit 8 for Ctrl, bit 9 for Shift and no other bit. *)
Theorem keyboard_values_in_range (l : list kb_op) :
  Forall op_ok l ->
  let k := (run_ops kbd0 l).2 in
  let c := (keyboard_getchar_nowait k).1 in
  let r := (keyboard_raw_nowait k).1 in
  (c = -1 \/ 0 < c < 128) /\ (r = -1 \/ raw_value r).
Proof.
  intros Hl k c r. destruct (run_ops_refines l kbd0 kbd0_ok Hl) as [Hk _]. fold k in Hk.
  destruct (run_op_refines k PollKey Hk I) as [_ H1]. destruct (run_op_refines k PollRaw Hk I) as [_ H2].
  cbn [spec_op run_op kb_abs sp_keys sp_raws] in H1, H2. pose proof (ko_ascii _ Hk) as Ha. pose proof (ko_range _ Hk) as Hr.
  fold c in H1. fold r in H2. split.
  - destruct (items (kb k)) as [|x q]; cbn in H1; injection H1 as E _; [by left|right].
    apply Forall_cons_1 in Ha as [Ha _]. unfold ascii in Ha. lia.
  - destruct (items (kb_raw k)) as [|x q]; cbn in H2; injection H2 as E _; [by left|right].
    apply Forall_cons_1 in Hr as [Hr _]. by rewrite <- E.
Qed.

Lemma keyboard_values_in_range_witness :
  let k := (run_ops kbd0 [Scan 0x1D; Scan 0x2E]).2 in
  let c := (keyboard_getchar_nowait k).1 in
  let r := (keyboard_raw_nowait k).1 in
  c = 3 /\ r = 0x12E /\ (c = -1 \/ 0 < c < 128) /\ (r = -1 \/ raw_value r).
Proof.
  intros k c r. split; [vm_compute; reflexivity|]. split; [vm_compute; reflexivity|].
  apply (keyboard_values_in_range [Scan 0x1D; Scan 0x2E]). repeat constructor; cbn; lia.
Defined.
