(* ===== verification/BootCfg.v ===== *)
(** * Boot configuration sector ([kernel/bootcfg.c]) and crash record
      ([kernel/crashdump.c])

    A key=value text store in one 512-byte sector behind the boot sector.  The
    [bootcfg_buf_*] functions work on any buffer, the [bootcfg_*] API applies
    them to the in-memory copy [g_cfg]; the crash path builds a sector in
    [g_sector] with the same functions.  Keys and values are C strings (lists
    of nonzero bytes), pointers are never NULL in the sources.  The sector
    functions of the HAL, polled or not, are the [BlockDevice] interface. *)

From Stdlib Require Import ZArith Lia ZifyBool.
From stdpp Require Import base tactics numbers list option gmap.
From S2P Require Import Prelude FatName Fat.
Local Open Scope Z_scope.

Definition SECTOR_SIZE : Z := 512.
Definition NL : Z := 10.
Definition EQUALS : Z := 61.

(** ["# nullos-config v1\n"] *)
Definition MAGIC : list Z :=
  [35; 32; 110; 117; 108; 108; 111; 115; 45; 99; 111; 110; 102; 105; 103; 32; 118; 49; 10].
Definition MAGIC_LEN : Z := 19.
Definition KEY_MAX : Z := 31.

Definition cfg_reset : list Z := blit (replicate 512 0) 0 MAGIC.

Definition has_magic (buf : list Z) : bool := bool_decide (take 19 buf = MAGIC).

Definition key_char_ok (c : Z) : bool :=
  ((97 <=? c) && (c <=? 122)) || ((48 <=? c) && (c <=? 57)) || (c =? 95).

Definition key_valid (key : list Z) : bool :=
  let n := zlen key in
  if (n =? 0) || (KEY_MAX <? n) then false else forallb key_char_ok key.

(** ** Searching *)

(** [while (i < SECTOR_SIZE && cfg[i] && cfg[i] != '\n') i++] over the bytes
    from [i] on: the number of steps. *)
Fixpoint line_len (l : list Z) : nat :=
  match l with
  | c :: l' => if (c =? 0) || (c =? NL) then 0%nat else S (line_len l')
  | [] => 0%nat
  end.

(** [while (j < klen && cfg[ls + j] == key[j]) j++] and [j == klen]. *)
Fixpoint starts_with (key l : list Z) : bool :=
  match key, l with
  | [], _ => true
  | k :: key', c :: l' => (k =? c) && starts_with key' l'
  | _, [] => false
  end.

(** The outer loop from [i] on, the buffer's bytes from there being [l]; every
    round passes at least one byte.  [line_start], [val_start], [line_end]. *)
Fixpoint find_line (fuel : nat) (key l : list Z) (i : Z) : option (Z * Z * Z) :=
  match fuel with
  | O => None
  | S fuel' =>
      match l with
      | [] => None
      | c :: _ =>
          if c =? 0 then None
          else
            let n := line_len l in
            let le := i + Z.of_nat n in
            if (zlen key <? Z.of_nat n) && (l.[zlen key] =? EQUALS) && starts_with key l
            then Some (i, i + zlen key + 1, le)
            else
              match drop n l with
              | c' :: l' => if c' =? NL then find_line fuel' key l' (le + 1) else find_line fuel' key (c' :: l') le
              | [] => find_line fuel' key [] le
              end
      end
  end.

Definition find_key (cfg key : list Z) : option (Z * Z * Z) := find_line 512 key (drop 19 cfg) MAGIC_LEN.

Definition cfg_used (cfg : list Z) : Z := MAGIC_LEN + zlen (until_nul (drop 19 cfg)).

(** ** The store on a buffer *)

Definition bootcfg_buf_init : list Z := cfg_reset.
Definition bootcfg_buf_valid (buf : list Z) : bool := has_magic buf.

(** The string stored in [out], [None] for -1; the C result is its length. *)
Definition bootcfg_buf_get (buf key : list Z) (max : Z) : option (list Z) :=
  if (max <=? 0) || negb (key_valid key) then None
  else
    match find_key buf key with
    | None => None
    | Some (_, vs, le) => Some (take (Z.to_nat (Z.min (le - vs) (max - 1))) (drop (Z.to_nat vs) buf))
    end.

(** The digit value of a character in the given base. *)
Definition digit_of (base c : Z) : option Z :=
  if (48 <=? c) && (c <=? 57) then Some (c - 48)
  else if (base =? 16) && (97 <=? c) && (c <=? 102) then Some (c - 97 + 10)
  else if (base =? 16) && (65 <=? c) && (c <=? 70) then Some (c - 65 + 10)
  else None.

Fixpoint parse_digits (v : list Z) (base r def : Z) : Z :=
  match v with
  | [] => r
  | c :: v' =>
      match digit_of base c with
      | None => def
      | Some d => if (0xFFFFFFFF - d) / base <? r then def else parse_digits v' base (u32 (r * base + d)) def
      end
  end.

Definition parse_u32 (v : list Z) (def : Z) : Z :=
  if (2 <? zlen v) && (v.[0] =? 48) && ((v.[1] =? 120) || (v.[1] =? 88))
  then parse_digits (drop 2 v) 16 0 def
  else parse_digits v 10 0 def.

Definition bootcfg_buf_get_u32 (buf key : list Z) (def : Z) : Z :=
  match bootcfg_buf_get buf key 16 with
  | None | Some [] => def
  | Some v => parse_u32 v def
  end.

(** Dropping the line [ls .. ls + old_len - 1]: the tail moves down, NULs fill
    the end. *)
Definition cut_line (buf : list Z) (ls old_len : Z) : list Z :=
  let tail := drop (Z.to_nat (ls + old_len)) buf in
  take (Z.to_nat ls) buf ++ tail ++ replicate (512 - Z.to_nat ls - length tail) 0.

Definition line_size (buf : list Z) (ls le : Z) : Z := le - ls + (if buf.[le] =? NL then 1 else 0).

(** The C result and the buffer. *)
Definition bootcfg_buf_set (buf key value : list Z) : Z * list Z :=
  if negb (key_valid key) || existsb (fun c => c =? NL) value then (-1, buf)
  else
    let have := find_key buf key in
    let used := cfg_used buf in
    let old_len := match have with Some (ls, _, le) => line_size buf ls le | None => 0 end in
    let new_len := zlen key + 1 + zlen value + 1 in
    if SECTOR_SIZE - 1 <? used - old_len + new_len then (-1, buf)
    else
      let buf := match have with Some (ls, _, _) => cut_line buf ls old_len | None => buf end in
      (0, blit buf (Z.to_nat (cfg_used buf)) (key ++ [EQUALS] ++ value ++ [NL; 0])).

Definition bootcfg_buf_remove (buf key : list Z) : Z * list Z :=
  if negb (key_valid key) then (-1, buf)
  else
    match find_key buf key with
    | None => (0, buf)
    | Some (ls, _, le) => (1, cut_line buf ls (line_size buf ls le))
    end.

(** The digits of [value] in front of [acc]; [room] bytes are left at the front
    of [tmp], a store before it has no defined behaviour. *)
Fixpoint fmt_digits (fuel room : nat) (value : Z) (hex : bool) (acc : list Z) : option (list Z) :=
  if value =? 0 then Some acc
  else
    match fuel, room with
    | S fuel', S room' =>
        let d := if hex then Z.land value 0xF else value mod 10 in
        let c := if d <? 10 then 48 + d else 97 + (d - 10) in
        fmt_digits fuel' room' (if hex then Z.shiftr value 4 else value / 10) hex (c :: acc)
    | _, _ => None
    end.

Definition fmt_u32 (value : Z) (hex : bool) : option (list Z) :=
  match (if value =? 0 then Some [48] else fmt_digits 32 10 value hex []) with
  | None => None
  | Some ds => Some ((if hex then [48; 120] else []) ++ ds)
  end.

Definition bootcfg_buf_set_u32 (buf key : list Z) (value : Z) : option (Z * list Z) :=
  match fmt_u32 value false with None => None | Some v => Some (bootcfg_buf_set buf key v) end.

Definition bootcfg_buf_set_hex32 (buf key : list Z) (value : Z) : option (Z * list Z) :=
  match fmt_u32 value true with None => None | Some v => Some (bootcfg_buf_set buf key v) end.

(** ** The configuration sector *)

Definition BOOTCFG_LBA : Z := 1.

Record crash_info := CrashInfo { int_no : Z; eip : Z; err_code : Z; cr2 : Z; ci_ticks : Z }.

Record cfgst {D : Type} := Cfgst {
  g_cfg : list Z;
  g_available : bool;
  g_sector : list Z;
  g_crash_active : bool;
  c_disk : D
}.
Arguments cfgst : clear implicits.

(** Keys: "crash_pending", "crash_type", "crash_eip", "crash_err", "crash_cr2",
    "crash_ticks", "boot_fail_count". *)
Definition K_PENDING : list Z := [99; 114; 97; 115; 104; 95; 112; 101; 110; 100; 105; 110; 103].
Definition K_TYPE : list Z := [99; 114; 97; 115; 104; 95; 116; 121; 112; 101].
Definition K_EIP : list Z := [99; 114; 97; 115; 104; 95; 101; 105; 112].
Definition K_ERR : list Z := [99; 114; 97; 115; 104; 95; 101; 114; 114].
Definition K_CR2 : list Z := [99; 114; 97; 115; 104; 95; 99; 114; 50].
Definition K_TICKS : list Z := [99; 114; 97; 115; 104; 95; 116; 105; 99; 107; 115].
Definition BOOTCFG_KEY_FAIL_COUNT : list Z := [98; 111; 111; 116; 95; 102; 97; 105; 108; 95; 99; 111; 117; 110; 116].
Definition BOOTCFG_FAIL_THRESHOLD : Z := 3.

Section sector.
Context {D : Type} `{BlockDevice D}.
Local Notation M := (cM (cfgst D)).

Definition put_cfg (b : list Z) (s : cfgst D) : cfgst D := Cfgst D b (g_available s) (g_sector s) (g_crash_active s) (c_disk s).
Definition put_available (b : bool) (s : cfgst D) : cfgst D := Cfgst D (g_cfg s) b (g_sector s) (g_crash_active s) (c_disk s).
Definition put_sector (b : list Z) (s : cfgst D) : cfgst D := Cfgst D (g_cfg s) (g_available s) b (g_crash_active s) (c_disk s).
Definition put_crash_active (b : bool) (s : cfgst D) : cfgst D := Cfgst D (g_cfg s) (g_available s) (g_sector s) b (c_disk s).
Definition put_cdisk (d : D) (s : cfgst D) : cfgst D := Cfgst D (g_cfg s) (g_available s) (g_sector s) (g_crash_active s) d.

Definition cfg_read_sector (lba : Z) : M (option (list Z)) := fun s =>
  let '(r, d) := bd_read lba (c_disk s) in Some (r, put_cdisk d s).
Definition cfg_write_sector (lba : Z) (buf : list Z) : M bool := fun s =>
  let '(r, d) := bd_write lba buf (c_disk s) in Some (r, put_cdisk d s).

Definition guard_ok : M bool :=
  r ← cfg_read_sector 0;
  match r with
  | None => mret false
  | Some s0 => mret ((le16 s0 11 =? SECTOR_SIZE) && (BOOTCFG_LBA <? le16 s0 14))
  end.

Definition bootcfg_read : M Z :=
  modify (put_cfg cfg_reset);;
  modify (put_available false);;
  ok ← guard_ok;
  if negb ok then mret (-1)
  else
    modify (put_available true);;
    r ← cfg_read_sector BOOTCFG_LBA;
    match r with
    | None => modify (put_available false);; mret (-1)
    | Some raw =>
        if negb (has_magic raw) then mret 0
        else modify (put_cfg raw.[511 := 0]);; mret 1
    end.

Definition bootcfg_is_available : M bool := gets g_available.

Definition bootcfg_write : M Z :=
  a ← gets g_available;
  if negb a then mret (-1)
  else
    modify (fun s => put_cfg (g_cfg s).[511 := 0] s);;
    b ← gets g_cfg;
    ok ← cfg_write_sector BOOTCFG_LBA b;
    mret (if (ok : bool) then 0 else -1).

Definition bootcfg_get (key : list Z) (max : Z) : M (option (list Z)) := gets (fun s => bootcfg_buf_get (g_cfg s) key max).
Definition bootcfg_get_u32 (key : list Z) (def : Z) : M Z := gets (fun s => bootcfg_buf_get_u32 (g_cfg s) key def).

Definition lift_set (f : list Z -> option (Z * list Z)) : M Z := fun s =>
  match f (g_cfg s) with None => None | Some (r, b) => Some (r, put_cfg b s) end.

Definition bootcfg_set (key value : list Z) : M Z := lift_set (fun b => Some (bootcfg_buf_set b key value)).
Definition bootcfg_set_u32 (key : list Z) (value : Z) : M Z := lift_set (fun b => bootcfg_buf_set_u32 b key value).
Definition bootcfg_remove (key : list Z) : M Z := lift_set (fun b => Some (bootcfg_buf_remove b key)).

(** ** The crash path *)

(** 1 for the first exception, 0 for one raised while it is handled. *)
Definition crash_begin : M bool :=
  a ← gets g_crash_active;
  if (a : bool) then mret false else modify (put_crash_active true);; mret true.

(** One [bootcfg_buf_set_*] of the chain of [||]: [true] when it failed. *)
Definition save_key (hex : bool) (key : list Z) (value : Z) : M bool := fun s =>
  match (if hex then bootcfg_buf_set_hex32 else bootcfg_buf_set_u32) (g_sector s) key value with
  | None => None
  | Some (r, b) => Some (r <? 0, put_sector b s)
  end.

(** The keys in the order they are stored; stops at the first failure. *)
Fixpoint save_keys (l : list (bool * list Z * Z)) : M bool :=
  match l with
  | [] => mret false
  | (hex, key, value) :: l' =>
      failed ← save_key hex key value;
      if (failed : bool) then mret true else save_keys l'
  end.

Definition crash_keys (i : crash_info) : list (bool * list Z * Z) :=
  [(false, K_PENDING, 1); (false, K_TYPE, int_no i); (true, K_EIP, eip i);
   (true, K_ERR, err_code i); (true, K_CR2, cr2 i); (false, K_TICKS, ci_ticks i)].

Definition crash_save (info : crash_info) : M bool :=
  a ← gets g_available;
  if negb a then mret false
  else
    r ← cfg_read_sector BOOTCFG_LBA;
    modify (fun s => match r with
                     | Some b => put_sector (if bootcfg_buf_valid b then b else bootcfg_buf_init) s
                     | None => put_sector bootcfg_buf_init s
                     end);;
    modify (fun s => put_sector (g_sector s).[511 := 0] s);;
    failed ← save_keys (crash_keys info);
    if (failed : bool) then mret false
    else
      b ← gets g_sector;
      cfg_write_sector BOOTCFG_LBA b.

(** The record and its state; [None] for the C result 0. *)
Definition crash_record_load : M (option (Z * crash_info)) :=
  state ← bootcfg_get_u32 K_PENDING 0;
  if negb (state =? 1) && negb (state =? 2) then mret None
  else
    t ← bootcfg_get_u32 K_TYPE 0;
    e ← bootcfg_get_u32 K_EIP 0;
    r ← bootcfg_get_u32 K_ERR 0;
    c ← bootcfg_get_u32 K_CR2 0;
    k ← bootcfg_get_u32 K_TICKS 0;
    mret (Some (state, CrashInfo t e r c k)).

Definition crash_record_acknowledge : M () :=
  p ← bootcfg_get_u32 K_PENDING 0;
  if p =? 1 then bootcfg_set_u32 K_PENDING 2;; mret () else mret ().

Definition crash_record_clear_if_acknowledged : M Z :=
  p ← bootcfg_get_u32 K_PENDING 0;
  if negb (p =? 2) then mret 0
  else
    bootcfg_remove K_PENDING;;
    bootcfg_remove K_TYPE;;
    bootcfg_remove K_EIP;;
    bootcfg_remove K_ERR;;
    bootcfg_remove K_CR2;;
    bootcfg_remove K_TICKS;;
    mret 1.
End sector.

(** ** The association list a buffer holds *)

Abbreviation entry := (list Z * list Z)%type.

Definition line (e : entry) : list Z := e.1 ++ EQUALS :: e.2 ++ [NL].
Definition text (es : list entry) : list Z := concat (map line es).

Definition value_ok (v : list Z) : Prop := 0 ∉ v /\ NL ∉ v /\ Forall byte v.
Definition entry_ok (e : entry) : Prop := key_valid e.1 = true /\ value_ok e.2.

(** The buffer is the magic line, a line per entry and at least one NUL. *)
Record layout (buf : list Z) (es : list entry) : Prop := {
  ly_bytes : exists n, buf = MAGIC ++ text es ++ replicate (S n) 0;
  ly_len : length buf = 512%nat;
  ly_entries : Forall entry_ok es;
  ly_keys : NoDup (map fst es)
}.

Definition assoc (key : list Z) (es : list entry) : option (list Z) :=
  snd <$> List.find (fun e => bool_decide (e.1 = key)) es.
Definition drop_key (key : list Z) (es : list entry) : list entry := filter (fun e => e.1 <> key) es.

(** *** Keys and lines *)

Lemma key_char_facts c : key_char_ok c = true -> c <> 0 /\ c <> NL /\ c <> EQUALS /\ byte c.
Proof. unfold key_char_ok, NL, EQUALS, byte. lia. Qed.

Lemma key_valid_facts key : key_valid key = true ->
  key <> [] /\ zlen key <= 31 /\ 0 ∉ key /\ NL ∉ key /\ EQUALS ∉ key /\ Forall byte key.
Proof.
  unfold key_valid, KEY_MAX. destruct (Z.eqb_spec (zlen key) 0) as [|Hn]; [done|].
  destruct (Z.ltb_spec 31 (zlen key)); [done|]. cbn [orb]. intros Hf. rewrite forallb_forall in Hf.
  assert (Hc : forall c, c ∈ key -> c <> 0 /\ c <> NL /\ c <> EQUALS /\ byte c).
  { intros c Hc. apply key_char_facts, Hf, list_elem_of_In, Hc. }
  split_and!; [by intros ->|lia| | | |apply Forall_forall; intros c Hin; by apply Hc];
    intros Hin; by destruct (Hc _ Hin) as (? & ? & ? & ?).
Qed.

Lemma line_len_app a c r : 0 ∉ a -> NL ∉ a -> c = 0 \/ c = NL -> line_len (a ++ c :: r) = length a.
Proof.
  induction a as [|x a IH]; intros H0 Hn Hc; cbn [app line_len length].
  - by destruct Hc as [->| ->].
  - rewrite not_elem_of_cons in *. destruct H0 as [? ?], Hn as [? ?].
    destruct (Z.eqb_spec x 0); [congruence|]. destruct (Z.eqb_spec x NL); [congruence|]. cbn [orb]. f_equal. auto.
Qed.

Lemma zget_cons {A} `{Inhabited A} (x : A) l i : 0 <= i -> (x :: l).[i + 1] = l.[i].
Proof. intros. unfold zget. replace (Z.to_nat (i + 1)) with (S (Z.to_nat i)) by lia. done. Qed.

Lemma zlen_cons {A} (x : A) l : zlen (x :: l) = zlen l + 1.
Proof. unfold zlen. cbn [length]. lia. Qed.

Lemma zlen_nonneg {A} (l : list A) : 0 <= zlen l.
Proof. unfold zlen. lia. Qed.

Lemma match_key key : forall k r, EQUALS ∉ key -> EQUALS ∉ k ->
  ((k ++ EQUALS :: r).[zlen key] =? EQUALS) && starts_with key (k ++ EQUALS :: r) = true <-> key = k.
Proof.
  induction key as [|a key IH]; intros [|b k] r Ha Hk; rewrite ?not_elem_of_cons in *; cbn [app starts_with].
  - done.
  - split; [|done]. intros E. b2p. change ((b :: k ++ EQUALS :: r).[zlen []]) with b in *. naive_solver.
  - split; [|done]. intros E. b2p. naive_solver.
  - rewrite zlen_cons, zget_cons by apply zlen_nonneg. specialize (IH k r ltac:(tauto) ltac:(tauto)).
    destruct (Z.eqb_spec a b) as [->|Hne]; cbn [andb].
    + rewrite IH. naive_solver.
    + rewrite andb_false_r. naive_solver.
Qed.

Lemma zlen_text_cons e es : zlen (text (e :: es)) = zlen e.1 + zlen e.2 + 2 + zlen (text es).
Proof.
  unfold text, line. cbn [map concat]. rewrite !zlen_app, zlen_cons, zlen_app. change (zlen [NL]) with 1. lia.
Qed.

(** The search over a list of lines. *)
Lemma find_line_spec key es : forall fuel i n,
  key_valid key = true -> Forall entry_ok es -> (length es < fuel)%nat ->
  (assoc key es = None /\ find_line fuel key (text es ++ replicate (S n) 0) i = None) \/
  (exists es1 v es2, es = es1 ++ (key, v) :: es2 /\ assoc key es = Some v /\
     let ls := i + zlen (text es1) in
     find_line fuel key (text es ++ replicate (S n) 0) i = Some (ls, ls + zlen key + 1, ls + zlen key + 1 + zlen v)).
Proof.
  induction es as [|[k v] es IH]; intros fuel i n Hkey Hes Hf; (destruct fuel as [|fuel]; [simpl in Hf; lia|]).
  { left. done. }
  apply Forall_cons_1 in Hes as [[Hk (Hv0 & Hvn & Hvb)] Hes]. cbn [fst snd] in *.
  destruct (key_valid_facts key Hkey) as (Hkne & _ & Hk0 & Hkn & Hkeq & _).
  destruct (key_valid_facts k Hk) as (Hkne' & _ & Hk0' & Hkn' & Hkeq' & _).
  set (rest := text es ++ replicate (S n) 0).
  assert (El : text ((k, v) :: es) ++ replicate (S n) 0 = k ++ EQUALS :: v ++ NL :: rest).
  { unfold text, line, rest. cbn [map concat fst snd]. rewrite <- !app_assoc. cbn [app]. by rewrite <- !app_assoc. }
  rewrite El. clear El.
  assert (Elen : line_len (k ++ EQUALS :: v ++ NL :: rest) = length (k ++ EQUALS :: v)).
  { replace (k ++ EQUALS :: v ++ NL :: rest) with ((k ++ EQUALS :: v) ++ NL :: rest) by (by rewrite <- app_assoc).
    apply line_len_app; [| |by right]; rewrite elem_of_app, elem_of_cons; unfold EQUALS, NL in *; intuition lia. }
  assert (Ed : drop (length (k ++ EQUALS :: v)) (k ++ EQUALS :: v ++ NL :: rest) = NL :: rest).
  { replace (k ++ EQUALS :: v ++ NL :: rest) with ((k ++ EQUALS :: v) ++ NL :: rest) by (by rewrite <- app_assoc).
    apply drop_app_length. }
  assert (Eh : exists c l', k ++ EQUALS :: v ++ NL :: rest = c :: l' /\ c <> 0).
  { destruct k as [|c k']; [done|]. exists c, (k' ++ EQUALS :: v ++ NL :: rest). split; [done|].
    rewrite not_elem_of_cons in Hk0'. naive_solver. }
  destruct Eh as (c & l' & Eh & Hc). cbn [find_line]. rewrite Eh. destruct (Z.eqb_spec c 0); [done|]. rewrite <- Eh.
  rewrite Elen, Ed. fold (zlen (k ++ EQUALS :: v)). change (NL =? NL) with true. cbv iota.
  pose proof (match_key key k (v ++ NL :: rest) Hkeq Hkeq') as Hm.
  unfold assoc. cbn [List.find fst].
  destruct (decide (k = key)) as [->|Hne].
  - right. exists [], v, es. rewrite bool_decide_true by done. split; [done|]. split; [done|].
    rewrite <- andb_assoc, (proj2 Hm eq_refl), zlen_app, zlen_cons, andb_true_r.
    pose proof (zlen_nonneg v). replace (zlen key <? zlen key + (zlen v + 1)) with true by lia.
    change (zlen (text [])) with 0. cbv zeta. f_equal. f_equal; [f_equal|]; lia.
  - rewrite bool_decide_false by done. rewrite <- andb_assoc.
    destruct (((k ++ EQUALS :: v ++ NL :: rest).[zlen key] =? EQUALS) && starts_with key (k ++ EQUALS :: v ++ NL :: rest)) eqn:E.
    { destruct Hne. symmetry. by apply Hm. }
    rewrite andb_false_r.
    destruct (IH fuel (i + zlen (k ++ EQUALS :: v) + 1) n Hkey Hes ltac:(simpl in Hf; lia))
      as [[H1 H2]|(es1 & v' & es2 & -> & H1 & H2)].
    + left. split; [exact H1|]. exact H2.
    + right. exists ((k, v) :: es1), v', es2. split; [done|]. split; [exact H1|].
      unfold rest. rewrite H2. cbv zeta. rewrite zlen_text_cons, zlen_app, zlen_cons. cbn [fst snd].
      f_equal. f_equal; [f_equal|]; lia.
Qed.

(** *** Layouts *)

Lemma text_app es1 es2 : text (es1 ++ es2) = text es1 ++ text es2.
Proof. unfold text. by rewrite map_app, concat_app. Qed.

Lemma text_clean es : Forall entry_ok es -> 0 ∉ text es.
Proof.
  induction 1 as [|[k v] es [Hk (Hv & _)] _ IH]; [apply not_elem_of_nil|].
  destruct (key_valid_facts k Hk) as (_ & _ & Hk0 & _). unfold text, line in *. cbn [map concat fst snd] in *.
  rewrite !elem_of_app, elem_of_cons, elem_of_app, list_elem_of_singleton. unfold EQUALS, NL. intuition lia.
Qed.

Lemma text_bytes es : Forall entry_ok es -> Forall byte (text es).
Proof.
  induction 1 as [|[k v] es [Hk (_ & _ & Hv)] _ IH]; [done|].
  destruct (key_valid_facts k Hk) as (_ & _ & _ & _ & _ & Hb). unfold text, line in *. cbn [map concat fst snd] in *.
  rewrite !Forall_app, Forall_cons, Forall_app, Forall_singleton. unfold byte, EQUALS, NL in *. split_and!; (done || lia).
Qed.

Lemma length_text es : (length es <= length (text es))%nat.
Proof.
  induction es as [|e es IH]; [done|]. pose proof (zlen_text_cons e es). pose proof (zlen_nonneg e.1). pose proof (zlen_nonneg e.2).
  unfold zlen in *. cbn [length]. lia.
Qed.

Lemma zlen_drop_text (a b : list Z) : drop (Z.to_nat (zlen a)) (a ++ b) = b.
Proof. unfold zlen. rewrite Nat2Z.id. apply drop_app_length. Qed.

Lemma zlen_take_text (a b : list Z) : take (Z.to_nat (zlen a)) (a ++ b) = a.
Proof. unfold zlen. rewrite Nat2Z.id. apply take_app_length. Qed.

Lemma layout_used buf es : layout buf es -> cfg_used buf = 19 + zlen (text es).
Proof.
  intros [(n & ->) _ Hes _]. unfold cfg_used. change 19%nat with (length MAGIC). rewrite drop_app_length.
  cbn [replicate]. rewrite until_nul_app by (by apply text_clean). done.
Qed.

Lemma find_key_spec buf es key : layout buf es -> key_valid key = true ->
  (assoc key es = None /\ find_key buf key = None) \/
  (exists es1 v es2 n, es = es1 ++ (key, v) :: es2 /\ assoc key es = Some v /\
     buf = (MAGIC ++ text es1) ++ line (key, v) ++ text es2 ++ replicate (S n) 0 /\
     let ls := 19 + zlen (text es1) in
     find_key buf key = Some (ls, ls + zlen key + 1, ls + zlen key + 1 + zlen v)).
Proof.
  intros [(n & Eb) Hl Hes _] Hk. unfold find_key. rewrite Eb. change 19%nat with (length MAGIC). rewrite drop_app_length.
  pose proof (length_text es). rewrite Eb, !length_app, length_replicate in Hl.
  destruct (find_line_spec key es 512 MAGIC_LEN n Hk Hes ltac:(lia)) as [?|(es1 & v & es2 & Ees & H1 & H2)]; [by left|].
  right. exists es1, v, es2, n. split; [done|]. split; [done|]. split; [|exact H2].
  rewrite Ees, text_app. change (text ((key, v) :: es2)) with (line (key, v) ++ text es2). by rewrite <- !app_assoc.
Qed.

Lemma buf_get_spec buf es key max : layout buf es -> key_valid key = true -> 0 < max ->
  bootcfg_buf_get buf key max = take (Z.to_nat (max - 1)) <$> assoc key es.
Proof.
  intros Hl Hk Hm. unfold bootcfg_buf_get. replace (max <=? 0) with false by lia. rewrite Hk. cbn [negb orb].
  destruct (find_key_spec buf es key Hl Hk) as [[-> ->]|(es1 & v & es2 & n & Ees & -> & Eb & ->)]; [done|].
  cbv zeta. cbn [fmap option_fmap option_map]. f_equal. rewrite Eb.
  replace ((MAGIC ++ text es1) ++ line (key, v) ++ text es2 ++ replicate (S n) 0)
    with ((MAGIC ++ text es1 ++ key ++ [EQUALS]) ++ v ++ NL :: text es2 ++ replicate (S n) 0)
    by (unfold line; cbn [fst snd]; rewrite <- !app_assoc; cbn [app]; by rewrite <- !app_assoc).
  replace (19 + zlen (text es1) + zlen key + 1) with (zlen (MAGIC ++ text es1 ++ key ++ [EQUALS]))
    by (rewrite !zlen_app; change (zlen MAGIC) with 19; change (zlen [EQUALS]) with 1; lia).
  rewrite zlen_drop_text. set (a := zlen (MAGIC ++ _)).
  destruct (Z.le_ge_cases (zlen v) (max - 1)) as [Hc|Hc].
  - rewrite Z.min_l by lia. replace (a + zlen v - a) with (zlen v) by lia. rewrite zlen_take_text.
    symmetry. apply take_ge. unfold zlen in Hc. lia.
  - rewrite Z.min_r by lia. rewrite take_app_le by (unfold zlen in Hc; lia). done.
Qed.

Lemma drop_key_split key v es1 es2 : NoDup (map fst (es1 ++ (key, v) :: es2)) -> drop_key key (es1 ++ (key, v) :: es2) = es1 ++ es2.
Proof.
  rewrite map_app. cbn [map fst]. intros Hnd. apply NoDup_app in Hnd as (_ & Hd & Hnd). apply NoDup_cons in Hnd as [Hk _].
  assert (Hf : forall l, key ∉ map fst l -> drop_key key l = l).
  { induction l as [|[k w] l IH]; intros Hl; [done|]. cbn [map fst] in Hl. rewrite not_elem_of_cons in Hl. destruct Hl.
    unfold drop_key in *. rewrite filter_cons_True by (cbn; congruence). f_equal. auto. }
  unfold drop_key in *. rewrite filter_app, filter_cons_False by (cbn; tauto). rewrite !Hf; [done|done|].
  intros Hin. apply (Hd key Hin). apply elem_of_cons. by left.
Qed.

Lemma drop_key_id key es : assoc key es = None -> drop_key key es = es.
Proof.
  induction es as [|[k v] es IH]; [done|]. unfold assoc, drop_key in *. cbn [List.find fst].
  case_bool_decide; [done|]. intros Hn. rewrite filter_cons_True by (cbn; done). f_equal. auto.
Qed.

Lemma drop_key_keys key es : key ∉ map fst (drop_key key es) /\
  (Forall entry_ok es -> Forall entry_ok (drop_key key es)) /\ (NoDup (map fst es) -> NoDup (map fst (drop_key key es))).
Proof.
  unfold drop_key. split_and!.
  - intros Hin. apply list_elem_of_In, in_map_iff in Hin as (e & E & Hin). apply list_elem_of_In, list_elem_of_filter in Hin. naive_solver.
  - intros Hf. rewrite Forall_forall in *. intros e He. apply list_elem_of_filter in He. naive_solver.
  - induction es as [|[k v] es IH]; [done|]. cbn [map fst]. intros Hnd. apply NoDup_cons in Hnd as [Hk Hnd].
    destruct (decide (k = key)) as [->|Hne].
    + rewrite filter_cons_False by (cbn; tauto). auto.
    + rewrite filter_cons_True by done. cbn [map fst]. apply NoDup_cons. split; [|auto].
      intros Hin. apply Hk. apply list_elem_of_In, in_map_iff in Hin as (e & E & Hin).
      apply list_elem_of_In, list_elem_of_filter in Hin. apply list_elem_of_In, in_map_iff. exists e. split; [done|].
      apply list_elem_of_In. tauto.
Qed.

(** Cutting out the line of a key. *)
Lemma cut_spec buf es key ls vs le : layout buf es -> key_valid key = true -> find_key buf key = Some (ls, vs, le) ->
  line_size buf ls le = zlen (text es) - zlen (text (drop_key key es)) /\
  layout (cut_line buf ls (line_size buf ls le)) (drop_key key es).
Proof.
  intros Hl Hk E. destruct (find_key_spec buf es key Hl Hk) as [[_ E']|(es1 & v & es2 & n & Ees & _ & Eb & E')];
    [congruence|]. rewrite E in E'. cbv zeta in E'. injection E' as -> _ ->.
  pose proof Hl as [_ Hlen Hes Hnd]. subst es. rewrite drop_key_split by done.
  set (a := MAGIC ++ text es1) in *. set (r := text es2 ++ replicate (S n) 0) in *.
  assert (Ha : 19 + zlen (text es1) = zlen a) by (unfold a; rewrite zlen_app; done). rewrite Ha in *.
  assert (Els : line_size buf (zlen a) (zlen a + zlen key + 1 + zlen v) = zlen (line (key, v))).
  { unfold line_size.
    assert (Enl : buf.[zlen a + zlen key + 1 + zlen v] = NL).
    { rewrite Eb. unfold line. cbn [fst snd].
      replace (a ++ (key ++ EQUALS :: v ++ [NL]) ++ r) with ((a ++ key ++ EQUALS :: v) ++ NL :: r)
        by (rewrite <- !app_assoc; cbn [app]; by rewrite <- !app_assoc).
      unfold zget. rewrite lookup_total_app_r; rewrite !length_app; cbn [length]; unfold zlen; [|lia].
      replace (Z.to_nat _ - _)%nat with 0%nat by lia. done. }
    rewrite Enl. change (NL =? NL) with true. cbv iota. unfold line. cbn [fst snd]. rewrite zlen_app, zlen_cons, zlen_app.
    change (zlen [NL]) with 1. lia. }
  rewrite Els. split.
  { rewrite !text_app, !zlen_app, zlen_text_cons. unfold line. cbn [fst snd]. rewrite zlen_app, zlen_cons, zlen_app. change (zlen [NL]) with 1. lia. }
  assert (Ecut : cut_line buf (zlen a) (zlen (line (key, v))) = a ++ r ++ replicate (length (line (key, v))) 0).
  { assert (Et : take (Z.to_nat (zlen a)) buf = a) by (rewrite Eb; apply zlen_take_text).
    assert (Ed : drop (Z.to_nat (zlen a + zlen (line (key, v)))) buf = r)
      by (rewrite Eb, <- zlen_app, app_assoc; apply zlen_drop_text).
    unfold cut_line. rewrite Et, Ed. f_equal. f_equal. f_equal. rewrite Eb, !length_app in Hlen. unfold zlen. rewrite Nat2Z.id. lia. }
  rewrite Ecut. rewrite Forall_app in Hes. destruct Hes as [He1 He2]. apply Forall_cons_1 in He2 as [_ He2].
  constructor.
  - exists (n + length (line (key, v)))%nat. unfold a, r. rewrite text_app, <- !app_assoc. do 3 f_equal.
    by rewrite <- replicate_add.
  - rewrite Eb, !length_app in Hlen. rewrite !length_app, length_replicate. lia.
  - by apply Forall_app.
  - rewrite <- (drop_key_split key v es1 es2) by done. by apply drop_key_keys.
Qed.

(** Appending a line. *)
Lemma append_spec buf es key value : layout buf es -> key_valid key = true -> value_ok value -> key ∉ map fst es ->
  19 + zlen (text es) + zlen key + zlen value + 2 <= 511 ->
  layout (blit buf (Z.to_nat (cfg_used buf)) (key ++ [EQUALS] ++ value ++ [NL; 0])) (es ++ [(key, value)]).
Proof.
  intros Hl Hk Hv Hin Hfit. rewrite (layout_used _ _ Hl). destruct Hl as [(n & Eb) Hlen Hes Hnd].
  set (a := MAGIC ++ text es). assert (Ha : 19 + zlen (text es) = zlen a) by (unfold a; rewrite zlen_app; done).
  rewrite Ha in *. assert (Hbuf : buf = a ++ replicate (S n) 0) by (unfold a; by rewrite <- app_assoc).
  assert (Hn : (length a + S n = 512)%nat) by (rewrite Hbuf, length_app, length_replicate in Hlen; lia).
  set (w := key ++ [EQUALS] ++ value ++ [NL; 0]).
  assert (Hw : zlen w = zlen key + zlen value + 3) by (unfold w; rewrite !zlen_app; change (zlen [EQUALS]) with 1; change (zlen [NL; 0]) with 2; lia).
  assert (Eblit : blit buf (Z.to_nat (zlen a)) w = a ++ w ++ replicate (S n - length w) 0).
  { unfold blit. rewrite Hbuf, zlen_take_text. f_equal. f_equal. unfold zlen. rewrite Nat2Z.id, drop_app_ge by lia.
    rewrite drop_replicate. f_equal. lia. }
  rewrite Eblit. unfold zlen in *. constructor.
  - exists (S n - length w)%nat. rewrite text_app. change (text [(key, value)]) with (line (key, value) ++ []). rewrite app_nil_r.
    unfold a, w, line. cbn [fst snd replicate app]. rewrite <- !app_assoc. do 3 f_equal. cbn [app]. by rewrite <- !app_assoc.
  - rewrite !length_app, length_replicate. lia.
  - apply Forall_app. split; [done|]. constructor; [done|constructor].
  - rewrite map_app. cbn [map fst]. apply NoDup_app. split_and!; [done| |apply NoDup_singleton].
    intros k Hk1. rewrite list_elem_of_singleton. intros ->. done.
Qed.

Definition fits (es : list entry) (key value : list Z) : Prop :=
  19 + zlen (text (drop_key key es)) + zlen key + zlen value + 2 <= 511.

Lemma no_newline v : NL ∉ v -> existsb (fun c => c =? NL) v = false.
Proof.
  intros Hv. apply not_true_is_false. rewrite existsb_exists. intros (c & Hc & E). b2p. subst.
  apply Hv. by apply list_elem_of_In.
Qed.

Lemma buf_set_spec buf es key value : layout buf es -> key_valid key = true -> value_ok value ->
  (fits es key value /\ exists buf', bootcfg_buf_set buf key value = (0, buf') /\ layout buf' (drop_key key es ++ [(key, value)])) \/
  (~ fits es key value /\ bootcfg_buf_set buf key value = (-1, buf)).
Proof.
  intros Hl Hk Hv. unfold bootcfg_buf_set. rewrite Hk, no_newline by apply Hv. cbn [negb orb].
  rewrite (layout_used buf es Hl). unfold SECTOR_SIZE. change (512 - 1) with 511.
  destruct (drop_key_keys key es) as (Hnk & _).
  destruct (find_key buf key) as [[[ls vs] le]|] eqn:E.
  - destruct (cut_spec buf es key ls vs le Hl Hk E) as [Es Hcut]. rewrite Es.
    destruct (Z.ltb_spec 511 (19 + zlen (text es) - (zlen (text es) - zlen (text (drop_key key es))) + (zlen key + 1 + zlen value + 1))) as [Hc|Hc].
    + right. split; [unfold fits; lia|done].
    + left. split; [unfold fits; lia|]. eexists. split; [done|]. rewrite <- Es. apply append_spec; (done || lia).
  - destruct (find_key_spec buf es key Hl Hk) as [[Ha _]|(? & ? & ? & ? & _ & _ & _ & E')]; [|congruence].
    rewrite (drop_key_id key es Ha) in *. unfold fits. rewrite (drop_key_id key es Ha).
    destruct (Z.ltb_spec 511 (19 + zlen (text es) - 0 + (zlen key + 1 + zlen value + 1))) as [Hc|Hc].
    + right. split; [lia|done].
    + left. split; [lia|]. eexists. split; [done|]. apply append_spec; (done || lia).
Qed.

Lemma buf_remove_spec buf es key : layout buf es -> key_valid key = true ->
  exists buf', bootcfg_buf_remove buf key = (if decide (assoc key es = None) then 0 else 1, buf') /\
    layout buf' (drop_key key es).
Proof.
  intros Hl Hk. unfold bootcfg_buf_remove. rewrite Hk. cbn [negb].
  destruct (find_key buf key) as [[[ls vs] le]|] eqn:E.
  - destruct (cut_spec buf es key ls vs le Hl Hk E) as [_ Hcut].
    destruct (find_key_spec buf es key Hl Hk) as [[_ E']|(? & v & ? & ? & _ & Ha & _)]; [congruence|].
    rewrite decide_False by (by rewrite Ha). eauto.
  - destruct (find_key_spec buf es key Hl Hk) as [[Ha _]|(? & ? & ? & ? & _ & _ & _ & E')]; [|congruence].
    rewrite decide_True by done. rewrite drop_key_id by done. eauto.
Qed.

Lemma layout_reset : layout cfg_reset [].
Proof.
  constructor; [exists 492%nat; vm_compute; reflexivity|vm_compute; reflexivity|constructor|constructor].
Qed.

(** Looking up after a change. *)
Lemma assoc_app key es1 es2 : assoc key (es1 ++ es2) = match assoc key es1 with Some v => Some v | None => assoc key es2 end.
Proof.
  unfold assoc. induction es1 as [|[k v] es1 IH]; [done|]. cbn [app List.find fst]. case_bool_decide; [done|]. exact IH.
Qed.

Lemma assoc_drop_key key key' es : assoc key (drop_key key' es) = if decide (key = key') then None else assoc key es.
Proof.
  unfold assoc, drop_key. induction es as [|[k v] es IH]; [by case_decide|].
  destruct (decide (k = key')) as [->|Hne].
  - rewrite filter_cons_False by (cbn; tauto). rewrite IH. cbn [List.find fst]. case_decide; [done|].
    by rewrite bool_decide_false by congruence.
  - rewrite filter_cons_True by done. cbn [List.find fst]. case_bool_decide; [|exact IH].
    case_decide; [congruence|done].
Qed.

Lemma assoc_set key key' value es :
  assoc key (drop_key key' es ++ [(key', value)]) = if decide (key = key') then Some value else assoc key es.
Proof.
  rewrite assoc_app, assoc_drop_key. unfold assoc at 2. cbn [List.find fst]. case_decide as E.
  - subst. by rewrite bool_decide_true.
  - destruct (assoc key es); [done|]. by rewrite bool_decide_false by congruence.
Qed.

(** ** Numbers *)

Definition base_of_fmt (hex : bool) : Z := if hex then 16 else 10.
Definition digit_char (c : Z) : Prop := 48 <= c <= 57 \/ 97 <= c <= 102.

Lemma digit_step (hex : bool) value : 0 <= value ->
  (if hex then Z.land value 0xF else value mod 10) = value mod base_of_fmt hex /\
  (if hex then Z.shiftr value 4 else value / 10) = value / base_of_fmt hex.
Proof.
  intros Hv. destruct hex; [|done]. unfold base_of_fmt. split; [apply (land_mask_low value 4); lia|].
  by rewrite Z.shiftr_div_pow2 by lia.
Qed.

Lemma digit_of_char hex d : 0 <= d < base_of_fmt hex ->
  let c := if d <? 10 then 48 + d else 97 + (d - 10) in
  digit_of (base_of_fmt hex) c = Some d /\ digit_char c /\ (hex = false -> 48 <= c <= 57).
Proof.
  intros Hd. cbv zeta. unfold digit_of, digit_char, base_of_fmt in *.
  destruct (Z.ltb_spec d 10); destruct hex; try lia; (split; [|split; [lia|intros; (lia || done)]]);
    repeat match goal with |- context [?a <=? ?b] => destruct (Z.leb_spec a b); try lia end; cbn [andb Z.eqb Pos.eqb];
    f_equal; lia.
Qed.

Lemma fmt_digits_spec hex room : forall fuel value acc,
  (room <= fuel)%nat -> 0 <= value < base_of_fmt hex ^ Z.of_nat room ->
  exists ds, fmt_digits fuel room value hex acc = Some (ds ++ acc) /\ (length ds <= room)%nat /\
    (0 < value -> ds <> []) /\ Forall digit_char ds /\ (hex = false -> Forall (fun c => 48 <= c <= 57) ds) /\
    forall r tail def, 0 <= r -> r * base_of_fmt hex ^ zlen ds + value <= 0xFFFFFFFF ->
      parse_digits (ds ++ tail) (base_of_fmt hex) r def =
      parse_digits tail (base_of_fmt hex) (r * base_of_fmt hex ^ zlen ds + value) def.
Proof.
  assert (Hb : 0 < base_of_fmt hex <= 16) by (destruct hex; cbn; lia).
  induction room as [|room IH]; intros fuel value acc Hf Hv.
  { exists []. change (Z.of_nat 0) with 0 in Hv. rewrite Z.pow_0_r in Hv. replace value with 0 by lia.
    split_and!; [by destruct fuel|done|lia|done|done|]. intros r tail def Hr Hle. cbn [app]. f_equal. change (zlen []) with 0. lia. }
  destruct fuel as [|fuel]; [lia|]. cbn [fmt_digits]. destruct (Z.eqb_spec value 0) as [->|Hnz].
  { exists []. split_and!; [done|simpl; lia|lia|done|done|]. intros r tail def Hr Hle. cbn [app]. f_equal. change (zlen []) with 0. lia. }
  destruct (digit_step hex value) as [-> ->]; [lia|]. set (b := base_of_fmt hex) in *.
  assert (Hd : 0 <= value mod b < b) by (apply Z.mod_pos_bound; lia).
  destruct (digit_of_char hex (value mod b) Hd) as (Hdig & Hchar & Hdec). cbv zeta in *. fold b in Hdig.
  set (c := if value mod b <? 10 then 48 + value mod b else 97 + (value mod b - 10)) in *.
  destruct (IH fuel (value / b) (c :: acc)) as (ds & E & Hlen & _ & Hds & Hds' & Hparse); [lia| |].
  { split; [apply Z.div_pos; lia|]. apply Z.div_lt_upper_bound; [lia|]. rewrite <- Z.pow_succ_r by lia.
    replace (Z.succ (Z.of_nat room)) with (Z.of_nat (S room)) by lia. lia. }
  exists (ds ++ [c]). rewrite E, <- app_assoc. split_and!; [done|rewrite length_app; simpl; lia|by destruct ds| | |].
  - apply Forall_app. split; [done|]. by constructor.
  - intros Hh. apply Forall_app. split; [auto|]. constructor; [auto|done].
  - intros r tail def Hr Hle. rewrite <- app_assoc. cbn [app].
    assert (Hz : zlen (ds ++ [c]) = zlen ds + 1) by (unfold zlen; rewrite length_app; simpl; lia).
    rewrite Hz, Z.pow_add_r in * by (unfold zlen; lia). rewrite Z.pow_1_r in *.
    pose proof (Z.div_mod value b ltac:(lia)) as Hdm.
    assert (Hp : 0 <= b ^ zlen ds) by (apply Z.pow_nonneg; lia).
    assert (Hdp : 0 <= value / b) by (apply Z.div_pos; lia).
    rewrite Hparse by nia. cbn [parse_digits]. rewrite Hdig.
    assert (Hq : r * b ^ zlen ds + value / b <= (0xFFFFFFFF - value mod b) / b).
    { apply Z.div_le_lower_bound; [lia|]. nia. }
    replace ((0xFFFFFFFF - value mod b) / b <? r * b ^ zlen ds + value / b) with false by lia.
    rewrite u32_small by nia. f_equal. nia.
Qed.

(** A printed number fits the 16-byte buffers, is a legal value and reads back. *)
Lemma fmt_u32_spec value hex : is_u32 value ->
  exists s, fmt_u32 value hex = Some s /\ zlen s <= 10 /\ s <> [] /\ value_ok s /\ forall def, parse_u32 s def = value.
Proof.
  unfold is_u32. intros Hv. unfold fmt_u32.
  assert (H : exists ds, (if value =? 0 then Some [48] else fmt_digits 32 10 value hex []) = Some ds /\
    ds <> [] /\ (length ds <= (if hex then 8 else 10))%nat /\ Forall digit_char ds /\ (hex = false -> Forall (fun c => 48 <= c <= 57) ds) /\
    forall def, parse_digits ds (base_of_fmt hex) 0 def = value).
  { destruct (Z.eqb_spec value 0) as [->|Hnz].
    - exists [48]. split_and!; [done|done|by destruct hex; simpl; lia|constructor; [left; lia|done]|intros; constructor; [lia|done]|].
      intros def. by destruct hex.
    - assert (Hroom : 0 <= value < base_of_fmt hex ^ Z.of_nat (if hex then 8 else 10)) by (destruct hex; cbn [base_of_fmt]; lia).
      assert (Hmono : exists ds, fmt_digits 32 10 value hex [] = Some ds /\ fmt_digits 32 (if hex then 8 else 10) value hex [] = Some ds).
      { destruct hex; [|destruct (fmt_digits_spec false 10 32 value []) as (ds & E & _); [lia|done|]; eauto].
        destruct (fmt_digits_spec true 8 32 value []) as (ds & E & _); [lia|done|]. exists ds. rewrite app_nil_r in E.
        split; [|done].
        assert (Hext : forall fuel room v acc ds, fmt_digits fuel room v true acc = Some ds -> fmt_digits fuel (S (S room)) v true acc = Some ds).
        { induction fuel as [|fuel IHf]; intros room v acc ds0; cbn [fmt_digits]; destruct (v =? 0); try done.
          destruct room as [|room]; [done|]. apply IHf. }
        by apply Hext. }
      destruct Hmono as (ds & E10 & Er). exists ds. rewrite E10.
      destruct (fmt_digits_spec hex (if hex then 8 else 10) 32 value []) as (ds' & E & Hl & Hne & Hc & Hc' & Hp); [by destruct hex; lia|done|].
      rewrite Er, app_nil_r in E. injection E as <-. split_and!; [done|apply Hne; lia|done|done|done|].
      intros def. specialize (Hp 0 [] def). rewrite app_nil_r, Z.mul_0_l, Z.add_0_l in Hp. apply Hp; lia. }
  destruct H as (ds & -> & Hne & Hlen & Hc & Hdec & Hp).
  assert (Hok : value_ok ((if hex then [48; 120] else []) ++ ds)).
  { assert (Ha : forall c, c ∈ (if hex then [48; 120] else []) ++ ds -> 48 <= c <= 120).
    { intros c. rewrite elem_of_app. intros [Hc1|Hc1].
      - destruct hex; [|by apply not_elem_of_nil in Hc1]. rewrite !elem_of_cons, elem_of_nil in Hc1. lia.
      - rewrite Forall_forall in Hc. apply Hc in Hc1. unfold digit_char in Hc1. lia. }
    split_and!; [intros Hc1; apply Ha in Hc1; lia|intros Hc1; apply Ha in Hc1; unfold NL in *; lia|].
    apply Forall_forall. intros c Hc1. apply Ha in Hc1. unfold byte. lia. }
  eexists. split; [done|]. split_and!; [|by destruct hex|done|].
  - rewrite zlen_app. unfold zlen. destruct hex; cbn [length]; lia.
  - intros def. unfold parse_u32. destruct hex.
    + rewrite zlen_app. change (zlen [48; 120]) with 2. destruct ds as [|d ds]; [done|].
      pose proof (zlen_nonneg ds). rewrite zlen_cons. replace (2 <? 2 + (zlen ds + 1)) with true by lia.
      change (([48; 120] ++ d :: ds).[0]) with 48. change (([48; 120] ++ d :: ds).[1]) with 120. cbn. apply Hp.
    + cbn [app]. assert (H2 : (2 <? zlen ds) && (ds.[0] =? 48) && ((ds.[1] =? 120) || (ds.[1] =? 88)) = false).
      { destruct ds as [|d0 [|d1 ds]]; [done| |].
        - by rewrite zlen_cons.
        - specialize (Hdec eq_refl). apply Forall_cons_1 in Hdec as [_ Hdec]. apply Forall_cons_1 in Hdec as [Hd1 _].
          change ((d0 :: d1 :: ds).[1]) with d1. lia. }
      rewrite H2. apply Hp.
Qed.

Lemma get_u32_stored buf es key s def : layout buf es -> key_valid key = true -> assoc key es = Some s -> zlen s <= 10 -> s <> [] ->
  bootcfg_buf_get_u32 buf key def = parse_u32 s def.
Proof.
  intros Hl Hk Ha Hz Hne. unfold bootcfg_buf_get_u32. rewrite (buf_get_spec buf es key 16 Hl Hk) by lia. rewrite Ha.
  cbn [fmap option_fmap option_map]. rewrite take_ge by (unfold zlen in Hz; lia). by destruct s.
Qed.

Lemma zlen_text_drop key es : zlen (text (drop_key key es)) <= zlen (text es).
Proof.
  induction es as [|[k v] es IH]; [done|]. unfold drop_key in *. rewrite zlen_text_cons. pose proof (zlen_nonneg k). pose proof (zlen_nonneg v).
  destruct (decide (k = key)) as [->|Hne].
  - rewrite filter_cons_False by (cbn; tauto). cbn [fst snd]. lia.
  - rewrite filter_cons_True by done. rewrite zlen_text_cons. cbn [fst snd]. lia.
Qed.

(** Storing a number: the key then reads back as that number. *)
Definition reads_as (es : list entry) (key : list Z) (v : Z) : Prop :=
  exists s, assoc key es = Some s /\ zlen s <= 10 /\ s <> [] /\ forall def, parse_u32 s def = v.

(** The entries whose keys are not among [ks]. *)
Definition others (ks : list (list Z)) (es : list entry) : list entry := filter (fun e => e.1 ∉ ks) es.

Lemma others_drop ks key es : key ∈ ks -> others ks (drop_key key es) = others ks es.
Proof.
  intros Hk. unfold others, drop_key. rewrite list_filter_filter. apply list_filter_iff. intros e. split; [tauto|].
  intros Hn. split; [done|]. congruence.
Qed.

Lemma others_set ks key s es : key ∈ ks -> others ks (drop_key key es ++ [(key, s)]) = others ks es.
Proof.
  intros Hk. unfold others. rewrite filter_app. rewrite filter_cons_False by (cbn; tauto). rewrite filter_nil, app_nil_r.
  by apply others_drop.
Qed.

Lemma set_num_spec buf es key v (hex : bool) : layout buf es -> key_valid key = true -> is_u32 v ->
  19 + zlen (text es) + zlen key + 12 <= 511 ->
  exists buf' es', (if hex then bootcfg_buf_set_hex32 else bootcfg_buf_set_u32) buf key v = Some (0, buf') /\
    layout buf' es' /\ reads_as es' key v /\ (forall k, k <> key -> assoc k es' = assoc k es) /\
    zlen (text es') <= zlen (text es) + zlen key + 12 /\ (forall ks, key ∈ ks -> others ks es' = others ks es).
Proof.
  intros Hl Hk Hv Hfit. destruct (fmt_u32_spec v hex Hv) as (s & E & Hz & Hne & Hok & Hp).
  pose proof (zlen_text_drop key es).
  destruct (buf_set_spec buf es key s Hl Hk Hok) as [(_ & buf' & Es & Hl')|[Hn _]]; [|unfold fits in Hn; lia].
  exists buf', (drop_key key es ++ [(key, s)]). split_and!.
  - unfold bootcfg_buf_set_hex32, bootcfg_buf_set_u32. destruct hex; by rewrite E, Es.
  - done.
  - exists s. rewrite assoc_set, decide_True by done. done.
  - intros k Hk'. by rewrite assoc_set, decide_False.
  - rewrite text_app, zlen_app, zlen_text_cons. change (zlen (text [])) with 0. cbn [fst snd]. lia.
  - intros ks Hks. by apply others_set.
Qed.

Definition key_of (x : bool * list Z * Z) : list Z := x.1.2.
Definition key_room (l : list (bool * list Z * Z)) : Z := foldr (fun x n => zlen (key_of x) + 12 + n) 0 l.

(** ** The sector functions *)

Section sector_lemmas.
Context {D : Type} `{BlockDevice D}.

Lemma save_keys_spec l : forall (s : cfgst D) es,
  layout (g_sector s) es -> Forall (fun x => key_valid (key_of x) = true /\ is_u32 x.2) l -> NoDup (map key_of l) ->
  19 + zlen (text es) + key_room l <= 511 ->
  wp (save_keys l) (fun failed s' => failed = false /\ exists b es', s' = put_sector b s /\ layout b es' /\
    (forall k, k ∉ map key_of l -> assoc k es' = assoc k es) /\
    Forall (fun x => reads_as es' (key_of x) x.2) l /\
    forall ks, Forall (fun x => key_of x ∈ ks) l -> others ks es' = others ks es) s.
Proof.
  induction l as [|[[hex key] v] l IH]; intros s es Hl Hok Hnd Hroom.
  { apply wp_ret. split; [done|]. exists (g_sector s), es. split_and!; try done. by destruct s. }
  apply Forall_cons_1 in Hok as [[Hk Hv] Hok]. cbn [map] in Hnd. apply NoDup_cons in Hnd as [Hnin Hnd].
  cbn [key_room foldr] in Hroom. fold (key_room l) in Hroom. cbn [key_of fst snd] in *.
  assert (Hpos : 0 <= key_room l).
  { clear. induction l as [|x l IH]; cbn; [lia|]. pose proof (zlen_nonneg (key_of x)). unfold key_room in IH. lia. }
  destruct (set_num_spec (g_sector s) es key v hex Hl Hk Hv ltac:(lia)) as (b1 & es1 & E & Hl1 & Hr1 & Ho1 & Hz1 & Hx1).
  cbn [save_keys]. apply wp_bind. eapply wp_of_run.
  { unfold save_key. rewrite E. reflexivity. }
  change (0 <? 0) with false. cbv iota.
  eapply wp_mono; [apply (IH (put_sector b1 s) es1); cbn; (done || lia)|].
  intros failed s' (-> & b & es' & -> & Hl' & Ho & Hr & Hx). split; [done|]. exists b, es'. split_and!; try done.
  - cbn [map]. intros k Hk'. rewrite not_elem_of_cons in Hk'. destruct Hk'. rewrite Ho by done. by apply Ho1.
  - constructor; [|done]. cbn [key_of fst snd]. destruct Hr1 as (s0 & Ha & Hz & Hne & Hp). exists s0.
    rewrite Ho by done. done.
  - intros ks Hks. apply Forall_cons_1 in Hks as [Hk1 Hks]. rewrite Hx by done. by apply Hx1.
Qed.

Lemma cfg_read_healthy l (s : cfgst D) : bd_healthy (c_disk s) -> 0 <= l < bd_size (c_disk s) ->
  exists d, cfg_read_sector l s = Some (Some (bd_data (c_disk s) l), put_cdisk d s) /\
    bd_healthy d /\ bd_size d = bd_size (c_disk s) /\ forall l', bd_data d l' = bd_data (c_disk s) l'.
Proof.
  intros Hh Hl. unfold cfg_read_sector. destruct (bd_healthy_read (c_disk s) l Hh Hl) as [[b E] Hh'].
  pose proof (bd_read_data (c_disk s) l b E) as Eb. pose proof (bd_read_size (c_disk s) l). pose proof (bd_read_same (c_disk s) l).
  destruct (bd_read l (c_disk s)) as [r d]. cbn in *. subst. eauto 10.
Qed.

Lemma cfg_write_healthy l b (s : cfgst D) : bd_healthy (c_disk s) -> 0 <= l < bd_size (c_disk s) -> sector b -> Forall byte b ->
  exists d, cfg_write_sector l b s = Some (true, put_cdisk d s) /\ bd_healthy d /\ bd_size d = bd_size (c_disk s) /\
    bd_data d l = b /\ forall l', l' <> l -> bd_data d l' = bd_data (c_disk s) l'.
Proof.
  intros Hh Hl Hs Hb. unfold cfg_write_sector. destruct (bd_healthy_write (c_disk s) l b Hh Hl) as [E Hh'].
  pose proof (bd_write_data (c_disk s) l b Hs Hb E). pose proof (bd_write_size (c_disk s) l b). pose proof (bd_write_other (c_disk s) l b).
  destruct (bd_write l b (c_disk s)) as [r d]. cbn in *. subst. eauto 10.
Qed.

(** The disk has the reserved region the guard asks for. *)
Definition guarded (d : D) : Prop := le16 (bd_data d 0) 11 = 512 /\ 1 < le16 (bd_data d 0) 14.

Lemma bootcfg_read_healthy (s : cfgst D) : bd_healthy (c_disk s) -> 2 <= bd_size (c_disk s) -> guarded (c_disk s) ->
  wp bootcfg_read (fun r s' => g_available s' = true /\
    bd_healthy (c_disk s') /\ bd_size (c_disk s') = bd_size (c_disk s) /\ (forall l, bd_data (c_disk s') l = bd_data (c_disk s) l) /\
    let raw := bd_data (c_disk s) 1 in
    if has_magic raw then r = 1 /\ g_cfg s' = raw.[511 := 0] else r = 0 /\ g_cfg s' = cfg_reset) s.
Proof.
  intros Hh Hz [Hg1 Hg2]. unfold bootcfg_read. do 2 apply wp_bind, wp_modify. apply wp_bind. unfold guard_ok. apply wp_bind.
  destruct (cfg_read_healthy 0 (put_available false (put_cfg cfg_reset s)) Hh ltac:(cbn; lia)) as (d & E & Hh1 & Hz1 & Hd1).
  cbn [c_disk put_available put_cfg] in *. eapply wp_of_run; [exact E|]. apply wp_ret.
  unfold SECTOR_SIZE, BOOTCFG_LBA. rewrite (proj2 (Z.eqb_eq _ _) Hg1), (proj2 (Z.ltb_lt _ _) Hg2). cbn [andb negb].
  apply wp_bind, wp_modify, wp_bind. set (s1 := put_available true _).
  destruct (cfg_read_healthy 1 s1 Hh1 ltac:(cbn; lia)) as (d2 & E2 & Hh2 & Hz2 & Hd2). cbn [s1 c_disk put_available put_cdisk] in Hz2, Hd2, E2.
  eapply wp_of_run; [exact E2|]. rewrite Hd1. destruct (has_magic (bd_data (c_disk s) 1)); cbn [negb].
  - apply wp_bind, wp_modify, wp_ret. cbn. split_and!; try done; [lia|]. intros l. by rewrite Hd2, Hd1.
  - apply wp_ret. cbn. split_and!; try done; [lia|]. intros l. by rewrite Hd2, Hd1.
Qed.
End sector_lemmas.

Lemma layout_sector buf es : layout buf es ->
  has_magic buf = true /\ buf.[511 := 0] = buf /\ sector buf /\ Forall byte buf.
Proof.
  intros Hl. pose proof Hl as [(n & Eb) Hlen Hes _]. split_and!.
  - unfold has_magic. apply bool_decide_true. rewrite Eb. change 19%nat with (length MAGIC). apply take_app_length.
  - unfold zset. apply list_insert_id.
    replace (replicate (S n) 0) with (replicate n 0 ++ [0]) in Eb by (by rewrite <- replicate_cons_app).
    rewrite !app_assoc in Eb. rewrite Eb in *. rewrite length_app in Hlen. cbn [length] in Hlen.
    replace (Z.to_nat 511) with (length ((MAGIC ++ text es) ++ replicate n 0)) by lia.
    rewrite lookup_app_r, Nat.sub_diag by lia. done.
  - done.
  - rewrite Eb, !Forall_app. split_and!; [|by apply text_bytes|].
    + unfold MAGIC, byte. repeat constructor; lia.
    + apply Forall_replicate. unfold byte. lia.
Qed.

Lemma crash_keys_ok i : is_u32 (int_no i) -> is_u32 (eip i) -> is_u32 (err_code i) -> is_u32 (cr2 i) -> is_u32 (ci_ticks i) ->
  Forall (fun x => key_valid (key_of x) = true /\ is_u32 x.2) (crash_keys i) /\ NoDup (map key_of (crash_keys i)) /\
  key_room (crash_keys i) = 133.
Proof.
  intros. split_and!.
  - unfold crash_keys. repeat (apply Forall_cons_2; [split; [reflexivity|]; cbn [snd]; try done; split; reflexivity || discriminate|]).
    apply Forall_nil_2.
  - cbn [crash_keys map key_of fst snd].
    repeat (apply NoDup_cons; split;
      [intros Hin; repeat (apply elem_of_cons in Hin as [Hin|Hin]; [discriminate Hin|]); by apply not_elem_of_nil in Hin|]).
    apply NoDup_nil_2.
  - reflexivity.
Qed.

(** ** Properties *)

(** C34 (configuration store).  On a buffer that holds the association list
    [es], the text routines implement the list: [bootcfg_buf_get] returns the
    value of the key (cut to the caller's buffer), [bootcfg_buf_set] replaces it
    and moves it to the end or, exactly when the sector would overflow, fails
    and changes nothing, [bootcfg_buf_remove] takes it out; the other keys keep
    their values, and the result again holds a list. *)
Theorem bootcfg_store_refines (buf : list Z) (es : list entry) (key value : list Z) (max : Z) :
  layout buf es -> key_valid key = true -> value_ok value -> 0 < max ->
  bootcfg_buf_get buf key max = take (Z.to_nat (max - 1)) <$> assoc key es /\
  ((fits es key value /\ exists buf' es', bootcfg_buf_set buf key value = (0, buf') /\ layout buf' es' /\
      forall k, assoc k es' = if decide (k = key) then Some value else assoc k es) \/
   (~ fits es key value /\ bootcfg_buf_set buf key value = (-1, buf))) /\
  (exists buf' es', bootcfg_buf_remove buf key = (if decide (assoc key es = None) then 0 else 1, buf') /\ layout buf' es' /\
      forall k, assoc k es' = if decide (k = key) then None else assoc k es).
Proof.
  intros Hl Hk Hv Hm. split_and!.
  - by apply buf_get_spec.
  - destruct (buf_set_spec buf es key value Hl Hk Hv) as [(Hf & buf' & E & Hl')|[Hf E]]; [left|by right].
    split; [done|]. exists buf', (drop_key key es ++ [(key, value)]). split_and!; try done. intros k. apply assoc_set.
  - destruct (buf_remove_spec buf es key Hl Hk) as (buf' & E & Hl'). exists buf', (drop_key key es).
    split_and!; try done. intros k. apply assoc_drop_key.
Qed.

Lemma bootcfg_store_refines_witness :
  bootcfg_buf_get cfg_reset K_EIP 16 = None /\
  ((fits [] K_EIP [49] /\ exists buf' es', bootcfg_buf_set cfg_reset K_EIP [49] = (0, buf') /\ layout buf' es' /\
      forall k, assoc k es' = if decide (k = K_EIP) then Some [49] else None) \/
   (~ fits [] K_EIP [49] /\ bootcfg_buf_set cfg_reset K_EIP [49] = (-1, cfg_reset))).
Proof.
  destruct (bootcfg_store_refines cfg_reset [] K_EIP [49] 16) as (H1 & H2 & _).
  - exact layout_reset.
  - vm_compute; reflexivity.
  - split_and!; [| |repeat constructor; unfold byte; lia]; intros Hin;
      apply list_elem_of_singleton in Hin; discriminate Hin.
  - lia.
  - split; [exact H1|exact H2].
Defined.

(** (numbers).  A 32-bit number stored in decimal or as "0x..." fits the
    16-byte buffers the code formats and reads it in, and
    [bootcfg_buf_get_u32] reads back exactly that number, in either notation,
    whatever default is given; every other key reads as before. *)
Theorem bootcfg_number_roundtrip (buf : list Z) (es : list entry) (key : list Z) (v def : Z) (hex : bool) :
  layout buf es -> key_valid key = true -> is_u32 v -> 19 + zlen (text es) + zlen key + 12 <= 511 ->
  exists buf', (if hex then bootcfg_buf_set_hex32 else bootcfg_buf_set_u32) buf key v = Some (0, buf') /\
    bootcfg_buf_get_u32 buf' key def = v /\
    forall k max, key_valid k = true -> k <> key -> 0 < max -> bootcfg_buf_get buf' k max = bootcfg_buf_get buf k max.
Proof.
  intros Hl Hk Hv Hfit. destruct (set_num_spec buf es key v hex Hl Hk Hv Hfit) as (buf' & es' & E & Hl' & (s & Ha & Hz & Hne & Hp) & Ho & _ & _).
  exists buf'. split_and!; [done| |].
  - rewrite (get_u32_stored buf' es' key s def) by done. apply Hp.
  - intros k max Hk' Hne' Hm. rewrite (buf_get_spec buf' es' k max), (buf_get_spec buf es k max) by done. by rewrite Ho.
Qed.

Lemma bootcfg_number_roundtrip_witness :
  exists buf', bootcfg_buf_set_hex32 cfg_reset K_EIP 0xDEADBEEF = Some (0, buf') /\
    bootcfg_buf_get_u32 buf' K_EIP 7 = 0xDEADBEEF.
Proof.
  destruct (bootcfg_number_roundtrip cfg_reset [] K_EIP 0xDEADBEEF 7 true) as (b & H1 & H2 & _).
  - exact layout_reset.
  - vm_compute; reflexivity.
  - split; reflexivity || discriminate.
  - vm_compute; discriminate.
  - exists b. split; [exact H1|exact H2].
Defined.

Section crash.
Context {D : Type} `{BlockDevice D}.

(** What the record leaves in the sector. *)
Definition recorded (es es' : list entry) (info : crash_info) : Prop :=
  (forall k, k ∉ map key_of (crash_keys info) -> assoc k es' = assoc k es) /\
  Forall (fun x => reads_as es' (key_of x) x.2) (crash_keys info) /\
  forall ks, Forall (fun x => key_of x ∈ ks) (crash_keys info) -> others ks es' = others ks es.

Definition info_ok (i : crash_info) : Prop :=
  is_u32 (int_no i) /\ is_u32 (eip i) /\ is_u32 (err_code i) /\ is_u32 (cr2 i) /\ is_u32 (ci_ticks i).

(** The list the configuration sector holds. *)
Definition holds_cfg (d : D) (es : list entry) : Prop :=
  if has_magic (bd_data d 1) then layout (bd_data d 1) es else es = [].

Lemma crash_save_healthy (s : cfgst D) (es : list entry) (info : crash_info) :
  bd_healthy (c_disk s) -> 2 <= bd_size (c_disk s) -> g_available s = true -> holds_cfg (c_disk s) es ->
  19 + zlen (text es) <= 378 -> info_ok info ->
  wp (crash_save info) (fun saved s1 => saved = true /\ bd_healthy (c_disk s1) /\ bd_size (c_disk s1) = bd_size (c_disk s) /\
    (forall l, l <> 1 -> bd_data (c_disk s1) l = bd_data (c_disk s) l) /\
    exists es', layout (bd_data (c_disk s1) 1) es' /\ recorded es es' info) s.
Proof.
  intros Hh Hz Hav Hes Hroom (U1 & U2 & U3 & U4 & U5).
  destruct (crash_keys_ok info U1 U2 U3 U4 U5) as (Hkok & Hknd & Hkr).
  unfold crash_save. apply wp_bind, wp_gets. rewrite Hav. cbn [negb]. apply wp_bind.
  destruct (cfg_read_healthy BOOTCFG_LBA s Hh) as (d & E & Hh1 & Hz1 & Hd1); [unfold BOOTCFG_LBA; lia|].
  eapply wp_of_run; [exact E|]. unfold BOOTCFG_LBA in *. apply wp_bind, wp_modify, wp_bind, wp_modify, wp_bind.
  set (b0 := if bootcfg_buf_valid (bd_data (c_disk s) 1) then bd_data (c_disk s) 1 else bootcfg_buf_init).
  assert (Hl0 : layout b0 es).
  { unfold b0, bootcfg_buf_valid, holds_cfg in *. destruct (has_magic (bd_data (c_disk s) 1)); [done|]. subst es. exact layout_reset. }
  destruct (layout_sector b0 es Hl0) as (_ & E511 & _).
  set (s1 := put_sector _ _).
  assert (Es1 : s1 = put_sector b0 (put_cdisk d s)) by (unfold s1; cbn; fold b0; by rewrite E511).
  rewrite Es1. clear s1 Es1.
  eapply wp_mono; [apply (save_keys_spec (crash_keys info) _ es); [exact Hl0|done|done|rewrite Hkr; lia]|].
  intros failed s1 (-> & b & es' & -> & Hl' & Hrec). apply wp_bind, wp_gets.
  destruct (layout_sector b es' Hl') as (Hmg & Eb511 & Hsec & Hby).
  destruct (cfg_write_healthy 1 b (put_sector b (put_sector b0 (put_cdisk d s)))) as (d2 & E2 & Hh2 & Hz2 & Hd2 & Ho2);
    [done|cbn; lia|done|done|].
  eapply wp_of_run; [exact E2|]. cbn [c_disk put_cdisk put_sector] in *. split_and!; [done|done|lia| |].
  { intros l Hl. by rewrite Ho2, Hd1. }
  exists es'. split; [by rewrite Hd2|exact Hrec].
Qed.

(** C35 (crash record).  A crash is recorded and survives the reset: with the
    configuration sector available on a working disk, [crash_save] succeeds,
    and after a restart [bootcfg_read] finds a valid configuration from which
    [crash_record_load] returns the pending state and exactly the saved
    vector, addresses, error code and tick count; a sector other than the
    configuration sector is never written, and the other keys keep their
    values. *)
Theorem crash_record_survives_reset (s s2 : cfgst D) (es : list entry) (info : crash_info) :
  bd_healthy (c_disk s) -> 2 <= bd_size (c_disk s) -> guarded (c_disk s) -> g_available s = true ->
  (if has_magic (bd_data (c_disk s) 1) then layout (bd_data (c_disk s) 1) es else es = []) ->
  19 + zlen (text es) <= 378 ->
  is_u32 (int_no info) -> is_u32 (eip info) -> is_u32 (err_code info) -> is_u32 (cr2 info) -> is_u32 (ci_ticks info) ->
  wp (crash_save info) (fun saved s1 => saved = true /\
    (forall l, l <> 1 -> bd_data (c_disk s1) l = bd_data (c_disk s) l) /\
    wp (r ← bootcfg_read; x ← crash_record_load; mret (r, x)) (fun a s3 =>
      a = (1, Some (1, info)) /\
      forall k, key_valid k = true -> k ∉ map key_of (crash_keys info) ->
        bootcfg_buf_get (g_cfg s3) k 16 = take 15 <$> assoc k es)
    (put_cdisk (c_disk s1) s2)) s.
Proof.
  intros Hh Hz Hg Hav Hes Hroom U1 U2 U3 U4 U5.
  destruct (crash_keys_ok info U1 U2 U3 U4 U5) as (Hkok & _ & _).
  eapply wp_mono; [apply (crash_save_healthy s es info Hh Hz Hav Hes Hroom); by split_and!|].
  intros saved s1 (-> & Hh2 & Hz2 & Ho2 & es' & Hl' & Ho & Hr & _). split_and!; [done|exact Ho2|].
  destruct (layout_sector _ es' Hl') as (Hmg & Eb511 & _).
  apply wp_bind. eapply wp_mono; [apply (bootcfg_read_healthy (put_cdisk (c_disk s1) s2)); cbn [c_disk put_cdisk]; [done|lia|]|].
  { destruct Hg. unfold guarded. rewrite Ho2 by done. done. }
  cbn [c_disk put_cdisk]. rewrite Hmg. cbv zeta. rewrite Eb511. intros r s3 (_ & _ & _ & _ & -> & Ecfg).
  assert (Hget : forall hex key v, (hex, key, v) ∈ crash_keys info -> bootcfg_buf_get_u32 (g_cfg s3) key 0 = v).
  { intros hex key v Hin. rewrite Forall_forall in Hr, Hkok. destruct (Hr _ Hin) as (t & Ha & Ht & Hne & Hp).
    destruct (Hkok _ Hin) as [Hk _]. rewrite Ecfg, (get_u32_stored _ es' key t 0) by done. apply Hp. }
  apply wp_bind. unfold crash_record_load, bootcfg_get_u32. apply wp_bind, wp_gets.
  rewrite (Hget false K_PENDING 1) by (apply elem_of_cons; by left). change (negb (1 =? 1) && negb (1 =? 2)) with false. cbv iota.
  do 5 apply wp_bind, wp_gets. apply wp_ret, wp_ret. split.
  - rewrite (Hget false K_TYPE (int_no info)), (Hget true K_EIP (eip info)), (Hget true K_ERR (err_code info)),
      (Hget true K_CR2 (cr2 info)), (Hget false K_TICKS (ci_ticks info));
      [by destruct info|unfold crash_keys; rewrite !elem_of_cons; auto 10..].
  - intros k Hk Hnin. rewrite Ecfg, (buf_get_spec _ es' k 16) by done. by rewrite Ho.
Qed.
End crash.

(** A three-sector disk with a reserved region of two sectors. *)
Definition small_disk : simdisk :=
  SimDisk [blit (replicate 512 0) 11 [0; 2; 1; 2; 0]; replicate 512 0; replicate 512 0] [].
Definition small_state : cfgst simdisk := Cfgst simdisk cfg_reset true (replicate 512 0) false small_disk.
Definition page_fault : crash_info := CrashInfo 14 0x100123 2 0xC0000000 4242.

Lemma crash_record_survives_reset_witness :
  wp (crash_save page_fault) (fun saved s1 => saved = true /\
    wp (r ← bootcfg_read; x ← crash_record_load; mret (r, x)) (fun a _ => a = (1, Some (1, page_fault)))
      (put_cdisk (c_disk s1) small_state)) small_state.
Proof.
  eapply wp_mono; [refine (crash_record_survives_reset small_state small_state [] page_fault _ _ _ _ _ _ _ _ _ _ _)|].
  - constructor.
  - vm_compute; discriminate.
  - split; vm_compute; reflexivity.
  - reflexivity.
  - assert (E : has_magic (bd_data (c_disk small_state) 1) = false) by (vm_compute; reflexivity). rewrite E. reflexivity.
  - vm_compute; discriminate.
  - split; reflexivity || discriminate.
  - split; reflexivity || discriminate.
  - split; reflexivity || discriminate.
  - split; reflexivity || discriminate.
  - split; reflexivity || discriminate.
  - intros saved s1 (H1 & _ & H2). split; [exact H1|]. eapply wp_mono; [exact H2|]. intros a s3 [H3 _]. exact H3.
Defined.

(** A sector whose last line has no newline, as an editor may leave it:
    ["boot_fail_count=1"]. *)
Definition no_newline_cfg : list Z := blit cfg_reset 19 (BOOTCFG_KEY_FAIL_COUNT ++ [EQUALS; 49]).

(** (configuration store, unterminated last line).  [bootcfg_buf_set] appends
    behind the last byte in use without ending an unterminated last line: it
    reports success, yet the new key cannot be read back and the value of the
    last key is corrupted. *)
Theorem bootcfg_set_after_unterminated_line :
  let r := bootcfg_buf_set no_newline_cfg K_TYPE [53] in
  has_magic no_newline_cfg = true /\ bootcfg_buf_get_u32 no_newline_cfg BOOTCFG_KEY_FAIL_COUNT 0 = 1 /\
  r.1 = 0 /\ bootcfg_buf_get r.2 K_TYPE 16 = None /\ bootcfg_buf_get_u32 r.2 BOOTCFG_KEY_FAIL_COUNT 0 = 0.
Proof. split_and!; vm_compute; reflexivity. Qed.
