(* ===== verification/Elf.v ===== *)
(** * ELF loader ([kernel/elf.c], [kernel/elf.h])

    [elf_load] checks every header of an untrusted image before it maps
    anything, then gives each loadable segment fresh zeroed pages in the new
    directory and copies its file data in through the kernel's identity map.
    The image is the list of its [size] bytes; a load outside it has no defined
    behaviour.  The state is the page allocator and physical memory. *)

From Stdlib Require Import ZArith Lia ZifyBool.
From stdpp Require Import base tactics numbers list option gmap.
From S2P Require Import Prelude FatName Pmm Mem Vmm Process UserMem.
Local Open Scope Z_scope.

Definition ELF_USER_LIMIT : Z := 0x02000000.
Definition ELF_MAX_PHNUM : Z := 64.
Definition ET_EXEC : Z := 2.
Definition EM_386 : Z := 3.
Definition PT_LOAD : Z := 1.
Definition EHDR_SIZE : Z := 52.
Definition PHDR_SIZE : Z := 32.

(** ** Headers *)

Record elf32_ehdr := Ehdr {
  e_ident : list Z;
  e_type : Z;
  e_machine : Z;
  e_entry : Z;
  e_phoff : Z;
  e_phentsize : Z;
  e_phnum : Z
}.

Record elf32_phdr := Phdr {
  p_type : Z;
  p_offset : Z;
  p_vaddr : Z;
  p_filesz : Z;
  p_memsz : Z
}.

(** The fields the loader reads, at their packed offsets. *)
Definition ehdr_of (b : list Z) : elf32_ehdr := {|
  e_ident := take 16 b;
  e_type := le16 b 16;
  e_machine := le16 b 18;
  e_entry := le32 b 24;
  e_phoff := le32 b 28;
  e_phentsize := le16 b 42;
  e_phnum := le16 b 44 |}.

Definition phdr_of (b : list Z) : elf32_phdr := {|
  p_type := le32 b 0;
  p_offset := le32 b 4;
  p_vaddr := le32 b 8;
  p_filesz := le32 b 16;
  p_memsz := le32 b 20 |}.

(** [n] bytes of the image from offset [o]. *)
Definition img_bytes {St} (img : list Z) (o n : Z) : cM St (list Z) :=
  if (0 <=? o) && (o + n <=? zlen img) then mret (sub img (Z.to_nat o) (Z.to_nat n)) else undefined.

Definition read_phdr {St} (img : list Z) (eh : elf32_ehdr) (i : Z) : cM St elf32_phdr :=
  b ← img_bytes img (u32 (e_phoff eh + u32 (i * e_phentsize eh))) PHDR_SIZE;
  mret (phdr_of b).

(** The checks on the file header: [true] when it is accepted. *)
Definition ehdr_valid (eh : elf32_ehdr) (size : Z) : bool :=
  bool_decide (take 6 (e_ident eh) = [0x7F; 69; 76; 70; 1; 1]) &&
  (e_type eh =? ET_EXEC) && (e_machine eh =? EM_386) && (e_phnum eh <=? ELF_MAX_PHNUM) &&
  ((e_phnum eh =? 0) ||
   ((PHDR_SIZE <=? e_phentsize eh) && (u64 (e_phoff eh + e_phnum eh * e_phentsize eh) <=? size))).

Definition phdr_valid (ph : elf32_phdr) (size : Z) : bool :=
  if negb (p_type ph =? PT_LOAD) || (p_memsz ph =? 0) then true
  else if p_memsz ph <? p_filesz ph then false
  else if negb (p_filesz ph =? 0) && (size <? u64 (p_offset ph + p_filesz ph)) then false
  else if p_vaddr ph <? 0x00800000 then false
  else if ELF_USER_LIMIT <? u64 (p_vaddr ph + p_memsz ph) then false
  else true.

Fixpoint zero_bytes (m : mem) (a : Z) (n : nat) : mem :=
  match n with
  | O => m
  | S n' => zero_bytes (wr8 m a 0) (a + 1) n'
  end.

Fixpoint copy_bytes (m : mem) (a : Z) (l : list Z) : mem :=
  match l with
  | [] => m
  | b :: l' => copy_bytes (wr8 m a b) (a + 1) l'
  end.

(** [memzero8] and [memcpy8]. *)
Definition memzero8 (m : mem) (dst len : Z) : mem := zero_bytes m dst (Z.to_nat len).
Definition memcpy8 (m : mem) (dst : Z) (src : list Z) : mem := copy_bytes m dst src.

Strategy 1000 [zero_bytes].
#[global] Arguments zero_bytes : simpl never.
#[global] Arguments copy_bytes : simpl never.

Section elf.
Context {PA : Type} `{PageAllocator PA}.
Local Notation M := (cM (PA * mem)).

(** The validation loop from header [i] on. *)
Fixpoint validate (k : nat) (img : list Z) (size : Z) (eh : elf32_ehdr) (i : Z) : M bool :=
  match k with
  | O => mret true
  | S k' =>
      ph ← read_phdr img eh i;
      if phdr_valid ph size then validate k' img size eh (i + 1) else mret false
  end.

(** [for (va = page_start; va < page_end; va += PAGE_SIZE)]: [true] when every
    page was mapped. *)
Fixpoint map_pages (k : nat) (cr3 va page_end : Z) : M bool :=
  if page_end <=? va then mret true
  else
    match k with
    | O => undefined
    | S k' => fun s =>
        let '(p, m) := s in
        let '(p, phys) := pa_alloc p in
        if phys =? 0 then Some (false, (p, m))
        else
          let m := memzero8 m phys PAGE_SIZE in
          let '(p, m, r) := vmm_map_user_page p m cr3 va phys in
          if negb (r =? 0) then Some (false, (pa_free p phys, m))
          else map_pages k' cr3 (u32 (va + PAGE_SIZE)) page_end (p, m)
    end.

(** [while (copied < filesz)] *)
Fixpoint copy_segment (k : nat) (cr3 : Z) (img : list Z) (ph : elf32_phdr) (copied : Z) : M () :=
  if p_filesz ph <=? copied then mret ()
  else
    match k with
    | O => undefined
    | S k' =>
        let va := u32 (p_vaddr ph + copied) in
        phys ← gets (fun s => vmm_get_phys_from_dir s.2 cr3 va);
        let pg_off := Z.land va 0xFFF in
        let chunk := PAGE_SIZE - pg_off in
        let chunk := if p_filesz ph - copied <? chunk then p_filesz ph - copied else chunk in
        src ← img_bytes img (u32 (p_offset ph + copied)) chunk;
        modify (fun s => (s.1, memcpy8 s.2 (u32 (phys + pg_off)) src));;
        copy_segment k' cr3 img ph (copied + chunk)
    end.

Definition load_segment (cr3 : Z) (img : list Z) (ph : elf32_phdr) : M bool :=
  if negb (p_type ph =? PT_LOAD) || (p_memsz ph =? 0) then mret true
  else
    let page_start := Z.land (p_vaddr ph) 0xFFFFF000 in
    let page_end := Z.land (u32 (p_vaddr ph + p_memsz ph + 0xFFF)) 0xFFFFF000 in
    ok ← map_pages (Z.to_nat ((page_end - page_start) / 4096)) cr3 page_start page_end;
    if negb ok then mret false
    else copy_segment (Z.to_nat (p_filesz ph / 4096 + 2)) cr3 img ph 0;; mret true.

Fixpoint load_segments (k : nat) (cr3 : Z) (img : list Z) (eh : elf32_ehdr) (i : Z) : M bool :=
  match k with
  | O => mret true
  | S k' =>
      ph ← read_phdr img eh i;
      ok ← load_segment cr3 img ph;
      if (ok : bool) then load_segments k' cr3 img eh (i + 1) else mret false
  end.

(** The entry point, [None] for the C result -1. *)
Definition elf_load (cr3 : Z) (elf_data : option (list Z)) (size : Z) : M (option Z) :=
  match elf_data with
  | None => mret None
  | Some img =>
      if size <? EHDR_SIZE then mret None
      else
        b ← img_bytes img 0 EHDR_SIZE;
        let eh := ehdr_of b in
        if negb (ehdr_valid eh size) then mret None
        else
          ok ← validate (Z.to_nat (e_phnum eh)) img size eh 0;
          if negb ok then mret None
          else
            ok ← load_segments (Z.to_nat (e_phnum eh)) cr3 img eh 0;
            if (ok : bool) then mret (Some (e_entry eh)) else mret None
  end.
End elf.

#[global] Arguments validate : simpl never.
#[global] Arguments map_pages : simpl never.
#[global] Arguments copy_segment : simpl never.
#[global] Arguments load_segments : simpl never.
#[global] Arguments img_bytes : simpl never.

(** ** Lemmas on bytes *)

Lemma zero_bytes_read n : forall m a x, rd8 (zero_bytes m a n) x = if (a <=? x) && (x <? a + Z.of_nat n) then 0 else rd8 m x.
Proof.
  induction n as [|n IH]; intros m a x; unfold zero_bytes; fold zero_bytes.
  - by replace ((a <=? x) && (x <? a + Z.of_nat 0)) with false by lia.
  - rewrite IH, rd8_wr8. change (u8 0) with 0. destruct (Z.eqb_spec a x) as [->|Hne].
    + replace ((x <=? x) && (x <? x + Z.of_nat (S n))) with true by lia. by destruct ((x + 1 <=? x) && _).
    + replace ((a + 1 <=? x) && (x <? a + 1 + Z.of_nat n)) with ((a <=? x) && (x <? a + Z.of_nat (S n))) by lia. done.
Qed.

Lemma copy_bytes_read l : forall m a x, rd8 (copy_bytes m a l) x =
  if (a <=? x) && (x <? a + zlen l) then u8 l.[x - a] else rd8 m x.
Proof.
  unfold zlen. induction l as [|b l IH]; intros m a x; unfold copy_bytes; fold copy_bytes.
  - by replace ((a <=? x) && (x <? a + Z.of_nat (length (@nil Z)))) with false by (simpl; lia).
  - rewrite IH, rd8_wr8. cbn [length]. destruct (Z.eqb_spec a x) as [->|Hne].
    + replace ((x <=? x) && (x <? x + Z.of_nat (S (length l)))) with true by lia.
      replace ((x + 1 <=? x) && _) with false by lia. by rewrite Z.sub_diag.
    + replace ((a + 1 <=? x) && (x <? a + 1 + Z.of_nat (length l))) with ((a <=? x) && (x <? a + Z.of_nat (S (length l)))) by lia.
      destruct ((a <=? x) && (x <? a + Z.of_nat (S (length l)))) eqn:E; [|done]. b2p. f_equal. unfold zget.
      replace (Z.to_nat (x - a)) with (S (Z.to_nat (x - (a + 1)))) by lia. done.
Qed.

Lemma zero_page_outside m k : same_outside m (memzero8 m (k * 4096) PAGE_SIZE) (fun q => q = k) /\
  forall o, 0 <= o < 4096 -> rd8 (memzero8 m (k * 4096) PAGE_SIZE) (k * 4096 + o) = 0.
Proof.
  unfold memzero8. change (Z.to_nat PAGE_SIZE) with 4096%nat. split.
  - intros x Hx. rewrite zero_bytes_read. destruct ((k * 4096 <=? x) && (x <? k * 4096 + Z.of_nat 4096)) eqn:E; [|done].
    b2p. destruct Hx. symmetry. apply Z.div_unique with (r := x - k * 4096); lia.
  - intros o Ho. rewrite zero_bytes_read. by replace ((k * 4096 <=? k * 4096 + o) && (k * 4096 + o <? k * 4096 + Z.of_nat 4096)) with true by lia.
Qed.

(** ** The address space being built *)

(** A page of the directory: the directory itself or one of its tables. *)
Definition own_page (m : mem) (cr3 q : Z) : Prop :=
  q = cr3 / 4096 \/
  exists di, 0 <= di < 1024 /\ has_flag (dir_word m cr3 di) VMM_PRESENT = true /\ q = table_page m cr3 di.

Section loader.
Context {PA : Type} `{PageAllocator PA}.
Implicit Types (p : PA) (m : mem).

(** [cr3] implements [sp]; every frame is allocated, is no page of the
    directory and backs one page. *)
Record ld_inv p m (cr3 : Z) (sp : gmap Z Z) : Prop := {
  li_ok : pa_ok p;
  li_dir : dir_ok p m cr3;
  li_tables : user_tables m cr3;
  li_walk : space_refines m cr3 sp;
  li_phys : forall w f, is_u32 w -> sp !! (w / 4096) = Some f ->
    vmm_get_phys_from_dir m cr3 w = f * 4096 + w mod 4096;
  li_frame : forall v f, sp !! v = Some f -> 0 < f < 2048 /\ pa_isfree p f = false /\ ~ own_page m cr3 f;
  li_inj : forall v w f, sp !! v = Some f -> sp !! w = Some f -> v = w
}.

Lemma ld_inv_space p m cr3 sp : ld_inv p m cr3 sp -> user_space m cr3 sp.
Proof.
  intros Hi. constructor.
  - apply Hi.
  - destruct (do_page _ _ _ (li_dir _ _ _ _ Hi)) as (k & Hk & _). by exists k.
  - intros v f E. destruct (li_frame _ _ _ _ Hi v f E) as [? _]. lia.
  - apply Hi.
  - intros v f E. destruct (li_frame _ _ _ _ Hi v f E) as (_ & _ & Hn). split.
    + intros ->. apply Hn. by left.
    + intros di Hdi Hp ->. apply Hn. right. by exists di.
Qed.

Lemma own_not_free p m cr3 q : dir_ok p m cr3 -> own_page m cr3 q -> pa_isfree p q = false.
Proof.
  intros [(k & -> & _ & Hf) Ht _ _] [->|(di & Hdi & Hp & ->)]; [by rewrite Z.div_mul by lia|]. by apply Ht.
Qed.

(** A change confined to a page that is not the directory's. *)
Lemma ld_inv_write p m m' cr3 sp k :
  ld_inv p m cr3 sp -> ~ own_page m cr3 k -> same_outside m m' (fun q => q = k) ->
  ld_inv p m' cr3 sp /\ forall q, own_page m' cr3 q <-> own_page m cr3 q.
Proof.
  intros Hi Hk Hs. pose proof (li_dir _ _ _ _ Hi) as Hd.
  assert (Hne : cr3 / 4096 <> k) by (intros <-; apply Hk; by left).
  destruct (words_same p m m' cr3 (fun q => q = k) Hd Hs Hne) as [Hw _].
  assert (Hown : forall q, own_page m' cr3 q <-> own_page m cr3 q).
  { intros q. unfold own_page, table_page. split; intros [->|(di & Hdi & Hp & ->)]; auto; right; exists di; rewrite Hw in * by done; auto. }
  assert (Hl : forall w, is_u32 w -> lookup_same m m' cr3 w).
  { intros w Hu. pose proof (dir_index_range w Hu). apply lookup_same_words; [by apply Hw|]. intros Hp.
    rewrite pte_addr_page. pose proof (table_index_range w).
    eapply same_outside_rd32; [exact Hs|apply in_page_aligned, quad_aligned|]. rewrite in_page by lia.
    intros E. apply Hk. right. exists (dir_index w). auto. }
  split; [|done]. constructor.
  - apply Hi.
  - eapply dir_ok_same; [exact Hw| |exact Hd]. auto.
  - intros di Hdi. rewrite Hw by lia. by apply Hi.
  - intros w Hu. rewrite <- (li_walk _ _ _ _ Hi w Hu). by apply Hl.
  - intros w f Hu E. rewrite <- (li_phys _ _ _ _ Hi w f Hu E). by apply Hl.
  - intros v f E. rewrite Hown. by apply (li_frame _ _ _ _ Hi v).
  - apply Hi.
Qed.

(** Fewer free pages. *)
Lemma ld_inv_alloc p p1 m cr3 sp : ld_inv p m cr3 sp -> pa_ok p1 ->
  (forall q, pa_isfree p1 q = true -> pa_isfree p q = true) -> ld_inv p1 m cr3 sp.
Proof.
  intros Hi Hp1 Hm.
  assert (Hf : forall q, pa_isfree p q = false -> pa_isfree p1 q = false).
  { intros q Hq. destruct (pa_isfree p1 q) eqn:E; [|done]. apply Hm in E. congruence. }
  constructor; try apply Hi; [done| |].
  - eapply dir_ok_same; [by intros| |apply Hi]. auto.
  - intros v f E. destruct (li_frame _ _ _ _ Hi v f E) as (? & ? & ?). auto.
Qed.

Lemma own_mapped p m cr3 virt phys p' m' q : dir_ok p m cr3 ->
  mapped p m cr3 virt phys p' m' -> own_page m' cr3 q -> own_page m cr3 q \/ pa_isfree p q = true.
Proof.
  intros Hd Hm [->|(di & Hdi & Hp & ->)]; [left; by left|].
  destruct (Z_lt_le_dec di 2) as [Hlo|Hhi].
  - left. right. exists di. unfold table_page. rewrite (mp_low _ _ _ _ _ _ _ Hm) in * by lia. auto.
  - destruct (mp_private _ _ _ _ _ _ _ Hm (table_page m' cr3 di)) as [Hpr|]; [right; exists di; split_and!; (done || lia)| |by right].
    left. destruct Hpr as [->|(dj & Hdj & Hpj & ->)]; [by left|right; exists dj; split; [lia|done]].
Qed.

(** Mapping the page [v] to the allocated page [k]. *)
Lemma ld_inv_map p m cr3 sp v k p' m' :
  ld_inv p m cr3 sp -> 0 <= v < 2 ^ 20 -> 0 < k < 2048 -> pa_isfree p k = false -> ~ own_page m cr3 k ->
  (forall w, sp !! w <> Some k) ->
  mapped p m cr3 (v * 4096) (k * 4096) p' m' -> user_tables m' cr3 ->
  ld_inv p' m' cr3 (<[v := k]> sp) /\
  same_outside m m' (fun q => own_page m cr3 q \/ pa_isfree p q = true) /\ (forall q, pa_isfree p' q = true -> pa_isfree p q = true).
Proof.
  intros Hi Hv Hk Hkf Hko Hks Hm Hu. pose proof (li_dir _ _ _ _ Hi) as Hd.
  assert (Hvu : is_u32 (v * 4096)) by (unfold is_u32; lia).
  assert (Hmono : forall q, pa_isfree p' q = true -> pa_isfree p q = true) by apply Hm.
  split; [|split; [|done]].
  - constructor; [apply Hm|apply Hm|done| | | |].
    + pose proof (space_refines_map p m cr3 (v * 4096) (k * 4096) p' m' sp (li_walk _ _ _ _ Hi) Hm Hvu) as H1.
      by rewrite !Z.div_mul in H1 by lia.
    + intros w f Hw E. destruct (Z.eq_dec (w / 4096) v) as [Ev|Ev].
      * rewrite Ev, lookup_insert_eq in E. injection E as <-.
        destruct (mp_page _ _ _ _ _ _ _ Hm w) as [_ ->]; [rewrite Z.div_mul by lia; done|]. by rewrite Z.div_mul by lia.
      * rewrite lookup_insert_ne in E by congruence. rewrite <- (li_phys _ _ _ _ Hi w f Hw E).
        apply (mp_other _ _ _ _ _ _ _ Hm w Hw). rewrite Z.div_mul by lia. done.
    + intros w f E. destruct (Z.eq_dec w v) as [->|Hne].
      * rewrite lookup_insert_eq in E. injection E as <-. split_and!; [lia|lia| |].
        -- destruct (pa_isfree p' k) eqn:E; [|done]. apply Hmono in E. congruence.
        -- intros Ho. apply (own_mapped p m cr3 (v * 4096) (k * 4096) p' m') in Ho as [|]; (done || congruence).
      * rewrite lookup_insert_ne in E by congruence. destruct (li_frame _ _ _ _ Hi w f E) as (? & Hf & Hn). split_and!; [lia|lia| |].
        -- destruct (pa_isfree p' f) eqn:E'; [|done]. apply Hmono in E'. congruence.
        -- intros Ho. apply (own_mapped p m cr3 (v * 4096) (k * 4096) p' m') in Ho as [|]; (done || congruence).
    + intros w1 w2 f E1 E2. destruct (Z.eq_dec w1 v) as [->|H1], (Z.eq_dec w2 v) as [->|H2]; [done| | |];
        rewrite ?lookup_insert_eq in E1; rewrite ?lookup_insert_eq in E2;
        rewrite ?lookup_insert_ne in E1 by congruence; rewrite ?lookup_insert_ne in E2 by congruence.
      * injection E1 as <-. by apply Hks in E2.
      * injection E2 as <-. by apply Hks in E1.
      * by apply (li_inj _ _ _ _ Hi w1 w2 f).
  - eapply same_outside_mono; [|apply (mp_frame _ _ _ _ _ _ _ Hm)]. intros q [Hq|]; [left|by right].
    destruct Hq as [->|(di & Hdi & Hp & ->)]; [by left|right; exists di; split; [lia|done]].
Qed.

(** Only the directory's own pages and pages that were free have changed. *)
Record extends p m (cr3 : Z) p' m' : Prop := {
  ex_free : forall q, pa_isfree p' q = true -> pa_isfree p q = true;
  ex_same : same_outside m m' (fun q => own_page m cr3 q \/ pa_isfree p q = true);
  ex_own : forall q, own_page m' cr3 q -> own_page m cr3 q \/ pa_isfree p q = true
}.

Lemma extends_refl p m cr3 : extends p m cr3 p m.
Proof. constructor; auto with nullos. Qed.

Lemma extends_trans p1 m1 p2 m2 p3 m3 cr3 : extends p1 m1 cr3 p2 m2 -> extends p2 m2 cr3 p3 m3 -> extends p1 m1 cr3 p3 m3.
Proof.
  intros [F1 S1 O1] [F2 S2 O2]. constructor; [auto| |].
  - eapply same_outside_trans; [exact S1|]. eapply same_outside_mono; [|exact S2]. intros q [Hq|Hq]; [by apply O1|right; auto].
  - intros q Hq. destruct (O2 q Hq) as [Hq'|]; [by apply O1|right; auto].
Qed.

(** The frames of the space keep their bytes. *)
Lemma extends_frame p m cr3 p' m' sp v f o : ld_inv p m cr3 sp -> extends p m cr3 p' m' -> sp !! v = Some f -> 0 <= o < 4096 ->
  rd8 m' (f * 4096 + o) = rd8 m (f * 4096 + o).
Proof.
  intros Hi He E Ho. destruct (li_frame _ _ _ _ Hi v f E) as (_ & Hf & Hn). apply (ex_same _ _ _ _ _ He).
  rewrite in_page by done. intros [|]; [done|congruence].
Qed.

(** One round of the mapping loop: a fresh zeroed page. *)
Lemma fresh_page p p1 m cr3 sp k : ld_inv p m cr3 sp -> pa_ok p1 -> pa_isfree p k = true ->
  (forall q, pa_isfree p1 q = pa_isfree p q && negb (q =? k)) ->
  let m1 := memzero8 m (k * 4096) PAGE_SIZE in
  ld_inv p1 m1 cr3 sp /\ extends p m cr3 p1 m1 /\ ~ own_page m1 cr3 k /\ (forall v, sp !! v <> Some k) /\
  pa_isfree p1 k = false /\ same_outside m m1 (fun q => q = k) /\ forall o, 0 <= o < 4096 -> rd8 m1 (k * 4096 + o) = 0.
Proof.
  intros Hi Hp1 Hk Hfree m1. destruct (zero_page_outside m k) as [Hs Hz]. fold m1 in Hs, Hz. clearbody m1.
  assert (Hn : ~ own_page m cr3 k) by (intros Ho; apply (own_not_free p) in Ho; [congruence|apply Hi]).
  assert (Hm : forall q, pa_isfree p1 q = true -> pa_isfree p q = true) by (intros q; rewrite Hfree; by destruct (pa_isfree p q)).
  destruct (ld_inv_write p1 m m1 cr3 sp k) as [Hi1 Hown]; [by eapply ld_inv_alloc|done|done|].
  split_and!; [done| |by rewrite Hown| |by rewrite Hfree, Hk, Z.eqb_refl|done|done].
  - constructor; [done| |intros q Hq; left; by apply Hown].
    eapply same_outside_mono; [|exact Hs]. intros q ->. by right.
  - intros v E. destruct (li_frame _ _ _ _ Hi v k E) as (_ & Hf & _). congruence.
Qed.

(** The own pages do not change with pages that are none of them. *)
Lemma own_same p m m' cr3 P q : dir_ok p m cr3 -> same_outside m m' P -> ~ P (cr3 / 4096) -> own_page m' cr3 q <-> own_page m cr3 q.
Proof.
  intros Hd Hs Hn. destruct (words_same p m m' cr3 P Hd Hs Hn) as [Hw _].
  unfold own_page, table_page. split; intros [->|(di & Hdi & Hp & ->)]; auto; right; exists di; rewrite Hw in * by done; auto.
Qed.

(** The space is made of pages that were free in [p0]; but for them, the pages
    of the directory and other pages that were free, memory is as in [m0]. *)
Record fresh_space p0 m0 (cr3 : Z) p m (sp : gmap Z Z) : Prop := {
  fs_extends : extends p0 m0 cr3 p m;
  fs_free : forall v f, sp !! v = Some f -> pa_isfree p0 f = true
}.

(** Stores to the frames of the space. *)
Lemma fresh_space_write p0 m0 cr3 p m m' sp : ld_inv p m cr3 sp -> fresh_space p0 m0 cr3 p m sp ->
  same_outside m m' (fun q => exists v, sp !! v = Some q) -> fresh_space p0 m0 cr3 p m' sp.
Proof.
  intros Hi [[Xf Xs Xo] Hf] Hs. constructor; [|done]. constructor; [done| |].
  - eapply same_outside_trans; [exact Xs|]. eapply same_outside_mono; [|exact Hs]. intros q (v & E). right. by eapply Hf.
  - intros q Hq. apply Xo. apply (own_same p m m' cr3 _ q (li_dir _ _ _ _ Hi) Hs); [|done].
    intros (v & E). destruct (li_frame _ _ _ _ Hi _ _ E) as (_ & _ & Hn). apply Hn. by left.
Qed.

Definition zeroed m (sp : gmap Z Z) (q n : Z) : Prop :=
  forall v, q <= v < q + n -> exists f, sp !! v = Some f /\ forall o, 0 <= o < 4096 -> rd8 m (f * 4096 + o) = 0.

(** At most one page is left. *)
Definition exhausted p : Prop := exists k, forall q, pa_isfree p q = true -> q = k.

Lemma map_user_fail_nomem p m cr3 virt phys p' m' r : pa_ok p -> 0x800000 <= virt ->
  vmm_map_user_page p m cr3 virt phys = (p', m', r) -> r <> 0 -> forall q, pa_isfree p q = false.
Proof.
  intros Hp Hv. unfold vmm_map_user_page. replace (virt <? 0x800000) with false by lia. cbn zeta.
  destruct (negb (has_flag (pde m cr3 virt) VMM_PRESENT)); [|congruence].
  destruct (pa_alloc p) as [p1 a] eqn:Ea. apply pa_alloc_law in Ea; [|done].
  destruct Ea as [(-> & -> & Hno)|(k & -> & Hkf & _ & _)]; [done|].
  pose proof (pa_isfree_range p k Hp Hkf). replace (k * 4096 =? 0) with false by lia.
  replace (0x800000 <=? k * 4096) with false by lia. congruence.
Qed.

Lemma map_pages_eq k cr3 va page_end p m :
  map_pages (S k) cr3 va page_end (p, m) =
  if page_end <=? va then Some (true, (p, m))
  else
    let '(p, phys) := pa_alloc p in
    if phys =? 0 then Some (false, (p, m))
    else
      let m := memzero8 m phys PAGE_SIZE in
      let '(p, m, r) := vmm_map_user_page p m cr3 va phys in
      if negb (r =? 0) then Some (false, (pa_free p phys, m))
      else map_pages k cr3 (u32 (va + PAGE_SIZE)) page_end (p, m).
Proof. unfold map_pages; fold (@map_pages PA _). destruct (page_end <=? va); [done|]. by destruct (pa_alloc p). Qed.

Lemma map_pages_spec n : forall p m cr3 sp q,
  ld_inv p m cr3 sp -> 2048 <= q -> q + Z.of_nat n < 2 ^ 20 ->
  wp (map_pages n cr3 (q * 4096) ((q + Z.of_nat n) * 4096)) (fun ok s' =>
    exists sp', ld_inv s'.1 s'.2 cr3 sp' /\ extends p m cr3 s'.1 s'.2 /\
      (forall v, v < q \/ q + Z.of_nat n <= v -> sp' !! v = sp !! v) /\
      (forall v f, sp' !! v = Some f -> sp !! v = Some f \/ pa_isfree p f = true) /\
      (if ok then zeroed s'.2 sp' q (Z.of_nat n) else exhausted s'.1)) (p, m).
Proof.
  induction n as [|n IH]; intros p m cr3 sp q Hi Hq Hn.
  { unfold map_pages. replace ((q + Z.of_nat 0) * 4096 <=? q * 4096) with true by lia.
    apply wp_ret. exists sp. split_and!; [done|apply extends_refl|done|by left|]. intros v Hv. lia. }
  unfold wp. rewrite map_pages_eq. replace ((q + Z.of_nat (S n)) * 4096 <=? q * 4096) with false by lia.
  destruct (pa_alloc p) as [p1 a] eqn:Ea. apply pa_alloc_law in Ea; [|apply Hi].
  destruct Ea as [(-> & -> & Hno)|(k & -> & Hkf & Hp1 & Hfree)].
  { change (0 =? 0) with true. cbv iota. exists sp. split_and!; [done|apply extends_refl|done|by left|].
    exists 0. intros q' Hq'. cbn in Hq'. congruence. }
  pose proof (pa_isfree_range p k (li_ok _ _ _ _ Hi) Hkf) as Hk. replace (k * 4096 =? 0) with false by lia.
  destruct (fresh_page p p1 m cr3 sp k Hi Hp1 Hkf Hfree) as (Hi1 & He1 & Hko & Hks & Hk1 & Hsk & Hz).
  cbv zeta. set (m1 := memzero8 m (k * 4096) PAGE_SIZE) in *. clearbody m1.
  destruct (vmm_map_user_page p1 m1 cr3 (q * 4096) (k * 4096)) as [[p2 m2] r] eqn:Em.
  destruct (map_user_page_spec p1 m1 cr3 (q * 4096) (k * 4096) p2 m2 r) as [(-> & _ & Hm & Hu)|(Hr & -> & ->)];
    [apply Hi1|apply Hi1|apply Hi1|unfold is_u32; lia|unfold is_u32; lia|done| |].
  - change (negb (0 =? 0)) with false. cbv iota.
    destruct (ld_inv_map p1 m1 cr3 sp q k p2 m2) as (Hi2 & Hs2 & Hf2); [done|lia|done|done|done|done|done|done|].
    assert (He2 : extends p1 m1 cr3 p2 m2).
    { constructor; [done|done|]. intros q' Hq'. by apply (own_mapped p1 m1 cr3 (q * 4096) (k * 4096) p2 m2); [apply Hi1| |]. }
    rewrite u32_small by (unfold PAGE_SIZE; lia).
    replace (q * 4096 + PAGE_SIZE) with ((q + 1) * 4096) by (unfold PAGE_SIZE; lia).
    replace (q + Z.of_nat (S n)) with (q + 1 + Z.of_nat n) in * by lia.
    pose proof (IH p2 m2 cr3 (<[q := k]> sp) (q + 1) Hi2 ltac:(lia) ltac:(lia)) as Hrec. unfold wp in Hrec.
    destruct (map_pages n cr3 ((q + 1) * 4096) ((q + 1 + Z.of_nat n) * 4096) (p2, m2)) as [[ok [p3 m3]]|]; [|done].
    cbn [fst snd] in *. destruct Hrec as (sp' & Hi3 & He3 & Hout & Hnew & Hzero). exists sp'. split_and!.
    + done.
    + eapply extends_trans; [exact He1|]. by eapply extends_trans.
    + intros v Hv. rewrite Hout by lia. rewrite lookup_insert_ne by lia. done.
    + intros v f Ef. apply Hnew in Ef as [Ef|Ef]; [|right; by apply He1, He2].
      destruct (Z.eq_dec q v) as [<-|]; [rewrite lookup_insert_eq in Ef; injection Ef as <-; by right|].
      rewrite lookup_insert_ne in Ef by done. by left.
    + destruct ok; [|done]. intros v Hv. destruct (Z.eq_dec v q) as [->|Hne]; [|apply Hzero; lia].
      assert (E : (<[q:=k]> sp : gmap Z Z) !! q = Some k) by apply lookup_insert_eq.
      exists k. split; [rewrite Hout by lia; done|]. intros o Ho.
      rewrite (extends_frame p2 m2 cr3 p3 m3 (<[q := k]> sp) q k o Hi2 He3 E Ho), <- (Hz o Ho). apply Hs2. rewrite in_page by done.
      intros [|]; [done|congruence].
  - replace (negb (r =? 0)) with true by lia. destruct (pa_free_law p1 k Hp1 ltac:(lia)) as [Hok2 Hfr2].
    assert (Hfp : forall q', pa_isfree (pa_free p1 (k * 4096)) q' = true -> pa_isfree p q' = true).
    { intros q'. destruct (Z.eq_dec q' k) as [->|Hne]; [done|]. rewrite Hfr2 by done. apply He1. }
    cbn [fst snd]. exists sp. split_and!; [| |done|by left|].
    + destruct (ld_inv_write p m m1 cr3 sp k Hi) as [Hi' _].
      * intros Ho. apply (own_not_free p) in Ho; [congruence|apply Hi].
      * exact Hsk.
      * by eapply ld_inv_alloc.
    + constructor; [done|apply He1|apply He1].
    + exists k. intros q' Hq'. destruct (Z.eq_dec q' k) as [|Hne]; [done|]. rewrite Hfr2 in Hq' by done.
      rewrite (map_user_fail_nomem p1 m1 cr3 (q * 4096) (k * 4096) p1 m1 r) in Hq'; (done || lia).
Qed.

(** ** Copying the file data *)

(** Bytes [i] with [lo <= i < hi] of the file data are in place; every other
    byte of memory is as it was. *)
Record placed m m' (sp : gmap Z Z) (img : list Z) (vaddr offset lo hi : Z) : Prop := {
  pl_data : forall i, lo <= i < hi -> rd8 m' (phys_of sp (vaddr + i)) = img.[offset + i];
  pl_other : forall x, (forall i, lo <= i < hi -> x <> phys_of sp (vaddr + i)) -> rd8 m' x = rd8 m x
}.

Lemma sub_get img (o n j : Z) : 0 <= o -> 0 <= j < n -> o + n <= zlen img -> (sub img (Z.to_nat o) (Z.to_nat n)).[j] = img.[o + j].
Proof.
  intros Ho Hj Hn. unfold sub, zget. rewrite lookup_total_take, lookup_total_drop, decide_True by lia. f_equal. lia.
Qed.

Lemma sub_zlen img (o n : Z) : 0 <= o -> 0 <= n -> o + n <= zlen img -> zlen (sub img (Z.to_nat o) (Z.to_nat n)) = n.
Proof. intros. unfold sub, zlen in *. rewrite length_take, length_drop. lia. Qed.

(** The same page backs the addresses of one chunk. *)
Lemma phys_of_chunk (sp : gmap Z Z) v f j : sp !! v = Some f -> 0 <= j < 4096 -> phys_of sp (v * 4096 + j) = f * 4096 + j.
Proof.
  intros E Hj. unfold phys_of. rewrite in_page by done. rewrite E. cbn [default].
  rewrite (Z.add_comm (v * 4096)), Z.mod_add, Z.mod_small by lia. done.
Qed.

Lemma copy_chunk p m cr3 sp img v f offset c n : ld_inv p m cr3 sp -> sp !! v = Some f -> 0 <= n <= 4096 ->
  0 <= offset + c -> offset + c + n <= zlen img -> Forall byte img ->
  let m1 := memcpy8 m (f * 4096) (sub img (Z.to_nat (offset + c)) (Z.to_nat n)) in
  ld_inv p m1 cr3 sp /\ placed m m1 sp img (v * 4096 - c) offset c (c + n).
Proof.
  intros Hi E Hn Ho Hl Hb m1. unfold m1, memcpy8.
  assert (Hz : zlen (sub img (Z.to_nat (offset + c)) (Z.to_nat n)) = n) by (apply sub_zlen; lia).
  destruct (li_frame _ _ _ _ Hi v f E) as (Hf & _ & Hno). split.
  - apply (ld_inv_write p m _ cr3 sp f Hi Hno). intros x Hx. rewrite copy_bytes_read, Hz.
    destruct ((f * 4096 <=? x) && (x <? f * 4096 + n)) eqn:Er; [|done]. b2p. destruct Hx. symmetry.
    apply Z.div_unique with (r := x - f * 4096); lia.
  - constructor.
    + intros i Hir. replace (v * 4096 - c + i) with (v * 4096 + (i - c)) by lia. rewrite (phys_of_chunk sp v f) by (done || lia).
      rewrite copy_bytes_read, Hz. replace ((f * 4096 <=? f * 4096 + (i - c)) && (f * 4096 + (i - c) <? f * 4096 + n)) with true by lia.
      replace (f * 4096 + (i - c) - f * 4096) with (i - c) by lia. rewrite sub_get by lia.
      replace (offset + c + (i - c)) with (offset + i) by lia. apply u8_small.
      change (2 ^ 8) with 256. apply (zget_forall byte img (offset + i)); [done|lia].
    + intros x Hx. rewrite copy_bytes_read, Hz. destruct ((f * 4096 <=? x) && (x <? f * 4096 + n)) eqn:Er; [|done]. b2p.
      exfalso. apply (Hx (c + (x - f * 4096))); [lia|].
      replace (v * 4096 - c + (c + (x - f * 4096))) with (v * 4096 + (x - f * 4096)) by lia.
      rewrite (phys_of_chunk sp v f) by (done || lia). lia.
Qed.

Lemma placed_trans m0 m1 m2 cr3 sp img vaddr offset lo mid hi :
  user_space m0 cr3 sp -> (forall i, lo <= i < hi -> is_Some (sp !! ((vaddr + i) / 4096))) -> lo <= mid <= hi ->
  placed m0 m1 sp img vaddr offset lo mid -> placed m1 m2 sp img vaddr offset mid hi -> placed m0 m2 sp img vaddr offset lo hi.
Proof.
  intros Hsp Hm Hr [D1 O1] [D2 O2]. constructor.
  - intros i Hi. destruct (Z_lt_le_dec i mid); [|apply D2; lia]. rewrite O2; [apply D1; lia|].
    intros j Hj Ej. apply (phys_of_inj _ _ _ _ _ Hsp) in Ej; [lia|apply Hm; lia|apply Hm; lia].
  - intros x Hx. rewrite O2, O1; [done| |]; intros i Hi; apply Hx; lia.
Qed.

Lemma copy_segment_done k cr3 img ph copied (s : PA * mem) : p_filesz ph <= copied -> copy_segment k cr3 img ph copied s = Some ((), s).
Proof. intros Hc. destruct k; unfold copy_segment; by replace (p_filesz ph <=? copied) with true by lia. Qed.

Lemma copy_segment_eq k cr3 img ph copied s : copied < p_filesz ph ->
  copy_segment (S k) cr3 img ph copied s =
  (let va := u32 (p_vaddr ph + copied) in
   phys ← gets (fun s => vmm_get_phys_from_dir s.2 cr3 va);
   let pg_off := Z.land va 0xFFF in
   let chunk := PAGE_SIZE - pg_off in
   let chunk := if p_filesz ph - copied <? chunk then p_filesz ph - copied else chunk in
   src ← img_bytes img (u32 (p_offset ph + copied)) chunk;
   modify (fun s : PA * mem => (s.1, memcpy8 s.2 (u32 (phys + pg_off)) src));;
   copy_segment k cr3 img ph (copied + chunk)) s.
Proof. intros Hc. unfold copy_segment; fold (@copy_segment PA). by replace (p_filesz ph <=? copied) with false by lia. Qed.

Lemma wp_congr {St A} (c c' : cM St A) (Q : A -> St -> Prop) s : c s = c' s -> wp c' Q s -> wp c Q s.
Proof. unfold wp. by intros ->. Qed.

Lemma wp_img_bytes {St} img o n (Q : list Z -> St -> Prop) s : 0 <= o -> 0 <= n -> o + n <= zlen img ->
  Q (sub img (Z.to_nat o) (Z.to_nat n)) s -> wp (img_bytes img o n) Q s.
Proof.
  intros Ho Hn Hl HQ. unfold img_bytes. replace ((0 <=? o) && (o + n <=? zlen img)) with true by lia. by apply wp_ret.
Qed.

Lemma copy_segment_spec k : forall p m cr3 sp img ph q c,
  ld_inv p m cr3 sp -> p_vaddr ph = q * 4096 -> 0 <= q < 2 ^ 20 -> 0 <= c -> p_filesz ph < (c + Z.of_nat k) * 4096 ->
  q * 4096 + p_filesz ph < 2 ^ 32 -> 0 <= p_offset ph -> p_offset ph + p_filesz ph <= zlen img -> zlen img < 2 ^ 32 -> Forall byte img ->
  0 <= p_filesz ph ->
  (forall i, 0 <= i < p_filesz ph -> is_Some (sp !! ((q * 4096 + i) / 4096))) ->
  let lo := Z.min (c * 4096) (p_filesz ph) in
  wp (copy_segment k cr3 img ph lo) (fun _ s' => s'.1 = p /\ ld_inv p s'.2 cr3 sp /\
    placed m s'.2 sp img (q * 4096) (p_offset ph) lo (p_filesz ph)) (p, m).
Proof.
  induction k as [|k IH]; intros p m cr3 sp img ph q c Hi Hva Hq Hc Hk Hend Ho Hof Hz Hb Hfs Hmap lo.
  { unfold copy_segment. replace (p_filesz ph <=? lo) with true by lia. apply wp_ret. split_and!; [done|done|].
    constructor; [lia|done]. }
  destruct (Z_le_gt_dec (p_filesz ph) (c * 4096)) as [Hge|Hlt].
  { unfold copy_segment. replace (p_filesz ph <=? lo) with true by lia. apply wp_ret. split_and!; [done|done|].
    constructor; [lia|done]. }
  assert (Elo : lo = c * 4096) by lia. rewrite Elo. eapply wp_congr; [apply copy_segment_eq; lia|]. cbv zeta.
  rewrite Hva. replace (q * 4096 + c * 4096) with ((q + c) * 4096) by lia.
  rewrite u32_small by lia. rewrite low12_eq, Z.mod_mul by lia. unfold PAGE_SIZE. rewrite Z.sub_0_r.
  apply wp_bind, wp_gets. cbn [snd].
  assert (Hpg : is_Some (sp !! (q + c))).
  { specialize (Hmap (c * 4096) ltac:(lia)). by replace ((q * 4096 + c * 4096) / 4096) with (q + c) in Hmap by (rewrite <- Z.mul_add_distr_r, Z.div_mul; lia). }
  destruct Hpg as [f Ef]. rewrite (li_phys _ _ _ _ Hi ((q + c) * 4096) f) by (unfold is_u32; rewrite ?Z.div_mul by lia; (done || lia)).
  rewrite Z.mod_mul, !Z.add_0_r by lia. set (chunk := if p_filesz ph - c * 4096 <? 4096 then p_filesz ph - c * 4096 else 4096).
  assert (Hch : 0 < chunk <= 4096 /\ c * 4096 + chunk = Z.min ((c + 1) * 4096) (p_filesz ph)).
  { unfold chunk. destruct (Z.ltb_spec (p_filesz ph - c * 4096) 4096); lia. }
  destruct (li_frame _ _ _ _ Hi _ f Ef) as (Hfr & _ & _).
  rewrite (u32_small (p_offset ph + c * 4096)), (u32_small (f * 4096)) by lia.
  apply wp_bind, wp_img_bytes; [lia..|]. apply wp_bind, wp_modify. cbn [fst snd].
  destruct (copy_chunk p m cr3 sp img (q + c) f (p_offset ph) (c * 4096) chunk) as [Hi1 Hpl]; [done|done|lia|lia|lia|done|].
  replace ((q + c) * 4096 - c * 4096) with (q * 4096) in Hpl by lia.
  set (m1 := memcpy8 m _ _) in *. clearbody m1. destruct Hch as [Hch1 Hch2]. rewrite Hch2.
  eapply wp_mono; [apply (IH p m1 cr3 sp img ph q (c + 1)); (done || lia)|].
  intros _ [p' m'] (E1 & Hi' & Hpl'). cbn [fst snd] in *. split_and!; [done|done|].
  eapply (placed_trans m m1 m' cr3 sp img (q * 4096) (p_offset ph) (c * 4096)); [by eapply ld_inv_space| | |rewrite Hch2 in Hpl; exact Hpl|done].
  - intros i Hir. apply Hmap. lia.
  - lia.
Qed.

(** ** Segments *)

Definition loadable (ph : elf32_phdr) : bool := (p_type ph =? PT_LOAD) && negb (p_memsz ph =? 0).

(** The pages a segment covers. *)
Definition seg_page (ph : elf32_phdr) (v : Z) : Prop := p_vaddr ph / 4096 <= v <= (p_vaddr ph + p_memsz ph - 1) / 4096.

Record phdr_range (ph : elf32_phdr) : Prop := {
  pr_offset : is_u32 (p_offset ph);
  pr_vaddr : is_u32 (p_vaddr ph);
  pr_filesz : is_u32 (p_filesz ph);
  pr_memsz : is_u32 (p_memsz ph)
}.

(** What the validation loop has established of a loadable segment. *)
Lemma phdr_valid_facts ph size : phdr_range ph -> is_u32 size -> loadable ph = true -> phdr_valid ph size = true ->
  0 < p_memsz ph /\ p_filesz ph <= p_memsz ph /\ 0x800000 <= p_vaddr ph /\ p_vaddr ph + p_memsz ph <= 0x2000000 /\
  (p_filesz ph <> 0 -> p_offset ph + p_filesz ph <= size).
Proof.
  intros [Ho Hv Hf Hm] Hs. unfold is_u32, loadable, phdr_valid, ELF_USER_LIMIT in *.
  rewrite !u64_small by lia. destruct (p_type ph =? PT_LOAD); [|done]. cbn [negb orb andb].
  destruct (Z.eqb_spec (p_memsz ph) 0); [done|]. cbn [negb].
  destruct (Z.ltb_spec (p_memsz ph) (p_filesz ph)); [done|].
  destruct (Z.eqb_spec (p_filesz ph) 0); cbn [negb andb].
  - destruct (Z.ltb_spec (p_vaddr ph) 0x800000); [done|].
    destruct (Z.ltb_spec 0x2000000 (p_vaddr ph + p_memsz ph)); [done|]. lia.
  - destruct (Z.ltb_spec size (p_offset ph + p_filesz ph)); [done|].
    destruct (Z.ltb_spec (p_vaddr ph) 0x800000); [done|].
    destruct (Z.ltb_spec 0x2000000 (p_vaddr ph + p_memsz ph)); [done|]. lia.
Qed.

(** Every page the segment touches is mapped, and every byte [a] of these pages
    holds its byte of the file or, where the file has none for it, zero. *)
Definition seg_loaded m (sp : gmap Z Z) (img : list Z) (ph : elf32_phdr) : Prop :=
  forall a, seg_page ph (a / 4096) -> is_Some (sp !! (a / 4096)) /\ rd8 m (phys_of sp a) =
      if (p_vaddr ph <=? a) && (a <? p_vaddr ph + p_filesz ph) then img.[p_offset ph + (a - p_vaddr ph)] else 0.

(** Pages outside the segment keep their frames and bytes. *)
Definition kept m (sp : gmap Z Z) m' (sp' : gmap Z Z) (P : Z -> Prop) : Prop :=
  forall v, ~ P v -> sp' !! v = sp !! v /\
    forall f o, sp !! v = Some f -> 0 <= o < 4096 -> rd8 m' (f * 4096 + o) = rd8 m (f * 4096 + o).

Lemma phys_of_split (sp : gmap Z Z) a f : sp !! (a / 4096) = Some f -> phys_of sp a = f * 4096 + a mod 4096.
Proof. intros E. unfold phys_of. by rewrite E. Qed.

(** The file data goes to the frames of its pages and nowhere else. *)
Lemma placed_pages m m' (sp : gmap Z Z) img vaddr offset lo hi : placed m m' sp img vaddr offset lo hi ->
  (forall i, lo <= i < hi -> is_Some (sp !! ((vaddr + i) / 4096))) -> same_outside m m' (fun q => exists v, sp !! v = Some q).
Proof.
  intros [_ Ho] Hm x Hx. apply Ho. intros i Hi ->. apply Hx. destruct (Hm i Hi) as [f Ef].
  exists ((vaddr + i) / 4096). rewrite (phys_of_split sp _ f Ef), in_page; [done|]. apply Z.mod_pos_bound. lia.
Qed.

Lemma kept_placed p m sp m1 m2 sp1 cr3 img vaddr offset lo hi (P : Z -> Prop) : kept m sp m1 sp1 P -> ld_inv p m1 cr3 sp1 ->
  placed m1 m2 sp1 img vaddr offset lo hi ->
  (forall i, lo <= i < hi -> is_Some (sp1 !! ((vaddr + i) / 4096)) /\ P ((vaddr + i) / 4096)) -> kept m sp m2 sp1 P.
Proof.
  intros Hk Hi [_ Ho] Hm v Hnv. destruct (Hk v Hnv) as [E1 E2]. split; [done|]. intros f o Ef Hor. rewrite <- (E2 f o Ef Hor).
  apply Ho. intros i Hir Ex. rewrite <- E1 in Ef. destruct (Hm i Hir) as [[g Eg] HP]. rewrite (phys_of_split sp1 _ g Eg) in Ex.
  assert (f = g) as <- by (rewrite <- (in_page f o Hor), Ex; apply in_page, Z.mod_pos_bound; lia).
  by rewrite (li_inj _ _ _ _ Hi _ _ _ Ef Eg) in Hnv.
Qed.

Lemma load_segment_spec p0 m0 p m cr3 sp img size ph q :
  ld_inv p m cr3 sp -> fresh_space p0 m0 cr3 p m sp -> phdr_range ph -> is_u32 size -> zlen img = size -> Forall byte img ->
  phdr_valid ph size = true -> loadable ph = true -> p_vaddr ph = q * 4096 ->
  wp (load_segment cr3 img ph) (fun ok s' => exists sp', ld_inv s'.1 s'.2 cr3 sp' /\
    fresh_space p0 m0 cr3 s'.1 s'.2 sp' /\ kept m sp s'.2 sp' (seg_page ph) /\ if ok then seg_loaded s'.2 sp' img ph else exhausted s'.1) (p, m).
Proof.
  intros Hi Hfs Hr Hs Hz Hb Hv Hl Hva. destruct (phdr_valid_facts ph size Hr Hs Hl Hv) as (F1 & F2 & F3 & F4 & F5).
  destruct Hr as [Ro Rv Rf Rm]. unfold is_u32 in *.
  unfold load_segment. unfold loadable in Hl. apply andb_prop in Hl as [Hl1 Hl2]. rewrite Hl1.
  apply negb_true_iff in Hl2. rewrite Hl2. cbn [negb orb]. cbv zeta.
  set (n := (p_memsz ph + 4095) / 4096).
  assert (Hn : 0 < n /\ p_memsz ph <= n * 4096 < p_memsz ph + 4096) by (unfold n; Z.to_euclidean_division_equations; lia).
  change (Z.land (p_vaddr ph) 0xFFFFF000) with (frame_of (p_vaddr ph)).
  change (Z.land (u32 (p_vaddr ph + p_memsz ph + 0xFFF)) 0xFFFFF000) with (frame_of (u32 (p_vaddr ph + p_memsz ph + 0xFFF))).
  rewrite (u32_small (p_vaddr ph + p_memsz ph + 0xFFF)) by lia. rewrite !frame_of_eq by (unfold is_u32; lia). rewrite Hva.
  rewrite Z.div_mul by lia.
  assert (En : (q * 4096 + p_memsz ph + 0xFFF) / 4096 = q + n).
  { replace (q * 4096 + p_memsz ph + 0xFFF) with (p_memsz ph + 4095 + q * 4096) by lia. rewrite Z.div_add by lia. fold n. lia. }
  rewrite En. rewrite <- Z.mul_sub_distr_r. replace (q + n - q) with n by lia. rewrite Z.div_mul by lia.
  rewrite <- (Z2Nat.id n) at 2 by lia. apply wp_bind.
  eapply wp_mono; [apply (map_pages_spec (Z.to_nat n) p m cr3 sp q); [done|lia|lia]|].
  intros ok [p1 m1] (sp1 & Hi1 & He1 & Hout & Hnew & Hok). rewrite Z2Nat.id in * by lia. cbn [fst snd] in *.
  assert (Hseg : forall v, seg_page ph v <-> q <= v < q + n).
  { intros v. unfold seg_page. rewrite Hva, Z.div_mul by lia.
    assert (E : (q * 4096 + p_memsz ph - 1) / 4096 = q + n - 1).
    { replace (q * 4096 + p_memsz ph - 1) with (p_memsz ph - 1 + q * 4096) by lia. rewrite Z.div_add by lia.
      assert ((p_memsz ph - 1) / 4096 = n - 1); [|lia]. symmetry. apply Z.div_unique with (r := p_memsz ph - 1 - (n - 1) * 4096); lia. }
    rewrite E. lia. }
  assert (Hkept1 : kept m sp m1 sp1 (seg_page ph)).
  { intros v Hnv. split; [apply Hout; rewrite Hseg in Hnv; lia|]. intros f o E Ho. by apply (extends_frame p m cr3 p1 m1 sp v f o). }
  assert (Hfs1 : fresh_space p0 m0 cr3 p1 m1 sp1).
  { constructor; [eapply extends_trans; [apply Hfs|exact He1]|]. intros v f Ef.
    apply Hnew in Ef as [Ef|Ef]; [by eapply (fs_free _ _ _ _ _ _ Hfs)|by apply Hfs]. }
  destruct ok; cbn [negb]; [|apply wp_ret; exists sp1; split_and!; done].
  assert (Hpages : forall i, 0 <= i < p_memsz ph -> q <= (q * 4096 + i) / 4096 < q + n).
  { intros i Hir. rewrite Z.add_comm, Z.div_add by lia. Z.to_euclidean_division_equations; lia. }
  assert (Hmap : forall i, 0 <= i < p_memsz ph -> is_Some (sp1 !! ((q * 4096 + i) / 4096))).
  { intros i Hir. destruct (Hok _ (Hpages i Hir)) as (f & Ef & _). eauto. }
  assert (Hzero : forall a, seg_page ph (a / 4096) -> is_Some (sp1 !! (a / 4096)) /\ rd8 m1 (phys_of sp1 a) = 0).
  { intros a Ha. apply Hseg in Ha. destruct (Hok _ Ha) as (f & Ef & Hz0). split; [by eexists|].
    rewrite (phys_of_split sp1 _ f Ef). apply Hz0. apply Z.mod_pos_bound. lia. }
  apply wp_bind. pose proof (ld_inv_space _ _ _ _ Hi1) as Hus.
  destruct (Z.eq_dec (p_filesz ph) 0) as [E0|E0].
  { eapply wp_of_run; [apply copy_segment_done; lia|]. apply wp_ret. exists sp1. split_and!; try done.
    intros a Ha. rewrite E0. replace ((p_vaddr ph <=? a) && (a <? p_vaddr ph + 0)) with false by lia. auto. }
  assert (Elo : Z.min (0 * 4096) (p_filesz ph) = 0) by lia.
  pose proof (copy_segment_spec (Z.to_nat (p_filesz ph / 4096 + 2)) p1 m1 cr3 sp1 img ph q 0) as Hcopy.
  cbv zeta in Hcopy. rewrite Elo in Hcopy.
  eapply wp_mono; [apply Hcopy; try (done || lia)|].
  { rewrite Z2Nat.id by (assert (0 <= p_filesz ph / 4096) by (apply Z.div_pos; lia); lia). Z.to_euclidean_division_equations; lia. }
  { intros i Hir. apply Hmap. lia. }
  intros _ [p2 m2] (Ep & Hi2 & Hpl). cbn [fst snd] in *. subst p2. apply wp_ret. exists sp1. cbn [fst snd]. split_and!; [done| | |].
  - apply (fresh_space_write p0 m0 cr3 p1 m1 m2 sp1 Hi1 Hfs1), (placed_pages _ _ _ _ _ _ _ _ Hpl). intros i Hir. apply Hmap. lia.
  - eapply kept_placed; [exact Hkept1|exact Hi1|exact Hpl|]. intros i Hir. split; [apply Hmap; lia|apply Hseg, Hpages; lia].
  - destruct Hpl as [Hd Ho]. intros a Ha. destruct (Hzero a Ha) as [Hsome Hz0]. split; [done|]. rewrite Hva.
    destruct ((q * 4096 <=? a) && (a <? q * 4096 + p_filesz ph)) eqn:Ea; b2p.
    + rewrite <- (Hd (a - q * 4096)) by lia. do 2 f_equal. lia.
    + rewrite <- Hz0. apply Ho. intros j Hj Ej. apply (phys_of_inj _ _ _ _ _ Hus) in Ej; [lia|done|apply Hmap; lia].
Qed.

(** ** The whole file *)

Definition phdr_at (img : list Z) (eh : elf32_ehdr) (i : Z) : elf32_phdr :=
  phdr_of (sub img (Z.to_nat (e_phoff eh + i * e_phentsize eh)) (Z.to_nat PHDR_SIZE)).
Definition ehdr_at (img : list Z) : elf32_ehdr := ehdr_of (sub img 0 (Z.to_nat EHDR_SIZE)).

Lemma le16_byte_range b o : Forall byte b -> 0 <= o -> o + 2 <= zlen b -> 0 <= le16 b o < 65536.
Proof.
  intros Hb Ho Hl. unfold le16. pose proof (zget_forall byte b o Hb ltac:(lia)). pose proof (zget_forall byte b (o + 1) Hb ltac:(lia)).
  unfold byte in *. lia.
Qed.

Lemma le32_byte_range b o : Forall byte b -> 0 <= o -> o + 4 <= zlen b -> is_u32 (le32 b o).
Proof.
  intros Hb Ho Hl. unfold le32, is_u32. pose proof (le16_byte_range b o Hb ltac:(lia) ltac:(lia)).
  pose proof (le16_byte_range b (o + 2) Hb ltac:(lia) ltac:(lia)). lia.
Qed.

Lemma sub_bytes img o n : Forall byte img -> Forall byte (sub img o n).
Proof. intros. unfold sub. by apply Forall_take, Forall_drop. Qed.

(** The header fields are in range whatever the file says. *)
Lemma ehdr_fields img : Forall byte img -> EHDR_SIZE <= zlen img ->
  let eh := ehdr_at img in is_u32 (e_phoff eh) /\ 0 <= e_phentsize eh < 65536 /\ 0 <= e_phnum eh < 65536.
Proof.
  intros Hb Hl. unfold EHDR_SIZE in *.
  assert (Hz : zlen (sub img (Z.to_nat 0) (Z.to_nat 52)) = 52) by (apply sub_zlen; lia).
  pose proof (sub_bytes img 0 (Z.to_nat 52) Hb) as Hs. change (Z.to_nat 0) with 0%nat in Hz.
  cbv zeta. unfold ehdr_at. cbn [ehdr_of e_phoff e_phentsize e_phnum].
  split_and!; try (apply le32_byte_range; [done|lia|unfold EHDR_SIZE; lia]);
    try (apply le16_byte_range; [done|lia|unfold EHDR_SIZE; lia]).
Qed.

(** A header that passed the check: its table lies in the file. *)
Lemma ehdr_valid_table img size i : Forall byte img -> zlen img = size -> is_u32 size -> EHDR_SIZE <= size ->
  let eh := ehdr_at img in
  ehdr_valid eh size = true -> 0 <= i < e_phnum eh ->
  0 <= e_phoff eh + i * e_phentsize eh /\ e_phoff eh + i * e_phentsize eh + 32 <= size /\ 0 <= i * e_phentsize eh.
Proof.
  intros Hb Hz Hs Hl eh Hv Hi. destruct (ehdr_fields img Hb ltac:(lia)) as (Hoff & Hent & Hnum). fold eh in Hoff, Hent, Hnum.
  unfold ehdr_valid in Hv. apply andb_prop in Hv as [_ Hv]. replace (e_phnum eh =? 0) with false in Hv by lia. cbn [orb] in Hv.
  apply andb_prop in Hv as [H1 H2]. b2p. unfold PHDR_SIZE, is_u32 in *. rewrite u64_small in H2 by nia. nia.
Qed.

Lemma read_phdr_ok {St} img size i (s : St) : Forall byte img -> zlen img = size -> is_u32 size -> EHDR_SIZE <= size ->
  ehdr_valid (ehdr_at img) size = true -> 0 <= i < e_phnum (ehdr_at img) ->
  read_phdr img (ehdr_at img) i s = Some (phdr_at img (ehdr_at img) i, s) /\ phdr_range (phdr_at img (ehdr_at img) i).
Proof.
  intros Hb Hz Hs Hl Hv Hi. destruct (ehdr_valid_table img size i Hb Hz Hs Hl Hv Hi) as (H1 & H2 & H3). set (eh := ehdr_at img) in *.
  unfold is_u32, PHDR_SIZE in *. destruct (ehdr_fields img Hb ltac:(lia)) as (Hoff & Hent & Hnum). fold eh in Hoff, Hent, Hnum.
  unfold is_u32 in Hoff. split.
  - unfold read_phdr. rewrite (u32_small (i * e_phentsize eh)) by nia. rewrite u32_small by lia.
    unfold img_bytes, PHDR_SIZE.
    replace ((0 <=? e_phoff eh + i * e_phentsize eh) && (e_phoff eh + i * e_phentsize eh + 32 <=? zlen img)) with true by lia. done.
  - unfold phdr_at, PHDR_SIZE.
    assert (Hsz : zlen (sub img (Z.to_nat (e_phoff eh + i * e_phentsize eh)) (Z.to_nat 32)) = 32) by (apply sub_zlen; lia).
    pose proof (sub_bytes img (Z.to_nat (e_phoff eh + i * e_phentsize eh)) (Z.to_nat 32) Hb) as Hsb.
    constructor; cbn [phdr_of p_offset p_vaddr p_filesz p_memsz]; apply le32_byte_range; (done || lia).
Qed.

Lemma seg_loaded_kept m sp m' sp' img ph ph' : seg_loaded m sp img ph -> kept m sp m' sp' (seg_page ph') ->
  (forall v, seg_page ph v -> ~ seg_page ph' v) -> seg_loaded m' sp' img ph.
Proof.
  intros Hs Hk Hd a Ha. destruct (Hs a Ha) as [[f Ef] Hb]. destruct (Hk _ (Hd _ Ha)) as [E1 E2].
  split; [rewrite E1; eauto|]. rewrite <- Hb.
  rewrite (phys_of_split sp' _ f) by (by rewrite E1). rewrite (phys_of_split sp _ f Ef). apply E2; [done|]. apply Z.mod_pos_bound. lia.
Qed.

(** The file's loadable segments start on page boundaries and share no page. *)
Record well_laid (img : list Z) : Prop := {
  wl_aligned : forall i, 0 <= i < e_phnum (ehdr_at img) -> loadable (phdr_at img (ehdr_at img) i) = true ->
    p_vaddr (phdr_at img (ehdr_at img) i) mod 4096 = 0;
  wl_disjoint : forall i j v, 0 <= i < j -> j < e_phnum (ehdr_at img) ->
    loadable (phdr_at img (ehdr_at img) i) = true -> loadable (phdr_at img (ehdr_at img) j) = true ->
    seg_page (phdr_at img (ehdr_at img) i) v -> ~ seg_page (phdr_at img (ehdr_at img) j) v
}.

Definition all_valid (img : list Z) (size : Z) : Prop :=
  forall i, 0 <= i < e_phnum (ehdr_at img) -> phdr_valid (phdr_at img (ehdr_at img) i) size = true.

(** The first [n] segments are in memory, and no page is mapped that none of
    them touches. *)
Record loaded_upto m (sp : gmap Z Z) (img : list Z) (n : Z) : Prop := {
  lu_segments : forall i, 0 <= i < n -> loadable (phdr_at img (ehdr_at img) i) = true ->
    seg_loaded m sp img (phdr_at img (ehdr_at img) i);
  lu_only : forall v, is_Some (sp !! v) ->
    exists i, 0 <= i < n /\ loadable (phdr_at img (ehdr_at img) i) = true /\ seg_page (phdr_at img (ehdr_at img) i) v
}.

Section file.
Context (img : list Z) (size : Z).
Hypotheses (Hbytes : Forall byte img) (Hsize : zlen img = size) (Hu32 : is_u32 size) (Hbig : EHDR_SIZE <= size).
Hypothesis (Heh : ehdr_valid (ehdr_at img) size = true).
Local Notation eh := (ehdr_at img).

Lemma validate_spec k : forall i (s : PA * mem), 0 <= i -> i + Z.of_nat k = e_phnum eh ->
  exists ok, validate k img size eh i s = Some (ok, s) /\
    (ok = true <-> forall j, i <= j < e_phnum eh -> phdr_valid (phdr_at img eh j) size = true).
Proof.
  induction k as [|k IH]; intros i s Hi Hk.
  { exists true. split; [done|]. split; [|done]. intros _ j Hj. lia. }
  unfold validate; fold (@validate PA). unfold mbind, cM_bind.
  destruct (read_phdr_ok img size i s Hbytes Hsize Hu32 Hbig Heh ltac:(lia)) as [-> _].
  destruct (phdr_valid (phdr_at img eh i) size) eqn:E.
  - destruct (IH (i + 1) s ltac:(lia) ltac:(lia)) as (ok & -> & Hok). exists ok. split; [done|]. rewrite Hok. split.
    + intros Hall j Hj. destruct (Z.eq_dec j i) as [->|]; [done|]. apply Hall. lia.
    + intros Hall j Hj. apply Hall. lia.
  - exists false. split; [done|]. split; [done|]. intros Hall. rewrite Hall in E; [done|lia].
Qed.

Hypothesis (Hall : all_valid img size).
Hypothesis (Hlaid : well_laid img).

(** One more segment, beside the ones loaded before. *)
Lemma loaded_next m sp m' sp' i : loaded_upto m sp img i -> 0 <= i < e_phnum eh ->
  (if loadable (phdr_at img eh i) then kept m sp m' sp' (seg_page (phdr_at img eh i)) /\ seg_loaded m' sp' img (phdr_at img eh i)
   else m' = m /\ sp' = sp) -> loaded_upto m' sp' img (i + 1).
Proof.
  intros [Hs Ho] Hi Hn. destruct (loadable (phdr_at img eh i)) eqn:El.
  - destruct Hn as [Hk Hl]. constructor.
    + intros j Hj Hlj. destruct (Z.eq_dec j i) as [->|]; [done|].
      eapply seg_loaded_kept; [apply Hs; [lia|done]|exact Hk|]. intros v. apply (wl_disjoint _ Hlaid j i v); (done || lia).
    + intros v Hv. destruct (decide (seg_page (phdr_at img eh i) v)) as [Hsv|Hnv]; [exists i; split_and!; (done || lia)|].
      rewrite (proj1 (Hk v Hnv)) in Hv. destruct (Ho v Hv) as (j & Hj & Hlj). exists j. split; [lia|done].
  - destruct Hn as [-> ->]. constructor.
    + intros j Hj Hlj. destruct (Z.eq_dec j i) as [->|]; [congruence|]. apply Hs; [lia|done].
    + intros v Hv. destruct (Ho v Hv) as (j & Hj & Hlj). exists j. split; [lia|done].
Qed.

Lemma load_segments_spec p0 m0 k : forall i p m cr3 sp, 0 <= i -> i + Z.of_nat k = e_phnum eh ->
  ld_inv p m cr3 sp -> fresh_space p0 m0 cr3 p m sp -> loaded_upto m sp img i ->
  wp (load_segments k cr3 img eh i) (fun ok s' => exists sp', ld_inv s'.1 s'.2 cr3 sp' /\ fresh_space p0 m0 cr3 s'.1 s'.2 sp' /\
    if ok then loaded_upto s'.2 sp' img (e_phnum eh) else exhausted s'.1) (p, m).
Proof.
  induction k as [|k IH]; intros i p m cr3 sp Hi Hk Hinv Hfs Hup.
  { apply wp_ret. exists sp. split_and!; [done|done|]. replace (e_phnum eh) with i by lia. done. }
  unfold load_segments; fold (@load_segments PA _). apply wp_bind.
  destruct (read_phdr_ok img size i (p, m) Hbytes Hsize Hu32 Hbig Heh ltac:(lia)) as [E Hr].
  eapply wp_of_run; [exact E|]. assert (Hin : 0 <= i < e_phnum eh) by lia.
  pose proof (fun m' sp' => loaded_next m sp m' sp' i Hup Hin) as Hnext.
  set (ph := phdr_at img eh i) in *. apply wp_bind. destruct (loadable ph) eqn:El.
  - pose proof (wl_aligned _ Hlaid i ltac:(lia) El) as Ha. fold ph in Ha.
    assert (Hva : p_vaddr ph = p_vaddr ph / 4096 * 4096) by (rewrite (Z.div_mod (p_vaddr ph) 4096) at 1 by lia; lia).
    eapply wp_mono; [apply (load_segment_spec p0 m0 p m cr3 sp img size ph (p_vaddr ph / 4096)); (done || (apply Hall; lia))|].
    intros ok [p1 m1] (sp1 & Hi1 & Hfs1 & Hkept & Hok). cbn [fst snd] in *. destruct ok; [|apply wp_ret; by exists sp1].
    apply (IH (i + 1) p1 m1 cr3 sp1); [lia|lia|done|done|]. by apply Hnext.
  - unfold loadable in El. unfold load_segment.
    replace (negb (p_type ph =? PT_LOAD) || (p_memsz ph =? 0)) with true by (destruct (p_type ph =? PT_LOAD), (p_memsz ph =? 0); done).
    apply wp_ret. apply (IH (i + 1) p m cr3 sp); [lia|lia|done|done|]. by apply Hnext.
Qed.
End file.
End loader.

(** ** The loader always returns *)

Section total.
Context {PA : Type} `{PageAllocator PA}.

Lemma map_pages_total n : forall (s : PA * mem) cr3 q, 0 <= q -> (q + Z.of_nat n) * 4096 < 2 ^ 32 ->
  is_Some (map_pages n cr3 (q * 4096) ((q + Z.of_nat n) * 4096) s).
Proof.
  induction n as [|n IH]; intros [p m] cr3 q Hq Hn.
  { unfold map_pages. replace ((q + Z.of_nat 0) * 4096 <=? q * 4096) with true by lia. by eexists. }
  rewrite map_pages_eq. replace ((q + Z.of_nat (S n)) * 4096 <=? q * 4096) with false by lia.
  destruct (pa_alloc p) as [p1 a]. destruct (a =? 0); [by eexists|]. cbv zeta.
  destruct (vmm_map_user_page _ _ _ _ _) as [[p2 m2] r]. destruct (negb (r =? 0)); [by eexists|].
  rewrite u32_small by (unfold PAGE_SIZE; lia). replace (q * 4096 + PAGE_SIZE) with ((q + 1) * 4096) by (unfold PAGE_SIZE; lia).
  replace (q + Z.of_nat (S n)) with (q + 1 + Z.of_nat n) by lia. apply IH; lia.
Qed.

Lemma copy_segment_total k : forall (s : PA * mem) cr3 img ph c,
  0 <= c -> 0 <= p_vaddr ph -> p_vaddr ph + p_filesz ph < 2 ^ 32 -> 0 <= p_offset ph -> p_offset ph + p_filesz ph <= zlen img ->
  zlen img < 2 ^ 32 ->
  p_filesz ph <= c \/ ((p_vaddr ph + c) mod 4096 = 0 /\ p_filesz ph - c <= 4096 * Z.of_nat k) \/ p_filesz ph - c <= 4096 * (Z.of_nat k - 1) ->
  is_Some (copy_segment k cr3 img ph c s).
Proof.
  induction k as [|k IH]; intros s cr3 img ph c Hc Hv He Ho Hof Hz Hfuel;
    (destruct (Z_le_gt_dec (p_filesz ph) c); [rewrite copy_segment_done by lia; by eexists|]); [lia|].
  rewrite copy_segment_eq by lia. cbv zeta. unfold mbind, cM_bind, gets. rewrite (u32_small (p_vaddr ph + c)) by lia. rewrite low12_eq.
  pose proof (Z.mod_pos_bound (p_vaddr ph + c) 4096 ltac:(lia)). unfold PAGE_SIZE.
  set (chunk := if _ <? _ then _ else _).
  assert (Hch : 0 < chunk <= p_filesz ph - c /\ (chunk < p_filesz ph - c -> chunk = 4096 - (p_vaddr ph + c) mod 4096)).
  { unfold chunk. destruct (Z.ltb_spec (p_filesz ph - c) (4096 - (p_vaddr ph + c) mod 4096)); lia. }
  unfold img_bytes. rewrite (u32_small (p_offset ph + c)) by lia.
  replace ((0 <=? p_offset ph + c) && (p_offset ph + c + chunk <=? zlen img)) with true by lia.
  unfold mret, cM_ret, modify. apply IH; [lia..|].
  destruct (Z_le_gt_dec (p_filesz ph) (c + chunk)); [by left|right; left]. split.
  - replace (p_vaddr ph + (c + chunk)) with (((p_vaddr ph + c) / 4096 + 1) * 4096); [apply Z.mod_mul; lia|].
    pose proof (Z.div_mod (p_vaddr ph + c) 4096). lia.
  - lia.
Qed.

Lemma load_segment_total (s : PA * mem) cr3 img size ph : phdr_range ph -> is_u32 size -> zlen img = size -> phdr_valid ph size = true ->
  is_Some (load_segment cr3 img ph s).
Proof.
  intros Hr Hs Hz Hv. unfold load_segment. destruct (loadable ph) eqn:El.
  2:{ unfold loadable in El. replace (negb (p_type ph =? PT_LOAD) || (p_memsz ph =? 0)) with true
        by (destruct (p_type ph =? PT_LOAD), (p_memsz ph =? 0); done). by eexists. }
  destruct (phdr_valid_facts ph size Hr Hs El Hv) as (F1 & F2 & F3 & F4 & F5).
  unfold loadable in El. replace (negb (p_type ph =? PT_LOAD) || (p_memsz ph =? 0)) with false
    by (destruct (p_type ph =? PT_LOAD), (p_memsz ph =? 0); done).
  destruct Hr as [Ro Rv Rf Rm]. unfold is_u32 in *. cbv zeta.
  change (Z.land (p_vaddr ph) 0xFFFFF000) with (frame_of (p_vaddr ph)).
  change (Z.land (u32 (p_vaddr ph + p_memsz ph + 0xFFF)) 0xFFFFF000) with (frame_of (u32 (p_vaddr ph + p_memsz ph + 0xFFF))).
  rewrite (u32_small (p_vaddr ph + p_memsz ph + 0xFFF)) by lia. rewrite !frame_of_eq by (unfold is_u32; lia).
  set (q := p_vaddr ph / 4096). set (e := (p_vaddr ph + p_memsz ph + 0xFFF) / 4096).
  assert (Hqe : 0 <= q <= e /\ e < 2 ^ 20) by (unfold q, e; Z.to_euclidean_division_equations; lia).
  rewrite <- Z.mul_sub_distr_r, Z.div_mul by lia. unfold mbind, cM_bind.
  destruct (map_pages_total (Z.to_nat (e - q)) s cr3 q) as [[ok s1] E]; [lia|lia|].
  replace (q + Z.of_nat (Z.to_nat (e - q))) with e in E by lia. rewrite E. destruct ok; cbn [negb]; [|by eexists].
  destruct (Z.eq_dec (p_filesz ph) 0) as [E0|E0]; [rewrite copy_segment_done by lia; by eexists|].
  destruct (copy_segment_total (Z.to_nat (p_filesz ph / 4096 + 2)) s1 cr3 img ph 0) as [[u s2] ->]; try lia; [|by eexists].
  right. right. assert (0 <= p_filesz ph / 4096) by (apply Z.div_pos; lia). rewrite Z2Nat.id by lia.
  Z.to_euclidean_division_equations; lia.
Qed.

Lemma load_segments_total img size : Forall byte img -> zlen img = size -> is_u32 size -> EHDR_SIZE <= size ->
  ehdr_valid (ehdr_at img) size = true -> all_valid img size ->
  forall k i (s : PA * mem) cr3, 0 <= i -> i + Z.of_nat k = e_phnum (ehdr_at img) -> is_Some (load_segments k cr3 img (ehdr_at img) i s).
Proof.
  intros Hb Hz Hu Hl Hv Hall. induction k as [|k IH]; intros i s cr3 Hi Hk; [by eexists|].
  unfold load_segments; fold (@load_segments PA _). unfold mbind, cM_bind.
  destruct (read_phdr_ok img size i s Hb Hz Hu Hl Hv ltac:(lia)) as [-> Hr].
  destruct (load_segment_total s cr3 img size _ Hr Hu Hz (Hall i ltac:(lia))) as [[ok s1] ->].
  destruct ok; [apply IH; lia|by eexists].
Qed.

(** The file passes every check of [elf_load]. *)
Definition accepted (img : list Z) (size : Z) : Prop :=
  EHDR_SIZE <= size /\ ehdr_valid (ehdr_at img) size = true /\ all_valid img size.

(** The part of [elf_load] before the first page is allocated. *)
Lemma elf_load_checks (s : PA * mem) cr3 img size : Forall byte img -> zlen img = size -> is_u32 size ->
  (~ accepted img size /\ elf_load cr3 (Some img) size s = Some (None, s)) \/
  (accepted img size /\ elf_load cr3 (Some img) size s =
     (ok ← load_segments (Z.to_nat (e_phnum (ehdr_at img))) cr3 img (ehdr_at img) 0;
      if (ok : bool) then mret (Some (e_entry (ehdr_at img))) else mret None) s).
Proof.
  intros Hb Hz Hu. remember (elf_load cr3 (Some img) size s) as r eqn:E. unfold elf_load in E.
  destruct (Z.ltb_spec size EHDR_SIZE) as [Hlt|Hge].
  { left. split; [|done]. intros (? & _). lia. }
  unfold mbind at 1, cM_bind at 1 in E. unfold img_bytes in E.
  replace ((0 <=? 0) && (0 + EHDR_SIZE <=? zlen img)) with true in E by (unfold EHDR_SIZE in *; lia).
  unfold mret at 1, cM_ret at 1 in E. cbv zeta in E.
  change (ehdr_of (sub img (Z.to_nat 0) (Z.to_nat EHDR_SIZE))) with (ehdr_at img) in E.
  destruct (ehdr_valid (ehdr_at img) size) eqn:Ev; cbn [negb] in E.
  2:{ left. split; [|done]. intros (_ & ? & _). congruence. }
  unfold mbind at 1, cM_bind at 1 in E. destruct (ehdr_fields img Hb ltac:(lia)) as (_ & _ & Hn).
  destruct (validate_spec img size Hb Hz Hu Hge Ev (Z.to_nat (e_phnum (ehdr_at img))) 0 s ltac:(lia) ltac:(lia)) as (ok & Eok & Hok).
  rewrite Eok in E. destruct ok; cbn [negb] in E.
  - right. split; [|done]. split_and!; [done|done|]. intros i Hi. apply Hok; [done|lia].
  - left. split; [|done]. intros (_ & _ & Hall). enough (false = true) by done. apply Hok. intros j Hj. apply Hall. lia.
Qed.
End total.

(** ** Example files *)

(** One loadable segment: the file bytes [data] at [vaddr], [memsz] bytes. *)
Definition tiny_elf (vaddr memsz : Z) (data : list Z) : list Z :=
  [0x7F; 69; 76; 70; 1; 1] ++ replicate 10 0 ++ bytes16 2 ++ bytes16 3 ++ bytes32 1 ++ bytes32 vaddr ++
  bytes32 52 ++ bytes32 0 ++ bytes32 0 ++ bytes16 52 ++ bytes16 32 ++ bytes16 1 ++ bytes16 0 ++ bytes16 0 ++ bytes16 0 ++
  bytes32 1 ++ bytes32 84 ++ bytes32 vaddr ++ bytes32 0 ++ bytes32 (zlen data) ++ bytes32 memsz ++ bytes32 5 ++ bytes32 4096 ++
  data.

(** A freshly created directory. *)
Definition new_dir : pmm * mem * Z := vmm_create_directory (pmm_init []) (v_mem (vmm_init boot_vmm)).

Lemma new_dir_addr : new_dir.2 = 0x400000.
Proof. vm_compute; reflexivity. Qed.

Lemma created_dir_inv p0 m0 pd :
  vmm_create_directory (pmm_init []) (v_mem (vmm_init boot_vmm)) = (p0, m0, pd) -> pd <> 0 -> ld_inv p0 m0 pd ∅.
Proof.
  intros Ec Hpd.
  destruct (@create_directory_ok pmm pmm_allocator (pmm_init []) p0 (v_mem (vmm_init boot_vmm)) m0 pd) as (Hp0 & Hd & Hu & _ & Hw);
    [apply boot_client_ok|apply boot_kernel_dir_ok|exact Ec|exact Hpd|]. clear Ec.
  constructor; [done|done|done| | | |]; try (intros *; rewrite lookup_empty; done).
  intros w Hwr. rewrite lookup_empty. by apply Hw.
Qed.

Lemma new_dir_inv : ld_inv new_dir.1.1 new_dir.1.2 0x400000 ∅.
Proof.
  rewrite <- new_dir_addr. apply created_dir_inv; [|by rewrite new_dir_addr].
  unfold new_dir. by destruct (vmm_create_directory _ _) as [[p0 m0] pd].
Qed.

(** ** Properties *)

Section properties.
Context {PA : Type} `{PageAllocator PA}.

(** C33 (elf_load, checking).  Whatever bytes the file holds, [elf_load]
    terminates and reads nothing outside the [size] bytes of the image; a file
    that fails any check is refused before a page is allocated or a byte of
    memory changed. *)
Theorem elf_load_reads_in_bounds (s : PA * mem) (cr3 : Z) (img : list Z) (size : Z) :
  Forall byte img -> zlen img = size -> is_u32 size ->
  exists r s', elf_load cr3 (Some img) size s = Some (r, s') /\ (~ accepted img size -> r = None /\ s' = s).
Proof.
  intros Hb Hz Hu. destruct (elf_load_checks s cr3 img size Hb Hz Hu) as [[Hn ->]|[Ha ->]]; [eauto|].
  destruct Ha as (Hl & Hv & Hall). destruct (ehdr_fields img Hb ltac:(lia)) as (_ & _ & Hn).
  unfold mbind, cM_bind.
  destruct (load_segments_total img size Hb Hz Hu Hl Hv Hall (Z.to_nat (e_phnum (ehdr_at img))) 0 s cr3) as [[ok s'] ->]; [lia|lia|].
  destruct ok; eexists _, _; (split; [reflexivity|]); intros Hna; destruct Hna; done.
Qed.

(** C32 (elf_load).  On a file whose loadable segments start on page boundaries
    and share no page, loaded into an empty directory, a successful load gives
    the process exactly the memory the file describes: the pages mapped for user
    mode are those the segments touch and no other, every byte of these pages is
    the file's byte, or zero where the file has none for it (behind the file
    data, to the end of the page); the entry point is the header's.  The load of
    an accepted file fails only when physical memory is exhausted.  Either way
    the pages given to the process were free, and nothing but the directory's
    own pages and pages that were free has changed in memory. *)
Theorem elf_load_correct (p : PA) (m : mem) (cr3 : Z) (img : list Z) (size : Z) :
  Forall byte img -> zlen img = size -> is_u32 size -> well_laid img -> ld_inv p m cr3 ∅ ->
  wp (elf_load cr3 (Some img) size) (fun r s' =>
    (~ accepted img size /\ r = None /\ s' = (p, m)) \/
    (accepted img size /\ exists sp, user_space s'.2 cr3 sp /\ fresh_space p m cr3 s'.1 s'.2 sp /\
       match r with
       | Some entry => entry = e_entry (ehdr_at img) /\ loaded_upto s'.2 sp img (e_phnum (ehdr_at img))
       | None => exhausted s'.1
       end)) (p, m).
Proof.
  intros Hb Hz Hu Hlaid Hinv. destruct (elf_load_checks (p, m) cr3 img size Hb Hz Hu) as [[Hn E]|[Ha E]].
  { eapply wp_of_run; [exact E|]. by left. }
  pose proof Ha as (Hl & Hv & Hall). destruct (ehdr_fields img Hb ltac:(lia)) as (_ & _ & Hn).
  eapply wp_congr; [exact E|]. apply wp_bind.
  eapply wp_mono; [apply (load_segments_spec img size Hb Hz Hu Hl Hv Hall Hlaid p m _ 0 p m cr3 ∅); [lia|lia|done| |]|].
  { constructor; [apply extends_refl|]. intros v f. by rewrite lookup_empty. }
  { constructor; [lia|]. intros v. rewrite lookup_empty. by intros [? ?]. }
  intros ok s' (sp & Hi' & Hfs & Hok). destruct ok; apply wp_ret; right; (split; [done|]); exists sp;
    (split; [by eapply ld_inv_space|]); (split; [exact Hfs|]); done.
Qed.
End properties.

Definition hello : list Z := tiny_elf 0x1000000 0x1800 [1; 2; 3; 4].

Lemma hello_size : is_u32 88.
Proof. split; reflexivity || discriminate. Qed.

Lemma hello_facts : Forall byte hello /\ zlen hello = 88 /\ accepted hello 88 /\ well_laid hello.
Proof.
  assert (Hn : e_phnum (ehdr_at hello) = 1) by (vm_compute; reflexivity).
  split_and!.
  - assert (E : forallb (fun b => (0 <=? b) && (b <? 256)) hello = true) by (vm_compute; reflexivity).
    rewrite forallb_forall in E. apply Forall_forall. intros b Hb. apply list_elem_of_In, E in Hb. unfold byte. lia.
  - vm_compute; reflexivity.
  - split_and!; [vm_compute; discriminate|vm_compute; reflexivity|]. intros i Hi. rewrite Hn in Hi. replace i with 0 by lia.
    vm_compute; reflexivity.
  - constructor; rewrite Hn.
    + intros i Hi _. replace i with 0 by lia. vm_compute; reflexivity.
    + intros; lia.
Qed.

Lemma elf_load_reads_in_bounds_witness :
  exists r s', elf_load 0x400000 (Some hello) 88 new_dir.1 = Some (r, s') /\ (~ accepted hello 88 -> r = None /\ s' = new_dir.1).
Proof.
  apply (elf_load_reads_in_bounds new_dir.1 0x400000 hello 88); [apply hello_facts|apply hello_facts|].
  split; reflexivity || discriminate.
Defined.

(** What [hello] describes: the pages 0x1000 and 0x1001, with its four bytes. *)
Lemma hello_described m sp : loaded_upto m sp hello (e_phnum (ehdr_at hello)) ->
  (forall v, is_Some (sp !! v) <-> v = 0x1000 \/ v = 0x1001) /\ rd8 m (phys_of sp 0x1000003) = 4 /\ rd8 m (phys_of sp 0x1001FFF) = 0.
Proof.
  intros [Hs Ho]. replace (e_phnum (ehdr_at hello)) with 1 in * by (vm_compute; reflexivity).
  set (ph := phdr_at hello (ehdr_at hello) 0) in *.
  assert (Eph : p_vaddr ph = 0x1000000 /\ p_memsz ph = 0x1800 /\ p_filesz ph = 4 /\ p_offset ph = 84 /\ loadable ph = true /\ hello.[87] = 4)
    by (vm_compute; done).
  destruct Eph as (Ev & Em & Ef & Eo & El & Eb). specialize (Hs 0 ltac:(lia) El). unfold seg_loaded in Hs. fold ph in Hs.
  assert (Hp : forall v, seg_page ph v <-> v = 0x1000 \/ v = 0x1001).
  { intros v. unfold seg_page. rewrite Ev, Em. change (0x1000000 / 4096) with 0x1000. change ((0x1000000 + 0x1800 - 1) / 4096) with 0x1001. lia. }
  assert (Ho0 : forall v, is_Some (sp !! v) -> seg_page ph v).
  { intros v Hv. destruct (Ho v Hv) as (i & Hi & _ & Hiv). replace i with 0 in Hiv by lia. exact Hiv. }
  clearbody ph. rewrite Ev, Ef, Eo in Hs. split_and!.
  - intros v. split.
    + intros Hv. by apply Hp, Ho0.
    + intros Hv. pose proof (Hs (v * 4096)) as [Hsome _]; rewrite Z.div_mul in *; [by apply Hp|lia|done|lia].
  - rewrite (proj2 (Hs 0x1000003 ltac:(apply Hp; left; reflexivity))). exact Eb.
  - rewrite (proj2 (Hs 0x1001FFF ltac:(apply Hp; right; reflexivity))). done.
Qed.

Lemma hello_returns : option_map fst (elf_load 0x400000 (Some hello) 88 (new_dir.1.1, new_dir.1.2)) = Some (Some 0x1000000).
Proof. vm_compute; reflexivity. Qed.

Lemma run_wp {St A} (c : cM St A) (Q : A -> St -> Prop) s r :
  option_map fst (c s) = Some r -> wp c Q s -> exists s', c s = Some (r, s') /\ Q r s'.
Proof. unfold wp. destruct (c s) as [[x s']|]; [|done]. cbn [option_map fst]. intros [= ->] HQ. by exists s'. Qed.

(** The load of [hello] succeeds. *)
Lemma elf_load_correct_witness : exists s' sp,
  elf_load 0x400000 (Some hello) 88 (new_dir.1.1, new_dir.1.2) = Some (Some 0x1000000, s') /\ user_space s'.2 0x400000 sp /\
  (forall v, is_Some (sp !! v) <-> v = 0x1000 \/ v = 0x1001) /\ rd8 s'.2 (phys_of sp 0x1000003) = 4 /\ rd8 s'.2 (phys_of sp 0x1001FFF) = 0.
Proof.
  destruct (run_wp _ _ _ _ hello_returns (elf_load_correct new_dir.1.1 new_dir.1.2 0x400000 hello 88 (proj1 hello_facts)
    (proj1 (proj2 hello_facts)) hello_size (proj2 (proj2 (proj2 hello_facts))) new_dir_inv)) as (s' & Hr & [(Hn & _)|(_ & sp & Hsp & _ & _ & Hl)]);
    [destruct (Hn (proj1 (proj2 (proj2 hello_facts))))|].
  exists s', sp. split; [exact Hr|]. split; [exact Hsp|]. exact (hello_described _ _ Hl).
Defined.

(** A segment that starts 0xFE4 bytes into a page; its file data is a page-table
    entry for the kernel's page directory. *)
Definition forged : list Z := tiny_elf 0x1000FE4 4 [7; 0; 0x30; 0].

(** (elf_load, unaligned segment).  [vmm_get_phys_from_dir] already includes
    the offset in the page, and the copy loop adds it again: the data of a
    segment that does not start on a page boundary is written at twice its
    offset.  The accepted file [forged] thereby overwrites an entry of the
    process's own page table, after which the kernel's page directory is mapped
    for user mode, while the segment itself stays zero. *)
Theorem elf_load_unaligned_forges_mapping :
  accepted forged 88 /\
  (let look := fun s' : pmm * mem =>
     (vmm_get_user_phys_from_dir s'.2 0x400000 0x13F2000, vmm_get_user_phys_from_dir new_dir.1.2 0x400000 0x13F2000,
      rd8 s'.2 (vmm_get_user_phys_from_dir s'.2 0x400000 0x1000FE4)) in
   option_map (fun x => (x.1, look x.2)) (elf_load 0x400000 (Some forged) 88 new_dir.1)) =
  Some (Some 0x1000FE4, (0x300000, 0, 0)).
Proof.
  split; [|vm_compute; reflexivity]. split_and!; [vm_compute; discriminate|vm_compute; reflexivity|].
  assert (Hn : e_phnum (ehdr_at forged) = 1) by (vm_compute; reflexivity).
  intros i Hi. rewrite Hn in Hi. replace i with 0 by lia. vm_compute; reflexivity.
Qed.
