(* ===== verification/Console.v ===== *)
(** * Console calls ([kernel/hal.c], [kernel/messages.c])

    What the kernel prints is kept as the sequence of calls it makes to the
    console functions of [hal.h]; [msg(id)] is kept as the id, since the text
    depends on the language tables only.  Writes to other devices' ports that
    end a request (power control) are recorded in the same sequence. *)

From Stdlib Require Import ZArith.
From stdpp Require Import base list.
From S2P Require Import Prelude.
Local Open Scope Z_scope.

Inductive msg_id :=
| MSG_EXEC_NOT_FOUND | MSG_EXEC_FAILED_TO_CREATE_PAGE | MSG_EXEC_ELF_LOAD_FAILED | MSG_EXEC_OUT_OF_MEMORY_FOR
| MSG_EXEC_FAILED_TO_MAP_USER | MSG_EXEC_SCHEDULER_SPAWN_USER_FAILED | MSG_EXEC_SPAWNED | MSG_EXEC_ENTRY_0X
| MSG_EXEC_ESP_0X | MSG_EXEC_BAD_SIZE | MSG_EXEC_OUT_OF_MEMORY_FILE | MSG_EXEC_READ_FAILED
| MSG_PROC_TAG | MSG_PROC_TABLE_HEADER | MSG_PROC_STATE_UNUSED | MSG_PROC_STATE_READY | MSG_PROC_STATE_RUNNING
| MSG_PROC_STATE_SLEEP | MSG_PROC_STATE_BLOCKED | MSG_PROC_STATE_ZOMBIE
| MSG_SYS_CTRL_C | MSG_SYS_LS_NO_SUCH_DIRECTORY | MSG_SYS_RAMFS | MSG_SYS_FAT16 | MSG_SYS_DIR_ENTRY
| MSG_SYS_BYTES_NL | MSG_SYS_NO_FILES | MSG_SYS_UNKNOWN_SYSCALL
| MSG_PCI_NO_PCI_DEVICES_FOUND | MSG_PCI_VENDOR | MSG_PCI_DEVICE | MSG_PCI_CLASS | MSG_PCI_PROGIF
| MSG_PCI_HTYPE | MSG_PCI_BARS | MSG_PCI_BAR
| MSG_POWER_REBOOT_FAILED | MSG_POWER_SHUTDOWN_UNSUPPORTED | MSG_POWER_SHUTDOWN_NO_PM_BASE
| MSG_POWER_SHUTDOWN_FAILED_ACPI
| MSG_BOOT_OK | MSG_BOOT_LOGO_1 | MSG_BOOT_LOGO_2 | MSG_BOOT_LOGO_3 | MSG_BOOT_LOGO_4 | MSG_BOOT_LOGO_5
| MSG_TAG_BOOT | MSG_BOOT_INVALID_MULTIBOOT2_MAGIC | MSG_BOOT_MULTIBOOT2_OK_PREFIX | MSG_BOOT_RAMFS_MODULE_0X
| MSG_BOOT_RAMFS_RANGE_SEP | MSG_BOOT_RAMFS_SIZE_OPEN | MSG_BOOT_RAMFS_SIZE_CLOSE | MSG_BOOT_NO_RAMFS_MODULE
| MSG_TAG_GDT | MSG_BOOT_GDT_INITIALIZING | MSG_TAG_PIC | MSG_BOOT_REMAPPING_IRQS | MSG_TAG_IDT
| MSG_BOOT_INSTALLING_VECTORS | MSG_TAG_TIMER | MSG_BOOT_TIMER_INIT | MSG_TAG_KB | MSG_BOOT_KEYBOARD_INIT
| MSG_TAG_ATA | MSG_BOOT_DETECTING_DISK | MSG_BOOT_NO_DISK | MSG_TAG_PMM | MSG_BOOT_PMM_INITIALIZING
| MSG_TAG_VMM | MSG_BOOT_ENABLING_PAGING | MSG_TAG_HEAP | MSG_BOOT_INITIALIZING_KMALLOC | MSG_TAG_SCHED
| MSG_BOOT_SCHED_INITIALIZING | MSG_TAG_FAT16 | MSG_BOOT_FAT16_INITIALIZING | MSG_BOOT_NO_FAT16_DISK
| MSG_TAG_PCI | MSG_BOOT_SCANNING_BUS | MSG_TAG_RAMFS | MSG_BOOT_MOUNTING_IMAGE | MSG_TAG_EXEC
| MSG_BOOT_LOADING_SHELL | MSG_BOOT_ERROR_LOADING_SHELL | MSG_BOOT_SHELL_STARTED
| MSG_EXC_DE | MSG_EXC_DB | MSG_EXC_NMI | MSG_EXC_BP | MSG_EXC_OF | MSG_EXC_BR | MSG_EXC_UD | MSG_EXC_NM
| MSG_EXC_DF | MSG_EXC_COPROC_OVERRUN | MSG_EXC_TS | MSG_EXC_NP | MSG_EXC_SS | MSG_EXC_GP | MSG_EXC_PF
| MSG_EXC_RESERVED | MSG_EXC_MF | MSG_EXC_AC | MSG_EXC_MC | MSG_EXC_XM | MSG_EXC_VE | MSG_IDT_UNKNOWN
| MSG_IDT_KERNEL_EXCEPTION | MSG_IDT_EXCEPTION | MSG_IDT_EIP | MSG_IDT_ERR_CODE | MSG_IDT_CR2_ADDR
| MSG_IDT_PF_FLAGS | MSG_IDT_PROTECTION | MSG_IDT_NOT_PRESENT | MSG_IDT_WRITE | MSG_IDT_READ | MSG_IDT_USER
| MSG_IDT_KERNEL | MSG_CRASH_SAVED | MSG_CRASH_NOT_SAVED | MSG_CRASH_HALTED | MSG_CRASH_RESTARTING
| MSG_IDT_1_ZEROING_IDT_AT_0X200000 | MSG_IDT_2_EXCEPTION_GATES_0_31 | MSG_IDT_3_IRQ_GATES_32_33
| MSG_IDT_4_SYSCALL_GATE_0X80_DPL | MSG_IDT_5_FLUSH | MSG_IDT_6_OK
| MSG_SAFE_ANY_KEY | MSG_SAFE_TITLE | MSG_SAFE_RESET_FAILED | MSG_SAFE_REBOOTING | MSG_SAFE_REBOOT_TITLE
| MSG_SAFE_REBOOT_1 | MSG_SAFE_REBOOT_2 | MSG_SAFE_REBOOT_BACK | MSG_SAFE_REBOOT_NOTE_LOW | MSG_SAFE_DISK_TITLE
| MSG_SAFE_DISK_READ_FAILED | MSG_SAFE_DISK_BPS | MSG_SAFE_DISK_SPC | MSG_SAFE_DISK_RESERVED | MSG_SAFE_DISK_FATS
| MSG_SAFE_DISK_ROOT | MSG_SAFE_DISK_TOTAL | MSG_SAFE_DISK_SPF | MSG_SAFE_DISK_LABEL | MSG_SAFE_DISK_FSTYPE
| MSG_SAFE_DISK_NO_EXT | MSG_SAFE_DISK_SIG | MSG_SAFE_DISK_SIG_OK | MSG_SAFE_DISK_SIG_BAD | MSG_SAFE_DISK_CFG
| MSG_SAFE_DISK_CFG_YES | MSG_SAFE_DISK_CFG_NO | MSG_SAFE_DISK_COUNT | MSG_SAFE_HEX_PROMPT | MSG_SAFE_HEX_EMPTY
| MSG_SAFE_HEX_TOO_BIG | MSG_SAFE_HEX_DIGITS_ONLY | MSG_SAFE_HEX_TITLE | MSG_SAFE_HEX_SECTOR | MSG_SAFE_HEX_BYTES
| MSG_SAFE_HEX_READ_FAILED | MSG_SAFE_T2_PMM_FAILED | MSG_SAFE_T2_HEAP_FAILED | MSG_SAFE_T2_FAT_FAILED
| MSG_SAFE_T2_TITLE | MSG_SAFE_T2_INIT | MSG_SAFE_T2_READY | MSG_SAFE_CRASH_TITLE | MSG_SAFE_CRASH_NONE
| MSG_SAFE_CRASH_EXC | MSG_SAFE_CRASH_VECTOR | MSG_SAFE_CRASH_VECTOR_END | MSG_SAFE_CRASH_EIP
| MSG_SAFE_CRASH_ERR | MSG_SAFE_CRASH_CR2 | MSG_SAFE_CRASH_PF | MSG_SAFE_CRASH_FETCH | MSG_SAFE_CRASH_RSVD
| MSG_SAFE_CRASH_UPTIME | MSG_SAFE_CRASH_TICKS | MSG_SAFE_CRASH_SECONDS | MSG_SAFE_CRASH_STATE
| MSG_SAFE_CRASH_PENDING | MSG_SAFE_CRASH_ACKED | MSG_SAFE_REASON_CRASH_1 | MSG_SAFE_REASON_CRASH_2
| MSG_SAFE_REASON_CRASH_HINT | MSG_SAFE_REASON_COUNT_1 | MSG_SAFE_REASON_COUNT_2 | MSG_SAFE_REASON_COUNT_3
| MSG_SAFE_REASON_REQUESTED | MSG_SAFE_CRASH_STORED | MSG_SAFE_MENU_1 | MSG_SAFE_MENU_2 | MSG_SAFE_MENU_3
| MSG_SAFE_MENU_4 | MSG_SAFE_MENU_5 | MSG_SAFE_MENU_6 | MSG_SAFE_MENU_PROMPT
| MSG_SAFESH_LS_NO_DIR | MSG_SAFESH_LS_NOT_DIR | MSG_SAFESH_LS_IO | MSG_SAFESH_DIR_ENTRY | MSG_SAFESH_BYTES_NL
| MSG_SAFESH_LS_EMPTY | MSG_SAFESH_CAT_USAGE | MSG_SAFESH_CAT_NOT_FOUND | MSG_SAFESH_CAT_IO | MSG_SAFESH_STOPPED
| MSG_SAFESH_CAT_READ_ERROR | MSG_SAFESH_PWD_ERR | MSG_SAFESH_CD_NO_DIR | MSG_SAFESH_CD_NOT_DIR
| MSG_SAFESH_CD_IO | MSG_SAFESH_PROMPT | MSG_SAFESH_HELP | MSG_SAFESH_UNKNOWN
| MSG_PMM_1_BITMAP_AT | MSG_PMM_2_FREEING_HIGH_MEM | MSG_PMM_NO_MEMORY_MAP | MSG_PMM_3_MARKING_USED_REGIONS
| MSG_PMM_4_FREE | MSG_PMM_PAGES_NL | MSG_PMM_DUMP_TAG | MSG_PMM_TOTAL | MSG_PMM_KB_FREE | MSG_PMM_KB_NL
| MSG_VMM_1_ZEROING_PD_AND | MSG_VMM_2_MAPPING_0_4MB | MSG_VMM_3_MAPPING_4MB_8MB | MSG_VMM_4_CR3_CR0_PG
| MSG_VMM_5_OK | MSG_VMM_DUMP_TAG | MSG_VMM_PTS_USED
| MSG_SCHED_TAG | MSG_SCHED_ROUND_ROBIN
| MSG_FAT16_INVALID_BPB.

Inductive console_call :=
| console_putc (c : Z)
| console_puts (s : list Z)
| console_puts_msg (id : msg_id)
| console_put_hex (v : Z)
| console_put_dec (v : Z)
| console_set_color (fg bg : Z)
| console_clear
| console_set_cursor (col row : Z)
| port_out (port v : Z).

Definition CONSOLE_BLACK : Z := 0.
Definition CONSOLE_CYAN : Z := 3.
Definition CONSOLE_RED : Z := 4.
Definition CONSOLE_LIGHT_GREY : Z := 7.
Definition CONSOLE_DARK_GREY : Z := 8.
Definition CONSOLE_LIGHT_GREEN : Z := 10.
Definition CONSOLE_LIGHT_RED : Z := 12.
Definition CONSOLE_YELLOW : Z := 14.
Definition CONSOLE_WHITE : Z := 15.
Definition NL : list Z := [10].
Definition SP : Z := 32.
Definition spaces (n : nat) : list Z := replicate n SP.
