(* ===== verification/Pci.v ===== *)
(** * PCI enumeration and power control ([kernel/drivers/pci.c], [kernel/power.c])

    The configuration space is a parameter: the dword that a read of
    CONFIG_DATA gives after CONFIG_ADDRESS was written.  Reading it has no
    effect on it.  The device table is the list of its first [g_device_count]
    entries. *)

From Stdlib Require Import ZArith Lia ZifyBool.
From stdpp Require Import base tactics numbers list option sets.
From S2P Require Import Prelude Console.
Local Open Scope Z_scope.

Definition PCI_MAX_DEVICES : Z := 64.

Record pci_device := PciDevice {
  d_bus : Z;
  d_device : Z;
  d_function : Z;
  d_vendor_id : Z;
  d_device_id : Z;
  d_class_code : Z;
  d_subclass : Z;
  d_prog_if : Z;
  d_header_type : Z;
  d_bar : list Z
}.

Definition pci_make_address (bus device function offset : Z) : Z :=
  Z.lor (Z.lor (Z.lor (Z.lor 0x80000000 (Z.shiftl bus 16)) (Z.shiftl (Z.land device 0x1F) 11))
           (Z.shiftl (Z.land function 0x07) 8))
    (Z.land offset 0xFC).

Definition pci_bar_count (header_type : Z) : Z :=
  let t := Z.land header_type 0x7F in
  if t =? 0 then 6 else if t =? 1 then 2 else if t =? 2 then 1 else 0.

Definition HEX_DIGITS : list Z := [48; 49; 50; 51; 52; 53; 54; 55; 56; 57; 65; 66; 67; 68; 69; 70].

(** The loop over [shift], from [4 * (n - 1)] down to 0. *)
Fixpoint print_hex_padded (value : Z) (n : nat) : list console_call :=
  match n with
  | O => []
  | S n' => console_putc HEX_DIGITS.[Z.land (Z.shiftr value (4 * Z.of_nat n')) 0xF] :: print_hex_padded value n'
  end.

Section pci.
Variable config_dword : Z -> Z.

Definition pci_config_read32 (bus device function offset : Z) : Z :=
  config_dword (pci_make_address bus device function offset).

Definition pci_config_read16 (bus device function offset : Z) : Z :=
  u16 (Z.shiftr (pci_config_read32 bus device function (u8 (Z.land offset 0xFC))) (Z.land offset 2 * 8)).

Definition pci_config_read8 (bus device function offset : Z) : Z :=
  u8 (Z.shiftr (pci_config_read32 bus device function (u8 (Z.land offset 0xFC))) (Z.land offset 3 * 8)).

(** The entry [scan_function] fills in. *)
Definition read_device (bus device function : Z) : pci_device :=
  let header_type := pci_config_read8 bus device function 0x0E in
  let nbars := pci_bar_count header_type in
  {| d_bus := bus;
     d_device := device;
     d_function := function;
     d_vendor_id := pci_config_read16 bus device function 0x00;
     d_device_id := pci_config_read16 bus device function 0x02;
     d_prog_if := pci_config_read8 bus device function 0x09;
     d_subclass := pci_config_read8 bus device function 0x0A;
     d_class_code := pci_config_read8 bus device function 0x0B;
     d_header_type := header_type;
     d_bar := (fun i => if Z.of_nat i <? nbars
                        then pci_config_read32 bus device function (u8 (0x10 + Z.of_nat i * 4)) else 0) <$> seq 0 6 |}.

Definition scan_function (devs : list pci_device) (bus device function : Z) : list pci_device :=
  if pci_config_read16 bus device function 0x00 =? 0xFFFF then devs
  else if PCI_MAX_DEVICES <=? zlen devs then devs
  else devs ++ [read_device bus device function].

(** The body of the inner loop of [pci_scan_bus]. *)
Definition scan_device (bus : Z) (devs : list pci_device) (device : Z) : list pci_device :=
  if pci_config_read16 bus device 0 0x00 =? 0xFFFF then devs
  else
    let devs := scan_function devs bus device 0 in
    if negb (Z.land (pci_config_read8 bus device 0 0x0E) 0x80 =? 0)
    then fold_left (fun devs fn => scan_function devs bus device fn) (seqZ 1 7) devs
    else devs.

Definition pci_scan_bus : list pci_device :=
  fold_left (fun devs bus => fold_left (scan_device bus) (seqZ 0 32) devs) (seqZ 0 256) [].

(** The location of the first match. *)
Fixpoint pci_find_device (devs : list pci_device) (vendor_id device_id : Z) : option (Z * Z * Z) :=
  match devs with
  | [] => None
  | d :: ds =>
      if (d_vendor_id d =? vendor_id) && (d_device_id d =? device_id)
      then Some (d_bus d, d_device d, d_function d) else pci_find_device ds vendor_id device_id
  end.

Definition pci_device_count (devs : list pci_device) : Z := zlen devs.

(** ** Reporting *)

Definition print_bars (d : pci_device) : list console_call :=
  let nbars := pci_bar_count (d_header_type d) in
  let bars := seqZ 0 nbars in
  if existsb (fun b => negb ((d_bar d).[b] =? 0)) bars then
    [console_puts_msg MSG_PCI_BARS] ++
    concat (map (fun b => if (d_bar d).[b] =? 0 then [] else
      [console_puts_msg MSG_PCI_BAR; console_putc (48 + b); console_putc 61] ++ print_hex_padded (d_bar d).[b] 8) bars) ++
    [console_puts NL]
  else [].

Definition print_device (d : pci_device) : list console_call :=
  [console_puts (spaces 2)] ++ print_hex_padded (d_bus d) 2 ++ [console_putc 58] ++ print_hex_padded (d_device d) 2 ++
  [console_putc 46] ++ print_hex_padded (d_function d) 1 ++
  [console_puts_msg MSG_PCI_VENDOR] ++ print_hex_padded (d_vendor_id d) 4 ++
  [console_puts_msg MSG_PCI_DEVICE] ++ print_hex_padded (d_device_id d) 4 ++
  [console_puts_msg MSG_PCI_CLASS] ++ print_hex_padded (d_class_code d) 2 ++ [console_putc 47] ++
  print_hex_padded (d_subclass d) 2 ++
  [console_puts_msg MSG_PCI_PROGIF] ++ print_hex_padded (d_prog_if d) 2 ++
  [console_puts_msg MSG_PCI_HTYPE] ++ print_hex_padded (d_header_type d) 2 ++ [console_puts NL] ++
  print_bars d.

Definition pci_print_list (devs : list pci_device) : list console_call :=
  match devs with
  | [] => [console_puts_msg MSG_PCI_NO_PCI_DEVICES_FOUND]
  | _ => concat (map print_device devs)
  end.

(** ** Power control

    The calls made when the request does not take effect; [wait_for_request_to_take_effect]
    and the bounded poll of the keyboard controller only pass time. *)

Definition power_reboot_request : list console_call := [port_out 0x64 0xFE].

Definition power_reboot : list console_call * Z :=
  (power_reboot_request ++ [console_puts_msg MSG_POWER_REBOOT_FAILED], -1).

Definition power_shutdown (devs : list pci_device) : list console_call * Z :=
  match pci_find_device devs 0x8086 0x7113 with
  | None => ([console_puts_msg MSG_POWER_SHUTDOWN_UNSUPPORTED], -1)
  | Some (bus, dev, fn) =>
      let pmba := u16 (Z.land (pci_config_read32 bus dev fn 0x40) 0xFFC0) in
      if pmba =? 0 then ([console_puts_msg MSG_POWER_SHUTDOWN_NO_PM_BASE], -1)
      else ([port_out (u16 (pmba + 4)) 0x2000; console_puts_msg MSG_POWER_SHUTDOWN_FAILED_ACPI], -1)
  end.

(** ** What a scan should find *)

Definition present (bus device function : Z) : bool :=
  negb (pci_config_read16 bus device function 0x00 =? 0xFFFF).

(** Function 0 answers, and the others count only when it declares itself
    multi-function. *)
Definition visible (bus device function : Z) : bool :=
  present bus device 0 && present bus device function &&
  ((function =? 0) || negb (Z.land (pci_config_read8 bus device 0 0x0E) 0x80 =? 0)).

Definition all_functions : list (Z * Z * Z) :=
  b ← seqZ 0 256; d ← seqZ 0 32; f ← seqZ 0 8; [(b, d, f)].

Definition visible_devices (locs : list (Z * Z * Z)) : list pci_device :=
  (fun '(b, d, f) => read_device b d f) <$> List.filter (fun '(b, d, f) => visible b d f) locs.
End pci.

(** ** Lemmas *)

Section capped.
Context {A B : Type}.

Lemma take_take_app n (a b : list A) : take n (take n a ++ b) = take n (a ++ b).
Proof.
  rewrite (take_app a b n), (take_app (take n a) b n), take_take, Nat.min_id. f_equal.
  replace (n - length (take n a))%nat with (n - length a)%nat; [done|]. rewrite length_take. lia.
Qed.

(** A loop whose body adds [g x] to a table capped at [n] entries. *)
Lemma fold_capped n (step : list A -> B -> list A) (g : B -> list A) l :
  (forall X x, x ∈ l -> step (take n X) x = take n (X ++ g x)) ->
  forall X, fold_left step l (take n X) = take n (X ++ concat (map g l)).
Proof.
  induction l as [|x l IH]; intros Hs X; simpl.
  - by rewrite app_nil_r.
  - rewrite Hs by left. rewrite IH; [by rewrite <- app_assoc|]. intros. apply Hs. by right.
Qed.
End capped.

Section scan.
Variable config_dword : Z -> Z.
Local Notation read_device := (read_device config_dword).
Local Notation present := (present config_dword).
Local Notation visible := (visible config_dword).
Local Notation visible_devices := (visible_devices config_dword).

Definition if_present (b d f : Z) : list pci_device := if present b d f then [read_device b d f] else [].

Lemma scan_function_capped X b d f :
  scan_function config_dword (take 64 X) b d f = take 64 (X ++ if_present b d f).
Proof.
  unfold scan_function, if_present, Pci.present. destruct (pci_config_read16 _ b d f 0 =? 0xFFFF); simpl negb; cbv iota.
  - by rewrite app_nil_r.
  - unfold PCI_MAX_DEVICES, zlen. rewrite length_take, <- take_take_app.
    destruct (64 <=? Z.of_nat (64 `min` length X)) eqn:E; b2p.
    + rewrite take_app_le; [by rewrite take_take|]. rewrite length_take. lia.
    + symmetry. apply take_ge. rewrite length_app, length_take. simpl length. lia.
Qed.

Lemma visible_cons b d f l : visible_devices ((b, d, f) :: l) =
  (if visible b d f then [read_device b d f] else []) ++ visible_devices l.
Proof. unfold Pci.visible_devices. cbn [List.filter]. by destruct (visible b d f). Qed.

Lemma visible_app l r : visible_devices (l ++ r) = visible_devices l ++ visible_devices r.
Proof. unfold Pci.visible_devices. by rewrite List.filter_app, fmap_app. Qed.

Lemma visible_concat {A} (h : A -> list (Z * Z * Z)) l :
  visible_devices (concat (map h l)) = concat (map (fun x => visible_devices (h x)) l).
Proof. induction l as [|x l IH]; [done|]. simpl. by rewrite visible_app, IH. Qed.

Definition functions_of (b d : Z) : list (Z * Z * Z) := (fun f => (b, d, f)) <$> seqZ 0 8.

(** Functions other than 0. *)
Lemma visible_others b d l : Forall (fun f => f <> 0) l ->
  visible_devices ((fun f => (b, d, f)) <$> l) =
  if present b d 0 && negb (Z.land (pci_config_read8 config_dword b d 0 0x0E) 0x80 =? 0)
  then concat (map (if_present b d) l) else [].
Proof.
  set (multi := negb _). induction 1 as [|f l Hf _ IH]; [by destruct (_ && _)|].
  cbn [fmap list_fmap map concat]. rewrite visible_cons, IH. unfold if_present, Pci.visible. fold multi.
  replace (f =? 0) with false by lia. by destruct (present b d 0), (present b d f), multi.
Qed.

Lemma scan_device_capped b X d :
  scan_device config_dword b (take 64 X) d = take 64 (X ++ visible_devices (functions_of b d)).
Proof.
  unfold scan_device, functions_of. change (seqZ 0 8) with (0 :: seqZ 1 7).
  assert (Hn : Forall (fun f => f <> 0) (seqZ 1 7)) by (apply Forall_seqZ; lia).
  generalize dependent (seqZ 1 7). intros l Hn. cbn [fmap list_fmap]. rewrite visible_cons, visible_others by done.
  rewrite <- (negb_involutive (pci_config_read16 config_dword b d 0 0 =? 65535)).
  fold (present b d 0). unfold Pci.visible. rewrite Z.eqb_refl.
  destruct (present b d 0) eqn:E; cbn [negb andb orb]; [|by rewrite app_nil_r].
  rewrite scan_function_capped. destruct (Z.land _ _ =? 0); cbn [negb].
  - unfold if_present. by rewrite E, !app_nil_r.
  - rewrite (fold_capped 64 _ (if_present b d)); [|intros; apply scan_function_capped].
    unfold if_present at 1. by rewrite E, <- app_assoc.
Qed.

Lemma all_functions_eq :
  all_functions = concat (map (fun b => concat (map (functions_of b) (seqZ 0 32))) (seqZ 0 256)).
Proof.
  assert (Hb : forall {A B} (f : A -> list B) l, l ≫= f = concat (map f l)).
  { intros A B f l. induction l as [|x l IH]; [done|]. simpl. by rewrite <- IH. }
  unfold all_functions. rewrite Hb. f_equal.
Qed.

Lemma pci_scan_visible : pci_scan_bus config_dword = take 64 (visible_devices all_functions).
Proof.
  unfold pci_scan_bus. change (@nil pci_device) with (take 64 (@nil pci_device)).
  rewrite (fold_capped 64 _ (fun b => visible_devices (concat (map (functions_of b) (seqZ 0 32))))).
  - by rewrite all_functions_eq, visible_concat.
  - intros X b _. rewrite (fold_capped 64 _ (fun d => visible_devices (functions_of b d))); [by rewrite visible_concat|].
    intros Y d _. apply scan_device_capped.
Qed.
End scan.

Lemma pci_find_spec devs v d : pci_find_device devs v d =
  (fun x => (d_bus x, d_device x, d_function x)) <$>
    List.find (fun x => (d_vendor_id x =? v) && (d_device_id x =? d)) devs.
Proof. induction devs as [|x l IH]; simpl; [done|]. by destruct (_ && _). Qed.

Lemma dword_of o : 0 <= o < 256 -> 0 <= o / 4 < 64.
Proof. intros. split; [apply Z.div_pos|apply Z.div_lt_upper_bound]; lia. Qed.

Lemma pci_address_eq bus device function offset :
  0 <= bus < 256 -> 0 <= device < 32 -> 0 <= function < 8 -> 0 <= offset < 256 ->
  pci_make_address bus device function offset =
  0x80000000 + bus * 2 ^ 16 + device * 2 ^ 11 + function * 2 ^ 8 + offset / 4 * 4.
Proof.
  intros Hb Hd Hf Ho. unfold pci_make_address.
  change 0x1F with (2 ^ 5 - 1). change 0x07 with (2 ^ 3 - 1). change 0xFC with (Z.shiftl (Z.ones 6) 2).
  rewrite !land_mask_low, (land_mask_down offset 2 6), !Z.mod_small, !Z.shiftl_mul_pow2 by lia.
  change 0x80000000 with (2 ^ 15 * 2 ^ 16). rewrite <- !Z.lor_assoc.
  change (2 ^ 2) with 4. pose proof (dword_of offset Ho) as Ho4. generalize dependent (offset / 4). intros o Ho4.
  rewrite (lor_low function 8), (lor_low device 11), (lor_low bus 16) by lia.
  change (2 ^ 15 * 2 ^ 16) with (1 * 2 ^ 31). rewrite lor_low by lia. lia.
Qed.

(** ** Properties *)

(** (PCI scan).  For every configuration space, the device table after
    [pci_scan_bus] holds exactly the functions that answer, in the order of
    bus, device and function, cut at 64 entries: function 0 of every device
    that is present, and functions 1 to 7 only of a device whose header
    declares itself multi-function. *)
Theorem pci_scan_finds_visible (config_dword : Z -> Z) :
  pci_scan_bus config_dword = take 64 (visible_devices config_dword all_functions).
Proof. apply pci_scan_visible. Qed.

(** (PCI addresses).  The CONFIG_ADDRESS word identifies what is read: two
    reads of legal locations use the same address only when they name the same
    bus, device, function and dword. *)
Theorem pci_address_injective (b d f o b' d' f' o' : Z) :
  0 <= b < 256 -> 0 <= d < 32 -> 0 <= f < 8 -> 0 <= o < 256 ->
  0 <= b' < 256 -> 0 <= d' < 32 -> 0 <= f' < 8 -> 0 <= o' < 256 ->
  pci_make_address b d f o = pci_make_address b' d' f' o' ->
  b = b' /\ d = d' /\ f = f' /\ o / 4 = o' / 4.
Proof.
  intros Hb Hd Hf Ho Hb' Hd' Hf' Ho'. rewrite !pci_address_eq by done. intros E.
  pose proof (dword_of o Ho). pose proof (dword_of o' Ho'). lia.
Qed.

Lemma pci_address_injective_witness : 0 = 0 /\ 1 = 1 /\ 3 = 3 /\ 0x40 / 4 = 0x43 / 4.
Proof. apply pci_address_injective; try lia. vm_compute. reflexivity. Defined.
