(* ===== verification/Kernel.v ===== *)
(** * The kernel state and program loading ([kernel/exec.c] and the globals of [kernel/syscall.c])

    The state on which system calls run joins the states of the components:
    physical memory, page allocator and heap ([heap]), the file system
    backends with the pipe pool and the process table ([vfs]), the scheduler's
    and the timer's counters, the keyboard, the configuration sector and the
    descriptor table.  What is printed is a list of console calls. *)

From Stdlib Require Import ZArith Lia ZifyBool.
From stdpp Require Import base tactics numbers list option gmap.
From S2P Require Import Prelude Pmm Mem Vmm FatName Fat FatDir FatFile Heap Ramfs Keyboard BootCfg Console Pci.
From S2P Require Import Process Scheduler Pipe Fork UserMem Vfs Elf.
Local Open Scope Z_scope.

(** What the C text takes from the machine and the linker: addresses of the
    static kernel stacks and of two assembly labels, PCI configuration space,
    and the bytes an uninitialised local array of [n] bytes holds. *)
Class Machine := {
  process_stacks : Z;
  user_task_bootstrap : Z;
  isr128_resume : Z;
  config_dword : Z -> Z;
  local_bytes : nat -> list Z;
  local_bytes_length n : length (local_bytes n) = n
}.

Definition FD_PER_PROC : Z := 8.
Definition FD_BASE : Z := 3.

Record kernel {D : Type} := Kernel {
  k_heap : heap pmm;
  k_vfs : vfs D;
  k_ready : bool;                  (** [scheduler_ready] *)
  k_index : Z;                     (** [current_index] *)
  k_ticks : Z;
  k_kbd : kbd;
  k_cfg : cfgst ();                (** the disk is the volume's *)
  k_pci : list pci_device;
  k_fds : list (list vfs_fd);      (** [fd_table] *)
  k_frame : Z;                     (** [g_syscall_frame] *)
  k_raw_mode_pid : Z;
  k_exec_arg : list Z;
  k_boot_up : bool;                (** [g_boot_considered_up] *)
  k_out : list console_call
}.
Arguments kernel : clear implicits.

Section kernel.
Context {D : Type} `{BlockDevice D} `{Machine}.
Local Notation K := (kernel D).
Local Notation M := (cM K).
Implicit Types k : K.

(** ** Reaching the components *)

Definition put_heap (h : heap pmm) k : K :=
  Kernel D h (k_vfs k) (k_ready k) (k_index k) (k_ticks k) (k_kbd k) (k_cfg k) (k_pci k) (k_fds k) (k_frame k)
    (k_raw_mode_pid k) (k_exec_arg k) (k_boot_up k) (k_out k).
Definition put_vfs (v : vfs D) k : K :=
  Kernel D (k_heap k) v (k_ready k) (k_index k) (k_ticks k) (k_kbd k) (k_cfg k) (k_pci k) (k_fds k) (k_frame k)
    (k_raw_mode_pid k) (k_exec_arg k) (k_boot_up k) (k_out k).
Definition put_counters (r : bool) (i t : Z) k : K :=
  Kernel D (k_heap k) (k_vfs k) r i t (k_kbd k) (k_cfg k) (k_pci k) (k_fds k) (k_frame k)
    (k_raw_mode_pid k) (k_exec_arg k) (k_boot_up k) (k_out k).
Definition put_kbd (b : kbd) k : K :=
  Kernel D (k_heap k) (k_vfs k) (k_ready k) (k_index k) (k_ticks k) b (k_cfg k) (k_pci k) (k_fds k) (k_frame k)
    (k_raw_mode_pid k) (k_exec_arg k) (k_boot_up k) (k_out k).
Definition put_kcfg (c : cfgst ()) k : K :=
  Kernel D (k_heap k) (k_vfs k) (k_ready k) (k_index k) (k_ticks k) (k_kbd k) c (k_pci k) (k_fds k) (k_frame k)
    (k_raw_mode_pid k) (k_exec_arg k) (k_boot_up k) (k_out k).
Definition put_fds (f : list (list vfs_fd)) k : K :=
  Kernel D (k_heap k) (k_vfs k) (k_ready k) (k_index k) (k_ticks k) (k_kbd k) (k_cfg k) (k_pci k) f (k_frame k)
    (k_raw_mode_pid k) (k_exec_arg k) (k_boot_up k) (k_out k).
Definition put_raw_mode (p : Z) k : K :=
  Kernel D (k_heap k) (k_vfs k) (k_ready k) (k_index k) (k_ticks k) (k_kbd k) (k_cfg k) (k_pci k) (k_fds k) (k_frame k)
    p (k_exec_arg k) (k_boot_up k) (k_out k).
Definition put_exec_arg (a : list Z) k : K :=
  Kernel D (k_heap k) (k_vfs k) (k_ready k) (k_index k) (k_ticks k) (k_kbd k) (k_cfg k) (k_pci k) (k_fds k) (k_frame k)
    (k_raw_mode_pid k) a (k_boot_up k) (k_out k).
Definition put_boot_up (b : bool) k : K :=
  Kernel D (k_heap k) (k_vfs k) (k_ready k) (k_index k) (k_ticks k) (k_kbd k) (k_cfg k) (k_pci k) (k_fds k) (k_frame k)
    (k_raw_mode_pid k) (k_exec_arg k) b (k_out k).
Definition put_out (l : list console_call) k : K :=
  Kernel D (k_heap k) (k_vfs k) (k_ready k) (k_index k) (k_ticks k) (k_kbd k) (k_cfg k) (k_pci k) (k_fds k) (k_frame k)
    (k_raw_mode_pid k) (k_exec_arg k) (k_boot_up k) l.

Definition k_mem k : mem := h_mem (k_heap k).
Definition put_mem (m : mem) k : K := put_heap (set_mem (k_heap k) m) k.
Definition tab k : ptable := k_tab (v_pipes (k_vfs k)).
Definition put_tab (t : ptable) k : K := put_vfs (put_pipes (set_tab (v_pipes (k_vfs k)) t) (k_vfs k)) k.
Definition k_sched k : sched := mk_sched (tab k) (k_ready k) (k_index k) (k_ticks k).
Definition put_sched (s : sched) k : K :=
  put_counters (scheduler_ready s) (current_index s) (ticks s) (put_tab (s_tab s) k).
Definition cfg_view k : cfgst D :=
  let c := k_cfg k in Cfgst D (g_cfg c) (g_available c) (g_sector c) (g_crash_active c) (disk (v_fat (k_vfs k))).
Definition put_cfg_view (c : cfgst D) k : K :=
  put_kcfg (Cfgst () (g_cfg c) (g_available c) (g_sector c) (g_crash_active c) ())
    (put_vfs (put_fat (set_disk (c_disk c) (v_fat (k_vfs k))) (k_vfs k)) k).

Definition on_mem {A} (m : cM mem A) : M A := zoom k_mem put_mem m.
Definition on_vfs {A} (m : cM (vfs D) A) : M A := zoom k_vfs put_vfs m.
Definition on_cfg {A} (m : cM (cfgst D) A) : M A := zoom cfg_view put_cfg_view m.
Definition on_table (f : ptable -> ptable) : M () := modify (fun k => put_tab (f (tab k)) k).
Definition on_sched (f : sched -> sched) : M () := modify (fun k => put_sched (f (k_sched k)) k).
Definition on_kbd {A} (f : kbd -> A * kbd) : M A := fun k => let '(a, b) := f (k_kbd k) in Some (a, put_kbd b k).
Definition print (l : list console_call) : M () := modify (fun k => put_out (k_out k ++ l) k).

(** The allocator and memory, as the loader and [process_fork] use them. *)
Definition k_pages k : pmm * mem := (h_pages (k_heap k), k_mem k).
Definition put_pages (s : pmm * mem) k : K :=
  let h := k_heap k in
  put_heap (mk_heap (with_mem (h_vmm h) s.2) s.1 (heap_start_ptr h) (heap_end h)) k.
Definition on_pages {A} (m : cM (pmm * mem) A) : M A := zoom k_pages put_pages m.

Definition process_current : M (option Z) := gets (fun k => current_process (tab k)).
(** The fields of the process in slot [i], read through its pointer. *)
Definition proc (i : Z) : M process := gets (fun k => slot (tab k) i).

(** ** Heap *)

Definition k_kmalloc (size : Z) : M Z := fun k =>
  match kmalloc (k_heap k) size with
  | Some (h, p) => Some (p, put_heap h k)
  | None => None
  end.
Definition k_kfree (p : Z) : M () := modify (fun k => put_heap (kfree (k_heap k) p) k).

(** [n] bytes of memory from [a]. *)
Definition mem_bytes (m : mem) (a : Z) (n : nat) : list Z := (fun i => rd8 m (a + Z.of_nat i)) <$> seq 0 n.

(** ** [exec.c] *)

Definition USER_STACK_VIRT : Z := 0x02000000.
Definition USER_STACK_PAGES : nat := 2.
Definition EXEC_MAX_FILE_SIZE : Z := 0x30000.

Definition light_red : console_call := console_set_color CONSOLE_LIGHT_RED CONSOLE_BLACK.
Definition light_grey : console_call := console_set_color CONSOLE_LIGHT_GREY CONSOLE_BLACK.

Definition exec_fail (id : msg_id) (name : list Z) : M () :=
  print [light_red; console_puts_msg id; console_puts name; console_puts NL; light_grey].
(** The error messages without a file name. *)
Definition exec_error (id : msg_id) : M () := print [light_red; console_puts_msg id; light_grey].

(** The read loop: [got] bytes are already in the buffer; [None] when the file
    ended early or could not be read. *)
Fixpoint exec_read (fuel : nat) (file : vfs_fd) (disk_copy got elf_size : Z) : M (option vfs_fd) :=
  if elf_size <=? got then mret (Some file)
  else
    match fuel with
    | O => undefined
    | S fuel' =>
        r ← on_vfs (vfs_read file true (elf_size - got));
        match r with
        | (Return (r, out), file) =>
            on_mem (modify (fun m => memcpy8 m (disk_copy + got) out));;
            if r <=? 0 then mret None else exec_read fuel' file disk_copy (got + r) elf_size
        | _ => undefined
        end
    end.

(** Where the program's bytes are: the image from the file on, and the heap
    buffer (0 for none); [None] after an error message. *)
Definition exec_fetch (name : list Z) (file : vfs_fd) : M (option (list Z * Z)) :=
  let elf_size := f_size file in
  if decide (f_backend file = VFS_RAMFS) then
    base ← gets (fun k => ramfs_base (v_ram (k_vfs k)));
    match base with
    | None => undefined
    | Some img =>
        on_vfs (vfs_close file);;
        mret (Some (drop (Z.to_nat (f_first file)) img, 0))
    end
  else if (elf_size =? 0) || (EXEC_MAX_FILE_SIZE <? elf_size) then
    on_vfs (vfs_close file);;
    exec_fail MSG_EXEC_BAD_SIZE name;;
    mret None
  else
    disk_copy ← k_kmalloc elf_size;
    if disk_copy =? 0 then
      on_vfs (vfs_close file);;
      exec_fail MSG_EXEC_OUT_OF_MEMORY_FILE name;;
      mret None
    else
      r ← exec_read (Z.to_nat elf_size) file disk_copy 0 elf_size;
      match r with
      | None =>
          k_kfree disk_copy;;
          on_vfs (vfs_close file);;
          exec_fail MSG_EXEC_READ_FAILED name;;
          mret None
      | Some file =>
          on_vfs (vfs_close file);;
          img ← gets (fun k => mem_bytes (k_mem k) disk_copy (Z.to_nat elf_size));
          mret (Some (img, disk_copy))
      end.

(** The stack pages from number [i] on; [false] after an error message. *)
Fixpoint exec_stack (n : nat) (cr3 i : Z) : M bool :=
  match n with
  | O => mret true
  | S n' =>
      let va := u32 (USER_STACK_VIRT + i * PAGE_SIZE) in
      phys ← on_pages (fun s => let '(p, phys) := pa_alloc s.1 in Some (phys, (p, s.2)));
      if phys =? 0 then exec_error MSG_EXEC_OUT_OF_MEMORY_FOR;; mret false
      else
        r ← on_pages (fun s => let '(p, m, r) := vmm_map_user_page s.1 s.2 cr3 va phys in Some (r, (p, m)));
        if negb (r =? 0) then
          on_pages (modify (fun s => (pa_free s.1 phys, s.2)));;
          exec_error MSG_EXEC_FAILED_TO_MAP_USER;;
          mret false
        else exec_stack n' cr3 (i + 1)
  end.

Definition exec_spawn (name : list Z) (entry user_esp cr3 cwd_cluster : Z) (start_blocked : bool) : M (option Z) := fun k =>
  let '(s, m, r) := scheduler_spawn_user process_stacks user_task_bootstrap (k_sched k) (k_mem k) (Some name)
                      entry user_esp cr3 cwd_cluster start_blocked in
  Some (r, put_sched s (put_mem m k)).

(** The slot of the new process, [None] for NULL. *)
Definition exec (name : list Z) (cwd_cluster : Z) (start_blocked : bool) : M (option Z) :=
  r ← on_vfs (vfs_open cwd_cluster (Some name) (set_fd_name (local_bytes 32) blank_fd));
  let '(rc, file) := r in
  if rc <? 0 then exec_fail MSG_EXEC_NOT_FOUND name;; mret None
  else
    r ← exec_fetch name file;
    match r with
    | None => mret None
    | Some (elf_data, disk_copy) =>
        cr3 ← on_pages (fun s => let '(p, m, cr3) := vmm_create_directory s.1 s.2 in Some (cr3, (p, m)));
        if cr3 =? 0 then exec_error MSG_EXEC_FAILED_TO_CREATE_PAGE;; mret None
        else
          loaded ← on_pages (elf_load cr3 (Some elf_data) (f_size file));
          (if disk_copy =? 0 then mret () else k_kfree disk_copy);;
          match loaded with
          | None => exec_fail MSG_EXEC_ELF_LOAD_FAILED name;; mret None
          | Some entry =>
              ok ← exec_stack USER_STACK_PAGES cr3 0;
              if negb ok then mret None
              else
                let user_esp := u32 (USER_STACK_VIRT + Z.of_nat USER_STACK_PAGES * PAGE_SIZE) in
                p ← exec_spawn name entry user_esp cr3 cwd_cluster start_blocked;
                match p with
                | None => exec_error MSG_EXEC_SCHEDULER_SPAWN_USER_FAILED;; mret None
                | Some i =>
                    print [console_set_color CONSOLE_LIGHT_GREEN CONSOLE_BLACK; console_puts_msg MSG_EXEC_SPAWNED;
                      console_puts name; console_puts_msg MSG_EXEC_ENTRY_0X; console_put_hex entry;
                      console_puts_msg MSG_EXEC_ESP_0X; console_put_hex user_esp; console_puts NL; light_grey];;
                    mret (Some i)
                end
          end
    end.
End kernel.

#[global] Arguments exec : simpl never.
