(* ===== verification/Syscall.v ===== *)
(** * System calls ([kernel/syscall.c])

    Each handler is a computation on the kernel state.  A handler that can
    wait for something is cut at the head of its loops: it ends its turn with
    [Pause] and what is left to do, which [resume] takes up when the process
    runs again (at once, unless its state says that it sleeps or is blocked);
    other processes and interrupts may change the state in between.  Between
    two such points a handler runs without interruption.  A pointer to a
    process or to a descriptor is its index in the table. *)

From Stdlib Require Import ZArith Lia ZifyBool.
From stdpp Require Import base tactics numbers list option gmap.
From S2P Require Import Prelude Pmm Mem Vmm FatName Fat FatDir FatFile Heap Ramfs Keyboard BootCfg Console Pci.
From S2P Require Import Process Scheduler Pipe Fork UserMem Vfs Elf Kernel.
Local Open Scope Z_scope.

Definition FAIL : Z := 0xFFFFFFFF.
Definition s32 (x : Z) : Z := if x <? 2 ^ 31 then x else x - 2 ^ 32.

Definition SYSCALL_FRAME_WORDS : nat := 13.
Definition SYSCALL_FRAME_EAX : Z := 7.
Definition SYS_WRITE_CHUNK : Z := 128.
Definition SYS_READ_CHUNK : Z := 128.
Definition USER_STR_MAX : nat := 64.
Definition GETCWD_MAX : nat := 128.
Definition SYS_WRITE_FILE_MAX_LEN : Z := 64 * 1024.

(** What is left of a system call that has not returned. *)
Inductive kont :=
| KWrite (cur slot idx buf len total : Z)                            (** [sys_write], [while (total < len)] *)
| KWritePipe (cur slot idx buf len total pipe : Z) (chunk : list Z) (written : Z) (** ... in [pipe_write] *)
| KRead (cur slot idx buf len total : Z)                             (** [sys_read], the file loop *)
| KReadPipe (cur slot idx buf len total pipe want : Z)               (** ... in [pipe_read] *)
| KKeys (cur buf len n : Z)                                          (** [sys_read], the keyboard loop *)
| KRaw                                                               (** [SYS_READ_RAW] *)
| KWoken (cur pid : Z)                                               (** [sys_wait], after [scheduler_block_current] *)
| KList (cluster idx : Z) (any : bool)                               (** [sys_readdir], the FAT16 loop *)
| KReturn (r : Z)
| KHalt.

Inductive outcome :=
| Done (r : Z)
| Pause (k : kont).

Section syscalls.
Context {D : Type} `{BlockDevice D} `{Machine}.
Local Notation K := (kernel D).
Local Notation M := (cM K).
Implicit Types k : K.

(** ** Slots and descriptors *)

Definition slot_of (p : option Z) : option Z := find_from (fun i => bool_decide (process_at i = p)) 0 16.
Definition proc_slot : M (option Z) := gets (fun k => slot_of (current_process (tab k))).

Definition fd_at (fds : list (list vfs_fd)) (s j : Z) : vfs_fd := (fds.[s]).[j].
Definition get_fd (s j : Z) : M vfs_fd := gets (fun k => fd_at (k_fds k) s j).
Definition set_fd (s j : Z) (f : vfs_fd) : M () :=
  modify (fun k => put_fds ((k_fds k).[s := ((k_fds k).[s]).[j := f]]) k).
(** Call [op] on a pointer to the descriptor. *)
Definition on_fd {A} (s j : Z) (op : vfs_fd -> cM (vfs D) (A * vfs_fd)) : M A :=
  f ← get_fd s j;
  r ← on_vfs (op f);
  set_fd s j r.2;;
  mret r.1.
Definition close_fd (s j : Z) : M () :=
  f ← get_fd s j; f ← on_vfs (vfs_close f); set_fd s j f.
(** A copy of the structure, counted by [vfs_dup]. *)
Definition copy_fd (s j : Z) (f : vfs_fd) : M () := set_fd s j f;; f ← get_fd s j; on_vfs (vfs_dup f).
(** The first free descriptor of a row. *)
Definition free_fd (s : Z) : M (option Z) :=
  gets (fun k => find_from (fun j => negb (f_used (fd_at (k_fds k) s j))) 0 8).

(** Run [f] on the current process, or fail. *)
Definition with_current (f : Z -> M outcome) : M outcome :=
  cur ← process_current;
  match cur with None => mret (Done FAIL) | Some c => f c end.
Definition with_slot (f : Z -> M outcome) : M outcome :=
  s ← proc_slot;
  match s with None => mret (Done FAIL) | Some s => f s end.

(** Read the string at [uaddr] into a local buffer of [USER_STR_MAX] bytes. *)
Definition with_user_str (cur uaddr : Z) (f : list Z -> M outcome) : M outcome :=
  p ← proc cur;
  r ← on_mem (copy_user_str p uaddr (local_bytes USER_STR_MAX));
  let '(rc, buf) := r in
  if rc <? 0 then mret (Done FAIL) else f (until_nul buf).

Definition to_user (cur udst : Z) (bytes : list Z) : M Z :=
  p ← proc cur; on_mem (copy_to_user (Some p) udst bytes).
Definition from_user (cur usrc len : Z) : M (Z * list Z) :=
  p ← proc cur; on_mem (copy_from_user (Some p) usrc len).
Definition range_valid (cur uaddr len : Z) : M bool :=
  p ← proc cur; on_mem (user_ptr_valid (Some p) uaddr len).

(** ** fork *)

(** The descriptor loop of [sys_fork], [n] entries left. *)
Fixpoint dup_row (n : nat) (child parent j : Z) : M () :=
  match n with
  | O => mret ()
  | S n' =>
      f ← get_fd parent j;
      copy_fd child j f;;
      dup_row n' child parent (j + 1)
  end.

Definition sys_fork : M outcome :=
  frame ← gets (fun k => (fun i => rd32 (k_mem k) (k_frame k + 4 * Z.of_nat i)) <$> seq 0 SYSCALL_FRAME_WORDS);
  let frame := frame.[SYSCALL_FRAME_EAX := 0] in
  with_current (fun parent =>
  with_slot (fun parent_slot =>
    child ← (fun k =>
      let '(t, p, m, r) := process_fork process_stacks isr128_resume (tab k) (h_pages (k_heap k)) (k_mem k)
                             (Some parent) (Some frame) in
      Some (r, put_tab t (put_pages (p, m) k)));
    match child with
    | None => mret (Done FAIL)
    | Some c =>
        match slot_of (Some c) with
        | Some child_slot => dup_row 8 child_slot parent_slot 0
        | None => mret ()
        end;;
        p ← proc c;
        mret (Done (p_pid p))
    end)).

(** ** write *)

Definition negative_or_total (total : Z) : outcome := Done (if 0 <? total then total else FAIL).

(** After [vfs_write] returned [r] for a chunk of [want] bytes. *)
Definition chunk_written (cur slot idx buf len total want r : Z) : outcome :=
  if r <? 0 then negative_or_total total else Pause (KWrite cur slot idx buf len (u32 (total + want))).

Definition write_loop (cur slot idx buf len total : Z) : M outcome :=
  if negb (total <? len) then mret (Done total)
  else
    let want := len - total in
    let want := if SYS_WRITE_CHUNK <? want then SYS_WRITE_CHUNK else want in
    r ← from_user cur (u32 (buf + total)) want;
    let '(rc, kchunk) := r in
    if rc <? 0 then mret (negative_or_total total)
    else
      f ← get_fd slot idx;
      t ← on_fd slot idx (fun f => vfs_write f (Some kchunk) want 0);
      mret match t with
           | Return r => chunk_written cur slot idx buf len total want r
           | Again written => Pause (KWritePipe cur slot idx buf len total (f_first f) kchunk written)
           | Blocked => Pause (KWritePipe cur slot idx buf len total (f_first f) kchunk 0)
           end.

Definition write_pipe_loop (cur slot idx buf len total pipe : Z) (chunk : list Z) (written : Z) : M outcome := fun k =>
  let '(kp, t) := pipe_write (v_pipes (k_vfs k)) pipe (Some chunk) written in
  Some (match t with
        | Return r => chunk_written cur slot idx buf len total (zlen chunk) r
        | Again w => Pause (KWritePipe cur slot idx buf len total pipe chunk w)
        | Blocked => Pause (KWritePipe cur slot idx buf len total pipe chunk written)
        end, put_vfs (put_pipes kp (k_vfs k)) k).

(** [console_putc] of each byte of the user's buffer. *)
Fixpoint putc_loop (n : nat) (cur uaddr : Z) : M () :=
  match n with
  | O => mret ()
  | S n' =>
      p ← proc cur;
      kp ← gets (fun k => user_kptr (k_mem k) p uaddr);
      if kp =? 0 then undefined
      else
        c ← gets (fun k => rd8 (k_mem k) kp);
        print [console_putc c];;
        putc_loop n' cur (u32 (uaddr + 1))
  end.

Definition sys_write (fd buf len : Z) : M outcome :=
  if buf =? 0 then mret (Done FAIL)
  else if len =? 0 then mret (Done 0)
  else
    with_current (fun cur =>
    ok ← range_valid cur buf len;
    if negb ok then mret (Done FAIL)
    else
      p ← proc cur;
      let fd := if ((fd =? 1) || (fd =? 2)) && (0 <=? p_stdout_redirect p) then p_stdout_redirect p else fd in
      if FD_BASE <=? fd then
        with_slot (fun slot =>
          let idx := fd - FD_BASE in
          if FD_PER_PROC <=? idx then mret (Done FAIL)
          else
            f ← get_fd slot idx;
            if negb (f_used f) then mret (Done FAIL) else write_loop cur slot idx buf len 0)
      else
        putc_loop (Z.to_nat len) cur buf;;
        mret (Done len)).

(** ** exit, yield, getpid *)

Fixpoint close_row (n : nat) (s j : Z) : M () :=
  match n with
  | O => mret ()
  | S n' =>
      f ← get_fd s j;
      (if f_used f then close_fd s j else mret ());;
      close_row n' s (j + 1)
  end.

Definition sys_exit (code : Z) : M outcome :=
  s ← proc_slot;
  match s with Some s => close_row 8 s 0 | None => mret () end;;
  p ← process_current;
  match p with Some c => on_table (fun t => process_exit t (Some c)) | None => mret () end;;
  on_sched scheduler_yield;;
  mret (Pause KHalt).

Definition sys_yield : M outcome :=
  cur ← process_current;
  match cur with
  | None => mret (Done 0)
  | Some _ => on_sched scheduler_yield;; mret (Pause (KReturn 0))
  end.

Definition sys_getpid : M outcome :=
  cur ← process_current;
  match cur with
  | None => mret (Done 0)
  | Some c => p ← proc c; mret (Done (p_pid p))
  end.

(** ** read *)

(** After [vfs_read] returned [r] with the bytes [out]. *)
Definition chunk_read (cur slot idx buf len total want : Z) (res : Z * list Z) : M outcome :=
  let '(r, out) := res in
  if r <? 0 then mret (negative_or_total total)
  else if r =? 0 then mret (Done total)
  else
    rc ← to_user cur (u32 (buf + total)) (take (Z.to_nat r) out);
    if rc <? 0 then mret (negative_or_total total)
    else
      let total := u32 (total + r) in
      mret (if r <? want then Done total else Pause (KRead cur slot idx buf len total)).

Definition read_loop (cur slot idx buf len total : Z) : M outcome :=
  if negb (total <? len) then mret (Done total)
  else
    let want := len - total in
    let want := if SYS_READ_CHUNK <? want then SYS_READ_CHUNK else want in
    f ← get_fd slot idx;
    t ← on_fd slot idx (fun f => vfs_read f true want);
    match t with
    | Return res => chunk_read cur slot idx buf len total want res
    | _ => mret (Pause (KReadPipe cur slot idx buf len total (f_first f) want))
    end.

Definition read_pipe_loop (cur slot idx buf len total pipe want : Z) : M outcome :=
  t ← (fun k => let '(kp, t) := pipe_read (v_pipes (k_vfs k)) pipe true want in
                Some (t, put_vfs (put_pipes kp (k_vfs k)) k));
  match t with
  | Return res => chunk_read cur slot idx buf len total want res
  | _ => mret (Pause (KReadPipe cur slot idx buf len total pipe want))
  end.

Definition in_raw_mode : M bool := gets (fun k =>
  (0 <=? k_raw_mode_pid k) &&
  match current_process (tab k) with
  | Some c => s32 (p_pid (slot (tab k) c)) =? k_raw_mode_pid k
  | None => false
  end).

(** One iteration of the keyboard loop. *)
Definition key_loop (cur buf len n : Z) : M outcome :=
  if negb (n <? len) then mret (Done n)
  else
    c ← on_kbd keyboard_getchar_nowait;
    if c =? -1 then
      on_sched (fun s => scheduler_sleep_current s 1);;
      mret (Pause (KKeys cur buf len n))
    else if c =? 3 then
      print [console_puts_msg MSG_SYS_CTRL_C];;
      rc ← to_user cur buf [3];
      mret (Done (if rc <? 0 then FAIL else 1))
    else
      in_raw ← in_raw_mode;
      (if negb in_raw && negb ((c =? 8) && (n =? 0)) then print [console_putc c] else mret ());;
      if c =? 8 then mret (Pause (KKeys cur buf len (if 0 <? n then n - 1 else n)))
      else
        rc ← to_user cur (u32 (buf + n)) [c];
        if rc <? 0 then mret (Done FAIL)
        else if c =? 10 then mret (Done (n + 1))
        else mret (Pause (KKeys cur buf len (n + 1))).

(** The boot is successful once a program reads the keyboard. *)
Definition note_boot_up : M () :=
  up ← gets k_boot_up;
  if (up : bool) then mret ()
  else
    modify (put_boot_up true);;
    a ← on_cfg bootcfg_is_available;
    if (a : bool) then
      on_cfg (bootcfg_set_u32 BOOTCFG_KEY_FAIL_COUNT 0);;
      on_cfg crash_record_clear_if_acknowledged;;
      on_cfg bootcfg_write;;
      mret ()
    else mret ().

Definition sys_read (fd buf len : Z) : M outcome :=
  if (buf =? 0) || (len =? 0) then mret (Done FAIL)
  else
    with_current (fun cur =>
    ok ← range_valid cur buf len;
    if negb ok then mret (Done FAIL)
    else
      p ← proc cur;
      let fd := if (fd =? 0) && (0 <=? p_stdin_redirect p) then p_stdin_redirect p else fd in
      if FD_BASE <=? fd then
        with_slot (fun slot =>
          let idx := fd - FD_BASE in
          if FD_PER_PROC <=? idx then mret (Done FAIL)
          else
            f ← get_fd slot idx;
            if negb (f_used f) then mret (Done FAIL) else read_loop cur slot idx buf len 0)
      else if negb (fd =? 0) then mret (Done FAIL)
      else
        note_boot_up;;
        key_loop cur buf len 0).

(** [SYS_READ_RAW] *)
Definition raw_loop : M outcome :=
  r ← on_kbd keyboard_raw_nowait;
  if r =? -1 then on_sched (fun s => scheduler_sleep_current s 1);; mret (Pause KRaw)
  else mret (Done r).

(** ** Information *)

Definition sys_uptime : M outcome := t ← gets k_ticks; mret (Done t).

Definition count_processes (t : ptable) : Z :=
  count_upto (fun i => negb (state_eqb (state_of t i) PROCESS_UNUSED)) 16.

Definition sys_meminfo (pmm_uaddr heap_uaddr procs_uaddr : Z) : M outcome :=
  with_current (fun cur =>
    pmm_val ← gets (fun k => pmm_free_pages (h_pages (k_heap k)));
    rc ← (if pmm_uaddr =? 0 then mret 0 else to_user cur pmm_uaddr (bytes32 pmm_val));
    if rc <? 0 then mret (Done FAIL)
    else
      heap_val ← (fun k => v ← heap_free_bytes (k_heap k); Some (v, k));
      rc ← (if heap_uaddr =? 0 then mret 0 else to_user cur heap_uaddr (bytes32 heap_val));
      if rc <? 0 then mret (Done FAIL)
      else
        n ← gets (fun k => count_processes (tab k));
        rc ← (if procs_uaddr =? 0 then mret 0 else to_user cur procs_uaddr (bytes32 n));
        if rc <? 0 then mret (Done FAIL) else mret (Done 0)).

Definition process_state_name (st : process_state) : msg_id :=
  match st with
  | PROCESS_UNUSED => MSG_PROC_STATE_UNUSED
  | PROCESS_READY => MSG_PROC_STATE_READY
  | PROCESS_RUNNING => MSG_PROC_STATE_RUNNING
  | PROCESS_SLEEPING => MSG_PROC_STATE_SLEEP
  | PROCESS_BLOCKED => MSG_PROC_STATE_BLOCKED
  | PROCESS_ZOMBIE => MSG_PROC_STATE_ZOMBIE
  end.

Definition dump_process (p : process) : list console_call :=
  if state_eqb (p_state p) PROCESS_UNUSED then []
  else
    [console_puts (spaces 7); console_put_dec (p_pid p); console_puts (spaces 4);
     console_puts_msg (process_state_name (p_state p)); console_puts (spaces 4); console_put_dec (p_runs p);
     console_puts (spaces 4); console_put_hex (p_esp p); console_puts (spaces 4);
     console_puts (until_nul (p_name p)); console_puts NL].

Definition process_dump (t : ptable) : list console_call :=
  [console_set_color CONSOLE_CYAN CONSOLE_BLACK; console_puts_msg MSG_PROC_TAG; light_grey;
   console_puts_msg MSG_PROC_TABLE_HEADER] ++
  concat (map (fun i => dump_process (Process.slot t i)) (seqZ 0 16)).

Definition sys_ps : M outcome := t ← gets tab; print (process_dump t);; mret (Done 0).

(** ** pipe, open, create, close *)

Definition pipe_end (f : vfs_fd) (b : vfs_backend) (pipe_idx : Z) : vfs_fd :=
  opened f b pipe_idx 0 (f_parent_cluster f).

Definition sys_pipe (user_fds : Z) : M outcome :=
  with_current (fun cur =>
  with_slot (fun slot =>
    r ← (fun k => let '(kp, r) := pipe_create (v_pipes (k_vfs k)) in Some (r, put_vfs (put_pipes kp (k_vfs k)) k));
    match r with
    | None => mret (Done FAIL)
    | Some pipe_idx =>
        read_j ← free_fd slot;
        match read_j with
        | None =>
            on_vfs (on_pipes (fun kp => pipe_release_read kp pipe_idx));;
            on_vfs (on_pipes (fun kp => pipe_release_write kp pipe_idx));;
            mret (Done FAIL)
        | Some read_j =>
            f ← get_fd slot read_j;
            set_fd slot read_j (pipe_end f VFS_PIPE_READ pipe_idx);;
            write_j ← gets (fun k => find_from (fun j => negb (j =? read_j) && negb (f_used (fd_at (k_fds k) slot j))) 0 8);
            match write_j with
            | None =>
                close_fd slot read_j;;
                on_vfs (on_pipes (fun kp => pipe_release_write kp pipe_idx));;
                mret (Done FAIL)
            | Some write_j =>
                f ← get_fd slot write_j;
                set_fd slot write_j (pipe_end f VFS_PIPE_WRITE pipe_idx);;
                rc ← to_user cur user_fds (bytes32 (FD_BASE + read_j) ++ bytes32 (FD_BASE + write_j));
                if rc <? 0 then
                  close_fd slot read_j;;
                  close_fd slot write_j;;
                  mret (Done FAIL)
                else mret (Done 0)
            end
        end
    end)).

(** The common body of [sys_open] and [sys_create]. *)
Definition open_with (op : Z -> option (list Z) -> vfs_fd -> cM (vfs D) (Z * vfs_fd)) (user_name : Z) : M outcome :=
  if user_name =? 0 then mret (Done FAIL)
  else
    with_current (fun cur =>
    with_slot (fun slot =>
    with_user_str cur user_name (fun kname =>
      j ← free_fd slot;
      match j with
      | None => mret (Done FAIL)
      | Some j =>
          p ← proc cur;
          rc ← on_fd slot j (op (p_cwd_cluster p) (Some kname));
          mret (Done (if rc <? 0 then FAIL else FD_BASE + j))
      end))).

Definition sys_open (user_name : Z) : M outcome := open_with vfs_open user_name.
Definition sys_create (user_name : Z) : M outcome := open_with vfs_create user_name.

Definition sys_close (fd : Z) : M outcome :=
  if fd <? FD_BASE then mret (Done FAIL)
  else
    with_slot (fun slot =>
      let idx := fd - FD_BASE in
      if FD_PER_PROC <=? idx then mret (Done FAIL)
      else
        f ← get_fd slot idx;
        if negb (f_used f) then mret (Done FAIL)
        else close_fd slot idx;; mret (Done 0)).

(** ** exec *)

Definition sys_exec (user_name user_arg : Z) : M outcome :=
  if user_name =? 0 then mret (Done FAIL)
  else
    with_current (fun cur =>
    with_user_str cur user_name (fun kname =>
      modify (fun k => put_exec_arg (k_exec_arg k).[0 := 0] k);;
      (if user_arg =? 0 then mret ()
       else
         p ← proc cur;
         arg ← gets k_exec_arg;
         r ← on_mem (copy_user_str p user_arg arg);
         modify (put_exec_arg r.2));;
      p ← proc cur;
      r ← exec kname (p_cwd_cluster p) false;
      match r with
      | None => mret (Done FAIL)
      | Some i => p ← proc i; mret (Done (p_pid p))
      end)).

(** The descriptor a redirection names: [None] when it is refused. *)
Definition redirect_source (slot fd : Z) : M (option Z) :=
  if fd <? FD_BASE then mret None
  else
    let idx := fd - FD_BASE in
    if FD_PER_PROC <=? idx then mret None
    else
      f ← get_fd slot idx;
      mret (if f_used f then Some idx else None).

(** Copy the caller's descriptor [src] into the first free entry of the new
    process: [None] when its row is full. *)
Definition place_fd (slot src new_slot : Z) : M (option Z) :=
  j ← free_fd new_slot;
  match j with
  | None => mret None
  | Some j =>
      f ← get_fd slot src;
      copy_fd new_slot j f;;
      mret (Some (FD_BASE + j))
  end.

(** Seed one redirection of the new process [c]; [false] when it failed. *)
Definition redirect (set : Z -> process -> process) (slot : Z) (src : option Z) (c new_slot : Z) : M bool :=
  match src with
  | None => mret true
  | Some idx =>
      r ← place_fd slot idx new_slot;
      match r with
      | None => on_table (fun t => process_exit t (Some c));; mret false
      | Some fd => on_table (fun t => upd t c (set fd));; mret true
      end
  end.

(** The source of a redirection, [Some None] for "don't redirect". *)
Definition wanted (slot fd : Z) : M (option (option Z)) :=
  if fd =? FAIL then mret (Some None)
  else r ← redirect_source slot fd; mret (Some <$> r).

Definition sys_exec_pipe (user_name stdin_fd stdout_fd : Z) : M outcome :=
  if user_name =? 0 then mret (Done FAIL)
  else
    with_current (fun cur =>
    with_slot (fun slot =>
    with_user_str cur user_name (fun kname =>
      modify (fun k => put_exec_arg (k_exec_arg k).[0 := 0] k);;
      stdin_src ← wanted slot stdin_fd;
      match stdin_src with
      | None => mret (Done FAIL)
      | Some stdin_src =>
          stdout_src ← wanted slot stdout_fd;
          match stdout_src with
          | None => mret (Done FAIL)
          | Some stdout_src =>
              p ← proc cur;
              r ← exec kname (p_cwd_cluster p) true;
              match r with
              | None => mret (Done FAIL)
              | Some c =>
                  match slot_of (Some c) with
                  | None => on_table (fun t => process_exit t (Some c));; mret (Done FAIL)
                  | Some new_slot =>
                      ok ← redirect set_stdin_redirect slot stdin_src c new_slot;
                      if negb ok then mret (Done FAIL)
                      else
                        ok ← redirect set_stdout_redirect slot stdout_src c new_slot;
                        if negb ok then mret (Done FAIL)
                        else
                          on_table (fun t => process_make_ready t (Some c));;
                          p ← proc c;
                          mret (Done (p_pid p))
                  end
              end
          end
      end))).

(** The copy loop of [sys_getarg]: [None] for an unmapped address. *)
Fixpoint getarg_loop (fuel : nat) (cur user_buf len n : Z) : M (option Z) :=
  arg ← gets k_exec_arg;
  if negb (n <? len - 1) then mret (Some n)
  else if zlen arg <=? n then undefined
  else if arg.[n] =? 0 then mret (Some n)
  else
    match fuel with
    | O => undefined
    | S fuel' =>
        p ← proc cur;
        kp ← gets (fun k => user_kptr (k_mem k) p (u32 (user_buf + n)));
        if kp =? 0 then mret None
        else
          on_mem (modify (fun m => wr8 m kp arg.[n]));;
          getarg_loop fuel' cur user_buf len (n + 1)
    end.

Definition sys_getarg (user_buf len : Z) : M outcome :=
  if (user_buf =? 0) || (len =? 0) then mret (Done FAIL)
  else
    with_current (fun cur =>
      r ← getarg_loop 64 cur user_buf len 0;
      match r with
      | None => mret (Done FAIL)
      | Some n =>
          p ← proc cur;
          kp ← gets (fun k => user_kptr (k_mem k) p (u32 (user_buf + n)));
          (if kp =? 0 then mret () else on_mem (modify (fun m => wr8 m kp 0)));;
          mret (Done n)
      end).

(** ** Directories *)

(** [puts_padded] *)
Definition puts_padded (s : list Z) (width : nat) : list console_call :=
  (console_putc <$> s) ++ replicate (width - length s) (console_putc SP).

(** The NUL-terminated string at offset [o] of the image. *)
Definition img_string (img : list Z) (o : Z) : M (list Z) :=
  let s := drop (Z.to_nat o) img in
  if decide (0 ∈ s) then mret (until_nul s) else undefined.

(** The ramfs entries from [i] on. *)
Fixpoint list_ramfs (n : nat) (img : list Z) (i : Z) : M () :=
  match n with
  | O => mret ()
  | S n' =>
      name ← img_string img (entry_at i);
      size ← on_vfs (on_ram (img_word img (entry_at i + 36)));
      print ([console_puts (spaces 2)] ++ puts_padded name 20 ++
             [console_put_dec size; console_puts_msg MSG_SYS_BYTES_NL]);;
      list_ramfs n' img (i + 1)
  end.

(** One iteration of the loop over the directory, which ends the call when
    there is no entry [idx]. *)
Definition list_loop (cluster idx : Z) (any : bool) : M outcome :=
  r ← on_vfs (on_fat (fat16_readdir cluster idx));
  match r with
  | Some (name, size, is_dir) =>
      print ([console_puts (spaces 2)] ++ puts_padded (until_nul name) 20 ++
             (if (is_dir : bool) then [console_puts_msg MSG_SYS_DIR_ENTRY]
              else [console_put_dec size; console_puts_msg MSG_SYS_BYTES_NL]));;
      mret (Pause (KList cluster (u32 (idx + 1)) true))
  | None =>
      (if any then mret () else print [console_puts_msg MSG_SYS_NO_FILES]);;
      mret (Done 0)
  end.

Definition list_directory (list_cluster : Z) : M outcome :=
  base ← gets (fun k => ramfs_base (v_ram (k_vfs k)));
  any ← match base with
        | Some img =>
            if list_cluster =? 0 then
              print [console_puts_msg MSG_SYS_RAMFS];;
              n ← on_vfs (on_ram (img_word img 0));
              list_ramfs (Z.to_nat n) img 0;;
              mret true
            else mret false
        | None => mret false
        end;
  ready ← on_vfs (on_fat fat16_available);
  if (ready : bool) then
    print [console_puts_msg MSG_SYS_FAT16];;
    list_loop list_cluster 0 any
  else
    (if (any : bool) then mret () else print [console_puts_msg MSG_SYS_NO_FILES]);;
    mret (Done 0).

Definition sys_readdir (user_path : Z) : M outcome :=
  with_current (fun cur =>
    p ← proc cur;
    if user_path =? 0 then list_directory (p_cwd_cluster p)
    else
      with_user_str cur user_path (fun kpath =>
        if decide (kpath = []) then list_directory (p_cwd_cluster p)
        else
          ready ← on_vfs (on_fat fat16_available);
          if negb ready then mret (Done FAIL)
          else
            r ← on_vfs (on_fat (fat16_resolve_dir (p_cwd_cluster p) (Some kpath)));
            let '(r, cluster) := r in
            if negb (r =? 1) then
              print [console_puts_msg MSG_SYS_LS_NO_SUCH_DIRECTORY; console_puts kpath; console_puts NL];;
              mret (Done FAIL)
            else list_directory cluster)).

Definition sys_mkdir (user_name : Z) : M outcome :=
  if user_name =? 0 then mret (Done FAIL)
  else
    with_current (fun cur =>
    with_user_str cur user_name (fun kname =>
      ready ← on_vfs (on_fat fat16_available);
      if negb ready then mret (Done FAIL)
      else
        p ← proc cur;
        ok ← on_vfs (on_fat (fat16_mkdir (p_cwd_cluster p) (Some kname)));
        mret (Done (if (ok : bool) then 0 else FAIL)))).

Definition sys_chdir (user_path : Z) : M outcome :=
  if user_path =? 0 then mret (Done FAIL)
  else
    with_current (fun cur =>
    with_user_str cur user_path (fun kpath =>
      ready ← on_vfs (on_fat fat16_available);
      if negb ready then mret (Done FAIL)
      else
        p ← proc cur;
        r ← on_vfs (on_fat (fat16_resolve_dir (p_cwd_cluster p) (Some kpath)));
        let '(r, new_cluster) := r in
        if negb (r =? 1) then mret (Done FAIL)
        else
          on_table (fun t => upd t cur (set_cwd_cluster new_cluster));;
          mret (Done 0))).

Definition sys_getcwd (user_buf len : Z) : M outcome :=
  if (user_buf =? 0) || (len =? 0) then mret (Done FAIL)
  else
    with_current (fun cur =>
      ok ← range_valid cur user_buf len;
      if negb ok then mret (Done FAIL)
      else
        p ← proc cur;
        r ← on_vfs (on_fat (fat16_get_path (p_cwd_cluster p) (local_bytes 128) (local_bytes GETCWD_MAX) 128));
        let '(n, kbuf) := r in
        if n <? 0 then mret (Done FAIL)
        else if len <? n + 1 then mret (Done FAIL)
        else
          rc ← to_user cur user_buf (take (Z.to_nat (n + 1)) kbuf);
          mret (Done (if rc <? 0 then FAIL else n))).

(** ** Power, raw mode *)

Definition sys_reboot : M outcome :=
  let '(out, r) := power_reboot in print out;; mret (Done (u32 r)).
Definition sys_shutdown : M outcome :=
  devs ← gets k_pci;
  let '(out, r) := power_shutdown config_dword devs in print out;; mret (Done (u32 r)).

Definition sys_set_raw_mode (enable : Z) : M outcome :=
  with_current (fun cur =>
    p ← proc cur;
    raw ← gets k_raw_mode_pid;
    (if negb (enable =? 0) then modify (put_raw_mode (s32 (p_pid p)))
     else if raw =? s32 (p_pid p) then modify (put_raw_mode (-1)) else mret ());;
    mret (Done 0)).

(** ** wait, kill *)

Definition find_pid (t : ptable) (pid : Z) : option Z :=
  find_from (fun i => (p_pid (Process.slot t i) =? pid) && negb (state_eqb (state_of t i) PROCESS_UNUSED)) 0 16.

(** The section of [sys_wait] with interrupts off. *)
Definition wait_loop (cur pid : Z) : M outcome :=
  alive ← gets (fun k => find_pid (tab k) pid);
  match alive with
  | None => mret (Done 0)
  | Some _ =>
      on_table (fun t => upd (upd t cur (set_waiting_for_pid pid)) cur (set_state PROCESS_BLOCKED));;
      mret (Pause (KWoken cur pid))
  end.

Definition sys_wait (pid : Z) : M outcome := with_current (fun cur => wait_loop cur pid).

Definition sys_kill (pid : Z) : M outcome :=
  p ← gets (fun k => find_pid (tab k) pid);
  match p with
  | None => mret (Done FAIL)
  | Some i => on_table (fun t => process_exit t (Some i));; mret (Done 0)
  end.

(** ** write_file *)

Definition sys_write_file (fd user_buf len : Z) : M outcome :=
  if fd <? FD_BASE then mret (Done FAIL)
  else
    with_slot (fun slot =>
      let idx := fd - FD_BASE in
      if FD_PER_PROC <=? idx then mret (Done FAIL)
      else
        f ← get_fd slot idx;
        if negb (f_used f) || negb (bool_decide (f_backend f = VFS_FAT16)) then mret (Done FAIL)
        else if len =? 0 then r ← on_vfs (vfs_write_all f None 0); mret (Done (u32 r))
        else if SYS_WRITE_FILE_MAX_LEN <? len then mret (Done FAIL)
        else
          with_current (fun cur =>
            kbuf ← k_kmalloc len;
            if kbuf =? 0 then mret (Done FAIL)
            else
              r ← from_user cur user_buf len;
              let '(rc, bytes) := r in
              on_mem (modify (fun m => memcpy8 m kbuf bytes));;
              if rc <? 0 then k_kfree kbuf;; mret (Done FAIL)
              else
                r ← on_vfs (vfs_write_all f (Some bytes) len);
                k_kfree kbuf;;
                mret (Done (if r <? 0 then FAIL else 0)))).

(** ** Dispatch *)

Definition resume (c : kont) : M outcome :=
  match c with
  | KWrite cur slot idx buf len total => write_loop cur slot idx buf len total
  | KWritePipe cur slot idx buf len total pipe chunk written => write_pipe_loop cur slot idx buf len total pipe chunk written
  | KRead cur slot idx buf len total => read_loop cur slot idx buf len total
  | KReadPipe cur slot idx buf len total pipe want => read_pipe_loop cur slot idx buf len total pipe want
  | KKeys cur buf len n => key_loop cur buf len n
  | KRaw => raw_loop
  | KWoken cur pid => on_table (fun t => upd t cur (set_waiting_for_pid 0));; wait_loop cur pid
  | KList cluster idx any => list_loop cluster idx any
  | KReturn r => mret (Done r)
  | KHalt => mret (Pause KHalt)
  end.

Definition say (l : list console_call) : M outcome := print l;; mret (Done 0).

Definition unknown_syscall (num : Z) : M outcome :=
  print [console_set_color CONSOLE_YELLOW CONSOLE_BLACK; console_puts_msg MSG_SYS_UNKNOWN_SYSCALL;
         console_put_dec num; console_puts NL; light_grey];;
  mret (Done FAIL).

Definition syscall_handler (num arg1 arg2 arg3 : Z) : M outcome :=
  if num =? 1 then sys_write arg1 arg2 arg3
  else if num =? 2 then sys_exit arg1
  else if num =? 3 then sys_yield
  else if num =? 4 then sys_getpid
  else if num =? 5 then sys_read arg1 arg2 arg3
  else if num =? 6 then sys_uptime
  else if num =? 7 then sys_meminfo arg1 arg2 arg3
  else if num =? 8 then sys_ps
  else if num =? 9 then sys_kill arg1
  else if num =? 10 then sys_exec arg1 arg2
  else if num =? 11 then sys_open arg1
  else if num =? 12 then sys_close arg1
  else if num =? 13 then raw_loop
  else if num =? 14 then say [console_set_cursor (u8 arg1) (u8 arg2)]
  else if num =? 15 then say [console_clear]
  else if num =? 16 then sys_getarg arg1 arg2
  else if num =? 17 then modify (fun k => put_kbd (keyboard_flush (k_kbd k)) k);; mret (Done 0)
  else if num =? 18 then say [console_set_color arg1 arg2]
  else if num =? 19 then sys_set_raw_mode arg1
  else if num =? 20 then sys_wait arg1
  else if num =? 21 then sys_readdir arg1
  else if num =? 22 then sys_write_file arg1 arg2 arg3
  else if num =? 23 then sys_create arg1
  else if num =? 24 then
    devs ← gets k_pci; print (pci_print_list devs);; mret (Done (pci_device_count devs))
  else if num =? 25 then sys_fork
  else if num =? 26 then sys_chdir arg1
  else if num =? 27 then sys_mkdir arg1
  else if num =? 28 then sys_pipe arg1
  else if num =? 29 then sys_exec_pipe arg1 arg2 arg3
  else if num =? 30 then sys_getcwd arg1 arg2
  else if num =? 31 then sys_reboot
  else if num =? 32 then sys_shutdown
  else if num =? 33 then
    devs ← gets k_pci; mret (Done (if pci_find_device devs (u16 arg1) (u16 arg2) then 1 else 0))
  else unknown_syscall num.
End syscalls.
