(* ===== verification/FdTable.v ===== *)
(** * Descriptors and pipe references

    Who holds the ends of a pipe: the entries of the descriptor table.  The
    system calls keep the reference counts of every pipe equal to the number
    of descriptors that name its ends, which is what makes end-of-file and
    broken pipes visible to the other side. *)

From Stdlib Require Import ZArith Lia ZifyBool.
From stdpp Require Import base tactics numbers list option relations gmap.
From S2P Require Import Prelude Pmm Mem Vmm FatName Fat FatDir FatFile Heap Ramfs Keyboard BootCfg Console Pci.
From S2P Require Import Process Scheduler Pipe Fork UserMem Vfs Elf Kernel Syscall.
Local Open Scope Z_scope.

(** ** Table operations that free no slot *)

Record tquiet (t t' : ptable) : Prop := {
  tq_len : length (process_table t') = length (process_table t);
  tq_cur : current_process t' = current_process t;
  tq_free : forall s, 0 <= s < 16 -> state_of t' s = PROCESS_UNUSED -> state_of t s = PROCESS_UNUSED
}.

Lemma tquiet_refl t : tquiet t t.
Proof. by split. Qed.

Lemma tquiet_trans t1 t2 t3 : tquiet t1 t2 -> tquiet t2 t3 -> tquiet t1 t3.
Proof. intros [] []. split; [congruence|congruence|auto]. Qed.

Lemma slot_upd_any t i f s :
  slot (upd t i f) s = slot t s \/ (slot (upd t i f) s = f (slot t i) /\ slot t i = slot t s).
Proof.
  unfold upd, slot, zget, zset. cbn [process_table].
  destruct (decide (Z.to_nat i = Z.to_nat s)) as [E|E].
  - destruct (decide (Z.to_nat s < length (process_table t))%nat).
    + right. rewrite E. split; [by apply list_lookup_total_insert_eq|done].
    + left. rewrite list_insert_ge by lia. done.
  - left. by rewrite list_lookup_total_insert_ne.
Qed.

Lemma tquiet_upd t i f :
  (p_state (f (slot t i)) = PROCESS_UNUSED -> p_state (slot t i) = PROCESS_UNUSED) -> tquiet t (upd t i f).
Proof.
  intros Hf. split; [apply zset_length|done|]. intros s _. unfold state_of.
  destruct (slot_upd_any t i f s) as [->|[-> <-]]; auto.
Qed.

Lemma tquiet_state t i st : st <> PROCESS_UNUSED -> tquiet t (upd t i (set_state st)).
Proof. intros Hst. apply tquiet_upd. cbn. congruence. Qed.

Lemma tquiet_for_slots c f n : (forall p, p_state (f p) = PROCESS_UNUSED -> p_state p = PROCESS_UNUSED) ->
  forall t i, tquiet t (for_slots c f t i n).
Proof.
  intros Hf. induction n as [|n IH]; intros t i; [apply tquiet_refl|]. unfold for_slots; fold for_slots.
  eapply tquiet_trans; [|apply IH]. destruct (c _); [by apply tquiet_upd, Hf|apply tquiet_refl].
Qed.

Lemma tquiet_ready t p : tquiet t (process_make_ready t p).
Proof.
  unfold process_make_ready. destruct p as [i|]; [|apply tquiet_refl].
  destruct (state_eqb _ _); [by apply tquiet_state|apply tquiet_refl].
Qed.

Lemma tquiet_waiters t pid : tquiet t (wake_waiters t pid).
Proof. unfold wake_waiters. by apply tquiet_for_slots. Qed.

Lemma tquiet_sleep t p now n : tquiet t (process_sleep t p now n).
Proof.
  unfold process_sleep. destruct p as [i|]; [|apply tquiet_refl]. destruct (state_eqb _ _); [apply tquiet_refl|].
  eapply tquiet_trans; [|by apply tquiet_state]. by apply tquiet_upd.
Qed.

Lemma tquiet_yield s : tquiet (s_tab s) (s_tab (scheduler_yield s)).
Proof.
  unfold scheduler_yield. destruct (current_process _); [|apply tquiet_refl].
  destruct (state_eqb _ _); [by apply tquiet_state|apply tquiet_refl].
Qed.

Lemma tquiet_sleep_current s n : tquiet (s_tab s) (s_tab (scheduler_sleep_current s n)).
Proof.
  unfold scheduler_sleep_current. destruct (current_process _); [|apply tquiet_refl].
  destruct (n =? 0); [apply tquiet_yield|apply tquiet_sleep].
Qed.

(** Claiming a free slot. *)
Lemma tquiet_alloc_pid t : tquiet t (alloc_pid t).1.
Proof. by split. Qed.

Lemma tquiet_spawn_claim t t' r : spawn_claim t = (t', r) -> tquiet t t'.
Proof.
  unfold spawn_claim. destruct (find_from _ 0 16) as [i|]; [|intros [= <- <-]; apply tquiet_refl].
  cbn [alloc_pid]. intros [= <- <-].
  eapply tquiet_trans; [by apply (tquiet_state t i PROCESS_BLOCKED)|].
  eapply tquiet_trans; [apply tquiet_alloc_pid|]. eapply tquiet_trans; by apply tquiet_upd.
Qed.

Lemma tquiet_spawn stacks t m name e u c w b boot t' m' r :
  process_spawn_user stacks t m name e u c w b boot = (t', m', r) -> tquiet t t'.
Proof.
  unfold process_spawn_user. destruct (boot =? 0); [intros [= <- <- <-]; apply tquiet_refl|].
  destruct (spawn_claim t) as [t1 [i|]] eqn:E; [|intros [= <- <- <-]; by eapply tquiet_spawn_claim].
  apply tquiet_spawn_claim in E. unfold spawn_fill. destruct (build_initial_stack _ _ _ _) as [m1 esp].
  intros [= <- <- <-]. eapply tquiet_trans; [exact E|].
  destruct b; [by apply tquiet_upd|]. eapply tquiet_trans; [|by apply tquiet_state]. by apply tquiet_upd.
Qed.

(** [fork_release] gives back a slot that was free before the claim. *)
Lemma tquiet_fork_claim t t1 i : fork_claim t = (t1, Some i) ->
  tquiet t t1 /\ 0 <= i < 16 /\ state_of t i = PROCESS_UNUSED.
Proof.
  unfold fork_claim. destruct (find_from _ 0 16) as [j|] eqn:E; [|done].
  apply find_from_Some in E as (Hr & Hs & _). apply state_eqb_eq in Hs.
  cbn [alloc_pid]. intros [= <- <-]. split; [|split; [lia|done]].
  eapply tquiet_trans; [apply (tquiet_alloc_pid t)|].
  eapply tquiet_trans; [by apply tquiet_upd|by apply tquiet_state].
Qed.

Lemma tquiet_release t t1 i : tquiet t t1 -> 0 <= i < 16 -> state_of t i = PROCESS_UNUSED -> tquiet t (fork_release t1 i).
Proof.
  intros [Hl Hc Hf] Hi Hu. unfold fork_release. split.
  - unfold upd. cbn [process_table]. by rewrite !zset_length.
  - done.
  - intros s Hs. destruct (Z.eq_dec s i) as [->|Hne]; [done|]. unfold state_of, upd, slot. cbn [process_table].
    rewrite !zget_set_ne by lia. by apply Hf.
Qed.

(** The table of a result, without computing the rest of it. *)
Lemma result_table {A B C E} (t t' : A) (p p' : B) (m m' : C) (r r' : E) : (t, p, m, r) = (t', p', m', r') -> t = t'.
Proof. by intros [= -> _ _ _]. Qed.

Lemma result_slot {A B C E} (t t' : A) (p p' : B) (m m' : C) (r r' : E) : (t, p, m, r) = (t', p', m', r') -> r = r'.
Proof. by intros [= _ _ _ ->]. Qed.

Lemma tquiet_fork stacks isr t (p : pmm) m par frame t' p' m' r :
  process_fork stacks isr t p m par frame = (t', p', m', r) -> tquiet t t'.
Proof.
  unfold process_fork. destruct par as [par|]; [|intros E; apply result_table in E; subst; apply tquiet_refl].
  destruct frame as [frame|]; [|intros E; apply result_table in E; subst; apply tquiet_refl].
  destruct (fork_claim t) as [t1 [i|]] eqn:E.
  2:{ unfold fork_claim in E. destruct (find_from _ 0 16); [done|]. injection E as <-.
      intros E; apply result_table in E; subst; apply tquiet_refl. }
  apply tquiet_fork_claim in E as (Hq & Hi & Hu).
  assert (Hq2 : tquiet t (upd t1 i (fun child => fork_fields stacks (slot t1 par) child i))).
  { eapply tquiet_trans; [exact Hq|]. by apply tquiet_upd. }
  destruct (vmm_create_directory p m) as [[p1 m1] cr3]. destruct (cr3 =? 0).
  { intros E; apply result_table in E; subst. by apply tquiet_release. }
  destruct (fork_tables _ _ _ _ _ _) as [[p2 m2] failed]. destruct failed.
  { intros E; apply result_table in E; subst. by apply tquiet_release. }
  destruct (fork_stack _ _ _ _) as [m3 esp]. intros E; apply result_table in E; subst.
  eapply tquiet_trans; [exact Hq2|]. eapply tquiet_trans; [|by apply tquiet_state].
  eapply tquiet_trans; by apply tquiet_upd.
Qed.

#[export] Hint Resolve tquiet_refl tquiet_ready tquiet_waiters tquiet_sleep tquiet_yield tquiet_sleep_current : nullos.

(** ** Relations that computations respect *)

Section respects.
Context {St : Type} (R : relation St) `{!PreOrder R}.

(** Every step of [m] relates its initial and final states by [R]. *)
Definition respects {A} (m : cM St A) : Prop := forall s a s', m s = Some (a, s') -> R s s'.

Lemma respects_ret {A} (a : A) : respects (mret a).
Proof. intros s a' s' [= <- <-]. reflexivity. Qed.

Lemma respects_undefined {A} : respects (@undefined St A).
Proof. by intros s a s'. Qed.

Lemma respects_gets {A} (f : St -> A) : respects (gets f).
Proof. intros s a' s' [= <- <-]. reflexivity. Qed.

Lemma respects_modify (f : St -> St) : (forall s, R s (f s)) -> respects (modify f).
Proof. intros Hf s a s' [= <- <-]. apply Hf. Qed.

Lemma respects_bind {A B} (m : cM St A) (f : A -> cM St B) :
  respects m -> (forall a, respects (f a)) -> respects (m ≫= f).
Proof.
  intros Hm Hf s b s'. unfold mbind, cM_bind. destruct (m s) as [[a s1]|] eqn:E; [|done].
  intros E'. etrans; [by eapply Hm|by eapply Hf].
Qed.

Lemma respects_if {A} (b : bool) (m n : cM St A) : respects m -> respects n -> respects (if b then m else n).
Proof. by destruct b. Qed.

Lemma respects_decide {A P} `{!Decision P} (m n : cM St A) :
  respects m -> respects n -> respects (if decide P then m else n).
Proof. by destruct (decide P). Qed.

Lemma respects_option {A B} (o : option A) (f : A -> cM St B) (n : cM St B) :
  (forall a, respects (f a)) -> respects n -> respects (match o with Some a => f a | None => n end).
Proof. destruct o; auto. Qed.

Lemma respects_pair {A B C} (x : A * B) (f : A -> B -> cM St C) :
  (forall a b, respects (f a b)) -> respects (let '(a, b) := x in f a b).
Proof. destruct x; auto. Qed.
End respects.

Lemma respects_zoom {S T A} (get : T -> S) (put : S -> T -> T) (R : relation S) (R' : relation T) (m : cM S A) :
  (forall t s, R (get t) s -> R' t (put s t)) -> respects R m -> respects R' (zoom get put m).
Proof.
  intros Hp Hm t a t'. unfold zoom. destruct (m (get t)) as [[x s]|] eqn:E; [|done]. intros [= <- <-].
  eapply Hp, Hm, E.
Qed.

(** Work through the structure of a computation. *)
Ltac respect_step :=
  first
    [ apply respects_ret | apply respects_undefined | apply respects_gets
    | apply respects_bind; [apply _| |intros] | apply respects_if | apply respects_decide
    | apply respects_option; [intros|] | apply respects_pair; intros ].

(** ** Reference counts *)

Definition pcore (p : pipe) : bool * Z * Z := (in_use p, read_refs p, write_refs p).
Definition core (kp : kpipes) : list (bool * Z * Z) := pcore <$> pipe_table kp.

Lemma core_set kp i p t : pcore p = pcore (get_pipe kp i) -> core (set_tab (set_pipe kp i p) t) = core kp.
Proof.
  intros E. unfold core, set_tab, set_pipe, get_pipe, zset, zget in *. cbn [pipe_table]. rewrite list_fmap_insert.
  destruct (decide (Z.to_nat i < length (pipe_table kp))%nat).
  - apply list_insert_id. rewrite list_lookup_fmap, list_lookup_lookup_total_lt by done. cbn. by rewrite E.
  - apply list_insert_ge. rewrite length_fmap. lia.
Qed.

Lemma read_bytes_core n : forall p len out, pcore (read_bytes n p len out).1 = pcore p.
Proof.
  induction n as [|n IH]; intros p len out; [done|]. unfold read_bytes; fold read_bytes.
  destruct (_ && _); [|done]. by rewrite IH.
Qed.

Lemma write_bytes_core l : forall p, pcore (write_bytes p l) = pcore p.
Proof. induction l as [|b l IH]; intros p; [done|]. cbn [write_bytes]. by rewrite IH. Qed.

Lemma read_turn_core p t len p' t' r : read_turn p t len = (p', t', r) -> pcore p' = pcore p /\ tquiet t t'.
Proof.
  unfold read_turn. destruct (0 <? count p).
  - destruct (read_bytes 512 p len []) as [p1 out] eqn:E. intros [= <- <- <-].
    pose proof (read_bytes_core 512 p len []) as Hc. rewrite E in Hc. split; [exact Hc|apply tquiet_ready].
  - destruct (write_refs p =? 0); [intros [= <- <- <-]; auto with nullos|].
    destruct (current_process t); intros [= <- <- <-]; [|auto with nullos]. split; [done|by apply tquiet_state].
Qed.

Lemma write_turn_core p t src w p' t' r : write_turn p t src w = (p', t', r) -> pcore p' = pcore p /\ tquiet t t'.
Proof.
  unfold write_turn. destruct (read_refs p =? 0); [intros [= <- <- <-]; auto with nullos|].
  destruct (0 <? _).
  - intros [= <- <- <-]. split; [|apply tquiet_ready].
    match goal with |- pcore (clear_read_waiter ?q) = _ => change (pcore q = pcore p) end. apply write_bytes_core.
  - destruct (current_process t); intros [= <- <- <-]; [|auto with nullos]. split; [done|by apply tquiet_state].
Qed.

Definition pquiet (kp kp' : kpipes) : Prop := core kp' = core kp /\ tquiet (k_tab kp) (k_tab kp').

#[export] Instance pquiet_preorder : PreOrder pquiet.
Proof.
  split; [intros k; split; auto with nullos|]. intros a b c [E1 T1] [E2 T2]. split; [congruence|by eapply tquiet_trans].
Qed.

Lemma pquiet_read kp i hb len kp' r : pipe_read kp i hb len = (kp', r) -> pquiet kp kp'.
Proof.
  unfold pipe_read. destruct (_ || _); [by intros [= <- <-]|].
  destruct (read_turn _ _ _) as [[p t] r'] eqn:E. intros [= <- <-]. apply read_turn_core in E as [Ec Et].
  split; [by apply core_set|done].
Qed.

Lemma pquiet_write kp i src w kp' r : pipe_write kp i src w = (kp', r) -> pquiet kp kp'.
Proof.
  unfold pipe_write. destruct src as [src|]; [|by intros [= <- <-]]. destruct (PIPE_MAX <=? i); [by intros [= <- <-]|].
  destruct (write_turn _ _ _ _) as [[p t] r'] eqn:E. intros [= <- <-]. apply write_turn_core in E as [Ec Et].
  split; [by apply core_set|done].
Qed.

(** ** File system operations *)

Section vfs_quiet.
Context {D : Type} `{BlockDevice D}.

Definition vquiet (v v' : vfs D) : Prop := pquiet (v_pipes v) (v_pipes v').

#[export] Instance vquiet_preorder : PreOrder vquiet.
Proof. split; [by intros v|]. intros a b c. unfold vquiet. apply transitivity. Qed.

Lemma on_fat_quiet {A} (m : cM (volume D) A) : respects vquiet (on_fat m).
Proof. intros v a v'. unfold on_fat, zoom. destruct (m _) as [[x s]|]; [|done]. by intros [= <- <-]. Qed.

Lemma on_ram_quiet {A} (m : cM ramfs A) : respects vquiet (@on_ram D A m).
Proof. intros v a v'. unfold on_ram, zoom. destruct (m _) as [[x s]|]; [|done]. by intros [= <- <-]. Qed.

Ltac vfs_steps := repeat first [apply on_fat_quiet | apply on_ram_quiet | respect_step; try apply _].

Lemma vfs_open_quiet cwd name f : respects vquiet (@vfs_open D _ cwd name f).
Proof.
  unfold vfs_open. destruct name as [path|]; [|vfs_steps]. apply respects_bind; [apply _|vfs_steps|].
  intros [[off sz]|]; [vfs_steps|]. apply respects_bind; [apply _|vfs_steps|]. intros ready. apply respects_if; [vfs_steps|].
  apply respects_bind; [apply _|vfs_steps|]. intros [[[c s] p]| |]; vfs_steps.
Qed.

Lemma vfs_create_quiet cwd name f : respects vquiet (@vfs_create D _ cwd name f).
Proof.
  unfold vfs_create. destruct name as [path|]; [|vfs_steps]. apply respects_bind; [apply _|apply vfs_open_quiet|].
  intros [rc f1]. apply respects_if; [vfs_steps|]. apply respects_bind; [apply _|vfs_steps|]. intros ready.
  apply respects_if; [vfs_steps|]. apply respects_bind; [apply _|vfs_steps|]. intros [parent|]; [|vfs_steps].
  apply respects_bind; [apply _|vfs_steps|]. intros [[[c s] p]| |]; vfs_steps.
Qed.

Lemma vfs_read_quiet f hb len : respects vquiet (@vfs_read D _ f hb len).
Proof.
  unfold vfs_read. apply respects_if; [vfs_steps|]. destruct (f_backend f); try solve [vfs_steps].
  intros v [t f'] v'. unfold mbind, cM_bind, gets. destruct (pipe_read _ _ _ _) as [kp t'] eqn:E. intros [= <- <- <-].
  by eapply pquiet_read.
Qed.

Lemma vfs_write_quiet f src len w : respects vquiet (@vfs_write D _ f src len w).
Proof.
  unfold vfs_write. apply respects_if; [vfs_steps|]. destruct (f_backend f); try solve [vfs_steps].
  intros v [t f'] v'. unfold mbind, cM_bind, gets. destruct (pipe_write _ _ _ _) as [kp t'] eqn:E. intros [= <- <- <-].
    by eapply pquiet_write.
Qed.

Lemma vfs_write_all_quiet f src len : respects vquiet (@vfs_write_all D _ f src len).
Proof. unfold vfs_write_all. vfs_steps. Qed.

(** ** Which end a descriptor holds *)

Definition is_end (wr : bool) (i : Z) (f : vfs_fd) : bool :=
  is_pipe_end (if wr then VFS_PIPE_WRITE else VFS_PIPE_READ) i f.

Definition same_end (f f' : vfs_fd) : Prop :=
  f_used f' = f_used f /\ f_backend f' = f_backend f /\ (forall wr i, is_end wr i f' = is_end wr i f).

Lemma same_end_refl f : same_end f f.
Proof. by split. Qed.

Lemma vfs_read_fd f hb len v t f' v' : @vfs_read D _ f hb len v = Some ((t, f'), v') -> same_end f f'.
Proof.
  unfold vfs_read. destruct (_ || _); [intros [= <- <- <-]; apply same_end_refl|].
  destruct (f_backend f) eqn:Eb; try (intros [= <- <- <-]; apply same_end_refl).
  - unfold mbind, cM_bind, gets. destruct (ramfs_base _) as [img|]; [|intros [= <- <- <-]; apply same_end_refl].
    destruct (_ =? 0); [intros [= <- <- <-]; apply same_end_refl|]. destruct (ram_bytes _ _ _ _) as [[o v1]|]; [|done].
    by intros [= <- <- <-].
  - unfold mbind, cM_bind. destruct (on_fat _ _) as [[[n o] v1]|]; [|done]. intros [= <- <- <-]. by destruct (0 <? n).
  - unfold mbind, cM_bind, gets. destruct (pipe_read _ _ _ _). intros [= <- <- <-]. apply same_end_refl.
Qed.

Lemma vfs_write_fd f src len w v t f' v' : @vfs_write D _ f src len w v = Some ((t, f'), v') -> same_end f f'.
Proof.
  unfold vfs_write. destruct (negb _); [intros [= <- <- <-]; apply same_end_refl|].
  destruct (f_backend f) eqn:Eb; try (intros [= <- <- <-]; apply same_end_refl).
  - destruct (len =? 0); [intros [= <- <- <-]; apply same_end_refl|].
    unfold mbind, cM_bind. destruct (on_fat _ _) as [[[[n a] b] v1]|]; [|done].
    destruct (n <? 0); intros [= <- <- <-]; [apply same_end_refl|]. split_and!; [done..|]. intros wr i.
    unfold is_end, is_pipe_end. rewrite Eb. cbn. by destruct wr, (f_used f).
  - unfold mbind, cM_bind, gets. destruct (pipe_write _ _ _ _). intros [= <- <- <-]. apply same_end_refl.
Qed.

(** What opening a free descriptor leaves in it. *)
Definition no_end (f : vfs_fd) : Prop := forall wr i, is_end wr i f = false.

Lemma no_end_unused f : f_used f = false -> no_end f.
Proof. intros E wr i. unfold is_end, is_pipe_end. by rewrite E. Qed.

Lemma no_end_file f : f_backend f = VFS_RAMFS \/ f_backend f = VFS_FAT16 -> no_end f.
Proof. intros [E|E] wr i; unfold is_end, is_pipe_end; rewrite E; by destruct wr, (f_used f). Qed.

(** Opening changes the descriptor only to one of a file. *)
Definition opens (f f' : vfs_fd) : Prop := f' = f \/ no_end f'.

Lemma vfs_open_fd cwd name f v rc f' v' : @vfs_open D _ cwd name f v = Some ((rc, f'), v') -> opens f f'.
Proof.
  unfold vfs_open. destruct name as [path|]; [|intros [= <- <- <-]; by left].
  unfold mbind, cM_bind. destruct (on_ram _ _) as [[[[off sz]|] v1]|]; [|..|done].
  { intros [= <- <- <-]. right. apply no_end_file. by left. }
  destruct (on_fat _ _) as [[ready v2]|]; [|done]. destruct (negb ready); [intros [= <- <- <-]; by left|].
  destruct (on_fat _ _) as [[r v3]|]; [|done].
  destruct r as [[[c s] p]| |]; intros [= <- <- <-]; try by left. right. apply no_end_file. by right.
Qed.

Lemma vfs_create_fd cwd name f v rc f' v' : @vfs_create D _ cwd name f v = Some ((rc, f'), v') -> opens f f'.
Proof.
  unfold vfs_create. destruct name as [path|]; [|intros [= <- <- <-]; by left].
  unfold mbind, cM_bind. destruct (vfs_open _ _ _ _) as [[[rc1 f1] v1]|] eqn:E1; [|done]. apply vfs_open_fd in E1.
  destruct (rc1 =? 0); [by intros [= <- <- <-]|].
  destruct (on_fat _ _) as [[ready v2]|]; [|done]. destruct (negb ready); [by intros [= <- <- <-]|].
  destruct (on_fat _ _) as [[[parent|] v3]|]; [|by intros [= <- <- <-]|done].
  destruct (on_fat _ _) as [[r v4]|]; [|done].
  destruct r as [[[c s] p]| |]; intros [= <- <- <-]; try done. right. apply no_end_file. by right.
Qed.
End vfs_quiet.

(** ** Kernel operations that leave descriptors and references alone *)

Section quiet.
Context {D : Type} `{BlockDevice D} `{Machine}.
Local Notation K := (kernel D).
Local Notation M := (cM K).
Implicit Types k : K.

Definition quiet k k' : Prop := k_fds k' = k_fds k /\ vquiet (k_vfs k) (k_vfs k').

#[export] Instance quiet_preorder : PreOrder quiet.
Proof.
  split; [intros k; by split|]. intros a b c [E1 V1] [E2 V2]. split; [congruence|by etrans].
Qed.

Lemma quiet_same k k' : k_fds k' = k_fds k -> k_vfs k' = k_vfs k -> quiet k k'.
Proof. intros E1 E2. split; [done|by rewrite E2]. Qed.

Lemma on_mem_quiet {A} (m : cM mem A) : respects quiet (@on_mem D A m).
Proof. intros k a k'. unfold on_mem, zoom. destruct (m _) as [[x s]|]; [|done]. by intros [= <- <-]. Qed.

Lemma on_pages_quiet {A} (m : cM (pmm * mem) A) : respects quiet (@on_pages D A m).
Proof. intros k a k'. unfold on_pages, zoom. destruct (m _) as [[x s]|]; [|done]. by intros [= <- <-]. Qed.

Lemma on_vfs_quiet {A} (m : cM (vfs D) A) : respects vquiet m -> respects quiet (on_vfs m).
Proof. apply respects_zoom. intros k v Hq. by split. Qed.

Lemma on_cfg_quiet {A} (m : cM (cfgst D) A) : respects quiet (on_cfg m).
Proof. intros k a k'. unfold on_cfg, zoom. destruct (m _) as [[x s]|]; [|done]. by intros [= <- <-]. Qed.

Lemma on_table_quiet (f : ptable -> ptable) : (forall t, tquiet t (f t)) -> respects quiet (@on_table D f).
Proof. intros Hf. apply respects_modify. intros k. split; [done|]. by split. Qed.

Lemma on_sched_quiet (f : sched -> sched) : (forall s, tquiet (s_tab s) (s_tab (f s))) -> respects quiet (@on_sched D f).
Proof. intros Hf. apply respects_modify. intros k. split; [done|]. split; [done|]. apply (Hf (k_sched k)). Qed.

Lemma on_kbd_quiet {A} (f : kbd -> A * kbd) : respects quiet (@on_kbd D A f).
Proof. intros k a k'. unfold on_kbd. destruct (f _). by intros [= <- <-]. Qed.

Lemma modify_quiet (f : K -> K) : (forall k, k_fds (f k) = k_fds k /\ k_vfs (f k) = k_vfs k) -> respects quiet (modify f).
Proof. intros Hf. apply respects_modify. intros k. destruct (Hf k). by apply quiet_same. Qed.

Lemma print_quiet l : respects quiet (@print D l).
Proof. by apply modify_quiet. Qed.

Lemma kmalloc_quiet n : respects quiet (@k_kmalloc D n).
Proof. intros k a k'. unfold k_kmalloc. destruct (kmalloc _ _) as [[h p]|]; [|done]. by intros [= <- <-]. Qed.

Lemma kfree_quiet p : respects quiet (@k_kfree D p).
Proof. by apply modify_quiet. Qed.

Lemma spawn_quiet name e u c w b : respects quiet (@exec_spawn D _ name e u c w b).
Proof.
  intros k a k'. unfold exec_spawn, scheduler_spawn_user. destruct (negb _); [by intros [= <- <-]|].
  destruct (process_spawn_user _ _ _ _ _ _ _ _ _ _) as [[t m] r] eqn:E. intros [= <- <-].
  apply tquiet_spawn in E. split; [done|]. by split.
Qed.

Definition file_backend (f : vfs_fd) : Prop := f_backend f = VFS_RAMFS \/ f_backend f = VFS_FAT16.

Lemma vfs_close_file f : file_backend f -> respects vquiet (@vfs_close D f).
Proof.
  intros E v a v'. unfold vfs_close, mbind, cM_bind. destruct (f_used f); [|by intros [= <- <-]].
  destruct E as [E|E]; rewrite E; by intros [= <- <-].
Qed.
End quiet.

#[export] Hint Resolve on_mem_quiet on_pages_quiet on_cfg_quiet on_kbd_quiet print_quiet kmalloc_quiet kfree_quiet
  spawn_quiet on_fat_quiet on_ram_quiet vfs_open_quiet vfs_create_quiet vfs_read_quiet vfs_write_quiet
  vfs_write_all_quiet : nullos.

(** Decompose a handler into quiet parts. *)
Ltac quiet_step :=
  first
    [ solve [auto with nullos]
    | apply on_vfs_quiet
    | apply on_table_quiet; intros; solve [auto with nullos | by apply tquiet_upd]
    | apply on_sched_quiet; intros; solve [auto with nullos]
    | apply modify_quiet; done
    | respect_step; try apply _ ].
Ltac quiet := repeat quiet_step.

(** ** Loading a program *)

Section exec_quiet.
Context {D : Type} `{BlockDevice D} `{Machine}.

Lemma vfs_open_file cwd name f (v : vfs D) rc f' v' :
  vfs_open cwd name f v = Some ((rc, f'), v') -> (rc <? 0) = false -> file_backend f'.
Proof.
  unfold vfs_open. destruct name as [path|]; [|by intros [= <- <- <-]].
  unfold mbind, cM_bind. destruct (on_ram _ _) as [[[[off sz]|] v1]|]; [|..|done].
  { intros [= <- <- <-]. by left. }
  destruct (on_fat _ _) as [[ready v2]|]; [|done]. destruct (negb ready); [by intros [= <- <- <-]|].
  destruct (on_fat _ _) as [[r v3]|]; [|done]. destruct r as [[[c s] p]| |]; intros [= <- <- <-]; try done. by right.
Qed.

Lemma exec_read_quiet n : forall file dst got size, file_backend file ->
  respects quiet (exec_read (D := D) n file dst got size) /\
  forall k f' k', exec_read n file dst got size k = Some (Some f', k') -> file_backend f'.
Proof.
  induction n as [|n IH]; intros file dst got size Hf; (cbn [exec_read]; destruct (size <=? got);
    [split; [apply respects_ret, _|by intros k f' k' [= <- <-]]|]).
  { split; [apply respects_undefined|done]. }
  unfold respects. split; intros k a k'; unfold mbind, cM_bind;
    (destruct (on_vfs _ k) as [[[t file'] k1]|] eqn:E; [|done]);
    unfold on_vfs, zoom in E; (destruct (vfs_read _ _ _ _) as [[[t1 f1] v1]|] eqn:Er; [|done]); injection E as <- <- <-;
    pose proof (vfs_read_quiet _ _ _ _ _ _ Er) as Hq; apply vfs_read_fd in Er as (_ & Eb & _);
    (destruct t1 as [[r out]| |]; [|done..]); (destruct (on_mem _ _) as [[u k2]|] eqn:Em; [|done]);
    apply on_mem_quiet in Em.
  - destruct (r <=? 0).
    + intros [= <- <-]. etrans; [|exact Em]. by split.
    + intros E2. assert (Hf1 : file_backend f1) by (unfold file_backend in *; by rewrite Eb).
      apply (proj1 (IH _ _ _ _ Hf1)) in E2. etrans; [|exact E2]. etrans; [|exact Em]. by split.
  - destruct (r <=? 0); [done|]. intros E2. eapply IH; [|exact E2]. unfold file_backend in *. by rewrite Eb.
Qed.

Lemma exec_fetch_quiet name file : file_backend file -> respects quiet (exec_fetch (D := D) name file).
Proof.
  intros Hf. pose proof (vfs_close_file (D := D) file Hf) as Hc. unfold exec_fetch, exec_fail.
  apply respects_decide; [apply respects_bind; [apply _|apply respects_gets, _|]; intros [img|]; quiet; done|].
  apply respects_if; [quiet; done|]. apply respects_bind; [apply _|quiet|]. intros dst. apply respects_if; [quiet; done|].
  intros k a k'. unfold mbind at 1, cM_bind at 1. destruct (exec_read _ _ _ _ _ _) as [[r k1]|] eqn:E; [|done].
  destruct (exec_read_quiet (Z.to_nat (f_size file)) file dst 0 (f_size file) Hf) as [Hq Hb].
  intros E2. etrans; [by eapply Hq|]. revert E2. destruct r as [f'|].
  - apply Hb in E. pose proof (vfs_close_file (D := D) f' E) as Hc'.
    match goal with |- ?m k1 = _ -> _ => assert (Hm : respects quiet m) by (quiet; done) end. apply Hm.
  - match goal with |- ?m k1 = _ -> _ => assert (Hm : respects quiet m) by (quiet; done) end. apply Hm.
Qed.

Lemma exec_stack_quiet n : forall cr3 i, respects quiet (exec_stack (D := D) n cr3 i).
Proof.
  induction n as [|n IH]; intros cr3 i; cbn [exec_stack]; unfold exec_error; quiet.
Qed.

Lemma exec_quiet name cwd b : respects quiet (exec (D := D) name cwd b).
Proof.
  intros k a k'. unfold exec. unfold mbind at 1, cM_bind at 1.
  destruct (on_vfs _ k) as [[[rc file] k1]|] eqn:E; [|done]. intros E2.
  etrans; [eapply on_vfs_quiet; [apply vfs_open_quiet|exact E]|].
  unfold on_vfs, zoom in E. destruct (vfs_open _ _ _ _) as [[[rc1 f1] v1]|] eqn:Eo; [|done]. injection E as <- <- <-.
  destruct (rc1 <? 0) eqn:Er; revert E2; unfold exec_fail, exec_error.
  { match goal with |- ?m ?s = _ -> _ => assert (Hm : respects quiet m) by quiet end. apply Hm. }
  pose proof (exec_fetch_quiet name f1 (vfs_open_file _ _ _ _ _ _ _ Eo Er)) as Hq.
  match goal with |- ?m ?s = _ -> _ => assert (Hm : respects quiet m) end; [|apply Hm].
  apply respects_bind; [apply _|done|]. intros [[img dst]|]; [|quiet].
  apply respects_bind; [apply _|quiet|]. intros cr3. apply respects_if; [quiet|].
  apply respects_bind; [apply _|quiet|]. intros loaded. apply respects_bind; [apply _|quiet|]. intros _.
  destruct loaded as [entry|]; [|quiet]. apply respects_bind; [apply _|apply exec_stack_quiet|]. intros ok. quiet.
Qed.
End exec_quiet.

#[export] Hint Resolve exec_quiet : nullos.
