(* ===== verification/FdRefs.v ===== *)
(** * Pipe reference counts match the descriptor table

    The invariant that ties the pool of [pipe.c] to the descriptor table of
    [syscall.c], and its preservation by every system call except the forced
    end of another process, which leaves its descriptors behind. *)

From Stdlib Require Import ZArith Lia ZifyBool.
From stdpp Require Import base tactics numbers list option relations gmap.
From S2P Require Import Prelude Pmm Mem Vmm FatName Fat FatDir FatFile Heap Ramfs Keyboard BootCfg Console Pci.
From S2P Require Import Process Scheduler Pipe Fork UserMem Vfs Elf Kernel Syscall FdTable.
Local Open Scope Z_scope.

(** ** Counting descriptors *)

Definition end_at (wr : bool) (i : Z) (fds : list (list vfs_fd)) (n : Z) : bool :=
  is_end wr i (fd_at fds (n / 8) (n mod 8)).

(** How many descriptors name an end of pipe [i]. *)
Definition holders (wr : bool) (i : Z) (fds : list (list vfs_fd)) : Z := count_upto (end_at wr i fds) 128.

#[global] Arguments holders : simpl never.

Definition fds_shape (fds : list (list vfs_fd)) : Prop :=
  length fds = 16%nat /\ Forall (fun r => length r = 8%nat) fds.

Definition put_fd (fds : list (list vfs_fd)) (s j : Z) (f : vfs_fd) : list (list vfs_fd) :=
  fds.[s := (fds.[s]).[j := f]].

Lemma row_length fds s : fds_shape fds -> 0 <= s < 16 -> length fds.[s] = 8%nat.
Proof. intros [Hl Hf] Hs. apply (zget_forall (fun r => length r = 8%nat)); [done|]. unfold zlen. lia. Qed.

Lemma put_fd_shape fds s j f : fds_shape fds -> 0 <= s < 16 -> fds_shape (put_fd fds s j f).
Proof.
  intros Hsh Hs. pose proof (row_length fds s Hsh Hs). destruct Hsh as [Hl Hf]. unfold put_fd. split; [by rewrite zset_length|].
  apply zset_forall; [done|]. by rewrite zset_length.
Qed.

Lemma fd_at_put fds s j f s' j' : fds_shape fds -> 0 <= s < 16 -> 0 <= j < 8 -> 0 <= s' -> 0 <= j' ->
  fd_at (put_fd fds s j f) s' j' = if (s =? s') && (j =? j') then f else fd_at fds s' j'.
Proof.
  intros Hsh Hs Hj Hs' Hj'. pose proof (row_length fds s Hsh Hs). destruct Hsh as [Hl _].
  unfold fd_at, put_fd. rewrite zget_set by (unfold zlen; lia). destruct (Z.eqb_spec s s') as [<-|]; [|done]. simpl.
  rewrite zget_set by (unfold zlen; lia). by destruct (j =? j').
Qed.

Lemma holders_range wr i fds : 0 <= holders wr i fds <= 128.
Proof. unfold holders. apply (count_upto_bounds _ 128). Qed.

Lemma holders_pos wr i fds s j : 0 <= s < 16 -> 0 <= j < 8 -> is_end wr i (fd_at fds s j) = true -> 1 <= holders wr i fds.
Proof.
  intros Hs Hj He. unfold holders.
  assert (Hn : 0 <= 8 * s + j < Z.of_nat 128) by lia.
  assert (Hd : (8 * s + j) / 8 = s) by (symmetry; apply Z.div_unique with j; lia).
  assert (Hm : (8 * s + j) mod 8 = j) by (symmetry; apply Z.mod_unique with s; lia).
  pose proof (count_upto_flip (fun n => end_at wr i fds n && negb (n =? 8 * s + j)) (end_at wr i fds) 128 (8 * s + j) Hn) as E.
  pose proof (count_upto_bounds (fun n => end_at wr i fds n && negb (n =? 8 * s + j)) 128).
  rewrite E; [lia| | |]; unfold end_at.
  - by rewrite Z.eqb_refl, andb_false_r.
  - by rewrite Hd, Hm.
  - intros n _ Hne. replace (n =? 8 * s + j) with false by lia. by rewrite andb_true_r.
Qed.

Lemma holders_put wr i fds s j f : fds_shape fds -> 0 <= s < 16 -> 0 <= j < 8 ->
  holders wr i (put_fd fds s j f) =
  holders wr i fds - Z.b2z (is_end wr i (fd_at fds s j)) + Z.b2z (is_end wr i f).
Proof.
  intros Hsh Hs Hj. unfold holders.
  assert (Hn : 0 <= 8 * s + j < Z.of_nat 128) by lia.
  assert (Hd : (8 * s + j) / 8 = s) by (symmetry; apply Z.div_unique with j; lia).
  assert (Hm : (8 * s + j) mod 8 = j) by (symmetry; apply Z.mod_unique with s; lia).
  assert (Hat : end_at wr i fds (8 * s + j) = is_end wr i (fd_at fds s j)) by (unfold end_at; by rewrite Hd, Hm).
  assert (Hat' : end_at wr i (put_fd fds s j f) (8 * s + j) = is_end wr i f).
  { unfold end_at. rewrite Hd, Hm, fd_at_put by (done || lia). by rewrite !Z.eqb_refl. }
  assert (Hne : forall n, 0 <= n < Z.of_nat 128 -> n <> 8 * s + j ->
    end_at wr i (put_fd fds s j f) n = end_at wr i fds n).
  { intros n Hr Hne. unfold end_at. pose proof (Z.div_mod n 8). pose proof (Z.mod_pos_bound n 8).
    assert (0 <= n / 8) by (apply Z.div_pos; lia). rewrite fd_at_put by (done || lia).
    replace ((s =? n / 8) && (j =? n mod 8)) with false by lia. done. }
  destruct (is_end wr i (fd_at fds s j)) eqn:E1, (is_end wr i f) eqn:E2; cbn [Z.b2z].
  - rewrite (count_upto_ext _ (end_at wr i fds)); [lia|]. intros n Hr.
    destruct (Z.eq_dec n (8 * s + j)) as [->|]; [by rewrite Hat, Hat'|by apply Hne].
  - pose proof (count_upto_flip (end_at wr i (put_fd fds s j f)) (end_at wr i fds) 128 (8 * s + j) Hn Hat' Hat Hne). lia.
  - pose proof (count_upto_flip (end_at wr i fds) (end_at wr i (put_fd fds s j f)) 128 (8 * s + j) Hn Hat Hat') as E.
    rewrite E; [lia|]. intros. symmetry. by apply Hne.
  - rewrite (count_upto_ext _ (end_at wr i fds)); [lia|]. intros n Hr.
    destruct (Z.eq_dec n (8 * s + j)) as [->|]; [by rewrite Hat, Hat'|by apply Hne].
Qed.

(** ** The invariant *)

Definition refs (wr : bool) (p : pipe) : Z := if wr then write_refs p else read_refs p.

Section inv.
Context {D : Type} `{BlockDevice D} `{Machine}.
Local Notation K := (kernel D).
Local Notation M := (cM K).
Implicit Types k : K.

Definition pipe_of k (i : Z) : pipe := get_pipe (v_pipes (k_vfs k)) i.

(** [d wr i] references of pipe [i] are held by the code that is running and
    not yet, or no longer, by a descriptor. *)
Record fds_inv (d : bool -> Z -> Z) k : Prop := {
  fi_shape : fds_shape (k_fds k);
  fi_pool : length (pipe_table (v_pipes (k_vfs k))) = 8%nat;
  fi_tab : length (process_table (tab k)) = 16%nat;
  fi_cur : forall c, current_process (tab k) = Some c -> 0 <= c < 16;
  fi_ends : forall s j wr i, 0 <= s < 16 -> 0 <= j < 8 -> is_end wr i (fd_at (k_fds k) s j) = true -> 0 <= i < 8;
  fi_refs : forall wr i, 0 <= i < 8 -> refs wr (pipe_of k i) = holders wr i (k_fds k) + d wr i;
  fi_use : forall i, 0 <= i < 8 -> in_use (pipe_of k i) = (0 <? read_refs (pipe_of k i) + write_refs (pipe_of k i));
  fi_clean : forall s j, 0 <= s < 16 -> 0 <= j < 8 -> state_of (tab k) s = PROCESS_UNUSED ->
    f_used (fd_at (k_fds k) s j) = false
}.

Definition no_debt : bool -> Z -> Z := fun _ _ => 0.
Definition fds_ok k : Prop := fds_inv no_debt k.

Lemma fds_inv_ext d d' k : (forall wr i, 0 <= i < 8 -> d' wr i = d wr i) -> fds_inv d k -> fds_inv d' k.
Proof. intros E []. split; auto. intros wr i Hi. rewrite E by done. auto. Qed.

(** The counters of a pipe are its entry of [core]. *)
Lemma pcore_at kp kp' i : core kp' = core kp -> pcore (get_pipe kp' i) = pcore (get_pipe kp i).
Proof.
  intros E. unfold core, get_pipe, zget in *.
  assert (Hl : length (pipe_table kp') = length (pipe_table kp)) by (rewrite <- (length_fmap pcore), E; apply length_fmap).
  destruct (decide (Z.to_nat i < length (pipe_table kp))%nat) as [Hi|Hi].
  - assert (Hx : (pcore <$> pipe_table kp') !! Z.to_nat i = (pcore <$> pipe_table kp) !! Z.to_nat i) by (by rewrite E).
    rewrite !list_lookup_fmap, !list_lookup_lookup_total_lt in Hx by lia. cbn [fmap option_fmap option_map] in Hx. by apply (inj Some) in Hx.
  - rewrite !list_lookup_total_alt, !(lookup_ge_None_2 _ (Z.to_nat i)) by lia. done.
Qed.

Lemma quiet_inv d k k' : quiet k k' -> fds_inv d k -> fds_inv d k'.
Proof.
  intros [Ef [Ec [Tl Tc Tf]]] [Hsh Hp Ht Hc He Hr Hu Hcl].
  assert (Hpc : forall i, pcore (pipe_of k' i) = pcore (pipe_of k i)) by (intros i; by apply pcore_at).
  split; rewrite ?Ef; auto.
  - rewrite <- (length_fmap pcore). fold (core (v_pipes (k_vfs k'))). rewrite Ec. unfold core. by rewrite length_fmap.
  - unfold tab. by rewrite Tl.
  - unfold tab. rewrite Tc. apply Hc.
  - intros wr i Hi. rewrite <- Hr by done. specialize (Hpc i). unfold pcore in Hpc. unfold refs. destruct wr; congruence.
  - intros i Hi. specialize (Hpc i). injection Hpc as E1 E2 E3. rewrite E1, E2, E3. auto.
Qed.

(** Storing a descriptor. *)
Lemma set_fd_inv d d' k s j f :
  fds_inv d k -> 0 <= s < 16 -> 0 <= j < 8 ->
  (f_used f = true -> state_of (tab k) s <> PROCESS_UNUSED) ->
  (forall wr i, is_end wr i f = true -> 0 <= i < 8) ->
  (forall wr i, 0 <= i < 8 ->
     d' wr i = d wr i + Z.b2z (is_end wr i (fd_at (k_fds k) s j)) - Z.b2z (is_end wr i f)) ->
  fds_inv d' (put_fds (put_fd (k_fds k) s j f) k).
Proof.
  intros [Hsh Hp Ht Hc He Hr Hu Hcl] Hs Hj Hst Hf Hd. split; cbn [k_fds put_fds k_vfs].
  - by apply put_fd_shape.
  - done.
  - done.
  - done.
  - intros s' j' wr i Hs' Hj'. rewrite fd_at_put by (done || lia). destruct (_ && _); [apply Hf|by apply He].
  - intros wr i Hi. rewrite holders_put, Hd by done. change (pipe_of (put_fds _ k) i) with (pipe_of k i).
    rewrite Hr by done. lia.
  - done.
  - intros s' j' Hs' Hj' E. rewrite fd_at_put by (done || lia). destruct (_ && _) eqn:Eq; [|by apply Hcl].
    b2p. subst. destruct (f_used f); [|done]. by destruct Hst.
Qed.

(** Changing the counters of one pipe. *)
Lemma set_pipe_inv d d' k kp i p :
  fds_inv d k -> 0 <= i < 8 -> pipe_table kp = (pipe_table (v_pipes (k_vfs k))).[i := p] ->
  tquiet (tab k) (k_tab kp) ->
  in_use p = (0 <? read_refs p + write_refs p) ->
  (forall wr i', 0 <= i' < 8 ->
     d' wr i' = d wr i' + if i' =? i then refs wr p - refs wr (pipe_of k i) else 0) ->
  fds_inv d' (put_vfs (put_pipes kp (k_vfs k)) k).
Proof.
  intros [Hsh Hp Ht Hc He Hr Hu Hcl] Hi Ekp [Tl Tc Tf] Hus Hd.
  assert (Hget : forall i', 0 <= i' -> pipe_of (put_vfs (put_pipes kp (k_vfs k)) k) i' = if i =? i' then p else pipe_of k i').
  { intros i' Hi'. unfold pipe_of, get_pipe. cbn [put_vfs k_vfs put_pipes v_pipes]. rewrite Ekp.
    apply zget_set; [unfold zlen; lia|lia]. }
  split; try done.
  - cbn [put_vfs k_vfs put_pipes v_pipes]. by rewrite Ekp, zset_length.
  - unfold tab. cbn [put_vfs k_vfs put_pipes v_pipes]. rewrite Tl. exact Ht.
  - unfold tab. cbn [put_vfs k_vfs put_pipes v_pipes]. rewrite Tc. exact Hc.
  - intros wr i' Hi'. rewrite Hget, Hd by lia. cbn [put_vfs k_fds]. specialize (Hr wr i' Hi').
    destruct (Z.eqb_spec i i') as [->|]; [rewrite Z.eqb_refl; lia|]. replace (i' =? i) with false by lia. lia.
  - intros i' Hi'. rewrite Hget by lia. destruct (Z.eqb_spec i i') as [->|]; auto.
  - intros s j Hs Hj E. apply Hcl; auto.
Qed.

(** ** Releasing and adding references *)

Definition pipe_release (wr : bool) : kpipes -> Z -> kpipes := if wr then pipe_release_write else pipe_release_read.
Definition pipe_add (wr : bool) : kpipes -> Z -> kpipes := if wr then pipe_add_write_ref else pipe_add_read_ref.

(** The pipe after one reference was given back. *)
Definition released (wr : bool) (p p' : pipe) : Prop :=
  refs wr p' = refs wr p - 1 /\ refs (negb wr) p' = refs (negb wr) p /\ in_use p' = (0 <? read_refs p' + write_refs p').

Lemma free_if_unreferenced_spec p : in_use p = true -> 0 <= read_refs p -> 0 <= write_refs p ->
  let p' := free_if_unreferenced p in
  read_refs p' = read_refs p /\ write_refs p' = write_refs p /\ in_use p' = (0 <? read_refs p' + write_refs p').
Proof.
  intros Hu Hr Hw p'. subst p'. unfold free_if_unreferenced.
  destruct ((read_refs p =? 0) && (write_refs p =? 0)) eqn:E; cbn [set_in_use in_use read_refs write_refs];
    (split; [done|split; [done|]]); rewrite ?Hu; lia.
Qed.

Lemma released_by_read p t : in_use p = true -> 1 <= read_refs p -> 0 <= write_refs p ->
  released false p (release_read p t).1 /\ tquiet t (release_read p t).2.
Proof.
  intros Hu Hr Hw. unfold release_read, released. replace (0 <? read_refs p) with true by lia. cbn [set_refs read_refs refs negb].
  destruct (read_refs p - 1 =? 0) eqn:E; cbn [fst snd].
  - destruct (free_if_unreferenced_spec (clear_write_waiter (set_refs p (read_refs p - 1) (write_refs p)))) as (-> & -> & ->);
      [done|cbn; lia|done|]. cbn. auto using tquiet_ready.
  - destruct (free_if_unreferenced_spec (set_refs p (read_refs p - 1) (write_refs p))) as (-> & -> & ->);
      [done|cbn; lia|done|]. cbn. auto using tquiet_refl.
Qed.

Lemma released_by_write p t : in_use p = true -> 1 <= write_refs p -> 0 <= read_refs p ->
  released true p (release_write p t).1 /\ tquiet t (release_write p t).2.
Proof.
  intros Hu Hr Hw. unfold release_write, released. replace (0 <? write_refs p) with true by lia. cbn [set_refs write_refs refs negb].
  destruct (write_refs p - 1 =? 0) eqn:E; cbn [fst snd].
  - destruct (free_if_unreferenced_spec (clear_read_waiter (set_refs p (read_refs p) (write_refs p - 1)))) as (-> & -> & ->);
      [done|done|cbn; lia|]. cbn. auto using tquiet_ready.
  - destruct (free_if_unreferenced_spec (set_refs p (read_refs p) (write_refs p - 1))) as (-> & -> & ->);
      [done|done|cbn; lia|]. cbn. auto using tquiet_refl.
Qed.

Lemma release_spec wr kp i : 0 <= i < 8 -> 1 <= refs wr (get_pipe kp i) -> 0 <= refs (negb wr) (get_pipe kp i) ->
  in_use (get_pipe kp i) = true ->
  exists p, pipe_table (pipe_release wr kp i) = (pipe_table kp).[i := p] /\ released wr (get_pipe kp i) p /\
    tquiet (k_tab kp) (k_tab (pipe_release wr kp i)).
Proof.
  intros Hi Hr Hn Hu. destruct wr; cbn [refs negb pipe_release] in *.
  - unfold pipe_release_write. replace (PIPE_MAX <=? i) with false by (unfold PIPE_MAX; lia).
    destruct (released_by_write _ (k_tab kp) Hu Hr Hn) as [H1 H2]. destruct (release_write _ _) as [p t]. by exists p.
  - unfold pipe_release_read. replace (PIPE_MAX <=? i) with false by (unfold PIPE_MAX; lia).
    destruct (released_by_read _ (k_tab kp) Hu Hr Hn) as [H1 H2]. destruct (release_read _ _) as [p t]. by exists p.
Qed.

Lemma release_inv d d' k wr i :
  fds_inv d k -> 0 <= i < 8 -> 1 <= refs wr (pipe_of k i) -> 0 <= refs (negb wr) (pipe_of k i) ->
  (forall wr' i', 0 <= i' < 8 -> d' wr' i' = d wr' i' - if (i' =? i) && eqb wr' wr then 1 else 0) ->
  fds_inv d' (put_vfs (put_pipes (pipe_release wr (v_pipes (k_vfs k)) i) (k_vfs k)) k) /\
  tquiet (tab k) (k_tab (pipe_release wr (v_pipes (k_vfs k)) i)).
Proof.
  intros Hk Hi Hr Hn Hd.
  assert (Hu : in_use (pipe_of k i) = true) by (rewrite (fi_use _ _ Hk i Hi); destruct wr; cbn [refs negb] in *; lia).
  destruct (release_spec wr (v_pipes (k_vfs k)) i Hi Hr Hn Hu) as (p & Et & (E1 & E2 & E3) & Hq).
  split; [|done]. apply (set_pipe_inv d d' k _ i p); try done. intros wr' i' Hi'. rewrite Hd by done.
  destruct (Z.eqb_spec i' i) as [->|]; cbn [andb]; [|lia]. unfold pipe_of.
  destruct wr, wr'; cbn [eqb refs negb] in *; lia.
Qed.

Lemma add_inv d d' k wr i :
  fds_inv d k -> 0 <= i < 8 -> 1 <= refs wr (pipe_of k i) < 2 ^ 32 - 1 -> 0 <= refs (negb wr) (pipe_of k i) ->
  (forall wr' i', 0 <= i' < 8 -> d' wr' i' = d wr' i' + if (i' =? i) && eqb wr' wr then 1 else 0) ->
  fds_inv d' (put_vfs (put_pipes (pipe_add wr (v_pipes (k_vfs k)) i) (k_vfs k)) k) /\
  tab (put_vfs (put_pipes (pipe_add wr (v_pipes (k_vfs k)) i) (k_vfs k)) k) = tab k.
Proof.
  intros Hk Hi Hr Hn Hd. pose proof (fi_use _ _ Hk i Hi) as Hu. unfold pipe_of in *.
  set (q := get_pipe (v_pipes (k_vfs k)) i) in *.
  set (p := set_refs q (if wr then read_refs q else u32 (read_refs q + 1)) (if wr then u32 (write_refs q + 1) else write_refs q)).
  assert (Hkp : pipe_add wr (v_pipes (k_vfs k)) i = set_pipe (v_pipes (k_vfs k)) i p).
  { destruct wr; cbn [pipe_add]; unfold pipe_add_read_ref, pipe_add_write_ref;
      by replace (PIPE_MAX <=? i) with false by (unfold PIPE_MAX; lia). }
  rewrite Hkp. split; [|done]. apply (set_pipe_inv d d' k _ i p); try done.
  - subst p. destruct wr; cbn [set_refs in_use read_refs write_refs refs negb] in *; rewrite Hu, u32_small by lia; lia.
  - intros wr' i' Hi'. rewrite Hd by done. destruct (Z.eqb_spec i' i) as [->|]; cbn [andb]; [|lia]. unfold pipe_of. fold q.
    subst p. destruct wr, wr'; cbn [set_refs read_refs write_refs refs negb eqb] in *; rewrite ?u32_small by lia; lia.
Qed.

(** ** Descriptor operations *)

Lemma end_kind f (wr : bool) i : f_used f = true -> f_backend f = (if wr then VFS_PIPE_WRITE else VFS_PIPE_READ) -> f_first f = i ->
  forall wr' i', is_end wr' i' f = (i' =? i) && eqb wr' wr.
Proof.
  intros Hu Hb Hi wr' i'. unfold is_end, is_pipe_end. rewrite Hu, Hb, Hi, (Z.eqb_sym i i').
  destruct wr, wr'; cbn; by destruct (i' =? i).
Qed.

(** A descriptor names an end of a pipe or none. *)
Lemma end_cases f : no_end f \/
  exists wr : bool, f_used f = true /\ f_backend f = (if wr then VFS_PIPE_WRITE else VFS_PIPE_READ).
Proof.
  destruct (f_used f) eqn:Eu; [|left; by apply no_end_unused].
  destruct (f_backend f) eqn:Eb.
  1: left; intros wr i; unfold is_end, is_pipe_end; rewrite Eb; by destruct wr, (f_used f).
  1, 2: left; apply no_end_file; auto.
  - right. by exists false.
  - right. by exists true.
Qed.

Lemma refs_nonneg k d wr i : fds_inv d k -> (forall wr i, 0 <= d wr i) -> 0 <= i < 8 -> 0 <= refs wr (pipe_of k i).
Proof. intros Hk Hd Hi. rewrite (fi_refs _ _ Hk) by done. pose proof (holders_range wr i (k_fds k)). specialize (Hd wr i). lia. Qed.

Lemma close_fd_inv d k s j u k' :
  fds_inv d k -> (forall wr i, 0 <= d wr i) -> 0 <= s < 16 -> 0 <= j < 8 -> close_fd s j k = Some (u, k') ->
  fds_inv d k' /\ tquiet (tab k) (tab k') /\
  k_fds k' = put_fd (k_fds k) s j (set_used false (fd_at (k_fds k) s j)).
Proof.
  intros Hk Hd Hs Hj. unfold close_fd, get_fd, set_fd, mbind, cM_bind, gets, modify, on_vfs, zoom. set (f := fd_at (k_fds k) s j) in *.
  assert (Hn : no_end (set_used false f)) by (by apply no_end_unused).
  assert (Hclose : exists v, vfs_close f (k_vfs k) = Some (set_used false f, v) /\ tquiet (tab k) (k_tab (v_pipes v)) /\
    fds_inv (fun wr i => d wr i - Z.b2z (is_end wr i f)) (put_vfs v k)).
  { unfold vfs_close, mbind, cM_bind. destruct (end_cases f) as [He|(wr & Eu & Eb)].
    - exists (k_vfs k). split; [|split; [apply tquiet_refl|]].
      + destruct (f_used f) eqn:Eu; [|done]. specialize (He true (f_first f)) as He1. specialize (He false (f_first f)).
        unfold is_end, is_pipe_end in *. rewrite Eu, Z.eqb_refl in *. by destruct (f_backend f).
      + replace (put_vfs (k_vfs k) k) with k by (by destruct k). eapply fds_inv_ext; [|exact Hk].
        intros wr i _. rewrite He. cbn. lia.
    - pose proof (end_kind f wr (f_first f) Eu Eb eq_refl) as He.
      assert (Hself : is_end wr (f_first f) f = true) by (rewrite He, Z.eqb_refl; by destruct wr).
      assert (Hi : 0 <= f_first f < 8) by (by apply (fi_ends _ _ Hk s j wr)).
      assert (Hr : 1 <= refs wr (pipe_of k (f_first f))).
      { rewrite (fi_refs _ _ Hk) by done. pose proof (holders_pos wr _ (k_fds k) s j Hs Hj Hself). specialize (Hd wr (f_first f)). lia. }
      destruct (release_inv d (fun wr i => d wr i - Z.b2z (is_end wr i f)) k wr (f_first f) Hk Hi Hr) as [Hv Hq].
      { by eapply refs_nonneg. }
      { intros wr' i' _. rewrite He. by destruct (_ && _). }
      exists (put_pipes (pipe_release wr (v_pipes (k_vfs k)) (f_first f)) (k_vfs k)).
      split; [|split; [exact Hq|exact Hv]]. rewrite Eu, Eb. by destruct wr. }
  destruct Hclose as (v & -> & Hq & Hv). intros [= <- <-].
  split; [|split; [exact Hq|done]].
  apply (set_fd_inv _ d (put_vfs v k) s j _ Hv Hs Hj); [done| |].
  - intros wr i. by rewrite Hn.
  - intros wr i Hi. cbn [put_vfs k_fds]. fold f. rewrite (Hn wr i). cbn [Z.b2z]. lia.
Qed.

(** Copying a descriptor into a free entry of a live process. *)
Lemma copy_fd_inv k s j s0 j0 u k' :
  fds_ok k -> 0 <= s < 16 -> 0 <= j < 8 -> 0 <= s0 < 16 -> 0 <= j0 < 8 -> 
  f_used (fd_at (k_fds k) s j) = false -> state_of (tab k) s <> PROCESS_UNUSED ->
  copy_fd s j (fd_at (k_fds k) s0 j0) k = Some (u, k') ->
  fds_ok k' /\ tab k' = tab k /\ k_fds k' = put_fd (k_fds k) s j (fd_at (k_fds k) s0 j0).
Proof.
  intros Hk Hs Hj Hs0 Hj0 Hfree Hst. set (f := fd_at (k_fds k) s0 j0).
  unfold copy_fd, get_fd, set_fd, mbind, cM_bind, gets, modify, on_vfs, zoom.
  pose proof (no_end_unused _ Hfree) as Hold.
  fold (put_fd (k_fds k) s j f). set (k1 := put_fds (put_fd (k_fds k) s j f) k).
  assert (Hf1 : fd_at (k_fds k1) s j = f).
  { subst k1. cbn [put_fds k_fds]. rewrite fd_at_put by (apply (fi_shape _ _ Hk) || lia). by rewrite !Z.eqb_refl. }
  rewrite Hf1. clear Hf1.
  assert (Hk1 : fds_inv (fun wr i => - Z.b2z (is_end wr i f)) k1).
  { apply (set_fd_inv no_debt _ k s j f); try done.
    - intros wr i. by apply (fi_ends _ _ Hk s0 j0).
    - intros wr i _. rewrite Hold. unfold no_debt. cbn [Z.b2z]. lia. }
  unfold vfs_dup. destruct (end_cases f) as [He|(wr & Eu & Eb)].
  - intros E. assert (k' = k1) as ->.
    { destruct (f_used f) eqn:Eu; cbn [negb] in E; [|by injection E as <- <-].
      specialize (He true (f_first f)) as He1. specialize (He false (f_first f)). unfold is_end, is_pipe_end in *.
      rewrite Eu, Z.eqb_refl in *. destruct (f_backend f); try done; by injection E as <- <-. }
    split; [|done]. eapply fds_inv_ext; [|exact Hk1]. intros wr i _. cbv beta. rewrite He. done.
  - pose proof (end_kind f wr (f_first f) Eu Eb eq_refl) as He.
    assert (Hself : is_end wr (f_first f) f = true) by (rewrite He, Z.eqb_refl; by destruct wr).
    assert (Hi : 0 <= f_first f < 8) by (by apply (fi_ends _ _ Hk s0 j0 wr)).
    pose proof (fi_refs _ _ Hk wr _ Hi) as Hr. pose proof (holders_range wr (f_first f) (k_fds k)).
    pose proof (holders_pos wr _ (k_fds k) s0 j0 Hs0 Hj0 Hself). unfold no_debt in Hr.
    destruct (add_inv _ no_debt k1 wr (f_first f) Hk1 Hi) as [Hv Ht].
    { change (pipe_of k1 (f_first f)) with (pipe_of k (f_first f)). lia. }
    { change (pipe_of k1 (f_first f)) with (pipe_of k (f_first f)). by apply (refs_nonneg k no_debt). }
    { intros wr' i' _. rewrite He. unfold no_debt. by destruct (_ && _). }
    rewrite Eu, Eb. destruct wr; intros [= <- <-]; (split; [exact Hv|done]).
Qed.
End inv.
