(* ===== verification/FdCalls.v ===== *)
(** * Every system call keeps the pipe references exact

    The handlers of [syscall.c] one by one, then the kernel as a state machine
    whose steps are system calls, resumptions of suspended ones, and
    interrupts. *)

From Stdlib Require Import ZArith Lia ZifyBool.
From stdpp Require Import base tactics numbers list option relations gmap.
From S2P Require Import Prelude Pmm Mem Vmm FatName Fat FatDir FatFile Heap Ramfs Keyboard BootCfg Console Pci.
From S2P Require Import Process Scheduler Pipe Fork UserMem Vfs Elf Kernel Syscall FdTable FdRefs.
Local Open Scope Z_scope.

(** A suspended call names an entry of the descriptor table. *)
Definition kont_ok (c : kont) : Prop :=
  match c with
  | KWrite _ s j _ _ _ | KWritePipe _ s j _ _ _ _ _ _ | KRead _ s j _ _ _ | KReadPipe _ s j _ _ _ _ _ =>
      0 <= s < 16 /\ 0 <= j < 8
  | _ => True
  end.
Definition outcome_ok (o : outcome) : Prop := match o with Done _ => True | Pause c => kont_ok c end.

Section calls.
Context {D : Type} `{BlockDevice D} `{Machine}.
Local Notation K := (kernel D).
Local Notation M := (cM K).
Implicit Types k : K.

(** The process on the CPU. *)
Variable cur : option Z.

(** The invariant while [cur], which has not exited, makes a system call. *)
Record fds_live k : Prop := {
  fl_ok : fds_ok k;
  fl_cur : current_process (tab k) = cur;
  fl_live : forall c, cur = Some c -> state_of (tab k) c <> PROCESS_UNUSED
}.

Lemma caller_range k c : fds_live k -> cur = Some c -> 0 <= c < 16.
Proof. intros [Hk Hc _] E. apply (fi_cur _ _ Hk). congruence. Qed.

Lemma tquiet_live k k' : fds_ok k' -> tquiet (tab k) (tab k') -> fds_live k -> fds_live k'.
Proof.
  intros Hk' [_ Hc Hf] Hk. split; [done|rewrite Hc; apply Hk|].
  intros c E Hu. apply (fl_live _ Hk c E), Hf; [by eapply caller_range|done].
Qed.

Lemma quiet_live k k' : quiet k k' -> fds_live k -> fds_live k'.
Proof.
  intros Hq Hk. eapply tquiet_live; [|apply Hq|done]. eapply quiet_inv; [done|apply Hk].
Qed.

(** [m] keeps the invariant and its results satisfy [P]. *)
Definition safe {A} (P : A -> Prop) (m : M A) : Prop :=
  forall k a k', m k = Some (a, k') -> fds_live k -> fds_live k' /\ P a.

Lemma safe_ret {A} (P : A -> Prop) a : P a -> safe P (mret a).
Proof. by intros Ha k a' k' [= <- <-]. Qed.

Lemma safe_undefined {A} (P : A -> Prop) : safe P undefined.
Proof. by intros k a k'. Qed.

Lemma safe_bind {A B} (P : A -> Prop) (Q : B -> Prop) (m : M A) (f : A -> M B) :
  safe P m -> (forall a, P a -> safe Q (f a)) -> safe Q (m ≫= f).
Proof.
  intros Hm Hf k b k'. unfold mbind, cM_bind. destruct (m k) as [[a k1]|] eqn:E; [|done].
  intros E' Hk. destruct (Hm _ _ _ E Hk) as [Hk1 Ha]. by eapply Hf.
Qed.

Lemma safe_quiet {A} (m : M A) : respects quiet m -> safe (fun _ => True) m.
Proof. intros Hm k a k' E Hk. split; [|done]. eapply quiet_live; [by eapply Hm|done]. Qed.

Lemma safe_then {A B} (Q : B -> Prop) (m : M A) (f : A -> M B) :
  respects quiet m -> (forall a, safe Q (f a)) -> safe Q (m ≫= f).
Proof. intros Hm Hf. apply (safe_bind (fun _ => True)); [by apply safe_quiet|auto]. Qed.

Lemma safe_if {A} (Q : A -> Prop) (b : bool) (m n : M A) : safe Q m -> safe Q n -> safe Q (if b then m else n).
Proof. by destruct b. Qed.

Lemma safe_decide {A P} `{!Decision P} (Q : A -> Prop) (m n : M A) :
  safe Q m -> safe Q n -> safe Q (if decide P then m else n).
Proof. by destruct (decide P). Qed.

(** ** The caller and its descriptors *)

Lemma slot_of_some p c : slot_of p = Some c -> p = Some c.
Proof.
  unfold slot_of. intros E. apply find_from_Some in E as (Hr & E & _). apply bool_decide_eq_true in E.
  unfold process_at in E. by replace (PROCESS_MAX <=? c) with false in E by (unfold PROCESS_MAX; lia).
Qed.

Lemma slot_of_range c : 0 <= c < 16 -> slot_of (Some c) = Some c.
Proof.
  intros Hc. unfold slot_of. apply find_from_Some. split_and!; try lia.
  - apply bool_decide_eq_true. unfold process_at. by replace (PROCESS_MAX <=? c) with false by (unfold PROCESS_MAX; lia).
  - intros q Hq. apply bool_decide_eq_false. unfold process_at. destruct (PROCESS_MAX <=? q); [done|]. intros [= ->]. lia.
Qed.

Lemma with_current_safe (Q : outcome -> Prop) f : Q (Done FAIL) ->
  (forall c, cur = Some c -> 0 <= c < 16 -> safe Q (f c)) -> safe Q (@with_current D f).
Proof.
  intros HQ Hf k a k' E Hk. unfold with_current, process_current, mbind, cM_bind, gets in E.
  rewrite (fl_cur _ Hk) in E. destruct cur as [c|] eqn:Ec; [|by injection E as <- <-].
  eapply Hf; [done|by eapply caller_range|exact E|done].
Qed.

Lemma with_slot_safe (Q : outcome -> Prop) f : Q (Done FAIL) ->
  (forall c, cur = Some c -> 0 <= c < 16 -> safe Q (f c)) -> safe Q (@with_slot D f).
Proof.
  intros HQ Hf k a k' E Hk. unfold with_slot, proc_slot, mbind, cM_bind, gets in E.
  rewrite (fl_cur _ Hk) in E. destruct (slot_of cur) as [c|] eqn:Ec; [|by injection E as <- <-].
  apply slot_of_some in Ec. eapply Hf; [done|by eapply caller_range|exact E|done].
Qed.

Lemma with_user_str_safe (Q : outcome -> Prop) c a f : Q (Done FAIL) -> (forall s, safe Q (f s)) ->
  safe Q (@with_user_str D _ c a f).
Proof.
  intros HQ Hf. unfold with_user_str, proc. apply safe_then; [quiet|]. intros p. apply safe_then; [quiet|].
  intros [rc b]. apply safe_if; [by apply safe_ret|done].
Qed.

(** An operation through a pointer to a descriptor that keeps its end. *)
Lemma on_fd_safe {A} s j (op : vfs_fd -> cM (vfs D) (A * vfs_fd)) :
  0 <= s < 16 -> 0 <= j < 8 -> (forall f, respects vquiet (op f)) ->
  (forall f v a f' v', op f v = Some ((a, f'), v') -> same_end f f') ->
  safe (fun _ => True) (on_fd s j op).
Proof.
  intros Hs Hj Hq He k a k'. unfold on_fd, get_fd, set_fd, mbind, cM_bind, gets, modify, on_vfs, zoom.
  destruct (op _ _) as [[[x f'] v]|] eqn:E; [|done]. cbn [fst snd]. intros [= <- <-] Hk. split; [|done].
  pose proof (Hq _ _ _ _ E) as Hv. apply He in E as (Eu & _ & E).
  assert (Hk1 : fds_live (put_vfs v k)) by (apply (quiet_live k); [by split|done]).
  apply (tquiet_live (put_vfs v k)); [|apply tquiet_refl|done].
  apply (set_fd_inv no_debt no_debt (put_vfs v k)); [apply Hk1|done|done| | |].
  - rewrite Eu. intros Hu Hun. pose proof (fi_clean _ _ (fl_ok _ Hk1) s j Hs Hj Hun) as Hf. cbn [put_vfs k_fds] in Hf. congruence.
  - intros wr i. rewrite E. by apply (fi_ends _ _ (fl_ok _ Hk1) s j).
  - intros wr i _. rewrite E. cbn [put_vfs k_fds]. unfold no_debt. lia.
Qed.

(** Opening a file in a free descriptor. *)
Lemma open_fd_safe c j (op : vfs_fd -> cM (vfs D) (Z * vfs_fd)) k r k' :
  cur = Some c -> 0 <= j < 8 -> f_used (fd_at (k_fds k) c j) = false ->
  (forall f, respects vquiet (op f)) -> (forall f v a f' v', op f v = Some ((a, f'), v') -> opens f f') ->
  on_fd c j op k = Some (r, k') -> fds_live k -> fds_live k'.
Proof.
  intros Ec Hj Hfree Hq Ho. unfold on_fd, get_fd, set_fd, mbind, cM_bind, gets, modify, on_vfs, zoom.
  destruct (op _ _) as [[[x f'] v]|] eqn:E; [|done]. cbn [fst snd]. intros [= <- <-] Hk.
  pose proof (Hq _ _ _ _ E) as Hv. apply Ho in E.
  assert (Hn : no_end f') by (destruct E as [->|]; [by apply no_end_unused|done]).
  assert (Hk1 : fds_live (put_vfs v k)) by (apply (quiet_live k); [by split|done]).
  apply (tquiet_live (put_vfs v k)); [|apply tquiet_refl|done]. pose proof (caller_range _ _ Hk Ec) as Hc.
  apply (set_fd_inv no_debt no_debt (put_vfs v k)); [apply Hk1|done|done| | |].
  - intros _. by apply (fl_live _ Hk1).
  - intros wr i. by rewrite Hn.
  - intros wr i _. cbn [put_vfs k_fds]. rewrite Hn, (no_end_unused _ Hfree). done.
Qed.
End calls.

#[export] Hint Extern 1 (outcome_ok (Done _)) => exact I : nullos.

(** Walk through a handler whose parts are quiet. *)
Ltac safe_step :=
  first
    [ apply safe_ret; solve [done | by split]
    | apply safe_undefined
    | apply with_current_safe; [done|intros]
    | apply with_slot_safe; [done|intros]
    | apply with_user_str_safe; [done|intros]
    | apply safe_then; [solve [unfold proc, get_fd, to_user, from_user, range_valid; quiet]|intros]
    | apply safe_if | apply safe_decide
    | match goal with |- forall _, _ => intro end ].
Ltac safe := repeat safe_step.

Section handlers.
Context {D : Type} `{BlockDevice D} `{Machine}.
Local Notation K := (kernel D).
Local Notation M := (cM K).
Implicit Types k : K.
Variable cur : option Z.
Local Notation ok := (safe (D := D) cur outcome_ok).

(** ** write and read *)

Lemma pipe_write_quiet i src w {A} (g : turn Z -> A) :
  respects quiet (fun k : K => let '(kp, t) := pipe_write (v_pipes (k_vfs k)) i src w in
    Some (g t, put_vfs (put_pipes kp (k_vfs k)) k)).
Proof. intros k a k'. destruct (pipe_write _ _ _ _) as [kp t] eqn:E. intros [= <- <-]. split; [done|]. by eapply pquiet_write. Qed.

Lemma pipe_read_quiet i len :
  respects quiet (fun k : K => let '(kp, t) := pipe_read (v_pipes (k_vfs k)) i true len in
    Some (t, put_vfs (put_pipes kp (k_vfs k)) k)).
Proof. intros k a k'. destruct (pipe_read _ _ _ _) as [kp t] eqn:E. intros [= <- <-]. split; [done|]. by eapply pquiet_read. Qed.

Lemma write_loop_safe c s j buf len total : 0 <= s < 16 -> 0 <= j < 8 -> ok (write_loop c s j buf len total).
Proof.
  intros Hs Hj. unfold write_loop. apply safe_if; [safe|].
  apply safe_then; [unfold from_user, proc; quiet|]. intros [rc chunk]. apply safe_if; [safe|].
  apply safe_then; [unfold get_fd; quiet|]. intros f. eapply safe_bind.
  - apply on_fd_safe; [done|done|intros; apply vfs_write_quiet|intros *; apply vfs_write_fd].
  - intros t _. apply safe_ret. destruct t as [r| |]; try by split. unfold chunk_written. by destruct (r <? 0).
Qed.

Lemma write_pipe_loop_safe c s j buf len total i chunk w : 0 <= s < 16 -> 0 <= j < 8 ->
  ok (write_pipe_loop c s j buf len total i chunk w).
Proof.
  intros Hs Hj k o k' E Hk. unfold write_pipe_loop in E. split.
  - eapply quiet_live; [|exact Hk]. eapply pipe_write_quiet. exact E.
  - destruct (pipe_write _ _ _ _) as [kp t]. injection E as <- <-. destruct t as [r| |]; try by split.
    unfold chunk_written. by destruct (r <? 0).
Qed.

Lemma putc_loop_quiet n : forall c a, respects quiet (putc_loop (D := D) n c a).
Proof. induction n as [|n IH]; intros c a; cbn [putc_loop]; unfold proc; quiet. Qed.

(** The part of [sys_write], [sys_read] that selects a descriptor. *)
Lemma on_descriptor_safe fd (f : Z -> Z -> M outcome) :
  (forall c j, 0 <= c < 16 -> 0 <= j < 8 -> ok (f c j)) -> FD_BASE <= fd ->
  ok (with_slot (fun slot =>
        if FD_PER_PROC <=? fd - FD_BASE then mret (Done FAIL)
        else g ← get_fd slot (fd - FD_BASE); if negb (f_used g) then mret (Done FAIL) else f slot (fd - FD_BASE))).
Proof.
  intros Hf Hfd. apply with_slot_safe; [done|]. intros c _ Hc. destruct (FD_PER_PROC <=? fd - FD_BASE) eqn:E; [safe|].
  unfold FD_PER_PROC in E. apply safe_then; [unfold get_fd; quiet|]. intros g. apply safe_if; [safe|]. apply Hf; lia.
Qed.

Lemma sys_write_safe fd buf len : ok (sys_write fd buf len).
Proof.
  unfold sys_write. apply safe_if; [safe|]. apply safe_if; [safe|]. apply with_current_safe; [done|]. intros c _ Hc.
  apply safe_then; [unfold range_valid, proc; quiet|]. intros valid. apply safe_if; [safe|].
  apply safe_then; [unfold proc; quiet|]. intros p. set (fd' := if _ : bool then _ else fd).
  destruct (FD_BASE <=? fd') eqn:E.
  - apply (on_descriptor_safe fd' (fun s j => write_loop c s j buf len 0)); [|lia]. intros. by apply write_loop_safe.
  - apply safe_then; [apply putc_loop_quiet|]. safe.
Qed.

Lemma chunk_read_safe c s j buf len total want res : 0 <= s < 16 -> 0 <= j < 8 ->
  ok (chunk_read c s j buf len total want res).
Proof.
  intros Hs Hj. unfold chunk_read. destruct res as [r out]. apply safe_if; [safe|]. apply safe_if; [safe|].
  apply safe_then; [unfold to_user, proc; quiet|]. intros rc. apply safe_if; [safe|]. apply safe_ret. by destruct (r <? want).
Qed.

Lemma read_loop_safe c s j buf len total : 0 <= s < 16 -> 0 <= j < 8 -> ok (read_loop c s j buf len total).
Proof.
  intros Hs Hj. unfold read_loop. apply safe_if; [safe|]. apply safe_then; [unfold get_fd; quiet|]. intros f. eapply safe_bind.
  - apply on_fd_safe; [done|done|intros; apply vfs_read_quiet|intros *; apply vfs_read_fd].
  - intros t _. destruct t as [res| |]; [by apply chunk_read_safe|by apply safe_ret..].
Qed.

Lemma read_pipe_loop_safe c s j buf len total i want : 0 <= s < 16 -> 0 <= j < 8 ->
  ok (read_pipe_loop c s j buf len total i want).
Proof.
  intros Hs Hj. unfold read_pipe_loop. apply safe_then; [apply pipe_read_quiet|].
  intros [res| |]; [by apply chunk_read_safe|by apply safe_ret..].
Qed.

Lemma key_loop_safe c buf len n : ok (key_loop c buf len n).
Proof.
  unfold key_loop. apply safe_if; [safe|]. apply safe_then; [quiet|]. intros key.
  apply safe_if; [safe|]. apply safe_if; [safe|]. unfold in_raw_mode. safe.
Qed.

Lemma note_boot_up_quiet : respects quiet (note_boot_up (D := D)).
Proof. unfold note_boot_up. quiet. Qed.

Lemma sys_read_safe fd buf len : ok (sys_read fd buf len).
Proof.
  unfold sys_read. apply safe_if; [safe|]. apply with_current_safe; [done|]. intros c _ Hc.
  apply safe_then; [unfold range_valid, proc; quiet|]. intros valid. apply safe_if; [safe|].
  apply safe_then; [unfold proc; quiet|]. intros p. set (fd' := if _ : bool then _ else fd).
  destruct (FD_BASE <=? fd') eqn:E.
  - apply (on_descriptor_safe fd' (fun s j => read_loop c s j buf len 0)); [|lia]. intros. by apply read_loop_safe.
  - apply safe_if; [safe|]. apply safe_then; [apply note_boot_up_quiet|]. intros _. apply key_loop_safe.
Qed.

Lemma raw_loop_safe : ok raw_loop.
Proof. unfold raw_loop. safe. Qed.

(** ** Information, directories, waiting *)

Lemma sys_meminfo_safe a b c : ok (sys_meminfo a b c).
Proof.
  unfold sys_meminfo. apply with_current_safe; [done|]. intros cu _ _. apply safe_then; [quiet|]. intros v.
  apply safe_then; [unfold to_user, proc; quiet|]. intros rc. apply safe_if; [safe|].
  apply safe_then; [intros k x k'; unfold mbind, option_bind; destruct (heap_free_bytes _); [by intros [= <- <-]|done]|].
  intros hv. safe.
Qed.

Lemma list_ramfs_quiet n : forall img i, respects quiet (list_ramfs (D := D) n img i).
Proof. induction n as [|n IH]; intros img i; cbn [list_ramfs]; unfold img_string; quiet. Qed.

Lemma list_loop_safe cluster idx any : ok (list_loop cluster idx any).
Proof.
  unfold list_loop. apply safe_then; [quiet|]. intros [[[name size] is_dir]|]; safe.
Qed.

Lemma list_directory_safe cluster : ok (list_directory cluster).
Proof.
  unfold list_directory. apply safe_then; [quiet|]. intros base. apply safe_then.
  - destruct base as [img|]; [|quiet]. apply respects_if; [|quiet]. apply respects_bind; [apply _|quiet|]. intros _.
    apply respects_bind; [apply _|quiet|]. intros n. apply respects_bind; [apply _|apply list_ramfs_quiet|]. intros. quiet.
  - intros any. apply safe_then; [quiet|]. intros ready. apply safe_if; [|safe]. apply safe_then; [quiet|]. intros _.
    apply list_loop_safe.
Qed.

Lemma sys_readdir_safe a : ok (sys_readdir a).
Proof.
  unfold sys_readdir. apply with_current_safe; [done|]. intros c _ _. apply safe_then; [unfold proc; quiet|]. intros p.
  apply safe_if; [apply list_directory_safe|]. apply with_user_str_safe; [done|]. intros path.
  apply safe_decide; [apply list_directory_safe|]. apply safe_then; [quiet|]. intros ready. apply safe_if; [safe|].
  apply safe_then; [quiet|]. intros [r cl]. apply safe_if; [safe|apply list_directory_safe].
Qed.

Lemma sys_mkdir_safe a : ok (sys_mkdir a).
Proof. unfold sys_mkdir. safe. Qed.

Lemma sys_chdir_safe a : ok (sys_chdir a).
Proof.
  unfold sys_chdir. apply safe_if; [safe|]. apply with_current_safe; [done|]. intros c _ _.
  apply with_user_str_safe; [done|]. intros path. apply safe_then; [quiet|]. intros ready. apply safe_if; [safe|].
  apply safe_then; [unfold proc; quiet|]. intros p. apply safe_then; [quiet|]. intros [r cl]. safe.
Qed.

Lemma sys_getcwd_safe a b : ok (sys_getcwd a b).
Proof.
  unfold sys_getcwd. apply safe_if; [safe|]. apply with_current_safe; [done|]. intros c _ _.
  apply safe_then; [unfold range_valid, proc; quiet|]. intros valid. apply safe_if; [safe|].
  apply safe_then; [unfold proc; quiet|]. intros p. apply safe_then; [quiet|]. intros [n kbuf]. safe.
Qed.

Lemma wait_loop_safe c pid : ok (wait_loop c pid).
Proof.
  unfold wait_loop. apply safe_then; [quiet|]. intros [x|]; [|safe]. apply safe_then; [|safe].
  apply on_table_quiet. intros t. eapply tquiet_trans; [|by apply tquiet_state]. by apply tquiet_upd.
Qed.

(** ** open, create, close, write_file *)

Lemma open_with_safe op a :
  (forall cwd name f, respects vquiet (op cwd name f)) ->
  (forall cwd name f v x f' v', op cwd name f v = Some ((x, f'), v') -> opens f f') ->
  ok (open_with op a).
Proof.
  intros Hq Ho. unfold open_with. apply safe_if; [safe|]. apply with_current_safe; [done|]. intros c _ _.
  apply with_slot_safe; [done|]. intros s Es Hs. apply with_user_str_safe; [done|]. intros name k o k' E Hk.
  unfold free_fd, proc, mbind, cM_bind, gets in E.
  destruct (find_from _ 0 8) as [j|] eqn:Ej; [|by injection E as <- <-].
  apply find_from_Some in Ej as (Hj & Hf & _). apply negb_true_iff in Hf.
  destruct (on_fd _ _ _ _) as [[rc k1]|] eqn:E1; [|done]. injection E as <- <-. split; [|done].
  eapply (open_fd_safe cur s j); [done|lia|done|apply Hq|apply Ho|exact E1|done].
Qed.

Lemma close_fd_safe c j : cur = Some c -> 0 <= c < 16 -> 0 <= j < 8 -> safe (D := D) cur (fun _ => True) (close_fd c j).
Proof.
  intros Ec Hc Hj k u k' E Hk. split; [|done].
  destruct (close_fd_inv no_debt k c j u k' (fl_ok _ _ Hk)) as (Hi & Hq & _); try done. by eapply tquiet_live.
Qed.

Lemma sys_close_safe fd : ok (sys_close fd).
Proof.
  unfold sys_close. destruct (fd <? FD_BASE) eqn:E; [safe|]. apply with_slot_safe; [done|]. intros s Es Hs.
  destruct (FD_PER_PROC <=? fd - FD_BASE) eqn:E2; [safe|]. unfold FD_PER_PROC in E2.
  apply safe_then; [unfold get_fd; quiet|]. intros f. apply safe_if; [safe|].
  eapply safe_bind; [apply close_fd_safe; (done || lia)|]. safe.
Qed.

Lemma sys_write_file_safe fd a len : ok (sys_write_file fd a len).
Proof.
  unfold sys_write_file. apply safe_if; [safe|]. apply with_slot_safe; [done|]. intros s _ Hs.
  apply safe_if; [safe|]. apply safe_then; [unfold get_fd; quiet|]. intros f.
  apply safe_if; [safe|]. apply safe_if; [safe|]. apply safe_if; [safe|].
  apply with_current_safe; [done|]. intros c _ _. apply safe_then; [quiet|]. intros kbuf. apply safe_if; [safe|].
  apply safe_then; [unfold from_user, proc; quiet|]. intros [rc bytes]. safe.
Qed.

(** ** exec, getarg *)

Lemma sys_exec_safe a b : ok (sys_exec a b).
Proof.
  unfold sys_exec. apply safe_if; [safe|]. apply with_current_safe; [done|]. intros c _ _.
  apply with_user_str_safe; [done|]. intros name. apply safe_then; [quiet|]. intros _.
  apply safe_then; [apply respects_if; unfold proc; quiet|]. intros _. apply safe_then; [unfold proc; quiet|]. intros p.
  apply safe_then; [quiet|]. intros [i|]; safe.
Qed.

Lemma getarg_loop_quiet n : forall c a len i, respects quiet (getarg_loop (D := D) n c a len i).
Proof. induction n as [|n IH]; intros c a len i; cbn [getarg_loop]; unfold proc; quiet. Qed.

Lemma sys_getarg_safe a len : ok (sys_getarg a len).
Proof.
  unfold sys_getarg. apply safe_if; [safe|]. apply with_current_safe; [done|]. intros c _ _.
  apply safe_then; [apply getarg_loop_quiet|]. intros [n|]; safe.
Qed.

(** ** pipe *)

Definition debt (i : Z) (r w : bool) : bool -> Z -> Z :=
  fun wr i' => if i' =? i then Z.b2z (if wr then w else r) else 0.

Lemma pipe_create_inv k kp i : fds_ok k -> pipe_create (v_pipes (k_vfs k)) = (kp, Some i) ->
  0 <= i < 8 /\ fds_inv (debt i true true) (put_vfs (put_pipes kp (k_vfs k)) k) /\
  tab (put_vfs (put_pipes kp (k_vfs k)) k) = tab k.
Proof.
  intros Hk. unfold pipe_create. destruct (find_from _ 0 8) as [j|] eqn:E; [|done]. intros [= <- <-].
  apply find_from_Some in E as (Hj & Hu & _). apply negb_true_iff in Hu.
  fold (pipe_of k j) in *. pose proof (fi_use _ _ Hk j ltac:(lia)) as Hus. rewrite Hu in Hus.
  pose proof (refs_nonneg k no_debt true j Hk ltac:(done) ltac:(lia)) as Hw.
  pose proof (refs_nonneg k no_debt false j Hk ltac:(done) ltac:(lia)) as Hr. cbn [refs] in Hr, Hw.
  split; [lia|]. split; [|done].
  apply (set_pipe_inv no_debt _ k _ j (fresh_pipe (pipe_of k j))); try done.
  intros wr i' Hi'. unfold debt, no_debt. destruct (Z.eqb_spec i' j) as [->|]; [|done].
  destruct wr; cbn [refs fresh_pipe read_refs write_refs Z.b2z]; lia.
Qed.

(** Giving the new pipe's reference to a free descriptor of the caller. *)
Lemma install_end k c j i (wr : bool) r w r' w' : 
  fds_inv (debt i r w) k -> 0 <= c < 16 -> 0 <= j < 8 -> 0 <= i < 8 ->
  f_used (fd_at (k_fds k) c j) = false -> state_of (tab k) c <> PROCESS_UNUSED ->
  (if wr then w = true /\ w' = false /\ r' = r else r = true /\ r' = false /\ w' = w) ->
  fds_inv (debt i r' w')
    (put_fds (put_fd (k_fds k) c j (pipe_end (fd_at (k_fds k) c j) (if wr then VFS_PIPE_WRITE else VFS_PIPE_READ) i)) k).
Proof.
  intros Hk Hc Hj Hi Hfree Hst Hd. set (f := pipe_end _ _ _).
  assert (He : forall wr' i', is_end wr' i' f = (i' =? i) && eqb wr' wr) by (apply end_kind; done).
  apply (set_fd_inv (debt i r w)); try done.
  - intros wr' i'. rewrite He. intros. b2p. lia.
  - intros wr' i' Hi'. rewrite (no_end_unused _ Hfree), He. unfold debt. destruct (Z.eqb_spec i' i); [|done].
    destruct wr; destruct Hd as (-> & -> & ->), wr'; cbn; lia.
Qed.

Lemma debt_nonneg i r w wr i' : 0 <= debt i r w wr i'.
Proof. unfold debt. destruct (i' =? i); [|lia]. destruct (if wr then w else r); cbn; lia. Qed.

Lemma debt_paid i k : fds_inv (debt i false false) k -> fds_ok k.
Proof. apply fds_inv_ext. intros wr i' _. unfold debt, no_debt. destruct (i' =? i); [|done]. by destruct wr. Qed.

(** Giving an unused reference back to the pool. *)
Lemma release_debt k i (wr : bool) r w r' w' :
  fds_inv (debt i r w) k -> 0 <= i < 8 ->
  (if wr then w = true /\ w' = false /\ r' = r else r = true /\ r' = false /\ w' = w) ->
  fds_inv (debt i r' w') (put_vfs (put_pipes (pipe_release wr (v_pipes (k_vfs k)) i) (k_vfs k)) k) /\
  tquiet (tab k) (k_tab (pipe_release wr (v_pipes (k_vfs k)) i)).
Proof.
  intros Hk Hi Hd. apply (release_inv (debt i r w)); try done.
  - rewrite (fi_refs _ _ Hk) by done. pose proof (holders_range wr i (k_fds k)). unfold debt. rewrite Z.eqb_refl.
    destruct wr; destruct Hd as (-> & _); cbn [Z.b2z]; lia.
  - eapply refs_nonneg; [exact Hk|apply debt_nonneg|done].
  - intros wr' i' _. unfold debt. destruct (i' =? i); [|done]. destruct wr; destruct Hd as (-> & -> & ->), wr'; cbn; lia.
Qed.

Lemma sys_pipe_safe a : ok (sys_pipe a).
Proof.
  unfold sys_pipe. apply with_current_safe; [done|]. intros c Ec Hc. apply with_slot_safe; [done|].
  intros s Es Hs. assert (s = c) as -> by congruence. intros k o k' E Hk. revert E.
  unfold mbind at 1, cM_bind at 1. destruct (pipe_create _) as [kp r] eqn:Ep. destruct r as [i|].
  2:{ intros [= <- <-]. split; [|done]. unfold pipe_create in Ep. destruct (find_from _ 0 8); [done|]. injection Ep as <-.
      by apply (quiet_live cur k). }
  destruct (pipe_create_inv k kp i (fl_ok _ _ Hk) Ep) as (Hi & Hk1 & Et1). clear Ep.
  set (k1 := put_vfs _ k) in *. assert (Hlive : state_of (tab k1) c <> PROCESS_UNUSED) by (rewrite Et1; by apply Hk).
  assert (Hfin : forall k2, fds_ok k2 -> tquiet (tab k1) (tab k2) -> fds_live cur k2).
  { intros k2 Hk2 Hq. eapply tquiet_live; [done| |exact Hk]. by rewrite <- Et1. }
  unfold mbind at 1, cM_bind at 1, free_fd, gets at 1. destruct (find_from _ 0 8) as [rj|] eqn:Er.
  2:{ intros [= <- <-]. split; [|done].
      destruct (release_debt k1 i false true true false true Hk1 Hi) as [Hk2 Hq2]; [done|].
      destruct (release_debt _ i true false true false false Hk2 Hi) as [Hk3 Hq3]; [done|].
      apply Hfin; [by eapply debt_paid|]. eapply tquiet_trans; [exact Hq2|exact Hq3]. }
  apply find_from_Some in Er as (Hrj & Hrf & _). apply negb_true_iff in Hrf.
  pose proof (install_end k1 c rj i false true true false true Hk1 Hc ltac:(lia) Hi Hrf Hlive ltac:(done)) as Hk2.
  unfold mbind at 1, cM_bind at 1, get_fd at 1, gets at 1. unfold mbind at 1, cM_bind at 1, set_fd at 1, modify at 1.
  fold (put_fd (k_fds k1) c rj (pipe_end (fd_at (k_fds k1) c rj) VFS_PIPE_READ i)). set (k2 := put_fds _ k1) in *.
  unfold mbind at 1, cM_bind at 1, gets at 1. destruct (find_from _ 0 8) as [wj|] eqn:Ew.
  2:{ unfold mbind at 1, cM_bind at 1. destruct (close_fd c rj k2) as [[u k3]|] eqn:E3; [|done]. intros [= <- <-]. split; [|done].
      assert (Hrj' : 0 <= rj < 8) by lia.
      destruct (close_fd_inv _ _ _ _ _ _ Hk2 (debt_nonneg _ _ _) Hc Hrj' E3) as (Hk3 & Hq3 & _).
      destruct (release_debt _ i true false true false false Hk3 Hi) as [Hk4 Hq4]; [done|].
      apply Hfin; [by eapply debt_paid|]. eapply tquiet_trans; [exact Hq3|exact Hq4]. }
  apply find_from_Some in Ew as (Hwj & Hwf & _). apply andb_prop in Hwf as [_ Hwf]. apply negb_true_iff in Hwf.
  pose proof (install_end k2 c wj i true false true false false Hk2 Hc ltac:(lia) Hi Hwf Hlive ltac:(done)) as Hk3.
  unfold mbind at 1, cM_bind at 1, get_fd at 1, gets at 1. unfold mbind at 1, cM_bind at 1, set_fd at 1, modify at 1.
  fold (put_fd (k_fds k2) c wj (pipe_end (fd_at (k_fds k2) c wj) VFS_PIPE_WRITE i)). set (k3 := put_fds _ k2) in *.
  apply debt_paid in Hk3. assert (Hl3 : fds_live cur k3) by (apply Hfin; [done|apply tquiet_refl]).
  match goal with |- ?m k3 = _ -> _ => assert (Hm : ok m) end; [|intros E; exact (Hm _ _ _ E Hl3)].
  apply safe_then; [unfold to_user, proc; quiet|]. intros rc. apply safe_if; [|safe].
  eapply safe_bind; [apply close_fd_safe; (done || lia)|]. intros _ _.
  eapply safe_bind; [apply close_fd_safe; (done || lia)|]. safe.
Qed.

(** ** exit *)

Lemma close_row_spec c n : cur = Some c -> forall j k u k', 0 <= j -> j + Z.of_nat n <= 8 ->
  close_row n c j k = Some (u, k') -> fds_live (D := D) cur k ->
  fds_live cur k' /\ forall j', 0 <= j' < 8 -> j <= j' < j + Z.of_nat n \/ f_used (fd_at (k_fds k) c j') = false ->
    f_used (fd_at (k_fds k') c j') = false.
Proof.
  intros Ec. induction n as [|n IH]; intros j k u k' Hj Hn E Hk.
  { injection E as <- <-. split; [done|]. intros j' _ [|]; [lia|done]. }
  pose proof (caller_range _ _ _ Hk Ec) as Hc. cbn [close_row] in E. unfold get_fd, mbind at 1, cM_bind at 1, gets in E.
  unfold mbind at 1, cM_bind at 1 in E.
  destruct (if f_used _ then _ else _) as [[u1 k1]|] eqn:E1; [|done].
  assert (H1 : fds_live cur k1 /\ forall j', 0 <= j' < 8 -> j' = j \/ f_used (fd_at (k_fds k) c j') = false ->
    f_used (fd_at (k_fds k1) c j') = false).
  { destruct (f_used (fd_at (k_fds k) c j)) eqn:Eu.
    - destruct (close_fd_safe c j Ec Hc ltac:(lia) k u1 k1 E1 Hk) as [Hk1 _]. split; [done|].
      destruct (close_fd_inv no_debt k c j u1 k1 (fl_ok _ _ Hk)) as (_ & _ & ->); [done|done|lia|done|].
      intros j' Hj' Hor. rewrite fd_at_put by (apply (fi_shape _ _ (fl_ok _ _ Hk)) || lia). rewrite Z.eqb_refl.
      destruct (Z.eqb_spec j j'); [done|]. by destruct Hor.
    - injection E1 as <- <-. split; [done|]. intros j' _ [->|]; done. }
  destruct H1 as [Hk1 H1]. destruct (IH (j + 1) k1 u k' ltac:(lia) ltac:(lia) E Hk1) as [Hk' H2]. split; [done|].
  intros j' Hj' Hor. apply H2; [done|]. destruct (Z.eq_dec j' j) as [->|]; [right; apply H1; auto|].
  destruct Hor; [left; lia|right; apply H1; auto].
Qed.

Lemma exit_states t i s : 0 <= i < 16 -> 0 <= s < 16 -> length (process_table t) = 16%nat ->
  state_of (process_exit t (Some i)) s = PROCESS_UNUSED -> s = i \/ state_of t s = PROCESS_UNUSED.
Proof.
  intros Hi Hs Hl. unfold process_exit. destruct (state_eqb (state_of t i) PROCESS_UNUSED) eqn:E; [auto|]. intros Hu.
  destruct (Z.eq_dec s i) as [->|Hne]; [auto|right]. apply (tq_free _ _ (tquiet_waiters _ _)) in Hu; [|done].
  revert Hu. unfold state_of, upd, slot. cbn [process_table]. by rewrite !zget_set_ne by lia.
Qed.

Lemma exit_frame t i : length (process_table (process_exit t (Some i))) = length (process_table t) /\
  current_process (process_exit t (Some i)) = current_process t.
Proof.
  unfold process_exit. destruct (state_eqb _ _); [done|].
  match goal with |- context [wake_waiters ?t1 ?pid] => destruct (tquiet_waiters t1 pid) as [-> -> _] end.
  split; [|done]. unfold upd. cbn [process_table]. by rewrite !zset_length.
Qed.

Lemma exit_inv k c : fds_ok k -> 0 <= c < 16 -> (forall j, 0 <= j < 8 -> f_used (fd_at (k_fds k) c j) = false) ->
  fds_ok (put_tab (process_exit (tab k) (Some c)) k).
Proof.
  intros [Hsh Hp Ht Hcu He Hr Hu Hcl] Hc Hrow. destruct (exit_frame (tab k) c) as [El Ecu].
  split; try done.
  - unfold tab at 1. cbn [put_tab put_vfs k_vfs put_pipes v_pipes set_tab k_tab]. by rewrite El.
  - unfold tab at 1. cbn [put_tab put_vfs k_vfs put_pipes v_pipes set_tab k_tab]. by rewrite Ecu.
  - intros s j Hs Hj E. cbn [put_tab put_vfs k_fds].
    change (state_of (process_exit (tab k) (Some c)) s = PROCESS_UNUSED) in E.
    apply exit_states in E as [->|]; auto.
Qed.

Lemma sys_exit_ok code k o k' : sys_exit code k = Some (o, k') -> fds_live (D := D) cur k -> fds_ok k' /\ outcome_ok o.
Proof.
  intros E Hk. unfold sys_exit, proc_slot, process_current, mbind, cM_bind, gets, on_table, on_sched, modify in E.
  rewrite (fl_cur _ _ Hk) in E. destruct cur as [c|] eqn:Ec.
  - rewrite <- Ec in Hk. pose proof (caller_range _ _ _ Hk Ec) as Hc. rewrite slot_of_range in E by done.
    destruct (close_row 8 c 0 k) as [[u k1]|] eqn:E1; [|done].
    destruct (close_row_spec c 8 Ec 0 k u k1 ltac:(lia) ltac:(lia) E1 Hk) as [Hk1 Hrow].
    rewrite (fl_cur _ _ Hk1), Ec in E. injection E as <- <-. split; [|done].
    eapply quiet_inv; [|apply (exit_inv k1 c); [apply Hk1|done|]].
    + split; [done|]. split; [done|]. apply (tquiet_yield (k_sched (put_tab (process_exit (tab k1) (Some c)) k1))).
    + intros j Hj. apply Hrow; [done|]. left. lia.
  - assert (Hn : slot_of None = None) by reflexivity. rewrite Hn in E. unfold mret, cM_ret in E. rewrite ?(fl_cur _ _ Hk) in E. injection E as <- <-.
    split; [|done]. eapply quiet_inv; [|apply Hk]. split; [done|]. split; [done|]. apply (tquiet_yield (k_sched k)).
Qed.

(** ** Slots given to new processes *)

Lemma fork_claims stacks isr t (p : pmm) m par frame t' p' m' c :
  process_fork stacks isr t p m par frame = (t', p', m', Some c) -> length (process_table t) = 16%nat ->
  0 <= c < 16 /\ state_of t c = PROCESS_UNUSED /\ state_of t' c <> PROCESS_UNUSED.
Proof.
  unfold process_fork. destruct par as [par|]; [|done]. destruct frame as [frame|]; [|done].
  destruct (fork_claim t) as [t1 [i|]] eqn:E; [|done]. apply tquiet_fork_claim in E as ([El _ _] & Hi & Hu).
  destruct (vmm_create_directory p m) as [[p1 m1] cr3]. destruct (cr3 =? 0); [done|].
  destruct (fork_tables _ _ _ _ _ _) as [[p2 m2] failed]. destruct failed.
  { intros E. by apply result_slot in E. }
  destruct (fork_stack _ _ _ _) as [m3 esp]. intros E Hl. pose proof (result_table _ _ _ _ _ _ _ _ E) as Et.
  assert (i = c) as <- by (apply result_slot in E; by injection E). split; [done|]. split; [done|].
  rewrite <- Et. unfold state_of. rewrite slot_upd, Z.eqb_refl by (try lia; unfold has16, upd; cbn [process_table]; rewrite !zset_length; congruence).
  done.
Qed.

Lemma spawn_claim_state t t1 i : spawn_claim t = (t1, Some i) -> has16 t ->
  0 <= i < 16 /\ state_of t i = PROCESS_UNUSED /\ state_of t1 i = PROCESS_BLOCKED /\ has16 t1.
Proof.
  unfold spawn_claim. destruct (find_from _ 0 16) as [j|] eqn:Ef; [|done]. cbn [alloc_pid]. intros [= <- <-] Hl.
  apply find_from_Some in Ef as (Hj & Hu & _). apply state_eqb_eq in Hu.
  set (t0 := mk_ptable _ _ _). assert (Hl0 : has16 t0) by (apply (upd_has16 t j); done).
  assert (E0 : slot t0 j = set_state PROCESS_BLOCKED (slot t j)) by (apply zget_set_eq; unfold has16 in Hl; unfold zlen; lia).
  split; [lia|]. split; [done|]. unfold state_of. rewrite !slot_upd, Z.eqb_refl, E0 by (rewrite ?upd_has16; done || lia).
  split; [done|]. by rewrite !upd_has16.
Qed.

Lemma spawn_user_claims stacks t m name e u cr3 cwd b boot t' m' c :
  process_spawn_user stacks t m name e u cr3 cwd b boot = (t', m', Some c) -> length (process_table t) = 16%nat ->
  0 <= c < 16 /\ state_of t c = PROCESS_UNUSED /\ state_of t' c <> PROCESS_UNUSED.
Proof.
  unfold process_spawn_user. destruct (boot =? 0); [done|].
  destruct (spawn_claim t) as [t1 [i|]] eqn:E; [|done]. unfold spawn_fill.
  destruct (build_initial_stack _ _ _ _) as [m1 esp]. intros [= <- <- <-] Hl.
  destruct (spawn_claim_state _ _ _ E Hl) as (Hi & Hu & Hb & Hl1). split; [done|]. split; [done|].
  destruct b; unfold state_of; rewrite !slot_upd, Z.eqb_refl by (rewrite ?upd_has16; done || lia); [|done].
  cbn [p_state]. fold (state_of t1 i). by rewrite Hb.
Qed.

(** [r] is a slot that was free before and is not any more. *)
Definition claims k k' (r : option Z) : Prop := forall c, r = Some c -> length (process_table (tab k)) = 16%nat ->
  0 <= c < 16 /\ state_of (tab k) c = PROCESS_UNUSED /\ state_of (tab k') c <> PROCESS_UNUSED.
Definition claiming (m : M (option Z)) : Prop := forall k r k', m k = Some (r, k') -> claims k k' r.

Lemma claims_pre k k1 k' r : quiet k k1 -> claims k1 k' r -> claims k k' r.
Proof.
  intros [_ [_ [Hl _ Hf]]] Hc c E Hl16. unfold tab in *. destruct (Hc c E) as (Hr & Hu & Hn); [unfold tab; congruence|].
  split; [done|]. split; [by apply Hf|done].
Qed.

Lemma claiming_none : claiming (mret None).
Proof. by intros k r k' [= <- <-]. Qed.

Lemma claiming_bind {A} (m : M A) f : respects quiet m -> (forall a, claiming (f a)) -> claiming (m ≫= f).
Proof.
  intros Hm Hf k r k'. unfold mbind, cM_bind. destruct (m k) as [[a k1]|] eqn:E; [|done]. intros E'.
  eapply claims_pre; [by eapply Hm|by eapply Hf].
Qed.

Lemma claiming_if (b : bool) m n : claiming m -> claiming n -> claiming (if b then m else n).
Proof. by destruct b. Qed.

Lemma exec_claims name cwd b : claiming (exec (D := D) name cwd b).
Proof.
  intros k r k'. unfold exec. unfold mbind at 1, cM_bind at 1.
  destruct (on_vfs _ k) as [[[rc file] k1]|] eqn:E; [|done]. intros E2.
  eapply claims_pre; [eapply on_vfs_quiet; [apply vfs_open_quiet|exact E]|].
  unfold on_vfs, zoom in E. destruct (vfs_open _ _ _ _) as [[[rc1 f1] v1]|] eqn:Eo; [|done]. injection E as <- <- <-.
  destruct (rc1 <? 0) eqn:Er; revert E2; unfold exec_fail, exec_error.
  { by intros [= <- <-]. }
  pose proof (exec_fetch_quiet name f1 (vfs_open_file _ _ _ _ _ _ _ Eo Er)) as Hq.
  match goal with |- ?m ?s = _ -> _ => assert (Hm : claiming m) end; [|apply Hm].
  apply claiming_bind; [done|]. intros [[img dst]|]; [|apply claiming_none].
  apply claiming_bind; [quiet|]. intros cr3. apply claiming_if; [apply claiming_bind; [quiet|intros; apply claiming_none]|].
  apply claiming_bind; [quiet|]. intros loaded. apply claiming_bind; [quiet|]. intros _.
  destruct loaded as [entry|]; [|apply claiming_bind; [quiet|intros; apply claiming_none]].
  apply claiming_bind; [apply exec_stack_quiet|]. intros okay. apply claiming_if; [apply claiming_none|].
  intros k2 r2 k3. unfold mbind at 1, cM_bind at 1. unfold exec_spawn, scheduler_spawn_user.
  destruct (negb _); [by intros [= <- <-]|].
  destruct (process_spawn_user _ _ _ _ _ _ _ _ _ _) as [[t m] q] eqn:Es. destruct q as [i|]; [|by intros [= <- <-]].
  intros [= <- <-] c [= <-] Hl. by eapply spawn_user_claims in Es.
Qed.

(** ** fork *)

Lemma dup_row_spec ch par n : 0 <= ch < 16 -> 0 <= par < 16 -> ch <> par -> forall j k u k', 0 <= j -> j + Z.of_nat n <= 8 ->
  (forall j', j <= j' < 8 -> f_used (fd_at (k_fds k) ch j') = false) -> state_of (tab k) ch <> PROCESS_UNUSED ->
  dup_row n ch par j k = Some (u, k') -> fds_ok (D := D) k -> fds_ok k' /\ tab k' = tab k.
Proof.
  intros Hc Hp Hne. induction n as [|n IH]; intros j k u k' Hj Hn Hrow Hst E Hk; [by injection E as <- <-|].
  cbn [dup_row] in E. unfold get_fd, mbind at 1, cM_bind at 1, gets in E. unfold mbind at 1, cM_bind at 1 in E.
  destruct (copy_fd _ _ _ _) as [[u1 k1]|] eqn:E1; [|done].
  destruct (copy_fd_inv k ch j par j u1 k1 Hk) as (Hk1 & Et & Ef); try done; try lia; [apply Hrow; lia|].
  destruct (IH (j + 1) k1 u k') as [Hk' Et']; try done; try lia.
  - intros j' Hj'. rewrite Ef, fd_at_put by (apply (fi_shape _ _ Hk) || lia). replace (j =? j') with false by lia.
    rewrite andb_false_r. apply Hrow. lia.
  - by rewrite Et.
  - split; [done|congruence].
Qed.

Lemma sys_fork_safe : ok sys_fork.
Proof.
  unfold sys_fork. apply safe_then; [quiet|]. intros frame. apply with_current_safe; [done|]. intros c Ec Hc.
  apply with_slot_safe; [done|]. intros s Es Hs. assert (s = c) as -> by congruence. intros k o k' E Hk. revert E.
  unfold mbind at 1, cM_bind at 1. destruct (process_fork _ _ _ _ _ _ _) as [[[t p] m] r] eqn:Ef.
  set (k1 := put_tab t (put_pages (p, m) k)).
  assert (Hq : quiet k k1) by (split; [done|]; split; [done|]; by eapply tquiet_fork).
  pose proof (quiet_live _ _ _ Hq Hk) as Hk1. destruct r as [ch|]; [|intros [= <- <-]; done].
  apply fork_claims in Ef as (Hch & Hun & Hst); [|apply (fl_ok _ _ Hk)]. rewrite slot_of_range by done.
  unfold mbind at 1, cM_bind at 1. destruct (dup_row 8 ch c 0 k1) as [[u k2]|] eqn:Ed; [|done]. intros [= <- <-].
  split; [|done]. assert (Hne : ch <> c) by (intros ->; by apply (fl_live _ _ Hk c)).
  destruct (dup_row_spec ch c 8 Hch Hc Hne 0 k1 u k2) as [Hk2 Et]; try done; try apply Hk1.
  - intros j Hj. apply (fi_clean _ _ (fl_ok _ _ Hk) ch j); [done|lia|done].
  - eapply tquiet_live; [done| |exact Hk1]. rewrite Et. apply tquiet_refl.
Qed.

(** ** exec_pipe *)

(** The new process [n]: not free, its descriptors from [m] on unused. *)
Definition fresh_row k (n m : Z) : Prop :=
  state_of (tab k) n <> PROCESS_UNUSED /\ forall j, m <= j < 8 -> f_used (fd_at (k_fds k) n j) = false.

Lemma upd_same_state t i f s : (forall p, p_state (f p) = p_state p) -> state_of (upd t i f) s = state_of t s.
Proof. intros Hf. unfold state_of. destruct (slot_upd_any t i f s) as [->|[-> <-]]; auto. Qed.

Lemma redirect_spec set s src n m k b k' :
  (forall v p, p_state (set v p) = p_state p) ->
  0 <= s < 16 -> (forall idx, src = Some idx -> 0 <= idx < 8) -> 0 <= n < 16 -> 0 <= m < 8 ->
  fresh_row k n m -> redirect set s src n n k = Some (b, k') -> fds_live (D := D) cur k ->
  b = true /\ fds_live cur k' /\ fresh_row k' n (m + 1).
Proof.
  intros Hset Hs Hsrc Hn Hm [Hst Hrow] E Hk. unfold redirect in E. destruct src as [idx|].
  2:{ injection E as <- <-. split; [done|]. split; [done|]. split; [done|]. intros j Hj. apply Hrow. lia. }
  unfold place_fd, free_fd in E. unfold mbind, cM_bind, gets in E.
  destruct (find_from _ 0 8) as [j|] eqn:Ej.
  2:{ exfalso. rewrite find_from_None in Ej. specialize (Ej m). rewrite Hrow in Ej by lia. specialize (Ej ltac:(lia)). done. }
  apply find_from_Some in Ej as (Hj & Hf & Hlow). apply negb_true_iff in Hf.
  assert (Hjm : j <= m). { destruct (Z_le_gt_dec j m); [done|]. specialize (Hlow m ltac:(lia)). rewrite Hrow in Hlow by lia. done. }
  unfold get_fd, gets in E. destruct (copy_fd _ _ _ _) as [[u k1]|] eqn:E1; [|done].
  destruct (copy_fd_inv k n j s idx u k1 (fl_ok _ _ Hk)) as (Hk1 & Et & Ef); try done; try lia; [by apply Hsrc|].
  injection E as <- <-. split; [done|]. set (t' := upd (tab k1) n (set (FD_BASE + j))).
  assert (Hs' : forall q, state_of t' q = state_of (tab k) q) by (intros q; subst t'; rewrite upd_same_state by done; by rewrite Et).
  assert (Hq : quiet k1 (put_tab t' k1)) by (split; [done|]; split; [done|]; apply tquiet_upd; by rewrite Hset).
  split; [|split].
  - eapply quiet_live; [exact Hq|]. eapply tquiet_live; [done| |exact Hk]. rewrite Et. apply tquiet_refl.
  - change (state_of t' n <> PROCESS_UNUSED). by rewrite Hs'.
  - intros j' Hj'. cbn [put_tab put_vfs k_fds]. rewrite Ef, fd_at_put by (apply (fi_shape _ _ (fl_ok _ _ Hk)) || lia).
    replace (j =? j') with false by lia. rewrite andb_false_r. apply Hrow. lia.
Qed.

Lemma wanted_safe s fd : safe (D := D) cur (fun r => forall idx, r = Some (Some idx) -> 0 <= idx < 8) (wanted s fd).
Proof.
  intros k r k' E Hk. unfold wanted in E. destruct (fd =? FAIL); [by injection E as <- <-|].
  unfold redirect_source in E. unfold mbind, cM_bind in E. destruct (fd <? FD_BASE) eqn:E1; [by injection E as <- <-|].
  destruct (FD_PER_PROC <=? fd - FD_BASE) eqn:E2; [by injection E as <- <-|]. unfold get_fd, gets, mbind, cM_bind in E.
  injection E as <- <-. split; [done|]. intros idx. destruct (f_used _); [|done]. intros [= <-].
  unfold FD_PER_PROC in E2. lia.
Qed.

Lemma sys_exec_pipe_safe a i o : ok (sys_exec_pipe a i o).
Proof.
  unfold sys_exec_pipe. apply safe_if; [safe|]. apply with_current_safe; [done|]. intros c Ec Hc.
  apply with_slot_safe; [done|]. intros s Es Hs. apply with_user_str_safe; [done|]. intros name.
  apply safe_then; [quiet|]. intros _. eapply safe_bind; [apply wanted_safe|]. intros [src1|] H1; [|safe].
  eapply safe_bind; [apply wanted_safe|]. intros [src2|] H2; [|safe]. apply safe_then; [unfold proc; quiet|]. intros p.
  intros k r k' E Hk. revert E. unfold mbind at 1, cM_bind at 1. destruct (exec _ _ _ _) as [[q k1]|] eqn:Ex; [|done].
  pose proof (exec_quiet _ _ _ _ _ _ Ex) as Hq. pose proof (quiet_live _ _ _ Hq Hk) as Hk1.
  destruct q as [n|]; [|by intros [= <- <-]].
  destruct (exec_claims _ _ _ _ _ _ Ex n eq_refl (fi_tab _ _ (fl_ok _ _ Hk))) as (Hn & Hun & Hst).
  rewrite slot_of_range by done. unfold mbind at 1, cM_bind at 1.
  destruct (redirect set_stdin_redirect s src1 n n k1) as [[b1 k2]|] eqn:E1; [|done].
  destruct (redirect_spec set_stdin_redirect s src1 n 0 k1 b1 k2) as (-> & Hk2 & Hf2); try done.
  { intros idx ->. by apply H1. }
  { split; [done|]. intros j Hj. rewrite (proj1 Hq). apply (fi_clean _ _ (fl_ok _ _ Hk)); done. }
  cbn [negb]. unfold mbind at 1, cM_bind at 1.
  destruct (redirect set_stdout_redirect s src2 n n k2) as [[b2 k3]|] eqn:E2; [|done].
  destruct (redirect_spec set_stdout_redirect s src2 n 1 k2 b2 k3) as (-> & Hk3 & Hf3); try done.
  { intros idx ->. by apply H2. }
  cbn [negb]. match goal with |- ?m k3 = _ -> _ => assert (Hm : ok m) by safe end. intros E. exact (Hm _ _ _ E Hk3).
Qed.

(** ** All system calls *)

Lemma handler_keeps num a1 a2 a3 k o k' : num <> 9 ->
  syscall_handler num a1 a2 a3 k = Some (o, k') -> fds_live (D := D) cur k -> fds_ok k' /\ outcome_ok o.
Proof.
  intros Hkill E Hk. destruct (Z.eqb_spec num 2) as [->|Hne]; [exact (sys_exit_ok a1 k o k' E Hk)|].
  assert (Hm : ok (syscall_handler num a1 a2 a3)).
  2:{ destruct (Hm _ _ _ E Hk) as [Hk' Ho]. split; [apply Hk'|done]. }
  unfold syscall_handler. replace (num =? 2) with false by lia. replace (num =? 9) with false by lia.
  apply safe_if; [apply sys_write_safe|]. 
  apply safe_if; [unfold sys_yield, process_current; apply safe_then; [quiet|]; intros [x|]; safe|].
  apply safe_if; [unfold sys_getpid, process_current; apply safe_then; [quiet|]; intros [x|]; safe|].
  apply safe_if; [apply sys_read_safe|].
  apply safe_if; [unfold sys_uptime; safe|].
  apply safe_if; [apply sys_meminfo_safe|].
  apply safe_if; [unfold sys_ps; safe|].
  apply safe_if; [apply sys_exec_safe|].
  apply safe_if; [apply open_with_safe; [apply vfs_open_quiet|intros *; apply vfs_open_fd]|].
  apply safe_if; [apply sys_close_safe|].
  apply safe_if; [apply raw_loop_safe|].
  apply safe_if; [unfold say; safe|]. apply safe_if; [unfold say; safe|].
  apply safe_if; [apply sys_getarg_safe|].
  apply safe_if; [safe|]. apply safe_if; [unfold say; safe|].
  apply safe_if; [unfold sys_set_raw_mode; safe|].
  apply safe_if; [unfold sys_wait; apply with_current_safe; [done|]; intros; apply wait_loop_safe|].
  apply safe_if; [apply sys_readdir_safe|].
  apply safe_if; [apply sys_write_file_safe|].
  apply safe_if; [apply open_with_safe; [apply vfs_create_quiet|intros *; apply vfs_create_fd]|].
  apply safe_if; [safe|].
  apply safe_if; [apply sys_fork_safe|].
  apply safe_if; [apply sys_chdir_safe|].
  apply safe_if; [apply sys_mkdir_safe|].
  apply safe_if; [apply sys_pipe_safe|].
  apply safe_if; [apply sys_exec_pipe_safe|].
  apply safe_if; [apply sys_getcwd_safe|].
  apply safe_if; [unfold sys_reboot; cbn [power_reboot]; safe|].
  apply safe_if; [unfold sys_shutdown; apply safe_then; [quiet|]; intros devs; destruct (power_shutdown _ _); safe|].
  apply safe_if; [safe|]. unfold unknown_syscall. safe.
Qed.

Lemma resume_keeps c k o k' : kont_ok c -> resume c k = Some (o, k') -> fds_live (D := D) cur k -> fds_ok k' /\ outcome_ok o.
Proof.
  intros Hc E Hk. assert (Hm : ok (resume c)).
  2:{ destruct (Hm _ _ _ E Hk) as [Hk' Ho]. split; [apply Hk'|done]. }
  destruct c; cbn [resume]; try destruct Hc.
  - by apply write_loop_safe.
  - by apply write_pipe_loop_safe.
  - by apply read_loop_safe.
  - by apply read_pipe_loop_safe.
  - apply key_loop_safe.
  - apply raw_loop_safe.
  - apply safe_then; [quiet|]. intros. apply wait_loop_safe.
  - apply list_loop_safe.
  - safe.
  - safe.
Qed.
End handlers.

(** ** The kernel as a state machine *)

Section machine.
Context {D : Type} `{BlockDevice D} `{Machine}.
Local Notation K := (kernel D).
Implicit Types k : K.

(** A process that has not exited is on the CPU. *)
Definition on_cpu k : Prop := exists c, current_process (tab k) = Some c /\ state_of (tab k) c <> PROCESS_UNUSED.

(** The suspended calls after an outcome. *)
Definition suspended (o : outcome) (P : list kont) : list kont :=
  match o with Done _ => P | Pause c => c :: P end.

(** A state and the calls suspended so far.  [ks_exec] is the kernel starting a
    program by itself; every system call except [SYS_KILL] (9) is a step.  A
    handler runs to its end or to the point where it blocks in one step: runs in
    which the timer takes the processor away in the middle of a handler (int 0x80
    leaves interrupts on) are not among these; [pipe_create_race] shows what such
    a run can do. *)
Inductive ksys_step : K * list kont -> K * list kont -> Prop :=
| ks_exec k P name cwd b r k' : exec name cwd b k = Some (r, k') -> ksys_step (k, P) (k', P)
| ks_call k P num a1 a2 a3 o k' :
    on_cpu k -> num <> 9 -> syscall_handler num a1 a2 a3 k = Some (o, k') -> ksys_step (k, P) (k', suspended o P)
| ks_resume k P c o k' :
    on_cpu k -> c ∈ P -> resume c k = Some (o, k') -> ksys_step (k, P) (k', suspended o P)
| ks_timer k P : ksys_step (k, P) (put_sched (timer_callback (k_sched k)) k, P)
| ks_dispatch k P s i : dispatch (k_sched k) = Some (s, i) -> ksys_step (k, P) (put_sched s k, P)
| ks_switch_back k P i :
    current_process (tab k) = Some i -> ksys_step (k, P) (put_sched (switched_back (k_sched k) i) k, P)
| ks_key k P scancode : ksys_step (k, P) (put_kbd (keyboard_callback (k_kbd k) scancode) k, P).

(** No descriptor is open and no pipe is in use. *)
Record fds_closed k : Prop := {
  fc_fds : k_fds k = replicate 16 (replicate 8 blank_fd);
  fc_pipes : pipe_table (v_pipes (k_vfs k)) = replicate 8 blank_pipe;
  fc_tab : has16 (tab k);
  fc_cur : forall c, current_process (tab k) = Some c -> 0 <= c < 16
}.

Lemma closed_fd s j : 0 <= s < 16 -> 0 <= j < 8 -> fd_at (replicate 16 (replicate 8 blank_fd)) s j = blank_fd.
Proof. intros. unfold fd_at. by rewrite !zget_replicate by lia. Qed.

Lemma closed_ok k : fds_closed k -> fds_ok k.
Proof.
  intros [Hf Hp Ht Hc]. assert (Hg : forall i, 0 <= i < 8 -> pipe_of k i = blank_pipe).
  { intros i Hi. unfold pipe_of, get_pipe. rewrite Hp. apply zget_replicate. lia. }
  split; rewrite ?Hf, ?Hp; try done.
  - split; [done|]. by apply Forall_replicate.
  - intros s j wr i Hs Hj. by rewrite closed_fd.
  - intros wr i Hi. rewrite Hg by done. unfold no_debt, holders.
    rewrite (count_upto_ext _ (fun _ => false)); [by destruct wr|]. intros n Hn. unfold end_at.
    rewrite closed_fd; [done| |by apply Z.mod_pos_bound]. split; [apply Z.div_pos; lia|apply Z.div_lt_upper_bound; lia].
  - intros i Hi. by rewrite Hg.
  - intros s j Hs Hj _. by rewrite closed_fd.
Qed.

(** A table change that frees no slot. *)
Lemma put_sched_ok k s : fds_ok k -> length (process_table (s_tab s)) = length (process_table (tab k)) ->
  (forall c, current_process (s_tab s) = Some c -> 0 <= c < 16) ->
  (forall i, 0 <= i < 16 -> state_of (s_tab s) i = PROCESS_UNUSED -> state_of (tab k) i = PROCESS_UNUSED) ->
  fds_ok (put_sched s k).
Proof.
  intros [Hsh Hp Ht Hcu He Hr Hu Hcl] Hl Hc Hf. split; try done.
  - change (length (process_table (s_tab s)) = 16%nat). by rewrite Hl.
  - intros i j Hi Hj E. apply Hcl; auto.
Qed.

Lemma tquiet_timer s : tquiet (s_tab s) (s_tab (timer_callback s)).
Proof.
  unfold timer_callback. set (s1 := mk_sched _ _ _ _). set (s2 := scheduler_tick _ _).
  assert (Hq : tquiet (s_tab s) (s_tab s2)).
  { subst s2. unfold scheduler_tick. destruct (negb _); [apply tquiet_refl|]. cbn [on_tab with_tab s_tab].
    unfold process_wake_sleepers. by apply tquiet_for_slots. }
  destruct (current_process _) as [i|]; [|done]. destruct (_ && _); [|done].
  eapply tquiet_trans; [exact Hq|apply tquiet_yield].
Qed.

Lemma ksys_step_ok k P k' P' : ksys_step (k, P) (k', P') -> fds_ok k -> Forall kont_ok P -> fds_ok k' /\ Forall kont_ok P'.
Proof.
  assert (Hlive : forall k, on_cpu k -> fds_ok k -> fds_live (current_process (tab k)) k).
  { intros k0 (c & E & Hst) Hk. split; [done|done|]. intros c' E'. congruence. }
  assert (Hsus : forall o Q, outcome_ok o -> Forall kont_ok Q -> Forall kont_ok (suspended o Q)).
  { intros [r|c] Q Ho HQ; [done|]. by apply Forall_cons. }
  inversion 1 as [? ? ? ? ? ? ? E|? ? ? ? ? ? ? ? Hc Hn E|? ? c ? ? Hc Hin E| |? ? s i E|? ? i E|]; subst; intros Hk HP.
  - split; [|done]. eapply quiet_inv; [by eapply exec_quiet|done].
  - destruct (handler_keeps _ _ _ _ _ _ _ _ Hn E (Hlive _ Hc Hk)). auto.
  - rewrite Forall_forall in HP. destruct (resume_keeps _ _ _ _ _ (HP c Hin) E (Hlive _ Hc Hk)).
    rewrite <- Forall_forall in HP. auto.
  - split; [|done]. destruct (tquiet_timer (k_sched k)) as [Hl Hcu Hf]. apply put_sched_ok; try done.
    rewrite Hcu. apply (fi_cur _ _ Hk).
  - split; [|done]. revert E. unfold dispatch. destruct (negb _); [done|]. destruct (find_from _ 0 16) as [j|]; [|done].
    intros [= <- <-]. set (n := scan_index (k_sched k) j).
    assert (Hn : 0 <= n < 16) by apply scan_index_range. apply put_sched_ok; cbn [s_tab]; try done.
    + unfold upd. cbn [process_table process_set_current]. by rewrite !zset_length.
    + intros c [= <-]. done.
    + intros q Hq. unfold state_of. rewrite !slot_upd by (rewrite ?upd_has16; done || apply (fi_tab _ _ Hk) || lia).
      rewrite ?Z.eqb_refl. destruct (Z.eqb_spec n q); [cbn; discriminate|done].
  - split; [|done]. apply put_sched_ok; try done; unfold switched_back; cbn [with_tab s_tab k_sched].
    + unfold process_set_current. cbn [process_table]. destruct (state_eqb _ _); [|done]. apply zset_length.
    + intros q Hq. unfold process_set_current. destruct (state_eqb _ _); [|done].
      apply (tq_free _ _ (tquiet_state (tab k) i PROCESS_READY ltac:(done))). done.
  - split; [|done]. eapply quiet_inv; [|exact Hk]. by apply quiet_same.
Qed.

(** C7 (pipe references).  In every state the kernel reaches from one with all
    descriptors closed, by any sequence of system calls other than
    [SYS_KILL], resumptions of blocked calls, program starts, context
    switches, timer ticks and key presses, as long as no handler is preempted
    between its start and the point where it blocks or returns, the reader and
    writer counts of each pipe are exactly the numbers of descriptors that name
    its ends, and the pipe is allocated exactly while there is one: no
    end-of-file is missed or reported early, and no pipe is reused while a
    descriptor names it.  Both conditions are needed: see
    [kill_strands_pipe_reader] for the killed process and [pipe_create_race] for
    the preempted handler. *)
Theorem pipe_refs_exact (k0 k : K) (P : list kont) :
  fds_closed k0 -> rtc ksys_step (k0, []) (k, P) -> forall i, 0 <= i < 8 ->
  read_refs (pipe_of k i) = holders false i (k_fds k) /\
  write_refs (pipe_of k i) = holders true i (k_fds k) /\
  in_use (pipe_of k i) = (0 <? holders false i (k_fds k) + holders true i (k_fds k)).
Proof.
  intros Hcl Hr i Hi.
  assert (Hinv : forall x y, rtc ksys_step x y -> fds_ok x.1 /\ Forall kont_ok x.2 -> fds_ok y.1 /\ Forall kont_ok y.2).
  { induction 1 as [|x [k1 P1] z Hs _ IH]; [done|]. destruct x as [k2 P2]. intros [Hk HP].
    apply IH. by eapply ksys_step_ok. }
  destruct (Hinv _ _ Hr) as [Hk _]; [split; [by apply closed_ok|by apply Forall_nil]|]. cbn [fst] in Hk.
  pose proof (fi_refs _ _ Hk true i Hi) as Hw. pose proof (fi_refs _ _ Hk false i Hi) as Hrd. unfold no_debt in *.
  cbn [refs] in *. rewrite (fi_use _ _ Hk i Hi), Hw, Hrd, !Z.add_0_r. done.
Qed.
End machine.

(** ** Example: two processes *)

Definition example_machine : Machine := {|
  process_stacks := 0x200000;
  user_task_bootstrap := 0x100100;
  isr128_resume := 0x100200;
  config_dword := fun _ => 0xFFFFFFFF;
  local_bytes := fun n => replicate n 0;
  local_bytes_length := fun n => length_replicate n 0 |}.
#[local] Existing Instance example_machine.

(** Process 1 (slot 0) runs, process 2 (slot 1) is ready. *)
Definition example_tab : ptable :=
  let t := upd boot_ptable 0 (fun p => set_state PROCESS_RUNNING (set_pid 1 (set_cr3 demo_dir p))) in
  let t := upd t 1 (fun p => set_state PROCESS_READY (set_pid 2 (set_cr3 demo_dir p))) in
  mk_ptable (process_table t) (Some 0) 3.

Definition example_kernel : kernel simdisk :=
  Kernel simdisk (mk_heap (with_mem (vmm_init boot_vmm) demo_mem) demo_maps.1.1 0 HEAP_START)
    (Vfs simdisk (Ramfs None 0 0) (blank_volume (demo_disk 12)) (mk_kpipes (replicate 8 blank_pipe) example_tab))
    true 0 0 kbd0 (Cfgst () [] false [] false ()) [] (replicate 16 (replicate 8 blank_fd)) 0x1000000 (-1) (replicate 64 0)
    false [].

Definition ran {A} (m : cM (kernel simdisk) A) (k : kernel simdisk) (p : A -> kernel simdisk -> bool) : bool :=
  match m k with Some (a, k') => p a k' | None => false end.

Lemma ran_true {A} (m : cM (kernel simdisk) A) k p : ran m k p = true -> exists a k', m k = Some (a, k') /\ p a k' = true.
Proof. unfold ran. destruct (m k) as [[a k']|]; [eauto|done]. Qed.

Lemma example_closed : fds_closed example_kernel.
Proof. split; try reflexivity. intros c [= <-]. lia. Qed.

Lemma pipe_refs_exact_witness :
  exists k, rtc ksys_step (example_kernel, []) (k, []) /\ holders true 0 (k_fds k) = 1 /\
    write_refs (pipe_of k 0) = holders true 0 (k_fds k).
Proof.
  destruct (ran_true (syscall_handler 28 0x1000000 0 0) example_kernel
    (fun o k' => match o with Done r => (r =? 0) && (holders true 0 (k_fds k') =? 1) | _ => false end))
    as (o & k' & E & Hp); [vm_compute; reflexivity|].
  destruct o as [r|]; [|done]. apply andb_prop in Hp as [_ Hp]. apply Z.eqb_eq in Hp.
  assert (Hr : rtc ksys_step (example_kernel, []) (k', [])).
  { apply rtc_once. apply (ks_call example_kernel [] 28 0x1000000 0 0 (Done r) k'); [|done|exact E].
    exists 0. split; [reflexivity|discriminate]. }
  exists k'. split; [exact Hr|]. split; [exact Hp|].
  exact (proj1 (proj2 (pipe_refs_exact example_kernel k' [] example_closed Hr 0 ltac:(lia)))).
Defined.

(** ** Killing a process leaves its descriptors behind *)

(** Process 1 holds the read end of pipe 0, process 2 the write end. *)
Definition piped_kernel : kernel simdisk :=
  let rd := pipe_end blank_fd VFS_PIPE_READ 0 in
  let wr := pipe_end blank_fd VFS_PIPE_WRITE 0 in
  put_fds (put_fd (put_fd (k_fds example_kernel) 0 0 rd) 1 0 wr)
    (put_vfs (put_pipes (pipe_create (v_pipes (k_vfs example_kernel))).1 (k_vfs example_kernel)) example_kernel).

(** The descriptors that live processes hold on the write end of pipe 0. *)
Definition live_writers (k : kernel simdisk) : Z :=
  count_upto (fun n => end_at true 0 (k_fds k) n && negb (state_eqb (state_of (tab k) (n / 8)) PROCESS_UNUSED)) 128.

(** [sys_kill] calls [process_exit] and nothing else: after the only writer of a
    pipe is killed, no process holds its write end, yet the reader blocks
    instead of seeing end-of-file, and a new process in the freed slot starts
    with the dead one's descriptor. *)
Theorem kill_strands_pipe_reader :
  ran (k1 ← sys_kill 2; r ← sys_read 3 0x1000000 16; mret (k1, r)) piped_kernel (fun '(o1, o2) k' =>
    match o1, o2 with
    | Done r1, Pause (KReadPipe _ _ _ _ _ _ i _) =>
        (r1 =? 0) && (i =? 0) && (live_writers k' =? 0) && (write_refs (pipe_of k' 0) =? 1) &&
        state_eqb (state_of (tab k') 0) PROCESS_BLOCKED && state_eqb (state_of (tab k') 1) PROCESS_UNUSED &&
        f_used (fd_at (k_fds k') 1 0)
    | _, _ => false
    end) = true.
Proof. vm_compute. reflexivity. Qed.

(** ** A preempted [pipe_create] *)

(** [pipe_create] runs with interrupts on: the scan for an unused pipe and the
    stores that claim it. *)
Definition pipe_scan (k : kpipes) : option Z := find_from (fun i => negb (in_use (get_pipe k i))) 0 8.
Definition pipe_claim (k : kpipes) (i : Z) : kpipes := set_pipe k i (fresh_pipe (get_pipe k i)).

Lemma pipe_create_halves k : pipe_create k = match pipe_scan k with None => (k, None) | Some i => (pipe_claim k i, Some i) end.
Proof. reflexivity. Qed.

(** Two processes call [SYS_PIPE], the first is preempted between its scan and
    its claim: both claim pipe [i] and open its two ends. *)
Definition raced_kernel (i : Z) : kernel simdisk :=
  let rd := pipe_end blank_fd VFS_PIPE_READ i in
  let wr := pipe_end blank_fd VFS_PIPE_WRITE i in
  let pipes := v_pipes (k_vfs example_kernel) in
  put_fds (put_fd (put_fd (put_fd (put_fd (k_fds example_kernel) 0 0 rd) 0 1 wr) 1 0 rd) 1 1 wr)
    (put_vfs (put_pipes (pipe_claim (pipe_claim pipes i) i) (k_vfs example_kernel)) example_kernel).

(** The second scan, made before the first claim, finds the same pipe.  Then two
    descriptors name each of its ends while each count is 1, and when one
    process closes its write end the other's pipe has no writer left, although
    it still holds a descriptor for writing. *)
Theorem pipe_create_race :
  pipe_scan (v_pipes (k_vfs example_kernel)) = Some 0 /\
  holders true 0 (k_fds (raced_kernel 0)) = 2 /\ write_refs (pipe_of (raced_kernel 0) 0) = 1 /\
  ran (sys_close 4) (raced_kernel 0) (fun _ k' => (holders true 0 (k_fds k') =? 1) && (write_refs (pipe_of k' 0) =? 0)) = true.
Proof. split_and!; vm_compute; reflexivity. Qed.
