(* ===== verification/SyscallMem.v ===== *)
(** * What system calls write in memory

    The buffers a process names in a system call are the only memory the call
    writes, whatever it was given: the kernel cannot be used to change its own
    memory or another process.  The calls that build address spaces or use the
    heap ([SYS_EXEC], [SYS_EXEC_PIPE], [SYS_FORK], [SYS_WRITE_FILE]) are the
    subject of the files on those components. *)

From Stdlib Require Import ZArith Lia ZifyBool.
From stdpp Require Import base tactics numbers list option relations gmap.
From S2P Require Import Prelude Pmm Mem Vmm FatName Fat FatDir FatFile Heap Ramfs Keyboard BootCfg Console Pci.
From S2P Require Import Process Scheduler Pipe Fork UserMem Vfs Elf Kernel Syscall FdTable FdRefs FdCalls.
Local Open Scope Z_scope.

(** ** A read never delivers more than was asked for *)

Section read_bounds.
Context {D : Type} `{BlockDevice D}.

Lemma zlen_sub_le b o n : 0 <= n -> zlen (sub b o (Z.to_nat n)) <= n.
Proof. intros. unfold zlen, sub. rewrite length_take. lia. Qed.

Lemma read_sectors_bound lba len k : forall i off acc (s : volume D) r s', 0 <= len -> zlen acc <= len ->
  read_sectors lba i off len k acc s = Some (r, s') -> zlen r.1 <= len.
Proof.
  induction k as [|k IH]; intros i off acc s r s' Hlen Hacc E; cbn [read_sectors] in E; [by injection E as <- <-|].
  destruct (zlen acc <? len) eqn:El; [|by injection E as <- <-]. unfold mbind, cM_bind in E.
  destruct (block_read_sector _ s) as [[[b|] s1]|]; [|by injection E as <- <-|done].
  unfold modify in E. eapply IH; [done| |exact E]. rewrite zlen_app.
  destruct (Z_le_gt_dec 0 (Z.min (len - zlen acc) (512 - off))) as [Hc|Hc].
  - pose proof (zlen_sub_le b (Z.to_nat off) _ Hc). lia.
  - replace (Z.to_nat (Z.min (len - zlen acc) (512 - off))) with 0%nat by lia. change (zlen (sub b _ 0)) with 0. lia.
Qed.

Lemma read_clusters_bound len n : forall c off acc (s : volume D) r s', 0 <= len -> zlen acc <= len ->
  read_clusters n c off len acc s = Some (r, s') -> zlen r <= len.
Proof.
  induction n as [|n IH]; intros c off acc s r s' Hlen Hacc E; cbn [read_clusters] in E;
    (destruct (_ && _); [|by injection E as <- <-]); [done|].
  unfold mbind, cM_bind, gets in E. destruct (read_sectors _ _ _ _ _ _ _) as [[[acc1 ok] s1]|] eqn:Er; [|done].
  apply read_sectors_bound in Er; [|done|done]. cbn [fst] in Er.
  destruct (negb ok); [by injection E as <- <-|]. destruct (zlen acc1 <? len); [|by injection E as <- <-].
  destruct (fat16_next_cluster c s1) as [[next s2]|]; [|done]. by eapply IH.
Qed.

(** The result of a read: refused, or the number of bytes stored. *)
Definition read_fits (len : Z) (res : Z * list Z) : Prop := res = (-1, []) \/ (res.1 = zlen res.2 /\ zlen res.2 <= len).

Lemma read_fits_nothing len : 0 <= len -> read_fits len (0, []).
Proof. intros. right. done. Qed.

Lemma fat16_read_at_fits first pos len size (s : volume D) r s' : 0 <= pos -> 0 < len < 2 ^ 32 ->
  fat16_read_at first pos len size s = Some (r, s') -> read_fits len r.
Proof.
  intros Hp Hl E. unfold fat16_read_at, mbind, cM_bind, gets in E. destruct (_ || _); [injection E as <- <-; by left|].
  destruct (size <=? pos) eqn:Es; [injection E as <- <-; apply read_fits_nothing; lia|]. b2p.
  set (len' := if _ : bool then _ else len) in E.
  assert (Hlen : 0 <= len' <= len).
  { subst len'. destruct (size <? u32 (pos + len)) eqn:Eu; [|lia]. b2p.
    assert (u32 (pos + len) <= pos + len) by (apply Z.mod_le; lia). lia. }
  destruct (seek_read _ _ _) as [[[c|] s1]|]; [|injection E as <- <-; apply read_fits_nothing; lia|done].
  destruct (read_clusters _ _ _ _ _ _) as [[acc s2]|] eqn:Er; [|done]. injection E as <- <-.
  apply read_clusters_bound in Er; [|lia|unfold zlen; cbn; lia]. right. cbn [fst snd]. lia.
Qed.

Lemma read_bytes_fits n : forall p len out, zlen out <= len -> zlen (read_bytes n p len out).2 <= len.
Proof.
  induction n as [|n IH]; intros p len out Ho; [done|]. unfold read_bytes; fold read_bytes.
  destruct ((zlen out <? len) && _) eqn:E; [|done]. b2p. apply IH. rewrite zlen_snoc. lia.
Qed.

Lemma pipe_read_fits kp i hb len kp' res : 0 <= len -> pipe_read kp i hb len = (kp', Return res) -> read_fits len res.
Proof.
  intros Hl. unfold pipe_read. destruct (_ || _); [intros [= <- <-]; by left|]. unfold read_turn.
  destruct (0 <? count _).
  - destruct (read_bytes 512 _ len []) as [p out] eqn:E. intros [= <- <-]. right. cbn [fst snd]. split; [done|].
    change out with (p, out).2. rewrite <- E. apply read_bytes_fits. unfold zlen. cbn. lia.
  - destruct (write_refs _ =? 0); [intros [= <- <-]; by apply read_fits_nothing|].
    destruct (current_process _); [done|]. intros [= <- <-]. by apply read_fits_nothing.
Qed.

Lemma vfs_read_fits f len (v : vfs D) res f' v' : 0 <= f_pos f -> 0 < len < 2 ^ 32 ->
  vfs_read f true len v = Some ((Return res, f'), v') -> read_fits len res.
Proof.
  intros Hp Hl E. unfold vfs_read in E. destruct (_ || _); [injection E as <- <- <-; by left|].
  destruct (f_backend f); try (injection E as <- <- <-; by left).
  - unfold mbind, cM_bind, gets in E. destruct (ramfs_base _) as [img|]; [|injection E as <- <- <-; by left].
    destruct (u32 (f_size f - f_pos f) =? 0); [injection E as <- <- <-; apply read_fits_nothing; lia|].
    set (n := if _ : bool then _ else len) in E.
    assert (Hn : 0 <= n <= len).
    { subst n. pose proof (u32_range (f_size f - f_pos f)). destruct (_ <? len) eqn:Eu; b2p; lia. }
    unfold ram_bytes in E. destruct (_ && _) eqn:Er; [|done]. injection E as <- <- <-. right. cbn [fst snd].
    unfold sub, zlen in *. rewrite length_take, length_drop. b2p. lia.
  - unfold mbind, cM_bind in E. destruct (on_fat _ v) as [[[n out] v1]|] eqn:Ef; [|done]. injection E as <- <- <-.
    unfold on_fat, zoom in Ef. destruct (fat16_read_at _ _ _ _ _) as [[r s']|] eqn:Er; [|done]. injection Ef as -> <-.
    by eapply fat16_read_at_fits.
  - unfold mbind, cM_bind, gets in E. destruct (pipe_read _ _ _ _) as [kp t] eqn:Ep. injection E as -> <- <-.
    eapply pipe_read_fits; [|exact Ep]. lia.
Qed.
End read_bounds.

(** ** Computations that leave memory alone *)

Section same_mem.
Context {D : Type} `{BlockDevice D} `{Machine}.
Local Notation K := (kernel D).
Local Notation M := (cM K).
Implicit Types k : K.

(** The positions of descriptors are unsigned. *)
Definition positions k : Prop := forall s j, 0 <= f_pos (fd_at (k_fds k) s j).

(** Memory is untouched, and positions stay unsigned. *)
Definition same_mem k k' : Prop := k_mem k' = k_mem k /\ (positions k -> positions k').

#[export] Instance same_mem_preorder : PreOrder same_mem.
Proof. split; [done|]. intros a b c [E1 P1] [E2 P2]. split; [congruence|auto]. Qed.

Lemma fd_at_set fds s j f s' j' :
  fd_at (fds.[s := (fds.[s]).[j := f]]) s' j' = f \/ fd_at (fds.[s := (fds.[s]).[j := f]]) s' j' = fd_at fds s' j'.
Proof.
  unfold fd_at, zget, zset. destruct (decide (Z.to_nat s = Z.to_nat s')) as [<-|Hs].
  2:{ right. by rewrite list_lookup_total_insert_ne. }
  destruct (decide (Z.to_nat s < length fds)%nat); [|right; by rewrite list_insert_ge by lia].
  rewrite list_lookup_total_insert_eq by done. destruct (decide (Z.to_nat j = Z.to_nat j')) as [<-|Hj].
  - destruct (decide (Z.to_nat j < length (fds !!! Z.to_nat s))%nat); [|right; by rewrite list_insert_ge by lia].
    left. by rewrite list_lookup_total_insert_eq.
  - right. by rewrite list_lookup_total_insert_ne.
Qed.

Lemma on_vfs_mem {A} (m : cM (vfs D) A) : respects same_mem (on_vfs m).
Proof. intros k a k'. unfold on_vfs, zoom. destruct (m _) as [[x v]|]; [|done]. by intros [= <- <-]. Qed.

Lemma on_cfg_mem {A} (m : cM (cfgst D) A) : respects same_mem (on_cfg m).
Proof. intros k a k'. unfold on_cfg, zoom. destruct (m _) as [[x v]|]; [|done]. by intros [= <- <-]. Qed.

Lemma modify_mem (f : K -> K) : (forall k, k_heap (f k) = k_heap k /\ k_fds (f k) = k_fds k) -> respects same_mem (modify f).
Proof.
  intros Hf. apply respects_modify. intros k. destruct (Hf k) as [E1 E2]. unfold same_mem, positions, k_mem.
  by rewrite E1, E2.
Qed.

Lemma on_table_mem f : respects same_mem (@on_table D f).
Proof. by apply modify_mem. Qed.

Lemma on_sched_mem f : respects same_mem (@on_sched D f).
Proof. by apply modify_mem. Qed.

Lemma print_mem l : respects same_mem (@print D l).
Proof. by apply modify_mem. Qed.

Lemma set_fd_mem s j f : 0 <= f_pos f -> respects same_mem (@set_fd D s j f).
Proof.
  intros Hf. apply respects_modify. intros k. split; [done|]. intros Hk s' j'. unfold put_fds. cbn [k_fds].
  destruct (fd_at_set (k_fds k) s j f s' j') as [-> | ->]; [done|apply Hk].
Qed.

Lemma on_kbd_mem {A} (f : kbd -> A * kbd) : respects same_mem (@on_kbd D A f).
Proof. intros k a k'. unfold on_kbd. destruct (f _). by intros [= <- <-]. Qed.

(** A computation on memory that only reads it. *)
Lemma on_mem_read {A} (m : cM mem A) : (forall x a x', m x = Some (a, x') -> x' = x) -> respects same_mem (@on_mem D A m).
Proof.
  intros Hm k a k'. unfold on_mem, zoom. destruct (m _) as [[x m']|] eqn:E; [|done]. intros [= <- <-].
  apply Hm in E. subst. done.
Qed.

Lemma ptr_valid_reads c a n x b x' : user_ptr_valid c a n x = Some (b, x') -> x' = x.
Proof.
  unfold user_ptr_valid. destruct c as [c|]; [|by intros [= <- <-]]. destruct (n =? 0); [by intros [= <- <-]|].
  destruct (_ <? a); [by intros [= <- <-]|]. destruct (pages_valid _ _ _ _ _); [by intros [= <- <-]|done].
Qed.

Lemma from_user_loop_reads n : forall c a i acc x r x', from_user_loop n c a i acc x = Some (r, x') -> x' = x.
Proof.
  induction n as [|n IH]; intros c a i acc x r x'; unfold from_user_loop; fold from_user_loop; [by intros [= <- <-]|].
  unfold mbind, cM_bind, gets. destruct (_ =? 0); [by intros [= <- <-]|]. apply IH.
Qed.

Lemma copy_from_user_reads c a n x r x' : copy_from_user c a n x = Some (r, x') -> x' = x.
Proof.
  unfold copy_from_user, mbind, cM_bind. destruct (user_ptr_valid c a n x) as [[b x1]|] eqn:E; [|done].
  apply ptr_valid_reads in E as ->. destruct c as [c|]; [|by intros [= <- <-]]. destruct b; [|by intros [= <- <-]].
  apply from_user_loop_reads.
Qed.

Lemma user_str_loop_reads n : forall c a i buf x r x', user_str_loop n c a i buf x = Some (r, x') -> x' = x.
Proof.
  induction n as [|n IH]; intros c a i buf x r x'; unfold user_str_loop; fold user_str_loop; [by intros [= <- <-]|].
  unfold mbind, cM_bind, gets. destruct (_ =? 0); [by intros [= <- <-]|]. destruct (_ =? 0); [by intros [= <- <-]|]. apply IH.
Qed.

Lemma range_valid_mem c a n : respects same_mem (@range_valid D c a n).
Proof.
  unfold range_valid, proc. apply respects_bind; [apply _|apply respects_gets, _|]. intros p. apply on_mem_read.
  intros *. apply ptr_valid_reads.
Qed.

Lemma from_user_mem c a n : respects same_mem (@from_user D c a n).
Proof.
  unfold from_user, proc. apply respects_bind; [apply _|apply respects_gets, _|]. intros p. apply on_mem_read.
  intros *. apply copy_from_user_reads.
Qed.

Lemma with_user_str_mem c a f : (forall s, respects same_mem (f s)) -> respects same_mem (@with_user_str D _ c a f).
Proof.
  intros Hf. unfold with_user_str, proc. apply respects_bind; [apply _|apply respects_gets, _|]. intros p.
  apply respects_bind; [apply _|apply on_mem_read; intros *; apply user_str_loop_reads|].
  intros [rc buf]. apply respects_if; [apply respects_ret, _|auto].
Qed.
End same_mem.

#[export] Hint Resolve on_vfs_mem on_cfg_mem on_table_mem on_sched_mem print_mem on_kbd_mem range_valid_mem
  from_user_mem : nullos.

Ltac same_mem_step :=
  first
    [ solve [auto with nullos]
    | apply modify_mem; done
    | apply with_user_str_mem; intros
    | respect_step; try apply _
    | match goal with |- forall _, _ => intro end ].
Ltac same_mem := repeat same_mem_step.

Section readers.
Context {D : Type} `{BlockDevice D} `{Machine}.

(** An operation through a pointer to a descriptor keeps its position unsigned. *)
Definition keeps_pos {A} (op : vfs_fd -> cM (vfs D) (A * vfs_fd)) : Prop :=
  forall f v r v', op f v = Some (r, v') -> 0 <= f_pos f -> 0 <= f_pos r.2.

Lemma on_fd_mem {A} s j (op : vfs_fd -> cM (vfs D) (A * vfs_fd)) : keeps_pos op -> respects same_mem (on_fd s j op).
Proof.
  intros Hop k a k'. unfold on_fd, get_fd, on_vfs, zoom, mbind, cM_bind, gets.
  destruct (op _ _) as [[r v]|] eqn:E; [|done]. unfold set_fd, modify. intros [= <- <-]. split; [done|].
  intros Hk s' j'. unfold put_fds, put_vfs. cbn [k_fds].
  destruct (fd_at_set (k_fds k) s j r.2 s' j') as [-> | ->]; [|apply Hk]. eapply Hop; [exact E|apply Hk].
Qed.

Lemma vfs_close_pos f v f' v' : @vfs_close D f v = Some (f', v') -> f_pos f' = f_pos f.
Proof.
  unfold vfs_close, mbind, cM_bind. intros E. repeat case_match; simplify_eq; by injection E as <- <-.
Qed.

Lemma close_fd_mem s j : respects same_mem (@close_fd D s j).
Proof.
  intros k a k'. unfold close_fd, get_fd, on_vfs, zoom, mbind, cM_bind, gets.
  destruct (vfs_close _ _) as [[f v]|] eqn:E; [|done]. apply vfs_close_pos in E. intros E'.
  assert (Hm : respects same_mem (@set_fd D s j f) \/ ~ positions k).
  { destruct (Z_le_gt_dec 0 (f_pos f)); [left; by apply set_fd_mem|right]. intros Hk. specialize (Hk s j). lia. }
  destruct Hm as [Hm|Hm]; [by apply Hm in E'|]. split; [|done]. by injection E' as _ <-.
Qed.

Lemma vfs_read_pos hb len : keeps_pos (fun f => @vfs_read D _ f hb len).
Proof.
  intros f v r v'. unfold vfs_read, mbind, cM_bind, gets. destruct (_ || _); [by intros [= <- <-]|].
  destruct (f_backend f); try by intros [= <- <-].
  - destruct (ramfs_base _); [|by intros [= <- <-]]. destruct (_ =? 0); [by intros [= <- <-]|].
    unfold ram_bytes. destruct (_ && _); [|done]. intros [= <- <-] _. apply u32_range.
  - destruct (on_fat _ v) as [[[n out] v1]|]; [|done]. intros [= <- <-]. cbn [snd].
    destruct (0 <? n); [|done]. intros _. apply u32_range.
  - destruct (pipe_read _ _ _ _) as [kp t]. by intros [= <- <-].
Qed.

Lemma vfs_write_pos src len w : keeps_pos (fun f => @vfs_write D _ f src len w).
Proof.
  intros f v r v'. unfold vfs_write, mbind, cM_bind, gets. destruct (negb _); [by intros [= <- <-]|].
  destruct (f_backend f); try by intros [= <- <-].
  - destruct (_ =? 0); [by intros [= <- <-]|]. destruct (on_fat _ v) as [[[[n fi] sz] v1]|]; [|done].
    destruct (n <? 0); [by intros [= <- <-]|]. intros [= <- <-] _. apply u32_range.
  - destruct (pipe_write _ _ _ _) as [kp t]. by intros [= <- <-].
Qed.

Lemma vfs_open_pos cwd name : keeps_pos (@vfs_open D _ cwd name).
Proof.
  intros f v r v'. unfold vfs_open, mbind, cM_bind. destruct name as [path|]; [|by intros [= <- <-]].
  destruct (on_ram _ _) as [[[[off sz]|] v1]|]; [by intros [= <- <-]| |done].
  destruct (on_fat _ _) as [[ready v2]|]; [|done]. destruct (negb ready); [by intros [= <- <-]|].
  destruct (on_fat _ v2) as [[[[[c s] p]| |] v3]|]; [..|done]; by intros [= <- <-].
Qed.

Lemma vfs_create_pos cwd name : keeps_pos (@vfs_create D _ cwd name).
Proof.
  intros f v r v'. unfold vfs_create, mbind, cM_bind. destruct name as [path|]; [|by intros [= <- <-]].
  destruct (vfs_open _ _ _ _) as [[[rc f1] v1]|] eqn:E; [|done]. apply vfs_open_pos in E. cbn [snd] in E.
  destruct (rc =? 0); [intros [= <- <-]; auto|].
  destruct (on_fat _ v1) as [[ready v2]|]; [|done]. destruct (negb ready); [intros [= <- <-]; auto|].
  destruct (on_fat _ v2) as [[[parent|] v3]|]; [|intros [= <- <-]; auto|done].
  destruct (on_fat _ v3) as [[[[[c s] p]| |] v4]|]; [..|done]; intros [= <- <-]; first [by auto|done].
Qed.

Lemma putc_loop_mem n : forall c a, respects same_mem (@putc_loop D n c a).
Proof. induction n as [|n IH]; intros c a; cbn [putc_loop]; unfold proc; same_mem. Qed.

End readers.

(** ** Turns *)

(** The memory a suspended call may still write: the user addresses
    [buf + i] for [lo <= i < hi]. *)
Definition span (buf lo hi a : Z) : Prop := exists i, lo <= i < hi /\ a = u32 (buf + i).

Definition kont_writes (c : kont) : Z -> Prop :=
  match c with
  | KRead _ _ _ buf len total | KReadPipe _ _ _ buf len total _ _ => span buf total len
  | KKeys _ buf len _ => span buf 0 len
  | _ => fun _ => False
  end.

(** The counters of a suspended call stay inside its buffer. *)
Definition kont_fits (c : kont) : Prop :=
  match c with
  | KRead _ _ _ buf len total => is_u32 buf /\ is_u32 len /\ 0 <= total
  | KReadPipe _ _ _ buf len total _ want => is_u32 buf /\ is_u32 len /\ 0 <= total /\ 0 < want <= len - total
  | KKeys _ buf len n => is_u32 buf /\ is_u32 len /\ 0 <= n
  | _ => True
  end.

Definition no_writes (c : kont) : Prop := kont_fits c /\ forall a, ~ kont_writes c a.

Section turns.
Context {St : Type} (R : relation St) `{!PreOrder R} (Q : kont -> Prop).

(** A turn of a system call: its effect, and what may be left to do. *)
Definition turn_ok (m : cM St outcome) : Prop :=
  forall s o s', m s = Some (o, s') -> R s s' /\ forall c, o = Pause c -> Q c.

Lemma turn_done r : turn_ok (mret (Done r)).
Proof. intros s o s' [= <- <-]. by split. Qed.

Lemma turn_pause c : Q c -> turn_ok (mret (Pause c)).
Proof. intros HQ s o s' [= <- <-]. split; [done|]. by intros c' [= <-]. Qed.

Lemma turn_ret o : (forall c, o = Pause c -> Q c) -> turn_ok (mret o).
Proof. intros HQ s o' s' [= <- <-]. by split. Qed.

Lemma turn_undefined : turn_ok undefined.
Proof. by intros s o s'. Qed.

Lemma turn_bind {A} (m : cM St A) f : respects R m -> (forall a, turn_ok (f a)) -> turn_ok (m ≫= f).
Proof.
  intros Hm Hf s o s'. unfold mbind, cM_bind. destruct (m s) as [[a s1]|] eqn:E; [|done]. intros E'.
  destruct (Hf _ _ _ _ E') as [HR HQ]. split; [|done]. etrans; [by eapply Hm|done].
Qed.

Lemma turn_if (b : bool) m n : turn_ok m -> turn_ok n -> turn_ok (if b then m else n).
Proof. by destruct b. Qed.

Lemma turn_decide {P} `{!Decision P} m n : turn_ok m -> turn_ok n -> turn_ok (if decide P then m else n).
Proof. by destruct (decide P). Qed.

Lemma turn_option {A} (x : option A) f n :
  (forall a, turn_ok (f a)) -> turn_ok n -> turn_ok (match x with Some a => f a | None => n end).
Proof. destruct x; auto. Qed.

Lemma turn_pair {A B} (x : A * B) f : (forall a b, turn_ok (f a b)) -> turn_ok (let '(a, b) := x in f a b).
Proof. destruct x; auto. Qed.
End turns.

Lemma turn_mono {St} (R R' : relation St) (Q Q' : kont -> Prop) m :
  (forall s s', R s s' -> R' s s') -> (forall c, Q c -> Q' c) -> turn_ok R Q m -> turn_ok R' Q' m.
Proof. intros HR HQ Hm s o s' E. destruct (Hm _ _ _ E) as [H1 H2]. split; auto. Qed.

(** ** Calls that write no memory *)

Lemma with_user_str_calm {D : Type} `{BlockDevice D} `{Machine} c a f :
  (forall s, turn_ok same_mem no_writes (f s)) -> turn_ok same_mem no_writes (@with_user_str D _ c a f).
Proof.
  intros Hf. unfold with_user_str, proc. apply turn_bind; [apply _|same_mem|]. intros p.
  apply turn_bind; [apply _|apply on_mem_read; intros *; apply user_str_loop_reads|].
  intros [rc buf]. apply turn_if; [apply turn_done, _|apply Hf].
Qed.

Create HintDb calm.
Ltac calm_step :=
  first
    [ solve [auto with calm] | apply turn_done, _ | apply turn_undefined | solve [apply turn_pause; [apply _|split; [exact I|intros ? []]]]
    | apply with_user_str_calm; intros | apply turn_if | apply turn_decide | apply turn_option; [intros|] | apply turn_pair; intros
    | apply turn_bind; [apply _| |intros]
    | match goal with |- respects _ _ => same_mem end
    | match goal with |- forall _, _ => intro end ].
Ltac calm := repeat calm_step.

Section calm.
Context {D : Type} `{BlockDevice D} `{Machine}.
Local Notation M := (cM (kernel D)).

(** The call writes no memory in this turn and will not later. *)
Local Notation calm := (turn_ok same_mem no_writes).

Lemma write_loop_calm c s j buf len total : calm (@write_loop D _ c s j buf len total).
Proof.
  unfold write_loop, get_fd, negative_or_total. apply turn_if; [calm|]. apply turn_bind; [apply _|same_mem|].
  intros [rc chunk]. apply turn_if; [calm|]. apply turn_bind; [apply _|same_mem|]. intros f.
  apply turn_bind; [apply _|apply on_fd_mem, vfs_write_pos|]. unfold chunk_written, negative_or_total.
  intros [r|w|]; [destruct (r <? 0)|..]; calm.
Qed.

Lemma write_pipe_loop_calm c s j buf len total pipe chunk w : calm (@write_pipe_loop D c s j buf len total pipe chunk w).
Proof.
  intros k o k'. unfold write_pipe_loop. destruct (pipe_write _ _ _ _) as [kp t]. intros [= <- <-]. split; [done|].
  unfold chunk_written, negative_or_total. intros kt. destruct t as [r|w'|]; [destruct (r <? 0); [done|]|..];
    intros [= <-]; split; first [exact I|intros ? []].
Qed.

Hint Resolve write_loop_calm write_pipe_loop_calm : calm.
Hint Resolve putc_loop_mem : nullos.

Lemma sys_write_calm fd buf len : calm (@sys_write D _ fd buf len).
Proof. unfold sys_write, with_current, with_slot, process_current, proc_slot, proc, get_fd. calm. Qed.

Lemma close_row_mem n : forall s j, respects same_mem (@close_row D n s j).
Proof.
  induction n as [|n IH]; intros s j; cbn [close_row]; unfold get_fd; [same_mem|].
  apply respects_bind; [apply _|same_mem|]. intros f. apply respects_bind; [apply _| |intros; apply IH].
  apply respects_if; [apply close_fd_mem|same_mem].
Qed.
Hint Resolve close_row_mem close_fd_mem : nullos.

Lemma sys_exit_calm code : calm (@sys_exit D code).
Proof. unfold sys_exit, proc_slot, process_current. calm. Qed.

Lemma sys_yield_calm : calm (@sys_yield D).
Proof. unfold sys_yield, process_current. calm. Qed.

Lemma sys_getpid_calm : calm (@sys_getpid D).
Proof. unfold sys_getpid, process_current, proc. calm. Qed.

Lemma raw_loop_calm : calm (@raw_loop D).
Proof. unfold raw_loop. calm. Qed.

Lemma sys_uptime_calm : calm (@sys_uptime D).
Proof. unfold sys_uptime. calm. Qed.

Lemma sys_ps_calm : calm (@sys_ps D).
Proof. unfold sys_ps. calm. Qed.

Lemma open_with_calm op name : (forall cwd n, keeps_pos (op cwd n)) -> calm (open_with (D := D) op name).
Proof.
  intros Hop. unfold open_with, with_current, with_slot, process_current, proc_slot, free_fd, proc.
  apply turn_if; [calm|]. apply turn_bind; [apply _|same_mem|]. intros [c|]; [|calm].
  apply turn_bind; [apply _|same_mem|]. intros [s|]; [|calm]. apply with_user_str_calm. intros str.
  apply turn_bind; [apply _|same_mem|]. intros [j|]; [|calm]. apply turn_bind; [apply _|same_mem|]. intros p.
  apply turn_bind; [apply _|by apply on_fd_mem|]. calm.
Qed.

Lemma sys_close_calm fd : calm (@sys_close D fd).
Proof. unfold sys_close, with_slot, proc_slot, get_fd. calm. Qed.

Lemma list_ramfs_mem n : forall img i, respects same_mem (@list_ramfs D n img i).
Proof.
  induction n as [|n IH]; intros img i; cbn [list_ramfs]; unfold img_string; same_mem.
Qed.

Lemma list_loop_calm c i b : calm (@list_loop D _ c i b).
Proof. unfold list_loop. calm. Qed.
Hint Resolve list_loop_calm : calm.
Hint Resolve list_ramfs_mem : nullos.

Lemma list_directory_calm c : calm (@list_directory D _ c).
Proof. unfold list_directory. calm. Qed.
Hint Resolve list_directory_calm : calm.

Lemma sys_readdir_calm path : calm (@sys_readdir D _ _ path).
Proof. unfold sys_readdir, with_current, process_current, proc. calm. Qed.

Lemma sys_mkdir_calm path : calm (@sys_mkdir D _ _ path).
Proof. unfold sys_mkdir, with_current, process_current, proc. calm. Qed.

Lemma sys_chdir_calm path : calm (@sys_chdir D _ _ path).
Proof. unfold sys_chdir, with_current, process_current, proc. calm. Qed.

Lemma wait_loop_calm c pid : calm (@wait_loop D c pid).
Proof. unfold wait_loop. calm. Qed.
Hint Resolve wait_loop_calm : calm.

Lemma sys_wait_calm pid : calm (@sys_wait D pid).
Proof. unfold sys_wait, with_current, process_current. calm. Qed.

Lemma sys_kill_calm pid : calm (@sys_kill D pid).
Proof. unfold sys_kill. calm. Qed.
End calm.

(** ** Page directories *)

(** The page directory of every process stays the same. *)
Definition same_dirs (t t' : ptable) : Prop := forall s, p_cr3 (slot t' s) = p_cr3 (slot t s).

Lemma same_dirs_upd t i f : (forall p, p_cr3 (f p) = p_cr3 p) -> same_dirs t (upd t i f).
Proof. intros Hf s. destruct (slot_upd_any t i f s) as [->|[-> <-]]; auto. Qed.

Lemma same_dirs_wake t w : same_dirs t (wake t w).
Proof. unfold wake, process_make_ready. destruct w; [|done]. destruct (state_eqb _ _); [by apply same_dirs_upd|done]. Qed.

Lemma same_dirs_sleep s n : same_dirs (s_tab s) (s_tab (scheduler_sleep_current s n)).
Proof.
  unfold scheduler_sleep_current, scheduler_yield. destruct (current_process _) as [c|]; [|done].
  destruct (n =? 0); [case_match; [by apply same_dirs_upd|done]|]. unfold on_tab, process_sleep. cbn [s_tab].
  case_match; [done|]. intros i. etrans; by apply same_dirs_upd.
Qed.

Lemma same_dirs_read kp i hb len kp' r : pipe_read kp i hb len = (kp', r) -> same_dirs (k_tab kp) (k_tab kp').
Proof.
  unfold pipe_read, read_turn. destruct (_ || _); [by intros [= <- <-]|]. destruct (0 <? _).
  { destruct (read_bytes _ _ _ _). intros [= <- <-]. apply same_dirs_wake. }
  destruct (_ =? 0); [by intros [= <- <-]|]. destruct (current_process _); intros [= <- <-]; [|done]. by apply same_dirs_upd.
Qed.

Lemma same_dirs_release_read kp i : same_dirs (k_tab kp) (k_tab (pipe_release_read kp i)).
Proof.
  unfold pipe_release_read, release_read. destruct (_ <=? i); [done|]. cbv zeta.
  destruct (read_refs _ =? 0); [apply same_dirs_wake|done].
Qed.

Lemma same_dirs_release_write kp i : same_dirs (k_tab kp) (k_tab (pipe_release_write kp i)).
Proof.
  unfold pipe_release_write, release_write. destruct (_ <=? i); [done|]. cbv zeta.
  destruct (write_refs _ =? 0); [apply same_dirs_wake|done].
Qed.

Section dirs.
Context {D : Type} `{BlockDevice D} `{Machine}.
Local Notation K := (kernel D).
Local Notation M := (cM K).
Implicit Types k : K.

(** Neither memory nor the directories change. *)
Definition mild k k' : Prop := same_mem k k' /\ same_dirs (tab k) (tab k').

#[export] Instance mild_preorder : PreOrder mild.
Proof.
  split; [done|]. intros a b c [S1 D1] [S2 D2]. split; [by etrans|]. intros s. by rewrite D2.
Qed.

Lemma modify_mild (f : K -> K) :
  (forall k, k_heap (f k) = k_heap k /\ k_fds (f k) = k_fds k /\ k_vfs (f k) = k_vfs k) -> respects mild (modify f).
Proof.
  intros Hf. apply respects_modify. intros k. destruct (Hf k) as (E1 & E2 & E3).
  split; [unfold same_mem, positions, k_mem; by rewrite E1, E2|]. unfold tab. by rewrite E3.
Qed.

Lemma print_mild l : respects mild (@print D l).
Proof. by apply modify_mild. Qed.

Lemma on_kbd_mild {A} (f : kbd -> A * kbd) : respects mild (@on_kbd D A f).
Proof. intros k a k'. unfold on_kbd. destruct (f _). by intros [= <- <-]. Qed.

Lemma on_cfg_mild {A} (m : cM (cfgst D) A) : respects mild (on_cfg m).
Proof. intros k a k'. unfold on_cfg, zoom. destruct (m _) as [[x v]|]; [|done]. by intros [= <- <-]. Qed.

Lemma on_fat_mild {A} (m : cM (volume D) A) : respects mild (on_vfs (on_fat m)).
Proof. intros k a k'. unfold on_vfs, on_fat, zoom. destruct (m _) as [[x v]|]; [|done]. by intros [= <- <-]. Qed.

Lemma sleep_mild n : respects mild (@on_sched D (fun s => scheduler_sleep_current s n)).
Proof. apply respects_modify. intros k. split; [done|]. apply (same_dirs_sleep (k_sched k)). Qed.

Lemma range_valid_mild c a n : respects mild (@range_valid D c a n).
Proof.
  intros k b k' E. split; [by eapply range_valid_mem|]. revert E. unfold range_valid, proc, on_mem, zoom, mbind, cM_bind, gets.
  destruct (user_ptr_valid _ _ _ _) as [[x m]|]; [|done]. by intros [= <- <-].
Qed.

Lemma note_boot_up_mild : respects mild (@note_boot_up D _).
Proof.
  unfold note_boot_up. repeat first [apply on_cfg_mild | apply modify_mild; done | respect_step; try apply _ | intro].
Qed.

Lemma set_fd_mild s j f : 0 <= f_pos f -> respects mild (@set_fd D s j f).
Proof. intros Hf k a k' E. split; [by eapply set_fd_mem|]. by injection E as _ <-. Qed.

Lemma close_fd_mild s j : respects mild (@close_fd D s j).
Proof.
  intros k a k' E. split; [by eapply close_fd_mem|]. revert E.
  unfold close_fd, get_fd, on_vfs, zoom, mbind, cM_bind, gets, vfs_close, on_pipes, modify.
  destruct (f_used _); [destruct (f_backend _)|]; intros [= _ <-]; try done;
    [apply same_dirs_release_read|apply same_dirs_release_write].
Qed.

Lemma release_mild i : respects mild (on_vfs (on_pipes (D := D) (fun kp => pipe_release_read kp i))) /\
  respects mild (on_vfs (on_pipes (D := D) (fun kp => pipe_release_write kp i))).
Proof.
  split; intros k a k' [= <- <-]; (split; [done|]); [apply same_dirs_release_read|apply same_dirs_release_write].
Qed.

Lemma read_fd_mild s j len : respects mild (on_fd (D := D) s j (fun f => vfs_read f true len)).
Proof.
  intros k a k' E. split; [eapply on_fd_mem; [apply vfs_read_pos|exact E]|]. revert E.
  unfold on_fd, get_fd, on_vfs, zoom, mbind, cM_bind, gets. destruct (vfs_read _ _ _ _) as [[[t f] v]|] eqn:E; [|done].
  unfold set_fd, modify. intros [= <- <-]. revert E. unfold vfs_read, mbind, cM_bind, gets.
  destruct (_ || _); [by intros [= <- <- <-]|]. destruct (f_backend _); try by intros [= <- <- <-].
  - destruct (ramfs_base _); [|by intros [= <- <- <-]]. destruct (_ =? 0); [by intros [= <- <- <-]|].
    unfold ram_bytes. destruct (_ && _); [|done]. by intros [= <- <- <-].
  - unfold on_fat, zoom. destruct (fat16_read_at _ _ _ _ _) as [[[n out] v1]|]; [|done]. by intros [= <- <- <-].
  - destruct (pipe_read _ _ _ _) as [kp t'] eqn:Ep. intros [= <- <- <-]. by apply same_dirs_read in Ep.
Qed.
End dirs.

(** ** Calls that fill a user buffer *)

(** Only the bytes at the mapped user addresses in [W] may differ. *)
Definition only_at (sp : gmap Z Z) (W : Z -> Prop) (m m' : mem) : Prop :=
  forall x, (forall a, W a -> is_Some (sp !! (a / 4096)) -> x <> phys_of sp a) -> rd8 m' x = rd8 m x.

Section writers.
Context {D : Type} `{BlockDevice D} `{Machine}.
Local Notation K := (kernel D).
Local Notation M := (cM K).
Implicit Types k : K.

(** The calling process, its address space and the addresses it named. *)
Context (c : Z) (sp : gmap Z Z) (W : Z -> Prop).

Definition caller k : Prop := user_space (k_mem k) (p_cr3 (slot (tab k) c)) sp /\ positions k.

Definition wrote k k' : Prop := caller k -> caller k' /\ only_at sp W (k_mem k) (k_mem k').

#[export] Instance wrote_preorder : PreOrder wrote.
Proof.
  split; [by intros k Hk|]. intros x y z H1 H2 Hx. destruct (H1 Hx) as [Hy O1]. destruct (H2 Hy) as [Hz O2].
  split; [done|]. intros a Ha. rewrite O2 by done. by apply O1.
Qed.

Lemma wrote_mild {A} (m : M A) : respects mild m -> respects wrote m.
Proof.
  intros Hm k a k' E [Hs Hp]. destruct (Hm _ _ _ E) as [[Em Pm] Hd]. split.
  - split; [by rewrite Em, Hd|auto].
  - intros x _. by rewrite Em.
Qed.

(** What is left of the call stays within [W]. *)
Definition kont_in (kt : kont) : Prop := kont_fits kt /\ forall a, kont_writes kt a -> W a.

Definition fills (m : M outcome) : Prop := forall k o k', caller k -> m k = Some (o, k') ->
  caller k' /\ only_at sp W (k_mem k) (k_mem k') /\ forall kt, o = Pause kt -> kont_in kt.

Lemma fills_turn m : turn_ok wrote kont_in m -> fills m.
Proof. intros Hm k o k' Hk E. destruct (Hm _ _ _ E) as [H1 H2]. destruct (H1 Hk). auto. Qed.

Lemma fills_done r : fills (mret (Done r)).
Proof. apply fills_turn, turn_done, _. Qed.

Lemma fills_pause kt : kont_in kt -> fills (mret (Pause kt)).
Proof. intros. apply fills_turn, turn_pause; [apply _|done]. Qed.

Lemma fills_bind_val {A} (V : A -> Prop) (m : M A) f : respects wrote m ->
  (forall k a k', caller k -> m k = Some (a, k') -> V a) -> (forall a, V a -> fills (f a)) -> fills (m ≫= f).
Proof.
  intros Hm HV Hf k o k' Hk. unfold mbind, cM_bind. destruct (m k) as [[a k1]|] eqn:E; [|done]. intros E'.
  destruct (Hm _ _ _ E Hk) as [Hk1 O1]. destruct (Hf _ (HV _ _ _ Hk E) _ _ _ Hk1 E') as (Hk' & O2 & HQ).
  split; [done|]. split; [|done]. intros x Hx. rewrite O2 by done. by apply O1.
Qed.

Lemma fills_bind {A} (m : M A) f : respects wrote m -> (forall a, fills (f a)) -> fills (m ≫= f).
Proof. intros Hm Hf. by apply (fills_bind_val (fun _ => True)); [|done|auto]. Qed.

Lemma fills_gets {A} (g : K -> A) f : (forall a, fills (f a)) -> fills (gets g ≫= f).
Proof. apply fills_bind, respects_gets, _. Qed.

Lemma fills_if (b : bool) m n : (b = true -> fills m) -> (b = false -> fills n) -> fills (if b then m else n).
Proof. destruct b; auto. Qed.

(** The checked copy. *)
Lemma to_user_wrote a bytes : is_u32 a -> is_u32 (zlen bytes) ->
  (forall i, 0 <= i < zlen bytes -> a + i < 2 ^ 32 -> W (a + i)) -> respects wrote (@to_user D c a bytes).
Proof.
  intros Ha Hn HW k r k' E [Hs Hp]. revert E. unfold to_user, proc, on_mem, zoom, mbind, cM_bind, gets.
  pose proof (copy_to_user_spec (k_mem k) (slot (tab k) c) sp a bytes Hs Ha Hn) as Hc. unfold wp in Hc.
  destruct (copy_to_user _ _ _ _) as [[rc m']|]; [|done]. intros [= <- <-].
  destruct Hc as [Hs' [((Hpos & Hov & Hmap) & _ & _ & Hfr)|(_ & _ & ->)]].
  - split; [by split|]. intros x Hx. apply Hfr. intros i Hi. apply Hx; [apply HW; lia|by apply Hmap].
  - split; [by split|]. by intros x _.
Qed.

(** The unchecked store of [sys_getarg]. *)
Lemma poke_wrote a b k : is_u32 a -> W a -> let kp := user_kptr (k_mem k) (slot (tab k) c) a in
  kp <> 0 -> wrote k (put_mem (wr8 (k_mem k) kp b) k).
Proof.
  intros Ha HW kp Hkp [Hs Hp]. subst kp. rewrite (user_kptr_eq _ _ sp Hs a Ha) in *.
  destruct (decide (is_Some (sp !! (a / 4096)))) as [[f Hf]|]; [|done]. split.
  - split; [|done]. apply (user_space_frame (k_mem k) (wr8 (k_mem k) (phys_of sp a) b) _ _ f Hs); [eauto|].
    rewrite <- (phys_of_page sp a f) by done. apply same_outside_wr8.
  - intros x Hx. change (k_mem (put_mem ?m k)) with m. rewrite rd8_wr8.
    destruct (Z.eqb_spec (phys_of sp a) x) as [<-|]; [|done]. exfalso. by apply (Hx a); [| |done].
Qed.

Lemma span_in buf lo hi a : lo <= hi -> forall i, 0 <= i < hi - lo -> a = u32 (buf + lo) -> a + i < 2 ^ 32 -> span buf lo hi (a + i).
Proof.
  intros Hlh i Hi -> Hov. exists (lo + i). split; [lia|]. unfold u32 in *.
  pose proof (Z.mod_pos_bound (buf + lo) (2 ^ 32) ltac:(lia)). rewrite Z.add_assoc, <- (Zplus_mod_idemp_l (buf + lo)).
  symmetry. apply Z.mod_small. lia.
Qed.

Lemma chunk_read_fills s j buf len total want res :
  is_u32 buf -> is_u32 len -> 0 <= total -> 0 < want <= len - total -> (forall a, span buf total len a -> W a) ->
  read_fits want res -> fills (@chunk_read D c s j buf len total want res).
Proof.
  intros Hb Hl Ht Hw HW Hr. unfold is_u32 in *. unfold chunk_read, negative_or_total. destruct res as [r out].
  destruct Hr as [[= -> ->]|[Er Hr]]; [apply fills_done|]. cbn [fst snd] in *.
  apply fills_if; intros E1; [apply fills_done|]. apply fills_if; intros E2; [apply fills_done|]. b2p.
  assert (Hlen : zlen (take (Z.to_nat r) out) = r) by (unfold zlen in *; rewrite length_take; lia).
  apply fills_bind; [apply to_user_wrote; [apply u32_range|rewrite Hlen; unfold is_u32; lia|]|].
  { rewrite Hlen. intros i Hi Hov. apply HW, span_in; [lia|lia|done|done]. }
  intros rc. apply fills_if; intros E3; [apply fills_done|]. destruct (r <? want) eqn:E4; [apply fills_done|]. b2p.
  assert (Eu : u32 (total + r) = total + r) by (apply Z.mod_small; lia). rewrite Eu.
  apply fills_pause. split; [cbn; unfold is_u32; lia|]. intros a (i & Hi & ->). apply HW. exists i. split; [lia|done].
Qed.

Lemma read_loop_fills s j buf len total :
  is_u32 buf -> is_u32 len -> 0 <= total -> (forall a, span buf total len a -> W a) ->
  fills (@read_loop D _ c s j buf len total).
Proof.
  intros Hb Hl Ht HW. unfold read_loop, get_fd. apply fills_if; intros E1; [apply fills_done|]. b2p.
  set (want := if _ : bool then _ else _). assert (Hw : 0 < want <= len - total).
  { subst want. unfold SYS_READ_CHUNK. destruct (_ <? _) eqn:E; b2p; lia. }
  apply fills_gets. intros f.
  apply (fills_bind_val (fun t => forall res, t = Return res -> read_fits want res)).
  - apply wrote_mild, read_fd_mild.
  - intros k t k' [_ Hp] E res ->. revert E. unfold on_fd, get_fd, on_vfs, zoom, mbind, cM_bind, gets.
    destruct (vfs_read _ _ _ _) as [[[t f1] v]|] eqn:E; [|done]. unfold set_fd, modify. intros [= -> _].
    eapply vfs_read_fits; [apply Hp| |exact E]. unfold is_u32 in *. lia.
  - intros [res|w|] Hres; [by apply chunk_read_fills; auto|..];
      (apply fills_pause; split; [done|exact HW]).
Qed.

Lemma read_pipe_loop_fills s j buf len total pipe want :
  is_u32 buf -> is_u32 len -> 0 <= total -> 0 < want <= len - total -> (forall a, span buf total len a -> W a) ->
  fills (@read_pipe_loop D c s j buf len total pipe want).
Proof.
  intros Hb Hl Ht Hw HW. unfold read_pipe_loop.
  apply (fills_bind_val (fun t => forall res, t = Return res -> read_fits want res)).
  - apply wrote_mild. intros k t k'. destruct (pipe_read _ _ _ _) as [kp t'] eqn:E. intros [= <- <-].
    split; [done|]. by apply same_dirs_read in E.
  - intros k t k' _. destruct (pipe_read _ _ _ _) as [kp t'] eqn:E. intros [= <- <-] res ->.
    eapply pipe_read_fits; [|exact E]. lia.
  - intros [res|w|] Hres; [by apply chunk_read_fills; auto|..];
      (apply fills_pause; split; [done|exact HW]).
Qed.

Lemma key_loop_fills buf len n :
  is_u32 buf -> is_u32 len -> 0 <= n -> (forall a, span buf 0 len a -> W a) -> fills (@key_loop D c buf len n).
Proof.
  intros Hb Hl Hn HW. unfold key_loop, in_raw_mode. apply fills_if; intros E1; [apply fills_done|]. b2p.
  assert (Hpause : forall n', 0 <= n' -> fills (mret (Pause (KKeys c buf len n')))).
  { intros n' Hn'. apply fills_pause. split; [done|exact HW]. }
  assert (Hput : forall i a b, 0 <= i < len -> a = u32 (buf + i) -> respects wrote (@to_user D c a [b])).
  { intros i a b Hi ->. apply to_user_wrote; [apply u32_range|done|]. change (zlen [b]) with 1. intros i' Hi' Hov.
    apply HW. exists i. split; [lia|]. replace i' with 0 by lia. lia. }
  apply fills_bind; [apply wrote_mild, on_kbd_mild|]. intros ch. apply fills_if; intros E2.
  { apply fills_bind; [apply wrote_mild, sleep_mild|auto]. }
  apply fills_if; intros E3.
  { apply fills_bind; [apply wrote_mild, print_mild|]. intros _. apply fills_bind; [|intros; apply fills_done].
    apply (Hput 0); [lia|]. rewrite Z.add_0_r. symmetry. by apply Z.mod_small. }
  apply fills_gets. intros raw. apply fills_bind.
  { apply respects_if; [apply wrote_mild, print_mild|apply respects_ret, _]. }
  intros _. apply fills_if; intros E4; [apply Hpause; destruct (0 <? n) eqn:En; b2p; lia|].
  apply fills_bind; [by apply (Hput n)|]. intros rc. apply fills_if; intros E5; [apply fills_done|].
  apply fills_if; intros E6; [apply fills_done|apply Hpause; lia].
Qed.

(** The handlers, called by [c]. *)
Definition serves (m : M outcome) : Prop := forall k o k', current_process (tab k) = Some c -> caller k ->
  m k = Some (o, k') -> caller k' /\ only_at sp W (k_mem k) (k_mem k') /\ forall kt, o = Pause kt -> kont_in kt.

Lemma serves_current f : fills (f c) -> serves (@with_current D f).
Proof. intros Hf k o k' Hc Hk. unfold with_current, process_current, mbind, cM_bind, gets. rewrite Hc. by apply Hf. Qed.

Lemma serves_or_fail (b : bool) r m : serves m -> serves (if b then mret (Done r) else m).
Proof. destruct b; [|done]. intros _ k o k' _ Hk E. by apply (fills_done r). Qed.

Lemma fills_slot f : (forall s, fills (f s)) -> fills (@with_slot D f).
Proof. intros Hf. unfold with_slot, proc_slot. apply fills_gets. intros [s|]; [done|apply fills_done]. Qed.

Lemma sys_read_serves fd buf len : is_u32 buf -> is_u32 len -> (forall a, span buf 0 len a -> W a) ->
  serves (@sys_read D _ fd buf len).
Proof.
  intros Hb Hl HW. unfold sys_read. apply serves_or_fail, serves_current.
  apply fills_bind; [apply wrote_mild, range_valid_mild|]. intros ok. apply fills_if; intros _; [apply fills_done|].
  unfold proc. apply fills_gets. intros p. cbv zeta. apply fills_if; intros _.
  - apply fills_slot. intros s. apply fills_if; intros _; [apply fills_done|]. unfold get_fd. apply fills_gets.
    intros f. apply fills_if; intros _; [apply fills_done|]. by apply read_loop_fills.
  - apply fills_if; intros _; [apply fills_done|]. apply fills_bind; [apply wrote_mild, note_boot_up_mild|].
    intros _. by apply key_loop_fills.
Qed.

Lemma getarg_loop_wrote buf len n : (forall a, span buf 0 len a -> W a) ->
  forall i, 0 <= i -> respects wrote (@getarg_loop D n c buf len i).
Proof.
  intros HW. induction n as [|n IH]; intros i Hi k r k'; cbn [getarg_loop]; unfold proc, mbind, cM_bind, gets;
    (destruct (negb _) eqn:E1; [by intros [= <- <-]|]; destruct (_ <=? i); [done|];
     destruct (_ =? 0); [by intros [= <- <-]|]); [done|]. b2p.
  destruct (user_kptr _ _ _ =? 0) eqn:E2; [by intros [= <- <-]|]. b2p.
  unfold on_mem, zoom, modify. intros E. etrans; [|eapply IH; [|exact E]; lia].
  apply (poke_wrote (u32 (buf + i))); [apply u32_range| |done]. apply HW. exists i. split; [lia|done].
Qed.

Lemma sys_getarg_serves buf len : (forall a, span buf 0 len a -> W a) -> is_u32 len -> serves (@sys_getarg D buf len).
Proof.
  intros HW Hl. unfold sys_getarg. destruct ((buf =? 0) || (len =? 0)) eqn:E0;
    [by apply (serves_or_fail true FAIL (with_current (fun _ => mret (Done 0)))), serves_current, fills_done|].
  b2p. apply serves_current. apply (fills_bind_val (fun r => forall n, r = Some n -> 0 <= n < len)).
  - by apply getarg_loop_wrote.
  - intros k r k' _ E n ->. revert E. unfold is_u32 in *.
    enough (Hg : forall f i k, 0 <= i < len -> getarg_loop (D := D) f c buf len i k = Some (Some n, k') -> 0 <= n < len)
      by (apply Hg; lia). clear k. induction f as [|f IH]; intros i k Hi; cbn [getarg_loop];
    unfold proc, mbind, cM_bind, gets; (destruct (negb _) eqn:E1; [by intros [= <- _]|];
    destruct (_ <=? i); [done|]; destruct (_ =? 0); [by intros [= <- _]|]); [done|]. b2p.
    destruct (_ =? 0); [done|]. unfold on_mem, zoom, modify. apply IH. lia.
  - intros [n|] Hn; [|apply fills_done]. specialize (Hn n eq_refl). unfold proc. apply fills_turn.
    intros k o k'. unfold mbind, cM_bind, gets. destruct (_ =? 0) eqn:E2; [by intros [= <- <-]|]. b2p.
    unfold on_mem, zoom, modify. intros [= <- <-]. split; [|done].
    apply (poke_wrote (u32 (buf + n))); [apply u32_range| |done]. apply HW. exists n. done.
Qed.

Lemma sys_getcwd_serves buf len : is_u32 buf -> is_u32 len -> (forall a, span buf 0 len a -> W a) ->
  serves (@sys_getcwd D _ _ buf len).
Proof.
  intros Hb Hl HW. unfold sys_getcwd. apply serves_or_fail, serves_current.
  apply fills_bind; [apply wrote_mild, range_valid_mild|]. intros ok. apply fills_if; intros _; [apply fills_done|].
  unfold proc. apply fills_gets. intros p. apply fills_bind; [apply wrote_mild, on_fat_mild|]. intros [n kbuf].
  apply fills_if; intros E1; [apply fills_done|]. apply fills_if; intros E2; [apply fills_done|]. b2p.
  assert (Hn : zlen (take (Z.to_nat (n + 1)) kbuf) <= len) by (unfold zlen; rewrite length_take; lia).
  apply fills_bind; [apply to_user_wrote; [done|unfold is_u32, zlen in *; lia|]|intros; apply fills_done].
  intros i Hi Hov. apply HW. exists i. split; [lia|]. unfold is_u32 in *. symmetry. apply Z.mod_small. lia.
Qed.

(** A word stored through an optional pointer. *)
Lemma put_word_wrote a v : is_u32 a -> (a <> 0 -> forall x, span a 0 4 x -> W x) ->
  respects wrote (if a =? 0 then mret 0 else @to_user D c a (bytes32 v)).
Proof.
  intros Ha HW. destruct (Z.eqb_spec a 0) as [|Hne]; [apply respects_ret, _|].
  apply to_user_wrote; [done|done|]. intros i Hi Hov. apply (HW Hne). exists i. split; [exact Hi|].
  unfold is_u32 in *. symmetry. apply Z.mod_small. lia.
Qed.

Lemma sys_meminfo_serves a1 a2 a3 : is_u32 a1 -> is_u32 a2 -> is_u32 a3 ->
  (forall x, (a1 <> 0 /\ span a1 0 4 x) \/ (a2 <> 0 /\ span a2 0 4 x) \/ (a3 <> 0 /\ span a3 0 4 x) -> W x) ->
  serves (@sys_meminfo D a1 a2 a3).
Proof.
  intros H1 H2 H3 HW. unfold sys_meminfo. apply serves_current. apply fills_gets. intros v1.
  apply fills_bind; [apply put_word_wrote; [done|auto]|]. intros r1. apply fills_if; intros _; [apply fills_done|].
  apply fills_bind. { intros k a k'. destruct (heap_free_bytes _); [|done]. by intros [= <- <-]. }
  intros v2. apply fills_bind; [apply put_word_wrote; [done|auto]|]. intros r2. apply fills_if; intros _; [apply fills_done|].
  apply fills_gets. intros v3. apply fills_bind; [apply put_word_wrote; [done|auto]|]. intros r3.
  apply fills_if; intros _; apply fills_done.
Qed.

Lemma sys_pipe_serves a : is_u32 a -> (forall x, span a 0 8 x -> W x) -> serves (@sys_pipe D a).
Proof.
  intros Ha HW. unfold sys_pipe. apply serves_current, fills_slot. intros s. apply fills_bind.
  { apply wrote_mild. intros k r k'. unfold pipe_create. destruct (find_from _ 0 8); by intros [= <- <-]. }
  intros [i|]; [|apply fills_done]. unfold free_fd, get_fd. apply fills_gets. intros [rj|].
  2:{ apply fills_bind; [apply wrote_mild, release_mild|]. intros _.
      apply fills_bind; [apply wrote_mild, release_mild|]. intros _. apply fills_done. }
  apply fills_gets. intros f1. apply fills_bind; [by apply wrote_mild, set_fd_mild|]. intros _. apply fills_gets.
  intros [wj|].
  2:{ apply fills_bind; [apply wrote_mild, close_fd_mild|]. intros _.
      apply fills_bind; [apply wrote_mild, release_mild|]. intros _. apply fills_done. }
  apply fills_gets. intros f2. apply fills_bind; [by apply wrote_mild, set_fd_mild|]. intros _.
  apply fills_bind.
  { apply to_user_wrote; [done|done|]. intros j Hj Hov. apply HW. exists j. split; [exact Hj|].
    unfold is_u32 in *. symmetry. apply Z.mod_small. lia. }
  intros rc. apply fills_if; intros _; [|apply fills_done].
  apply fills_bind; [apply wrote_mild, close_fd_mild|]. intros _.
  apply fills_bind; [apply wrote_mild, close_fd_mild|]. intros _. apply fills_done.
Qed.
End writers.

(** ** All system calls *)

(** A turn of the kernel on behalf of a process. *)
Inductive request :=
| Call (num arg1 arg2 arg3 : Z)
| Resume (c : kont).

(** The user addresses a request may write. *)
Definition call_writes (num a1 a2 a3 x : Z) : Prop :=
  if num =? 5 then span a2 0 a3 x
  else if num =? 7 then (a1 <> 0 /\ span a1 0 4 x) \/ (a2 <> 0 /\ span a2 0 4 x) \/ (a3 <> 0 /\ span a3 0 4 x)
  else if num =? 16 then span a1 0 a2 x
  else if num =? 28 then span a1 0 8 x
  else if num =? 30 then span a1 0 a2 x
  else False.

Definition request_writes (r : request) : Z -> Prop :=
  match r with Call num a1 a2 a3 => call_writes num a1 a2 a3 | Resume c => kont_writes c end.

(** Arguments are 32-bit; the calls that build address spaces or use the heap are left out. *)
Definition request_ok (r : request) : Prop :=
  match r with
  | Call num a1 a2 a3 => is_u32 a1 /\ is_u32 a2 /\ is_u32 a3 /\ num ∉ [10; 22; 25; 29]
  | Resume c => kont_fits c
  end.

Section requests.
Context {D : Type} `{BlockDevice D} `{Machine}.
Local Notation K := (kernel D).
Implicit Types k : K.

Definition perform (r : request) : cM K outcome :=
  match r with Call num a1 a2 a3 => syscall_handler num a1 a2 a3 | Resume c => resume c end.

(** The process that made the request. *)
Definition requester k (r : request) : option Z :=
  match r with
  | Resume (KRead c _ _ _ _ _) | Resume (KReadPipe c _ _ _ _ _ _ _) | Resume (KKeys c _ _ _) => Some c
  | _ => current_process (tab k)
  end.

Definition writes_its_buffers sp (W : Z -> Prop) k (o : outcome) k' : Prop :=
  positions k' /\ only_at sp W (k_mem k) (k_mem k') /\ forall c, o = Pause c -> kont_in W c.

Lemma calm_request sp W (m : cM K outcome) k o k' : turn_ok same_mem no_writes m -> positions k ->
  m k = Some (o, k') -> writes_its_buffers sp W k o k'.
Proof.
  intros Hm Hp E. destruct (Hm _ _ _ E) as [[Em HP] HQ]. split; [auto|]. split; [intros x _; by rewrite Em|].
  intros c Ec. destruct (HQ c Ec) as [Hf Hn]. split; [done|]. intros a Ha. by apply Hn in Ha.
Qed.

Lemma calm_handler num a1 a2 a3 : num ∉ [5; 7; 16; 28; 30; 10; 22; 25; 29] ->
  turn_ok same_mem no_writes (@syscall_handler D _ _ num a1 a2 a3).
Proof.
  intros Hn. rewrite !not_elem_of_cons in Hn. unfold syscall_handler.
  replace (num =? 5) with false by lia. replace (num =? 7) with false by lia. replace (num =? 16) with false by lia.
  replace (num =? 28) with false by lia. replace (num =? 30) with false by lia. replace (num =? 10) with false by lia.
  replace (num =? 22) with false by lia. replace (num =? 25) with false by lia. replace (num =? 29) with false by lia.
  apply turn_if; [apply sys_write_calm|]. apply turn_if; [apply sys_exit_calm|]. apply turn_if; [apply sys_yield_calm|].
  apply turn_if; [apply sys_getpid_calm|]. apply turn_if; [apply sys_uptime_calm|]. apply turn_if; [apply sys_ps_calm|].
  apply turn_if; [apply sys_kill_calm|]. apply turn_if; [apply open_with_calm, vfs_open_pos|].
  apply turn_if; [apply sys_close_calm|]. apply turn_if; [apply raw_loop_calm|]. unfold say.
  apply turn_if; [calm|]. apply turn_if; [calm|]. apply turn_if; [calm|]. apply turn_if; [calm|].
  apply turn_if; [unfold sys_set_raw_mode, with_current, process_current, proc; calm|].
  apply turn_if; [apply sys_wait_calm|]. apply turn_if; [apply sys_readdir_calm|].
  apply turn_if; [apply open_with_calm, vfs_create_pos|]. apply turn_if; [calm|]. apply turn_if; [apply sys_chdir_calm|].
  apply turn_if; [apply sys_mkdir_calm|]. apply turn_if; [unfold sys_reboot; cbn [power_reboot]; calm|].
  apply turn_if; [unfold sys_shutdown; calm|]. apply turn_if; [calm|]. unfold unknown_syscall. calm.
Qed.

Lemma serves_handler c sp num a1 a2 a3 : is_u32 a1 -> is_u32 a2 -> is_u32 a3 -> num ∈ [5; 7; 16; 28; 30] ->
  serves c sp (call_writes num a1 a2 a3) (@syscall_handler D _ _ num a1 a2 a3).
Proof.
  intros H1 H2 H3 Hn. rewrite !elem_of_cons, elem_of_nil in Hn.
  destruct Hn as [->|[->|[->|[->|[->|[]]]]]]; unfold syscall_handler; cbn [Z.eqb Pos.eqb].
  - by apply sys_read_serves.
  - by apply sys_meminfo_serves.
  - by apply sys_getarg_serves.
  - by apply sys_pipe_serves.
  - by apply sys_getcwd_serves.
Qed.

Lemma resume_writes c kt sp k o k' : requester k (Resume kt) = Some c -> caller c sp k -> kont_fits kt ->
  resume kt k = Some (o, k') -> writes_its_buffers sp (kont_writes kt) k o k'.
Proof.
  intros Hc Hk Hf E.
  assert (Hfill : fills c sp (kont_writes kt) (resume kt) -> writes_its_buffers sp (kont_writes kt) k o k').
  { intros Hm. destruct (Hm _ _ _ Hk E) as ([_ Hp] & Ho & HQ). done. }
  assert (Hcalm : turn_ok same_mem no_writes (resume kt) -> writes_its_buffers sp (kont_writes kt) k o k').
  { intros Hm. by eapply calm_request; [|apply Hk|]. }
  destruct kt; cbn [requester resume kont_fits kont_writes] in *; try injection Hc as <-.
  - apply Hcalm, write_loop_calm.
  - apply Hcalm, write_pipe_loop_calm.
  - destruct Hf as (? & ? & ?). by apply Hfill, read_loop_fills.
  - destruct Hf as (? & ? & ? & ?). by apply Hfill, read_pipe_loop_fills.
  - destruct Hf as (? & ? & ?). by apply Hfill, key_loop_fills.
  - apply Hcalm, raw_loop_calm.
  - apply Hcalm. apply turn_bind; [apply _|same_mem|]. intros. apply wait_loop_calm.
  - apply Hcalm, list_loop_calm.
  - apply Hcalm, turn_done, _.
  - apply Hcalm, turn_pause; [apply _|]. split; [exact I|by intros a []].
Qed.

(** ** Properties *)

(** C8 (confinement of system calls).  In a turn of any system call other than
    [SYS_EXEC], [SYS_EXEC_PIPE], [SYS_FORK] and [SYS_WRITE_FILE], with any
    arguments, the only bytes of physical memory that may change are those
    behind the user addresses of the buffer the caller named, as mapped in
    the caller's own address space; every other byte of the kernel and of
    every process is as before.  What is left of a call that waits can only
    write a part of the same buffer. *)
Theorem syscall_writes_only_its_buffers (k k' : K) (r : request) (c : Z) (sp : gmap Z Z) (o : outcome) :
  request_ok r -> requester k r = Some c -> user_space (k_mem k) (p_cr3 (slot (tab k) c)) sp -> positions k ->
  perform r k = Some (o, k') ->
  (forall x, (forall a, request_writes r a -> is_Some (sp !! (a / 4096)) -> x <> phys_of sp a) ->
     rd8 (k_mem k') x = rd8 (k_mem k) x) /\
  positions k' /\
  forall kt, o = Pause kt -> request_ok (Resume kt) /\ forall a, request_writes (Resume kt) a -> request_writes r a.
Proof.
  intros Hr Hc Hs Hp E. assert (Hk : caller c sp k) by done.
  enough (Hw : writes_its_buffers sp (request_writes r) k o k') by (by destruct Hw as (? & ? & ?)).
  destruct r as [num a1 a2 a3|kt]; [|by eapply resume_writes]. destruct Hr as (H1 & H2 & H3 & Hn). cbn [perform] in E.
  destruct (decide (num ∈ [5; 7; 16; 28; 30])) as [Hin|Hin].
  - destruct (serves_handler c sp num a1 a2 a3 H1 H2 H3 Hin _ _ _ Hc Hk E) as ([_ Hp'] & Ho & HQ). done.
  - eapply calm_request; [|done|exact E]. apply calm_handler. rewrite !not_elem_of_cons in *. tauto.
Qed.
End requests.

#[local] Existing Instance example_machine.

Lemma replicate_total {A} `{Inhabited A} (n i : nat) (x : A) : replicate n x !!! i = x \/ replicate n x !!! i = inhabitant.
Proof.
  rewrite list_lookup_total_alt. destruct (replicate n x !! i) as [y|] eqn:E; [|by right].
  apply lookup_replicate_1 in E as [-> _]. by left.
Qed.

Lemma pipe_request_ok : request_ok (Call 28 0x1000ffc 0 0).
Proof. unfold request_ok, is_u32. split_and!; try lia. set_solver. Qed.

Lemma example_positions : positions example_kernel.
Proof.
  intros s j. unfold example_kernel, fd_at, zget. cbn [k_fds].
  destruct (replicate_total 16 (Z.to_nat s) (replicate 8 blank_fd)) as [-> | ->]; [|done].
  by destruct (replicate_total 8 (Z.to_nat j) blank_fd) as [-> | ->].
Qed.

(** [SYS_PIPE] of process 1 stores the two descriptors at the address it named
    and changes no other byte of memory. *)
Lemma syscall_writes_only_its_buffers_witness :
  exists k', perform (Call 28 0x1000ffc 0 0) example_kernel = Some (Done 0, k') /\
    user_bytes (k_mem k') demo_space 0x1000ffc 8 = [3; 0; 0; 0; 4; 0; 0; 0] /\
    forall x, (forall a, 0x1000ffc <= a < 0x1001004 -> x <> phys_of demo_space a) ->
      rd8 (k_mem k') x = rd8 (k_mem example_kernel) x.
Proof.
  destruct (ran_true (perform (Call 28 0x1000ffc 0 0)) example_kernel (fun o k' => match o with Done r => (r =? 0) &&
      bool_decide (user_bytes (k_mem k') demo_space 0x1000ffc 8 = [3; 0; 0; 0; 4; 0; 0; 0]) | _ => false end))
    as (o & k' & E & Hb); [vm_compute; reflexivity|].
  destruct o as [r|kt]; [|exact (False_ind _ (Bool.diff_false_true Hb))]. apply andb_prop in Hb as [Hr Hb].
  apply Z.eqb_eq in Hr as ->. apply bool_decide_eq_true in Hb. exists k'. split; [exact E|]. split; [exact Hb|].
  intros x Hx. refine (proj1 (syscall_writes_only_its_buffers example_kernel k' (Call 28 0x1000ffc 0 0) 0 demo_space (Done 0) _ _ _ _ E) x _).
  - exact pipe_request_ok.
  - reflexivity.
  - exact demo_user_space.
  - exact example_positions.
  - intros a (i & Hi & ->) _. apply Hx. unfold u32. rewrite Z.mod_small; lia.
Defined.
