(* ===== verification/Vga.v ===== *)
(** * The text console ([kernel/drivers/vga.c], [kernel/serial.c])

    The 80x25 text buffer, the cursor and the serial mirror.  The state holds
    the three C globals, the 2000 cells at 0xB8000, the two cursor registers of
    the CRT controller and the bytes sent to COM1; waiting for the transmitter
    has no effect in the model.  A cell outside the buffer has no defined
    behaviour.  A [char] is its byte. *)

From Stdlib Require Import ZArith Lia ZifyBool.
From stdpp Require Import base tactics numbers list option.
From S2P Require Import Prelude Fat BootCfg Console.
Local Open Scope Z_scope.

Definition VGA_COLS : Z := 80.
Definition VGA_ROWS : Z := 25.
Definition VGA_CELLS : nat := 2000.

Record vga := Vga {
  VGA_BUFFER : list Z;
  term_col : Z;
  term_row : Z;
  term_color : Z;
  crtc_cursor : Z * Z;             (** registers 0x0E and 0x0F *)
  com1 : list Z                    (** what was written to the serial port *)
}.

Local Notation M := (cM vga).

Definition set_cells (b : list Z) (v : vga) : vga := Vga b (term_col v) (term_row v) (term_color v) (crtc_cursor v) (com1 v).
Definition set_col (c : Z) (v : vga) : vga := Vga (VGA_BUFFER v) c (term_row v) (term_color v) (crtc_cursor v) (com1 v).
Definition set_row (r : Z) (v : vga) : vga := Vga (VGA_BUFFER v) (term_col v) r (term_color v) (crtc_cursor v) (com1 v).
Definition set_color (c : Z) (v : vga) : vga := Vga (VGA_BUFFER v) (term_col v) (term_row v) c (crtc_cursor v) (com1 v).
Definition set_crtc (c : Z * Z) (v : vga) : vga := Vga (VGA_BUFFER v) (term_col v) (term_row v) (term_color v) c (com1 v).
Definition set_com1 (o : list Z) (v : vga) : vga := Vga (VGA_BUFFER v) (term_col v) (term_row v) (term_color v) (crtc_cursor v) o.

(** Access to [VGA_BUFFER[i]]. *)
Definition cell (i : Z) : M Z := fun v =>
  if (0 <=? i) && (i <? zlen (VGA_BUFFER v)) then Some ((VGA_BUFFER v).[i], v) else None.
Definition put_cell (i e : Z) : M () := fun v =>
  if (0 <=? i) && (i <? zlen (VGA_BUFFER v)) then Some ((), set_cells (VGA_BUFFER v).[i := e] v) else None.

(** ** The serial port *)

Definition serial_putchar (c : Z) : M () :=
  (if c =? 10 then modify (fun v => set_com1 (com1 v ++ [13]) v) else mret ());;
  modify (fun v => set_com1 (com1 v ++ [c]) v).

(** ** Internal functions *)

Definition vga_make_attr (fg bg : Z) : Z := u8 (Z.lor (Z.shiftl bg 4) (Z.land fg 0x0F)).
Definition vga_make_entry (c attr : Z) : Z := Z.lor (u16 (Z.shiftl attr 8)) (u8 c).

Definition vga_update_cursor : M () := modify (fun v =>
  let pos := u16 (term_row v * VGA_COLS + term_col v) in
  set_crtc (u8 (Z.shiftr pos 8), u8 (Z.land pos 0xFF)) v).

(** The loops of [vga_scroll]: [n] columns, [n] rows left. *)
Fixpoint scroll_cols (n : nat) (row col : Z) : M () :=
  match n with
  | O => mret ()
  | S n' =>
      e ← cell (row * VGA_COLS + col);
      put_cell ((row - 1) * VGA_COLS + col) e;;
      scroll_cols n' row (col + 1)
  end.
Fixpoint scroll_rows (n : nat) (row : Z) : M () :=
  match n with
  | O => mret ()
  | S n' => scroll_cols 80 row 0;; scroll_rows n' (row + 1)
  end.
(** Store [e] in [n] cells from [i] on. *)
Fixpoint fill_cells (n : nat) (i e : Z) : M () :=
  match n with
  | O => mret ()
  | S n' => put_cell i e;; fill_cells n' (i + 1) e
  end.

Definition vga_scroll : M () :=
  scroll_rows 24 1;;
  color ← gets term_color;
  fill_cells 80 ((VGA_ROWS - 1) * VGA_COLS) (vga_make_entry SP color);;
  modify (set_row (VGA_ROWS - 1)).

(** ** Public functions *)

Definition vga_clear : M () :=
  color ← gets term_color;
  fill_cells VGA_CELLS 0 (vga_make_entry SP color);;
  modify (set_col 0);;
  modify (set_row 0);;
  vga_update_cursor.

Definition vga_init : M () :=
  modify (set_color (vga_make_attr CONSOLE_LIGHT_GREY CONSOLE_BLACK));;
  modify (set_col 0);;
  modify (set_row 0);;
  vga_clear.

Definition vga_set_color (fg bg : Z) : M () := modify (set_color (vga_make_attr fg bg)).

Definition vga_set_cursor (col row : Z) : M () :=
  if (col <? VGA_COLS) && (row <? VGA_ROWS) then
    modify (set_col col);;
    modify (set_row row);;
    vga_update_cursor
  else mret ().

(** Wrap to the next line when the column is past the last one. *)
Definition wrap_col : M () :=
  col ← gets term_col;
  if VGA_COLS <=? col then modify (set_col 0);; modify (fun v => set_row (u8 (term_row v + 1)) v) else mret ().

Definition put_at_cursor (c : Z) : M () :=
  v ← gets id;
  put_cell (term_row v * VGA_COLS + term_col v) (vga_make_entry c (term_color v)).

(** The first part of [vga_putchar]; the result is [erased]. *)
Definition vga_place (c : Z) : M bool :=
  if c =? 10 then
    modify (set_col 0);; modify (fun v => set_row (u8 (term_row v + 1)) v);; mret false
  else if c =? 13 then modify (set_col 0);; mret false
  else if c =? 9 then
    modify (fun v => set_col (u8 (Z.land (term_col v + 4) (Z.lnot 3))) v);; wrap_col;; mret false
  else if c =? 8 then
    col ← gets term_col;
    if 0 <? col then
      modify (set_col (col - 1));; put_at_cursor SP;; mret true
    else mret false
  else
    put_at_cursor c;; modify (fun v => set_col (u8 (term_col v + 1)) v);; wrap_col;; mret false.

Definition vga_putchar (c : Z) : M () :=
  erased ← vga_place c;
  row ← gets term_row;
  (if VGA_ROWS <=? row then vga_scroll else mret ());;
  (if c =? 8 then
     if (erased : bool) then serial_putchar 8;; serial_putchar SP;; serial_putchar 8 else mret ()
   else serial_putchar c);;
  vga_update_cursor.

Fixpoint vga_puts (s : list Z) : M () :=
  match s with
  | [] => mret ()
  | c :: s' => vga_putchar c;; vga_puts s'
  end.

(** [hex[d]] *)
Definition hex_char (d : Z) : Z := if d <? 10 then 48 + d else 65 + (d - 10).

(** The digits at bit positions [i], [i - 4], ..., [n] of them. *)
Fixpoint puthex_loop (n : nat) (value i : Z) : M () :=
  match n with
  | O => mret ()
  | S n' => vga_putchar (hex_char (Z.land (Z.shiftr value i) 0xF));; puthex_loop n' value (i - 4)
  end.
Definition vga_puthex (value : Z) : M () := vga_puts [48; 120];; puthex_loop 8 value 28.

(** The digits of [value] as they are stored in [buf[12]], [room] bytes left. *)
Fixpoint dec_digits (room : nat) (value : Z) : option (list Z) :=
  if 0 <? value then
    match room with
    | O => None
    | S room' => ds ← dec_digits room' (value / 10); Some ((48 + value mod 10) :: ds)
    end
  else Some [].

Definition vga_putdec (value : Z) : M () :=
  if value =? 0 then vga_putchar 48
  else match dec_digits 12 value with Some ds => vga_puts (reverse ds) | None => undefined end.

#[global] Arguments vga_putchar : simpl never.
#[global] Arguments vga_scroll : simpl never.

(** ** Console calls *)

(** What the functions of [hal.c] do with a call; the text of a message is a
    parameter, other ports do not concern the console. *)
Definition console_run (msg : msg_id -> list Z) (c : console_call) : M () :=
  match c with
  | console_putc c => vga_putchar c
  | console_puts s => vga_puts s
  | console_puts_msg id => vga_puts (msg id)
  | console_put_hex v => vga_puthex v
  | console_put_dec v => vga_putdec v
  | console_set_color fg bg => vga_set_color fg bg
  | console_clear => vga_clear
  | console_set_cursor col row => vga_set_cursor col row
  | port_out _ _ => mret ()
  end.

Fixpoint console_log (msg : msg_id -> list Z) (l : list console_call) : M () :=
  match l with
  | [] => mret ()
  | c :: l' => console_run msg c;; console_log msg l'
  end.

Definition vga0 : vga := Vga (replicate VGA_CELLS 0) 0 0 0 (0, 0) [].

Example vga_demo :
  match (vga_init;; vga_puts [72; 105; 8; 10; 33];; vga_puthex 0xBEEF;; vga_putdec 4096) vga0 with
  | Some (_, v) => (take 2 (VGA_BUFFER v), term_row v, term_col v, (VGA_BUFFER v).[80], take 8 (com1 v))
  | None => ([], 0, 0, 0, [])
  end = ([0x748; 0x720], 1, 15, 0x721, [72; 105; 8; 32; 8; 13; 10; 33]).
Proof. vm_compute. reflexivity. Qed.

(** ** The terminal the driver implements *)

(** Scrolling drops the first line and appends a blank one. *)
Definition scrolled (v : vga) : vga :=
  set_row 24 (set_cells (drop 80 (VGA_BUFFER v) ++ replicate 80 (vga_make_entry SP (term_color v))) v).

Definition next_line (v : vga) : vga :=
  set_col 0 (if term_row v + 1 <? VGA_ROWS then set_row (term_row v + 1) v else scrolled v).

Definition advance (col : Z) (v : vga) : vga := if col <? VGA_COLS then set_col col v else next_line v.

Definition poke (row col c : Z) (v : vga) : vga :=
  set_cells (VGA_BUFFER v).[row * 80 + col := vga_make_entry c (term_color v)] v.

Definition term_put (c : Z) (v : vga) : vga :=
  if c =? 10 then next_line v
  else if c =? 13 then set_col 0 v
  else if c =? 9 then advance (term_col v - term_col v mod 4 + 4) v
  else if c =? 8 then
    if 0 <? term_col v then set_col (term_col v - 1) (poke (term_row v) (term_col v - 1) SP v) else v
  else advance (term_col v + 1) (poke (term_row v) (term_col v) c v).

(** What the serial side gets for a character. *)
Definition serial_echo (c : Z) (v : vga) : list Z :=
  if c =? 8 then if 0 <? term_col v then [8; SP; 8] else []
  else if c =? 10 then [13; 10] else [c].

(** The hardware cursor at the terminal's position. *)
Definition cursor_at (v : vga) : Z * Z := let pos := term_row v * 80 + term_col v in (pos / 256, pos mod 256).

Definition term_emit (c : Z) (v : vga) : vga :=
  let v' := term_put c v in set_crtc (cursor_at v') (set_com1 (com1 v ++ serial_echo c v) v').

(** The text of a number. *)
Definition hex_text (value : Z) : list Z :=
  [48; 120] ++ ((fun i => hex_char (Z.land (Z.shiftr value (28 - 4 * i)) 0xF)) <$> seqZ 0 8).
Fixpoint dec_text (n : nat) (value : Z) : list Z :=
  match n with
  | O => []
  | S n' => if value <? 10 then [48 + value] else dec_text n' (value / 10) ++ [48 + value mod 10]
  end.

Definition term_run (msg : msg_id -> list Z) (c : console_call) (v : vga) : vga :=
  match c with
  | console_putc c => term_emit c v
  | console_puts s => foldl (fun v c => term_emit c v) v s
  | console_puts_msg id => foldl (fun v c => term_emit c v) v (msg id)
  | console_put_hex x => foldl (fun v c => term_emit c v) v (hex_text x)
  | console_put_dec x => foldl (fun v c => term_emit c v) v (dec_text 10 x)
  | console_set_color fg bg => set_color (vga_make_attr fg bg) v
  | console_clear =>
      set_crtc (0, 0) (set_row 0 (set_col 0 (set_cells (replicate VGA_CELLS (vga_make_entry SP (term_color v))) v)))
  | console_set_cursor col row =>
      if (col <? VGA_COLS) && (row <? VGA_ROWS) then
        let v' := set_row row (set_col col v) in set_crtc (cursor_at v') v'
      else v
  | port_out _ _ => v
  end.

(** The driver's invariant. *)
Record vga_ok (v : vga) : Prop := {
  vo_cells : length (VGA_BUFFER v) = VGA_CELLS;
  vo_col : 0 <= term_col v < 80;
  vo_row : 0 <= term_row v < 25;
  vo_cursor : crtc_cursor v = cursor_at v
}.

(** ** Loops over the cells *)

Lemma run_cell i v : 0 <= i < zlen (VGA_BUFFER v) -> cell i v = Some ((VGA_BUFFER v).[i], v).
Proof. intros Hi. unfold cell. by replace ((0 <=? i) && (i <? zlen (VGA_BUFFER v))) with true by lia. Qed.

Lemma run_put_cell i e v : 0 <= i < zlen (VGA_BUFFER v) -> put_cell i e v = Some ((), set_cells (VGA_BUFFER v).[i := e] v).
Proof. intros Hi. unfold put_cell. by replace ((0 <=? i) && (i <? zlen (VGA_BUFFER v))) with true by lia. Qed.

Lemma set_cells_twice b b' v : set_cells b (set_cells b' v) = set_cells b v.
Proof. done. Qed.

Lemma set_cells_same v : set_cells (VGA_BUFFER v) v = v.
Proof. by destruct v. Qed.

Lemma fill_cells_run n : forall i e v, length (VGA_BUFFER v) = VGA_CELLS -> 0 <= i -> i + Z.of_nat n <= 2000 ->
  exists b, fill_cells n i e v = Some ((), set_cells b v) /\ length b = VGA_CELLS /\
    forall j : nat, b !! j = if decide (Z.to_nat i <= j < Z.to_nat i + n)%nat then Some e else VGA_BUFFER v !! j.
Proof.
  unfold VGA_CELLS. induction n as [|n IH]; intros i e v Hl Hi Hn; cbn [fill_cells].
  { exists (VGA_BUFFER v). rewrite set_cells_same. split_and!; [done|done|]. intros j. by rewrite decide_False by lia. }
  unfold mbind, cM_bind. rewrite run_put_cell by (unfold zlen; lia).
  destruct (IH (i + 1) e (set_cells (VGA_BUFFER v).[i := e] v)) as (b & E & Hb & Hj); [cbn; by rewrite zset_length|lia|lia|].
  exists b. rewrite E, set_cells_twice. split_and!; [done|done|]. intros j. rewrite Hj. cbn [VGA_BUFFER set_cells].
  destruct (decide (Z.to_nat (i + 1) <= j < Z.to_nat (i + 1) + n)%nat); [by rewrite decide_True by lia|].
  unfold zset. destruct (decide (Z.to_nat i = j)) as [<-|Hne].
  - rewrite list_lookup_insert_eq by lia. by rewrite decide_True by lia.
  - rewrite list_lookup_insert_ne by done. by rewrite decide_False by lia.
Qed.

Lemma scroll_cols_run n : forall row col v, length (VGA_BUFFER v) = VGA_CELLS -> 1 <= row < 25 -> 0 <= col -> col + Z.of_nat n = 80 ->
  exists b, scroll_cols n row col v = Some ((), set_cells b v) /\ length b = VGA_CELLS /\
    forall j : nat, b !! j = if decide ((row - 1) * 80 + col <= Z.of_nat j < row * 80) then VGA_BUFFER v !! (j + 80)%nat else VGA_BUFFER v !! j.
Proof.
  unfold VGA_CELLS. induction n as [|n IH]; intros row col v Hl Hr Hc Hn; cbn [scroll_cols].
  { exists (VGA_BUFFER v). rewrite set_cells_same. split_and!; [done|done|]. intros j. by rewrite decide_False by lia. }
  unfold mbind, cM_bind. unfold VGA_COLS in *. rewrite run_cell, run_put_cell by (unfold zlen; lia).
  set (v1 := set_cells _ v).
  destruct (IH row (col + 1) v1) as (b & E & Hb & Hj); [subst v1; cbn; by rewrite zset_length|lia|lia|lia|].
  exists b. rewrite E. subst v1. rewrite set_cells_twice. split_and!; [done|done|]. intros j. rewrite Hj. cbn [VGA_BUFFER set_cells].
  unfold zset, zget. destruct (decide ((row - 1) * 80 + (col + 1) <= Z.of_nat j < row * 80)).
  { rewrite list_lookup_insert_ne by lia. by rewrite decide_True by lia. }
  destruct (decide (Z.to_nat ((row - 1) * 80 + col) = j)) as [<-|Hne].
  - rewrite list_lookup_insert_eq by lia. rewrite decide_True by lia.
    rewrite <- list_lookup_lookup_total_lt by lia. f_equal. lia.
  - rewrite list_lookup_insert_ne by done. by rewrite decide_False by lia.
Qed.

Lemma scroll_rows_run n : forall row v, length (VGA_BUFFER v) = VGA_CELLS -> 1 <= row -> row + Z.of_nat n = 25 ->
  exists b, scroll_rows n row v = Some ((), set_cells b v) /\ length b = VGA_CELLS /\
    forall j : nat, b !! j = if decide ((row - 1) * 80 <= Z.of_nat j < 24 * 80) then VGA_BUFFER v !! (j + 80)%nat else VGA_BUFFER v !! j.
Proof.
  induction n as [|n IH]; intros row v Hl Hr Hn; cbn [scroll_rows].
  { exists (VGA_BUFFER v). rewrite set_cells_same. split_and!; [done|done|]. intros j. by rewrite decide_False by lia. }
  unfold mbind, cM_bind. destruct (scroll_cols_run 80 row 0 v Hl) as (b1 & E1 & Hb1 & Hj1); [lia|lia|lia|]. rewrite E1.
  destruct (IH (row + 1) (set_cells b1 v)) as (b & E & Hb & Hj); [done|lia|lia|].
  exists b. rewrite E, set_cells_twice. split_and!; [done|done|]. intros j. rewrite Hj. cbn [VGA_BUFFER set_cells].
  rewrite !Hj1. repeat case_decide; try done; lia.
Qed.

Lemma vga_scroll_run v : length (VGA_BUFFER v) = VGA_CELLS -> vga_scroll v = Some ((), scrolled v).
Proof.
  intros Hl. unfold vga_scroll, mbind, cM_bind, gets, modify.
  destruct (scroll_rows_run 24 1 v Hl) as (b1 & E1 & Hb1 & Hj1); [lia|lia|]. rewrite E1.
  destruct (fill_cells_run 80 ((VGA_ROWS - 1) * VGA_COLS) (vga_make_entry SP (term_color v)) (set_cells b1 v))
    as (b2 & E2 & Hb2 & Hj2); [done|done|done|]. cbn [term_color set_cells]. cbn [term_color set_cells] in E2. rewrite E2.
  unfold scrolled. do 2 f_equal. change (VGA_ROWS - 1) with 24. f_equal. rewrite set_cells_twice. f_equal.
  apply list_eq. intros j. rewrite Hj2. cbn [VGA_BUFFER set_cells]. change (Z.to_nat ((VGA_ROWS - 1) * VGA_COLS)) with 1920%nat.
  unfold VGA_CELLS in *. destruct (decide (j < 1920)%nat).
  - rewrite decide_False by lia. rewrite Hj1, decide_True by lia. rewrite lookup_app_l by (rewrite length_drop; lia).
    rewrite lookup_drop. f_equal. lia.
  - rewrite lookup_app_r by (rewrite length_drop; lia). rewrite length_drop, Hl. case_decide.
    + symmetry. apply lookup_replicate. split; [done|lia].
    + rewrite lookup_ge_None_2 by (rewrite Hb1; lia). symmetry. apply lookup_replicate_None. lia.
Qed.

(** ** Characters *)

Lemma cursor_pos v : 0 <= term_col v < 80 -> 0 <= term_row v < 25 ->
  vga_update_cursor v = Some ((), set_crtc (cursor_at v) v).
Proof.
  intros Hc Hr. unfold vga_update_cursor, modify, cursor_at, VGA_COLS. cbv zeta. do 3 f_equal.
  set (p := term_row v * 80 + term_col v). assert (Hp : 0 <= p < 2000) by (subst p; lia).
  rewrite (u16_small p) by lia. f_equal.
  - rewrite Z.shiftr_div_pow2 by lia. change (2 ^ 8) with 256. apply u8_small.
    split; [apply Z.div_pos; lia|]. apply Z.div_lt_upper_bound; lia.
  - change 0xFF with (Z.ones 8). rewrite Z.land_ones by lia. apply Z.mod_mod. lia.
Qed.

Lemma tab_stop col : 0 <= col < 80 -> u8 (Z.land (col + 4) (Z.lnot 3)) = col - col mod 4 + 4.
Proof.
  intros Hc. rewrite <- Z.sub_land_same_l. change 3 with (Z.ones 2). rewrite Z.land_ones by lia. change (2 ^ 2) with 4.
  pose proof (Z.mod_pos_bound col 4 ltac:(lia)). replace ((col + 4) mod 4) with (col mod 4).
  2:{ rewrite <- (Z_mod_plus_full col 1 4). f_equal. }
  rewrite u8_small by lia. lia.
Qed.

(** The scroll that follows a character. *)
Definition settle (w : vga) : vga := if VGA_ROWS <=? term_row w then scrolled w else w.

Lemma next_line_settle v : 0 <= term_row v < 25 -> settle (set_row (term_row v + 1) (set_col 0 v)) = next_line v.
Proof.
  intros Hr. unfold settle, next_line, VGA_ROWS. cbn [term_row set_row].
  destruct (Z.leb_spec 25 (term_row v + 1)); [replace (term_row v + 1 <? 25) with false by lia|replace (term_row v + 1 <? 25) with true by lia];
    by destruct v.
Qed.

(** [wrap_col] after the column was set. *)
Lemma wrap_col_run col v : 0 <= term_row v < 25 -> 0 <= col < 256 ->
  exists w, wrap_col (set_col col v) = Some ((), w) /\ settle w = advance col v /\
    VGA_BUFFER w = VGA_BUFFER v /\ com1 w = com1 v.
Proof.
  intros Hr Hc. unfold wrap_col, advance, VGA_COLS, mbind, cM_bind, gets, modify. cbn [term_col set_col].
  destruct (Z.leb_spec 80 col).
  - replace (col <? 80) with false by lia. eexists. split; [done|]. split; [|by destruct v].
    rewrite u8_small by (cbn; lia). by rewrite <- next_line_settle.
  - replace (col <? 80) with true by lia. eexists. split; [done|]. split; [|by destruct v]. unfold settle, VGA_ROWS.
    cbn [term_row set_col]. by replace (25 <=? term_row v) with false by lia.
Qed.

Lemma put_at_cursor_run c v : length (VGA_BUFFER v) = VGA_CELLS -> 0 <= term_col v < 80 -> 0 <= term_row v < 25 ->
  put_at_cursor c v = Some ((), poke (term_row v) (term_col v) c v).
Proof.
  intros Hl Hc Hr. unfold put_at_cursor, mbind, cM_bind, gets, id, VGA_COLS. rewrite run_put_cell; [done|].
  unfold zlen, VGA_CELLS in *. lia.
Qed.

Lemma settle_low v : term_row v < 25 -> settle v = v.
Proof. intros Hr. unfold settle, VGA_ROWS. by replace (25 <=? term_row v) with false by lia. Qed.

Lemma vga_place_run c v : vga_ok v ->
  exists w, vga_place c v = Some ((c =? 8) && (0 <? term_col v), w) /\ settle w = term_put c v /\
    length (VGA_BUFFER w) = VGA_CELLS /\ com1 w = com1 v.
Proof.
  intros [Hl Hc Hr _]. unfold vga_place, term_put, mbind, cM_bind, gets, modify.
  destruct (Z.eqb_spec c 10) as [->|H10].
  { eexists. split; [done|]. cbn [term_row set_col]. rewrite u8_small by lia. split; [by apply next_line_settle|done]. }
  destruct (Z.eqb_spec c 13) as [->|H13].
  { eexists. split; [done|]. split; [apply settle_low; cbn; lia|done]. }
  destruct (Z.eqb_spec c 9) as [->|H9].
  { rewrite tab_stop by done. pose proof (Z.mod_pos_bound (term_col v) 4 ltac:(lia)).
    destruct (wrap_col_run (term_col v - term_col v mod 4 + 4) v) as (w & E & Hs & Hb & Ho); [done|lia|].
    exists w. rewrite E. split_and!; [done|done|by rewrite Hb|done]. }
  destruct (Z.eqb_spec c 8) as [->|H8].
  { destruct (Z.ltb_spec 0 (term_col v)).
    - rewrite put_at_cursor_run by (done || (cbn; lia)). eexists. split; [done|]. split_and!; [|cbn; by rewrite zset_length|done].
      rewrite settle_low by (cbn; lia). by destruct v.
    - exists v. split_and!; [done|apply settle_low; lia|done|done]. }
  rewrite put_at_cursor_run by done. cbn [term_col poke set_cells]. rewrite u8_small by lia.
  destruct (wrap_col_run (term_col v + 1) (poke (term_row v) (term_col v) c v)) as (w & E & Hs & Hb & Ho); [done|lia|].
  exists w. rewrite E. split_and!; [done|done|rewrite Hb; cbn; by rewrite zset_length|done].
Qed.

Lemma scrolled_ok v : length (VGA_BUFFER v) = VGA_CELLS -> length (VGA_BUFFER (scrolled v)) = VGA_CELLS.
Proof.
  intros Hl. unfold scrolled. cbn [VGA_BUFFER set_row set_cells]. rewrite length_app, length_drop, Hl, length_replicate. done.
Qed.

Lemma advance_ok col v : length (VGA_BUFFER v) = VGA_CELLS -> 0 <= term_row v < 25 -> 0 <= col ->
  length (VGA_BUFFER (advance col v)) = VGA_CELLS /\ 0 <= term_col (advance col v) < 80 /\ 0 <= term_row (advance col v) < 25.
Proof.
  intros Hl Hr Hc. unfold advance, next_line, VGA_COLS, VGA_ROWS. destruct (Z.ltb_spec col 80); [cbn; lia|].
  destruct (Z.ltb_spec (term_row v + 1) 25); cbn [VGA_BUFFER term_col term_row set_col set_row]; [lia|].
  split; [by apply scrolled_ok|]. cbn. lia.
Qed.

Lemma term_put_ok c v : vga_ok v ->
  length (VGA_BUFFER (term_put c v)) = VGA_CELLS /\ 0 <= term_col (term_put c v) < 80 /\ 0 <= term_row (term_put c v) < 25.
Proof.
  intros [Hl Hc Hr _]. unfold term_put. destruct (c =? 10); [by apply (advance_ok 80)|].
  destruct (c =? 13); [cbn; lia|]. destruct (c =? 9).
  { apply advance_ok; [done|done|]. pose proof (Z.mod_pos_bound (term_col v) 4). lia. }
  destruct (c =? 8).
  - destruct (Z.ltb_spec 0 (term_col v)); [|done]. cbn [VGA_BUFFER term_col term_row set_col poke set_cells].
    rewrite zset_length. lia.
  - apply advance_ok; [|done|lia]. cbn [VGA_BUFFER poke set_cells]. by rewrite zset_length.
Qed.

Lemma term_emit_ok c v : vga_ok v -> vga_ok (term_emit c v).
Proof. intros Hv. destruct (term_put_ok c v Hv) as (H1 & H2 & H3). by split. Qed.

Lemma serial_run c v : serial_putchar c v = Some ((), set_com1 (com1 v ++ (if c =? 10 then [13; 10] else [c])) v).
Proof.
  unfold serial_putchar, mbind, cM_bind, modify. destruct (Z.eqb_spec c 10) as [->|]; [|done].
  cbn [com1 set_com1]. by rewrite <- app_assoc.
Qed.

Lemma vga_putchar_run c v : vga_ok v -> vga_putchar c v = Some ((), term_emit c v).
Proof.
  intros Hv. destruct (vga_place_run c v Hv) as (w & E & Hs & Hl & Ho). destruct (term_put_ok c v Hv) as (_ & Hc & Hr).
  unfold vga_putchar, mbind, cM_bind, gets. rewrite E.
  assert (Esc : (if VGA_ROWS <=? term_row w then vga_scroll else mret ()) w = Some ((), term_put c v)).
  { rewrite <- Hs. unfold settle. destruct (_ <=? _); [by apply vga_scroll_run|done]. }
  rewrite Esc. unfold term_emit, serial_echo.
  assert (Hw : com1 (term_put c v) = com1 v).
  { rewrite <- Ho, <- Hs. unfold settle. by destruct (_ <=? _). }
  destruct (Z.eqb_spec c 8) as [->|H8]; cbn [andb].
  - destruct (0 <? term_col v).
    + rewrite serial_run. cbv beta iota. rewrite serial_run. cbv beta iota. rewrite serial_run. cbv beta iota.
      cbn [com1 set_com1 Z.eqb Pos.eqb SP]. rewrite cursor_pos by done. by rewrite Hw, <- !app_assoc.
    + unfold mret, cM_ret. rewrite cursor_pos by done. rewrite app_nil_r, <- Hw. by destruct (term_put 8 v).
  - rewrite serial_run. cbv beta iota. rewrite cursor_pos by done. by rewrite Hw.
Qed.

(** ** Strings and numbers *)

Lemma vga_puts_run s : forall v, vga_ok v ->
  vga_puts s v = Some ((), foldl (fun v c => term_emit c v) v s) /\ vga_ok (foldl (fun v c => term_emit c v) v s).
Proof.
  induction s as [|c s IH]; intros v Hv; cbn [vga_puts foldl]; [done|].
  unfold mbind, cM_bind. rewrite vga_putchar_run by done. by apply IH, term_emit_ok.
Qed.

Lemma puthex_loop_puts n value : forall i,
  puthex_loop n value i = vga_puts ((fun k => hex_char (Z.land (Z.shiftr value (i - 4 * k)) 0xF)) <$> seqZ 0 (Z.of_nat n)).
Proof.
  induction n as [|n IH]; intros i; [done|]. rewrite seqZ_cons by lia. cbn [puthex_loop vga_puts fmap list_fmap].
  replace (i - 4 * 0) with i by lia. rewrite IH. replace (Z.pred (Z.of_nat (S n))) with (Z.of_nat n) by lia.
  assert (E : (fun k => hex_char (Z.land (Z.shiftr value (i - 4 * k)) 0xF)) <$> seqZ (Z.succ 0) (Z.of_nat n) =
              (fun k => hex_char (Z.land (Z.shiftr value (i - 4 - 4 * k)) 0xF)) <$> seqZ 0 (Z.of_nat n)).
  { change (Z.succ 0) with (1 + 0). rewrite <- (fmap_add_seqZ 1 0), <- list_fmap_compose.
    apply list_fmap_ext. intros j x _. cbn. do 3 f_equal. lia. }
  by rewrite E.
Qed.

Lemma vga_puts_app s1 s2 v : vga_ok v -> (vga_puts s1;; vga_puts s2) v = vga_puts (s1 ++ s2) v.
Proof.
  intros Hv. destruct (vga_puts_run s1 v Hv) as [E1 H1]. unfold mbind, cM_bind. rewrite E1.
  rewrite (proj1 (vga_puts_run s2 _ H1)), (proj1 (vga_puts_run (s1 ++ s2) v Hv)). by rewrite foldl_app.
Qed.

Lemma vga_puthex_run x v : vga_ok v -> vga_puthex x v = vga_puts (hex_text x) v.
Proof. intros Hv. unfold vga_puthex. rewrite puthex_loop_puts. by apply vga_puts_app. Qed.

Lemma dec_digits_run n : forall room value, (n <= room)%nat -> 0 < value < 10 ^ Z.of_nat n ->
  exists ds, dec_digits room value = Some ds /\ reverse ds = dec_text n value.
Proof.
  induction n as [|n IH]; intros room value Hroom Hv; [cbn in Hv; lia|].
  destruct room as [|room]; [lia|]. cbn [dec_digits dec_text]. replace (0 <? value) with true by lia.
  destruct (Z.ltb_spec value 10).
  - rewrite Z.div_small, Z.mod_small by lia. assert (E : dec_digits room 0 = Some []) by (by destruct room).
    rewrite E. cbn. by eexists.
  - rewrite Nat2Z.inj_succ, Z.pow_succ_r in Hv by lia.
    destruct (IH room (value / 10)) as (ds & E & Hds); [lia|split; [apply Z.div_str_pos; lia|apply Z.div_lt_upper_bound; lia]|].
    rewrite E. cbn. eexists. split; [done|]. by rewrite reverse_cons, Hds.
Qed.

Lemma vga_putdec_run x v : is_u32 x -> vga_ok v -> vga_putdec x v = vga_puts (dec_text 10 x) v.
Proof.
  unfold is_u32. intros Hx Hv. unfold vga_putdec. destruct (Z.eqb_spec x 0) as [->|Hne].
  { change (dec_text 10 0) with [48]. cbn [vga_puts]. unfold mbind, cM_bind. by rewrite vga_putchar_run. }
  destruct (dec_digits_run 10 12 x) as (ds & E & Hds); [lia|lia|]. by rewrite E, Hds.
Qed.

(** The printed text reads back as the number. *)
Lemma dec_digit d : 0 <= d < 10 -> digit_of 10 (48 + d) = Some d.
Proof. intros Hd. unfold digit_of. replace ((48 <=? 48 + d) && (48 + d <=? 57)) with true by lia. f_equal. lia. Qed.

Lemma dec_text_parse n : forall value tail def, 0 <= value < 10 ^ Z.of_nat n -> value < 2 ^ 32 -> (0 < n)%nat ->
  parse_digits (dec_text n value ++ tail) 10 0 def = parse_digits tail 10 value def.
Proof.
  induction n as [|n IH]; intros value tail def Hv Hu Hn; [lia|]. cbn [dec_text].
  destruct (Z.ltb_spec value 10).
  - cbn [app parse_digits]. rewrite dec_digit by lia. replace (_ <? 0) with false; [by rewrite u32_small by lia|].
    symmetry. apply Z.ltb_ge. apply Z.div_pos; lia.
  - rewrite Nat2Z.inj_succ, Z.pow_succ_r in Hv by lia. rewrite <- app_assoc.
    pose proof (Z.div_mod value 10 ltac:(lia)). pose proof (Z.mod_pos_bound value 10 ltac:(lia)).
    rewrite IH; [|split; [apply Z.div_pos; lia|apply Z.div_lt_upper_bound; lia]|lia|].
    + cbn [app parse_digits]. rewrite dec_digit by lia.
      assert (value / 10 <= (4294967295 - value mod 10) / 10) by (apply Z.div_le_lower_bound; lia).
      replace (_ <? value / 10) with false by lia. rewrite u32_small; [f_equal; lia|lia].
    + destruct n; [cbn in Hv; lia|lia].
Qed.

Lemma hex_digit d : 0 <= d < 16 -> digit_of 16 (hex_char d) = Some d.
Proof.
  intros Hd. unfold digit_of, hex_char. destruct (Z.ltb_spec d 10).
  - replace ((48 <=? 48 + d) && (48 + d <=? 57)) with true by lia. f_equal. lia.
  - replace ((48 <=? 65 + (d - 10)) && (65 + (d - 10) <=? 57)) with false by lia.
    replace ((16 =? 16) && (97 <=? 65 + (d - 10)) && (65 + (d - 10) <=? 102)) with false by lia.
    replace ((16 =? 16) && (65 <=? 65 + (d - 10)) && (65 + (d - 10) <=? 70)) with true by lia. f_equal. lia.
Qed.

(** Reading [n] more digits of [x] after the first [8 - n]. *)
Lemma hex_text_parse n : forall x def, is_u32 x -> (n <= 8)%nat ->
  parse_digits ((fun i => hex_char (Z.land (Z.shiftr x (28 - 4 * i)) 0xF)) <$> seqZ (8 - Z.of_nat n) (Z.of_nat n)) 16
    (Z.shiftr x (4 * Z.of_nat n)) def = x.
Proof.
  induction n as [|n IH]; intros x def Hx Hn; [by cbn; rewrite Z.shiftr_0_r|]. unfold is_u32 in *.
  rewrite seqZ_cons by lia. cbn [fmap list_fmap parse_digits].
  replace (28 - 4 * (8 - Z.of_nat (S n))) with (4 * Z.of_nat n) by lia.
  set (s := 4 * Z.of_nat n). assert (Hs : 0 <= s <= 28) by lia. change 0xF with (Z.ones 4). rewrite Z.land_ones by lia.
  pose proof (Z.mod_pos_bound (Z.shiftr x s) (2 ^ 4) ltac:(lia)) as Hm. change (2 ^ 4) with 16 in *.
  rewrite hex_digit by done. replace (4 * Z.of_nat (S n)) with (s + 4) by lia. rewrite <- Z.shiftr_shiftr by lia.
  rewrite (Z.shiftr_div_pow2 (Z.shiftr x s) 4) by lia. change (2 ^ 4) with 16. set (y := Z.shiftr x s) in *.
  assert (Hy : 0 <= y < 2 ^ 32).
  { subst y. rewrite Z.shiftr_div_pow2 by lia. split; [apply Z.div_pos; lia|].
    apply Z.div_lt_upper_bound; [lia|]. assert (1 <= 2 ^ s) by (apply (Z.pow_le_mono_r 2 0 s); lia). nia. }
  pose proof (Z.div_mod y 16 ltac:(lia)).
  assert (y / 16 <= (4294967295 - y mod 16) / 16) by (apply Z.div_le_lower_bound; lia).
  replace (_ <? y / 16) with false by lia. rewrite u32_small by lia. replace (y / 16 * 16 + y mod 16) with y by lia.
  replace (Z.succ (8 - Z.of_nat (S n))) with (8 - Z.of_nat n) by lia. replace (Z.pred (Z.of_nat (S n))) with (Z.of_nat n) by lia.
  apply IH; [done|lia].
Qed.

Lemma dec_text_digits n : forall value, 0 <= value -> Forall (fun c => 48 <= c <= 57) (dec_text n value).
Proof.
  induction n as [|n IH]; intros value Hv; cbn [dec_text]; [by apply Forall_nil|].
  destruct (Z.ltb_spec value 10); [repeat constructor; lia|]. pose proof (Z.mod_pos_bound value 10 ltac:(lia)).
  apply Forall_app. split; [apply IH, Z.div_pos; lia|repeat constructor; lia].
Qed.

Lemma dec_text_value x def : is_u32 x -> parse_u32 (dec_text 10 x) def = x.
Proof.
  unfold is_u32. intros Hx. unfold parse_u32. replace (_ && _ && _) with false.
  - rewrite <- (app_nil_r (dec_text 10 x)). rewrite dec_text_parse by lia. done.
  - symmetry. destruct (Z.ltb_spec 2 (zlen (dec_text 10 x))) as [Hl|]; [|done]. unfold zlen, zget in *.
    pose proof (Forall_lookup_total_1 _ _ 1 (dec_text_digits 10 x ltac:(lia)) ltac:(lia)) as Hd.
    change (Z.to_nat 1) with 1%nat. cbn beta in Hd. lia.
Qed.

Lemma hex_text_value x def : is_u32 x -> parse_u32 (hex_text x) def = x.
Proof.
  intros Hx. unfold parse_u32, hex_text.
  change (parse_digits ((fun i => hex_char (Z.land (Z.shiftr x (28 - 4 * i)) 0xF)) <$> seqZ (8 - Z.of_nat 8) (Z.of_nat 8)) 16 0 def = x).
  etrans; [|apply (hex_text_parse 8 x def Hx); lia]. f_equal. unfold is_u32 in *. rewrite Z.shiftr_div_pow2 by lia.
  symmetry. by apply Z.div_small.
Qed.

(** ** Properties *)

(** What a call may be given: numbers of 32 bits and coordinates of 8. *)
Definition call_args (c : console_call) : Prop :=
  match c with
  | console_put_hex x | console_put_dec x => is_u32 x
  | console_set_cursor col row => 0 <= col < 256 /\ 0 <= row < 256
  | _ => True
  end.

Lemma console_run_spec msg c v : call_args c -> vga_ok v ->
  console_run msg c v = Some ((), term_run msg c v) /\ vga_ok (term_run msg c v).
Proof.
  intros Hc Hv. destruct c as [c|s|id|x|x|fg bg| |col row|p x]; cbn [console_run term_run call_args] in *.
  - split; [by apply vga_putchar_run|by apply term_emit_ok].
  - by apply vga_puts_run.
  - by apply vga_puts_run.
  - rewrite vga_puthex_run by done. by apply vga_puts_run.
  - rewrite vga_putdec_run by done. by apply vga_puts_run.
  - split; [done|]. destruct Hv. by split.
  - destruct Hv as [Hl Hcol Hrow _]. unfold vga_clear, mbind, cM_bind, gets, modify.
    destruct (fill_cells_run VGA_CELLS 0 (vga_make_entry SP (term_color v)) v Hl) as (b & E & Hb & Hj); [lia|done|].
    rewrite E. rewrite cursor_pos by (cbn; lia).
    assert (b = replicate VGA_CELLS (vga_make_entry SP (term_color v))) as ->.
    { apply list_eq. intros j. rewrite Hj. destruct (decide (j < VGA_CELLS)%nat).
      - rewrite decide_True by lia. symmetry. by apply lookup_replicate.
      - rewrite decide_False by lia. rewrite !lookup_ge_None_2; rewrite ?length_replicate; [done|lia|rewrite Hl; lia]. }
    split; [done|]. split; [apply length_replicate|cbn; lia|cbn; lia|done].
  - unfold vga_set_cursor, VGA_COLS, VGA_ROWS in *. destruct ((col <? 80) && (row <? 25)) eqn:E; [|done]. b2p.
    unfold mbind, cM_bind, modify. rewrite cursor_pos by (cbn; lia). split; [done|]. destruct Hv. by split; [|cbn; lia|cbn; lia|].
  - done.
Qed.

(** C38 (console).  Whatever the kernel prints, the text console does what a
    terminal of 25 lines of 80 columns does: every sequence of console calls
    runs without touching a cell outside the buffer, gives exactly the screen,
    the colour, the cursor and the serial output of the terminal [term_run],
    and leaves the hardware cursor where the next character goes. *)
Theorem console_refines_terminal (msg : msg_id -> list Z) (l : list console_call) (v : vga) :
  Forall call_args l -> vga_ok v ->
  console_log msg l v = Some ((), foldl (fun v c => term_run msg c v) v l) /\
  vga_ok (foldl (fun v c => term_run msg c v) v l).
Proof.
  revert v. induction l as [|c l IH]; intros v Hl Hv; cbn [console_log foldl]; [done|].
  destruct (Forall_cons_1 _ _ _ Hl) as [Hc Hl']. destruct (console_run_spec msg c v Hc Hv) as [E Hv'].
  unfold mbind, cM_bind. rewrite E. by apply IH.
Qed.

Definition vga_demo_screen : vga :=
  Vga (replicate VGA_CELLS 0x720) 79 24 7 (7, 207) [].

Lemma vga_demo_ok : vga_ok vga_demo_screen.
Proof. split; try reflexivity; split; cbn; reflexivity || discriminate. Qed.

(** Two characters at the lower right corner: the first one scrolls. *)
Lemma console_refines_terminal_witness :
  let l := [console_puts [65; 66]; console_put_dec 7] in
  console_log (fun _ => []) l vga_demo_screen = Some ((), foldl (fun v c => term_run (fun _ => []) c v) vga_demo_screen l) /\
  take 3 (drop 1919 (VGA_BUFFER (foldl (fun v c => term_run (fun _ => []) c v) vga_demo_screen l))) = [0x741; 0x742; 0x737].
Proof.
  split; [|vm_compute; reflexivity].
  apply (console_refines_terminal (fun _ => []) [console_puts [65; 66]; console_put_dec 7] vga_demo_screen).
  - repeat constructor; discriminate.
  - exact vga_demo_ok.
Defined.

(** (numbers on the console).  [vga_putdec] and [vga_puthex] print a text
    that reads back as the number: [vga_putdec] never overruns its 12-byte
    buffer. *)
Theorem printed_number_reads_back (x def : Z) (v : vga) : is_u32 x -> vga_ok v ->
  exists d h, vga_putdec x v = vga_puts d v /\ vga_puthex x v = vga_puts h v /\
    parse_u32 d def = x /\ parse_u32 h def = x /\ zlen h = 10 /\ zlen d <= 10.
Proof.
  intros Hx Hv. exists (dec_text 10 x), (hex_text x).
  split_and!; [by apply vga_putdec_run|by apply vga_puthex_run|by apply dec_text_value|by apply hex_text_value|done|].
  enough (Hn : forall n y, zlen (dec_text n y) <= Z.of_nat n) by apply (Hn 10%nat).
  intros n. unfold zlen. induction n as [|n IH]; intros y; cbn [dec_text]; [done|].
  destruct (_ <? 10); [cbn; lia|]. rewrite length_app. specialize (IH (y / 10)). cbn. lia.
Qed.

Lemma printed_number_reads_back_witness :
  exists d h, vga_putdec 4096 vga_demo_screen = vga_puts d vga_demo_screen /\
    vga_puthex 4096 vga_demo_screen = vga_puts h vga_demo_screen /\
    parse_u32 d 0 = 4096 /\ parse_u32 h 0 = 4096 /\ zlen h = 10 /\ zlen d <= 10.
Proof. apply (printed_number_reads_back 4096 0 vga_demo_screen); [split; reflexivity || discriminate|exact vga_demo_ok]. Defined.
