(* ===== verification/BootInfo.v ===== *)
(** * Boot information ([kernel/multiboot2.h], the boot half of [kernel/hal.c])

    The Multiboot2 information block is a list of tags in memory: the kernel
    takes the memory map, the ramfs module and the command line from it.  The
    functions read physical memory ([Mem]); [g_boot_info] is an argument.
    Pointer arithmetic that leaves the 32-bit address space has no defined
    behaviour.  A walk makes at most one step per 8 bytes of the block, which
    is the fuel it is given. *)

From Stdlib Require Import ZArith Lia ZifyBool.
From stdpp Require Import base tactics numbers list option gmap.
From S2P Require Import Prelude Pmm Mem FatName.
Local Open Scope Z_scope.

Definition MB2_TAG_END : Z := 0.
Definition MB2_TAG_CMDLINE : Z := 1.
Definition MB2_TAG_MODULE : Z := 3.
Definition MB2_TAG_MMAP : Z := 6.
Definition MULTIBOOT2_BOOT_MAGIC : Z := 0x36d76289.
Definition MB2_HEADER_SIZE : Z := 8.
Definition MB2_TAG_SIZE : Z := 8.
Definition MMAP_TAG_SIZE : Z := 16.
Definition MMAP_ENTRY_SIZE : Z := 24.

Definition rd64 (m : mem) (a : Z) : Z := rd32 m a + 2 ^ 32 * rd32 m (a + 4).

(** A pointer [p + n]. *)
Definition ptr_add (p n : Z) : option Z := if p + n <? 2 ^ 32 then Some (p + n) else None.

(** ** [multiboot2.h] *)

(** The loop of the three searches: the address of the first tag of type
    [want], 0 if there is none. *)
Fixpoint find_tag (fuel : nat) (m : mem) (p e want : Z) : option Z :=
  if p <? e then
    let ty := rd32 m p in
    if ty =? MB2_TAG_END then Some 0
    else if ty =? want then Some p
    else
      let aligned := Z.land (u32 (rd32 m (p + 4) + 7)) 0xFFFFFFF8 in
      match fuel with
      | O => None
      | S fuel' => p ← ptr_add p (if aligned =? 0 then 8 else aligned); find_tag fuel' m p e want
      end
  else Some 0.

Definition find_from_header (m : mem) (mbi want : Z) : option Z :=
  let total_size := rd32 m mbi in
  p ← ptr_add mbi MB2_HEADER_SIZE;
  e ← ptr_add mbi total_size;
  find_tag (Z.to_nat (total_size / 8)) m p e want.

Definition multiboot2_find_mmap (m : mem) (mbi : Z) : option Z := find_from_header m mbi MB2_TAG_MMAP.
Definition multiboot2_find_cmdline (m : mem) (mbi : Z) : option Z := find_from_header m mbi MB2_TAG_CMDLINE.
(** The result is [None] for 0, or the two words it stores. *)
Definition multiboot2_find_module (m : mem) (mbi : Z) : option (option (Z * Z)) :=
  p ← find_from_header m mbi MB2_TAG_MODULE;
  Some (if p =? 0 then None else Some (rd32 m (p + 8), rd32 m (p + 12))).

(** ** [hal.c] *)

(** The result and [g_boot_info]. *)
Definition hal_boot_init (boot_magic boot_info : Z) : Z * Z :=
  if negb (boot_magic =? MULTIBOOT2_BOOT_MAGIC) then (-1, 0) else (0, boot_info).

Section hal.
Variable m : mem.
Variable g_boot_info : Z.

Definition boot_get_module : option (option (Z * Z)) :=
  if g_boot_info =? 0 then Some None else multiboot2_find_module m g_boot_info.

Definition boot_get_info_region : option (Z * Z) :=
  if g_boot_info =? 0 then None else Some (g_boot_info, rd32 m g_boot_info).

(** [while (n < room && n < max - 1 && tag->string[n])], [k] characters of
    room left before [max - 1]. *)
Fixpoint cmdline_loop (k : nat) (s n room : Z) : list Z :=
  match k with
  | O => []
  | S k' =>
      if n <? room then
        let c := rd8 m (s + n) in
        if c =? 0 then [] else c :: cmdline_loop k' s (n + 1) room
      else []
  end.

(** [Some None] is -1; otherwise the string stored in [out], whose length is
    the result. *)
Definition boot_get_cmdline (max : Z) : option (option (list Z)) :=
  if (g_boot_info =? 0) || (max <=? 0) then Some None
  else
    tag ← multiboot2_find_cmdline m g_boot_info;
    if (tag =? 0) || (rd32 m (tag + 4) <=? MB2_TAG_SIZE) then Some None
    else
      let size := rd32 m (tag + 4) - MB2_TAG_SIZE in
      let room := if size <? 2 ^ 31 then size else size - 2 ^ 32 in
      Some (Some (cmdline_loop (Z.to_nat (max - 1)) (tag + 8) 0 room)).

(** [while (j < wlen && flag[j] && cmd[start + j] == flag[j]) j++] *)
Fixpoint same_chars (w flag : list Z) : Z :=
  match w, flag with
  | c :: w', f :: flag' => if c =? f then 1 + same_chars w' flag' else 0
  | _, _ => 0
  end.

Fixpoint skip_spaces (l : list Z) : list Z :=
  match l with
  | c :: l' => if c =? 32 then skip_spaces l' else l
  | [] => []
  end.
Fixpoint word_end (l : list Z) : nat :=
  match l with
  | c :: l' => if c =? 32 then O else S (word_end l')
  | [] => O
  end.

(** The loop over the words of [cmd]; the list is what is left from [i] on. *)
Fixpoint has_word (fuel : nat) (l flag : list Z) : bool :=
  match fuel with
  | O => false
  | S fuel' =>
      let l := skip_spaces l in
      let w := take (word_end l) l in
      if decide (w = []) then false
      else
        let j := same_chars w flag in
        if (j =? zlen w) && (j =? zlen flag) then true
        else has_word fuel' (drop (word_end l) l) flag
  end.

Definition boot_has_flag (flag : list Z) : option bool :=
  if decide (flag = []) then Some false
  else
    r ← boot_get_cmdline 128;
    Some match r with
         | None => false
         | Some cmd => has_word (length cmd) cmd flag
         end.

(** [while (p + tag->entry_size <= end && n < max)], [k = max - n]. *)
Fixpoint mmap_loop (k : nat) (p entry_size e : Z) : option (list boot_mem_region) :=
  q ← ptr_add p entry_size;
  if q <=? e then
    match k with
    | O => Some []
    | S k' =>
        rest ← mmap_loop k' q entry_size e;
        Some (mk_region (rd64 m p) (rd64 m (p + 8)) (rd32 m (p + 16)) :: rest)
    end
  else Some [].

(** [Some None] is -1; otherwise the regions stored in [out]. *)
Definition boot_get_memory_map (max : Z) : option (option (list boot_mem_region)) :=
  if (g_boot_info =? 0) || (max <=? 0) then Some None
  else
    tag ← multiboot2_find_mmap m g_boot_info;
    if (tag =? 0) || (rd32 m (tag + 8) <? MMAP_ENTRY_SIZE) then Some None
    else
      p ← ptr_add tag MMAP_TAG_SIZE;
      e ← ptr_add tag (rd32 m (tag + 4));
      rs ← mmap_loop (Z.to_nat max) p (rd32 m (tag + 8)) e;
      Some (Some rs).
End hal.

(** ** The information block *)

(** A tag: its type and what follows the type and the size. *)
Definition tag : Type := Z * list Z.

(** Zeros up to the next multiple of 8. *)
Definition padding (n : nat) : list Z := replicate (Z.to_nat ((- Z.of_nat n) mod 8)) 0.
Definition tag_bytes (t : tag) : list Z :=
  bytes32 t.1 ++ bytes32 (8 + zlen t.2) ++ t.2 ++ padding (length t.2).
Definition tags_bytes (ts : list tag) : list Z := concat (tag_bytes <$> ts).
Definition mbi_bytes (ts : list tag) : list Z :=
  let body := tags_bytes ts ++ tag_bytes (MB2_TAG_END, []) in
  bytes32 (8 + zlen body) ++ bytes32 0 ++ body.

Definition entry_bytes (pad : nat) (r : boot_mem_region) : list Z :=
  bytes32 (r_base r mod 2 ^ 32) ++ bytes32 (r_base r / 2 ^ 32) ++
  bytes32 (r_length r mod 2 ^ 32) ++ bytes32 (r_length r / 2 ^ 32) ++ bytes32 (r_type r) ++ replicate (4 + pad) 0.
(** Entries of [24 + pad] bytes, version 0. *)
Definition mmap_tag (pad : nat) (rs : list boot_mem_region) : tag :=
  (MB2_TAG_MMAP, bytes32 (24 + Z.of_nat pad) ++ bytes32 0 ++ concat (entry_bytes pad <$> rs)).
Definition cmdline_tag (s : list Z) : tag := (MB2_TAG_CMDLINE, s ++ [0]).
Definition module_tag (s e : Z) (name : list Z) : tag := (MB2_TAG_MODULE, bytes32 s ++ bytes32 e ++ name ++ [0]).

(** [m] holds the bytes [l] from [a] on. *)
Definition holds (m : mem) (a : Z) (l : list Z) : Prop := forall i b, l !! i = Some b -> rd8 m (a + Z.of_nat i) = b.

(** The words of a line: maximal runs of characters other than the blank. *)
Fixpoint words_from (w l : list Z) : list (list Z) :=
  match l with
  | [] => if decide (w = []) then [] else [w]
  | c :: l' => if c =? 32 then (if decide (w = []) then [] else [w]) ++ words_from [] l' else words_from (w ++ [c]) l'
  end.
Definition words (l : list Z) : list (list Z) := words_from [] l.

(** The words as [hal.h] means them, separated by white space of any kind. *)
Definition white (c : Z) : bool := (c =? 32) || ((9 <=? c) && (c <=? 13)).
Fixpoint white_words_from (w l : list Z) : list (list Z) :=
  match l with
  | [] => if decide (w = []) then [] else [w]
  | c :: l' => if white c then (if decide (w = []) then [] else [w]) ++ white_words_from [] l' else white_words_from (w ++ [c]) l'
  end.
Definition white_words (l : list Z) : list (list Z) := white_words_from [] l.

Lemma white_words_eq l : forall w, Forall (fun c => ~ 9 <= c <= 13) l -> white_words_from w l = words_from w l.
Proof.
  induction l as [|c l IH]; intros w Hl; [done|]. apply Forall_cons_1 in Hl as [Hc Hl]. cbn [white_words_from words_from].
  replace (white c) with (c =? 32) by (unfold white; lia). by rewrite !IH.
Qed.

(** ** Reading what memory holds *)

Lemma holds_app m a l1 l2 : holds m a (l1 ++ l2) <-> holds m a l1 /\ holds m (a + zlen l1) l2.
Proof.
  unfold holds, zlen. split.
  - intros H. split; intros i b E; [apply H; by apply lookup_app_l_Some|].
    replace (a + Z.of_nat (length l1) + Z.of_nat i) with (a + Z.of_nat (length l1 + i)) by lia.
    apply H. rewrite lookup_app_r by lia. by replace (length l1 + i - length l1)%nat with i by lia.
  - intros [H1 H2] i b E. apply lookup_app_Some in E as [E|[Hl E]]; [auto|].
    replace (a + Z.of_nat i) with (a + Z.of_nat (length l1) + Z.of_nat (i - length l1)) by lia. auto.
Qed.

Lemma holds_rd32 m a v : is_u32 v -> holds m a (bytes32 v) -> rd32 m a = v.
Proof.
  unfold is_u32. intros Hv H. unfold rd32. rewrite <- (Z.add_0_r a) at 1.
  change (a + 0) with (a + Z.of_nat 0). change (a + 1) with (a + Z.of_nat 1). change (a + 2) with (a + Z.of_nat 2).
  change (a + 3) with (a + Z.of_nat 3). rewrite (H 0%nat _ eq_refl), (H 1%nat _ eq_refl), (H 2%nat _ eq_refl), (H 3%nat _ eq_refl).
  Z.to_euclidean_division_equations. lia.
Qed.

Lemma holds_rd64 m a v : 0 <= v < 2 ^ 64 -> holds m a (bytes32 (v mod 2 ^ 32) ++ bytes32 (v / 2 ^ 32)) -> rd64 m a = v.
Proof.
  intros Hv [H1 H2]%holds_app. change (zlen (bytes32 _)) with 4 in H2. unfold rd64.
  rewrite (holds_rd32 _ _ _ ltac:(apply Z.mod_pos_bound; lia) H1).
  rewrite (holds_rd32 m (a + 4) (v / 2 ^ 32)); [|split; [apply Z.div_pos; lia|apply Z.div_lt_upper_bound; lia]|done].
  pose proof (Z.div_mod v (2 ^ 32)). lia.
Qed.

Lemma bytes32_len v : length (bytes32 v) = 4%nat.
Proof. done. Qed.

(** The size of a tag with its padding. *)
Lemma tag_size t : zlen (tag_bytes t) = 8 * ((8 + zlen t.2 + 7) / 8).
Proof.
  unfold tag_bytes, padding, zlen. rewrite !length_app, !bytes32_len, length_replicate.
  rewrite !Nat2Z.inj_add, Z2Nat.id by (apply Z.mod_pos_bound; lia). set (n := Z.of_nat (length t.2)).
  Z.to_euclidean_division_equations. lia.
Qed.

Lemma round_up_8 n : 0 <= n -> n + 7 < 2 ^ 32 -> Z.land (u32 (n + 7)) 0xFFFFFFF8 = 8 * ((n + 7) / 8).
Proof.
  intros H0 Hn. rewrite u32_small by lia. change 0xFFFFFFF8 with (Z.ldiff (Z.ones 32) (Z.ones 3)).
  assert (E : Z.land (n + 7) (Z.ldiff (Z.ones 32) (Z.ones 3)) = Z.ldiff (n + 7) (Z.ones 3)).
  { apply Z.bits_inj'. intros i Hi. rewrite Z.land_spec, !Z.ldiff_spec, !Z.testbit_ones by lia.
    destruct (Z_lt_le_dec i 32) as [|Hge].
    - replace ((0 <=? i) && (i <? 32)) with true by lia. done.
    - rewrite <- (Z.mod_small (n + 7) (2 ^ 32)), Z.mod_pow2_bits_high by lia. done. }
  rewrite E, Z.ldiff_ones_r, Z.shiftr_div_pow2, Z.shiftl_mul_pow2 by lia. change (2 ^ 3) with 8. lia.
Qed.

(** ** Finding a tag *)

(** The address of the first tag of type [want], the tags being at [a]. *)
Fixpoint tag_addr (a : Z) (ts : list tag) (want : Z) : Z :=
  match ts with
  | [] => 0
  | t :: ts' => if t.1 =? want then a else tag_addr (a + zlen (tag_bytes t)) ts' want
  end.

(** Tags the loader wrote: a type that is not the end mark. *)
Definition tag_ok (t : tag) : Prop := is_u32 t.1 /\ t.1 <> MB2_TAG_END.

Lemma find_tag_run m want ts : want <> MB2_TAG_END -> forall fuel a e, 0 <= a -> Forall tag_ok ts ->
  holds m a (tags_bytes ts ++ tag_bytes (MB2_TAG_END, [])) ->
  e = a + zlen (tags_bytes ts ++ tag_bytes (MB2_TAG_END, [])) -> e + 8 < 2 ^ 32 ->
  e - a <= 8 * (Z.of_nat fuel + 1) ->
  find_tag fuel m a e want = Some (tag_addr a ts want).
Proof.
  intros Hw. induction ts as [|t ts IH]; intros fuel a e Ha Hts Hm He Hb Hf.
  - cbn [tags_bytes fmap list_fmap concat app tag_addr] in *. change (zlen (tag_bytes (MB2_TAG_END, []))) with 8 in He.
    assert (Hty : rd32 m a = 0).
    { apply holds_rd32; [done|]. by apply (holds_app m a (bytes32 0)) in Hm as [Hm _]. }
    destruct fuel; cbn [find_tag]; replace (a <? e) with true by lia; by rewrite Hty.
  - destruct (Forall_cons_1 _ _ _ Hts) as [[Ht Hnz] Hts']. unfold tags_bytes in *. cbn [fmap list_fmap concat tag_addr] in *.
    rewrite <- app_assoc in Hm, He. fold (tags_bytes ts) in *. apply holds_app in Hm as [Hmt Hm].
    set (rest := tags_bytes ts ++ tag_bytes (MB2_TAG_END, [])) in *.
    assert (Hsz := tag_size t). assert (Hl : 0 <= zlen t.2) by (unfold zlen; lia).
    assert (Hrest : 8 <= zlen rest) by (subst rest; unfold zlen; rewrite length_app; cbn; lia).
    rewrite zlen_app in He. unfold tag_bytes in Hmt. apply holds_app in Hmt as [Hm1 Hmt]. apply holds_app in Hmt as [Hm2 _].
    change (zlen (bytes32 t.1)) with 4 in *. apply holds_rd32 in Hm1; [|done].
    assert (Hdiv := Z.div_mod (8 + zlen t.2 + 7) 8). assert (Hmod := Z.mod_pos_bound (8 + zlen t.2 + 7) 8).
    apply holds_rd32 in Hm2; [|unfold is_u32; lia]. unfold MB2_TAG_END in Hnz.
    destruct fuel as [|fuel]; [lia|]. cbn [find_tag]. unfold MB2_TAG_END. replace (a <? e) with true by lia.
    rewrite Hm1, Hm2. replace (t.1 =? 0) with false by lia. destruct (t.1 =? want); [done|].
    rewrite round_up_8 by lia. rewrite <- Hsz. replace (zlen (tag_bytes t) =? 0) with false by lia.
    unfold ptr_add. replace (_ <? 2 ^ 32) with true by lia. cbn [mbind option_bind].
    apply IH; [lia|done|done|lia|done|lia].
Qed.

Definition first_tag (ts : list tag) (want : Z) : option tag := List.find (fun t => t.1 =? want) ts.

Lemma tag_addr_found m ts want : forall a, 0 <= a -> holds m a (tags_bytes ts) ->
  match first_tag ts want with
  | Some t => t.1 = want /\ a <= tag_addr a ts want /\ holds m (tag_addr a ts want) (tag_bytes t) /\
      tag_addr a ts want + zlen (tag_bytes t) <= a + zlen (tags_bytes ts)
  | None => tag_addr a ts want = 0
  end.
Proof.
  unfold first_tag, tags_bytes. induction ts as [|t ts IH]; intros a Ha Hm; [done|].
  cbn [fmap list_fmap concat List.find tag_addr] in *. apply holds_app in Hm as [Hmt Hm]. rewrite zlen_app.
  assert (0 <= zlen (tag_bytes t)) by (unfold zlen; lia). assert (0 <= zlen (concat (tag_bytes <$> ts))) by (unfold zlen; lia).
  destruct (t.1 =? want) eqn:E; [split_and!; [lia|lia|done|lia]|].
  specialize (IH (a + zlen (tag_bytes t)) ltac:(lia) Hm). destruct (List.find (fun t => t.1 =? want) ts) as [u|]; [|done].
  destruct IH as (? & ? & ? & ?). split_and!; [done|lia|done|lia].
Qed.

Section block.
Context (m : mem) (a : Z) (ts : list tag).
Hypothesis (Hts : Forall tag_ok ts) (Ha : 0 < a) (Hm : holds m a (mbi_bytes ts)).

Lemma block_size : rd32 m a = zlen (mbi_bytes ts) \/ 2 ^ 32 <= zlen (mbi_bytes ts).
Proof.
  destruct (Z_lt_le_dec (zlen (mbi_bytes ts)) (2 ^ 32)) as [Hl|]; [left|by right].
  unfold mbi_bytes in *. apply holds_app in Hm as [Hm1 _]. rewrite !zlen_app in *.
  change (zlen (bytes32 _)) with 4 in *. apply holds_rd32 in Hm1; [lia|]. unfold is_u32, zlen in *. lia.
Qed.

Hypothesis (Hfit : a + zlen (mbi_bytes ts) + 8 < 2 ^ 32).

Lemma find_run want : want <> MB2_TAG_END -> find_from_header m a want = Some (tag_addr (a + 8) ts want).
Proof.
  intros Hw. destruct block_size as [Hs|]; [|lia]. unfold find_from_header, ptr_add, MB2_HEADER_SIZE. rewrite Hs.
  set (body := tags_bytes ts ++ tag_bytes (MB2_TAG_END, [])).
  assert (Hz : zlen (mbi_bytes ts) = 8 + zlen body) by (unfold mbi_bytes; fold body; rewrite !zlen_app; change (zlen (bytes32 _)) with 4; lia).
  assert (0 <= zlen body) by (unfold zlen; lia).
  replace (a + 8 <? 2 ^ 32) with true by lia. replace (a + zlen (mbi_bytes ts) <? 2 ^ 32) with true by lia.
  cbn [mbind option_bind]. pose proof (Z.div_mod (zlen (mbi_bytes ts)) 8). pose proof (Z.mod_pos_bound (zlen (mbi_bytes ts)) 8).
  apply find_tag_run; [done|lia|done| |fold body; lia|lia|].
  - unfold mbi_bytes in Hm. apply holds_app in Hm as [_ H2]. apply holds_app in H2 as [_ H2].
    change (zlen (bytes32 _)) with 4 in H2. replace (a + 4 + 4) with (a + 8) in H2 by lia. exact H2.
  - rewrite Z2Nat.id by (apply Z.div_pos; lia). fold body. lia.
Qed.

(** Where the first tag of a type is. *)
Lemma find_found want t : want <> MB2_TAG_END -> first_tag ts want = Some t ->
  exists p, find_from_header m a want = Some p /\ a < p /\ holds m p (tag_bytes t) /\ p + zlen (tag_bytes t) <= a + zlen (mbi_bytes ts).
Proof.
  intros Hw Ht. rewrite find_run by done. eexists. split; [done|].
  unfold mbi_bytes in *. apply holds_app in Hm as [_ H2]. apply holds_app in H2 as [_ H2]. apply holds_app in H2 as [H2 _].
  change (zlen (bytes32 _)) with 4 in H2. replace (a + 4 + 4) with (a + 8) in H2 by lia.
  pose proof (tag_addr_found m ts want (a + 8) ltac:(lia) H2) as Hf. rewrite Ht in Hf. destruct Hf as (_ & H3 & H4 & H5).
  rewrite !zlen_app. change (zlen (bytes32 _)) with 4. assert (0 <= zlen (tag_bytes (MB2_TAG_END, []))) by (unfold zlen; lia).
  split_and!; [lia|done|lia].
Qed.

Lemma find_missing want : want <> MB2_TAG_END -> first_tag ts want = None -> find_from_header m a want = Some 0.
Proof.
  intros Hw Ht. rewrite find_run by done. f_equal.
  unfold mbi_bytes in *. apply holds_app in Hm as [_ H2]. apply holds_app in H2 as [_ H2]. apply holds_app in H2 as [H2 _].
  change (zlen (bytes32 _)) with 4 in H2. replace (a + 4 + 4) with (a + 8) in H2 by lia.
  pose proof (tag_addr_found m ts want (a + 8) ltac:(lia) H2) as Hf. by rewrite Ht in Hf.
Qed.

(** ** The module *)

Lemma module_run s e name : is_u32 s -> is_u32 e -> first_tag ts MB2_TAG_MODULE = Some (module_tag s e name) ->
  boot_get_module m a = Some (Some (s, e)).
Proof.
  intros Hs He Ht. destruct (find_found MB2_TAG_MODULE _ ltac:(done) Ht) as (p & E & Hp & Hb & _).
  unfold boot_get_module, multiboot2_find_module. replace (a =? 0) with false by lia. rewrite E. cbn [mbind option_bind].
  replace (p =? 0) with false by lia. unfold tag_bytes, module_tag in Hb. cbn [snd] in Hb.
  apply holds_app in Hb as [_ Hb]. apply holds_app in Hb as [_ Hb]. apply holds_app in Hb as [Hb _].
  apply holds_app in Hb as [H1 Hb]. apply holds_app in Hb as [H2 _]. change (zlen (bytes32 _)) with 4 in *.
  replace (p + 4 + 4) with (p + 8) in * by lia. replace (p + 8 + 4) with (p + 12) in * by lia.
  by rewrite (holds_rd32 _ _ _ Hs H1), (holds_rd32 _ _ _ He H2).
Qed.

(** ** The command line *)

Lemma cmdline_loop_run s : forall k b n room, 0 ∉ s -> Forall (fun c => 0 <= c < 256) s ->
  holds m (b + n) (s ++ [0]) -> n + zlen s < room -> cmdline_loop m k b n room = take k s.
Proof.
  induction s as [|c s IH]; intros k b n room H0 Hc Hb Hr.
  - destruct k; [done|]. cbn [cmdline_loop]. change (zlen (@nil Z)) with 0 in Hr. replace (n <? room) with true by lia.
    specialize (Hb 0%nat 0 eq_refl). rewrite Z.add_0_r in Hb. by rewrite Hb.
  - destruct k; [done|]. cbn [cmdline_loop]. change (zlen (c :: s)) with (Z.of_nat (S (length s))) in Hr. fold (zlen s) in *. apply not_elem_of_cons in H0 as [Hne H0].
    destruct (Forall_cons_1 _ _ _ Hc) as [_ Hc']. replace (n <? room) with true by (unfold zlen in *; lia).
    pose proof (Hb 0%nat c eq_refl) as Hb0. rewrite Z.add_0_r in Hb0. rewrite Hb0.
    replace (c =? 0) with false by lia. cbn [take]. f_equal. apply IH; [done|done| |unfold zlen in *; lia].
    apply (holds_app m (b + n) [c]) in Hb as [_ Hb]. by replace (b + (n + 1)) with (b + n + 1) by lia.
Qed.

Lemma cmdline_run s max : 0 ∉ s -> Forall (fun c => 0 <= c < 256) s -> zlen s < 2 ^ 31 - 1 -> 0 < max ->
  first_tag ts MB2_TAG_CMDLINE = Some (cmdline_tag s) ->
  boot_get_cmdline m a max = Some (Some (take (Z.to_nat (max - 1)) s)).
Proof.
  intros H0 Hs Hl Hmax Ht. destruct (find_found MB2_TAG_CMDLINE _ ltac:(done) Ht) as (p & E & Hp & Hb & _).
  unfold boot_get_cmdline, multiboot2_find_cmdline. replace ((a =? 0) || (max <=? 0)) with false by lia. rewrite E.
  cbn [mbind option_bind]. unfold tag_bytes, cmdline_tag in Hb. cbn [snd] in Hb.
  apply holds_app in Hb as [_ Hb]. apply holds_app in Hb as [H1 Hb]. apply holds_app in Hb as [Hb _].
  change (zlen (bytes32 _)) with 4 in *. replace (p + 4 + 4) with (p + 8) in * by lia.
  assert (Hz : zlen (s ++ [0]) = zlen s + 1) by (rewrite zlen_app; done). rewrite Hz in H1.
  assert (0 <= zlen s) by (unfold zlen; lia). apply holds_rd32 in H1; [|unfold is_u32; lia]. rewrite H1. unfold MB2_TAG_SIZE.
  replace ((p =? 0) || (8 + (zlen s + 1) <=? 8)) with false by lia. do 2 f_equal.
  replace (8 + (zlen s + 1) - 8) with (zlen s + 1) by lia. replace (zlen s + 1 <? 2 ^ 31) with true by lia.
  apply cmdline_loop_run; [done|done| |lia]. by rewrite Z.add_0_r.
Qed.

(** ** The memory map *)

Definition region_ok (r : boot_mem_region) : Prop :=
  0 <= r_base r < 2 ^ 64 /\ 0 <= r_length r < 2 ^ 64 /\ is_u32 (r_type r).

Lemma entry_len pad r : zlen (entry_bytes pad r) = 24 + Z.of_nat pad.
Proof. unfold entry_bytes, zlen. rewrite !length_app, !bytes32_len, length_replicate. lia. Qed.

Lemma entry_read pad r p : region_ok r -> holds m p (entry_bytes pad r) ->
  mk_region (rd64 m p) (rd64 m (p + 8)) (rd32 m (p + 16)) = r.
Proof.
  intros (H1 & H2 & H3) H. unfold entry_bytes in H. rewrite app_assoc in H. apply holds_app in H as [Hb H].
  rewrite app_assoc in H. apply holds_app in H as [Hl H]. apply holds_app in H as [Ht _].
  change (zlen (bytes32 _ ++ bytes32 _)) with 8 in *. replace (p + 8 + 8) with (p + 16) in Ht by lia.
  rewrite (holds_rd64 _ _ _ H1 Hb), (holds_rd64 _ _ _ H2 Hl), (holds_rd32 _ _ _ H3 Ht). by destruct r.
Qed.

Lemma mmap_loop_run pad rs : forall k p e, 0 <= p -> Forall region_ok rs ->
  holds m p (concat (entry_bytes pad <$> rs)) -> e = p + zlen (concat (entry_bytes pad <$> rs)) ->
  e + 24 + Z.of_nat pad < 2 ^ 32 -> mmap_loop m k p (24 + Z.of_nat pad) e = Some (take k rs).
Proof.
  induction rs as [|r rs IH]; intros k p e Hp Hrs Hb He Hf; cbn [fmap list_fmap concat] in *.
  - change (zlen (@nil Z)) with 0 in He. rewrite take_nil. destruct k; cbn [mmap_loop]; unfold ptr_add;
      (replace (_ <? 2 ^ 32) with true by lia; cbn [mbind option_bind]; by replace (_ <=? e) with false by lia).
  - destruct (Forall_cons_1 _ _ _ Hrs) as [Hr Hrs']. apply holds_app in Hb as [Hb1 Hb]. rewrite zlen_app, entry_len in *.
    assert (0 <= zlen (concat (entry_bytes pad <$> rs))) by (unfold zlen; lia).
    destruct k; cbn [mmap_loop take]; unfold ptr_add; (replace (p + _ <? 2 ^ 32) with true by lia); cbn [mbind option_bind];
      (replace (_ <=? e) with true by lia); [done|].
    rewrite (IH k (p + (24 + Z.of_nat pad)) e) by (done || lia). cbn [mbind option_bind].
    by rewrite (entry_read pad r p Hr Hb1).
Qed.

Lemma mmap_run pad rs max : Forall region_ok rs -> 0 < max -> a + zlen (mbi_bytes ts) + 24 + Z.of_nat pad < 2 ^ 32 ->
  first_tag ts MB2_TAG_MMAP = Some (mmap_tag pad rs) ->
  boot_get_memory_map m a max = Some (Some (take (Z.to_nat max) rs)).
Proof.
  intros Hrs Hmax Hpad Ht. destruct (find_found MB2_TAG_MMAP _ ltac:(done) Ht) as (p & E & Hp & Hb & He).
  unfold boot_get_memory_map, multiboot2_find_mmap. replace ((a =? 0) || (max <=? 0)) with false by lia. rewrite E.
  cbn [mbind option_bind]. rewrite tag_size in He. unfold tag_bytes in Hb. unfold mmap_tag in Hb, He. cbn [snd] in *.
  set (es := concat (entry_bytes pad <$> rs)) in *.
  assert (Hz : zlen (bytes32 (24 + Z.of_nat pad) ++ bytes32 0 ++ es) = 8 + zlen es) by (rewrite !zlen_app; change (zlen (bytes32 _)) with 4; lia).
  assert (0 <= zlen es) by (unfold zlen; lia). rewrite Hz in He.
  pose proof (Z.div_mod (8 + (8 + zlen es) + 7) 8). pose proof (Z.mod_pos_bound (8 + (8 + zlen es) + 7) 8).
  apply holds_app in Hb as [_ Hb]. apply holds_app in Hb as [Hsz Hb]. rewrite Hz in Hsz. apply holds_app in Hb as [Hb _].
  apply holds_app in Hb as [Hes Hb]. apply holds_app in Hb as [_ Hb]. change (zlen (bytes32 _)) with 4 in *.
  replace (p + 4 + 4) with (p + 8) in * by lia. replace (p + 8 + 4 + 4) with (p + 16) in * by lia.
  apply holds_rd32 in Hsz; [|unfold is_u32; lia]. apply holds_rd32 in Hes; [|unfold is_u32; lia].
  rewrite Hsz, Hes. unfold MMAP_ENTRY_SIZE, MMAP_TAG_SIZE, ptr_add.
  replace ((p =? 0) || (24 + Z.of_nat pad <? 24)) with false by lia. replace (p + 16 <? 2 ^ 32) with true by lia.
  replace (p + (8 + (8 + zlen es)) <? 2 ^ 32) with true by lia. cbn [mbind option_bind].
  rewrite (mmap_loop_run pad rs) by (done || lia || (fold es; lia)). done.
Qed.

Lemma nothing_run : 
  (first_tag ts MB2_TAG_MMAP = None -> forall max, boot_get_memory_map m a max = Some None) /\
  (first_tag ts MB2_TAG_CMDLINE = None -> forall max, boot_get_cmdline m a max = Some None) /\
  (first_tag ts MB2_TAG_MODULE = None -> boot_get_module m a = Some None).
Proof.
  unfold boot_get_memory_map, boot_get_cmdline, boot_get_module, multiboot2_find_mmap, multiboot2_find_cmdline, multiboot2_find_module.
  split_and!; intros Ht; intros; rewrite find_missing by done; cbn [mbind option_bind].
  - by destruct (_ || _).
  - by destruct (_ || _).
  - by destruct (a =? 0).
Qed.
End block.

(** ** The words of the command line *)

Lemma same_chars_eq w flag : (same_chars w flag =? zlen w) && (same_chars w flag =? zlen flag) = bool_decide (w = flag).
Proof.
  assert (Hle : forall w flag, 0 <= same_chars w flag).
  { induction w0 as [|c w0 IH]; intros [|f fl]; cbn [same_chars]; try lia. destruct (c =? f); [specialize (IH fl)|]; lia. }
  revert flag. induction w as [|c w IH]; intros [|f flag]; cbn [same_chars].
  - done.
  - rewrite bool_decide_false by done. unfold zlen. cbn [length]. lia.
  - rewrite bool_decide_false by done. unfold zlen. cbn [length]. lia.
  - destruct (Z.eqb_spec c f) as [->|Hne].
    + transitivity (bool_decide (w = flag)); [|apply bool_decide_ext; naive_solver]. rewrite <- IH.
      unfold zlen. cbn [length]. lia.
    + rewrite bool_decide_false by congruence. unfold zlen. cbn [length]. lia.
Qed.

Lemma words_from_word w l : w <> [] \/ (exists c l', l = c :: l' /\ c <> 32) ->
  words_from w l = (w ++ take (word_end l) l) :: words (drop (word_end l) l).
Proof.
  revert w. induction l as [|c l IH]; intros w Hw; cbn [words_from word_end].
  - destruct Hw as [Hw|(? & ? & ? & _)]; [|done]. rewrite decide_False by done. by rewrite app_nil_r.
  - destruct (Z.eqb_spec c 32) as [->|Hne].
    + destruct Hw as [Hw|(? & ? & [= <- _] & ?)]; [|done]. rewrite decide_False by done. cbn [take drop app].
      rewrite app_nil_r. unfold words. cbn [words_from]. by rewrite decide_True.
    + rewrite IH by (left; by destruct w). cbn [take drop]. by rewrite <- app_assoc.
Qed.

Lemma words_skip l : words l = words (skip_spaces l).
Proof.
  induction l as [|c l IH]; [done|]. cbn [skip_spaces]. destruct (Z.eqb_spec c 32) as [->|]; [|done]. rewrite <- IH.
  unfold words. cbn [words_from]. by rewrite decide_True.
Qed.

Lemma skip_spaces_head l : skip_spaces l = [] \/ exists c l', skip_spaces l = c :: l' /\ c <> 32.
Proof. induction l as [|c l IH]; [by left|]. cbn [skip_spaces]. destruct (Z.eqb_spec c 32); [done|]. right. eauto. Qed.

Lemma skip_spaces_len l : (length (skip_spaces l) <= length l)%nat.
Proof. induction l as [|c l IH]; [done|]. cbn [skip_spaces]. destruct (c =? 32); cbn [length]; lia. Qed.

Lemma has_word_spec flag fuel : forall l, (length l <= fuel)%nat -> has_word fuel l flag = bool_decide (flag ∈ words l).
Proof.
  induction fuel as [|fuel IH]; intros l Hl; cbn [has_word].
  { destruct l; [|cbn in Hl; lia]. symmetry. apply bool_decide_false. apply not_elem_of_nil. }
  rewrite words_skip. pose proof (skip_spaces_len l) as Hs.
  destruct (skip_spaces_head l) as [E|(c & l' & E & Hc)]; rewrite E in *.
  { cbn. symmetry. apply bool_decide_false. apply not_elem_of_nil. }
  assert (Hwe : word_end (c :: l') = S (word_end l')) by (cbn [word_end]; by replace (c =? 32) with false by lia).
  rewrite decide_False by (by rewrite Hwe). rewrite same_chars_eq. unfold words.
  rewrite words_from_word by eauto. cbn [app]. rewrite IH by (rewrite length_drop, Hwe; cbn [length] in *; lia).
  case_bool_decide as Ew; [symmetry; apply bool_decide_true; rewrite Ew; apply elem_of_cons; by left|].
  apply bool_decide_ext. rewrite elem_of_cons. naive_solver.
Qed.

(** ** Properties *)

(** C39 (boot information).  What the bootloader wrote into a well-formed
    Multiboot2 block is what the kernel gets: the place of the block and its size;
    from the first memory map tag its regions in order (as many as fit), from the
    first command line tag its text (cut to the buffer), from the first module tag
    its address range; without such a tag the functions say so.  [boot_has_flag]
    says whether a flag is one of the blank-separated words of the first 127
    characters of the command line; these are its whitespace-separated words if the
    line has at most 127 characters and no white space but blanks. *)
Theorem boot_info_read_back (m : mem) (a max : Z) (ts : list tag) (pad : nat) :
  Forall tag_ok ts -> 0 < a -> 0 < max -> holds m a (mbi_bytes ts) ->
  a + zlen (mbi_bytes ts) + 24 + Z.of_nat pad < 2 ^ 32 ->
  boot_get_info_region m a = Some (a, zlen (mbi_bytes ts)) /\
  (forall rs, first_tag ts MB2_TAG_MMAP = Some (mmap_tag pad rs) -> Forall region_ok rs ->
     boot_get_memory_map m a max = Some (Some (take (Z.to_nat max) rs))) /\
  (forall s, first_tag ts MB2_TAG_CMDLINE = Some (cmdline_tag s) -> 0 ∉ s -> Forall (fun c => 0 <= c < 256) s ->
     zlen s < 2 ^ 31 - 1 ->
     boot_get_cmdline m a max = Some (Some (take (Z.to_nat (max - 1)) s)) /\
     forall flag, flag <> [] -> boot_has_flag m a flag = Some (bool_decide (flag ∈ words (take 127 s))) /\
       (zlen s <= 127 -> Forall (fun c => ~ 9 <= c <= 13) s -> boot_has_flag m a flag = Some (bool_decide (flag ∈ white_words s)))) /\
  (forall s e name, first_tag ts MB2_TAG_MODULE = Some (module_tag s e name) -> is_u32 s -> is_u32 e ->
     boot_get_module m a = Some (Some (s, e))) /\
  (first_tag ts MB2_TAG_MMAP = None -> boot_get_memory_map m a max = Some None) /\
  (first_tag ts MB2_TAG_CMDLINE = None -> boot_get_cmdline m a max = Some None) /\
  (first_tag ts MB2_TAG_MODULE = None -> boot_get_module m a = Some None).
Proof.
  intros Hts Ha Hmax Hm Hfit. assert (Hf : a + zlen (mbi_bytes ts) + 8 < 2 ^ 32) by lia.
  destruct (nothing_run m a ts Hts Ha Hm Hf) as (N1 & N2 & N3). split_and!; [| | | |auto|auto|auto].
  - unfold boot_get_info_region. replace (a =? 0) with false by lia. destruct (block_size m a ts Hm) as [->|Hbig]; [done|lia].
  - intros rs Ht Hrs. by apply (mmap_run m a ts Hts Ha Hm Hf pad).
  - intros s Ht H0 Hs Hl. split; [by apply (cmdline_run m a ts Hts Ha Hm Hf)|]. intros flag Hflag.
    assert (E : boot_has_flag m a flag = Some (bool_decide (flag ∈ words (take 127 s)))).
    { unfold boot_has_flag. rewrite decide_False by done. rewrite (cmdline_run m a ts Hts Ha Hm Hf s 128) by done. cbn [mbind option_bind].
      change (Z.to_nat (128 - 1)) with 127%nat. f_equal. by apply has_word_spec. }
    split; [exact E|]. intros Hshort Hw. unfold white_words. rewrite white_words_eq by done. rewrite E, take_ge by (unfold zlen in Hshort; lia). done.
  - intros s e name Ht Hs He. by apply (module_run m a ts Hts Ha Hm Hf s e name).
Qed.

(** Memory that holds [l] at [a]. *)
Fixpoint load_bytes (m : mem) (a : Z) (l : list Z) : mem :=
  match l with
  | [] => m
  | b :: l' => load_bytes (wr8 m a b) (a + 1) l'
  end.

Lemma load_bytes_below l : forall m a x, x < a -> rd8 (load_bytes m a l) x = rd8 m x.
Proof.
  induction l as [|b l IH]; intros m a x Hx; [done|]. cbn [load_bytes]. rewrite IH by lia. rewrite rd8_wr8.
  by replace (a =? x) with false by lia.
Qed.

Lemma load_bytes_holds l : forall m a, Forall (fun b => 0 <= b < 256) l -> holds (load_bytes m a l) a l.
Proof.
  induction l as [|b l IH]; intros m a Hl; [by intros i c E|]. destruct (Forall_cons_1 _ _ _ Hl) as [Hb Hl'].
  cbn [load_bytes]. intros [|i] c E.
  - injection E as <-. rewrite Z.add_0_r, load_bytes_below by lia. rewrite rd8_wr8, Z.eqb_refl. by apply u8_small.
  - rewrite Nat2Z.inj_succ. replace (a + Z.succ (Z.of_nat i)) with (a + 1 + Z.of_nat i) by lia. by apply IH.
Qed.

Definition demo_regions : list boot_mem_region := [mk_region 0 0x9FC00 1; mk_region 0x100000 0x5F00000 1].
(** "quiet safemode" *)
Definition demo_cmdline : list Z := [113; 117; 105; 101; 116; 32; 115; 97; 102; 101; 109; 111; 100; 101].
Definition safemode : list Z := [115; 97; 102; 101; 109; 111; 100; 101].
Definition demo_tags : list tag := [cmdline_tag demo_cmdline; module_tag 0x300000 0x312345 [114]; mmap_tag 0 demo_regions].
Definition demo_block : mem := load_bytes ∅ 0x10000 (mbi_bytes demo_tags).

Definition byte_list (l : list Z) : bool := forallb (fun b => (0 <=? b) && (b <? 256)) l.
Lemma byte_list_spec l : byte_list l = true -> Forall (fun b => 0 <= b < 256) l.
Proof. unfold byte_list. rewrite forallb_forall, Forall_forall. intros H x Hx. apply list_elem_of_In in Hx. specialize (H x Hx). lia. Qed.

Lemma demo_block_holds : holds demo_block 0x10000 (mbi_bytes demo_tags).
Proof. apply load_bytes_holds, byte_list_spec. vm_compute. reflexivity. Qed.

Lemma demo_tags_ok : Forall tag_ok demo_tags.
Proof. repeat constructor; discriminate. Qed.

Lemma boot_info_read_back_witness :
  boot_get_memory_map demo_block 0x10000 64 = Some (Some demo_regions) /\
  boot_has_flag demo_block 0x10000 safemode = Some true /\
  boot_get_module demo_block 0x10000 = Some (Some (0x300000, 0x312345)).
Proof.
  destruct (boot_info_read_back demo_block 0x10000 64 demo_tags 0 demo_tags_ok eq_refl eq_refl demo_block_holds ltac:(vm_compute; reflexivity))
    as (_ & H1 & H2 & H3 & _). split_and!.
  - apply (H1 demo_regions); [reflexivity|]. repeat constructor; discriminate.
  - destruct (H2 demo_cmdline) as [_ H4]; [reflexivity|apply (bool_decide_unpack _); vm_compute; exact I|
      apply byte_list_spec; reflexivity|reflexivity|]. etrans; [apply (H4 safemode); [discriminate|discriminate|]; apply (bool_decide_unpack _); vm_compute; exact I|vm_compute; reflexivity].
  - apply (H3 0x300000 0x312345 [114]); [reflexivity|split; reflexivity || discriminate|split; reflexivity || discriminate].
Defined.

(** (from the boot map to the allocator).  With the 64-entry array [kmain]
    uses, the pages the allocator hands out after boot are exactly those at or
    above 4 MB that lie in a usable region of the first 64 entries of the map
    the bootloader left in memory. *)
Theorem boot_map_reaches_allocator (m : mem) (a : Z) (ts : list tag) (pad : nat) (rs : list boot_mem_region) :
  Forall tag_ok ts -> 0 < a -> holds m a (mbi_bytes ts) -> a + zlen (mbi_bytes ts) + 24 + Z.of_nat pad < 2 ^ 32 ->
  first_tag ts MB2_TAG_MMAP = Some (mmap_tag pad rs) -> Forall region_ok rs -> rs <> [] ->
  exists regions, boot_get_memory_map m a 64 = Some (Some regions) /\ pmm_ok (pmm_init regions) /\
    forall p, page_free (pmm_init regions) p = true <-> 1024 <= p /\ page_released (take 64 rs) p.
Proof.
  intros Hts Ha Hm Hfit Ht Hrs Hne. exists (take 64 rs). split.
  - by apply (mmap_run m a ts Hts Ha Hm ltac:(lia) pad rs 64).
  - apply init_regions_spec. by destruct rs.
Qed.

Lemma boot_map_reaches_allocator_witness :
  exists regions, boot_get_memory_map demo_block 0x10000 64 = Some (Some regions) /\ pmm_ok (pmm_init regions) /\
    forall p, page_free (pmm_init regions) p = true <-> 1024 <= p /\ page_released (take 64 demo_regions) p.
Proof.
  apply (boot_map_reaches_allocator demo_block 0x10000 demo_tags 0 demo_regions demo_tags_ok eq_refl demo_block_holds);
    [vm_compute; reflexivity|reflexivity|repeat constructor; discriminate|discriminate].
Defined.

(** (a cut word).  [boot_has_flag] looks at the first 127 characters only and
    takes the word they cut off for a whole one: a command line whose last word
    is "safemodeX" requests the safe mode, although "safemode" is none of its
    words. *)
Theorem boot_has_flag_cut_word :
  let s := replicate 118 97 ++ [32] ++ safemode ++ [88] in
  let m := load_bytes ∅ 0x10000 (mbi_bytes [cmdline_tag s]) in
  boot_has_flag m 0x10000 safemode = Some true /\ safemode ∉ words s.
Proof. split; [vm_compute; reflexivity|]. apply (bool_decide_unpack _). vm_compute. exact I. Qed.
