(* ===== verification/Ata.v ===== *)
(** * ATA driver ([kernel/drivers/ata.c])

    PIO transfers of single sectors.  What the driver sees of the hardware is
    the interface [Ports]: port reads and writes and the tick counter, on a
    device state of any type.  [drive] is a reference drive that follows the
    PIO protocol; the theorems on transfers are about devices that behave like
    it at the ports of their channel.

    A transfer gives the processor away in the middle, so it is cut into turns:
    [ata_turn] runs from one point where an interrupt or another process may
    come in to the next; [AtaSync] interleaves them.  The polling loops are
    bounded and run [spin] with the number of iterations of the source. *)

From Stdlib Require Import ZArith Lia ZifyBool.
From stdpp Require Import base tactics numbers list option.
From S2P Require Import Prelude FatName Fat Process.
Local Open Scope Z_scope.

(** ** The hardware *)

Class Ports (Dv : Type) := {
  inb : Z -> Dv -> Z * Dv;
  outb : Z -> Z -> Dv -> Dv;
  inw : Z -> Dv -> Z * Dv;
  outw : Z -> Z -> Dv -> Dv;
  timer_get_ticks : Dv -> Z * Dv
}.

Definition REG_DATA : Z := 0.
Definition REG_SECCOUNT : Z := 2.
Definition REG_LBA_LO : Z := 3.
Definition REG_LBA_MID : Z := 4.
Definition REG_LBA_HI : Z := 5.
Definition REG_DRIVE_HEAD : Z := 6.
Definition REG_STATUS : Z := 7.
Definition REG_CMD : Z := 7.
Definition ATA_SR_BSY : Z := 0x80.
Definition ATA_SR_DRQ : Z := 0x08.
Definition ATA_SR_ERR : Z := 0x01.
Definition CMD_READ : Z := 0x20.
Definition CMD_WRITE : Z := 0x30.
Definition CMD_IDENTIFY : Z := 0xEC.
Definition CMD_FLUSH : Z := 0xE7.
Definition ATAPI_MID : Z := 0x14.
Definition ATAPI_HI : Z := 0xEB.
Definition ATA_RESET_TIMEOUT_TICKS : Z := 100.
Definition CRASH_SPIN : positive := 2000000.
Definition POLL_SPIN : positive := 0x10000000.

Definition has (s bit : Z) : bool := negb (Z.land s bit =? 0).

(** ** State *)

Record ata := Ata {
  g_present : bool;
  g_base : Z;
  g_ctrl : Z;
  g_drive_sel : Z;
  g_lba_sel : Z;
  g_irq_fired : bool;
  g_irq_waiter : option Z;
  g_ata_busy : bool;
  g_gate_waiters : list Z          (** the first [g_gate_waiter_count] entries *)
}.

Definition ata0 : ata := Ata false 0 0 0 0 false None false [].

Record atast {Dv : Type} := AtaSt { a_dev : Dv; a_drv : ata; a_tab : ptable }.
Arguments atast : clear implicits.
Arguments AtaSt {Dv}.

Definition set_fired (b : bool) (a : ata) : ata :=
  Ata (g_present a) (g_base a) (g_ctrl a) (g_drive_sel a) (g_lba_sel a) b (g_irq_waiter a) (g_ata_busy a) (g_gate_waiters a).
Definition set_irq_waiter (w : option Z) (a : ata) : ata :=
  Ata (g_present a) (g_base a) (g_ctrl a) (g_drive_sel a) (g_lba_sel a) (g_irq_fired a) w (g_ata_busy a) (g_gate_waiters a).
Definition set_busy (b : bool) (a : ata) : ata :=
  Ata (g_present a) (g_base a) (g_ctrl a) (g_drive_sel a) (g_lba_sel a) (g_irq_fired a) (g_irq_waiter a) b (g_gate_waiters a).
Definition set_waiters (w : list Z) (a : ata) : ata :=
  Ata (g_present a) (g_base a) (g_ctrl a) (g_drive_sel a) (g_lba_sel a) (g_irq_fired a) (g_irq_waiter a) (g_ata_busy a) w.
Definition set_slot (p : bool) (base ctrl drive lba : Z) (a : ata) : ata :=
  Ata p base ctrl drive lba (g_irq_fired a) (g_irq_waiter a) (g_ata_busy a) (g_gate_waiters a).

(** Run [body] until it gives a result, at most [p] times. *)
Fixpoint spin {St A} (p : positive) (body : cM St (option A)) : cM St (option A) :=
  match p with
  | xH => body
  | xO p =>
      r ← spin p body;
      match r with Some a => mret (Some a) | None => spin p body end
  | xI p =>
      r ← body;
      match r with
      | Some a => mret (Some a)
      | None =>
          r ← spin p body;
          match r with Some a => mret (Some a) | None => spin p body end
      end
  end.

Section driver.
Context {Dv : Type} `{Ports Dv}.
Local Notation M := (cM (atast Dv)).
Implicit Types s : atast Dv.

Definition on_dev {A} (f : Dv -> A * Dv) : M A := fun s =>
  let '(a, d) := f (a_dev s) in Some (a, AtaSt d (a_drv s) (a_tab s)).
Definition in8 (p : Z) : M Z := on_dev (inb p).
Definition out8 (p v : Z) : M () := on_dev (fun d => ((), outb p v d)).
Definition in16 (p : Z) : M Z := on_dev (inw p).
Definition out16 (p v : Z) : M () := on_dev (fun d => ((), outw p v d)).
Definition ticks_now : M Z := on_dev timer_get_ticks.
Definition drv (f : ata -> ata) : M () := modify (fun s => AtaSt (a_dev s) (f (a_drv s)) (a_tab s)).
Definition on_ptab (f : ptable -> ptable) : M () := modify (fun s => AtaSt (a_dev s) (a_drv s) (f (a_tab s))).
Definition base : M Z := gets (fun s => g_base (a_drv s)).
Definition ctrl : M Z := gets (fun s => g_ctrl (a_drv s)).
Definition current : M (option Z) := gets (fun s => current_process (a_tab s)).

(** A register of the selected channel. *)
Definition reg_in (r : Z) : M Z := b ← base; in8 (b + r).
Definition reg_out (r v : Z) : M () := b ← base; out8 (b + r) v.

(** ** Interrupts and the gate *)

Definition wake_if_blocked (w : Z) (t : ptable) : ptable :=
  if state_eqb (state_of t w) PROCESS_BLOCKED then upd t w (set_state PROCESS_READY) else t.

Definition ata_irq_handler : M () :=
  reg_in REG_STATUS;;
  drv (set_fired true);;
  w ← gets (fun s => g_irq_waiter (a_drv s));
  match w with
  | Some w => on_ptab (wake_if_blocked w);; drv (set_irq_waiter None)
  | None => mret ()
  end.

Definition ata_gate_release : M () :=
  drv (set_busy false);;
  ws ← gets (fun s => g_gate_waiters (a_drv s));
  on_ptab (fun t => foldl (fun t w => wake_if_blocked w t) t ws);;
  drv (set_waiters []).

(** ** Waiting for the drive *)

Definition delay4 (port : Z) : M () := in8 port;; in8 port;; in8 port;; in8 port;; mret ().
Definition ata_delay : M () := c ← ctrl; delay4 c.

Definition not_busy_body : M (option ()) :=
  st ← reg_in REG_STATUS;
  mret (if has st ATA_SR_BSY then None else Some ()).
(** [true] is 0, [false] is -1. *)
Definition wait_not_busy : M bool := r ← spin POLL_SPIN not_busy_body; mret (bool_decide (is_Some r)).

Definition drq_body : M (option bool) :=
  st ← reg_in REG_STATUS;
  mret (if has st ATA_SR_ERR then Some false else if has st ATA_SR_DRQ then Some true else None).
Definition wait_drq : M bool := r ← spin POLL_SPIN drq_body; mret (default false r).

(** ** Transfers *)

(** The bytes of [n] words read from the data register. *)
Fixpoint read_words (n : nat) : M (list Z) :=
  match n with
  | O => mret []
  | S n' =>
      b ← base;
      w ← in16 (b + REG_DATA);
      ws ← read_words n';
      mret (bytes16 w ++ ws)
  end.
Fixpoint write_words (n : nat) (buf : list Z) : M () :=
  match n with
  | O => mret ()
  | S n' =>
      b ← base;
      out16 (b + REG_DATA) (le16 buf 0);;
      write_words n' (drop 2 buf)
  end.

(** Address the sector. *)
Definition set_lba (lba : Z) : M () :=
  sel ← gets (fun s => g_lba_sel (a_drv s));
  reg_out REG_DRIVE_HEAD (Z.lor sel (Z.land (Z.shiftr lba 24) 0x0F));;
  reg_out REG_SECCOUNT 1;;
  reg_out REG_LBA_LO (u8 lba);;
  reg_out REG_LBA_MID (u8 (Z.shiftr lba 8));;
  reg_out REG_LBA_HI (u8 (Z.shiftr lba 16)).

(** A request, and what is left of it. *)
Inductive ata_op := ARead (lba : Z) | AWrite (lba : Z) (buf : list Z).
Inductive ata_kont :=
| AAcquire (op : ata_op)                       (** [ata_gate_acquire], head of the loop *)
| AStart (op : ata_op)                         (** the gate is ours *)
| AIssued (op : ata_op)                        (** after the command register was written *)
| AWait (k : ata_kont)                         (** [ata_wait_irq] *)
| AWoken (k : ata_kont)                        (** ... after [scheduler_block_current] *)
| ACheckRead                                   (** [ata_read_sector] after its wait *)
| AWritten                                     (** the data of a write was sent *)
| ACheckWrite
| AFlushIssued
| ARelease (r : Z) (data : list Z).

Inductive ata_out :=
| AReturn (r : Z) (data : list Z)              (** the result and the bytes of a read *)
| ANext (k : ata_kont)                         (** goes on; interrupts are enabled *)
| ABlock (k : ata_kont).                       (** blocked, goes on when it runs again *)

Definition fail : ata_out := ANext (ARelease (-1) []).
Definition op_lba (op : ata_op) : Z := match op with ARead l | AWrite l _ => l end.
Definition op_cmd (op : ata_op) : Z := match op with ARead _ => CMD_READ | AWrite _ _ => CMD_WRITE end.

(** One round of the loop. *)
Definition ata_gate_acquire (op : ata_op) : M ata_out :=
  busy ← gets (fun s => g_ata_busy (a_drv s));
  if negb busy then drv (set_busy true);; mret (ANext (AStart op))
  else
    self ← current;
    match self with
    | None => mret (ANext (AAcquire op))
    | Some self =>
        drv (fun a => if zlen (g_gate_waiters a) <? 16 then set_waiters (g_gate_waiters a ++ [self]) a else a);;
        on_ptab (fun t => upd t self (set_state PROCESS_BLOCKED));;
        mret (ABlock (AAcquire op))
    end.

(** Up to [scheduler_block_current]. *)
Definition ata_wait_irq (k : ata_kont) : M ata_out :=
  self ← current;
  match self with
  | None => mret (ANext k)
  | Some self =>
      fired ← gets (fun s => g_irq_fired (a_drv s));
      if (fired : bool) then drv (set_fired false);; mret (ANext k)
      else
        drv (set_irq_waiter (Some self));;
        on_ptab (fun t => upd t self (set_state PROCESS_BLOCKED));;
        mret (ABlock (AWoken k))
  end.

Definition ata_turn (k : ata_kont) : M ata_out :=
  match k with
  | AAcquire op => ata_gate_acquire op
  | AStart op =>
      ok ← wait_not_busy;
      if negb ok then mret fail
      else set_lba (op_lba op);; reg_out REG_CMD (op_cmd op);; mret (ANext (AIssued op))
  | AIssued (ARead _) =>
      drv (set_fired false);;
      self ← current;
      match self with
      | Some _ => mret (ANext (AWait ACheckRead))
      | None =>
          ata_delay;;
          ok ← wait_not_busy;
          if negb ok then mret fail
          else
            ok ← wait_drq;
            if negb ok then mret fail
            else data ← read_words 256; mret (ANext (ARelease 0 data))
      end
  | AIssued (AWrite _ buf) =>
      drv (set_fired false);;
      ata_delay;;
      ok ← wait_not_busy;
      if negb ok then mret fail
      else
        ok ← wait_drq;
        if negb ok then mret fail
        else
          write_words 256 buf;;
          self ← current;
          mret (ANext (match self with Some _ => AWait ACheckWrite | None => AWritten end))
  | AWait k => ata_wait_irq k
  | AWoken k => drv (set_fired false);; mret (ANext k)
  | ACheckRead =>
      st ← reg_in REG_STATUS;
      if has st ATA_SR_ERR || negb (has st ATA_SR_DRQ) then mret fail
      else data ← read_words 256; mret (ANext (ARelease 0 data))
  | AWritten =>
      ok ← wait_not_busy;
      mret (if negb ok then fail else ANext ACheckWrite)
  | ACheckWrite =>
      st ← reg_in REG_STATUS;
      if has st ATA_SR_ERR then mret fail
      else reg_out REG_CMD CMD_FLUSH;; mret (ANext AFlushIssued)
  | AFlushIssued =>
      drv (set_fired false);;
      self ← current;
      match self with
      | Some _ => mret (ANext (AWait (ARelease 0 [])))
      | None => wait_not_busy;; mret (ANext (ARelease 0 []))
      end
  | ARelease r data => ata_gate_release;; mret (AReturn r data)
  end.

(** The whole request, when nothing else happens in between. *)
Fixpoint ata_run (fuel : nat) (k : ata_kont) : M (Z * list Z) :=
  o ← ata_turn k;
  match o with
  | AReturn r data => mret (r, data)
  | ANext k | ABlock k => match fuel with O => undefined | S fuel' => ata_run fuel' k end
  end.

(** A call made before any process runs takes at most eight turns. *)
Definition ata_request (op : ata_op) : M (Z * list Z) :=
  present ← gets (fun s => g_present (a_drv s));
  if negb present then mret (-1, []) else ata_run 7 (AAcquire op).
Definition ata_read_sector (lba : Z) : M (Z * list Z) := ata_request (ARead lba).
Definition ata_write_sector (lba : Z) (buf : list Z) : M Z := r ← ata_request (AWrite lba buf); mret r.1.

(** The request of a process, with the interrupts that end its commands.
    [finish]: the drive completes the command it works on.  The interrupt comes
    when [soon] says so before the process looks for it in [ata_wait_irq], else
    while the process is blocked; a blocked process goes on only if the handler
    made it ready. *)
Section served.
Variables (finish : Dv -> Dv) (soon : ata_kont -> bool).

Definition completes : M () := on_dev (fun d => ((), finish d));; ata_irq_handler.
Definition goes_on : M () :=
  self ← current;
  match self with
  | None => undefined
  | Some p =>
      t ← gets a_tab;
      if state_eqb (state_of t p) PROCESS_READY then on_ptab (fun t => upd t p (set_state PROCESS_RUNNING)) else undefined
  end.
Definition waits (k : ata_kont) : bool := match k with AWait _ => true | _ => false end.

Fixpoint ata_serve (fuel : nat) (k : ata_kont) : M (Z * list Z) :=
  (if waits k && soon k then completes else mret ());;
  o ← ata_turn k;
  match o with
  | AReturn r data => mret (r, data)
  | ANext k => match fuel with O => undefined | S fuel' => ata_serve fuel' k end
  | ABlock k => match fuel with O => undefined | S fuel' => completes;; goes_on;; ata_serve fuel' k end
  end.

(** A write with two waits takes ten turns. *)
Definition ata_process_read (lba : Z) : M (Z * list Z) :=
  present ← gets (fun s => g_present (a_drv s));
  if negb present then mret (-1, []) else ata_serve 9 (AAcquire (ARead lba)).
Definition ata_process_write (lba : Z) (buf : list Z) : M Z :=
  present ← gets (fun s => g_present (a_drv s));
  if negb present then mret (-1) else r ← ata_serve 9 (AAcquire (AWrite lba buf)); mret r.1.
End served.

(** ** The crash path *)

Definition crash_wait_not_busy : M bool := r ← spin CRASH_SPIN not_busy_body; mret (bool_decide (is_Some r)).
Definition crash_drq_body : M (option bool) :=
  st ← reg_in REG_STATUS;
  mret (if has st ATA_SR_ERR then Some false
        else if negb (has st ATA_SR_BSY) && has st ATA_SR_DRQ then Some true else None).
Definition crash_wait_drq : M bool := r ← spin CRASH_SPIN crash_drq_body; mret (default false r).

Definition crash_prepare (lba : Z) : M bool :=
  present ← gets (fun s => g_present (a_drv s));
  if negb present then mret false
  else
    c ← ctrl;
    out8 c 0x02;;
    st ← reg_in REG_STATUS;
    (if has st (Z.lor ATA_SR_BSY ATA_SR_DRQ) then
       out8 c 0x06;; delay4 c;; delay4 c;; out8 c 0x02;; delay4 c;; delay4 c
     else mret ());;
    ok ← crash_wait_not_busy;
    if negb ok then mret false
    else
      sel ← gets (fun s => g_lba_sel (a_drv s));
      reg_out REG_DRIVE_HEAD (Z.lor sel (Z.land (Z.shiftr lba 24) 0x0F));;
      ata_delay;;
      ok ← crash_wait_not_busy;
      if negb ok then mret false
      else
        reg_out REG_SECCOUNT 1;;
        reg_out REG_LBA_LO (u8 lba);;
        reg_out REG_LBA_MID (u8 (Z.shiftr lba 8));;
        reg_out REG_LBA_HI (u8 (Z.shiftr lba 16));;
        mret true.

Definition ata_crash_read_sector (lba : Z) : M (Z * list Z) :=
  ok ← crash_prepare lba;
  if negb ok then mret (-1, [])
  else
    reg_out REG_CMD CMD_READ;;
    ata_delay;;
    ok ← crash_wait_drq;
    if negb ok then mret (-1, []) else data ← read_words 256; mret (0, data).

Definition ata_crash_write_sector (lba : Z) (buf : list Z) : M Z :=
  ok ← crash_prepare lba;
  if negb ok then mret (-1)
  else
    reg_out REG_CMD CMD_WRITE;;
    ata_delay;;
    ok ← crash_wait_drq;
    if negb ok then mret (-1)
    else
      write_words 256 buf;;
      ok ← crash_wait_not_busy;
      if negb ok then mret (-1)
      else
        st ← reg_in REG_STATUS;
        if has st ATA_SR_ERR then mret (-1)
        else reg_out REG_CMD CMD_FLUSH;; crash_wait_not_busy;; mret 0.

(** ** Detection *)

(** [for (;;)] of [wait_bsy_clear_after_reset]; [fuel] polls. *)
Fixpoint reset_loop (fuel : nat) (port start : Z) : M bool :=
  st ← in8 port;
  if negb (has st ATA_SR_BSY) then mret true
  else if st =? 0xFF then mret false
  else
    now ← ticks_now;
    if ATA_RESET_TIMEOUT_TICKS <=? u32 (now - start) then mret false
    else match fuel with O => undefined | S fuel' => reset_loop fuel' port start end.
Definition wait_bsy_clear_after_reset (fuel : nat) (port : Z) : M bool :=
  start ← ticks_now; reset_loop fuel port start.

(** The two polling loops of [probe] read the status at [b]. *)
Definition probe_not_busy (b : Z) : M (option ()) :=
  st ← in8 (b + REG_STATUS);
  mret (if has st ATA_SR_BSY then None else Some ()).
Definition probe_drq (b : Z) : M (option bool) :=
  st ← in8 (b + REG_STATUS);
  mret (if has st ATA_SR_ERR then Some false else if has st ATA_SR_DRQ then Some true else None).
Fixpoint drain (n : nat) (b : Z) : M () :=
  match n with
  | O => mret ()
  | S n' => in16 (b + REG_DATA);; drain n' b
  end.

(** The serial trace reads the tick counter and the alternate status; what it
    prints is left out. *)
Definition probe (fuel : nat) (b c drive_sel : Z) : M bool :=
  ticks_now;; in8 c;;
  out8 c 0x04;; out8 c 0x00;;
  delay4 c;;
  ok ← wait_bsy_clear_after_reset fuel c;
  if negb ok then in8 c;; ticks_now;; mret false
  else
    ticks_now;;
    out8 (b + REG_DRIVE_HEAD) drive_sel;;
    delay4 c;;
    st ← in8 (b + REG_STATUS);
    if st =? 0xFF then mret false
    else
      out8 (b + REG_SECCOUNT) 0;; out8 (b + REG_LBA_LO) 0;; out8 (b + REG_LBA_MID) 0;; out8 (b + REG_LBA_HI) 0;;
      out8 (b + REG_CMD) CMD_IDENTIFY;;
      delay4 c;;
      st ← in8 (b + REG_STATUS);
      if st =? 0x00 then mret false
      else
        ready ← spin POLL_SPIN (probe_not_busy b);
        match ready with
        | None => mret false
        | Some _ =>
            lba_mid ← in8 (b + REG_LBA_MID);
            lba_hi ← in8 (b + REG_LBA_HI);
            if (lba_mid =? ATAPI_MID) && (lba_hi =? ATAPI_HI) then mret false
            else
              ok ← spin POLL_SPIN (probe_drq b);
              if default false ok then drain 256 b;; mret true else mret false
        end.

(** The four slots in the order they are tried: base, control, drive and LBA
    selectors. *)
Definition slots : list (Z * Z * Z * Z) :=
  [(0x1F0, 0x3F6, 0xA0, 0xE0); (0x1F0, 0x3F6, 0xB0, 0xF0); (0x170, 0x376, 0xA0, 0xE0); (0x170, 0x376, 0xB0, 0xF0)].

Fixpoint probe_slots (fuel : nat) (l : list (Z * Z * Z * Z)) : M Z :=
  match l with
  | [] => mret 0
  | (b, c, sel, lba) :: l' =>
      found ← probe fuel b c sel;
      if (found : bool) then drv (set_slot true b c sel lba);; mret 1 else probe_slots fuel l'
  end.

(** Registering and unmasking the interrupt is left to [idt.c] and [pic.c]. *)
Definition ata_init (fuel : nat) : M Z :=
  drv (fun a => set_slot false (g_base a) (g_ctrl a) (g_drive_sel a) (g_lba_sel a) a);;
  probe_slots fuel slots.
End driver.

#[global] Arguments spin : simpl never.
Strategy 1000 [spin].
#[global] Arguments read_words : simpl never.
#[global] Arguments write_words : simpl never.

(** ** The reference drive *)

(** The data phase of a command: bytes the host has to read, or has sent. *)
Inductive xfer :=
| NoData
| ToHost (l : list Z)
| FromHost (lba : Z) (l : list Z).

Record drive := Drive {
  dv_base : Z;
  dv_ctrl : Z;
  dv_slave : bool;
  dv_sectors : list (list Z);
  dv_delay : nat;                  (** status reads until a command is done *)
  dv_busy : nat;                   (** ... the current one *)
  dv_head : Z;
  dv_lo : Z;
  dv_mid : Z;
  dv_hi : Z;
  dv_xfer : xfer;
  dv_err : bool;
  dv_ticks : Z
}.

Definition with_busy (n : nat) (d : drive) : drive :=
  Drive (dv_base d) (dv_ctrl d) (dv_slave d) (dv_sectors d) (dv_delay d) n (dv_head d) (dv_lo d) (dv_mid d) (dv_hi d)
    (dv_xfer d) (dv_err d) (dv_ticks d).
Definition with_regs (h lo mid hi : Z) (d : drive) : drive :=
  Drive (dv_base d) (dv_ctrl d) (dv_slave d) (dv_sectors d) (dv_delay d) (dv_busy d) h lo mid hi
    (dv_xfer d) (dv_err d) (dv_ticks d).
(** A data phase, and the command it belongs to takes [n] status reads. *)
Definition with_xfer (x : xfer) (err : bool) (n : nat) (d : drive) : drive :=
  Drive (dv_base d) (dv_ctrl d) (dv_slave d) (dv_sectors d) (dv_delay d) n (dv_head d) (dv_lo d) (dv_mid d) (dv_hi d)
    x err (dv_ticks d).
Definition with_sectors (l : list (list Z)) (d : drive) : drive :=
  Drive (dv_base d) (dv_ctrl d) (dv_slave d) l (dv_delay d) (dv_busy d) (dv_head d) (dv_lo d) (dv_mid d) (dv_hi d)
    (dv_xfer d) (dv_err d) (dv_ticks d).

Definition selected (d : drive) : bool := bool_decide (Z.testbit (dv_head d) 4 = dv_slave d).
Definition drq (d : drive) : bool := match dv_xfer d with NoData => false | _ => true end.
Definition status (d : drive) : Z :=
  if negb (selected d) then 0
  else if (0 <? dv_busy d)%nat then ATA_SR_BSY
  else 0x40 + (if drq d then ATA_SR_DRQ else 0) + (if dv_err d then ATA_SR_ERR else 0).
Definition dv_lba (d : drive) : Z := Z.land (dv_head d) 0x0F * 2 ^ 24 + dv_hi d * 2 ^ 16 + dv_mid d * 2 ^ 8 + dv_lo d.

Definition drive_command (c : Z) (d : drive) : drive :=
  if negb (selected d) || (0 <? dv_busy d)%nat then d
  else if c =? CMD_READ then
    match dv_sectors d !! Z.to_nat (dv_lba d) with
    | Some sec => with_xfer (ToHost sec) false (dv_delay d) d
    | None => with_xfer NoData true (dv_delay d) d
    end
  else if c =? CMD_WRITE then
    match dv_sectors d !! Z.to_nat (dv_lba d) with
    | Some _ => with_xfer (FromHost (dv_lba d) []) false (dv_delay d) d
    | None => with_xfer NoData true (dv_delay d) d
    end
  else if c =? CMD_IDENTIFY then with_xfer (ToHost (replicate 512 0)) false (dv_delay d) d
  else with_xfer NoData false (dv_delay d) d.

Definition drive_inb (p : Z) (d : drive) : Z * drive :=
  if (p =? dv_base d + REG_STATUS) || (p =? dv_ctrl d) then (status d, with_busy (pred (dv_busy d)) d)
  else if p =? dv_base d + REG_LBA_MID then (dv_mid d, d)
  else if p =? dv_base d + REG_LBA_HI then (dv_hi d, d)
  else (0xFF, d).

Definition drive_outb (p v : Z) (d : drive) : drive :=
  if p =? dv_base d + REG_CMD then drive_command v d
  else if p =? dv_base d + REG_DRIVE_HEAD then with_regs v (dv_lo d) (dv_mid d) (dv_hi d) d
  else if p =? dv_base d + REG_LBA_LO then with_regs (dv_head d) v (dv_mid d) (dv_hi d) d
  else if p =? dv_base d + REG_LBA_MID then with_regs (dv_head d) (dv_lo d) v (dv_hi d) d
  else if p =? dv_base d + REG_LBA_HI then with_regs (dv_head d) (dv_lo d) (dv_mid d) v d
  else if (p =? dv_ctrl d) && Z.testbit v 2 then with_xfer NoData false (dv_delay d) (with_regs 0 0 0 0 d)
  else d.

Definition drive_inw (p : Z) (d : drive) : Z * drive :=
  if p =? dv_base d + REG_DATA then
    match dv_xfer d with
    | ToHost l => (le16 l 0, with_xfer (if decide (drop 2 l = []) then NoData else ToHost (drop 2 l)) (dv_err d) (dv_busy d) d)
    | _ => (0xFFFF, d)
    end
  else (0xFFFF, d).

Definition drive_outw (p v : Z) (d : drive) : drive :=
  if p =? dv_base d + REG_DATA then
    match dv_xfer d with
    | FromHost lba l =>
        let l := l ++ bytes16 v in
        if (length l <? 512)%nat then with_xfer (FromHost lba l) (dv_err d) (dv_busy d) d
        else with_sectors (dv_sectors d).[lba := l] (with_xfer NoData (dv_err d) (dv_delay d) d)
    | _ => d
    end
  else d.

#[export] Instance drive_ports : Ports drive := {|
  inb := drive_inb; outb := drive_outb; inw := drive_inw; outw := drive_outw;
  timer_get_ticks := fun d => (dv_ticks d, d) |}.

(** A drive of three sectors on the second channel, the other slots empty. *)
Definition demo_drive (slave : bool) : drive :=
  Drive 0x170 0x376 slave (replicate 3 (replicate 512 0)) 3 0 0 0 0 0 NoData false 7.
Definition demo_ptable : ptable := mk_ptable [] None 1.
Definition probed (slave : bool) : option (Z * ata) :=
  match ata_init 100 (AtaSt (demo_drive slave) ata0 demo_ptable) with
  | Some (r, s) => Some (r, a_drv s)
  | None => None
  end.

Example probe_master : probed false = Some (1, set_slot true 0x170 0x376 0xA0 0xE0 ata0).
Proof. vm_compute. reflexivity. Qed.
Example probe_slave : probed true = Some (1, set_slot true 0x170 0x376 0xB0 0xF0 ata0).
Proof. vm_compute. reflexivity. Qed.

Definition demo_disk_state : atast drive :=
  AtaSt (demo_drive false) (set_slot true 0x170 0x376 0xA0 0xE0 ata0) demo_ptable.

Example write_then_read :
  match (r ← ata_write_sector 2 (replicate 510 7 ++ [8; 9]); d ← ata_read_sector 2; mret (r, d)) demo_disk_state with
  | Some ((r, (r2, d)), s) => (r, r2, drop 508 d, g_ata_busy (a_drv s))
  | None => (1, 1, [], true)
  end = (0, 0, [7; 7; 8; 9], false).
Proof. vm_compute. reflexivity. Qed.

(** ** Polling *)

(** A loop whose body fails [n] times, counting down, and then succeeds. *)
Lemma spin_counts {St A} (body : cM St (option A)) (f : nat -> St) (a : A) (s' : St) :
  (forall n, body (f (S n)) = Some (None, f n)) -> body (f O) = Some (Some a, s') ->
  forall p n, spin p body (f n) =
    if Z.of_nat n <? Zpos p then Some (Some a, s') else Some (None, f (n - Pos.to_nat p)%nat).
Proof.
  intros HS HO. induction p as [p IH|p IH|]; intros n; unfold spin; fold (@spin St A); unfold mbind, cM_bind.
  - destruct n as [|n]; [rewrite HO; cbn [mret cM_ret]; done|]. rewrite HS, IH.
    destruct (Z.ltb_spec (Z.of_nat n) (Zpos p)).
    + replace (_ <? Z.pos p~1) with true by lia. done.
    + rewrite IH. destruct (Z.ltb_spec (Z.of_nat (n - Pos.to_nat p)) (Zpos p)).
      * replace (_ <? Z.pos p~1) with true by lia. done.
      * replace (_ <? Z.pos p~1) with false by lia. do 3 f_equal. lia.
  - rewrite IH. destruct (Z.ltb_spec (Z.of_nat n) (Zpos p)).
    + replace (_ <? Z.pos p~0) with true by lia. done.
    + rewrite IH. destruct (Z.ltb_spec (Z.of_nat (n - Pos.to_nat p)) (Zpos p)).
      * replace (_ <? Z.pos p~0) with true by lia. done.
      * replace (_ <? Z.pos p~0) with false by lia. do 3 f_equal. lia.
  - destruct n as [|n]; [by rewrite HO|]. rewrite HS. replace (_ <? 1) with false by lia. do 3 f_equal. lia.
Qed.

(** ** The driver at the drive's registers *)

(** The driver is set up for the drive. *)
Record attached (d : drive) (a : ata) : Prop := {
  at_present : g_present a = true;
  at_base : g_base a = dv_base d;
  at_ctrl : g_ctrl a = dv_ctrl d;
  at_apart : dv_ctrl d < dv_base d \/ dv_base d + 7 < dv_ctrl d;
  at_sel : g_lba_sel a = if dv_slave d then 0xF0 else 0xE0
}.

Section registers.
Variables (a : ata) (t : ptable).
Implicit Types d : drive.

Lemma run_status d : attached d a -> reg_in REG_STATUS (AtaSt d a t) = Some (status d, AtaSt (with_busy (pred (dv_busy d)) d) a t).
Proof.
  intros Ha. unfold reg_in, base, in8, on_dev, mbind, cM_bind, gets. cbn [a_drv a_dev a_tab inb drive_ports]. unfold drive_inb.
  rewrite (at_base _ _ Ha), Z.eqb_refl. done.
Qed.

Lemma run_ctrl_read d : attached d a -> in8 (g_ctrl a) (AtaSt d a t) = Some (status d, AtaSt (with_busy (pred (dv_busy d)) d) a t).
Proof.
  intros Ha. unfold in8, on_dev. cbn [a_drv a_dev a_tab inb drive_ports]. unfold drive_inb.
  rewrite (at_ctrl _ _ Ha), Z.eqb_refl, orb_true_r. done.
Qed.

Lemma run_out d r v : attached d a -> reg_out r v (AtaSt d a t) = Some ((), AtaSt (drive_outb (dv_base d + r) v d) a t).
Proof. intros Ha. unfold reg_out, base, out8, on_dev, mbind, cM_bind, gets. cbn [a_drv]. by rewrite (at_base _ _ Ha). Qed.

Lemma attached_busy d n : attached d a -> attached (with_busy n d) a.
Proof. by intros []. Qed.
Lemma attached_regs d h lo mid hi : attached d a -> attached (with_regs h lo mid hi d) a.
Proof. by intros []. Qed.
Lemma attached_xfer d x e n : attached d a -> attached (with_xfer x e n d) a.
Proof. by intros []. Qed.
Lemma attached_sectors d l : attached d a -> attached (with_sectors l d) a.
Proof. by intros []. Qed.
Hint Resolve attached_busy attached_regs attached_xfer attached_sectors : core.

(** The first four registers of a command. *)
Definition addressed (lba : Z) (d : drive) : drive :=
  with_regs (Z.lor (g_lba_sel a) (Z.land (Z.shiftr lba 24) 0x0F)) (u8 lba) (u8 (Z.shiftr lba 8)) (u8 (Z.shiftr lba 16)) d.

Ltac ports := unfold drive_outb, REG_CMD, REG_DRIVE_HEAD, REG_LBA_LO, REG_LBA_MID, REG_LBA_HI, REG_SECCOUNT;
  cbn [dv_base dv_ctrl with_regs];
  repeat match goal with |- context [?x =? ?y] => (replace (x =? y) with true by lia) || (replace (x =? y) with false by lia) end.

Lemma out_head d v : drive_outb (dv_base d + REG_DRIVE_HEAD) v d = with_regs v (dv_lo d) (dv_mid d) (dv_hi d) d.
Proof. by ports. Qed.
Lemma out_lo d v : drive_outb (dv_base d + REG_LBA_LO) v d = with_regs (dv_head d) v (dv_mid d) (dv_hi d) d.
Proof. by ports. Qed.
Lemma out_mid d v : drive_outb (dv_base d + REG_LBA_MID) v d = with_regs (dv_head d) (dv_lo d) v (dv_hi d) d.
Proof. by ports. Qed.
Lemma out_hi d v : drive_outb (dv_base d + REG_LBA_HI) v d = with_regs (dv_head d) (dv_lo d) (dv_mid d) v d.
Proof. by ports. Qed.
Lemma out_cmd d v : drive_outb (dv_base d + REG_CMD) v d = drive_command v d.
Proof. by ports. Qed.
Lemma out_count d v : attached d a -> drive_outb (dv_base d + REG_SECCOUNT) v d = d.
Proof. intros Ha. destruct (at_apart _ _ Ha); by ports. Qed.

Lemma set_lba_run lba d : attached d a -> set_lba lba (AtaSt d a t) = Some ((), AtaSt (addressed lba d) a t).
Proof.
  intros Ha. unfold set_lba, mbind, cM_bind, gets. cbn [a_drv].
  rewrite run_out, out_head by done. rewrite run_out, out_count by eauto.
  rewrite run_out, out_lo by eauto. rewrite run_out, out_mid by eauto. rewrite run_out, out_hi by eauto. done.
Qed.

Lemma addressed_selected lba d : attached d a -> selected (addressed lba d) = true.
Proof.
  intros Ha. unfold selected, addressed. cbn [dv_head dv_slave with_regs]. rewrite Z.lor_spec, Z.land_spec, (at_sel _ _ Ha).
  change (Z.testbit 0x0F 4) with false. rewrite andb_false_r, orb_false_r. apply bool_decide_true. by destruct (dv_slave d).
Qed.

Lemma addressed_lba lba d : attached d a -> is_u32 lba -> dv_lba (addressed lba d) = lba mod 2 ^ 28.
Proof.
  unfold is_u32. intros Ha Hl. unfold dv_lba, addressed. cbn [dv_head dv_lo dv_mid dv_hi with_regs].
  assert (E : Z.land (Z.lor (g_lba_sel a) (Z.land (Z.shiftr lba 24) 0x0F)) 0x0F = Z.land (Z.shiftr lba 24) 0x0F).
  { rewrite Z.land_lor_distr_l, <- Z.land_assoc. change (Z.land 0x0F 0x0F) with 0x0F. rewrite (at_sel _ _ Ha).
    replace (Z.land (if dv_slave d then 0xF0 else 0xE0) 0x0F) with 0 by (by destruct (dv_slave d)). apply Z.lor_0_l. }
  rewrite E. change 0x0F with (Z.ones 4). rewrite Z.land_ones, !Z.shiftr_div_pow2 by lia. unfold u8.
  Z.to_euclidean_division_equations. lia.
Qed.

(** ** Waits *)

Lemma status_busy d n : selected d = true -> has (status (with_busy (S n) d)) ATA_SR_BSY = true.
Proof. intros Hs. unfold status. change (selected (with_busy (S n) d)) with (selected d). by rewrite Hs. Qed.

Lemma status_ready d : has (status (with_busy 0 d)) ATA_SR_BSY = false.
Proof.
  unfold status. change (selected (with_busy 0 d)) with (selected d). destruct (selected d); [|done]. cbn [negb].
  change (drq (with_busy 0 d)) with (drq d). change (dv_err (with_busy 0 d)) with (dv_err d).
  by destruct (drq d), (dv_err d).
Qed.

Lemma not_busy_spin p d : attached d a -> selected d = true ->
  spin p not_busy_body (AtaSt d a t) =
    if Z.of_nat (dv_busy d) <? Zpos p then Some (Some (), AtaSt (with_busy 0 d) a t)
    else Some (None, AtaSt (with_busy (dv_busy d - Pos.to_nat p) d) a t).
Proof.
  intros Ha Hs. replace (AtaSt d a t) with (AtaSt (with_busy (dv_busy d) d) a t) by (by destruct d).
  apply (spin_counts not_busy_body (fun n => AtaSt (with_busy n d) a t)); intros; unfold not_busy_body, mbind, cM_bind.
  - rewrite run_status by eauto. by rewrite status_busy.
  - rewrite run_status by eauto. by rewrite status_ready.
Qed.

Lemma not_busy_run p d : attached d a -> (selected d = true \/ dv_busy d = O) -> Z.of_nat (dv_busy d) < Zpos p ->
  (r ← spin p not_busy_body; mret (bool_decide (is_Some r))) (AtaSt d a t) = Some (true, AtaSt (with_busy 0 d) a t).
Proof.
  intros Ha Hs Hb. unfold mbind, cM_bind. destruct (selected d) eqn:E.
  - rewrite not_busy_spin by done. by replace (_ <? _) with true by lia.
  - destruct Hs as [|Hs]; [done|]. replace (AtaSt d a t) with (AtaSt (with_busy 0 d) a t) by (destruct d; cbn in *; by subst).
    assert (Hspin : forall p, spin p not_busy_body (AtaSt (with_busy 0 d) a t) = Some (Some (), AtaSt (with_busy 0 d) a t)).
    { intros q. assert (Hbody : not_busy_body (AtaSt (with_busy 0 d) a t) = Some (Some (), AtaSt (with_busy 0 d) a t)).
      { unfold not_busy_body, mbind, cM_bind. rewrite run_status by eauto. by rewrite status_ready. }
      induction q as [q IH|q IH|]; unfold spin; fold (@spin (atast drive) ()); unfold mbind, cM_bind; [by rewrite Hbody|by rewrite IH|done]. }
    by rewrite Hspin.
Qed.

(** A body that succeeds at once. *)
Lemma spin_first {St A} (body : cM St (option A)) s x s' : body s = Some (Some x, s') -> forall p, spin p body s = Some (Some x, s').
Proof. intros Hb. induction p as [q IH|q IH|]; unfold spin; fold (@spin St A); unfold mbind, cM_bind; [by rewrite Hb|by rewrite IH|done]. Qed.

Lemma delay_run d : attached d a -> delay4 (g_ctrl a) (AtaSt d a t) = Some ((), AtaSt (with_busy (dv_busy d - 4) d) a t).
Proof.
  intros Ha. unfold delay4, mbind, cM_bind. rewrite run_ctrl_read by done. rewrite run_ctrl_read by eauto.
  rewrite run_ctrl_read by eauto. rewrite run_ctrl_read by eauto. cbn [dv_busy with_busy].
  by replace (pred (pred (pred (pred (dv_busy d))))) with (dv_busy d - 4)%nat by lia.
Qed.

Lemma ata_delay_run d : attached d a -> ata_delay (AtaSt d a t) = Some ((), AtaSt (with_busy (dv_busy d - 4) d) a t).
Proof. intros Ha. unfold ata_delay, ctrl, mbind, cM_bind, gets. by apply delay_run. Qed.
End registers.

#[export] Hint Resolve attached_busy attached_regs attached_xfer attached_sectors : ata.

(** ** Data *)

Section data.
Variables (a : ata) (t : ptable).
Implicit Types d : drive.

Lemma word_bytes b0 b1 l : byte b0 -> byte b1 -> bytes16 (le16 (b0 :: b1 :: l) 0) = [b0; b1].
Proof.
  unfold byte. intros H0 H1. unfold le16. change ((b0 :: b1 :: l).[0]) with b0. change ((b0 :: b1 :: l).[0 + 1]) with b1.
  unfold bytes16. f_equal; [|f_equal]; Z.to_euclidean_division_equations; lia.
Qed.

Lemma word_range b0 b1 l : byte b0 -> byte b1 -> 0 <= le16 (b0 :: b1 :: l) 0 < 2 ^ 16.
Proof.
  unfold byte. intros H0 H1. unfold le16. change ((b0 :: b1 :: l).[0]) with b0. change ((b0 :: b1 :: l).[0 + 1]) with b1. lia.
Qed.

Lemma run_inw d : attached d a -> (b ← base; in16 (b + REG_DATA)) (AtaSt d a t) =
  let '(w, d') := drive_inw (dv_base d + REG_DATA) d in Some (w, AtaSt d' a t).
Proof. intros Ha. unfold base, in16, on_dev, mbind, cM_bind, gets. cbn [a_drv]. by rewrite (at_base _ _ Ha). Qed.

Lemma read_words_run n : forall l d, attached d a -> dv_xfer d = ToHost l -> length l = (2 * S n)%nat -> Forall byte l ->
  read_words (S n) (AtaSt d a t) = Some (l, AtaSt (with_xfer NoData (dv_err d) (dv_busy d) d) a t).
Proof.
  induction n as [|n IH]; intros l d Ha Hx Hl Hb; (destruct l as [|b0 [|b1 l]]; [cbn in Hl; lia|cbn in Hl; lia|]);
    (destruct (Forall_cons_1 _ _ _ Hb) as [Hb0 Hb']; destruct (Forall_cons_1 _ _ _ Hb') as [Hb1 Hl']).
  - destruct l; [|cbn in Hl; lia]. unfold read_words; fold (@read_words drive _).
    unfold base, in16, on_dev, mbind, cM_bind, gets. cbn [a_drv a_dev a_tab inw drive_ports]. rewrite (at_base _ _ Ha).
    unfold drive_inw. rewrite Z.eqb_refl, Hx. rewrite word_bytes by done. done.
  - change (read_words (S (S n))) with (b ← base; w ← in16 (b + REG_DATA); ws ← read_words (Dv := drive) (S n); mret (bytes16 w ++ ws)).
    unfold base, in16, on_dev, mbind, cM_bind, gets. cbn [a_drv a_dev a_tab inw drive_ports]. rewrite (at_base _ _ Ha).
    unfold drive_inw. rewrite Z.eqb_refl, Hx. cbn [drop]. rewrite decide_False by (destruct l; [cbn in Hl; lia|done]).
    rewrite (IH l) by (done || (eauto with ata) || (cbn in *; lia)). rewrite word_bytes by done. done.
Qed.

Lemma write_words_run n : forall buf lba pre d, attached d a -> dv_xfer d = FromHost lba pre ->
  length buf = (2 * S n)%nat -> (length pre + length buf = 512)%nat -> Forall byte buf ->
  write_words (S n) buf (AtaSt d a t) =
    Some ((), AtaSt (with_sectors (dv_sectors d).[lba := pre ++ buf] (with_xfer NoData (dv_err d) (dv_delay d) d)) a t).
Proof.
  induction n as [|n IH]; intros buf lba pre d Ha Hx Hl Hp Hb; (destruct buf as [|b0 [|b1 l]]; [cbn in Hl; lia|cbn in Hl; lia|]);
    (destruct (Forall_cons_1 _ _ _ Hb) as [Hb0 Hb']; destruct (Forall_cons_1 _ _ _ Hb') as [Hb1 Hl']).
  - destruct l; [|cbn in Hl; lia]. unfold write_words; fold (@write_words drive _).
    unfold base, out16, on_dev, mbind, cM_bind, gets. cbn [a_drv a_dev a_tab outw drive_ports]. rewrite (at_base _ _ Ha).
    unfold drive_outw. rewrite Z.eqb_refl, Hx, word_bytes by done.
    replace (length (pre ++ [b0; b1]) <? 512)%nat with false; [done|]. symmetry. apply Nat.ltb_ge. rewrite length_app. cbn in *. lia.
  - change (write_words (S (S n)) (b0 :: b1 :: l)) with
      (b ← base; out16 (b + REG_DATA) (le16 (b0 :: b1 :: l) 0);; write_words (Dv := drive) (S n) l).
    unfold base, out16, on_dev, mbind, cM_bind, gets. cbn [a_drv a_dev a_tab outw drive_ports]. rewrite (at_base _ _ Ha).
    unfold drive_outw. rewrite Z.eqb_refl, Hx, word_bytes by done.
    replace (length (pre ++ [b0; b1]) <? 512)%nat with true.
    2:{ symmetry. apply Nat.ltb_lt. rewrite length_app. cbn in *. lia. }
    rewrite (IH l lba (pre ++ [b0; b1])); [|by eauto with ata|done|cbn in *; lia|rewrite length_app; cbn in *; lia|done].
    by rewrite <- app_assoc.
Qed.
End data.

Lemma attached_addressed a a' lba d : attached d a -> attached (addressed a' lba d) a.
Proof. apply attached_regs. Qed.
#[export] Hint Resolve attached_addressed : ata.

(** ** Requests before the first process runs *)

Lemma attached_drv d a a' : attached d a -> g_present a' = g_present a -> g_base a' = g_base a -> g_ctrl a' = g_ctrl a ->
  g_lba_sel a' = g_lba_sel a -> attached d a'.
Proof. intros [] E1 E2 E3 E4. split; congruence. Qed.

(** The drive is idle and no request is under way. *)
Record ata_idle (s : atast drive) : Prop := {
  ai_attached : attached (a_dev s) (a_drv s);
  ai_free : g_ata_busy (a_drv s) = false;
  ai_waiters : g_gate_waiters (a_drv s) = [];
  ai_none : current_process (a_tab s) = None;
  ai_ready : dv_busy (a_dev s) = O;
  ai_nodata : dv_xfer (a_dev s) = NoData;
  ai_delay : Z.of_nat (dv_delay (a_dev s)) < 2000000;
  ai_sectors : Forall (fun b => sector b /\ Forall byte b) (dv_sectors (a_dev s))
}.

Definition fired_off (a : ata) : ata := set_fired false a.
(** The drive after a command on sector [lba]. *)
Definition served (a : ata) (lba : Z) (err : bool) (d : drive) : drive := with_xfer NoData err 0 (addressed a lba d).

Section request.
Variables (a : ata) (t : ptable).
Hypothesis (Hfree : g_ata_busy a = false) (Hw : g_gate_waiters a = []) (Hcur : current_process t = None).
Implicit Types d : drive.

Let held : ata := set_busy true a.
Let held_off : ata := set_fired false held.

Lemma held_attached d : attached d a -> attached d held /\ attached d held_off.
Proof. intros Ha. split; by apply (attached_drv d a). Qed.

Lemma acquire_run op d : ata_turn (AAcquire op) (AtaSt d a t) = Some (ANext (AStart op), AtaSt d held t).
Proof. cbn [ata_turn]. unfold ata_gate_acquire, drv, modify, mbind, cM_bind, gets. cbn [a_drv]. by rewrite Hfree. Qed.

Lemma release_run r data a' d : g_gate_waiters a' = [] ->
  ata_turn (ARelease r data) (AtaSt d a' t) = Some (AReturn r data, AtaSt d (set_waiters [] (set_busy false a')) t).
Proof.
  intros E. cbn [ata_turn]. unfold ata_gate_release, drv, on_ptab, modify, mbind, cM_bind, gets.
  cbn [a_drv a_dev a_tab g_gate_waiters set_busy]. by rewrite E.
Qed.

Lemma start_run op d : attached d a -> dv_busy d = O ->
  ata_turn (AStart op) (AtaSt d held t) =
    Some (ANext (AIssued op), AtaSt (drive_command (op_cmd op) (addressed a (op_lba op) d)) held t).
Proof.
  intros Ha Hb. destruct (held_attached d Ha) as [Hh _]. cbn [ata_turn]. unfold wait_not_busy, mbind at 1, cM_bind at 1.
  rewrite (not_busy_run held t POLL_SPIN d Hh) by (auto; rewrite Hb; lia). cbn [negb]. unfold mbind, cM_bind.
  replace (with_busy 0 d) with d by (destruct d; cbn in *; by subst).
  rewrite set_lba_run by done. rewrite run_out by eauto with ata. rewrite out_cmd. done.
Qed.

Lemma drq_ready d : selected d = true -> dv_busy d = O ->
  has (status d) ATA_SR_ERR = dv_err d /\ has (status d) ATA_SR_DRQ = drq d /\ has (status d) ATA_SR_BSY = false.
Proof. intros Hs Hb. unfold status. rewrite Hs, Hb. by destruct (drq d), (dv_err d). Qed.

(** The two waits of a command whose drive is busy. *)
Lemma waits_run d : attached d a -> selected d = true -> Z.of_nat (dv_busy d) < 2000000 ->
  (ata_delay;; wait_not_busy) (AtaSt d held_off t) = Some (true, AtaSt (with_busy 0 d) held_off t) /\
  wait_drq (AtaSt (with_busy 0 d) held_off t) =
    (if dv_err d then Some (false, AtaSt (with_busy 0 d) held_off t)
     else if drq d then Some (true, AtaSt (with_busy 0 d) held_off t) else wait_drq (AtaSt (with_busy 0 d) held_off t)).
Proof.
  intros Ha Hs Hb. destruct (held_attached d Ha) as [_ Hh]. split.
  - unfold mbind at 1, cM_bind at 1. rewrite ata_delay_run by done. unfold wait_not_busy.
    rewrite (not_busy_run held_off t POLL_SPIN (with_busy (dv_busy d - 4) d)); [done|by eauto with ata|by left|cbn [dv_busy with_busy]; unfold POLL_SPIN; lia].
  - assert (Hbody : drq_body (AtaSt (with_busy 0 d) held_off t) =
      Some (if dv_err d then Some false else if drq d then Some true else None, AtaSt (with_busy 0 d) held_off t)).
    { unfold drq_body, mbind, cM_bind. rewrite run_status by eauto with ata.
      destruct (drq_ready (with_busy 0 d)) as (E1 & E2 & _); [done|done|]. by rewrite E1, E2. }
    unfold wait_drq, mbind, cM_bind. destruct (dv_err d); [by rewrite (spin_first _ _ _ _ Hbody)|].
    destruct (drq d); [by rewrite (spin_first _ _ _ _ Hbody)|done].
Qed.

(** The drive after the command was accepted. *)
Lemma read_command lba d : attached d a -> is_u32 lba -> dv_busy d = O ->
  drive_command CMD_READ (addressed a lba d) =
    match dv_sectors d !! Z.to_nat (lba mod 2 ^ 28) with
    | Some sec => with_xfer (ToHost sec) false (dv_delay d) (addressed a lba d)
    | None => with_xfer NoData true (dv_delay d) (addressed a lba d)
    end.
Proof.
  intros Ha Hl Hb. unfold drive_command. rewrite addressed_selected by done.
  change (dv_busy (addressed a lba d)) with (dv_busy d). rewrite Hb. cbn [negb orb Nat.ltb Nat.leb].
  by rewrite addressed_lba.
Qed.

Lemma write_command lba d : attached d a -> is_u32 lba -> dv_busy d = O ->
  drive_command CMD_WRITE (addressed a lba d) =
    match dv_sectors d !! Z.to_nat (lba mod 2 ^ 28) with
    | Some _ => with_xfer (FromHost (lba mod 2 ^ 28) []) false (dv_delay d) (addressed a lba d)
    | None => with_xfer NoData true (dv_delay d) (addressed a lba d)
    end.
Proof.
  intros Ha Hl Hb. unfold drive_command. rewrite addressed_selected by done.
  change (dv_busy (addressed a lba d)) with (dv_busy d). rewrite Hb. cbn [negb orb Nat.ltb Nat.leb].
  by rewrite addressed_lba.
Qed.

Lemma selected_xfer x e n lba d : attached d a -> selected (with_xfer x e n (addressed a lba d)) = true.
Proof. apply addressed_selected. Qed.

(** The rest of a command, the drive being in its data phase. *)
Lemma issued_read_run lba d : attached d a -> selected d = true -> Z.of_nat (dv_busy d) < 2000000 ->
  (dv_err d = true -> ata_turn (AIssued (ARead lba)) (AtaSt d held t) = Some (fail, AtaSt (with_busy 0 d) held_off t)) /\
  (forall sec, dv_err d = false -> dv_xfer d = ToHost sec -> sector sec -> Forall byte sec ->
     ata_turn (AIssued (ARead lba)) (AtaSt d held t) = Some (ANext (ARelease 0 sec), AtaSt (with_xfer NoData false 0 d) held_off t)).
Proof.
  intros Ha Hs Hb. destruct (waits_run d Ha Hs Hb) as [W1 W2]. destruct (held_attached d Ha) as [_ Hh].
  cbn [ata_turn]. unfold drv, current, modify, gets. unfold mbind, cM_bind in *. cbn [a_drv a_dev a_tab]. rewrite Hcur. fold held_off.
  destruct (ata_delay (AtaSt d held_off t)) as [[u s1]|]; [|done]. rewrite W1. cbn [negb]. split.
  - intros He. rewrite W2, He. done.
  - intros sec He Hx Hl Hby. rewrite W2, He. unfold drq. rewrite Hx. cbn [negb].
    rewrite (read_words_run held_off t 255 sec (with_busy 0 d)) by (done || (eauto with ata)).
    cbn [dv_err dv_busy with_busy]. by rewrite He.
Qed.

Lemma issued_write_run lba buf d : attached d a -> selected d = true -> Z.of_nat (dv_busy d) < 2000000 ->
  (dv_err d = true -> ata_turn (AIssued (AWrite lba buf)) (AtaSt d held t) = Some (fail, AtaSt (with_busy 0 d) held_off t)) /\
  (forall l, dv_err d = false -> dv_xfer d = FromHost l [] -> sector buf -> Forall byte buf ->
     ata_turn (AIssued (AWrite lba buf)) (AtaSt d held t) =
       Some (ANext AWritten, AtaSt (with_sectors (dv_sectors d).[l := buf] (with_xfer NoData false (dv_delay d) d)) held_off t)).
Proof.
  intros Ha Hs Hb. destruct (waits_run d Ha Hs Hb) as [W1 W2]. destruct (held_attached d Ha) as [_ Hh].
  cbn [ata_turn]. unfold drv, current, modify, gets. unfold mbind, cM_bind in *. cbn [a_drv a_dev a_tab]. fold held_off.
  destruct (ata_delay (AtaSt d held_off t)) as [[u s1]|]; [|done]. rewrite W1. cbn [negb]. split.
  - intros He. rewrite W2, He. done.
  - intros l He Hx Hl Hby. rewrite W2, He. unfold drq. rewrite Hx. cbn [negb].
    rewrite (write_words_run held_off t 255 buf l [] (with_busy 0 d)) by (done || (eauto with ata)).
    cbn [dv_err dv_busy dv_delay dv_sectors with_busy a_tab]. by rewrite Hcur, He.
Qed.

(** The last turns of a write: check, flush. *)
Lemma written_run d : attached d a -> selected d = true -> Z.of_nat (dv_busy d) < 2000000 -> dv_err d = false -> dv_xfer d = NoData ->
  ata_turn AWritten (AtaSt d held_off t) = Some (ANext ACheckWrite, AtaSt (with_busy 0 d) held_off t) /\
  ata_turn ACheckWrite (AtaSt (with_busy 0 d) held_off t) = Some (ANext AFlushIssued, AtaSt (with_busy (dv_delay d) d) held_off t).
Proof.
  intros Ha Hs Hb He Hx. destruct (held_attached d Ha) as [_ Hh]. cbn [ata_turn]. split.
  - unfold wait_not_busy, mbind at 1, cM_bind at 1. rewrite (not_busy_run held_off t POLL_SPIN d Hh (or_introl Hs)); [done|unfold POLL_SPIN; lia].
  - unfold mbind, cM_bind. rewrite run_status by eauto with ata.
    destruct (drq_ready (with_busy 0 d)) as (E1 & _ & _); [done|done|]. rewrite E1. cbn [dv_err with_busy]. rewrite He.
    rewrite run_out by eauto with ata. rewrite out_cmd. cbn [dv_busy with_busy pred]. unfold drive_command.
    change (selected (with_busy 0 (with_busy 0 d))) with (selected d). rewrite Hs. cbn [negb orb Nat.ltb Nat.leb dv_busy with_busy].
    cbn [Z.eqb CMD_READ CMD_WRITE CMD_IDENTIFY CMD_FLUSH Pos.eqb]. do 3 f_equal. destruct d; cbn in *. by subst.
Qed.

Lemma flush_run d : attached d a -> selected d = true -> Z.of_nat (dv_busy d) < 2000000 ->
  ata_turn AFlushIssued (AtaSt d held_off t) = Some (ANext (ARelease 0 []), AtaSt (with_busy 0 d) held_off t).
Proof.
  intros Ha Hs Hb. destruct (held_attached d Ha) as [_ Hh]. cbn [ata_turn]. unfold drv, current, modify, gets, mbind, cM_bind.
  cbn [a_drv a_dev a_tab]. rewrite Hcur. change (set_fired false held_off) with held_off.
  unfold wait_not_busy. fold held_off.
  pose proof (not_busy_run held_off t POLL_SPIN d Hh (or_introl Hs) ltac:(unfold POLL_SPIN; lia)) as E.
  unfold mbind, cM_bind in *. by rewrite E.
Qed.

(** The state a request leaves. *)
Let done_drv : ata := set_waiters [] (set_busy false held_off).

Lemma run_next n k (s : atast drive) k' s' : ata_turn k s = Some (ANext k', s') -> ata_run (S n) k s = ata_run n k' s'.
Proof. intros E. cbn [ata_run]. unfold mbind, cM_bind. by rewrite E. Qed.

Lemma run_return n k (s : atast drive) r data s' : ata_turn k s = Some (AReturn r data, s') -> ata_run n k s = Some ((r, data), s').
Proof. intros E. destruct n; cbn [ata_run]; unfold mbind, cM_bind; by rewrite E. Qed.

Lemma read_request lba d : attached d a -> is_u32 lba -> dv_busy d = O -> Z.of_nat (dv_delay d) < 2000000 ->
  Forall (fun b => sector b /\ Forall byte b) (dv_sectors d) ->
  ata_run 7 (AAcquire (ARead lba)) (AtaSt d a t) =
    match dv_sectors d !! Z.to_nat (lba mod 2 ^ 28) with
    | Some sec => Some ((0, sec), AtaSt (served a lba false d) done_drv t)
    | None => Some ((-1, []), AtaSt (served a lba true d) done_drv t)
    end.
Proof.
  intros Ha Hl Hb Hdel Hsec. rewrite (run_next _ _ _ _ _ (acquire_run _ d)), (run_next _ _ _ _ _ (start_run _ d Ha Hb)).
  cbn [op_cmd op_lba]. rewrite read_command by done. destruct (dv_sectors d !! _) as [sec|] eqn:E.
  - destruct (Forall_lookup_1 _ _ _ _ Hsec E) as [H1 H2].
    destruct (issued_read_run lba (with_xfer (ToHost sec) false (dv_delay d) (addressed a lba d))) as [_ HR];
      [by eauto with ata|by apply selected_xfer|done|].
    rewrite (run_next _ _ _ _ _ (HR sec eq_refl eq_refl H1 H2)). by apply run_return, release_run.
  - destruct (issued_read_run lba (with_xfer NoData true (dv_delay d) (addressed a lba d))) as [HR _];
      [by eauto with ata|by apply selected_xfer|done|].
    rewrite (run_next _ _ _ _ _ (HR eq_refl)). by apply run_return, release_run.
Qed.

Lemma write_request lba buf d : attached d a -> is_u32 lba -> dv_busy d = O -> Z.of_nat (dv_delay d) < 2000000 ->
  sector buf -> Forall byte buf ->
  ata_run 7 (AAcquire (AWrite lba buf)) (AtaSt d a t) =
    match dv_sectors d !! Z.to_nat (lba mod 2 ^ 28) with
    | Some _ => Some ((0, []), AtaSt (with_sectors (dv_sectors d).[lba mod 2 ^ 28 := buf] (served a lba false d)) done_drv t)
    | None => Some ((-1, []), AtaSt (served a lba true d) done_drv t)
    end.
Proof.
  intros Ha Hl Hb Hdel Hs Hby. rewrite (run_next _ _ _ _ _ (acquire_run _ d)), (run_next _ _ _ _ _ (start_run _ d Ha Hb)).
  cbn [op_cmd op_lba]. rewrite write_command by done. destruct (dv_sectors d !! _) as [sec|] eqn:E.
  - destruct (issued_write_run lba buf (with_xfer (FromHost (lba mod 2 ^ 28) []) false (dv_delay d) (addressed a lba d))) as [_ HR];
      [by eauto with ata|by apply selected_xfer|done|].
    rewrite (run_next _ _ _ _ _ (HR _ eq_refl eq_refl Hs Hby)). set (d1 := with_sectors _ _).
    assert (A1 : attached d1 a) by (subst d1; eauto with ata).
    assert (S1 : selected d1 = true) by (by apply selected_xfer).
    destruct (written_run d1 A1 S1) as [W1 W2]; [done|done|done|].
    rewrite (run_next _ _ _ _ _ W1), (run_next _ _ _ _ _ W2).
    rewrite (run_next _ _ _ _ _ (flush_run (with_busy (dv_delay d1) d1) (attached_busy _ _ _ A1) S1 Hdel)).
    by apply run_return, release_run.
  - destruct (issued_write_run lba buf (with_xfer NoData true (dv_delay d) (addressed a lba d))) as [HR _];
      [by eauto with ata|by apply selected_xfer|done|].
    rewrite (run_next _ _ _ _ _ (HR eq_refl)). by apply run_return, release_run.
Qed.
End request.

(** ** Requests on an idle drive *)

Definition served_state (lba : Z) (err : bool) (secs : list (list Z)) (s : atast drive) : atast drive :=
  let a := a_drv s in
  AtaSt (with_sectors secs (served a lba err (a_dev s))) (set_waiters [] (set_busy false (set_fired false (set_busy true a)))) (a_tab s).

Lemma served_idle lba err secs s : ata_idle s -> Forall (fun b => sector b /\ Forall byte b) secs -> ata_idle (served_state lba err secs s).
Proof.
  intros [Ha Hf Hw Hn Hr Hx Hd Hs] Hsecs. split; try done. unfold served_state. cbn [a_dev a_drv].
  apply attached_sectors, attached_xfer, attached_addressed. by apply (attached_drv _ (a_drv s)).
Qed.

Lemma read_idle lba s : ata_idle s -> is_u32 lba ->
  ata_read_sector lba s =
    match dv_sectors (a_dev s) !! Z.to_nat (lba mod 2 ^ 28) with
    | Some sec => Some ((0, sec), served_state lba false (dv_sectors (a_dev s)) s)
    | None => Some ((-1, []), served_state lba true (dv_sectors (a_dev s)) s)
    end.
Proof.
  intros [Ha Hf Hw Hn Hr Hx Hd Hs] Hl. destruct s as [d a t]. cbn [a_dev a_drv a_tab] in *.
  unfold ata_read_sector, ata_request, mbind, cM_bind, gets. cbn [a_drv]. rewrite (at_present _ _ Ha). cbn [negb].
  rewrite (read_request a t Hf Hw Hn lba d) by done. by destruct (dv_sectors d !! _).
Qed.

Lemma write_idle lba buf s : ata_idle s -> is_u32 lba -> sector buf -> Forall byte buf ->
  ata_write_sector lba buf s =
    match dv_sectors (a_dev s) !! Z.to_nat (lba mod 2 ^ 28) with
    | Some _ => Some (0, served_state lba false (dv_sectors (a_dev s)).[lba mod 2 ^ 28 := buf] s)
    | None => Some (-1, served_state lba true (dv_sectors (a_dev s)) s)
    end.
Proof.
  intros [Ha Hf Hw Hn Hr Hx Hd Hs] Hl Hsec Hby. destruct s as [d a t]. cbn [a_dev a_drv a_tab] in *.
  unfold ata_write_sector, ata_request, mbind, cM_bind, gets. cbn [a_drv]. rewrite (at_present _ _ Ha). cbn [negb].
  rewrite (write_request a t Hf Hw Hn lba buf d) by done. by destruct (dv_sectors d !! _).
Qed.

(** ** Requests of a process *)

(** The drive is idle, the gate free, process [p] on the CPU. *)
Record ata_ready (p : Z) (s : atast drive) : Prop := {
  ar_attached : attached (a_dev s) (a_drv s);
  ar_free : g_ata_busy (a_drv s) = false;
  ar_waiters : g_gate_waiters (a_drv s) = [];
  ar_slot : 0 <= p < 16;
  ar_table : has16 (a_tab s);
  ar_current : current_process (a_tab s) = Some p;
  ar_busy : dv_busy (a_dev s) = O;
  ar_delay : Z.of_nat (dv_delay (a_dev s)) < 2000000;
  ar_sectors : Forall (fun b => sector b /\ Forall byte b) (dv_sectors (a_dev s))
}.

Section process_request.
Variable (soon : ata_kont -> bool) (p : Z).
Implicit Types d : drive.
Local Notation serve := (ata_serve (with_busy 0) soon).
Local Notation held a := (set_fired false (set_busy true a)).

Definition on_cpu (t : ptable) : Prop := 0 <= p < 16 /\ has16 t /\ current_process t = Some p.

Lemma on_cpu_upd t q f : on_cpu t -> on_cpu (upd t q f).
Proof. intros (Hp & Ht & Hc). split_and!; [lia|lia|by apply upd_has16|done]. Qed.
Lemma on_cpu_wake t w : on_cpu t -> on_cpu (wake_if_blocked w t).
Proof. unfold wake_if_blocked. destruct (state_eqb _ _); [apply on_cpu_upd|done]. Qed.

Lemma completes_run d a t : attached d a ->
  completes (with_busy 0) (AtaSt d a t) = Some ((), AtaSt (with_busy 0 d) (set_irq_waiter None (set_fired true a))
    (match g_irq_waiter a with Some w => wake_if_blocked w t | None => t end)).
Proof.
  intros Ha. unfold completes, on_dev, ata_irq_handler. unfold mbind, cM_bind. cbn [a_dev a_drv a_tab].
  rewrite run_status by eauto with ata. unfold drv, on_ptab, modify, gets. cbn [a_dev a_drv a_tab g_irq_waiter set_fired].
  destruct (g_irq_waiter a) as [w|] eqn:E; [done|]. destruct a; cbn in *. by subst.
Qed.

Lemma serve_next n k (s : atast drive) k' s' : waits k = false -> ata_turn k s = Some (ANext k', s') -> serve (S n) k s = serve n k' s'.
Proof. intros Ew E. cbn [ata_serve]. rewrite Ew. unfold mbind, cM_bind. cbn [andb mret cM_ret]. by rewrite E. Qed.
Lemma serve_return n k (s : atast drive) r data s' : waits k = false -> ata_turn k s = Some (AReturn r data, s') ->
  serve n k s = Some ((r, data), s').
Proof. intros Ew E. destruct n; cbn [ata_serve]; rewrite Ew; unfold mbind, cM_bind; cbn [andb mret cM_ret]; by rewrite E. Qed.

Lemma wake_blocked_self t : on_cpu t ->
  let t1 := upd t p (set_state PROCESS_BLOCKED) in state_of (wake_if_blocked p t1) p = PROCESS_READY.
Proof.
  intros (Hp & Ht & _). cbn zeta. unfold wake_if_blocked, state_of. rewrite slot_upd, Z.eqb_refl by (done || lia).
  cbn [p_state set_state]. change (state_eqb PROCESS_BLOCKED PROCESS_BLOCKED) with true. cbn iota.
  rewrite slot_upd, Z.eqb_refl by (lia || by apply upd_has16). done.
Qed.

(** The wait ends with the command complete, whenever its interrupt comes. *)
Lemma wait_served n k d a t : attached d a -> on_cpu t -> exists m t', (n <= m)%nat /\ on_cpu t' /\
  serve (S (S n)) (AWait k) (AtaSt d (held a) t) = serve m k (AtaSt (with_busy 0 d) (held (set_irq_waiter None a)) t').
Proof.
  intros Ha Ht. assert (Hh : attached d (held a)) by (by apply (attached_drv d a)). pose proof (proj2 (proj2 Ht)) as Hc.
  remember (S n) as n1 eqn:En. cbn [ata_serve waits andb]. destruct (soon (AWait k)) eqn:Es; unfold mbind at 1, cM_bind at 1.
  - rewrite completes_run by done. set (t' := match _ with Some w => _ | None => _ end).
    assert (Ht' : on_cpu t') by (subst t'; destruct (g_irq_waiter _); [by apply on_cpu_wake|done]).
    exists n1, t'. split_and!; [lia|apply Ht'..|].
    assert (E : ata_turn (AWait k) (AtaSt (with_busy 0 d) (set_irq_waiter None (set_fired true (held a))) t') =
      Some (ANext k, AtaSt (with_busy 0 d) (held (set_irq_waiter None a)) t')).
    { cbn [ata_turn]. unfold ata_wait_irq, current, mbind, cM_bind, gets. cbn [a_tab]. by rewrite (proj2 (proj2 Ht')). }
    unfold mbind, cM_bind. by rewrite E.
  - set (t1 := upd t p (set_state PROCESS_BLOCKED)).
    assert (E : ata_turn (AWait k) (AtaSt d (held a) t) = Some (ABlock (AWoken k), AtaSt d (set_irq_waiter (Some p) (held a)) t1)).
    { cbn [ata_turn]. unfold ata_wait_irq, current, mbind, cM_bind, gets. cbn [a_tab]. by rewrite Hc. }
    exists n, (upd (wake_if_blocked p t1) p (set_state PROCESS_RUNNING)). split_and!; [lia|by apply on_cpu_upd, on_cpu_wake, on_cpu_upd..|].
    cbn [mret cM_ret]. unfold mbind at 1, cM_bind at 1. rewrite E. unfold mbind at 1, cM_bind at 1.
    rewrite completes_run by (by apply (attached_drv d a)). cbn [g_irq_waiter set_irq_waiter].
    set (s2 := AtaSt _ _ _).
    assert (Eg : goes_on s2 = Some ((), AtaSt (a_dev s2) (a_drv s2) (upd (wake_if_blocked p t1) p (set_state PROCESS_RUNNING)))).
    { unfold goes_on, current, gets, mbind, cM_bind. subst s2. cbn [a_tab].
      rewrite (proj2 (proj2 (on_cpu_wake t1 p (on_cpu_upd t p (set_state PROCESS_BLOCKED) Ht)))). cbn [a_tab].
      by rewrite (wake_blocked_self t Ht : state_of (wake_if_blocked p t1) p = PROCESS_READY). }
    unfold mbind at 1, cM_bind at 1. rewrite Eg. subst n1. by apply serve_next.
Qed.

(** Up to the command. *)
Lemma served_start n op d a t : attached d a -> g_ata_busy a = false -> dv_busy d = O ->
  serve (S (S n)) (AAcquire op) (AtaSt d a t) =
    serve n (AIssued op) (AtaSt (drive_command (op_cmd op) (addressed a (op_lba op) d)) (set_busy true a) t).
Proof.
  intros Ha Hf Hb. rewrite (serve_next _ (AAcquire op) _ _ _ eq_refl (acquire_run a t Hf op d)).
  by rewrite (serve_next _ (AStart op) _ _ _ eq_refl (start_run a t Hf op d Ha Hb)).
Qed.

(** The check after the interrupt of a read. *)
Lemma check_read_run d a t : attached d a -> selected d = true -> dv_busy d = O ->
  (drq d = false -> ata_turn ACheckRead (AtaSt d a t) = Some (fail, AtaSt d a t)) /\
  (forall sec, dv_err d = false -> dv_xfer d = ToHost sec -> sector sec -> Forall byte sec ->
     ata_turn ACheckRead (AtaSt d a t) = Some (ANext (ARelease 0 sec), AtaSt (with_xfer NoData false 0 d) a t)).
Proof.
  intros Ha Hs Hb. destruct (drq_ready d Hs Hb) as (E1 & E2 & _). assert (Ed : with_busy (pred (dv_busy d)) d = d) by (destruct d; cbn in *; by subst).
  cbn [ata_turn]. unfold mbind, cM_bind. rewrite run_status, E1, E2, Ed by done. split.
  - intros ->. by rewrite orb_true_r.
  - intros sec He Hx Hl Hby. rewrite He. unfold drq. rewrite Hx. cbn [orb negb].
    rewrite (read_words_run a t 255 sec d) by done. by rewrite He, Hb.
Qed.

(** The data of a write of a process. *)
Lemma issued_write_process lba buf d a t : attached d a -> g_ata_busy a = false -> on_cpu t -> selected d = true -> Z.of_nat (dv_busy d) < 2000000 ->
  (dv_err d = true -> ata_turn (AIssued (AWrite lba buf)) (AtaSt d (set_busy true a) t) = Some (fail, AtaSt (with_busy 0 d) (held a) t)) /\
  (forall l, dv_err d = false -> dv_xfer d = FromHost l [] -> sector buf -> Forall byte buf ->
     ata_turn (AIssued (AWrite lba buf)) (AtaSt d (set_busy true a) t) =
       Some (ANext (AWait ACheckWrite), AtaSt (with_sectors (dv_sectors d).[l := buf] (with_xfer NoData false (dv_delay d) d)) (held a) t)).
Proof.
  intros Ha Hf Ht Hs Hb. destruct (waits_run a t Hf d Ha Hs Hb) as [W1 W2]. assert (Hh : attached d (held a)) by (by apply (attached_drv d a)).
  cbn [ata_turn]. unfold drv, current, modify, gets. unfold mbind, cM_bind in *. cbn [a_drv a_dev a_tab].
  destruct (ata_delay (AtaSt d (held a) t)) as [[u s1]|]; [|done]. rewrite W1. cbn [negb]. split.
  - intros He. rewrite W2, He. done.
  - intros l He Hx Hl Hby. rewrite W2, He. unfold drq. rewrite Hx. cbn [negb].
    rewrite (write_words_run (held a) t 255 buf l [] (with_busy 0 d)) by (done || (eauto with ata)).
    cbn [dv_err dv_busy dv_delay dv_sectors with_busy a_tab]. by rewrite (proj2 (proj2 Ht)), He.
Qed.

(** The release: the state is ready for the next request. *)
Lemma release_ready n r data d a t : attached d a -> g_gate_waiters a = [] -> on_cpu t -> dv_busy d = O -> Z.of_nat (dv_delay d) < 2000000 ->
  Forall (fun b => sector b /\ Forall byte b) (dv_sectors d) ->
  exists s', serve n (ARelease r data) (AtaSt d a t) = Some ((r, data), s') /\ ata_ready p s' /\ a_dev s' = d.
Proof.
  intros Ha Hw (Hp & Ht & Hc) Hb Hd Hs. eexists. split_and!; [by apply serve_return, release_run| |done].
  split; try done. by apply (attached_drv d a).
Qed.

Lemma process_read n lba s : (6 <= n)%nat -> ata_ready p s -> is_u32 lba ->
  exists s', serve n (AAcquire (ARead lba)) s =
    Some (match dv_sectors (a_dev s) !! Z.to_nat (lba mod 2 ^ 28) with Some sec => (0, sec) | None => (-1, []) end, s') /\
    ata_ready p s' /\ dv_sectors (a_dev s') = dv_sectors (a_dev s).
Proof.
  intros Hn [Ha Hf Hw Hp Ht Hc Hb Hd Hs] Hl. destruct s as [d a t]. cbn [a_dev a_drv a_tab] in *.
  do 6 (destruct n as [|n]; [lia|]). clear Hn. rewrite served_start by done. cbn [op_cmd op_lba]. rewrite read_command by done.
  assert (Ho : on_cpu t) by done. set (d1 := match _ with Some _ => _ | None => _ end).
  assert (Ei : ata_turn (AIssued (ARead lba)) (AtaSt d1 (set_busy true a) t) = Some (ANext (AWait ACheckRead), AtaSt d1 (held a) t)).
  { cbn [ata_turn]. unfold drv, modify, current, mbind, cM_bind, gets. cbn [a_tab]. by rewrite Hc. }
  rewrite (serve_next _ (AIssued (ARead lba)) _ _ _ eq_refl Ei).
  assert (A1 : attached d1 a) by (subst d1; destruct (_ !! _); eauto with ata).
  destruct (wait_served (S n) ACheckRead d1 a t A1 Ho) as (m & t' & Hm & Ht' & ->). destruct m as [|m]; [lia|].
  set (a' := held (set_irq_waiter None a)). assert (A2 : attached (with_busy 0 d1) a') by (apply (attached_drv _ a); eauto with ata).
  assert (S1 : selected d1 = true) by (subst d1; destruct (_ !! _); by apply selected_xfer).
  destruct (check_read_run (with_busy 0 d1) a' t' A2 S1 eq_refl) as [H1 H2]. subst d1. destruct (dv_sectors d !! _) as [sec|] eqn:E.
  - destruct (Forall_lookup_1 _ _ _ _ Hs E) as [Hs1 Hs2]. rewrite (serve_next _ ACheckRead _ _ _ eq_refl (H2 sec eq_refl eq_refl Hs1 Hs2)).
    set (d2 := with_xfer _ _ _ _). destruct (release_ready m 0 sec d2 a' t') as (s' & E' & Hr & Ed); try done; [subst d2; eauto with ata|].
    exists s'. split_and!; [done|done|by rewrite Ed].
  - rewrite (serve_next _ ACheckRead _ _ _ eq_refl (H1 eq_refl)).
    set (d2 := with_busy _ _). destruct (release_ready m (-1) [] d2 a' t') as (s' & E' & Hr & Ed); try done.
    exists s'. split_and!; [done|done|by rewrite Ed].
Qed.

(** After the data of a write was sent. *)
Lemma write_tail n d a t : (6 <= n)%nat -> attached d a -> g_ata_busy a = false -> g_gate_waiters a = [] -> on_cpu t -> selected d = true ->
  dv_err d = false -> dv_xfer d = NoData -> Z.of_nat (dv_busy d) < 2000000 -> Z.of_nat (dv_delay d) < 2000000 ->
  Forall (fun b => sector b /\ Forall byte b) (dv_sectors d) ->
  exists s', serve n (AWait ACheckWrite) (AtaSt d (held a) t) = Some ((0, []), s') /\ ata_ready p s' /\ dv_sectors (a_dev s') = dv_sectors d.
Proof.
  intros Hn Ha Hf Hw Ht Hs He Hx Hb Hd Hsec. do 6 (destruct n as [|n]; [lia|]). clear Hn.
  destruct (wait_served (S (S (S (S n)))) ACheckWrite d a t Ha Ht) as (m & t1 & Hm & Ht1 & ->). do 4 (destruct m as [|m]; [lia|]).
  set (a1 := set_irq_waiter None a). assert (A1 : attached d a1) by (by apply (attached_drv _ a)).
  destruct (written_run a1 t1 Hf d A1 Hs Hb He Hx) as [_ W]. rewrite (serve_next _ ACheckWrite _ _ _ eq_refl W).
  set (d1 := with_busy (dv_delay d) d).
  assert (Ei : ata_turn AFlushIssued (AtaSt d1 (held a1) t1) = Some (ANext (AWait (ARelease 0 [])), AtaSt d1 (held a1) t1)).
  { cbn [ata_turn]. unfold drv, modify, current, mbind, cM_bind, gets. cbn [a_tab]. by rewrite (proj2 (proj2 Ht1)). }
  rewrite (serve_next _ AFlushIssued _ _ _ eq_refl Ei).
  destruct (wait_served m (ARelease 0 []) d1 a1 t1) as (m2 & t2 & _ & Ht2 & ->); [subst d1; eauto with ata|done|].
  destruct (release_ready m2 0 [] (with_busy 0 d1) (held (set_irq_waiter None a1)) t2) as (s' & E' & Hr & Ed); try done.
  { apply (attached_drv _ a1); [subst d1; eauto with ata|done..]. }
  exists s'. split_and!; [done|done|by rewrite Ed].
Qed.

Lemma process_write n lba buf s : (9 <= n)%nat -> ata_ready p s -> is_u32 lba -> sector buf -> Forall byte buf ->
  exists s', serve n (AAcquire (AWrite lba buf)) s =
    Some ((if decide (is_Some (dv_sectors (a_dev s) !! Z.to_nat (lba mod 2 ^ 28))) then 0 else -1, []), s') /\
    ata_ready p s' /\ dv_sectors (a_dev s') = <[Z.to_nat (lba mod 2 ^ 28) := buf]> (dv_sectors (a_dev s)).
Proof.
  intros Hn [Ha Hf Hw Hp Ht Hc Hb Hd Hs] Hl Hsec Hby. destruct s as [d a t]. cbn [a_dev a_drv a_tab] in *.
  do 3 (destruct n as [|n]; [lia|]). rewrite served_start by done. cbn [op_cmd op_lba]. rewrite write_command by done.
  assert (Ho : on_cpu t) by done. destruct (dv_sectors d !! _) as [sec|] eqn:E.
  - rewrite decide_True by eauto. set (d1 := with_xfer _ _ _ _).
    destruct (issued_write_process lba buf d1 a t) as [_ HW]; [subst d1; eauto with ata|done|done|by apply selected_xfer|done|].
    rewrite (serve_next _ (AIssued (AWrite lba buf)) _ _ _ eq_refl (HW _ eq_refl eq_refl Hsec Hby)). set (d2 := with_sectors _ _).
    destruct (write_tail n d2 a t) as (s' & E' & Hr & Es); try done; [lia|subst d2 d1; eauto with ata|by apply selected_xfer| |by exists s'].
    subst d2. cbn [dv_sectors with_sectors]. unfold zset. by apply Forall_insert.
  - rewrite decide_False by (by intros [? ?]). set (d1 := with_xfer _ _ _ _).
    destruct (issued_write_process lba buf d1 a t) as [HW _]; [subst d1; eauto with ata|done|done|by apply selected_xfer|done|].
    rewrite (serve_next _ (AIssued (AWrite lba buf)) _ _ _ eq_refl (HW eq_refl)). set (d2 := with_busy _ _).
    destruct (release_ready n (-1) [] d2 (held a) t) as (s' & E' & Hr & Ed); try done.
    { apply (attached_drv _ a); [subst d2 d1; eauto with ata|done..]. }
    exists s'. split_and!; [done|done|]. rewrite Ed. symmetry. by apply list_insert_ge, lookup_ge_None.
Qed.
End process_request.

(** ** The block device *)

Definition ata_disk : Type := { s : atast drive | ata_idle s }.

(** The result and the final state of a computation that is defined. *)
Definition run_val {St A} (m : cM St A) (s : St) : option A := fst <$> m s.
Definition run_state {St A} (m : cM St A) (s : St) : St := default s (snd <$> m s).

Definition ata_zero : list Z := replicate 512 0.
(** The 512 bytes at a buffer. *)
Definition whole_sector (buf : list Z) : list Z := take 512 ((u8 <$> buf) ++ ata_zero).

Lemma whole_sector_ok buf : sector (whole_sector buf) /\ Forall byte (whole_sector buf).
Proof.
  unfold whole_sector, sector. split.
  - rewrite length_take, length_app, length_fmap. unfold ata_zero. rewrite length_replicate. lia.
  - apply Forall_take, Forall_app. split; [|unfold ata_zero; apply Forall_replicate; unfold byte; lia].
    apply Forall_fmap, Forall_true. intros x. apply Z.mod_pos_bound. lia.
Qed.

Lemma whole_sector_id buf : sector buf -> Forall byte buf -> whole_sector buf = buf.
Proof.
  intros Hs Hb. unfold whole_sector. rewrite take_app_le by (rewrite length_fmap, Hs; lia).
  rewrite take_ge by (rewrite length_fmap, Hs; lia).
  transitivity (id <$> buf); [|apply list_fmap_id]. apply list_fmap_ext. intros i x E. apply u8_small.
  by apply (Forall_lookup_1 _ _ _ _ Hb E).
Qed.

(** The sectors 28 address bits reach. *)
Definition in_reach (l : Z) : bool := (0 <=? l) && (l <? 2 ^ 28).

Definition ata_bd_data (d : ata_disk) (l : Z) : list Z :=
  if in_reach l then default ata_zero (dv_sectors (a_dev (`d)) !! Z.to_nat l) else ata_zero.

Lemma read_keeps l (d : ata_disk) : ata_idle (if in_reach l then run_state (ata_read_sector l) (`d) else `d).
Proof.
  destruct d as [s Hs]. cbn [proj1_sig]. destruct (in_reach l) eqn:E; [|done]. unfold in_reach in E. b2p.
  unfold run_state. rewrite read_idle by (done || (split; lia)).
  destruct (dv_sectors (a_dev s) !! _); cbn; by apply served_idle; [|apply Hs].
Qed.

Lemma write_keeps l buf (d : ata_disk) : ata_idle (if in_reach l then run_state (ata_write_sector l (whole_sector buf)) (`d) else `d).
Proof.
  destruct d as [s Hs]. cbn [proj1_sig]. destruct (in_reach l) eqn:E; [|done]. unfold in_reach in E. b2p.
  destruct (whole_sector_ok buf) as [H1 H2].
  unfold run_state. rewrite write_idle by (done || (split; lia)).
  destruct (dv_sectors (a_dev s) !! _); cbn; apply served_idle; try done; [|apply Hs].
  unfold zset. apply Forall_insert; [apply Hs|done].
Qed.

Definition ata_bd_read (l : Z) (d : ata_disk) : option (list Z) * ata_disk :=
  (if in_reach l then
     match run_val (ata_read_sector l) (`d) with Some (0, data) => Some data | _ => None end
   else None, exist _ _ (read_keeps l d)).
Definition ata_bd_write (l : Z) (buf : list Z) (d : ata_disk) : bool * ata_disk :=
  (if in_reach l then
     match run_val (ata_write_sector l (whole_sector buf)) (`d) with Some 0 => true | _ => false end
   else false, exist _ _ (write_keeps l buf d)).
Definition ata_bd_size (d : ata_disk) : Z := Z.min (2 ^ 28) (zlen (dv_sectors (a_dev (`d)))).

Lemma reach_mod l : in_reach l = true -> l mod 2 ^ 28 = l.
Proof. unfold in_reach. intros E. b2p. apply Z.mod_small. lia. Qed.

Lemma bd_read_eq l (d : ata_disk) : in_reach l = true ->
  run_val (ata_read_sector l) (`d) = Some (match dv_sectors (a_dev (`d)) !! Z.to_nat l with Some sec => (0, sec) | None => (-1, []) end) /\
  dv_sectors (a_dev (run_state (ata_read_sector l) (`d))) = dv_sectors (a_dev (`d)).
Proof.
  intros E. destruct d as [s Hs]. cbn [proj1_sig]. pose proof (reach_mod l E) as Em. unfold in_reach in E. b2p.
  unfold run_val, run_state. rewrite read_idle by (done || (split; lia)). rewrite Em. by destruct (dv_sectors (a_dev s) !! _).
Qed.

Lemma bd_write_eq l buf (d : ata_disk) : in_reach l = true ->
  run_val (ata_write_sector l (whole_sector buf)) (`d) = Some (if decide (is_Some (dv_sectors (a_dev (`d)) !! Z.to_nat l)) then 0 else -1) /\
  dv_sectors (a_dev (run_state (ata_write_sector l (whole_sector buf)) (`d))) =
    <[Z.to_nat l := whole_sector buf]> (dv_sectors (a_dev (`d))).
Proof.
  intros E. destruct d as [s Hs]. cbn [proj1_sig]. pose proof (reach_mod l E) as Em. unfold in_reach in E. b2p.
  destruct (whole_sector_ok buf). unfold run_val, run_state. rewrite write_idle by (done || (split; lia)). rewrite Em.
  destruct (dv_sectors (a_dev s) !! Z.to_nat l) eqn:El.
  - by rewrite decide_True by eauto.
  - rewrite decide_False by (by intros [? ?]). split; [done|]. cbn. symmetry. apply list_insert_ge. by apply lookup_ge_None.
Qed.

Lemma ata_data_ok d l : sector (ata_bd_data d l) /\ Forall byte (ata_bd_data d l).
Proof.
  assert (Hz : sector ata_zero /\ Forall byte ata_zero).
  { split; [done|]. apply Forall_replicate. unfold byte. lia. }
  unfold ata_bd_data. destruct (in_reach l); [|done]. destruct (dv_sectors _ !! _) as [sec|] eqn:E; [|done].
  destruct d as [s Hs]. by apply (Forall_lookup_1 _ _ _ _ (ai_sectors _ Hs) E).
Qed.

(** What [ata_bd_data] sees of a disk with other sectors. *)
Lemma size_reach (d : ata_disk) l : 0 <= l < ata_bd_size d -> in_reach l = true /\ is_Some (dv_sectors (a_dev (`d)) !! Z.to_nat l).
Proof.
  unfold ata_bd_size, zlen, in_reach. intros Hl. split; [lia|]. apply lookup_lt_is_Some. lia.
Qed.

#[export] Program Instance ata_block_device : BlockDevice ata_disk := {|
  bd_read := ata_bd_read; bd_write := ata_bd_write; bd_data := ata_bd_data; bd_size := ata_bd_size; bd_healthy := fun _ => True |}.
Next Obligation. apply ata_data_ok. Qed.
Next Obligation.
  intros d l buf. unfold ata_bd_read, ata_bd_data. cbn [fst]. destruct (in_reach l) eqn:E; [|done].
  rewrite (proj1 (bd_read_eq l d E)). destruct (dv_sectors _ !! _); [by intros [= <-]|done].
Qed.
Next Obligation.
  intros d l l'. unfold ata_bd_read, ata_bd_data. cbn [snd proj1_sig]. destruct (in_reach l) eqn:E; [|done].
  by rewrite (proj2 (bd_read_eq l d E)).
Qed.
Next Obligation.
  intros d l. unfold ata_bd_read, ata_bd_size. cbn [snd proj1_sig]. destruct (in_reach l) eqn:E; [|done].
  by rewrite (proj2 (bd_read_eq l d E)).
Qed.
Next Obligation.
  intros d l buf Hs Hb. unfold ata_bd_write, ata_bd_data. cbn [fst snd proj1_sig]. destruct (in_reach l) eqn:E; [|done].
  rewrite (proj1 (bd_write_eq l buf d E)), (proj2 (bd_write_eq l buf d E)). destruct (decide _) as [Hl|]; [|done]. intros _.
  rewrite list_lookup_insert_eq by (by apply lookup_lt_is_Some). cbn. by apply whole_sector_id.
Qed.
Next Obligation.
  intros d l buf l' Hne. unfold ata_bd_write, ata_bd_data. cbn [snd proj1_sig]. destruct (in_reach l) eqn:E; [|done].
  rewrite (proj2 (bd_write_eq l buf d E)). destruct (in_reach l') eqn:E'; [|done].
  rewrite list_lookup_insert_ne; [done|]. unfold in_reach in *. lia.
Qed.
Next Obligation.
  intros d l buf. unfold ata_bd_write, ata_bd_size. cbn [snd proj1_sig]. destruct (in_reach l) eqn:E; [|done].
  rewrite (proj2 (bd_write_eq l buf d E)). unfold zlen. by rewrite length_insert.
Qed.
Next Obligation.
  intros d l _ Hl. apply size_reach in Hl as [E [sec Hsec]]. split; [|done]. unfold ata_bd_read. cbn [fst]. rewrite E.
  rewrite (proj1 (bd_read_eq l d E)), Hsec. by eexists.
Qed.
Next Obligation.
  intros d l buf _ Hl. apply size_reach in Hl as [E Hsec]. split; [|done]. unfold ata_bd_write. cbn [fst]. rewrite E.
  rewrite (proj1 (bd_write_eq l buf d E)). by rewrite decide_True.
Qed.

(** ** The crash path *)

Section crash.
Variables (a : ata) (t : ptable).
Implicit Types d : drive.

(** Ready for a command on sector [lba], with the media of [d]. *)
Record prepared (lba : Z) d d' : Prop := {
  pr_attached : attached d' a;
  pr_selected : selected d' = true;
  pr_ready : dv_busy d' = O;
  pr_lba : dv_lba d' = lba mod 2 ^ 28;
  pr_sectors : dv_sectors d' = dv_sectors d;
  pr_delay : dv_delay d' = dv_delay d
}.

Lemma run_out_ctrl d v : attached d a -> out8 (g_ctrl a) v (AtaSt d a t) =
  Some ((), AtaSt (if Z.testbit v 2 then with_xfer NoData false (dv_delay d) (with_regs 0 0 0 0 d) else d) a t).
Proof.
  intros Ha. unfold out8, on_dev. cbn [a_dev a_drv a_tab outb drive_ports]. rewrite (at_ctrl _ _ Ha). unfold drive_outb.
  unfold REG_CMD, REG_DRIVE_HEAD, REG_LBA_LO, REG_LBA_MID, REG_LBA_HI.
  destruct (at_apart _ _ Ha);
    repeat match goal with |- context [dv_ctrl d =? dv_base d + ?y] => replace (dv_ctrl d =? dv_base d + y) with false by lia end;
    by rewrite Z.eqb_refl.
Qed.

(** The status of a drive that is neither busy nor, if selected, in a data phase. *)
Lemma idle_status d : has (status d) (Z.lor ATA_SR_BSY ATA_SR_DRQ) = false -> selected d = true -> dv_busy d = O /\ drq d = false.
Proof.
  intros E Hs. unfold status in E. rewrite Hs in E. cbn [negb] in E.
  destruct (dv_busy d); [|done]. destruct (drq d), (dv_err d); done.
Qed.

Lemma crash_not_busy d : attached d a -> Z.of_nat (dv_busy d) < 2000000 ->
  exists n, crash_wait_not_busy (AtaSt d a t) = Some (true, AtaSt (with_busy n d) a t) /\ (n <= dv_busy d)%nat /\
    (selected d = true -> n = O).
Proof.
  intros Ha Hb. unfold crash_wait_not_busy. destruct (selected d) eqn:Hs.
  - exists O. rewrite (not_busy_run a t CRASH_SPIN d Ha (or_introl Hs)); [|unfold CRASH_SPIN; lia]. split_and!; [done|lia|done].
  - exists (pred (dv_busy d)). split_and!; [|lia|done]. unfold mbind, cM_bind.
    rewrite (spin_first not_busy_body (AtaSt d a t) () (AtaSt (with_busy (pred (dv_busy d)) d) a t)); [done|].
    unfold not_busy_body, mbind, cM_bind. rewrite run_status by done. unfold status. by rewrite Hs.
Qed.

Lemma select_run lba d : attached d a ->
  reg_out REG_DRIVE_HEAD (Z.lor (g_lba_sel a) (Z.land (Z.shiftr lba 24) 0x0F)) (AtaSt d a t) =
    Some ((), AtaSt (with_regs (Z.lor (g_lba_sel a) (Z.land (Z.shiftr lba 24) 0x0F)) (dv_lo d) (dv_mid d) (dv_hi d) d) a t).
Proof. intros Ha. by rewrite run_out, out_head. Qed.

(** From the selection on. *)
Lemma crash_address lba d : attached d a -> is_u32 lba -> Z.of_nat (dv_busy d) < 2000000 ->
  exists d', (sel ← gets (fun s => g_lba_sel (a_drv s));
      reg_out REG_DRIVE_HEAD (Z.lor sel (Z.land (Z.shiftr lba 24) 0x0F));;
      ata_delay;;
      ok ← crash_wait_not_busy;
      if negb ok then mret false
      else
        reg_out REG_SECCOUNT 1;;
        reg_out REG_LBA_LO (u8 lba);;
        reg_out REG_LBA_MID (u8 (Z.shiftr lba 8));;
        reg_out REG_LBA_HI (u8 (Z.shiftr lba 16));;
        mret true) (AtaSt d a t) = Some (true, AtaSt d' a t) /\ prepared lba d d'.
Proof.
  intros Ha Hl Hb. unfold mbind, cM_bind, gets. cbn [a_drv]. rewrite select_run by done.
  rewrite ata_delay_run by eauto with ata. set (d1 := with_busy _ _).
  assert (A1 : attached d1 a) by (subst d1; eauto with ata). assert (S1 : selected d1 = true) by (by apply (addressed_selected a lba d)).
  destruct (crash_not_busy d1 A1) as (n & E & _ & Hn); [subst d1; cbn; lia|]. rewrite E. cbn [negb]. rewrite (Hn S1).
  rewrite run_out, (out_count a) by eauto with ata. rewrite run_out, out_lo by eauto with ata. rewrite run_out, out_mid by eauto with ata.
  rewrite run_out, out_hi by eauto with ata. eexists. split; [done|]. split; try done.
  - eauto 7 with ata.
  - by apply (addressed_lba a lba d).
Qed.

Lemma crash_prepare_run lba d : attached d a -> is_u32 lba -> Z.of_nat (dv_busy d) < 2000000 -> Z.of_nat (dv_delay d) < 2000000 ->
  exists d', crash_prepare lba (AtaSt d a t) = Some (true, AtaSt d' a t) /\ prepared lba d d'.
Proof.
  intros Ha Hl Hb Hdel. unfold crash_prepare. unfold mbind at 1, cM_bind at 1, gets at 1. cbn [a_drv]. rewrite (at_present _ _ Ha).
  cbn [negb]. unfold mbind at 1, cM_bind at 1, ctrl, gets at 1. cbn [a_drv]. unfold mbind at 1, cM_bind at 1.
  rewrite run_out_ctrl by done. change (Z.testbit 2 2) with false. cbv iota. unfold mbind at 1, cM_bind at 1.
  rewrite run_status by done. unfold mbind at 1, cM_bind at 1.
  assert (Hmid : exists d1, (if has (status d) (Z.lor ATA_SR_BSY ATA_SR_DRQ) then
       out8 (g_ctrl a) 0x06;; delay4 (g_ctrl a);; delay4 (g_ctrl a);; out8 (g_ctrl a) 0x02;; delay4 (g_ctrl a);; delay4 (g_ctrl a)
     else mret ()) (AtaSt (with_busy (pred (dv_busy d)) d) a t) = Some ((), AtaSt d1 a t) /\ attached d1 a /\
     Z.of_nat (dv_busy d1) < 2000000 /\ dv_sectors d1 = dv_sectors d /\ dv_delay d1 = dv_delay d).
  { destruct (has _ _).
    - unfold mbind, cM_bind. rewrite run_out_ctrl by eauto with ata. change (Z.testbit 6 2) with true. cbv iota.
      rewrite delay_run by eauto with ata. rewrite delay_run by eauto 6 with ata. rewrite run_out_ctrl by eauto 7 with ata.
      change (Z.testbit 2 2) with false. cbv iota. rewrite delay_run by eauto 7 with ata. rewrite delay_run by eauto 8 with ata.
      eexists. split; [done|]. split_and!; [by eauto 9 with ata|cbn; lia|done|done].
    - eexists. split; [done|]. split_and!; [by eauto with ata|cbn; lia|done|done]. }
  destruct Hmid as (d1 & E1 & A1 & B1 & S1 & D1). rewrite E1. unfold mbind at 1, cM_bind at 1.
  destruct (crash_not_busy d1 A1 B1) as (n & E2 & Hn & _). rewrite E2. cbn [negb].
  destruct (crash_address lba (with_busy n d1)) as (d' & E3 & [P1 P2 P3 P4 P5 P6]); [by eauto with ata|done|cbn; lia|].
  exists d'. rewrite E3. split; [done|]. split; try done; cbn in *; congruence.
Qed.

Lemma crash_drq_run d : attached d a -> selected d = true -> Z.of_nat (dv_busy d) < 2000000 ->
  (dv_err d = true \/ drq d = true) ->
  crash_wait_drq (AtaSt d a t) = Some (negb (dv_err d), AtaSt (with_busy 0 d) a t).
Proof.
  intros Ha Hs Hb Hed. unfold crash_wait_drq. unfold mbind, cM_bind.
  pose proof (spin_counts crash_drq_body (fun n => AtaSt (with_busy n d) a t) (negb (dv_err d)) (AtaSt (with_busy 0 d) a t)) as Hc.
  replace (AtaSt d a t) with (AtaSt (with_busy (dv_busy d) d) a t) by (by destruct d). rewrite Hc.
  - replace (_ <? _) with true by (unfold CRASH_SPIN; lia). done.
  - intros n. unfold crash_drq_body, mbind, cM_bind. rewrite run_status by eauto with ata. unfold status.
    change (selected (with_busy (S n) d)) with (selected d). by rewrite Hs.
  - unfold crash_drq_body, mbind, cM_bind. rewrite run_status by eauto with ata.
    destruct (drq_ready (with_busy 0 d)) as (E1 & E2 & E3); [done|done|]. rewrite E1, E2, E3.
    change (dv_err (with_busy 0 d)) with (dv_err d). change (drq (with_busy 0 d)) with (drq d).
    destruct (dv_err d); [done|]. destruct Hed as [|Hd]; [done|]. by rewrite Hd.
Qed.
End crash.

Section crash_requests.
Variables (a : ata) (t : ptable).
Implicit Types d : drive.

Lemma prepared_command lba d d' c : prepared a lba d d' -> c = CMD_READ \/ c = CMD_WRITE ->
  drive_command c d' =
    match dv_sectors d !! Z.to_nat (lba mod 2 ^ 28) with
    | Some sec => with_xfer (if c =? CMD_READ then ToHost sec else FromHost (lba mod 2 ^ 28) []) false (dv_delay d) d'
    | None => with_xfer NoData true (dv_delay d) d'
    end.
Proof.
  intros [_ Hs Hb Hl Hsec Hd] Hc. unfold drive_command. rewrite Hs, Hb, Hl, Hsec, Hd. cbn [negb orb Nat.ltb Nat.leb].
  by destruct Hc as [-> | ->].
Qed.

(** Issue a command and wait for its data phase. *)
Lemma crash_command_run lba d d' c : prepared a lba d d' -> c = CMD_READ \/ c = CMD_WRITE -> Z.of_nat (dv_delay d) < 2000000 ->
  (reg_out REG_CMD c;; ata_delay;; crash_wait_drq) (AtaSt d' a t) =
    match dv_sectors d !! Z.to_nat (lba mod 2 ^ 28) with
    | Some sec => Some (true, AtaSt (with_xfer (if c =? CMD_READ then ToHost sec else FromHost (lba mod 2 ^ 28) []) false 0 d') a t)
    | None => Some (false, AtaSt (with_xfer NoData true 0 d') a t)
    end.
Proof.
  intros Hp Hc Hdel. pose proof (pr_attached _ _ _ _ Hp) as Ha. pose proof (pr_selected _ _ _ _ Hp) as Hs.
  unfold mbind, cM_bind. rewrite run_out, out_cmd, (prepared_command lba d d' c Hp Hc) by done.
  destruct (dv_sectors d !! _) as [sec|].
  - rewrite ata_delay_run by eauto with ata.
    rewrite crash_drq_run; [done|by eauto with ata|done|cbn; lia|right; by destruct Hc as [-> | ->]].
  - rewrite ata_delay_run by eauto with ata. rewrite crash_drq_run; [done|by eauto with ata|done|cbn; lia|by left].
Qed.

Lemma crash_read_run lba d : attached d a -> is_u32 lba -> Z.of_nat (dv_busy d) < 2000000 -> Z.of_nat (dv_delay d) < 2000000 ->
  Forall (fun b => sector b /\ Forall byte b) (dv_sectors d) ->
  exists d', ata_crash_read_sector lba (AtaSt d a t) =
      Some (match dv_sectors d !! Z.to_nat (lba mod 2 ^ 28) with Some sec => (0, sec) | None => (-1, []) end, AtaSt d' a t) /\
    dv_sectors d' = dv_sectors d.
Proof.
  intros Ha Hl Hb Hdel Hsec. destruct (crash_prepare_run a t lba d Ha Hl Hb Hdel) as (d' & E & Hp).
  unfold ata_crash_read_sector. unfold mbind at 1, cM_bind at 1. rewrite E. cbn [negb].
  pose proof (crash_command_run lba d d' CMD_READ Hp (or_introl eq_refl) Hdel) as Hc.
  pose proof (pr_attached _ _ _ _ Hp) as Ha'. pose proof (pr_sectors _ _ _ _ Hp) as Hs'. unfold mbind, cM_bind in *.
  destruct (reg_out REG_CMD CMD_READ _) as [[u1 s1]|]; [|by destruct (dv_sectors d !! _)].
  destruct (ata_delay s1) as [[u2 s2]|]; [|by destruct (dv_sectors d !! _)]. rewrite Hc.
  destruct (dv_sectors d !! _) as [sec|] eqn:El; cbn [negb]; [|by eexists].
  destruct (Forall_lookup_1 _ _ _ _ Hsec El) as [H1 H2].
  rewrite (read_words_run a t 255 sec) by (done || (eauto with ata)). by eexists.
Qed.

Lemma crash_write_run lba buf d : attached d a -> is_u32 lba -> Z.of_nat (dv_busy d) < 2000000 -> Z.of_nat (dv_delay d) < 2000000 ->
  sector buf -> Forall byte buf ->
  exists d', ata_crash_write_sector lba buf (AtaSt d a t) =
      Some (if decide (is_Some (dv_sectors d !! Z.to_nat (lba mod 2 ^ 28))) then 0 else -1, AtaSt d' a t) /\
    dv_sectors d' = <[Z.to_nat (lba mod 2 ^ 28) := buf]> (dv_sectors d).
Proof.
  intros Ha Hl Hb Hdel Hsec Hby. destruct (crash_prepare_run a t lba d Ha Hl Hb Hdel) as (d' & E & Hp).
  unfold ata_crash_write_sector. unfold mbind at 1, cM_bind at 1. rewrite E. cbn [negb].
  pose proof (crash_command_run lba d d' CMD_WRITE Hp (or_intror eq_refl) Hdel) as Hc.
  destruct Hp as [Ha' Hse' Hb' Hl' Hs' Hd']. unfold mbind, cM_bind in *.
  destruct (reg_out REG_CMD CMD_WRITE _) as [[u1 s1]|]; [|by destruct (dv_sectors d !! _)].
  destruct (ata_delay s1) as [[u2 s2]|]; [|by destruct (dv_sectors d !! _)]. rewrite Hc.
  destruct (dv_sectors d !! _) as [sec|] eqn:El; cbn [negb].
  2:{ rewrite decide_False by (by intros [? ?]). eexists. split; [done|]. symmetry. rewrite list_insert_ge; [done|by apply lookup_ge_None]. }
  rewrite decide_True by eauto. change (CMD_WRITE =? CMD_READ) with false. cbv iota.
  rewrite (write_words_run a t 255 buf (lba mod 2 ^ 28) []) by (done || (eauto with ata)).
  set (d1 := with_sectors _ _). assert (A1 : attached d1 a) by (subst d1; eauto 6 with ata).
  assert (S1 : selected d1 = true) by done. assert (B1 : Z.of_nat (dv_busy d1) < 2000000) by (subst d1; cbn; lia).
  destruct (crash_not_busy a t d1 A1 B1) as (n & E1 & _ & Hn). rewrite E1, (Hn S1). cbn [negb].
  rewrite run_status by eauto with ata. destruct (drq_ready (with_busy 0 d1)) as (E2 & _ & _); [done|done|]. rewrite E2.
  change (dv_err (with_busy 0 d1)) with false. cbv beta iota. rewrite run_out, out_cmd by eauto with ata.
  match goal with |- context [drive_command CMD_FLUSH ?x] => set (dx := x) end.
  assert (Sx : selected dx = true) by exact S1. assert (Bx : dv_busy dx = O) by reflexivity.
  set (d2 := drive_command _ _). assert (H2 : attached d2 a /\ selected d2 = true /\ Z.of_nat (dv_busy d2) < 2000000 /\ dv_sectors d2 = dv_sectors d1).
  { subst d2. unfold drive_command. rewrite Sx, Bx. cbn [negb orb Nat.ltb Nat.leb Z.eqb CMD_READ CMD_WRITE CMD_IDENTIFY CMD_FLUSH Pos.eqb].
    split_and!; [subst dx; by eauto with ata|exact S1|subst dx d1; cbn; lia|done]. }
  destruct H2 as (A2 & S2 & B2 & M2). destruct (crash_not_busy a t d2 A2 B2) as (n2 & E3 & _ & _). rewrite E3.
  eexists. split; [done|]. cbn. rewrite M2. subst d1. cbn. by rewrite Hs'.
Qed.
End crash_requests.

(** ** Devices that behave like the drive *)

(** What the driver relies on: seen through [view], every port access does what
    it does on the reference drive. *)
Class DriveLike (Dv : Type) `{Ports Dv} := {
  view : Dv -> drive;
  view_inb p d : inb p (view d) = (fst (inb p d), view (snd (inb p d)));
  view_outb p v d : outb p v (view d) = view (outb p v d);
  view_inw p d : inw p (view d) = (fst (inw p d), view (snd (inw p d)));
  view_outw p v d : outw p v (view d) = view (outw p v d)
}.

#[export] Instance drive_like : DriveLike drive.
Proof. exists id; intros; by try destruct (_ : Z * drive). Defined.

Section simulation.
Context {Dv : Type} `{DriveLike Dv}.

Definition seen (s : atast Dv) : atast drive := AtaSt (view (a_dev s)) (a_drv s) (a_tab s).

(** The computation on the device and the one on the drive agree. *)
Definition sim {A} (m : cM (atast Dv) A) (m' : cM (atast drive) A) : Prop :=
  forall s, m' (seen s) = match m s with Some (x, s') => Some (x, seen s') | None => None end.

Lemma sim_ret {A} (x : A) : sim (mret x) (mret x).
Proof. done. Qed.
Lemma sim_undefined {A} : sim (A := A) undefined undefined.
Proof. done. Qed.
Lemma sim_bind {A B} m m' (f : A -> cM (atast Dv) B) f' : sim m m' -> (forall x, sim (f x) (f' x)) -> sim (m ≫= f) (m' ≫= f').
Proof. intros Hm Hf s. unfold mbind, cM_bind. rewrite Hm. destruct (m s) as [[x s']|]; [apply Hf|done]. Qed.
Lemma sim_drv {A} (f : ata -> A) : sim (gets (fun s => f (a_drv s))) (gets (fun s => f (a_drv s))).
Proof. done. Qed.
Lemma sim_current : sim current current.
Proof. done. Qed.
Lemma sim_set_drv f : sim (drv f) (drv f).
Proof. done. Qed.
Lemma sim_ptab f : sim (on_ptab f) (on_ptab f).
Proof. done. Qed.
Lemma sim_in8 p : sim (in8 p) (in8 p).
Proof. intros s. unfold in8, on_dev. cbn [a_dev seen a_drv a_tab]. rewrite view_inb. by destruct (inb p (a_dev s)). Qed.
Lemma sim_out8 p v : sim (out8 p v) (out8 p v).
Proof. intros s. unfold out8, on_dev. cbn [a_dev seen a_drv a_tab]. by rewrite view_outb. Qed.
Lemma sim_in16 p : sim (in16 p) (in16 p).
Proof. intros s. unfold in16, on_dev. cbn [a_dev seen a_drv a_tab]. rewrite view_inw. by destruct (inw p (a_dev s)). Qed.
Lemma sim_out16 p v : sim (out16 p v) (out16 p v).
Proof. intros s. unfold out16, on_dev. cbn [a_dev seen a_drv a_tab]. by rewrite view_outw. Qed.

Lemma sim_spin {A} p : forall (m : cM (atast Dv) (option A)) m', sim m m' -> sim (spin p m) (spin p m').
Proof.
  induction p as [p IH|p IH|]; intros m m' Hm; [| |exact Hm];
    unfold spin; fold (@spin (atast Dv) A); fold (@spin (atast drive) A).
  - apply sim_bind; [done|]. intros [x|]; [apply sim_ret|]. apply sim_bind; [by apply IH|].
    intros [x|]; [apply sim_ret|by apply IH].
  - apply sim_bind; [by apply IH|]. intros [x|]; [apply sim_ret|by apply IH].
Qed.
End simulation.

Ltac sim_step :=
  lazymatch goal with
  | |- sim (mret _) _ => apply sim_ret
  | |- sim undefined _ => apply sim_undefined
  | |- sim (gets _) _ => apply sim_drv
  | |- sim current _ => apply sim_current
  | |- sim (drv _) _ => apply sim_set_drv
  | |- sim (on_ptab _) _ => apply sim_ptab
  | |- sim (in8 _) _ => apply sim_in8
  | |- sim (out8 _ _) _ => apply sim_out8
  | |- sim (in16 _) _ => apply sim_in16
  | |- sim (out16 _ _) _ => apply sim_out16
  | |- sim (spin _ _) _ => apply sim_spin
  | |- sim (mbind _ _) _ => apply sim_bind; [|intros]
  | |- sim (match ?x with _ => _ end) _ => destruct x
  end.
Ltac sims := repeat sim_step.

Section simulated.
Context {Dv : Type} `{DriveLike Dv}.

Lemma sim_read_words n : sim (Dv := Dv) (read_words n) (read_words n).
Proof.
  induction n as [|n IH]; [apply sim_ret|]. unfold read_words; fold (@read_words Dv _); fold (@read_words drive _). unfold base.
  sims. exact IH.
Qed.

Lemma sim_write_words n : forall buf, sim (Dv := Dv) (write_words n buf) (write_words n buf).
Proof.
  induction n as [|n IH]; intros buf; [apply sim_ret|]. unfold write_words; fold (@write_words Dv _); fold (@write_words drive _). unfold base.
  sims. apply IH.
Qed.

Lemma sim_turn k : sim (Dv := Dv) (ata_turn k) (ata_turn k).
Proof.
  destruct k as [op|op|[l|l b]|k|k| | | | |r data]; cbn [ata_turn]; unfold ata_gate_acquire, ata_wait_irq;
    unfold wait_not_busy, wait_drq, not_busy_body, drq_body, ata_delay, delay4, set_lba, reg_in, reg_out, ctrl, base, ata_gate_release;
    sims; first [apply sim_read_words|apply sim_write_words].
Qed.

Lemma sim_run n : forall k, sim (Dv := Dv) (ata_run n k) (ata_run n k).
Proof.
  induction n as [|n IH]; intros k; cbn [ata_run]; (apply sim_bind; [apply sim_turn|]); intros [r d|k'|k']; sims; apply IH.
Qed.

(** Completing a command is seen by the drive as its end. *)
Definition finishes (finish : Dv -> Dv) : Prop := forall d, view (finish d) = with_busy 0 (view d).

Lemma sim_completes finish : finishes finish -> sim (completes finish) (completes (with_busy 0)).
Proof.
  intros Hf. unfold completes, ata_irq_handler, reg_in, base. apply sim_bind; [|intros []; sims].
  intros s. unfold on_dev. cbn [a_dev seen a_drv a_tab]. by rewrite <- Hf.
Qed.

Lemma sim_serve finish soon : finishes finish -> forall n k,
  sim (ata_serve finish soon n k) (ata_serve (with_busy 0) soon n k).
Proof.
  intros Hf. assert (Hc := sim_completes finish Hf).
  assert (Hg : sim (Dv := Dv) goes_on goes_on).
  { unfold goes_on. apply sim_bind; [apply sim_current|]. intros [p|]; [|apply sim_undefined]. apply sim_bind; [done|]. intros t. sims. }
  induction n as [|n IH]; intros k; cbn [ata_serve].
  all: apply sim_bind; [destruct (_ && _); [exact Hc|apply sim_ret]|intros _].
  all: apply sim_bind; [apply sim_turn|]; intros [r d|k'|k']; sims; first [exact Hc|exact Hg|apply IH].
Qed.

Lemma sim_process_read finish soon lba : finishes finish -> sim (ata_process_read finish soon lba) (ata_process_read (with_busy 0) soon lba).
Proof. intros Hf. unfold ata_process_read. sims. by apply sim_serve. Qed.
Lemma sim_process_write finish soon lba buf : finishes finish ->
  sim (ata_process_write finish soon lba buf) (ata_process_write (with_busy 0) soon lba buf).
Proof. intros Hf. unfold ata_process_write. sims. by apply sim_serve. Qed.

Lemma sim_read lba : sim (Dv := Dv) (ata_read_sector lba) (ata_read_sector lba).
Proof. unfold ata_read_sector, ata_request. sims. apply sim_run. Qed.

Lemma sim_write lba buf : sim (Dv := Dv) (ata_write_sector lba buf) (ata_write_sector lba buf).
Proof. unfold ata_write_sector, ata_request. sims. apply sim_run. Qed.

Lemma sim_prepare lba : sim (Dv := Dv) (crash_prepare lba) (crash_prepare lba).
Proof. unfold crash_prepare, crash_wait_not_busy, not_busy_body, ata_delay, delay4, reg_in, reg_out, ctrl, base. sims. Qed.

Lemma sim_crash_read lba : sim (Dv := Dv) (ata_crash_read_sector lba) (ata_crash_read_sector lba).
Proof.
  unfold ata_crash_read_sector. apply sim_bind; [apply sim_prepare|]. intros ok.
  unfold crash_wait_drq, crash_drq_body, ata_delay, delay4, reg_in, reg_out, ctrl, base. sims. apply sim_read_words.
Qed.

Lemma sim_crash_write lba buf : sim (Dv := Dv) (ata_crash_write_sector lba buf) (ata_crash_write_sector lba buf).
Proof.
  unfold ata_crash_write_sector. apply sim_bind; [apply sim_prepare|]. intros ok.
  unfold crash_wait_drq, crash_drq_body, crash_wait_not_busy, not_busy_body, ata_delay, delay4, reg_in, reg_out, ctrl, base. sims.
  apply sim_write_words.
Qed.

(** A run on the drive is a run on the device. *)
Lemma sim_result {A} (m : cM (atast Dv) A) m' s x s0 : sim m m' -> m' (seen s) = Some (x, s0) ->
  exists s', m s = Some (x, s') /\ seen s' = s0.
Proof. intros Hm E. rewrite Hm in E. destruct (m s) as [[y s']|]; [|done]. injection E as <- <-. eauto. Qed.
End simulated.

Lemma drive_transfers (s : atast drive) (lba : Z) (buf : list Z) :
  ata_idle s -> 0 <= lba < 2 ^ 28 -> sector buf -> Forall byte buf ->
  exists s1 s2,
    ata_read_sector lba s = Some (match dv_sectors (a_dev s) !! Z.to_nat lba with Some sec => (0, sec) | None => (-1, []) end, s1) /\
    ata_idle s1 /\ dv_sectors (a_dev s1) = dv_sectors (a_dev s) /\
    ata_write_sector lba buf s = Some (if decide (is_Some (dv_sectors (a_dev s) !! Z.to_nat lba)) then 0 else -1, s2) /\
    ata_idle s2 /\ dv_sectors (a_dev s2) = <[Z.to_nat lba := buf]> (dv_sectors (a_dev s)).
Proof.
  intros Hs Hl Hsec Hby. assert (Hu : is_u32 lba) by (split; lia). pose proof (ai_sectors _ Hs) as Hsecs.
  pose proof (read_idle lba s Hs Hu) as HR. pose proof (write_idle lba buf s Hs Hu Hsec Hby) as HW.
  rewrite Z.mod_small in HR, HW by lia. destruct (dv_sectors (a_dev s) !! Z.to_nat lba) as [sec|] eqn:E.
  - rewrite decide_True by eauto. do 2 eexists. split_and!; [exact HR|by apply served_idle|done|exact HW| |done].
    apply served_idle; [done|]. unfold zset. by apply Forall_insert.
  - rewrite decide_False by (by intros [? ?]). do 2 eexists. split_and!; [exact HR|by apply served_idle|done|exact HW|by apply served_idle|].
    symmetry. rewrite list_insert_ge; [done|by apply lookup_ge_None].
Qed.

Lemma drive_process_transfers soon p (s : atast drive) (lba : Z) (buf : list Z) :
  ata_ready p s -> 0 <= lba < 2 ^ 28 -> sector buf -> Forall byte buf ->
  exists s1 s2,
    ata_process_read (with_busy 0) soon lba s =
      Some (match dv_sectors (a_dev s) !! Z.to_nat lba with Some sec => (0, sec) | None => (-1, []) end, s1) /\
    ata_ready p s1 /\ dv_sectors (a_dev s1) = dv_sectors (a_dev s) /\
    ata_process_write (with_busy 0) soon lba buf s = Some (if decide (is_Some (dv_sectors (a_dev s) !! Z.to_nat lba)) then 0 else -1, s2) /\
    ata_ready p s2 /\ dv_sectors (a_dev s2) = <[Z.to_nat lba := buf]> (dv_sectors (a_dev s)).
Proof.
  intros Hs Hl Hsec Hby. assert (Hu : is_u32 lba) by (split; lia).
  destruct (process_read soon p 9 lba s ltac:(lia) Hs Hu) as (s1 & E1 & H1 & D1).
  destruct (process_write soon p 9 lba buf s ltac:(lia) Hs Hu Hsec Hby) as (s2 & E2 & H2 & D2).
  rewrite Z.mod_small in E1, E2, D2 by lia. exists s1, s2. unfold ata_process_read, ata_process_write, mbind at 1 2, cM_bind at 1 2, gets.
  rewrite (at_present _ _ (ar_attached _ _ Hs)). cbn [negb]. unfold mbind, cM_bind. rewrite E2. by split_and!.
Qed.

Lemma drive_crash_transfers (d : drive) (a : ata) (t : ptable) (lba : Z) (buf : list Z) :
  attached d a -> 0 <= lba < 2 ^ 28 -> Z.of_nat (dv_busy d) < 2000000 -> Z.of_nat (dv_delay d) < 2000000 ->
  Forall (fun b => sector b /\ Forall byte b) (dv_sectors d) -> sector buf -> Forall byte buf ->
  exists d1 d2,
    ata_crash_read_sector lba (AtaSt d a t) =
      Some (match dv_sectors d !! Z.to_nat lba with Some sec => (0, sec) | None => (-1, []) end, AtaSt d1 a t) /\
    dv_sectors d1 = dv_sectors d /\
    ata_crash_write_sector lba buf (AtaSt d a t) =
      Some (if decide (is_Some (dv_sectors d !! Z.to_nat lba)) then 0 else -1, AtaSt d2 a t) /\
    dv_sectors d2 = <[Z.to_nat lba := buf]> (dv_sectors d).
Proof.
  intros Ha Hl Hb Hd Hsec Hs Hby. assert (Hu : is_u32 lba) by (split; lia).
  destruct (crash_read_run a t lba d Ha Hu Hb Hd Hsec) as (d1 & H1 & H2).
  destruct (crash_write_run a t lba buf d Ha Hu Hb Hd Hs Hby) as (d2 & H3 & H4).
  rewrite Z.mod_small in H1, H3, H4 by lia. by exists d1, d2.
Qed.

(** The sectors of the device. *)
Definition on_disk {Dv} `{DriveLike Dv} (s : atast Dv) : list (list Z) := dv_sectors (view (a_dev s)).

(** ** Properties *)

(** C11 (sector transfers).  On an idle device that behaves like the drive, and
    for the sectors that 28 address bits reach, a read delivers exactly the
    addressed sector and a write stores exactly the buffer in it and changes no
    other sector; a sector the drive does not have is refused with -1 and
    nothing changes.  Either way the call returns, the drive is idle again and
    the gate free, so the next call finds the same conditions.  This holds on
    both paths of the driver: before the first process runs it polls
    ([ata_idle]: no current process); for a process it sleeps until the
    completion interrupt ([ata_ready]), whether each interrupt comes before the
    process looks for it or while it is blocked ([soon]).  (Between the command
    and the reset of [g_irq_fired] it must not come:
    [AtaSync.ata_early_interrupt_is_lost]; from [2 ^ 28] on addresses wrap:
    [ata_high_sector_wraps].) *)
Theorem ata_transfers_sectors {Dv} `{DriveLike Dv} (s : atast Dv) (lba : Z) (buf : list Z) :
  0 <= lba < 2 ^ 28 -> sector buf -> Forall byte buf ->
  (ata_idle (seen s) -> exists s1 s2,
    ata_read_sector lba s = Some (match on_disk s !! Z.to_nat lba with Some sec => (0, sec) | None => (-1, []) end, s1) /\
    ata_idle (seen s1) /\ on_disk s1 = on_disk s /\
    ata_write_sector lba buf s = Some (if decide (is_Some (on_disk s !! Z.to_nat lba)) then 0 else -1, s2) /\
    ata_idle (seen s2) /\ on_disk s2 = <[Z.to_nat lba := buf]> (on_disk s)) /\
  (forall p finish soon, ata_ready p (seen s) -> finishes finish -> exists s1 s2,
    ata_process_read finish soon lba s = Some (match on_disk s !! Z.to_nat lba with Some sec => (0, sec) | None => (-1, []) end, s1) /\
    ata_ready p (seen s1) /\ on_disk s1 = on_disk s /\
    ata_process_write finish soon lba buf s = Some (if decide (is_Some (on_disk s !! Z.to_nat lba)) then 0 else -1, s2) /\
    ata_ready p (seen s2) /\ on_disk s2 = <[Z.to_nat lba := buf]> (on_disk s)).
Proof.
  intros Hl Hsec Hby. split.
  - intros Hs. destruct (drive_transfers (seen s) lba buf Hs Hl Hsec Hby) as (s1 & s2 & H1 & H2 & H3 & H4 & H5 & H6).
    destruct (sim_result _ _ s _ _ (sim_read lba) H1) as (r & Hr & <-).
    destruct (sim_result _ _ s _ _ (sim_write lba buf) H4) as (w & Hw & <-). exists r, w. by split_and!.
  - intros p finish soon Hs Hf. destruct (drive_process_transfers soon p (seen s) lba buf Hs Hl Hsec Hby) as (s1 & s2 & H1 & H2 & H3 & H4 & H5 & H6).
    destruct (sim_result _ _ s _ _ (sim_process_read finish soon lba Hf) H1) as (r & Hr & <-).
    destruct (sim_result _ _ s _ _ (sim_process_write finish soon lba buf Hf) H4) as (w & Hw & <-). exists r, w. by split_and!.
Qed.

Lemma demo_disk_idle : ata_idle (seen demo_disk_state).
Proof.
  split; try reflexivity.
  - split; try reflexivity. right. reflexivity.
  - apply Forall_replicate. split; [reflexivity|]. apply Forall_replicate. split; [discriminate|reflexivity].
Qed.

(** The same drive, with process 3 on the CPU. *)
Definition demo_process_state : atast drive :=
  AtaSt (demo_drive false) (set_slot true 0x170 0x376 0xA0 0xE0 ata0) (mk_ptable (replicate 16 blank_process) (Some 3) 1).

Lemma demo_process_ready : ata_ready 3 (seen demo_process_state).
Proof.
  split; try reflexivity.
  - split; try reflexivity. right. reflexivity.
  - split; [discriminate|reflexivity].
  - apply Forall_replicate. split; [reflexivity|]. apply Forall_replicate. split; [discriminate|reflexivity].
Qed.

Lemma ata_transfers_sectors_witness :
  (exists s1 s2, ata_read_sector 2 demo_disk_state = Some ((0, replicate 512 0), s1) /\ ata_idle (seen s1) /\
    ata_write_sector 2 (replicate 512 7) demo_disk_state = Some (0, s2) /\ ata_idle (seen s2) /\
    on_disk s2 = [replicate 512 0; replicate 512 0; replicate 512 7]) /\
  (exists s1 s2, ata_process_read (with_busy 0) (fun _ => false) 2 demo_process_state = Some ((0, replicate 512 0), s1) /\ ata_ready 3 (seen s1) /\
    ata_process_write (with_busy 0) (fun _ => false) 2 (replicate 512 7) demo_process_state = Some (0, s2) /\ ata_ready 3 (seen s2) /\
    on_disk s2 = [replicate 512 0; replicate 512 0; replicate 512 7]).
Proof.
  assert (Hl : 0 <= 2 < 2 ^ 28) by (split; [discriminate|reflexivity]).
  assert (Hby : Forall byte (replicate 512 7)) by (apply Forall_replicate; split; [discriminate|reflexivity]).
  split.
  - destruct (ata_transfers_sectors demo_disk_state 2 (replicate 512 7) Hl eq_refl Hby) as [HP _].
    destruct (HP demo_disk_idle) as (s1 & s2 & H1 & H2 & _ & H4 & H5 & H6).
    exists s1, s2. split_and!; [exact H1|exact H2|exact H4|exact H5|exact H6].
  - destruct (ata_transfers_sectors demo_process_state 2 (replicate 512 7) Hl eq_refl Hby) as [_ HI].
    destruct (HI 3 (with_busy 0) (fun _ => false) demo_process_ready ltac:(intros d; reflexivity)) as (s1 & s2 & H1 & H2 & _ & H4 & H5 & H6).
    exists s1, s2. split_and!; [exact H1|exact H2|exact H4|exact H5|exact H6].
Defined.

(** (crash path).  Whatever state a crash left the controller in (busy with
    a command, in the middle of a transfer, the other drive selected), the
    polling functions of the crash path reach the drive: they return, a read
    delivers the addressed sector, a write stores the buffer in it and changes
    no other sector, and a sector the drive does not have is refused. *)
Theorem ata_crash_path_from_any_state {Dv} `{DriveLike Dv} (s : atast Dv) (lba : Z) (buf : list Z) :
  attached (view (a_dev s)) (a_drv s) -> 0 <= lba < 2 ^ 28 ->
  Z.of_nat (dv_busy (view (a_dev s))) < 2000000 -> Z.of_nat (dv_delay (view (a_dev s))) < 2000000 ->
  Forall (fun b => sector b /\ Forall byte b) (on_disk s) -> sector buf -> Forall byte buf ->
  exists s1 s2,
    ata_crash_read_sector lba s = Some (match on_disk s !! Z.to_nat lba with Some sec => (0, sec) | None => (-1, []) end, s1) /\
    on_disk s1 = on_disk s /\
    ata_crash_write_sector lba buf s = Some (if decide (is_Some (on_disk s !! Z.to_nat lba)) then 0 else -1, s2) /\
    on_disk s2 = <[Z.to_nat lba := buf]> (on_disk s).
Proof.
  intros Ha Hl Hb Hd Hsec Hs Hby.
  destruct (drive_crash_transfers _ _ (a_tab s) lba buf Ha Hl Hb Hd Hsec Hs Hby) as (d1 & d2 & H1 & H2 & H3 & H4).
  destruct (sim_result _ _ s _ _ (sim_crash_read lba) H1) as (r & Hr & Er).
  destruct (sim_result _ _ s _ _ (sim_crash_write lba buf) H3) as (w & Hw & Ew). exists r, w. split_and!; [done| |done|].
  - by rewrite (f_equal (fun x => dv_sectors (a_dev x)) Er : on_disk r = dv_sectors d1).
  - by rewrite (f_equal (fun x => dv_sectors (a_dev x)) Ew : on_disk w = dv_sectors d2).
Qed.

(** A drive in the middle of a write, still busy. *)
Definition crashed_drive : drive := with_xfer (FromHost 1 [1; 2; 3; 4]) false 9 (demo_drive true).
Definition crashed_driver : ata := set_busy true (set_slot true 0x170 0x376 0xB0 0xF0 ata0).

Definition crashed : atast drive := AtaSt crashed_drive crashed_driver demo_ptable.

Lemma ata_crash_path_from_any_state_witness :
  exists s1 s2,
    ata_crash_read_sector 1 crashed = Some ((0, replicate 512 0), s1) /\
    ata_crash_write_sector 1 (replicate 512 5) crashed = Some (0, s2) /\
    on_disk s2 = [replicate 512 0; replicate 512 5; replicate 512 0].
Proof.
  destruct (ata_crash_path_from_any_state crashed 1 (replicate 512 5)) as (s1 & s2 & H1 & _ & H3 & H4).
  - split; try reflexivity. right. reflexivity.
  - split; [discriminate|reflexivity].
  - reflexivity.
  - reflexivity.
  - apply Forall_replicate. split; [reflexivity|]. apply Forall_replicate. split; [discriminate|reflexivity].
  - reflexivity.
  - apply Forall_replicate. split; [discriminate|reflexivity].
  - exists s1, s2. split_and!; [exact H1|exact H3|exact H4].
Defined.

(** (28-bit addresses).  The driver sends 28 bits of its 32-bit sector number
    and drops the rest: a write to sector 2^28 + n lands in sector n. *)
Theorem ata_high_sector_wraps (s : atast drive) (lba : Z) (buf : list Z) :
  ata_idle s -> 2 ^ 28 <= lba < 2 ^ 29 -> sector buf -> Forall byte buf ->
  is_Some (dv_sectors (a_dev s) !! Z.to_nat (lba - 2 ^ 28)) ->
  exists s', ata_write_sector lba buf s = Some (0, s') /\
    dv_sectors (a_dev s') = <[Z.to_nat (lba - 2 ^ 28) := buf]> (dv_sectors (a_dev s)).
Proof.
  intros Hs Hl Hsec Hby [sec E]. rewrite (write_idle lba buf s Hs) by (done || (split; lia)).
  replace (lba mod 2 ^ 28) with (lba - 2 ^ 28) by (Z.to_euclidean_division_equations; lia). rewrite E. by eexists.
Qed.

Lemma ata_high_sector_wraps_witness :
  exists s', ata_write_sector (2 ^ 28 + 1) (replicate 512 7) demo_disk_state = Some (0, s') /\
    dv_sectors (a_dev s') = [replicate 512 0; replicate 512 7; replicate 512 0].
Proof.
  destruct (ata_high_sector_wraps demo_disk_state (2 ^ 28 + 1) (replicate 512 7) demo_disk_idle) as (s' & H1 & H2).
  - split; [discriminate|reflexivity].
  - reflexivity.
  - apply Forall_replicate. split; [discriminate|reflexivity].
  - eexists. reflexivity.
  - exists s'. split; [exact H1|exact H2].
Defined.
