(* ===== verification/AtaSync.v ===== *)
(** * ATA requests of several processes ([kernel/drivers/ata.c])

    The turns of [Ata.ata_turn], the completion interrupt and the scheduler,
    interleaved: the exclusion gate ([ata_gate_acquire], [ata_gate_release]) and
    the wait for the interrupt ([ata_wait_irq], [ata_irq_handler]).  A turn is
    what runs with no interrupt or other process in between, so a step is one
    turn of the process on the CPU, one interrupt, or one step of the rest of
    the kernel ([Scheduler.kstep]). *)

From Stdlib Require Import ZArith Lia ZifyBool.
From stdpp Require Import base tactics numbers list option relations gmap.
From S2P Require Import Prelude Fat Process Scheduler Ata.
Local Open Scope Z_scope.

(** ** The machine *)

Section machine.
Context {Dv : Type} `{Ports Dv}.

Record asys := ASys {
  y_dev : Dv;
  y_drv : ata;
  y_sch : sched;
  y_code : gmap Z ata_kont;        (** what the processes inside a request have left to do *)
  y_due : bool                     (** the drive owes the interrupt of a command *)
}.

Definition y_tab (y : asys) : ptable := s_tab (y_sch y).
Definition y_st (y : asys) : atast Dv := AtaSt (y_dev y) (y_drv y) (y_tab y).
Definition with_st (y : asys) (s : atast Dv) (code : gmap Z ata_kont) (due : bool) : asys :=
  ASys (a_dev s) (a_drv s) (with_tab (y_sch y) (a_tab s)) code due.

(** The turns after which the drive will raise its interrupt: a read or a flush
    was issued, the data of a write was sent. *)
Definition owes (k : ata_kont) (o : ata_out) : bool :=
  match k, o with
  | AStart (ARead _), ANext (AIssued _) => true
  | AIssued (AWrite _ _), ANext (AWait _) => true
  | ACheckWrite, ANext AFlushIssued => true
  | _, _ => false
  end.

(** Between the write of the command register and [g_irq_fired = 0]. *)
Definition in_window (k : ata_kont) : bool :=
  match k with AIssued (ARead _) | AFlushIssued => true | _ => false end.

Definition after (p : Z) (o : ata_out) (code : gmap Z ata_kont) : gmap Z ata_kont :=
  match o with
  | AReturn _ _ => delete p code
  | ANext k | ABlock k => <[p := k]> code
  end.

(** The rest of the kernel leaves a process that is inside a request alone,
    except to give it the CPU or take it away. *)
Definition live (st : process_state) : Prop := st = PROCESS_READY \/ st = PROCESS_RUNNING.
Definition leaves_requests (y : asys) (s' : sched) : Prop :=
  forall q, is_Some (y_code y !! q) -> state_of (s_tab s') q = state_of (y_tab y) q \/
    (live (state_of (y_tab y) q) /\ live (state_of (s_tab s') q)).

(** [early]: the interrupt may come in the window above.  [kills]: a process
    may be killed inside a request. *)
Inductive astep (early kills : bool) : asys -> asys -> Prop :=
| as_call y p op :
    running (y_sch y) p -> y_code y !! p = None -> g_present (y_drv y) = true ->
    astep early kills y (ASys (y_dev y) (y_drv y) (y_sch y) (<[p := AAcquire op]> (y_code y)) (y_due y))
| as_turn y p k o s' :
    running (y_sch y) p -> y_code y !! p = Some k -> ata_turn k (y_st y) = Some (o, s') ->
    astep early kills y (with_st y s' (after p o (y_code y)) (owes k o || y_due y))
| as_irq y s' :
    y_due y = true -> (early = true \/ forall p k, y_code y !! p = Some k -> in_window k = false) ->
    ata_irq_handler (y_st y) = Some ((), s') ->
    astep early kills y (with_st y s' (y_code y) false)
| as_kernel y s' :
    kstep (y_sch y) s' -> leaves_requests y s' ->
    astep early kills y (ASys (y_dev y) (y_drv y) s' (y_code y) (y_due y))
| as_kill y p q :
    kills = true -> running (y_sch y) p -> used (y_tab y) q ->
    astep early kills y
      (ASys (y_dev y) (y_drv y) (on_tab (fun t => process_exit t (Some q)) (y_sch y)) (delete q (y_code y)) (y_due y)).

(** ** What a turn does to the driver and to the table *)

(** A computation that only talks to the device. *)
Definition quiet {A} (m : cM (atast Dv) A) : Prop :=
  forall s x s', m s = Some (x, s') -> a_drv s' = a_drv s /\ a_tab s' = a_tab s.

Lemma quiet_ret {A} (x : A) : quiet (mret x).
Proof. by intros s y s' [= _ <-]. Qed.
Lemma quiet_bind {A B} (m : cM (atast Dv) A) (f : A -> cM (atast Dv) B) : quiet m -> (forall x, quiet (f x)) -> quiet (m ≫= f).
Proof.
  intros Hm Hf s x s'. unfold mbind, cM_bind. destruct (m s) as [[y s1]|] eqn:E; [|done]. intros E'.
  destruct (Hm _ _ _ E) as [<- <-]. by apply (Hf y s1 x).
Qed.
Lemma quiet_gets {A} (f : atast Dv -> A) : quiet (gets f).
Proof. by intros s y s' [= _ <-]. Qed.
Lemma quiet_dev {A} (f : Dv -> A * Dv) : quiet (on_dev f).
Proof. intros s x s'. unfold on_dev. destruct (f (a_dev s)). by intros [= _ <-]. Qed.
Lemma quiet_if {A} (b : bool) (m n : cM (atast Dv) A) : quiet m -> quiet n -> quiet (if b then m else n).
Proof. by destruct b. Qed.
Lemma quiet_spin {A} p : forall (m : cM (atast Dv) (option A)), quiet m -> quiet (spin p m).
Proof.
  induction p as [p IH|p IH|]; intros m Hm; [| |exact Hm]; unfold spin; fold (@spin (atast Dv) A).
  - apply quiet_bind; [done|]. intros [x|]; [apply quiet_ret|]. apply quiet_bind; [by apply IH|].
    intros [x|]; [apply quiet_ret|by apply IH].
  - apply quiet_bind; [by apply IH|]. intros [x|]; [apply quiet_ret|by apply IH].
Qed.

End machine.

Arguments asys : clear implicits.

Ltac quiet_step :=
  lazymatch goal with
  | |- quiet (mret _) => apply quiet_ret
  | |- quiet (gets _) => apply quiet_gets
  | |- quiet (in8 _) => apply quiet_dev
  | |- quiet (out8 _ _) => apply quiet_dev
  | |- quiet (in16 _) => apply quiet_dev
  | |- quiet (out16 _ _) => apply quiet_dev
  | |- quiet (spin _ _) => apply quiet_spin
  | |- quiet (mbind _ _) => apply quiet_bind; [|intros]
  | |- quiet (if _ then _ else _) => apply quiet_if
  end.
Ltac quiets :=
  unfold wait_not_busy, wait_drq, not_busy_body, drq_body, ata_delay, delay4, set_lba, reg_in, reg_out, ctrl, base; repeat quiet_step.

Section turns.
Context {Dv : Type} `{Ports Dv}.
Local Notation M := (cM (atast Dv)).

Lemma quiet_wait_not_busy : quiet (Dv := Dv) wait_not_busy.
Proof. quiets. Qed.
Lemma quiet_wait_drq : quiet (Dv := Dv) wait_drq.
Proof. quiets. Qed.
Lemma quiet_delay : quiet (Dv := Dv) ata_delay.
Proof. quiets. Qed.
Lemma quiet_set_lba lba : quiet (Dv := Dv) (set_lba lba).
Proof. quiets. Qed.
Lemma quiet_reg_in r : quiet (Dv := Dv) (reg_in r).
Proof. quiets. Qed.
Lemma quiet_reg_out r v : quiet (Dv := Dv) (reg_out r v).
Proof. quiets. Qed.
Lemma quiet_read_words n : quiet (Dv := Dv) (read_words n).
Proof. induction n as [|n IH]; [apply quiet_ret|]. unfold read_words; fold (@read_words Dv _). quiets. exact IH. Qed.
Lemma quiet_write_words n : forall buf, quiet (Dv := Dv) (write_words n buf).
Proof. induction n as [|n IH]; intros buf; [apply quiet_ret|]. unfold write_words; fold (@write_words Dv _). quiets. apply IH. Qed.

(** ... and that gives a result with [P]. *)
Definition gives {A} (P : A -> Prop) (m : M A) : Prop :=
  forall s x s', m s = Some (x, s') -> a_drv s' = a_drv s /\ a_tab s' = a_tab s /\ P x.
Lemma gives_ret {A} (P : A -> Prop) x : P x -> gives P (mret x).
Proof. by intros ? s y s' [= <- <-]. Qed.
Lemma gives_bind {A B} P (m : M A) (f : A -> M B) : quiet m -> (forall x, gives P (f x)) -> gives P (m ≫= f).
Proof.
  intros Hm Hf s x s'. unfold mbind, cM_bind. destruct (m s) as [[y s1]|] eqn:E; [|done]. intros E'.
  destruct (Hm _ _ _ E) as [<- <-]. by apply (Hf y s1 x).
Qed.
Lemma gives_if {A} P (b : bool) (m n : M A) : gives P m -> gives P n -> gives P (if b then m else n).
Proof. by destruct b. Qed.

(** Process [p] runs a turn from [k]. *)
Inductive effect (p : Z) : ata_kont -> ata -> ptable -> ata_out -> ata -> ptable -> Prop :=
| ef_acquire op a t : g_ata_busy a = false -> effect p (AAcquire op) a t (ANext (AStart op)) (set_busy true a) t
| ef_queue op a t : g_ata_busy a = true ->
    effect p (AAcquire op) a t (ABlock (AAcquire op))
      (if zlen (g_gate_waiters a) <? 16 then set_waiters (g_gate_waiters a ++ [p]) a else a) (upd t p (set_state PROCESS_BLOCKED))
| ef_start op a t o : o = fail \/ o = ANext (AIssued op) -> effect p (AStart op) a t o a t
| ef_read l a t : effect p (AIssued (ARead l)) a t (ANext (AWait ACheckRead)) (set_fired false a) t
| ef_write l b a t o : o = fail \/ o = ANext (AWait ACheckWrite) -> effect p (AIssued (AWrite l b)) a t o (set_fired false a) t
| ef_fired k a t : g_irq_fired a = true -> effect p (AWait k) a t (ANext k) (set_fired false a) t
| ef_sleep k a t : g_irq_fired a = false ->
    effect p (AWait k) a t (ABlock (AWoken k)) (set_irq_waiter (Some p) a) (upd t p (set_state PROCESS_BLOCKED))
| ef_woken k a t : effect p (AWoken k) a t (ANext k) (set_fired false a) t
| ef_check_read a t o : o = fail \/ (exists data, o = ANext (ARelease 0 data)) -> effect p ACheckRead a t o a t
| ef_written a t o : o = fail \/ o = ANext ACheckWrite -> effect p AWritten a t o a t
| ef_check_write a t o : o = fail \/ o = ANext AFlushIssued -> effect p ACheckWrite a t o a t
| ef_flush a t : effect p AFlushIssued a t (ANext (AWait (ARelease 0 []))) (set_fired false a) t
| ef_release r data a t :
    effect p (ARelease r data) a t (AReturn r data) (set_waiters [] (set_busy false a))
      (foldl (fun t w => wake_if_blocked w t) t (g_gate_waiters a)).

Lemma drv_then {A} f (m : M A) s : (drv f;; m) s = m (AtaSt (a_dev s) (f (a_drv s)) (a_tab s)).
Proof. done. Qed.
Lemma tab_then {A} f (m : M A) s : (on_ptab f;; m) s = m (AtaSt (a_dev s) (a_drv s) (f (a_tab s))).
Proof. done. Qed.
Lemma gets_then {A B} (f : atast Dv -> A) (m : A -> M B) s : (gets f ≫= m) s = m (f s) s.
Proof. done. Qed.
Lemma ret_is {A} (x y : A) s s' : (mret x : M A) s = Some (y, s') -> y = x /\ s' = s.
Proof. by intros [= -> ->]. Qed.

Lemma gives_start op : gives (fun o => o = fail \/ o = ANext (AIssued op)) (ata_turn (AStart op)).
Proof.
  apply gives_bind; [apply quiet_wait_not_busy|]. intros ok. apply gives_if; [apply gives_ret; by left|].
  apply gives_bind; [apply quiet_set_lba|]. intros _. apply gives_bind; [apply quiet_reg_out|]. intros _.
  apply gives_ret. by right.
Qed.
Lemma gives_check_read : gives (fun o => o = fail \/ exists data, o = ANext (ARelease 0 data)) (ata_turn ACheckRead).
Proof.
  apply gives_bind; [apply quiet_reg_in|]. intros st. apply gives_if; [apply gives_ret; by left|].
  apply gives_bind; [apply quiet_read_words|]. intros d. apply gives_ret. right. by exists d.
Qed.
Lemma gives_written : gives (fun o => o = fail \/ o = ANext ACheckWrite) (ata_turn AWritten).
Proof. apply gives_bind; [apply quiet_wait_not_busy|]. intros [|]; apply gives_ret; [by right|by left]. Qed.
Lemma gives_check_write : gives (fun o => o = fail \/ o = ANext AFlushIssued) (ata_turn ACheckWrite).
Proof.
  apply gives_bind; [apply quiet_reg_in|]. intros st. apply gives_if; [apply gives_ret; by left|].
  apply gives_bind; [apply quiet_reg_out|]. intros _. apply gives_ret. by right.
Qed.

(** The data of a write is sent by polling, whoever is current. *)
Lemma issued_write_turn l b s p o s' : current_process (a_tab s) = Some p ->
  ata_turn (AIssued (AWrite l b)) s = Some (o, s') ->
  a_drv s' = set_fired false (a_drv s) /\ a_tab s' = a_tab s /\ (o = fail \/ o = ANext (AWait ACheckWrite)).
Proof.
  intros Hp. cbn [ata_turn]. rewrite drv_then. set (s1 := AtaSt _ _ _).
  change (set_fired false (a_drv s)) with (a_drv s1). change (a_tab s) with (a_tab s1) in Hp |- *. clearbody s1. clear s.
  unfold mbind at 1, cM_bind at 1. destruct (ata_delay s1) as [[u s2]|] eqn:E2; [|done].
  destruct (quiet_delay _ _ _ E2) as [Ed2 Et2].
  unfold mbind at 1, cM_bind at 1. destruct (wait_not_busy s2) as [[ok s3]|] eqn:E3; [|done].
  destruct (quiet_wait_not_busy _ _ _ E3) as [Ed3 Et3]. destruct ok; cbn [negb]; [|intros [= <- <-]; split_and!; [congruence..|by left]].
  unfold mbind at 1, cM_bind at 1. destruct (wait_drq s3) as [[ok s4]|] eqn:E4; [|done].
  destruct (quiet_wait_drq _ _ _ E4) as [Ed4 Et4]. destruct ok; cbn [negb]; [|intros [= <- <-]; split_and!; [congruence..|by left]].
  unfold mbind at 1, cM_bind at 1. destruct (write_words 256 b s4) as [[v s5]|] eqn:E5; [|done].
  destruct (quiet_write_words _ _ _ _ _ E5) as [Ed5 Et5]. unfold current. rewrite gets_then.
  assert (Et : a_tab s5 = a_tab s1) by congruence. rewrite Et, Hp. intros [-> ->]%ret_is.
  split_and!; [congruence|done|by right].
Qed.

Lemma turn_effect k s p o s' : current_process (a_tab s) = Some p -> ata_turn k s = Some (o, s') ->
  effect p k (a_drv s) (a_tab s) o (a_drv s') (a_tab s').
Proof.
  intros Hp. destruct k as [op|op|[l|l b]|k|k| | | | |r data].
  - cbn [ata_turn]. unfold ata_gate_acquire. rewrite gets_then. destruct (g_ata_busy (a_drv s)) eqn:Eb; cbn [negb].
    + unfold current. rewrite gets_then, Hp, drv_then, tab_then. intros [-> ->]%ret_is. by apply ef_queue.
    + rewrite drv_then. intros [-> ->]%ret_is. by apply ef_acquire.
  - intros E. destruct (gives_start op _ _ _ E) as (-> & -> & Ho). by apply ef_start.
  - cbn [ata_turn]. rewrite drv_then. unfold current. rewrite gets_then. cbn [a_tab]. rewrite Hp.
    intros [-> ->]%ret_is. apply ef_read.
  - intros E. destruct (issued_write_turn _ _ _ _ _ _ Hp E) as (-> & -> & Ho). by apply ef_write.
  - cbn [ata_turn]. unfold ata_wait_irq, current. rewrite gets_then, Hp, gets_then. destruct (g_irq_fired (a_drv s)) eqn:Ef.
    + rewrite drv_then. intros [-> ->]%ret_is. by apply ef_fired.
    + rewrite drv_then, tab_then. intros [-> ->]%ret_is. by apply ef_sleep.
  - cbn [ata_turn]. rewrite drv_then. intros [-> ->]%ret_is. apply ef_woken.
  - intros E. destruct (gives_check_read _ _ _ E) as (-> & -> & Ho). by apply ef_check_read.
  - intros E. destruct (gives_written _ _ _ E) as (-> & -> & Ho). by apply ef_written.
  - intros E. destruct (gives_check_write _ _ _ E) as (-> & -> & Ho). by apply ef_check_write.
  - cbn [ata_turn]. rewrite drv_then. unfold current. rewrite gets_then. cbn [a_tab]. rewrite Hp.
    intros [-> ->]%ret_is. apply ef_flush.
  - cbn [ata_turn]. intros [= <- <-]. apply ef_release.
Qed.
End turns.

(** ** The invariant *)

Definition holds (k : ata_kont) : bool := match k with AAcquire _ => false | _ => true end.

(** A wait is followed by a check or by the release. *)
Definition resumes (k : ata_kont) : bool :=
  match k with
  | AWait k | AWoken k => match k with ACheckRead | ACheckWrite | ARelease _ _ => true | _ => false end
  | _ => true
  end.

(** A process that will wait can count on the interrupt, or has had it. *)
Definition expects (k : ata_kont) (due fired : bool) : Prop :=
  match k with
  | AIssued (ARead _) | AFlushIssued => due = true
  | AWait _ => due = true \/ fired = true
  | _ => True
  end.

(** Process [p] with [k] left to do: blocked only where somebody will wake it. *)
Definition proc_ok (early : bool) (a : ata) (t : ptable) (due : bool) (p : Z) (k : ata_kont) : Prop :=
  0 <= p < 16 /\ resumes k = true /\
  match state_of t p with
  | PROCESS_BLOCKED =>
      match k with
      | AAcquire _ => p ∈ g_gate_waiters a /\ g_irq_waiter a <> Some p
      | AWoken _ => p ∉ g_gate_waiters a /\ g_irq_waiter a = Some p /\ (early = false -> due = true)
      | _ => False
      end
  | PROCESS_READY | PROCESS_RUNNING =>
      p ∉ g_gate_waiters a /\ g_irq_waiter a <> Some p /\ (early = false -> expects k due (g_irq_fired a))
  | _ => False
  end.

Section invariant.
Context {Dv : Type} `{Ports Dv}.
Implicit Types y : asys Dv.

Record ainv (early : bool) (y : asys Dv) : Prop := {
  iv_sched : sched_ok (y_sch y);
  iv_procs : forall p k, y_code y !! p = Some k -> proc_ok early (y_drv y) (y_tab y) (y_due y) p k;
  iv_unique : forall p q kp kq, y_code y !! p = Some kp -> y_code y !! q = Some kq -> holds kp = true -> holds kq = true -> p = q;
  iv_busy : g_ata_busy (y_drv y) = true <-> exists p k, y_code y !! p = Some k /\ holds k = true;
  iv_nodup : NoDup (g_gate_waiters (y_drv y));
  iv_gate : forall w, w ∈ g_gate_waiters (y_drv y) -> is_Some (y_code y !! w);
  iv_queue : g_gate_waiters (y_drv y) <> [] -> g_ata_busy (y_drv y) = true;
  iv_waiter : forall w, g_irq_waiter (y_drv y) = Some w -> is_Some (y_code y !! w)
}.

Lemma state_upd t p q st : has16 t -> 0 <= p < 16 -> 0 <= q < 16 ->
  state_of (upd t p (set_state st)) q = if p =? q then st else state_of t q.
Proof. intros Ht Hp Hq. unfold state_of. rewrite slot_upd by (done || lia). destruct (Z.eqb_spec p q) as [->|]; done. Qed.

Lemma wake_state t w q : has16 t -> 0 <= w < 16 -> 0 <= q < 16 ->
  state_of (wake_if_blocked w t) q =
    if (w =? q) && state_eqb (state_of t q) PROCESS_BLOCKED then PROCESS_READY else state_of t q.
Proof.
  intros Ht Hw Hq. unfold wake_if_blocked. destruct (state_eqb (state_of t w) PROCESS_BLOCKED) eqn:E.
  - rewrite state_upd by done. destruct (Z.eqb_spec w q) as [->|]; [by rewrite E|done].
  - destruct (Z.eqb_spec w q) as [->|]; [by rewrite E|done].
Qed.

Lemma wake_ok t w : table_ok t -> 0 <= w < 16 -> table_ok (wake_if_blocked w t).
Proof. exact (make_ready_ok t w). Qed.
Lemma wake_current t w : current_process (wake_if_blocked w t) = current_process t.
Proof. unfold wake_if_blocked. by destruct (state_eqb _ _). Qed.

(** Waking a list of processes. *)
Lemma wake_all_spec ws : forall t, table_ok t -> (forall w, w ∈ ws -> 0 <= w < 16) ->
  let t' := foldl (fun t w => wake_if_blocked w t) t ws in
  table_ok t' /\ forall q, 0 <= q < 16 ->
    state_of t' q = if bool_decide (q ∈ ws) && state_eqb (state_of t q) PROCESS_BLOCKED then PROCESS_READY else state_of t q.
Proof.
  induction ws as [|w ws IH]; intros t Ht Hw; cbn [foldl]; [by split|].
  destruct (IH (wake_if_blocked w t)) as [Hok Hs].
  { apply wake_ok; [done|apply Hw; left]. }
  { intros v Hv. apply Hw. by right. }
  split; [done|]. intros q Hq. rewrite Hs by done.
  rewrite (wake_state t w q (to_len _ Ht) (Hw w (list_elem_of_here _ _)) Hq).
  rewrite (bool_decide_ext (q ∈ w :: ws) (q = w \/ q ∈ ws)) by apply elem_of_cons. rewrite bool_decide_or.
  destruct (Z.eqb_spec w q) as [->|Hne].
  - rewrite (bool_decide_eq_true_2 (q = q)) by done. cbn [orb].
    destruct (state_eqb (state_of t q) PROCESS_BLOCKED) eqn:E; cbn [andb]; [by destruct (bool_decide _)|by rewrite E, andb_false_r].
  - rewrite (bool_decide_eq_false_2 (q = w)) by congruence. done.
Qed.

(** A process outside the gate does not depend on the interrupt. *)
Lemma proc_ok_outside early due due' a a' t t' p k : holds k = false ->
  (p ∈ g_gate_waiters a' <-> p ∈ g_gate_waiters a) -> (g_irq_waiter a' = Some p <-> g_irq_waiter a = Some p) ->
  state_of t' p = state_of t p -> proc_ok early a t due p k -> proc_ok early a' t' due' p k.
Proof.
  destruct k; try done. intros _ Hw Hi Es (Hp & Hr & Hok). split_and!; try done; [lia..|]. rewrite Es.
  destruct (state_of t p); rewrite ?Hw, ?Hi; try done; destruct Hok as (? & ? & ?); by split_and!.
Qed.

Lemma proc_live early a t due p k : proc_ok early a t due p k -> live (state_of t p) ->
  0 <= p < 16 /\ resumes k = true /\ p ∉ g_gate_waiters a /\ g_irq_waiter a <> Some p /\ (early = false -> expects k due (g_irq_fired a)).
Proof. intros (Hp & Hr & Hok) [E|E]; rewrite E in Hok; destruct Hok as (? & ? & ?); by split_and!; [lia|lia|..]. Qed.

Lemma live_ok early a t due p k : 0 <= p < 16 -> resumes k = true -> live (state_of t p) ->
  p ∉ g_gate_waiters a -> g_irq_waiter a <> Some p -> (early = false -> expects k due (g_irq_fired a)) -> proc_ok early a t due p k.
Proof. intros Hp Hr Hl Hw Hi He. split_and!; [lia|lia|done|]. destruct Hl as [-> | ->]; by split_and!. Qed.

Lemma others_outside early y p k : ainv early y -> y_code y !! p = Some k -> holds k = true ->
  forall q kq, q <> p -> y_code y !! q = Some kq -> holds kq = false.
Proof.
  intros Hy Hp Hh q kq Hq Hc. destruct (holds kq) eqn:E; [|done]. destruct Hq. by apply (iv_unique _ _ Hy q p kq k).
Qed.

Lemma code_insert y p (k' : ata_kont) q kq : <[p := k']> (y_code y) !! q = Some kq ->
  (q = p /\ kq = k') \/ (q <> p /\ y_code y !! q = Some kq).
Proof. intros [[<- <-]|[? ?]]%lookup_insert_Some; [by left|right; by split]. Qed.

Lemma code_kept y p (k' : ata_kont) q : is_Some (y_code y !! q) -> is_Some (<[p := k']> (y_code y) !! q).
Proof. intros Hq. destruct (decide (p = q)) as [<-|]; [by rewrite lookup_insert_eq|by rewrite lookup_insert_ne]. Qed.

(** Whether somebody holds the gate, after [p] moved from [k] to [k']. *)
Lemma held_insert y p k k' : y_code y !! p = Some k -> holds k' = holds k ->
  (exists q kq, <[p := k']> (y_code y) !! q = Some kq /\ holds kq = true) <-> (exists q kq, y_code y !! q = Some kq /\ holds kq = true).
Proof.
  intros Hp Hh. split; intros (q & kq & Hq & E).
  - apply code_insert in Hq as [[-> ->]|[_ Hq]]; [|by eauto]. rewrite Hh in E. eauto.
  - destruct (decide (q = p)) as [->|Hne].
    + exists p, k'. rewrite lookup_insert_eq. split; [done|]. congruence.
    + exists q, kq. by rewrite lookup_insert_ne.
Qed.

(** The holder goes on inside the gate. *)
Lemma inside_step early y d p k k' a' due :
  ainv early y -> y_code y !! p = Some k -> holds k = true -> holds k' = true -> resumes k' = true ->
  live (state_of (y_tab y) p) ->
  g_ata_busy a' = g_ata_busy (y_drv y) -> g_gate_waiters a' = g_gate_waiters (y_drv y) -> g_irq_waiter a' = g_irq_waiter (y_drv y) ->
  (early = false -> expects k' due (g_irq_fired a')) ->
  ainv early (ASys d a' (y_sch y) (<[p := k']> (y_code y)) due).
Proof.
  intros Hy Hp Hk Hk' Hr Hl Eb Ew Ei He. pose proof (iv_procs _ _ Hy p k Hp) as Hok.
  destruct (proc_live _ _ _ _ _ _ Hok Hl) as (Hrange & _ & Hw & Hi & _).
  split; cbn [y_sch y_code y_drv y_due]; rewrite ?Eb, ?Ew, ?Ei; try apply Hy.
  - intros q kq [[-> ->]|[Hne Hq]]%code_insert.
    + apply live_ok; rewrite ?Ew, ?Ei; done.
    + apply (proc_ok_outside _ (y_due y) _ (y_drv y) _ (y_tab y)); rewrite ?Ew, ?Ei; try done; [|by apply Hy].
      by apply (others_outside early y p k Hy Hp Hk q).
  - intros q r kq kr [[-> ->]|[? Hq]]%code_insert [[-> ->]|[? Hr']]%code_insert E1 E2; [done| | |by apply (iv_unique _ _ Hy q r kq kr)].
    + by apply (iv_unique _ _ Hy p r k kr).
    + by apply (iv_unique _ _ Hy q p kq k).
  - rewrite (held_insert y p k k' Hp) by congruence. apply Hy.
  - intros w Hin. by apply code_kept, (iv_gate _ _ Hy).
  - intros w Hin. by apply code_kept, (iv_waiter _ _ Hy).
Qed.

Lemma not_held early y : ainv early y -> g_ata_busy (y_drv y) = false -> forall q kq, y_code y !! q = Some kq -> holds kq = false.
Proof.
  intros Hy Eb q kq Hq. destruct (holds kq) eqn:E; [|done]. enough (g_ata_busy (y_drv y) = true) by congruence.
  apply (iv_busy _ _ Hy). eauto.
Qed.

(** [p] takes the free gate. *)
Lemma acquire_step early y p op :
  ainv early y -> y_code y !! p = Some (AAcquire op) -> live (state_of (y_tab y) p) -> g_ata_busy (y_drv y) = false ->
  ainv early (ASys (y_dev y) (set_busy true (y_drv y)) (y_sch y) (<[p := AStart op]> (y_code y)) (y_due y)).
Proof.
  intros Hy Hp Hl Eb. pose proof (not_held _ _ Hy Eb) as Hn.
  destruct (proc_live _ _ _ _ _ _ (iv_procs _ _ Hy _ _ Hp) Hl) as (Hrange & _ & Hw & Hi & _).
  split; cbn [y_sch y_code y_drv y_due set_busy g_ata_busy g_gate_waiters g_irq_waiter]; try apply Hy.
  - intros q kq [[-> ->]|[Hne Hq]]%code_insert; [by apply live_ok|].
    apply (proc_ok_outside _ (y_due y) _ (y_drv y) _ (y_tab y)); try done; [by apply (Hn q)|by apply Hy].
  - intros q r kq kr [[-> ->]|[? Hq]]%code_insert [[-> ->]|[? Hr]]%code_insert E1 E2; [done|..].
    + by rewrite (Hn _ _ Hr) in E2.
    + by rewrite (Hn _ _ Hq) in E1.
    + by rewrite (Hn _ _ Hr) in E2.
  - split; [|done]. intros _. exists p, (AStart op). by rewrite lookup_insert_eq.
  - intros w Hin. by apply code_kept, (iv_gate _ _ Hy).
  - done.
  - intros w Hin. by apply code_kept, (iv_waiter _ _ Hy).
Qed.

(** There is room for every process that may queue. *)
Lemma queue_room early y p k : ainv early y -> y_code y !! p = Some k -> p ∉ g_gate_waiters (y_drv y) ->
  zlen (g_gate_waiters (y_drv y)) < 16.
Proof.
  intros Hy Hp Hn. set (ws := g_gate_waiters (y_drv y)) in *.
  assert (Hsub : (p :: ws) ⊆ seqZ 0 16).
  { intros q Hq. apply elem_of_seqZ. apply elem_of_cons in Hq as [->|Hq].
    - pose proof (iv_procs _ _ Hy _ _ Hp) as [? _]. lia.
    - destruct (iv_gate _ _ Hy q Hq) as [kq Hkq]. pose proof (iv_procs _ _ Hy _ _ Hkq) as [? _]. lia. }
  assert (Hnd : NoDup (p :: ws)) by (constructor; [done|apply Hy]).
  pose proof (submseteq_length _ _ (NoDup_submseteq _ _ Hnd Hsub)) as Hlen. rewrite length_seqZ in Hlen.
  unfold zlen. cbn [length] in Hlen. lia.
Qed.

Lemma blocked_table early y p : ainv early y -> running (y_sch y) p ->
  table_ok (upd (y_tab y) p (set_state PROCESS_BLOCKED)) /\ 0 <= p < 16.
Proof.
  intros Hy [Hc Hr]. destruct (iv_sched _ _ Hy) as [Ht _]. pose proof (to_current _ Ht _ Hc) as Hp. split; [|done].
  apply table_ok_upd; [done|done| |by right|done]. left. unfold y_tab. by rewrite Hr.
Qed.

(** [p] queues at the closed gate. *)
Lemma queue_step early y p op :
  ainv early y -> y_code y !! p = Some (AAcquire op) -> running (y_sch y) p -> g_ata_busy (y_drv y) = true ->
  ainv early (ASys (y_dev y) (set_waiters (g_gate_waiters (y_drv y) ++ [p]) (y_drv y))
    (with_tab (y_sch y) (upd (y_tab y) p (set_state PROCESS_BLOCKED))) (<[p := AAcquire op]> (y_code y)) (y_due y)).
Proof.
  intros Hy Hp Hrun Eb. destruct (blocked_table _ _ _ Hy Hrun) as [Ht Hrange].
  destruct (proc_live _ _ _ _ _ _ (iv_procs _ _ Hy _ _ Hp) (or_intror (proj2 Hrun))) as (_ & _ & Hw & Hi & _).
  pose proof (iv_sched _ _ Hy) as [Ht0 Hix].
  assert (Es : forall q, 0 <= q < 16 -> state_of (upd (y_tab y) p (set_state PROCESS_BLOCKED)) q = if p =? q then PROCESS_BLOCKED else state_of (y_tab y) q)
    by (intros q Hq; apply state_upd; [apply Ht0|done|done]).
  rewrite (insert_id _ _ _ Hp).
  split; cbn [y_sch y_code y_drv y_due y_tab with_tab s_tab set_waiters g_ata_busy g_gate_waiters g_irq_waiter]; try apply Hy.
  - split; [done|exact Hix].
  - intros q kq Hq. pose proof (iv_procs _ _ Hy _ _ Hq) as Hok. destruct (decide (q = p)) as [->|Hne].
    + assert (kq = AAcquire op) as -> by congruence. split_and!; [lia|lia|done|]. unfold y_tab. cbn [y_sch with_tab s_tab].
      rewrite Es, Z.eqb_refl by done. cbn [set_waiters g_gate_waiters g_irq_waiter]. split; [|done].
      apply elem_of_app. right. by apply list_elem_of_singleton.
    + destruct Hok as (Hrq & Hres & Hok). split_and!; [lia|lia|done|]. unfold y_tab at 1. cbn [y_sch with_tab s_tab].
      rewrite Es by done. replace (p =? q) with false by lia. cbn [set_waiters g_gate_waiters g_irq_waiter g_irq_fired y_due].
      assert (Hin : q ∈ g_gate_waiters (y_drv y) ++ [p] <-> q ∈ g_gate_waiters (y_drv y))
        by (rewrite elem_of_app, list_elem_of_singleton; tauto).
      destruct (state_of (y_tab y) q); try done; [destruct kq| |destruct kq]; try done; rewrite ?Hin; exact Hok.
  - apply NoDup_app. split_and!; [apply Hy| |apply NoDup_singleton].
    intros q Hq E%list_elem_of_singleton. by subst q.
  - intros w [Hw'|E%list_elem_of_singleton]%elem_of_app; [by apply (iv_gate _ _ Hy)|subst w; by rewrite Hp].
  - done.
Qed.

Lemma outside_waiter early a t due q kq : proc_ok early a t due q kq -> holds kq = false -> g_irq_waiter a <> Some q.
Proof. destruct kq; try done. intros (_ & _ & Hok) _. destruct (state_of t q); try done; by destruct Hok as (? & ?); tauto. Qed.

(** The holder blocks until the interrupt. *)
Lemma sleep_step early y p k :
  ainv early y -> y_code y !! p = Some (AWait k) -> running (y_sch y) p -> g_irq_fired (y_drv y) = false ->
  ainv early (ASys (y_dev y) (set_irq_waiter (Some p) (y_drv y))
    (with_tab (y_sch y) (upd (y_tab y) p (set_state PROCESS_BLOCKED))) (<[p := AWoken k]> (y_code y)) (y_due y)).
Proof.
  intros Hy Hp Hrun Ef. destruct (blocked_table _ _ _ Hy Hrun) as [Ht Hrange].
  destruct (proc_live _ _ _ _ _ _ (iv_procs _ _ Hy _ _ Hp) (or_intror (proj2 Hrun))) as (_ & Hres & Hw & Hi & He).
  pose proof (iv_sched _ _ Hy) as [Ht0 Hix]. pose proof (others_outside _ _ _ _ Hy Hp eq_refl) as Hout.
  split; cbn [y_sch y_code y_drv y_due set_irq_waiter g_ata_busy g_gate_waiters g_irq_waiter]; try apply Hy.
  - split; [done|exact Hix].
  - intros q kq [[-> ->]|[Hne Hq]]%code_insert.
    + split_and!; [lia|lia|exact Hres|]. unfold y_tab. cbn [y_sch with_tab s_tab].
      rewrite state_upd, Z.eqb_refl by (done || apply Ht0). split_and!; [done|done|]. intros Ee.
      destruct (He Ee) as [?|?]; [done|congruence].
    + pose proof (iv_procs _ _ Hy _ _ Hq) as Hok. pose proof (outside_waiter _ _ _ _ _ _ Hok (Hout q kq Hne Hq)) as Hnw.
      apply (proc_ok_outside _ (y_due y) _ (y_drv y) _ (y_tab y)); try done.
      * by apply (Hout q).
      * cbn [set_irq_waiter g_irq_waiter]. split; [intros [= ->]|]; done.
      * unfold y_tab. cbn [y_sch with_tab s_tab]. rewrite state_upd by (done || exact (to_len _ Ht0) || exact (proj1 Hok)).
        by replace (p =? q) with false by lia.
  - intros q r kq kr [[-> ->]|[? Hq]]%code_insert [[-> ->]|[? Hr]]%code_insert E1 E2; [done| | |by apply (iv_unique _ _ Hy q r kq kr)].
    + by apply (iv_unique _ _ Hy p r (AWait k) kr).
    + by apply (iv_unique _ _ Hy q p kq (AWait k)).
  - rewrite (held_insert y p (AWait k)) by done. apply Hy.
  - intros w Hin. by apply code_kept, (iv_gate _ _ Hy).
  - intros w [= <-]. by rewrite lookup_insert_eq.
Qed.

Lemma waiters_range early y : ainv early y -> forall w, w ∈ g_gate_waiters (y_drv y) -> 0 <= w < 16.
Proof. intros Hy w Hw. destruct (iv_gate _ _ Hy w Hw) as [k Hk]. apply (iv_procs _ _ Hy _ _ Hk). Qed.

(** The holder opens the gate. *)
Lemma release_step early y p r data :
  ainv early y -> y_code y !! p = Some (ARelease r data) -> running (y_sch y) p ->
  ainv early (ASys (y_dev y) (set_waiters [] (set_busy false (y_drv y)))
    (with_tab (y_sch y) (foldl (fun t w => wake_if_blocked w t) (y_tab y) (g_gate_waiters (y_drv y)))) (delete p (y_code y)) (y_due y)).
Proof.
  intros Hy Hp Hrun. pose proof (others_outside _ _ _ _ Hy Hp eq_refl) as Hout. pose proof (iv_sched _ _ Hy) as [Ht0 Hix].
  destruct (proc_live _ _ _ _ _ _ (iv_procs _ _ Hy _ _ Hp) (or_intror (proj2 Hrun))) as (_ & _ & Hw & Hi & _).
  destruct (wake_all_spec (g_gate_waiters (y_drv y)) (y_tab y) Ht0 (waiters_range _ _ Hy)) as [Ht Es].
  assert (Hothers : forall q kq, delete p (y_code y) !! q = Some kq -> q <> p /\ y_code y !! q = Some kq /\ holds kq = false).
  { intros q kq [Hne Hq]%lookup_delete_Some. split_and!; [done|done|]. by apply (Hout q). }
  split; cbn [y_sch y_code y_drv y_due set_waiters set_busy g_ata_busy g_gate_waiters g_irq_waiter].
  - split; [exact Ht|exact Hix].
  - intros q kq (Hne & Hq & Hh)%Hothers. pose proof (iv_procs _ _ Hy _ _ Hq) as Hok.
    pose proof (outside_waiter _ _ _ _ _ _ Hok Hh) as Hnw. destruct Hok as (Hrq & Hres & Hok).
    apply live_ok; try done; [|apply not_elem_of_nil|by destruct kq].
    unfold y_tab at 1. cbn [y_sch with_tab s_tab]. rewrite Es by done. destruct kq; try done.
    destruct (state_of (y_tab y) q) eqn:E; try done; [rewrite andb_false_r by done; by left|rewrite andb_false_r; by right|].
    destruct Hok as [Hin _]. rewrite bool_decide_eq_true_2 by done. by left.
  - intros q q' kq kq' (_ & _ & E)%Hothers _ E'. congruence.
  - split; [done|]. intros (q & kq & (_ & _ & E)%Hothers & E'). congruence.
  - constructor.
  - by intros w ?%not_elem_of_nil.
  - done.
  - intros w Ew. destruct (decide (w = p)) as [->|Hne]; [done|]. rewrite lookup_delete_ne by done. by apply (iv_waiter _ _ Hy).
Qed.

Lemma irq_effect (s s' : atast Dv) : ata_irq_handler s = Some ((), s') ->
  a_drv s' = set_irq_waiter None (set_fired true (a_drv s)) /\
  a_tab s' = match g_irq_waiter (a_drv s) with Some w => wake_if_blocked w (a_tab s) | None => a_tab s end.
Proof.
  unfold ata_irq_handler. unfold mbind at 1, cM_bind at 1. destruct (reg_in REG_STATUS s) as [[v s1]|] eqn:E; [|done].
  destruct (quiet_reg_in _ _ _ _ E) as [<- <-]. rewrite drv_then, gets_then. cbn [a_drv set_fired g_irq_waiter].
  destruct (g_irq_waiter (a_drv s1)) as [w|] eqn:Ew; intros [= <-]; (split; [|done]); cbn [a_drv]; [done|].
  destruct (a_drv s1); cbn in *. by rewrite Ew.
Qed.

Lemma irq_step early y d : ainv early y ->
  (early = true \/ forall p k, y_code y !! p = Some k -> in_window k = false) ->
  ainv early (ASys d (set_irq_waiter None (set_fired true (y_drv y)))
    (with_tab (y_sch y) (match g_irq_waiter (y_drv y) with Some w => wake_if_blocked w (y_tab y) | None => y_tab y end))
    (y_code y) false).
Proof.
  intros Hy Hwin. pose proof (iv_sched _ _ Hy) as [Ht0 Hix]. set (t' := match g_irq_waiter (y_drv y) with Some w => _ | None => _ end).
  assert (Ht : table_ok t' /\ forall q kq, y_code y !! q = Some kq ->
    state_of t' q = if bool_decide (g_irq_waiter (y_drv y) = Some q) then PROCESS_READY else state_of (y_tab y) q).
  { subst t'. destruct (g_irq_waiter (y_drv y)) as [w|] eqn:Ew; [|by split].
    destruct (iv_waiter _ _ Hy w Ew) as [kw Hkw]. pose proof (iv_procs _ _ Hy _ _ Hkw) as (Hw & _ & Hokw).
    split; [by apply wake_ok|]. intros q kq Hq. rewrite wake_state; [|exact (to_len _ Ht0)|done|apply (iv_procs _ _ Hy _ _ Hq)].
    destruct (Z.eqb_spec w q) as [->|Hne]; cbn [andb].
    - rewrite bool_decide_eq_true_2 by done. destruct (state_of (y_tab y) q); try done; by destruct Hokw as (_ & ? & _).
    - rewrite bool_decide_eq_false_2 by congruence. done. }
  destruct Ht as [Ht Es]. clearbody t'.
  split; cbn [y_sch y_code y_drv y_due set_irq_waiter set_fired g_ata_busy g_gate_waiters g_irq_waiter]; try apply Hy; [done| |done].
  intros q kq Hq. pose proof (iv_procs _ _ Hy _ _ Hq) as (Hrq & Hres & Hok). split_and!; [lia|lia|done|].
  unfold y_tab at 1. cbn [y_sch with_tab s_tab]. rewrite (Es q kq Hq). cbn [set_irq_waiter set_fired g_irq_fired g_irq_waiter g_gate_waiters y_due].
  assert (He : early = false -> kq <> AFlushIssued -> expects kq false true).
  { intros -> _. destruct Hwin as [?|Hwin]; [done|]. specialize (Hwin q kq Hq). destruct kq as [|?|[|]| | | | | | |]; try done. by right. }
  destruct (decide (g_irq_waiter (y_drv y) = Some q)) as [Eq|Nq].
  - rewrite bool_decide_eq_true_2 by done. rewrite Eq in Hok. destruct (state_of (y_tab y) q); try done; [by destruct Hok as (_ & ? & _)..|].
    destruct kq; try done; [by destruct Hok|]. split_and!; [apply Hok|done|done].
  - rewrite bool_decide_eq_false_2 by done. assert (Hf : early = false -> expects kq false true).
    { intros Ee. destruct Hwin as [->|Hwin]; [done|]. specialize (Hwin q kq Hq). by apply He; [|intros ->]. }
    destruct (state_of (y_tab y) q); try done; [destruct Hok as (? & ? & _); by split_and!..|].
    destruct kq; try done; [by destruct Hok|by destruct Hok as (_ & ? & _)].
Qed.

Lemma call_step early y p op : ainv early y -> running (y_sch y) p -> y_code y !! p = None ->
  ainv early (ASys (y_dev y) (y_drv y) (y_sch y) (<[p := AAcquire op]> (y_code y)) (y_due y)).
Proof.
  intros Hy Hrun Hp. destruct (blocked_table _ _ _ Hy Hrun) as [_ Hrange].
  split; cbn [y_sch y_code y_drv y_due]; try apply Hy.
  - intros q kq [[-> ->]|[Hne Hq]]%code_insert; [|by apply Hy]. apply live_ok; try done.
    + right. apply Hrun.
    + intros Hin. destruct (iv_gate _ _ Hy _ Hin). congruence.
    + intros Hin. destruct (iv_waiter _ _ Hy _ Hin). congruence.
  - intros q r kq kr [[-> ->]|[? Hq]]%code_insert [[-> ->]|[? Hr]]%code_insert; try done. apply (iv_unique _ _ Hy q r kq kr); done.
  - rewrite (iv_busy _ _ Hy). split; intros (q & kq & Hq & Hh); exists q, kq; (split; [|done]).
    + rewrite lookup_insert_ne; [done|congruence].
    + apply code_insert in Hq as [[-> ->]|[_ Hq]]; done.
  - intros w Hin. by apply code_kept, (iv_gate _ _ Hy).
  - intros w Hin. by apply code_kept, (iv_waiter _ _ Hy).
Qed.

Lemma kernel_step early y s' : ainv early y -> kstep (y_sch y) s' -> leaves_requests y s' ->
  ainv early (ASys (y_dev y) (y_drv y) s' (y_code y) (y_due y)).
Proof.
  intros Hy Hk Hl. split; cbn [y_sch y_code y_drv y_due]; try apply Hy.
  - by apply (kstep_ok _ _ Hk), Hy.
  - intros q kq Hq. pose proof (iv_procs _ _ Hy _ _ Hq) as Hok. destruct (Hl q (mk_is_Some _ _ Hq)) as [E|[L1 L2]].
    + destruct Hok as (? & ? & Hok). split_and!; [lia|lia|done|]. unfold y_tab at 1. cbn [y_sch]. by rewrite E.
    + destruct (proc_live _ _ _ _ _ _ Hok L1) as (? & ? & ? & ? & ?). by apply live_ok.
Qed.

Lemma ainv_dev early d d' a s c b : ainv early (ASys d a s c b) -> ainv early (ASys d' a s c b).
Proof. by intros [H1 H2 H3 H4 H5 H6 H7 H8]. Qed.

Lemma with_tab_same y : with_tab (y_sch y) (y_tab y) = y_sch y.
Proof. unfold y_tab. by destruct (y_sch y). Qed.

Ltac inside Hy Hp Hl :=
  rewrite ?with_tab_same; eapply (inside_step _ _ _ _ _ _ _ _ Hy Hp); try done; try exact Hl.

Lemma turn_step early y p k o s' :
  ainv early y -> running (y_sch y) p -> y_code y !! p = Some k -> ata_turn k (y_st y) = Some (o, s') ->
  ainv early (with_st y s' (after p o (y_code y)) (owes k o || y_due y)).
Proof.
  intros Hy Hrun Hp E. pose proof (turn_effect k (y_st y) p o s' (proj1 Hrun) E) as He. cbn [y_st a_drv a_tab] in He. clear E.
  assert (Hl : live (state_of (y_tab y) p)) by (right; apply Hrun).
  destruct (proc_live _ _ _ _ _ _ (iv_procs _ _ Hy _ _ Hp) Hl) as (_ & Hres & Hw & _ & Hexp).
  destruct s' as [d a' t']. unfold with_st. cbn [a_dev a_drv a_tab] in *. remember (y_drv y) as a eqn:Ea. remember (y_tab y) as t eqn:Et.
  destruct He as [op a t Hb|op a t Hb|op a t o Ho|l a t|l b a t o Ho|k a t Hf|k a t Hf|k a t|a t o Ho|a t o Ho|a t o Ho|a t|r data a t];
    subst a t; cbn [after owes orb].
  - rewrite with_tab_same. by apply (ainv_dev _ (y_dev y)), acquire_step.
  - pose proof (queue_room _ _ _ _ Hy Hp Hw) as Hroom. replace (_ <? 16) with true by lia.
    by apply (ainv_dev _ (y_dev y)), queue_step.
  - destruct Ho as [-> | ->]; cbn [after owes orb fail]; inside Hy Hp Hl. by destruct op.
  - inside Hy Hp Hl. cbn [expects]. intros Ee. left. exact (Hexp Ee).
  - destruct Ho as [-> | ->]; cbn [after owes orb fail]; inside Hy Hp Hl. by left.
  - inside Hy Hp Hl; by destruct k.
  - by apply (ainv_dev _ (y_dev y)), sleep_step.
  - inside Hy Hp Hl; by destruct k.
  - destruct Ho as [-> | [x ->]]; cbn [after owes orb fail]; inside Hy Hp Hl.
  - destruct Ho as [-> | ->]; cbn [after owes orb fail]; inside Hy Hp Hl.
  - destruct Ho as [-> | ->]; cbn [after owes orb fail]; inside Hy Hp Hl.
  - inside Hy Hp Hl. cbn [expects]. intros Ee. left. exact (Hexp Ee).
  - by eapply (ainv_dev _ (y_dev y)), release_step.
Qed.

Lemma astep_inv early y y' : astep early false y y' -> ainv early y -> ainv early y'.
Proof.
  intros [y0 p op Hr Hc _|y0 p k o s' Hr Hc E|y0 s' Hd Hw E|y0 s' Hk Hl|y0 p q Hk _ _] Hy; [| | | |done].
  - by apply call_step.
  - by apply (turn_step early y0 p).
  - destruct (irq_effect _ _ E) as [E1 E2]. unfold with_st. rewrite E1, E2. by apply irq_step.
  - by apply kernel_step.
Qed.

(** No request is under way. *)
Definition quiescent (y : asys Dv) : Prop :=
  sched_ok (y_sch y) /\ y_code y = ∅ /\ g_ata_busy (y_drv y) = false /\ g_gate_waiters (y_drv y) = [] /\ g_irq_waiter (y_drv y) = None.

Lemma quiescent_inv early y : quiescent y -> ainv early y.
Proof.
  intros (Hs & Ec & Eb & Eg & Ew). split; rewrite ?Ec, ?Eb, ?Eg, ?Ew; try done.
  - split; [done|]. intros (p & k & Hp & _). by rewrite lookup_empty in Hp.
  - constructor.
  - by intros w ?%not_elem_of_nil.
Qed.

Lemma reach_inv early y0 y : quiescent y0 -> rtc (astep early false) y0 y -> ainv early y.
Proof.
  intros H0%(quiescent_inv early) Hr. induction Hr as [|y0 y1 y2 Hs _ IH]; [done|]. by apply IH, (astep_inv _ _ _ Hs).
Qed.
End invariant.

(** ** Runs *)

Section runs.
Context {Dv : Type} `{Ports Dv}.

(** Steps as a function: which process does what, the interrupt, and the two
    halves of the scheduler's switch. *)
Inductive act := Call (p : Z) (op : ata_op) | Turn (p : Z) | Irq | Back (p : Z) | Dispatch | Kill (p q : Z).

Definition on_cpu (y : asys Dv) (p : Z) : bool :=
  bool_decide (current_process (y_tab y) = Some p) && state_eqb (state_of (y_tab y) p) PROCESS_RUNNING.
#[global] Instance live_dec st : Decision (live st).
Proof. unfold live. apply _. Defined.
Definition leaves_b (y : asys Dv) (s' : sched) : bool :=
  bool_decide (map_Forall (fun q (_ : ata_kont) => state_of (s_tab s') q = state_of (y_tab y) q \/
    (live (state_of (y_tab y) q) /\ live (state_of (s_tab s') q))) (y_code y)).
Definition moved (y : asys Dv) (s' : sched) : option (asys Dv) :=
  if leaves_b y s' then Some (ASys (y_dev y) (y_drv y) s' (y_code y) (y_due y)) else None.

Definition perform (y : asys Dv) (a : act) : option (asys Dv) :=
  match a with
  | Call p op =>
      if on_cpu y p && bool_decide (is_Some (y_code y !! p) -> False) && g_present (y_drv y)
      then Some (ASys (y_dev y) (y_drv y) (y_sch y) (<[p := AAcquire op]> (y_code y)) (y_due y)) else None
  | Turn p =>
      if on_cpu y p then
        match y_code y !! p with
        | Some k =>
            match ata_turn k (y_st y) with
            | Some (o, s') => Some (with_st y s' (after p o (y_code y)) (owes k o || y_due y))
            | None => None
            end
        | None => None
        end
      else None
  | Irq =>
      if y_due y then
        match ata_irq_handler (y_st y) with Some (_, s') => Some (with_st y s' (y_code y) false) | None => None end
      else None
  | Back p => if bool_decide (current_process (y_tab y) = Some p) then moved y (switched_back (y_sch y) p) else None
  | Dispatch =>
      if bool_decide (current_process (y_tab y) = None)
      then match dispatch (y_sch y) with Some (s', _) => moved y s' | None => None end else None
  | Kill p q =>
      if on_cpu y p && bool_decide (0 <= q < 16) && negb (state_eqb (state_of (y_tab y) q) PROCESS_UNUSED)
      then Some (ASys (y_dev y) (y_drv y) (on_tab (fun t => process_exit t (Some q)) (y_sch y)) (delete q (y_code y)) (y_due y))
      else None
  end.

(** The steps the two switches of [astep] allow. *)
Definition allowed (early kills : bool) (a : act) : bool := match a with Kill _ _ => kills | Irq => early | _ => true end.

Fixpoint performs (l : list act) (y : asys Dv) : option (asys Dv) :=
  match l with
  | [] => Some y
  | a :: l => match perform y a with Some y' => performs l y' | None => None end
  end.

Lemma on_cpu_running y p : on_cpu y p = true -> running (y_sch y) p.
Proof. unfold on_cpu. intros [?%bool_decide_eq_true ?%state_eqb_eq]%andb_true_iff. by split. Qed.

Lemma moved_step early kills y s' y' : moved y s' = Some y' -> kstep (y_sch y) s' -> astep early kills y y'.
Proof.
  unfold moved, leaves_b. case_bool_decide as Hl; [|done]. intros [= <-] Hk. apply as_kernel; [done|].
  intros q [k Hq]. by apply (Hl q k).
Qed.

Lemma perform_step early kills y a y' : allowed early kills a = true -> perform y a = Some y' -> astep early kills y y'.
Proof.
  intros Hk. destruct a as [p op|p| |p| |p q]; cbn [perform].
  - destruct (on_cpu y p) eqn:Ec; [|done]. case_bool_decide as Hn; [|done]. cbn [andb].
    destruct (g_present _) eqn:Eg; [|done]. intros [= <-]. apply as_call; [by apply on_cpu_running| |done].
    destruct (y_code y !! p); [|done]. by destruct Hn.
  - destruct (on_cpu y p) eqn:Ec; [|done]. destruct (y_code y !! p) as [k|] eqn:Ek; [|done].
    destruct (ata_turn k (y_st y)) as [[o s']|] eqn:Et; [|done]. intros [= <-]. apply (as_turn _ _ y p k); [by apply on_cpu_running|done..].
  - destruct (y_due y) eqn:Ed; [|done]. destruct (ata_irq_handler (y_st y)) as [[[] s']|] eqn:Et; [|done]. intros [= <-].
    apply as_irq; [done|by left|done].
  - case_bool_decide as Hc; [|done]. intros E. apply (moved_step _ _ _ _ _ E), ks_back. exact Hc.
  - case_bool_decide as Hc; [|done]. destruct (dispatch (y_sch y)) as [[s' i]|] eqn:Ed; [|done]. intros E.
    by apply (moved_step _ _ _ _ _ E), (ks_dispatch _ _ i).
  - destruct (on_cpu y p) eqn:Ec; [|done]. case_bool_decide as Hq; [|done]. cbn [andb].
    destruct (state_eqb _ _) eqn:Es; [done|]. intros [= <-]. apply (as_kill _ _ y p q); [exact Hk|by apply on_cpu_running|].
    split; [done|]. by apply state_eqb_ne.
Qed.

Lemma performs_run early kills l : forall y y', forallb (allowed early kills) l = true -> performs l y = Some y' -> rtc (astep early kills) y y'.
Proof.
  induction l as [|a l IH]; intros y y' Hl; cbn [performs]; [by intros [= ->]|].
  apply andb_true_iff in Hl as [Ha Hl]. destruct (perform y a) as [y1|] eqn:E; [|done]. intros E'.
  eapply rtc_l; [by apply (perform_step _ _ _ a)|by apply IH].
Qed.
End runs.

(** Two processes, the first one on the CPU, and the reference drive. *)
Definition two_spawn := process_spawn_user 0x20000 demo_tab ∅ None 0x1000000 0x1FFF000 0x400000 0 false 0x1234.
Definition two_tab : ptable := fst (fst two_spawn).
Definition two_sched : sched :=
  match dispatch (with_tab boot_sched two_tab) with Some (s, _) => s | None => boot_sched end.
Definition two_procs : asys drive := ASys (demo_drive false) (set_slot true 0x170 0x376 0xA0 0xE0 ata0) two_sched ∅ false.

Definition summary (y : option (asys drive)) : option (process_state * process_state * bool * bool * list Z) :=
  match y with
  | Some y => Some (state_of (y_tab y) 0, state_of (y_tab y) 1, g_ata_busy (y_drv y), y_due y, g_gate_waiters (y_drv y))
  | None => None
  end.

(** Two reads; the second waits for the first. *)
Example two_reads_run :
  summary (performs [Call 0 (ARead 1); Turn 0; Turn 0; Turn 0; Turn 0; Back 0; Dispatch; Call 1 (ARead 2); Turn 1; Back 1] two_procs) =
    Some (PROCESS_BLOCKED, PROCESS_BLOCKED, true, true, [1]) /\
  summary (performs [Call 0 (ARead 1); Turn 0; Turn 0; Turn 0; Turn 0; Back 0; Dispatch; Call 1 (ARead 2); Turn 1; Back 1;
    Irq; Dispatch; Turn 0; Turn 0; Turn 0; Back 0; Dispatch; Turn 1] two_procs) =
    Some (PROCESS_READY, PROCESS_RUNNING, true, false, []).
Proof. split; vm_compute; reflexivity. Qed.

(** ** Wake-ups that will not come *)

Section stuck.
Context {Dv : Type} `{Ports Dv}.
Implicit Types y : asys Dv.

(** [p] waits for an interrupt that nobody owes. *)
Definition stranded (p : Z) (y : asys Dv) : Prop :=
  (exists k, y_code y !! p = Some (AWoken k)) /\ state_of (y_tab y) p = PROCESS_BLOCKED /\ y_due y = false.

Lemma kernel_blocked y s' p k : leaves_requests y s' -> y_code y !! p = Some k -> state_of (y_tab y) p = PROCESS_BLOCKED ->
  state_of (s_tab s') p = PROCESS_BLOCKED.
Proof. intros Hl Hc Hs. destruct (Hl p) as [->|[[E|E] _]]; [by rewrite Hc|done|congruence..]. Qed.

(** A turn at the closed gate. *)
Lemma closed_turn y p op o s' : running (y_sch y) p -> g_ata_busy (y_drv y) = true ->
  ata_turn (AAcquire op) (y_st y) = Some (o, s') ->
  o = ABlock (AAcquire op) /\ g_ata_busy (a_drv s') = true /\ a_tab s' = upd (y_tab y) p (set_state PROCESS_BLOCKED).
Proof.
  intros [Hc _] Hb E. pose proof (turn_effect (AAcquire op) (y_st y) p o s' Hc E) as He. inversion He; subst.
  - cbn [y_st a_drv] in *. congruence.
  - split_and!; [done| |done]. by destruct (_ <? 16).
Qed.

Lemma stranded_step early y y' p : ainv early y -> astep early false y y' -> stranded p y -> stranded p y'.
Proof.
  intros Hy Hstep ((k & Hk) & Hs & Hd). pose proof (others_outside _ _ _ _ Hy Hk eq_refl) as Hout.
  assert (Hb : g_ata_busy (y_drv y) = true) by (apply (iv_busy _ _ Hy); eauto).
  assert (Hne : forall q, running (y_sch y) q -> q <> p) by (intros q [_ Hq] ->; unfold y_tab in Hs; congruence).
  destruct Hstep as [y q op Hr Hc _|y q kq o s' Hr Hc E|y s' Hdue Hw E|y s' Hks Hl|y q r Hkill _ _]; [| |congruence| |done].
  - split_and!; [|done|done]. exists k. cbn [y_code]. rewrite lookup_insert_ne; [done|by apply Hne].
  - pose proof (Hne q Hr) as Hqp. pose proof (Hout q kq Hqp Hc) as Hh. destruct kq; try done.
    destruct (closed_turn _ _ _ _ _ Hr Hb E) as (-> & _ & Et). cbn [owes orb after]. split_and!; [|..|done].
    + exists k. cbn [with_st y_code]. by rewrite lookup_insert_ne.
    + unfold y_tab. cbn [with_st y_sch with_tab s_tab]. rewrite Et. destruct (iv_sched _ _ Hy) as [Ht _].
      rewrite state_upd; [by replace (q =? p) with false by lia|apply Ht|by apply (to_current _ Ht), Hr|apply (iv_procs _ _ Hy _ _ Hk)].
  - split_and!; [by exists k| |done]. unfold y_tab at 1. cbn [y_sch]. by apply (kernel_blocked y _ _ _ Hl Hk).
Qed.

Lemma stranded_forever early y y' p : ainv early y -> rtc (astep early false) y y' -> stranded p y -> stranded p y' /\ ainv early y'.
Proof.
  intros Hy Hr. induction Hr as [|y y1 y2 Hs _ IH]; [done|]. intros Hp.
  apply IH; [by apply (astep_inv _ _ _ Hs)|by apply (stranded_step early y)].
Qed.

(** The gate is closed and nobody is inside. *)
Definition orphaned (y : asys Dv) : Prop :=
  g_ata_busy (y_drv y) = true /\ forall p k, y_code y !! p = Some k -> holds k = false.

Lemma orphaned_step early kills y y' : astep early kills y y' -> orphaned y -> orphaned y'.
Proof.
  intros Hstep [Hb Hout].
  destruct Hstep as [y q op Hr Hc _|y q kq o s' Hr Hc E|y s' Hdue Hw E|y s' Hks Hl|y q r Hkill _ _].
  - split; [done|]. intros p k [[-> ->]|[_ Hp]]%code_insert; [done|by apply (Hout p)].
  - pose proof (Hout q kq Hc) as Hh. destruct kq; try done. destruct (closed_turn _ _ _ _ _ Hr Hb E) as (-> & Hb' & _).
    split; [done|]. cbn [with_st y_code after]. intros p k [[-> ->]|[_ Hp]]%code_insert; [done|by apply (Hout p)].
  - destruct (irq_effect _ _ E) as [E1 _]. split; [|exact Hout]. cbn [with_st y_drv]. by rewrite E1.
  - by split.
  - split; [done|]. cbn [y_code]. intros p k [_ Hp]%lookup_delete_Some. by apply (Hout p).
Qed.

Lemma orphaned_forever early kills y y' : rtc (astep early kills) y y' -> orphaned y -> orphaned y'.
Proof. intros Hr. induction Hr as [|y y1 y2 Hs _ IH]; [done|]. intros Hp. by apply IH, (orphaned_step _ _ _ _ Hs). Qed.

(** Where a process inside a request may be blocked. *)
Lemma blocked_where early y : ainv early y -> forall p k, y_code y !! p = Some k -> state_of (y_tab y) p = PROCESS_BLOCKED ->
  (holds k = false /\ p ∈ g_gate_waiters (y_drv y) /\ exists q kq, q <> p /\ y_code y !! q = Some kq /\ holds kq = true) \/
  (holds k = true /\ g_irq_waiter (y_drv y) = Some p).
Proof.
  intros Hy.
  intros p k Hp Hs. pose proof (iv_procs _ _ Hy _ _ Hp) as (_ & _ & Hok). rewrite Hs in Hok.
  destruct k; try done; [left|right; by destruct Hok as (_ & ? & _)]. destruct Hok as [Hw _]. split_and!; [done|done|].
  assert (Hb : g_ata_busy (y_drv y) = true) by (apply (iv_queue _ _ Hy); intros E; rewrite E in Hw; by apply not_elem_of_nil in Hw).
  apply (iv_busy _ _ Hy) in Hb as (q & kq & Hq & Hh). exists q, kq. split_and!; [|done|done]. intros ->. rewrite Hp in Hq. injection Hq as <-. discriminate Hh.
Qed.

Lemma inside_state early y p k : ainv early y -> y_code y !! p = Some k -> live (state_of (y_tab y) p) \/ state_of (y_tab y) p = PROCESS_BLOCKED.
Proof.
  intros Hy Hp. pose proof (iv_procs _ _ Hy _ _ Hp) as (_ & _ & Hok). unfold live.
  destruct (state_of (y_tab y) p); try done; tauto.
Qed.

(** The owed interrupt wakes its waiter. *)
Lemma owed_wakes y p k : ainv false y -> y_code y !! p = Some k -> holds k = true -> state_of (y_tab y) p = PROCESS_BLOCKED ->
  y_due y = true /\ forall s', ata_irq_handler (y_st y) = Some ((), s') -> state_of (a_tab s') p = PROCESS_READY.
Proof.
  intros Hy Hp Hh Hs. pose proof (iv_procs _ _ Hy _ _ Hp) as (Hrange & _ & Hok). rewrite Hs in Hok. destruct k; try done.
  destruct Hok as (_ & Ew & Hd). split; [by apply Hd|]. intros s' [_ E]%irq_effect. rewrite E. cbn [y_st a_drv a_tab]. rewrite Ew.
  rewrite wake_state; [by rewrite Z.eqb_refl, Hs|apply (iv_sched _ _ Hy)|done|done].
Qed.
End stuck.

Lemma two_sched_ok : sched_ok two_sched.
Proof.
  assert (H0 : sched_ok (with_tab boot_sched two_tab)).
  { assert (Hs : slice_step demo_sched (with_tab demo_sched two_tab)).
    { apply (ss_spawn demo_sched 0x20000 ∅ None 0x1000000 0x1FFF000 0x400000 0 false 0x1234 two_tab (snd (fst two_spawn)) (snd two_spawn));
        [reflexivity|unfold is_u32; lia|lia|]. unfold two_tab. change (s_tab demo_sched) with demo_tab. fold two_spawn.
      by destruct two_spawn as [[? ?] ?]. }
    exact (proj1 (slice_step_ok _ _ Hs (reachable_ok _ demo_reachable))). }
  unfold two_sched. destruct (dispatch (with_tab boot_sched two_tab)) as [[s i]|] eqn:E; [|exact boot_sched_ok].
  refine (di_ok _ _ _ (dispatch_spec _ _ _ H0 _ E)). reflexivity.
Qed.

Lemma two_quiescent : quiescent two_procs.
Proof. split; [exact two_sched_ok|done]. Qed.

(** ** Exclusion survives kills *)

Section exclusion.
Context {Dv : Type} `{Ports Dv}.
Implicit Types y : asys Dv.

(** What holds even when processes are killed inside a request. *)
Definition exclusive (y : asys Dv) : Prop :=
  (forall p q kp kq, y_code y !! p = Some kp -> y_code y !! q = Some kq -> holds kp = true -> holds kq = true -> p = q) /\
  (forall p k, y_code y !! p = Some k -> holds k = true -> g_ata_busy (y_drv y) = true).

(** [p] goes on to [k'], inside the gate only if it was or if the gate was open. *)
Lemma exclusive_move y p k k' d a' s due : exclusive y -> y_code y !! p = Some k ->
  (holds k' = true -> holds k = true \/ g_ata_busy (y_drv y) = false) -> (g_ata_busy (y_drv y) = true \/ holds k' = true -> g_ata_busy a' = true) ->
  exclusive (ASys d a' s (<[p := k']> (y_code y)) due).
Proof.
  intros [Hu Hb] Hp Hk Ha.
  assert (Hmine : forall q kq, q <> p -> y_code y !! q = Some kq -> holds kq = true -> holds k' = true -> q = p).
  { intros q kq Hne Hq Hh Hh'. destruct (Hk Hh') as [E|E]; [by apply (Hu q p kq k)|]. by rewrite (Hb q kq Hq Hh) in E. }
  split; cbn [y_code y_drv].
  - intros q r kq kr [[-> ->]|[? Hq]]%code_insert [[-> ->]|[? Hr]]%code_insert E1 E2; [done| | |by apply (Hu q r kq kr)].
    + symmetry. by apply (Hmine r kr).
    + by apply (Hmine q kq).
  - intros q kq [[-> ->]|[_ Hq]]%code_insert Hh; apply Ha; [by right|left; by apply (Hb q kq)].
Qed.

(** The code of [p] is dropped. *)
Lemma exclusive_delete y p d s due : exclusive y -> exclusive (ASys d (y_drv y) s (delete p (y_code y)) due).
Proof.
  intros [Hu Hb]. split; cbn [y_code y_drv].
  - intros q r kq kr [_ Hq]%lookup_delete_Some [_ Hr]%lookup_delete_Some. by apply (Hu q r kq kr).
  - intros q kq [_ Hq]%lookup_delete_Some. by apply (Hb q kq).
Qed.

Lemma exclusive_release y p k d a' s due : exclusive y -> y_code y !! p = Some k -> holds k = true ->
  exclusive (ASys d a' s (delete p (y_code y)) due).
Proof.
  intros [Hu _] Hp Hk.
  assert (Hn : forall q kq, delete p (y_code y) !! q = Some kq -> holds kq = false).
  { intros q kq [Hne Hq]%lookup_delete_Some. destruct (holds kq) eqn:E; [|done]. destruct Hne. by apply (Hu p q k kq). }
  split; cbn [y_code y_drv].
  - intros q r kq kr Hq _ E. by rewrite (Hn _ _ Hq) in E.
  - intros q kq Hq E. by rewrite (Hn _ _ Hq) in E.
Qed.

Lemma exclusive_step early kills y y' : astep early kills y y' -> exclusive y -> exclusive y'.
Proof.
  intros Hstep Hx.
  destruct Hstep as [y p op Hr Hc _|y p k o s' Hr Hc E|y s' Hdue Hw E|y s' Hks Hl|y q r Hkill _ _].
  - destruct Hx as [Hu Hb]. split; cbn [y_code y_drv].
    + intros q r kq kr [[-> ->]|[? Hq]]%code_insert [[-> ->]|[? Hr']]%code_insert; try done. by apply (Hu q r kq kr).
    + intros q kq [[-> ->]|[_ Hq]]%code_insert; [done|by apply (Hb q)].
  - pose proof (turn_effect k (y_st y) p o s' (proj1 Hr) E) as He. unfold with_st. cbn [y_st a_drv a_tab] in He.
    assert (Hhold : holds k = true -> g_ata_busy (y_drv y) = true) by (intros; by apply (proj2 Hx p k)).
    remember (y_drv y) as a0 eqn:Ea.
    destruct He; repeat match goal with E : _ \/ _ |- _ => destruct E as [E|E] | E : exists _, _ |- _ => destruct E as [? E] end;
      subst; unfold fail; cbn [after holds] in *;
      first [eapply exclusive_release; [exact Hx|exact Hc|reflexivity]
            |eapply exclusive_move; [exact Hx|exact Hc|cbn [holds]; tauto|try (case_match; cbn; tauto); cbn; tauto]].
  - destruct (irq_effect _ _ E) as [E1 _]. unfold with_st, exclusive. cbn [y_code y_drv]. rewrite E1. exact Hx.
  - exact Hx.
  - by apply exclusive_delete.
Qed.

Lemma exclusive_reach early kills y y' : rtc (astep early kills) y y' -> exclusive y -> exclusive y'.
Proof. intros Hr. induction Hr as [|y y1 y2 Hs _ IH]; [done|]. intros Hx. by apply IH, (exclusive_step _ _ _ _ Hs). Qed.

Lemma quiescent_exclusive y : quiescent y -> exclusive y.
Proof. intros (_ & Ec & _). split; rewrite Ec; [intros p q kp kq Hp|intros p k Hp]; by rewrite lookup_empty in Hp. Qed.
End exclusion.

(** ** Properties *)


(** The run in which the second process queues behind the first. *)
Definition queued : option (asys drive) :=
  performs [Call 0 (ARead 1); Turn 0; Turn 0; Turn 0; Turn 0; Back 0; Dispatch; Call 1 (ARead 2); Turn 1; Back 1] two_procs.




(** (lost interrupt).  The wait is not free of races: a completion interrupt
    that comes between the write of the command register and [g_irq_fired = 0]
    is forgotten.  From an idle driver, one read can reach a state in which its
    process is blocked with the gate closed and no interrupt owed, and it stays
    so for ever: no later request of any process enters the gate. *)
Theorem ata_early_interrupt_is_lost :
  exists y, rtc (astep true false) two_procs y /\
    forall y', rtc (astep true false) y y' ->
      state_of (y_tab y') 0 = PROCESS_BLOCKED /\ y_due y' = false /\ g_ata_busy (y_drv y') = true /\
      forall q kq, q <> 0 -> y_code y' !! q = Some kq -> holds kq = false.
Proof.
  destruct (performs [Call 0 (ARead 1); Turn 0; Turn 0; Irq; Turn 0; Turn 0; Back 0] two_procs) as [y|] eqn:E;
    [|vm_compute in E; discriminate E].
  assert (Hr : rtc (astep true false) two_procs y) by (apply (performs_run true false) in E; [exact E|reflexivity]).
  assert (Hs : stranded 0 y).
  { vm_compute in E. injection E as <-. split; [exists ACheckRead; reflexivity|split; reflexivity]. }
  pose proof (reach_inv _ _ _ two_quiescent Hr) as Hy. clear E. exists y. split; [exact Hr|]. intros y' Hr'.
  destruct (stranded_forever _ _ _ _ Hy Hr' Hs) as [((k & Hk) & Hb & Hd) Hy']. split_and!; [done|done| |].
  - apply (iv_busy _ _ Hy'). eauto.
  - exact (others_outside _ _ _ _ Hy' Hk eq_refl).
Qed.

(** (killed holder).  Killing the process that is inside the gate leaves it
    closed: from then on, whatever happens, every process that asks for a
    sector stays at the gate. *)
Theorem ata_killed_holder_closes_gate :
  exists y, rtc (astep true true) two_procs y /\ state_of (y_tab y) 1 = PROCESS_RUNNING /\
    forall y', rtc (astep true true) y y' ->
      g_ata_busy (y_drv y') = true /\ forall p k, y_code y' !! p = Some k -> holds k = false.
Proof.
  destruct (performs [Call 0 (ARead 1); Turn 0; Turn 0; Turn 0; Turn 0; Back 0; Dispatch; Kill 1 0] two_procs) as [y|] eqn:E;
    [|vm_compute in E; discriminate E].
  assert (Hr : rtc (astep true true) two_procs y) by (apply (performs_run true true) in E; [exact E|reflexivity]).
  assert (Ho : orphaned y /\ state_of (y_tab y) 1 = PROCESS_RUNNING).
  { vm_compute in E. injection E as <-. split; [|reflexivity]. split; [reflexivity|]. intros p k Hp. cbn [y_code] in Hp.
    change ((∅ : gmap Z ata_kont) !! p = Some k) in Hp. by rewrite lookup_empty in Hp. }
  destruct Ho as [Ho H1]. clear E. exists y. split_and!; [exact Hr|exact H1|]. intros y' Hr'. exact (orphaned_forever _ _ _ _ Hr' Ho).
Qed.
