(* ===== verification/Stdio.v ===== *)
(** * The printf family ([user/lib/nosstdio.c])

    One formatter over two sinks: the memory sink of [snprintf] and [sprintf],
    which stores what fits and counts everything, and the output sink of
    [printf], which stages 128 characters and writes them to descriptor 1.  A
    C string is the list of its bytes before the NUL; an argument of a variadic
    call is a [varg], and reading one at another type is undefined, as are
    signed overflow and a store outside a buffer.  The format is read with one
    unit of fuel per character. *)

From Stdlib Require Import ZArith Lia ZifyBool Ascii String.
From stdpp Require Import base tactics numbers list option.
From S2P Require Import Prelude.
Local Open Scope Z_scope.

Definition INT_MAX : Z := 2 ^ 31 - 1.

(** The value of a [short] and of a [signed char]. *)
Definition to_short (v : Z) : Z := (v + 2 ^ 15) mod 2 ^ 16 - 2 ^ 15.
Definition to_schar (v : Z) : Z := (v + 2 ^ 7) mod 2 ^ 8 - 2 ^ 7.

(** What a caller passes: an [int], a [char *] (or NULL), another pointer. *)
Inductive varg := VInt (v : Z) | VStr (s : option (list Z)) | VPtr (a : Z).

Record spec_t := Spec {
  sp_left : bool;
  sp_zero : bool;
  sp_plus : bool;
  sp_space : bool;
  sp_width : Z;
  sp_prec : Z
}.
Definition spec0 : spec_t := Spec false false false false (-1) (-1).
Definition set_left (s : spec_t) : spec_t := Spec true (sp_zero s) (sp_plus s) (sp_space s) (sp_width s) (sp_prec s).
Definition set_zero (s : spec_t) : spec_t := Spec (sp_left s) true (sp_plus s) (sp_space s) (sp_width s) (sp_prec s).
Definition set_plus (s : spec_t) : spec_t := Spec (sp_left s) (sp_zero s) true (sp_space s) (sp_width s) (sp_prec s).
Definition set_space (s : spec_t) : spec_t := Spec (sp_left s) (sp_zero s) (sp_plus s) true (sp_width s) (sp_prec s).
Definition set_width (w : Z) (s : spec_t) : spec_t := Spec (sp_left s) (sp_zero s) (sp_plus s) (sp_space s) w (sp_prec s).
Definition set_prec (p : Z) (s : spec_t) : spec_t := Spec (sp_left s) (sp_zero s) (sp_plus s) (sp_space s) (sp_width s) p.

(** ** Reading a conversion specification *)

Fixpoint parse_flags (sp : spec_t) (fmt : list Z) : spec_t * list Z :=
  match fmt with
  | c :: rest =>
      if c =? 45 then parse_flags (set_left sp) rest
      else if c =? 48 then parse_flags (set_zero sp) rest
      else if c =? 43 then parse_flags (set_plus sp) rest
      else if c =? 32 then parse_flags (set_space sp) rest
      else (sp, fmt)
  | [] => (sp, [])
  end.

Definition is_digit (c : Z) : bool := (48 <=? c) && (c <=? 57).

(** The loops over the digits of a width or a precision. *)
Fixpoint number_loop (n : Z) (fmt : list Z) : Z * list Z :=
  match fmt with
  | c :: rest =>
      if is_digit c then
        let n := if n <? 0 then 0 else n in
        number_loop (if n <? 100000 then n * 10 + (c - 48) else n) rest
      else (n, fmt)
  | [] => (n, [])
  end.

Definition parse_width (sp : spec_t) (fmt : list Z) (ap : list varg) : option (spec_t * list Z * list varg) :=
  match fmt with
  | 42 :: rest =>
      match ap with
      | VInt w :: ap =>
          if w <? 0 then
            if - w <=? INT_MAX then Some (set_width (- w) (set_left sp), rest, ap) else None
          else Some (set_width w sp, rest, ap)
      | _ => None
      end
  | _ => let '(w, rest) := number_loop (sp_width sp) fmt in Some (set_width w sp, rest, ap)
  end.

Definition parse_prec (sp : spec_t) (fmt : list Z) (ap : list varg) : option (spec_t * list Z * list varg) :=
  match fmt with
  | 46 :: 42 :: rest =>
      match ap with
      | VInt p :: ap => Some (set_prec (if p <? 0 then -1 else p) sp, rest, ap)
      | _ => None
      end
  | 46 :: rest => let '(p, rest) := number_loop 0 rest in Some (set_prec p sp, rest, ap)
  | _ => Some (sp, fmt, ap)
  end.

(** [ll], [lm] and the rest. *)
Definition parse_length (fmt : list Z) : bool * Z * list Z :=
  match fmt with
  | 104 :: 104 :: rest => (false, 2, rest)
  | 104 :: rest => (false, 1, rest)
  | 108 :: 108 :: rest => (true, 0, rest)
  | 108 :: rest => (false, 0, rest)
  | _ => (false, 0, fmt)
  end.

(** ** The formatter *)

(** The digits of [v], the lowest first, in an array of [room]. *)
Fixpoint digits_loop (room : nat) (base v : Z) : option (list Z) :=
  if v =? 0 then Some []
  else
    match room with
    | O => None
    | S room => match digits_loop room base (v / base) with Some ds => Some (v mod base :: ds) | None => None end
    end.
Definition digit_char (upper : bool) (d : Z) : Z :=
  if d <? 10 then 48 + d else (if upper then 65 else 97) + (d - 10).

Section formatter.
Context {S : Type} (put : Z -> cM S ()).
Local Notation M := (cM S).

Fixpoint put_all (l : list Z) : M () :=
  match l with [] => mret () | c :: l => put c;; put_all l end.

Fixpoint pad_loop (c : Z) (n : nat) : M () :=
  match n with O => mret () | Datatypes.S n => put c;; pad_loop c n end.
Definition pad (c n : Z) : M () := pad_loop c (Z.to_nat n).

Definition emit_number (sp : spec_t) (v base : Z) (upper : bool) (sign : Z) (prefix : list Z) : M () :=
  match (if v =? 0 then Some (if negb (sp_prec sp =? 0) then [0] else []) else digits_loop 12 base v) with
  | None => undefined
  | Some digits =>
      let nd := zlen digits in
      let zeros := if nd <? sp_prec sp then sp_prec sp - nd else 0 in
      let plen := zlen prefix in
      let total := nd + zeros + plen + (if negb (sign =? 0) then 1 else 0) in
      if INT_MAX <? total then undefined
      else
        let fill := if total <? sp_width sp then sp_width sp - total else 0 in
        let zero_pad := sp_zero sp && negb (sp_left sp) && (sp_prec sp <? 0) in
        (if negb (sp_left sp) && negb zero_pad then pad 32 fill else mret ());;
        (if negb (sign =? 0) then put sign else mret ());;
        put_all prefix;;
        (if zero_pad then pad 48 fill else mret ());;
        pad 48 zeros;;
        put_all (reverse (digit_char upper <$> digits));;
        (if sp_left sp then pad 32 fill else mret ())
  end.

Definition emit_string (sp : spec_t) (str : option (list Z)) : M () :=
  let str := match str with Some str => str | None => cstr "(null)" end in
  let n := if sp_prec sp <? 0 then zlen str else Z.min (zlen str) (sp_prec sp) in
  if INT_MAX <? n then undefined
  else
    let fill := if n <? sp_width sp then sp_width sp - n else 0 in
    (if negb (sp_left sp) then pad 32 fill else mret ());;
    put_all (take (Z.to_nat n) str);;
    (if sp_left sp then pad 32 fill else mret ()).

(** The [switch] on the conversion character; [lit] is the text of the whole
    specification. *)
Definition convert (sp : spec_t) (ll : bool) (lm c : Z) (lit : list Z) (ap : list varg) : M (list varg) :=
  let c := if ll && ((c =? 100) || (c =? 105) || (c =? 117) || (c =? 120) || (c =? 88)) then 63 else c in
  if (c =? 100) || (c =? 105) then
    match ap with
    | VInt v :: ap =>
        let v := if lm =? 1 then to_short v else if lm =? 2 then to_schar v else v in
        let mag := if v <? 0 then u32 (0 - u32 v) else u32 v in
        let sign := if v <? 0 then 45 else if sp_plus sp then 43 else if sp_space sp then 32 else 0 in
        emit_number sp mag 10 false sign [];; mret ap
    | _ => undefined
    end
  else if (c =? 117) || (c =? 120) || (c =? 88) then
    match ap with
    | VInt v :: ap =>
        let v := u32 v in
        let v := if lm =? 1 then u16 v else if lm =? 2 then u8 v else v in
        emit_number sp v (if c =? 117 then 10 else 16) (c =? 88) 0 [];; mret ap
    | _ => undefined
    end
  else if c =? 112 then
    match ap with
    | VPtr a :: ap => emit_number (set_prec (-1) sp) a 16 false 0 (cstr "0x");; mret ap
    | _ => undefined
    end
  else if c =? 99 then
    match ap with
    | VInt v :: ap =>
        let fill := if 1 <? sp_width sp then sp_width sp - 1 else 0 in
        (if negb (sp_left sp) then pad 32 fill else mret ());;
        put (u8 v);;
        (if sp_left sp then pad 32 fill else mret ());;
        mret ap
    | _ => undefined
    end
  else if c =? 115 then
    match ap with
    | VStr s :: ap => emit_string sp s;; mret ap
    | _ => undefined
    end
  else if c =? 37 then put 37;; mret ap
  else put_all lit;; mret ap.

Fixpoint format (fuel : nat) (fmt : list Z) (ap : list varg) : M () :=
  match fuel with
  | O => undefined
  | Datatypes.S fuel =>
      match fmt with
      | [] => mret ()
      | 37 :: rest =>
          let '(sp, rest) := parse_flags spec0 rest in
          match parse_width sp rest ap with
          | None => undefined
          | Some (sp, rest, ap) =>
              match parse_prec sp rest ap with
              | None => undefined
              | Some (sp, rest, ap) =>
                  let '(ll, lm, rest) := parse_length rest in
                  match rest with
                  | [] => put_all fmt
                  | c :: rest =>
                      ap ← convert sp ll lm c (take (length fmt - length rest) fmt) ap;
                      format fuel rest ap
                  end
              end
          end
      | c :: rest => put c;; format fuel rest ap
      end
  end.
Definition format_all (fmt : list Z) (ap : list varg) : M () := format (Datatypes.S (length fmt)) fmt ap.
End formatter.

(** ** The memory sink *)

Record mem_sink := MemSink { ms_buf : list Z; ms_cap : Z; ms_len : Z }.

Definition put_mem (c : Z) : cM mem_sink () := fun s =>
  let len := u32 (ms_len s + 1) in
  if negb (ms_cap s =? 0) && (u32 (ms_len s + 1) <? ms_cap s) then
    if ms_len s <? zlen (ms_buf s) then Some ((), MemSink (ms_buf s).[ms_len s := c] (ms_cap s) len) else None
  else Some ((), MemSink (ms_buf s) (ms_cap s) len).

(** The returned [int] and the buffer. *)
Definition vsnprintf (buf : list Z) (size : Z) (fmt : list Z) (ap : list varg) : option (Z * list Z) :=
  match format_all put_mem fmt ap (MemSink buf size 0) with
  | None => None
  | Some (_, s) =>
      let r := if ms_len s <=? INT_MAX then ms_len s else ms_len s - 2 ^ 32 in
      if size =? 0 then Some (r, ms_buf s)
      else
        let i := if ms_len s <? size then ms_len s else size - 1 in
        if i <? zlen (ms_buf s) then Some (r, (ms_buf s).[i := 0]) else None
  end.
Definition snprintf := vsnprintf.
Definition sprintf (buf fmt : list Z) (ap : list varg) : option (Z * list Z) := vsnprintf buf INT_MAX fmt ap.

(** ** The output sink *)

(** [os_out]: what was written to descriptor 1, one list per call. *)
Record out_sink := OutSink { os_buf : list Z; os_len : Z; os_out : list (list Z) }.
Definition STAGE : Z := 128.

Definition put_out (c : Z) : cM out_sink () := fun s =>
  let buf := (os_buf s).[os_len s mod STAGE := c] in
  let len := u32 (os_len s + 1) in
  Some ((), OutSink buf len (if len mod STAGE =? 0 then os_out s ++ [buf] else os_out s)).
Definition flush_out (s : out_sink) : list (list Z) :=
  let staged := os_len s mod STAGE in
  if negb (staged =? 0) then os_out s ++ [take (Z.to_nat staged) (os_buf s)] else os_out s.

Definition vprintf (stage fmt : list Z) (ap : list varg) : option (Z * list (list Z)) :=
  match format_all put_out fmt ap (OutSink stage 0 []) with
  | None => None
  | Some (_, s) => Some (if os_len s <=? INT_MAX then os_len s else os_len s - 2 ^ 32, flush_out s)
  end.
Definition printf := vprintf.

Example format_demo :
  vsnprintf (replicate 30 63) 30 (cstr "%-5d|%05d|%+.3d|%#x|%s%%") [VInt 42; VInt (-42); VInt 7; VStr (Some (cstr "ok"))] =
  Some (24, cstr "42   |-0042|+007|%#x|ok%" ++ [0] ++ replicate 5 63).
Proof. vm_compute. reflexivity. Qed.

(** ** The text a call produces *)

Definition chars (c n : Z) : list Z := replicate (Z.to_nat n) c.

Definition number_text (sp : spec_t) (v base : Z) (upper : bool) (sign : Z) (prefix : list Z) : option (list Z) :=
  match (if v =? 0 then Some (if negb (sp_prec sp =? 0) then [0] else []) else digits_loop 12 base v) with
  | None => None
  | Some digits =>
      let nd := zlen digits in
      let zeros := if nd <? sp_prec sp then sp_prec sp - nd else 0 in
      let total := nd + zeros + zlen prefix + (if negb (sign =? 0) then 1 else 0) in
      if INT_MAX <? total then None
      else
        let fill := if total <? sp_width sp then sp_width sp - total else 0 in
        let zero_pad := sp_zero sp && negb (sp_left sp) && (sp_prec sp <? 0) in
        Some ((if negb (sp_left sp) && negb zero_pad then chars 32 fill else []) ++
              (if negb (sign =? 0) then [sign] else []) ++ prefix ++
              (if zero_pad then chars 48 fill else []) ++ chars 48 zeros ++
              reverse (digit_char upper <$> digits) ++ (if sp_left sp then chars 32 fill else []))
  end.

Definition string_text (sp : spec_t) (str : option (list Z)) : option (list Z) :=
  let str := match str with Some str => str | None => cstr "(null)" end in
  let n := if sp_prec sp <? 0 then zlen str else Z.min (zlen str) (sp_prec sp) in
  if INT_MAX <? n then None
  else
    let fill := if n <? sp_width sp then sp_width sp - n else 0 in
    Some ((if negb (sp_left sp) then chars 32 fill else []) ++ take (Z.to_nat n) str ++ (if sp_left sp then chars 32 fill else [])).

Definition convert_text (sp : spec_t) (ll : bool) (lm c : Z) (lit : list Z) (ap : list varg) : option (list Z * list varg) :=
  let c := if ll && ((c =? 100) || (c =? 105) || (c =? 117) || (c =? 120) || (c =? 88)) then 63 else c in
  if (c =? 100) || (c =? 105) then
    match ap with
    | VInt v :: ap =>
        let v := if lm =? 1 then to_short v else if lm =? 2 then to_schar v else v in
        let mag := if v <? 0 then u32 (0 - u32 v) else u32 v in
        let sign := if v <? 0 then 45 else if sp_plus sp then 43 else if sp_space sp then 32 else 0 in
        t ← number_text sp mag 10 false sign []; Some (t, ap)
    | _ => None
    end
  else if (c =? 117) || (c =? 120) || (c =? 88) then
    match ap with
    | VInt v :: ap =>
        let v := u32 v in
        let v := if lm =? 1 then u16 v else if lm =? 2 then u8 v else v in
        t ← number_text sp v (if c =? 117 then 10 else 16) (c =? 88) 0 []; Some (t, ap)
    | _ => None
    end
  else if c =? 112 then
    match ap with
    | VPtr a :: ap => t ← number_text (set_prec (-1) sp) a 16 false 0 (cstr "0x"); Some (t, ap)
    | _ => None
    end
  else if c =? 99 then
    match ap with
    | VInt v :: ap =>
        let fill := if 1 <? sp_width sp then sp_width sp - 1 else 0 in
        Some ((if negb (sp_left sp) then chars 32 fill else []) ++ [u8 v] ++ (if sp_left sp then chars 32 fill else []), ap)
    | _ => None
    end
  else if c =? 115 then
    match ap with
    | VStr s :: ap => t ← string_text sp s; Some (t, ap)
    | _ => None
    end
  else if c =? 37 then Some ([37], ap)
  else Some (lit, ap).

Fixpoint format_text (fuel : nat) (fmt : list Z) (ap : list varg) : option (list Z) :=
  match fuel with
  | O => None
  | S fuel =>
      match fmt with
      | [] => Some []
      | 37 :: rest =>
          let '(sp, rest) := parse_flags spec0 rest in
          '(sp, rest, ap) ← parse_width sp rest ap;
          '(sp, rest, ap) ← parse_prec sp rest ap;
          let '(ll, lm, rest) := parse_length rest in
          match rest with
          | [] => Some fmt
          | c :: rest =>
              '(t, ap) ← convert_text sp ll lm c (take (length fmt - length rest) fmt) ap;
              t' ← format_text fuel rest ap;
              Some (t ++ t')
          end
      | c :: rest => t ← format_text fuel rest ap; Some (c :: t)
      end
  end.
Definition text (fmt : list Z) (ap : list varg) : option (list Z) := format_text (S (length fmt)) fmt ap.

(** The formatter puts that text into its sink. *)
Section puts.
Context {S : Type} (put : Z -> cM S ()).

Definition does (m : cM S ()) (t : list Z) : Prop := forall s, m s = put_all put t s.

Lemma does_nil : does (mret ()) [].
Proof. done. Qed.
Lemma does_put c : does (put c) [c].
Proof. intros s. cbn [put_all]. unfold mbind, cM_bind. by destruct (put c s) as [[[] s']|]. Qed.
Lemma does_all t : does (put_all put t) t.
Proof. done. Qed.
Lemma does_bind m n t u : does m t -> does n u -> does (m;; n) (t ++ u).
Proof.
  intros Hm Hn s. unfold mbind, cM_bind. rewrite Hm. clear Hm. revert s. induction t as [|c t IH]; intros s; cbn [app put_all].
  - unfold mret, cM_ret. apply Hn.
  - unfold mbind, cM_bind. destruct (put c s) as [[[] s']|]; [apply IH|done].
Qed.
Lemma does_if (b : bool) m t : does m t -> does (if b then m else mret ()) (if b then t else []).
Proof. by destruct b. Qed.
Lemma does_pad c n : does (pad put c n) (chars c n).
Proof.
  unfold pad, chars. induction (Z.to_nat n) as [|k IH]; [apply does_nil|]. intros s. cbn [pad_loop replicate put_all].
  unfold mbind, cM_bind. destruct (put c s) as [[[] s']|]; [apply IH|done].
Qed.

(** ... or is undefined with it. *)
Definition emits (m : cM S ()) (t : option (list Z)) : Prop :=
  match t with Some t => does m t | None => forall s, m s = None end.

Lemma emits_number sp v base upper sign prefix :
  emits (emit_number put sp v base upper sign prefix) (number_text sp v base upper sign prefix).
Proof.
  unfold emit_number, number_text. destruct (if v =? 0 then _ else _) as [ds|]; [|done]. cbv zeta.
  destruct (INT_MAX <? _); [done|]. cbn [emits].
  apply does_bind; [apply does_if, does_pad|]. apply does_bind; [apply does_if, does_put|].
  apply does_bind; [apply does_all|]. apply does_bind; [apply does_if, does_pad|]. apply does_bind; [apply does_pad|].
  apply does_bind; [apply does_all|apply does_if, does_pad].
Qed.

Lemma emits_string sp str : emits (emit_string put sp str) (string_text sp str).
Proof.
  unfold emit_string, string_text. cbv zeta. destruct (INT_MAX <? _); [done|]. cbn [emits].
  apply does_bind; [apply does_if, does_pad|]. apply does_bind; [apply does_all|apply does_if, does_pad].
Qed.

(** The same for computations that return the arguments left. *)
Definition yields (m : cM S (list varg)) (r : option (list Z * list varg)) : Prop :=
  match r with
  | Some (t, ap) => forall s, m s = (put_all put t;; mret ap) s
  | None => forall s, m s = None
  end.

Lemma yields_emits m t ap : emits m t -> yields (m;; mret ap) (t ← t; Some (t, ap)).
Proof.
  destruct t as [t|]; intros Hm s; unfold mbind at 1, cM_bind at 1; rewrite Hm; done.
Qed.

Lemma yields_three (a b c : cM S ()) t ap : does (a;; b;; c) t -> yields (a;; b;; c;; mret ap) (Some (t, ap)).
Proof.
  intros Hd s. unfold mbind at 4, cM_bind at 4. rewrite <- Hd. unfold mbind, cM_bind.
  destruct (a s) as [[[] s1]|]; [|done]. destruct (b s1) as [[[] s2]|]; [|done]. by destruct (c s2) as [[[] s3]|].
Qed.

Lemma yields_convert sp ll lm c lit ap : yields (convert put sp ll lm c lit ap) (convert_text sp ll lm c lit ap).
Proof.
  unfold convert, convert_text. cbv zeta. set (k := if ll && _ then 63 else c). clearbody k.
  destruct ((k =? 100) || (k =? 105)); [destruct ap as [|[]]; try done; apply yields_emits, emits_number|].
  destruct ((k =? 117) || (k =? 120) || (k =? 88)); [destruct ap as [|[]]; try done; apply yields_emits, emits_number|].
  destruct (k =? 112); [destruct ap as [|[]]; try done; apply yields_emits, emits_number|].
  destruct (k =? 99).
  { destruct ap as [|[v|?|?] ap]; try done. set (fill := if 1 <? sp_width sp then _ else _).
    assert (Hd : does ((if negb (sp_left sp) then pad put 32 fill else mret ());; put (u8 v);; (if sp_left sp then pad put 32 fill else mret ()))
      ((if negb (sp_left sp) then chars 32 fill else []) ++ [u8 v] ++ (if sp_left sp then chars 32 fill else []))).
    { apply does_bind; [apply does_if, does_pad|]. apply does_bind; [apply does_put|apply does_if, does_pad]. }
    by apply yields_three. }
  destruct (k =? 115); [destruct ap as [|[]]; try done; apply yields_emits, emits_string|].
  destruct (k =? 37); [|done]. exact (yields_emits (put 37) (Some [37]) ap (does_put 37)).
Qed.

Lemma format_puts fuel : forall fmt ap, emits (format put fuel fmt ap) (format_text fuel fmt ap).
Proof.
  induction fuel as [|fuel IH]; intros fmt ap; [done|]. destruct fmt as [|c rest]; [done|].
  destruct (decide (c = 37)) as [->|Hc].
  - unfold format, format_text; fold (@format S put); fold format_text. set (all := 37 :: rest).
    destruct (parse_flags spec0 rest) as [sp1 r1]. destruct (parse_width sp1 r1 ap) as [[[sp2 r2] ap2]|]; [|done].
    cbn [mbind option_bind]. destruct (parse_prec sp2 r2 ap2) as [[[sp3 r3] ap3]|]; [|done]. cbn [mbind option_bind].
    destruct (parse_length r3) as [[ll lm] [|c r4]]; [done|].
    pose proof (yields_convert sp3 ll lm c (take (length all - length r4) all) ap3) as Hy.
    destruct (convert_text sp3 ll lm c (take (length all - length r4) all) ap3) as [[t ap4]|]; cbn [mbind option_bind yields] in *.
    + specialize (IH r4 ap4). assert (E : forall s, (ap' ← convert put sp3 ll lm c (take (length all - length r4) all) ap3; format put fuel r4 ap') s =
        (put_all put t;; format put fuel r4 ap4) s).
      { intros s. unfold mbind at 1, cM_bind at 1. rewrite Hy. unfold mbind, cM_bind. by destruct (put_all put t s) as [[[] s']|]. }
      destruct (format_text fuel r4 ap4) as [t'|]; cbn [mbind option_bind emits] in *.
      * intros s. rewrite E. by apply does_bind.
      * intros s. rewrite E. unfold mbind, cM_bind. destruct (put_all put t s) as [[[] s']|]; [apply IH|done].
    + intros s. unfold mbind, cM_bind. by rewrite Hy.
  - assert (E1 : format put (Datatypes.S fuel) (c :: rest) ap = (put c;; format put fuel rest ap)).
    { cbn [format]. destruct c as [|c|c]; try done. do 7 (destruct c as [c|c|]; try done). }
    assert (E2 : format_text (Datatypes.S fuel) (c :: rest) ap = (t ← format_text fuel rest ap; Some (c :: t))).
    { cbn [format_text]. destruct c as [|c|c]; try done. do 7 (destruct c as [c|c|]; try done). }
    rewrite E1, E2. specialize (IH rest ap). destruct (format_text fuel rest ap) as [t|]; cbn [mbind option_bind emits] in *.
    + apply (does_bind _ _ [c] t (does_put c) IH).
    + intros s. unfold mbind, cM_bind. destruct (put c s) as [[[] s']|]; [apply IH|done].
Qed.

Lemma format_all_puts fmt ap t : text fmt ap = Some t -> does (format_all put fmt ap) t.
Proof. intros E. pose proof (format_puts (Datatypes.S (length fmt)) fmt ap) as H. unfold text in E. by rewrite E in H. Qed.
End puts.

(** ** The two sinks *)

Lemma zset_here {A} (u : list A) (x c : A) (r : list A) : zset (u ++ x :: r) (zlen u) c = u ++ c :: r.
Proof. unfold zset, zlen. rewrite Nat2Z.id. by rewrite (insert_app_r_alt _ _ _ _ (Nat.le_refl _)), Nat.sub_diag. Qed.

(** What the memory sink keeps of [u]. *)
Definition kept (cap : Z) (u : list Z) : list Z := take (Z.to_nat (cap - 1)) u.
Definition mem_after (buf : list Z) (cap : Z) (u : list Z) : mem_sink :=
  MemSink (kept cap u ++ drop (length (kept cap u)) buf) cap (zlen u).

Lemma put_mem_step buf cap u c : zlen u + 1 < 2 ^ 32 -> (zlen u + 1 < cap -> zlen u < zlen buf) ->
  put_mem c (mem_after buf cap u) = Some ((), mem_after buf cap (u ++ [c])).
Proof.
  intros Hu Hb. unfold put_mem, mem_after. cbn [ms_len ms_cap ms_buf]. assert (0 <= zlen u) by (unfold zlen; lia).
  rewrite (u32_small (zlen u + 1)) by lia. rewrite (zlen_app u [c]). change (zlen [c]) with 1.
  destruct (Z.ltb_spec (zlen u + 1) cap) as [Hlt|Hge].
  - replace (negb (cap =? 0)) with true by lia. cbn [andb]. specialize (Hb Hlt).
    assert (Ek : kept cap u = u) by (unfold kept; apply take_ge; unfold zlen in *; lia).
    assert (Ek' : kept cap (u ++ [c]) = u ++ [c]) by (unfold kept; apply take_ge; rewrite length_app; unfold zlen in *; cbn; lia).
    rewrite Ek, Ek'. destruct (drop (length u) buf) as [|x r] eqn:Ed.
    { apply (f_equal length) in Ed. rewrite length_drop in Ed. unfold zlen in *. cbn [length] in Ed. lia. }
    rewrite zlen_app. replace (zlen u <? _) with true by (unfold zlen; cbn [length]; lia). do 3 f_equal.
    rewrite zset_here, <- app_assoc. f_equal. cbn [app]. f_equal. rewrite length_app, Nat.add_comm. cbn [length Nat.add].
    rewrite <- Nat.add_1_r, <- drop_drop, Ed. done.
  - replace (negb (cap =? 0) && false) with false by (by rewrite andb_false_r).
    assert (Ek : kept cap (u ++ [c]) = kept cap u) by (unfold kept; apply take_app_le; unfold zlen in *; lia).
    by rewrite Ek.
Qed.

Lemma put_mem_all buf cap t : forall u, zlen u + zlen t < 2 ^ 32 -> Z.min (zlen u + zlen t) (cap - 1) <= zlen buf ->
  put_all put_mem t (mem_after buf cap u) = Some ((), mem_after buf cap (u ++ t)).
Proof.
  induction t as [|c t IH]; intros u Hl Hb; cbn [put_all]; [by rewrite app_nil_r|].
  assert (zlen (c :: t) = zlen t + 1) as Et by (unfold zlen; cbn [length]; lia). assert (0 <= zlen t) by (unfold zlen; lia).
  unfold mbind, cM_bind. rewrite put_mem_step by lia. rewrite IH; [by rewrite <- app_assoc|..]; rewrite zlen_app; change (zlen [c]) with 1; lia.
Qed.

Lemma snprintf_run buf size fmt ap t : text fmt ap = Some t -> zlen t <= INT_MAX -> 0 <= size < 2 ^ 32 ->
  (size = 0 \/ Z.min (zlen t) (size - 1) < zlen buf) ->
  vsnprintf buf size fmt ap =
    Some (zlen t, if size =? 0 then buf else kept size t ++ [0] ++ drop (S (length (kept size t))) buf).
Proof.
  intros Et Hl Hs Hb. unfold vsnprintf. rewrite (format_all_puts put_mem fmt ap t Et). unfold INT_MAX in *.
  assert (0 <= zlen t) by (unfold zlen; lia).
  change (MemSink buf size 0) with (MemSink (drop 0 buf) size 0).
  assert (E0 : MemSink (drop 0 buf) size 0 = mem_after buf size []) by (unfold mem_after, kept; by rewrite take_nil). rewrite E0.
  rewrite put_mem_all by (change (zlen []) with 0; unfold zlen in *; lia). cbn [app mem_after ms_len ms_buf].
  replace (zlen t <=? 2 ^ 31 - 1) with true by lia. destruct (Z.eqb_spec size 0) as [->|Hne].
  { unfold kept. by rewrite take_0. }
  destruct Hb as [?|Hb]; [done|].
  assert (Ei : (if zlen t <? size then zlen t else size - 1) = zlen (kept size t)).
  { unfold kept, zlen in *. rewrite length_take. destruct (Z.ltb_spec (Z.of_nat (length t)) size); lia. }
  assert (Hk : zlen (kept size t) < zlen buf) by (unfold kept, zlen in *; rewrite length_take; lia).
  rewrite Ei, zlen_app.
  destruct (drop (length (kept size t)) buf) as [|x r] eqn:Ed.
  { apply (f_equal length) in Ed. rewrite length_drop in Ed. unfold zlen in *. cbn in Ed. lia. }
  replace (_ <? _) with true by (unfold zlen in *; cbn [length]; lia).
  rewrite zset_here. cbn [app]. do 4 f_equal. rewrite <- Nat.add_1_r, <- drop_drop, Ed. done.
Qed.

(** The output sink after [u]: full stages were written, the rest is staged. *)
Record out_after (u : list Z) (s : out_sink) : Prop := {
  oa_len : os_len s = zlen u;
  oa_stage : length (os_buf s) = 128%nat;
  oa_out : concat (os_out s) ++ take (Z.to_nat (zlen u mod 128)) (os_buf s) = u;
  oa_full : Forall (fun c : list Z => length c = 128%nat) (os_out s)
}.

Lemma put_out_step u c s : out_after u s -> zlen u + 1 < 2 ^ 32 -> exists s', put_out c s = Some ((), s') /\ out_after (u ++ [c]) s'.
Proof.
  intros [El Es Eo Ef] Hu. assert (0 <= zlen u) by (unfold zlen; lia). eexists. split; [done|]. unfold STAGE. rewrite El.
  rewrite u32_small by lia. set (i := zlen u mod 128) in *. assert (Hi : 0 <= i < 128) by (apply Z.mod_pos_bound; lia).
  assert (Hsub : take (Z.to_nat (i + 1)) (os_buf s).[i := c] = take (Z.to_nat i) (os_buf s) ++ [c]).
  { unfold zset. replace (Z.to_nat (i + 1)) with (S (Z.to_nat i)) by lia.
    rewrite (take_S_r _ _ c); [by rewrite take_insert_ge|]. apply list_lookup_insert_eq. lia. }
  assert (Hnext : (zlen u + 1) mod 128 = if i =? 127 then 0 else i + 1).
  { pose proof (Z.div_mod (zlen u) 128 ltac:(lia)) as Hd. fold i in Hd. destruct (Z.eqb_spec i 127).
    - replace (zlen u + 1) with (0 + (zlen u / 128 + 1) * 128) by lia. by rewrite Z.mod_add by lia.
    - symmetry. apply (Z.mod_unique _ _ (zlen u / 128)); lia. }
  rewrite Hnext. assert (Elen : zlen (u ++ [c]) = zlen u + 1) by (rewrite zlen_app; done).
  split; cbn [os_len os_buf os_out].
  - done.
  - unfold zset. by rewrite length_insert.
  - rewrite Elen, Hnext. destruct (Z.eqb_spec i 127) as [Ei|Hne].
    + replace (0 =? 0) with true by done. rewrite take_0, app_nil_r, concat_app. cbn [concat]. rewrite app_nil_r.
      rewrite Ei in *. change (Z.to_nat (127 + 1)) with 128%nat in Hsub. rewrite take_ge in Hsub by (unfold zset; rewrite length_insert; lia).
      rewrite Hsub, app_assoc. by rewrite Eo.
    + replace (i + 1 =? 0) with false by lia. rewrite Hsub, app_assoc. by rewrite Eo.
  - destruct (_ =? 0); [|done]. apply Forall_app. split; [done|]. constructor; [|constructor]. unfold zset. by rewrite length_insert.
Qed.

Lemma put_out_all t : forall u s, out_after u s -> zlen u + zlen t < 2 ^ 32 ->
  exists s', put_all put_out t s = Some ((), s') /\ out_after (u ++ t) s'.
Proof.
  induction t as [|c t IH]; intros u s Hs Hl; cbn [put_all]; [rewrite app_nil_r; by eexists|].
  assert (zlen (c :: t) = zlen t + 1) as Et by (unfold zlen; cbn [length]; lia). assert (0 <= zlen t) by (unfold zlen; lia).
  destruct (put_out_step u c s Hs ltac:(lia)) as (s1 & E1 & H1).
  destruct (IH (u ++ [c]) s1 H1) as (s2 & E2 & H2); [rewrite zlen_app; change (zlen [c]) with 1; lia|].
  exists s2. unfold mbind, cM_bind. rewrite E1. rewrite <- app_assoc in H2. by split.
Qed.

Lemma printf_run stage fmt ap t : text fmt ap = Some t -> zlen t <= INT_MAX -> length stage = 128%nat ->
  exists chunks, vprintf stage fmt ap = Some (zlen t, chunks) /\ concat chunks = t /\
    Forall (fun c : list Z => (0 < length c <= 128)%nat) chunks.
Proof.
  intros Et Hl Hst. unfold vprintf. rewrite (format_all_puts put_out fmt ap t Et). unfold INT_MAX in *.
  assert (H0 : out_after [] (OutSink stage 0 [])) by (split; done).
  destruct (put_out_all t [] _ H0) as (s & E & [El Es Eo Ef]); [change (zlen []) with 0; lia|]. rewrite E. cbn [app] in *.
  rewrite El. replace (zlen t <=? 2 ^ 31 - 1) with true by lia. eexists. split; [done|]. unfold flush_out, STAGE. rewrite El.
  assert (Hf : Forall (fun c : list Z => (0 < length c <= 128)%nat) (os_out s)) by (revert Ef; apply Forall_impl; intros c Hc; cbv beta in *; lia).
  assert (0 <= zlen t) by (unfold zlen; lia). pose proof (Z.mod_pos_bound (zlen t) 128 ltac:(lia)).
  destruct (Z.eqb_spec (zlen t mod 128) 0) as [E0|Hne]; cbn [negb].
  - rewrite E0, take_0, app_nil_r in Eo. by split.
  - rewrite concat_app. cbn [concat]. rewrite app_nil_r. split; [done|]. apply Forall_app. split; [done|].
    constructor; [|constructor]. rewrite length_take. lia.
Qed.

(** ** What the C standard says a format means *)

Inductive flag := FMinus | FZero | FPlus | FSpace.
#[export] Instance flag_eq_dec : EqDecision flag.
Proof. solve_decision. Defined.
(** A field width or a precision: none, a number written with some leading zeros
    ([%.0d] has [Number 1 0], [%.d] has [Number 0 0]), or [*]. *)
Inductive amount := Absent | Number (zeros : nat) (n : Z) | Star.
Inductive len_mod := LNone | Lh | Lhh | Ll.
Inductive conv := Cd | Ci | Cu | Cx | CX | Cp | Cc | Cs | Cpercent.
#[export] Instance conv_eq_dec : EqDecision conv.
Proof. solve_decision. Defined.
Record directive := Dir {
  d_flags : list flag;
  d_width : amount;
  d_prec : amount;
  d_len : len_mod;
  d_conv : conv
}.
Inductive item := Lit (c : Z) | Conv (d : directive).

(** The digits of a number, the highest first and the first one nonzero. *)
Fixpoint show (n : nat) (base : Z) (upper : bool) (v : Z) : list Z :=
  match n with
  | O => []
  | S n => if v =? 0 then [] else show n base upper (v / base) ++ [digit_char upper (v mod base)]
  end.

(** At least [prec] digits, by default one. *)
Definition c99_digits (base : Z) (upper : bool) (prec : option Z) (v : Z) : list Z :=
  let ds := show 32 base upper v in chars 48 (default 1 prec - zlen ds) ++ ds.

(** A field at least [width] wide: blanks before it, zeros after the sign, or
    blanks behind it. *)
Definition c99_field (left zero : bool) (width : Z) (sign body : list Z) : list Z :=
  let n := width - zlen sign - zlen body in
  if left then sign ++ body ++ chars 32 n
  else if zero then sign ++ chars 48 n ++ body
  else chars 32 n ++ sign ++ body.

(** A [*] takes the next argument. *)
Definition read_amount (a : amount) (ap : list varg) : option (option Z * list varg) :=
  match a, ap with
  | Absent, _ => Some (None, ap)
  | Number _ n, _ => Some (Some n, ap)
  | Star, VInt n :: ap => Some (Some n, ap)
  | Star, _ => None
  end.

Definition narrow_signed (l : len_mod) (v : Z) : Z := match l with Lh => to_short v | Lhh => to_schar v | _ => v end.
Definition narrow_unsigned (l : len_mod) (v : Z) : Z := match l with Lh => u16 v | Lhh => u8 v | _ => u32 v end.

(** The width [w] and the precision [p] are known. *)
Definition render_conv (d : directive) (w p : option Z) (ap : list varg) : option (list Z * list varg) :=
  let has f := bool_decide (f ∈ d_flags d) in
  let width := default 0 (Z.abs <$> w) in
  let left := has FMinus || (default 0 w <? 0) in
  let prec := match p with Some p => if p <? 0 then None else Some p | None => None end in
  let zero := has FZero && negb (bool_decide (is_Some prec)) in
  match d_conv d, ap with
  | Cd, VInt v :: ap | Ci, VInt v :: ap =>
      let v := narrow_signed (d_len d) v in
      let sign := if v <? 0 then [45] else if has FPlus then [43] else if has FSpace then [32] else [] in
      Some (c99_field left zero width sign (c99_digits 10 false prec (Z.abs v)), ap)
  | Cu, VInt v :: ap => Some (c99_field left zero width [] (c99_digits 10 false prec (narrow_unsigned (d_len d) v)), ap)
  | Cx, VInt v :: ap => Some (c99_field left zero width [] (c99_digits 16 false prec (narrow_unsigned (d_len d) v)), ap)
  | CX, VInt v :: ap => Some (c99_field left zero width [] (c99_digits 16 true prec (narrow_unsigned (d_len d) v)), ap)
  | Cp, VPtr a :: ap => Some (c99_field left (has FZero) width (cstr "0x") (c99_digits 16 false None a), ap)
  | Cc, VInt v :: ap => Some (c99_field left false width [] [u8 v], ap)
  | Cs, VStr s :: ap =>
      let s := default (cstr "(null)") s in
      Some (c99_field left false width [] (match prec with Some p => take (Z.to_nat p) s | None => s end), ap)
  | Cpercent, _ => Some ([37], ap)
  | _, _ => None
  end.

Definition render_dir (d : directive) (ap : list varg) : option (list Z * list varg) :=
  '(w, ap) ← read_amount (d_width d) ap;
  '(p, ap) ← read_amount (d_prec d) ap;
  render_conv d w p ap.

Fixpoint render (items : list item) (ap : list varg) : option (list Z) :=
  match items with
  | [] => Some []
  | Lit c :: items => t ← render items ap; Some (c :: t)
  | Conv d :: items => '(t, ap) ← render_dir d ap; t' ← render items ap; Some (t ++ t')
  end.

(** The format string of the items. *)
Definition flag_char (f : flag) : Z := match f with FMinus => 45 | FZero => 48 | FPlus => 43 | FSpace => 32 end.
Definition amount_text (a : amount) : list Z := match a with Absent => [] | Number zeros n => replicate zeros 48 ++ show 32 10 false n | Star => [42] end.
Definition prec_text (a : amount) : list Z := match a with Absent => [] | _ => 46 :: amount_text a end.
Definition len_text (l : len_mod) : list Z := match l with LNone => [] | Lh => [104] | Lhh => [104; 104] | Ll => [108] end.
Definition conv_char (c : conv) : Z :=
  match c with
  | Cd => 100 | Ci => 105 | Cu => 117 | Cx => 120 | CX => 88 | Cp => 112 | Cc => 99 | Cs => 115 | Cpercent => 37
  end.
Definition dir_text (d : directive) : list Z :=
  [37] ++ (flag_char <$> d_flags d) ++ amount_text (d_width d) ++
  prec_text (d_prec d) ++ len_text (d_len d) ++ [conv_char (d_conv d)].
Definition item_text (i : item) : list Z := match i with Lit c => [c] | Conv d => dir_text d end.
Definition format_of (items : list item) : list Z := concat (item_text <$> items).

(** A number in a format is less than a million, and a width does not begin with
    0 (which is a flag); [%%] is written just so; arguments are in the range of
    their type. *)
Definition item_ok (i : item) : Prop :=
  match i with
  | Lit c => c <> 37
  | Conv d =>
      match d_width d with Number zeros n => zeros = O /\ 0 < n < 10 ^ 6 | _ => True end /\
      match d_prec d with Number _ n => 0 <= n < 10 ^ 6 | _ => True end /\
      (d_conv d = Cpercent -> d = Dir [] Absent Absent LNone Cpercent)
  end.
Definition arg_ok (a : varg) : Prop :=
  match a with VInt v => - 2 ^ 31 <= v < 2 ^ 31 | VStr _ => True | VPtr a => is_u32 a end.

(** ** The formatter does what the standard says *)

Lemma show_digits_loop base upper : 2 <= base -> forall n v, 0 <= v < base ^ Z.of_nat n -> forall room, (n <= room)%nat ->
  exists ds, digits_loop room base v = Some ds /\ reverse (digit_char upper <$> ds) = show n base upper v.
Proof.
  intros Hb. induction n as [|n IH]; intros v Hv room Hr.
  - assert (v = 0) as -> by (cbn in Hv; lia). exists []. by destruct room.
  - cbn [show]. destruct (Z.eqb_spec v 0) as [->|Hne]; [exists []; by destruct room|].
    destruct room as [|room]; [lia|]. cbn [digits_loop]. replace (v =? 0) with false by lia.
    rewrite Nat2Z.inj_succ, Z.pow_succ_r in Hv by lia.
    destruct (IH (v / base)) with (room := room) as (ds & E & Hds); [split; [apply Z.div_pos; lia|apply Z.div_lt_upper_bound; lia]|lia|].
    rewrite E. eexists. split; [done|]. cbn [fmap list_fmap]. by rewrite reverse_cons, Hds.
Qed.

(** More fuel changes nothing. *)
Lemma show_fuel base upper : 2 <= base -> forall n m v, 0 <= v < base ^ Z.of_nat n -> (n <= m)%nat -> show m base upper v = show n base upper v.
Proof.
  intros Hb. induction n as [|n IH]; intros m v Hv Hm.
  - assert (v = 0) as -> by (cbn in Hv; lia). by destruct m.
  - destruct m as [|m]; [lia|]. cbn [show]. destruct (Z.eqb_spec v 0); [done|].
    rewrite Nat2Z.inj_succ, Z.pow_succ_r in Hv by lia.
    rewrite (IH m); [done| |lia]. split; [apply Z.div_pos; lia|apply Z.div_lt_upper_bound; lia].
Qed.

Lemma digits_show base upper v : base = 10 \/ base = 16 -> is_u32 v ->
  exists ds, digits_loop 12 base v = Some ds /\ reverse (digit_char upper <$> ds) = show 32 base upper v.
Proof.
  intros Hb Hv. unfold is_u32 in Hv.
  assert (Hv' : 0 <= v < base ^ Z.of_nat 10) by (change (Z.of_nat 10) with 10; destruct Hb as [-> | ->]; lia).
  rewrite (show_fuel base upper ltac:(lia) 10 32 v Hv') by lia. apply (show_digits_loop base upper); [lia|done|lia].
Qed.

Lemma chars_len c n : zlen (chars c n) = Z.max 0 n.
Proof. unfold chars, zlen. rewrite length_replicate. lia. Qed.
Lemma chars_neg c n : n <= 0 -> chars c n = [].
Proof. intros. unfold chars. by replace (Z.to_nat n) with 0%nat by lia. Qed.
Lemma chars_fill c a b : chars c (if a <? b then b - a else 0) = chars c (b - a).
Proof. destruct (Z.ltb_spec a b); [done|]. by rewrite !chars_neg by lia. Qed.
Lemma show_nonempty base upper v : v <> 0 -> 1 <= zlen (show 32 base upper v).
Proof. intros Hv. unfold zlen. change 32%nat with (S 31). cbn [show]. replace (v =? 0) with false by lia. rewrite length_app. cbn [length]. lia. Qed.

(** The precision as the code keeps it. *)
Definition prec_z (prec : option Z) : Z := match prec with Some p => p | None => -1 end.
Definition prec_ok (prec : option Z) : Prop := match prec with Some p => 0 <= p | None => True end.

Lemma digits_c99 base upper prec v : base = 10 \/ base = 16 -> is_u32 v -> prec_ok prec ->
  exists digits, (if v =? 0 then Some (if negb (prec_z prec =? 0) then [0] else []) else digits_loop 12 base v) = Some digits /\
    let zeros := if zlen digits <? prec_z prec then prec_z prec - zlen digits else 0 in
    chars 48 zeros ++ reverse (digit_char upper <$> digits) = c99_digits base upper prec v /\
    zlen digits + zeros = zlen (c99_digits base upper prec v).
Proof.
  intros Hb Hv Hp. destruct (Z.eqb_spec v 0) as [->|Hne].
  - eexists. split; [done|]. cbv zeta. unfold c99_digits. change (show 32 base upper 0) with (@nil Z). rewrite app_nil_r.
    change (zlen []) with 0. rewrite chars_len, Z.sub_0_r. destruct prec as [p|]; cbn [prec_z prec_ok default] in *; unfold id; [|done].
    destruct (Z.eqb_spec p 0) as [->|]; [done|]. cbn [negb]. change (zlen [0]) with 1. rewrite chars_fill. split.
    + change (reverse (digit_char upper <$> [0])) with [48]. unfold chars, id. replace (Z.to_nat p) with (Z.to_nat (p - 1) + 1)%nat by lia.
      by rewrite replicate_add.
    + destruct (Z.ltb_spec 1 p); lia.
  - destruct (digits_show base upper v Hb Hv) as (ds & E & Hds). rewrite E. exists ds. split; [done|]. cbv zeta. rewrite Hds.
    assert (El : zlen ds = zlen (show 32 base upper v)) by (rewrite <- Hds; unfold zlen; by rewrite length_reverse, length_fmap).
    pose proof (show_nonempty base upper v Hne). unfold c99_digits. rewrite zlen_app, chars_len.
    destruct prec as [p|]; cbn [prec_z prec_ok default] in *; unfold id.
    + rewrite chars_fill, El. split; [done|]. destruct (Z.ltb_spec (zlen (show 32 base upper v)) p); lia.
    + replace (_ <? -1) with false by (unfold zlen; lia). rewrite !chars_neg by lia. split; [done|]. lia.
Qed.

Lemma number_c99 sp v base upper sign prefix prec : base = 10 \/ base = 16 -> is_u32 v -> prec_ok prec -> sp_prec sp = prec_z prec ->
  let sg := (if negb (sign =? 0) then [sign] else []) ++ prefix in
  zlen sg + zlen (c99_digits base upper prec v) <= INT_MAX ->
  number_text sp v base upper sign prefix =
    Some (c99_field (sp_left sp) (sp_zero sp && negb (bool_decide (is_Some prec))) (sp_width sp) sg (c99_digits base upper prec v)).
Proof.
  intros Hb Hv Hp Ep sg Hle. unfold number_text. rewrite Ep.
  destruct (digits_c99 base upper prec v Hb Hv Hp) as (digits & -> & Hbody & Hlen). cbv zeta in *.
  set (zeros := if zlen digits <? prec_z prec then _ else _) in *. set (body := c99_digits base upper prec v) in *.
  assert (Et : zlen digits + zeros + zlen prefix + (if negb (sign =? 0) then 1 else 0) = zlen sg + zlen body).
  { subst sg. rewrite zlen_app. destruct (negb (sign =? 0)); [change (zlen [sign]) with 1|change (@zlen Z []) with 0]; lia. }
  rewrite Et. replace (INT_MAX <? zlen sg + zlen body) with false by lia. f_equal. rewrite !chars_fill. unfold c99_field.
  replace (sp_width sp - zlen sg - zlen body) with (sp_width sp - (zlen sg + zlen body)) by lia.
  assert (Ez : (prec_z prec <? 0) = negb (bool_decide (is_Some prec))).
  { destruct prec as [p|]; cbn [prec_z prec_ok] in *; [|done]. rewrite bool_decide_eq_true_2 by eauto. cbn [negb]. lia. }
  rewrite Ez. destruct (sp_left sp), (sp_zero sp), (negb (bool_decide (is_Some prec))); cbn [andb negb app];
    rewrite <- Hbody; subst sg; rewrite ?app_nil_r, <- ?app_assoc; done.
Qed.

(** Reading a specification. *)
Definition set_flag (sp : spec_t) (f : flag) : spec_t :=
  match f with FMinus => set_left sp | FZero => set_zero sp | FPlus => set_plus sp | FSpace => set_space sp end.
Definition is_flag_char (c : Z) : bool := (c =? 45) || (c =? 48) || (c =? 43) || (c =? 32).
Definition starts (P : Z -> bool) (l : list Z) : bool := match l with c :: _ => P c | [] => false end.

Lemma parse_flags_run fs rest : starts is_flag_char rest = false -> forall sp,
  parse_flags sp ((flag_char <$> fs) ++ rest) = (foldl set_flag sp fs, rest).
Proof.
  intros Hr. induction fs as [|f fs IH]; intros sp.
  - cbn [fmap list_fmap app foldl]. destruct rest as [|c rest]; [done|]. cbn [parse_flags].
    unfold starts, is_flag_char in Hr. destruct (c =? 45), (c =? 48), (c =? 43), (c =? 32); done.
  - destruct f; cbn; apply IH.
Qed.

Lemma flags_has (get : spec_t -> bool) (f0 : flag) fs :
  (forall sp f, get (set_flag sp f) = get sp || bool_decide (f0 = f)) -> forall sp, get (foldl set_flag sp fs) = get sp || bool_decide (f0 ∈ fs).
Proof.
  intros Hg. induction fs as [|f fs IH]; intros sp; cbn [foldl]; [by rewrite orb_false_r|]. rewrite IH, Hg.
  rewrite (bool_decide_ext (f0 ∈ f :: fs) (f0 = f \/ f0 ∈ fs)) by apply elem_of_cons. by rewrite bool_decide_or, orb_assoc.
Qed.
Lemma flags_left fs sp : sp_left (foldl set_flag sp fs) = sp_left sp || bool_decide (FMinus ∈ fs).
Proof. apply (flags_has sp_left). by intros [[] [] [] []] []. Qed.
Lemma flags_zero fs sp : sp_zero (foldl set_flag sp fs) = sp_zero sp || bool_decide (FZero ∈ fs).
Proof. apply (flags_has sp_zero). by intros [[] [] [] []] []. Qed.
Lemma flags_plus fs sp : sp_plus (foldl set_flag sp fs) = sp_plus sp || bool_decide (FPlus ∈ fs).
Proof. apply (flags_has sp_plus). by intros [[] [] [] []] []. Qed.
Lemma flags_space fs sp : sp_space (foldl set_flag sp fs) = sp_space sp || bool_decide (FSpace ∈ fs).
Proof. apply (flags_has sp_space). by intros [[] [] [] []] []. Qed.
Lemma flags_rest fs : forall sp, sp_width (foldl set_flag sp fs) = sp_width sp /\ sp_prec (foldl set_flag sp fs) = sp_prec sp.
Proof. induction fs as [|f fs IH]; intros sp; cbn [foldl]; [done|]. destruct (IH (set_flag sp f)) as [-> ->]. by destruct f. Qed.

(** Numbers in a format. *)
Lemma show_head n : forall v c r, 0 <= v < 10 ^ Z.of_nat n -> show n 10 false v = c :: r -> 49 <= c <= 57.
Proof.
  induction n as [|n IH]; intros v c r Hv; cbn [show]; [done|]. destruct (Z.eqb_spec v 0); [done|].
  rewrite Nat2Z.inj_succ, Z.pow_succ_r in Hv by lia.
  assert (Hq : 0 <= v / 10 < 10 ^ Z.of_nat n) by (split; [apply Z.div_pos; lia|apply Z.div_lt_upper_bound; lia]).
  pose proof (Z.mod_pos_bound v 10 ltac:(lia)). pose proof (Z.div_mod v 10 ltac:(lia)).
  destruct (show n 10 false (v / 10)) as [|x l] eqn:Es; intros [= <- _]; [|by apply (IH (v / 10) x l)].
  unfold digit_char. replace (v mod 10 <? 10) with true by lia. enough (v / 10 = 0) by lia.
  destruct n as [|n]; [change (10 ^ Z.of_nat 0) with 1 in Hq; lia|]. cbn [show] in Es.
  destruct (Z.eqb_spec (v / 10) 0); [done|]. by destruct (show n 10 false (v / 10 / 10)).
Qed.

Lemma number_loop_show n : forall v a rest, 0 <= v < 10 ^ Z.of_nat n -> v < 10 ^ 6 -> (a = -1 \/ a = 0) ->
  number_loop a (show n 10 false v ++ rest) = number_loop (if v =? 0 then a else v) rest.
Proof.
  induction n as [|n IH]; intros v a rest Hv Hs Ha; cbn [show].
  { assert (v = 0) as -> by (change (10 ^ Z.of_nat 0) with 1 in Hv; lia). done. }
  destruct (Z.eqb_spec v 0); [done|]. rewrite Nat2Z.inj_succ, Z.pow_succ_r in Hv by lia. rewrite <- app_assoc.
  pose proof (Z.mod_pos_bound v 10 ltac:(lia)). pose proof (Z.div_mod v 10 ltac:(lia)).
  assert (Hq : 0 <= v / 10 < 10 ^ Z.of_nat n) by (split; [apply Z.div_pos; lia|apply Z.div_lt_upper_bound; lia]).
  rewrite IH by (lia || done). cbn [app number_loop]. unfold digit_char, is_digit. replace (v mod 10 <? 10) with true by lia.
  replace ((48 <=? 48 + v mod 10) && (48 + v mod 10 <=? 57)) with true by lia.
  f_equal. destruct (Z.eqb_spec (v / 10) 0) as [E|].
  - assert (En : (if a <? 0 then 0 else a) = 0) by (destruct Ha as [-> | ->]; done). rewrite En. replace (0 <? 100000) with true by done. lia.
  - replace (v / 10 <? 0) with false by lia. replace (v / 10 <? 100000) with true by lia. lia.
Qed.

Lemma number_loop_end a rest : starts is_digit rest = false -> number_loop a rest = (a, rest).
Proof. destruct rest as [|c rest]; [done|]. cbn [starts number_loop]. by intros ->. Qed.

Lemma parse_number a v rest : 0 <= v < 10 ^ 6 -> (a = -1 \/ a = 0) -> starts is_digit rest = false ->
  number_loop a (show 32 10 false v ++ rest) = (if v =? 0 then a else v, rest).
Proof. intros Hv Ha Hr. rewrite number_loop_show; [by apply number_loop_end|change (Z.of_nat 32) with 32; lia|lia|done]. Qed.

Lemma number_loop_zeros zeros rest : number_loop 0 (replicate zeros 48 ++ rest) = number_loop 0 rest.
Proof. by induction zeros as [|zeros IH]. Qed.

(** After the width and the precision comes none of their characters. *)
Definition is_number_char (c : Z) : bool := is_digit c || (c =? 42).

Lemma parse_width_other sp fmt ap : starts (fun c => c =? 42) fmt = false ->
  parse_width sp fmt ap = let '(w, rest) := number_loop (sp_width sp) fmt in Some (set_width w sp, rest, ap).
Proof. destruct fmt as [|c fmt]; [done|]. unfold starts. intros Hc. destruct c as [|c|c]; try done. do 6 (destruct c as [c|c|]; try done). Qed.

Lemma parse_prec_other sp fmt ap : starts (fun c => c =? 42) fmt = false ->
  parse_prec sp (46 :: fmt) ap = let '(p, rest) := number_loop 0 fmt in Some (set_prec p sp, rest, ap).
Proof. destruct fmt as [|c fmt]; [done|]. unfold starts. intros Hc. destruct c as [|c|c]; try done. do 6 (destruct c as [c|c|]; try done). Qed.

Lemma parse_prec_none sp fmt ap : starts (fun c => c =? 46) fmt = false -> parse_prec sp fmt ap = Some (sp, fmt, ap).
Proof. destruct fmt as [|c fmt]; [done|]. unfold starts. intros Hc. destruct c as [|c|c]; try done. do 6 (destruct c as [c|c|]; try done). Qed.

Lemma starts_weaken (P Q : Z -> bool) l : (forall c, Q c = true -> P c = true) -> starts P l = false -> starts Q l = false.
Proof. intros HPQ. destruct l as [|c l]; [done|]. cbn [starts]. specialize (HPQ c). destruct (Q c); [by rewrite HPQ|done]. Qed.

Lemma show_starts v rest : 0 < v < 10 ^ 6 -> exists c r, show 32 10 false v ++ rest = c :: r /\ 49 <= c <= 57.
Proof.
  intros Hv. pose proof (show_nonempty 10 false v ltac:(lia)) as Hl. destruct (show 32 10 false v) as [|c r] eqn:E; [by cbn in Hl|].
  exists c, (r ++ rest). split; [done|]. apply (show_head 32 v c r); [change (Z.of_nat 32) with 32; lia|done].
Qed.

(** The width as the code keeps it. *)
Definition width_z (w : option Z) : Z := match w with Some w => Z.abs w | None => -1 end.
Definition norm_prec (p : option Z) : option Z := match p with Some p => if p <? 0 then None else Some p | None => None end.

Lemma width_run a sp ap w ap' rest : read_amount a ap = Some (w, ap') -> (match a with Number zeros n => zeros = O /\ 0 < n < 10 ^ 6 | _ => True end) ->
  sp_width sp = -1 -> starts is_number_char rest = false -> Z.abs (default 0 w) <= INT_MAX ->
  parse_width sp (amount_text a ++ rest) ap = Some (set_width (width_z w) (if default 0 w <? 0 then set_left sp else sp), rest, ap').
Proof.
  intros Ha Hok Ew Hr Hw. assert (Hd : starts is_digit rest = false) by (revert Hr; apply starts_weaken; unfold is_number_char; by intros c ->).
  destruct a as [|zeros n|]; cbn [amount_text app read_amount] in *.
  - injection Ha as <- <-. rewrite parse_width_other.
    + by rewrite number_loop_end, Ew.
    + revert Hr. apply starts_weaken. intros c Hc. unfold is_number_char. by rewrite Hc, orb_true_r.
  - destruct Hok as [-> Hok]. cbn [replicate app]. injection Ha as <- <-. cbn [width_z default] in *. unfold id in *. rewrite parse_width_other.
    + rewrite parse_number by (lia || auto). replace (n =? 0) with false by lia. replace (n <? 0) with false by lia. by rewrite Z.abs_eq by lia.
    + destruct (show_starts n rest Hok) as (c & r & -> & Hc). cbn [starts]. lia.
  - destruct ap as [|[v| |] ap]; try done. injection Ha as <- <-. cbn [width_z default] in *. unfold id in *. cbn [parse_width].
    destruct (Z.ltb_spec v 0); [|by rewrite Z.abs_eq by lia]. replace (- v <=? INT_MAX) with true by lia. by rewrite Z.abs_neq by lia.
Qed.

Lemma prec_run a sp ap p ap' rest : read_amount a ap = Some (p, ap') -> (match a with Number _ n => 0 <= n < 10 ^ 6 | _ => True end) ->
  sp_prec sp = -1 -> starts (fun c => is_number_char c || (c =? 46)) rest = false ->
  parse_prec sp (prec_text a ++ rest) ap = Some (set_prec (prec_z (norm_prec p)) sp, rest, ap').
Proof.
  intros Ha Hok Ep Hr. assert (Hd : starts is_digit rest = false).
  { revert Hr. apply starts_weaken. unfold is_number_char. by intros c ->. }
  assert (Hn : starts (fun c => c =? 42) rest = false).
  { revert Hr. apply starts_weaken. unfold is_number_char. intros c Hc. by rewrite Hc, orb_true_r. }
  destruct a as [|zeros n|]; cbn [amount_text prec_text app read_amount] in *.
  - injection Ha as <- <-. rewrite parse_prec_none.
    + destruct sp; cbn in *. by rewrite Ep.
    + revert Hr. apply starts_weaken. intros c Hc. by rewrite Hc, orb_true_r.
  - injection Ha as <- <-. cbn [norm_prec]. replace (n <? 0) with false by lia. rewrite parse_prec_other.
    + rewrite <- app_assoc, number_loop_zeros, parse_number by (lia || auto). by destruct (Z.eqb_spec n 0) as [->|].
    + destruct zeros as [|zeros]; [cbn [replicate app]|done]. destruct (decide (n = 0)) as [->|Hne]; [done|]. destruct (show_starts n rest ltac:(lia)) as (c & r & -> & Hc). cbn [starts]. lia.
  - destruct ap as [|[v| |] ap]; try done. injection Ha as <- <-. cbn [norm_prec parse_prec]. by destruct (v <? 0).
Qed.

Definition lm_code (l : len_mod) : Z := match l with Lh => 1 | Lhh => 2 | _ => 0 end.
Lemma length_run l c rest : parse_length (len_text l ++ conv_char c :: rest) = (false, lm_code l, conv_char c :: rest).
Proof. by destruct l, c. Qed.

Lemma field_len left zero width sign body : zlen (c99_field left zero width sign body) = Z.max width (zlen sign + zlen body).
Proof.
  unfold c99_field. destruct left; [|destruct zero]; rewrite !zlen_app, chars_len; unfold zlen; lia.
Qed.

Lemma field_no_width left zero width width' sign body : width <= 0 -> width' <= 0 ->
  c99_field left zero width sign body = c99_field left zero width' sign body.
Proof. intros. unfold c99_field. by rewrite !chars_neg by (unfold zlen; lia). Qed.

(** The width [-1] of the code is no width. *)
Lemma field_width left zero w sign body :
  c99_field left zero (width_z w) sign body = c99_field left zero (default 0 (Z.abs <$> w)) sign body.
Proof. destruct w as [w|]; [done|]. by apply field_no_width. Qed.

(** One conversion. *)
Record spec_of (d : directive) (w p : option Z) (sp : spec_t) : Prop := {
  so_left : sp_left sp = bool_decide (FMinus ∈ d_flags d) || (default 0 w <? 0);
  so_zero : sp_zero sp = bool_decide (FZero ∈ d_flags d);
  so_plus : sp_plus sp = bool_decide (FPlus ∈ d_flags d);
  so_space : sp_space sp = bool_decide (FSpace ∈ d_flags d);
  so_width : sp_width sp = width_z w;
  so_prec : sp_prec sp = prec_z (norm_prec p)
}.

Lemma flags_spec d w p : spec_of d w p (set_prec (prec_z (norm_prec p))
  (set_width (width_z w) (if default 0 w <? 0 then set_left (foldl set_flag spec0 (d_flags d)) else foldl set_flag spec0 (d_flags d)))).
Proof.
  split; cbn [set_prec set_width sp_left sp_zero sp_plus sp_space sp_width sp_prec]; try done;
    destruct (default 0 w <? 0); cbn [set_left sp_left sp_zero sp_plus sp_space];
    rewrite ?flags_left, ?flags_zero, ?flags_plus, ?flags_space, ?orb_true_r, ?orb_false_r; done.
Qed.

Lemma magnitude v : - 2 ^ 31 <= v < 2 ^ 31 -> (if v <? 0 then u32 (0 - u32 v) else u32 v) = Z.abs v.
Proof.
  intros Hv. destruct (Z.ltb_spec v 0) as [Hn|Hn]; [|rewrite u32_small; lia].
  assert (E : u32 v = v + 2 ^ 32) by (unfold u32; symmetry; apply (Z.mod_unique _ _ (-1)); lia).
  rewrite E. unfold u32. rewrite Z.abs_neq by lia. symmetry. apply (Z.mod_unique _ _ (-1)); lia.
Qed.

Lemma narrow_signed_run l v : - 2 ^ 31 <= v < 2 ^ 31 ->
  (if lm_code l =? 1 then to_short v else if lm_code l =? 2 then to_schar v else v) = narrow_signed l v /\ - 2 ^ 31 <= narrow_signed l v < 2 ^ 31.
Proof.
  intros Hv. split; [by destruct l|]. destruct l; cbn [narrow_signed]; try done; unfold to_short, to_schar.
  - pose proof (Z.mod_pos_bound (v + 2 ^ 15) (2 ^ 16) ltac:(lia)). lia.
  - pose proof (Z.mod_pos_bound (v + 2 ^ 7) (2 ^ 8) ltac:(lia)). lia.
Qed.

Lemma narrow_unsigned_run l v :
  (if lm_code l =? 1 then u16 (u32 v) else if lm_code l =? 2 then u8 (u32 v) else u32 v) = narrow_unsigned l v /\ is_u32 (narrow_unsigned l v).
Proof.
  unfold is_u32. split.
  - destruct l; cbn; try done; unfold u16, u8, u32.
    + rewrite <- (Z.mod_mod_divide v (2 ^ 32) (2 ^ 16)); [done|]. by exists (2 ^ 16).
    + rewrite <- (Z.mod_mod_divide v (2 ^ 32) (2 ^ 8)); [done|]. by exists (2 ^ 24).
  - destruct l; cbn [narrow_unsigned]; unfold u32, u16, u8.
    all: pose proof (Z.mod_pos_bound v (2 ^ 32) ltac:(lia)); pose proof (Z.mod_pos_bound v (2 ^ 16) ltac:(lia));
      pose proof (Z.mod_pos_bound v (2 ^ 8) ltac:(lia)); lia.
Qed.

Lemma norm_prec_ok p : prec_ok (norm_prec p).
Proof. destruct p as [p|]; [|done]. cbn [norm_prec]. destruct (Z.ltb_spec p 0); done. Qed.

Lemma number_dir sp d w p v base upper sign sg prefix : spec_of d w p sp -> base = 10 \/ base = 16 -> is_u32 v ->
  sg = (if negb (sign =? 0) then [sign] else []) ++ prefix ->
  zlen (c99_field (sp_left sp) (sp_zero sp && negb (bool_decide (is_Some (norm_prec p)))) (default 0 (Z.abs <$> w)) sg (c99_digits base upper (norm_prec p) v)) <= INT_MAX ->
  number_text sp v base upper sign prefix = Some (c99_field (sp_left sp) (sp_zero sp && negb (bool_decide (is_Some (norm_prec p))))
    (default 0 (Z.abs <$> w)) sg (c99_digits base upper (norm_prec p) v)).
Proof.
  intros [] Hb Hv -> Hl. rewrite field_len in Hl. rewrite (number_c99 sp v base upper sign prefix (norm_prec p)); try done.
  - by rewrite so_width0, field_width.
  - apply norm_prec_ok.
  - lia.
Qed.

(** The field of a directive whose precision counts, and of one without. *)
Definition num_field (d : directive) (w p : option Z) (sp : spec_t) (sg body : list Z) : list Z :=
  c99_field (sp_left sp) (sp_zero sp && negb (bool_decide (is_Some (norm_prec p)))) (default 0 (Z.abs <$> w)) sg body.

Section one_conversion.
Context (sp : spec_t) (d : directive) (w p : option Z) (lit : list Z).
Hypothesis Hsp : spec_of d w p sp.
Local Notation lm := (lm_code (d_len d)).

Lemma signed_run v ap c : c = 100 \/ c = 105 -> arg_ok (VInt v) ->
  let n := narrow_signed (d_len d) v in
  let sg := if n <? 0 then [45] else if sp_plus sp then [43] else if sp_space sp then [32] else [] in
  let t := num_field d w p sp sg (c99_digits 10 false (norm_prec p) (Z.abs n)) in
  zlen t <= INT_MAX -> convert_text sp false lm c lit (VInt v :: ap) = Some (t, ap).
Proof.
  intros Hc Hv n sg t Hl. destruct (narrow_signed_run (d_len d) v Hv) as [En Hn]. fold n in En, Hn.
  unfold convert_text. cbn [andb]. replace ((c =? 100) || (c =? 105)) with true by lia. cbv zeta. rewrite En, (magnitude n Hn).
  rewrite (number_dir sp d w p (Z.abs n) 10 false _ sg [] Hsp); [done|by left|unfold is_u32; lia| |done].
  subst sg. rewrite app_nil_r. by destruct (n <? 0), (sp_plus sp), (sp_space sp).
Qed.

Lemma unsigned_run v ap c : c = 117 \/ c = 120 \/ c = 88 ->
  let t := num_field d w p sp [] (c99_digits (if c =? 117 then 10 else 16) (c =? 88) (norm_prec p) (narrow_unsigned (d_len d) v)) in
  zlen t <= INT_MAX -> convert_text sp false lm c lit (VInt v :: ap) = Some (t, ap).
Proof.
  intros Hc t Hl. destruct (narrow_unsigned_run (d_len d) v) as [En Hn]. unfold convert_text. cbn [andb].
  replace ((c =? 100) || (c =? 105)) with false by lia. replace ((c =? 117) || (c =? 120) || (c =? 88)) with true by lia. cbv zeta.
  rewrite En. rewrite (number_dir sp d w p _ (if c =? 117 then 10 else 16) (c =? 88) 0 [] [] Hsp); [done| |done|done|done].
  destruct (c =? 117); auto.
Qed.

Lemma pointer_run a ap : is_u32 a ->
  let t := c99_field (sp_left sp) (sp_zero sp) (default 0 (Z.abs <$> w)) (cstr "0x") (c99_digits 16 false None a) in
  zlen t <= INT_MAX -> convert_text sp false lm 112 lit (VPtr a :: ap) = Some (t, ap).
Proof.
  intros Ha t Hl.
  change (convert_text sp false lm 112 lit (VPtr a :: ap)) with (t ← number_text (set_prec (-1) sp) a 16 false 0 (cstr "0x"); Some (t, ap)).
  subst t. rewrite field_len in Hl. rewrite (number_c99 (set_prec (-1) sp) a 16 false 0 (cstr "0x") None); [|by right|done|done|done|].
  - cbn [set_prec sp_left sp_zero sp_width]. rewrite (so_width _ _ _ _ Hsp), field_width.
    rewrite bool_decide_eq_false_2 by (by intros [? ?]). cbn [negb]. by rewrite andb_true_r.
  - change ((if negb (0 =? 0) then [0] else []) ++ cstr "0x") with (cstr "0x"). lia.
Qed.

Lemma char_run v ap : convert_text sp false lm 99 lit (VInt v :: ap) =
  Some (c99_field (sp_left sp) false (default 0 (Z.abs <$> w)) [] [u8 v], ap).
Proof.
  change (convert_text sp false lm 99 lit (VInt v :: ap)) with
    (Some ((if negb (sp_left sp) then chars 32 (if 1 <? sp_width sp then sp_width sp - 1 else 0) else []) ++ [u8 v] ++
           (if sp_left sp then chars 32 (if 1 <? sp_width sp then sp_width sp - 1 else 0) else []), ap)).
  rewrite chars_fill, (so_width _ _ _ _ Hsp), <- field_width. unfold c99_field.
  change (@zlen Z []) with 0. change (zlen [u8 v]) with 1. rewrite Z.sub_0_r.
  by destruct (sp_left sp); rewrite ?app_nil_r.
Qed.

Lemma string_run s ap :
  let str := default (cstr "(null)") s in
  let t := c99_field (sp_left sp) false (default 0 (Z.abs <$> w)) [] (match norm_prec p with Some p => take (Z.to_nat p) str | None => str end) in
  zlen t <= INT_MAX -> convert_text sp false lm 115 lit (VStr s :: ap) = Some (t, ap).
Proof.
  intros str t Hl. change (convert_text sp false lm 115 lit (VStr s :: ap)) with (t ← string_text sp s; Some (t, ap)).
  unfold string_text. replace (match s with Some str => str | None => cstr "(null)" end) with str by (by destruct s). cbv zeta.
  rewrite (so_prec _ _ _ _ Hsp), (so_width _ _ _ _ Hsp). pose proof (norm_prec_ok p) as Hp. subst t.
  set (n := if prec_z (norm_prec p) <? 0 then zlen str else Z.min (zlen str) (prec_z (norm_prec p))).
  assert (Eb : match norm_prec p with Some p => take (Z.to_nat p) str | None => str end = take (Z.to_nat n) str /\ zlen (take (Z.to_nat n) str) = n).
  { subst n. unfold zlen. destruct (norm_prec p) as [q|]; cbn [prec_z prec_ok] in *.
    - replace (q <? 0) with false by lia. rewrite length_take. split; [|lia].
      destruct (Z.le_gt_cases (Z.of_nat (length str)) q); [rewrite !take_ge by lia; done|]. by replace (Z.min _ q) with q by lia.
    - cbn. rewrite Nat2Z.id, take_ge by lia. by split. }
  destruct Eb as [Eb El]. rewrite Eb in *. rewrite field_len, El in Hl. change (@zlen Z []) with 0 in Hl. replace (INT_MAX <? n) with false by lia.
  cbn [mbind option_bind]. rewrite chars_fill, <- field_width. unfold c99_field. rewrite El. change (@zlen Z []) with 0.
  rewrite Z.sub_0_r. by destruct (sp_left sp); cbn [negb app]; rewrite ?app_nil_r.
Qed.

Lemma convert_run ap t ap' : Forall arg_ok ap -> zlen t <= INT_MAX ->
  render_conv d w p ap = Some (t, ap') -> convert_text sp false lm (conv_char (d_conv d)) lit ap = Some (t, ap').
Proof.
  intros Hap Hl. unfold render_conv. fold (norm_prec p). cbv beta zeta. rewrite <- (so_left _ _ _ _ Hsp).
  rewrite <- (so_zero _ _ _ _ Hsp), <- (so_plus _ _ _ _ Hsp), <- (so_space _ _ _ _ Hsp).
  assert (Harg : forall a r, ap = a :: r -> arg_ok a) by (intros a r ->; exact (proj1 (Forall_cons_1 _ _ _ Hap))).
  destruct (d_conv d); destruct ap as [|[v|s|a] ap]; try done; intros [= <- <-]; cbn [conv_char];
    try done.
  - apply signed_run; eauto.
  - apply signed_run; eauto.
  - apply (unsigned_run v ap 117); auto.
  - apply (unsigned_run v ap 120); auto.
  - apply (unsigned_run v ap 88); auto.
  - apply pointer_run; [exact (Harg _ _ eq_refl)|done].
  - apply char_run.
  - by apply string_run.
Qed.
End one_conversion.

Lemma read_args a ap x ap' : read_amount a ap = Some (x, ap') -> Forall arg_ok ap -> Forall arg_ok ap'.
Proof.
  destruct a as [|n|]; cbn [read_amount]; [by intros [= _ <-]..|]. destruct ap as [|[v| |] ap]; try done. intros [= _ <-] Hf. by inversion Hf.
Qed.

Lemma render_args d w p ap t ap' : render_conv d w p ap = Some (t, ap') -> Forall arg_ok ap -> Forall arg_ok ap'.
Proof.
  unfold render_conv. cbv beta zeta. intros E Hf. destruct (d_conv d); destruct ap as [|[v|s|a] ap]; try done; injection E as <- <-; try done; by inversion Hf.
Qed.

Lemma render_width d w p ap t ap' : render_conv d w p ap = Some (t, ap') -> d_conv d <> Cpercent -> Z.abs (default 0 w) <= zlen t.
Proof.
  intros E Hc. assert (Ew : default 0 (Z.abs <$> w) = Z.abs (default 0 w)) by (by destruct w). revert E. unfold render_conv. cbv beta zeta.
  destruct (d_conv d); destruct ap as [|[v|s|a] ap]; try done; intros [= <- _]; rewrite field_len, Ew; lia.
Qed.

(** What follows the flags, the width and the precision. *)
Lemma after_width d rest : item_ok (Conv d) ->
  starts is_number_char (prec_text (d_prec d) ++ len_text (d_len d) ++ conv_char (d_conv d) :: rest) = false.
Proof. intros _. destruct (d_prec d); [|done..]. by destruct (d_len d), (d_conv d). Qed.
Lemma after_prec d rest : starts (fun c => is_number_char c || (c =? 46)) (len_text (d_len d) ++ conv_char (d_conv d) :: rest) = false.
Proof. by destruct (d_len d), (d_conv d). Qed.
Lemma after_flags d rest : item_ok (Conv d) ->
  starts is_flag_char (amount_text (d_width d) ++ prec_text (d_prec d) ++
    len_text (d_len d) ++ conv_char (d_conv d) :: rest) = false.
Proof.
  intros [Hw _]. set (r := prec_text (d_prec d) ++ _).
  assert (Hr : starts is_flag_char r = false) by (subst r; destruct (d_prec d); [|done..]; by destruct (d_len d), (d_conv d)).
  clearbody r. destruct (d_width d) as [|zeros n|]; [done| |done]. destruct Hw as [-> Hw]. cbn [amount_text replicate app].
  destruct (show_starts n r Hw) as (c & l & -> & Hc). cbn [starts]. unfold is_flag_char. lia.
Qed.

Lemma dir_run fuel d rest ap t ap' : item_ok (Conv d) -> Forall arg_ok ap -> render_dir d ap = Some (t, ap') -> zlen t <= INT_MAX ->
  format_text (S fuel) (dir_text d ++ rest) ap = (t' ← format_text fuel rest ap'; Some (t ++ t')) /\ Forall arg_ok ap'.
Proof.
  intros Hd Hap Er Hl. unfold render_dir in Er. destruct (read_amount (d_width d) ap) as [[w ap1]|] eqn:Ew; [|done].
  cbn [mbind option_bind] in Er. destruct (read_amount (d_prec d) ap1) as [[p ap2]|] eqn:Ep; [|done]. cbn [mbind option_bind] in Er.
  pose proof (read_args _ _ _ _ Ew Hap) as Hap1. pose proof (read_args _ _ _ _ Ep Hap1) as Hap2.
  assert (Hw : Z.abs (default 0 w) <= INT_MAX).
  { destruct (decide (d_conv d = Cpercent)) as [Hc|Hc].
    - destruct Hd as (_ & _ & Hp). rewrite (Hp Hc) in Ew. cbn in Ew. injection Ew as <- _. done.
    - pose proof (render_width _ _ _ _ _ _ Er Hc). lia. }
  set (tail := len_text (d_len d) ++ conv_char (d_conv d) :: rest).
  assert (Et : dir_text d ++ rest = 37 :: (flag_char <$> d_flags d) ++ amount_text (d_width d) ++
    prec_text (d_prec d) ++ tail).
  { unfold dir_text, tail. rewrite <- !app_assoc. done. }
  rewrite Et. unfold format_text; fold format_text.
  rewrite (parse_flags_run (d_flags d) (amount_text (d_width d) ++ prec_text (d_prec d) ++ tail) (after_flags d rest Hd) spec0).
  destruct (flags_rest (d_flags d) spec0) as [Fw Fp].
  rewrite (width_run (d_width d) _ ap w ap1 (prec_text (d_prec d) ++ tail) Ew (proj1 Hd) Fw (after_width d rest Hd) Hw). cbn [mbind option_bind].
  rewrite (prec_run (d_prec d) _ ap1 p ap2 tail Ep (proj1 (proj2 Hd))); [|by destruct (default 0 w <? 0)|exact (after_prec d rest)].
  cbn [mbind option_bind]. unfold tail at 1. rewrite length_run.
  rewrite (convert_run _ d w p _ (flags_spec d w p) ap2 t ap' Hap2 Hl Er). split; [done|].
  exact (render_args _ _ _ _ _ _ Er Hap2).
Qed.

Lemma format_runs items : forall fuel ap t, Forall item_ok items -> Forall arg_ok ap -> render items ap = Some t -> zlen t <= INT_MAX ->
  (length (format_of items) < fuel)%nat -> format_text fuel (format_of items) ap = Some t.
Proof.
  induction items as [|i items IH]; intros fuel ap t Hi Hap Er Hl Hf; cbn [render] in Er.
  { injection Er as <-. destruct fuel; [cbn in Hf; lia|done]. }
  destruct (Forall_cons_1 _ _ _ Hi) as [Hi1 His]. clear Hi. rename Hi1 into Hi. change (format_of (i :: items)) with (item_text i ++ format_of items) in *.
  rewrite length_app in Hf. destruct fuel as [|fuel]; [lia|]. destruct i as [c|d]; cbn [item_text] in *.
  - destruct (render items ap) as [t1|] eqn:E1; [|done]. injection Er as <-. cbn [length] in Hf.
    assert (Hl1 : zlen t1 <= INT_MAX) by (unfold zlen in *; cbn [length] in Hl; lia).
    specialize (IH fuel ap t1 His Hap E1 Hl1 ltac:(lia)). cbn [app].
    assert (E2 : format_text (S fuel) (c :: format_of items) ap = (t ← format_text fuel (format_of items) ap; Some (c :: t))).
    { cbn [format_text item_ok] in *. destruct c as [|c|c]; try done. do 7 (destruct c as [c|c|]; try done). }
    by rewrite E2, IH.
  - destruct (render_dir d ap) as [[t1 ap1]|] eqn:E1; [|done]. cbn [mbind option_bind] in Er.
    destruct (render items ap1) as [t2|] eqn:E2; [|done]. injection Er as <-.
    rewrite zlen_app in Hl. assert (0 <= zlen t1 /\ 0 <= zlen t2) by (unfold zlen; lia).
    destruct (dir_run fuel d (format_of items) ap t1 ap1 Hi Hap E1 ltac:(lia)) as [-> Hap1].
    assert (Hne : (0 < length (dir_text d))%nat) by (unfold dir_text; cbn [app length]; lia).
    rewrite (IH fuel ap1 t2 His Hap1 E2 ltac:(lia) ltac:(lia)). done.
Qed.

Lemma format_c99 items ap t : Forall item_ok items -> Forall arg_ok ap -> render items ap = Some t -> zlen t <= INT_MAX ->
  text (format_of items) ap = Some t.
Proof. intros Hi Ha Er Hl. unfold text. apply format_runs; try done. lia. Qed.

(** The digits of the reference are those of the number. *)
Definition digit_value (c : Z) : Z := if c <? 58 then c - 48 else if c <? 71 then c - 55 else c - 87.
Definition reads_as (base : Z) (l : list Z) : Z := foldl (fun a c => a * base + digit_value c) 0 l.

Lemma show_reads_back base upper : 2 <= base <= 16 -> forall n v, 0 <= v < base ^ Z.of_nat n -> reads_as base (show n base upper v) = v.
Proof.
  intros Hb. induction n as [|n IH]; intros v Hv; cbn [show]; [change (base ^ Z.of_nat 0) with 1 in Hv; cbn; lia|].
  destruct (Z.eqb_spec v 0) as [->|]; [done|]. rewrite Nat2Z.inj_succ, Z.pow_succ_r in Hv by lia.
  pose proof (Z.mod_pos_bound v base ltac:(lia)). pose proof (Z.div_mod v base ltac:(lia)).
  unfold reads_as. rewrite foldl_app. cbn [foldl]. fold (reads_as base (show n base upper (v / base))).
  rewrite IH by (split; [apply Z.div_pos; lia|apply Z.div_lt_upper_bound; lia]).
  assert (E : digit_value (digit_char upper (v mod base)) = v mod base).
  { unfold digit_value, digit_char. destruct (Z.ltb_spec (v mod base) 10); [by replace (48 + v mod base <? 58) with true by lia; lia|].
    destruct upper.
    - replace (65 + (v mod base - 10) <? 58) with false by lia. replace (65 + (v mod base - 10) <? 71) with true by lia. lia.
    - replace (97 + (v mod base - 10) <? 58) with false by lia. replace (97 + (v mod base - 10) <? 71) with false by lia. lia. }
  rewrite E. lia.
Qed.

(** ** Properties *)

(** C40 (snprintf).  For any format and arguments whose formatting is defined,
    [snprintf] returns the length of the whole text, stores as much of its
    beginning as fits together with a terminating NUL, and writes nothing else:
    not behind the NUL, not behind [size], nothing at all when [size] is 0. *)
Theorem snprintf_bounded (buf : list Z) (size : Z) (fmt : list Z) (ap : list varg) (t : list Z) :
  text fmt ap = Some t -> zlen t <= INT_MAX -> 0 <= size <= zlen buf -> size < 2 ^ 32 ->
  exists buf', snprintf buf size fmt ap = Some (zlen t, buf') /\ length buf' = length buf /\
    (size = 0 -> buf' = buf) /\
    (0 < size -> let k := take (Z.to_nat (size - 1)) t in
       take (length k) buf' = k /\ buf' !! length k = Some 0 /\ forall i, (length k < i)%nat -> buf' !! i = buf !! i).
Proof.
  intros Et Hl Hs Hu. pose proof (snprintf_run buf size fmt ap t Et Hl ltac:(lia) ltac:(unfold zlen in *; lia)) as E.
  eexists. split; [exact E|]. destruct (Z.eqb_spec size 0) as [->|Hne]; [split_and!; [done|done|lia]|].
  fold (kept size t). set (k := kept size t).
  assert (Hk : (length k < length buf)%nat) by (subst k; unfold kept, zlen in *; rewrite length_take; lia).
  split_and!; [rewrite !length_app, length_drop; cbn [length]; lia|lia|]. intros _. cbv zeta. split_and!.
  - by rewrite take_app_length.
  - cbn [app]. by rewrite list_lookup_middle.
  - intros i Hi. rewrite lookup_app_r by lia. cbn [app]. rewrite lookup_cons_ne_0 by lia. rewrite lookup_drop. f_equal. lia.
Qed.

Lemma snprintf_bounded_witness :
  exists buf', snprintf (replicate 5 63) 4 (cstr "%05d") [VInt (-42)] = Some (5, buf') /\ take 3 buf' = cstr "-00" /\ buf' !! 3%nat = Some 0.
Proof.
  destruct (snprintf_bounded (replicate 5 63) 4 (cstr "%05d") [VInt (-42)] (cstr "-0042")) as (buf' & E & _ & _ & H).
  - vm_compute. reflexivity.
  - vm_compute. discriminate.
  - vm_compute. split; discriminate.
  - reflexivity.
  - exists buf'. split; [exact E|]. destruct (H eq_refl) as (H1 & H2 & _). split; [exact H1|exact H2].
Defined.


Definition demo_items : list item :=
  [Lit 91; Conv (Dir [FZero; FPlus] (Number 0 6) Absent Lh Cd); Conv (Dir [FMinus] Star (Number 0 2) LNone Cs); Conv (Dir [] Absent (Number 1 0) LNone Cd);
   Conv (Dir [] Absent Absent LNone Cpercent); Lit 93].
Definition demo_args : list varg := [VInt 65541; VInt 4; VStr (Some (cstr "abc")); VInt 0].


(** (a width of INT_MIN).  [%*d] with the smallest [int] negates it, which has
    no defined value. *)
Theorem star_width_min_undefined (buf : list Z) (size : Z) (v : Z) :
  vsnprintf buf size (cstr "%*d") [VInt (- 2 ^ 31); VInt v] = None.
Proof. done. Qed.

(** (a width of seven digits).  The digits of a width are read only while it is below
    100000, so the seventh digit of [%1000000d] is dropped and the field is 100000
    wide. *)
Theorem seventh_digit_dropped :
  parse_width spec0 (cstr "1000000d") [] = Some (set_width 100000 spec0, cstr "d", []).
Proof. reflexivity. Qed.
