(* ===== verification/Interrupts.v ===== *)
(** * Interrupts and descriptor tables
      ([kernel/gdt.c], [kernel/tss.c], [kernel/idt.c], [kernel/pic.c], [timer_init])

    The tables are bytes of memory, written field by field as the packed C
    structures lay them out: the GDT and the TSS at the addresses the linker
    chose, the IDT at 0x200000.  The interrupt controllers are behind the ports
    of the machine; what the 8259 does with the bytes written to it is the class
    [PicLike].  The processor's reading of the tables is given by [segment] and
    [gate], after the processor manual. *)

From Stdlib Require Import ZArith Lia ZifyBool.
From stdpp Require Import base tactics numbers list option gmap.
From S2P Require Import Prelude Mem Ata.
Local Open Scope Z_scope.

(** ** The code *)

(** Addresses of [gdt], [tss_entry] and the assembly stubs. *)
Class Link := {
  gdt_addr : Z;
  tss_addr : Z;
  isr_stub : Z -> Z;
  irq_stub : Z -> Z;
  isr128 : Z
}.

Definition wr16 (m : mem) (a v : Z) : mem := wr8 (wr8 m a v) (a + 1) (v / 2 ^ 8).

Definition GDT_NULL_SEG : Z := 0.
Definition GDT_KERNEL_CODE : Z := 1.
Definition GDT_KERNEL_DATA : Z := 2.
Definition GDT_USER_CODE : Z := 3.
Definition GDT_USER_DATA : Z := 4.
Definition GDT_TSS : Z := 5.
Definition GDT_ENTRIES : Z := 6.
Definition SEG_KERNEL_DATA : Z := 0x10.
Definition SEG_TSS : Z := 0x28.
Definition SIZEOF_TSS : Z := 104.
Definition IDT_ADDRESS : Z := 0x200000.
Definition IDT_SIZE : Z := 256.
Definition PIC1_CMD : Z := 0x20.
Definition PIC1_DATA : Z := 0x21.
Definition PIC2_CMD : Z := 0xA0.
Definition PIC2_DATA : Z := 0xA1.
Definition PIT_CMD : Z := 0x43.
Definition PIT_CH0 : Z := 0x40.
Definition PIT_BASE_HZ : Z := 1193182.

(** The functions that are ever registered. *)
Inductive isr_handler := timer_callback | keyboard_callback | ata_irq_handler.

(** Memory, the devices, the descriptor registers, [handlers] and [tick_freq]. *)
Record isys {Dv : Type} := Isys {
  i_mem : mem;
  i_dev : Dv;
  i_gdtr : Z * Z;
  i_idtr : Z * Z;
  i_tr : Z;
  i_handlers : list (option isr_handler);
  i_freq : Z
}.
Arguments isys : clear implicits.

Section code.
Context {Dv : Type} `{Ports Dv} `{Link}.
Local Notation M := (cM (isys Dv)).
Implicit Types s : isys Dv.

Definition put_imem (m : mem) s : isys Dv := Isys Dv m (i_dev s) (i_gdtr s) (i_idtr s) (i_tr s) (i_handlers s) (i_freq s).
Definition put_idev (d : Dv) s : isys Dv := Isys Dv (i_mem s) d (i_gdtr s) (i_idtr s) (i_tr s) (i_handlers s) (i_freq s).
Definition put_gdtr (g : Z * Z) s : isys Dv := Isys Dv (i_mem s) (i_dev s) g (i_idtr s) (i_tr s) (i_handlers s) (i_freq s).
Definition put_idtr (g : Z * Z) s : isys Dv := Isys Dv (i_mem s) (i_dev s) (i_gdtr s) g (i_tr s) (i_handlers s) (i_freq s).
Definition put_tr (t : Z) s : isys Dv := Isys Dv (i_mem s) (i_dev s) (i_gdtr s) (i_idtr s) t (i_handlers s) (i_freq s).
Definition put_handlers (h : list (option isr_handler)) s : isys Dv :=
  Isys Dv (i_mem s) (i_dev s) (i_gdtr s) (i_idtr s) (i_tr s) h (i_freq s).
Definition put_freq (f : Z) s : isys Dv := Isys Dv (i_mem s) (i_dev s) (i_gdtr s) (i_idtr s) (i_tr s) (i_handlers s) f.

Definition on_imem (f : mem -> mem) : M () := modify (fun s => put_imem (f (i_mem s)) s).
Definition io_in (port : Z) : M Z := fun s => let '(v, d) := inb port (i_dev s) in Some (v, put_idev d s).
Definition io_out (port v : Z) : M () := modify (fun s => put_idev (outb port v (i_dev s)) s).

(** *** Segments *)

Definition gdt_set_entry (idx base limit access gran : Z) (m : mem) : mem :=
  let e := gdt_addr + 8 * idx in
  let m := wr16 m (e + 2) (Z.land base 0xFFFF) in
  let m := wr8 m (e + 4) (Z.land (Z.shiftr base 16) 0xFF) in
  let m := wr8 m (e + 7) (Z.land (Z.shiftr base 24) 0xFF) in
  let m := wr16 m e (Z.land limit 0xFFFF) in
  let m := wr8 m (e + 6) (Z.lor (Z.land (Z.shiftr limit 16) 0x0F) (Z.land gran 0xF0)) in
  wr8 m (e + 5) access.

(** [n] zero bytes from [a]. *)
Fixpoint zero_bytes (n : nat) (a : Z) (m : mem) : mem :=
  match n with
  | O => m
  | S n' => zero_bytes n' (a + 1) (wr8 m a 0)
  end.

Definition tss_set_stack (ss0 esp0 : Z) (m : mem) : mem := wr32 (wr32 m (tss_addr + 8) ss0) (tss_addr + 4) esp0.

Definition tss_init (ss0 esp0 : Z) (m : mem) : mem :=
  let m := zero_bytes (Z.to_nat SIZEOF_TSS) tss_addr m in
  let m := wr32 m (tss_addr + 8) ss0 in
  let m := wr32 m (tss_addr + 4) esp0 in
  let m := wr32 m (tss_addr + 76) (Z.lor 0x08 0x3) in
  let m := wr32 m (tss_addr + 80) (Z.lor 0x10 0x3) in
  let m := wr32 m (tss_addr + 84) (Z.lor 0x10 0x3) in
  let m := wr32 m (tss_addr + 72) (Z.lor 0x10 0x3) in
  let m := wr32 m (tss_addr + 88) (Z.lor 0x10 0x3) in
  let m := wr32 m (tss_addr + 92) (Z.lor 0x10 0x3) in
  wr16 m (tss_addr + 102) SIZEOF_TSS.

Definition tss_get_addr : Z := tss_addr.

Definition gdt_init : M () :=
  let gdt_ptr := (u16 (8 * GDT_ENTRIES - 1), gdt_addr) in
  on_imem (gdt_set_entry GDT_NULL_SEG 0 0 0 0);;
  on_imem (gdt_set_entry GDT_KERNEL_CODE 0 0xFFFFFFFF 0x9A 0xCF);;
  on_imem (gdt_set_entry GDT_KERNEL_DATA 0 0xFFFFFFFF 0x92 0xCF);;
  on_imem (gdt_set_entry GDT_USER_CODE 0 0xFFFFFFFF 0xFA 0xCF);;
  on_imem (gdt_set_entry GDT_USER_DATA 0 0xFFFFFFFF 0xF2 0xCF);;
  on_imem (tss_init SEG_KERNEL_DATA 0);;
  on_imem (gdt_set_entry GDT_TSS tss_get_addr SIZEOF_TSS 0x89 0x40);;
  modify (put_gdtr gdt_ptr);;
  modify (put_tr SEG_TSS).

(** *** The interrupt table *)

Definition idt_set_gate (num base sel flags : Z) (m : mem) : mem :=
  let e := IDT_ADDRESS + 8 * num in
  let m := wr16 m e (Z.land base 0xFFFF) in
  let m := wr16 m (e + 6) (Z.land (Z.shiftr base 16) 0xFFFF) in
  let m := wr16 m (e + 2) sel in
  let m := wr8 m (e + 4) 0 in
  wr8 m (e + 5) flags.

Definition zero_gate (i : Z) (m : mem) : mem :=
  let e := IDT_ADDRESS + 8 * i in
  let m := wr16 m e 0 in
  let m := wr16 m (e + 2) 0 in
  let m := wr8 m (e + 4) 0 in
  let m := wr8 m (e + 5) 0 in
  wr16 m (e + 6) 0.

(** [for (i = 0; i < n; i++)] *)
Fixpoint for_loop (n : nat) (body : Z -> mem -> mem) (m : mem) : mem :=
  match n with
  | O => m
  | S n' => body (Z.of_nat n') (for_loop n' body m)
  end.

Definition idt_init : M () :=
  on_imem (for_loop (Z.to_nat IDT_SIZE) zero_gate);;
  modify (put_handlers (replicate (Z.to_nat IDT_SIZE) None));;
  on_imem (for_loop 32 (fun i => idt_set_gate (u8 i) (isr_stub i) 0x08 0x8E));;
  on_imem (idt_set_gate 32 (irq_stub 0) 0x08 0x8E);;
  on_imem (idt_set_gate 33 (irq_stub 1) 0x08 0x8E);;
  on_imem (idt_set_gate 46 (irq_stub 14) 0x08 0x8E);;
  on_imem (idt_set_gate 47 (irq_stub 15) 0x08 0x8E);;
  on_imem (idt_set_gate 128 isr128 0x08 0xEF);;
  modify (put_idtr (u16 (8 * IDT_SIZE - 1), IDT_ADDRESS)).

Definition idt_register_handler (irq : Z) (h : isr_handler) : M () :=
  modify (fun s => put_handlers (i_handlers s).[irq := Some h] s).

(** The handler it calls, after the end of interrupt. *)
Definition irq_handler (int_no : Z) : M (option isr_handler) :=
  (if 40 <=? int_no then io_out 0xA0 0x20 else mret ());;
  io_out 0x20 0x20;;
  if int_no <? IDT_SIZE then gets (fun s => (i_handlers s).[int_no]) else mret None.

(** *** The interrupt controllers *)

Definition io_wait : M () := io_out 0x80 0.

Definition pic_init : M () :=
  mask1 ← io_in PIC1_DATA;
  mask2 ← io_in PIC2_DATA;
  io_out PIC1_CMD (Z.lor 0x10 0x01);; io_wait;;
  io_out PIC2_CMD (Z.lor 0x10 0x01);; io_wait;;
  io_out PIC1_DATA 0x20;; io_wait;;
  io_out PIC2_DATA 0x28;; io_wait;;
  io_out PIC1_DATA 0x04;; io_wait;;
  io_out PIC2_DATA 0x02;; io_wait;;
  io_out PIC1_DATA 0x01;; io_wait;;
  io_out PIC2_DATA 0x01;; io_wait;;
  io_out PIC1_DATA mask1;;
  io_out PIC2_DATA mask2.

Definition pic_port (irq : Z) : Z * Z := if irq <? 8 then (PIC1_DATA, irq) else (PIC2_DATA, u8 (irq - 8)).

Definition pic_mask_irq (irq : Z) : M () :=
  let '(port, irq) := pic_port irq in
  v ← io_in port;
  io_out port (Z.lor v (u8 (Z.shiftl 1 irq))).

Definition pic_unmask_irq (irq : Z) : M () :=
  let '(port, irq) := pic_port irq in
  v ← io_in port;
  io_out port (Z.land v (u8 (Z.lnot (Z.shiftl 1 irq)))).

(** [kmain]: all lines masked, [n] of them left. *)
Fixpoint mask_from (n : nat) (i : Z) : M () :=
  match n with
  | O => mret ()
  | S n' => pic_mask_irq (u8 i);; mask_from n' (i + 1)
  end.

(** *** Registration by the drivers *)

(** [None] for a division by zero. *)
Definition timer_init (freq_hz : Z) : M () :=
  modify (put_freq freq_hz);;
  (if freq_hz =? 0 then undefined else
   let divisor := PIT_BASE_HZ / freq_hz in
   io_out PIT_CMD 0x36;;
   io_out PIT_CH0 (u8 (Z.land divisor 0xFF));;
   io_out PIT_CH0 (u8 (Z.land (Z.shiftr divisor 8) 0xFF)));;
  idt_register_handler 32 timer_callback;;
  pic_unmask_irq 0.

Definition keyboard_init : M () :=
  idt_register_handler 33 keyboard_callback;;
  pic_unmask_irq 1.

Definition ata_irq_init (channel : Z) : M () :=
  idt_register_handler (if channel =? 0 then 46 else 47) ata_irq_handler;;
  pic_unmask_irq 2;;
  pic_unmask_irq (if channel =? 0 then 14 else 15).

(** The sequence of [kmain]; the disk registers its channel when one is found. *)
Definition interrupt_setup (channel : option Z) : M () :=
  gdt_init;;
  pic_init;; mask_from 16 0;;
  idt_init;;
  timer_init 100;;
  keyboard_init;;
  match channel with Some c => ata_irq_init c | None => mret () end.
End code.

(** ** What the processor reads *)

Record segment := Segment { sg_base : Z; sg_last : Z; sg_present : bool; sg_dpl : Z; sg_type : Z }.

Definition seg_last (limit gran : Z) : Z := if Z.testbit gran 7 then limit * 4096 + 4095 else limit.

(** The descriptor at [a]: base, last offset, and the access byte split up. *)
Definition segment_at (m : mem) (a : Z) : segment :=
  let flags := rd8 m (a + 6) in
  let access := rd8 m (a + 5) in
  Segment (rd8 m (a + 2) + 2 ^ 8 * rd8 m (a + 3) + 2 ^ 16 * rd8 m (a + 4) + 2 ^ 24 * rd8 m (a + 7))
    (seg_last (rd8 m a + 2 ^ 8 * rd8 m (a + 1) + 2 ^ 16 * (flags mod 16)) flags)
    (Z.testbit access 7) (access / 32 mod 4) (access mod 32).

(** Reached through a selector, whose low three bits are no part of the index. *)
Definition segment_of (m : mem) (gdtr : Z * Z) (sel : Z) : option segment :=
  if (sel / 8 * 8 + 7 <=? gdtr.1) && negb (sel / 8 =? 0) then Some (segment_at m (gdtr.2 + sel / 8 * 8)) else None.

Record gate := Gate { gt_offset : Z; gt_selector : Z; gt_present : bool; gt_dpl : Z; gt_type : Z }.

Definition gate_at (m : mem) (a : Z) : gate :=
  let flags := rd8 m (a + 5) in
  Gate (rd8 m a + 2 ^ 8 * rd8 m (a + 1) + 2 ^ 16 * rd8 m (a + 6) + 2 ^ 24 * rd8 m (a + 7))
    (rd8 m (a + 2) + 2 ^ 8 * rd8 m (a + 3)) (Z.testbit flags 7) (flags / 32 mod 4) (flags mod 16).

Definition gate_of (m : mem) (idtr : Z * Z) (vector : Z) : option gate :=
  if vector * 8 + 7 <=? idtr.1 then
    let g := gate_at m (idtr.2 + vector * 8) in if gt_present g then Some g else None
  else None.

(** Types of system descriptors and gates. *)
Definition CODE_SEG : Z := 0x1A.
Definition DATA_SEG : Z := 0x12.
Definition TSS_SEG : Z := 0x09.
Definition INT_GATE : Z := 0xE.
Definition TRAP_GATE : Z := 0xF.

(** ** Reading back *)

(** Evaluate reads of written bytes. *)
Ltac read_bytes :=
  unfold wr16; rewrite ?rd8_wr8;
  repeat match goal with
  | |- context [?a =? ?b] =>
      first [replace (a =? b) with true by lia | replace (a =? b) with false by lia]; cbv iota
  end.

Lemma land_ones16 x : Z.land x 0xFFFF = x mod 2 ^ 16.
Proof. change 0xFFFF with (Z.ones 16). by rewrite Z.land_ones by lia. Qed.
Lemma land_ones8 x : Z.land x 0xFF = x mod 2 ^ 8.
Proof. change 0xFF with (Z.ones 8). by rewrite Z.land_ones by lia. Qed.
Lemma land_ones4 x : Z.land x 0x0F = x mod 2 ^ 4.
Proof. change 0x0F with (Z.ones 4). by rewrite Z.land_ones by lia. Qed.

Lemma base_bytes x : is_u32 x ->
  u8 (x mod 2 ^ 16) + 2 ^ 8 * u8 (x mod 2 ^ 16 / 2 ^ 8) + 2 ^ 16 * u8 (x / 2 ^ 16 mod 2 ^ 8) + 2 ^ 24 * u8 (x / 2 ^ 24 mod 2 ^ 8) = x.
Proof. intros Hx. unfold is_u32, u8 in *. Z.div_mod_to_equations. lia. Qed.

Lemma half_bytes x : 0 <= x < 2 ^ 16 -> u8 x + 2 ^ 8 * u8 (x / 2 ^ 8) = x.
Proof. intros Hx. unfold u8. Z.div_mod_to_equations. lia. Qed.

(** The flags byte of a descriptor, by cases. *)
Lemma flags_byte a g : 0 <= a < 16 -> 0 <= g < 256 -> Z.lor a (Z.land g 0xF0) = a + g / 16 * 16.
Proof.
  intros Ha Hg.
  assert (H : forallb (fun a => forallb (fun g => Z.lor a (Z.land g 0xF0) =? a + g / 16 * 16) (seqZ 0 256)) (seqZ 0 16) = true)
    by (vm_compute; reflexivity).
  rewrite forallb_forall in H. specialize (H a ltac:(apply list_elem_of_In, elem_of_seqZ; lia)).
  rewrite forallb_forall in H. specialize (H g ltac:(apply list_elem_of_In, elem_of_seqZ; lia)). lia.
Qed.

Section tables.
Context {Dv : Type} `{Ports Dv} `{Link}.

Lemma gdt_entry_outside idx base limit access gran m x :
  x < gdt_addr + 8 * idx \/ gdt_addr + 8 * idx + 8 <= x -> rd8 (gdt_set_entry idx base limit access gran m) x = rd8 m x.
Proof. intros Hx. unfold gdt_set_entry. cbv zeta. by read_bytes. Qed.

Lemma gdt_entry_reads idx base limit access gran m : is_u32 base -> is_u32 limit -> 0 <= access < 256 -> 0 <= gran < 256 ->
  segment_at (gdt_set_entry idx base limit access gran m) (gdt_addr + 8 * idx) =
  Segment base (seg_last (limit mod 2 ^ 20) gran) (Z.testbit access 7) (access / 32 mod 4) (access mod 32).
Proof.
  intros Hb Hl Ha Hg. unfold gdt_set_entry, segment_at. cbv zeta. read_bytes.
  rewrite !land_ones16, !land_ones8, land_ones4, !Z.shiftr_div_pow2 by lia. rewrite (u8_small access) by lia.
  set (f := Z.lor _ _).
  assert (Hf : f = limit / 2 ^ 16 mod 2 ^ 4 + gran / 16 * 16).
  { apply flags_byte; [apply Z.mod_pos_bound; lia|done]. }
  rewrite Hf. f_equal.
  - by apply base_bytes.
  - assert (Hr : 0 <= limit / 2 ^ 16 mod 2 ^ 4 + gran / 16 * 16 < 256) by (Z.div_mod_to_equations; lia).
    rewrite (u8_small (_ + _)) by done. unfold seg_last.
    replace (Z.testbit (limit / 2 ^ 16 mod 2 ^ 4 + gran / 16 * 16) 7) with (Z.testbit gran 7).
    2:{ rewrite !Z.testbit_eqb by lia. f_equal. change (2 ^ 7) with 128. Z.div_mod_to_equations. lia. }
    replace (u8 (limit mod 2 ^ 16) + 2 ^ 8 * u8 (limit mod 2 ^ 16 / 2 ^ 8) + 2 ^ 16 * ((limit / 2 ^ 16 mod 2 ^ 4 + gran / 16 * 16) mod 16))
      with (limit mod 2 ^ 20); [done|].
    unfold u8. change (2 ^ 4) with 16. Z.div_mod_to_equations. lia.
Qed.

Lemma segment_same m m' a : (forall x, a <= x < a + 8 -> rd8 m' x = rd8 m x) -> segment_at m' a = segment_at m a.
Proof. intros Hx. unfold segment_at. by rewrite !Hx by lia. Qed.

Lemma gate_same m m' a : (forall x, a <= x < a + 8 -> rd8 m' x = rd8 m x) -> gate_at m' a = gate_at m a.
Proof. intros Hx. unfold gate_at. by rewrite !Hx by lia. Qed.

Lemma set_gate_outside num base sel flags m x :
  x < IDT_ADDRESS + 8 * num \/ IDT_ADDRESS + 8 * num + 8 <= x -> rd8 (idt_set_gate num base sel flags m) x = rd8 m x.
Proof. intros Hx. unfold idt_set_gate. cbv zeta. by read_bytes. Qed.

Lemma set_gate_reads num base sel flags m : is_u32 base -> 0 <= sel < 2 ^ 16 -> 0 <= flags < 256 ->
  gate_at (idt_set_gate num base sel flags m) (IDT_ADDRESS + 8 * num) =
  Gate base sel (Z.testbit flags 7) (flags / 32 mod 4) (flags mod 16).
Proof.
  intros Hb Hs Hf. unfold idt_set_gate, gate_at. cbv zeta. read_bytes.
  rewrite !land_ones16, !Z.shiftr_div_pow2 by lia. rewrite (u8_small flags) by lia. f_equal.
  - unfold is_u32, u8 in *. Z.div_mod_to_equations. lia.
  - by apply half_bytes.
Qed.

Lemma zero_gate_outside i m x : x < IDT_ADDRESS + 8 * i \/ IDT_ADDRESS + 8 * i + 8 <= x -> rd8 (zero_gate i m) x = rd8 m x.
Proof. intros Hx. unfold zero_gate. cbv zeta. by read_bytes. Qed.

Lemma zero_gate_reads i m : gate_at (zero_gate i m) (IDT_ADDRESS + 8 * i) = Gate 0 0 false 0 0.
Proof. unfold zero_gate, gate_at. cbv zeta. by read_bytes. Qed.

(** A loop that writes entry [i] in turn [i]. *)
Lemma for_loop_gates (body : Z -> mem -> mem) (g : Z -> gate) n m :
  (forall i m x, 0 <= i < Z.of_nat n -> x < IDT_ADDRESS + 8 * i \/ IDT_ADDRESS + 8 * i + 8 <= x -> rd8 (body i m) x = rd8 m x) ->
  (forall i m, 0 <= i < Z.of_nat n -> gate_at (body i m) (IDT_ADDRESS + 8 * i) = g i) ->
  (forall x, x < IDT_ADDRESS \/ IDT_ADDRESS + 8 * Z.of_nat n <= x -> rd8 (for_loop n body m) x = rd8 m x) /\
  (forall i, 0 <= i < Z.of_nat n -> gate_at (for_loop n body m) (IDT_ADDRESS + 8 * i) = g i).
Proof.
  intros Hout Hin. induction n as [|n IH]; [split; [done|lia]|]. cbn [for_loop].
  destruct IH as [IH1 IH2]; [intros; apply Hout; lia|intros; apply Hin; lia|]. split.
  - intros x Hx. rewrite Hout by lia. apply IH1. lia.
  - intros i Hi. destruct (Z.eq_dec i (Z.of_nat n)) as [->|Hne]; [apply Hin; lia|].
    rewrite <- IH2 by lia. apply gate_same. intros x Hx. apply Hout; lia.
Qed.

Definition idt_mem (m : mem) : mem :=
  idt_set_gate 128 isr128 0x08 0xEF (idt_set_gate 47 (irq_stub 15) 0x08 0x8E (idt_set_gate 46 (irq_stub 14) 0x08 0x8E
    (idt_set_gate 33 (irq_stub 1) 0x08 0x8E (idt_set_gate 32 (irq_stub 0) 0x08 0x8E
    (for_loop 32 (fun i => idt_set_gate (u8 i) (isr_stub i) 0x08 0x8E) (for_loop (Z.to_nat IDT_SIZE) zero_gate m)))))).

(** The vectors with a gate and where they lead. *)
Definition vector_target (v : Z) : option Z :=
  if v <? 32 then Some (isr_stub v)
  else if v =? 32 then Some (irq_stub 0)
  else if v =? 33 then Some (irq_stub 1)
  else if v =? 46 then Some (irq_stub 14)
  else if v =? 47 then Some (irq_stub 15)
  else if v =? 128 then Some isr128
  else None.

Definition expected_gate (v : Z) : gate :=
  match vector_target v with
  | None => Gate 0 0 false 0 0
  | Some a => if v =? 128 then Gate a 0x08 true 3 TRAP_GATE else Gate a 0x08 true 0 INT_GATE
  end.

Record link_ok : Prop := {
  lk_isr v : 0 <= v < 32 -> is_u32 (isr_stub v);
  lk_irq n : 0 <= n < 16 -> is_u32 (irq_stub n);
  lk_128 : is_u32 isr128;
  lk_tss : is_u32 tss_addr;
  lk_apart : gdt_addr + 48 <= tss_addr \/ tss_addr + 104 <= gdt_addr;
  lk_gdt_idt : gdt_addr + 48 <= IDT_ADDRESS \/ IDT_ADDRESS + 2048 <= gdt_addr;
  lk_tss_idt : tss_addr + 104 <= IDT_ADDRESS \/ IDT_ADDRESS + 2048 <= tss_addr
}.

Lemma idt_mem_reads m : link_ok ->
  (forall x, x < IDT_ADDRESS \/ IDT_ADDRESS + 2048 <= x -> rd8 (idt_mem m) x = rd8 m x) /\
  (forall v, 0 <= v < 256 -> gate_at (idt_mem m) (IDT_ADDRESS + 8 * v) = expected_gate v).
Proof.
  intros Hlk. unfold idt_mem.
  destruct (for_loop_gates zero_gate (fun _ => Gate 0 0 false 0 0) (Z.to_nat IDT_SIZE) m) as [Z1 Z2];
    [intros; by apply zero_gate_outside|intros; apply zero_gate_reads|].
  set (m0 := for_loop _ zero_gate m) in *. change (Z.of_nat (Z.to_nat IDT_SIZE)) with 256 in *.
  destruct (for_loop_gates (fun i => idt_set_gate (u8 i) (isr_stub i) 0x08 0x8E) (fun i => Gate (isr_stub i) 0x08 true 0 INT_GATE) 32 m0) as [E1 E2].
  { intros i m' x Hi Hx. apply set_gate_outside. by rewrite u8_small by lia. }
  { intros i m' Hi. rewrite u8_small by lia. rewrite set_gate_reads; [reflexivity|by apply Hlk|lia|lia]. }
  set (m1 := for_loop 32 _ m0) in *. change (Z.of_nat 32) with 32 in *.
  pose proof (lk_irq Hlk 0 ltac:(lia)). pose proof (lk_irq Hlk 1 ltac:(lia)). pose proof (lk_irq Hlk 14 ltac:(lia)).
  pose proof (lk_irq Hlk 15 ltac:(lia)). pose proof (lk_128 Hlk). split.
  - intros x Hx. rewrite !set_gate_outside by lia. rewrite E1 by lia. apply Z1. lia.
  - intros v Hv.
    assert (Hskip : forall num base sel flags m', num <> v -> gate_at (idt_set_gate num base sel flags m') (IDT_ADDRESS + 8 * v) = gate_at m' (IDT_ADDRESS + 8 * v))
      by (intros; apply gate_same; intros; apply set_gate_outside; lia).
    unfold expected_gate, vector_target.
    repeat match goal with
    | |- context [v =? ?n] => destruct (Z.eqb_spec v n) as [->|]
    | |- context [v <? ?n] => destruct (Z.ltb_spec v n)
    end; try lia; repeat (rewrite Hskip by lia); try (rewrite set_gate_reads by (done || lia); reflexivity).
    + rewrite E2 by lia. reflexivity.
    + rewrite <- (Z2 v) by lia. apply gate_same. intros x Hx. apply E1. lia.
Qed.

Lemma zero_bytes_outside n : forall a m x, x < a \/ a + Z.of_nat n <= x -> rd8 (zero_bytes n a m) x = rd8 m x.
Proof.
  induction n as [|n IH]; intros a m x Hx; [done|]. cbn [zero_bytes]. rewrite IH by lia. by read_bytes.
Qed.

Lemma tss_init_outside ss0 esp0 m x : x < tss_addr \/ tss_addr + 104 <= x -> rd8 (tss_init ss0 esp0 m) x = rd8 m x.
Proof.
  intros Hx. unfold tss_init. cbv zeta. unfold wr16. rewrite !rd8_wr8.
  replace (tss_addr + 102 + 1 =? x) with false by lia. replace (tss_addr + 102 =? x) with false by lia.
  rewrite !rd8_wr32_ne by lia. apply zero_bytes_outside. change (Z.of_nat (Z.to_nat SIZEOF_TSS)) with 104. lia.
Qed.

(** What the processor takes from the TSS on a change to ring 0, and where it
    looks for the permissions of ports. *)
Lemma tss_init_reads ss0 esp0 m : let m' := tss_init ss0 esp0 m in
  rd32 m' (tss_addr + 4) = u32 esp0 /\ rd32 m' (tss_addr + 8) = u32 ss0 /\
  rd8 m' (tss_addr + 102) + 2 ^ 8 * rd8 m' (tss_addr + 103) = SIZEOF_TSS.
Proof.
  cbv zeta. unfold tss_init. cbv zeta.
  assert (E : forall m a v b, b + 4 <= a \/ a + 2 <= b -> rd32 (wr16 m a v) b = rd32 m b)
    by (intros; unfold rd32; read_bytes; done).
  split_and!.
  - rewrite E by lia. rewrite !(rd32_wr32_ne _ (tss_addr + _)) by lia. apply rd32_wr32_eq.
  - rewrite E by lia. rewrite !rd32_wr32_ne by lia. apply rd32_wr32_eq.
  - by read_bytes.
Qed.

Definition gdt_mem (m : mem) : mem :=
  gdt_set_entry GDT_TSS tss_get_addr SIZEOF_TSS 0x89 0x40 (tss_init SEG_KERNEL_DATA 0
    (gdt_set_entry GDT_USER_DATA 0 0xFFFFFFFF 0xF2 0xCF (gdt_set_entry GDT_USER_CODE 0 0xFFFFFFFF 0xFA 0xCF
    (gdt_set_entry GDT_KERNEL_DATA 0 0xFFFFFFFF 0x92 0xCF (gdt_set_entry GDT_KERNEL_CODE 0 0xFFFFFFFF 0x9A 0xCF
    (gdt_set_entry GDT_NULL_SEG 0 0 0 0 m)))))).

(** The segments behind the selectors the kernel uses. *)
Definition FLAT : Z := 0xFFFFFFFF.
Definition expected_segment (idx : Z) : option segment :=
  if idx =? 1 then Some (Segment 0 FLAT true 0 CODE_SEG)
  else if idx =? 2 then Some (Segment 0 FLAT true 0 DATA_SEG)
  else if idx =? 3 then Some (Segment 0 FLAT true 3 CODE_SEG)
  else if idx =? 4 then Some (Segment 0 FLAT true 3 DATA_SEG)
  else if idx =? 5 then Some (Segment tss_addr SIZEOF_TSS true 0 TSS_SEG)
  else None.

Lemma gdt_mem_reads m : link_ok ->
  (forall x, (x < gdt_addr \/ gdt_addr + 48 <= x) -> (x < tss_addr \/ tss_addr + 104 <= x) -> rd8 (gdt_mem m) x = rd8 m x) /\
  (forall idx, 1 <= idx < 6 -> Some (segment_at (gdt_mem m) (gdt_addr + 8 * idx)) = expected_segment idx) /\
  rd32 (gdt_mem m) (tss_addr + 4) = 0 /\ rd32 (gdt_mem m) (tss_addr + 8) = SEG_KERNEL_DATA.
Proof.
  intros Hlk. pose proof (lk_apart Hlk). pose proof (lk_tss Hlk). unfold gdt_mem, tss_get_addr, SIZEOF_TSS.
  unfold GDT_NULL_SEG, GDT_KERNEL_CODE, GDT_KERNEL_DATA, GDT_USER_CODE, GDT_USER_DATA, GDT_TSS, SEG_KERNEL_DATA.
  set (m4 := gdt_set_entry 4 _ _ _ _ _). split_and!.
  - intros x Hx Hy. rewrite gdt_entry_outside, tss_init_outside by lia. unfold m4. by rewrite !gdt_entry_outside by lia.
  - intros idx Hi. unfold expected_segment.
    assert (Hskip : forall num base limit access gran m', num <> idx ->
      segment_at (gdt_set_entry num base limit access gran m') (gdt_addr + 8 * idx) = segment_at m' (gdt_addr + 8 * idx))
      by (intros; apply segment_same; intros; apply gdt_entry_outside; lia).
    assert (Hskip' : segment_at (tss_init 16 0 m4) (gdt_addr + 8 * idx) = segment_at m4 (gdt_addr + 8 * idx))
      by (apply segment_same; intros; apply tss_init_outside; lia).
    assert (Hu : is_u32 0 /\ is_u32 0xFFFFFFFF /\ is_u32 104) by (unfold is_u32; lia).
    destruct (Z.eqb_spec idx 5) as [->|].
    { rewrite gdt_entry_reads by (done || lia || tauto). reflexivity. }
    rewrite Hskip, Hskip' by lia. unfold m4.
    repeat match goal with |- context [idx =? ?n] => destruct (Z.eqb_spec idx n) as [->|] end; try lia;
      repeat (rewrite Hskip by lia); rewrite gdt_entry_reads by (lia || tauto); reflexivity.
  - destruct (tss_init_reads 16 0 m4) as (E & _). rewrite (rd32_same (tss_init 16 0 m4)); [exact E|].
    intros i Hi. apply gdt_entry_outside. lia.
  - destruct (tss_init_reads 16 0 m4) as (_ & E & _). rewrite (rd32_same (tss_init 16 0 m4)); [exact E|].
    intros i Hi. apply gdt_entry_outside. lia.
Qed.
End tables.

(** ** The 8259 *)

(** One chip: mask and in-service registers, first vector, cascade word, and how
    many initialisation words have come since the first. *)
Record chip := Chip { c_imr : Z; c_isr : Z; c_base : Z; c_cascade : Z; c_stage : Z }.

(** The end of interrupt clears the in-service bit of highest priority. *)
Definition clear_lowest (isr : Z) : Z :=
  match find_from (Z.testbit isr) 0 8 with Some i => Z.clearbit isr i | None => isr end.

Definition chip_cmd (v : Z) (c : chip) : chip :=
  if Z.testbit v 4 then Chip 0 (c_isr c) (c_base c) (c_cascade c) 1
  else Chip (c_imr c) (clear_lowest (c_isr c)) (c_base c) (c_cascade c) (c_stage c).

Definition chip_data (v : Z) (c : chip) : chip :=
  if c_stage c =? 1 then Chip (c_imr c) (c_isr c) v (c_cascade c) 2
  else if c_stage c =? 2 then Chip (c_imr c) (c_isr c) (c_base c) v 3
  else if c_stage c =? 3 then Chip (c_imr c) (c_isr c) (c_base c) (c_cascade c) 0
  else Chip v (c_isr c) (c_base c) (c_cascade c) 0.

Definition pic_cmd (slave : bool) : Z := if slave then PIC2_CMD else PIC1_CMD.
Definition pic_data (slave : bool) : Z := if slave then PIC2_DATA else PIC1_DATA.

(** The two chips of a machine answer to their ports as the data sheet says, for
    the bytes this kernel writes; [false] is the master. *)
Class PicLike (Dv : Type) `{Ports Dv} := {
  chip_of : bool -> Dv -> chip;
  chip_mask d b : 0 <= c_imr (chip_of b d) < 256;
  chip_on_cmd d (sl b : bool) v : v = 0x11 \/ v = 0x20 ->
    chip_of b (outb (pic_cmd sl) v d) = if Bool.eqb b sl then chip_cmd v (chip_of b d) else chip_of b d;
  chip_on_data d (sl b : bool) v : 0 <= v < 256 ->
    chip_of b (outb (pic_data sl) v d) = if Bool.eqb b sl then chip_data v (chip_of b d) else chip_of b d;
  chip_on_read d sl : c_stage (chip_of sl d) = 0 -> (inb (pic_data sl) d).1 = c_imr (chip_of sl d);
  chip_after_read d sl b : chip_of b (inb (pic_data sl) d).2 = chip_of b d;
  chip_elsewhere d p v b : p ∉ [PIC1_CMD; PIC1_DATA; PIC2_CMD; PIC2_DATA] -> chip_of b (outb p v d) = chip_of b d
}.

(** A line of the pair is open when its mask bit is clear. *)
Definition line_open `{PicLike Dv} (d : Dv) (n : Z) : bool := negb (Z.testbit (c_imr (chip_of (8 <=? n) d)) (n mod 8)).
Definition line_vector `{PicLike Dv} (d : Dv) (n : Z) : Z := c_base (chip_of (8 <=? n) d) + n mod 8.

Section pic.
Context {Dv : Type} `{PicLike Dv} `{Link}.
Implicit Types s : isys Dv.

(** A computation that only talks to devices. *)
Definition talks (m : cM (isys Dv) ()) (P : Dv -> Dv -> Prop) : Prop :=
  forall s, exists d, m s = Some ((), put_idev d s) /\ P (i_dev s) d.

Lemma talks_bind m n (P Q : Dv -> Dv -> Prop) : talks m P -> talks n Q -> talks (m;; n) (fun a c => exists b, P a b /\ Q b c).
Proof.
  intros Hm Hn s. destruct (Hm s) as (d & E & HP). destruct (Hn (put_idev d s)) as (d' & E' & HQ).
  exists d'. split; [|eauto]. unfold mbind, cM_bind. rewrite E. exact E'.
Qed.

Lemma talks_mono m (P Q : Dv -> Dv -> Prop) : talks m P -> (forall a b, P a b -> Q a b) -> talks m Q.
Proof. intros Hm HPQ s. destruct (Hm s) as (d & E & HP). eauto. Qed.

Definition set_imr (v : Z) (c : chip) : chip := Chip v (c_isr c) (c_base c) (c_cascade c) 0.
Definition ready (d : Dv) : Prop := forall b, c_stage (chip_of b d) = 0.

(** Reading, changing and writing the mask that holds [irq]. *)
Lemma mask_talks irq (f : Z -> Z) : 0 <= irq < 16 -> (forall v, 0 <= v < 256 -> 0 <= f v < 256) ->
  talks (v ← io_in (pic_port irq).1; io_out (pic_port irq).1 (f v)) (fun d d' => ready d -> ready d' /\
    forall b, chip_of b d' = if Bool.eqb b (8 <=? irq) then set_imr (f (c_imr (chip_of b d))) (chip_of b d) else chip_of b d).
Proof.
  intros Hi Hf s. set (sl := 8 <=? irq).
  assert (Ep : (pic_port irq).1 = pic_data sl) by (unfold pic_port, sl; destruct (Z.ltb_spec irq 8), (Z.leb_spec 8 irq); (done || lia)).
  rewrite Ep. unfold mbind, cM_bind, io_in, io_out, modify. destruct (inb (pic_data sl) (i_dev s)) as [v d] eqn:E.
  eexists. split; [reflexivity|]. cbn [i_dev put_idev]. intros Hr.
  pose proof (chip_on_read (i_dev s) sl (Hr sl)) as Hv. pose proof (fun b => chip_after_read (i_dev s) sl b) as Hd.
  rewrite E in Hv, Hd. cbn [fst snd] in Hv, Hd. subst v.
  assert (Hc : forall b, chip_of b (outb (pic_data sl) (f (c_imr (chip_of sl (i_dev s)))) d) =
    if Bool.eqb b sl then set_imr (f (c_imr (chip_of b (i_dev s)))) (chip_of b (i_dev s)) else chip_of b (i_dev s)).
  { intros b. rewrite chip_on_data by (apply Hf, chip_mask). rewrite Hd. destruct (Bool.eqb_spec b sl) as [->|]; [|done].
    unfold chip_data, set_imr. rewrite (Hr sl). done. }
  split; [|exact Hc]. intros b. rewrite Hc. destruct (Bool.eqb b sl); [done|apply Hr].
Qed.

Lemma byte_ops : forall k, 0 <= k < 8 -> forall v, 0 <= v < 256 ->
  0 <= Z.lor v (u8 (Z.shiftl 1 k)) < 256 /\ 0 <= Z.land v (u8 (Z.lnot (Z.shiftl 1 k))) < 256.
Proof.
  intros k Hk v Hv.
  assert (E : forallb (fun k => forallb (fun v => (0 <=? Z.lor v (u8 (Z.shiftl 1 k))) && (Z.lor v (u8 (Z.shiftl 1 k)) <? 256) &&
    (0 <=? Z.land v (u8 (Z.lnot (Z.shiftl 1 k)))) && (Z.land v (u8 (Z.lnot (Z.shiftl 1 k))) <? 256)) (seqZ 0 256)) (seqZ 0 8) = true)
    by (vm_compute; reflexivity).
  rewrite forallb_forall in E. specialize (E k ltac:(apply list_elem_of_In, elem_of_seqZ; lia)).
  rewrite forallb_forall in E. specialize (E v ltac:(apply list_elem_of_In, elem_of_seqZ; lia)). lia.
Qed.

Lemma port_bit irq : 0 <= irq < 16 -> (pic_port irq).2 = irq mod 8.
Proof.
  intros Hi. unfold pic_port. destruct (Z.ltb_spec irq 8); cbn [snd]; [by rewrite Z.mod_small by lia|].
  rewrite u8_small by lia. Z.div_mod_to_equations. lia.
Qed.

Definition masked (irq : Z) (f : Z -> Z -> Z) (d d' : Dv) : Prop := ready d -> ready d' /\
  forall b, chip_of b d' = if Bool.eqb b (8 <=? irq) then set_imr (f (irq mod 8) (c_imr (chip_of b d))) (chip_of b d) else chip_of b d.

Definition mask_bit (k v : Z) : Z := Z.lor v (u8 (Z.shiftl 1 k)).
Definition unmask_bit (k v : Z) : Z := Z.land v (u8 (Z.lnot (Z.shiftl 1 k))).

Lemma pic_mask_talks irq : 0 <= irq < 16 -> talks (pic_mask_irq irq) (masked irq mask_bit).
Proof.
  intros Hi. pose proof (port_bit irq Hi) as Eb. unfold pic_mask_irq. destruct (pic_port irq) as [p k] eqn:Ep. cbn [snd] in Eb. subst k.
  replace p with (pic_port irq).1 by (by rewrite Ep). eapply talks_mono; [apply (mask_talks irq (mask_bit (irq mod 8)) Hi)|done].
  intros v Hv. apply byte_ops; [apply Z.mod_pos_bound; lia|done].
Qed.

Lemma pic_unmask_talks irq : 0 <= irq < 16 -> talks (pic_unmask_irq irq) (masked irq unmask_bit).
Proof.
  intros Hi. pose proof (port_bit irq Hi) as Eb. unfold pic_unmask_irq. destruct (pic_port irq) as [p k] eqn:Ep. cbn [snd] in Eb. subst k.
  replace p with (pic_port irq).1 by (by rewrite Ep). eapply talks_mono; [apply (mask_talks irq (unmask_bit (irq mod 8)) Hi)|done].
  intros v Hv. apply byte_ops; [apply Z.mod_pos_bound; lia|done].
Qed.

Lemma chip_cmd1 d b v : v = 0x11 \/ v = 0x20 -> chip_of b (outb PIC1_CMD v d) = if b then chip_of b d else chip_cmd v (chip_of b d).
Proof. intros Hv. change PIC1_CMD with (pic_cmd false). rewrite chip_on_cmd by done. by destruct b. Qed.
Lemma chip_cmd2 d b v : v = 0x11 \/ v = 0x20 -> chip_of b (outb PIC2_CMD v d) = if b then chip_cmd v (chip_of b d) else chip_of b d.
Proof. intros Hv. change PIC2_CMD with (pic_cmd true). rewrite chip_on_cmd by done. by destruct b. Qed.
Lemma chip_data1 d b v : 0 <= v < 256 -> chip_of b (outb PIC1_DATA v d) = if b then chip_of b d else chip_data v (chip_of b d).
Proof. intros Hv. change PIC1_DATA with (pic_data false). rewrite chip_on_data by done. by destruct b. Qed.
Lemma chip_data2 d b v : 0 <= v < 256 -> chip_of b (outb PIC2_DATA v d) = if b then chip_data v (chip_of b d) else chip_of b d.
Proof. intros Hv. change PIC2_DATA with (pic_data true). rewrite chip_on_data by done. by destruct b. Qed.
Lemma chip_wait d b v p : p = 0x80 \/ p = PIT_CMD \/ p = PIT_CH0 -> chip_of b (outb p v d) = chip_of b d.
Proof.
  intros Hp. apply chip_elsewhere. unfold PIC1_CMD, PIC1_DATA, PIC2_CMD, PIC2_DATA, PIT_CMD, PIT_CH0 in *.
  rewrite !not_elem_of_cons. split_and!; [lia..|apply not_elem_of_nil].
Qed.

(** After the remapping: vectors 32 to 47, the slave on line 2, masks kept. *)
Definition remapped (d d' : Dv) : Prop := ready d -> ready d' /\
  forall b, chip_of b d' = Chip (c_imr (chip_of b d)) (c_isr (chip_of b d)) (if b then 40 else 32) (if b then 2 else 4) 0.

Lemma talks_out p v : talks (io_out p v) (fun d d' => d' = outb p v d).
Proof. intros s. eexists. split; [reflexivity|reflexivity]. Qed.

Lemma talks_in p (k : Z -> cM (isys Dv) ()) (P : Z -> Dv -> Dv -> Prop) :
  (forall v, talks (k v) (P v)) -> talks (v ← io_in p; k v) (fun d d' => P (inb p d).1 (inb p d).2 d').
Proof.
  intros Hk s. unfold mbind, cM_bind, io_in. destruct (inb p (i_dev s)) as [v d]. destruct (Hk v (put_idev d s)) as (d' & E & HP).
  exists d'. split; [exact E|exact HP].
Qed.

Definition outs (l : list (Z * Z)) (d : Dv) : Dv := fold_left (fun d pv => outb pv.1 pv.2 d) l d.

Lemma talks_outs_cons p v m l : talks m (fun d d' => d' = outs l d) -> talks (io_out p v;; m) (fun d d' => d' = outs ((p, v) :: l) d).
Proof. intros Hm. eapply talks_mono; [apply talks_bind; [apply talks_out|exact Hm]|]. intros a c (b & -> & ->). done. Qed.

Lemma talks_outs_one p v : talks (io_out p v) (fun d d' => d' = outs [(p, v)] d).
Proof. apply talks_out. Qed.

Definition pic_words (mask1 mask2 : Z) : list (Z * Z) :=
  [(PIC1_CMD, Z.lor 0x10 0x01); (0x80, 0); (PIC2_CMD, Z.lor 0x10 0x01); (0x80, 0); (PIC1_DATA, 0x20); (0x80, 0); (PIC2_DATA, 0x28); (0x80, 0);
   (PIC1_DATA, 0x04); (0x80, 0); (PIC2_DATA, 0x02); (0x80, 0); (PIC1_DATA, 0x01); (0x80, 0); (PIC2_DATA, 0x01); (0x80, 0);
   (PIC1_DATA, mask1); (PIC2_DATA, mask2)].

Lemma pic_init_talks : talks pic_init remapped.
Proof.
  unfold pic_init, io_wait. eapply talks_mono.
  - apply (talks_in PIC1_DATA _ (fun v1 d d' => d' = outs (pic_words v1 (inb PIC2_DATA d).1) (inb PIC2_DATA d).2)). intros v1.
    apply (talks_in PIC2_DATA _ (fun v2 d d' => d' = outs (pic_words v1 v2) d)). intros v2.
    unfold pic_words. do 17 apply talks_outs_cons. apply talks_outs_one.
  - intros d d'. cbv beta. set (v1 := (inb PIC1_DATA d).1). set (d1 := (inb PIC1_DATA d).2). set (v2 := (inb PIC2_DATA d1).1).
    set (d2 := (inb PIC2_DATA d1).2). intros -> Hr.
    assert (A1 : forall b, chip_of b d1 = chip_of b d) by (intros b; apply (chip_after_read d false b)).
    assert (A2 : forall b, chip_of b d2 = chip_of b d) by (intros b; rewrite <- A1; apply (chip_after_read d1 true b)).
    assert (V1 : v1 = c_imr (chip_of false d)) by (apply (chip_on_read d false), Hr).
    assert (V2 : v2 = c_imr (chip_of true d)) by (rewrite <- A1; apply (chip_on_read d1 true); rewrite A1; apply Hr).
    pose proof (chip_mask d false). pose proof (chip_mask d true). clearbody v1 d1 v2 d2. subst v1 v2.
    match goal with |- _ /\ ?G => assert (Hc : G); [|split; [intros b; rewrite Hc; reflexivity|exact Hc]] end.
    intros b. unfold pic_words. cbn [outs fold_left fst snd]. change (Z.lor 0x10 0x01) with 0x11.
    repeat first [rewrite chip_wait by tauto | rewrite chip_data2 by done | rewrite chip_data1 by done | rewrite chip_cmd2 by tauto | rewrite chip_cmd1 by tauto].
    rewrite A2. destruct b; reflexivity.
Qed.

(** The masks and bases of both chips. *)
Record lines (m1 m2 : Z) (d : Dv) : Prop := {
  ln_ready : ready d;
  ln_imr b : c_imr (chip_of b d) = if b then m2 else m1;
  ln_base b : c_base (chip_of b d) = if b then 40 else 32
}.

Lemma masked_lines irq f m1 m2 d d' : lines m1 m2 d -> masked irq f d d' ->
  lines (if 8 <=? irq then m1 else f (irq mod 8) m1) (if 8 <=? irq then f (irq mod 8) m2 else m2) d'.
Proof.
  intros [Hr Hi Hb] Hm. destruct (Hm Hr) as [Hr' Hc]. constructor; [done|..].
  - intros b. rewrite Hc. pose proof (Hi b) as Ei. destruct b, (8 <=? irq); cbn [Bool.eqb c_imr set_imr]; by rewrite Ei.
  - intros b. rewrite Hc. pose proof (Hb b) as Ei. destruct b, (8 <=? irq); cbn [Bool.eqb c_base set_imr]; by rewrite Ei.
Qed.

Definition mask_all (l : list Z) (m : Z * Z) : Z * Z :=
  fold_left (fun m irq => (if 8 <=? irq then m.1 else mask_bit (irq mod 8) m.1, if 8 <=? irq then mask_bit (irq mod 8) m.2 else m.2)) l m.

Lemma mask_from_talks n : forall i, 0 <= i -> i + Z.of_nat n <= 16 ->
  talks (mask_from n i) (fun d d' => forall m1 m2, lines m1 m2 d -> lines (mask_all (seqZ i (Z.of_nat n)) (m1, m2)).1 (mask_all (seqZ i (Z.of_nat n)) (m1, m2)).2 d').
Proof.
  induction n as [|n IH]; intros i Hi Hn.
  { intros s. exists (i_dev s). split; [by destruct s|]. by intros. }
  rewrite seqZ_cons by lia. cbn [mask_from]. rewrite u8_small by lia.
  eapply talks_mono; [apply talks_bind; [apply pic_mask_talks; lia|apply IH; lia]|].
  intros a c (b & Hm & Hrest) m1 m2 Hl. replace (Z.pred (Z.of_nat (S n))) with (Z.of_nat n) by lia. replace (Z.succ i) with (i + 1) by lia.
  apply (Hrest _ _ (masked_lines _ _ _ _ _ _ Hl Hm)).
Qed.

Lemma mask_all_16 m1 m2 : 0 <= m1 < 256 -> 0 <= m2 < 256 -> mask_all (seqZ 0 16) (m1, m2) = (255, 255).
Proof.
  intros Hm1 Hm2.
  assert (Hs : forall l a b, mask_all l (a, b) = ((mask_all l (a, a)).1, (mask_all l (b, b)).2)).
  { assert (Hs : forall l a b c, (mask_all l (a, b)).1 = (mask_all l (a, c)).1 /\ (mask_all l (b, a)).2 = (mask_all l (c, a)).2).
    { unfold mask_all. induction l as [|x l IH]; intros a b c; [done|]. cbn [fold_left fst snd]. split; apply IH. }
    intros l a b. rewrite (surjective_pairing (mask_all l (a, b))). f_equal; apply Hs. }
  assert (E : forallb (fun v => let r := mask_all (seqZ 0 16) (v, v) in (r.1 =? 255) && (r.2 =? 255)) (seqZ 0 256) = true) by (vm_compute; reflexivity).
  rewrite forallb_forall in E. rewrite Hs.
  pose proof (E m1 ltac:(apply list_elem_of_In, elem_of_seqZ; lia)) as E1. pose proof (E m2 ltac:(apply list_elem_of_In, elem_of_seqZ; lia)) as E2.
  cbv zeta in E1, E2. b2p. congruence.
Qed.

Lemma bind_run {A B} (m : cM (isys Dv) A) (k : A -> cM (isys Dv) B) s a s' r : m s = Some (a, s') -> k a s' = r -> (m ≫= k) s = r.
Proof. intros E <-. unfold mbind, cM_bind. by rewrite E. Qed.

Lemma gdt_init_run s : gdt_init s =
  Some ((), Isys Dv (gdt_mem (i_mem s)) (i_dev s) (8 * GDT_ENTRIES - 1, gdt_addr) (i_idtr s) SEG_TSS (i_handlers s) (i_freq s)).
Proof. reflexivity. Qed.

Definition no_handlers : list (option isr_handler) := replicate (Z.to_nat IDT_SIZE) None.

Lemma idt_init_run s : idt_init s =
  Some ((), Isys Dv (idt_mem (i_mem s)) (i_dev s) (i_gdtr s) (8 * IDT_SIZE - 1, IDT_ADDRESS) (i_tr s) no_handlers (i_freq s)).
Proof. reflexivity. Qed.

(** Registering a handler and opening its line. *)
Lemma open_line irq h line s m1 m2 : 0 <= line < 16 -> lines m1 m2 (i_dev s) ->
  exists d, (idt_register_handler irq h;; pic_unmask_irq line) s =
    Some ((), Isys Dv (i_mem s) d (i_gdtr s) (i_idtr s) (i_tr s) (i_handlers s).[irq := Some h] (i_freq s)) /\
    lines (if 8 <=? line then m1 else unmask_bit (line mod 8) m1) (if 8 <=? line then unmask_bit (line mod 8) m2 else m2) d.
Proof.
  intros Hl Hln. set (s1 := put_handlers (i_handlers s).[irq := Some h] s).
  destruct (pic_unmask_talks line Hl s1) as (d & E & Hm). exists d. split.
  - eapply bind_run; [reflexivity|]. exact E.
  - exact (masked_lines _ _ _ _ _ _ Hln Hm).
Qed.

Lemma timer_init_run s m1 m2 : lines m1 m2 (i_dev s) -> exists d, timer_init 100 s =
    Some ((), Isys Dv (i_mem s) d (i_gdtr s) (i_idtr s) (i_tr s) (i_handlers s).[32 := Some timer_callback] 100) /\
    lines (unmask_bit 0 m1) m2 d.
Proof.
  intros Hl. set (d0 := outs [(PIT_CMD, 0x36); (PIT_CH0, 0x9B); (PIT_CH0, 0x2E)] (i_dev s)).
  assert (Hd0 : lines m1 m2 d0).
  { assert (Ec : forall b, chip_of b d0 = chip_of b (i_dev s)) by (intros b; unfold d0; cbn [outs fold_left fst snd]; by rewrite !chip_wait by tauto).
    destruct Hl as [Hr Hi Hb]. constructor; [|intros b; rewrite Ec; apply Hi|intros b; rewrite Ec; apply Hb].
    intros b. rewrite Ec. apply Hr. }
  set (s1 := Isys Dv (i_mem s) d0 (i_gdtr s) (i_idtr s) (i_tr s) (i_handlers s) 100).
  destruct (open_line 32 timer_callback 0 s1 m1 m2 ltac:(lia) Hd0) as (d & E & Hl'). exists d. split; [exact E|exact Hl'].
Qed.

(** The registrations for a channel. *)
Definition ata_vector (c : Z) : Z := if c =? 0 then 46 else 47.
Definition ata_line (c : Z) : Z := if c =? 0 then 14 else 15.

Lemma ata_irq_init_run c s m1 m2 : lines m1 m2 (i_dev s) -> exists d, ata_irq_init c s =
    Some ((), Isys Dv (i_mem s) d (i_gdtr s) (i_idtr s) (i_tr s) (i_handlers s).[ata_vector c := Some ata_irq_handler] (i_freq s)) /\
    lines (unmask_bit 2 m1) (unmask_bit (ata_line c mod 8) m2) d.
Proof.
  intros Hl. destruct (open_line (ata_vector c) ata_irq_handler 2 s m1 m2 ltac:(lia) Hl) as (d & E & Hl').
  set (s1 := Isys Dv _ d _ _ _ _ _) in E.
  destruct (pic_unmask_talks (ata_line c) ltac:(unfold ata_line; destruct (c =? 0); lia) s1) as (d' & E' & Hm).
  exists d'. split.
  - assert (Ed : ata_irq_init c s = ((idt_register_handler (ata_vector c) ata_irq_handler;; pic_unmask_irq 2) ≫= (fun _ => pic_unmask_irq (ata_line c))) s).
    { reflexivity. }
    rewrite Ed. eapply bind_run; [exact E|exact E'].
  - pose proof (masked_lines _ _ _ _ _ _ Hl' Hm) as Hr. unfold ata_line in *. destruct (c =? 0); exact Hr.
Qed.

(** The masks after the set-up. *)
Definition final_masks (channel : option Z) : Z * Z :=
  match channel with Some c => (0xF8, if c =? 0 then 0xBF else 0x7F) | None => (0xFC, 0xFF) end.
Definition final_handlers (channel : option Z) : list (option isr_handler) :=
  let h := no_handlers.[32 := Some timer_callback].[33 := Some keyboard_callback] in
  match channel with Some c => h.[ata_vector c := Some ata_irq_handler] | None => h end.

Lemma interrupt_setup_run channel s : ready (i_dev s) -> exists d, interrupt_setup channel s =
    Some ((), Isys Dv (idt_mem (gdt_mem (i_mem s))) d (8 * GDT_ENTRIES - 1, gdt_addr) (8 * IDT_SIZE - 1, IDT_ADDRESS) SEG_TSS
                (final_handlers channel) 100) /\
    lines (final_masks channel).1 (final_masks channel).2 d.
Proof.
  intros Hr. unfold interrupt_setup. set (s1 := Isys Dv (gdt_mem (i_mem s)) (i_dev s) (8 * GDT_ENTRIES - 1, gdt_addr) (i_idtr s) SEG_TSS (i_handlers s) (i_freq s)).
  destruct (pic_init_talks s1) as (d2 & E2 & H2'). destruct (H2' Hr) as [Hr2 Hc2]. set (s2 := put_idev d2 s1) in E2.
  destruct (mask_from_talks 16 0 ltac:(lia) ltac:(lia) s2) as (d3 & E3 & H3). set (s3 := put_idev d3 s2) in E3.
  assert (Hl3 : lines 255 255 d3).
  { specialize (H3 (c_imr (chip_of false (i_dev s))) (c_imr (chip_of true (i_dev s)))).
    change (Z.of_nat 16) with 16 in H3. rewrite mask_all_16 in H3 by apply chip_mask. apply H3.
    constructor; [exact Hr2|intros b; cbn [i_dev put_idev s2]; rewrite Hc2; by destruct b|intros b; cbn [i_dev put_idev s2]; rewrite Hc2; by destruct b]. }
  set (s4 := Isys Dv (idt_mem (i_mem s3)) (i_dev s3) (i_gdtr s3) (8 * IDT_SIZE - 1, IDT_ADDRESS) (i_tr s3) no_handlers (i_freq s3)).
  destruct (timer_init_run s4 255 255 Hl3) as (d5 & E5 & Hl5). set (s5 := Isys Dv _ d5 _ _ _ _ _) in E5.
  destruct (open_line 33 keyboard_callback 1 s5 _ _ ltac:(lia) Hl5) as (d6 & E6 & Hl6). set (s6 := Isys Dv _ d6 _ _ _ _ _) in E6.
  assert (Hend : exists d, (match channel with Some c => ata_irq_init c | None => mret () end) s6 =
    Some ((), Isys Dv (i_mem s6) d (i_gdtr s6) (i_idtr s6) (i_tr s6) (final_handlers channel) 100) /\
    lines (final_masks channel).1 (final_masks channel).2 d).
  { destruct channel as [c|]; [|exists d6; split; [reflexivity|exact Hl6]].
    destruct (ata_irq_init_run c s6 _ _ Hl6) as (d7 & E7 & Hl7). exists d7. split; [exact E7|].
    unfold ata_line in Hl7. cbn [final_masks fst snd]. destruct (c =? 0); exact Hl7. }
  destruct Hend as (d & Ed & Hl). exists d. split; [|exact Hl].
  eapply bind_run; [apply gdt_init_run|]. eapply bind_run; [exact E2|]. eapply bind_run; [exact E3|].
  eapply bind_run; [apply idt_init_run|]. eapply bind_run; [exact E5|]. eapply bind_run; [exact E6|]. exact Ed.
Qed.

(** ** Acknowledging *)

(** Line [k] of a chip is in service and no line of higher priority is. *)
Definition served (isr k : Z) : Prop := Z.testbit isr k = true /\ forall j, 0 <= j < k -> Z.testbit isr j = false.

Lemma clear_served isr k : 0 <= k < 8 -> served isr k -> clear_lowest isr = Z.clearbit isr k.
Proof.
  intros Hk [Hbit Hlow]. unfold clear_lowest.
  assert (E : forall n i, 0 <= i <= k -> k < i + Z.of_nat n -> find_from (Z.testbit isr) i n = Some k).
  { induction n as [|n IH]; intros i Hi Hn; [lia|]. cbn [find_from]. destruct (Z.eq_dec i k) as [->|Hne]; [by rewrite Hbit|].
    rewrite Hlow by lia. apply IH; lia. }
  by rewrite E by lia.
Qed.

Definition acknowledge (k : Z) (c : chip) : chip := Chip (c_imr c) (Z.clearbit (c_isr c) k) (c_base c) (c_cascade c) (c_stage c).

Lemma irq_handler_run n s : 0 <= n < 16 -> 
  served (c_isr (chip_of false (i_dev s))) (if 8 <=? n then 2 else n) ->
  (8 <= n -> served (c_isr (chip_of true (i_dev s))) (n - 8)) ->
  exists d, irq_handler (32 + n) s = Some ((i_handlers s).[32 + n], put_idev d s) /\
    chip_of false d = acknowledge (if 8 <=? n then 2 else n) (chip_of false (i_dev s)) /\
    chip_of true d = if 8 <=? n then acknowledge (n - 8) (chip_of true (i_dev s)) else chip_of true (i_dev s).
Proof.
  intros Hn Hm Hs. exists (outs ((if 8 <=? n then [(PIC2_CMD, 0x20)] else []) ++ [(PIC1_CMD, 0x20)]) (i_dev s)).
  unfold irq_handler, IDT_SIZE. replace (40 <=? 32 + n) with (8 <=? n) by lia. replace (32 + n <? 256) with true by lia.
  destruct (Z.leb_spec 8 n) as [H8|H8]; (split; [reflexivity|]); cbn [outs app fold_left fst snd].
  - rewrite !chip_cmd1, !chip_cmd2 by tauto. cbv iota. unfold chip_cmd, acknowledge. change (Z.testbit 32 4) with false. cbv iota.
    rewrite (clear_served _ 2), (clear_served _ (n - 8)) by (first [lia|done|by apply Hs]). done.
  - rewrite !chip_cmd1 by tauto. cbv iota. unfold chip_cmd, acknowledge. change (Z.testbit 32 4) with false. cbv iota.
    by rewrite (clear_served _ n) by (first [lia|done]).
Qed.

Definition driver_of (n : Z) : isr_handler :=
  if n =? 0 then timer_callback else if n =? 1 then keyboard_callback else ata_irq_handler.

Definition opened (channel : option Z) : list Z :=
  match channel with Some c => [0; 1; 2; ata_line c] | None => [0; 1] end.

Lemma final_lines channel d n : 0 <= n < 16 -> lines (final_masks channel).1 (final_masks channel).2 d ->
  line_vector d n = 32 + n /\ (line_open d n = true <-> n ∈ opened channel).
Proof.
  intros Hn [_ Hi Hb]. unfold line_vector, line_open. rewrite Hi, Hb. split.
  - destruct (Z.leb_spec 8 n); Z.div_mod_to_equations; lia.
  - assert (E : forall (masks : Z * Z) (l : list Z), forallb (fun n => Bool.eqb (negb (Z.testbit (if 8 <=? n then masks.2 else masks.1) (n mod 8))) (bool_decide (n ∈ l))) (seqZ 0 16) = true ->
      negb (Z.testbit (if 8 <=? n then masks.2 else masks.1) (n mod 8)) = true <-> n ∈ l).
    { intros masks lst E. rewrite forallb_forall in E. specialize (E n ltac:(apply list_elem_of_In, elem_of_seqZ; lia)).
      apply Bool.eqb_prop in E. rewrite E. apply bool_decide_eq_true. }
    apply E. destruct channel as [c|]; [|vm_compute; reflexivity]. cbn [final_masks opened]. unfold ata_line. destruct (c =? 0); vm_compute; reflexivity.
Qed.

Lemma final_handlers_open channel n : n ∈ opened channel -> n <> 2 -> (final_handlers channel).[32 + n] = Some (driver_of n).
Proof.
  intros Hn H2'. unfold opened, final_handlers in *. destruct channel as [c|].
  - unfold ata_line, ata_vector in *. repeat (apply elem_of_cons in Hn as [->|Hn]); try done.
    + destruct (c =? 0); vm_compute; reflexivity.
    + destruct (c =? 0); vm_compute; reflexivity.
    + destruct (c =? 0); vm_compute; reflexivity.
    + by apply not_elem_of_nil in Hn.
  - repeat (apply elem_of_cons in Hn as [->|Hn]); [vm_compute; reflexivity..|by apply not_elem_of_nil in Hn].
Qed.

(** The bytes of the three tables. *)
Definition in_tables (x : Z) : Prop :=
  gdt_addr <= x < gdt_addr + 48 \/ tss_addr <= x < tss_addr + 104 \/ IDT_ADDRESS <= x < IDT_ADDRESS + 2048.

(** What the processor finds in memory that holds the tables. *)
Record tables_read (m : mem) : Prop := {
  tr_segment sel : 0 <= sel < 2 ^ 16 -> segment_of m (8 * GDT_ENTRIES - 1, gdt_addr) sel = expected_segment (sel / 8);
  tr_stack : rd32 m (tss_addr + 8) = SEG_KERNEL_DATA;
  tr_gate v : 0 <= v < 256 -> gate_of m (8 * IDT_SIZE - 1, IDT_ADDRESS) v =
    (fun a => if v =? 128 then Gate a 0x08 true 3 TRAP_GATE else Gate a 0x08 true 0 INT_GATE) <$> vector_target v
}.

Lemma tables_mem_outside m x : link_ok -> ~ in_tables x -> rd8 (idt_mem (gdt_mem m)) x = rd8 m x.
Proof.
  unfold in_tables. intros Hlk Hx. rewrite (proj1 (idt_mem_reads _ Hlk)) by lia. apply (gdt_mem_reads m Hlk); lia.
Qed.

Lemma tables_mem_read m m' : link_ok -> (forall x, in_tables x -> rd8 m' x = rd8 (idt_mem (gdt_mem m)) x) -> tables_read m'.
Proof.
  intros Hlk Hm. unfold in_tables in Hm. destruct (gdt_mem_reads m Hlk) as (G1 & G2 & G3 & G4).
  destruct (idt_mem_reads (gdt_mem m) Hlk) as (I1 & I2). pose proof (lk_gdt_idt Hlk). pose proof (lk_tss_idt Hlk). constructor.
  - intros sel Hs. unfold segment_of. cbn [fst snd]. unfold GDT_ENTRIES. assert (0 <= sel / 8) by (apply Z.div_pos; lia).
    destruct (Z.leb_spec (sel / 8 * 8 + 7) (8 * 6 - 1)); cbn [andb].
    + destruct (Z.eqb_spec (sel / 8) 0) as [->|]; [done|]. cbn [negb]. rewrite <- G2 by lia. f_equal.
      rewrite (Z.mul_comm (sel / 8)). apply segment_same. intros x Hx. rewrite Hm by lia. apply I1. lia.
    + unfold expected_segment. repeat match goal with |- context [?a =? ?b] => replace (a =? b) with false by lia end. done.
  - rewrite (rd32_same (gdt_mem m)); [exact G4|]. intros i Hi. rewrite Hm by lia. apply I1. lia.
  - intros v Hv. unfold gate_of. cbn [fst snd]. unfold IDT_SIZE. replace (v * 8 + 7 <=? 8 * 256 - 1) with true by lia.
    cbv zeta. rewrite (Z.mul_comm v), (gate_same (idt_mem (gdt_mem m))) by (intros; apply Hm; lia).
    rewrite I2 by done. unfold expected_gate. destruct (vector_target v); [|done]. by destruct (v =? 128).
Qed.

(** ** Properties *)

(** C14 (descriptor tables).  After the set-up the processor reads from the tables
    in memory exactly what the kernel relies on: flat code and data segments for
    ring 0 and ring 3, a TSS that is not readable as data, whose kernel stack
    segment is the kernel's; a gate for each of the 32 exceptions, for the timer,
    the keyboard, both disk channels and the system call, all leading to their
    stub in the kernel's code segment.  Vector 128 is the only one a program may
    raise itself, and the only one that leaves interrupts on.  No other byte of
    memory changes. *)
Theorem descriptor_tables_as_read (channel : option Z) (s : isys Dv) :
  link_ok -> ready (i_dev s) ->
  exists s', interrupt_setup channel s = Some ((), s') /\
    (forall sel, 0 <= sel < 2 ^ 16 -> segment_of (i_mem s') (i_gdtr s') sel = expected_segment (sel / 8)) /\
    segment_of (i_mem s') (i_gdtr s') (i_tr s') = Some (Segment tss_addr SIZEOF_TSS true 0 TSS_SEG) /\
    rd32 (i_mem s') (tss_addr + 8) = SEG_KERNEL_DATA /\
    (forall v, 0 <= v < 256 -> gate_of (i_mem s') (i_idtr s') v =
       (fun a => if v =? 128 then Gate a 0x08 true 3 TRAP_GATE else Gate a 0x08 true 0 INT_GATE) <$> vector_target v) /\
    (forall x, x < gdt_addr \/ gdt_addr + 48 <= x -> x < tss_addr \/ tss_addr + 104 <= x ->
       x < IDT_ADDRESS \/ IDT_ADDRESS + 2048 <= x -> rd8 (i_mem s') x = rd8 (i_mem s) x).
Proof.
  intros Hlk Hr. destruct (interrupt_setup_run channel s Hr) as (d & E & _). eexists. split; [exact E|]. cbn [i_mem i_gdtr i_idtr i_tr].
  destruct (tables_mem_read (i_mem s) _ Hlk (fun x _ => eq_refl)) as [Hseg Hst Hg].
  split_and!; [exact Hseg|exact (Hseg SEG_TSS ltac:(unfold SEG_TSS; lia))|exact Hst|exact Hg|].
  intros x Hx Hy Hz. apply tables_mem_outside; [done|]. unfold in_tables. lia.
Qed.

(** C15 (interrupt routing).  After the set-up the open lines are exactly the
    timer, the keyboard and, with a disk, the cascade and the disk's channel; line
    [n] raises vector 32+n, clear of the processor's exceptions.  When one of
    these (the cascade apart) interrupts, [irq_handler] calls the driver that
    opened it, with its in-service bit cleared on the chip, and that of the
    cascade for a line of the slave: lines of the same or lower priority can
    interrupt again. *)
Theorem irq_reaches_driver (channel : option Z) (s s' t : isys Dv) (n : Z) :
  ready (i_dev s) -> interrupt_setup channel s = Some ((), s') -> 0 <= n < 16 ->
  i_handlers t = i_handlers s' ->
  served (c_isr (chip_of false (i_dev t))) (if 8 <=? n then 2 else n) ->
  (8 <= n -> served (c_isr (chip_of true (i_dev t))) (n - 8)) ->
  (line_open (i_dev s') n = true <-> n ∈ opened channel) /\ line_vector (i_dev s') n = 32 + n /\
  (line_open (i_dev s') n = true -> n <> 2 ->
   exists d, irq_handler (32 + n) t = Some (Some (driver_of n), put_idev d t) /\
    chip_of false d = acknowledge (if 8 <=? n then 2 else n) (chip_of false (i_dev t)) /\
    chip_of true d = if 8 <=? n then acknowledge (n - 8) (chip_of true (i_dev t)) else chip_of true (i_dev t)).
Proof.
  intros Hr E Hn Ht Hm Hs. destruct (interrupt_setup_run channel s Hr) as (d & E' & Hl). rewrite E in E'. injection E' as Es'. subst s'.
  cbn [i_dev i_handlers] in *. destruct (final_lines channel d n Hn Hl) as [Hv Ho]. split_and!; [done|done|].
  intros Hop H2'. apply Ho in Hop. destruct (irq_handler_run n t Hn Hm Hs) as (d' & Er & Hc). exists d'. split; [|exact Hc].
  rewrite Er, Ht, final_handlers_open by done. done.
Qed.
End pic.

(** ** A machine *)

(** Two chips and nothing else. *)
Definition chips : Type := chip * chip.
Definition chips_out (p v : Z) (c : chips) : chips :=
  if p =? PIC1_CMD then (chip_cmd v c.1, c.2)
  else if p =? PIC1_DATA then (chip_data (u8 v) c.1, c.2)
  else if p =? PIC2_CMD then (c.1, chip_cmd v c.2)
  else if p =? PIC2_DATA then (c.1, chip_data (u8 v) c.2)
  else c.
Definition chips_in (p : Z) (c : chips) : Z * chips :=
  (if p =? PIC1_DATA then u8 (c_imr c.1) else if p =? PIC2_DATA then u8 (c_imr c.2) else 0xFF, c).

#[export] Instance chips_ports : Ports chips := {|
  inb := chips_in; outb := chips_out; inw := fun p c => (0, c); outw := fun p v c => c; timer_get_ticks := fun c => (0, c) |}.

Definition mask_u8 (c : chip) : chip := Chip (u8 (c_imr c)) (c_isr c) (c_base c) (c_cascade c) (c_stage c).

#[export] Program Instance chips_pic : PicLike chips := {| chip_of := fun b c => mask_u8 (if b then c.2 else c.1) |}.
Next Obligation. intros d b. apply Z.mod_pos_bound. lia. Qed.
Next Obligation. intros [c1 c2] [] [] v Hv; cbn [outb chips_ports pic_cmd]; try done; destruct Hv as [-> | ->]; reflexivity. Qed.
Next Obligation.
  intros [c1 c2] [] [] v Hv; cbn [outb chips_ports pic_data chips_out PIC1_CMD PIC1_DATA PIC2_CMD PIC2_DATA]; try done; cbn [Bool.eqb fst snd];
    change (chips_out PIC2_DATA v (c1, c2)) with (c1, chip_data (u8 v) c2) in *;
    change (chips_out PIC1_DATA v (c1, c2)) with (chip_data (u8 v) c1, c2) in *; cbn [fst snd];
    rewrite (u8_small v) by lia; unfold chip_data, mask_u8; cbn [c_stage]; repeat case_if; cbn; try done; by rewrite u8_small by lia.
Qed.
Next Obligation. intros [c1 c2] [] _; reflexivity. Qed.
Next Obligation. intros [c1 c2] [] b; reflexivity. Qed.
Next Obligation.
  intros d p v b Hp. rewrite !not_elem_of_cons in Hp. destruct Hp as (H1 & H2 & H3 & H4 & _). cbn [outb chips_ports]. unfold chips_out.
  apply Z.eqb_neq in H1, H2, H3, H4. by rewrite H1, H2, H3, H4.
Qed.

Definition demo_link : Link := {|
  gdt_addr := 0x108000; tss_addr := 0x108100; isr_stub := fun i => 0x101000 + 16 * i; irq_stub := fun n => 0x102000 + 16 * n; isr128 := 0x103000 |}.

Lemma demo_link_ok : @link_ok demo_link.
Proof. constructor; cbn; unfold IDT_ADDRESS, is_u32; lia. Qed.

(** Both chips as the firmware leaves them. *)
Definition demo_chips : chips := (Chip 0xB8 0 0x08 0 0, Chip 0x8F 0 0x70 0 0).
Definition demo_isys : isys chips := Isys chips ∅ demo_chips (0, 0) (0, 0) 0 [] 0.

Lemma demo_ready : ready (i_dev demo_isys).
Proof. intros []; reflexivity. Qed.

Lemma descriptor_tables_as_read_witness :
  exists s', @interrupt_setup chips _ demo_link (Some 0) demo_isys = Some ((), s') /\
    gate_of (i_mem s') (i_idtr s') 128 = Some (Gate 0x103000 0x08 true 3 TRAP_GATE) /\
    gate_of (i_mem s') (i_idtr s') 14 = Some (Gate 0x1010E0 0x08 true 0 INT_GATE) /\
    gate_of (i_mem s') (i_idtr s') 200 = None /\
    segment_of (i_mem s') (i_gdtr s') 0x1B = Some (Segment 0 FLAT true 3 CODE_SEG).
Proof.
  destruct (@descriptor_tables_as_read chips _ _ demo_link (Some 0) demo_isys demo_link_ok demo_ready) as (s' & E & H1 & _ & _ & H2 & _).
  exists s'. split; [exact E|]. split_and!.
  - rewrite H2 by lia. reflexivity.
  - rewrite H2 by lia. reflexivity.
  - rewrite H2 by lia. reflexivity.
  - rewrite H1 by lia. reflexivity.
Defined.

(** The disk on the primary channel interrupts. *)
Definition disk_interrupt : isys chips :=
  Isys chips ∅ (Chip 0xF8 4 32 4 0, Chip 0xBF 64 40 2 0) (0, 0) (0, 0) 0 (final_handlers (Some 0)) 100.

Lemma irq_reaches_driver_witness :
  exists d, irq_handler 46 disk_interrupt = Some (Some ata_irq_handler, put_idev d disk_interrupt) /\
    chip_of false d = Chip 0xF8 0 32 4 0 /\ chip_of true d = Chip 0xBF 0 40 2 0.
Proof.
  destruct (@interrupt_setup_run chips _ _ demo_link (Some 0) demo_isys demo_ready) as (d0 & E0 & _).
  destruct (@irq_reaches_driver chips _ _ demo_link (Some 0) demo_isys _ disk_interrupt 14 demo_ready E0) as (Ho & _ & H).
  - lia.
  - reflexivity.
  - split; [reflexivity|]. intros j Hj. change (if 8 <=? 14 then 2 else 14) with 2 in Hj. assert (j = 0 \/ j = 1) as [-> | ->] by lia; reflexivity.
  - intros _. split; [reflexivity|]. intros j Hj. change (14 - 8) with 6 in Hj.
    assert (j = 0 \/ j = 1 \/ j = 2 \/ j = 3 \/ j = 4 \/ j = 5) as [-> | [-> | [-> | [-> | [-> | ->]]]]] by lia; reflexivity.
  - destruct H as (d & E & H1 & H2); [apply Ho; apply (bool_decide_unpack _); vm_compute; exact I|discriminate|].
    exists d. split; [exact E|]. split; [rewrite H1; reflexivity|rewrite H2; reflexivity].
Defined.
