(* ===== verification/SafeMode.v ===== *)
(** * Safe Mode ([kernel/safemode.c], [kernel/safeshell.c])

    The menus and the restricted shell are a program that talks to the user: its
    input is the list of what [input_poll_key] returns, one element per poll, -1
    for "no key".  A run ends with a value, by a restart of the machine, or is
    still running when the input or the fuel of its loops is used up; statements
    about what Safe Mode does hold at every such moment.  The rest of the state
    is the kernel's. *)

From Stdlib Require Import String ZArith Lia ZifyBool.
From stdpp Require Import base tactics numbers list option gmap.
From S2P Require Import Prelude Pmm Mem Vmm FatName Fat FatDir FatFile Heap Ramfs Keyboard BootCfg Console Pci.
From S2P Require Import Process Scheduler Pipe Fork UserMem Vfs Elf Kernel Syscall BootInfo.
Local Open Scope Z_scope.

Definition KEY_ESC : Z := 27.
Definition KEY_CTRL_C : Z := 3.
Definition LINE_MAX : Z := 128.
Definition LBA_DIGITS_MAX : Z := 10.

Inductive safemode_reason := SAFEMODE_REASON_FAIL_COUNT | SAFEMODE_REASON_REQUESTED | SAFEMODE_REASON_CRASH.

(** The progress of [tier2_init]. *)
Definition T2_NONE : Z := 0.
Definition T2_PMM : Z := 1.
Definition T2_VMM : Z := 2.
Definition T2_HEAP : Z := 3.

Record sm {D : Type} := Sm {
  sm_kernel : kernel D;
  sm_input : list Z;
  sm_obeys : bool;               (** the machine restarts when asked to *)
  sm_boot_info : Z;              (** [g_boot_info] of [hal.c] *)
  sm_sector : list Z;            (** [g_sector] *)
  sm_fail_count : Z;             (** [g_entry_fail_count] *)
  sm_reason : safemode_reason;
  sm_stage : Z;                  (** [g_t2_stage] *)
  sm_fat_ready : bool;           (** [g_t2_fat_ready] *)
  sm_cwd : Z;                    (** [g_cwd] of the shell *)
  sm_path : list Z               (** [g_path] *)
}.
Arguments sm : clear implicits.

Inductive ended (A : Type) := Val (a : A) | Running | Restarted.
Arguments Val {A} a.
Arguments Running {A}.
Arguments Restarted {A}.

Definition sM (D A : Type) : Type := sm D -> option (ended A * sm D).
#[global] Instance sM_ret D : MRet (sM D) := fun A a s => Some (Val a, s).
#[global] Instance sM_bind D : MBind (sM D) := fun A B k m s =>
  match m s with
  | Some (Val a, s') => k a s'
  | Some (Running, s') => Some (Running, s')
  | Some (Restarted, s') => Some (Restarted, s')
  | None => None
  end.

(** The names of [idt.c]. *)
Definition exception_msgs : list msg_id :=
  [MSG_EXC_DE; MSG_EXC_DB; MSG_EXC_NMI; MSG_EXC_BP; MSG_EXC_OF; MSG_EXC_BR; MSG_EXC_UD; MSG_EXC_NM; MSG_EXC_DF;
   MSG_EXC_COPROC_OVERRUN; MSG_EXC_TS; MSG_EXC_NP; MSG_EXC_SS; MSG_EXC_GP; MSG_EXC_PF; MSG_EXC_RESERVED; MSG_EXC_MF;
   MSG_EXC_AC; MSG_EXC_MC; MSG_EXC_XM; MSG_EXC_VE] ++ replicate 11 MSG_EXC_RESERVED.
Definition exception_name (int_no : Z) : msg_id :=
  if int_no <? 32 then default MSG_IDT_UNKNOWN (exception_msgs !! Z.to_nat int_no) else MSG_IDT_UNKNOWN.

(** ** Text *)

Definition hex_digit (d : Z) : Z := (cstr "0123456789ABCDEF").[d].
Definition put_hex_byte (v : Z) : list console_call :=
  [console_putc (hex_digit (Z.shiftr v 4)); console_putc (hex_digit (Z.land v 0xF))].
Definition put_hex_offset (v : Z) : list console_call :=
  [console_putc (hex_digit (Z.land (Z.shiftr v 8) 0xF)); console_putc (hex_digit (Z.land (Z.shiftr v 4) 0xF));
   console_putc (hex_digit (Z.land v 0xF))].
Definition put_title (title : msg_id) : list console_call :=
  [console_clear; console_set_color CONSOLE_WHITE CONSOLE_RED; console_puts_msg MSG_SAFE_TITLE;
   console_set_color CONSOLE_LIGHT_GREY CONSOLE_BLACK; console_puts_msg title].
Definition put_label (label : msg_id) (value : Z) : list console_call :=
  [console_puts_msg label; console_put_dec value; console_puts NL].
Definition printable (c : Z) : bool := (32 <=? c) && (c <? 127).
Definition shown (c : Z) : console_call := console_putc (if printable c then c else 46).
Definition put_text_field (sector : list Z) (off n : Z) : list console_call :=
  ((fun i => shown sector.[off + i]) <$> seqZ 0 n) ++ [console_puts NL].

(** One line of the dump: offset, 16 bytes in hexadecimal, 16 characters. *)
Definition hexdump_line (sector : list Z) (off : Z) : list console_call :=
  put_hex_offset off ++ [console_puts (spaces 2)] ++
  concat ((fun i => put_hex_byte sector.[off + i] ++ [console_putc SP]) <$> seqZ 0 16) ++ [console_putc SP] ++
  ((fun i => shown sector.[off + i]) <$> seqZ 0 16) ++ [console_putc 10].
Definition hexdump_page (sector : list Z) (lba first_byte : Z) : list console_call :=
  put_title MSG_SAFE_HEX_TITLE ++
  [console_puts_msg MSG_SAFE_HEX_SECTOR; console_put_dec lba; console_puts_msg MSG_SAFE_HEX_BYTES; console_put_dec first_byte;
   console_puts (cstr "-"); console_put_dec (first_byte + 255); console_puts [10; 10]] ++
  concat ((fun line => hexdump_line sector (first_byte + line * 16)) <$> seqZ 0 16).

Definition bpb_fields (b : list Z) : list console_call :=
  let total := if le16 b 19 =? 0 then le32 b 32 else le16 b 19 in
  put_label MSG_SAFE_DISK_BPS (le16 b 11) ++ put_label MSG_SAFE_DISK_SPC b.[13] ++
  put_label MSG_SAFE_DISK_RESERVED (le16 b 14) ++ put_label MSG_SAFE_DISK_FATS b.[16] ++
  put_label MSG_SAFE_DISK_ROOT (le16 b 17) ++ put_label MSG_SAFE_DISK_TOTAL total ++ put_label MSG_SAFE_DISK_SPF (le16 b 22) ++
  (if b.[38] =? 0x29 then
     [console_puts_msg MSG_SAFE_DISK_LABEL] ++ put_text_field b 43 11 ++
     [console_puts_msg MSG_SAFE_DISK_FSTYPE] ++ put_text_field b 54 8
   else [console_puts_msg MSG_SAFE_DISK_NO_EXT]) ++
  [console_puts_msg MSG_SAFE_DISK_SIG;
   console_puts_msg (if (b.[510] =? 0x55) && (b.[511] =? 0xAA) then MSG_SAFE_DISK_SIG_OK else MSG_SAFE_DISK_SIG_BAD)].

(** The value of the digits typed, [None] when it does not fit 32 bits. *)
Fixpoint lba_value (buf : list Z) (v : Z) : option Z :=
  match buf with
  | [] => Some v
  | c :: buf' =>
      let d := u32 (c - 48) in
      if (0xFFFFFFFF - d) / 10 <? v then None else lba_value buf' (u32 (v * 10 + d))
  end.

(** *** Lines of the shell *)

Fixpoint streq (a b : list Z) : bool :=
  match a, b with
  | [], [] => true
  | x :: a', y :: b' => (x =? y) && streq a' b'
  | _, _ => false
  end.

Fixpoint skip_spaces (p : list Z) : list Z :=
  match p with
  | c :: p' => if c =? SP then skip_spaces p' else p
  | [] => []
  end.
Fixpoint word (p : list Z) : list Z :=
  match p with
  | c :: p' => if c =? SP then [] else c :: word p'
  | [] => []
  end.
Definition trim_end (p : list Z) : list Z := rev (skip_spaces (rev p)).

(** The command word and the rest. *)
Definition split_line (line : list Z) : list Z * list Z :=
  let p := skip_spaces line in
  let cmd := word p in
  (cmd, trim_end (skip_spaces (drop (length cmd + 1) p))).

(** What [cat] shows of a byte. *)
Definition cat_char (c : Z) : list console_call :=
  if c =? 10 then [console_putc 10]
  else if c =? 13 then []
  else if c =? 9 then [console_putc SP]
  else if printable c then [console_putc c]
  else [console_putc 46].

Section safemode.
Context {D : Type} `{BlockDevice D} `{Machine}.
Local Notation S := (sm D).
Local Notation M := (sM D).
Implicit Types s : S.

(** ** State *)

Definition put_kernel (k : kernel D) s : S :=
  Sm D k (sm_input s) (sm_obeys s) (sm_boot_info s) (sm_sector s) (sm_fail_count s) (sm_reason s) (sm_stage s) (sm_fat_ready s) (sm_cwd s) (sm_path s).
Definition put_input (l : list Z) s : S :=
  Sm D (sm_kernel s) l (sm_obeys s) (sm_boot_info s) (sm_sector s) (sm_fail_count s) (sm_reason s) (sm_stage s) (sm_fat_ready s) (sm_cwd s) (sm_path s).
Definition put_sm_sector (b : list Z) s : S :=
  Sm D (sm_kernel s) (sm_input s) (sm_obeys s) (sm_boot_info s) b (sm_fail_count s) (sm_reason s) (sm_stage s) (sm_fat_ready s) (sm_cwd s) (sm_path s).
Definition put_entry (r : safemode_reason) (n : Z) s : S :=
  Sm D (sm_kernel s) (sm_input s) (sm_obeys s) (sm_boot_info s) (sm_sector s) n r (sm_stage s) (sm_fat_ready s) (sm_cwd s) (sm_path s).
Definition put_stage (n : Z) s : S :=
  Sm D (sm_kernel s) (sm_input s) (sm_obeys s) (sm_boot_info s) (sm_sector s) (sm_fail_count s) (sm_reason s) n (sm_fat_ready s) (sm_cwd s) (sm_path s).
Definition put_fat_ready (b : bool) s : S :=
  Sm D (sm_kernel s) (sm_input s) (sm_obeys s) (sm_boot_info s) (sm_sector s) (sm_fail_count s) (sm_reason s) (sm_stage s) b (sm_cwd s) (sm_path s).
Definition put_cwd (c : Z) s : S :=
  Sm D (sm_kernel s) (sm_input s) (sm_obeys s) (sm_boot_info s) (sm_sector s) (sm_fail_count s) (sm_reason s) (sm_stage s) (sm_fat_ready s) c (sm_path s).
Definition put_path (p : list Z) s : S :=
  Sm D (sm_kernel s) (sm_input s) (sm_obeys s) (sm_boot_info s) (sm_sector s) (sm_fail_count s) (sm_reason s) (sm_stage s) (sm_fat_ready s) (sm_cwd s) p.

Definition sgets {A} (f : S -> A) : M A := fun s => Some (Val (f s), s).
Definition smodify (f : S -> S) : M () := fun s => Some (Val (), f s).
Definition sundefined {A} : M A := fun _ => None.
Definition running {A} : M A := fun s => Some (Running, s).
Definition restarted {A} : M A := fun s => Some (Restarted, s).

(** Kernel code. *)
Definition lift {A} (m : cM (kernel D) A) : M A := fun s =>
  match m (sm_kernel s) with Some (a, k) => Some (Val a, put_kernel k s) | None => None end.
Definition say (l : list console_call) : M () := lift (print l).
Definition cfg {A} (m : cM (cfgst D) A) : M A := lift (on_cfg m).
Definition fat {A} (m : cM (volume D) A) : M A := lift (on_vfs (on_fat m)).

(** ** Keys *)

Definition input_poll_key : M Z := fun s =>
  match sm_input s with
  | [] => Some (Running, s)
  | c :: l => Some (Val c, put_input l s)
  end.

Fixpoint next_key (l : list Z) : option (Z * list Z) :=
  match l with
  | [] => None
  | c :: l' => if c =? -1 then next_key l' else Some (c, l')
  end.
Definition read_key : M Z := fun s =>
  match next_key (sm_input s) with
  | Some (c, l) => Some (Val c, put_input l s)
  | None => Some (Running, put_input [] s)
  end.

Definition wait_any_key : M () := say [console_puts_msg MSG_SAFE_ANY_KEY];; read_key;; mret ().

(** ** Restarting *)

(** [power_reboot] returns only when the request has no effect. *)
Definition reboot : M () :=
  obeys ← sgets sm_obeys;
  if (obeys : bool) then say power_reboot_request;; restarted else say power_reboot.1.

Definition reboot_normally : M () :=
  cfg (bootcfg_set_u32 BOOTCFG_KEY_FAIL_COUNT 0);;
  cfg crash_record_acknowledge;;
  r ← cfg bootcfg_write;
  (if r <? 0 then say [console_puts_msg MSG_SAFE_RESET_FAILED] else mret ());;
  say [console_puts_msg MSG_SAFE_REBOOTING];;
  reboot;;
  wait_any_key.

Definition reboot_keep_counter : M () :=
  say [console_puts_msg MSG_SAFE_REBOOTING];;
  reboot;;
  wait_any_key.

Fixpoint screen_reboot (fuel : nat) : M () :=
  match fuel with
  | O => running
  | Datatypes.S fuel' =>
      say (put_title MSG_SAFE_REBOOT_TITLE);;
      say [console_puts_msg MSG_SAFE_REBOOT_1; console_puts_msg MSG_SAFE_REBOOT_2; console_puts_msg MSG_SAFE_REBOOT_BACK];;
      n ← cfg (bootcfg_get_u32 BOOTCFG_KEY_FAIL_COUNT 0);
      (if n <? BOOTCFG_FAIL_THRESHOLD then say [console_puts_msg MSG_SAFE_REBOOT_NOTE_LOW] else mret ());;
      c ← read_key;
      if c =? 49 then reboot_normally;; screen_reboot fuel'
      else if c =? 50 then reboot_keep_counter;; screen_reboot fuel'
      else if (c =? 48) || (c =? KEY_ESC) then mret ()
      else screen_reboot fuel'
  end.

(** ** Looking at the disk *)

(** The sector through the disk driver into [g_sector]; [false] on an error. *)
Definition read_into_sector (lba : Z) : M bool :=
  r ← fat (Fat.block_read_sector lba);
  match r with
  | Some b => smodify (put_sm_sector b);; mret true
  | None => mret false
  end.

Definition screen_disk_info : M () :=
  say (put_title MSG_SAFE_DISK_TITLE);;
  ok ← read_into_sector 0;
  (if negb ok then say [console_puts_msg MSG_SAFE_DISK_READ_FAILED] else b ← sgets sm_sector; say (bpb_fields b));;
  a ← cfg bootcfg_is_available;
  say [console_puts_msg MSG_SAFE_DISK_CFG; console_puts_msg (if (a : bool) then MSG_SAFE_DISK_CFG_YES else MSG_SAFE_DISK_CFG_NO)];;
  n ← cfg (bootcfg_get_u32 BOOTCFG_KEY_FAIL_COUNT 0);
  say (put_label MSG_SAFE_DISK_COUNT n);;
  wait_any_key.

(** The digits typed so far are [buf]; [None] after ESC. *)
Fixpoint read_lba_loop (fuel : nat) (buf : list Z) : M (option Z) :=
  match fuel with
  | O => running
  | Datatypes.S fuel' =>
      c ← read_key;
      if c =? KEY_ESC then mret None
      else if c =? 8 then
        match buf with
        | [] => read_lba_loop fuel' buf
        | _ => say [console_putc 8];; read_lba_loop fuel' (take (length buf - 1) buf)
        end
      else if c =? 10 then
        match buf with
        | [] => say [console_puts_msg MSG_SAFE_HEX_EMPTY; console_puts_msg MSG_SAFE_HEX_PROMPT];; read_lba_loop fuel' buf
        | _ =>
            match lba_value buf 0 with
            | None => say [console_puts_msg MSG_SAFE_HEX_TOO_BIG; console_puts_msg MSG_SAFE_HEX_PROMPT];; read_lba_loop fuel' []
            | Some v => say [console_puts NL];; mret (Some v)
            end
        end
      else if (48 <=? c) && (c <=? 57) then
        if zlen buf <? LBA_DIGITS_MAX then say [console_putc c];; read_lba_loop fuel' (buf ++ [c]) else read_lba_loop fuel' buf
      else if printable c then
        say ([console_puts_msg MSG_SAFE_HEX_DIGITS_ONLY; console_puts_msg MSG_SAFE_HEX_PROMPT] ++ (console_putc <$> buf));;
        read_lba_loop fuel' buf
      else read_lba_loop fuel' buf
  end.

Definition read_lba (fuel : nat) : M (option Z) := say [console_puts_msg MSG_SAFE_HEX_PROMPT];; read_lba_loop fuel [].

Fixpoint screen_hexdump (fuel : nat) : M () :=
  match fuel with
  | O => running
  | Datatypes.S fuel' =>
      say (put_title MSG_SAFE_HEX_TITLE);;
      lba ← read_lba fuel';
      match lba with
      | None => mret ()
      | Some lba =>
          ok ← (if 0x0FFFFFFF <? lba then mret false else read_into_sector lba);
          if negb ok then
            say [console_puts_msg MSG_SAFE_HEX_READ_FAILED];;
            wait_any_key;;
            screen_hexdump fuel'
          else
            b ← sgets sm_sector;
            say (hexdump_page b lba 0);; wait_any_key;;
            say (hexdump_page b lba 256);; wait_any_key
      end
  end.

(** ** The restricted shell *)

Fixpoint read_line_loop (fuel : nat) (line : list Z) : M (list Z) :=
  match fuel with
  | O => running
  | Datatypes.S fuel' =>
      c ← read_key;
      if c =? 10 then say [console_putc 10];; mret line
      else if c =? 8 then
        match line with
        | [] => read_line_loop fuel' line
        | _ => say [console_putc 8];; read_line_loop fuel' (take (length line - 1) line)
        end
      else if printable c && (zlen line <? LINE_MAX - 1) then say [console_putc c];; read_line_loop fuel' (line ++ [c])
      else read_line_loop fuel' line
  end.

Definition complain (id : msg_id) (arg : list Z) : M () := say [console_puts_msg id; console_puts arg; console_puts NL].

Fixpoint ls_loop (fuel : nat) (dir i : Z) (any : bool) : M () :=
  match fuel with
  | O => running
  | Datatypes.S fuel' =>
      r ← fat (fat16_readdir dir i);
      match r with
      | Some (name, size, is_dir) =>
          say ([console_puts (spaces 2)] ++ puts_padded (until_nul name) 14 ++
               (if (is_dir : bool) then [console_puts_msg MSG_SAFESH_DIR_ENTRY]
                else [console_put_dec size; console_puts_msg MSG_SAFESH_BYTES_NL]));;
          ls_loop fuel' dir (u32 (i + 1)) true
      | None => if any then mret () else say [console_puts_msg MSG_SAFESH_LS_EMPTY]
      end
  end.

(** [None]: an error has been reported. *)
Definition shell_dir (no_dir not_dir io : msg_id) (arg : list Z) : M (option Z) :=
  cwd ← sgets sm_cwd;
  r ← fat (fat16_resolve_dir cwd (Some arg));
  let '(code, dir) := r in
  if code =? 0 then complain no_dir arg;; mret None
  else if code =? -2 then complain not_dir arg;; mret None
  else if code <? 0 then say [console_puts_msg io];; mret None
  else mret (Some dir).

Definition cmd_ls (fuel : nat) (arg : list Z) : M () :=
  cwd ← sgets sm_cwd;
  dir ← match arg with
        | [] => mret (Some cwd)
        | _ => shell_dir MSG_SAFESH_LS_NO_DIR MSG_SAFESH_LS_NOT_DIR MSG_SAFESH_LS_IO arg
        end;
  match dir with None => mret () | Some dir => ls_loop fuel dir 0 false end.

Fixpoint cat_loop (fuel : nat) (first size pos : Z) : M () :=
  if pos <? size then
    match fuel with
    | O => running
    | Datatypes.S fuel' =>
        k ← input_poll_key;
        if (k =? KEY_ESC) || (k =? KEY_CTRL_C) then say [console_puts_msg MSG_SAFESH_STOPPED]
        else
          let want := Z.min (size - pos) 512 in
          r ← fat (fat16_read_at first pos want size);
          let '(got, bytes) := r in
          if got <=? 0 then say [console_puts_msg MSG_SAFESH_CAT_READ_ERROR]
          else
            say (concat (cat_char <$> take (Z.to_nat got) bytes));;
            cat_loop fuel' first size (u32 (pos + got))
    end
  else say [console_putc 10].

Definition cmd_cat (fuel : nat) (arg : list Z) : M () :=
  match arg with
  | [] => say [console_puts_msg MSG_SAFESH_CAT_USAGE]
  | _ =>
      cwd ← sgets sm_cwd;
      r ← fat (fat16_find cwd (Some arg));
      match r with
      | NotFound => complain MSG_SAFESH_CAT_NOT_FOUND arg
      | IOError => complain MSG_SAFESH_CAT_IO arg
      | Found (first, size, _) => cat_loop fuel first size 0
      end
  end.

Definition cmd_pwd : M () :=
  cwd ← sgets sm_cwd;
  p ← sgets sm_path;
  r ← fat (fat16_get_path cwd (local_bytes 128) p 128);
  smodify (put_path r.2);;
  if r.1 <? 0 then say [console_puts_msg MSG_SAFESH_PWD_ERR]
  else say [console_puts (until_nul r.2); console_putc 10].

Definition cmd_cd (arg : list Z) : M () :=
  match arg with
  | [] => smodify (put_cwd 0)
  | _ =>
      dir ← shell_dir MSG_SAFESH_CD_NO_DIR MSG_SAFESH_CD_NOT_DIR MSG_SAFESH_CD_IO arg;
      match dir with None => mret () | Some dir => smodify (put_cwd dir) end
  end.

(** [true] after "back". *)
Definition shell_command (fuel : nat) (cmd arg : list Z) : M bool :=
  if streq cmd (cstr "help") then say [console_puts_msg MSG_SAFESH_HELP];; mret false
  else if streq cmd (cstr "ls") then cmd_ls fuel arg;; mret false
  else if streq cmd (cstr "cat") then cmd_cat fuel arg;; mret false
  else if streq cmd (cstr "pwd") then cmd_pwd;; mret false
  else if streq cmd (cstr "cd") then cmd_cd arg;; mret false
  else if streq cmd (cstr "back") then mret true
  else say [console_puts_msg MSG_SAFESH_UNKNOWN; console_puts cmd; console_putc 10];; mret false.

Fixpoint safeshell_run (fuel : nat) : M () :=
  match fuel with
  | O => running
  | Datatypes.S fuel' =>
      say [console_puts_msg MSG_SAFESH_PROMPT];;
      line ← read_line_loop fuel' [];
      let '(cmd, arg) := split_line line in
      match cmd with
      | [] => safeshell_run fuel'
      | _ => back ← shell_command fuel' cmd arg; if (back : bool) then mret () else safeshell_run fuel'
      end
  end.

(** ** Tier 2 *)

(** The size [fat16_init] asks the heap for, when the volume passes its checks. *)
Definition fat_request (d : D) : option Z :=
  match (bd_read 0 d).1 with
  | None => None
  | Some b =>
      if negb (le16 b 11 =? 512) || (le16 b 22 =? 0) || (b.[16] =? 0) || (b.[13] =? 0) then None
      else Some (u32 (g_fat_size_sectors (bpb_geometry b) * 512))
  end.

(** [fat16_init] with the heap as its allocator; the block of the table is given
    back when the table cannot be read. *)
Definition k_fat16_init : cM (kernel D) bool :=
  req ← gets (fun k => fat_request (disk (v_fat (k_vfs k))));
  p ← match req with Some size => k_kmalloc size | None => mret 0 end;
  ok ← on_vfs (on_fat (fat16_init (fun _ => p)));
  if negb (p =? 0) && negb ok then k_kfree p;; mret false else mret ok.

(** [pmm_init] on the boot map, and the reservations. *)
Definition k_pmm_init (g_boot_info : Z) : cM (kernel D) () := fun k =>
  let m := k_mem k in
  match boot_get_memory_map m g_boot_info 64, boot_get_module m g_boot_info with
  | Some rs, Some md =>
      let p := pmm_init (default [] rs) in
      let p := match md with Some (a, b) => pmm_mark_used p a (u32 (b - a)) | None => p end in
      let p := match boot_get_info_region m g_boot_info with Some (a, b) => pmm_mark_used p a b | None => p end in
      let h := k_heap k in
      Some ((), put_heap (mk_heap (h_vmm h) p (heap_start_ptr h) (heap_end h)) k)
  | _, _ => None
  end.
Definition k_vmm_init : cM (kernel D) () := modify (fun k =>
  let h := k_heap k in put_heap (mk_heap (vmm_init (h_vmm h)) (h_pages h) (heap_start_ptr h) (heap_end h)) k).
Definition k_heap_init : cM (kernel D) () := modify (fun k => put_heap (heap_init (k_heap k)) k).

(** One step, [true] to go on. *)
Definition tier2_pmm : M bool :=
  st ← sgets sm_stage;
  if st <? T2_PMM then
    info ← sgets sm_boot_info;
    lift (k_pmm_init info);;
    free ← lift (gets (fun k => pmm_free_pages (h_pages (k_heap k))));
    if free =? 0 then say [console_puts_msg MSG_SAFE_T2_PMM_FAILED];; mret false
    else smodify (put_stage T2_PMM);; mret true
  else mret true.
Definition tier2_vmm : M bool :=
  st ← sgets sm_stage;
  if st <? T2_VMM then lift k_vmm_init;; smodify (put_stage T2_VMM);; mret true else mret true.
Definition tier2_heap : M bool :=
  st ← sgets sm_stage;
  if st <? T2_HEAP then
    lift k_heap_init;;
    free ← lift (fun k => v ← heap_free_bytes (k_heap k); Some (v, k));
    if free =? 0 then say [console_puts_msg MSG_SAFE_T2_HEAP_FAILED];; mret false
    else smodify (put_stage T2_HEAP);; mret true
  else mret true.
Definition tier2_fat : M bool :=
  r ← sgets sm_fat_ready;
  if negb r then
    ok ← lift k_fat16_init;
    if negb ok then say [console_puts_msg MSG_SAFE_T2_FAT_FAILED];; mret false
    else smodify (put_fat_ready true);; mret true
  else mret true.
Definition and_then (a b : M bool) : M bool := ok ← a; if (ok : bool) then b else mret false.
Definition tier2_init : M bool := and_then tier2_pmm (and_then tier2_vmm (and_then tier2_heap tier2_fat)).

Definition screen_shell (fuel : nat) : M () :=
  say (put_title MSG_SAFE_T2_TITLE);;
  st ← sgets sm_stage;
  r ← sgets sm_fat_ready;
  if negb ((st =? T2_HEAP) && r) then
    say [console_puts_msg MSG_SAFE_T2_INIT];;
    ok ← tier2_init;
    if negb ok then wait_any_key
    else say [console_puts_msg MSG_SAFE_T2_READY];; safeshell_run fuel
  else safeshell_run fuel.

(** ** The crash record *)

Definition page_fault_lines (e cr2 : Z) : list console_call :=
  [console_puts_msg MSG_SAFE_CRASH_CR2; console_put_hex cr2; console_puts NL; console_puts_msg MSG_SAFE_CRASH_PF;
   console_puts_msg (if Z.testbit e 0 then MSG_IDT_PROTECTION else MSG_IDT_NOT_PRESENT);
   console_puts_msg (if Z.testbit e 1 then MSG_IDT_WRITE else MSG_IDT_READ);
   console_puts_msg (if Z.testbit e 2 then MSG_IDT_USER else MSG_IDT_KERNEL)] ++
  (if Z.testbit e 4 then [console_puts_msg MSG_SAFE_CRASH_FETCH] else []) ++
  (if Z.testbit e 3 then [console_puts_msg MSG_SAFE_CRASH_RSVD] else []) ++ [console_puts NL].

Definition crash_lines (state : Z) (i : crash_info) : list console_call :=
  [console_puts_msg MSG_SAFE_CRASH_EXC; console_puts_msg (exception_name (int_no i)); console_puts_msg MSG_SAFE_CRASH_VECTOR;
   console_put_dec (int_no i); console_puts_msg MSG_SAFE_CRASH_VECTOR_END;
   console_puts_msg MSG_SAFE_CRASH_EIP; console_put_hex (eip i); console_puts NL;
   console_puts_msg MSG_SAFE_CRASH_ERR; console_put_hex (err_code i); console_puts NL] ++
  (if int_no i =? 14 then page_fault_lines (err_code i) (cr2 i) else []) ++
  [console_puts_msg MSG_SAFE_CRASH_UPTIME; console_put_dec (ci_ticks i); console_puts_msg MSG_SAFE_CRASH_TICKS;
   console_put_dec (ci_ticks i / 100); console_puts_msg MSG_SAFE_CRASH_SECONDS; console_puts_msg MSG_SAFE_CRASH_STATE;
   console_puts_msg (if state =? 1 then MSG_SAFE_CRASH_PENDING else MSG_SAFE_CRASH_ACKED)].

Definition screen_crash : M () :=
  say (put_title MSG_SAFE_CRASH_TITLE);;
  r ← cfg crash_record_load;
  match r with
  | None => say [console_puts_msg MSG_SAFE_CRASH_NONE];; wait_any_key
  | Some (state, i) => say (crash_lines state i);; wait_any_key
  end.

(** ** The main menu *)

(** A record that cannot be loaded leaves the local variable uninitialised. *)
Definition draw_main_menu : M () :=
  say [console_clear; console_set_color CONSOLE_WHITE CONSOLE_RED; console_puts_msg MSG_SAFE_TITLE;
       console_set_color CONSOLE_LIGHT_GREY CONSOLE_BLACK];;
  reason ← sgets sm_reason;
  n ← sgets sm_fail_count;
  match reason with
  | SAFEMODE_REASON_CRASH =>
      r ← cfg crash_record_load;
      match r with
      | None => sundefined
      | Some (_, i) =>
          say [console_puts_msg MSG_SAFE_REASON_CRASH_1; console_puts_msg (exception_name (int_no i));
               console_puts_msg MSG_SAFE_REASON_CRASH_2; console_put_hex (eip i); console_puts NL; console_puts_msg MSG_SAFE_REASON_CRASH_HINT]
      end
  | SAFEMODE_REASON_FAIL_COUNT =>
      say [console_puts_msg MSG_SAFE_REASON_COUNT_1; console_put_dec n; console_puts_msg MSG_SAFE_REASON_COUNT_2;
           console_put_dec BOOTCFG_FAIL_THRESHOLD; console_puts_msg MSG_SAFE_REASON_COUNT_3]
  | SAFEMODE_REASON_REQUESTED => say [console_puts_msg MSG_SAFE_REASON_REQUESTED; console_put_dec n; console_puts NL]
  end;;
  match reason with
  | SAFEMODE_REASON_CRASH => mret ()
  | _ =>
      r ← cfg crash_record_load;
      match r with Some _ => say [console_puts_msg MSG_SAFE_CRASH_STORED] | None => mret () end
  end;;
  say [console_puts NL; console_puts_msg MSG_SAFE_MENU_1; console_puts_msg MSG_SAFE_MENU_2; console_puts_msg MSG_SAFE_MENU_3;
       console_puts_msg MSG_SAFE_MENU_4; console_puts_msg MSG_SAFE_MENU_5; console_puts_msg MSG_SAFE_MENU_6; console_puts_msg MSG_SAFE_MENU_PROMPT].

Definition menu_choice (fuel : nat) (c : Z) : M () :=
  if c =? 49 then reboot_normally
  else if c =? 50 then screen_reboot fuel
  else if c =? 51 then screen_disk_info
  else if c =? 52 then screen_hexdump fuel
  else if c =? 53 then screen_shell fuel
  else if c =? 54 then screen_crash
  else mret ().

Fixpoint safemode_loop (fuel : nat) : M () :=
  match fuel with
  | O => running
  | Datatypes.S fuel' =>
      draw_main_menu;;
      c ← read_key;
      menu_choice fuel' c;;
      safemode_loop fuel'
  end.

Definition safemode_enter (fuel : nat) (reason : safemode_reason) (fail_count : Z) : M () :=
  smodify (put_entry reason fail_count);;
  safemode_loop fuel.
End safemode.

(** ** What a computation leaves as it is

    [keeps R m]: whenever [m] is defined, its initial and final states are
    related by the preorder [R]. *)

Section keeps.
Context {St : Type} (R : St -> St -> Prop) `{!PreOrder R}.

Definition keeps {A} (m : cM St A) : Prop := forall s a s', m s = Some (a, s') -> R s s'.

Lemma keeps_ret {A} (a : A) : keeps (mret a).
Proof. intros s b s' [= -> ->]. reflexivity. Qed.
Lemma keeps_bind {A B} (m : cM St A) (k : A -> cM St B) : keeps m -> (forall a, keeps (k a)) -> keeps (m ≫= k).
Proof.
  intros Hm Hk s b s'. unfold mbind, cM_bind. destruct (m s) as [[a s1]|] eqn:E; [|done]. intros E'.
  etrans; [by eapply Hm|by eapply Hk].
Qed.
Lemma keeps_gets {A} (f : St -> A) : keeps (gets f).
Proof. intros s b s' [= _ ->]. reflexivity. Qed.
Lemma keeps_modify (f : St -> St) : (forall s, R s (f s)) -> keeps (modify f).
Proof. intros Hf s b s' [= _ <-]. apply Hf. Qed.
Lemma keeps_undefined {A} : keeps (A:=A) undefined.
Proof. done. Qed.
End keeps.

Lemma keeps_zoom {S T A} (R : S -> S -> Prop) (Q : T -> T -> Prop) (get : T -> S) (put : S -> T -> T) (m : cM S A) :
  (forall t s', R (get t) s' -> Q t (put s' t)) -> keeps R m -> keeps Q (zoom get put m).
Proof.
  intros HQ Hm t a t'. unfold zoom. destruct (m (get t)) as [[b s']|] eqn:E; [|done]. intros [= -> <-]. apply HQ. by eapply Hm.
Qed.

Create HintDb keeps discriminated.

(** Follow the structure of a computation down to calls for which the data base
    has a lemma. *)
Ltac keeps_step :=
  match goal with
  | |- keeps _ (mret _) => apply keeps_ret; apply _
  | |- keeps _ (gets _) => apply keeps_gets; apply _
  | |- keeps _ undefined => apply keeps_undefined
  | |- keeps _ (mbind _ _) => apply keeps_bind; [apply _| |intros ?]
  | |- keeps _ (modify _) => apply keeps_modify; intros ?
  | |- keeps _ (if ?b then _ else _) => destruct b
  | |- keeps _ (match ?x with _ => _ end) => destruct x
  | |- keeps _ (let _ := _ in _) => cbv zeta
  | |- keeps _ _ => solve [eauto with keeps typeclass_instances]
  end.
Ltac keeps := repeat keeps_step.

Section readonly.
Context {D : Type} `{BlockDevice D}.

(** The disk holds the same sectors. *)
Definition same_volume (s s' : volume D) : Prop := same_disk nowhere (disk s) (disk s').

#[export] Instance same_volume_pre : PreOrder same_volume.
Proof.
  split; [intros s; apply same_disk_refl|]. intros a b c Hab Hbc. eapply same_disk_trans; [exact Hab|exact Hbc|tauto].
Qed.

Notation ro := (keeps same_volume).

Lemma ro_read lba : ro (block_read_sector lba).
Proof.
  intros s r s'. unfold block_read_sector. pose proof (bd_read_same (disk s) lba) as Hs. pose proof (bd_read_size (disk s) lba) as Hz.
  destruct (bd_read lba (disk s)) as [x d]. intros [= <- <-]. split; [done|]. intros l _. apply Hs.
Qed.
#[local] Hint Resolve ro_read : keeps.

Lemma ro_next cluster : ro (fat16_next_cluster cluster).
Proof.
  unfold fat16_next_cluster. keeps. intros s x s'. unfold fat_get. case_if; [|done]. intros [= _ <-]. apply same_disk_refl.
Qed.
#[local] Hint Resolve ro_next : keeps.

Lemma ro_iter it : ro (dir_iter_next_sector it).
Proof. unfold dir_iter_next_sector. keeps; apply same_disk_refl. Qed.
#[local] Hint Resolve ro_iter : keeps.

Lemma ro_walk {A R} (visit : A -> Z -> Z -> fat16_dirent -> A + R) fuel : forall it a, ro (dir_walk visit fuel it a).
Proof. induction fuel; intros it a; cbn [dir_walk]; keeps. Qed.
#[local] Hint Resolve ro_walk : keeps.

Lemma ro_scan {A R} (visit : A -> Z -> Z -> fat16_dirent -> A + R) dir a : ro (dir_scan visit dir a).
Proof. unfold dir_scan. keeps. Qed.
#[local] Hint Resolve ro_scan : keeps.

Lemma ro_lookup dir name83 : ro (dir_lookup dir name83).
Proof. unfold dir_lookup. keeps. Qed.
#[local] Hint Resolve ro_lookup : keeps.

Lemma ro_resolve_loop fuel : forall dir comp path, ro (resolve_loop fuel dir comp path).
Proof. induction fuel; intros dir comp path; cbn [resolve_loop]; keeps. Qed.
#[local] Hint Resolve ro_resolve_loop : keeps.

Lemma ro_resolve cwd path : ro (resolve_path cwd path).
Proof. unfold resolve_path. keeps. Qed.
#[local] Hint Resolve ro_resolve : keeps.

Lemma ro_resolve_dir cwd path : ro (fat16_resolve_dir cwd path).
Proof. unfold fat16_resolve_dir. keeps. Qed.
Lemma ro_find cwd path : ro (fat16_find cwd path).
Proof. unfold fat16_find. keeps. Qed.
Lemma ro_readdir dir idx : ro (fat16_readdir dir idx).
Proof. unfold fat16_readdir. keeps. Qed.

Lemma ro_child parent child : ro (dir_find_child_name parent child).
Proof. unfold dir_find_child_name. keeps. Qed.
#[local] Hint Resolve ro_child : keeps.

Lemma ro_climb levels : forall cluster tmp p, ro (climb levels cluster tmp p).
Proof. induction levels; intros cluster tmp p; cbn [climb]; keeps. Qed.
#[local] Hint Resolve ro_climb : keeps.

Lemma ro_get_path dir stack out size : ro (fat16_get_path dir stack out size).
Proof. unfold fat16_get_path. keeps. Qed.

Lemma ro_seek target : forall cluster, ro (seek_read target cluster).
Proof. induction target; intros cluster; cbn [seek_read]; keeps. Qed.
#[local] Hint Resolve ro_seek : keeps.

Lemma ro_read_sectors k : forall lba idx off len acc, ro (read_sectors lba idx off len k acc).
Proof. induction k; intros lba idx off len acc; cbn [read_sectors]; keeps; apply same_disk_refl. Qed.
#[local] Hint Resolve ro_read_sectors : keeps.

Lemma ro_read_clusters fuel : forall cluster off len acc, ro (read_clusters fuel cluster off len acc).
Proof. induction fuel; intros cluster off len acc; cbn [read_clusters]; keeps. Qed.
#[local] Hint Resolve ro_read_clusters : keeps.

Lemma ro_read_at first pos len size : ro (fat16_read_at first pos len size).
Proof. unfold fat16_read_at. keeps. Qed.

Lemma ro_load_fat k : forall start sec acc, ro (load_fat start sec k acc).
Proof. induction k; intros start sec acc; cbn [load_fat]; keeps. Qed.
#[local] Hint Resolve ro_load_fat : keeps.

Lemma ro_init kmalloc : ro (fat16_init kmalloc).
Proof. unfold fat16_init. keeps; apply same_disk_refl. Qed.
End readonly.

(** ** Safe Mode disturbs nothing *)

Section safe.
Context {D : Type} `{BlockDevice D} `{Machine}.

Definition cfg_lba (l : Z) : Prop := l = BOOTCFG_LBA.
Definition k_disk (k : kernel D) : D := disk (v_fat (k_vfs k)).

(** Of the disk only the configuration sector may change; processes, pipes,
    descriptors and devices are as they were. *)
Record undisturbed (k k' : kernel D) : Prop := {
  ud_disk : same_disk cfg_lba (k_disk k) (k_disk k');
  ud_ram : v_ram (k_vfs k') = v_ram (k_vfs k);
  ud_pipes : v_pipes (k_vfs k') = v_pipes (k_vfs k);
  ud_sched : (k_ready k', k_index k', k_ticks k', k_kbd k') = (k_ready k, k_index k, k_ticks k, k_kbd k);
  ud_calls : (k_fds k', k_frame k', k_raw_mode_pid k', k_exec_arg k', k_boot_up k') =
             (k_fds k, k_frame k, k_raw_mode_pid k, k_exec_arg k, k_boot_up k);
  ud_pci : k_pci k' = k_pci k
}.

#[export] Instance undisturbed_pre : PreOrder undisturbed.
Proof.
  split; [intros k; by constructor; [apply same_disk_refl|..]|].
  intros a b c [D1 R1 P1 S1 C1 I1] [D2 R2 P2 S2 C2 I2]. constructor; [|congruence..].
  eapply same_disk_trans; [exact D1|exact D2|tauto].
Qed.

Notation kk := (keeps undisturbed).

Definition same_cfg_disk (c c' : cfgst D) : Prop := same_disk cfg_lba (c_disk c) (c_disk c').
#[export] Instance same_cfg_pre : PreOrder same_cfg_disk.
Proof.
  split; [intros s; apply same_disk_refl|]. intros a b c Hab Hbc. eapply same_disk_trans; [exact Hab|exact Hbc|tauto].
Qed.

Lemma kk_cfg {A} (m : cM (cfgst D) A) : keeps same_cfg_disk m -> kk (on_cfg m).
Proof. apply keeps_zoom. intros k c Hc. by constructor. Qed.

Lemma kk_fat {A} (m : cM (volume D) A) : keeps same_volume m -> kk (on_vfs (on_fat m)).
Proof.
  intros Hm. unfold on_vfs, on_fat. eapply keeps_zoom; [|apply (keeps_zoom same_volume (fun v v' => v_ram v' = v_ram v /\ v_pipes v' = v_pipes v /\ same_volume (v_fat v) (v_fat v'))); [|exact Hm]].
  - intros k v (Hr & Hp & Hv). constructor; try done. eapply same_disk_mono; [|exact Hv]. done.
  - intros v s' Hs. done.
Qed.

Lemma keeps_lift_set f : keeps same_cfg_disk (@lift_set D f).
Proof. intros s a s'. unfold lift_set. destruct (f (g_cfg s)) as [[r b]|]; [|done]. intros [= _ <-]. apply same_disk_refl. Qed.

Lemma keeps_cfg_get key def : keeps same_cfg_disk (@bootcfg_get_u32 D key def).
Proof. apply keeps_gets. apply _. Qed.

Lemma keeps_cfg_write : keeps same_cfg_disk (@bootcfg_write D _).
Proof.
  unfold bootcfg_write. keeps; [apply same_disk_refl|]. intros s x s'. unfold cfg_write_sector.
  pose proof (bd_write_other (c_disk s) BOOTCFG_LBA a1) as Ho. pose proof (bd_write_size (c_disk s) BOOTCFG_LBA a1) as Hz.
  destruct (bd_write _ _ _) as [r d]. intros [= _ <-]. split; [done|]. intros l Hl. apply Ho. done.
Qed.

Lemma keeps_load : keeps same_cfg_disk (@crash_record_load D).
Proof. unfold crash_record_load, bootcfg_get_u32. keeps. Qed.

Lemma keeps_ack : keeps same_cfg_disk (@crash_record_acknowledge D).
Proof. unfold crash_record_acknowledge, bootcfg_get_u32, bootcfg_set_u32. keeps; apply keeps_lift_set. Qed.

Lemma kk_print l : kk (print l).
Proof. apply keeps_modify. intros k. by constructor; [apply same_disk_refl|..]. Qed.

Lemma heap_undisturbed h k : undisturbed k (put_heap h k).
Proof. by constructor; [apply same_disk_refl|..]. Qed.

Lemma kk_kmalloc size : kk (k_kmalloc size).
Proof. intros k a k'. unfold k_kmalloc. destruct (kmalloc _ _) as [[h p]|]; [|done]. intros [= _ <-]. apply heap_undisturbed. Qed.

Lemma kk_fat_init : kk k_fat16_init.
Proof. unfold k_fat16_init, k_kfree. keeps; first [apply kk_kmalloc | apply heap_undisturbed | apply kk_fat, ro_init]. Qed.

Lemma kk_pmm_init info : kk (k_pmm_init info).
Proof.
  intros k a k'. unfold k_pmm_init. destruct (boot_get_memory_map _ _ _); [|done]. destruct (boot_get_module _ _); [|done].
  intros [= _ <-]. apply heap_undisturbed.
Qed.

(** The same for programs that talk to the user. *)
Definition calm {A} (m : sM D A) : Prop := forall s o s', m s = Some (o, s') -> undisturbed (sm_kernel s) (sm_kernel s').

Lemma calm_ret {A} (a : A) : calm (mret a).
Proof. intros s o s' [= _ <-]. reflexivity. Qed.
Lemma calm_bind {A B} (m : sM D A) (k : A -> sM D B) : calm m -> (forall a, calm (k a)) -> calm (m ≫= k).
Proof.
  intros Hm Hk s o s'. unfold mbind, sM_bind. destruct (m s) as [[[a| |] s1]|] eqn:E; [| | |done].
  - intros E'. etrans; [by eapply Hm|by eapply Hk].
  - intros [= _ <-]. by eapply Hm.
  - intros [= _ <-]. by eapply Hm.
Qed.
Lemma calm_gets {A} (f : sm D -> A) : calm (sgets f).
Proof. intros s o s' [= _ <-]. reflexivity. Qed.
Lemma calm_modify (f : sm D -> sm D) : (forall s, sm_kernel (f s) = sm_kernel s) -> calm (smodify f).
Proof. intros Hf s o s' [= _ <-]. by rewrite Hf. Qed.
Lemma calm_undefined {A} : calm (A:=A) sundefined.
Proof. done. Qed.
Lemma calm_running {A} : calm (A:=A) running.
Proof. intros s o s' [= _ <-]. reflexivity. Qed.
Lemma calm_restarted {A} : calm (A:=A) restarted.
Proof. intros s o s' [= _ <-]. reflexivity. Qed.
Lemma calm_lift {A} (m : cM (kernel D) A) : keeps undisturbed m -> calm (lift m).
Proof. intros Hm s o s'. unfold lift. destruct (m (sm_kernel s)) as [[a k]|] eqn:E; [|done]. intros [= _ <-]. by eapply Hm. Qed.
Lemma calm_say l : calm (say l).
Proof. apply calm_lift, kk_print. Qed.
Lemma calm_poll : calm input_poll_key.
Proof. intros s o s'. unfold input_poll_key. destruct (sm_input s); intros [= _ <-]; reflexivity. Qed.
Lemma calm_key : calm read_key.
Proof. intros s o s'. unfold read_key. destruct (next_key _) as [[c l]|]; intros [= _ <-]; reflexivity. Qed.
Lemma calm_fat {A} (m : cM (volume D) A) : keeps same_volume m -> calm (fat m).
Proof. intros Hm. by apply calm_lift, kk_fat. Qed.
Lemma calm_cfg {A} (m : cM (cfgst D) A) : keeps same_cfg_disk m -> calm (cfg m).
Proof. intros Hm. by apply calm_lift, kk_cfg. Qed.
End safe.

Create HintDb session discriminated.
#[export] Hint Resolve calm_say calm_poll calm_key calm_undefined calm_running calm_restarted : session.
#[export] Hint Resolve ro_read ro_resolve_dir ro_find ro_readdir ro_get_path ro_read_at calm_fat calm_cfg calm_lift : session.
#[export] Hint Resolve keeps_lift_set keeps_cfg_get keeps_cfg_write keeps_load keeps_ack kk_fat_init kk_pmm_init : session.

Ltac calm_step :=
  match goal with
  | |- calm (mret _) => apply calm_ret
  | |- calm (sgets _) => apply calm_gets
  | |- calm (mbind _ _) => apply calm_bind; [|intros ?]
  | |- calm (smodify _) => apply calm_modify; done
  | |- calm (if ?b then _ else _) => destruct b
  | |- calm (match ?x with _ => _ end) => destruct x
  | |- calm (let _ := _ in _) => cbv zeta
  | |- calm _ => solve [eauto with session]
  end.
Ltac calm := repeat calm_step.

Section safe2.
Context {D : Type} `{BlockDevice D} `{Machine}.

Lemma calm_wait : calm (D:=D) wait_any_key.
Proof. unfold wait_any_key. calm. Qed.
#[local] Hint Resolve calm_wait : session.
Lemma calm_reboot : calm (D:=D) reboot.
Proof. unfold reboot. calm. Qed.
#[local] Hint Resolve calm_reboot : session.
Lemma calm_reboot_normally : calm (D:=D) reboot_normally.
Proof. unfold reboot_normally, bootcfg_set_u32. calm. Qed.
#[local] Hint Resolve calm_reboot_normally : session.
Lemma calm_reboot_keep : calm (D:=D) reboot_keep_counter.
Proof. unfold reboot_keep_counter. calm. Qed.
#[local] Hint Resolve calm_reboot_keep : session.
Lemma calm_screen_reboot fuel : calm (D:=D) (screen_reboot fuel).
Proof. induction fuel; cbn [screen_reboot]; calm. Qed.
#[local] Hint Resolve calm_screen_reboot : session.
Lemma calm_read_into lba : calm (D:=D) (read_into_sector lba).
Proof. unfold read_into_sector. calm. Qed.
#[local] Hint Resolve calm_read_into : session.
Lemma calm_avail : keeps same_cfg_disk (@bootcfg_is_available D).
Proof. apply keeps_gets. apply _. Qed.
#[local] Hint Resolve calm_avail : session.
Lemma calm_disk_info : calm (D:=D) screen_disk_info.
Proof. unfold screen_disk_info. calm. Qed.
#[local] Hint Resolve calm_disk_info : session.
Lemma calm_read_lba fuel : forall buf, calm (D:=D) (read_lba_loop fuel buf).
Proof. induction fuel; intros buf; cbn [read_lba_loop]; calm. Qed.
#[local] Hint Resolve calm_read_lba : session.
Lemma calm_hexdump fuel : calm (D:=D) (screen_hexdump fuel).
Proof. induction fuel; cbn [screen_hexdump]; unfold read_lba; calm. Qed.
#[local] Hint Resolve calm_hexdump : session.

Lemma calm_read_line fuel : forall line, calm (D:=D) (read_line_loop fuel line).
Proof. induction fuel; intros line; cbn [read_line_loop]; calm. Qed.
#[local] Hint Resolve calm_read_line : session.
Lemma calm_complain id arg : calm (D:=D) (complain id arg).
Proof. unfold complain. calm. Qed.
#[local] Hint Resolve calm_complain : session.
Lemma calm_ls_loop fuel : forall dir i any, calm (D:=D) (ls_loop fuel dir i any).
Proof. induction fuel; intros dir i any; cbn [ls_loop]; calm. Qed.
#[local] Hint Resolve calm_ls_loop : session.
Lemma calm_shell_dir a b c arg : calm (D:=D) (shell_dir a b c arg).
Proof. unfold shell_dir. calm. Qed.
#[local] Hint Resolve calm_shell_dir : session.
Lemma calm_cat_loop fuel : forall first size pos, calm (D:=D) (cat_loop fuel first size pos).
Proof. induction fuel; intros first size pos; cbn [cat_loop]; calm. Qed.
#[local] Hint Resolve calm_cat_loop : session.
Lemma calm_command fuel cmd arg : calm (D:=D) (shell_command fuel cmd arg).
Proof. unfold shell_command, cmd_ls, cmd_cat, cmd_pwd, cmd_cd. calm. Qed.
#[local] Hint Resolve calm_command : session.
Lemma calm_shell fuel : calm (D:=D) (safeshell_run fuel).
Proof. induction fuel; cbn [safeshell_run]; calm. Qed.
#[local] Hint Resolve calm_shell : session.

Lemma kk_heap_step (f : kernel D -> heap pmm) : keeps undisturbed (modify (fun k => put_heap (f k) k)).
Proof. apply keeps_modify. intros k. apply heap_undisturbed. Qed.

Lemma kk_free_bytes : keeps (St:=kernel D) undisturbed (fun k => v ← heap_free_bytes (k_heap k); Some (v, k)).
Proof. intros k a k'. unfold mbind, option_bind. destruct (heap_free_bytes _); [|done]. intros [= _ <-]. reflexivity. Qed.

Lemma calm_tier2 : calm (D:=D) tier2_init.
Proof.
  unfold tier2_init, and_then, tier2_pmm, tier2_vmm, tier2_heap, tier2_fat, k_vmm_init, k_heap_init. cbv zeta.
  calm; apply calm_lift; first [apply kk_heap_step | apply kk_free_bytes | apply keeps_gets; apply _].
Qed.
#[local] Hint Resolve calm_tier2 : session.
Lemma calm_screen_shell fuel : calm (D:=D) (screen_shell fuel).
Proof. unfold screen_shell. calm. Qed.
#[local] Hint Resolve calm_screen_shell : session.
Lemma calm_crash : calm (D:=D) screen_crash.
Proof. unfold screen_crash. calm. Qed.
#[local] Hint Resolve calm_crash : session.
Lemma calm_menu : calm (D:=D) draw_main_menu.
Proof. unfold draw_main_menu. calm. Qed.
#[local] Hint Resolve calm_menu : session.
Lemma calm_choice fuel c : calm (D:=D) (menu_choice fuel c).
Proof. unfold menu_choice. calm. Qed.
#[local] Hint Resolve calm_choice : session.
Lemma calm_loop fuel : calm (D:=D) (safemode_loop fuel).
Proof. induction fuel; cbn [safemode_loop]; calm. Qed.
End safe2.

(** ** Properties *)

Section property.
Context {D : Type} `{BlockDevice D} `{Machine}.

Lemma loop_no_value fuel : forall (s s' : sm D), safemode_loop fuel s <> Some (Val (), s').
Proof.
  induction fuel as [|fuel IH]; intros s s'; [done|]. cbn [safemode_loop].
  unfold mbind, sM_bind. destruct (draw_main_menu s) as [[[[]| |] s1]|]; [|done..]. destruct (read_key s1) as [[[c| |] s2]|]; [|done..].
  destruct (menu_choice fuel c s2) as [[[[]| |] s3]|]; [apply IH|done..].
Qed.

(** C13 (Safe Mode is read-only).  Whatever keys are pressed, in the menus and in
    the restricted shell, on any disk, sound or damaged, and at every moment of
    the session: no sector but the configuration sector has changed, nor have
    processes, pipes, descriptors or device state; and Safe Mode never returns
    to the boot it interrupted: it is left by a restart only. *)
Theorem safemode_disturbs_nothing (fuel : nat) (reason : safemode_reason) (fail_count : Z) (s s' : sm D) (o : ended ()) :
  safemode_enter fuel reason fail_count s = Some (o, s') ->
  (o = Running \/ o = Restarted) /\ undisturbed (sm_kernel s) (sm_kernel s').
Proof.
  intros E. split.
  - destruct o as [[]| |]; [|tauto..]. exfalso. by apply (loop_no_value fuel (put_entry reason fail_count s) s').
  - refine (calm_bind _ _ _ _ s o s' E); [by apply calm_modify|]. intros _. apply calm_loop.
Qed.
End property.

(** A session on a small disk: the disk screen, a dump of sector 1, the crash
    screen, the reboot menu and back, then a normal restart. *)
Definition demo_machine : Machine := {|
  process_stacks := 0x200000; user_task_bootstrap := 0x100100; isr128_resume := 0x100200; config_dword := fun _ => 0xFFFFFFFF;
  local_bytes := fun n => replicate n 0; local_bytes_length := fun n => length_replicate n 0 |}.

Definition demo_kernel : kernel simdisk :=
  Kernel simdisk (mk_heap boot_vmm (pmm_init []) 0 HEAP_START)
    (Vfs simdisk (Ramfs None 0 0) (blank_volume (demo_disk 12)) (mk_kpipes (replicate 8 blank_pipe) boot_ptable))
    false 0 0 kbd0 (Cfgst () cfg_reset true (replicate 512 0) false ()) [] (replicate 16 (replicate 8 blank_fd)) 0 (-1) (replicate 64 0)
    false [].

Definition demo_keys : list Z := [51; 32; 52; 49; -1; 10; 32; 32; 54; 32; 50; 48; 49].
Definition demo_sm : sm simdisk :=
  Sm simdisk demo_kernel demo_keys true 0 (replicate 512 0) 0 SAFEMODE_REASON_REQUESTED 0 false 0 (replicate 128 0).

Definition restarts {D A} (m : sM D A) (s : sm D) : bool := match m s with Some (Restarted, _) => true | _ => false end.
Lemma restarts_true {D A} (m : sM D A) s : restarts m s = true -> exists s', m s = Some (Restarted, s').
Proof. unfold restarts. destruct (m s) as [[[a| |] s']|]; [done|done|eauto|done]. Qed.

Lemma safemode_disturbs_nothing_witness :
  exists s', @safemode_enter simdisk _ demo_machine 20 SAFEMODE_REASON_REQUESTED 2 demo_sm = Some (Restarted, s') /\
    forall l, l <> 1 -> bd_data (k_disk (sm_kernel s')) l = bd_data (k_disk demo_kernel) l.
Proof.
  destruct (restarts_true (@safemode_enter simdisk _ demo_machine 20 SAFEMODE_REASON_REQUESTED 2) demo_sm) as (s' & E);
    [vm_compute; reflexivity|].
  exists s'. split; [exact E|].
  destruct (@safemode_disturbs_nothing simdisk _ demo_machine 20 _ _ demo_sm s' _ E) as [_ Hu]. exact (proj2 (ud_disk _ _ Hu)).
Defined.
