(* ===== verification/Boot.v ===== *)
(** * Booting ([kernel/main.c]) and crashing ([exception_handler] of [kernel/idt.c])

    [kmain] composes the components: it runs on the state of the kernel together
    with the descriptor tables and the interrupt controllers, which share the
    kernel's memory.  It ends at one of its three ends: halted for a boot loader
    that is not Multiboot2, in Safe Mode, or at the idle loop that schedules.
    The progress lines [pmm_init], [vmm_init] and [idt_init] print themselves are
    left out, as in the models of those functions. *)

From Stdlib Require Import String ZArith Lia ZifyBool.
From stdpp Require Import base tactics numbers list option gmap.
From S2P Require Import Prelude Pmm Mem Vmm FatName Fat FatDir FatFile Heap Ramfs Keyboard BootCfg Console Pci.
From S2P Require Import Process Scheduler Pipe Fork UserMem Vfs Elf Kernel Syscall BootInfo Ata Interrupts SafeMode.
Local Open Scope Z_scope.

(** ** A fatal exception *)

Inductive fatal := Reset | Halted.

Section exception.
Context {D : Type} `{BlockDevice D} `{Machine}.
Local Notation M := (cM (kernel D)).

Definition fault_lines (err_code cr2 : Z) : list console_call :=
  [console_puts_msg MSG_IDT_CR2_ADDR; console_put_hex cr2; console_puts NL; console_puts_msg MSG_IDT_PF_FLAGS;
   console_puts_msg (if Z.testbit err_code 0 then MSG_IDT_PROTECTION else MSG_IDT_NOT_PRESENT);
   console_puts_msg (if Z.testbit err_code 1 then MSG_IDT_WRITE else MSG_IDT_READ);
   console_puts_msg (if Z.testbit err_code 2 then MSG_IDT_USER else MSG_IDT_KERNEL); console_puts NL].

Definition exception_lines (int_no err_code eip cr2 : Z) : list console_call :=
  [console_set_color CONSOLE_WHITE CONSOLE_RED; console_puts_msg MSG_IDT_KERNEL_EXCEPTION;
   console_set_color CONSOLE_LIGHT_RED CONSOLE_BLACK; console_puts_msg MSG_IDT_EXCEPTION;
   console_puts_msg (exception_name int_no); console_puts NL;
   console_puts_msg MSG_IDT_EIP; console_put_hex eip; console_puts NL;
   console_puts_msg MSG_IDT_ERR_CODE; console_put_hex err_code; console_puts NL] ++
  (if int_no =? 14 then fault_lines err_code cr2 else []) ++ [console_puts NL].

(** [cr2] is the register's value; [crash_reset] is the end [Reset]. *)
Definition exception_handler (int_no err_code eip cr2 : Z) : M fatal :=
  first ← on_cfg crash_begin;
  if negb first then print power_reboot_request;; mret Reset
  else
    t ← gets k_ticks;
    saved ← on_cfg (crash_save (CrashInfo int_no eip err_code cr2 t));
    print (exception_lines int_no err_code eip cr2);;
    print [console_puts_msg (if (saved : bool) then MSG_CRASH_SAVED else MSG_CRASH_NOT_SAVED)];;
    if negb saved then
      print [console_puts_msg MSG_CRASH_HALTED; console_set_color CONSOLE_LIGHT_GREY CONSOLE_BLACK];;
      mret Halted
    else
      print [console_puts_msg MSG_CRASH_RESTARTING; console_set_color CONSOLE_LIGHT_GREY CONSOLE_BLACK];;
      print power_reboot_request;;
      mret Reset.
End exception.

(** ** [kmain] *)

Inductive boot_end := Hang | EnterSafeMode (reason : safemode_reason) (fail_count : Z) | Up.

Section boot.
Context {D : Type} `{BlockDevice D} `{Machine} {Dv : Type} `{Ports Dv} `{Link}.

(** The memory of the second component is the kernel's. *)
Definition bsys : Type := kernel D * isys Dv.
Local Notation M := (cM bsys).

Definition kern {A} (m : cM (kernel D) A) : M A := zoom fst (fun k b => (k, b.2)) m.
Definition intr {A} (m : cM (isys Dv) A) : M A :=
  zoom (fun b => put_imem (k_mem b.1) b.2) (fun i b => (put_mem (i_mem i) b.1, i)) m.

Definition print_ok : list console_call :=
  [console_set_color CONSOLE_LIGHT_GREEN CONSOLE_BLACK; console_puts_msg MSG_BOOT_OK; console_set_color CONSOLE_LIGHT_GREY CONSOLE_BLACK].
Definition print_tag (tag : console_call) : list console_call :=
  [console_set_color CONSOLE_WHITE CONSOLE_BLACK; tag; console_set_color CONSOLE_LIGHT_GREY CONSOLE_BLACK].
Definition print_separator : list console_call :=
  [console_set_color CONSOLE_DARK_GREY CONSOLE_BLACK] ++ replicate 60 (console_putc 45) ++
  [console_puts NL; console_set_color CONSOLE_LIGHT_GREY CONSOLE_BLACK].
Definition tag (id : msg_id) : list console_call := print_tag (console_puts_msg id).
Definition blank_tag : list console_call := print_tag (console_puts (spaces 7)).
Definition in_color (c : Z) (id : msg_id) : list console_call :=
  [console_set_color c CONSOLE_BLACK; console_puts_msg id; console_set_color CONSOLE_LIGHT_GREY CONSOLE_BLACK].

Definition out (l : list console_call) : M () := kern (print l).

(** The text of [version.h]. *)
Definition NULLOS_BANNER : list Z := cstr "NullOS v0.20.0 - Phase 20: Crash handler leads into Safe Mode".
Definition banner : list console_call :=
  [console_set_color CONSOLE_CYAN CONSOLE_BLACK; console_puts_msg MSG_BOOT_LOGO_1; console_puts_msg MSG_BOOT_LOGO_2;
   console_puts_msg MSG_BOOT_LOGO_3; console_puts_msg MSG_BOOT_LOGO_4; console_puts_msg MSG_BOOT_LOGO_5;
   console_set_color CONSOLE_LIGHT_GREY CONSOLE_BLACK; console_puts ([SP] ++ NULLOS_BANNER ++ [10; 10])].

(** [None] in the source's text would be an address outside the block. *)
Definition find_module (info : Z) : cM (kernel D) (option (Z * Z)) := fun k =>
  match multiboot2_find_module (k_mem k) info with Some r => Some (r, k) | None => None end.

Definition module_lines (md : option (Z * Z)) : list console_call :=
  match md with
  | Some (a, b) =>
      [console_puts_msg MSG_BOOT_RAMFS_MODULE_0X; console_put_hex a; console_puts_msg MSG_BOOT_RAMFS_RANGE_SEP; console_put_hex b;
       console_puts_msg MSG_BOOT_RAMFS_SIZE_OPEN; console_put_dec (u32 (b - a)); console_puts_msg MSG_BOOT_RAMFS_SIZE_CLOSE]
  | None => [console_puts_msg MSG_BOOT_NO_RAMFS_MODULE]
  end.

(** *** The boot failure counter *)

Definition has_flag (g_boot_info : Z) (flag : list Z) : cM (kernel D) bool := fun k =>
  match boot_has_flag (k_mem k) g_boot_info flag with Some b => Some (b, k) | None => None end.

Definition boot_decide (disk_ok : bool) (g_boot_info : Z) : cM (kernel D) (option (safemode_reason * Z)) :=
  (if disk_ok then on_cfg bootcfg_read;; mret () else mret ());;
  available ← on_cfg bootcfg_is_available;
  if negb available then mret None
  else
    fails ← on_cfg (bootcfg_get_u32 BOOTCFG_KEY_FAIL_COUNT 0);
    requested ← has_flag g_boot_info (cstr "safemode");
    r ← on_cfg crash_record_load;
    let crashed := match r with Some (state, _) => state =? 1 | None => false end in
    if crashed || (BOOTCFG_FAIL_THRESHOLD <=? fails) || requested then
      n ← on_cfg (bootcfg_get_u32 BOOTCFG_KEY_FAIL_COUNT 0);
      mret (Some (if (crashed : bool) then SAFEMODE_REASON_CRASH
                  else if (requested : bool) then SAFEMODE_REASON_REQUESTED else SAFEMODE_REASON_FAIL_COUNT, n))
    else
      on_cfg (bootcfg_set_u32 BOOTCFG_KEY_FAIL_COUNT (u32 (fails + 1)));;
      on_cfg bootcfg_write;;
      mret None.

(** *** Memory *)

Definition boot_pmm (g_boot_info info : Z) (md : option (Z * Z)) : cM (kernel D) () := fun k =>
  match boot_get_memory_map (k_mem k) g_boot_info 64 with
  | None => None
  | Some rs =>
      let p := pmm_init (default [] rs) in
      let p := match md with Some (a, b) => pmm_mark_used p a (u32 (b - a)) | None => p end in
      let p := pmm_mark_used p info (rd32 (k_mem k) info) in
      let h := k_heap k in
      Some ((), put_heap (mk_heap (h_vmm h) p (heap_start_ptr h) (heap_end h)) k)
  end.

Definition pmm_dump (p : pmm) : list console_call :=
  [console_set_color CONSOLE_CYAN CONSOLE_BLACK; console_puts_msg MSG_PMM_DUMP_TAG; console_set_color CONSOLE_LIGHT_GREY CONSOLE_BLACK;
   console_puts_msg MSG_PMM_TOTAL; console_put_dec (u32 (pmm_total p * 4)); console_puts_msg MSG_PMM_KB_FREE;
   console_put_dec (u32 (pmm_free_pages p * 4)); console_puts_msg MSG_PMM_KB_NL].
Definition vmm_dump (v : vmm) : list console_call :=
  [console_set_color CONSOLE_CYAN CONSOLE_BLACK; console_puts_msg MSG_VMM_DUMP_TAG; console_set_color CONSOLE_LIGHT_GREY CONSOLE_BLACK;
   console_puts_msg MSG_VMM_PTS_USED; console_put_dec (u32 (pt_next v - PAGE_TABLE_START) / PAGE_SIZE); console_puts NL].
Definition scheduler_dump (t : ptable) : list console_call :=
  [console_set_color CONSOLE_CYAN CONSOLE_BLACK; console_puts_msg MSG_SCHED_TAG; console_set_color CONSOLE_LIGHT_GREY CONSOLE_BLACK;
   console_puts_msg MSG_SCHED_ROUND_ROBIN] ++ process_dump t.

Definition put_pci (l : list pci_device) (k : kernel D) : kernel D :=
  Kernel D (k_heap k) (k_vfs k) (k_ready k) (k_index k) (k_ticks k) (k_kbd k) (k_cfg k) l (k_fds k) (k_frame k)
    (k_raw_mode_pid k) (k_exec_arg k) (k_boot_up k) (k_out k).

(** From the separator after the disk to the programs. *)
Definition boot_memory (g_boot_info info : Z) (md : option (Z * Z)) : M () :=
  out print_separator;;
  out (tag MSG_TAG_PMM ++ [console_puts_msg MSG_BOOT_PMM_INITIALIZING]);;
  kern (boot_pmm g_boot_info info md);;
  p ← kern (gets (fun k => h_pages (k_heap k)));
  out (blank_tag ++ print_ok ++ pmm_dump p);;
  out (tag MSG_TAG_VMM ++ [console_puts_msg MSG_BOOT_ENABLING_PAGING]);;
  kern k_vmm_init;;
  v ← kern (gets (fun k => h_vmm (k_heap k)));
  out (blank_tag ++ print_ok ++ vmm_dump v);;
  out (tag MSG_TAG_HEAP ++ [console_puts_msg MSG_BOOT_INITIALIZING_KMALLOC]);;
  kern k_heap_init;;
  out (blank_tag ++ print_ok ++ print_separator).

Definition boot_services : M () :=
  out (tag MSG_TAG_SCHED ++ [console_puts_msg MSG_BOOT_SCHED_INITIALIZING]);;
  kern (on_sched scheduler_init);;
  out print_ok;;
  out (tag MSG_TAG_FAT16 ++ [console_puts_msg MSG_BOOT_FAT16_INITIALIZING]);;
  mounted ← kern k_fat16_init;
  out (if (mounted : bool) then print_ok else in_color CONSOLE_DARK_GREY MSG_BOOT_NO_FAT16_DISK);;
  out (tag MSG_TAG_PCI ++ [console_puts_msg MSG_BOOT_SCANNING_BUS]);;
  kern (modify (put_pci (pci_scan_bus config_dword)));;
  devs ← kern (gets k_pci);
  out (print_ok ++ pci_print_list devs ++ print_separator).

Definition boot_shell (md : option (Z * Z)) : M () :=
  match md with
  | None => mret ()
  | Some (a, b) =>
      out (tag MSG_TAG_RAMFS ++ [console_puts_msg MSG_BOOT_MOUNTING_IMAGE]);;
      img ← kern (gets (fun k => mem_bytes (k_mem k) a (Z.to_nat (u32 (b - a)))));
      kern (on_vfs (on_ram (ramfs_init (if a =? 0 then None else Some img) (u32 (b - a)))));;
      out (blank_tag ++ print_ok);;
      out (tag MSG_TAG_EXEC ++ [console_puts_msg MSG_BOOT_LOADING_SHELL]);;
      p ← kern (exec (cstr "shell") 0 false);
      match p with Some _ => mret () | None => out (in_color CONSOLE_LIGHT_RED MSG_BOOT_ERROR_LOADING_SHELL) end
  end;;
  t ← kern (gets tab);
  out (scheduler_dump t ++ print_separator ++ in_color CONSOLE_YELLOW MSG_BOOT_SHELL_STARTED).

(** Segments, interrupts, timer and keyboard. *)
Definition boot_interrupts : M () :=
  out (tag MSG_TAG_GDT ++ [console_puts_msg MSG_BOOT_GDT_INITIALIZING]);;
  intr gdt_init;;
  out print_ok;;
  out (tag MSG_TAG_PIC ++ [console_puts_msg MSG_BOOT_REMAPPING_IRQS]);;
  intr (pic_init;; mask_from 16 0);;
  out print_ok;;
  out (tag MSG_TAG_IDT ++ [console_puts_msg MSG_BOOT_INSTALLING_VECTORS]);;
  intr idt_init;;
  out (blank_tag ++ print_ok);;
  out (tag MSG_TAG_TIMER ++ [console_puts_msg MSG_BOOT_TIMER_INIT]);;
  intr (timer_init 100);;
  out print_ok;;
  out (tag MSG_TAG_KB ++ [console_puts_msg MSG_BOOT_KEYBOARD_INIT]);;
  intr keyboard_init;;
  out print_ok.

(** [channel] is what the probing of the disk found: [None] for no disk. *)
Definition boot_disk (channel : option Z) : M () :=
  out (tag MSG_TAG_ATA ++ [console_puts_msg MSG_BOOT_DETECTING_DISK]);;
  match channel with
  | Some c => intr (ata_irq_init c);; out print_ok
  | None => out (in_color CONSOLE_DARK_GREY MSG_BOOT_NO_DISK)
  end.

(** Up to the point where the first program is loaded, or to one of the other
    ends; the module found is passed on. *)
Definition boot_front (channel : option Z) (multiboot_magic multiboot_info_addr : Z) : M (boot_end + option (Z * Z)) :=
  out (banner ++ print_separator ++ tag MSG_TAG_BOOT);;
  let '(rc, g_boot_info) := hal_boot_init multiboot_magic multiboot_info_addr in
  if rc <? 0 then
    out [console_set_color CONSOLE_LIGHT_RED CONSOLE_BLACK; console_puts_msg MSG_BOOT_INVALID_MULTIBOOT2_MAGIC];;
    mret (inl Hang)
  else
    out ([console_puts_msg MSG_BOOT_MULTIBOOT2_OK_PREFIX] ++ print_ok);;
    md ← kern (find_module multiboot_info_addr);
    out (tag MSG_TAG_BOOT ++ module_lines md);;
    boot_interrupts;;
    boot_disk channel;;
    d ← kern (boot_decide (bool_decide (is_Some channel)) g_boot_info);
    match d with
    | Some (reason, n) => mret (inl (EnterSafeMode reason n))
    | None =>
        boot_memory g_boot_info multiboot_info_addr md;;
        boot_services;;
        mret (inr md)
    end.

Definition kmain (channel : option Z) (multiboot_magic multiboot_info_addr : Z) : M boot_end :=
  r ← boot_front channel multiboot_magic multiboot_info_addr;
  match r with
  | inl e => mret e
  | inr md => boot_shell md;; mret Up
  end.
End boot.
