(* ===== verification/BootPolicy.v ===== *)
(** * When the machine boots into Safe Mode

    The life of a machine over many restarts: the boot decision of [kmain], the
    first prompt of the shell ([note_boot_up]), fatal exceptions, Safe Mode's
    restart, loss of power.  Between restarts only the disk survives.  The
    failure counter and the crash record in the configuration sector implement a
    small machine, [after] and [choice]. *)

From Stdlib Require Import String ZArith Lia ZifyBool.
From stdpp Require Import base tactics numbers list option gmap.
From S2P Require Import Prelude Pmm Mem Vmm FatName Fat FatDir FatFile Heap Ramfs Keyboard BootCfg Console Pci.
From S2P Require Import Process Scheduler Pipe Fork UserMem Vfs Elf Kernel Syscall BootInfo SafeMode Boot.
Local Open Scope Z_scope.

(** ** The policy *)

Inductive crash_state := NoCrash | Pending (i : crash_info) | Acked (i : crash_info).
Record policy := Policy { po_fails : Z; po_crash : crash_state }.

Definition crash_num (c : crash_state) : Z := match c with NoCrash => 0 | Pending _ => 1 | Acked _ => 2 end.

(** What a boot does: [None] is a normal boot. *)
Definition choice (requested : bool) (p : policy) : option safemode_reason :=
  match po_crash p with
  | Pending _ => Some SAFEMODE_REASON_CRASH
  | _ => if requested then Some SAFEMODE_REASON_REQUESTED
         else if 3 <=? po_fails p then Some SAFEMODE_REASON_FAIL_COUNT else None
  end.

Inductive event :=
| EBoot (requested : bool) (o : option safemode_reason)
| EUp                      (** the shell asked for its first line *)
| EWork                    (** anything that leaves the configuration alone *)
| ECrash (i : crash_info)  (** a fatal exception *)
| ERestart                 (** "reboot normally" of Safe Mode *)
| EOff.                    (** loss of power, or a restart without a reset of the counter *)

Definition after (p : policy) (e : event) : policy :=
  match e with
  | EBoot _ None => Policy (po_fails p + 1) (po_crash p)
  | EBoot _ (Some _) | EWork | EOff => p
  | EUp => Policy 0 (match po_crash p with Acked _ => NoCrash | c => c end)
  | ECrash i => Policy (po_fails p) (Pending i)
  | ERestart => Policy 0 (match po_crash p with Pending i => Acked i | c => c end)
  end.

(** ** The configuration sector that holds it *)

Definition KNOWN : list (list Z) := [BOOTCFG_KEY_FAIL_COUNT; K_PENDING; K_TYPE; K_EIP; K_ERR; K_CR2; K_TICKS].

(** The key reads as the number; an absent key as 0. *)
Definition num (es : list entry) (key : list Z) (v : Z) : Prop := (assoc key es = None /\ v = 0) \/ reads_as es key v.

Definition info_nums (es : list entry) (i : crash_info) : Prop :=
  num es K_TYPE (int_no i) /\ num es K_EIP (eip i) /\ num es K_ERR (err_code i) /\ num es K_CR2 (cr2 i) /\ num es K_TICKS (ci_ticks i).

Record entries_hold (es : list entry) (p : policy) : Prop := {
  eh_fails : num es BOOTCFG_KEY_FAIL_COUNT (po_fails p);
  eh_pending : num es K_PENDING (crash_num (po_crash p));
  eh_info : match po_crash p with NoCrash => True | Pending i | Acked i => info_nums es i end;
  eh_short k v : k ∈ KNOWN -> assoc k es = Some v -> zlen v <= 10;
  eh_room : zlen (text (others KNOWN es)) <= 199
}.

Lemma num_reads buf es key v : layout buf es -> key_valid key = true -> num es key v -> bootcfg_buf_get_u32 buf key 0 = v.
Proof.
  intros Hl Hk [[Ha ->]|(s & Ha & Hz & Hne & Hp)].
  - unfold bootcfg_buf_get_u32. rewrite (buf_get_spec buf es key 16 Hl Hk) by lia. by rewrite Ha.
  - rewrite (get_u32_stored buf es key s 0) by done. apply Hp.
Qed.

Lemma known_valid k : k ∈ KNOWN -> key_valid k = true.
Proof.
  intros Hk. assert (H : forallb key_valid KNOWN = true) by (vm_compute; reflexivity). rewrite forallb_forall in H.
  apply H. by apply list_elem_of_In.
Qed.

Lemma drop_one k es : NoDup (map fst es) -> (forall v, assoc k es = Some v -> zlen v <= 10) ->
  zlen (text es) <= zlen (text (drop_key k es)) + zlen k + 12.
Proof.
  intros Hnd Hs. destruct (assoc k es) as [v|] eqn:Ha.
  - specialize (Hs v eq_refl). unfold assoc in Ha.
    destruct (List.find _ es) as [[k' v']|] eqn:E; [|done]. cbn in Ha. injection Ha as ->.
    apply List.find_some in E as (E & Hk). apply bool_decide_eq_true in Hk. cbn in Hk. subst k'.
    apply list_elem_of_In, list_elem_of_split in E as (l1 & l2 & ->).
    rewrite drop_key_split by done. rewrite !text_app, !zlen_app, zlen_text_cons. cbn [fst snd]. lia.
  - rewrite drop_key_id by done. pose proof (zlen_nonneg k). lia.
Qed.

Lemma others_nil es : others [] es = es.
Proof. unfold others. induction es as [|e es IH]; [done|]. rewrite filter_cons_True by apply not_elem_of_nil. by rewrite IH. Qed.

Lemma others_cons k ks es : others (k :: ks) es = drop_key k (others ks es).
Proof.
  unfold others, drop_key. rewrite list_filter_filter. apply list_filter_iff. intros e. rewrite not_elem_of_cons. tauto.
Qed.

Lemma others_assoc ks k es : k ∉ ks -> assoc k (others ks es) = assoc k es.
Proof.
  intros Hk. induction ks as [|k0 ks IH]; [by rewrite others_nil|]. apply not_elem_of_cons in Hk as [Hne Hk].
  rewrite others_cons, assoc_drop_key, decide_False by done. by apply IH.
Qed.

Lemma others_keys ks es : NoDup (map fst es) -> NoDup (map fst (others ks es)).
Proof.
  intros Hnd. induction ks as [|k ks IH]; [by rewrite others_nil|]. rewrite others_cons. by apply (drop_key_keys k (others ks es)).
Qed.

Definition known_room (ks : list (list Z)) : Z := foldr (fun k n => zlen k + 12 + n) 0 ks.

Lemma text_bound ks es : NoDup ks -> NoDup (map fst es) -> (forall k v, k ∈ ks -> assoc k es = Some v -> zlen v <= 10) ->
  zlen (text es) <= zlen (text (others ks es)) + known_room ks.
Proof.
  intros Hks Hnd Hs. induction ks as [|k ks IH]; [rewrite others_nil; cbn; lia|]. apply NoDup_cons in Hks as [Hk Hks].
  cbn [known_room foldr]. fold (known_room ks). rewrite others_cons.
  pose proof (drop_one k (others ks es) (others_keys ks es Hnd)) as Hd. rewrite others_assoc in Hd by done.
  specialize (Hd (fun v => Hs k v ltac:(by left))). specialize (IH Hks (fun k' v Hk' => Hs k' v ltac:(by right))). lia.
Qed.

Lemma known_nodup : NoDup KNOWN.
Proof. apply (bool_decide_unpack _). vm_compute. exact I. Qed.

Lemma hold_size buf es p : layout buf es -> entries_hold es p -> 19 + zlen (text es) <= 378.
Proof.
  intros Hl Hp. pose proof (text_bound KNOWN es known_nodup (ly_keys _ _ Hl) (eh_short _ _ Hp)) as Hb.
  assert (E : known_room KNOWN = 160) by (vm_compute; reflexivity). rewrite E in Hb. pose proof (eh_room _ _ Hp). lia.
Qed.

(** ** The operations on the entries *)

Lemma num_same es es' k v : assoc k es' = assoc k es -> num es k v -> num es' k v.
Proof. intros E [[Ha Hv]|(s & Ha & Hr)]; [left; by rewrite E|right; exists s; by rewrite E]. Qed.

(** Everything but [key] is kept, and [key] has a short value or none. *)
Record changed (key : list Z) (es es' : list entry) : Prop := {
  ch_other k : k <> key -> assoc k es' = assoc k es;
  ch_rest : others KNOWN es' = others KNOWN es;
  ch_short v : assoc key es' = Some v -> zlen v <= 10
}.

Lemma changed_hold key es es' p p' : entries_hold es p -> changed key es es' ->
  num es' BOOTCFG_KEY_FAIL_COUNT (po_fails p') -> num es' K_PENDING (crash_num (po_crash p')) ->
  match po_crash p' with NoCrash => True | Pending i | Acked i => info_nums es' i end -> entries_hold es' p'.
Proof.
  intros [Hf Hp Hi Hs Hr] [Ho Hrest Hsh] Hf' Hp' Hi'. constructor; [done..| |by rewrite Hrest].
  intros k v Hk Ha. destruct (decide (k = key)) as [->|Hne]; [by apply Hsh|]. rewrite Ho in Ha by done. by apply (Hs k).
Qed.

Lemma changed_info key es es' i : key ∉ [K_TYPE; K_EIP; K_ERR; K_CR2; K_TICKS] -> changed key es es' -> info_nums es i -> info_nums es' i.
Proof.
  intros Hk Hc (H1 & H2 & H3 & H4 & H5). rewrite !not_elem_of_cons in Hk.
  unfold info_nums. split_and!; (eapply num_same; [|eassumption]; apply (ch_other _ _ _ Hc); naive_solver).
Qed.

Lemma set_changed buf es p key v : layout buf es -> entries_hold es p -> key ∈ KNOWN -> is_u32 v ->
  exists buf' es', bootcfg_buf_set_u32 buf key v = Some (0, buf') /\ layout buf' es' /\ changed key es es' /\ num es' key v.
Proof.
  intros Hl Hp Hk Hv. pose proof (hold_size _ _ _ Hl Hp) as Hz.
  assert (Hlen : zlen key <= 20).
  { assert (H : forallb (fun k => zlen k <=? 20) KNOWN = true) by (vm_compute; reflexivity). rewrite forallb_forall in H.
    specialize (H key ltac:(by apply list_elem_of_In)). lia. }
  destruct (set_num_spec buf es key v false Hl (known_valid key Hk) Hv ltac:(lia)) as (buf' & es' & E & Hl' & Hr & Ho & _ & Hx).
  exists buf', es'. split_and!; [exact E|done| |by right].
  constructor; [done|by apply Hx|]. intros w Hw. destruct Hr as (s & Ha & Hs & _). congruence.
Qed.

Lemma remove_changed buf es key : layout buf es -> key ∈ KNOWN ->
  exists r buf' es', bootcfg_buf_remove buf key = (r, buf') /\ layout buf' es' /\ changed key es es' /\ num es' key 0.
Proof.
  intros Hl Hk. destruct (buf_remove_spec buf es key Hl (known_valid key Hk)) as (buf' & E & Hl'). eexists _, buf', _. split_and!; [exact E|exact Hl'| |].
  - constructor; [intros k Hne; by rewrite assoc_drop_key, decide_False|by apply others_drop|].
    intros v Ha. rewrite assoc_drop_key, decide_True in Ha by done. done.
  - left. by rewrite assoc_drop_key, decide_True.
Qed.

Section policy.
Context {D : Type} `{BlockDevice D}.
Implicit Types (d : D) (c : cfgst D) (p : policy).

Definition usable_disk d : Prop := bd_healthy d /\ 2 <= bd_size d /\ guarded d.

(** The disk of a machine that is off. *)
Definition disk_holds d p : Prop := usable_disk d /\ exists es, holds_cfg d es /\ entries_hold es p.
(** A running kernel, with changes not written yet. *)
Definition cache_holds c p : Prop :=
  usable_disk (c_disk c) /\ g_available c = true /\ exists es, layout (g_cfg c) es /\ entries_hold es p.
Definition cfg_holds c p : Prop :=
  usable_disk (c_disk c) /\ g_available c = true /\ exists es, layout (g_cfg c) es /\ holds_cfg (c_disk c) es /\ entries_hold es p.

Lemma cfg_cache c p : cfg_holds c p -> cache_holds c p.
Proof. intros (Hu & Ha & es & Hl & _ & Hp). split_and!; [done|done|]. by exists es. Qed.
Lemma cfg_disk c p : cfg_holds c p -> disk_holds (c_disk c) p.
Proof. intros (Hu & Ha & es & _ & Hd & Hp). split; [done|]. by exists es. Qed.

Lemma hold_get c p key v : cache_holds c p -> key ∈ KNOWN -> (forall es, entries_hold es p -> num es key v) ->
  bootcfg_buf_get_u32 (g_cfg c) key 0 = v.
Proof. intros (_ & _ & es & Hl & Hp) Hk Hn. eapply num_reads; [done|by apply known_valid|by apply Hn]. Qed.

Lemma get_fails c p : cache_holds c p -> bootcfg_buf_get_u32 (g_cfg c) BOOTCFG_KEY_FAIL_COUNT 0 = po_fails p.
Proof. intros Hc. apply (hold_get c p); [done|by left|]. intros es He. apply He. Qed.
Lemma get_pending c p : cache_holds c p -> bootcfg_buf_get_u32 (g_cfg c) K_PENDING 0 = crash_num (po_crash p).
Proof. intros Hc. apply (hold_get c p); [done|by right; left|]. intros es He. apply He. Qed.

Lemma read_holds c p : disk_holds (c_disk c) p -> wp bootcfg_read (fun _ c' => cfg_holds c' p) c.
Proof.
  intros ((Hh & Hz & Hg) & es & Hes & Hp). eapply wp_mono; [by apply bootcfg_read_healthy|].
  intros r c' (Hav & Hh' & Hz' & Hd & Hr). cbv zeta in Hr.
  assert (Hu : usable_disk (c_disk c')) by (split_and!; [done|lia|unfold guarded in *; by rewrite Hd]).
  split_and!; [done|done|]. exists es. unfold holds_cfg in *. rewrite !Hd. destruct (has_magic (bd_data (c_disk c) 1)) eqn:Em.
  - destruct Hr as [_ ->]. destruct (layout_sector _ _ Hes) as (_ & E & _). rewrite E. by split_and!.
  - destruct Hr as [_ ->]. subst es. split_and!; [exact layout_reset|done|done].
Qed.

Lemma write_holds c p : cache_holds c p -> wp bootcfg_write (fun r c' => r = 0 /\ cfg_holds c' p) c.
Proof.
  intros ((Hh & Hz & Hg) & Hav & es & Hl & Hp). unfold bootcfg_write. apply wp_bind, wp_gets. rewrite Hav. cbn [negb].
  destruct (layout_sector _ _ Hl) as (Hm & E511 & Hsec & Hby). apply wp_bind, wp_modify, wp_bind, wp_gets, wp_bind. cbn [g_cfg put_cfg].
  rewrite E511.
  destruct (cfg_write_healthy BOOTCFG_LBA (g_cfg c) (put_cfg (g_cfg c) c)) as (d' & E & Hh' & Hz' & Hd & Ho);
    [done|unfold BOOTCFG_LBA; cbn; lia|done|done|]. unfold BOOTCFG_LBA in *. cbn [c_disk put_cfg] in *.
  eapply wp_of_run; [exact E|]. apply wp_ret. split; [done|]. split_and!; cbn [g_available put_cdisk put_cfg c_disk g_cfg].
  - split_and!; [done|lia|]. unfold guarded in *. by rewrite Ho by done.
  - done.
  - exists es. split_and!; [done| |done]. unfold holds_cfg. rewrite Hd, Hm. done.
Qed.

Lemma set_fails_holds c p v : cache_holds c p -> is_u32 v ->
  wp (bootcfg_set_u32 BOOTCFG_KEY_FAIL_COUNT v) (fun _ c' => cache_holds c' (Policy v (po_crash p))) c.
Proof.
  intros (Hu & Hav & es & Hl & Hp) Hv.
  destruct (set_changed (g_cfg c) es p BOOTCFG_KEY_FAIL_COUNT v Hl Hp ltac:(by left) Hv) as (b & es' & E & Hl' & Hc & Hn).
  unfold bootcfg_set_u32, lift_set, wp. rewrite E. split_and!; [done|done|]. exists es'. split; [done|].
  eapply changed_hold; [exact Hp|exact Hc|exact Hn| |].
  - eapply num_same; [|apply Hp]. by apply (ch_other _ _ _ Hc).
  - pose proof (eh_info _ _ Hp) as Hi. cbn [po_crash]. destruct (po_crash p); [done|..];
      (eapply changed_info; [|exact Hc|exact Hi]; apply (bool_decide_unpack _); vm_compute; exact I).
Qed.

Definition ack (p : policy) : policy := Policy (po_fails p) (match po_crash p with Pending i => Acked i | c => c end).

Lemma ack_holds c p : cache_holds c p -> wp crash_record_acknowledge (fun _ c' => cache_holds c' (ack p)) c.
Proof.
  intros Hc0. unfold crash_record_acknowledge, bootcfg_get_u32. apply wp_bind, wp_gets. rewrite (get_pending c p Hc0).
  destruct Hc0 as (Hu & Hav & es & Hl & Hp). destruct (po_crash p) as [|i|i] eqn:Ec; cbn [crash_num Z.eqb Pos.eqb].
  - apply wp_ret. split_and!; [done|done|]. exists es. split; [done|]. unfold ack. rewrite Ec. destruct p; cbn in *; by subst.
  - apply wp_bind.
    destruct (set_changed (g_cfg c) es p K_PENDING 2 Hl Hp ltac:(by right; left) ltac:(split; done)) as (b & es' & E & Hl' & Hc & Hn).
    unfold bootcfg_set_u32, lift_set, wp. rewrite E. unfold mret, cM_ret. split_and!; [done|done|]. exists es'. split; [done|].
    unfold ack. rewrite Ec. eapply changed_hold; [exact Hp|exact Hc| |exact Hn|].
    + eapply num_same; [|apply Hp]. by apply (ch_other _ _ _ Hc).
    + pose proof (eh_info _ _ Hp) as Hi. rewrite Ec in Hi. cbn [po_crash]. eapply changed_info; [|exact Hc|exact Hi].
      apply (bool_decide_unpack _); vm_compute; exact I.
  - apply wp_ret. split_and!; [done|done|]. exists es. split; [done|]. unfold ack. rewrite Ec. destruct p; cbn in *; by subst.
Qed.

Lemma remove_pending_holds c p : cache_holds c p -> wp (bootcfg_remove K_PENDING) (fun _ c' => cache_holds c' (Policy (po_fails p) NoCrash)) c.
Proof.
  intros (Hu & Hav & es & Hl & Hp).
  destruct (remove_changed (g_cfg c) es K_PENDING Hl ltac:(by right; left)) as (r & b & es' & E & Hl' & Hc & Hn).
  unfold bootcfg_remove, lift_set, wp. rewrite E. split_and!; [done|done|]. exists es'. split; [done|].
  eapply changed_hold; [exact Hp|exact Hc| |exact Hn|done]. eapply num_same; [|apply Hp]. by apply (ch_other _ _ _ Hc).
Qed.

Lemma remove_info_holds c n key : cache_holds c (Policy n NoCrash) -> key ∈ [K_TYPE; K_EIP; K_ERR; K_CR2; K_TICKS] ->
  wp (bootcfg_remove key) (fun _ c' => cache_holds c' (Policy n NoCrash)) c.
Proof.
  intros (Hu & Hav & es & Hl & Hp) Hk.
  assert (Hne : key <> BOOTCFG_KEY_FAIL_COUNT /\ key <> K_PENDING).
  { split; intros ->; revert Hk; apply (bool_decide_unpack _); vm_compute; exact I. }
  destruct (remove_changed (g_cfg c) es key Hl ltac:(right; right; exact Hk)) as (r & b & es' & E & Hl' & Hc & Hn).
  unfold bootcfg_remove, lift_set, wp. rewrite E. split_and!; [done|done|]. exists es'. split; [done|].
  eapply changed_hold; [exact Hp|exact Hc| | |done]; (eapply num_same; [|apply Hp]); apply (ch_other _ _ _ Hc); naive_solver.
Qed.

Definition clear (p : policy) : policy := Policy (po_fails p) (match po_crash p with Acked _ => NoCrash | c => c end).

Lemma clear_holds c p : cache_holds c p -> wp crash_record_clear_if_acknowledged (fun _ c' => cache_holds c' (clear p)) c.
Proof.
  intros Hc0. unfold crash_record_clear_if_acknowledged, bootcfg_get_u32. apply wp_bind, wp_gets. rewrite (get_pending c p Hc0).
  unfold clear. destruct p as [n cr]. cbn [po_crash po_fails] in *. destruct cr as [|i|i]; cbn [crash_num Z.eqb Pos.eqb negb].
  - by apply wp_ret.
  - by apply wp_ret.
  - apply wp_bind. eapply wp_mono; [by apply remove_pending_holds|]. cbn [po_fails]. intros _ c1 H1.
    apply wp_bind. eapply wp_mono; [apply (remove_info_holds _ n K_TYPE H1); rewrite !elem_of_cons; tauto|]. cbv beta. intros r2 c2 H2.
    apply wp_bind. eapply wp_mono; [apply (remove_info_holds _ n K_EIP H2); rewrite !elem_of_cons; tauto|]. cbv beta. intros r3 c3 H3.
    apply wp_bind. eapply wp_mono; [apply (remove_info_holds _ n K_ERR H3); rewrite !elem_of_cons; tauto|]. cbv beta. intros r4 c4 H4.
    apply wp_bind. eapply wp_mono; [apply (remove_info_holds _ n K_CR2 H4); rewrite !elem_of_cons; tauto|]. cbv beta. intros r5 c5 H5.
    apply wp_bind. eapply wp_mono; [apply (remove_info_holds _ n K_TICKS H5); rewrite !elem_of_cons; tauto|]. cbv beta. intros r6 c6 H6.
    by apply wp_ret.
Qed.

Lemma crash_holds c p i : cfg_holds c p -> info_ok i ->
  wp (crash_save i) (fun saved c' => saved = true /\ disk_holds (c_disk c') (Policy (po_fails p) (Pending i))) c.
Proof.
  intros ((Hh & Hz & Hg) & Hav & es & Hl & Hd & Hp) Hi.
  eapply wp_mono; [apply (crash_save_healthy c es i); [done|done|done|done|by eapply hold_size|done]|].
  intros saved c' (-> & Hh' & Hz' & Ho & es' & Hl' & Ha & Hr & Hx). split; [done|].
  assert (Hrd : forall hex key v, (hex, key, v) ∈ crash_keys i -> num es' key v).
  { intros hex key v Hin. right. rewrite Forall_forall in Hr. exact (Hr _ Hin). }
  split; [split_and!; [done|lia|unfold guarded in *; by rewrite Ho]|]. exists es'. split.
  { unfold holds_cfg. destruct (layout_sector _ _ Hl') as (-> & _). done. }
  constructor; cbn [po_fails po_crash crash_num].
  - eapply num_same; [|apply Hp]. apply Ha. cbn [crash_keys map key_of fst snd]. apply (bool_decide_unpack _). vm_compute. exact I.
  - apply (Hrd false). by left.
  - unfold info_nums. split_and!; [apply (Hrd false)|apply (Hrd true)|apply (Hrd true)|apply (Hrd true)|apply (Hrd false)];
      unfold crash_keys; rewrite !elem_of_cons; auto 10.
  - intros k v Hk Hv. destruct (decide (k ∈ map key_of (crash_keys i))) as [Hin|Hnin].
    + apply list_elem_of_fmap in Hin as (x & -> & Hx'). rewrite Forall_forall in Hr. destruct (Hr _ Hx') as (s & Hs & Hz1 & _). congruence.
    + rewrite Ha in Hv by done. by eapply (eh_short _ _ Hp).
  - rewrite Hx; [apply Hp|]. unfold crash_keys. repeat (apply Forall_cons_2; [apply (bool_decide_unpack _); vm_compute; exact I|]). apply Forall_nil_2.
Qed.
End policy.

(** ** The operations of the kernel *)

Section lives.
Context {D : Type} `{BlockDevice D} `{Machine}.
Implicit Types (k : kernel D) (p : policy).

Lemma view_put (c : cfgst D) k : cfg_view (put_cfg_view c k) = c.
Proof. by destruct c. Qed.

(** A step on the configuration, seen through the whole kernel: nothing else
    that these operations look at changes. *)
Definition seen (c : cfgst D) (k k' : kernel D) : Prop :=
  cfg_view k' = c /\ k_mem k' = k_mem k /\ k_ticks k' = k_ticks k /\ k_boot_up k' = k_boot_up k.

Lemma wp_cfg {A} (m : cM (cfgst D) A) (Q : A -> kernel D -> Prop) k (P : A -> cfgst D -> Prop) :
  wp m P (cfg_view k) -> (forall a c k', P a c -> seen c k k' -> Q a k') -> wp (on_cfg m) Q k.
Proof.
  intros Hm HQ. unfold wp, on_cfg, zoom in *. destruct (m (cfg_view k)) as [[a c]|]; [|done].
  apply (HQ a c); [done|]. split_and!; [apply view_put|done..].
Qed.

Lemma put_view k : put_cfg_view (cfg_view k) k = k.
Proof. by destruct k as [h [r [g1 g2 g3 g4 g5 g6] q] ? ? ? ? [? ? ? ? []] ? ? ? ? ? ? ?]. Qed.

Lemma wp_cfg_look {A} (m : cM (cfgst D) A) (Q : A -> kernel D -> Prop) k (P : A -> Prop) :
  wp m (fun a c => c = cfg_view k /\ P a) (cfg_view k) -> (forall a, P a -> Q a k) -> wp (on_cfg m) Q k.
Proof.
  intros Hm HQ. unfold wp, on_cfg, zoom in *. destruct (m (cfg_view k)) as [[a c]|]; [|done].
  destruct Hm as [-> HP]. rewrite put_view. by apply HQ.
Qed.

Lemma wp_cfg_gets {A} (f : cfgst D -> A) (Q : A -> kernel D -> Prop) k : Q (f (cfg_view k)) k -> wp (on_cfg (gets f)) Q k.
Proof. intros HQ. apply (wp_cfg_look _ _ _ (fun a => a = f (cfg_view k))); [by apply wp_gets|]. by intros a ->. Qed.

Lemma wp_print (l : list console_call) (Q : () -> kernel D -> Prop) k :
  (forall k', cfg_view k' = cfg_view k -> k_disk k' = k_disk k -> k_ticks k' = k_ticks k -> Q () k') -> wp (print l) Q k.
Proof. intros HQ. apply wp_modify. by apply HQ. Qed.

Definition k_holds k p : Prop := cfg_holds (cfg_view k) p.

Definition boot_outcome (requested : bool) p (o : option (safemode_reason * Z)) (p' : policy) : Prop :=
  fst <$> o = choice requested p /\ (forall r n, o = Some (r, n) -> n = po_fails p) /\
  p' = after p (EBoot requested (choice requested p)).

Lemma load_crash (c : cfgst D) p : cache_holds c p ->
  wp crash_record_load (fun r c' => c' = c /\ (match r with Some (state, _) => state =? 1 | None => false end) =
    match po_crash p with Pending _ => true | _ => false end) c.
Proof.
  intros Hc. unfold crash_record_load, bootcfg_get_u32. apply wp_bind, wp_gets. rewrite (get_pending c p Hc).
  destruct (po_crash p); cbn [crash_num Z.eqb Pos.eqb negb andb]; [by apply wp_ret|..]; do 5 apply wp_bind, wp_gets; by apply wp_ret.
Qed.

Lemma wp_flag info flag b (Q : bool -> kernel D -> Prop) k : boot_has_flag (k_mem k) info flag = Some b -> Q b k -> wp (has_flag info flag) Q k.
Proof. intros E HQ. unfold wp, has_flag. by rewrite E. Qed.

Lemma boot_decide_holds k p info requested : disk_holds (k_disk k) p -> 0 <= po_fails p < 2 ^ 32 - 1 ->
  boot_has_flag (k_mem k) info (cstr "safemode") = Some requested ->
  wp (boot_decide true info) (fun o k' => exists p', boot_outcome requested p o p' /\ k_holds k' p' /\ k_boot_up k' = k_boot_up k) k.
Proof.
  intros Hd Hf Hreq. unfold boot_decide. apply wp_bind, wp_bind.
  eapply wp_cfg; [by apply (read_holds _ p)|]. cbv beta. intros r1 c1 k1 Hc1 (V1 & M1 & _ & B1). apply wp_ret, wp_bind.
  apply wp_cfg_gets. rewrite V1. destruct (Hc1) as (_ & -> & _). cbn [negb]. pose proof (cfg_cache _ _ Hc1) as Hk1.
  apply wp_bind. unfold bootcfg_get_u32. apply wp_cfg_gets. rewrite V1, (get_fails c1 p Hk1). apply wp_bind.
  eapply wp_flag; [by rewrite M1|]. apply wp_bind.
  eapply wp_cfg_look; [rewrite V1; by apply load_crash|]. cbv beta. intros r Hr. rewrite Hr.
  assert (Hk : k_holds k1 p) by (unfold k_holds; by rewrite V1).
  assert (Hsafe : forall reason, choice requested p = Some reason ->
    exists p', boot_outcome requested p (Some (reason, po_fails p)) p' /\ k_holds k1 p' /\ k_boot_up k1 = k_boot_up k).
  { intros reason Hch. exists p. split_and!; [|done|done]. split_and!; [by rewrite Hch|by intros ? ? [= _ <-]|by rewrite Hch]. }
  assert (Hget : forall Q, Q (po_fails p) k1 -> wp (on_cfg (bootcfg_get_u32 BOOTCFG_KEY_FAIL_COUNT 0)) Q k1).
  { intros Q HQ. apply wp_cfg_gets. by rewrite V1, (get_fails c1 p Hk1). }
  unfold BOOTCFG_FAIL_THRESHOLD. unfold choice in Hsafe.
  destruct (po_crash p) as [|i|i] eqn:Ec; cbn [orb].
  2:{ apply wp_bind, Hget, wp_ret. by apply Hsafe. }
  all: destruct (Z.leb_spec 3 (po_fails p)) as [H3|H3]; cbn [orb]; [apply wp_bind, Hget, wp_ret; destruct requested; by apply Hsafe|];
    destruct requested; [apply wp_bind, Hget, wp_ret; by apply Hsafe|]; apply wp_bind; rewrite u32_small by lia;
    (eapply wp_cfg; [rewrite V1; apply (set_fails_holds c1 p); [done|unfold is_u32; lia]|]; cbv beta; intros r2 c2 k2 Hc2 (V2 & M2 & _ & B2));
    apply wp_bind; (eapply wp_cfg; [rewrite V2; by apply write_holds|]; cbv beta; intros r3 c3 k3 [_ Hc3] (V3 & _ & _ & B3));
    apply wp_ret; (exists (Policy (po_fails p + 1) (po_crash p)); split_and!; [|unfold k_holds; by rewrite V3|congruence]);
    unfold boot_outcome, choice; rewrite Ec; replace (3 <=? po_fails p) with false by lia; cbn; by rewrite Ec.
Qed.

Lemma boot_up_holds k p : k_holds k p -> k_boot_up k = false ->
  wp note_boot_up (fun _ k' => k_holds k' (after p EUp) /\ k_boot_up k' = true) k.
Proof.
  intros Hk Hup. unfold note_boot_up. apply wp_bind, wp_gets. rewrite Hup. apply wp_bind, wp_modify, wp_bind. set (k0 := put_boot_up true k).
  assert (V0 : cfg_view k0 = cfg_view k) by done.
  apply wp_cfg_gets. rewrite V0. pose proof Hk as (_ & Hav & _). rewrite Hav. apply wp_bind.
  eapply wp_cfg; [rewrite V0; apply (set_fails_holds _ p 0); [by apply cfg_cache|by split]|]. cbv beta. intros r1 c1 k1 Hc1 (V1 & _ & _ & B1).
  apply wp_bind. eapply wp_cfg; [rewrite V1; by apply (clear_holds _ _ Hc1)|]. cbv beta. intros r2 c2 k2 Hc2 (V2 & _ & _ & B2).
  apply wp_bind. eapply wp_cfg; [rewrite V2; by apply (write_holds _ _ Hc2)|]. cbv beta. intros r3 c3 k3 [_ Hc3] (V3 & _ & _ & B3).
  apply wp_ret. split; [|by rewrite B3, B2, B1]. unfold k_holds. rewrite V3. exact Hc3.
Qed.

(** The first exception of a run. *)
Lemma exception_holds k p int_no err_code eip cr2 :
  let i := CrashInfo int_no eip err_code cr2 (k_ticks k) in
  k_holds k p -> g_crash_active (k_cfg k) = false -> info_ok i ->
  wp (exception_handler int_no err_code eip cr2) (fun o k' => o = Reset /\ disk_holds (k_disk k') (after p (ECrash i))) k.
Proof.
  intros i Hk Ha Hi. unfold exception_handler. apply wp_bind.
  eapply wp_cfg; [unfold crash_begin; apply wp_bind, wp_gets|].
  { cbn [cfg_view g_crash_active]. rewrite Ha. apply wp_bind, wp_modify, wp_ret. instantiate (1 := fun b c => b = true /\ cfg_holds c p). split; [done|].
    exact Hk. }
  cbv beta. intros b c1 k1 [-> Hc1] (V1 & _ & T1 & _). cbn [negb]. apply wp_bind, wp_gets, wp_bind. rewrite T1.
  eapply wp_cfg; [rewrite V1; by apply (crash_holds _ _ i Hc1)|]. cbv beta. intros saved c2 k2 [-> Hc2] (V2 & _ & _ & _).
  assert (Hd : disk_holds (k_disk k2) (after p (ECrash i))) by (change (k_disk k2) with (c_disk (cfg_view k2)); by rewrite V2).
  cbn [negb]. repeat (apply wp_bind, wp_print; intros ?k ?V ?E ?T). apply wp_ret. split; [done|]. congruence.
Qed.

(** A second exception while the first is handled resets at once. *)
Lemma nested_exception k int_no err_code eip cr2 : g_crash_active (k_cfg k) = true ->
  wp (exception_handler int_no err_code eip cr2) (fun o k' => o = Reset /\ k_disk k' = k_disk k) k.
Proof.
  intros Ha. unfold exception_handler. apply wp_bind. unfold crash_begin.
  apply (wp_cfg_look _ _ _ (fun b => b = false)).
  { apply wp_bind, wp_gets. cbn [cfg_view g_crash_active]. rewrite Ha. by apply wp_ret. }
  intros b ->. cbn [negb]. apply wp_bind, wp_print. intros k' _ E _. apply wp_ret. done.
Qed.

(** What a run of [reboot_normally] ends in. *)
Definition swp {A} (m : sM D A) (Q : ended A -> sm D -> Prop) (s : sm D) : Prop :=
  match m s with Some (o, s') => Q o s' | None => False end.

Lemma swp_lift {A B} (m : cM (kernel D) A) (f : A -> sM D B) (Q : ended B -> sm D -> Prop) s :
  wp m (fun a k => swp (f a) Q (put_kernel k s)) (sm_kernel s) -> swp (lift m ≫= f) Q s.
Proof. unfold wp, swp, lift, mbind, sM_bind. by destruct (m (sm_kernel s)) as [[a k]|]. Qed.

Definition s_holds (s : sm D) p : Prop := k_holds (sm_kernel s) p.

Lemma swp_say l {B} (f : () -> sM D B) (Q : ended B -> sm D -> Prop) s p :
  s_holds s p -> (forall s', s_holds s' p -> sm_obeys s' = sm_obeys s -> swp (f ()) Q s') -> swp (say l ≫= f) Q s.
Proof. intros Hs HQ. apply swp_lift. apply wp_print. intros k V _ _. apply HQ; [|done]. unfold s_holds, k_holds. cbn [sm_kernel put_kernel]. by rewrite V. Qed.

Lemma restart_holds (s : sm D) p : s_holds s p -> sm_obeys s = true ->
  swp reboot_normally (fun o s' => o = Restarted /\ disk_holds (k_disk (sm_kernel s')) (after p ERestart)) s.
Proof.
  intros Hs Hob. unfold reboot_normally. apply swp_lift.
  eapply wp_cfg; [apply (set_fails_holds _ p 0); [by apply cfg_cache|by split]|]. cbv beta. intros r1 c1 k1 Hc1 (V1 & _).
  apply swp_lift. cbn [sm_kernel put_kernel]. eapply wp_cfg; [rewrite V1; by apply (ack_holds _ _ Hc1)|]. cbv beta. intros r2 c2 k2 Hc2 (V2 & _).
  apply swp_lift. cbn [sm_kernel put_kernel]. eapply wp_cfg; [rewrite V2; by apply (write_holds _ _ Hc2)|]. cbv beta. intros r3 c3 k3 [-> Hc3] (V3 & _).
  change (0 <? 0) with false. cbv iota. set (s3 := put_kernel k3 _).
  assert (H3 : s_holds s3 (after p ERestart)) by (unfold s_holds, k_holds; cbn [s3 sm_kernel put_kernel]; rewrite V3; exact Hc3).
  assert (Hob3 : sm_obeys s3 = true) by exact Hob. clearbody s3. clear - H3 Hob3.
  change (swp (say [console_puts_msg MSG_SAFE_REBOOTING];; reboot;; wait_any_key)
    (fun o s' => o = Restarted /\ disk_holds (k_disk (sm_kernel s')) (after p ERestart)) s3).
  eapply swp_say; [exact H3|]. intros s4 H4 Hob4.
  assert (E : exists s5, (reboot;; wait_any_key) s4 = Some (Restarted, s5) /\ cfg_view (sm_kernel s5) = cfg_view (sm_kernel s4)).
  { unfold reboot, mbind, sM_bind, sgets. rewrite Hob4, Hob3. eexists. split; reflexivity. }
  destruct E as (s5 & E & V5). unfold swp. rewrite E. split; [done|]. change (k_disk (sm_kernel s5)) with (c_disk (cfg_view (sm_kernel s5))).
  rewrite V5. by apply cfg_disk.
Qed.

(** ** Lives *)

Inductive life := Off (d : D) | On (k : kernel D) | Recovering (s : sm D).

(** The configuration in memory and on the disk stays; other sectors may change. *)
Record leaves_config (k k' : kernel D) : Prop := {
  lc_cfg : g_cfg (k_cfg k') = g_cfg (k_cfg k);
  lc_available : g_available (k_cfg k') = g_available (k_cfg k);
  lc_usable : bd_healthy (k_disk k) -> bd_healthy (k_disk k');
  lc_size : bd_size (k_disk k') = bd_size (k_disk k);
  lc_guard : bd_data (k_disk k') 0 = bd_data (k_disk k) 0;
  lc_sector : bd_data (k_disk k') 1 = bd_data (k_disk k) 1
}.

Inductive live : life -> event -> life -> Prop :=
| lv_boot k info requested k' :
    k_boot_up k = false -> boot_has_flag (k_mem k) info (cstr "safemode") = Some requested ->
    boot_decide true info k = Some (None, k') -> live (Off (k_disk k)) (EBoot requested None) (On k')
| lv_safe k info requested reason n (s : sm D) :
    boot_has_flag (k_mem k) info (cstr "safemode") = Some requested ->
    boot_decide true info k = Some (Some (reason, n), sm_kernel s) ->
    live (Off (k_disk k)) (EBoot requested (Some reason)) (Recovering s)
| lv_up k k' : k_boot_up k = false -> note_boot_up k = Some ((), k') -> live (On k) EUp (On k')
| lv_work k k' : leaves_config k k' -> live (On k) EWork (On k')
| lv_look (s s' : sm D) : leaves_config (sm_kernel s) (sm_kernel s') -> live (Recovering s) EWork (Recovering s')
| lv_crash k k' int_no err_code eip cr2 :
    let i := CrashInfo int_no eip err_code cr2 (k_ticks k) in
    g_crash_active (k_cfg k) = false -> info_ok i ->
    exception_handler int_no err_code eip cr2 k = Some (Reset, k') -> live (On k) (ECrash i) (Off (k_disk k'))
| lv_crash_safe (s : sm D) k' int_no err_code eip cr2 :
    let i := CrashInfo int_no eip err_code cr2 (k_ticks (sm_kernel s)) in
    g_crash_active (k_cfg (sm_kernel s)) = false -> info_ok i ->
    exception_handler int_no err_code eip cr2 (sm_kernel s) = Some (Reset, k') -> live (Recovering s) (ECrash i) (Off (k_disk k'))
| lv_restart (s s' : sm D) :
    sm_obeys s = true -> reboot_normally s = Some (Restarted, s') -> live (Recovering s) ERestart (Off (k_disk (sm_kernel s')))
| lv_off k : live (On k) EOff (Off (k_disk k))
| lv_off_safe (s : sm D) : live (Recovering s) EOff (Off (k_disk (sm_kernel s))).

Inductive lives : life -> list event -> life -> Prop :=
| lives_nil m : lives m [] m
| lives_cons m e m' evs m'' : live m e m' -> lives m' evs m'' -> lives m (e :: evs) m''.

Definition life_holds (m : life) p : Prop :=
  match m with
  | Off d => disk_holds d p
  | On k => k_holds k p
  | Recovering s => s_holds s p
  end /\ 0 <= po_fails p < 2 ^ 32 - 1.

Lemma leaves_holds k k' p : leaves_config k k' -> k_holds k p -> k_holds k' p.
Proof.
  intros [Ec Ea Eu Ez Eg Es] ((Hh & Hz & Hg) & Hav & es & Hl & Hd & Hp). unfold k_holds, cfg_holds, usable_disk, guarded, holds_cfg in *.
  cbn [cfg_view c_disk g_cfg g_available] in *. fold (k_disk k) in *. fold (k_disk k') in *. rewrite Ea, Ec, Es, Eg.
  split_and!; [auto|lia|apply Hg|apply Hg|done|]. by exists es.
Qed.

Lemma wp_elim {St A} (m : cM St A) (Q : A -> St -> Prop) s a s' : wp m Q s -> m s = Some (a, s') -> Q a s'.
Proof. unfold wp. intros HQ E. by rewrite E in HQ. Qed.

Lemma live_holds m e m' p : live m e m' -> life_holds m p -> life_holds m' (after p e).
Proof.
  intros Hl [Hm Hf]. destruct Hl as [k info requested k' Hu Hreq E|k info requested reason n s Hreq E|k k' Hu E|k k' Hw|s s' Hw
    |k k' int_no err_code eip cr2 i Ha Hi E|s k' int_no err_code eip cr2 i Ha Hi E|s s' Hob E|k|s]; cbn [life_holds] in Hm.
  - destruct (wp_elim _ _ _ _ _ (boot_decide_holds k p info requested Hm Hf Hreq) E) as (p' & (Ho & _ & ->) & Hk & _).
    cbn in Ho. rewrite <- Ho in *. split; [exact Hk|]. cbn [after po_fails].
    unfold choice in Ho. destruct (po_crash p); [|done|]; destruct requested; try done; destruct (Z.leb_spec 3 (po_fails p)); try done; lia.
  - destruct (wp_elim _ _ _ _ _ (boot_decide_holds k p info requested Hm Hf Hreq) E) as (p' & (Ho & _ & ->) & Hk & _).
    cbn in Ho. rewrite <- Ho in *. split; [exact Hk|done].
  - destruct (wp_elim _ _ _ _ _ (boot_up_holds k p Hm Hu) E) as [Hk _]. split; [exact Hk|cbn; lia].
  - split; [by eapply leaves_holds|done].
  - split; [by eapply leaves_holds|done].
  - destruct (wp_elim _ _ _ _ _ (exception_holds k p int_no err_code eip cr2 Hm Ha Hi) E) as [_ Hk]. split; [exact Hk|done].
  - destruct (wp_elim _ _ _ _ _ (exception_holds (sm_kernel s) p int_no err_code eip cr2 Hm Ha Hi) E) as [_ Hk]. split; [exact Hk|done].
  - pose proof (restart_holds s p Hm Hob) as Hr. unfold swp in Hr. rewrite E in Hr. destruct Hr as [_ Hk]. split; [exact Hk|cbn; lia].
  - split; [by apply (cfg_disk (cfg_view k))|done].
  - split; [by apply (cfg_disk (cfg_view (sm_kernel s)))|done].
Qed.

Lemma lives_hold m evs m' p : lives m evs m' -> life_holds m p -> life_holds m' (fold_left after evs p).
Proof. intros Hl. revert p. induction Hl as [|m e m' evs m'' Hl _ IH]; intros p Hm; [done|]. apply IH. by eapply live_holds. Qed.

(** ** Properties *)

(** C5 (boot policy).  Over any sequence of boots, first prompts, crashes, Safe
    Mode restarts and losses of power, starting from a disk whose configuration
    sector holds the policy state [p], the next boot reaches its decision, and
    this is the decision of the policy for the events so far: Safe Mode because
    of a crash exactly when the last fatal exception has not been acknowledged by
    a Safe Mode restart since; otherwise on request; otherwise after three boots
    since the last one whose shell came up, or since the last Safe Mode restart. *)
Theorem boot_policy_exact (d d' : D) (p : policy) (evs : list event) (k : kernel D) (info : Z) (requested : bool) :
  disk_holds d p -> 0 <= po_fails p < 2 ^ 32 - 1 -> lives (Off d) evs (Off d') ->
  k_disk k = d' -> boot_has_flag (k_mem k) info (cstr "safemode") = Some requested ->
  exists o k', boot_decide true info k = Some (o, k') /\ fst <$> o = choice requested (fold_left after evs p).
Proof.
  intros Hd Hf Hl Ek Hreq. destruct (lives_hold _ _ _ p Hl ltac:(by split)) as [Hd' Hf']. cbn in Hd'. subst d'.
  destruct (wp_run _ _ _ (boot_decide_holds k _ info requested Hd' Hf' Hreq)) as (o & k' & E & p' & (Ho & _) & _).
  exists o, k'. split; [exact E|exact Ho].
Qed.
End lives.

(** ** Consequences for the policy *)

Definition attempt (e : event) : Z := match e with EBoot _ None => 1 | _ => 0 end.
Definition success (e : event) : bool := match e with EUp | ERestart => true | _ => false end.

(** Three boots that never got to the prompt are followed by Safe Mode. *)
Theorem failures_lead_to_safe_mode (p : policy) (evs : list event) (requested : bool) :
  0 <= po_fails p -> forallb (fun e => negb (success e)) evs = true -> 3 <= foldr (fun e n => attempt e + n) 0 evs ->
  choice requested (fold_left after evs p) <> None.
Proof.
  intros Hf Hs Hn.
  assert (E : forall evs p, forallb (fun e => negb (success e)) evs = true ->
    po_fails (fold_left after evs p) = po_fails p + foldr (fun e n => attempt e + n) 0 evs).
  { clear. induction evs as [|e evs IH]; intros p Hs; [cbn; lia|]. cbn [forallb] in Hs. apply andb_prop in Hs as [He Hs].
    cbn [fold_left foldr]. rewrite IH by done. destruct e as [? []| | | | |]; cbn in *; try done; lia. }
  unfold choice. rewrite E by done. destruct (po_crash _); [|done|]; destruct requested; try done;
    destruct (Z.leb_spec 3 (po_fails p + foldr (fun e n => attempt e + n) 0 evs)); try done; lia.
Qed.

(** ** Example: a machine that never gets to its prompt *)

Definition fresh_kernel (d : simdisk) : kernel simdisk :=
  Kernel simdisk (k_heap demo_kernel) (Vfs simdisk (Ramfs None 0 0) (blank_volume d) (v_pipes (k_vfs demo_kernel)))
    false 0 0 kbd0 (Cfgst () cfg_reset false (replicate 512 0) false ()) [] [] 0 (-1) [] false [].

Definition boots_normally (d : simdisk) : bool :=
  match boot_decide true 0 (fresh_kernel d) with Some (None, _) => true | _ => false end.
Definition disk_after (d : simdisk) : simdisk :=
  match boot_decide true 0 (fresh_kernel d) with Some (None, k) => k_disk k | _ => d end.

Lemma failed_boot d : boots_normally d = true -> lives (Off d) [EBoot false None; EOff] (Off (disk_after d)).
Proof.
  unfold boots_normally, disk_after. destruct (boot_decide true 0 (fresh_kernel d)) as [[[r|] k]|] eqn:E; [done| |done]. intros _.
  econstructor; [apply (lv_boot (fresh_kernel d) 0 false k); [done|reflexivity|exact E]|].
  econstructor; [apply lv_off|constructor].
Qed.

Lemma lives_app {D} `{BlockDevice D} (m m' m'' : life (D:=D)) evs evs' : lives m evs m' -> lives m' evs' m'' -> lives m (evs ++ evs') m''.
Proof. induction 1; [done|]. intros Hl. cbn. econstructor; [done|auto]. Qed.

Lemma small_disk_holds : disk_holds small_disk (Policy 0 NoCrash).
Proof.
  split; [split_and!; [constructor|vm_compute; discriminate|split; vm_compute; reflexivity]|]. exists []. split.
  - unfold holds_cfg. assert (E : has_magic (bd_data small_disk 1) = false) by (vm_compute; reflexivity). by rewrite E.
  - constructor; [by left|by left|done|done|vm_compute; discriminate].
Qed.

Lemma boot_policy_exact_witness :
  exists o k', boot_decide true 0 (fresh_kernel (disk_after (disk_after (disk_after small_disk)))) = Some (o, k') /\
    fst <$> o = Some SAFEMODE_REASON_FAIL_COUNT.
Proof.
  destruct (@boot_policy_exact simdisk _ small_disk (disk_after (disk_after (disk_after small_disk))) (Policy 0 NoCrash)
    ([EBoot false None; EOff] ++ [EBoot false None; EOff] ++ [EBoot false None; EOff])
    (fresh_kernel (disk_after (disk_after (disk_after small_disk)))) 0 false) as (o & k' & E & Ho).
  - exact small_disk_holds.
  - cbn. lia.
  - eapply lives_app; [apply failed_boot; vm_compute; reflexivity|]. eapply lives_app; [apply failed_boot; vm_compute; reflexivity|].
    apply failed_boot. vm_compute. reflexivity.
  - reflexivity.
  - reflexivity.
  - exists o, k'. split; [exact E|exact Ho].
Defined.
