(* ===== verification/BootState.v ===== *)
(** * The state [kmain] hands over

    The theorems about a running kernel start from a state with a well-formed
    heap, page tables, process table and descriptor table.  Here it is shown that
    the boot produces such a state, from the memory map the boot loader left, and
    that the descriptor tables are still in place behind it. *)

From Stdlib Require Import String ZArith Lia ZifyBool.
From stdpp Require Import base tactics numbers list option gmap.
From S2P Require Import Prelude Pmm Mem Vmm FatName Fat FatDir FatFile Heap Ramfs Keyboard BootCfg Console Pci.
From S2P Require Import Process Scheduler Pipe Fork UserMem Vfs Elf Kernel Syscall FdTable FdRefs FdCalls BootInfo Ata Interrupts SafeMode Boot BootPolicy.
Local Open Scope Z_scope.

(** ** Memory *)

Lemma init_identity_bytes n : forall m pt base i x, 0 <= i -> x < pt + 4 * i \/ pt + 4 * (i + Z.of_nat n) <= x ->
  rd8 (init_identity m pt base i n) x = rd8 m x.
Proof.
  induction n as [|n IH]; intros m pt base i x Hi Hx; [done|]. cbn [init_identity]. rewrite IH by lia. apply rd8_wr32_ne. lia.
Qed.

(** Turning paging on writes the page directory and two tables. *)
Lemma vmm_init_frame v x : x < PAGE_DIR_ADDR \/ PAGE_DIR_ADDR + 0x3000 <= x -> rd8 (v_mem (vmm_init v)) x = rd8 (v_mem v) x.
Proof.
  intros Hx. unfold vmm_init. cbn [v_mem]. rewrite !rd8_wr32_ne by (unfold PAGE_DIR_ADDR in *; lia).
  rewrite !init_identity_bytes by (unfold PAGE_DIR_ADDR, PAGE_TABLE_START, PAGE_SIZE in *; lia).
  apply init_zero_out8; unfold PAGE_DIR_ADDR, PAGE_TABLE_START, PAGE_SIZE in *; lia.
Qed.

Lemma heap_init_frame (h : heap pmm) x : arena_ok h -> x < HEAP_START -> rd8 (h_mem (heap_init h)) x = rd8 (h_mem h) x.
Proof.
  intros Ha Hx. unfold heap_init. destruct (heap_expand h HEAP_INITIAL_SIZE) as [h1 ok] eqn:E.
  apply heap_expand_spec in E; [|done|done|done]. destruct ok; cbn [negb]; [|apply E].
  cbn [h_mem h_vmm with_mem v_mem]. unfold set_prev, set_next, set_size, set_magic. rewrite !rd8_wr32_ne by lia. apply E.
Qed.

(** A reservation only takes pages away. *)
Lemma mark_used_client s addr size : pmm_client_ok s -> 0 <= addr -> pmm_client_ok (pmm_mark_used s addr size) /\
  forall q, page_free (pmm_mark_used s addr size) q = true -> page_free s q = true /\
    ~ (addr / 4096 <= q < addr / 4096 + u32 (size + 4095) / 4096).
Proof.
  intros [Hok H0] Ha. destruct (mark_used_spec s addr size Hok Ha) as [Hok' [Et Hu]].
  assert (Hf : forall q, page_free (pmm_mark_used s addr size) q = true -> page_free s q = true /\
    ~ (addr / 4096 <= q < addr / 4096 + u32 (size + 4095) / 4096)).
  { intros q Hq. unfold page_free in *. b2p. rewrite Et in *. pose proof (ok_total _ Hok) as Ht. rewrite Hu in * by lia.
    unfold PAGE_SIZE in *. replace (size + 4096 - 1) with (size + 4095) in * by lia.
    destruct ((addr / 4096 <=? q) && (q <? addr / 4096 + u32 (size + 4095) / 4096) && (q <? pmm_total s)) eqn:E; [done|].
    split; [lia|]. lia. }
  split; [|exact Hf]. split; [done|]. destruct (page_free (pmm_mark_used s addr size) 0) eqn:E; [|done].
  apply Hf in E as [E _]. congruence.
Qed.

(** The pages a reservation of [size] bytes at [addr] takes: as many as [size]
    bytes fill, from the page of [addr] on. *)
Definition reserved (addr size q : Z) : Prop := addr / 4096 <= q < addr / 4096 + u32 (size + 4095) / 4096.

(** The allocator after [pmm_init] and the two reservations of [kmain]. *)
Definition first_pages (rs : list boot_mem_region) (md : option (Z * Z)) (info size : Z) : pmm :=
  let p := pmm_init rs in
  let p := match md with Some (a, b) => pmm_mark_used p a (u32 (b - a)) | None => p end in
  pmm_mark_used p info size.

(** The pages left over for allocation. *)
Definition left_over (rs : list boot_mem_region) (md : option (Z * Z)) (info size q : Z) : Prop :=
  1024 <= q /\ page_released rs q /\ ~ reserved info size q /\
  match md with Some (a, b) => ~ reserved a (u32 (b - a)) q | None => True end.

Lemma first_pages_spec rs md info size : rs <> [] -> 0 <= info -> match md with Some (a, _) => 0 <= a | None => True end ->
  pmm_client_ok (first_pages rs md info size) /\
  forall q, page_free (first_pages rs md info size) q = true -> left_over rs md info size q.
Proof.
  intros Hne Hi Hmd. pose proof (boot_client_ok rs) as Hc. destruct (init_regions_spec rs Hne) as [_ Hf].
  unfold first_pages, left_over, reserved. destruct md as [[a b]|].
  - destruct (mark_used_client (pmm_init rs) a (u32 (b - a)) Hc Hmd) as [Hc1 Hf1].
    destruct (mark_used_client _ info size Hc1 Hi) as [Hc2 Hf2]. split; [exact Hc2|].
    intros q [[Hq Hn]%Hf1 Hn']%Hf2. apply Hf in Hq as [? ?]. done.
  - destruct (mark_used_client _ info size Hc Hi) as [Hc2 Hf2]. split; [exact Hc2|].
    intros q [Hq Hn']%Hf2. apply Hf in Hq as [? ?]. done.
Qed.

(** A heap on top of the first page tables, [p] the allocator and [m] the memory
    before them. *)
Record heap_up (p : pmm) (m : mem) (h : heap pmm) : Prop := {
  hu_ok : exists bs, heap_ok h bs;
  hu_low x : x < HEAP_START -> x < PAGE_DIR_ADDR \/ PAGE_DIR_ADDR + 0x3000 <= x -> rd8 (h_mem h) x = rd8 m x;
  hu_dir : rd32 (h_mem h) PAGE_DIR_ADDR = 0x301000 + 3;
  hu_free q : page_free (h_pages h) q = true -> page_free p q = true
}.

Lemma heap_up_step p m h h' bs' : heap_up p m h -> heap_ok h' bs' ->
  (forall x, x < HEAP_START -> rd8 (h_mem h') x = rd8 (h_mem h) x) ->
  (forall q, page_free (h_pages h') q = true -> page_free (h_pages h) q = true) -> heap_up p m h'.
Proof.
  intros [Hok Hl Hd Hf] Hok' Hx Hp. split; [by exists bs'| | |auto].
  - intros x H1 H2. rewrite Hx by done. by apply Hl.
  - rewrite (rd32_same (h_mem h)); [exact Hd|]. intros i Hi. apply Hx. unfold PAGE_DIR_ADDR, HEAP_START. lia.
Qed.

Lemma grew_free (h h' : heap pmm) q : grew h h' -> page_free (h_pages h') q = true -> page_free (h_pages h) q = true.
Proof. intros [_ Hg]. destruct (Hg q) as [E _]. cbn in E. rewrite E. intros Hq. by apply andb_prop in Hq as [? _]. Qed.

Lemma heap_up_init p v : pmm_client_ok p -> (forall q, page_free p q = true -> 1024 <= q) ->
  heap_up p (v_mem v) (heap_init (mk_heap (vmm_init v) p 0 HEAP_START)).
Proof.
  intros Hc Hf. destruct (vmm_init_tables v) as (Hd0 & Hd & _ & Ht). set (h := mk_heap _ _ _ _).
  assert (Ha : arena_ok h).
  { split; cbn [h heap_end h_pages h_vmm]; [unfold HEAP_START, HEAP_MAX; lia|done|exact Hc| |split; [exact Hd|exact Ht]].
    intros q Hq. change (page_free p q = false). destruct (page_free p q) eqn:E; [|done]. apply Hf in E. unfold HEAP_START in Hq. lia. }
  destruct (heap_init_ok h Ha eq_refl eq_refl) as (bs & Hok & _ & Hg). split.
  - by exists bs.
  - intros x H1 H2. rewrite heap_init_frame by done. by apply vmm_init_frame.
  - rewrite (rd32_same (v_mem (vmm_init v))); [exact Hd0|]. intros i Hi. apply heap_init_frame; [exact Ha|]. unfold PAGE_DIR_ADDR, HEAP_START. lia.
  - intros q. by apply (grew_free h).
Qed.

Lemma heap_up_kmalloc p m h size : heap_up p m h -> is_u32 size ->
  exists h' a, kmalloc h size = Some (h', a) /\ heap_up p m h' /\ (a <> 0 -> exists bs z, heap_ok h' bs /\ (a, z) ∈ Heap.live bs).
Proof.
  intros Hu Hs. destruct (hu_ok _ _ _ Hu) as [bs Hok].
  destruct (kmalloc_spec h bs size Hok Hs) as (h' & a & E & Hr). exists h', a. split; [exact E|].
  destruct Hr as [(-> & Hok' & Hx & Hg & _)|(bs' & [Hok' Hk _ (z & _ & Hl) Hg])]; (split; [|]).
  - eapply heap_up_step; [done|exact Hok'|auto|intros q; by apply grew_free].
  - done.
  - eapply heap_up_step; [done|exact Hok'|intros x Hx; apply Hk; by left|intros q; by apply grew_free].
  - intros _. exists bs', z. split; [done|]. rewrite Hl. apply list_elem_of_here.
Qed.

Lemma heap_up_kfree p m h bs a z : heap_up p m h -> heap_ok h bs -> (a, z) ∈ Heap.live bs -> heap_up p m (kfree h a).
Proof.
  intros Hu Hok Hl. destruct (kfree_live h bs a z Hok Hl) as (bs' & Hok' & _ & Hk & _).
  eapply heap_up_step; [done|exact Hok'|intros x Hx; apply Hk; by left|done].
Qed.

(** ** The block of the boot loader *)

(** A Multiboot2 block at [a] with the memory map [rs], the module [md] and the
    command line [line]. *)
Record boot_block (m : mem) (a : Z) (ts : list BootInfo.tag) (pad : nat) (rs : list boot_mem_region) (md : option (Z * Z)) (line : option (list Z)) : Prop := {
  bb_tags : Forall tag_ok ts;
  bb_addr : 0 < a;
  bb_bytes : holds m a (mbi_bytes ts);
  bb_fit : a + zlen (mbi_bytes ts) + 24 + Z.of_nat pad < 2 ^ 32;
  bb_map : first_tag ts MB2_TAG_MMAP = Some (mmap_tag pad rs) /\ Forall region_ok rs /\ rs <> [];
  bb_module : match md with
    | Some (s, e) => is_u32 s /\ is_u32 e /\ exists name, first_tag ts MB2_TAG_MODULE = Some (module_tag s e name)
    | None => first_tag ts MB2_TAG_MODULE = None
    end;
  bb_line : match line with
    | Some s => first_tag ts MB2_TAG_CMDLINE = Some (cmdline_tag s) /\ 0 ∉ s /\ Forall (fun c => 0 <= c < 256) s /\ zlen s < 2 ^ 31 - 1
    | None => first_tag ts MB2_TAG_CMDLINE = None
    end
}.

(** Is Safe Mode asked for on the command line (its first 127 characters)? *)
Definition asks_safemode (line : option (list Z)) : bool :=
  match line with Some s => bool_decide (cstr "safemode" ∈ words (take 127 s)) | None => false end.

Lemma block_same m m' a ts pad rs md line : boot_block m a ts pad rs md line ->
  (forall x, a <= x < a + zlen (mbi_bytes ts) -> rd8 m' x = rd8 m x) -> boot_block m' a ts pad rs md line.
Proof.
  intros [] Hx. constructor; try done. intros i b E. rewrite Hx; [by apply bb_bytes0|].
  apply lookup_lt_Some in E. unfold zlen. lia.
Qed.

Lemma block_reads m a ts pad rs md line : boot_block m a ts pad rs md line ->
  boot_get_memory_map m a 64 = Some (Some (take 64 rs)) /\ multiboot2_find_module m a = Some md /\
  boot_has_flag m a (cstr "safemode") = Some (asks_safemode line) /\ rd32 m a = zlen (mbi_bytes ts).
Proof.
  intros [Hts Ha Hm Hfit (Hmap & Hrs & _) Hmd Hl]. assert (Hf : a + zlen (mbi_bytes ts) + 8 < 2 ^ 32) by lia.
  destruct (nothing_run m a ts Hts Ha Hm Hf) as (_ & N2 & N3). split_and!.
  - by apply (mmap_run m a ts Hts Ha Hm Hf pad).
  - assert (E : boot_get_module m a = multiboot2_find_module m a) by (unfold boot_get_module; by replace (a =? 0) with false by lia).
    rewrite <- E. destruct md as [[s e]|]; [|by apply N3]. destruct Hmd as (Hs & He & name & Ht). by apply (module_run m a ts Hts Ha Hm Hf s e name).
  - unfold boot_has_flag. rewrite decide_False by done. destruct line as [s|].
    + destruct Hl as (Ht & H0 & Hs & Hz). rewrite (cmdline_run m a ts Hts Ha Hm Hf s 128) by done. cbn [mbind option_bind].
      change (Z.to_nat (128 - 1)) with 127%nat. f_equal. by apply has_word_spec.
    + by rewrite (N2 Hl).
  - destruct (block_size m a ts Hm) as [E|]; [exact E|lia].
Qed.

(** ** The first half of the boot *)

Section front.
Context {D : Type} `{BlockDevice D} `{Machine} {Dv : Type} `{PicLike Dv} `{Link}.
Local Notation B := (bsys (D:=D) (Dv:=Dv)).

(** The kernel as it was, but for its memory and what it printed. *)
Record front (k0 : kernel D) (m : mem) (b : B) : Prop := {
  fr_heap : k_heap b.1 = set_mem (k_heap k0) m;
  fr_vfs : k_vfs b.1 = k_vfs k0;
  fr_fds : k_fds b.1 = k_fds k0;
  fr_cfg : k_cfg b.1 = k_cfg k0;
  fr_counters : (k_ready b.1, k_index b.1, k_ticks b.1) = (k_ready k0, k_index k0, k_ticks k0);
  fr_boot_up : k_boot_up b.1 = k_boot_up k0
}.

Lemma front_mem k0 m b : front k0 m b -> k_mem b.1 = m.
Proof. intros Hf. unfold k_mem. by rewrite (fr_heap _ _ _ Hf). Qed.

Lemma front_start k i : front k (k_mem k) (k, i).
Proof. constructor; try done. cbn [fst]. symmetry. apply set_mem_id. Qed.

Lemma wp_out l (Q : () -> B -> Prop) k0 m b :
  front k0 m b -> (forall b', front k0 m b' -> b'.2 = b.2 -> Q () b') -> wp (out l) Q b.
Proof. intros [E1 E2 E3 E4 E5 E6] HQ. apply wp_zoom, wp_modify. by apply HQ. Qed.

Lemma wp_intr (c : cM (isys Dv) ()) (Q : () -> B -> Prop) k0 m b i' :
  front k0 m b -> c (put_imem m b.2) = Some ((), i') ->
  (forall b', front k0 (i_mem i') b' -> b'.2 = i' -> Q () b') -> wp (intr c) Q b.
Proof.
  intros Hf E HQ. unfold intr, wp, zoom. rewrite (front_mem _ _ _ Hf), E. destruct Hf as [E1 E2 E3 E4 E5 E6].
  apply HQ; [|done]. constructor; try done. cbn [fst]. unfold put_mem. cbn [k_heap put_heap]. by rewrite E1.
Qed.

Definition tables_loaded (i : isys Dv) : Prop :=
  i_gdtr i = (8 * GDT_ENTRIES - 1, gdt_addr) /\ i_idtr i = (8 * IDT_SIZE - 1, IDT_ADDRESS) /\ i_tr i = SEG_TSS.

Lemma interrupts_front k0 m b : front k0 m b -> ready (i_dev b.2) ->
  wp boot_interrupts (fun _ b' => front k0 (idt_mem (gdt_mem m)) b' /\ tables_loaded b'.2 /\ exists m1 m2, lines m1 m2 (i_dev b'.2)) b.
Proof.
  intros Hf Hr. unfold boot_interrupts. apply wp_bind. eapply wp_out; [done|]. intros b1 F1 E1. apply wp_bind.
  eapply wp_intr; [exact F1|rewrite E1; apply gdt_init_run|]. cbn [i_mem put_imem i_dev i_gdtr i_idtr i_tr i_handlers i_freq]. intros b2 F2 E2.
  apply wp_bind. eapply wp_out; [exact F2|]. intros b3 F3 E3. apply wp_bind. eapply wp_out; [exact F3|]. intros b4 F4 E4.
  rewrite E3, E2 in E4. clear E3 E2 F1 F2 F3 b1 b2 b3 E1.
  set (s4 := put_imem (gdt_mem m) b4.2).
  destruct (pic_init_talks s4) as (d5 & R5 & T5). destruct (mask_from_talks 16 0 ltac:(lia) ltac:(lia) (put_idev d5 s4)) as (d6 & R6 & T6).
  assert (Hr4 : ready (i_dev s4)) by (unfold s4; rewrite E4; exact Hr). destruct (T5 Hr4) as [Hr5 Hc5].
  assert (Hl6 : lines 255 255 d6).
  { specialize (T6 (c_imr (chip_of false (i_dev s4))) (c_imr (chip_of true (i_dev s4)))). change (Z.of_nat 16) with 16 in T6.
    rewrite mask_all_16 in T6 by apply chip_mask. apply T6.
    constructor; [exact Hr5|intros x; cbn [i_dev put_idev]; rewrite Hc5; by destruct x|intros x; cbn [i_dev put_idev]; rewrite Hc5; by destruct x]. }
  apply wp_bind. eapply wp_intr; [exact F4|eapply bind_run; [exact R5|exact R6]|]. unfold s4. cbn [i_mem put_imem put_idev]. rewrite E4.
  cbn [i_dev i_gdtr i_idtr i_tr i_handlers i_freq put_idev put_imem]. intros b7 F7 E7.
  apply wp_bind. eapply wp_out; [exact F7|]. intros b8 F8 E8. apply wp_bind. eapply wp_out; [exact F8|]. intros b9 F9 E9. rewrite E8, E7 in E9.
  apply wp_bind. eapply wp_intr; [exact F9|apply idt_init_run|]. rewrite E9. cbn [i_mem put_imem i_dev i_gdtr i_idtr i_tr i_handlers i_freq put_idev].
  intros b10 F10 E10. apply wp_bind. eapply wp_out; [exact F10|]. intros b11 F11 E11. apply wp_bind. eapply wp_out; [exact F11|]. intros b12 F12 E12.
  rewrite E11, E10 in E12.
  destruct (timer_init_run (put_imem (idt_mem (gdt_mem m)) b12.2) 255 255) as (d13 & R13 & Hl13); [rewrite E12; exact Hl6|].
  apply wp_bind. eapply wp_intr; [exact F12|exact R13|]. rewrite E12. cbn [i_mem put_imem i_dev i_gdtr i_idtr i_tr i_handlers i_freq].
  intros b14 F14 E14. apply wp_bind. eapply wp_out; [exact F14|]. intros b15 F15 E15. apply wp_bind. eapply wp_out; [exact F15|]. intros b16 F16 E16.
  rewrite E15, E14 in E16.
  destruct (open_line 33 keyboard_callback 1 (put_imem (idt_mem (gdt_mem m)) b16.2) _ _ ltac:(lia) ltac:(rewrite E16; exact Hl13)) as (d17 & R17 & Hl17).
  apply wp_bind. eapply wp_intr; [exact F16|exact R17|]. rewrite E16. cbn [i_mem put_imem i_dev i_gdtr i_idtr i_tr i_handlers i_freq].
  intros b18 F18 E18. eapply wp_out; [exact F18|]. intros b19 F19 E19. rewrite E18 in E19. rewrite E19.
  split; [exact F19|]. split; [by split_and!|]. cbn [i_dev]. eauto.
Qed.

Lemma disk_front k0 m b m1 m2 channel : front k0 m b -> tables_loaded b.2 -> lines m1 m2 (i_dev b.2) ->
  wp (boot_disk channel) (fun _ b' => front k0 m b' /\ tables_loaded b'.2) b.
Proof.
  intros Hf Ht Hl. unfold boot_disk. apply wp_bind. eapply wp_out; [exact Hf|]. intros b1 F1 E1.
  destruct channel as [c|].
  - destruct (ata_irq_init_run c (put_imem m b1.2) m1 m2) as (d2 & R2 & _); [rewrite E1; exact Hl|].
    apply wp_bind. eapply wp_intr; [exact F1|exact R2|]. rewrite E1. cbn [i_mem put_imem i_gdtr i_idtr i_tr]. intros b3 F3 E3.
    eapply wp_out; [exact F3|]. intros b4 F4 E4. split; [exact F4|]. rewrite E4, E3. exact Ht.
  - eapply wp_out; [exact F1|]. intros b2 F2 E2. split; [exact F2|]. by rewrite E2, E1.
Qed.

Lemma wp_kern {A} (c : cM (kernel D) A) (Q : A -> B -> Prop) b : wp c (fun r k => Q r (k, b.2)) b.1 -> wp (kern c) Q b.
Proof. intros Hw. apply (wp_zoom fst (fun k b => (k, b.2))). exact Hw. Qed.

(** ** The decision *)

Lemma cfg_only_trans (k k1 k2 : kernel D) :
  k1 = put_cfg_view (cfg_view k1) k -> k2 = put_cfg_view (cfg_view k2) k1 -> k2 = put_cfg_view (cfg_view k2) k.
Proof. intros E1 E2. rewrite E2, E1. reflexivity. Qed.

Lemma cfg_only_refl (k : kernel D) : k = put_cfg_view (cfg_view k) k.
Proof. destruct k as [? [? [] ?] ? ? ? ? [? ? ? ? []]]. reflexivity. Qed.

(** A computation that changes nothing but the configuration and the disk. *)
Definition cfg_only {A} (c : cM (kernel D) A) : Prop := forall k r k', c k = Some (r, k') -> k' = put_cfg_view (cfg_view k') k.

Lemma only_ret {A} (a : A) : cfg_only (mret a).
Proof. intros k r k' [= _ <-]. apply cfg_only_refl. Qed.
Lemma only_bind {A C} (c : cM (kernel D) A) (f : A -> cM (kernel D) C) : cfg_only c -> (forall a, cfg_only (f a)) -> cfg_only (c ≫= f).
Proof.
  intros Hc Hf k r k' E. unfold mbind, cM_bind in E. destruct (c k) as [[a k1]|] eqn:E1; [|done].
  eapply cfg_only_trans; [by eapply Hc|by eapply Hf].
Qed.
Lemma only_cfg {A} (c : cM (cfgst D) A) : cfg_only (on_cfg c).
Proof.
  intros k r k' E. unfold on_cfg, zoom in E. destruct (c (cfg_view k)) as [[a c']|]; [|done]. injection E as _ <-. reflexivity.
Qed.
Lemma only_flag info flag : cfg_only (has_flag info flag).
Proof. intros k r k' E. unfold has_flag in E. destruct (boot_has_flag _ _ _); [|done]. injection E as _ <-. apply cfg_only_refl. Qed.

Lemma only_decide ok info : cfg_only (boot_decide ok info).
Proof.
  unfold boot_decide. repeat first [apply only_bind; [|intros ?] | apply only_ret | apply only_cfg | apply only_flag | case_match].
Qed.

(** ** Memory and services *)

(** The parts of the state the memory managers do not touch. *)
Definition rest (k : kernel D) := (v_pipes (k_vfs k), k_fds k, k_ready k, k_index k, k_ticks k).

Lemma wp_say l (Q : () -> B -> Prop) b :
  (forall k', k_heap k' = k_heap b.1 -> rest k' = rest b.1 -> Q () (k', b.2)) -> wp (out l) Q b.
Proof. intros HQ. apply wp_kern, wp_modify. by apply HQ. Qed.

Lemma wp_new_heap (f : heap pmm -> heap pmm) (Q : () -> B -> Prop) b :
  (forall k', k_heap k' = f (k_heap b.1) -> rest k' = rest b.1 -> Q () (k', b.2)) ->
  wp (kern (modify (fun k => put_heap (f (k_heap k)) k))) Q b.
Proof. intros HQ. apply wp_kern, wp_modify. by apply HQ. Qed.

Lemma memory_up (b : B) m a ts pad rs md line : boot_block m a ts pad rs md line -> k_mem b.1 = m ->
  heap_start_ptr (k_heap b.1) = 0 -> heap_end (k_heap b.1) = HEAP_START ->
  wp (boot_memory a a md) (fun _ b' => b'.2 = b.2 /\ rest b'.1 = rest b.1 /\
    heap_up (first_pages (take 64 rs) md a (zlen (mbi_bytes ts))) m (k_heap b'.1)) b.
Proof.
  intros Hb Hm Hs He. destruct (block_reads _ _ _ _ _ _ _ Hb) as (R1 & _ & _ & R4). unfold boot_memory, k_vmm_init, k_heap_init.
  apply wp_bind, wp_say. intros k1 H1' F1. apply wp_bind, wp_say. intros k2 H2' F2. apply wp_bind, wp_kern. cbn [fst snd] in *.
  unfold wp at 1, boot_pmm. unfold k_mem at 1 2. rewrite H2', H1'. fold (k_mem b.1). rewrite Hm, R1, R4. cbn [default from_option id].
  fold (first_pages (take 64 rs) md a (zlen (mbi_bytes ts))). set (p := first_pages _ _ _ _). rewrite Hs, He.
  apply wp_bind, wp_kern, wp_gets. cbn [fst snd]. apply wp_bind, wp_say. intros k3 H3' F3. cbn [fst snd k_heap put_heap] in H3', F3.
  change (rest (put_heap _ k2)) with (rest k2) in F3.
  apply wp_bind, wp_say. intros k4 H4 F4. apply wp_bind.
  apply (wp_new_heap (fun h => mk_heap (vmm_init (h_vmm h)) (h_pages h) (heap_start_ptr h) (heap_end h))). intros k5 H5 F5.
  apply wp_bind, wp_kern, wp_gets. apply wp_bind, wp_say. intros k6 H6 F6. apply wp_bind, wp_say. intros k7 H7 F7.
  apply wp_bind. apply (wp_new_heap heap_init). intros k8 H8 F8. apply wp_say. intros k9 H9 F9. cbn [fst snd] in *.
  rewrite H9, H8, H7, H6, H5, H4, H3'. cbn [h_vmm h_pages heap_start_ptr heap_end].
  split; [done|]. split; [congruence|].
  assert (Hne : take 64 rs <> []) by (destruct Hb as [_ _ _ _ (_ & _ & Hne) _ _]; by destruct rs).
  destruct (first_pages_spec (take 64 rs) md a (zlen (mbi_bytes ts)) Hne) as [Hc Hf].
  { pose proof (bb_addr _ _ _ _ _ _ _ Hb). lia. }
  { pose proof (bb_module _ _ _ _ _ _ _ Hb) as Hmd. destruct md as [[? ?]|]; [|done]. destruct Hmd as ([? _] & _). done. }
  rewrite <- Hm. apply heap_up_init; [exact Hc|]. intros q Hq. by apply Hf in Hq as [? _].
Qed.

Lemma load_fat_total start n : forall sec acc (v : volume D), exists r v', load_fat start sec n acc v = Some (r, v').
Proof.
  induction n as [|n IH]; intros sec acc v; [by eexists _, _|]. cbn [load_fat]. unfold mbind, cM_bind, block_read_sector.
  destruct (bd_read _ _) as [[buf|] d]; [apply IH|by eexists _, _].
Qed.

Lemma fat16_init_total alloc (v : volume D) : exists r v', fat16_init alloc v = Some (r, v').
Proof.
  unfold fat16_init, mbind, cM_bind, modify, block_read_sector. destruct (bd_read _ _) as [[b|] d]; [|by eexists _, _].
  repeat (case_match; try by eexists _, _).
  all: repeat match goal with
    | E : load_fat ?st ?sec ?n ?acc ?v = None |- _ => destruct (load_fat_total st n sec acc v) as (? & ? & ?); congruence
    | E : Some _ = Some _ |- _ => injection E as <- <- || clear E
    end; try by eexists _, _.
Qed.

Lemma fat_up p m k : heap_up p m (k_heap k) -> wp k_fat16_init (fun _ k' => rest k' = rest k /\ heap_up p m (k_heap k')) k.
Proof.
  intros Hu. unfold k_fat16_init. apply wp_bind, wp_gets, wp_bind.
  eapply (wp_mono _ (fun a k1 => rest k1 = rest k /\ heap_up p m (k_heap k1) /\
    (a <> 0 -> exists bs z, heap_ok (k_heap k1) bs /\ (a, z) ∈ Heap.live bs))).
  { destruct (fat_request _) as [size|] eqn:Er; [|by apply wp_ret]. assert (Hs : is_u32 size).
    { unfold fat_request in Er. repeat case_match; try done. injection Er as <-. apply Z.mod_pos_bound. lia. }
    destruct (heap_up_kmalloc p m (k_heap k) size Hu Hs) as (h' & a & E & Hu' & Hl). unfold wp, k_kmalloc. by rewrite E. }
  cbv beta. intros a k1 (F1 & Hu1 & Hl). apply wp_bind.
  eapply (wp_mono _ (fun _ k2 => rest k2 = rest k1 /\ k_heap k2 = k_heap k1)).
  { apply wp_zoom, wp_zoom. destruct (fat16_init_total (fun _ => a) (v_fat (k_vfs k1))) as (r & v' & E). unfold wp. by rewrite E. }
  cbv beta. intros ok k2 [F2 E2]. destruct (negb (a =? 0) && negb ok) eqn:Eb; [|apply wp_ret; split; [congruence|by rewrite E2]].
  apply andb_prop in Eb as [Ea _]. destruct (Hl ltac:(lia)) as (bs & z & Hok & Hin). apply wp_bind, wp_modify, wp_ret.
  split; [exact (eq_trans F2 F1)|]. cbn [k_heap put_heap]. rewrite E2. by eapply heap_up_kfree.
Qed.

Lemma services_up p m (b : B) : heap_up p m (k_heap b.1) ->
  wp boot_services (fun _ b' => b'.2 = b.2 /\ rest b'.1 = rest (put_sched (scheduler_init (k_sched b.1)) b.1) /\ heap_up p m (k_heap b'.1)) b.
Proof.
  intros Hu. unfold boot_services. apply wp_bind, wp_say. intros k1 E1 F1. apply wp_bind, wp_kern, wp_modify.
  assert (Hs : rest (put_sched (scheduler_init (k_sched k1)) k1) = rest (put_sched (scheduler_init (k_sched b.1)) b.1)).
  { unfold rest, put_sched, put_counters, put_tab, k_sched, tab in *. cbn in F1 |- *. injection F1 as -> -> _ _ ->. done. }
  apply wp_bind, wp_say. intros k2 E2 F2. apply wp_bind, wp_say. intros k3 E3 F3. apply wp_bind, wp_kern. cbn [fst snd] in *.
  eapply wp_mono; [apply (fat_up p m)|]. { by rewrite E3, E2, <- E1 in *. }
  cbv beta. intros mounted k4 [F4 Hu4]. apply wp_bind, wp_say. intros k5 E5 F5. apply wp_bind, wp_say. intros k6 E6 F6.
  apply wp_bind, wp_kern, wp_modify, wp_bind, wp_kern, wp_gets, wp_say. cbn [fst snd] in *. intros k7 E7 F7.
  change (k_heap (put_pci _ k6)) with (k_heap k6) in E7. change (rest (put_pci _ k6)) with (rest k6) in F7.
  split; [done|]. split; [congruence|]. by rewrite E7, E6, E5.
Qed.

(** ** The whole of it *)

(** The statics of the kernel as the linker leaves them. *)
Record fresh (k : kernel D) : Prop := {
  fk_start : heap_start_ptr (k_heap k) = 0;
  fk_end : heap_end (k_heap k) = HEAP_START;
  fk_fds : k_fds k = replicate 16 (replicate 8 blank_fd);
  fk_pipes : pipe_table (v_pipes (k_vfs k)) = replicate 8 blank_pipe;
  fk_tab : tab k = mk_ptable (replicate 16 blank_process) None 0;
  fk_ticks : k_ticks k = 0;
  fk_cfg : g_available (k_cfg k) = false
}.

(** The descriptor tables lie below the heap, outside the page tables and
    outside the block of [size] bytes at [a]. *)
Definition placed (a size : Z) : Prop := forall x, in_tables x ->
  x < HEAP_START /\ (x < PAGE_DIR_ADDR \/ PAGE_DIR_ADDR + 0x3000 <= x) /\ (x < a \/ a + size <= x).

Record handed_over (rs : list boot_mem_region) (md : option (Z * Z)) (a size : Z) (b : B) : Prop := {
  ov_heap : exists bs, heap_ok (k_heap b.1) bs;
  ov_dir : kernel_dir_ok (h_pages (k_heap b.1)) (k_mem b.1);
  ov_free q : page_free (h_pages (k_heap b.1)) q = true -> left_over rs md a size q;
  ov_sched : k_sched b.1 = boot_sched;
  ov_fds : fds_closed b.1;
  ov_tables : tables_read (k_mem b.1);
  ov_loaded : tables_loaded b.2
}.

Lemma heap_up_over rs md a size m0 b k : link_ok -> placed a size -> rs <> [] -> 0 <= a -> match md with Some (s, _) => 0 <= s | None => True end ->
  heap_up (first_pages rs md a size) (idt_mem (gdt_mem m0)) (k_heap b.1) -> fresh k -> tables_loaded b.2 ->
  rest b.1 = rest (put_sched (scheduler_init (k_sched k)) k) -> handed_over rs md a size b.
Proof.
  intros Hlk Hpl Hne Ha Hmd [Hok Hl Hd Hf] Hk Ht Hr. destruct (first_pages_spec rs md a size Hne Ha Hmd) as [_ Hfp].
  assert (Hfree : forall q, page_free (h_pages (k_heap b.1)) q = true -> left_over rs md a size q) by auto.
  assert (Hs : k_sched b.1 = boot_sched).
  { unfold rest, k_sched, tab in *. cbn in Hr. injection Hr as -> _ -> -> ->. unfold boot_sched, scheduler_init.
    cbn [s_tab ticks k_tab set_tab]. fold (tab k). by rewrite (fk_tab _ Hk), (fk_ticks _ Hk). }
  split; try done.
  - apply kernel_dir_words; [|exact Hd|].
    + intros q Hq. change (page_free (h_pages (k_heap b.1)) q = false). destruct (page_free _ q) eqn:E; [|done]. apply Hfree in E as [? _]. lia.
    + destruct Hok as [bs [_ _ [_ _ _ _ [Hm _]]]]. exact Hm.
  - assert (Et : tab b.1 = s_tab boot_sched) by (by rewrite <- Hs). unfold rest in Hr. cbn in Hr. injection Hr as Ep Ef _ _ _. split.
    + by rewrite Ef, (fk_fds _ Hk).
    + rewrite Ep. cbn. apply (fk_pipes _ Hk).
    + by rewrite Et.
    + rewrite Et. by intros c [=].
  - apply (tables_mem_read m0); [exact Hlk|]. intros x Hx. destruct (Hpl x Hx) as (? & ? & _). by apply Hl.
Qed.

(** What the boot decides; without a disk it never enters Safe Mode. *)
Definition verdict (channel : option Z) (line : option (list Z)) (p : policy) : option safemode_reason :=
  match channel with Some _ => choice (asks_safemode line) p | None => None end.

Lemma decide_front k0 m b channel a line p : front k0 m b -> g_available (k_cfg k0) = false ->
  boot_has_flag m a (cstr "safemode") = Some (asks_safemode line) ->
  (is_Some channel -> disk_holds (k_disk k0) p /\ 0 <= po_fails p < 2 ^ 32 - 1) ->
  wp (boot_decide (bool_decide (is_Some channel)) a) (fun o k' => o = (fun r => (r, po_fails p)) <$> verdict channel line p /\
    k_heap k' = k_heap b.1 /\ rest k' = rest b.1) b.1.
Proof.
  intros Hf Hav Hreq Hd.
  assert (Hfr : forall o k', boot_decide (bool_decide (is_Some channel)) a b.1 = Some (o, k') -> k_heap k' = k_heap b.1 /\ rest k' = rest b.1).
  { intros o k' E. apply only_decide in E. rewrite E. done. }
  assert (Hw : wp (boot_decide (bool_decide (is_Some channel)) a) (fun o _ => o = (fun r => (r, po_fails p)) <$> verdict channel line p) b.1).
  { destruct channel as [c|].
    - destruct (Hd ltac:(eauto)) as [Hdk Hp]. rewrite bool_decide_true by eauto. eapply wp_mono.
      + apply (boot_decide_holds b.1 p a (asks_safemode line)); [|exact Hp|by rewrite (front_mem _ _ _ Hf)].
        unfold k_disk in *. by rewrite (fr_vfs _ _ _ Hf).
      + cbv beta. intros o k' (p' & (E & En & _) & _). unfold verdict. rewrite <- E. destruct o as [[r n]|]; [|done]. cbn. by rewrite (En r n eq_refl).
    - rewrite bool_decide_false by (intros [? [=]]). unfold boot_decide. apply wp_bind, wp_ret, wp_bind, wp_cfg_gets.
      unfold cfg_view. cbn [g_available]. by rewrite (fr_cfg _ _ _ Hf), Hav. }
  unfold wp in *. destruct (boot_decide _ a b.1) as [[o k']|]; [|done]. split; [exact Hw|by eapply Hfr].
Qed.

(** C6 (boot).  From the state the boot loader and the linker leave, with any
    well-formed Multiboot2 block, with or without a disk, [kmain] gets to its
    decision, which is that of the policy; on a normal boot it gets to the loading
    of the first program, and every invariant the running kernel depends on holds
    there: the heap's block list, the kernel's page directory, an allocator whose
    free pages are usable pages of the memory map outside the reservations, the
    scheduler's initial state, closed descriptors and pipes; and the descriptor
    tables are still in memory and loaded. *)
Theorem boot_hands_over (k : kernel D) (i : isys Dv) (channel : option Z) (a : Z) (ts : list BootInfo.tag) (pad : nat)
    (rs : list boot_mem_region) (md : option (Z * Z)) (line : option (list Z)) (p : policy) :
  link_ok -> ready (i_dev i) -> placed a (zlen (mbi_bytes ts)) -> fresh k -> boot_block (k_mem k) a ts pad rs md line ->
  (is_Some channel -> disk_holds (k_disk k) p /\ 0 <= po_fails p < 2 ^ 32 - 1) ->
  exists r b, boot_front channel MULTIBOOT2_BOOT_MAGIC a (k, i) = Some (r, b) /\
    match verdict channel line p with
    | Some reason => r = inl (EnterSafeMode reason (po_fails p))
    | None => r = inr md /\ handed_over (take 64 rs) md a (zlen (mbi_bytes ts)) b
    end.
Proof.
  intros Hlk Hr Hpl Hk Hb Hd. apply wp_run. unfold boot_front. apply wp_bind. eapply wp_out; [apply front_start|]. intros b1 F1 E1.
  unfold hal_boot_init. rewrite Z.eqb_refl. cbn [negb]. change (0 <? 0) with false. cbv iota beta zeta.
  apply wp_bind. eapply wp_out; [exact F1|]. intros b2 F2 E2. apply wp_bind, wp_kern. unfold wp at 1, find_module.
  rewrite (front_mem _ _ _ F2). destruct (block_reads _ _ _ _ _ _ _ Hb) as (_ & R2 & _ & _). rewrite R2.
  rewrite <- (surjective_pairing b2). apply wp_bind. eapply wp_out; [exact F2|]. intros b3 F3 E3. apply wp_bind.
  eapply wp_mono; [apply (interrupts_front k (k_mem k) b3 F3); by rewrite E3, E2, E1|]. cbv beta. intros _ b4 (F4 & T4 & m1 & m2 & L4).
  apply wp_bind. eapply wp_mono; [by apply (disk_front k _ b4 m1 m2 channel F4)|]. cbv beta. intros _ b5 (F5 & T5).
  assert (Hb' : boot_block (idt_mem (gdt_mem (k_mem k))) a ts pad rs md line).
  { eapply block_same; [exact Hb|]. intros x Hx. apply tables_mem_outside; [done|]. intros Hin. destruct (Hpl x Hin) as (_ & _ & ?). lia. }
  destruct (block_reads _ _ _ _ _ _ _ Hb') as (_ & _ & R3 & _).
  apply wp_bind, wp_kern. eapply wp_mono; [apply (decide_front k _ b5 channel a line p F5 (fk_cfg _ Hk) R3 Hd)|]. cbv beta.
  intros o k6 (-> & E6 & F6). destruct (verdict channel line p) as [reason|]; [by apply wp_ret|]. cbn [fmap option_fmap option_map].
  apply wp_bind. eapply wp_mono; [eapply (memory_up (k6, b5.2)); [exact Hb'| | |]|]; cbn [fst snd].
  { unfold k_mem. by rewrite E6, (fr_heap _ _ _ F5). }
  { rewrite E6, (fr_heap _ _ _ F5). apply (fk_start _ Hk). }
  { rewrite E6, (fr_heap _ _ _ F5). apply (fk_end _ Hk). }
  intros _ b7 (E7 & F7 & Hu). apply wp_bind. eapply wp_mono; [eapply services_up; exact Hu|]. cbv beta. intros _ b8 (E8 & F8 & Hu8).
  apply wp_ret. split; [done|]. pose proof (bb_addr _ _ _ _ _ _ _ Hb) as Ha. pose proof (bb_module _ _ _ _ _ _ _ Hb) as Hmd.
  destruct (bb_map _ _ _ _ _ _ _ Hb) as (_ & _ & Hne).
  eapply (heap_up_over _ _ _ _ (k_mem k) b8 k); [done|done|by destruct rs|lia| |exact Hu8|done|by rewrite E8, E7|].
  { destruct md as [[? ?]|]; [|done]. by destruct Hmd as ([? _] & _). }
  rewrite F8. assert (Er : rest b7.1 = rest k).
  { rewrite F7, F6. unfold rest. rewrite (fr_vfs _ _ _ F5), (fr_fds _ _ _ F5). pose proof (fr_counters _ _ _ F5) as Ec. congruence. }
  unfold rest, put_sched, put_counters, put_tab, k_sched, tab in *. cbn in Er |- *. injection Er as -> -> _ _ ->. done.
Qed.
End front.

(** ** Example: a first boot with a disk *)

Definition first_tags : list BootInfo.tag := [module_tag 0x500000 0x512345 [114]; mmap_tag 0 demo_regions].
Definition first_block : mem := load_bytes ∅ 0x10000 (mbi_bytes first_tags).
Definition first_kernel : kernel simdisk :=
  Kernel simdisk (mk_heap (with_mem boot_vmm first_block) (pmm_init []) 0 HEAP_START)
    (Vfs simdisk (Ramfs None 0 0) (blank_volume small_disk) (mk_kpipes (replicate 8 blank_pipe) (mk_ptable (replicate 16 blank_process) None 0)))
    false 0 0 kbd0 (Cfgst () cfg_reset false (replicate 512 0) false ()) [] (replicate 16 (replicate 8 blank_fd)) 0 (-1) (replicate 64 0) false [].

Lemma first_block_ok : boot_block (k_mem first_kernel) 0x10000 first_tags 0 demo_regions (Some (0x500000, 0x512345)) None.
Proof.
  constructor; [repeat constructor; discriminate|done| |vm_compute; reflexivity| | |reflexivity].
  - change (k_mem first_kernel) with first_block. apply load_bytes_holds, byte_list_spec. vm_compute. reflexivity.
  - split; [reflexivity|]. split; [repeat constructor; discriminate|discriminate].
  - split; [unfold is_u32; lia|]. split; [unfold is_u32; lia|]. exists [114]. reflexivity.
Qed.

Lemma first_placed : @placed demo_link 0x10000 (zlen (mbi_bytes first_tags)).
Proof.
  assert (E : zlen (mbi_bytes first_tags) = 104) by (vm_compute; reflexivity). rewrite E. intros x Hx. unfold in_tables in Hx.
  cbn [gdt_addr tss_addr demo_link] in Hx. unfold IDT_ADDRESS, HEAP_START, PAGE_DIR_ADDR in *. lia.
Qed.

Lemma boot_hands_over_witness :
  exists r b, @boot_front simdisk _ demo_machine chips _ demo_link (Some 0) MULTIBOOT2_BOOT_MAGIC 0x10000 (first_kernel, demo_isys) = Some (r, b) /\
    r = inr (Some (0x500000, 0x512345)) /\ k_sched b.1 = boot_sched /\ (exists bs, heap_ok (k_heap b.1) bs).
Proof.
  destruct (@boot_hands_over simdisk _ demo_machine chips _ _ demo_link first_kernel demo_isys (Some 0) 0x10000 first_tags 0 demo_regions
    (Some (0x500000, 0x512345)) None (Policy 0 NoCrash) demo_link_ok demo_ready first_placed) as (r & b & E & -> & Ho).
  - constructor; reflexivity.
  - exact first_block_ok.
  - intros _. split; [exact small_disk_holds|cbn; lia].
  - exists (inr (Some (0x500000, 0x512345))), b. split; [exact E|]. split; [reflexivity|]. split; [exact (ov_sched _ _ _ _ _ Ho)|exact (ov_heap _ _ _ _ _ Ho)].
Defined.

(** ** A reservation that is too short *)

(** [pmm_mark_used] rounds the size up but not the address down: a region that
    crosses into one more page than its size fills leaves the last page free. *)
Theorem unaligned_reservation_leaves_page :
  let addr := 0x500FF8 in let size := 0x20 in
  page_free (pmm_mark_used (pmm_init demo_regions) addr size) 0x501 = true /\
  addr < 0x501 * 4096 < addr + size.
Proof. split; [vm_compute; reflexivity|lia]. Qed.
