(* ===== verification/UserLib.v ===== *)
(** * The library of the user programs ([user/lib/nullos.c])

    A user program computes on its own state and traps into the kernel.  A trap
    is a call with its number and arguments and an answer: the value in [eax] and
    the bytes the kernel stored in the caller's buffer.  What the kernel answers is
    the class [UserKernel], so that a theorem about a program holds for every
    kernel that keeps the few promises stated there.  Below the wrappers are the
    string and memory functions; a C array is a list, an access outside it
    undefined, a C string the list of its characters before the NUL. *)

From Stdlib Require Import String ZArith Lia ZifyBool.
From stdpp Require Import base tactics numbers list option.
From S2P Require Import Prelude Stdio.
Local Open Scope Z_scope.

(** ** Traps *)

(** A register: a number, the address of a string, no address, the address of
    bytes to be read, the address of a buffer to be filled. *)
Inductive uarg := AInt (v : Z) | AStr (s : list Z) | ANull | ABytes (b : list Z) | ARoom (n : Z).
Record ucall := Ucall { uc_num : Z; uc_args : list uarg }.
Record answer := Answer { an_ret : Z; an_data : list Z }.

Definition SYS_WRITE : Z := 1.
Definition SYS_EXIT : Z := 2.
Definition SYS_YIELD : Z := 3.
Definition SYS_GETPID : Z := 4.
Definition SYS_READ : Z := 5.
Definition SYS_UPTIME : Z := 6.
Definition SYS_MEMINFO : Z := 7.
Definition SYS_PS : Z := 8.
Definition SYS_KILL : Z := 9.
Definition SYS_EXEC : Z := 10.
Definition SYS_OPEN : Z := 11.
Definition SYS_CLOSE : Z := 12.
Definition SYS_READ_RAW : Z := 13.
Definition SYS_GOTOXY : Z := 14.
Definition SYS_CLEAR : Z := 15.
Definition SYS_GETARG : Z := 16.
Definition SYS_KBD_FLUSH : Z := 17.
Definition SYS_SETCOLOR : Z := 18.
Definition SYS_SET_RAW_MODE : Z := 19.
Definition SYS_WAIT : Z := 20.
Definition SYS_READDIR : Z := 21.
Definition SYS_WRITE_FILE : Z := 22.
Definition SYS_CREATE : Z := 23.
Definition SYS_PCI_LIST : Z := 24.
Definition SYS_FORK : Z := 25.
Definition SYS_CHDIR : Z := 26.
Definition SYS_MKDIR : Z := 27.
Definition SYS_PIPE : Z := 28.
Definition SYS_EXEC_PIPE : Z := 29.
Definition SYS_GETCWD : Z := 30.
Definition SYS_REBOOT : Z := 31.
Definition SYS_SHUTDOWN : Z := 32.
Definition SYS_PCI_FIND : Z := 33.

(** The kernel fills a buffer with bytes and at most up to its size; a read that
    returns [n] has stored [n] bytes; an argument or a path it delivers is a string
    that fits; a pipe that was created comes with its two descriptors.  [UserAbi]
    shows the bounds of the handlers of [kernel/syscall.c]. *)
Class UserKernel (W : Type) := {
  trap : ucall -> W -> answer * W;
  trap_bytes c w : Forall (fun b => 0 <= b < 256) (an_data (trap c w).1);
  trap_read w fd n : 0 <= n ->
    let a := (trap (Ucall SYS_READ [AInt fd; ARoom n]) w).1 in an_ret a <= n /\ (0 <= an_ret a -> zlen (an_data a) = an_ret a);
  trap_getarg w n : 0 < n ->
    let a := (trap (Ucall SYS_GETARG [ARoom n; AInt n]) w).1 in an_ret a < n /\ (0 <= an_ret a -> zlen (an_data a) = an_ret a /\ 0 ∉ an_data a);
  trap_getcwd w n : 0 < n ->
    let a := (trap (Ucall SYS_GETCWD [ARoom n; AInt n]) w).1 in an_ret a < n /\ (0 <= an_ret a -> zlen (an_data a) = an_ret a /\ 0 ∉ an_data a);
  trap_pipe w : let a := (trap (Ucall SYS_PIPE [ARoom 8]) w).1 in an_ret a = 0 -> zlen (an_data a) = 8
}.

(** ** Programs *)

(** How a program ends: it goes on with a value, has called [nos_exit], or has
    raised a processor exception. *)
Inductive fin (A : Type) := Go (a : A) | Exited (code : Z) | Faulted (vector : Z).
Arguments Go {A} a.
Arguments Exited {A} code.
Arguments Faulted {A} vector.

(** The kernel's side, the traps so far with their answers, the program's state. *)
Record usys {W E : Type} := Usys { u_world : W; u_trace : list (ucall * answer); u_prog : E }.
Arguments usys : clear implicits.
Arguments Usys {W E}.

Definition uM (W E A : Type) : Type := usys W E -> option (fin A * usys W E).
#[global] Instance uM_ret W E : MRet (uM W E) := fun A a s => Some (Go a, s).
#[global] Instance uM_bind W E : MBind (uM W E) := fun A B f m s =>
  match m s with
  | Some (Go a, s') => f a s'
  | Some (Exited c, s') => Some (Exited c, s')
  | Some (Faulted v, s') => Some (Faulted v, s')
  | None => None
  end.

Section programs.
Context {W E : Type} `{UserKernel W}.
Local Notation M := (uM W E).

Definition ugets {A} (f : E -> A) : M A := fun s => Some (Go (f (u_prog s)), s).
Definition umodify (f : E -> E) : M () := fun s => Some (Go (), Usys (u_world s) (u_trace s) (f (u_prog s))).
Definition uundefined {A} : M A := fun _ => None.
Definition udefined {A} (o : option A) : M A := fun s => match o with Some a => Some (Go a, s) | None => None end.
Definition ufault {A} (vector : Z) : M A := fun s => Some (Faulted vector, s).

(** [int $0x80] *)
Definition syscall (num : Z) (args : list uarg) : M answer := fun s =>
  let c := Ucall num args in
  let '(a, w) := trap c (u_world s) in Some (Go a, Usys w (u_trace s ++ [(c, a)]) (u_prog s)).
Definition syscall_ret (num : Z) (args : list uarg) : M Z := a ← syscall num args; mret (an_ret a).

Definition nos_exit {A} (code : Z) : M A := fun s =>
  match syscall SYS_EXIT [AInt code] s with Some (_, s') => Some (Exited code, s') | None => None end.
Definition nos_write (fd : Z) (buf : list Z) : M Z := syscall_ret SYS_WRITE [AInt fd; ABytes buf].
Definition nos_read (fd len : Z) : M answer := syscall SYS_READ [AInt fd; ARoom len].
Definition nos_yield : M Z := syscall_ret SYS_YIELD [].
Definition nos_getpid : M Z := syscall_ret SYS_GETPID [].
Definition nos_uptime : M Z := syscall_ret SYS_UPTIME [].
(** The kernel stores the three words in the order of the arguments and may stop
    early: a word it has not stored keeps its value. *)
Definition uint32_at (d : list Z) (i : Z) : Z := d.[i] + 2 ^ 8 * d.[i + 1] + 2 ^ 16 * d.[i + 2] + 2 ^ 24 * d.[i + 3].
Definition stored (d : list Z) (i old : Z) : Z := if i + 4 <=? zlen d then uint32_at d i else old.
Definition nos_meminfo (pmm_pages heap_bytes nprocs : Z) : M (Z * Z * Z) :=
  a ← syscall SYS_MEMINFO [ARoom 4; ARoom 4; ARoom 4];
  mret (stored (an_data a) 0 pmm_pages, stored (an_data a) 4 heap_bytes, stored (an_data a) 8 nprocs).
Definition nos_ps : M () := syscall_ret SYS_PS [];; mret ().
Definition nos_kill (pid : Z) : M Z := syscall_ret SYS_KILL [AInt pid].
Definition nos_exec (name : list Z) (arg : option (list Z)) : M Z :=
  syscall_ret SYS_EXEC [AStr name; match arg with Some a => AStr a | None => ANull end].
Definition nos_open (name : list Z) : M Z := syscall_ret SYS_OPEN [AStr name].
Definition nos_close (fd : Z) : M Z := syscall_ret SYS_CLOSE [AInt fd].
Definition nos_read_raw : M Z := syscall_ret SYS_READ_RAW [].
Definition nos_gotoxy (col row : Z) : M () := syscall_ret SYS_GOTOXY [AInt col; AInt row];; mret ().
Definition nos_clear : M () := syscall_ret SYS_CLEAR [];; mret ().
Definition nos_getarg (len : Z) : M answer := syscall SYS_GETARG [ARoom len; AInt len].
Definition nos_kbd_flush : M () := syscall_ret SYS_KBD_FLUSH [];; mret ().
Definition nos_setcolor (fg bg : Z) : M () := syscall_ret SYS_SETCOLOR [AInt fg; AInt bg];; mret ().
Definition nos_set_raw_mode (enable : Z) : M () := syscall_ret SYS_SET_RAW_MODE [AInt enable];; mret ().
Definition nos_wait (pid : Z) : M () := syscall_ret SYS_WAIT [AInt pid];; mret ().
Definition nos_readdir (path : option (list Z)) : M () :=
  syscall_ret SYS_READDIR [match path with Some p => AStr p | None => ANull end];; mret ().
Definition nos_write_file (fd : Z) (buf : list Z) : M Z := syscall_ret SYS_WRITE_FILE [AInt fd; ABytes buf].
Definition nos_create (name : list Z) : M Z := syscall_ret SYS_CREATE [AStr name].
Definition nos_pci_list : M Z := syscall_ret SYS_PCI_LIST [].
Definition nos_fork : M Z := syscall_ret SYS_FORK [].
Definition nos_chdir (path : list Z) : M Z := syscall_ret SYS_CHDIR [AStr path].
Definition nos_mkdir (path : list Z) : M Z := syscall_ret SYS_MKDIR [AStr path].
(** The two words stored are the read end and the write end. *)
Definition nos_pipe : M answer := syscall SYS_PIPE [ARoom 8].
Definition nos_exec_pipe (name : list Z) (stdin_fd stdout_fd : Z) : M Z :=
  syscall_ret SYS_EXEC_PIPE [AStr name; AInt stdin_fd; AInt stdout_fd].
Definition nos_getcwd (len : Z) : M answer := syscall SYS_GETCWD [ARoom len; AInt len].
Definition nos_pci_find (vendor device : Z) : M Z := syscall_ret SYS_PCI_FIND [AInt vendor; AInt device].
Definition nos_reboot : M Z := syscall_ret SYS_REBOOT [].
Definition nos_shutdown : M Z := syscall_ret SYS_SHUTDOWN [].
End programs.

(** ** Reasoning about programs *)

(** [uwp m Q e]: whatever the kernel answers, [m] is defined and comes to an end
    from the program state [e], and its traps, outcome and final program state
    satisfy [Q]. *)
Definition uwp {W E A : Type} (m : uM W E A) (Q : list (ucall * answer) -> fin A -> E -> Prop) (e : E) : Prop :=
  forall w t, exists tr o w' e', m (Usys w t e) = Some (o, Usys w' (t ++ tr) e') /\ Q tr o e'.

Section uwp.
Context {W E : Type} `{UserKernel W}.
Local Notation M := (uM W E).

Lemma uwp_ret {A} (a : A) Q (e : E) : Q [] (Go a) e -> uwp (W:=W) (mret a) Q e.
Proof. intros HQ w t. exists [], (Go a), w, e. by rewrite app_nil_r. Qed.

Lemma uwp_mono {A} (m : M A) (P Q : list (ucall * answer) -> fin A -> E -> Prop) e :
  uwp m P e -> (forall tr o e', P tr o e' -> Q tr o e') -> uwp m Q e.
Proof. intros Hm HQ w t. destruct (Hm w t) as (tr & o & w' & e' & Em & HP). eauto 8. Qed.

Lemma uwp_bind {A B} (m : M A) (f : A -> M B) (Q : list (ucall * answer) -> fin B -> E -> Prop) e :
  uwp m (fun tr o e' => match o with
    | Go a => uwp (f a) (fun tr' => Q (tr ++ tr')) e'
    | Exited c => Q tr (Exited c) e'
    | Faulted v => Q tr (Faulted v) e'
    end) e -> uwp (m ≫= f) Q e.
Proof.
  intros Hm w t. destruct (Hm w t) as (tr & o & w' & e' & Em & HP). unfold mbind, uM_bind. rewrite Em. destruct o as [a|c|v]; [|eauto 8..].
  destruct (HP w' (t ++ tr)) as (tr' & o' & w'' & e'' & Ef & HQ). rewrite Ef, <- app_assoc. eauto 8.
Qed.

Lemma uwp_gets {A} (f : E -> A) Q (e : E) : Q [] (Go (f e)) e -> uwp (W:=W) (ugets f) Q e.
Proof. intros HQ w t. eexists [], _, w, e. by rewrite app_nil_r. Qed.
Lemma uwp_modify (f : E -> E) Q (e : E) : Q [] (Go ()) (f e) -> uwp (W:=W) (umodify f) Q e.
Proof. intros HQ w t. eexists [], _, w, _. by rewrite app_nil_r. Qed.
Lemma uwp_defined {A} (o : option A) a Q (e : E) : o = Some a -> Q [] (Go a) e -> uwp (W:=W) (udefined o) Q e.
Proof. intros -> HQ w t. exists [], (Go a), w, e. by rewrite app_nil_r. Qed.

Lemma uwp_syscall num args Q (e : E) :
  (forall w : W, let a := (trap (Ucall num args) w).1 in Q [(Ucall num args, a)] (Go a) e) -> uwp (syscall (W:=W) num args) Q e.
Proof.
  intros HQ w t. specialize (HQ w). unfold syscall. cbn [u_world u_trace u_prog]. destruct (trap _ w) as [a w'] eqn:Et. cbv zeta in HQ.
  exists [(Ucall num args, a)], (Go a), w', e. by split.
Qed.
Lemma uwp_syscall_ret num args Q (e : E) :
  (forall a, Q [(Ucall num args, a)] (Go (an_ret a)) e) -> uwp (W:=W) (syscall_ret num args) Q e.
Proof. intros HQ. apply uwp_bind, uwp_syscall. cbv zeta. intros w. apply uwp_ret. apply HQ. Qed.
Lemma uwp_exit {A} code (Q : list (ucall * answer) -> fin A -> E -> Prop) (e : E) :
  (forall a, Q [(Ucall SYS_EXIT [AInt code], a)] (Exited code) e) -> uwp (W:=W) (nos_exit code) Q e.
Proof.
  intros HQ w t. unfold nos_exit, syscall. cbn [u_world u_trace u_prog]. destruct (trap _ w) as [a w'] eqn:Et. eexists _, _, w', e. split; [done|apply HQ].
Qed.
End uwp.

(** ** Messages ([user/lib/messages.c]) *)

Inductive umsg :=
| UMSG_SH_LOGO_1 | UMSG_SH_LOGO_2 | UMSG_SH_LOGO_3 | UMSG_SH_LOGO_4 | UMSG_SH_LOGO_5 | UMSG_SH_FETCH_ARCH
| UMSG_SH_FETCH_UPTIME | UMSG_SH_FETCH_SECONDS_NL | UMSG_SH_FETCH_MEM_PMM | UMSG_SH_FETCH_KB_FREE_NL
| UMSG_SH_FETCH_HEAP | UMSG_SH_FETCH_B_FREE_NL | UMSG_SH_FETCH_PROCS | UMSG_SH_FETCH_RUNNING_NL | UMSG_SH_MEM_PMM_LINE
| UMSG_SH_MEM_FREE_PAGES | UMSG_SH_MEM_KB_CLOSE_NL | UMSG_SH_MEM_HEAP_LINE | UMSG_SH_USAGE_KILL_PID
| UMSG_SH_INVALID_PID | UMSG_SH_SHUTTING_DOWN_SHELL | UMSG_SH_KILL_PROCESS | UMSG_SH_KILL_TERMINATED_NL
| UMSG_SH_PID_NOT_FOUND | UMSG_SH_USAGE_TOUCH_FILE | UMSG_SH_TOUCH_CANNOT_CREATE | UMSG_SH_USAGE_MKDIR_DIR
| UMSG_SH_MKDIR_CANNOT_CREATE | UMSG_SH_CD_NO_SUCH_DIRECTORY | UMSG_SH_PWD_CANNOT_DETERMINE
| UMSG_SH_PIPE_COULD_NOT_CREATE_PIPE | UMSG_SH_PIPE_PROGRAM_NOT_FOUND | UMSG_SH_USAGE_CMD_INFILE_OUTFILE
| UMSG_SH_REDIRECT_NO_ARGS | UMSG_SH_REDIRECT_CANNOT_OPEN | UMSG_SH_REDIRECT_CANNOT_WRITE_TO
| UMSG_SH_REDIRECT_NOT_FAT16_NL | UMSG_SH_REDIRECT_PROGRAM_NOT_FOUND | UMSG_SH_REDIRECT_BUILTIN_NL
| UMSG_SH_USAGE_RUN_PROGRAM | UMSG_SH_RUN_NOT_FOUND | UMSG_SH_RUN_RUNNING | UMSG_SH_BYE | UMSG_SH_COMMAND_NOT_FOUND
| UMSG_SH_WELCOME | UMSG_SH_PROMPT | UMSG_SH_REDIRECT_WITH_PIPE | UMSG_SH_USAGE_CMD1_CMD2 | UMSG_SH_USAGE_CAT_FILE
| UMSG_SH_ERROR_CAT_NOT_FOUND | UMSG_SH_ERROR_EDIT_NOT_FOUND | UMSG_SH_HELP_TEXT | UMSG_SH_CRASH_USAGE
| UMSG_SH_CRASH_DE | UMSG_SH_CRASH_PF | UMSG_SH_CRASH_GP | UMSG_ED_HELP_BAR | UMSG_ED_NO_NAME | UMSG_ED_SAVED
| UMSG_ED_SAVED_NO_DISK | UMSG_CAT_CANNOT_OPEN.

(** The texts; what is proved holds for any. *)
Class Texts := { msg : umsg -> list Z; msg_clean id : 0 ∉ msg id }.

(** ** Strings and memory *)

Definition inside (l : list Z) (i : Z) : bool := (0 <=? i) && (i <? zlen l).

(** [rep movsb] within one array, upwards or downwards. *)
Fixpoint movsb (dir : Z) (n : nat) (l : list Z) (d s : Z) : option (list Z) :=
  match n with
  | O => Some l
  | S n' => if inside l d && inside l s then movsb dir n' l.[d := l.[s]] (d + dir) (s + dir) else None
  end.
(** [rep stosb] *)
Fixpoint stosb (n : nat) (l : list Z) (d c : Z) : option (list Z) :=
  match n with
  | O => Some l
  | S n' => if inside l d then stosb n' l.[d := u8 c] (d + 1) c else None
  end.

Definition memcpy (l : list Z) (dst src n : Z) : option (list Z) := movsb 1 (Z.to_nat n) l dst src.
Definition memset (l : list Z) (dst c n : Z) : option (list Z) := stosb (Z.to_nat n) l dst c.
Definition memmove (l : list Z) (dst src n : Z) : option (list Z) :=
  if (dst =? src) || (n =? 0) then Some l
  else if (dst <? src) || (src + n <=? dst) then memcpy l dst src n
  else movsb (-1) (Z.to_nat n) l (dst + (n - 1)) (src + (n - 1)).

Fixpoint memcmp (n : nat) (a b : list Z) : option Z :=
  match n, a, b with
  | O, _, _ => Some 0
  | S n', x :: a', y :: b' => if negb (x =? y) then Some (x - y) else memcmp n' a' b'
  | _, _, _ => None
  end.

Definition strlen (s : list Z) : Z := zlen s.

Fixpoint strcmp (a b : list Z) : Z :=
  match a, b with
  | [], [] => 0
  | x :: _, [] => x
  | [], y :: _ => - y
  | x :: a', y :: b' => if x =? y then strcmp a' b' else x - y
  end.

Fixpoint strncmp (a b : list Z) (n : nat) : Z :=
  match n with
  | O => 0
  | S n' =>
      match a, b with
      | [], [] => 0
      | x :: _, [] => x
      | [], y :: _ => - y
      | x :: a', y :: b' => if x =? y then strncmp a' b' n' else x - y
      end
  end.

(** The loop of [nos_uitoa]: the buffer and the index of the first digit. *)
Fixpoint uitoa_loop (fuel : nat) (v : Z) (buf : list Z) (bufsz : Z) : option (list Z * Z) :=
  if negb (v =? 0) && (0 <? bufsz) then
    match fuel with
    | O => None
    | S fuel' => if inside buf (bufsz - 1) then uitoa_loop fuel' (v / 10) buf.[bufsz - 1 := 48 + v mod 10] (bufsz - 1) else None
    end
  else Some (buf, bufsz).
Definition uitoa_at (v : Z) (buf : list Z) (bufsz : Z) : option (list Z * Z) :=
  if negb (inside buf (bufsz - 1)) then None
  else
    let buf := buf.[bufsz - 1 := 0] in
    let bufsz := bufsz - 1 in
    if v =? 0 then if inside buf (bufsz - 1) then Some (buf.[bufsz - 1 := 48], bufsz - 1) else None
    else uitoa_loop 10 v buf bufsz.
(** The string the pointer returned points to. *)
Definition nos_uitoa (v : Z) (buf : list Z) : option (list Z) :=
  match uitoa_at v buf (zlen buf) with Some (b, i) => Some (until_nul (drop (Z.to_nat i) b)) | None => None end.

(** ** What the memory functions compute *)

Lemma inside_true l i : 0 <= i < zlen l -> inside l i = true.
Proof. unfold inside. lia. Qed.

(** [l'] is [l] with the [n] bytes at [s] also at [d]. *)
Definition moved (l l' : list Z) (d s n : Z) : Prop :=
  zlen l' = zlen l /\ forall i, 0 <= i < zlen l -> l'.[i] = if (d <=? i) && (i <? d + n) then l.[i - d + s] else l.[i].

Ltac copied_byte :=
  repeat match goal with |- context [if (?a <=? ?b) && ?c then _ else _] => destruct ((a <=? b) && c) eqn:? end; try lia;
  rewrite zget_set by lia; match goal with |- context [?a =? ?b] => destruct (Z.eqb_spec a b) end; try lia; subst; f_equal; lia.

Lemma movsb_up n : forall l d s, 0 <= d -> 0 <= s -> d + Z.of_nat n <= zlen l -> s + Z.of_nat n <= zlen l ->
  d < s \/ s + Z.of_nat n <= d -> exists l', movsb 1 n l d s = Some l' /\ moved l l' d s (Z.of_nat n).
Proof.
  induction n as [|n IH]; intros l d s Hd Hs Hdl Hsl Ho.
  { exists l. split; [done|]. split; [done|]. intros i Hi. case_if; [lia|done]. }
  cbn [movsb]. rewrite !inside_true by lia. cbn [andb].
  destruct (IH l.[d := l.[s]] (d + 1) (s + 1)) as (l' & E & Hz & Hm); rewrite ?zset_len in *; [lia..|].
  exists l'. split; [exact E|]. split; [done|]. intros i Hi. rewrite Hm by lia. by copied_byte.
Qed.

Lemma movsb_down n : forall l d s, 0 <= d - Z.of_nat n + 1 -> 0 <= s - Z.of_nat n + 1 -> d < zlen l -> s < d ->
  exists l', movsb (-1) n l d s = Some l' /\ moved l l' (d - Z.of_nat n + 1) (s - Z.of_nat n + 1) (Z.of_nat n).
Proof.
  induction n as [|n IH]; intros l d s Hd Hs Hdl Ho.
  { exists l. split; [done|]. split; [done|]. intros i Hi. case_if; [lia|done]. }
  cbn [movsb]. rewrite !inside_true by lia. cbn [andb].
  destruct (IH l.[d := l.[s]] (d + -1) (s + -1)) as (l' & E & Hz & Hm); rewrite ?zset_len in *; [lia..|].
  exists l'. split; [exact E|]. split; [done|]. intros i Hi. rewrite Hm by lia. by copied_byte.
Qed.

(** [memmove] copies as if through a buffer, however the two ranges overlap. *)
Theorem memmove_spec l dst src n : 0 <= n -> 0 <= dst -> 0 <= src -> dst + n <= zlen l -> src + n <= zlen l ->
  exists l', memmove l dst src n = Some l' /\ moved l l' dst src n.
Proof.
  intros Hn Hd Hs Hdl Hsl. unfold memmove, memcpy.
  destruct (Z.eqb_spec dst src) as [->|Hne]; cbn [orb].
  { exists l. split; [done|]. split; [done|]. intros i Hi. case_if; [f_equal; lia|done]. }
  destruct (Z.eqb_spec n 0) as [->|Hn0]; cbn [orb].
  { exists l. split; [done|]. split; [done|]. intros i Hi. case_if; [lia|done]. }
  destruct ((dst <? src) || (src + n <=? dst)) eqn:Eo.
  - destruct (movsb_up (Z.to_nat n) l dst src) as (l' & E & Hm); [lia..|]. rewrite Z2Nat.id in Hm by lia. eauto.
  - destruct (movsb_down (Z.to_nat n) l (dst + (n - 1)) (src + (n - 1))) as (l' & E & Hm); [lia..|].
    rewrite Z2Nat.id in Hm by lia. exists l'. split; [exact E|].
    by replace (dst + (n - 1) - n + 1) with dst in Hm by lia; replace (src + (n - 1) - n + 1) with src in Hm by lia.
Qed.

(** *** The result as a list *)

Lemma zget_take (l : list Z) n i : 0 <= i < Z.of_nat n -> zget (take n l) i = zget l i.
Proof. intros Hi. unfold zget. apply lookup_total_take_lt. lia. Qed.
Lemma zget_drop (l : list Z) n i : 0 <= i -> zget (drop n l) i = zget l (Z.of_nat n + i).
Proof. intros Hi. unfold zget. rewrite lookup_total_drop. f_equal. lia. Qed.
Lemma zget_app (l k : list Z) i : 0 <= i -> zget (l ++ k) i = if i <? zlen l then zget l i else zget k (i - zlen l).
Proof.
  intros Hi. unfold zget, zlen. destruct (Z.ltb_spec i (Z.of_nat (length l))).
  - apply lookup_total_app_l. lia.
  - rewrite lookup_total_app_r by lia. f_equal. lia.
Qed.

Lemma list_eq_zget (l k : list Z) : zlen l = zlen k -> (forall i, 0 <= i < zlen l -> zget l i = zget k i) -> l = k.
Proof.
  intros Hz Hi. unfold zlen in *. apply list_eq. intros i. destruct (decide (i < length l)%nat) as [Hlt|Hge].
  - rewrite !list_lookup_lookup_total_lt by lia. specialize (Hi (Z.of_nat i) ltac:(lia)). unfold zget in Hi. rewrite Nat2Z.id in Hi. by rewrite Hi.
  - rewrite !lookup_ge_None_2 by lia. done.
Qed.

Lemma moved_eq l l' d s n : 0 <= d -> 0 <= s -> 0 <= n -> d + n <= zlen l -> s + n <= zlen l -> moved l l' d s n ->
  l' = take (Z.to_nat d) l ++ take (Z.to_nat n) (drop (Z.to_nat s) l) ++ drop (Z.to_nat (d + n)) l.
Proof.
  intros Hd Hs Hn Hdl Hsl [Hz Hm].
  assert (E1 : zlen (take (Z.to_nat d) l) = d) by (unfold zlen in *; rewrite length_take; lia).
  assert (E2 : zlen (take (Z.to_nat n) (drop (Z.to_nat s) l)) = n) by (unfold zlen in *; rewrite length_take, length_drop; lia).
  assert (E3 : zlen (drop (Z.to_nat (d + n)) l) = zlen l - d - n) by (unfold zlen in *; rewrite length_drop; lia).
  apply list_eq_zget; [rewrite !zlen_app; lia|]. intros i Hi. rewrite Hz in Hi. rewrite Hm, zget_app, E1 by lia.
  destruct (Z.ltb_spec i d).
  - replace (d <=? i) with false by lia. cbn [andb]. by rewrite zget_take by lia.
  - rewrite zget_app, E2 by lia. destruct (Z.ltb_spec (i - d) n).
    + replace ((d <=? i) && (i <? d + n)) with true by lia. rewrite zget_take, zget_drop by lia. f_equal. lia.
    + replace ((d <=? i) && (i <? d + n)) with false by lia. rewrite zget_drop by lia. f_equal. lia.
Qed.

(** The two moves of an editor: making and closing a gap. *)
Lemma memmove_gap (a r : list Z) x z : memmove (a ++ r ++ x :: z) (zlen a + 1) (zlen a) (zlen r) = Some (a ++ hd x (r ++ [x]) :: r ++ z).
Proof.
  assert (Hz : zlen (a ++ r ++ x :: z) = zlen a + zlen r + 1 + zlen z) by (rewrite !zlen_app; unfold zlen; cbn [length]; lia).
  assert (0 <= zlen a /\ 0 <= zlen r /\ 0 <= zlen z) by (unfold zlen; lia).
  destruct (memmove_spec (a ++ r ++ x :: z) (zlen a + 1) (zlen a) (zlen r)) as (l' & -> & Hm); [lia..|]. f_equal.
  apply moved_eq in Hm; [|lia..]. rewrite Hm. unfold zlen.
  replace (Z.to_nat (Z.of_nat (length a) + 1 + Z.of_nat (length r))) with (length a + (length r + 1))%nat by lia.
  replace (Z.to_nat (Z.of_nat (length a) + 1)) with (length a + 1)%nat by lia. rewrite !Nat2Z.id, drop_app_length, take_app_length.
  rewrite take_app_add, drop_app_add, drop_app_add. rewrite <- app_assoc. by destruct r as [|y r].
Qed.

Lemma memmove_close (a r : list Z) x z : memmove (a ++ x :: r ++ z) (zlen a) (zlen a + 1) (zlen r) =
  Some (a ++ r ++ drop (length r) (x :: r ++ z)).
Proof.
  assert (Hz : zlen (a ++ x :: r ++ z) = zlen a + zlen r + 1 + zlen z) by (rewrite zlen_app; change (x :: r ++ z) with ([x] ++ r ++ z); rewrite !zlen_app; unfold zlen; cbn [length]; lia).
  assert (0 <= zlen a /\ 0 <= zlen r /\ 0 <= zlen z) by (unfold zlen; lia).
  destruct (memmove_spec (a ++ x :: r ++ z) (zlen a) (zlen a + 1) (zlen r)) as (l' & -> & Hm); [lia..|]. f_equal.
  apply moved_eq in Hm; [|lia..]. rewrite Hm. unfold zlen.
  replace (Z.to_nat (Z.of_nat (length a) + Z.of_nat (length r))) with (length a + length r)%nat by lia.
  replace (Z.to_nat (Z.of_nat (length a) + 1)) with (length a + 1)%nat by lia. rewrite !Nat2Z.id, take_app_length.
  rewrite !drop_app_add. cbn [drop]. rewrite drop_0. by rewrite take_app_length.
Qed.

(** Equality of strings, and of a string with a prefix. *)
Lemma strcmp_eq a b : Forall (fun c => 0 < c) a -> Forall (fun c => 0 < c) b -> strcmp a b = 0 <-> a = b.
Proof.
  revert b. induction a as [|x a IH]; intros [|y b] Ha Hb; cbn [strcmp]; try (by split);
    try (apply Forall_cons_1 in Ha as [Hx Ha]); try (apply Forall_cons_1 in Hb as [Hy Hb]).
  - split; [lia|done].
  - split; [lia|done].
  - destruct (Z.eqb_spec x y) as [->|Hne]; [rewrite IH by done; split; congruence|split; [lia|congruence]].
Qed.

Lemma strncmp_prefix a b : Forall (fun c => 0 < c) a -> Forall (fun c => 0 < c) b -> strncmp a b (length b) = 0 <-> b `prefix_of` a.
Proof.
  revert b. induction a as [|x a IH]; intros [|y b] Ha Hb; cbn [strncmp length]; try (split; [intros _; apply prefix_nil|done]);
    try (apply Forall_cons_1 in Ha as [Hx Ha]); apply Forall_cons_1 in Hb as [Hy Hb].
  - split; [lia|]. by intros Hp%prefix_nil_inv.
  - destruct (Z.eqb_spec x y) as [->|Hne].
    + rewrite IH by done. split; [apply prefix_cons|apply prefix_cons_inv_2].
    + split; [lia|]. intros Hp. by apply prefix_cons_inv_1 in Hp.
Qed.

(** *** Numbers *)

Lemma drop_zset (l : list Z) i v : 0 <= i < zlen l -> drop (Z.to_nat i) (l.[i := v]) = v :: drop (Z.to_nat (i + 1)) l.
Proof.
  intros Hi. unfold zset, zlen in *. replace (Z.to_nat (i + 1)) with (S (Z.to_nat i)) by lia. apply list_eq. intros j.
  rewrite lookup_drop. destruct j as [|j].
  - rewrite Nat.add_0_r, list_lookup_insert_eq by lia. done.
  - rewrite list_lookup_insert_ne by lia. rewrite lookup_cons_ne_0 by done. cbn [pred Nat.pred]. rewrite lookup_drop. f_equal. lia.
Qed.

Lemma digit_plain d : 0 <= d < 10 -> digit_char false d = 48 + d.
Proof. intros Hd. assert (d ∈ seqZ 0 10) as Hi by (apply elem_of_seqZ; lia). repeat (apply elem_of_cons in Hi as [->|Hi]; [reflexivity|]). by apply not_elem_of_nil in Hi. Qed.

Lemma uitoa_loop_run fuel : forall v buf bufsz, 0 <= v < 10 ^ Z.of_nat fuel -> Z.of_nat fuel <= bufsz <= zlen buf ->
  exists buf' i, uitoa_loop fuel v buf bufsz = Some (buf', i) /\ zlen buf' = zlen buf /\
    drop (Z.to_nat i) buf' = show fuel 10 false v ++ drop (Z.to_nat bufsz) buf.
Proof.
  induction fuel as [|fuel IH]; intros v buf bufsz Hv Hb.
  { change (10 ^ Z.of_nat 0) with 1 in Hv. cbn [uitoa_loop show]. replace (v =? 0) with true by lia. cbn. eauto. }
  cbn [uitoa_loop show]. destruct (Z.eqb_spec v 0) as [->|Hne]; cbn [negb andb]; [eauto|].
  replace (0 <? bufsz) with true by lia. rewrite inside_true by lia.
  rewrite Nat2Z.inj_succ, Z.pow_succ_r in Hv by lia.
  destruct (IH (v / 10) buf.[bufsz - 1 := 48 + v mod 10] (bufsz - 1)) as (buf' & i & E & Hz & Hd).
  { split; [apply Z.div_pos; lia|apply Z.div_lt_upper_bound; lia]. }
  { rewrite zset_len. lia. }
  exists buf', i. split; [exact E|]. split; [by rewrite Hz, zset_len|].
  rewrite Hd, drop_zset by lia. replace (bufsz - 1 + 1) with bufsz by lia.
  rewrite digit_plain by (apply Z.mod_pos_bound; lia). by rewrite <- app_assoc.
Qed.

Lemma show_clean n v : 0 ∉ show n 10 false v.
Proof.
  revert v. induction n as [|n IH]; intros v; cbn [show]; [apply not_elem_of_nil|]. destruct (v =? 0); [apply not_elem_of_nil|].
  rewrite not_elem_of_app, list_elem_of_singleton. split; [apply IH|]. pose proof (Z.mod_pos_bound v 10 ltac:(lia)). rewrite digit_plain by lia. lia.
Qed.

(** Any 32-bit number is printed in decimal into a buffer of 11 bytes or more. *)
Theorem uitoa_decimal v buf : is_u32 v -> 11 <= zlen buf -> nos_uitoa v buf = Some (c99_digits 10 false None v).
Proof.
  intros Hv Hb. unfold nos_uitoa, uitoa_at. rewrite inside_true by lia. cbn [negb].
  set (b0 := buf.[zlen buf - 1 := 0]). assert (Hz0 : zlen b0 = zlen buf) by apply zset_len.
  assert (H0 : drop (Z.to_nat (zlen buf - 1)) b0 = [0]).
  { unfold b0. rewrite drop_zset by lia. f_equal. apply drop_ge. unfold zlen. lia. }
  destruct (Z.eqb_spec v 0) as [->|Hne].
  - rewrite inside_true by lia. replace (zlen buf - 1 - 1) with (zlen buf - 2) by lia. rewrite drop_zset by lia.
    replace (zlen buf - 2 + 1) with (zlen buf - 1) by lia. rewrite H0. reflexivity.
  - unfold is_u32 in Hv. destruct (uitoa_loop_run 10 v b0 (zlen buf - 1)) as (b' & i & E & _ & Hd); [lia|lia|].
    rewrite E, Hd, H0, until_nul_app by apply show_clean. f_equal. unfold c99_digits.
    rewrite <- (show_fuel 10 false ltac:(lia) 10 32 v) by lia. pose proof (show_nonempty 10 false v Hne) as Hs.
    unfold chars. cbn [default from_option]. by replace (Z.to_nat (1 - zlen (show 32 10 false v))) with O by lia.
Qed.

(** ** A scripted kernel *)

(** A kernel that answers from a script, except for the calls that draw, and then
    with -1. *)
Definition drawing (num : Z) : bool := existsb (Z.eqb num) [SYS_WRITE; SYS_GOTOXY; SYS_CLEAR; SYS_SETCOLOR; SYS_KBD_FLUSH; SYS_SET_RAW_MODE].
Definition script_trap (c : ucall) (w : list (Z * list Z)) : answer * list (Z * list Z) :=
  if drawing (uc_num c) then (Answer 0 [], w) else
  match w with
  | [] => (Answer (-1) [], [])
  | (r, d) :: w' =>
      let d := u8 <$> d in
      if uc_num c =? SYS_READ then
        match uc_args c with
        | [AInt _; ARoom n] => (if (0 <=? r) && (r <=? n) && (zlen d =? r) then Answer r d else Answer (-1) [], w')
        | _ => (Answer (-1) [], w')
        end
      else if (uc_num c =? SYS_GETARG) || (uc_num c =? SYS_GETCWD) then
        match uc_args c with
        | [ARoom n; AInt _] => (if (0 <=? r) && (r <? n) && (zlen d =? r) && negb (bool_decide (0 ∈ d)) then Answer r d else Answer (-1) [], w')
        | _ => (Answer (-1) [], w')
        end
      else if (uc_num c =? SYS_PIPE) && negb (zlen d =? 8) then (Answer (-1) [], w')
      else (Answer r d, w')
  end.
Lemma script_path num w n : 0 < n -> num = SYS_GETARG \/ num = SYS_GETCWD ->
  let a := (script_trap (Ucall num [ARoom n; AInt n]) w).1 in an_ret a < n /\ (0 <= an_ret a -> zlen (an_data a) = an_ret a /\ 0 ∉ an_data a).
Proof.
  intros Hn Hnum. unfold script_trap. cbn [uc_num uc_args].
  assert (drawing num = false /\ (num =? SYS_READ) = false /\ (num =? SYS_GETARG) || (num =? SYS_GETCWD) = true) as (-> & Er & Ep) by (by destruct Hnum as [-> | ->]).
  destruct w as [|[r d] w]; cbn [fst an_ret an_data]; [split; [lia|done]|]. rewrite Er, Ep. destruct (_ && _) eqn:E; cbn [fst an_ret an_data]; [|split; [lia|done]].
  apply andb_prop in E as [E Ez]. apply negb_true_iff, bool_decide_eq_false in Ez. split; [lia|]. intros _. split; [lia|done].
Qed.
#[global] Program Instance scripted : UserKernel (list (Z * list Z)) := { trap := script_trap }.
Next Obligation.
  intros c w. unfold script_trap. destruct (drawing _); [constructor|]. destruct w as [|[r d] w]; cbn; [constructor|].
  assert (Hd : Forall (fun b => 0 <= b < 256) (u8 <$> d)) by (apply Forall_fmap, Forall_true; intros x; apply Z.mod_pos_bound; lia).
  repeat case_match; cbn; try done; constructor.
Qed.
Next Obligation.
  intros w fd n Hn. unfold script_trap. change (drawing _) with false. destruct w as [|[r d] w]; cbn [fst uc_num uc_args an_ret an_data]; [lia|].
  change (SYS_READ =? SYS_READ) with true. cbv iota. destruct (_ && _) eqn:E; cbn [fst an_ret an_data]; lia.
Qed.
Next Obligation. intros w n Hn. by apply script_path; [|left]. Qed.
Next Obligation. intros w n Hn. by apply script_path; [|right]. Qed.
Next Obligation.
  intros w. unfold script_trap. change (drawing _) with false. destruct w as [|[r d] w]; cbn [fst uc_num uc_args an_ret an_data]; [done|].
  repeat match goal with |- context [?a =? ?b] => let r := eval vm_compute in (a =? b) in match r with true => change (a =? b) with true | false => change (a =? b) with false end end.
  cbn [orb andb]. destruct (Z.eqb_spec (zlen (u8 <$> d)) 8); cbn [negb fst an_ret an_data]; done.
Qed.
#[global] Program Instance no_texts : Texts := { msg := fun _ => [] }.
Next Obligation. intros id. apply not_elem_of_nil. Qed.

Definition went {W E A} (m : uM W E A) (s : usys W E) (p : usys W E -> bool) : bool := match m s with Some (_, s') => p s' | None => false end.
Lemma went_true {W E A} (m : uM W E A) s p o s' : went m s p = true -> m s = Some (o, s') -> p s' = true.
Proof. unfold went. intros Hp Em. by rewrite Em in Hp. Qed.

