(* ===== verification/UserAbi.v ===== *)
(** * What the kernel promises its programs

    The programs of [user/] rely on the kernel through the class [UserKernel]: a
    call that fills a buffer never reports more than the buffer holds.  Here the
    handlers of [kernel/syscall.c] are shown to keep that promise, however often
    the call gave the processor away and whatever ran in between. *)

From Stdlib Require Import ZArith Lia ZifyBool.
From stdpp Require Import base tactics numbers list option.
From S2P Require Import Prelude Fat FatDir Pipe Keyboard BootCfg Process Scheduler UserMem Vfs Kernel Syscall FdTable SyscallMem Stdio UserLib.
Local Open Scope Z_scope.

Section answers.
Context {D : Type} `{BlockDevice D} `{Machine}.
Local Notation K := (kernel D).
Local Notation M := (cM K).
Implicit Types k : K.

(** The value a call returns in the end: each pause is followed, in some later
    state of the kernel, by the rest of the call. *)
Inductive returns : outcome -> Z -> Prop :=
| returns_done r : returns (Done r) r
| returns_later kt k o k' r : positions k -> resume kt k = Some (o, k') -> returns o r -> returns (Pause kt) r.

(** What is left of a read of at most [len] bytes. *)
Definition read_left (len : Z) (kt : kont) : Prop :=
  match kt with
  | KRead _ _ _ _ len' total => len' = len /\ 0 <= total
  | KReadPipe _ _ _ _ len' total _ want => len' = len /\ 0 <= total /\ 0 < want <= len - total
  | KKeys _ _ len' n => len' = len /\ 0 <= n
  | _ => False
  end /\ match kt with KRead _ _ _ _ _ total => total <= len | KKeys _ _ _ n => n <= len | _ => True end.
Definition read_answer (len : Z) (o : outcome) : Prop :=
  match o with Done r => r = FAIL \/ 0 <= r <= len | Pause kt => read_left len kt end.

(** [m] ends in an outcome of [P], from a state where descriptors have sane positions. *)
Definition yields {A} (P : A -> Prop) (m : M A) : Prop := forall k a k', positions k -> m k = Some (a, k') -> P a.
(** The same from any state. *)
Definition always {A} (P : A -> Prop) (m : M A) : Prop := forall k a k', m k = Some (a, k') -> P a.

Lemma always_ret {A} (P : A -> Prop) a : P a -> always P (mret a).
Proof. intros Ha k a' k' [= <- <-]. done. Qed.
Lemma always_bind {A B} (V : A -> Prop) (P : B -> Prop) (m : M A) f : always V m -> (forall a, V a -> always P (f a)) -> always P (m ≫= f).
Proof.
  intros Hm Hf k b k'. unfold mbind, cM_bind. destruct (m k) as [[a k1]|] eqn:E; [|done]. intros E'. by eapply (Hf a); [eapply Hm|].
Qed.
Lemma always_then {A B} (P : B -> Prop) (m : M A) f : (forall a, always P (f a)) -> always P (m ≫= f).
Proof. intros Hf. apply (always_bind (fun _ => True)); [done|auto]. Qed.
Lemma always_if {A} (P : A -> Prop) (b : bool) m n : (b = true -> always P m) -> (b = false -> always P n) -> always P (if b then m else n).
Proof. destruct b; auto. Qed.
Lemma always_gives {A} (P : A -> Prop) m : always P m -> yields P m.
Proof. intros Hm k a k' _. apply Hm. Qed.
Lemma yields_bind {A B} (P : B -> Prop) (m : M A) f : respects same_mem m -> (forall a, yields P (f a)) -> yields P (m ≫= f).
Proof.
  intros Hm Hf k b k' Hp. unfold mbind, cM_bind. destruct (m k) as [[a k1]|] eqn:E; [|done]. intros E'.
  eapply (Hf a k1); [|exact E']. by apply (Hm k a k1 E).
Qed.
Lemma yields_if {A} (P : A -> Prop) (b : bool) m n : (b = true -> yields P m) -> (b = false -> yields P n) -> yields P (if b then m else n).
Proof. destruct b; auto. Qed.

Lemma chunk_read_answer c s j buf len total want res : is_u32 len -> 0 <= total -> 0 < want <= len - total -> read_fits want res ->
  always (read_answer len) (@chunk_read D c s j buf len total want res).
Proof.
  intros Hl Ht Hw Hr. unfold chunk_read. destruct res as [r out].
  assert (Hneg : read_answer len (negative_or_total total)) by (unfold negative_or_total; cbn; destruct (0 <? total) eqn:?; [right; lia|by left]).
  destruct Hr as [[= -> ->]|[Er Hr]]; [by apply always_ret|]. cbn [fst snd] in *.
  apply always_if; intros E1; [by apply always_ret|]. apply always_if; intros E2; [apply always_ret; right; lia|].
  apply always_then. intros rc. apply always_if; intros E3; [by apply always_ret|]. apply always_ret. unfold is_u32 in *.
  rewrite (u32_small (total + r)) by lia. destruct (r <? want); cbn; unfold read_left; [right; lia|lia].
Qed.

Lemma read_loop_answer c s j buf len total : is_u32 len -> 0 <= total <= len -> yields (read_answer len) (@read_loop D _ c s j buf len total).
Proof.
  intros Hl Ht. unfold read_loop. apply yields_if; intros E1; [apply always_gives, always_ret; right; lia|]. b2p.
  set (want := if _ : bool then _ else _). assert (Hw : 0 < want <= len - total) by (subst want; unfold SYS_READ_CHUNK; destruct (_ <? _) eqn:E; b2p; lia).
  intros k o k' Hp E. apply run_bind in E as (f & k1 & Ef & E). injection Ef as _ <-. apply run_bind in E as (t & k2 & Et & E).
  revert Et. unfold on_fd, get_fd, on_vfs, zoom, mbind, cM_bind, gets. destruct (vfs_read _ _ _ _) as [[[t' f1] v]|] eqn:Ev; [|done].
  unfold set_fd, modify. intros [= -> _]. destruct t as [res|w|].
  - refine (chunk_read_answer c s j buf len total want res Hl (proj1 Ht) Hw _ _ _ _ E). unfold is_u32 in *. eapply vfs_read_fits; [apply Hp| |exact Ev]. lia.
  - injection E as <- _. cbn. unfold read_left. lia.
  - injection E as <- _. cbn. unfold read_left. lia.
Qed.

Lemma read_pipe_loop_answer c s j buf len total pipe want : is_u32 len -> 0 <= total -> 0 < want <= len - total ->
  always (read_answer len) (@read_pipe_loop D c s j buf len total pipe want).
Proof.
  intros Hl Ht Hw. unfold read_pipe_loop. apply (always_bind (fun t => forall res, t = Return res -> read_fits want res)).
  - intros k t k'. destruct (pipe_read _ _ _ _) as [kp t'] eqn:E. intros [= <- <-] res ->. eapply pipe_read_fits; [|exact E]. lia.
  - intros [res|w|] Hres; [by apply chunk_read_answer; auto|..]; (apply always_ret; cbn; unfold read_left; lia).
Qed.

Lemma key_loop_answer c buf len n : 0 <= n <= len -> always (read_answer len) (@key_loop D c buf len n).
Proof.
  intros Hn. unfold key_loop. apply always_if; intros E1; [apply always_ret; right; lia|].
  apply always_then. intros ch. apply always_if; intros E2; [apply always_then; intros _; apply always_ret; cbn; unfold read_left; lia|].
  apply always_if; intros E3.
  { apply always_then. intros _. apply always_then. intros rc. apply always_ret. cbn. destruct (rc <? 0); [by left|right; lia]. }
  apply always_then. intros raw. apply always_then. intros _. apply always_if; intros E4; [apply always_ret; cbn; unfold read_left; destruct (0 <? n) eqn:?; lia|].
  apply always_then. intros rc. apply always_if; intros E5; [apply always_ret; by left|].
  apply always_if; intros E6; apply always_ret; cbn; unfold read_left; [right|]; lia.
Qed.

Lemma resume_answer len kt : is_u32 len -> read_left len kt -> yields (read_answer len) (resume (D:=D) kt).
Proof.
  intros Hl [Hk Hb]. destruct kt; try done; cbn [resume].
  - destruct Hk as [-> Ht]. by apply read_loop_answer.
  - destruct Hk as (-> & Ht & Hw). by apply always_gives, read_pipe_loop_answer.
  - destruct Hk as [-> Hn]. by apply always_gives, key_loop_answer.
Qed.

(** ** The handlers *)

Lemma yields_gets {A B} (P : B -> Prop) (g : K -> A) f : (forall a, yields P (f a)) -> yields P (gets g ≫= f).
Proof. intros Hf. apply yields_bind; [apply respects_gets, _|done]. Qed.

Lemma sys_read_answer fd buf len : is_u32 len -> yields (read_answer len) (sys_read (D:=D) fd buf len).
Proof.
  intros Hl. assert (Hfail : yields (read_answer len) (mret (Done FAIL))) by (apply always_gives, always_ret; by left).
  assert (H0l : 0 <= 0 <= len) by (unfold is_u32 in Hl; lia). unfold sys_read. apply yields_if; intros _; [done|]. unfold with_current, process_current.
  apply yields_gets. intros [c|]; [|done]. apply yields_bind; [apply range_valid_mem|]. intros ok. apply yields_if; intros _; [done|].
  unfold proc. apply yields_gets. intros p. cbv zeta. apply yields_if; intros _.
  - unfold with_slot, proc_slot. apply yields_gets. intros [s|]; [|done]. apply yields_if; intros _; [done|]. unfold get_fd. apply yields_gets.
    intros f. apply yields_if; intros _; [done|]. by apply read_loop_answer.
  - apply yields_if; intros _; [done|]. apply always_gives, always_then. intros _. by apply key_loop_answer.
Qed.

Definition string_answer (len : Z) (o : outcome) : Prop := match o with Done r => r = FAIL \/ 0 <= r < len | Pause _ => False end.

Lemma getarg_loop_answer fuel : forall c buf len n, 0 <= n < len ->
  always (fun r => forall m, r = Some m -> 0 <= m < len) (@getarg_loop D fuel c buf len n).
Proof.
  induction fuel as [|fuel IH]; intros c buf len n Hn; cbn [getarg_loop]; apply always_then; intros arg.
  all: apply always_if; intros E1; [apply always_ret; intros m [= <-]; lia|].
  all: apply always_if; intros E2; [by intros ? ? ?|]; apply always_if; intros E3; [apply always_ret; intros m [= <-]; lia|].
  { by intros ? ? ?. }
  apply always_then. intros p. apply always_then. intros kp. apply always_if; intros E4; [by apply always_ret|].
  apply always_then. intros _. apply IH. lia.
Qed.

Lemma sys_getarg_answer buf len : is_u32 len -> always (string_answer len) (@sys_getarg D buf len).
Proof.
  intros Hl. assert (Hfail : always (string_answer len) (mret (Done FAIL))) by (apply always_ret; by left).
  unfold sys_getarg. apply always_if; intros E1; [done|]. b2p. apply always_then. intros [c|]; [|done].
  eapply always_bind; [apply getarg_loop_answer; unfold is_u32 in Hl; lia|]. intros [n|] Hn; [|done].
  apply always_then. intros p. apply always_then. intros kp. apply always_then. intros _. apply always_ret. right. by apply Hn.
Qed.

Lemma sys_getcwd_answer buf len : always (string_answer len) (sys_getcwd (D:=D) buf len).
Proof.
  assert (Hfail : always (string_answer len) (mret (Done FAIL))) by (apply always_ret; by left).
  unfold sys_getcwd. apply always_if; intros E1; [done|]. apply always_then. intros [c|]; [|done]. apply always_then. intros ok.
  apply always_if; intros E2; [done|]. apply always_then. intros p. apply always_then. intros [n kbuf]. apply always_if; intros E3; [done|].
  apply always_if; intros E4; [done|]. apply always_then. intros rc. apply always_ret. cbn. destruct (rc <? 0); [by left|right; lia].
Qed.

(** A call with its pauses: the answer of a read stays in its bounds. *)
Lemma read_returns len o r : is_u32 len -> returns o r -> read_answer len o -> r = FAIL \/ 0 <= r <= len.
Proof.
  intros Hl. induction 1 as [r|kt k o k' r Hp E _ IH]; [done|]. intros Ha. apply IH. by apply (resume_answer len kt Hl Ha k o k').
Qed.

(** The promises of [UserKernel] on values: whatever a program passes, [read] does
    not report more bytes than were asked for, and the length of an argument or a
    path leaves room for its NUL. *)
Theorem kernel_answers_fit num a1 a2 a3 k o k' r : is_u32 a2 -> is_u32 a3 -> positions k ->
  syscall_handler num a1 a2 a3 k = Some (o, k') -> returns o r ->
  (num = SYS_READ -> a3 < 2 ^ 31 -> s32 r <= a3) /\ (num = SYS_GETARG \/ num = SYS_GETCWD -> 0 < a2 < 2 ^ 31 -> s32 r < a2).
Proof.
  intros H2 H3 Hp E Hr. split.
  - intros -> Hlt. cbn in E. apply (sys_read_answer a1 a2 a3 H3) in E; [|done]. apply (read_returns a3) in Hr; [|done..].
    unfold s32, FAIL, is_u32 in *. destruct (_ <? _) eqn:?; lia.
  - intros Hn Hlt. assert (Ha : string_answer a2 o) by (destruct Hn as [-> | ->]; cbn in E; [by eapply sys_getarg_answer|by eapply sys_getcwd_answer]).
    destruct o as [r'|kt]; [|done]. inversion Hr; subst. cbn in Ha. unfold s32, FAIL in *. destruct (_ <? _) eqn:?; lia.
Qed.
End answers.
