(* ===== verification/Edit.v ===== *)
(** * The text editor ([user/edit.c])

    The editor keeps the text in an array of 4096 bytes with a length and a cursor,
    redraws the screen before each key and handles one key per turn of its loop.
    An access outside an array is undefined.  It is shown to implement a text
    split at the cursor. *)

From Stdlib Require Import String ZArith Lia ZifyBool.
From stdpp Require Import base tactics numbers list option.
From S2P Require Import Prelude BootCfg Console Vga Stdio UserLib Keyboard.
Local Open Scope Z_scope.

Definition VGA_BLACK : Z := 0.
Definition VGA_BLUE : Z := 1.
Definition VGA_LIGHT_GREY : Z := 7.
Definition VGA_WHITE : Z := 15.
Definition COLS : Z := 80.
Definition TEXT_ROWS : Z := 23.
Definition HELP_ROW : Z := 23.
Definition STAT_ROW : Z := 24.
Definition BUF_SIZE : Z := 4096.
Definition NL : Z := 10.

(** The tables are copies of the kernel's. *)
Definition sc_map : list Z := scancode_map.
Definition sc_map_shift : list Z := scancode_map_shift.

(** [filename] and [status] are strings in arrays of 64 bytes. *)
Record edit := Edit {
  buf : list Z;
  buf_len : Z;
  cur : Z;
  top_line : Z;
  filename : list Z;
  status : list Z;
  file_fd : Z
}.

Definition put_text (b : list Z) (n c : Z) (e : edit) : edit := Edit b n c (top_line e) (filename e) (status e) (file_fd e).
Definition put_cur (c : Z) (e : edit) : edit := Edit (buf e) (buf_len e) c (top_line e) (filename e) (status e) (file_fd e).
Definition put_top (t : Z) (e : edit) : edit := Edit (buf e) (buf_len e) (cur e) t (filename e) (status e) (file_fd e).
Definition put_filename (s : list Z) (e : edit) : edit := Edit (buf e) (buf_len e) (cur e) (top_line e) s (status e) (file_fd e).
Definition put_status (s : list Z) (e : edit) : edit := Edit (buf e) (buf_len e) (cur e) (top_line e) (filename e) s (file_fd e).
Definition put_file_fd (fd : Z) (e : edit) : edit := Edit (buf e) (buf_len e) (cur e) (top_line e) (filename e) (status e) fd.

(** The first [n] bytes of an array; the loops below read nothing else. *)
Definition prefix (b : list Z) (n : Z) : option (list Z) := if (0 <=? n) && (n <=? zlen b) then Some (take (Z.to_nat n) b) else None.

(** ** Navigation *)

Fixpoint count_lines (t : list Z) (l : Z) : Z :=
  match t with [] => l | c :: t' => count_lines t' (if c =? NL then l + 1 else l) end.
Definition line_of (b : list Z) (p : Z) : option Z := t ← prefix b p; Some (count_lines t 0).

(** From the cursor backwards. *)
Fixpoint col_loop (r : list Z) (c : Z) : Z :=
  match r with [] => c | x :: r' => if x =? NL then c else col_loop r' (c + 1) end.
Definition col_of (b : list Z) (p : Z) : option Z := t ← prefix b p; Some (col_loop (reverse t) 0).

Fixpoint start_loop (t : list Z) (pos l n : Z) : Z :=
  match t with
  | [] => pos
  | c :: t' => if l <? n then start_loop t' (pos + 1) (if c =? NL then l + 1 else l) n else pos
  end.
Definition line_start (b : list Z) (len n : Z) : option Z := t ← prefix b len; Some (start_loop t 0 0 n).

Fixpoint end_loop (t : list Z) (p : Z) : Z :=
  match t with [] => p | c :: t' => if c =? NL then p else end_loop t' (p + 1) end.
Definition line_end_of (b : list Z) (len p : Z) : option Z := t ← prefix b len; Some (end_loop (drop (Z.to_nat p) t) p).

Definition total_lines (b : list Z) (len : Z) : option Z := t ← prefix b len; Some (count_lines t 1).

(** ** Editing *)

Definition insert_char (c : Z) (e : edit) : option edit :=
  if BUF_SIZE - 1 <=? buf_len e then Some e
  else
    b ← memmove (buf e) (cur e + 1) (cur e) (u32 (buf_len e - cur e));
    if inside b (cur e) then Some (put_text b.[cur e := c] (buf_len e + 1) (cur e + 1) e) else None.

Definition delete_before (e : edit) : option edit :=
  if cur e =? 0 then Some e
  else
    let cur := u32 (cur e - 1) in
    let buf_len := u32 (buf_len e - 1) in
    b ← memmove (buf e) cur (cur + 1) (u32 (buf_len - cur));
    Some (put_text b buf_len cur e).

(** ** Movement *)

Definition go_line (n cc : Z) (e : edit) : option edit :=
  ps ← line_start (buf e) (buf_len e) n;
  pe ← line_end_of (buf e) (buf_len e) ps;
  let pl := u32 (pe - ps) in
  Some (put_cur (ps + (if cc <? pl then cc else pl)) e).

Definition move_up (e : edit) : option edit :=
  cl ← line_of (buf e) (cur e);
  cc ← col_of (buf e) (cur e);
  if cl =? 0 then Some e else go_line (cl - 1) cc e.
Definition move_down (e : edit) : option edit :=
  cl ← line_of (buf e) (cur e);
  cc ← col_of (buf e) (cur e);
  n ← total_lines (buf e) (buf_len e);
  if n <=? cl + 1 then Some e else go_line (cl + 1) cc e.
Definition move_left (e : edit) : edit := if 0 <? cur e then put_cur (cur e - 1) e else e.
Definition move_right (e : edit) : edit := if cur e <? buf_len e then put_cur (cur e + 1) e else e.

(** ** The status bar *)

(** A store to [sbar[si++]], an array of 80. *)
Definition sb_put (c : Z) (sbar : list Z) : option (list Z) := if zlen sbar <? 80 then Some (sbar ++ [c]) else None.
Fixpoint sb_str (s : list Z) (sbar : list Z) : option (list Z) :=
  match s with
  | [] => Some sbar
  | c :: s' => if zlen sbar <? COLS - 2 then sbar ← sb_put c sbar; sb_str s' sbar else Some sbar
  end.
Fixpoint sb_puts (s : list Z) (sbar : list Z) : option (list Z) :=
  match s with [] => Some sbar | c :: s' => sbar ← sb_put c sbar; sb_puts s' sbar end.
(** Some characters, if there is room. *)
Definition sb_if (s : list Z) (sbar : list Z) : option (list Z) := if zlen sbar <? COLS - 2 then sb_puts s sbar else Some sbar.
Fixpoint sb_pad (fuel : nat) (sbar : list Z) : option (list Z) :=
  if zlen sbar <? COLS - 1 then
    match fuel with O => None | S fuel' => sbar ← sb_put 32 sbar; sb_pad fuel' sbar end
  else Some sbar.

Definition status_bar (fname status : list Z) (cur_line cur_col : Z) : option (list Z) :=
  let nbuf := replicate 12 0 in
  sbar ← sb_put 32 [];
  sbar ← sb_str fname sbar;
  sbar ← sb_puts [32; 32] sbar;
  sbar ← sb_if [76; 58] sbar;
  ln ← nos_uitoa (u32 (cur_line + 1)) nbuf;
  sbar ← sb_str ln sbar;
  sbar ← sb_if [32; 67; 58] sbar;
  cn ← nos_uitoa (u32 (cur_col + 1)) nbuf;
  sbar ← sb_str cn sbar;
  sbar ← (if negb (bool_decide (status = [])) && (zlen sbar <? COLS - 2) then sbar ← sb_puts [32; 32] sbar; sb_str status sbar else Some sbar);
  sb_pad 80 sbar.

Section editor.
Context {W : Type} `{UserKernel W} `{Texts}.
Local Notation M := (uM W edit).

(** ** Rendering *)

Definition spaces32 : list Z := replicate 32 32.
Fixpoint write_spaces_loop (fuel : nat) (n : Z) : M () :=
  if 32 <=? n then
    match fuel with O => uundefined | S fuel' => nos_write 1 spaces32;; write_spaces_loop fuel' (n - 32) end
  else if n =? 0 then mret () else nos_write 1 (take (Z.to_nat n) spaces32);; mret ().
Definition write_spaces (n : Z) : M () := write_spaces_loop (Z.to_nat (n / 32)) n.

(** The characters of one row; what is left of the text and the column. *)
Fixpoint row_loop (k : nat) (t : list Z) (col : Z) : M (list Z * Z) :=
  match k, t with
  | S k', c :: t' => if c =? NL then mret (t, col) else nos_write 1 [c];; row_loop k' t' (col + 1)
  | _, _ => mret (t, col)
  end.
Definition skip_newline (t : list Z) : list Z := match t with c :: t' => if c =? NL then t' else t | [] => t end.
Fixpoint rows_loop (n : nat) (row : Z) (t : list Z) : M () :=
  match n with
  | O => mret ()
  | S n' =>
      nos_gotoxy 0 row;;
      r ← row_loop (Z.to_nat (COLS - 1)) t 0;
      write_spaces (COLS - 1 - r.2);;
      rows_loop n' (row + 1) (skip_newline r.1)
  end.

(** The first line shown. *)
Definition viewport (top cur_line : Z) : Z :=
  let top := if cur_line <? top then cur_line else top in
  if u32 (top + TEXT_ROWS) <=? cur_line then u32 (cur_line - TEXT_ROWS + 1) else top.

Definition render : M () :=
  e ← ugets id;
  cur_line ← udefined (line_of (buf e) (cur e));
  cur_col ← udefined (col_of (buf e) (cur e));
  let top := viewport (top_line e) cur_line in
  umodify (put_top top);;
  nos_clear;;
  nos_setcolor VGA_LIGHT_GREY VGA_BLACK;;
  pos ← udefined (line_start (buf e) (buf_len e) top);
  t ← udefined (prefix (buf e) (buf_len e));
  rows_loop (Z.to_nat TEXT_ROWS) 0 (drop (Z.to_nat pos) t);;
  nos_gotoxy 0 HELP_ROW;;
  nos_setcolor VGA_BLACK VGA_LIGHT_GREY;;
  let help := msg UMSG_ED_HELP_BAR in
  let hlen := if COLS - 1 <? strlen help then COLS - 1 else strlen help in
  nos_write 1 (take (Z.to_nat hlen) help);;
  write_spaces (COLS - 1 - hlen);;
  nos_gotoxy 0 STAT_ROW;;
  nos_setcolor VGA_WHITE VGA_BLUE;;
  sbar ← udefined (status_bar (if bool_decide (filename e = []) then msg UMSG_ED_NO_NAME else filename e) (status e) cur_line cur_col);
  nos_write 1 (take (Z.to_nat (COLS - 1)) sbar);;
  nos_setcolor VGA_LIGHT_GREY VGA_BLACK;;
  nos_gotoxy (if cur_col <? COLS - 1 then cur_col else COLS - 2) (u32 (cur_line - top)).

(** ** Files *)

Fixpoint load_loop (fuel : nat) (fd : Z) : M () :=
  e ← ugets id;
  if buf_len e <? BUF_SIZE - 1 then
    match fuel with
    | O => uundefined
    | S fuel' =>
        r ← nos_read fd 1;
        if an_ret r <=? 0 then mret ()
        else
          e ← ugets id;
          if inside (buf e) (buf_len e) then
            umodify (put_text (buf e).[buf_len e := (an_data r).[0]] (buf_len e + 1) (cur e));; load_loop fuel' fd
          else uundefined
    end
  else mret ().

(** [buf[buf_len] = '\0'] *)
Definition end_text : M () :=
  e ← ugets id;
  if inside (buf e) (buf_len e) then umodify (put_text (buf e).[buf_len e := 0] (buf_len e) (cur e)) else uundefined.

Definition load_file : M () :=
  name ← ugets filename;
  fd ← nos_open name;
  umodify (put_file_fd fd);;
  if fd <? 0 then
    fd ← nos_create name;
    umodify (put_file_fd fd);;
    umodify (fun e => put_text (buf e) 0 (cur e) e);;
    end_text
  else load_loop (Z.to_nat BUF_SIZE) fd;; end_text.

(** ** The loop *)

Definition save : M () :=
  e ← ugets id;
  ok ← (if 0 <=? file_fd e then
          t ← udefined (prefix (buf e) (buf_len e));
          r ← nos_write_file (file_fd e) t; mret (r =? 0)
        else mret false);
  let m := msg (if (ok : bool) then UMSG_ED_SAVED else UMSG_ED_SAVED_NO_DISK) in
  umodify (put_status (take 63 m)).

Definition quit : M () :=
  nos_set_raw_mode 0;;
  fd ← ugets file_fd;
  (if 0 <=? fd then nos_close fd;; mret () else mret ());;
  nos_clear;;
  nos_gotoxy 0 0;;
  nos_kbd_flush;;
  nos_exit 0.

Definition edit_key (sc : Z) (shift : bool) (e : edit) : option edit :=
  if sc =? 0x48 then move_up e
  else if sc =? 0x50 then move_down e
  else if sc =? 0x4B then Some (move_left e)
  else if sc =? 0x4D then Some (move_right e)
  else if sc =? 0x0E then delete_before e
  else if sc =? 0x1C then insert_char NL e
  else
    let c := if sc <? 128 then (if shift then sc_map_shift.[sc] else sc_map.[sc]) else 0 in
    if (0x20 <=? c) && (c <? 0x7F) then insert_char c e else Some e.

Definition edit_turn : M () :=
  render;;
  raw ← nos_read_raw;
  let sc := Z.land raw 0xFF in
  umodify (put_status []);;
  if Z.testbit raw 8 then
    if sc =? 0x1F then save else if sc =? 0x10 then quit else mret ()
  else
    e ← ugets id;
    e' ← udefined (edit_key sc (Z.testbit raw 9) e);
    umodify (fun _ => e').

Fixpoint edit_loop (fuel : nat) : M () :=
  match fuel with O => mret () | S fuel' => edit_turn;; edit_loop fuel' end.

Definition edit_start (fuel : nat) : M () :=
  r ← nos_getarg 64;
  umodify (put_filename (if an_ret r <=? 0 then [] else an_data r));;
  umodify (fun e => put_status [] (put_top 0 (put_text (buf e) 0 0 e)));;
  name ← ugets filename;
  (if bool_decide (name = []) then mret () else load_file);;
  nos_kbd_flush;;
  nos_set_raw_mode 1;;
  edit_loop fuel.
End editor.

(** ** The text the editor implements *)

#[local] Notation last := list.last.

(** The text before and behind the cursor. *)
Definition text : Type := list Z * list Z.

(** The lines of a text, without their newlines; there is always one. *)
Fixpoint lines (t : list Z) : list (list Z) :=
  match t with
  | [] => [[]]
  | c :: t' => if c =? NL then [] :: lines t' else match lines t' with x :: xs => (c :: x) :: xs | [] => [[c]] end
  end.
(** Where line [n] begins. *)
Fixpoint offset (ls : list (list Z)) (n : nat) {struct n} : nat :=
  match n, ls with S n', x :: ls' => length x + 1 + offset ls' n' | _, _ => O end.

Definition row (tx : text) : nat := length (lines tx.1) - 1.
Definition column (tx : text) : nat := length (default [] (last (lines tx.1))).

(** The cursor to column [c] of line [n], or to its end. *)
Definition to_line (n c : nat) (tx : text) : text :=
  let t := tx.1 ++ tx.2 in
  let p := (offset (lines t) n + Nat.min c (length (nth n (lines t) [])))%nat in
  (take p t, drop p t).

Inductive action := Up | Down | Left | Right | Back | Insert (c : Z) | Save | Quit | Nothing.
#[global] Instance action_eq_dec : EqDecision action.
Proof. solve_decision. Defined.

Definition act (a : action) (tx : text) : text :=
  let '(l, r) := tx in
  match a with
  | Up => if decide (row tx = O) then tx else to_line (row tx - 1) (column tx) tx
  | Down => if decide (length (lines (l ++ r)) <= row tx + 1)%nat then tx else to_line (row tx + 1) (column tx) tx
  | Left => match last l with Some c => (take (length l - 1) l, c :: r) | None => tx end
  | Right => match r with c :: r' => (l ++ [c], r') | [] => tx end
  | Back => (take (length l - 1) l, r)
  | Insert c => if zlen (l ++ r) <? BUF_SIZE - 1 then (l ++ [c], r) else tx
  | Save | Quit | Nothing => tx
  end.

(** What a key means. *)
Definition meaning (raw : Z) : action :=
  let sc := Z.land raw 0xFF in
  if Z.testbit raw 8 then (if sc =? 0x1F then Save else if sc =? 0x10 then Quit else Nothing)
  else if sc =? 0x48 then Up
  else if sc =? 0x50 then Down
  else if sc =? 0x4B then Left
  else if sc =? 0x4D then Right
  else if sc =? 0x0E then Back
  else if sc =? 0x1C then Insert NL
  else
    let c := if sc <? 128 then (if Z.testbit raw 9 then sc_map_shift.[sc] else sc_map.[sc]) else 0 in
    if (0x20 <=? c) && (c <? 0x7F) then Insert c else Nothing.

(** ** Lines *)

Lemma lines_cons t : exists x xs, lines t = x :: xs.
Proof. destruct t as [|c t]; cbn [lines]; [eauto|]. destruct (c =? NL); [eauto|]. destruct (lines t); eauto. Qed.

Lemma lines_step c t : c <> NL -> exists x xs, lines t = x :: xs /\ lines (c :: t) = (c :: x) :: xs.
Proof. intros Hc. destruct (lines_cons t) as (x & xs & E). exists x, xs. cbn [lines]. replace (c =? NL) with false by lia. by rewrite E. Qed.

Lemma lines_count t l : count_lines t l = l + Z.of_nat (length (lines t)) - 1.
Proof.
  revert l. induction t as [|c t IH]; intros l; [cbn; lia|]. cbn [count_lines]. rewrite IH. destruct (Z.eqb_spec c NL) as [->|Hc].
  - cbn [lines]. rewrite Z.eqb_refl. cbn [length]. lia.
  - destruct (lines_step c t Hc) as (x & xs & -> & ->). cbn [length]. lia.
Qed.

Lemma lines_snoc t c : c <> NL -> exists ls x, lines t = ls ++ [x] /\ lines (t ++ [c]) = ls ++ [x ++ [c]].
Proof.
  intros Hc. induction t as [|d t (ls & x & E1 & E2)].
  - exists [], []. cbn [app lines]. by replace (c =? NL) with false by lia.
  - cbn [app lines]. rewrite E1, E2. destruct (d =? NL); [by exists ([] :: ls), x|].
    destruct ls as [|y ls]; [by exists [], (d :: x)|by exists ((d :: y) :: ls), x].
Qed.
Lemma lines_nl t : lines (t ++ [NL]) = lines t ++ [[]].
Proof.
  induction t as [|d t IH]; [done|]. cbn [app lines]. rewrite IH. destruct (d =? NL); [done|].
  destruct (lines_cons t) as (x & xs & ->). done.
Qed.

Lemma col_spec t : col_loop (reverse t) 0 = Z.of_nat (length (default [] (last (lines t)))).
Proof.
  enough (E : forall c, col_loop (reverse t) c = c + Z.of_nat (length (default [] (last (lines t))))) by (rewrite E; lia).
  induction t as [|d t IH] using rev_ind; intros c; [cbn; lia|]. rewrite reverse_snoc. cbn [col_loop].
  destruct (Z.eqb_spec d NL) as [->|Hd].
  - rewrite lines_nl, last_snoc. cbn. lia.
  - rewrite IH. destruct (lines_snoc t d Hd) as (ls & x & -> & ->). rewrite !last_snoc. cbn. rewrite length_app. cbn. lia.
Qed.

Lemma start_spec t : forall pos l n, l <= n < l + Z.of_nat (length (lines t)) ->
  start_loop t pos l n = pos + Z.of_nat (offset (lines t) (Z.to_nat (n - l))).
Proof.
  induction t as [|c t IH]; intros pos l n Hn.
  { cbn in Hn. cbn [start_loop]. replace (Z.to_nat (n - l)) with O by lia. cbn. lia. }
  cbn [start_loop]. destruct (Z.ltb_spec l n) as [Hlt|]; [|replace (Z.to_nat (n - l)) with O by lia; cbn; lia].
  replace (Z.to_nat (n - l)) with (S (Z.to_nat (n - l - 1))) by lia. destruct (Z.eqb_spec c NL) as [->|Hc].
  - cbn [lines] in *. rewrite Z.eqb_refl in *. cbn [length] in Hn. rewrite IH by lia. cbn [offset length].
    replace (n - (l + 1)) with (n - l - 1) by lia. lia.
  - destruct (lines_step c t Hc) as (x & xs & Ex & E). rewrite E in *. cbn [length] in Hn.
    rewrite IH by (rewrite Ex; cbn [length]; lia). rewrite Ex. replace (Z.to_nat (n - l)) with (S (Z.to_nat (n - l - 1))) by lia.
    cbn [offset length]. lia.
Qed.

Lemma lines_drop t : forall n, (n < length (lines t))%nat -> lines (drop (offset (lines t) n) t) = drop n (lines t).
Proof.
  induction t as [|c t IH]; intros n Hn; [cbn in *; by replace n with O by lia|].
  destruct n as [|n]; [done|]. destruct (Z.eqb_spec c NL) as [->|Hc].
  - cbn [lines] in *. rewrite Z.eqb_refl in *. cbn [offset length drop Nat.add] in *. apply IH. lia.
  - destruct (lines_step c t Hc) as (x & xs & Ex & E). rewrite E in *. cbn [length] in Hn.
    specialize (IH (S n)). rewrite Ex in IH. cbn [length offset drop Nat.add] in *. apply IH. lia.
Qed.

Lemma end_spec t p : end_loop t p = p + Z.of_nat (length (hd [] (lines t))).
Proof.
  revert p. induction t as [|c t IH]; intros p; [cbn; lia|]. cbn [end_loop]. destruct (Z.eqb_spec c NL) as [->|Hc].
  - cbn [lines]. rewrite Z.eqb_refl. cbn. lia.
  - destruct (lines_step c t Hc) as (x & xs & Ex & ->). rewrite IH, Ex. cbn. lia.
Qed.

Lemma offset_le t : forall n, (n < length (lines t))%nat -> (offset (lines t) n + length (nth n (lines t) []) <= length t)%nat.
Proof.
  induction t as [|c t IH]; intros n Hn; [cbn in *; by replace n with O by lia|].
  destruct (Z.eqb_spec c NL) as [->|Hc].
  - cbn [lines] in *. rewrite Z.eqb_refl in *. destruct n as [|n]; [cbn; lia|]. cbn [offset length nth] in *. specialize (IH n). lia.
  - destruct (lines_step c t Hc) as (x & xs & Ex & E). rewrite E in *. specialize (IH n). rewrite Ex in IH. cbn [length] in *.
    destruct n as [|n]; cbn [offset length nth] in *; lia.
Qed.

(** ** The array holds the text *)

Record holds (e : edit) (tx : text) : Prop := {
  ed_buf : exists z, buf e = tx.1 ++ tx.2 ++ z;
  ed_size : zlen (buf e) = BUF_SIZE;
  ed_len : buf_len e = zlen (tx.1 ++ tx.2);
  ed_cur : cur e = zlen tx.1;
  ed_room : buf_len e < BUF_SIZE;
  ed_top : 0 <= top_line e <= BUF_SIZE
}.

(** The fields that editing leaves alone. *)
Definition aside (e : edit) := (top_line e, filename e, status e, file_fd e).

Lemma prefix_app a b : prefix (a ++ b) (zlen a) = Some a.
Proof.
  unfold prefix. rewrite zlen_app. assert (0 <= zlen a /\ 0 <= zlen b) by (unfold zlen; lia).
  replace ((0 <=? zlen a) && (zlen a <=? zlen a + zlen b)) with true by lia. unfold zlen. by rewrite Nat2Z.id, take_app_length.
Qed.
Lemma prefix_cur e tx : holds e tx -> prefix (buf e) (cur e) = Some tx.1.
Proof. intros [(z & ->) _ _ -> _ _]. apply prefix_app. Qed.
Lemma prefix_text e tx : holds e tx -> prefix (buf e) (buf_len e) = Some (tx.1 ++ tx.2).
Proof. intros [(z & ->) _ -> _ _ _]. rewrite app_assoc. apply prefix_app. Qed.

Lemma insert_holds e l r c : holds e (l, r) -> exists e', insert_char c e = Some e' /\ holds e' (act (Insert c) (l, r)) /\ aside e' = aside e.
Proof.
  intros Hh. destruct (Hh) as [(z & Eb) Hs Hl Hc Hr Ht]. cbn [fst snd] in *. unfold insert_char. cbn [act]. unfold BUF_SIZE in *.
  destruct (Z.leb_spec (4096 - 1) (buf_len e)) as [Hge|Hlt].
  { exists e. replace (zlen (l ++ r) <? 4096 - 1) with false by lia. done. }
  replace (zlen (l ++ r) <? 4096 - 1) with true by lia. rewrite zlen_app in *. assert (0 <= zlen l /\ 0 <= zlen r) by (unfold zlen; lia).
  replace (u32 (buf_len e - cur e)) with (zlen r) by (rewrite u32_small; lia). rewrite Hc, Eb in *.
  destruct z as [|x z]; [rewrite !zlen_app in Hs; change (zlen (@nil Z)) with 0 in Hs; lia|].
  rewrite memmove_gap. cbn [mbind option_bind]. set (y := hd x _).
  assert (Hz : zlen (l ++ y :: r ++ z) = 4096) by (rewrite !zlen_app in *; unfold zlen in *; cbn [length] in *; rewrite length_app; lia).
  rewrite inside_true by lia. eexists. split; [done|]. split; [|done].
  assert (E : (l ++ y :: r ++ z).[zlen l := c] = l ++ c :: r ++ z).
  { unfold zset, zlen. rewrite Nat2Z.id, <- (Nat.add_0_r (length l)), insert_app_r. done. }
  rewrite E. constructor; cbn [put_text buf buf_len cur top_line fst snd]; rewrite ?zlen_app; try done; try (unfold BUF_SIZE in *; lia).
  - exists z. by rewrite <- app_assoc.
  - rewrite zlen_app in Hz. exact Hz.
  - change (zlen [c]) with 1. lia.
Qed.

Lemma delete_holds e l r : holds e (l, r) -> exists e', delete_before e = Some e' /\ holds e' (act Back (l, r)) /\ aside e' = aside e.
Proof.
  intros Hh. destruct (Hh) as [(z & Eb) Hs Hl Hc Hr Ht]. cbn [fst snd] in *. unfold delete_before. cbn [act]. unfold BUF_SIZE in *.
  rewrite zlen_app in Hl. assert (0 <= zlen r) by (unfold zlen; lia).
  destruct l as [|x l _] using rev_ind; [exists e; rewrite Hc; by change (zlen (@nil Z) =? 0) with true|].
  rewrite zlen_app in *. change (zlen [x]) with 1 in *. assert (0 <= zlen l) by (unfold zlen; lia).
  replace (cur e =? 0) with false by lia. rewrite length_app. cbn [length]. replace (length l + 1 - 1)%nat with (length l) by lia.
  rewrite take_app_length. replace (u32 (cur e - 1)) with (zlen l) by (rewrite u32_small; lia).
  replace (u32 (buf_len e - 1)) with (zlen l + zlen r) by (rewrite u32_small; lia).
  replace (u32 (zlen l + zlen r - zlen l)) with (zlen r) by (rewrite u32_small; lia).
  rewrite Eb, <- app_assoc in *. cbn [app] in *. rewrite memmove_close. cbn [mbind option_bind]. eexists. split; [done|]. split; [|done].
  constructor; cbn [put_text buf buf_len cur top_line fst snd]; rewrite ?zlen_app; try done; try (unfold BUF_SIZE in *; lia).
  - by eexists.
  - rewrite zlen_app in Hs. unfold zlen, BUF_SIZE in *. rewrite length_drop. cbn [length] in *. rewrite !length_app in *. lia.
Qed.

Lemma hd_drop_nth {A} (d : A) n : forall ls, hd d (drop n ls) = nth n ls d.
Proof. induction n as [|n IH]; intros [|x ls]; try done. apply IH. Qed.

Lemma go_line_holds e tx n c : holds e tx -> (n < length (lines (tx.1 ++ tx.2)))%nat ->
  exists e', go_line (Z.of_nat n) (Z.of_nat c) e = Some e' /\ holds e' (to_line n c tx) /\ aside e' = aside e.
Proof.
  intros Hh Hn. unfold go_line, line_start, line_end_of. rewrite (prefix_text _ _ Hh). cbn [mbind option_bind].
  set (t := tx.1 ++ tx.2) in *. rewrite start_spec by lia. replace (Z.of_nat n - 0) with (Z.of_nat n) by lia. rewrite Nat2Z.id, Z.add_0_l, Nat2Z.id.
  rewrite end_spec, lines_drop by done. rewrite hd_drop_nth. set (o := offset (lines t) n). set (k := length (nth n (lines t) [])).
  pose proof (offset_le t n Hn) as Hle. fold o k in Hle. destruct (Hh) as [(z & Eb) Hs Hl Hc Hr Ht]. fold t in Hl. unfold BUF_SIZE, zlen in *.
  replace (u32 (Z.of_nat o + Z.of_nat k - Z.of_nat o)) with (Z.of_nat k) by (rewrite u32_small; lia).
  eexists. split; [done|]. split; [|done]. unfold to_line. fold t o k. set (p := (o + Nat.min c k)%nat).
  replace (Z.of_nat o + _) with (Z.of_nat p) by (destruct (Z.ltb_spec (Z.of_nat c) (Z.of_nat k)); lia).
  constructor; cbn [put_cur buf buf_len cur top_line fst snd]; try done.
  - exists z. rewrite app_assoc, take_drop, Eb. apply app_assoc.
  - by rewrite take_drop.
  - unfold zlen. rewrite length_take. lia.
Qed.

Lemma move_holds (e : edit) tx : holds e tx ->
  (exists e', move_up e = Some e' /\ holds e' (act Up tx) /\ aside e' = aside e) /\
  (exists e', move_down e = Some e' /\ holds e' (act Down tx) /\ aside e' = aside e).
Proof.
  intros Hh. destruct tx as [l r]. unfold move_up, move_down, line_of, col_of, total_lines. rewrite (prefix_cur _ _ Hh), (prefix_text _ _ Hh).
  cbn [mbind option_bind fst snd]. rewrite !lines_count, col_spec. change (default [] (last (lines l))) with (default [] (last (lines (l, r).1))).
  fold (column (l, r)). cbn [act]. unfold row. cbn [fst snd]. destruct (lines_cons l) as (x & xs & E).
  assert (Hll : (length (lines l) <= length (lines (l ++ r)))%nat).
  { clear. induction l as [|c l IH]; cbn [app]; [destruct (lines_cons r) as (? & ? & ->); cbn; lia|]. cbn [lines]. destruct (c =? NL); [cbn; lia|].
    destruct (lines_cons l) as (? & ? & El), (lines_cons (l ++ r)) as (? & ? & Elr). rewrite El, Elr in *. cbn in *. lia. }
  assert (Hpos : (0 < length (lines l))%nat) by (rewrite E; cbn; lia). split.
  - destruct (decide (length (lines l) - 1 = 0)%nat) as [H0|H0].
    { replace (0 + Z.of_nat (length (lines l)) - 1 =? 0) with true by lia. by exists e. }
    replace (0 + Z.of_nat (length (lines l)) - 1 =? 0) with false by lia.
    replace (0 + Z.of_nat (length (lines l)) - 1 - 1) with (Z.of_nat (length (lines l) - 1 - 1)) by lia.
    apply go_line_holds; [done|]. cbn [fst snd]. lia.
  - destruct (decide (length (lines (l ++ r)) <= length (lines l) - 1 + 1)%nat) as [H0|H0].
    { replace (_ <=? _) with true by lia. by exists e. }
    replace (_ <=? _) with false by lia.
    replace (0 + Z.of_nat (length (lines l)) - 1 + 1) with (Z.of_nat (length (lines l) - 1 + 1)) by lia.
    apply go_line_holds; [done|]. cbn [fst snd]. lia.
Qed.

Lemma side_holds (e : edit) tx : holds e tx ->
  (holds (move_left e) (act Left tx) /\ aside (move_left e) = aside e) /\ (holds (move_right e) (act Right tx) /\ aside (move_right e) = aside e).
Proof.
  intros Hh. destruct tx as [l r]. destruct (Hh) as [(z & Eb) Hs Hl Hc Hr Ht]. cbn [fst snd] in *. unfold move_left, move_right. cbn [act]. split.
  - destruct l as [|x l _] using rev_ind; [rewrite Hc; by change (0 <? zlen (@nil Z)) with false|].
    rewrite last_snoc, length_app. cbn [length]. replace (length l + 1 - 1)%nat with (length l) by lia. rewrite take_app_length.
    rewrite Hc, zlen_app. change (zlen [x]) with 1. assert (0 <= zlen l) by (unfold zlen; lia). replace (0 <? zlen l + 1) with true by lia.
    split; [|done]. constructor; cbn [put_cur buf buf_len cur top_line fst snd]; try done;
      [exists z; by rewrite Eb, <- app_assoc|by rewrite Hl, <- app_assoc|lia].
  - rewrite zlen_app in Hl. destruct r as [|x r].
    + change (zlen (@nil Z)) with 0 in Hl. by replace (cur e <? buf_len e) with false by lia.
    + assert (Hx : zlen (x :: r) = 1 + zlen r) by (unfold zlen; cbn [length]; lia). assert (0 <= zlen r) by (unfold zlen; lia).
      replace (cur e <? buf_len e) with true by lia. split; [|done].
      constructor; cbn [put_cur buf buf_len cur top_line fst snd]; rewrite ?zlen_app; try done;
        [exists z; by rewrite Eb, <- app_assoc|change (zlen [x]) with 1; lia|change (zlen [x]) with 1; lia].
Qed.

Lemma edit_key_holds (e : edit) tx raw : holds e tx -> Z.testbit raw 8 = false ->
  exists e', edit_key (Z.land raw 0xFF) (Z.testbit raw 9) e = Some e' /\ holds e' (act (meaning raw) tx) /\ aside e' = aside e.
Proof.
  intros Hh H8. unfold edit_key, meaning. rewrite H8. destruct (move_holds e tx Hh) as [Hu Hd]. destruct (side_holds e tx Hh) as [Hlf Hrt].
  destruct (Z.land raw 0xFF =? 0x48); [exact Hu|]. destruct (Z.land raw 0xFF =? 0x50); [exact Hd|].
  destruct (Z.land raw 0xFF =? 0x4B); [eauto|]. destruct (Z.land raw 0xFF =? 0x4D); [eauto|]. destruct tx as [l r].
  destruct (Z.land raw 0xFF =? 0x0E); [by apply delete_holds|]. destruct (Z.land raw 0xFF =? 0x1C); [by apply insert_holds|].
  case_match; [by apply insert_holds|by exists e].
Qed.

(** ** Drawing *)

Lemma sb_put_run c b : zlen b < 80 -> exists b', sb_put c b = Some b' /\ zlen b' = zlen b + 1.
Proof. intros Hb. unfold sb_put. replace (zlen b <? 80) with true by lia. eexists. split; [done|]. by rewrite zlen_app. Qed.

Lemma sb_str_run s : forall b, zlen b <= 80 -> exists b', sb_str s b = Some b' /\ zlen b <= zlen b' <= Z.max (zlen b) 78.
Proof.
  induction s as [|c s IH]; intros b Hb; cbn [sb_str]; [exists b; split; [done|lia]|]. unfold COLS.
  destruct (Z.ltb_spec (zlen b) (80 - 2)); [|exists b; split; [done|lia]].
  destruct (sb_put_run c b ltac:(lia)) as (b1 & -> & E1). cbn [mbind option_bind]. destruct (IH b1 ltac:(lia)) as (b2 & -> & E2).
  exists b2. split; [done|lia].
Qed.

Lemma sb_puts_run s : forall b, zlen b + zlen s <= 80 -> exists b', sb_puts s b = Some b' /\ zlen b' = zlen b + zlen s.
Proof.
  induction s as [|c s IH]; intros b Hb; cbn [sb_puts]; [exists b; split; [done|]; change (zlen (@nil Z)) with 0; lia|].
  assert (Hc : zlen (c :: s) = 1 + zlen s) by (unfold zlen; cbn [length]; lia). assert (0 <= zlen s) by (unfold zlen; lia).
  destruct (sb_put_run c b ltac:(lia)) as (b1 & -> & E1). cbn [mbind option_bind]. destruct (IH b1 ltac:(lia)) as (b2 & -> & E2).
  exists b2. split; [done|lia].
Qed.

Lemma sb_if_run s b : zlen b <= 80 -> zlen s <= 3 -> exists b', sb_if s b = Some b' /\ zlen b <= zlen b' <= 80.
Proof.
  intros Hb Hs. unfold sb_if, COLS. assert (0 <= zlen s) by (unfold zlen; lia). destruct (Z.ltb_spec (zlen b) (80 - 2)); [|exists b; split; [done|lia]].
  destruct (sb_puts_run s b ltac:(lia)) as (b1 & -> & E1). exists b1. split; [done|lia].
Qed.

Lemma sb_pad_run fuel : forall b, 79 <= zlen b + Z.of_nat fuel -> zlen b <= 80 -> exists b', sb_pad fuel b = Some b' /\ 79 <= zlen b'.
Proof.
  induction fuel as [|fuel IH]; intros b Hf Hb; cbn [sb_pad]; unfold COLS; destruct (Z.ltb_spec (zlen b) (80 - 1)); try (exists b; split; [done|lia]); [lia|].
  destruct (sb_put_run 32 b ltac:(lia)) as (b1 & -> & E1). cbn [mbind option_bind]. apply IH; lia.
Qed.

(** The array [sbar] is large enough for any names, texts and numbers. *)
Lemma status_bar_run fname status cur_line cur_col : exists sbar, status_bar fname status cur_line cur_col = Some sbar /\ 79 <= zlen sbar.
Proof.
  unfold status_bar. change (sb_put 32 []) with (Some [32]). cbn [mbind option_bind].
  destruct (sb_str_run fname [32]) as (b1 & -> & E1); [by compute|]. change (zlen [32]) with 1 in E1. cbn [mbind option_bind].
  destruct (sb_puts_run [32; 32] b1) as (b2 & -> & E2); [change (zlen [32; 32]) with 2; lia|]. change (zlen [32; 32]) with 2 in E2. cbn [mbind option_bind].
  destruct (sb_if_run [76; 58] b2 ltac:(lia)) as (b3 & -> & E3); [by compute|]. cbn [mbind option_bind].
  assert (Hu : forall v, nos_uitoa (u32 v) (replicate 12 0) = Some (c99_digits 10 false None (u32 v))) by (intros v; apply uitoa_decimal; [apply u32_range|by compute]).
  rewrite !Hu. cbn [mbind option_bind]. destruct (sb_str_run (c99_digits 10 false None (u32 (cur_line + 1))) b3 ltac:(lia)) as (b4 & -> & E4). cbn [mbind option_bind].
  destruct (sb_if_run [32; 67; 58] b4 ltac:(lia)) as (b5 & -> & E5); [by compute|]. cbn [mbind option_bind].
  destruct (sb_str_run (c99_digits 10 false None (u32 (cur_col + 1))) b5 ltac:(lia)) as (b6 & -> & E6). cbn [mbind option_bind].
  assert (Hst : exists b7, (if negb (bool_decide (status = [])) && (zlen b6 <? COLS - 2) then sbar ← sb_puts [32; 32] b6; sb_str status sbar else Some b6) = Some b7 /\ zlen b7 <= 80).
  { destruct (negb _ && _) eqn:E; [|exists b6; split; [done|lia]]. unfold COLS in E.
    destruct (sb_puts_run [32; 32] b6) as (b7 & -> & E7); [change (zlen [32; 32]) with 2; lia|]. cbn [mbind option_bind]. change (zlen [32; 32]) with 2 in E7.
    destruct (sb_str_run status b7 ltac:(lia)) as (b8 & -> & E8). exists b8. split; [done|lia]. }
  destruct Hst as (b7 & -> & E7). cbn [mbind option_bind]. apply sb_pad_run; [unfold zlen; lia|lia].
Qed.

(** *** The bytes of the status bar *)

(** All bytes of [l] satisfy [ok]. *)
Definition inks (ok : Z -> bool) (l : list Z) : Prop := Forall (fun x => ok x = true) l.
Definition inks_text (ok : Z -> bool) (l : list Z) : Prop := Forall (fun x => x = NL \/ ok x = true) l.
(** ... among them the characters of the keyboard. *)
Definition plain (ok : Z -> bool) : Prop := forall c, 32 <= c < 127 -> ok c = true.

Lemma inks_forallb ok l : inks ok l -> forallb ok l = true.
Proof. intros Hl. apply forallb_forall. intros x Hx. unfold inks in Hl. rewrite list.Forall_forall in Hl. by apply Hl, list_elem_of_In. Qed.
Lemma inks_take ok n l : inks ok l -> inks ok (take n l).
Proof. apply Forall_take. Qed.

Lemma sb_put_inks ok c b b' : sb_put c b = Some b' -> ok c = true -> inks ok b -> inks ok b'.
Proof. unfold sb_put. case_if; [|done]. intros [= <-] Hc Hb. apply Forall_app_2; [done|]. by apply Forall_cons_2. Qed.
Lemma sb_str_inks ok s : forall b b', sb_str s b = Some b' -> inks ok s -> inks ok b -> inks ok b'.
Proof.
  induction s as [|c s IH]; intros b b'; cbn [sb_str]; [by intros [= <-]|]. case_if; [|by intros [= <-]].
  destruct (sb_put c b) as [b1|] eqn:E; [|done]. cbn [mbind option_bind]. intros E' [Hc Hs]%list.Forall_cons Hb. exact (IH _ _ E' Hs (sb_put_inks _ _ _ _ E Hc Hb)).
Qed.
Lemma sb_puts_inks ok s : forall b b', sb_puts s b = Some b' -> inks ok s -> inks ok b -> inks ok b'.
Proof.
  induction s as [|c s IH]; intros b b'; cbn [sb_puts]; [by intros [= <-]|].
  destruct (sb_put c b) as [b1|] eqn:E; [|done]. cbn [mbind option_bind]. intros E' [Hc Hs]%list.Forall_cons Hb. exact (IH _ _ E' Hs (sb_put_inks _ _ _ _ E Hc Hb)).
Qed.
Lemma sb_if_inks ok s b b' : sb_if s b = Some b' -> inks ok s -> inks ok b -> inks ok b'.
Proof. unfold sb_if. case_if; [apply sb_puts_inks|by intros [= <-]]. Qed.
Lemma sb_pad_inks ok fuel : ok 32 = true -> forall b b', sb_pad fuel b = Some b' -> inks ok b -> inks ok b'.
Proof.
  intros H32. induction fuel as [|fuel IH]; intros b b'; cbn [sb_pad]; (case_if; [|by intros [= <-]]); [done|].
  destruct (sb_put 32 b) as [b1|] eqn:E; [|done]. cbn [mbind option_bind]. intros E' Hb. exact (IH _ _ E' (sb_put_inks _ _ _ _ E H32 Hb)).
Qed.

Lemma decimal_inks ok v : plain ok -> 0 <= v -> inks ok (c99_digits 10 false None v).
Proof.
  intros Hp Hv. assert (Hs : forall n u, 0 <= u -> inks ok (show n 10 false u)).
  { induction n as [|n IH]; intros u Hu; cbn [show]; [constructor|]. case_if; [constructor|]. apply Forall_app_2; [apply IH, Z.div_pos; lia|].
    apply Forall_singleton, Hp. pose proof (Z.mod_pos_bound u 10 ltac:(lia)). unfold digit_char. case_if; lia. }
  unfold c99_digits. apply Forall_app_2; [apply Forall_replicate, Hp; lia|by apply Hs].
Qed.

Lemma status_bar_inks ok fname status cur_line cur_col sbar : plain ok -> inks ok fname -> inks ok status ->
  status_bar fname status cur_line cur_col = Some sbar -> inks ok sbar.
Proof.
  intros Hp Hf Hs. assert (Hl : forall l, Forall (fun c => 32 <= c < 127) l -> inks ok l) by (intros l Hl; exact (list.Forall_impl _ _ _ Hl Hp)).
  assert (Hu : forall v s, nos_uitoa (u32 v) (replicate 12 0) = Some s -> inks ok s).
  { intros v s. rewrite uitoa_decimal; [|apply u32_range|by compute]. intros [= <-]. apply decimal_inks; [done|apply u32_range]. }
  unfold status_bar. change (sb_put 32 []) with (Some [32]). cbn [mbind option_bind].
  assert (H0 : inks ok [32]) by (apply Hl; by repeat constructor). assert (K1 : inks ok [32; 32]) by (apply Hl; by repeat constructor).
  assert (K2 : inks ok [76; 58]) by (apply Hl; by repeat constructor). assert (K3 : inks ok [32; 67; 58]) by (apply Hl; by repeat constructor).
  destruct (sb_str fname [32]) as [b1|] eqn:E1; [|done]. cbn [mbind option_bind]. pose proof (sb_str_inks _ _ _ _ E1 Hf H0) as H1.
  destruct (sb_puts [32; 32] b1) as [b2|] eqn:E2; [|done]. cbn [mbind option_bind]. pose proof (sb_puts_inks _ _ _ _ E2 K1 H1) as H2.
  destruct (sb_if [76; 58] b2) as [b3|] eqn:E3; [|done]. cbn [mbind option_bind]. pose proof (sb_if_inks _ _ _ _ E3 K2 H2) as H3.
  destruct (nos_uitoa (u32 (cur_line + 1)) (replicate 12 0)) as [ln|] eqn:El; [|done]. cbn [mbind option_bind].
  destruct (sb_str ln b3) as [b4|] eqn:E4; [|done]. cbn [mbind option_bind]. pose proof (sb_str_inks _ _ _ _ E4 (Hu _ _ El) H3) as H4.
  destruct (sb_if [32; 67; 58] b4) as [b5|] eqn:E5; [|done]. cbn [mbind option_bind]. pose proof (sb_if_inks _ _ _ _ E5 K3 H4) as H5.
  destruct (nos_uitoa (u32 (cur_col + 1)) (replicate 12 0)) as [cn|] eqn:Ec; [|done]. cbn [mbind option_bind].
  destruct (sb_str cn b5) as [b6|] eqn:E6; [|done]. cbn [mbind option_bind]. pose proof (sb_str_inks _ _ _ _ E6 (Hu _ _ Ec) H5) as H6.
  assert (Hst : forall b7, (if negb (bool_decide (status = [])) && (zlen b6 <? COLS - 2) then sbar ← sb_puts [32; 32] b6; sb_str status sbar else Some b6) = Some b7 -> inks ok b7).
  { intros b7. case_if; [|by intros [= <-]]. destruct (sb_puts [32; 32] b6) as [b|] eqn:E; [|done]. cbn [mbind option_bind]. intros E7.
    eapply sb_str_inks; [exact E7|done|]. eapply sb_puts_inks; [exact E|exact K1|done]. }
  destruct (if negb _ && _ then _ else _) as [b7|] eqn:E7; [|done]. cbn [mbind option_bind]. intros E8.
  eapply sb_pad_inks; [|exact E8|by apply Hst]. apply Hp. lia.
Qed.

(** *** The cursor *)

(** Follows the cursor along a trace that only draws, one column per byte: every
    position is on the screen of 25 rows, no row gets a byte beyond its column
    78, and all bytes satisfy [ok]. *)
Fixpoint draw (ok : Z -> bool) (col : Z) (tr : list (ucall * answer)) : option Z :=
  match tr with
  | [] => Some col
  | (Ucall num args, _) :: tr' =>
      if num =? SYS_WRITE then
        match args with [AInt 1; ABytes b] => if (col + zlen b <=? 79) && forallb ok b then draw ok (col + zlen b) tr' else None | _ => None end
      else if num =? SYS_GOTOXY then
        match args with
        | [AInt x; AInt y] => if (0 <=? x) && (x <? 80) && (0 <=? y) && (y <? 25) then draw ok x tr' else None
        | _ => None
        end
      else if num =? SYS_CLEAR then draw ok 0 tr'
      else if num =? SYS_SETCOLOR then draw ok col tr'
      else None
  end.

Lemma draw_app ok tr1 tr2 : forall col, draw ok col (tr1 ++ tr2) = match draw ok col tr1 with Some col' => draw ok col' tr2 | None => None end.
Proof.
  induction tr1 as [|[[num args] a] tr1 IH]; intros col; [done|]. cbn [app draw]. repeat case_match; try done; rewrite IH;
    by repeat match goal with E : draw _ _ tr1 = _ |- _ => rewrite E; clear E end.
Qed.

(** The bytes read from a file, the keys read and the texts saved along a trace. *)
Definition loaded (tr : list (ucall * answer)) : list Z :=
  omap (fun ca => if (uc_num ca.1 =? SYS_READ) && (0 <? an_ret ca.2) then Some ((an_data ca.2).[0]) else None) tr.
Definition keys_of (tr : list (ucall * answer)) : list Z :=
  omap (fun ca => if uc_num ca.1 =? SYS_READ_RAW then Some (an_ret ca.2) else None) tr.
Definition saves_of (tr : list (ucall * answer)) : list (list Z) :=
  omap (fun ca => match uc_args ca.1 with [_; ABytes b] => if uc_num ca.1 =? SYS_WRITE_FILE then Some b else None | _ => None end) tr.

Lemma draw_quiet ok tr : forall col c', draw ok col tr = Some c' -> keys_of tr = [] /\ saves_of tr = [] /\ loaded tr = [].
Proof.
  induction tr as [|[[num args] a] tr IH]; intros col c' E; [done|]. cbn [draw] in E. unfold keys_of, saves_of, loaded in *. cbn [omap list_omap uc_num uc_args fst snd].
  destruct (Z.eqb_spec num SYS_WRITE) as [->|]; [|destruct (Z.eqb_spec num SYS_GOTOXY) as [->|]; [|destruct (Z.eqb_spec num SYS_CLEAR) as [->|];
    [|destruct (Z.eqb_spec num SYS_SETCOLOR) as [->|]; [|done]]]]; repeat match goal with |- context [?a =? ?b] => let r := eval vm_compute in (a =? b) in change (a =? b) with r end;
    repeat case_match; simplify_eq; try done; eauto.
Qed.

Section refines.
Context {W : Type} `{UserKernel W} `{Texts}.
Local Notation M := (uM W edit).

(** [m] only draws: it leaves the editor as it is and takes the column [c] to a
    column for which [Q] holds; its bytes satisfy every [ok] of the class [P]. *)
Section draws.
Variable P : (Z -> bool) -> Prop.
Hypothesis P_plain : forall ok, P ok -> plain ok.

Definition draws {A} (m : M A) (c : Z) (e : edit) (Q : Z -> A -> Prop) : Prop :=
  uwp m (fun tr o e' => e' = e /\ exists a c', o = Go a /\ (forall ok, P ok -> draw ok c tr = Some c') /\ Q c' a) e.

Lemma draws_ret {A} (a : A) c e (Q : Z -> A -> Prop) : Q c a -> draws (mret a) c e Q.
Proof. intros HQ. apply uwp_ret. eauto 8. Qed.
Lemma draws_bind {A B} (m : M A) (f : A -> M B) c e (Q : Z -> B -> Prop) : draws m c e (fun c' a => draws (f a) c' e Q) -> draws (m ≫= f) c e Q.
Proof.
  intros Hm. apply uwp_bind. eapply uwp_mono; [exact Hm|]. cbv beta. intros tr o e' (-> & a & c' & -> & Hd & Hf).
  eapply uwp_mono; [exact Hf|]. cbv beta. intros tr' o' e'' (-> & b & c'' & -> & Hd' & HQ). split; [done|]. exists b, c''. split; [done|].
  split; [|done]. intros ok Hok. rewrite draw_app, (Hd ok Hok). by apply Hd'.
Qed.
Lemma draws_mono {A} (m : M A) c e (R Q : Z -> A -> Prop) : draws m c e R -> (forall c' a, R c' a -> Q c' a) -> draws m c e Q.
Proof. intros Hm HQ. eapply uwp_mono; [exact Hm|]. cbv beta. intros tr o e' (-> & a & c' & -> & Hd & HP). eauto 8. Qed.

Lemma draws_write b c e (Q : Z -> Z -> Prop) : (forall ok, P ok -> inks ok b) -> c + zlen b <= 79 -> (forall a, Q (c + zlen b) a) -> draws (nos_write 1 b) c e Q.
Proof.
  intros Hi Hb HQ. apply uwp_syscall_ret. intros a. split; [done|]. exists (an_ret a), (c + zlen b). split; [done|]. split; [|apply HQ].
  intros ok Hok. cbn [draw]. change (SYS_WRITE =? SYS_WRITE) with true. cbv iota. rewrite (inks_forallb ok b) by auto. by replace (c + zlen b <=? 79) with true by lia.
Qed.
Lemma draws_goto x y c e (Q : Z -> () -> Prop) : 0 <= x < 80 -> 0 <= y < 25 -> Q x () -> draws (nos_gotoxy x y) c e Q.
Proof.
  intros Hx Hy HQ. apply uwp_bind, uwp_syscall_ret. intros a. apply uwp_ret. split; [done|]. exists (), x. split; [done|]. split; [|done].
  intros ok _. cbn [app draw]. change (SYS_GOTOXY =? SYS_WRITE) with false. change (SYS_GOTOXY =? SYS_GOTOXY) with true. cbv iota.
  by replace ((0 <=? x) && (x <? 80) && (0 <=? y) && (y <? 25)) with true by lia.
Qed.
Lemma draws_color fg bg c e (Q : Z -> () -> Prop) : Q c () -> draws (nos_setcolor fg bg) c e Q.
Proof. intros HQ. apply uwp_bind, uwp_syscall_ret. intros a. apply uwp_ret. split; [done|]. by exists (), c. Qed.

Lemma spaces_inks ok n : P ok -> inks ok (take n spaces32).
Proof. intros Hok. apply inks_take, Forall_replicate, P_plain; [done|lia]. Qed.

Lemma draws_spaces_loop fuel : forall n c e (Q : Z -> () -> Prop), n < 32 * (Z.of_nat fuel + 1) -> 0 <= n -> 0 <= c -> c + n <= 79 ->
  Q (c + n) () -> draws (write_spaces_loop fuel n) c e Q.
Proof.
  assert (Hlast : forall n c e (Q : Z -> () -> Prop), 0 <= n < 32 -> c + n <= 79 -> Q (c + n) () ->
    draws (if n =? 0 then mret () else nos_write 1 (take (Z.to_nat n) spaces32);; mret ()) c e Q).
  { intros n c e Q Hn Hc HQ. assert (Hz : zlen (take (Z.to_nat n) spaces32) = n) by (unfold zlen, spaces32; rewrite length_take, length_replicate; lia).
    destruct (Z.eqb_spec n 0) as [->|]; [apply draws_ret; by rewrite Z.add_0_r in HQ|].
    apply draws_bind, draws_write; rewrite ?Hz; [intros ok; apply spaces_inks|lia|]. intros a. by apply draws_ret. }
  induction fuel as [|fuel IH]; intros n c e Q Hf Hn Hc Hfit HQ; cbn [write_spaces_loop]; (destruct (Z.leb_spec 32 n); [|apply Hlast; [lia|lia|done]]); [lia|].
  apply draws_bind, draws_write; change (zlen spaces32) with 32; [intros ok; apply (spaces_inks ok 32)|lia|]. intros a. apply IH; [lia..|]. by replace (c + 32 + (n - 32)) with (c + n) by lia.
Qed.

Lemma draws_spaces n c e (Q : Z -> () -> Prop) : 0 <= n -> 0 <= c -> c + n <= 79 -> Q (c + n) () -> draws (write_spaces n) c e Q.
Proof.
  intros Hn Hc Hf HQ. apply draws_spaces_loop; try done.
  rewrite Z2Nat.id by (apply Z.div_pos; lia). Z.div_mod_to_equations; lia.
Qed.

Lemma draws_row k : forall t col e (Q : Z -> list Z * Z -> Prop), (forall ok, P ok -> inks_text ok t) -> 0 <= col -> col + Z.of_nat k <= 79 ->
  (forall t' col', (forall ok, P ok -> inks_text ok t') -> col <= col' <= col + Z.of_nat k -> Q col' (t', col')) -> draws (row_loop k t col) col e Q.
Proof.
  induction k as [|k IH]; intros t col e Q Ht Hc Hk HQ; cbn [row_loop]; [destruct t; apply draws_ret, HQ; done || lia|].
  destruct t as [|x t]; [apply draws_ret, HQ; done || lia|]. destruct (Z.eqb_spec x NL) as [->|Hx]; [apply draws_ret, HQ; done || lia|].
  apply draws_bind, draws_write; change (zlen [x]) with 1; [|lia|].
  - intros ok Hok. apply Forall_singleton. specialize (Ht ok Hok). apply list.Forall_cons in Ht as [[?|?] _]; done.
  - intros a. apply IH; [|lia|lia|]; [intros ok Hok; specialize (Ht ok Hok); by apply list.Forall_cons in Ht as [_ ?]|].
    intros t' col' Ht' Hcol. apply HQ; [done|lia].
Qed.

Lemma draws_rows n : forall row t c e (Q : Z -> () -> Prop), (forall ok, P ok -> inks_text ok t) -> 0 <= row -> row + Z.of_nat n <= 25 ->
  (forall c', Q c' ()) -> draws (rows_loop n row t) c e Q.
Proof.
  induction n as [|n IH]; intros row t c e Q Ht Hr Hn HQ; cbn [rows_loop]; [by apply draws_ret|]. unfold COLS.
  apply draws_bind, draws_goto; [lia|lia|]. apply draws_bind. change (Z.to_nat (80 - 1)) with 79%nat. apply draws_row; [done|lia|lia|].
  intros t' col' Ht' Hcol. cbn [fst snd]. apply draws_bind, draws_spaces; [lia|lia|lia|]. apply IH; [|lia|lia|done].
  intros ok Hok. specialize (Ht' ok Hok). unfold skip_newline. destruct t' as [|x t']; [done|]. apply list.Forall_cons in Ht' as [Hx Ht'].
  destruct (x =? NL); [done|by apply Forall_cons_2].
Qed.
End draws.

Lemma viewport_spec top cur_line : 0 <= top <= BUF_SIZE -> 0 <= cur_line <= BUF_SIZE ->
  let v := viewport top cur_line in 0 <= v <= BUF_SIZE /\ 0 <= u32 (cur_line - v) < TEXT_ROWS /\ v <= cur_line.
Proof.
  unfold viewport, TEXT_ROWS, BUF_SIZE. intros Ht Hc. cbv zeta. set (t := if cur_line <? top then cur_line else top).
  assert (0 <= t <= cur_line /\ t <= 4096) by (unfold t; case_if; lia). rewrite (u32_small (t + 23)) by lia.
  destruct (Z.leb_spec (t + 23) cur_line); [rewrite (u32_small (cur_line - 23 + 1)) by lia|]; rewrite u32_small; lia.
Qed.

(** The messages of the editor. *)
Definition ed_msgs : list umsg := [UMSG_ED_HELP_BAR; UMSG_ED_NO_NAME; UMSG_ED_SAVED; UMSG_ED_SAVED_NO_DISK].

(** What is drawn: the messages, the name, the status and the text. *)
Record inked (e : edit) (tx : text) (ok : Z -> bool) : Prop := {
  ik_plain : plain ok;
  ik_msgs : Forall (fun id => inks ok (msg id)) ed_msgs;
  ik_name : inks ok (filename e);
  ik_status : inks ok (status e);
  ik_text : inks_text ok (tx.1 ++ tx.2)
}.

Lemma inked_all e tx : inked e tx (fun _ => true).
Proof. split; [done|..]; repeat apply Forall_true; auto. intros id. apply Forall_true. auto. Qed.

(** Redrawing stays on the screen and touches nothing but [top_line]. *)
Lemma render_draws e tx : holds e tx ->
  uwp render (fun tr o e' => o = Go () /\ holds e' tx /\ (filename e', file_fd e') = (filename e, file_fd e) /\
    exists c', forall ok, inked e tx ok -> forall c, draw ok c tr = Some c') e.
Proof.
  intros Hh. unfold render. apply uwp_bind, uwp_gets. cbn [id]. unfold line_of, col_of, line_start. rewrite (prefix_cur _ _ Hh), (prefix_text _ _ Hh).
  cbn [mbind option_bind]. apply uwp_bind. eapply uwp_defined; [done|]. apply uwp_bind. eapply uwp_defined; [done|].
  set (cl := count_lines tx.1 0). set (cc := col_loop (reverse tx.1) 0).
  assert (Hz : zlen tx.1 <= 4095). { destruct (Hh) as [_ _ Hl _ Hr _]. rewrite zlen_app in Hl. unfold BUF_SIZE in Hr. assert (0 <= zlen tx.2) by (unfold zlen; lia). lia. }
  assert (Hln : forall t, Z.of_nat (length (lines t)) <= 1 + zlen t).
  { clear. induction t as [|c t IH]; [done|]. unfold zlen in *. cbn [lines length]. destruct (c =? NL); [cbn [length]; lia|]. destruct (lines_cons t) as (x & xs & E). rewrite E in *. cbn [length] in *. lia. }
  assert (Hcl : 0 <= cl <= BUF_SIZE). { unfold cl, BUF_SIZE. rewrite lines_count. specialize (Hln tx.1). destruct (lines_cons tx.1) as (x & xs & E). rewrite E in *. cbn [length] in *. lia. }
  assert (Hcc : 0 <= cc) by (unfold cc; rewrite col_spec; lia).
  destruct (viewport_spec (top_line e) cl (ed_top _ _ Hh) Hcl) as (Hv & Hvr & _). set (v := viewport (top_line e) cl) in *.
  apply uwp_bind, uwp_modify. set (e1 := put_top v e).
  assert (Hh1 : holds e1 tx) by (destruct Hh; by constructor).
  apply uwp_bind, uwp_bind, uwp_syscall_ret. intros a0. apply uwp_ret.
  eapply (uwp_mono _ (fun tr o e' => e' = e1 /\ exists a c', o = Go a /\ (forall ok, inked e tx ok -> draw ok 0 tr = Some c') /\ True)).
  2:{ cbv beta. intros tr o e' (-> & [] & c' & -> & Hd & _). cbn [app]. split; [done|]. split; [done|]. split; [done|]. exists c'. intros ok Hok c. by apply Hd. }
  match goal with |- uwp ?m _ ?e0 => change (draws (inked e tx) m 0 e0 (fun _ _ => True)) end.
  pose proof (fun ok => ik_plain e tx ok) as Hpl.
  assert (Hdef : forall A (o : option A) a c (Q : Z -> A -> Prop), o = Some a -> Q c a -> draws (inked e tx) (udefined o) c e1 Q).
  { intros A o a c Q Ho HQ. eapply uwp_defined; [exact Ho|]. eauto 8. }
  apply draws_bind, draws_color, draws_bind. eapply Hdef; [done|]. apply draws_bind. eapply Hdef; [done|].
  apply draws_bind, draws_rows; [done| |lia|by compute|].
  { intros ok Hok. apply Forall_drop, Hok. }
  intros c1. apply draws_bind, draws_goto; [lia|by compute|]. apply draws_bind, draws_color.
  set (help := msg UMSG_ED_HELP_BAR). unfold strlen, COLS, STAT_ROW. set (hlen := if 80 - 1 <? zlen help then 80 - 1 else zlen help).
  assert (Hh2 : 0 <= hlen <= 79 /\ zlen (take (Z.to_nat hlen) help) = hlen) by (unfold hlen, zlen; rewrite length_take; case_if; lia).
  destruct Hh2 as [Hh2 Hh3]. apply draws_bind, draws_write; rewrite ?Hh3; [intros ok [_ Hms _ _ _]; apply inks_take; by inversion Hms|lia|]. intros _. apply draws_bind, draws_spaces; [done|lia|lia|lia|].
  apply draws_bind, draws_goto; [lia|lia|]. apply draws_bind, draws_color, draws_bind.
  destruct (status_bar_run (if bool_decide (filename e = []) then msg UMSG_ED_NO_NAME else filename e) (status e) cl cc) as (sbar & Es & Hs).
  eapply Hdef; [exact Es|]. change (Z.to_nat (80 - 1)) with 79%nat.
  assert (Ht : zlen (take 79 sbar) = 79) by (unfold zlen in *; rewrite length_take; lia).
  apply draws_bind, draws_write; rewrite ?Ht; [|lia|].
  { intros ok Hok. apply inks_take. refine (status_bar_inks ok _ _ _ _ sbar (ik_plain _ _ _ Hok) _ (ik_status _ _ _ Hok) Es). case_if; [|apply Hok].
    destruct Hok as [_ Hms _ _ _]. apply list.Forall_cons in Hms as [_ Hms]. by inversion Hms. }
  intros _. apply draws_bind, draws_color, draws_goto; [case_if; lia|unfold TEXT_ROWS in Hvr; lia|done].
Qed.

(** ** Sessions *)

(** As [draw], over a trace with other traps too. *)
Fixpoint on_screen (ok : Z -> bool) (col : Z) (tr : list (ucall * answer)) : bool :=
  match tr with
  | [] => true
  | (Ucall num args, _) :: tr' =>
      if num =? SYS_WRITE then
        match args with [AInt 1; ABytes b] => (col + zlen b <=? 79) && forallb ok b && on_screen ok (col + zlen b) tr' | _ => false end
      else if num =? SYS_GOTOXY then
        match args with
        | [AInt x; AInt y] => (0 <=? x) && (x <? 80) && (0 <=? y) && (y <? 25) && on_screen ok x tr'
        | _ => false
        end
      else on_screen ok (if num =? SYS_CLEAR then 0 else col) tr'
  end.

Lemma draw_on_screen ok tr : forall col c' tr', draw ok col tr = Some c' -> on_screen ok c' tr' = true -> on_screen ok col (tr ++ tr') = true.
Proof.
  induction tr as [|[[num args] a] tr IH]; intros col c' tr' Hd Hs; [by injection Hd as ->|]. cbn [app on_screen draw] in *.
  repeat case_match; simplify_eq; try done; rewrite ?andb_true_iff; split_and?; eauto.
Qed.

(** What a session does to the text, and what it saves. *)
Definition text_after (keys : list Z) (tx : text) : text := fold_left (fun tx k => act (meaning k) tx) keys tx.
Fixpoint saved (keys : list Z) (tx : text) : list (list Z) :=
  match keys with
  | [] => []
  | k :: ks => (if decide (meaning k = Save) then [tx.1 ++ tx.2] else []) ++ saved ks (act (meaning k) tx)
  end.

Lemma keys_app tr1 tr2 : keys_of (tr1 ++ tr2) = keys_of tr1 ++ keys_of tr2.
Proof. apply omap_app. Qed.
Lemma saves_app tr1 tr2 : saves_of (tr1 ++ tr2) = saves_of tr1 ++ saves_of tr2.
Proof. apply omap_app. Qed.

Lemma loaded_app tr1 tr2 : loaded (tr1 ++ tr2) = loaded tr1 ++ loaded tr2.
Proof. apply omap_app. Qed.

(** Whatever follows these traps stays on the screen. *)
Definition leads (ok : Z -> bool) (tr : list (ucall * answer)) : Prop :=
  forall c tr', (forall c', on_screen ok c' tr' = true) -> on_screen ok c (tr ++ tr') = true.
(** The traps after the key. *)
Definition calm (tr : list (ucall * answer)) : Prop := (keys_of tr = [] /\ loaded tr = []) /\ forall ok, leads ok tr.

(** Editing keeps what is drawn in the class. *)
Lemma act_inks ok raw tx : plain ok -> inks_text ok (tx.1 ++ tx.2) -> inks_text ok ((act (meaning raw) tx).1 ++ (act (meaning raw) tx).2).
Proof.
  destruct tx as [l r]. cbn [fst snd]. intros Hp Ht. assert (Hm : forall c, meaning raw = Insert c -> c = NL \/ ok c = true).
  { intros c. unfold meaning. cbv zeta. repeat case_match; try done; intros [= <-]; first [by left|right; apply Hp; lia]. }
  unfold inks_text in *. destruct (meaning raw) as [| | | | |c| | |] eqn:E; cbn [act]; try exact Ht.
  - case_decide; [exact Ht|]. unfold to_line. cbn [fst snd]. by rewrite take_drop.
  - case_decide; [exact Ht|]. unfold to_line. cbn [fst snd]. by rewrite take_drop.
  - destruct l as [|x l _] using rev_ind; [exact Ht|]. rewrite last_snoc, length_app. cbn [length]. replace (length l + 1 - 1)%nat with (length l) by lia.
    rewrite take_app_length. cbn [fst snd]. by rewrite <- app_assoc in Ht.
  - destruct r as [|x r]; [exact Ht|]. cbn [fst snd]. by rewrite <- app_assoc.
  - cbn [fst snd]. apply list.Forall_app in Ht as [H1 H2]. apply Forall_app_2; [by apply Forall_take|done].
  - case_if; [|exact Ht]. cbn [fst snd]. apply list.Forall_app in Ht as [H1 H2]. apply Forall_app_2; [|done]. apply Forall_app_2; [done|]. apply Forall_singleton. auto.
Qed.

Record turn_ok (e : edit) (tx : text) (tr : list (ucall * answer)) (o : fin ()) (e' : edit) (raw : Z) : Prop := {
  tn_saves : saves_of tr = if decide (meaning raw = Save) then (if 0 <=? file_fd e then [tx.1 ++ tx.2] else []) else [];
  tn_fd : file_fd e' = file_fd e;
  tn_out : match o with
    | Go _ => meaning raw <> Quit /\ holds e' (act (meaning raw) tx)
    | Exited c => meaning raw = Quit /\ c = 0
    | Faulted _ => False
    end;
  tn_inked : forall ok, inked e tx ok -> inked e' (act (meaning raw) tx) ok
}.

Lemma save_ok e tx raw : holds e tx -> meaning raw = Save -> uwp save (fun tr o e' => calm tr /\ turn_ok e tx tr o e' raw) e.
Proof.
  intros Hh Hm. assert (Hst : forall m, holds (put_status m e) tx) by (intros m; destruct Hh; by constructor).
  assert (Hin : forall id ok, id ∈ ed_msgs -> inked e tx ok -> inked (put_status (take 63 (msg id)) e) (act Save tx) ok).
  { intros id ok Hid [H1 H2 H3 H4 H5]. destruct tx as [l r]. split; try done. apply inks_take. rewrite list.Forall_forall in H2. by apply H2. }
  unfold save. apply uwp_bind, uwp_gets. cbn [id]. apply uwp_bind. destruct (0 <=? file_fd e) eqn:Ef.
  - apply uwp_bind. eapply uwp_defined; [by apply prefix_text|]. apply uwp_bind, uwp_syscall_ret. intros a. apply uwp_ret, uwp_modify. cbn [app].
    split; [split; [done|intros ok c tr' Ht; apply Ht]|]. constructor; rewrite ?Hm; [by rewrite decide_True, Ef|done|by destruct tx; split|].
    intros ok. apply Hin. unfold ed_msgs. rewrite !elem_of_cons. try case_if; tauto.
  - apply uwp_ret, uwp_modify. cbn [app]. split; [split; [done|intros ok c tr' Ht; apply Ht]|]. constructor; rewrite ?Hm; [by rewrite decide_True, Ef|done|by destruct tx; split|].
    intros ok. apply Hin. unfold ed_msgs. rewrite !elem_of_cons. try case_if; tauto.
Qed.

Lemma quit_ok e tx raw : meaning raw = Quit -> uwp quit (fun tr o e' => calm tr /\ turn_ok e tx tr o e' raw) e.
Proof.
  intros Hm. unfold quit. apply uwp_bind, uwp_bind, uwp_syscall_ret. intros a1. apply uwp_ret. apply uwp_bind, uwp_gets. apply uwp_bind.
  assert (Hrest : forall P, calm P -> saves_of P = [] -> uwp (nos_clear;; nos_gotoxy 0 0;; nos_kbd_flush;; nos_exit 0)
    (fun tr o e' => calm (P ++ tr) /\ turn_ok e tx (P ++ tr) o e' raw) e).
  { intros P [[Hk Hld] Hs] HP. do 3 (apply uwp_bind, uwp_bind, uwp_syscall_ret; intros ?; apply uwp_ret). apply uwp_exit. intros a5. cbn [app]. split.
    - split; [by rewrite keys_app, Hk, loaded_app, Hld|]. intros ok c tr' Ht. rewrite <- app_assoc. apply Hs. intros c'. cbn. apply Ht.
    - constructor; [by rewrite saves_app, HP, Hm|done|done|]. rewrite Hm. by destruct tx. }
  destruct (0 <=? file_fd e).
  - apply uwp_bind, uwp_syscall_ret. intros a2. apply uwp_ret. eapply uwp_mono; [apply (Hrest [(Ucall SYS_SET_RAW_MODE [AInt 0], a1); (Ucall SYS_CLOSE [AInt (file_fd e)], a2)]); [|done]|].
    { split; [done|]. intros ok c tr' Ht. apply Ht. }
    cbv beta. intros tr o e' Hq. exact Hq.
  - apply uwp_ret. eapply uwp_mono; [apply (Hrest [(Ucall SYS_SET_RAW_MODE [AInt 0], a1)]); [|done]|]. { split; [done|]. intros ok c tr' Ht. apply Ht. }
    cbv beta. intros tr o e' Hq. exact Hq.
Qed.

Lemma turn_holds e tx : holds e tx ->
  uwp edit_turn (fun tr o e' => exists raw, (keys_of tr = [raw] /\ loaded tr = []) /\ turn_ok e tx tr o e' raw /\
    forall ok, inked e tx ok -> leads ok tr) e.
Proof.
  intros Hh. unfold edit_turn. apply uwp_bind. eapply uwp_mono; [by apply (render_draws e tx)|]. cbv beta.
  intros tr1 o1 e1 (-> & Hh1 & Ef & c1 & Hd). injection Ef as Efn Ef. destruct (draw_quiet _ tr1 0 c1 (Hd _ (inked_all e tx) 0)) as (Hk1 & Hs1 & Hl1).
  apply uwp_bind, uwp_syscall_ret. intros a. apply uwp_bind, uwp_modify. cbn [app]. set (raw := an_ret a). set (e2 := put_status [] e1).
  assert (Hh2 : holds e2 tx) by (destruct Hh1; by constructor).
  assert (Hink : forall ok, inked e tx ok -> inked e2 tx ok).
  { intros ok [H1 H2 H3 H4 H5]. split; try done; [cbn [e2 put_status filename]; by rewrite Efn|constructor]. }
  set (k := (Ucall SYS_READ_RAW [], a)).
  assert (Hall : forall m : M (), uwp m (fun tr o e' => calm tr /\ turn_ok e2 tx tr o e' raw) e2 ->
    uwp m (fun tr o e' => exists raw, (keys_of (tr1 ++ k :: tr) = [raw] /\ loaded (tr1 ++ k :: tr) = []) /\ turn_ok e tx (tr1 ++ k :: tr) o e' raw /\
      forall ok, inked e tx ok -> leads ok (tr1 ++ k :: tr)) e2).
  { intros m Hm. eapply uwp_mono; [exact Hm|]. cbv beta. intros tr o e' [[[Hk Hl] Hc] [Hs Hfd Ho Hin]]. exists raw. split_and!.
    - rewrite keys_app, Hk1. change (k :: tr) with ([k] ++ tr). by rewrite keys_app, Hk.
    - rewrite loaded_app, Hl1. change (k :: tr) with ([k] ++ tr). by rewrite loaded_app, Hl.
    - constructor; [|by rewrite Hfd|done|intros ok Hok; by apply Hin, Hink]. rewrite saves_app, Hs1. change (k :: tr) with ([k] ++ tr). rewrite saves_app, Hs. cbn [app e2 put_status file_fd]. by rewrite Ef.
    - intros ok Hok c tr' Ht. rewrite <- app_assoc. eapply draw_on_screen; [by apply Hd|]. cbn [app on_screen k]. apply Hc, Ht. }
  assert (Hcalm : calm []) by (split; [done|]; intros ok c tr' Ht; apply Ht).
  destruct (Z.testbit raw 8) eqn:E8.
  - destruct (Z.land raw 255 =? 31) eqn:E31; [|destruct (Z.land raw 255 =? 16) eqn:E16].
    + apply Hall, save_ok; [done|]. unfold meaning. by rewrite E8, E31.
    + apply Hall, quit_ok. unfold meaning. by rewrite E8, E31, E16.
    + apply (Hall (mret ())). apply uwp_ret. split; [done|]. assert (Hm : meaning raw = Nothing) by (unfold meaning; by rewrite E8, E31, E16).
      constructor; rewrite ?Hm; [done|done|by destruct tx|by destruct tx].
  - destruct (edit_key_holds e2 tx raw Hh2 E8) as (e3 & Ek & Hh3 & Ea).
    apply (Hall (e ← ugets id; e' ← udefined (edit_key (Z.land raw 255) (Z.testbit raw 9) e); umodify (fun _ => e'))).
    apply uwp_bind, uwp_gets, uwp_bind. eapply uwp_defined; [exact Ek|]. apply uwp_modify. cbn [app]. split; [done|].
    assert (Hm : meaning raw <> Save /\ meaning raw <> Quit).
    { unfold meaning. rewrite E8. split; repeat case_match; done. }
    constructor; [by rewrite decide_False by apply Hm|by injection Ea|by split; [apply Hm|]|].
    intros ok [H1 H2 H3 H4 H5]. injection Ea as _ En Es _. split; [done|done|by rewrite En|by rewrite Es|by apply act_inks].
Qed.

Lemma loop_holds fuel : forall e tx, holds e tx ->
  uwp (edit_loop fuel) (fun tr o e' => saves_of tr = (if 0 <=? file_fd e then saved (keys_of tr) tx else []) /\
    (file_fd e' = file_fd e /\ loaded tr = []) /\ (forall ok, inked e tx ok -> forall c, on_screen ok c tr = true) /\
    match o with
    | Go _ => length (keys_of tr) = fuel /\ holds e' (text_after (keys_of tr) tx)
    | Exited c => c = 0 /\ meaning <$> list.last (keys_of tr) = Some Quit
    | Faulted _ => False
    end) e.
Proof.
  induction fuel as [|fuel IH]; intros e tx Hh; cbn [edit_loop].
  { apply uwp_ret. by destruct (0 <=? file_fd e). }
  apply uwp_bind. eapply uwp_mono; [by apply (turn_holds e tx)|]. cbv beta. intros tr o e1 (raw & [Hk Hl] & [Hs Hfd Ho Hin] & Hscr).
  assert (Hcons : forall tr', saves_of (tr ++ tr') = (if decide (meaning raw = Save) then (if 0 <=? file_fd e then [tx.1 ++ tx.2] else []) else []) ++ saves_of tr')
    by (intros tr'; by rewrite saves_app, Hs).
  destruct o as [u|c|v]; [| |done].
  - destruct Ho as [Hq Hh1]. eapply uwp_mono; [by apply (IH e1)|]. cbv beta. intros tr' o' e2 (Hs' & [Hfd' Hl'] & Hscr' & Ho').
    rewrite keys_app, Hk. cbn [app]. split_and!; [|congruence|by rewrite loaded_app, Hl, Hl'|intros ok Hok c; apply Hscr; [done|by apply Hscr', Hin]|].
    + rewrite Hcons, Hs', Hfd. destruct (0 <=? file_fd e); [by cbn [saved]|]. by destruct (decide _).
    + destruct o' as [u'|c|v]; [| |].
      * destruct Ho' as [Hn Hh2]. cbn [length text_after fold_left]. split; [lia|exact Hh2].
      * destruct Ho' as [Hc Hq']. split; [done|]. destruct (keys_of tr') as [|k ks]; [done|]. exact Hq'.
      * done.
  - destruct Ho as [Hq ->]. rewrite Hk. split_and!; [|done|done| |done|by rewrite <- Hq].
    + rewrite Hs, Hq. cbn [saved]. rewrite Hq. by destruct (0 <=? file_fd e).
    + intros ok Hok c. specialize (Hscr ok Hok c [] (fun _ => eq_refl)). by rewrite app_nil_r in Hscr.
Qed.

(** ** Loading *)


Ltac in_list := apply (bool_decide_unpack _); vm_compute; exact I.

(** A trace without keys, texts saved or drawing. *)
Definition silent (tr : list (ucall * answer)) : Prop :=
  Forall (fun ca => uc_num ca.1 ∈ [SYS_OPEN; SYS_CREATE; SYS_READ; SYS_GETARG; SYS_KBD_FLUSH; SYS_SET_RAW_MODE]) tr.
Lemma silent_traps tr : silent tr -> keys_of tr = [] /\ saves_of tr = [] /\ forall ok c tr', on_screen ok c (tr ++ tr') = on_screen ok c tr'.
Proof.
  induction 1 as [|[[num args] a] tr Hn _ (IH1 & IH2 & IH3)]; [done|]. unfold keys_of, saves_of in *. cbn [omap list_omap uc_num uc_args fst snd app on_screen] in *.
  repeat (apply elem_of_cons in Hn as [->|Hn]; [repeat match goal with |- context [?a =? ?b] => let r := eval vm_compute in (a =? b) in change (a =? b) with r end;
    split_and!; [done| |done]; repeat case_match; done|]). by apply not_elem_of_nil in Hn.
Qed.

Lemma load_loop_holds fuel : forall fd e l, holds e ([], l) -> BUF_SIZE - 1 - buf_len e <= Z.of_nat fuel ->
  uwp (load_loop fuel fd) (fun tr o e' => o = Go () /\ silent tr /\ holds e' ([], l ++ loaded tr) /\ aside e' = aside e) e.
Proof.
  induction fuel as [|fuel IH]; intros fd e l Hh Hf; cbn [load_loop]; apply uwp_bind, uwp_gets; cbn [id].
  all: destruct (Z.ltb_spec (buf_len e) (BUF_SIZE - 1)) as [Hlt|]; [|apply uwp_ret; split_and!; [done|constructor|by rewrite app_nil_r|done]].
  { lia. }
  apply uwp_bind. unfold nos_read. apply uwp_syscall. cbv zeta. intros w. pose proof (trap_read w fd 1 ltac:(lia)) as [Hle Hd]. cbv zeta in Hle, Hd.
  set (a := (trap (Ucall SYS_READ [AInt fd; ARoom 1]) w).1) in *. set (k := (Ucall SYS_READ [AInt fd; ARoom 1], a)).
  destruct (Z.leb_spec (an_ret a) 0) as [Hr0|Hr1].
  { apply uwp_ret. cbn [app]. split_and!; [done|apply Forall_cons_2; [in_list|constructor]| |done]. unfold loaded. cbn [omap list_omap fst snd uc_num k].
    replace (0 <? an_ret a) with false by lia. rewrite andb_false_r. by rewrite app_nil_r. }
  apply uwp_bind, uwp_gets. cbn [id]. destruct (Hh) as [(z & Eb) Hs Hl Hc Hr Ht]. cbn [fst snd app] in *.
  rewrite inside_true by (assert (0 <= zlen l) by (unfold zlen; lia); lia). set (x := (an_data a).[0]).
  apply uwp_bind, uwp_modify. cbn [app]. eapply uwp_mono.
  - apply (IH fd _ (l ++ [x])); [|cbn [put_text buf_len]; lia]. unfold BUF_SIZE in *.
    destruct z as [|y z]; [rewrite Eb, app_nil_r in Hs; lia|].
    constructor; cbn [put_text buf buf_len cur top_line fst snd app]; try done.
    + exists z. rewrite Eb, Hl. unfold zset, zlen. rewrite Nat2Z.id, <- (Nat.add_0_r (length l)), insert_app_r. cbn. by rewrite <- app_assoc.
    + by rewrite zset_len.
    + rewrite zlen_app. change (zlen [x]) with 1. lia.
    + unfold BUF_SIZE. lia.
  - cbv beta. intros tr o e' (-> & Hsl & Hh' & Ha). split_and!; [done|apply Forall_cons_2; [in_list|done]| |done].
    assert (El : loaded (k :: tr) = x :: loaded tr).
    { unfold loaded at 1. cbn [omap list_omap fst snd uc_num k]. by replace (0 <? an_ret a) with true by lia. }
    rewrite El. by rewrite <- app_assoc in Hh'.
Qed.

Lemma end_text_holds e l : holds e ([], l) ->
  uwp (end_text (W:=W)) (fun tr o e' => tr = [] /\ o = Go () /\ holds e' ([], l) /\ aside e' = aside e) e.
Proof.
  intros Hh. unfold end_text. apply uwp_bind, uwp_gets. cbn [id]. destruct (Hh) as [(z & Eb) Hs Hl Hc Hr Ht]. cbn [fst snd app] in *.
  rewrite inside_true by (assert (0 <= zlen l) by (unfold zlen; lia); lia). apply uwp_modify. split_and!; try done.
  constructor; cbn [put_text buf buf_len cur top_line fst snd app]; try done; [|by rewrite zset_len].
  destruct z as [|y z]; [rewrite Eb, app_nil_r in Hs; lia|]. exists (0 :: z). rewrite Eb, Hl. unfold zset, zlen.
  by rewrite Nat2Z.id, <- (Nat.add_0_r (length l)), insert_app_r.
Qed.

Lemma load_file_holds e : holds e ([], []) ->
  uwp load_file (fun tr o e' => o = Go () /\ silent tr /\ holds e' ([], loaded tr) /\ (filename e', status e') = (filename e, status e)) e.
Proof.
  intros Hh. unfold load_file. apply uwp_bind, uwp_gets, uwp_bind, uwp_syscall_ret. intros a. apply uwp_bind, uwp_modify. cbn [app].
  destruct (an_ret a <? 0).
  - apply uwp_bind, uwp_syscall_ret. intros a'. apply uwp_bind, uwp_modify. apply uwp_bind, uwp_modify.
    eapply uwp_mono; [apply (end_text_holds _ [])|].
    { destruct Hh. by constructor. }
    cbv beta. intros tr o e' (-> & -> & Hh' & Ea). injection Ea as _ En Es _. cbn [app].
    split_and!; [done|repeat (apply Forall_cons_2; [in_list|]); constructor|done|by rewrite En, Es].
  - apply uwp_bind. eapply uwp_mono; [apply (load_loop_holds _ _ _ [])|].
    { destruct Hh. by constructor. }
    { destruct Hh as [_ _ Hl _ _ _]. cbn [put_file_fd buf_len]. rewrite Hl. by compute. }
    cbv beta. intros tr o e' (-> & Hsl & Hh' & Ea). injection Ea as _ En Es _. cbn [app] in Hh'. eapply uwp_mono; [by apply (end_text_holds e' (loaded tr))|].
    cbv beta. intros tr' o' e'' (-> & -> & Hh'' & Ea'). injection Ea' as _ En' Es' _. rewrite app_nil_r. cbn [app].
    split_and!; [done|apply Forall_cons_2; [in_list|done]|done|by rewrite En', Es', En, Es].
Qed.

(** ** The console *)

(** The name the program was given. *)
Definition given (tr : list (ucall * answer)) : list Z :=
  concat (omap (fun ca => if uc_num ca.1 =? SYS_GETARG then Some (an_data ca.2) else None) tr).

(** The bytes that fill one cell; backspace, tab, newline and carriage return
    move the cursor of the console in other ways. *)
Definition one_column (c : Z) : bool := negb ((c =? 8) || (c =? 9) || (c =? 10) || (c =? 13)).

(** Bytes written to the terminal, each of which moves the cursor one column to
    the right on its row: nothing wraps, nothing scrolls. *)
Fixpoint writes_steady (v : vga) (b : list Z) : bool :=
  match b with
  | [] => true
  | c :: b' => let v' := term_emit c v in (term_row v' =? term_row v) && (term_col v' =? term_col v + 1) && writes_steady v' b'
  end.
(** The terminal after one trap; colours are left out. *)
Definition shows (v : vga) (ca : ucall * answer) : vga :=
  match ca.1 with
  | Ucall num args =>
      if num =? SYS_WRITE then match args with [AInt 1; ABytes b] => foldl (fun v c => term_emit c v) v b | _ => v end
      else if num =? SYS_GOTOXY then match args with [AInt x; AInt y] => term_run (fun _ => []) (console_set_cursor x y) v | _ => v end
      else if num =? SYS_CLEAR then term_run (fun _ => []) console_clear v
      else v
  end.
Fixpoint steady (v : vga) (tr : list (ucall * answer)) : bool :=
  match tr with
  | [] => true
  | ca :: tr' =>
      match ca.1 with Ucall num [AInt 1; ABytes b] => if num =? SYS_WRITE then writes_steady v b else true | _ => true end &&
      steady (shows v ca) tr'
  end.

Lemma emit_steady c v : one_column c = true -> 0 <= term_col v < 79 ->
  term_row (term_emit c v) = term_row v /\ term_col (term_emit c v) = term_col v + 1.
Proof.
  unfold one_column, term_emit. cbn [set_crtc set_com1 term_row term_col]. intros Hc Hv. unfold term_put.
  replace (c =? 10) with false by lia. replace (c =? 13) with false by lia. replace (c =? 9) with false by lia. replace (c =? 8) with false by lia.
  unfold advance, VGA_COLS. replace (term_col v + 1 <? 80) with true by lia. done.
Qed.

Lemma writes_are_steady b : forall v, forallb one_column b = true -> 0 <= term_col v -> term_col v + zlen b <= 79 ->
  writes_steady v b = true /\ term_col (foldl (fun v c => term_emit c v) v b) = term_col v + zlen b.
Proof.
  induction b as [|c b IH]; intros v Hb Hc0 Hv; cbn [writes_steady foldl]; [change (zlen (@nil Z)) with 0; split; [done|lia]|].
  assert (Hz : zlen (c :: b) = 1 + zlen b) by (unfold zlen; cbn [length]; lia). assert (0 <= zlen b) by (unfold zlen; lia).
  cbn [forallb] in Hb. apply andb_prop in Hb as [Hc Hb]. destruct (emit_steady c v Hc ltac:(lia)) as [E1 E2].
  destruct (IH (term_emit c v) Hb ltac:(lia) ltac:(lia)) as [I1 I2]. rewrite I1, I2, E1, E2, !Z.eqb_refl. split; [done|lia].
Qed.

Lemma on_screen_steady tr : forall v, 0 <= term_col v -> on_screen one_column (term_col v) tr = true -> steady v tr = true.
Proof.
  induction tr as [|[[num args] a] tr IH]; intros v Hv Hs; [done|]. cbn [steady on_screen fst] in *. unfold shows at 1. cbn [fst].
  destruct (Z.eqb_spec num SYS_WRITE) as [->|Hn].
  - repeat case_match; simplify_eq; try done.
    rewrite !andb_true_iff in Hs. destruct Hs as [[H1 H2] H3]. destruct (writes_are_steady b v H2 Hv ltac:(lia)) as [-> E].
    apply IH; rewrite E; [|done]. unfold zlen. lia.
  - assert (Et : match args with [AInt 1; ABytes b] => true | _ => true end = true) by (by repeat case_match).
    destruct (Z.eqb_spec num SYS_GOTOXY) as [->|Hg].
    + destruct args as [|[x| | | |] [|[y| | | |] [|]]]; try done. rewrite !andb_true_iff in Hs. destruct Hs as [[[[H1 H2] H3] H4] H5].
      assert (E : steady (term_run (fun _ => []) (console_set_cursor x y) v) tr = true).
      { apply IH; cbn [term_run]; unfold VGA_COLS, VGA_ROWS; rewrite H2, H4; cbn [andb set_crtc set_row set_col term_col]; [lia|done]. }
      rewrite E, andb_true_r. by repeat case_match.
    + assert (E : steady (if num =? SYS_CLEAR then term_run (fun _ => []) console_clear v else v) tr = true).
      { destruct (num =? SYS_CLEAR); apply IH; done. }
      rewrite E, andb_true_r. by repeat case_match.
Qed.

(** ** Property *)

(** C17 (editor).  Whatever the kernel answers, the editor loads the bytes it reads
    (at most 4095), and from then on is a text with a cursor: each key has the
    effect of its meaning on the text (the arrows move by lines and columns, a
    character goes in before the cursor unless the array is full), what Ctrl+S
    hands to the kernel is the text at that moment, Ctrl+Q and nothing else ends
    the program.  No array is accessed outside its bounds.  Every position drawn at
    is on the screen and no row is sent more than 79 bytes; so when the file, its
    name and the messages hold only bytes that fill one cell (and newlines in the
    file), every byte drawn moves the cursor of the console one column on, on its
    row: the drawing neither wraps nor scrolls.  (With tabs it does:
    [tabs_scroll_the_editor].) *)
Theorem editor_implements_text (fuel : nat) (e : edit) : zlen (buf e) = BUF_SIZE ->
  uwp (edit_start fuel) (fun tr o e' =>
    let t := ([], loaded tr) in
    saves_of tr = (if 0 <=? file_fd e' then saved (keys_of tr) t else []) /\
    on_screen (fun _ => true) 0 tr = true /\
    (Forall (fun id => inks one_column (msg id)) ed_msgs -> inks one_column (given tr) -> inks_text one_column (loaded tr) ->
      forall v : vga, 0 <= term_col v -> steady v tr = true) /\
    match o with
    | Go _ => length (keys_of tr) = fuel /\ holds e' (text_after (keys_of tr) t)
    | Exited c => c = 0 /\ meaning <$> list.last (keys_of tr) = Some Quit
    | Faulted _ => False
    end) e.
Proof.
  intros Hb. unfold edit_start. apply uwp_bind, uwp_syscall. cbv zeta. intros w. set (a := (trap _ w).1).
  set (k := (Ucall SYS_GETARG [ARoom 64; AInt 64], a)). apply uwp_bind, uwp_modify, uwp_bind, uwp_modify, uwp_bind, uwp_gets, uwp_bind.
  match goal with |- uwp _ _ ?x => set (e1 := x) end.
  assert (Hh : holds e1 ([], [])) by (constructor; try done; by exists (buf e)).
  eapply (uwp_mono _ (fun tr o e' => o = Go () /\ silent tr /\ holds e' ([], loaded tr) /\ (filename e', status e') = (filename e1, []))).
  { destruct (bool_decide _); [apply uwp_ret; split_and!; [done|constructor|done|done]|by apply load_file_holds]. }
  cbv beta. intros tr1 o1 e2 (-> & Hs1 & Hh2 & En). injection En as En Est. apply uwp_bind, uwp_bind, uwp_syscall_ret. intros a1. apply uwp_ret.
  apply uwp_bind, uwp_bind, uwp_syscall_ret. intros a2. apply uwp_ret. eapply uwp_mono; [by apply (loop_holds fuel e2 ([], loaded tr1))|].
  cbv beta. intros tr o e' (Hsv & [Hfd Hl] & Hscr & Ho). cbn [app].
  set (pre := k :: tr1 ++ [(Ucall SYS_KBD_FLUSH [], a1); (Ucall SYS_SET_RAW_MODE [AInt 1], a2)]).
  assert (Hpre : silent pre).
  { apply Forall_cons_2; [in_list|]. apply Forall_app_2; [exact Hs1|]. repeat (apply Forall_cons_2; [in_list|]); constructor. }
  destruct (silent_traps pre Hpre) as (Pk & Ps & Pscr).
  assert (El : loaded pre = loaded tr1) by (unfold pre; change (k :: ?x) with ([k] ++ x); rewrite !loaded_app, app_nil_r; done).
  match goal with |- context [keys_of ?x] => replace x with (pre ++ tr) by (unfold pre; cbn [app]; by rewrite <- app_assoc) end.
  rewrite keys_app, saves_app, loaded_app, Pk, Ps, El, Hl, app_nil_r, Pscr, Hfd. split_and!; [done|apply Hscr, inked_all| |done].
  intros Hm Hg Ht v Hv. apply on_screen_steady; [done|]. rewrite Pscr. apply Hscr. split; [|done| |by rewrite Est; constructor|exact Ht].
  - intros c Hc. unfold one_column. lia.
  - rewrite En. unfold e1. cbn [filename put_filename put_status put_top put_text].
    assert (Hn : inks one_column (an_data a)). { unfold given, pre, k in Hg. cbn [app omap list_omap uc_num fst snd concat] in Hg. change (SYS_GETARG =? SYS_GETARG) with true in Hg. cbn [concat] in Hg. by apply list.Forall_app in Hg as [? _]. }
    case_if; [constructor|done].
Qed.
End refines.

(** ** Example *)

Definition blank_edit : edit := Edit (replicate 4096 0) 0 0 0 [] [] (-1).

(** The file "f" holds "hi"; the keys are a, Ctrl+S and Ctrl+Q. *)
Definition demo_script : list (Z * list Z) := [(1, [102]); (5, []); (1, [104]); (1, [105]); (0, []); (30, []); (0x11F, []); (0, []); (0x110, [])].

Definition demo_end (s : usys (list (Z * list Z)) edit) : bool :=
  bool_decide (keys_of (u_trace s) = [30; 0x11F; 0x110]) && bool_decide (loaded (u_trace s) = [104; 105]) && (file_fd (u_prog s) =? 5) &&
  forallb one_column (given (u_trace s)).

Lemma editor_implements_text_witness :
  exists tr o w' e', edit_start 3 (Usys demo_script [] blank_edit) = Some (o, Usys w' tr e') /\ saves_of tr = [[97; 104; 105]] /\
    forall v : vga, 0 <= term_col v -> steady v tr = true.
Proof.
  destruct (editor_implements_text (W:=list (Z * list Z)) 3 blank_edit ltac:(vm_compute; reflexivity) demo_script []) as (tr & o & w' & e' & Em & Hs & _ & Hst & _).
  exists tr, o, w', e'. split; [exact Em|]. cbn [app] in Em.
  assert (Hw : went (edit_start 3) (Usys demo_script [] blank_edit) demo_end = true) by (vm_compute; reflexivity).
  pose proof (went_true _ _ _ _ _ Hw Em) as Hp. unfold demo_end in Hp. cbn [u_trace u_prog] in Hp.
  apply andb_prop in Hp as [Hp Hg]. apply andb_prop in Hp as [Hp Hfd]. apply andb_prop in Hp as [Hk Hl].
  apply bool_decide_eq_true in Hk, Hl. apply Z.eqb_eq in Hfd. rewrite Hk, Hl, Hfd in Hs. rewrite Hl in Hst.
  assert (Hst' : forall v : vga, 0 <= term_col v -> steady v tr = true).
  { apply Hst.
    - repeat constructor.
    - unfold inks. rewrite list.Forall_forall. intros x Hx. rewrite forallb_forall in Hg. by apply Hg, list_elem_of_In.
    - repeat (constructor; [by right|]). constructor. }
  split; [rewrite Hs; vm_compute; reflexivity|exact Hst'].
Defined.

(** ** A line of tabs *)

(** "x", 22 newlines and a line of 79 tabs, with the cursor on the "x". *)
Definition tab_text : list Z := [120] ++ replicate 22 NL ++ replicate 79 9.
Definition tab_edit : edit := Edit (tab_text ++ replicate 3994 0) 102 0 0 [] [] (-1).

(** [render] counts one column per byte and puts 79 of them in a row so that
    the console never wraps, but a tab takes up to four columns: the tabs on
    row 22 run over the two bars and past the end of the screen, which scrolls;
    the "x" of the first row is gone. *)
Theorem tabs_scroll_the_editor :
  holds tab_edit ([], tab_text) /\
  went render (Usys demo_script [] tab_edit) (fun s =>
    let v := foldl shows vga0 (u_trace s) in
    negb (steady vga0 (u_trace s)) && (Z.land (VGA_BUFFER v).[0] 0xFF =? 32) &&
    (Z.land (VGA_BUFFER (foldl shows vga0 (take 40 (u_trace s)))).[0] 0xFF =? 120)) = true.
Proof.
  split; [|vm_compute; reflexivity]. constructor; try (vm_compute; reflexivity); [|vm_compute; split; discriminate].
  exists (replicate 3994 0). vm_compute. reflexivity.
Qed.

(** ** A line longer than the screen *)

(** What is written from position (0, [r]) on, up to the next change of position. *)
Fixpoint written (here : bool) (r : Z) (tr : list (ucall * answer)) : list Z :=
  match tr with
  | [] => []
  | (Ucall num args, _) :: tr' =>
      match args with
      | [AInt 1; ABytes b] => (if here && (num =? SYS_WRITE) then b else []) ++ written here r tr'
      | [AInt x; AInt y] => written (if num =? SYS_GOTOXY then (x =? 0) && (y =? r) else here) r tr'
      | _ => written here r tr'
      end
  end.
Definition last_goto (tr : list (ucall * answer)) : option (Z * Z) :=
  list.last (omap (fun ca => match uc_args ca.1 with [AInt x; AInt y] => if uc_num ca.1 =? SYS_GOTOXY then Some (x, y) else None | _ => None end) tr).

(** A line of 100 characters, a newline, "b", and the cursor on the "b". *)
Definition long_text : list Z := replicate 100 97 ++ [NL; 98].
Definition long_edit : edit := Edit (long_text ++ replicate 3994 0) 102 101 0 [] [] (-1).

(** The rest of the long line takes a row of its own, but the cursor is placed by
    counting newlines: it is shown on row 1, the "b" it stands on is on row 2. *)
Theorem long_line_misplaces_cursor :
  holds long_edit (replicate 100 97 ++ [NL], [98]) /\
  went render (Usys demo_script [] long_edit) (fun s =>
    bool_decide (take 21 (written false 1 (u_trace s)) = replicate 21 97) && bool_decide (take 1 (written false 2 (u_trace s)) = [98]) &&
    bool_decide (last_goto (u_trace s) = Some (0, 1))) = true.
Proof.
  split; [|vm_compute; reflexivity]. constructor; try (vm_compute; reflexivity); [|vm_compute; split; discriminate].
  exists (replicate 3994 0). vm_compute. reflexivity.
Qed.
