(* ===== verification/Shell.v ===== *)
(** * The shell and [cat] ([user/shell.c], [user/cat.c])

    The shell reads a line, splits it at a pipe or at redirections, and either
    starts programs or runs a command of its own.  A string is the list of its
    characters before the NUL; what a function cuts off a string in place is cut off
    the list.  The line buffer is filled anew in every turn, so the only state that
    outlives a turn is the process Ctrl+C kills. *)

From Stdlib Require Import String ZArith Lia ZifyBool.
From stdpp Require Import base tactics numbers list option sets.
From S2P Require Import Prelude Stdio UserLib.
Local Open Scope Z_scope.

Record shell := Shell { foreground_pid : Z }.

Definition SPACE : Z := 32.
Definition LF : Z := 10.
Definition CR : Z := 13.
Definition BAR : Z := 124.
Definition LESS : Z := 60.
Definition GREATER : Z := 62.
Definition ETX : Z := 3.
Definition NULLOS_SHORT_BANNER : list Z := cstr "NullOS v0.20.0".
Definition newline : list Z := [LF].

(** ** Strings *)

Fixpoint skip (p : Z -> bool) (s : list Z) : list Z := match s with c :: s' => if p c then skip p s' else s | [] => [] end.
Definition skip_end (p : Z -> bool) (s : list Z) : list Z := reverse (skip p (reverse s)).

Definition sh_trim (s : list Z) : list Z := skip_end (fun c => (c =? SPACE) || (c =? LF) || (c =? CR)) (skip (Z.eqb SPACE) s).

(** The character at [i] of a string of at least [i] characters. *)
Definition char_at (s : list Z) (i : nat) : Z := nth i s 0.
(** The name of a command followed by a blank or the end. *)
Definition starts (s name : list Z) : bool :=
  let i := length name in (strncmp s name i =? 0) && ((char_at s i =? SPACE) || (char_at s i =? 0)).
Definition arg_of (s : list Z) (i : nat) : list Z := if char_at s i =? SPACE then drop (S i) s else [].

Definition chop (c : Z) (s : list Z) : list Z := if bool_decide (list.last s = Some c) then take (length s - 1) s else s.

(** Before and behind the first bar. *)
Fixpoint split_bar (s : list Z) : option (list Z * list Z) :=
  match s with
  | [] => None
  | c :: s' => if c =? BAR then Some ([], s') else match split_bar s' with Some (a, b) => Some (c :: a, b) | None => None end
  end.
Definition redirects (c : Z) : bool := (c =? LESS) || (c =? GREATER).
(** Up to the first redirection, and from it on. *)
Fixpoint until_redirect (s : list Z) : list Z * list Z :=
  match s with
  | [] => ([], [])
  | c :: s' => if redirects c then ([], s) else let '(a, b) := until_redirect s' in (c :: a, b)
  end.
Fixpoint targets (fuel : nat) (s : list Z) (in_name out_name : option (list Z)) (dup : bool) : option (option (list Z) * option (list Z) * bool) :=
  match s with
  | [] => Some (in_name, out_name, dup)
  | c :: start =>
      match fuel with
      | O => None
      | S fuel' =>
          let '(seg, next) := until_redirect start in
          let target := sh_trim seg in
          if c =? LESS then targets fuel' next (Some target) out_name (dup || bool_decide (is_Some in_name))
          else targets fuel' next in_name (Some target) (dup || bool_decide (is_Some out_name))
      end
  end.

Fixpoint parse_pid (s : list Z) (pid : Z) : Z :=
  match s with c :: s' => if (48 <=? c) && (c <=? 57) then parse_pid s' (u32 (u32 (pid * 10) + (c - 48))) else pid | [] => pid end.

Definition blank_name (n : option (list Z)) : bool := bool_decide (n = Some []).

Section shell.
Context {W : Type} `{UserKernel W} `{Texts}.
Local Notation M := (uM W shell).

Definition sh_puts (s : list Z) : M () := nos_write 1 s;; mret ().
Definition sh_putu (v : Z) : M () := n ← udefined (nos_uitoa v (replicate 16 0)); sh_puts n.

(** ** Commands *)

Definition cmd_uname : M () := sh_puts (NULLOS_SHORT_BANNER ++ cstr " i686" ++ newline).

Definition cmd_fetch : M () :=
  info ← nos_meminfo 0 0 0;
  let '(pmm_pages, heap_bytes, nprocs) := info in
  ticks ← nos_uptime;
  let uptime := u32 ticks / 100 in
  sh_puts (msg UMSG_SH_LOGO_1);; sh_puts (cstr "  OS: " ++ NULLOS_SHORT_BANNER ++ cstr " i686" ++ newline);;
  sh_puts (msg UMSG_SH_LOGO_2);; sh_puts (msg UMSG_SH_FETCH_ARCH);;
  sh_puts (msg UMSG_SH_LOGO_3);;
  sh_puts (msg UMSG_SH_FETCH_UPTIME);;
  sh_putu uptime;; sh_puts (msg UMSG_SH_FETCH_SECONDS_NL);;
  sh_puts (msg UMSG_SH_LOGO_4);;
  sh_puts (msg UMSG_SH_FETCH_MEM_PMM);;
  sh_putu (u32 (pmm_pages * 4));; sh_puts (msg UMSG_SH_FETCH_KB_FREE_NL);;
  sh_puts (msg UMSG_SH_LOGO_5);;
  sh_puts (msg UMSG_SH_FETCH_HEAP);;
  sh_putu heap_bytes;; sh_puts (msg UMSG_SH_FETCH_B_FREE_NL);;
  sh_puts (msg UMSG_SH_FETCH_PROCS);;
  sh_putu nprocs;; sh_puts (msg UMSG_SH_FETCH_RUNNING_NL).

Definition cmd_ps : M () := nos_ps.

Definition cmd_mem : M () :=
  info ← nos_meminfo 0 0 0;
  let '(pmm_pages, heap_bytes, nprocs) := info in
  sh_puts (msg UMSG_SH_MEM_PMM_LINE);;
  sh_putu pmm_pages;;
  sh_puts (msg UMSG_SH_MEM_FREE_PAGES);;
  sh_putu (u32 (pmm_pages * 4));;
  sh_puts (msg UMSG_SH_MEM_KB_CLOSE_NL);;
  sh_puts (msg UMSG_SH_MEM_HEAP_LINE);;
  sh_putu heap_bytes;;
  sh_puts (msg UMSG_SH_FETCH_B_FREE_NL).

Definition cmd_echo (line : list Z) : M () :=
  if bool_decide (take 5 line = cstr "echo ") then sh_puts (drop 5 line);; sh_puts newline else sh_puts newline.

(** Division error, page fault and general protection fault. *)
Definition cmd_crash (arg : list Z) : M () :=
  if strcmp arg (cstr "de") =? 0 then sh_puts (msg UMSG_SH_CRASH_DE);; ufault 0
  else if strcmp arg (cstr "pf") =? 0 then sh_puts (msg UMSG_SH_CRASH_PF);; ufault 14
  else if strcmp arg (cstr "gpf") =? 0 then sh_puts (msg UMSG_SH_CRASH_GP);; ufault 13
  else sh_puts (msg UMSG_SH_CRASH_USAGE).

Definition cmd_kill (arg : list Z) : M () :=
  if bool_decide (arg = []) then sh_puts (msg UMSG_SH_USAGE_KILL_PID)
  else
    let pid := parse_pid arg 0 in
    if pid =? 0 then sh_puts (msg UMSG_SH_INVALID_PID)
    else
      self ← nos_getpid;
      (if pid =? u32 self then sh_puts (msg UMSG_SH_SHUTTING_DOWN_SHELL);; nos_exit 0 else mret ());;
      r ← nos_kill pid;
      if r =? 0 then sh_puts (msg UMSG_SH_KILL_PROCESS);; sh_putu pid;; sh_puts (msg UMSG_SH_KILL_TERMINATED_NL)
      else sh_puts (msg UMSG_SH_PID_NOT_FOUND).

Definition cmd_touch (arg : list Z) : M () :=
  if bool_decide (arg = []) then sh_puts (msg UMSG_SH_USAGE_TOUCH_FILE)
  else
    fd ← nos_create arg;
    if fd <? 0 then sh_puts (msg UMSG_SH_TOUCH_CANNOT_CREATE) else nos_close fd;; mret ().

Definition cmd_mkdir (arg : list Z) : M () :=
  if bool_decide (arg = []) then sh_puts (msg UMSG_SH_USAGE_MKDIR_DIR)
  else
    r ← nos_mkdir arg;
    if r <? 0 then sh_puts (msg UMSG_SH_MKDIR_CANNOT_CREATE) else mret ().

Definition cmd_cd (arg : list Z) : M () :=
  let path := if bool_decide (arg = []) then cstr "/" else arg in
  r ← nos_chdir path;
  if negb (r =? 0) then sh_puts (msg UMSG_SH_CD_NO_SUCH_DIRECTORY);; sh_puts path;; sh_puts newline else mret ().

Definition cmd_pwd : M () :=
  a ← nos_getcwd 128;
  if an_ret a <? 0 then sh_puts (msg UMSG_SH_PWD_CANNOT_DETERMINE) else sh_puts (an_data a);; sh_puts newline.

(** ** Pipelines and redirections *)

(** [int fds[2]], which [nos_pipe] fills if it succeeds. *)
Definition int_at (d : list Z) (i : Z) : Z := let v := uint32_at d i in if v <? 2 ^ 31 then v else v - 2 ^ 32.
Definition fds_of (a : answer) : option (Z * Z) := if zlen (an_data a) =? 8 then Some (int_at (an_data a) 0, int_at (an_data a) 4) else None.

Definition pipe_not_found (cmd : list Z) : M () := sh_puts (msg UMSG_SH_PIPE_PROGRAM_NOT_FOUND);; sh_puts cmd;; sh_puts newline.

Definition run_pipeline (cmd1 cmd2 : list Z) : M () :=
  a ← nos_pipe;
  if negb (an_ret a =? 0) then sh_puts (msg UMSG_SH_PIPE_COULD_NOT_CREATE_PIPE)
  else
    fds ← udefined (fds_of a);
    let '(read_fd, write_fd) := fds in
    pid1 ← nos_exec_pipe cmd1 (-1) write_fd;
    if pid1 <? 0 then pipe_not_found cmd1;; nos_close read_fd;; nos_close write_fd;; mret ()
    else
      pid2 ← nos_exec_pipe cmd2 read_fd (-1);
      if pid2 <? 0 then pipe_not_found cmd2;; nos_close read_fd;; nos_close write_fd;; nos_kill (u32 pid1);; mret ()
      else
        nos_close read_fd;;
        nos_close write_fd;;
        nos_wait pid1;;
        nos_wait pid2.

Definition close_if (fd : Z) : M () := if 0 <=? fd then nos_close fd;; mret () else mret ().

(** The output file is created and truncated; [None] if that fails. *)
Definition open_out (out_name : option (list Z)) : M (Z * bool) :=
  match out_name with
  | None => mret (-1, true)
  | Some n =>
      fd ← nos_create n;
      if fd <? 0 then mret (fd, false) else r ← nos_write_file fd []; mret (fd, r =? 0)
  end.

Definition redirect_run (cmd : list Z) (in_fd : Z) (out_name : option (list Z)) : M () :=
  out ← open_out out_name;
  let '(out_fd, ok) := out in
  if negb ok then
    sh_puts (msg UMSG_SH_REDIRECT_CANNOT_WRITE_TO);; sh_puts (default [] out_name);; sh_puts (msg UMSG_SH_REDIRECT_NOT_FAT16_NL);;
    close_if out_fd;; close_if in_fd
  else
    pid ← nos_exec_pipe cmd in_fd out_fd;
    (if pid <? 0 then sh_puts (msg UMSG_SH_REDIRECT_PROGRAM_NOT_FOUND);; sh_puts cmd;; sh_puts (msg UMSG_SH_REDIRECT_BUILTIN_NL) else mret ());;
    close_if in_fd;;
    close_if out_fd;;
    (if 0 <=? pid then nos_wait pid else mret ()).

Definition run_redirected (line : list Z) : M () :=
  let '(head, rest) := until_redirect line in
  let cmd := sh_trim head in
  ts ← udefined (targets (length rest) rest None None false);
  let '(in_name, out_name, dup) := ts in
  if bool_decide (cmd = []) || dup || blank_name in_name || blank_name out_name then sh_puts (msg UMSG_SH_USAGE_CMD_INFILE_OUTFILE)
  else if existsb (Z.eqb SPACE) cmd then sh_puts (msg UMSG_SH_REDIRECT_NO_ARGS)
  else
    match in_name with
    | None => redirect_run cmd (-1) out_name
    | Some n =>
        in_fd ← nos_open n;
        if in_fd <? 0 then sh_puts (msg UMSG_SH_REDIRECT_CANNOT_OPEN);; sh_puts n;; sh_puts newline
        else redirect_run cmd in_fd out_name
    end.

Definition cmd_run (name : list Z) : M Z :=
  let name := sh_trim name in
  if bool_decide (name = []) then sh_puts (msg UMSG_SH_USAGE_RUN_PROGRAM);; mret (-1)
  else
    pid ← nos_exec name None;
    if pid <? 0 then sh_puts (msg UMSG_SH_RUN_NOT_FOUND);; mret (-1)
    else sh_puts (msg UMSG_SH_RUN_RUNNING);; sh_puts name;; sh_puts newline;; mret pid.

Definition clear_text : list Z := replicate 25 LF.

(** [line] is the [len] bytes of the line; the command is the string they begin with. *)
Definition run_command (line : list Z) : M () :=
  let line := chop LF line in
  if bool_decide (line = []) then mret ()
  else
    let s := until_nul line in
    let named name := strcmp s (cstr name) =? 0 in
    if named "help"%string then sh_puts (msg UMSG_SH_HELP_TEXT)
    else if named "uname"%string then cmd_uname
    else if named "fetch"%string then cmd_fetch
    else if named "ps"%string then cmd_ps
    else if named "mem"%string then cmd_mem
    else if named "ls"%string then nos_readdir None
    else if (strncmp s (cstr "ls") 2 =? 0) && (char_at s 2 =? SPACE) then nos_readdir (Some (drop 3 s))
    else if named "lspci"%string then nos_pci_list;; mret ()
    else if named "pwd"%string then cmd_pwd
    else if named "reboot"%string then nos_reboot;; mret ()
    else if named "shutdown"%string then nos_shutdown;; mret ()
    else if starts s (cstr "touch") then cmd_touch (arg_of s 5)
    else if starts s (cstr "mkdir") then cmd_mkdir (arg_of s 5)
    else if starts s (cstr "cd") then cmd_cd (arg_of s 2)
    else if starts s (cstr "echo") then cmd_echo s
    else if starts s (cstr "kill") then cmd_kill (arg_of s 4)
    else if starts s (cstr "crash") then cmd_crash (sh_trim (arg_of s 5))
    else if starts s (cstr "run") then cmd_run (arg_of s 3);; mret ()
    else if named "clear"%string then sh_puts clear_text
    else if named "exit"%string then sh_puts (msg UMSG_SH_BYE);; nos_exit 0
    else sh_puts (msg UMSG_SH_COMMAND_NOT_FOUND);; sh_puts s;; sh_puts newline.

(** ** The loop *)

Definition set_foreground (pid : Z) : M () := umodify (fun _ => Shell pid).

(** A program in the foreground: the shell waits for it. *)
Definition run_and_wait (name arg : list Z) (failed : umsg) : M () :=
  pid ← nos_exec name (Some arg);
  if pid <? 0 then sh_puts (msg failed)
  else set_foreground pid;; nos_wait pid;; set_foreground 0.

Definition shell_line (line : list Z) : M () :=
  let s := until_nul line in
  let has_redirect := existsb redirects s in
  match split_bar s with
  | Some (a, b) =>
      if has_redirect then sh_puts (msg UMSG_SH_REDIRECT_WITH_PIPE)
      else
        let cmd1 := sh_trim a in
        let cmd2 := sh_trim b in
        if bool_decide (cmd1 = []) || bool_decide (cmd2 = []) then sh_puts (msg UMSG_SH_USAGE_CMD1_CMD2)
        else set_foreground 0;; run_pipeline cmd1 cmd2
  | None =>
      if has_redirect then set_foreground 0;; run_redirected s
      else if starts s (cstr "cat") then
        let arg := sh_trim (drop 3 s) in
        if bool_decide (arg = []) then sh_puts (msg UMSG_SH_USAGE_CAT_FILE)
        else run_and_wait (cstr "cat") arg UMSG_SH_ERROR_CAT_NOT_FOUND
      else if starts s (cstr "edit") then run_and_wait (cstr "edit") (chop LF (arg_of s 4)) UMSG_SH_ERROR_EDIT_NOT_FOUND
      else if starts s (cstr "run") then
        pid ← cmd_run (arg_of s 3);
        set_foreground (if 0 <? pid then pid else 0)
      else set_foreground 0;; run_command line
  end.

Definition shell_turn : M () :=
  sh_puts (msg UMSG_SH_PROMPT);;
  a ← nos_read 0 127;
  let n := an_ret a in
  if n <=? 0 then mret ()
  else if (n =? 1) && ((an_data a).[0] =? ETX) then
    fg ← ugets foreground_pid;
    if 0 <? fg then nos_kill (u32 fg);; set_foreground 0 else mret ()
  else if 128 <=? n then uundefined
  else
    let line := skip_end (fun c => (c =? LF) || (c =? CR)) (take (Z.to_nat n) (an_data a)) in
    if bool_decide (line = []) then mret () else shell_line line.

Fixpoint shell_loop (fuel : nat) : M () := match fuel with O => mret () | S fuel' => shell_turn;; shell_loop fuel' end.
Definition shell_start (fuel : nat) : M () := sh_puts (msg UMSG_SH_WELCOME);; shell_loop fuel.
End shell.

(** ** [cat] *)

Section cat.
Context {W : Type} `{UserKernel W} `{Texts}.
Local Notation M := (uM W ()).

Definition cat_puts (s : list Z) : M () := nos_write 1 s;; mret ().
(** Whether the end of the file (or an error) was reached within [fuel] reads. *)
Fixpoint cat_loop (fuel : nat) (fd : Z) : M bool :=
  match fuel with
  | O => mret false
  | S fuel' =>
      a ← nos_read fd 64;
      if an_ret a <=? 0 then mret true
      else nos_write 1 (take (Z.to_nat (an_ret a)) (an_data a));; cat_loop fuel' fd
  end.
Definition cat_open : M Z :=
  a ← nos_getarg 64;
  let arg := an_data a in
  if (0 <? an_ret a) && negb (bool_decide (arg = [])) then
    fd ← nos_open arg;
    if fd <? 0 then cat_puts (msg UMSG_CAT_CANNOT_OPEN);; cat_puts arg;; cat_puts newline;; nos_exit 1 else mret fd
  else mret 0.
Definition cat_start (fuel : nat) : M () :=
  fd ← cat_open;
  ended ← cat_loop fuel fd;
  if (ended : bool) then (if negb (fd =? 0) then nos_close fd;; mret () else mret ());; nos_exit 0 else mret ().
End cat.

(** ** Descriptors and children *)

(** What a program holds according to its traps: its open descriptors and the
    processes it has started. *)
Record holding := Holding { held : list Z; kids : list Z }.

Fixpoint remove1 (fd : Z) (l : list Z) : option (list Z) :=
  match l with [] => None | x :: l' => if x =? fd then Some l' else match remove1 fd l' with Some l'' => Some (x :: l'') | None => None end end.

Definition passes (h : holding) (fd : Z) : bool := (fd =? -1) || bool_decide (fd ∈ held h).

(** A descriptor is closed once; children get descriptors that are open; nothing
    is open when the program waits for a child, which must be one of its own, reads
    the next line or exits. *)
Definition holding_step (h : holding) (ca : ucall * answer) : option holding :=
  let num := uc_num ca.1 in
  let r := an_ret ca.2 in
  if (num =? SYS_OPEN) || (num =? SYS_CREATE) then Some (if 0 <=? r then Holding (r :: held h) (kids h) else h)
  else if num =? SYS_PIPE then
    if r =? 0 then fds ← fds_of ca.2; Some (Holding (fds.1 :: fds.2 :: held h) (kids h)) else Some h
  else if num =? SYS_CLOSE then
    match uc_args ca.1 with [AInt fd] => l ← remove1 fd (held h); Some (Holding l (kids h)) | _ => None end
  else if num =? SYS_EXEC then Some (if 0 <=? r then Holding (held h) (r :: kids h) else h)
  else if num =? SYS_EXEC_PIPE then
    match uc_args ca.1 with
    | [AStr _; AInt i; AInt o] => if passes h i && passes h o then Some (if 0 <=? r then Holding (held h) (r :: kids h) else h) else None
    | _ => None
    end
  else if num =? SYS_WAIT then
    match uc_args ca.1 with [AInt pid] => if bool_decide (held h = []) && bool_decide (pid ∈ kids h) then Some h else None | _ => None end
  else if (num =? SYS_READ) || (num =? SYS_EXIT) then if bool_decide (held h = []) then Some h else None
  else Some h.

Fixpoint holding_run (h : holding) (tr : list (ucall * answer)) : option holding :=
  match tr with [] => Some h | ca :: tr' => h' ← holding_step h ca; holding_run h' tr' end.

(** The lines read from the keyboard, and the command in a line. *)
Definition lines_read (tr : list (ucall * answer)) : list (list Z) :=
  omap (fun ca => match uc_args ca.1 with
    | [AInt 0; ARoom _] => if (uc_num ca.1 =? SYS_READ) && (0 <? an_ret ca.2) then Some (take (Z.to_nat (an_ret ca.2)) (an_data ca.2)) else None
    | _ => None end) tr.
Definition command (l : list Z) : list Z := until_nul (skip_end (fun c => (c =? LF) || (c =? CR)) l).
Definition turns (tr : list (ucall * answer)) : nat := length (List.filter (fun ca => uc_num ca.1 =? SYS_READ) tr).

(** How a command may end the shell. *)
Definition ends (s : list Z) (o : fin ()) : Prop :=
  match o with
  | Go _ => True
  | Exited c => c = 0 /\ (strcmp s (cstr "exit") = 0 \/ starts s (cstr "kill") = true)
  | Faulted v => starts s (cstr "crash") = true /\
      exists name, (name, v) ∈ [("de"%string, 0); ("pf"%string, 14); ("gpf"%string, 13)] /\ strcmp (sh_trim (arg_of s 5)) (cstr name) = 0
  end.

(** ** Traces *)

(** Comparisons of two numbers of calls. *)
Ltac eval_nums := repeat match goal with |- context [?a =? ?b] =>
  let r := eval vm_compute in (a =? b) in match r with true => change (a =? b) with true | false => change (a =? b) with false end end.

Lemma holding_run_app h tr tr' : holding_run h (tr ++ tr') = h' ← holding_run h tr; holding_run h' tr'.
Proof. revert h. induction tr as [|ca tr IH]; intros h; [done|]. cbn [app holding_run]. destruct (holding_step h ca); [apply IH|done]. Qed.

(** Calls that touch neither descriptors nor children. *)
Definition quiet_call (num : Z) : bool :=
  negb (existsb (Z.eqb num) [SYS_OPEN; SYS_CREATE; SYS_PIPE; SYS_CLOSE; SYS_EXEC; SYS_EXEC_PIPE; SYS_WAIT; SYS_READ; SYS_EXIT]).
Definition quiet (tr : list (ucall * answer)) : Prop := Forall (fun ca => quiet_call (uc_num ca.1) = true) tr.

Lemma quiet_run h tr : quiet tr -> holding_run h tr = Some h.
Proof.
  induction 1 as [|[[num args] a] tr Hq _ IH]; [done|]. cbn [holding_run]. unfold holding_step. cbn [fst snd uc_num] in *.
  unfold quiet_call in Hq. cbn [existsb] in Hq. apply negb_true_iff in Hq. repeat (apply orb_false_iff in Hq as [? Hq]).
  repeat match goal with E : (num =? _) = false |- _ => rewrite E; clear E end. exact IH.
Qed.

(** A trace that leaves no descriptor open. *)
Definition tidy (tr : list (ucall * answer)) : Prop := forall k, exists k', holding_run (Holding [] k) tr = Some (Holding [] k').
Lemma tidy_trace_app tr tr' : tidy tr -> tidy tr' -> tidy (tr ++ tr').
Proof. intros H1 H2 k. destruct (H1 k) as [k1 E1]. destruct (H2 k1) as [k2 E2]. exists k2. by rewrite holding_run_app, E1. Qed.
Lemma quiet_tidy tr : quiet tr -> tidy tr.
Proof. intros Hq k. exists k. by apply quiet_run. Qed.
Lemma quiet_app tr tr' : quiet tr -> quiet tr' -> quiet (tr ++ tr').
Proof. apply Forall_app_2. Qed.
Lemma quiet_one c a : quiet_call (uc_num c) = true -> quiet [(c, a)].
Proof. intros Hq. by repeat constructor. Qed.

Definition no_read (tr : list (ucall * answer)) : Prop := Forall (fun ca => (uc_num ca.1 =? SYS_READ) = false) tr.
Lemma no_read_lines tr : no_read tr -> lines_read tr = [] /\ turns tr = O.
Proof.
  induction 1 as [|[[num args] a] tr Hn _ [IH1 IH2]]; [done|]. unfold lines_read, turns in *. cbn [omap list_omap List.filter fst snd uc_num uc_args] in *.
  rewrite Hn. split; [|exact IH2]. repeat case_match; done.
Qed.
Lemma lines_read_app tr tr' : lines_read (tr ++ tr') = lines_read tr ++ lines_read tr'.
Proof. apply omap_app. Qed.
Lemma turns_app tr tr' : turns (tr ++ tr') = (turns tr + turns tr')%nat.
Proof. unfold turns. by rewrite List.filter_app, length_app. Qed.

Lemma parse_pid_u32 s pid : is_u32 pid -> is_u32 (parse_pid s pid).
Proof. revert pid. induction s as [|c s IH]; intros pid Hp; cbn [parse_pid]; [done|]. case_match; [|done]. apply IH, u32_range. Qed.

Lemma stored_u32 d i old : Forall (fun b => 0 <= b < 256) d -> 0 <= i -> is_u32 old -> is_u32 (stored d i old).
Proof.
  intros Hd Hi Ho. unfold stored, uint32_at. destruct (Z.leb_spec (i + 4) (zlen d)); [|done].
  assert (Hb : forall j, 0 <= j < zlen d -> 0 <= d.[j] < 256).
  { intros j Hj. unfold zget. apply (Forall_lookup_total_1 (fun b => 0 <= b < 256)); [done|]. unfold zlen in Hj. lia. }
  pose proof (Hb i ltac:(lia)). pose proof (Hb (i + 1) ltac:(lia)). pose proof (Hb (i + 2) ltac:(lia)). pose proof (Hb (i + 3) ltac:(lia)). unfold is_u32. lia.
Qed.

Lemma until_redirect_length s : (length (until_redirect s).2 <= length s)%nat.
Proof. induction s as [|c s IH]; [done|]. cbn [until_redirect]. destruct (redirects c); [done|]. destruct (until_redirect s) as [a b]. cbn [snd length] in *. lia. Qed.
Lemma targets_defined fuel : forall s i o d, (length s <= fuel)%nat -> is_Some (targets fuel s i o d).
Proof.
  induction fuel as [|fuel IH]; intros [|c s] i o d Hl; cbn [targets length] in *; [eauto|lia|eauto|].
  pose proof (until_redirect_length s). destruct (until_redirect s) as [seg next]. cbn [snd] in *. case_match; apply IH; lia.
Qed.

(** ** Reasoning with what is held *)

(** [hwp m h Q e]: [m], run by a program that holds [h], keeps the rules, reads no
    line, and ends with [Q] of what it then holds. *)
Section hwp.
Context {W E : Type} `{UserKernel W}.
Local Notation M := (uM W E).

Definition hwp {A} (m : M A) (h : holding) (Q : holding -> fin A -> E -> Prop) (e : E) : Prop :=
  uwp m (fun tr o e' => no_read tr /\ exists h', holding_run h tr = Some h' /\ Q h' o e') e.

Lemma h_ret {A} (a : A) h Q (e : E) : Q h (Go a) e -> hwp (mret a) h Q e.
Proof. intros HQ. apply uwp_ret. split; [constructor|]. eauto. Qed.
Lemma h_mono {A} (m : M A) h (P Q : holding -> fin A -> E -> Prop) e : hwp m h P e -> (forall h' o e', P h' o e' -> Q h' o e') -> hwp m h Q e.
Proof. intros Hm HQ. eapply uwp_mono; [exact Hm|]. cbv beta. intros tr o e' (Hn & h' & Eh & HP). eauto 6. Qed.
Lemma h_bind {A B} (m : M A) (f : A -> M B) h (Q : holding -> fin B -> E -> Prop) e :
  hwp m h (fun h' o e' => match o with Go a => hwp (f a) h' Q e' | Exited c => Q h' (Exited c) e' | Faulted v => Q h' (Faulted v) e' end) e ->
  hwp (m ≫= f) h Q e.
Proof.
  intros Hm. apply uwp_bind. eapply uwp_mono; [exact Hm|]. cbv beta. intros tr o e' (Hn & h' & Eh & HP). destruct o as [a|c|v]; [|by eauto..].
  eapply uwp_mono; [exact HP|]. cbv beta. intros tr' o' e'' (Hn' & h'' & Eh' & HQ). split; [by apply Forall_app_2|].
  exists h''. by rewrite holding_run_app, Eh.
Qed.
Lemma h_modify (f : E -> E) h Q (e : E) : Q h (Go ()) (f e) -> hwp (umodify f) h Q e.
Proof. intros HQ. apply uwp_modify. split; [constructor|]. eauto. Qed.
Lemma h_gets {A} (f : E -> A) h Q (e : E) : Q h (Go (f e)) e -> hwp (ugets f) h Q e.
Proof. intros HQ. apply uwp_gets. split; [constructor|]. eauto. Qed.
Lemma h_defined {A} (o : option A) a h Q (e : E) : o = Some a -> Q h (Go a) e -> hwp (udefined o) h Q e.
Proof. intros Eo HQ. apply (uwp_defined o a); [done|]. split; [constructor|]. eauto. Qed.
Lemma h_fault {A} v h (Q : holding -> fin A -> E -> Prop) (e : E) : Q h (Faulted v) e -> hwp (ufault v) h Q e.
Proof. intros HQ w t. exists [], (Faulted v), w, e. rewrite app_nil_r. split; [done|]. split; [constructor|]. eauto. Qed.
Lemma h_exit {A} code h (Q : holding -> fin A -> E -> Prop) (e : E) : held h = [] -> Q h (Exited code) e -> hwp (nos_exit code) h Q e.
Proof.
  intros Hh HQ. apply uwp_exit. intros a. split; [by apply Forall_singleton|]. exists h. split; [|done].
  cbn [holding_run]. unfold holding_step. cbn [fst snd uc_num]. eval_nums. cbn [orb]. by rewrite bool_decide_eq_true_2.
Qed.

Lemma h_call num args h Q (e : E) : (num =? SYS_READ) = false ->
  (forall w : W, let a := (trap (Ucall num args) w).1 in exists h', holding_step h (Ucall num args, a) = Some h' /\ Q h' (Go a) e) ->
  hwp (syscall (W:=W) num args) h Q e.
Proof.
  intros Hn HQ. apply uwp_syscall. cbv zeta. intros w. destruct (HQ w) as (h' & Es & HQ'). split; [by apply Forall_singleton|].
  exists h'. cbn [holding_run]. by rewrite Es.
Qed.
Lemma h_call_ret num args h Q (e : E) : (num =? SYS_READ) = false ->
  (forall a, exists h', holding_step h (Ucall num args, a) = Some h' /\ Q h' (Go (an_ret a)) e) -> hwp (syscall_ret (W:=W) num args) h Q e.
Proof. intros Hn HQ. apply h_bind, h_call; [done|]. cbv zeta. intros w. destruct (HQ (trap (Ucall num args) w).1) as (h' & Es & HQ'). exists h'. split; [done|]. by apply h_ret. Qed.

Lemma quiet_step h c a : quiet_call (uc_num c) = true -> holding_step h (c, a) = Some h.
Proof. intros Hq. pose proof (quiet_run h [(c, a)] (quiet_one c a Hq)) as E1. cbn [holding_run] in E1. by destruct (holding_step h (c, a)). Qed.
Lemma h_quiet num args h Q (e : E) : quiet_call num = true ->
  (forall w : W, Q h (Go (trap (Ucall num args) w).1) e) -> hwp (syscall (W:=W) num args) h Q e.
Proof.
  intros Hq HQ. apply h_call; [|cbv zeta; intros w; exists h; by rewrite quiet_step].
  unfold quiet_call in Hq. cbn [existsb] in Hq. destruct (num =? SYS_READ); [|done]. by rewrite !orb_true_r in Hq.
Qed.
Lemma h_quiet_ret num args h Q (e : E) : quiet_call num = true -> (forall r, Q h (Go r) e) -> hwp (syscall_ret (W:=W) num args) h Q e.
Proof. intros Hq HQ. apply h_bind, h_quiet; [done|]. intros w. by apply h_ret. Qed.
End hwp.

Section calls.
Context {W : Type} `{UserKernel W} {E : Type}.
Implicit Types (h : holding) (e : E).
Ltac step_of := cbv zeta; unfold holding_step; cbn [fst snd uc_num uc_args]; eval_nums; cbn [orb].

Lemma h_opens num name h (Q : holding -> fin Z -> E -> Prop) e : num = SYS_OPEN \/ num = SYS_CREATE ->
  (forall r, 0 <= r -> Q (Holding (r :: held h) (kids h)) (Go r) e) -> (forall r, r < 0 -> Q h (Go r) e) -> hwp (W:=W) (syscall_ret num [AStr name]) h Q e.
Proof.
  intros Hn HQ HQ'. apply h_call_ret; [by destruct Hn as [-> | ->]|]. intros a. destruct Hn as [-> | ->]; step_of;
    destruct (Z.leb_spec 0 (an_ret a)); (eexists; split; [reflexivity|]; auto).
Qed.
Lemma h_close fd l h (Q : holding -> fin Z -> E -> Prop) e : remove1 fd (held h) = Some l ->
  (forall r, Q (Holding l (kids h)) (Go r) e) -> hwp (W:=W) (nos_close fd) h Q e.
Proof. intros Er HQ. apply h_call_ret; [done|]. intros a. step_of. rewrite Er. eauto. Qed.
Lemma h_exec name arg h (Q : holding -> fin Z -> E -> Prop) e :
  (forall r, 0 <= r -> Q (Holding (held h) (r :: kids h)) (Go r) e) -> (forall r, r < 0 -> Q h (Go r) e) -> hwp (W:=W) (nos_exec name arg) h Q e.
Proof. intros HQ HQ'. apply h_call_ret; [done|]. intros a. step_of. destruct (Z.leb_spec 0 (an_ret a)); (eexists; split; [reflexivity|]; auto). Qed.
Lemma h_exec_pipe name i o h (Q : holding -> fin Z -> E -> Prop) e : passes h i = true -> passes h o = true ->
  (forall r, 0 <= r -> Q (Holding (held h) (r :: kids h)) (Go r) e) -> (forall r, r < 0 -> Q h (Go r) e) -> hwp (W:=W) (nos_exec_pipe name i o) h Q e.
Proof.
  intros Hi Ho HQ HQ'. apply h_call_ret; [done|]. intros a. step_of. rewrite Hi, Ho. cbn [andb].
  destruct (Z.leb_spec 0 (an_ret a)); (eexists; split; [reflexivity|]; auto).
Qed.
Lemma h_wait pid h (Q : holding -> fin () -> E -> Prop) e : held h = [] -> pid ∈ kids h -> Q h (Go ()) e -> hwp (W:=W) (nos_wait pid) h Q e.
Proof.
  intros Hh Hk HQ. apply h_bind, h_call_ret; [done|]. intros a. step_of. rewrite !bool_decide_eq_true_2 by done. cbn [andb].
  eexists. split; [reflexivity|]. by apply h_ret.
Qed.
Lemma h_pipe h (Q : holding -> fin answer -> E -> Prop) e :
  (forall a i o, an_ret a = 0 -> fds_of a = Some (i, o) -> Q (Holding (i :: o :: held h) (kids h)) (Go a) e) ->
  (forall a, an_ret a <> 0 -> Q h (Go a) e) -> hwp (W:=W) nos_pipe h Q e.
Proof.
  intros HQ HQ'. apply h_call; [done|]. cbv zeta. intros w. pose proof (trap_pipe w) as Hp. cbv zeta in Hp. set (a := (trap _ w).1) in *.
  step_of. destruct (Z.eqb_spec (an_ret a) 0) as [E0|]; [|eauto]. specialize (Hp E0).
  assert (Ef : fds_of a = Some (int_at (an_data a) 0, int_at (an_data a) 4)) by (unfold fds_of; by replace (zlen (an_data a) =? 8) with true by lia).
  rewrite Ef. eexists. split; [reflexivity|]. by apply HQ.
Qed.
End calls.

Section commands.
Context {W : Type} `{UserKernel W} `{Texts}.
Implicit Types (h : holding) (e : shell).

Lemma h_puts s h (Q : holding -> fin () -> shell -> Prop) e : Q h (Go ()) e -> hwp (W:=W) (sh_puts s) h Q e.
Proof. intros HQ. apply h_bind, h_quiet_ret; [done|]. intros r. by apply h_ret. Qed.
Lemma h_putu v h (Q : holding -> fin () -> shell -> Prop) e : is_u32 v -> Q h (Go ()) e -> hwp (W:=W) (sh_putu v) h Q e.
Proof. intros Hv HQ. apply h_bind. eapply h_defined; [apply uitoa_decimal; [done|by compute]|]. by apply h_puts. Qed.

(** Running on with nothing open. *)
Definition idle {A} (h : holding) (o : fin A) (e : shell) : Prop := held h = [] /\ exists a, o = Go a.
Lemma idle_go {A} h (a : A) e : held h = [] -> idle h (Go a) e.
Proof. intros Hh. split; [done|]. eauto. Qed.

Ltac hgo := repeat (cbv beta iota; first
  [apply h_puts | (apply h_putu; [first [done | apply u32_range]|]) | apply h_ret | apply h_modify | (apply h_quiet_ret; [reflexivity|intros ?]) | by apply idle_go | match goal with |- hwp (mbind _ _) _ _ _ => apply h_bind end
  | match goal with |- hwp (if ?b then _ else _) _ _ _ => destruct b eqn:? end]).
Lemma uname_idle h e : held h = [] -> hwp (W:=W) cmd_uname h idle e.
Proof. intros Hh. unfold cmd_uname. hgo. Qed.

Lemma h_meminfo (Q : holding -> fin (Z * Z * Z) -> shell -> Prop) h e :
  (forall p b n, is_u32 p -> is_u32 b -> is_u32 n -> Q h (Go (p, b, n)) e) -> hwp (W:=W) (nos_meminfo 0 0 0) h Q e.
Proof.
  intros HQ. apply h_bind, h_quiet; [done|]. intros w. apply h_ret. pose proof (trap_bytes (Ucall SYS_MEMINFO [ARoom 4; ARoom 4; ARoom 4]) w).
  apply HQ; (apply stored_u32; [done|lia|by compute]).
Qed.

Lemma fetch_idle h e : held h = [] -> hwp (W:=W) cmd_fetch h idle e.
Proof.
  intros Hh. unfold cmd_fetch. apply h_bind, h_meminfo. intros p b n Hp Hb Hn. apply h_bind, h_quiet_ret; [done|]. intros r.
  assert (is_u32 (u32 r / 100)).
  { pose proof (u32_range r). split; [apply Z.div_pos; lia|apply Z.div_lt_upper_bound; lia]. }
  hgo.
Qed.
Lemma mem_idle h e : held h = [] -> hwp (W:=W) cmd_mem h idle e.
Proof. intros Hh. unfold cmd_mem. apply h_bind, h_meminfo. intros p b n Hp Hb Hn. hgo. Qed.
Lemma echo_idle s h e : held h = [] -> hwp (W:=W) (cmd_echo s) h idle e.
Proof. intros Hh. unfold cmd_echo. hgo. Qed.
Lemma mkdir_idle s h e : held h = [] -> hwp (W:=W) (cmd_mkdir s) h idle e.
Proof. intros Hh. unfold cmd_mkdir, nos_mkdir. hgo. Qed.
Lemma cd_idle s h e : held h = [] -> hwp (W:=W) (cmd_cd s) h idle e.
Proof. intros Hh. unfold cmd_cd, nos_chdir. hgo. Qed.
Lemma pwd_idle h e : held h = [] -> hwp (W:=W) cmd_pwd h idle e.
Proof. intros Hh. unfold cmd_pwd, nos_getcwd. apply h_bind, h_quiet; [done|]. intros w. hgo. Qed.
Lemma touch_idle s h e : held h = [] -> hwp (W:=W) (cmd_touch s) h idle e.
Proof.
  intros Hh. unfold cmd_touch. hgo. apply h_opens; [by right| |]; intros r Hr.
  - replace (r <? 0) with false by lia. apply h_bind. eapply h_close; [cbn [held remove1]; by rewrite Z.eqb_refl|]. intros r'. hgo.
  - replace (r <? 0) with true by lia. hgo.
Qed.
Lemma run_idle s h e : held h = [] -> hwp (W:=W) (cmd_run s) h idle e.
Proof. intros Hh. unfold cmd_run. hgo. apply h_exec; intros r Hr; hgo. Qed.

Lemma close2_idle {A} i o k (m : uM W shell A) e : (forall h, h = Holding [] k -> hwp m h idle e) ->
  hwp (W:=W) (nos_close i;; nos_close o;; m) (Holding [i; o] k) idle e.
Proof.
  intros Hm. apply h_bind. apply (h_close i [o]); [cbn [held remove1]; by rewrite Z.eqb_refl|]. intros _. cbv beta iota. apply h_bind.
  apply (h_close o []); [cbn [held remove1]; by rewrite Z.eqb_refl|]. intros _. by apply Hm.
Qed.

Lemma passes_in fd h : fd ∈ held h -> passes h fd = true.
Proof. intros Hf. unfold passes. rewrite (bool_decide_eq_true_2 (fd ∈ _)) by done. by rewrite orb_true_r. Qed.

Lemma h_puts3 a b c h (Q : holding -> fin () -> shell -> Prop) e : Q h (Go ()) e -> hwp (W:=W) (sh_puts a;; sh_puts b;; sh_puts c) h Q e.
Proof. intros HQ. do 2 (apply h_bind, h_puts; cbv beta iota). by apply h_puts. Qed.
Lemma h_not_found cmd h (Q : holding -> fin () -> shell -> Prop) e : Q h (Go ()) e -> hwp (W:=W) (pipe_not_found cmd) h Q e.
Proof. apply h_puts3. Qed.

Lemma pipeline_idle c1 c2 h e : held h = [] -> hwp (W:=W) (run_pipeline c1 c2) h idle e.
Proof.
  intros Hh. unfold run_pipeline. apply h_bind. apply h_pipe; [|intros a Ha; replace (an_ret a =? 0) with false by lia; hgo].
  intros a i o Ha Ef. rewrite Ha, Hh. cbn [negb Z.eqb]. apply h_bind. eapply h_defined; [exact Ef|]. apply h_bind.
  apply h_exec_pipe; [done|apply passes_in; set_solver| |]; intros p1 Hp1; cbn [held kids].
  - replace (p1 <? 0) with false by lia. apply h_bind. apply h_exec_pipe; [apply passes_in; set_solver|done| |]; intros p2 Hp2; cbn [held kids].
    + replace (p2 <? 0) with false by lia. apply close2_idle. intros ? ->. apply h_bind. apply h_wait; [done|cbn [kids]; set_solver|].
      apply h_wait; [done|cbn [kids]; set_solver|]. by apply idle_go.
    + replace (p2 <? 0) with true by lia. apply h_bind, h_not_found. cbv beta iota. apply close2_idle. intros ? ->. unfold nos_kill. hgo.
  - replace (p1 <? 0) with true by lia. apply h_bind, h_not_found. cbv beta iota. apply close2_idle. intros ? ->. hgo.
Qed.

(** What is held while the files of a redirection are open. *)
Definition opened (in_fd out_fd : Z) : list Z := (if 0 <=? out_fd then [out_fd] else []) ++ (if 0 <=? in_fd then [in_fd] else []).

Definition closed (fd : Z) (l : list Z) : option (list Z) := if 0 <=? fd then remove1 fd l else Some l.

Lemma h_close_if fd l h (Q : holding -> fin () -> shell -> Prop) e : closed fd (held h) = Some l ->
  Q (Holding l (kids h)) (Go ()) e -> hwp (W:=W) (close_if fd) h Q e.
Proof.
  unfold closed, close_if. intros Hc HQ. destruct (0 <=? fd).
  - apply h_bind. eapply h_close; [exact Hc|]. intros r. by apply h_ret.
  - apply h_ret. destruct h. cbn in *. by injection Hc as ->.
Qed.
Lemma close_both {A} a b h (m : uM W shell A) (Q : holding -> fin A -> shell -> Prop) e : closed a (held h) ≫= closed b = Some [] ->
  hwp m (Holding [] (kids h)) Q e -> hwp (W:=W) (close_if a;; close_if b;; m) h Q e.
Proof.
  intros Hc Hm. destruct (closed a (held h)) as [l|] eqn:Ea; [|done]. apply h_bind. apply (h_close_if _ l); [done|]. apply h_bind. by apply (h_close_if _ []).
Qed.

Lemma opened_closed i o : closed i (opened i o) ≫= closed o = Some [] /\ closed o (opened i o) ≫= closed i = Some [].
Proof.
  unfold closed, opened. destruct (Z.leb_spec 0 i), (Z.leb_spec 0 o); cbn [app remove1]; rewrite ?Z.eqb_refl; cbn; rewrite ?Z.eqb_refl; [|done..].
  split; [|done]. destruct (Z.eqb_spec o i) as [->|Hne]; cbn; by rewrite Z.eqb_refl.
Qed.

Lemma h_open_out out_name in_fd h (Q : holding -> fin (Z * bool) -> shell -> Prop) e : held h = opened in_fd (-1) ->
  (forall h' fd ok, held h' = opened in_fd fd -> (ok = true -> fd = -1 \/ 0 <= fd) -> Q h' (Go (fd, ok)) e) -> hwp (W:=W) (open_out out_name) h Q e.
Proof.
  intros Hh HQ. unfold open_out. destruct out_name as [n|]; [|apply h_ret, HQ; auto]. apply h_bind. apply h_opens; [by right| |]; intros r Hr; cbv beta iota.
  - replace (r <? 0) with false by lia. apply h_bind, h_quiet_ret; [done|]. intros r'. apply h_ret. apply HQ; [|auto]. cbn [held]. rewrite Hh. unfold opened.
    by replace (0 <=? r) with true by lia.
  - replace (r <? 0) with true by lia. apply h_ret. apply HQ; [|done]. rewrite Hh. unfold opened. by replace (0 <=? r) with false by lia.
Qed.

Lemma opened_passes i o h : held h = opened i o -> (i = -1 \/ 0 <= i) -> (o = -1 \/ 0 <= o) -> passes h i = true /\ passes h o = true.
Proof.
  intros Hh Hi Ho. unfold opened in Hh. split.
  - destruct Hi as [->|Hi]; [done|]. apply passes_in. rewrite Hh. replace (0 <=? i) with true by lia. set_solver.
  - destruct Ho as [->|Ho]; [done|]. apply passes_in. rewrite Hh. replace (0 <=? o) with true by lia. set_solver.
Qed.

Lemma redirect_run_idle cmd in_fd out_name h e : held h = opened in_fd (-1) -> in_fd = -1 \/ 0 <= in_fd ->
  hwp (W:=W) (redirect_run cmd in_fd out_name) h idle e.
Proof.
  intros Hh Hi. unfold redirect_run. apply h_bind. apply (h_open_out _ in_fd); [done|]. clear h Hh. intros h fd ok Hh Hok. cbv beta iota.
  destruct (opened_closed in_fd fd) as [Hio Hoi]. rewrite <- Hh in Hio, Hoi. destruct ok; cbn [negb].
  - destruct (opened_passes in_fd fd h Hh Hi (Hok eq_refl)) as [Pi Po]. apply h_bind. apply h_exec_pipe; [done..| |]; intros pid Hp; cbv beta iota.
    + replace (pid <? 0) with false by lia. apply h_bind, h_ret. apply close_both; [done|]. replace (0 <=? pid) with true by lia.
      apply h_wait; [done|cbn [kids]; set_solver|]. by apply idle_go.
    + replace (pid <? 0) with true by lia. apply h_bind. apply h_puts3. cbv beta iota. apply close_both; [done|].
      replace (0 <=? pid) with false by lia. hgo.
  - do 3 (apply h_bind, h_puts; cbv beta iota). destruct (closed fd (held h)) as [l|] eqn:Ec; [|done]. apply h_bind.
    apply (h_close_if _ l); [done|]. apply (h_close_if _ []); [done|]. by apply idle_go.
Qed.

Lemma redirected_idle line h e : held h = [] -> hwp (W:=W) (run_redirected line) h idle e.
Proof.
  intros Hh. unfold run_redirected. destruct (until_redirect line) as [hd rest].
  destruct (targets_defined (length rest) rest None None false) as [[[i o] d] Et]; [done|]. apply h_bind. eapply h_defined; [exact Et|].
  cbv beta iota. destruct (_ || _); [hgo|]. destruct (existsb _ _); [hgo|]. destruct i as [n|]; [|by apply redirect_run_idle; [|left]].
  apply h_bind. apply h_opens; [by left| |]; intros r Hr; cbv beta iota.
  - replace (r <? 0) with false by lia. apply redirect_run_idle; [|by right]. cbn [held]. rewrite Hh. unfold opened. by replace (0 <=? r) with true by lia.
  - replace (r <? 0) with true by lia. hgo.
Qed.

(** *** Commands that may end the shell *)

Definition leaves (s : list Z) (h : holding) (o : fin ()) (e : shell) : Prop := held h = [] /\ ends s o.
Lemma idle_leaves (m : uM W shell ()) s h e : hwp m h idle e -> hwp m h (leaves s) e.
Proof. intros Hm. eapply h_mono; [exact Hm|]. intros h' o e' [Hh (a & ->)]. by split. Qed.

Lemma kill_leaves arg s h e : held h = [] -> starts s (cstr "kill") = true -> hwp (W:=W) (cmd_kill arg) h (leaves s) e.
Proof.
  intros Hh Hs. unfold cmd_kill. destruct (bool_decide (arg = [])); [apply idle_leaves; hgo|]. pose proof (parse_pid_u32 arg 0 ltac:(by compute)).
  destruct (parse_pid arg 0 =? 0); [apply idle_leaves; hgo|]. apply h_bind, h_quiet_ret; [done|]. intros self. apply h_bind.
  destruct (_ =? u32 self).
  - apply h_bind, h_puts. apply h_exit; [done|]. split; [done|]. split; auto.
  - apply h_ret. apply idle_leaves. apply h_bind, h_quiet_ret; [done|]. intros r. hgo.
Qed.

Lemma crash_leaves s h e : held h = [] -> starts s (cstr "crash") = true -> hwp (W:=W) (cmd_crash (sh_trim (arg_of s 5))) h (leaves s) e.
Proof.
  intros Hh Hs. unfold cmd_crash.
  assert (Hf : forall name v id, (name, v) ∈ [("de"%string, 0); ("pf"%string, 14); ("gpf"%string, 13)] -> strcmp (sh_trim (arg_of s 5)) (cstr name) = 0 ->
    hwp (W:=W) (sh_puts (msg id);; ufault v) h (leaves s) e).
  { intros name v id Hi Hn. apply h_bind, h_puts. apply h_fault. split; [done|]. split; [done|]. eauto. }
  destruct (Z.eqb_spec (strcmp (sh_trim (arg_of s 5)) (cstr "de")) 0); [apply (Hf "de"%string); [set_solver|done]|].
  destruct (Z.eqb_spec (strcmp (sh_trim (arg_of s 5)) (cstr "pf")) 0); [apply (Hf "pf"%string); [set_solver|done]|].
  destruct (Z.eqb_spec (strcmp (sh_trim (arg_of s 5)) (cstr "gpf")) 0); [apply (Hf "gpf"%string); [set_solver|done]|].
  apply idle_leaves. hgo.
Qed.

#[local] Hint Resolve uname_idle fetch_idle mem_idle echo_idle mkdir_idle cd_idle pwd_idle touch_idle run_idle : shell_idle.

Lemma chop_other c s : list.last s <> Some c -> chop c s = s.
Proof. intros Hl. unfold chop. by rewrite bool_decide_eq_false_2. Qed.

Lemma command_leaves line h e : held h = [] -> line <> [] -> list.last line <> Some LF -> hwp (W:=W) (run_command line) h (leaves (until_nul line)) e.
Proof.
  intros Hh Hn Hl. unfold run_command. rewrite chop_other by done. rewrite bool_decide_eq_false_2 by done. set (s := until_nul line). cbv zeta.
  repeat match goal with |- hwp (if ?b then _ else _) _ _ _ => destruct b eqn:? end; try (by apply kill_leaves); try (by apply crash_leaves);
    try (apply h_bind, h_puts; apply h_exit; [done|]; split; [done|]; split; [done|left; lia]);
    apply idle_leaves; eauto with shell_idle; unfold cmd_ps, nos_ps, nos_readdir, nos_pci_list, nos_reboot, nos_shutdown; hgo.
  eapply h_mono; [by apply run_idle|]. intros h' o e' [Hh' (a & ->)]. hgo.
Qed.

Lemma run_and_wait_idle name arg failed h e : held h = [] -> hwp (W:=W) (run_and_wait name arg failed) h idle e.
Proof.
  intros Hh. unfold run_and_wait. apply h_bind. apply h_exec; intros pid Hp; cbv beta iota.
  - replace (pid <? 0) with false by lia. apply h_bind, h_modify. apply h_bind. apply h_wait; [done|cbn [kids]; set_solver|]. hgo.
  - replace (pid <? 0) with true by lia. hgo.
Qed.

Lemma skip_head p s c : head (skip p s) = Some c -> p c = false.
Proof. induction s as [|x s IH]; [done|]. cbn [skip]. destruct (p x) eqn:Ex; [exact IH|]. cbn. congruence. Qed.
Lemma skip_end_last p s c : list.last (skip_end p s) = Some c -> p c = false.
Proof. unfold skip_end. rewrite last_reverse. apply skip_head. Qed.

Lemma line_leaves line h e : held h = [] -> line <> [] -> list.last line <> Some LF -> hwp (W:=W) (shell_line line) h (leaves (until_nul line)) e.
Proof.
  intros Hh Hn Hl. unfold shell_line. cbv zeta. destruct (split_bar _) as [[a b]|].
  - apply idle_leaves. destruct (existsb _ _); [hgo|]. destruct (_ || _); [hgo|]. apply h_bind, h_modify. by apply pipeline_idle.
  - destruct (existsb _ _); [apply idle_leaves, h_bind, h_modify; by apply redirected_idle|].
    destruct (starts _ (cstr "cat")); [apply idle_leaves; destruct (bool_decide _); [hgo|by apply run_and_wait_idle]|].
    destruct (starts _ (cstr "edit")); [by apply idle_leaves, run_and_wait_idle|].
    destruct (starts _ (cstr "run")).
    + apply idle_leaves, h_bind. eapply h_mono; [by apply run_idle|]. intros h' o e' [Hh' (a & ->)]. hgo.
    + apply h_bind, h_modify. by apply command_leaves.
Qed.

(** *** A turn *)

Definition turn_ends (tr : list (ucall * answer)) (o : fin ()) : Prop :=
  match o with Go _ => True | _ => exists l, list.last (lines_read tr) = Some l /\ ends (command l) o end.

Definition kept (tr : list (ucall * answer)) (o : fin ()) : Prop := tidy tr /\ turns tr = 1%nat /\ turn_ends tr o.

Lemma hwp_kept (m : uM W shell ()) s pre l e : tidy pre -> turns pre = 1%nat -> list.last (lines_read pre) = Some l -> command l = s ->
  (forall h, held h = [] -> hwp m h (leaves s) e) -> uwp m (fun tr o e' => kept (pre ++ tr) o) e.
Proof.
  intros Hp Ht Hl Hs Hm w t. destruct (Hm (Holding [] []) eq_refl w t) as (tr & o & w' & e' & Em & Hn & _). exists tr, o, w', e'. split; [exact Em|].
  destruct (no_read_lines tr Hn) as [Hlr Htr]. unfold kept. rewrite turns_app, Ht, Htr. split_and!; [apply tidy_trace_app; [done|]|done|].
  - intros k. destruct (Hm (Holding [] k) eq_refl w t) as (tr' & o' & w'' & e'' & Em' & _ & h' & Eh & Hh & _). rewrite Em in Em'.
    injection Em' as _ _ Etr _. apply app_inv_head in Etr as <-. exists (kids h'). rewrite Eh. destruct h'. cbn in *. by subst.
  - destruct (Hm (Holding [] []) eq_refl w t) as (tr' & o' & w'' & e'' & Em' & _ & h' & _ & _ & He). rewrite Em in Em'. injection Em' as <- _ _ _.
    destruct o as [u|c|v]; [done|..]; (exists l; split; [by rewrite lines_read_app, Hlr, app_nil_r|by rewrite Hs]).
Qed.

Lemma read_tidy a n : tidy [(Ucall SYS_READ [AInt 0; ARoom n], a)].
Proof. intros k. exists k. cbn [holding_run]. unfold holding_step. cbn [fst snd uc_num]. eval_nums. cbn [orb]. done. Qed.

Lemma turn_kept e : uwp (W:=W) shell_turn (fun tr o e' => kept tr o) e.
Proof.
  unfold shell_turn, sh_puts, nos_write. apply uwp_bind, uwp_bind, uwp_syscall_ret. intros a0. apply uwp_ret. apply uwp_bind, uwp_syscall. cbv zeta. intros w.
  pose proof (trap_read w 0 127 ltac:(lia)) as [Hle Hlen]. cbv zeta in *. set (a := (trap _ w).1) in *. set (rd := (Ucall SYS_READ [AInt 0; ARoom 127], a)).
  cbn [app]. set (pr := (Ucall SYS_WRITE _, a0)).
  assert (Hq : tidy [pr; rd]) by (apply (tidy_trace_app [pr] [rd]); [by apply quiet_tidy, quiet_one|apply read_tidy]).
  assert (Hgo : kept [pr; rd] (Go ())) by (by split).
  destruct (Z.leb_spec (an_ret a) 0); [by apply uwp_ret|].
  destruct (_ && _).
  { apply uwp_bind, uwp_gets. destruct (0 <? _); [|by apply uwp_ret]. apply uwp_bind, uwp_syscall_ret. intros a1. apply uwp_modify. cbn [app]. split; [|by split].
    apply (tidy_trace_app [pr; rd]); [done|]. by apply quiet_tidy, quiet_one. }
  replace (128 <=? an_ret a) with false by lia. set (line := skip_end _ _). destruct (decide (line = [])) as [El|El].
  { rewrite bool_decide_eq_true_2 by done. by apply uwp_ret. }
  rewrite bool_decide_eq_false_2 by done.
  apply (hwp_kept _ (until_nul line) [pr; rd] (take (Z.to_nat (an_ret a)) (an_data a))); [done..| | |].
  - unfold lines_read. cbn [omap list_omap fst snd uc_num uc_args pr rd]. replace (0 <? an_ret a) with true by lia. done.
  - done.
  - intros h Hh. apply line_leaves; [done..|]. intros Hl. by apply skip_end_last in Hl.
Qed.

Lemma shell_loop_kept fuel : forall e, uwp (W:=W) (shell_loop fuel) (fun tr o e' => tidy tr /\ turn_ends tr o /\ (forall u, o = Go u -> turns tr = fuel)) e.
Proof.
  induction fuel as [|fuel IH]; intros e; cbn [shell_loop]. { apply uwp_ret. split; [intros k; by exists k|done]. }
  apply uwp_bind. eapply uwp_mono; [apply turn_kept|]. cbv beta. intros tr o e1 (Ht & Hn & He). destruct o as [u|c|v]; [|by split_and!..].
  eapply uwp_mono; [apply IH|]. cbv beta. intros tr' o' e2 (Ht' & He' & Hn'). split_and!; [by apply tidy_trace_app| |intros u' Ho; rewrite turns_app, Hn; by rewrite (Hn' u' Ho)].
  destruct o' as [u'|c|v]; [done|..]; (destruct He' as (l & Hl & He'); exists l; split; [by rewrite lines_read_app, last_app, Hl|done]).
Qed.

(** ** Property *)

(** C16 (shell).  Whatever is typed and whatever the kernel answers, the shell is
    defined on every path (no line overruns its buffer, every parse ends); every
    descriptor it gets from open, create or pipe is closed exactly once, and before
    it waits for a child, reads the next line or exits; a child is given only
    descriptors that are open, the shell waits only for processes it has started,
    and only exit, kill and crash end it. *)
Theorem shell_closes_what_it_opens (fuel : nat) (e : shell) :
  uwp (W:=W) (shell_start fuel) (fun tr o e' =>
    (exists k, holding_run (Holding [] []) tr = Some (Holding [] k)) /\
    match o with
    | Go _ => turns tr = fuel
    | _ => exists l, list.last (lines_read tr) = Some l /\ ends (command l) o
    end) e.
Proof.
  unfold shell_start, sh_puts, nos_write. apply uwp_bind, uwp_bind, uwp_syscall_ret. intros a0. apply uwp_ret. eapply uwp_mono; [apply shell_loop_kept|].
  cbv beta. intros tr o e' (Ht & He & Hn). set (pr := (Ucall SYS_WRITE _, a0)). cbn [app]. split.
  - apply (tidy_trace_app [pr] tr); [by apply quiet_tidy, quiet_one|done].
  - destruct o as [u|c|v]; [exact (Hn u eq_refl)|exact He..].
Qed.
End commands.

(** ** [cat] copies *)

Definition bytes_read (tr : list (ucall * answer)) : list Z :=
  concat (omap (fun ca => if (uc_num ca.1 =? SYS_READ) && (0 <? an_ret ca.2) then Some (an_data ca.2) else None) tr).
Definition bytes_written (tr : list (ucall * answer)) : list Z :=
  concat (omap (fun ca => match uc_args ca.1 with [AInt fd; ABytes b] => if (uc_num ca.1 =? SYS_WRITE) && (fd =? 1) then Some b else None | _ => None end) tr).
Lemma bytes_read_app tr tr' : bytes_read (tr ++ tr') = bytes_read tr ++ bytes_read tr'.
Proof. unfold bytes_read. by rewrite omap_app, concat_app. Qed.
Lemma bytes_written_app tr tr' : bytes_written (tr ++ tr') = bytes_written tr ++ bytes_written tr'.
Proof. unfold bytes_written. by rewrite omap_app, concat_app. Qed.

Section cat_copies.
Context {W : Type} `{UserKernel W} `{Texts}.

Definition copies (fuel : nat) (tr : list (ucall * answer)) (o : fin bool) : Prop :=
  bytes_written tr = bytes_read tr /\ exists b, o = Go b /\ (b = false -> turns tr = fuel).
Lemma cat_loop_copies fuel : forall fd e, uwp (W:=W) (cat_loop fuel fd) (fun tr o e' => copies fuel tr o) e.
Proof.
  induction fuel as [|fuel IH]; intros fd e; cbn [cat_loop]. { apply uwp_ret. split; [done|]. eauto. }
  apply uwp_bind, uwp_syscall. cbv zeta. intros w. pose proof (trap_read w fd 64 ltac:(lia)) as [_ Hd]. cbv zeta in Hd. set (a := (trap _ w).1) in *.
  set (rd := (Ucall SYS_READ _, a)). destruct (Z.leb_spec (an_ret a) 0) as [Hr|Hr].
  { apply uwp_ret. cbn [app]. split; [|by exists true]. unfold bytes_read. cbn [omap list_omap fst snd rd]. replace (0 <? an_ret a) with false by lia. by rewrite andb_false_r. }
  rewrite take_ge by (unfold zlen in Hd; lia). apply uwp_bind, uwp_syscall_ret. intros a1. eapply uwp_mono; [apply IH|]. cbv beta.
  intros tr o e' [Hc (b & -> & Hb)]. set (wr := (Ucall SYS_WRITE _, a1)). cbn [app]. change (rd :: wr :: tr) with ([rd; wr] ++ tr).
  assert (Er : bytes_read [rd; wr] = an_data a) by (unfold bytes_read; cbn [omap list_omap fst snd rd wr uc_num]; replace (0 <? an_ret a) with true by lia; cbn; by rewrite app_nil_r).
  assert (Ew : bytes_written [rd; wr] = an_data a) by (unfold bytes_written; cbn; by rewrite app_nil_r).
  split; [by rewrite bytes_read_app, bytes_written_app, Er, Ew, Hc|]. exists b. split; [done|]. intros ->. rewrite turns_app. cbn. by rewrite Hb.
Qed.

Lemma cat_open_opens e : uwp (W:=W) cat_open (fun tr o e' => bytes_read tr = [] /\ turns tr = O /\
  match o with Go fd => bytes_written tr = [] /\ 0 <= fd | Exited c => c = 1 | Faulted _ => False end) e.
Proof.
  unfold cat_open, cat_puts. apply uwp_bind, uwp_syscall. cbv zeta. intros w. destruct (_ && _); [|by apply uwp_ret]. apply uwp_bind, uwp_syscall_ret. intros a1.
  destruct (Z.ltb_spec (an_ret a1) 0).
  - do 3 (apply uwp_bind, uwp_bind, uwp_syscall_ret; intros ?; apply uwp_ret). apply uwp_exit. intros ?. done.
  - apply uwp_ret. done.
Qed.

(** Reaching the end of its input within [fuel] reads, [cat] has written exactly
    what it has read and exits with 0; a file that cannot be opened makes it exit
    with 1 before any read. *)
Theorem cat_copies (fuel : nat) e :
  uwp (W:=W) (cat_start fuel) (fun tr o e' =>
    match o with
    | Go _ => turns tr = fuel /\ bytes_written tr = bytes_read tr
    | Exited c => c = 0 /\ bytes_written tr = bytes_read tr \/ c = 1 /\ turns tr = O
    | Faulted _ => False
    end) e.
Proof.
  unfold cat_start. apply uwp_bind. eapply uwp_mono; [apply cat_open_opens|]. cbv beta. intros tr0 o0 e0 (Hr & Ht & Ho). destruct o0 as [fd|c|v]; [|by right|done].
  destruct Ho as [Hw _]. apply uwp_bind. eapply uwp_mono; [apply cat_loop_copies|]. cbv beta. intros tr o e1 [Hc (b & -> & Hb)]. destruct b.
  - assert (Hall : forall tr', bytes_written tr' = [] -> bytes_read tr' = [] -> bytes_written (tr0 ++ tr ++ tr') = bytes_read (tr0 ++ tr ++ tr')).
    { intros tr' E1 E2. by rewrite !bytes_written_app, !bytes_read_app, Hw, Hr, E1, E2, Hc. }
    apply uwp_bind. destruct (negb _).
    + apply uwp_bind, uwp_syscall_ret. intros a1. apply uwp_ret. apply uwp_exit. intros a2. left. split; [done|]. by apply Hall.
    + apply uwp_ret. apply uwp_exit. intros a2. left. split; [done|]. by apply Hall.
  - apply uwp_ret. rewrite app_nil_r, turns_app, Ht, (Hb eq_refl). split; [done|]. by rewrite bytes_written_app, bytes_read_app, Hw, Hr, Hc.
Qed.
End cat_copies.

(** ** Examples *)

Definition closes (tr : list (ucall * answer)) : list Z :=
  omap (fun ca => match uc_args ca.1 with [AInt fd] => if uc_num ca.1 =? SYS_CLOSE then Some fd else None | _ => None end) tr.

(** "a | b" is typed; the pipe has the descriptors 3 and 4, the programs the pids 7
    and 8. *)
Definition pipeline_script : list (Z * list Z) := [(6, cstr "a | b" ++ [LF]); (0, [3; 0; 0; 0; 4; 0; 0; 0]); (7, []); (8, []); (0, []); (0, []); (0, []); (0, [])].

Lemma shell_closes_what_it_opens_witness :
  exists tr o w' e', shell_start 1 (Usys pipeline_script [] (Shell 0)) = Some (o, Usys w' tr e') /\ closes tr = [3; 4] /\
    exists k, holding_run (Holding [] []) tr = Some (Holding [] k).
Proof.
  destruct (shell_closes_what_it_opens (W:=list (Z * list Z)) 1 (Shell 0) pipeline_script []) as (tr & o & w' & e' & Em & Hk & _).
  exists tr, o, w', e'. split; [exact Em|]. split; [|exact Hk]. cbn [app] in Em.
  assert (Hw : went (shell_start 1) (Usys pipeline_script [] (Shell 0)) (fun s => bool_decide (closes (u_trace s) = [3; 4])) = true) by (vm_compute; reflexivity).
  pose proof (went_true _ _ _ _ _ Hw Em) as Hp. by apply bool_decide_eq_true in Hp.
Defined.

(** *** A number that is too large *)

Definition kills (tr : list (ucall * answer)) : list Z :=
  omap (fun ca => match uc_args ca.1 with [AInt pid] => if uc_num ca.1 =? SYS_KILL then Some pid else None | _ => None end) tr.

(** The pid is read modulo 2^32, and what follows the digits is ignored: this
    command kills process 2. *)
Theorem kill_number_wraps :
  went (cmd_kill (cstr "4294967298th")) (Usys [(5, []); (0, [])] [] (Shell 0)) (fun s => bool_decide (kills (u_trace s) = [2])) = true.
Proof. vm_compute. reflexivity. Qed.
